(* ===== verification/_CoqProject ===== *)
-Q . S2P
Prelude.v
GoFloat.v
Json.v
Regexp.v
Sanitize.v
Path.v
Encoding.v
PluginVerify.v
PluginInstall.v
PluginExecute.v
Seccomp.v
JobDedup.v
HttpClient.v
Backend.v
BackendClient.v
KeyFetcher.v
ExecutorV2.v
ExecuteJob.v
WorkerPool.v
Dispatch.v
Realtime.v
Merge.v
MergeTree.v
Recovery.v
Storage.v
ObjectStore.v
Handler.v
ChunkHandler.v
MergeHandler.v
Pipeline.v
Compound.v
Csv.v
Metadata.v
ScanHandler.v
Runtimes.v
EnvPool.v
RuntimeManager.v
Auth.v
Update.v
Bootstrap.v
Sandbox.v
SandboxMac.v
SandboxWindows.v
PluginRun.v
Observe.v
ChooseMode.v
DependencySync.v
JobSandbox.v
Sysinfo.v
SandboxInit.v
Settings.v
MergeLock.v
Lifecycle.v
PluginSync.v
Main.v
