(* ===== verification/Prelude.v ===== *)
(** * The SentraZero agent: a verification development

    SentraZero is a Go agent that runs on a user's device.  It receives jobs from
    a control plane (pushed or polled), executes them (scans of datasets, native
    processing of chunks, merges of chunk files, inline plugin code in a sandbox)
    and reports their results.  This development models the parts of the Go code
    under [src/internal] and [src/cmd] that decide something, and proves that
    they do what they are for, or, where they do not, what they do instead.

    ** The parts, and the files that model them

    Jobs are polled by [internal/realtime]; leases, starts and completions go
    through [internal/backend] over [internal/httpclient].  A job is handed to the
    dispatcher ([internal/dispatcher]): [SubmitJobWithMeta] validates it, checks the
    deduplication store, claims its job id and execution step and puts it in a
    bounded queue.  A worker takes it, verifies its lease, records its start,
    runs [ExecuteJob], which routes the payload to a native handler or to the
    plugin executor ([cmd/agent/executor/v2], which runs code in the environments
    of [cmd/agent/runtime/v2]), and settles it with the backend.
    The native handlers process a chunk with a plugin, or merge the chunks of a
    data set; they read and write a storage backend ([internal/storage]).
    Merge jobs concatenate chunk files with checkpoints ([internal/dataset]).
    Plugins are installed, verified and run by [internal/plugin]; their processes
    run under a seccomp filter ([internal/sandbox]).

    - [Prelude] (this file): notations, Go's integer widths, strings, sorting,
      results, tactics; [GoFloat]: [float64]; [Json]: the decoding of payloads;
      [Path]: [path/filepath]; [Encoding]: base64, hexadecimal and other texts;
      [Regexp]: the regular expressions of [regexp] that the agent uses, with the
      language they stand for.
    - [Sanitize] models [internal/sanitize] (the masking of error texts) and
      [internal/models/failure.go].
    - [PluginVerify], [PluginInstall] and [PluginExecute] model
      [internal/plugin]: keys, signatures and checksums; downloads, installation,
      synchronization and updates; the choice of a runner.  [PluginSync] models
      the requests of [db_sync.go] and the configuration it reads for itself.
    - [JobDedup] models [internal/dispatcher/job_dedup.go]: the store record, its
      file, its one-slot snapshot channel, and every method.
    - [HttpClient] models [internal/httpclient/client.go]: requests with their
      headers, and the retry loop.
    - [Backend] models [internal/backend/execution_client.go]: how each answer of
      the control plane is read, and the batching of relay events.
      [BackendClient] models [client.go] and the requests of both clients: a
      [call] is what is sent and what is made of the outcome, [run_call] sends it.
    - [KeyFetcher] models [internal/plugin/key_fetcher.go].
    - [Auth] models [internal/auth]: token stores behind an interface
      ([StoreLaws], with instances for the keyring, the files and their
      combination), the identity file, and the registration of [main.go].
    - [Lifecycle] models [internal/config], [internal/startup],
      [internal/heartbeat] and the decisions and the drain of [main.go].
    - [Main] models the start in [main.go]: a phase for each part of it, composed
      of the operations of the other files.
    - [ExecutorV2] models [cmd/agent/executor/v2/executor.go].
    - [ExecuteJob] models [internal/dispatcher/execute.go]: validation, routing.
    - [WorkerPool] models [internal/dispatcher/worker_pool.go] and
      [internal/reporter/reporter.go].  [SubmitJobWithMeta] and [executeJobSafe]
      are cut into phases at their critical sections: one definition per atomic
      section, in the order of the code ([submit_phase], [exec_phase]).  The
      phases of one call in a row are the sequential functions.
    - [Dispatch] runs the same phases of many goroutines in any order: a state is
      the shared pool and the program counter of every submitter and worker, and
      [act] is one atomic step.
    - [Realtime] models [internal/realtime/supabase_realtime.go], the polling
      client that feeds [SubmitJobWithMeta], and [reconcile.go]; [Settings] its
      intervals from the environment, and the platform of the environments.
    - [Merge] and [MergeTree] model [internal/dataset/merge.go]; [Recovery] models
      [recovery.go] and [artifacts.go]; [MergeLock] models [lock.go] against a
      backend interface, with the in-memory backend and several agents that
      interleave on it ([lstep]: one atomic section of one agent).
    - [Storage] models [internal/storage]: the mounted store, the HTTP store, the
      configuration service.  [ObjectStore] is what a store promises to a client,
      as type classes ([ObjectStore], [RemoteStore]) with instances for the
      mounted store, for the HTTP store in front of a server that keeps its
      contract, and for a store in memory.
    - [Handler] holds what the native handlers share
      ([internal/dispatcher/handlers_unix.go], [job.go], [plugin_lookup.go]): a
      handler is a computation in the monad [M] on a [world] of disk, stores,
      plugins and reports.  [ChunkHandler] models [executeProcessChunk] and its
      byte range and file list variants, [Compound] the compound jobs and
      [MergeHandler] [executeMergeDataset].  [Pipeline] composes the first and
      the last against the interface of [ObjectStore].
    - [Csv] is the reader of [encoding/csv], with the grammar of the tables it
      reads; [Metadata] models the built-in scan and the metadata it extracts
      from a file, and [ScanHandler] the handlers of scan and ingest jobs.
    - [Runtimes] models [cmd/agent/runtime/v2/python.go] and [node.go] as
      computations on a runtime object and the disk.  [EnvPool] models the pool of
      environments of [manager.go], whose operations are cut at its critical
      sections, and [RuntimeManager] the executions in it, alone
      ([ExecuteWithMetrics]) and interleaved ([system_step]).
    - [Seccomp] models [internal/sandbox/seccomp_linux.go], with a BPF machine to
      run the filter the code assembles.  [Sandbox] models the rest of
      [internal/sandbox] for Linux: the configuration, the sandboxes behind the
      laws of [Sandboxed], the command as it is started and the re-execution of
      the agent.  [SandboxMac] models the profile of [sandboxer_darwin.go], with
      an instance of these laws, and [SandboxWindows] the job objects of
      [sandboxer_windows.go] as traces of calls.  [PluginRun] models
      [internal/plugin/sandbox.go] on any sandbox with these laws, and
      [DependencySync] the rest of [internal/plugin/init.go].
    - [JobSandbox] models [cmd/agent/sandbox/sandbox.go], the directory and the
      environment of a v2 execution; [SandboxInit] models [cmd/sandbox-init], as
      traces of calls.
    - [Bootstrap] models [internal/bootstrap/bootstrap.go] and the address of
      Redis in [main.go]; [Update] models [internal/update/agent.go].
    - [Observe] models [internal/obs] and the answers of [internal/healthcheck];
      [Sysinfo] models [internal/sysinfo]; [ChooseMode] models
      [internal/dispatcher/choose_mode.go].

    ** What is shown

    - Concurrency ([Dispatch]): mutual exclusion of jobs and execution steps in
      every reachable state, no leaked claim, and the limits of the dedup store
      (it stops a resubmission, but not two submissions that overlap).
    - Functional behaviour ([WorkerPool], [ExecuteJob], [ExecutorV2], [Backend],
      [HttpClient]): the result and effects of each operation on every branch,
      as an abstract specification ([verdict_of] and [ledger] for an execution,
      [submit_verdict] for a submission, [route_ok] for routing) that the
      detailed definitions refine.
    - Delivery ([Realtime]): which jobs of a poll reach the dispatcher, how far
      apart two submissions of one job are, and when the adaptive loop claims.
    - Data ([Merge], [MergeTree], [Recovery], [JobDedup]): without faults
      ([faultless]) the output of a merge is the concatenation of its chunks in
      index order, and the merge returns when the clock has advanced ([timed]) and
      panics otherwise; with such a clock a merge in stages gives the same output.
      A merge that was interrupted is resumed at a position, to the same output
      when positions and indices agree, and with chunks lost when they do not.
      Recovery states and artifacts are read back as written, a dedup store
      survives a restart, and cleanup removes what it should.
    - Merge locks ([MergeLock]): two agents never hold a lease of one data set at
      once.  This is shown of the in-memory backend from its operations, by an
      invariant over all interleavings; the ghost [renewed] records when a lease
      was granted or renewed last, and the clock advances with every step, since
      the identifier of a lock is made of the time.  A backend of its own has only
      to keep the contract [LockContract] for what is shown of a single manager.
    - Jobs from end to end ([Pipeline], [Compound], [MergeHandler], [Storage]):
      byte ranges that are processed in any order and merged give what the plugin
      computes on the whole source, the steps of a compound job are composed, a
      merge in a store writes the results in payload order and keeps the other
      objects, and a listing is read as the server wrote it.
    - Scans and ingestions ([Csv], [Metadata], [ScanHandler]): a table of the
      grammar is read back record by record; every member of a summary has the
      type of its name; what a scan of a source reports of all its objects, for
      any store, and of a first object that is a table; where staged objects
      go.  The estimate of the number of rows is the number of sampled rows.
    - The control plane ([BackendClient], [KeyFetcher]): for every call of the two
      clients, which answers give which value, what reaches it of a failing
      server; which keys are cached.
    - Privacy ([Sanitize]): what is left of addresses and paths in a text.
    - Life cycle ([Auth], [Lifecycle]): tokens and registrations are remembered;
      a start in an outage and a keyring that can only be read forget or confuse
      them; the number of workers; the three ways in which the drain ends, with
      any delay between its steps.
    - Environments ([Runtimes], [RuntimeManager]): what a run writes, starts and
      returns; no environment object is held by two executions however they
      interleave; two objects can share one directory all the same, and the bytes
      that the pool counts only grow.
    - Plugins in their sandbox ([Sandbox], [PluginRun]): what is started, with
      which input, limits and namespaces, with how much of its time after its
      dependencies were installed, and under which of the hardenings on which
      platform; what a run returns and what it leaves on the disk; the bounds of a
      control group for any limit that is asked for and any fault of its files;
      without user namespaces nothing of the confinement holds.
      [SandboxMac]: what a plugin may do under the profile; [SandboxWindows]: no
      plugin runs outside of its job.  [DependencySync]: [pip] runs at the start
      only for verified manifests, later for any.
    - The start ([Main]): it either succeeds with everything verified, or ends
      without a worker.
    - The program itself ([Update], [Bootstrap], [Observe], [Sysinfo]): versions
      are compared lexicographically, the program is replaced by a complete and
      verified download or left alone, a cached address of Redis is never given
      up, secrets that the log masks cannot be told apart, and the units of the
      graphics memory do not agree with the check of plugins.
    - Security ([Seccomp], [ExecuteJob], [PluginVerify], [PluginInstall]): the
      filter implements the allowlist, the target is never executed without the
      hardening, untrusted inline code never succeeds, a plugin is loaded exactly
      when manifest, checksum and signature are in order, and what an
      installation reports as installed is loaded exactly when it is trusted and
      has a checksum.
    - Behaviour that departs from what the code or its documentation means to do
      is proved as such (doomed merge jobs, leaked heartbeats, resizing that
      overshoots, retries that never happen, torn writes and gzip tails in a
      merge, a [Stop] that blocks, failed steps and lost results on a shared
      mount, updates that remove a working plugin, ignored settings).

    ** Conventions

    Go's [int] and [int64] are [Z], with [int64], [int32] and [uint8] wrapping
    where the code computes; strings are byte strings; a nil error is [None].
    Maps are [gmap] and [gset]; where the code ranges over a map or calls
    [sort.Slice], the order is a parameter.  Time, randomness, system calls,
    hashing, compression and the answers of the network are arguments: oracles
    over the history of events, or records of faults.  Logging is left out.

    ** Fuel and bounds

    [executeJobSafe] runs at most twelve phases ([exec_fuel]) and
    [SubmitJobWithMeta] at most nine ([submit_fuel]); the theorems that describe
    them state that they return, so the fuel is enough.  Loops over texts
    ([parse_listing], [glob]) have the length of the text as fuel, and each turn
    consumes a byte; the reader of tables has the number of lines, and a scan
    reads a hundred rows, as the code does.  The drain polls every two seconds
    at least; [drain_fuel] is a turn for each of them in the grace period and two
    more, and the theorem on the drain states that it ends, whatever the delays of
    its turns.  All other recursion is structural (over chunks, steps, retries,
    attempts, schedules).

    ** What is not modelled

    The decoders of spreadsheets, Parquet, PDF, archives, pictures and
    executables ([libraries], parameters), the MinIO client of [config.go], which
    nothing constructs, the Windows copies of handlers, the Redis client but for
    its marks of processed jobs (its calls pass on to the library), the package
    of limits in [internal/sandbox/limits*.go], which nothing calls, the probes of
    the system package, the background tickers of [main.go], the command-line
    client and the test programs.  Parents
    that [MkdirAll] creates above the output directory of a merge are not
    tracked, and checkpoint files are kept as the values they decode to. *)
From stdpp Require Export base tactics option list sorting gmap strings.
From stdpp Require Import pretty.
From Stdlib Require Export ZArith Lia.
From Stdlib Require Import Ascii.

#[export] Set Default Goal Selector "!".
#[export] Unset Program Cases.

Open Scope string_scope.
Open Scope list_scope.
Open Scope Z_scope.

(** ** Notations *)

Declare Scope sentra_scope.
Delimit Scope sentra_scope with sentra.
Open Scope sentra_scope.

(** A Go [error] value: [nil] is [None], and any other error is the text that
    its [Error()] method returns. *)
Abbreviation error := (option string).
Abbreviation nil_error := (@None string).

(** A Go string literal compared with [==]. *)
Notation "s '=?s' t" := (String.eqb s t) (at level 70, no associativity) : sentra_scope.
Notation "s '+:+' t" := (String.append s t) (at level 60, right associativity) : sentra_scope.

(** ** Machine integers *)

(** [uint8(x)], [uint16(x)], [uint32(x)]: Go's conversions truncate. *)
Definition uint8 (x : Z) : Z := x mod 2 ^ 8.
Definition uint16 (x : Z) : Z := x mod 2 ^ 16.
Definition uint32 (x : Z) : Z := x mod 2 ^ 32.

(** The two's complement wrap of a 64-bit [int] or [int64] result. *)
Definition int64 (x : Z) : Z := (x + 2 ^ 63) mod 2 ^ 64 - 2 ^ 63.
Definition int32 (x : Z) : Z := (x + 2 ^ 31) mod 2 ^ 32 - 2 ^ 31.

Lemma uint8_small x : 0 <= x < 256 -> uint8 x = x.
Proof. intros; unfold uint8; apply Z.mod_small; lia. Qed.

Lemma uint8_range x : 0 <= uint8 x < 256.
Proof. unfold uint8. apply Z.mod_pos_bound; lia. Qed.

Lemma int64_small x : - 2 ^ 63 <= x < 2 ^ 63 -> int64 x = x.
Proof. intros; unfold int64; rewrite Z.mod_small; lia. Qed.

Lemma int64_range x : - 2 ^ 63 <= int64 x < 2 ^ 63.
Proof.
  unfold int64. assert (0 <= (x + 2 ^ 63) mod 2 ^ 64 < 2 ^ 64)
    by (apply Z.mod_pos_bound; lia). lia.
Qed.

(** Sums may wrap at any step. *)
Lemma int64_add x y : int64 (int64 x + y) = int64 (x + y).
Proof.
  unfold int64. f_equal. replace ((x + 2 ^ 63) mod 2 ^ 64 - 2 ^ 63 + y + 2 ^ 63) with ((x + 2 ^ 63) mod 2 ^ 64 + y) by lia.
  rewrite Zplus_mod_idemp_l. f_equal. lia.
Qed.

(** ** Durations: Go's [time.Duration] counts nanoseconds. *)

Definition Millisecond : Z := 1000000.
Definition Second : Z := 1000 * Millisecond.
Definition Minute : Z := 60 * Second.

(** ** Strings, as package [strings] treats them *)

(** [strings.Contains(s, substr)]. *)
Fixpoint strings_Contains (s substr : string) : bool :=
  if String.prefix substr s then true
  else match s with
       | EmptyString => false
       | String _ s' => strings_Contains s' substr
       end.

(** [%d] of [fmt.Sprintf]. *)
Definition itoa (n : Z) : string := pretty n.

(** Every character of a text satisfies [f]. *)
Fixpoint all_chars (f : Ascii.ascii -> bool) (s : string) : bool :=
  match s with EmptyString => true | String c s => f c && all_chars f s end.

Lemma all_chars_app f s t : all_chars f (s +:+ t) = all_chars f s && all_chars f t.
Proof. induction s as [|c s IH]; [done|]. simpl. by rewrite IH, andb_assoc. Qed.

(** Numbers are digits, with a sign perhaps. *)
Lemma itoa_chars f n : f "-"%char = true -> forallb f ["0"; "1"; "2"; "3"; "4"; "5"; "6"; "7"; "8"; "9"]%char = true ->
  all_chars f (itoa n) = true.
Proof.
  intros Hm Hdig. assert (Hd : forall k, f (pretty_N_char k) = true).
  { intros k. simpl in Hdig. repeat (apply andb_prop in Hdig as [? Hdig]). unfold pretty_N_char. by repeat case_match. }
  assert (Hgo : forall k s, all_chars f s = true -> all_chars f (pretty_N_go k s) = true).
  { intros k. induction (N.lt_wf_0 k) as [k _ IH]. intros s Hs.
    destruct (decide (k = 0)%N) as [->|Hk]; [by rewrite pretty_N_go_0|].
    rewrite pretty_N_go_step by lia. apply IH; [apply N.div_lt; lia|]. cbn [all_chars]. by rewrite Hd. }
  assert (HN : forall k : N, all_chars f (pretty k) = true).
  { intros k. unfold pretty, pretty_N. case_decide; [|by apply Hgo]. pose proof (Hd 0%N) as H0. cbn in H0 |- *. by rewrite H0. }
  unfold itoa. destruct n as [|q|q]; [exact (HN 0%N)|exact (HN (Npos q))|].
  change (all_chars f ("-" +:+ pretty (Npos q)) = true). rewrite all_chars_app, HN. cbn. by rewrite Hm.
Qed.

(** [strings.ToLower] on one byte; only ASCII letters are folded. *)
Definition ascii_lower (c : Ascii.ascii) : Ascii.ascii :=
  let n := Ascii.nat_of_ascii c in
  if ((Nat.leb 65 n) && (Nat.leb n 90))%bool then Ascii.ascii_of_nat (n + 32) else c.

Fixpoint strings_ToLower (s : string) : string :=
  match s with
  | EmptyString => EmptyString
  | String c s' => String (ascii_lower c) (strings_ToLower s')
  end.

Lemma eqb_spec_s (s t : string) : reflect (s = t) (s =?s t).
Proof. apply String.eqb_spec. Qed.

Lemma eqb_refl_s (s : string) : (s =?s s) = true.
Proof. apply String.eqb_refl. Qed.

Lemma eqb_neq_s (s t : string) : s <> t -> (s =?s t) = false.
Proof. apply String.eqb_neq. Qed.

(** ** Lists *)

Section lists.
  Context {A B : Type}.

Lemma existsb_elem_of (f : A -> bool) (l : list A) :
    existsb f l = true <-> exists x, x ∈ l /\ f x = true.
  Proof.
    rewrite existsb_exists. split; intros (x & Hin & Hf); exists x; split; try done;
      by apply list_elem_of_In.
  Qed.

Lemma lookup_app_plus (l k : list A) i : (l ++ k) !! (length l + i)%nat = k !! i.
  Proof. rewrite lookup_app_r by lia. f_equal; lia. Qed.

Lemma NoDup_app_cons_inv (l : list A) x k :
    NoDup (l ++ x :: k) <-> (x ∉ (l ++ k)) /\ NoDup (l ++ k).
  Proof.
    rewrite <- Permutation_middle, NoDup_cons. done.
  Qed.
End lists.

(** ** Tactics *)

(** Split every Boolean comparison of integers or strings in the context. *)
Ltac bool_cases :=
  repeat match goal with
  | H : context [?x =?s ?y] |- _ => destruct (eqb_spec_s x y); simplify_eq/=
  | |- context [?x =?s ?y] => destruct (eqb_spec_s x y); simplify_eq/=
  | H : context [Z.eqb ?x ?y] |- _ => destruct (Z.eqb_spec x y); simplify_eq/=
  | |- context [Z.eqb ?x ?y] => destruct (Z.eqb_spec x y); simplify_eq/=
  | H : context [Z.ltb ?x ?y] |- _ => destruct (Z.ltb_spec x y); simplify_eq/=
  | |- context [Z.ltb ?x ?y] => destruct (Z.ltb_spec x y); simplify_eq/=
  | H : context [Z.leb ?x ?y] |- _ => destruct (Z.leb_spec x y); simplify_eq/=
  | |- context [Z.leb ?x ?y] => destruct (Z.leb_spec x y); simplify_eq/=
  end.

(** Split the conjunctions of Boolean tests in the context. *)
Ltac split_bools :=
  repeat match goal with
  | H : (_ && _)%bool = true |- _ => apply andb_prop in H as [? ?]
  | H : (_ || _)%bool = false |- _ => apply orb_false_elim in H as [? ?]
  | H : negb _ = true |- _ => apply negb_true_iff in H
  | H : negb _ = false |- _ => apply negb_false_iff in H
  | H : bool_decide _ = true |- _ => apply bool_decide_eq_true_1 in H
  | H : bool_decide _ = false |- _ => apply bool_decide_eq_false_1 in H
  end.

(** Split an innermost [match] or [if] of the goal. *)
Ltac case_inner :=
  match goal with
  | |- context [match ?x with _ => _ end] =>
      lazymatch x with
      | context [match _ with _ => _ end] => fail
      | _ => destruct x
      end
  end.

(** ** Hints *)

Create HintDb sentra discriminated.
#[export] Hint Resolve uint8_range int64_range : sentra.

(** ** [sort.Slice]

    Go's [sort.Slice] is not stable: it returns some permutation of its input
    that is sorted by the given strict comparison.  Code that sorts is
    parameterized by such a sorter. *)
Class SliceSort {A} (less : A -> A -> bool) (sortSlice : list A -> list A) := {
  sortSlice_perm l : sortSlice l ≡ₚ l;
  sortSlice_sorted l : StronglySorted (fun x y => less y x = false) (sortSlice l);
}.

(** A concrete sorter for a comparison by an integer key. *)
Definition key_le {A} (key : A -> Z) (x y : A) : Prop := key x <= key y.

#[export] Instance key_le_dec {A} (key : A -> Z) : RelDecision (key_le key).
Proof. intros x y. unfold key_le. apply _. Defined.

Definition sort_by {A} (key : A -> Z) : list A -> list A := merge_sort (key_le key).

#[export] Instance sort_by_slice_sort {A} (key : A -> Z) :
  SliceSort (fun x y => key x <? key y) (sort_by key).
Proof.
  split; intros l.
  - apply merge_sort_Permutation.
  - assert (Htotal : Total (key_le key)) by (intros x y; unfold key_le; lia).
    assert (Htrans : Transitive (key_le key)) by (intros x y z; unfold key_le; lia).
    pose proof (StronglySorted_merge_sort (key_le key) l) as Hs.
    unfold sort_by. induction Hs as [|x l' _ IH Hall]; constructor; [done|].
    eapply Forall_impl; [exact Hall|]. unfold key_le. intros y Hy. simpl in *. lia.
Qed.

(** ** [fmt.Sscanf(s, "%d", &x)]

    Blanks are skipped, one sign is accepted, and the longest run of decimal
    digits is read; no digit, a newline, or a value outside [int64] is an
    error. *)
Definition is_blank (c : Ascii.ascii) : bool :=
  let n := Ascii.nat_of_ascii c in
  ((n =? 32) || (n =? 9) || (n =? 11) || (n =? 12) || (n =? 13))%nat.

Definition digit_of (c : Ascii.ascii) : option Z :=
  let n := Ascii.nat_of_ascii c in
  if ((Nat.leb 48 n) && (Nat.leb n 57))%bool then Some (Z.of_nat n - 48) else None.

Fixpoint skip_blanks (s : string) : string :=
  match s with
  | String c s' => if is_blank c then skip_blanks s' else s
  | EmptyString => s
  end.

Fixpoint read_digits (s : string) (acc : Z) : Z :=
  match s with
  | String c s' =>
      match digit_of c with Some d => read_digits s' (10 * acc + d) | None => acc end
  | EmptyString => acc
  end.

Definition read_nat (s : string) : option Z :=
  match s with
  | String c s' => match digit_of c with Some d => Some (read_digits s' d) | None => None end
  | EmptyString => None
  end.

Definition Sscanf_d (s : string) : option Z :=
  let s := skip_blanks s in
  let r :=
    match s with
    | String "-"%char s' => option_map Z.opp (read_nat s')
    | String "+"%char s' => read_nat s'
    | _ => read_nat s
    end in
  match r with
  | Some z => if (- 2 ^ 63 <=? z) && (z <? 2 ^ 63) then Some z else None
  | None => None
  end.

Example Sscanf_d_ex :
  (Sscanf_d "12", Sscanf_d " -3x", Sscanf_d "v1", Sscanf_d "99999999999999999999") =
  (Some 12, Some (-3), None, None).
Proof. reflexivity. Qed.

(** ** Results

    The [(value, error)] pair of a Go function that sets exactly one of the
    two. *)
Inductive result (A : Type) := Ok (a : A) | Err (e : string).
Arguments Ok {A} _.
Arguments Err {A} _.

Definition is_ok {A} (r : result A) : bool := match r with Ok _ => true | Err _ => false end.
