(* ===== verification/GoFloat.v ===== *)
(** * GoFloat: Go's [float64]

    IEEE binary64 arithmetic, by the Standard Library's specification floats
    (round to nearest, ties to even), and Go's conversions between [float64]
    and integers. *)
From S2P Require Import Prelude.
From Stdlib Require Import SpecFloat.

Abbreviation float64 := spec_float.

(** [float64(z)], rounded to nearest even. *)
Definition f64_of_Z (z : Z) : float64 := binary_normalize 53 1024 z 0 false.

(** The [float64] nearest to [n/d]: the value of a decimal literal. *)
Definition f64_ratio (n d : Z) : float64 := SFdiv 53 1024 (f64_of_Z n) (f64_of_Z d).

Definition f64_mul : float64 -> float64 -> float64 := SFmul 53 1024.
Definition f64_div : float64 -> float64 -> float64 := SFdiv 53 1024.
Definition f64_add : float64 -> float64 -> float64 := SFadd 53 1024.
Definition f64_sub : float64 -> float64 -> float64 := SFsub 53 1024.
Definition f64_lt : float64 -> float64 -> bool := SFltb.
Definition f64_le : float64 -> float64 -> bool := SFleb.

(** [int64(f)]: truncation toward zero; outside the range of [int64] the result
    is the one of amd64, the least [int64]. *)
Definition f64_to_int64 (f : float64) : Z :=
  match f with
  | S754_zero _ => 0
  | S754_finite s m e =>
      let a := if 0 <=? e then Z.pos m * 2 ^ e else Z.pos m / 2 ^ (- e) in
      let v := if s then - a else a in
      if (- 2 ^ 63 <=? v) && (v <? 2 ^ 63) then v else - 2 ^ 63
  | _ => - 2 ^ 63
  end.

Example f64_ex :
  (f64_to_int64 (f64_mul (f64_of_Z 30) (f64_ratio 5 2)),
   f64_lt (f64_ratio 4 5) (f64_div (f64_of_Z 103) (f64_of_Z 128)),
   f64_to_int64 (f64_div (f64_of_Z (-7)) (f64_of_Z 2))) = (75, true, -3).
Proof. vm_compute. reflexivity. Qed.

(** ** A product stays within a bound

    The specification floats round what is left of a mantissa after it was
    shifted; so a product that is at most an integer is rounded to at most that
    integer. *)

(** A number whose mantissa and exponent can be those of a [float64]. *)
Definition is_float64 (x : float64) : Prop := valid_binary 53 1024 x = true /\ x <> S754_nan.

Lemma digits_size p : digits2_pos p = Pos.size p.
Proof. by induction p as [p IH|p IH|]; simpl; rewrite ?IH. Qed.

Lemma digits_lt p : (Z.pos p < 2 ^ Z.pos (digits2_pos p)).
Proof. rewrite digits_size. pose proof (Pos.size_gt p). lia. Qed.

Lemma digits_le p k : (0 <= k) -> (Z.pos p < 2 ^ k) -> (Z.pos (digits2_pos p) <= k).
Proof.
  intros Hk Hp. rewrite digits_size. pose proof (Pos.size_le p) as H.
  assert (2 ^ (Z.pos (Pos.size p) - 1) < 2 ^ k).
  { assert (2 * 2 ^ (Z.pos (Pos.size p) - 1) = 2 ^ Z.pos (Pos.size p)) by (rewrite <- Z.pow_succ_r by lia; f_equal; lia). lia. }
  apply Z.pow_lt_mono_r_iff in H0; lia.
Qed.

Lemma iter_pos_inv {A} (f : A -> A) (P : Z -> A -> Prop) :
  (forall k x, 0 <= k -> P k x -> P (k + 1) (f x)) ->
  forall n k x, 0 <= k -> P k x -> P (k + Z.pos n) (iter_pos f n x).
Proof.
  intros Hf. induction n as [n IH|n IH|]; intros k x Hk Hx; cbn [iter_pos].
  - replace (k + Z.pos n~1) with (k + 1 + Z.pos n + Z.pos n) by lia. apply IH; [lia|]. apply IH; [lia|]. by apply Hf.
  - replace (k + Z.pos n~0) with (k + Z.pos n + Z.pos n) by lia. apply IH; [lia|]. by apply IH.
  - by apply Hf.
Qed.

(** [y] is [m] after [k] shifts; when nothing was shifted out both flags are off. *)
Definition shifted (m k : Z) (y : shr_record) : Prop :=
  shr_m y = m / 2 ^ k /\ (m mod 2 ^ k = 0 -> shr_r y = false /\ shr_s y = false).

Lemma shr_1_shifted m k y : 0 <= m -> 0 <= k -> shifted m k y -> shifted m (k + 1) (shr_1 y).
Proof.
  intros Hm Hk [Hy Hrs]. unfold shifted.
  assert (Hpow : 2 ^ (k + 1) = 2 ^ k * 2) by (rewrite Z.pow_add_r by lia; lia).
  assert (H2 : 0 < 2 ^ k) by (apply Z.pow_pos_nonneg; lia).
  rewrite Hpow, <- Z.div_div, <- Hy by lia. rewrite Z.rem_mul_r, <- Hy by lia.
  assert (Hpos : 0 <= shr_m y) by (rewrite Hy; apply Z.div_pos; lia).
  pose proof (Z.mod_pos_bound m (2 ^ k) H2). pose proof (Z.mod_pos_bound (shr_m y) 2 ltac:(lia)).
  assert (Hz : m mod 2 ^ k + 2 ^ k * (shr_m y mod 2) = 0 -> m mod 2 ^ k = 0 /\ shr_m y mod 2 = 0) by nia.
  destruct y as [[|[p|p|]|p] r s]; cbn [shr_m shr_r shr_s shr_1] in *; try lia.
  - split; [done|]. intros [H3 _]%Hz. destruct (Hrs H3) as [-> ->]. done.
  - split; [by rewrite Pos2Z.pos_xI, Z.add_comm, Z.mul_comm, Z.div_add by lia|].
    intros [_ H3]%Hz. rewrite Pos2Z.pos_xI, Z.add_comm, Z.mul_comm, Z.mod_add in H3 by lia. done.
  - split; [by rewrite Pos2Z.pos_xO, Z.mul_comm, Z.div_mul by lia|].
    intros [H3 _]%Hz. destruct (Hrs H3) as [-> ->]. done.
  - split; [done|]. intros [_ H3]%Hz. done.
Qed.

(** The shift to 53 bits of what is below [B]. *)
Lemma shr_fexp_bound m e B : 0 <= m -> e <= 0 -> 0 <= B < 2 ^ 52 -> m <= B * 2 ^ (- e) ->
  exists y e', shr_fexp 53 1024 m e loc_Exact = (y, e') /\ e <= e' <= 0 /\ shifted m (e' - e) y.
Proof.
  intros Hm He HB Hle. unfold shr_fexp, shr. cbn [shr_record_of_loc].
  assert (H0 : shifted m 0 (Build_shr_record m false false)) by (split; [by rewrite Z.div_1_r|done]).
  assert (Hd : Zdigits2 m + e <= 52).
  { destruct m as [|p|p]; [simpl; lia| |lia]. cbn [Zdigits2].
    assert (Z.pos (digits2_pos p) <= 52 - e); [|lia]. apply digits_le; [lia|].
    replace (52 - e) with (52 + - e) by lia. rewrite Z.pow_add_r by lia.
    assert (0 < 2 ^ (- e)) by (apply Z.pow_pos_nonneg; lia). nia. }
  destruct (fexp 53 1024 (Zdigits2 m + e) - e) as [|n|n] eqn:En; [by exists (Build_shr_record m false false), e; rewrite Z.sub_diag| |
    by exists (Build_shr_record m false false), e; rewrite Z.sub_diag].
  eexists _, (e + Z.pos n). split; [done|]. split; [unfold fexp, emin in En; lia|].
  replace (e + Z.pos n - e) with (0 + Z.pos n) by lia. apply (iter_pos_inv shr_1 (shifted m)); [|lia|done].
  intros k x Hk. by apply shr_1_shifted.
Qed.

Lemma shifted_round m k y B : 0 <= k -> 0 <= m -> shifted m k y -> m <= B * 2 ^ k ->
  0 <= round_nearest_even (shr_m y) (loc_of_shr_record y) <= B.
Proof.
  intros Hk Hm [Hy Hrs] Hle. assert (H2 : 0 < 2 ^ k) by (apply Z.pow_pos_nonneg; lia).
  assert (Hpos : 0 <= shr_m y) by (rewrite Hy; apply Z.div_pos; lia).
  pose proof (Z.div_mod m (2 ^ k) ltac:(lia)) as Hdm. pose proof (Z.mod_pos_bound m (2 ^ k) H2). rewrite <- Hy in Hdm.
  assert (Hb : shr_m y <= B) by nia.
  assert (Hup : loc_of_shr_record y <> loc_Exact -> shr_m y + 1 <= B).
  { intros Hn. assert (m mod 2 ^ k <> 0); [|nia]. intros Hz. destruct (Hrs Hz) as [E1 E2].
    destruct y as [? [] []]; cbn in *; done. }
  unfold round_nearest_even. destruct (loc_of_shr_record y) as [|[]]; [lia|specialize (Hup ltac:(done))..];
    [destruct (Z.even _); lia|lia|lia].
Qed.

(** A positive mantissa that is at most [B] is rounded to at most [B]. *)
Lemma round_aux_bound p e B : e <= 0 -> 0 <= B < 2 ^ 52 -> Z.pos p <= B * 2 ^ (- e) ->
  0 <= f64_to_int64 (binary_round_aux 53 1024 false (Z.pos p) e loc_Exact) <= B.
Proof.
  intros He HB Hle. unfold binary_round_aux.
  destruct (shr_fexp_bound (Z.pos p) e B) as (y & e1 & -> & He1 & Hy); [lia..|].
  assert (Hs1 : 2 ^ (- e) = 2 ^ (- e1) * 2 ^ (e1 - e)) by (rewrite <- Z.pow_add_r by lia; f_equal; lia).
  destruct (shifted_round (Z.pos p) (e1 - e) y (B * 2 ^ (- e1))) as [Hr0 Hr]; [lia|lia|done|lia|].
  set (m1 := round_nearest_even _ _) in *.
  destruct (shr_fexp_bound m1 e1 B) as (z & e2 & -> & He2 & [Hz _]); [lia..|].
  assert (Hs2 : 2 ^ (- e1) = 2 ^ (- e2) * 2 ^ (e2 - e1)) by (rewrite <- Z.pow_add_r by lia; f_equal; lia).
  assert (H2 : 0 < 2 ^ (e2 - e1)) by (apply Z.pow_pos_nonneg; lia).
  assert (H3 : 0 < 2 ^ (- e2)) by (apply Z.pow_pos_nonneg; lia).
  assert (Hz0 : 0 <= shr_m z <= B * 2 ^ (- e2)).
  { rewrite Hz. split; [apply Z.div_pos; lia|]. apply Z.div_le_upper_bound; [lia|]. nia. }
  destruct (shr_m z) as [|q|q]; [simpl; lia| |lia].
  destruct (Z.leb_spec e2 (1024 - 53)); [|lia]. cbn [f64_to_int64].
  assert (Hq : 0 <= (if 0 <=? e2 then Z.pos q * 2 ^ e2 else Z.pos q / 2 ^ (- e2)) <= B).
  { destruct (Z.leb_spec 0 e2); [assert (e2 = 0) as -> by lia; simpl in *; lia|].
    split; [apply Z.div_pos; lia|]. apply Z.div_le_upper_bound; [lia|]. lia. }
  cbv zeta. destruct (_ && _) eqn:E; [exact Hq|].
  apply andb_false_iff in E as [E|E]; [apply Z.leb_gt in E|apply Z.ltb_ge in E]; lia.
Qed.

(** ** Small integers are exact *)

Lemma digits_iter p d : digits2_pos (Pos.iter xO p d) = (digits2_pos p + d)%positive.
Proof.
  induction d as [|d IH] using Pos.peano_ind; [simpl; lia|]. rewrite Pos.iter_succ. simpl. rewrite IH. lia.
Qed.

Lemma shr_fexp_exact p e : fexp 53 1024 (Z.pos (digits2_pos p) + e) = e ->
  shr_fexp 53 1024 (Z.pos p) e loc_Exact = (Build_shr_record (Z.pos p) false false, e).
Proof. intros E. unfold shr_fexp. cbn [Zdigits2]. by rewrite E, Z.sub_diag. Qed.

Lemma round_exact s p : Z.pos p < 2 ^ 53 ->
  exists m e, binary_round 53 1024 s p 0 = S754_finite s m e /\ bounded 53 1024 m e = true.
Proof.
  intros Hp. apply digits_le in Hp; [|lia]. unfold binary_round.
  assert (Ef : fexp 53 1024 (Z.pos (digits2_pos p) + 0) = Z.pos (digits2_pos p) - 53) by (unfold fexp, emin; lia).
  rewrite Ef. set (e := Z.pos (digits2_pos p) - 53) in *.
  assert (Ha : exists mz, shl_align p 0 e = (mz, e) /\ Z.pos (digits2_pos mz) = 53).
  { unfold shl_align. destruct (e - 0) as [|d|d] eqn:E; [exists p; split; [f_equal; lia|lia]|lia|].
    exists (Pos.iter xO p d). split; [done|]. rewrite digits_iter. lia. }
  destruct Ha as (mz & -> & Hd). exists mz, e.
  assert (Efz : fexp 53 1024 (Z.pos (digits2_pos mz) + e) = e) by (unfold fexp, emin; lia).
  unfold binary_round_aux. rewrite (shr_fexp_exact mz e Efz). cbn [shr_m loc_of_shr_record round_nearest_even].
  rewrite (shr_fexp_exact mz e Efz). cbn [shr_m]. rewrite (proj2 (Z.leb_le e (1024 - 53))) by lia. split; [done|].
  unfold bounded, canonical_mantissa. rewrite Efz, Z.eqb_refl. cbn [andb]. apply Z.leb_le. lia.
Qed.

Lemma f64_of_Z_valid z : Z.abs z < 2 ^ 53 -> is_float64 (f64_of_Z z).
Proof.
  intros Hz. unfold is_float64, f64_of_Z, binary_normalize. destruct z as [|p|p]; [done|..].
  - destruct (round_exact false p) as (m & e & -> & Hb); [lia|]; by split.
  - destruct (round_exact true p) as (m & e & -> & Hb); [lia|]; by split.
Qed.

(** ** Percents *)

Lemma above_hundred_positive x : f64_lt (f64_of_Z 100) x = true -> f64_le x (f64_of_Z 0) = false.
Proof. by destruct x as [[]|[]| |[] m e]. Qed.

(** A thousand times a positive percent that is not above 100. *)
Lemma percent_range x : is_float64 x -> f64_le x (f64_of_Z 0) = false -> f64_lt (f64_of_Z 100) x = false ->
  0 <= f64_to_int64 (f64_mul x (f64_of_Z 1000)) <= 100000.
Proof.
  assert (E100 : f64_of_Z 100 = S754_finite false 7036874417766400 (-46)) by (vm_compute; reflexivity).
  assert (E1000 : f64_of_Z 1000 = S754_finite false 8796093022208000 (-43)) by (vm_compute; reflexivity).
  rewrite E100, E1000. destruct x as [[]|[]| |[] m e]; try done; [by intros [_ ?]|].
  unfold is_float64, valid_binary, bounded, canonical_mantissa.
  intros [[Hc%Z.eqb_eq _]%andb_prop _] _ Hlt. unfold fexp, emin in Hc.
  assert (Hm : Z.pos m < 2 ^ 53).
  { pose proof (digits_lt m). eapply Z.lt_le_trans; [exact H|]. apply Z.pow_le_mono_r; lia. }
  unfold f64_lt, SFltb, SFcompare in Hlt. unfold f64_mul, SFmul. cbn [xorb].
  assert (Hb : e <= -46 /\ Z.pos m <= 100 * 2 ^ (- e)).
  { destruct (Z.compare_spec (-46) e) as [<-|Hlo|Hhi]; [|done|].
    - split; [lia|]. change (match (7036874417766400 ?= m)%positive with Lt => true | _ => false end = false) in Hlt.
      destruct (7036874417766400 ?= m)%positive eqn:E; [apply Pos.compare_eq in E; rewrite <- E; vm_compute; discriminate|discriminate Hlt|].
      apply Pos.compare_gt_iff in E. apply Pos2Z.pos_lt_pos in E. replace (100 * 2 ^ (- -46)) with 7036874417766400 by reflexivity.
      by apply Z.lt_le_incl.
    - split; [lia|]. assert (2 ^ 47 <= 2 ^ (- e)) by (apply Z.pow_le_mono_r; lia). lia. }
  destruct Hb as [He Hm100]. rewrite (Pos2Z.inj_mul m 8796093022208000). apply round_aux_bound; [lia|lia|].
  replace (- (e + -43)) with (- e + 43) by lia. rewrite Z.pow_add_r by lia. nia.
Qed.
