(* ===== verification/Json.v ===== *)
(** * Json: the part of [encoding/json] the agent uses

    A payload ([json.RawMessage]) is empty, is not valid JSON, or is a JSON
    value.  [json.Unmarshal] into a struct visits the members of the object in
    order; a member decodes into the field whose name it equals up to case
    (ASCII), [null] leaves a scalar field alone, and a member of the wrong type
    leaves the field alone and makes the whole call return an error. *)
From S2P Require Import Prelude GoFloat.
From Stdlib Require Import Ascii.

(** Numbers keep their literal text, as the decoder sees it. *)
Inductive json :=
  | JNull
  | JBool (b : bool)
  | JNum (lit : string)
  | JStr (s : string)
  | JArr (l : list json)
  | JObj (fields : list (string * json)).

Inductive RawMessage :=
  | RawEmpty
  | RawInvalid
  | Raw (j : json).

(** [len(payload) == 0] and [json.Valid(payload)]. *)
Definition raw_is_empty (p : RawMessage) : bool :=
  match p with RawEmpty => true | _ => false end.
Definition json_Valid (p : RawMessage) : bool :=
  match p with Raw _ => true | _ => false end.

(** [strconv.ParseInt(lit, 10, 64)] on a JSON number literal. *)
Fixpoint all_digits (s : string) : bool :=
  match s with
  | EmptyString => true
  | String c s' => match digit_of c with Some _ => all_digits s' | None => false end
  end.

(** [strconv.Atoi] and [strconv.ParseInt(s, 10, 64)]: a sign and decimal digits,
    in the range of [int64]. *)
Definition Atoi (s : string) : option Z :=
  let digits := match s with String "-" t | String "+" t => t | _ => s end in
  if (digits =?s "") || negb (all_digits digits) then None else Sscanf_d s.

Example Atoi_ex : (Atoi "12", Atoi "+7", Atoi " 7", Atoi "-", Atoi "1_000", Atoi "9223372036854775808") =
  (Some 12, Some 7, None, None, None, None).
Proof. reflexivity. Qed.

Definition ParseInt (lit : string) : option Z :=
  let body := match lit with String "-"%char s => s | _ => lit end in
  if all_digits body then Sscanf_d lit else None.

(** A field decoder: the current value and a JSON value to the new value, and
    whether the type did not match. *)
Definition decoder (A : Type) : Type := A -> json -> A * bool.

Definition dec_string : decoder string := fun cur j =>
  match j with JStr s => (s, false) | JNull => (cur, false) | _ => (cur, true) end.

Definition dec_bool : decoder bool := fun cur j =>
  match j with JBool b => (b, false) | JNull => (cur, false) | _ => (cur, true) end.

Definition dec_int : decoder Z := fun cur j =>
  match j with
  | JNum lit => match ParseInt lit with Some z => (z, false) | None => (cur, true) end
  | JNull => (cur, false)
  | _ => (cur, true)
  end.

(** A [float64] field; [parse_float] is [strconv.ParseFloat], which fails on
    a number that is too large. *)
Definition dec_float (parse_float : string -> option float64) : decoder float64 := fun cur j =>
  match j with
  | JNum lit => match parse_float lit with Some f => (f, false) | None => (cur, true) end
  | JNull => (cur, false)
  | _ => (cur, true)
  end.

(** [json.RawMessage] fields take any value, [null] included. *)
Definition dec_raw : decoder RawMessage := fun _ j => (Raw j, false).

(** The member names that select a field. *)
Definition key_matches (name key : string) : bool :=
  strings_ToLower key =?s strings_ToLower name.

(** Decode the members selected by [name], in document order. *)
Definition field {A} (dec : decoder A) (name : string) (zero : A)
    (fields : list (string * json)) : A * bool :=
  foldl (fun acc kv =>
    if key_matches name kv.1 then
      let '(v, bad) := dec acc.1 kv.2 in (v, acc.2 || bad)
    else acc) (zero, false) fields.

(** Decode a slice element by element ([null] gives a nil slice). *)
Definition dec_slice {A} (zero : A) (dec : decoder A) : decoder (option (list A)) :=
  fun cur j =>
  match j with
  | JNull => (None, false)
  | JArr l => let rs := map (dec zero) l in
              (Some (map fst rs), existsb snd rs)
  | _ => (cur, true)
  end.

(** [json.Unmarshal(payload, &v)] for a struct [v] decoded by [dec]: the zero
    struct decodes from an object, [null] leaves it alone. *)
Definition Unmarshal_struct {A} (zero : A) (dec : list (string * json) -> A * bool)
    (payload : RawMessage) : A * error :=
  match payload with
  | RawEmpty => (zero, Some "unexpected end of JSON input")
  | RawInvalid => (zero, Some "invalid character")
  | Raw JNull => (zero, None)
  | Raw (JObj fields) =>
      let '(v, bad) := dec fields in
      (v, if bad then Some "json: cannot unmarshal" else None)
  | Raw _ => (zero, Some "json: cannot unmarshal")
  end.

(** ** [map[string]interface{}]

    A decoded map is kept as its members in increasing order of their keys, the
    order in which [json.Marshal] prints them. *)
Fixpoint map_insert (k : string) (v : json) (m : list (string * json)) : list (string * json) :=
  match m with
  | [] => [(k, v)]
  | (k', v') :: m' =>
      match String.compare k k' with
      | Lt => (k, v) :: m
      | Eq => (k, v) :: m'
      | Gt => (k', v') :: map_insert k v m'
      end
  end.

Fixpoint map_lookup (k : string) (m : list (string * json)) : option json :=
  match m with
  | [] => None
  | (k', v') :: m' => if k =?s k' then Some v' else map_lookup k m'
  end.

(** The last of two equal keys wins. *)
Definition map_of_members (fields : list (string * json)) : list (string * json) :=
  foldl (fun m kv => map_insert kv.1 kv.2 m) [] fields.

Section interface_values.
(** The text [json.Marshal] prints for a number that was decoded into
    [float64]. *)
Context (renum : string -> string).

(** A value after [json.Unmarshal] into [interface{}]. *)
Fixpoint to_interface (j : json) : json :=
  match j with
  | JNum lit => JNum (renum lit)
  | JArr l => JArr (map to_interface l)
  | JObj fields => JObj (map_of_members (map (fun kv => (kv.1, to_interface kv.2)) fields))
  | _ => j
  end.

(** [json.Unmarshal(payload, &m)]; [None] is an error. *)
Definition Unmarshal_map (payload : RawMessage) : option (list (string * json)) :=
  match payload with
  | Raw (JObj fields) => Some (map_of_members (map (fun kv => (kv.1, to_interface kv.2)) fields))
  | Raw JNull => Some []
  | _ => None
  end.

End interface_values.

(** [json.Marshal(m)]. *)
Definition Marshal_map (m : list (string * json)) : RawMessage := Raw (JObj m).

(** ** Lemmas *)

Lemma field_absent {A} (dec : decoder A) name zero fields :
  (forall kv, kv ∈ fields -> key_matches name kv.1 = false) ->
  field dec name zero fields = (zero, false).
Proof.
  unfold field. generalize (zero, false). induction fields as [|kv fs IH]; intros acc H; [done|].
  simpl. rewrite H by left. apply IH. intros kv' Hin. apply H. by right.
Qed.

(** A member that comes last decides a field that decoded without error. *)
Lemma field_app {A} (dec : decoder A) name zero fs1 fs2 :
  field dec name zero (fs1 ++ fs2) =
    foldl (fun acc kv =>
      if key_matches name kv.1 then
        let '(v, bad) := dec acc.1 kv.2 in (v, acc.2 || bad)
      else acc) (field dec name zero fs1) fs2.
Proof. apply foldl_app. Qed.

Lemma field_snoc_string name zero fs k s :
  key_matches name k = true ->
  (field dec_string name zero (fs ++ [(k, JStr s)])).1 = s.
Proof. intros H. rewrite field_app. simpl. by rewrite H. Qed.

Lemma map_lookup_insert k v m : map_lookup k (map_insert k v m) = Some v.
Proof.
  induction m as [|[k' v'] m IH]; simpl; [by rewrite eqb_refl_s|].
  destruct (String.compare k k') eqn:Hc; simpl; rewrite ?eqb_refl_s; [done..|].
  destruct (eqb_spec_s k k') as [->|]; [|done].
  pose proof (String.compare_antisym k' k') as Ha. rewrite Hc in Ha. done.
Qed.

Lemma map_lookup_insert_ne k k' v m : k <> k' -> map_lookup k (map_insert k' v m) = map_lookup k m.
Proof.
  intros Hne. induction m as [|[k2 v2] m IH]; simpl; [by rewrite eqb_neq_s|].
  destruct (String.compare k' k2) eqn:Hc; simpl.
  - apply String.compare_eq_iff in Hc as ->. by rewrite !eqb_neq_s.
  - by rewrite (eqb_neq_s _ _ Hne).
  - by rewrite IH.
Qed.
