(* ===== verification/Regexp.v ===== *)
(** * Regexp: the regular expressions of package [sanitize]

    The patterns are sequences of character classes, some of them repeated, and
    the engine is that of package [regexp]: the leftmost match, and among those
    the one a backtracking search finds first, so a repetition is as long as
    the rest of the pattern allows.  Texts are lists of bytes: every class holds
    all bytes above 127 or none, so no match cuts a rune. *)
From S2P Require Import Prelude.
From Stdlib Require Import Ascii.

Abbreviation text := (list ascii).
Abbreviation chars := String.list_ascii_of_string.

(** ** Patterns *)

(** A class, and a class with [+]. *)
Inductive item :=
  | Cls (f : ascii -> bool)
  | Rep (f : ascii -> bool).

Abbreviation pattern := (list item).

Definition lit (s : string) : pattern := map (fun c => Cls (Ascii.eqb c)) (chars s).

(** ** The search *)

(** The longest run of the class after which [k] succeeds. *)
Fixpoint rep_at (f : ascii -> bool) (k : text -> option text) (s : text) : option text :=
  match s with
  | c :: s' =>
      if f c then match rep_at f k s' with Some r => Some r | None => k s' end else None
  | [] => None
  end.

(** What a match at the start of the text leaves. *)
Fixpoint match_at (p : pattern) (s : text) : option text :=
  match p with
  | [] => Some s
  | Cls f :: p' =>
      match s with c :: s' => if f c then match_at p' s' else None | [] => None end
  | Rep f :: p' => rep_at f (match_at p') s
  end.

(** [MatchString]. *)
Fixpoint found (p : pattern) (s : text) : bool :=
  match match_at p s with
  | Some _ => true
  | None => match s with _ :: s' => found p s' | [] => false end
  end.

(** [ReplaceAllString]; the first [skip] bytes belong to the last match.  The
    replacements have no [$], and no pattern matches the empty text. *)
Fixpoint replace_from (p : pattern) (rep : text) (skip : nat) (s : text) : text :=
  match s with
  | [] => []
  | c :: s' =>
      match skip with
      | S k => replace_from p rep k s'
      | O =>
          match match_at p s with
          | Some r => rep ++ replace_from p rep (length s - length r - 1) s'
          | None => c :: replace_from p rep 0 s'
          end
      end
  end.

Definition ReplaceAll (p : pattern) (rep : text) (s : text) : text := replace_from p rep 0 s.

(** ** The language of a pattern *)

Inductive matches : pattern -> text -> Prop :=
  | m_end : matches [] []
  | m_cls f p c s : f c = true -> matches p s -> matches (Cls f :: p) (c :: s)
  | m_last f p c s : f c = true -> matches p s -> matches (Rep f :: p) (c :: s)
  | m_more f p c s : f c = true -> matches (Rep f :: p) s -> matches (Rep f :: p) (c :: s).

Definition contains (p : pattern) (s : text) : Prop :=
  exists a m b, s = a ++ m ++ b /\ matches p m.

(** ** The search finds exactly the language *)

Lemma rep_at_sound f p s r :
  (forall s r, match_at p s = Some r -> exists m, s = m ++ r /\ matches p m) ->
  rep_at f (match_at p) s = Some r -> exists m, s = m ++ r /\ matches (Rep f :: p) m.
Proof.
  intros Hp. induction s as [|c s IH]; intros H; [done|]. cbn [rep_at] in H.
  destruct (f c) eqn:Hf; [|done].
  destruct (rep_at f (match_at p) s) as [r'|].
  - destruct (IH H) as (m & -> & Hm). exists (c :: m). split; [done|]. by apply m_more.
  - destruct (Hp _ _ H) as (m & -> & Hm). exists (c :: m). split; [done|]. by apply m_last.
Qed.

Lemma match_at_sound p s r : match_at p s = Some r -> exists m, s = m ++ r /\ matches p m.
Proof.
  revert s r. induction p as [|[f|f] p IH]; intros s r H; cbn [match_at] in H.
  - injection H as <-. exists []. split; [done|]. constructor.
  - destruct s as [|c s]; [done|]. destruct (f c) eqn:Hf; [|done].
    destruct (IH _ _ H) as (m & -> & Hm). exists (c :: m). split; [done|]. by constructor.
  - by apply rep_at_sound.
Qed.

Lemma match_at_complete p m r : matches p m -> is_Some (match_at p (m ++ r)).
Proof.
  induction 1 as [|f p c s Hf _ IH|f p c s Hf _ IH|f p c s Hf _ IH]; cbn [match_at rep_at app].
  - by eexists.
  - by rewrite Hf.
  - rewrite Hf. by destruct (rep_at _ _ _).
  - rewrite Hf. cbn [match_at] in IH. by destruct IH as [x ->].
Qed.

Lemma matches_nonempty p m : p <> [] -> matches p m -> m <> [].
Proof. intros Hp. by destruct 1. Qed.

Lemma contains_cons p c s :
  p <> [] -> contains p (c :: s) <-> is_Some (match_at p (c :: s)) \/ contains p s.
Proof.
  intros Hp. split.
  - intros ([|a0 a] & m & b & E & Hm); cbn [app] in E.
    + left. rewrite E. by apply match_at_complete.
    + right. injection E as -> ->. by exists a, m, b.
  - intros [[r H]|(a & m & b & -> & Hm)].
    + destruct (match_at_sound _ _ _ H) as (m & E & Hm). by exists [], m, r.
    + by exists (c :: a), m, b.
Qed.

Lemma not_contains_nil p : p <> [] -> ~ contains p [].
Proof.
  intros Hp (a & m & b & E & Hm). symmetry in E. apply app_eq_nil in E as [_ [-> _]%app_eq_nil].
  by apply (matches_nonempty p []).
Qed.

Lemma found_contains p s : p <> [] -> found p s = true <-> contains p s.
Proof.
  intros Hp. induction s as [|c s IH].
  - cbn [found]. split; [|by intros ?%not_contains_nil].
    destruct (match_at p []) as [r|] eqn:E; [|done]. intros _.
    destruct (match_at_sound _ _ _ E) as (m & Em & Hm). by exists [], m, r.
  - rewrite contains_cons by done. cbn [found]. rewrite <- IH.
    destruct (match_at p (c :: s)) as [r|]; split; try done; [by left; eexists|by right|].
    by intros [[? ?]|?].
Qed.

Lemma found_false p s : p <> [] -> found p s = false -> ~ contains p s.
Proof. intros Hp H Hc%found_contains; [congruence|done]. Qed.

(** A byte that the pattern names is in every match. *)
Lemma matches_required p m c : matches p m -> Cls (Ascii.eqb c) ∈ p -> c ∈ m.
Proof.
  induction 1 as [|f p d s Hf _ IH|f p d s Hf _ IH|f p d s Hf _ IH]; intros Hin.
  - by apply elem_of_nil in Hin.
  - apply elem_of_cons in Hin as [[= <-]|Hin]; [|by right; apply IH].
    apply Ascii.eqb_eq in Hf as ->. left.
  - apply elem_of_cons in Hin as [?|Hin]; [done|]. right. by apply IH.
  - right. by apply IH.
Qed.

Lemma contains_required p s c : contains p s -> Cls (Ascii.eqb c) ∈ p -> c ∈ s.
Proof.
  intros (a & m & b & -> & Hm) Hc. apply elem_of_app. right. apply elem_of_app. left.
  by apply (matches_required p).
Qed.

(** A byte of a match is in one of the classes. *)
Definition in_class (i : item) (c : ascii) : bool := match i with Cls f | Rep f => f c end.
Definition allowed (p : pattern) (c : ascii) : bool := existsb (fun i => in_class i c) p.

Lemma matches_allowed p m : matches p m -> Forall (fun c => allowed p c = true) m.
Proof.
  assert (Hw : forall i p s, Forall (fun c => allowed p c = true) s -> Forall (fun c => allowed (i :: p) c = true) s).
  { intros i q s Hs. eapply Forall_impl; [exact Hs|]. intros c Hc. unfold allowed in *. cbn [existsb]. by rewrite Hc, orb_true_r. }
  induction 1 as [|f p c s Hf _ IH|f p c s Hf _ IH|f p c s Hf _ IH]; constructor;
    try (unfold allowed; cbn [existsb in_class]; by rewrite Hf); auto.
Qed.

(** ** Replacement *)

Section replacement.
Context (p : pattern) (rep : text) (Hp : p <> []).

Lemma replace_skip k s : replace_from p rep k s = ReplaceAll p rep (drop k s).
Proof.
  revert k. induction s as [|c s IH]; intros [|k]; try done.
  cbn [replace_from drop]. apply IH.
Qed.

Lemma ReplaceAll_match s r : s <> [] -> match_at p s = Some r -> ReplaceAll p rep s = rep ++ ReplaceAll p rep r.
Proof.
  intros Hs H. destruct (match_at_sound _ _ _ H) as (m & E & Hm).
  destruct m as [|c m]; [by apply matches_nonempty in Hm|].
  destruct s as [|c' s]; [done|]. unfold ReplaceAll at 1. cbn [replace_from]. rewrite H, replace_skip.
  injection E as -> ->. do 2 f_equal. cbn [length]. rewrite length_app.
  replace (S (length m + length r) - length r - 1)%nat with (length m) by lia.
  by rewrite drop_app_length.
Qed.

Lemma ReplaceAll_step c s : match_at p (c :: s) = None -> ReplaceAll p rep (c :: s) = c :: ReplaceAll p rep s.
Proof. intros H. unfold ReplaceAll. cbn [replace_from]. by rewrite H. Qed.

(** Texts without a match are left alone. *)
Lemma ReplaceAll_absent s : ~ contains p s -> ReplaceAll p rep s = s.
Proof.
  induction s as [|c s IH]; intros H; [done|]. rewrite contains_cons in H by done.
  destruct (match_at p (c :: s)) as [r|] eqn:E; [destruct H; by left; eexists|].
  rewrite ReplaceAll_step by done. f_equal. apply IH. intros Hc. apply H. by right.
Qed.

Lemma ReplaceAll_required s c : Cls (Ascii.eqb c) ∈ p -> c ∉ s -> ReplaceAll p rep s = s.
Proof. intros Hc Hs. apply ReplaceAll_absent. intros H. by apply Hs, (contains_required p). Qed.

(** The cases of a replacement, from left to right. *)
Lemma ReplaceAll_ind (P : text -> text -> Prop) :
  P [] [] ->
  (forall m r, matches p m -> match_at p (m ++ r) = Some r -> P r (ReplaceAll p rep r) -> P (m ++ r) (rep ++ ReplaceAll p rep r)) ->
  (forall c s, match_at p (c :: s) = None -> P s (ReplaceAll p rep s) -> P (c :: s) (c :: ReplaceAll p rep s)) ->
  forall s, P s (ReplaceAll p rep s).
Proof.
  intros H0 Hm Hs s. remember (length s) as n eqn:En. revert s En.
  induction n as [n IH] using lt_wf_ind. intros [|c s] ->; [done|].
  destruct (match_at p (c :: s)) as [r|] eqn:E.
  - rewrite (ReplaceAll_match _ r) by done. destruct (match_at_sound _ _ _ E) as (m & Em & Hmm).
    rewrite Em in E |- *. apply Hm; [done..|]. apply (IH (length r)); [|done].
    rewrite Em, length_app. apply matches_nonempty in Hmm; [|done]. destruct m; [done|]. cbn [length]. lia.
  - rewrite ReplaceAll_step by done. apply Hs; [done|]. apply (IH (length s)); [cbn [length]; lia|done].
Qed.
End replacement.

Lemma exists_last' {A} (l : list A) : l = [] \/ exists l' x, l = l' ++ [x].
Proof. induction l as [|x l _] using rev_ind; [by left|]. right. by exists l, x. Qed.

(** A replacement that begins and ends with bytes of no class leaves no match
    behind. *)
Lemma ReplaceAll_clean p b rep e s :
  p <> [] -> allowed p b = false -> allowed p e = false -> found p (b :: rep ++ [e]) = false ->
  ~ contains p (ReplaceAll p (b :: rep ++ [e]) s).
Proof.
  intros Hp Hb He Hrep. set (whole := b :: rep ++ [e]) in *.
  assert (Hpre : forall s u v, ReplaceAll p whole s = u ++ v -> b ∉ u -> exists w, s = u ++ w).
  { intros s0. apply (ReplaceAll_ind p whole Hp (fun s t => forall u v, t = u ++ v -> b ∉ u -> exists w, s = u ++ w)).
    - intros u v E _. symmetry in E. apply app_eq_nil in E as [-> ->]. by exists [].
    - intros m r _ _ _ [|c u] v E Hu; [by eexists|]. injection E as <- _. destruct Hu. left.
    - intros c s' _ IH [|c' u] v E Hu; [by eexists|]. injection E as <- E.
      destruct (IH u v E) as [w ->]; [by intros H; apply Hu; right|]. by exists w. }
  assert (Hout : forall m c, matches p m -> allowed p c = false -> c ∉ m).
  { intros m c Hm%matches_allowed Hc Hin. rewrite Forall_forall in Hm. specialize (Hm c Hin). congruence. }
  apply (ReplaceAll_ind p whole Hp (fun s t => ~ contains p t)).
  - by apply not_contains_nil.
  - intros m r _ _ IH (x & y & z & E & Hy).
    apply (Hout y b) in Hb as Hby; [|done]. apply (Hout y e) in He as Hey; [|done].
    apply app_eq_app in E as (l & [[E1 E2]|[E1 E2]]); [|apply IH; by exists l, y, z].
    apply app_eq_app in E2 as (k & [[E2 E3]|[E2 E3]]).
    + subst y. destruct (exists_last' l) as [->|(l' & d & ->)].
      * apply IH. by exists [], k, z.
      * apply Hey, elem_of_app. left. unfold whole in E1. rewrite app_comm_cons, app_assoc in E1.
        apply app_inj_tail in E1 as [_ ->]. apply elem_of_app. right. left.
    + apply (found_false p whole Hp Hrep). rewrite E1, E2. by exists x, y, k.
  - intros c s' Hc IH H. apply contains_cons in H as [[r Hr]|H]; [|done|done].
    destruct (match_at_sound _ _ _ Hr) as (m & E & Hm).
    destruct m as [|c' m]; [by apply matches_nonempty in Hm|]. injection E as <- E.
    destruct (Hpre s' m r E) as [w ->].
    { apply (Hout _ b) in Hm; [|done]. intros H. apply Hm. by right. }
    destruct (match_at_complete p (c :: m) w Hm) as [x Hx]. cbn [app] in Hx. congruence.
Qed.
