(* ===== verification/Sanitize.v ===== *)
(** * Sanitize: what of an error may leave the device

    Models [internal/sanitize/error.go], the masking of paths, object keys and
    addresses in the texts that are sent to the control plane, and
    [internal/models/failure.go], the classes of failures. *)
From S2P Require Import Prelude Json Regexp.
From Stdlib Require Import Ascii.

(** ** Classes of bytes *)

Definition between (a b c : ascii) : bool := (Nat.leb (nat_of_ascii a) (nat_of_ascii c) && Nat.leb (nat_of_ascii c) (nat_of_ascii b))%bool.
Definition one_of (s : string) (c : ascii) : bool := existsb (Ascii.eqb c) (chars s).

Definition is_letter (c : ascii) : bool := between "a" "z" c || between "A" "Z" c.
Definition is_digit (c : ascii) : bool := between "0" "9" c.

(** [\s]. *)
Definition blank (c : ascii) : bool :=
  let n := nat_of_ascii c in ((n =? 9) || (n =? 10) || (n =? 12) || (n =? 13) || (n =? 32))%nat.

Definition name_char (c : ascii) : bool := negb (Ascii.eqb c "/" || blank c).
Definition not_backslash (c : ascii) : bool := negb (Ascii.eqb c "\").

(** ** The patterns *)

Definition pathPattern : pattern := lit "/" ++ [Rep name_char] ++ lit "/" ++ [Rep name_char].
Definition windowsPathPattern : pattern :=
  [Cls is_letter] ++ lit ":\" ++ [Rep not_backslash] ++ lit "\" ++ [Rep not_backslash].
Definition s3PathPattern : pattern := lit "s3://" ++ [Rep (fun c => negb (blank c))].
Definition gsPathPattern : pattern := lit "gs://" ++ [Rep (fun c => negb (blank c))].
Definition httpPathPattern : pattern :=
  lit "https://" ++ [Rep (fun c => negb (Ascii.eqb c "/"))] ++ lit "/" ++ [Rep (fun c => negb (Ascii.eqb c "?" || blank c))].
Definition homePathPattern : pattern := lit "~" ++ [Rep name_char].
Definition ipPathPattern : pattern :=
  [Rep is_digit] ++ lit "." ++ [Rep is_digit] ++ lit "." ++ [Rep is_digit] ++ lit "." ++ [Rep is_digit]
  ++ lit "/" ++ [Rep (fun c => negb (blank c))].
(** [{2,}] is a class and a repetition of it. *)
Definition emailPattern : pattern :=
  [Rep (fun c => is_letter c || is_digit c || one_of "._%+-" c)] ++ lit "@"
  ++ [Rep (fun c => is_letter c || is_digit c || one_of ".-" c)] ++ lit "." ++ [Cls is_letter; Rep is_letter].

(** ** Masking *)

Definition ReplaceAllString (p : pattern) (repl msg : string) : string :=
  String.string_of_list_ascii (ReplaceAll p (chars repl) (chars msg)).

Definition sanitizeEmailAddresses (msg : string) : string := ReplaceAllString emailPattern "[EMAIL]" msg.

Definition ErrorMessage (msg : string) : string :=
  let result := ReplaceAllString pathPattern "[PATH]" msg in
  let result := ReplaceAllString windowsPathPattern "[PATH]" result in
  let result := ReplaceAllString s3PathPattern "s3://[BUCKET]" result in
  let result := ReplaceAllString gsPathPattern "gs://[BUCKET]" result in
  let result := ReplaceAllString httpPathPattern "https://[STORAGE]/[OBJECT]" result in
  let result := ReplaceAllString homePathPattern "~[USER]" result in
  let result := ReplaceAllString ipPathPattern "[IP]/[PATH]" result in
  sanitizeEmailAddresses result.

(** [encoded] is the text of the payload, when it can be marshalled. *)
Definition PayloadContainsPaths (encoded : option string) : bool :=
  match encoded with
  | None => false
  | Some e =>
      existsb (fun p => found p (chars e))
        [pathPattern; windowsPathPattern; s3PathPattern; gsPathPattern; httpPathPattern; homePathPattern; ipPathPattern]
  end.

(** A value of a payload: texts are masked, maps and slices are searched, and
    the names of members are left alone. *)
Fixpoint sanitize_value (v : json) : json :=
  match v with
  | JStr s => JStr (ErrorMessage s)
  | JArr l => JArr (map sanitize_value l)
  | JObj fs => JObj (map (fun kv => (kv.1, sanitize_value kv.2)) fs)
  | _ => v
  end.

Definition sanitizeSlice (arr : list json) : list json := map sanitize_value arr.
Definition SanitizePayload (payload : list (string * json)) : list (string * json) :=
  map (fun kv => (kv.1, sanitize_value kv.2)) payload.

Definition AppendSanitizedError (errors : list string) (err : error) : list string :=
  match err with None => errors | Some e => errors ++ [ErrorMessage e] end.

Example mask_path : ErrorMessage "open /home/ann/data.csv failed" = "open [PATH]/data.csv failed".
Proof. vm_compute. reflexivity. Qed.
Example mask_store : ErrorMessage "s3://bucket/key/obj 10.1.2.3:80 ~ann a.b@c.org x@y" = "s3:/[PATH]/obj 10.1.2.3:80 ~[USER] [EMAIL] x@y".
Proof. vm_compute. reflexivity. Qed.
Example mask_not_stable :
  ErrorMessage "https://a b/c" = "https://[STORAGE]/[OBJECT]" /\ ErrorMessage (ErrorMessage "https://a b/c") = "https:/[PATH]".
Proof. by vm_compute. Qed.

(** ** Addresses *)

Lemma chars_replace p repl msg : chars (ReplaceAllString p repl msg) = ReplaceAll p (chars repl) (chars msg).
Proof. apply String.list_ascii_of_string_of_list_ascii. Qed.

Lemma no_address msg : ~ contains emailPattern (chars (sanitizeEmailAddresses msg)).
Proof.
  unfold sanitizeEmailAddresses. rewrite chars_replace.
  change (chars "[EMAIL]") with ("["%char :: chars "EMAIL" ++ ["]"%char]).
  by apply ReplaceAll_clean.
Qed.

(** The texts in a value, the names of members left out. *)
Fixpoint texts_of (v : json) : list string :=
  match v with
  | JStr s => [s]
  | JArr l => concat (map texts_of l)
  | JObj fs => concat (map (fun kv => texts_of kv.2) fs)
  | _ => []
  end.

(** Induction on values, through arrays and objects. *)
Lemma json_ind' (P : json -> Prop) :
  P JNull -> (forall b, P (JBool b)) -> (forall n, P (JNum n)) -> (forall s, P (JStr s)) ->
  (forall l, Forall P l -> P (JArr l)) -> (forall fs, Forall (fun kv => P kv.2) fs -> P (JObj fs)) ->
  forall v, P v.
Proof.
  intros H0 Hb Hn Hs Ha Ho. fix IH 1. intros [| | | |l|fs]; [done|apply Hb|apply Hn|apply Hs|apply Ha|apply Ho].
  - induction l as [|v l IHl]; constructor; [apply IH|exact IHl].
  - induction fs as [|[k v] fs IHl]; constructor; [apply IH|exact IHl].
Qed.

Lemma texts_sanitized v : texts_of (sanitize_value v) = map ErrorMessage (texts_of v).
Proof.
  induction v as [| | | |l IH|fs IH] using json_ind'; [done..| |]; cbn [sanitize_value texts_of].
  - induction IH as [|v l Hv _ IHl]; [done|]. cbn [map concat]. by rewrite Hv, IHl, map_app.
  - induction IH as [|[k v] fs Hv _ IHl]; [done|]. cbn [map concat fst snd] in *. by rewrite Hv, IHl, map_app.
Qed.

(** C32.  No mail address leaves the device in a text that was masked, nor in any
    text of a payload that was masked; masking a payload masks each of its texts
    and keeps the names and the order of its members. *)
Theorem no_address_leaves :
  (forall msg, ~ contains emailPattern (chars (ErrorMessage msg))) /\
  (forall payload s, s ∈ texts_of (JObj (SanitizePayload payload)) -> ~ contains emailPattern (chars s)) /\
  (forall payload, map fst (SanitizePayload payload) = map fst payload /\
     texts_of (JObj (SanitizePayload payload)) = map ErrorMessage (texts_of (JObj payload))) /\
  (forall errors e s, s ∈ AppendSanitizedError errors (Some e) -> s ∈ errors \/ ~ contains emailPattern (chars s)).
Proof.
  assert (Hm : forall msg, ~ contains emailPattern (chars (ErrorMessage msg))) by (intros; apply no_address).
  assert (Ht : forall payload, texts_of (JObj (SanitizePayload payload)) = map ErrorMessage (texts_of (JObj payload)))
    by (intros; apply (texts_sanitized (JObj _))).
  split; [done|]. split; [|split].
  - intros payload s. rewrite Ht. intros (t & -> & _)%list_elem_of_fmap. apply Hm.
  - intros payload. split; [|done]. unfold SanitizePayload. rewrite map_map. by apply map_ext.
  - intros errors e s. cbn [AppendSanitizedError]. intros [H|H]%elem_of_app; [by left|].
    apply list_elem_of_singleton in H as ->. right. apply Hm.
Qed.

(** ** Paths *)

(** Names of files without white space, colon, backslash, tilde and at sign. *)
Definition plain (c : ascii) : bool := name_char c && negb (one_of ":\~@" c).
Record plain_name (n : text) : Prop := {
  pn_there : n <> [];
  pn_plain : Forall (fun c => plain c = true) n }.

Definition path_text (ns : list text) : text := concat (map (cons "/"%char) ns).

(** What is left of a path of these names. *)
Fixpoint masked (ns : list text) : text :=
  match ns with
  | _ :: _ :: ns' => chars "[PATH]" ++ masked ns'
  | [n] => "/"%char :: n
  | [] => []
  end.

(** What follows a name: the end, a slash or white space. *)
Definition ends_name (t : text) : Prop := match t with [] => True | c :: _ => name_char c = false end.

Lemma rep_at_run f k n t r :
  n <> [] -> Forall (fun c => f c = true) n -> match t with [] => True | c :: _ => f c = false end ->
  k t = Some r -> rep_at f k (n ++ t) = Some r.
Proof.
  intros Hn Hf Ht Hk. induction Hf as [|c n Hc Hf IH]; [done|]. cbn [app rep_at]. rewrite Hc.
  destruct n as [|d n]; [|by rewrite IH]. cbn [app].
  destruct t as [|d t]; cbn [rep_at]; [done|by rewrite Ht].
Qed.

Lemma plain_name_char n : plain_name n -> Forall (fun c => name_char c = true) n.
Proof. intros [_ H]. eapply Forall_impl; [exact H|]. intros c Hc. unfold plain in Hc. by split_bools. Qed.

Lemma path_pair a b t : plain_name a -> plain_name b -> ends_name t ->
  match_at pathPattern ("/"%char :: a ++ "/"%char :: b ++ t) = Some t.
Proof.
  intros Ha Hb Ht. cbn [match_at pathPattern lit chars map app]. rewrite Ascii.eqb_refl.
  apply rep_at_run; [by apply pn_there|by apply plain_name_char|done|].
  cbn [match_at]. rewrite Ascii.eqb_refl. apply rep_at_run; [by apply pn_there|by apply plain_name_char|done|done].
Qed.

Lemma one_slash_split u v x y : x ++ "/"%char :: y = u ++ "/"%char :: v ->
  "/"%char ∉ x -> "/"%char ∉ y -> x = u /\ y = v.
Proof.
  revert x. induction u as [|c u IH]; intros [|d x] E Hx Hy; simplify_eq/=; try done.
  - destruct Hx. left.
  - destruct Hy. apply elem_of_app. right. left.
  - destruct (IH x) as [-> ->]; [done| |done|done]. intros H. apply Hx. by right.
Qed.

(** A text with at most one slash has no path to mask. *)
Lemma one_slash_absent x y : "/"%char ∉ x -> "/"%char ∉ y -> ~ contains pathPattern (x ++ "/"%char :: y).
Proof.
  intros Hx Hy (a & m & b & E & Hm).
  inversion Hm as [|f q c s Hc Hs| |]; subst. apply Ascii.eqb_eq in Hc as <-.
  assert (Hin : "/"%char ∈ s).
  { apply (matches_required _ _ _ Hs). right. left. }
  apply one_slash_split in E as [_ ->]; [|done..]. apply Hy, elem_of_app. by left.
Qed.

Abbreviation str := String.string_of_list_ascii.
Definition brackets (k : nat) : text := concat (replicate k (chars "[PATH]")).

Lemma masked_even ns k : length ns = (2 * k)%nat -> masked ns = brackets k.
Proof.
  revert ns. induction k as [|k IH]; intros [|a [|b ns]] H; cbn [length] in H; try (exfalso; lia); [done|].
  unfold brackets. cbn [masked replicate concat]. f_equal. apply IH. lia.
Qed.

Lemma masked_odd ns n k : length ns = (2 * k)%nat -> masked (ns ++ [n]) = brackets k ++ "/"%char :: n.
Proof.
  revert ns. induction k as [|k IH]; intros [|a [|b ns]] H; cbn [length] in H; try (exfalso; lia); [done|].
  unfold brackets. cbn [masked replicate concat app]. rewrite (IH ns) by lia. done.
Qed.

(** A byte that is in none of the parts. *)
Lemma masked_avoids c ns : (c ∉ chars "/[PATH]") -> Forall (fun n => c ∉ n) ns -> c ∉ masked ns.
Proof.
  intros Hc. assert (Hs : c ∉ ["/"%char]) by (intros H; apply Hc, (elem_of_app ["/"%char]); by left).
  assert (Hb : c ∉ chars "[PATH]") by (intros H; apply Hc, (elem_of_app ["/"%char]); by right).
  revert ns. fix IH 1. intros [|a [|b ns]] Hns; cbn [masked].
  - by intros ?%elem_of_nil.
  - inversion Hns; subst. by intros [H|H]%(elem_of_app ["/"%char]).
  - inversion Hns as [|? ? _ Hns']; subst. inversion Hns' as [|? ? _ Hns'']; subst.
    intros [H|H]%elem_of_app; [done|]. by apply (IH ns).
Qed.

(** ** A path in a message *)

Section message.
Context (pre post : text) (ns : list text).

(** The words around the path. *)
Definition quiet (t : text) : Prop := Forall (fun c => one_of "/:\~@" c = false) t.

Record message : Prop := {
  msg_pre : quiet pre;
  msg_last : match last pre with Some c => is_digit c = false | None => True end;
  msg_post : quiet post;
  msg_end : ends_name post;
  msg_names : Forall plain_name ns }.

Lemma quiet_avoids c t : quiet t -> c ∈ chars "/:\~@" -> c ∉ t.
Proof.
  intros Ht Hc Hin. unfold quiet in Ht. rewrite Forall_forall in Ht. specialize (Ht c Hin).
  assert (E : one_of "/:\~@" c = true); [|congruence].
  apply existsb_elem_of. exists c. split; [done|]. apply Ascii.eqb_refl.
Qed.

Lemma plain_avoids c n : plain_name n -> c ∈ chars "/:\~@" -> c ∉ n.
Proof.
  intros [_ Hn] Hc Hin. rewrite Forall_forall in Hn. specialize (Hn c Hin).
  unfold plain, name_char in Hn. split_bools.
  cbn [chars] in Hc. apply elem_of_cons in Hc as [->|Hc]; [done|].
  assert (E : one_of ":\~@" c = true); [|congruence].
  apply existsb_elem_of. exists c. split; [done|]. apply Ascii.eqb_refl.
Qed.

Lemma path_replaced ms : Forall plain_name ms -> quiet post -> ends_name post ->
  ReplaceAll pathPattern (chars "[PATH]") (path_text ms ++ post) = masked ms ++ post.
Proof.
  intros Hms Hq He. assert (Hp : pathPattern <> []) by done. revert ms Hms. fix IH 1. intros [|a [|b ms]] Hms; cbn [masked path_text map concat].
  - apply (ReplaceAll_required pathPattern _ Hp _ "/"); [left|]. by apply quiet_avoids; [|left].
  - inversion Hms as [|? ? Ha _]; subst. rewrite app_nil_r. cbn [app].
    apply ReplaceAll_absent; [done|]. apply (one_slash_absent []); [by intros ?%elem_of_nil|].
    intros [H|H]%elem_of_app; [by apply (plain_avoids "/" a) in H; [|done|left]|by apply (quiet_avoids "/" post) in H; [|done|left]].
  - inversion Hms as [|? ? Ha Hms']; subst. inversion Hms' as [|? ? Hb Hms'']; subst.
    rewrite (ReplaceAll_match pathPattern _ Hp _ (path_text ms ++ post)); [|done|].
    + by rewrite (IH ms Hms''), app_assoc.
    + fold (path_text ms). cbn [app]. rewrite <- !app_assoc. cbn [app]. rewrite <- app_assoc. apply path_pair; [done..|].
      destruct ms; [done|]. by cbn [path_text map concat app ends_name].
Qed.

Lemma pre_kept t s : quiet t -> ReplaceAll pathPattern (chars "[PATH]") (t ++ s) = t ++ ReplaceAll pathPattern (chars "[PATH]") s.
Proof.
  induction 1 as [|c t Hc Ht IH]; [done|]. cbn [app]. rewrite ReplaceAll_step, IH; [done..|].
  cbn [match_at pathPattern lit chars map app]. destruct (Ascii.eqb_spec "/" c) as [<-|]; [done|done].
Qed.

(** A digit before a slash. *)
Definition digit_slash (s : text) : Prop := exists u d v, s = u ++ d :: "/"%char :: v /\ is_digit d = true.

Lemma digit_slash_l x y : digit_slash y -> digit_slash (x ++ y).
Proof. intros (u & d & v & -> & Hd). exists (x ++ u), d, v. by rewrite <- app_assoc. Qed.

Lemma digit_slash_r x y : digit_slash x -> digit_slash (x ++ y).
Proof. intros (u & d & v & -> & Hd). exists u, d, (v ++ y). by rewrite <- app_assoc. Qed.

Lemma matches_split i p m : matches (i :: p) m -> exists x y, m = x ++ y /\ matches p y.
Proof.
  remember (i :: p) as q eqn:E. induction 1 as [|f q c s Hf Hm _|f q c s Hf Hm _|f q c s Hf Hm IH]; simplify_eq.
  - by exists [c], s.
  - by exists [c], s.
  - destruct IH as (x & y & -> & Hy); [done|]. by exists (c :: x), y.
Qed.

Lemma digits_then_slash p m : matches (Rep is_digit :: Cls (Ascii.eqb "/") :: p) m -> digit_slash m.
Proof.
  remember (Rep is_digit :: Cls (Ascii.eqb "/") :: p) as q eqn:E.
  induction 1 as [|f q c s Hf Hm _|f q c s Hf Hm _|f q c s Hf Hm IH]; simplify_eq.
  - inversion Hm as [|? ? e ? He| |]; subst. apply Ascii.eqb_eq in He as <-. by eexists [], c, _.
  - by apply (digit_slash_l [c]), IH.
Qed.

(** An address is followed by a slash. *)
Lemma ip_digit_slash s : contains ipPathPattern s -> digit_slash s.
Proof.
  intros (a & m & b & -> & Hm). do 6 (apply matches_split in Hm as (? & ? & -> & Hm)).
  apply digit_slash_l, digit_slash_r. do 6 apply digit_slash_l. by apply digits_then_slash in Hm.
Qed.

Lemma masked_one_slash ms : Forall plain_name ms ->
  ("/"%char ∉ masked ms) \/
  exists x n, masked ms = x ++ "/"%char :: n /\ ("/"%char ∉ x) /\ ("/"%char ∉ n) /\ (x = [] \/ last x = Some "]"%char).
Proof.
  revert ms. fix IH 1. intros [|a [|b ms]] Hms; cbn [masked].
  - left. by intros ?%elem_of_nil.
  - right. inversion Hms as [|? ? Ha _]; subst. exists [], a. split; [done|].
    split; [by intros ?%elem_of_nil|]. split; [|by left]. intros H. by apply (plain_avoids "/" a) in H; [|done|left].
  - inversion Hms as [|? ? _ Hms']; subst. inversion Hms' as [|? ? _ Hms'']; subst.
    assert (Hb : "/"%char ∉ chars "[PATH]") by (apply (bool_decide_unpack _); by vm_compute).
    destruct (IH ms Hms'') as [H|(x & n & E & Hx & Hn & Hl)].
    + left. by intros [?|?]%elem_of_app.
    + right. exists (chars "[PATH]" ++ x), n. rewrite E, app_assoc. split; [done|].
      split; [by intros [?|?]%elem_of_app|]. split; [done|]. right. rewrite last_app.
      by destruct Hl as [->| ->].
Qed.

Lemma ip_absent : message -> ~ contains ipPathPattern (pre ++ masked ns ++ post).
Proof.
  intros [Hpre Hl Hpost _ Hns] (u & d & v & E & Hd)%ip_digit_slash.
  assert (Hs : "/"%char ∈ chars "/:\~@") by left.
  apply (quiet_avoids _ _ Hpre) in Hs as Hsp. apply (quiet_avoids _ _ Hpost) in Hs as Hsq.
  destruct (masked_one_slash ns Hns) as [H|(x & n & Em & Hx & Hn & Hlx)].
  - assert (Hin : "/"%char ∈ pre ++ masked ns ++ post) by (rewrite E; apply elem_of_app; right; right; left).
    by apply elem_of_app in Hin as [?|[?|?]%elem_of_app].
  - rewrite Em in E. rewrite <- app_assoc in E. cbn [app] in E. rewrite app_assoc in E.
    change (u ++ d :: "/"%char :: v) with (u ++ [d] ++ "/"%char :: v) in E. rewrite (app_assoc u [d]) in E.
    apply one_slash_split in E as [E _]; [|by intros [?|?]%elem_of_app..].
    assert (Hlast : last (pre ++ x) = Some d) by (by rewrite E, last_snoc).
    rewrite last_app in Hlast. destruct Hlx as [->|Hlx].
    + cbn [last] in Hlast. rewrite Hlast in Hl. congruence.
    + rewrite Hlx in Hlast. by injection Hlast as <-.
Qed.

Lemma message_masked : message ->
  ErrorMessage (str (pre ++ path_text ns ++ post)) = str (pre ++ masked ns ++ post).
Proof.
  intros M. pose proof M as [Hpre Hl Hpost He Hns]. set (t := pre ++ masked ns ++ post).
  assert (Hpath : ReplaceAllString pathPattern "[PATH]" (str (pre ++ path_text ns ++ post)) = str t).
  { unfold ReplaceAllString. by rewrite String.list_ascii_of_string_of_list_ascii, pre_kept, path_replaced. }
  assert (Hno : forall c, c ∈ chars ":\~@" -> c ∉ t).
  { intros c Hc. assert (Hc' : c ∈ chars "/:\~@") by (apply (elem_of_app ["/"%char]); by right).
    assert (Hb : c ∉ chars "/[PATH]").
    { intros Hin. cbn [chars] in Hc, Hin. set_unfold in Hc. set_unfold in Hin. naive_solver. }
    intros [H|[H|H]%elem_of_app]%elem_of_app; [by apply (quiet_avoids c pre)| |by apply (quiet_avoids c post)].
    apply (masked_avoids c ns Hb) in H; [done|]. eapply Forall_impl; [exact Hns|]. intros n Hn. by apply plain_avoids. }
  assert (Hkeep : forall p repl, p <> [] -> ~ contains p t -> ReplaceAllString p repl (str t) = str t).
  { intros p repl Hp Hc. unfold ReplaceAllString. by rewrite String.list_ascii_of_string_of_list_ascii, ReplaceAll_absent. }
  assert (Hreq : forall p c, c ∈ chars ":\~@" -> Cls (Ascii.eqb c) ∈ p -> ~ contains p t).
  { intros p c Hc Hp Hcon. by apply (Hno c Hc), (contains_required p). }
  unfold ErrorMessage. cbv zeta. rewrite Hpath. unfold sanitizeEmailAddresses.
  rewrite !Hkeep; try done; try by apply ip_absent.
  all: first [apply (Hreq _ "@"%char); by repeat constructor|apply (Hreq _ "~"%char); by repeat constructor
    |apply (Hreq _ ":"%char); by repeat constructor].
Qed.
End message.

(** The path in a message is masked two names at a time: of a path of an even
    number of names nothing is left, of an odd number the last one is, the name
    of the file. *)
Theorem paths_masked_in_pairs pre post ns k n :
  message pre post (ns ++ [n]) -> length ns = (2 * k)%nat ->
  ErrorMessage (str (pre ++ path_text ns ++ post)) = str (pre ++ brackets k ++ post) /\
  ErrorMessage (str (pre ++ path_text (ns ++ [n]) ++ post)) = str (pre ++ brackets k ++ "/"%char :: n ++ post).
Proof.
  intros M Hk. split.
  - rewrite message_masked; [by rewrite (masked_even _ _ Hk)|].
    destruct M as [? ? ? ? Hns]. split; [done..|]. by apply Forall_app in Hns as [Hns _].
  - by rewrite message_masked, (masked_odd _ _ _ Hk), <- app_assoc.
Qed.

Lemma paths_masked_in_pairs_witness :
  let pre := chars "open " in let post := chars " denied" in
  let ns := [chars "home"; chars "ann"] in let n := chars "salaries.csv" in
  message pre post (ns ++ [n]) /\
  ErrorMessage "open /home/ann denied" = "open [PATH] denied" /\
  ErrorMessage "open /home/ann/salaries.csv denied" = "open [PATH]/salaries.csv denied".
Proof.
  intros pre post ns n. assert (M : message pre post (ns ++ [n])).
  { split; [by repeat constructor|done|by repeat constructor|done|].
    repeat constructor; try done; by repeat constructor. }
  split; [exact M|]. exact (paths_masked_in_pairs pre post ns 1 n M eq_refl).
Defined.

(** ** Classes of failures *)

Module Failure.
Definition FailureTransient : string := "TRANSIENT".
Definition FailureDeterministic : string := "DETERMINISTIC".
Definition FailureTimeout : string := "TIMEOUT".
Definition FailureSandboxViolation : string := "SANDBOX_VIOLATION".

(** A plain error, an error that wraps one ([%w]) and a failure. *)
Inductive go_error :=
  | Plain (msg : string)
  | Wrapped (msg : string) (inner : go_error)
  | Failed (Type_ Message : string) (Err : option go_error).

Fixpoint Error (e : go_error) : string :=
  match e with
  | Plain msg => msg
  | Wrapped msg inner => msg +:+ ": " +:+ Error inner
  | Failed _ msg (Some inner) => msg +:+ ": " +:+ Error inner
  | Failed _ msg None => msg
  end.

Definition Unwrap (e : go_error) : option go_error :=
  match e with Plain _ => None | Wrapped _ inner => Some inner | Failed _ _ inner => inner end.

Definition NewFailure (t message : string) (err : option go_error) : go_error := Failed t message err.

(** [errors.As]: the first failure of the chain. *)
Fixpoint GetFailure (e : go_error) : option go_error :=
  match e with Plain _ => None | Wrapped _ inner => GetFailure inner | Failed _ _ _ => Some e end.

Definition IsFailure (e : go_error) : bool := match GetFailure e with Some _ => true | None => false end.

Definition ClassifyFailure (err : option go_error) : string :=
  match err with
  | None => ""
  | Some e => match GetFailure e with Some (Failed t _ _) => t | _ => FailureDeterministic end
  end.

(** Wrapping keeps the class, and an outer failure hides an inner one. *)
Lemma classify_wrapped msg e : ClassifyFailure (Some (Wrapped msg e)) = ClassifyFailure (Some e).
Proof. done. Qed.

Lemma classify_outer t msg e : ClassifyFailure (Some (NewFailure t msg e)) = t.
Proof. done. Qed.

Lemma not_failure_deterministic e : IsFailure e = false -> ClassifyFailure (Some e) = FailureDeterministic.
Proof. unfold IsFailure, ClassifyFailure. by destruct (GetFailure e). Qed.
End Failure.
