(* ===== verification/Path.v ===== *)
(** * Path: Go's [path/filepath] on Unix, and helpers of package [strings]

    The functions of the standard library that the agent's path handling uses,
    executable on concrete strings. *)
From S2P Require Import Prelude.
From Stdlib Require Import Ascii.

Local Open Scope nat_scope.

(** The components between separators: [n] separators give [n+1] components. *)
Fixpoint split_on (sep : ascii) (s : string) : list string :=
  match s with
  | EmptyString => [EmptyString]
  | String c s' =>
      if Ascii.eqb c sep then EmptyString :: split_on sep s'
      else match split_on sep s' with
           | x :: l => String c x :: l
           | [] => [String c EmptyString]
           end
  end.

Fixpoint join_with (sep : string) (l : list string) : string :=
  match l with
  | [] => EmptyString
  | [x] => x
  | x :: l => x +:+ sep +:+ join_with sep l
  end.

(** [strings.HasPrefix], [strings.HasSuffix], [strings.TrimSuffix]. *)
Definition HasPrefix (s prefix : string) : bool := String.prefix prefix s.

Definition suffix_at (s : string) (n : nat) : string := String.substring n (String.length s - n) s.

Definition HasSuffix (s suffix : string) : bool :=
  (String.length suffix <=? String.length s) &&
  (suffix_at s (String.length s - String.length suffix) =?s suffix).

Definition TrimSuffix (s suffix : string) : string :=
  if HasSuffix s suffix then String.substring 0 (String.length s - String.length suffix) s else s.

Definition TrimPrefix (s prefix : string) : string :=
  if HasPrefix s prefix then suffix_at s (String.length prefix) else s.

(** [strings.TrimRight(s, "/")]. *)
Fixpoint trim_right_slash (s : string) : string :=
  match s with
  | EmptyString => EmptyString
  | String c s' =>
      match trim_right_slash s' with
      | EmptyString => if Ascii.eqb c "/"%char then EmptyString else String c EmptyString
      | t => String c t
      end
  end.

(** [strings.TrimSpace] on ASCII. *)
Definition is_space (c : Ascii.ascii) : bool :=
  let n := Ascii.nat_of_ascii c in ((n =? 32) || ((9 <=? n) && (n <=? 13)))%nat.

Fixpoint trim_left (s : string) : string :=
  match s with
  | String c s' => if is_space c then trim_left s' else s
  | EmptyString => s
  end.

Fixpoint trim_right (s : string) : string :=
  match s with
  | EmptyString => EmptyString
  | String c s' => match trim_right s' with
                   | EmptyString => if is_space c then EmptyString else String c EmptyString
                   | t => String c t
                   end
  end.

Definition TrimSpace (s : string) : string := trim_right (trim_left s).

(** [strings.Index]. *)
Fixpoint strings_Index (s substr : string) : option nat :=
  if String.prefix substr s then Some 0
  else match s with
       | EmptyString => None
       | String _ s' => S <$> strings_Index s' substr
       end.

Definition slash : ascii := "/".

(** [filepath.IsAbs]. *)
Definition IsAbs (path : string) : bool := HasPrefix path "/".

(** One component of [filepath.Clean]; the stack is in reverse. *)
Definition clean_component (rooted : bool) (stack : list string) (c : string) : list string :=
  if (c =?s "") || (c =?s ".") then stack
  else if c =?s ".." then
    match stack with
    | [] => if rooted then [] else [".."]
    | x :: stack' => if x =?s ".." then ".." :: stack else stack'
    end
  else c :: stack.

Definition Clean (path : string) : string :=
  if path =?s "" then "."
  else
    let rooted := IsAbs path in
    let body := join_with "/" (rev (foldl (clean_component rooted) [] (split_on slash path))) in
    if rooted then "/" +:+ body
    else if body =?s "" then "." else body.

(** [filepath.Join]: empty elements are ignored. *)
Definition Join (elems : list string) : string :=
  let l := List.filter (fun s => negb (s =?s "")) elems in
  match l with [] => "" | _ => Clean (join_with "/" l) end.

(** [filepath.Dir]: all but the last element. *)
Definition Dir (path : string) : string :=
  let l := split_on slash path in
  match removelast l with
  | [] => "."
  | l' => Clean (join_with "/" l' +:+ "/")
  end.

(** [filepath.Base]. *)
Definition Base (path : string) : string :=
  if path =?s "" then "."
  else
    match List.filter (fun s => negb (s =?s "")) (split_on slash path) with
    | [] => "/"
    | l => List.last l ""
    end.

(** [filepath.Ext]: from the last dot of the last element. *)
Definition Ext (path : string) : string :=
  match rev (split_on "." (List.last (split_on slash path) "")) with
  | x :: _ :: _ => "." +:+ x
  | _ => ""
  end.

Example path_ex :
  (Join ["/data/"; "out"; "x.csv"], Join ["a"; "../b"; ""], Dir "/data/x.csv", Dir "x.csv",
   Dir "/x", Base "/data/x.csv", Ext "/d.ir/x.tar.gz", Ext "/d.ir/x", Clean "/a/./b/../../c/") =
  ("/data/out/x.csv", "b", "/data", ".", "/", "x.csv", ".gz", "", "/c").
Proof. reflexivity. Qed.

Example suffix_ex :
  (HasSuffix "a.recovery.json" ".recovery.json", TrimSuffix "a.recovery.json" ".recovery.json",
   TrimPrefix "v1.2" "v", HasSuffix "x" ".json") = (true, "a", "1.2", false).
Proof. reflexivity. Qed.

Lemma append_cons c s t : String c s +:+ t = String c (s +:+ t).
Proof. done. Qed.

Lemma append_nil_r s : s +:+ "" = s.
Proof. induction s as [|c s IH]; [done|]. by rewrite append_cons, IH. Qed.

Lemma append_assoc s t u : (s +:+ t) +:+ u = s +:+ (t +:+ u).
Proof. induction s as [|c s IH]; [done|]. by rewrite !append_cons, IH. Qed.

Lemma length_append s t : String.length (s +:+ t) = String.length s + String.length t.
Proof. induction s as [|c s IH]; simpl; [done|by rewrite IH]. Qed.

Lemma append_inj_r s t u : s +:+ u = t +:+ u -> s = t.
Proof.
  revert t. induction s as [|c s IH]; intros [|d t] H; simpl in *; simplify_eq.
  - done.
  - exfalso. apply (f_equal String.length) in H. simpl in H. rewrite !length_append in H. simpl in H. lia.
  - exfalso. apply (f_equal String.length) in H. simpl in H. rewrite !length_append in H. simpl in H. lia.
  - f_equal. by apply IH.
Qed.

Lemma append_neq_r s u : u <> "" -> s +:+ u <> s.
Proof.
  intros Hu H. apply (f_equal String.length) in H. rewrite length_append in H.
  destruct u; [done|]. simpl in H. lia.
Qed.

(** ** Absolute paths

    A cleaned absolute path is the list of its components, and [Join], [Base]
    and [Dir] are appending, taking and dropping the last one. *)

Definition no_slash (c : string) : Prop := split_on slash c = [c].

(** The name of an entry of a directory. *)
Definition plain_name (c : string) : Prop := c <> "" /\ c <> "." /\ c <> ".." /\ no_slash c.

Definition abs_path (l : list string) : string := "/" +:+ join_with "/" l.

Lemma split_on_not_nil sep s : split_on sep s <> [].
Proof. destruct s as [|c s]; simpl; [done|]. destruct (Ascii.eqb c sep); [done|]. by destruct (split_on sep s). Qed.

Lemma split_on_app sep a b :
  split_on sep (a +:+ String sep b) = split_on sep a ++ split_on sep b.
Proof.
  induction a as [|c a IH].
  - simpl. by rewrite Ascii.eqb_refl.
  - rewrite append_cons. simpl. rewrite IH. destruct (Ascii.eqb c sep); [done|].
    pose proof (split_on_not_nil sep a). by destruct (split_on sep a).
Qed.

Lemma no_slash_cons c s : no_slash (String c s) <-> c <> slash /\ no_slash s.
Proof.
  unfold no_slash. simpl. destruct (Ascii.eqb_spec c slash) as [->|Hne].
  - split; [intros H; discriminate H|by intros [? _]].
  - pose proof (split_on_not_nil slash s). destruct (split_on slash s) as [|x l]; [done|].
    split; [intros [= -> ->]; done|intros [_ [= -> ->]]; done].
Qed.

Lemma no_slash_app a b : no_slash a -> no_slash b -> no_slash (a +:+ b).
Proof.
  induction a as [|c a IH]; [done|]. rewrite append_cons, !no_slash_cons. intros [Hc Ha] Hb.
  by split; [|apply IH].
Qed.

Lemma split_on_parts s : Forall no_slash (split_on slash s).
Proof.
  induction s as [|c s IH]; [by repeat constructor|]. simpl.
  destruct (Ascii.eqb_spec c slash) as [->|Hne]; [by constructor|].
  destruct IH as [|x l Hx Hl]; [repeat constructor; by apply no_slash_cons|].
  constructor; [by apply no_slash_cons|done].
Qed.

Lemma split_on_join l : Forall no_slash l -> l <> [] -> split_on slash (join_with "/" l) = l.
Proof.
  intros Hl. induction Hl as [|x l Hx Hl IH]; [done|]. intros _. destruct l as [|y l]; [exact Hx|].
  change (join_with "/" (x :: y :: l)) with (x +:+ String slash (join_with "/" (y :: l))).
  rewrite split_on_app, Hx, IH by done. done.
Qed.

Lemma plain_no_slash l : Forall plain_name l -> Forall no_slash l.
Proof. intros H. eapply Forall_impl; [exact H|]. by intros c (_ & _ & _ & ?). Qed.

(** The components of an absolute path, up to empty ones. *)
Lemma split_on_abs l :
  Forall plain_name l -> split_on slash (abs_path l) = "" :: (match l with [] => [""] | _ => l end).
Proof.
  intros Hl. change (abs_path l) with ("" +:+ String slash (join_with "/" l)). rewrite split_on_app.
  simpl. f_equal. destruct l as [|x l]; [done|]. by apply split_on_join; [apply plain_no_slash|].
Qed.

Lemma clean_plain r st l : Forall plain_name l -> foldl (clean_component r) st l = rev l ++ st.
Proof.
  intros Hl. revert st. induction Hl as [|c l (H1 & H2 & H3 & _) _ IH]; intros st; [done|].
  simpl. rewrite IH, <- app_assoc. unfold clean_component. by rewrite !eqb_neq_s.
Qed.

Lemma Clean_split l p :
  Forall plain_name l -> IsAbs p = true ->
  foldl (clean_component true) [] (split_on slash p) = rev l -> Clean p = abs_path l.
Proof.
  intros Hl Habs E. unfold Clean. rewrite Habs, E, rev_involutive.
  destruct (eqb_spec_s p "") as [->|_]; [discriminate Habs|done].
Qed.

(** Cleaning an absolute path leaves plain components only. *)
Lemma Clean_abs p : IsAbs p = true -> exists l, Forall plain_name l /\ Clean p = abs_path l.
Proof.
  intros Habs.
  assert (H : forall parts st, Forall no_slash parts -> Forall plain_name st ->
    Forall plain_name (foldl (clean_component true) st parts)).
  { induction parts as [|c parts IH]; intros st Hp Hst; [done|].
    inversion_clear Hp as [|? ? Hc Hp']. simpl. apply IH; [done|]. unfold clean_component.
    destruct (eqb_spec_s c "") as [->|H1]; [done|]. destruct (eqb_spec_s c ".") as [->|H2]; [done|].
    destruct (eqb_spec_s c "..") as [->|H3]; [|by constructor]. simpl.
    destruct Hst as [|x st Hx Hst]; [done|]. destruct Hx as (_ & _ & Hx & _).
    by rewrite (eqb_neq_s x "..") by done. }
  exists (rev (foldl (clean_component true) [] (split_on slash p))).
  assert (Hl := H _ [] (split_on_parts p) ltac:(constructor)). split; [by apply Forall_rev|].
  apply Clean_split; [by apply Forall_rev|done|by rewrite rev_involutive].
Qed.

Lemma slash_IsAbs s : IsAbs (String slash s) = true.
Proof. by destruct s. Qed.

Lemma abs_path_IsAbs l : IsAbs (abs_path l) = true.
Proof. apply slash_IsAbs. Qed.

Lemma Clean_abs_path l : Forall plain_name l -> Clean (abs_path l) = abs_path l.
Proof.
  intros Hl. apply Clean_split; [done|apply abs_path_IsAbs|]. rewrite split_on_abs by done.
  destruct l as [|x l]; [done|]. simpl foldl. unfold clean_component at 2. cbn [String.eqb orb].
  change (foldl (clean_component true) [] (x :: l) = rev (x :: l)). by rewrite clean_plain, app_nil_r.
Qed.

Lemma abs_path_app_IsAbs l s : IsAbs (abs_path l +:+ s) = true.
Proof. apply slash_IsAbs. Qed.

Lemma Forall_snoc {A} (P : A -> Prop) (l : list A) x : Forall P l -> P x -> Forall P (l ++ [x]).
Proof. intros Hl Hx. apply Forall_app. split; [done|by apply Forall_singleton]. Qed.

Lemma filter_plain l : Forall plain_name l -> List.filter (fun s => negb (s =?s "")) l = l.
Proof.
  intros Hl. induction Hl as [|x l (H & _) _ IH]; [done|]. simpl. by rewrite (eqb_neq_s x ""), IH by done.
Qed.

Lemma Join_abs_list l fs :
  Forall plain_name l -> Forall plain_name fs -> Join (abs_path l :: fs) = abs_path (l ++ fs).
Proof.
  intros Hl Hfs. unfold Join.
  assert (E : List.filter (fun s => negb (s =?s "")) (abs_path l :: fs) = abs_path l :: fs).
  { simpl. rewrite filter_plain by done. by destruct l. }
  rewrite E. destruct fs as [|f fs]; [rewrite app_nil_r; by apply Clean_abs_path|].
  change (join_with "/" (abs_path l :: f :: fs)) with (abs_path l +:+ String slash (join_with "/" (f :: fs))).
  assert (Hlf : Forall plain_name (l ++ f :: fs)) by (by apply Forall_app).
  apply Clean_split; [done|apply abs_path_app_IsAbs|].
  rewrite split_on_app, split_on_abs, split_on_join by (done || by apply plain_no_slash).
  destruct l as [|x l].
  - change (foldl (clean_component true) [] (f :: fs) = rev (f :: fs)). by rewrite clean_plain, app_nil_r.
  - change (foldl (clean_component true) [] ((x :: l) ++ f :: fs) = rev ((x :: l) ++ f :: fs)).
    by rewrite clean_plain, app_nil_r.
Qed.

Lemma Join_abs l f :
  Forall plain_name l -> plain_name f -> Join [abs_path l; f] = abs_path (l ++ [f]).
Proof. intros Hl Hf. apply Join_abs_list; [done|by apply Forall_singleton]. Qed.

Lemma Base_abs l f : Forall plain_name l -> plain_name f -> Base (abs_path (l ++ [f])) = f.
Proof.
  intros Hl Hf. unfold Base.
  assert (Hlf : Forall plain_name (l ++ [f])) by (by apply Forall_snoc).
  rewrite split_on_abs by done. destruct (eqb_spec_s (abs_path (l ++ [f])) "") as [E|_].
  { destruct (l ++ [f]); discriminate E. }
  destruct (l ++ [f]) as [|x k] eqn:E; [by destruct l|]. rewrite <- E in *. simpl List.filter.
  rewrite filter_plain by done. rewrite E, <- E. apply last_last.
Qed.

Lemma Dir_abs l f : Forall plain_name l -> plain_name f -> Dir (abs_path (l ++ [f])) = abs_path l.
Proof.
  intros Hl Hf. unfold Dir.
  assert (Hlf : Forall plain_name (l ++ [f])) by (by apply Forall_snoc).
  rewrite split_on_abs by done. destruct (l ++ [f]) as [|x k] eqn:E; [by destruct l|].
  rewrite <- E. change ("" :: l ++ [f]) with (("" :: l) ++ [f]). rewrite removelast_last.
  destruct l as [|y l]; [done|].
  change (join_with "/" ("" :: y :: l) +:+ "/") with (abs_path (y :: l) +:+ String slash "").
  apply Clean_split; [done|apply abs_path_app_IsAbs|]. rewrite split_on_app, split_on_abs by done.
  change (("" :: y :: l) ++ split_on slash "") with ("" :: (y :: l) ++ [""]).
  change (foldl (clean_component true) [] ((y :: l) ++ [""]) = rev (y :: l)).
  rewrite foldl_app, (clean_plain _ _ (y :: l)) by done. by rewrite app_nil_r.
Qed.

(** The directory of an absolute path is a cleaned absolute path. *)
Lemma Dir_of_abs p : IsAbs p = true -> exists l, Forall plain_name l /\ Dir p = abs_path l.
Proof.
  intros Habs. destruct p as [|c p]; [discriminate Habs|].
  assert (c = slash) as ->.
  { unfold IsAbs, HasPrefix in Habs. cbn [String.prefix] in Habs.
    destruct (ascii_dec _ c) as [<-|]; [done|discriminate Habs]. }
  unfold Dir. simpl split_on. destruct (split_on slash p) as [|x l] eqn:E; [by apply split_on_not_nil in E|].
  change (removelast ("" :: x :: l)) with ("" :: removelast (x :: l)).
  destruct (removelast (x :: l)) as [|y k]; apply Clean_abs, slash_IsAbs.
Qed.

(** ** Decimal numbers in names *)

Lemma itoa_no_slash n : no_slash (itoa n).
Proof.
  assert (H : forall s, all_chars (fun c => negb (Ascii.eqb c slash)) s = true -> no_slash s).
  { induction s as [|c s IH]; [done|]. cbn [all_chars]. intros [Hc Hs]%andb_prop. apply no_slash_cons.
    split; [by destruct (Ascii.eqb_spec c slash)|by apply IH]. }
  apply H, itoa_chars; reflexivity.
Qed.

(** ** Suffixes *)

Lemma substring_all t : String.substring 0 (String.length t) t = t.
Proof. induction t as [|c t IH]; [done|]. simpl. by rewrite IH. Qed.

Lemma substring_prefix s t : String.substring 0 (String.length s) (s +:+ t) = s.
Proof. induction s as [|c s IH]; [by destruct t|]. rewrite append_cons. simpl. by rewrite IH. Qed.

Lemma substring_suffix s n t : String.substring (String.length s) n (s +:+ t) = String.substring 0 n t.
Proof. induction s as [|c s IH]; [done|]. rewrite append_cons. simpl. apply IH. Qed.

Lemma HasSuffix_app s t : HasSuffix (s +:+ t) t = true.
Proof.
  unfold HasSuffix, suffix_at. rewrite length_append.
  replace (String.length s + String.length t - String.length t) with (String.length s) by lia.
  replace (String.length s + String.length t - String.length s) with (String.length t) by lia.
  rewrite substring_suffix, substring_all, eqb_refl_s.
  by replace (String.length t <=? String.length s + String.length t) with true by (symmetry; apply Nat.leb_le; lia).
Qed.

Lemma TrimSuffix_app s t : TrimSuffix (s +:+ t) t = s.
Proof.
  unfold TrimSuffix. rewrite HasSuffix_app, length_append.
  replace (String.length s + String.length t - String.length t) with (String.length s) by lia.
  apply substring_prefix.
Qed.

(** ** Relative keys below an absolute directory *)

Lemma Join_joined l fs :
  Forall plain_name l -> Forall plain_name fs -> fs <> [] ->
  Join [abs_path l; join_with "/" fs] = abs_path (l ++ fs).
Proof.
  intros Hl Hfs Hne. rewrite <- (Join_abs_list l fs) by done. unfold Join.
  assert (E1 : List.filter (fun s => negb (s =?s "")) (abs_path l :: fs) = abs_path l :: fs).
  { simpl. rewrite filter_plain by done. by destruct l. }
  assert (E2 : List.filter (fun s => negb (s =?s "")) [abs_path l; join_with "/" fs] = [abs_path l; join_with "/" fs]).
  { assert (join_with "/" fs <> "").
    { intros E. pose proof (split_on_join fs (plain_no_slash _ Hfs) Hne) as Hs. rewrite E in Hs.
      destruct Hfs as [|f fs (Hf & _) _]; [done|]. injection Hs as Hs1 Hs2. by apply Hf. }
    simpl. rewrite (eqb_neq_s (join_with "/" fs)) by done. by destruct l. }
  rewrite E1, E2. by destruct fs.
Qed.

Lemma abs_path_inj l k : Forall plain_name l -> Forall plain_name k -> abs_path l = abs_path k -> l = k.
Proof.
  intros Hl Hk E. apply (f_equal (split_on slash)) in E. rewrite !split_on_abs in E by done.
  destruct l as [|x l], k as [|y k]; [done| | |by injection E as -> ->].
  - injection E as E _. inversion_clear Hk as [|? ? (Hn & _) _]. by destruct Hn.
  - injection E as E _. inversion_clear Hl as [|? ? (Hn & _) _]. by destruct Hn.
Qed.

(** ** Prefixes *)

Lemma HasPrefix_app s t : HasPrefix (s +:+ t) s = true.
Proof.
  unfold HasPrefix. induction s as [|c s IH]; [by destruct t|]. rewrite append_cons. simpl.
  by destruct (ascii_dec c c).
Qed.

Lemma join_with_app sep l k : l <> [] -> k <> [] ->
  join_with sep (l ++ k) = join_with sep l +:+ sep +:+ join_with sep k.
Proof.
  intros Hl Hk. induction l as [|x l IH]; [done|]. destruct l as [|y l]; [by destruct k|].
  assert (E : join_with sep ((x :: y :: l) ++ k) = x +:+ sep +:+ join_with sep ((y :: l) ++ k)) by done.
  rewrite E, IH by done. change (join_with sep (x :: y :: l)) with (x +:+ sep +:+ join_with sep (y :: l)).
  by rewrite !append_assoc.
Qed.

Lemma HasPrefix_split s p : HasPrefix s p = true -> exists r, s = p +:+ r.
Proof.
  unfold HasPrefix. revert s. induction p as [|c p IH]; intros s H; [by exists s|].
  destruct s as [|d s]; [done|]. cbn [String.prefix] in H. destruct (Ascii.ascii_dec c d) as [<-|]; [|done].
  destruct (IH s H) as [r ->]. by exists r.
Qed.
