(* ===== verification/Encoding.v ===== *)
(** * Encoding: [encoding/hex] and [encoding/base64]

    The two text encodings that plugin verification uses, on byte strings:
    [hex.EncodeToString], and [base64.StdEncoding] (padded, not strict, newlines
    ignored), with their round trips. *)
From S2P Require Import Prelude.
From Stdlib Require Import Ascii.

Definition Z_of_ascii (c : ascii) : Z := Z.of_nat (nat_of_ascii c).
Definition ascii_of_Z (z : Z) : ascii := ascii_of_nat (Z.to_nat z).

Lemma ascii_of_Z_of_ascii c : ascii_of_Z (Z_of_ascii c) = c.
Proof. unfold ascii_of_Z, Z_of_ascii. by rewrite Nat2Z.id, ascii_nat_embedding. Qed.

Lemma Z_of_ascii_range c : 0 <= Z_of_ascii c < 256.
Proof. unfold Z_of_ascii. pose proof (nat_ascii_bounded c). lia. Qed.

(** ** Hexadecimal *)

Definition hex_digit (z : Z) : ascii := ascii_of_Z (if z <? 10 then 48 + z else 87 + z).

Fixpoint hex_EncodeToString (s : string) : string :=
  match s with
  | EmptyString => EmptyString
  | String c s' => String (hex_digit (Z_of_ascii c / 16))
                     (String (hex_digit (Z_of_ascii c mod 16)) (hex_EncodeToString s'))
  end.

Lemma hex_digit_inj a b : 0 <= a < 16 -> 0 <= b < 16 -> hex_digit a = hex_digit b -> a = b.
Proof.
  intros Ha Hb H. unfold hex_digit, ascii_of_Z in H.
  apply (f_equal nat_of_ascii) in H.
  destruct (Z.ltb_spec a 10), (Z.ltb_spec b 10); rewrite !nat_ascii_embedding in H by lia; lia.
Qed.

#[export] Instance hex_inj : Inj (=) (=) hex_EncodeToString.
Proof.
  intros s. induction s as [|c s IH]; intros [|c' s'] H; try done.
  cbn in H. injection H as H1 H2 H3. f_equal; [|by apply IH].
  pose proof (Z_of_ascii_range c). pose proof (Z_of_ascii_range c').
  apply hex_digit_inj in H1, H2; [|Z.to_euclidean_division_equations; lia..].
  rewrite <- (ascii_of_Z_of_ascii c), <- (ascii_of_Z_of_ascii c'). f_equal.
  Z.to_euclidean_division_equations. lia.
Qed.

(** ** Base64 *)

Definition alphabet : string := "ABCDEFGHIJKLMNOPQRSTUVWXYZabcdefghijklmnopqrstuvwxyz0123456789+/".

Definition sextet_char (z : Z) : ascii :=
  match String.get (Z.to_nat z) alphabet with Some c => c | None => "="%char end.

Fixpoint index_of (c : ascii) (s : string) (i : Z) : option Z :=
  match s with
  | EmptyString => None
  | String c' s' => if Ascii.eqb c c' then Some i else index_of c s' (i + 1)
  end.

Definition char_sextet (c : ascii) : option Z := index_of c alphabet 0.

Fixpoint base64_EncodeToString (s : string) : string :=
  match s with
  | EmptyString => EmptyString
  | String a EmptyString =>
      let x := Z_of_ascii a in
      String (sextet_char (x / 4)) (String (sextet_char (x mod 4 * 16)) "==")
  | String a (String b EmptyString) =>
      let x := Z_of_ascii a in let y := Z_of_ascii b in
      String (sextet_char (x / 4)) (String (sextet_char (x mod 4 * 16 + y / 16))
        (String (sextet_char (y mod 16 * 4)) "="))
  | String a (String b (String c s')) =>
      let x := Z_of_ascii a in let y := Z_of_ascii b in let z := Z_of_ascii c in
      String (sextet_char (x / 4)) (String (sextet_char (x mod 4 * 16 + y / 16))
        (String (sextet_char (y mod 16 * 4 + z / 64)) (String (sextet_char (z mod 64))
          (base64_EncodeToString s'))))
  end.

Definition is_newline (c : ascii) : bool := Ascii.eqb c "010" || Ascii.eqb c "013".

Fixpoint without_newlines (s : string) : string :=
  match s with
  | EmptyString => EmptyString
  | String c s' => if is_newline c then without_newlines s' else String c (without_newlines s')
  end.

(** Groups of four characters; padding ends the text. *)
Fixpoint decode_groups (s : string) : option string :=
  match s with
  | EmptyString => Some EmptyString
  | String a (String b (String c (String d s'))) =>
      w ← char_sextet a; x ← char_sextet b;
      if Ascii.eqb c "=" then
        if Ascii.eqb d "=" && (s' =?s "") then Some (String (ascii_of_Z (w * 4 + x / 16)) "") else None
      else
        y ← char_sextet c;
        if Ascii.eqb d "=" then
          if s' =?s "" then
            Some (String (ascii_of_Z (w * 4 + x / 16)) (String (ascii_of_Z (x mod 16 * 16 + y / 4)) ""))
          else None
        else
          z ← char_sextet d; rest ← decode_groups s';
          Some (String (ascii_of_Z (w * 4 + x / 16)) (String (ascii_of_Z (x mod 16 * 16 + y / 4))
            (String (ascii_of_Z (y mod 4 * 64 + z)) rest)))
  | _ => None
  end.

(** [None] is an error. *)
Definition base64_DecodeString (s : string) : option string := decode_groups (without_newlines s).

Example base64_ex :
  (base64_EncodeToString "Man1", base64_DecodeString "TWFuMQ==", base64_DecodeString "TWF",
   base64_DecodeString "TWE=TWFu") = ("TWFuMQ==", Some "Man1", None, None).
Proof. vm_compute. reflexivity. Qed.

Lemma sextets_ok :
  forallb (fun n => let c := sextet_char (Z.of_nat n) in
    bool_decide (char_sextet c = Some (Z.of_nat n)) && negb (Ascii.eqb c "=") && negb (is_newline c))
    (seq 0 64) = true.
Proof. vm_compute. reflexivity. Qed.

Lemma sextet_spec z : 0 <= z < 64 ->
  char_sextet (sextet_char z) = Some z /\ Ascii.eqb (sextet_char z) "=" = false /\
  is_newline (sextet_char z) = false.
Proof.
  intros Hz. pose proof sextets_ok as H. rewrite forallb_forall in H.
  specialize (H (Z.to_nat z)). rewrite <- list_elem_of_In, elem_of_seq in H.
  specialize (H ltac:(lia)). rewrite Z2Nat.id in H by lia. cbv zeta in H. split_bools. done.
Qed.

(** Induction by groups of three bytes. *)
Lemma string_ind3 (P : string -> Prop) :
  P "" -> (forall a, P (String a "")) -> (forall a b, P (String a (String b ""))) ->
  (forall a b c s, P s -> P (String a (String b (String c s)))) -> forall s, P s.
Proof.
  intros H0 H1 H2 H3. fix IH 1. intros [|a [|b [|c s]]]; [exact H0|apply H1|apply H2|].
  apply H3, IH.
Qed.

Lemma ascii_of_Z_eq z c : z = Z_of_ascii c -> ascii_of_Z z = c.
Proof. intros ->. apply ascii_of_Z_of_ascii. Qed.

Ltac byte_bounds :=
  repeat match goal with
  | c : ascii |- _ =>
      lazymatch goal with
      | _ : 0 <= Z_of_ascii c < 256 |- _ => fail
      | _ => pose proof (Z_of_ascii_range c)
      end
  end.

Ltac sextets :=
  repeat match goal with
  | |- context [is_newline (sextet_char ?z)] =>
      rewrite (proj2 (proj2 (sextet_spec z ltac:(Z.to_euclidean_division_equations; lia))))
  | |- context [char_sextet (sextet_char ?z)] =>
      rewrite (proj1 (sextet_spec z ltac:(Z.to_euclidean_division_equations; lia)))
  | |- context [Ascii.eqb (sextet_char ?z) "="] =>
      rewrite (proj1 (proj2 (sextet_spec z ltac:(Z.to_euclidean_division_equations; lia))))
  end.

Lemma encode_no_newlines s : without_newlines (base64_EncodeToString s) = base64_EncodeToString s.
Proof.
  induction s as [|a|a b|a b c s IH] using string_ind3; byte_bounds; cbn; sextets; cbn; [done..|].
  by rewrite IH.
Qed.

Lemma decode_encode_groups s : decode_groups (base64_EncodeToString s) = Some s.
Proof.
  induction s as [|a|a b|a b c s IH] using string_ind3; byte_bounds;
    cbn [base64_EncodeToString decode_groups]; sextets; cbn [mbind option_bind];
    [done| | |rewrite IH; cbn [mbind option_bind]]; cbn;
    repeat f_equal; apply ascii_of_Z_eq; Z.to_euclidean_division_equations; lia.
Qed.

Lemma base64_DecodeEncode s : base64_DecodeString (base64_EncodeToString s) = Some s.
Proof. unfold base64_DecodeString. by rewrite encode_no_newlines, decode_encode_groups. Qed.
