(* ===== verification/PluginVerify.v ===== *)
(** * PluginVerify: trust in plugins

    Models [internal/plugin/verify.go], [manager.go] and [key_fetcher.go]: the
    signing keys, the verification of a plugin's checksum and signature, loading
    a plugin for execution, and the verification of all plugins at startup.

    The plugin directory is part of a state with files (their contents and
    permission bits), directories, and manifests, which are kept as the values
    they decode to.  SHA-256 and Ed25519 are parameters. *)
From S2P Require Import Prelude GoFloat Path Encoding.

(** ** Results

    A computation returns, fails with an error, or panics. *)
Inductive comp (A : Type) := Ret (a : A) | Throw (e : string) | Panic.
Arguments Ret {A} _.
Arguments Throw {A} _.
Arguments Panic {A}.

Definition bind {A B} (c : comp A) (k : A -> comp B) : comp B :=
  match c with Ret a => k a | Throw e => Throw e | Panic => Panic end.

(** [if err != nil { return fmt.Errorf("ctx: %w", err) }] *)
Definition wrap {A} (ctx : string) (c : comp A) : comp A :=
  match c with Throw e => Throw (ctx +:+ e) | _ => c end.

Definition assert (b : bool) (e : string) : comp unit := if b then Ret tt else Throw e.

Declare Scope comp_scope.
Delimit Scope comp_scope with comp.
Notation "'let!' x := c 'in' k" := (bind c (fun x => k))
  (at level 10, x pattern, c at level 100, k at level 200) : comp_scope.
Local Open Scope comp_scope.

(** ** Data *)

Record PluginResources := mkResources {
  MemoryMB : Z; CPUSeconds : Z; CPULimit : float64; TimeoutSeconds : Z;
  RequiresGPU : bool; GPUMemoryMB : Z }.

Record RuntimeDependency := mkDep { dep_Name : string; dep_Version : string; dep_Source : string }.

Record Manifest := mkManifest {
  Name : string; Version : string; Filename : string; URL : string; Checksum : string;
  PluginType : string; Language : string; PluginGroup : string; Trusted : bool; Network : bool;
  Resources : PluginResources; Signature : string; SignatureKeyID : string;
  SignatureVerified : bool; Dependencies : list RuntimeDependency }.

Definition zeroResources : PluginResources := mkResources 0 0 (f64_of_Z 0) 0 false 0.
Definition zeroManifest : Manifest :=
  mkManifest "" "" "" "" "" "" "" "" false false zeroResources "" "" false [].

(** A zero [time.Time] is [None]. *)
Record SignatureKey := mkKey {
  KeyID : string; PublicKey : string; ExpiresAt : option Z; RevokedAt : option Z }.

(** A manifest file: its value, or what the decoder had filled in when it
    failed. *)
Inductive manifest_file := ManifestData (m : Manifest) | ManifestGarbage (partial : Manifest).

Record plugin_state := mkState {
  files : gmap string (string * Z);
  dirs : gmap string Z;
  manifests : gmap string manifest_file;
  signatureKeys : gmap string SignatureKey;
  keyCache : gmap string (SignatureKey * Z);
  environ : gmap string string }.

Definition with_files m (s : plugin_state) : plugin_state :=
  mkState m (dirs s) (manifests s) (signatureKeys s) (keyCache s) (environ s).
Definition with_dirs m (s : plugin_state) : plugin_state :=
  mkState (files s) m (manifests s) (signatureKeys s) (keyCache s) (environ s).
Definition with_manifests m (s : plugin_state) : plugin_state :=
  mkState (files s) (dirs s) m (signatureKeys s) (keyCache s) (environ s).
Definition with_signatureKeys m (s : plugin_state) : plugin_state :=
  mkState (files s) (dirs s) (manifests s) m (keyCache s) (environ s).
Definition with_keyCache m (s : plugin_state) : plugin_state :=
  mkState (files s) (dirs s) (manifests s) (signatureKeys s) m (environ s).
Definition with_environ m (s : plugin_state) : plugin_state :=
  mkState (files s) (dirs s) (manifests s) (signatureKeys s) (keyCache s) m.

Definition Getenv (k : string) (s : plugin_state) : string := default "" (environ s !! k).

(** [os.Stat] succeeds. *)
Definition exists_path (p : string) (s : plugin_state) : bool :=
  bool_decide (is_Some (files s !! p)) || bool_decide (is_Some (dirs s !! p))
  || bool_decide (is_Some (manifests s !! p)).

(** ** Signing keys *)

Definition defaultKeyTTL : Z := 60 * Minute.

Definition KeyCache_Get (now : Z) (keyID : string) (s : plugin_state) : option SignatureKey :=
  match keyCache s !! keyID with
  | None => None
  | Some (key, fetchedAt) => if defaultKeyTTL <? now - fetchedAt then None else Some key
  end.

Definition KeyCache_Set (now : Z) (keyID : string) (key : SignatureKey) (s : plugin_state) : plugin_state :=
  with_keyCache (<[keyID := (key, now)]> (keyCache s)) s.

Definition KeyCache_Invalidate (keyID : string) (s : plugin_state) : plugin_state :=
  with_keyCache (delete keyID (keyCache s)) s.

Definition KeyCache_Clear (s : plugin_state) : plugin_state := with_keyCache ∅ s.

(** A key that is already registered is kept. *)
Definition RegisterSignatureKey (key : SignatureKey) (s : plugin_state) : plugin_state :=
  if KeyID key =?s "" then s
  else
    match signatureKeys s !! KeyID key with
    | Some _ => s
    | None => KeyCache_Invalidate (KeyID key)
                (with_signatureKeys (<[KeyID key := key]> (signatureKeys s)) s)
    end.

Definition GetSignatureKey (keyID : string) (s : plugin_state) : option SignatureKey :=
  signatureKeys s !! keyID.

(** [time.Since(t) > 0] of a time that is not zero. *)
Definition is_past (now : Z) (t : option Z) : bool :=
  match t with Some t => 0 <? now - t | None => false end.

Definition IsKeyValid (now : Z) (key : SignatureKey) : bool :=
  negb (is_past now (RevokedAt key)) && negb (is_past now (ExpiresAt key)).

(** ** Keys from the control plane *)

Record PluginSigningKey := mkSigningKey {
  sk_KeyID : string; sk_PublicKey : string; sk_Algorithm : string; sk_ExpiresAt : option Z;
  sk_RevokedAt : option Z }.

Definition ConvertToSignatureKey (key : PluginSigningKey) : option SignatureKey :=
  match base64_DecodeString (sk_PublicKey key) with
  | None => None
  | Some b => Some (mkKey (sk_KeyID key) b (sk_ExpiresAt key) None)
  end.

(** [strings.ToUpper] on ASCII. *)
Definition ascii_upper (c : Ascii.ascii) : Ascii.ascii :=
  let n := Ascii.nat_of_ascii c in
  if (Nat.leb 97 n && Nat.leb n 122)%bool then Ascii.ascii_of_nat (n - 32) else c.

Fixpoint strings_ToUpper (s : string) : string :=
  match s with
  | EmptyString => EmptyString
  | String c s' => String (ascii_upper c) (strings_ToUpper s')
  end.

Definition key_variable (keyID : string) : string := "PLUGIN_SIGNING_KEY_" +:+ strings_ToUpper keyID.

(** [loadSigningKeys] of [main], once the keys are fetched. *)
Definition loadSigningKeys (keys : list PluginSigningKey) (s : plugin_state) : plugin_state :=
  foldl (fun s key =>
    match ConvertToSignatureKey key with
    | None => s
    | Some sigKey =>
        let s := RegisterSignatureKey sigKey s in
        with_environ (<[key_variable (sk_KeyID key) := sk_PublicKey key]> (environ s)) s
    end) s keys.

(** ** Verification *)

Definition strictPluginSignatures (s : plugin_state) : bool :=
  let v := strings_ToLower (TrimSpace (Getenv "SENTRA_STRICT_PLUGIN_SIGNATURES" s)) in
  (v =?s "1") || (v =?s "true") || (v =?s "yes") || (v =?s "on").

(** The order of the names in a directory. *)
Definition name_le (a b : string) : Prop := String.leb a b = true.

#[export] Instance name_le_dec : RelDecision name_le.
Proof. intros a b. unfold name_le. apply _. Defined.

(** What the operating system refuses. *)
Record os_faults := mkFaults {
  homeErr : error; mkdirErr : string -> error; chmodErr : string -> error; readErr : string -> error }.

Section verification.
Context (sha256 : string -> string) (ed25519_Verify : string -> string -> string -> bool).
Context (faults : os_faults) (home goos goarch : string).

Definition ReadFile (path : string) (s : plugin_state) : comp string :=
  match readErr faults path with
  | Some e => Throw e
  | None => match files s !! path with
            | Some (content, _) => Ret content
            | None => Throw ("open " +:+ path +:+ ": no such file or directory")
            end
  end.

Definition ReadManifest (path : string) (s : plugin_state) : comp manifest_file :=
  match readErr faults path with
  | Some e => Throw e
  | None => match manifests s !! path with
            | Some f => Ret f
            | None => Throw ("open " +:+ path +:+ ": no such file or directory")
            end
  end.

(** [ed25519.Verify] panics on a key of the wrong length. *)
Definition Verify (publicKey digest signature : string) : comp bool :=
  if (String.length publicKey =? 32)%nat then Ret (ed25519_Verify publicKey digest signature) else Panic.

Definition VerifyPluginSignature (now : Z) (pluginPath signatureB64 keyID : string)
    (s : plugin_state) : comp unit :=
  let! _ := assert (negb (signatureB64 =?s "")) "plugin signature is required but not provided" in
  let! _ := assert (negb (keyID =?s "")) "signature key ID is required but not provided" in
  let! key := match KeyCache_Get now keyID s with
              | Some key => Ret key
              | None => match GetSignatureKey keyID s with
                        | Some key => Ret key
                        | None => Throw ("signature key " +:+ keyID +:+ " not found in cache or local store")
                        end
              end in
  let! _ := assert (IsKeyValid now key) ("signature key " +:+ keyID +:+ " is invalid or expired") in
  let! signature := match base64_DecodeString signatureB64 with
                    | Some x => Ret x
                    | None => Throw "invalid signature encoding: illegal base64 data"
                    end in
  let! _ := assert (String.length signature =? 64)%nat
              ("invalid signature size: expected 64, got " +:+ itoa (Z.of_nat (String.length signature))) in
  let! pluginBytes := wrap "failed to read plugin file for signature verification: " (ReadFile pluginPath s) in
  let! ok := Verify (PublicKey key) (sha256 pluginBytes) signature in
  assert ok "plugin signature verification failed".

Definition ComputeFileChecksum (path : string) (s : plugin_state) : comp string :=
  let! data := ReadFile path s in Ret (hex_EncodeToString (sha256 data)).

Definition VerifyPluginIntegrity (now : Z) (m : Manifest) (pluginDir : string) (s : plugin_state) : comp unit :=
  let binaryPath := Join [pluginDir; Filename m] in
  if Trusted m && (Signature m =?s "") && negb (strictPluginSignatures s) then Ret tt
  else
    let! _ := assert (negb (Checksum m =?s "")) "checksum is required but not provided" in
    let! actualChecksum := wrap "checksum compute failed: " (ComputeFileChecksum binaryPath s) in
    let! _ := assert (actualChecksum =?s Checksum m)
                ("checksum mismatch: expected " +:+ Checksum m +:+ ", got " +:+ actualChecksum) in
    let! _ := assert (negb ((Signature m =?s "") || (SignatureKeyID m =?s "")))
                "signature and signature_key_id are required but not provided" in
    wrap "signature verification failed: "
      (VerifyPluginSignature now binaryPath (Signature m) (SignatureKeyID m) s).

Definition verifyManifestSignatureFromEnv (now : Z) (m : Manifest) (pluginDir : string)
    (s : plugin_state) : comp unit :=
  if Signature m =?s "" then
    if Trusted m && negb (strictPluginSignatures s) then Ret tt
    else Throw "manifest signature is required but missing"
  else
    let! _ := assert (negb (SignatureKeyID m =?s "")) "manifest signature_key_id is required" in
    let fromEnv := Getenv (key_variable (SignatureKeyID m)) s in
    let pubKeyBase64 :=
      if fromEnv =?s "" then
        match GetSignatureKey (SignatureKeyID m) s with
        | Some sigKey => if IsKeyValid now sigKey then base64_EncodeToString (PublicKey sigKey) else ""
        | None => ""
        end
      else fromEnv in
    let! _ := assert (negb (pubKeyBase64 =?s ""))
                ("signing key not found for key_id=" +:+ SignatureKeyID m +:+ " (checked env "
                 +:+ key_variable (SignatureKeyID m) +:+ " and in-memory store)") in
    let! keyBytes := match base64_DecodeString pubKeyBase64 with
                     | Some x => Ret x
                     | None => Throw "invalid public key: illegal base64 data"
                     end in
    let! _ := assert (String.length keyBytes =? 32)%nat
                ("invalid public key size: expected 32, got " +:+ itoa (Z.of_nat (String.length keyBytes))) in
    let! sigBytes := match base64_DecodeString (Signature m) with
                     | Some x => Ret x
                     | None => Throw "invalid signature encoding: illegal base64 data"
                     end in
    let! _ := assert (negb (Filename m =?s "")) "manifest filename is required for signature verification" in
    let! pluginBytes := wrap "failed to read plugin file for signature verification: "
                          (ReadFile (Join [pluginDir; Filename m]) s) in
    let! ok := Verify keyBytes (sha256 pluginBytes) sigBytes in
    assert ok ("manifest signature verification failed for plugin " +:+ Name m).

Definition verifyFileSHA256 (path expected : string) (s : plugin_state) : comp unit :=
  let! _ := assert (negb (expected =?s "")) "checksum is required but missing" in
  let! content := ReadFile path s in
  let got := hex_EncodeToString (sha256 content) in
  assert (got =?s TrimPrefix expected "sha256-")
    ("checksum mismatch: expected=" +:+ expected +:+ " got=" +:+ got).

(** ** The plugin directory *)

(** The ancestors of an absolute path and the path itself. *)
Fixpoint prefixes (done : string) (components : list string) : list string :=
  match components with
  | [] => []
  | c :: components =>
      let p := done +:+ "/" +:+ c in p :: prefixes p components
  end.

Definition ancestors (path : string) : list string :=
  prefixes "" (List.filter (fun c => negb (c =?s "")) (split_on slash path)).

(** [os.MkdirAll(path, 0700)]. *)
Definition MkdirAll (path : string) (s : plugin_state) : plugin_state * error :=
  match mkdirErr faults path with
  | Some e => (s, Some e)
  | None =>
      if existsb (fun p => bool_decide (is_Some (files s !! p)) || bool_decide (is_Some (manifests s !! p)))
           (ancestors path)
      then (s, Some ("mkdir " +:+ path +:+ ": not a directory"))
      else (with_dirs (foldl (fun d p => match d !! p with Some _ => d | None => <[p := 448]> d end)
                         (dirs s) (ancestors path)) s, None)
  end.

(** The permission bits of a path; manifests are written with 0644 or 0600 and
    their bits are not tracked. *)
Definition mode_of (path : string) (s : plugin_state) : option Z :=
  match files s !! path with
  | Some (_, mode) => Some mode
  | None => dirs s !! path
  end.

Definition set_mode (path : string) (mode : Z) (s : plugin_state) : plugin_state :=
  match files s !! path with
  | Some (content, _) => with_files (<[path := (content, mode)]> (files s)) s
  | None => match dirs s !! path with
            | Some _ => with_dirs (<[path := mode]> (dirs s)) s
            | None => s
            end
  end.

(** Bits for group and others are removed by a [chmod] to 0700. *)
Definition enforcePermissions (path : string) (s : plugin_state) : plugin_state * error :=
  match mode_of path s with
  | None => (s, if exists_path path s then None
                else Some ("stat " +:+ path +:+ ": no such file or directory"))
  | Some mode =>
      if Z.land mode 63 =? 0 then (s, None)
      else
        match chmodErr faults path with
        | Some e => (s, Some ("failed to secure permissions on " +:+ path +:+ ": " +:+ e))
        | None => (set_mode path 448 s, None)
        end
  end.

Definition validatePluginPermissions (pluginDir binaryPath : string) (s : plugin_state) :
    plugin_state * error :=
  match enforcePermissions pluginDir s with
  | (s, Some e) => (s, Some e)
  | (s, None) => enforcePermissions binaryPath s
  end.

Definition EnsurePluginDir (s : plugin_state) : plugin_state * comp string :=
  match homeErr faults with
  | Some e => (s, Throw e)
  | None =>
      let sentraDir := Join [home; ".sentra"] in
      match MkdirAll sentraDir s with
      | (s, Some e) => (s, Throw e)
      | (s, None) =>
          let dir := Join [sentraDir; "plugins"] in
          match MkdirAll dir s with
          | (s, Some e) => (s, Throw e)
          | (s, None) =>
              match enforcePermissions dir s with
              | (s, Some e) => (s, Throw e)
              | (s, None) => (s, Ret dir)
              end
          end
      end
  end.

(** ** Loading a plugin *)

Definition getCurrentPlatform : string := goos +:+ "-" +:+ goarch.

Definition manifest_path (dir name : string) : string := Join [dir; name +:+ ".json"].

(** The manifest of the current platform, or the one of [any-any]. *)
Definition find_manifest (baseDir pluginName : string) (s : plugin_state) : comp (string * manifest_file) :=
  let pluginDir := Join [baseDir; pluginName; getCurrentPlatform] in
  let manifestPath := manifest_path pluginDir pluginName in
  match ReadManifest manifestPath s with
  | Ret f => Ret (pluginDir, f)
  | _ =>
      let anyDir := Join [baseDir; pluginName; "any-any"] in
      let anyManifest := manifest_path anyDir pluginName in
      match ReadManifest anyManifest s with
      | Ret f => Ret (anyDir, f)
      | _ => Throw ("missing manifest for plugin " +:+ pluginName +:+ " (tried " +:+ manifestPath
                    +:+ " and " +:+ anyManifest +:+ ")")
      end
  end.

(** The checks up to the permissions, which change nothing. *)
Definition check_manifest (now : Z) (pluginName pluginDir : string) (f : manifest_file)
    (s : plugin_state) : comp Manifest :=
  let! m := match f with
            | ManifestData m => Ret m
            | ManifestGarbage _ => Throw ("invalid manifest for " +:+ pluginName +:+ ": invalid JSON")
            end in
  let! _ := assert (Trusted m) ("plugin " +:+ pluginName +:+ " is not trusted") in
  let! _ := assert (negb (Filename m =?s "")) ("plugin " +:+ pluginName +:+ " missing filename") in
  let! _ := wrap ("plugin " +:+ pluginName +:+ " signature verification failed: ")
              (verifyManifestSignatureFromEnv now m pluginDir s) in
  let binaryPath := Join [pluginDir; Filename m] in
  let! _ := assert (exists_path binaryPath s) ("plugin binary missing: " +:+ binaryPath) in
  Ret m.

Definition LoadAndUpdatePlugin (now : Z) (pluginName : string) (s : plugin_state) :
    plugin_state * comp (string * Manifest) :=
  match EnsurePluginDir s with
  | (s, Throw e) => (s, Throw e)
  | (s, Panic) => (s, Panic)
  | (s, Ret baseDir) =>
      match (let! x := find_manifest baseDir pluginName s in
             let! m := check_manifest now pluginName x.1 x.2 s in Ret (x.1, m)) with
      | Throw e => (s, Throw e)
      | Panic => (s, Panic)
      | Ret (pluginDir, m) =>
          let binaryPath := Join [pluginDir; Filename m] in
          match validatePluginPermissions pluginDir binaryPath s with
          | (s, Some e) =>
              (s, Throw ("plugin " +:+ pluginName +:+ " permission validation failed: " +:+ e))
          | (s, None) =>
              (s, let! _ := wrap ("plugin " +:+ pluginName +:+ " failed verification: ")
                              (verifyFileSHA256 binaryPath (Checksum m) s) in
                  Ret (binaryPath, m))
          end
      end
  end.

(** ** Verification at startup *)

(** The directories in a directory, in the order of their names. *)
Definition ReadDir_dirs (path : string) (s : plugin_state) : list string :=
  merge_sort name_le
    (map Base (List.filter (fun d => (Dir d =?s path) && negb (d =?s path))
                 (map fst (map_to_list (dirs s))))).

Definition verify_entry (now : Z) (baseDir pluginName platformKey : string) (s : plugin_state) : comp unit :=
  let pluginDir := Join [Join [baseDir; pluginName]; platformKey] in
  let! f := ReadManifest (manifest_path pluginDir pluginName) s in
  match f with
  | ManifestGarbage _ => Throw "invalid manifest"
  | ManifestData m => VerifyPluginIntegrity now m pluginDir s
  end.

(** The pairs of plugin and platform that are found. *)
Definition plugin_entries (baseDir : string) (s : plugin_state) : list (string * string) :=
  flat_map (fun name => map (pair name) (ReadDir_dirs (Join [baseDir; name]) s)) (ReadDir_dirs baseDir s).

Fixpoint count_verified (now : Z) (baseDir : string) (entries : list (string * string))
    (verified failed : Z) (s : plugin_state) : comp (Z * Z) :=
  match entries with
  | [] => Ret (verified, failed)
  | (name, platform) :: entries =>
      match verify_entry now baseDir name platform s with
      | Ret _ => count_verified now baseDir entries (verified + 1) failed s
      | Throw _ => count_verified now baseDir entries verified (failed + 1) s
      | Panic => Panic
      end
  end.

Definition VerifyAllCachedPlugins (now : Z) (s : plugin_state) : plugin_state * comp (Z * Z) :=
  match EnsurePluginDir s with
  | (s, Throw e) => (s, Throw e)
  | (s, Panic) => (s, Panic)
  | (s, Ret baseDir) => (s, count_verified now baseDir (plugin_entries baseDir s) 0 0 s)
  end.

(** [InitAndWait] up to the synchronization of dependencies; the program stops
    on its error. *)
Definition InitAndWait (now : Z) (s : plugin_state) : plugin_state * comp unit :=
  match VerifyAllCachedPlugins now s with
  | (s, r) => (s, let! counts := r in
                  assert (counts.2 <=? 0)
                    ("plugin verification failed: " +:+ itoa counts.2 +:+ " plugins invalid"))
  end.
End verification.

(** ** Reasoning about computations *)

Lemma bind_Ret {A B} (c : comp A) (k : A -> comp B) b :
  bind c k = Ret b <-> exists a, c = Ret a /\ k a = Ret b.
Proof. destruct c; cbn; split; [eauto|naive_solver|done|naive_solver|done|naive_solver]. Qed.

Lemma wrap_Ret {A} ctx (c : comp A) a : wrap ctx c = Ret a <-> c = Ret a.
Proof. by destruct c. Qed.

Lemma assert_Ret b e u : assert b e = Ret u <-> b = true.
Proof. unfold assert. destruct b, u; naive_solver. Qed.

Ltac comp_inv H :=
  repeat first
    [ rewrite bind_Ret in H; destruct H as (? & ? & H)
    | rewrite wrap_Ret in H
    | rewrite assert_Ret in H ].

(** Take a computation that returns apart, hypotheses included. *)
Ltac comp_cases :=
  repeat match goal with
  | H : bind _ _ = Ret _ |- _ => apply bind_Ret in H as (? & ? & ?)
  | H : wrap _ _ = Ret _ |- _ => apply wrap_Ret in H
  | H : assert _ _ = Ret _ |- _ => apply assert_Ret in H
  | u : unit |- _ => destruct u
  end.

Lemma nonempty_ne (t : string) : negb (t =?s "") = true <-> t <> "".
Proof. rewrite negb_true_iff, String.eqb_neq. done. Qed.

Lemma Verify_Ret ed25519_Verify key digest sig b :
  Verify ed25519_Verify key digest sig = Ret b <->
  String.length key = 32%nat /\ b = ed25519_Verify key digest sig.
Proof.
  unfold Verify. destruct (Nat.eqb_spec (String.length key) 32); [|naive_solver].
  split; [by intros [= <-]|by intros [_ ->]].
Qed.

Lemma verifyFileSHA256_Ret sha256 faults path expected s u :
  verifyFileSHA256 sha256 faults path expected s = Ret u <->
  expected <> "" /\ exists content, ReadFile faults path s = Ret content /\
    hex_EncodeToString (sha256 content) = TrimPrefix expected "sha256-".
Proof.
  unfold verifyFileSHA256. rewrite bind_Ret. setoid_rewrite assert_Ret. setoid_rewrite bind_Ret.
  setoid_rewrite assert_Ret. setoid_rewrite nonempty_ne. setoid_rewrite String.eqb_eq.
  split; [intros (? & ? & c & ? & ?)|intros (? & c & ? & ?)]; [|exists tt]; eauto 6.
Qed.

Section permissions.
Context (faults : os_faults).

Lemma ReadFile_Ret path s content :
  ReadFile faults path s = Ret content <->
  readErr faults path = None /\ exists mode, files s !! path = Some (content, mode).
Proof.
  unfold ReadFile. destruct (readErr faults path); [naive_solver|].
  destruct (files s !! path) as [[c mode]|]; naive_solver.
Qed.

(** A state that differs only in permissions. *)
Definition same_contents (s s' : plugin_state) : Prop :=
  (forall p, fst <$> files s' !! p = fst <$> files s !! p) /\ environ s' = environ s /\
  signatureKeys s' = signatureKeys s /\ keyCache s' = keyCache s /\ manifests s' = manifests s.

Lemma ReadFile_same path s s' :
  same_contents s s' -> ReadFile faults path s' = ReadFile faults path s.
Proof.
  intros (Hf & _). specialize (Hf path). unfold ReadFile. destruct (readErr faults path); [done|].
  by destruct (files s' !! path) as [[]|], (files s !! path) as [[]|]; simplify_eq/=.
Qed.

Lemma set_mode_same path mode s : same_contents s (set_mode path mode s).
Proof.
  unfold set_mode. destruct (files s !! path) as [[c mo]|] eqn:E.
  - repeat split. intros p. cbn. destruct (decide (p = path)) as [->|].
    + by rewrite lookup_insert_eq, E.
    + by rewrite lookup_insert_ne.
  - destruct (dirs s !! path); repeat split.
Qed.

Lemma enforcePermissions_spec path s s' :
  enforcePermissions faults path s = (s', None) ->
  same_contents s s' /\ forall mode, mode_of path s' = Some mode -> Z.land mode 63 = 0.
Proof.
  unfold enforcePermissions. destruct (mode_of path s) as [mode|] eqn:Em.
  - destruct (Z.eqb_spec (Z.land mode 63) 0) as [Hz|Hz].
    + intros [= <-]. split; [by repeat split|]. rewrite Em. by intros ? [= <-].
    + destruct (chmodErr faults path); [done|]. intros [= <-]. split; [apply set_mode_same|].
      unfold mode_of, set_mode in *. destruct (files s !! path) as [[c mo]|] eqn:E.
      * cbn. rewrite lookup_insert_eq. by intros ? [= <-].
      * rewrite Em. cbn. rewrite E, lookup_insert_eq. by intros ? [= <-].
  - destruct (exists_path path s); [|done]. intros [= <-]. split; [by repeat split|]. by rewrite Em.
Qed.

Lemma same_contents_trans s1 s2 s3 :
  same_contents s1 s2 -> same_contents s2 s3 -> same_contents s1 s3.
Proof.
  intros (H1 & H2 & H3 & H4 & H5) (K1 & K2 & K3 & K4 & K5).
  split; [intros p; by rewrite K1|]. repeat split; congruence.
Qed.

Lemma validatePluginPermissions_same dir path s s' :
  validatePluginPermissions faults dir path s = (s', None) ->
  same_contents s s' /\ forall mode, mode_of path s' = Some mode -> Z.land mode 63 = 0.
Proof.
  unfold validatePluginPermissions. destruct (enforcePermissions faults dir s) as [s1 [e|]] eqn:E; [done|].
  intros H. apply enforcePermissions_spec in E as [E _]. apply enforcePermissions_spec in H as [H Hm].
  split; [by eapply same_contents_trans|done].
Qed.
Lemma Base_nonempty path : Base path <> "".
Proof.
  unfold Base. destruct (path =?s ""); [done|].
  destruct (List.filter _ (split_on slash path)) as [|x l] eqn:E; [done|].
  assert (Hin : In (List.last (x :: l) "") (List.filter (fun c => negb (c =?s "")) (split_on slash path))).
  { rewrite E. clear E. revert x. induction l as [|y l IH]; intros x; [by left|]. right. apply IH. }
  apply filter_In in Hin as [_ Hin]. by apply nonempty_ne in Hin.
Qed.

Lemma MkdirAll_same path s : same_contents s (MkdirAll faults path s).1.
Proof. unfold MkdirAll. by repeat case_match. Qed.

Lemma EnsurePluginDir_same home s s1 dir :
  EnsurePluginDir faults home s = (s1, Ret dir) -> same_contents s s1.
Proof.
  unfold EnsurePluginDir. destruct (homeErr faults); [done|].
  pose proof (MkdirAll_same (Join [home; ".sentra"]) s) as H1.
  destruct (MkdirAll faults (Join [home; ".sentra"]) s) as [s2 [e|]]; [done|]. cbn [fst] in H1.
  pose proof (MkdirAll_same (Join [Join [home; ".sentra"]; "plugins"]) s2) as H2.
  destruct (MkdirAll faults _ s2) as [s3 [e|]]; [done|]. cbn [fst] in H2.
  destruct (enforcePermissions faults _ s3) as [s4 [e|]] eqn:E; [done|]. intros [= <- _].
  apply enforcePermissions_spec in E as [E _]. eauto using same_contents_trans.
Qed.

Lemma enforcePermissions_succeeds path s :
  chmodErr faults path = None -> exists_path path s = true ->
  (enforcePermissions faults path s).2 = None.
Proof.
  intros Hc He. unfold enforcePermissions. rewrite Hc, He. by repeat case_match.
Qed.

Lemma enforcePermissions_exists path path' s :
  exists_path path s = true -> exists_path path (enforcePermissions faults path' s).1 = true.
Proof.
  unfold enforcePermissions. repeat case_match; try done. cbn [fst]. unfold set_mode.
  unfold exists_path. repeat case_match; try done; cbn; intros H';
    destruct (decide (path = path')) as [->|]; rewrite ?lookup_insert_ne by done;
    rewrite ?lookup_insert_eq; try done;
    rewrite ?(bool_decide_true (is_Some (Some _))) by eauto; rewrite ?orb_true_r; done.
Qed.

End permissions.

Section facts.
Context (sha256 : string -> string) (ed25519_Verify : string -> string -> string -> bool).
Context (faults : os_faults) (home goos goarch : string).

(** The public key that loading a plugin uses: the environment first. *)
Definition signing_key (now : Z) (id : string) (s : plugin_state) : option string :=
  if id =?s "" then None
  else
    let fromEnv := Getenv (key_variable id) s in
    key ← (if fromEnv =?s "" then
             k ← GetSignatureKey id s; if IsKeyValid now k then Some (PublicKey k) else None
           else base64_DecodeString fromEnv);
    if (String.length key =? 32)%nat then Some key else None.

(** The signature of the manifest is one of the content. *)
Definition signed (now : Z) (m : Manifest) (content : string) (s : plugin_state) : Prop :=
  exists key sig, signing_key now (SignatureKeyID m) s = Some key /\
    base64_DecodeString (Signature m) = Some sig /\
    ed25519_Verify key (sha256 content) sig = true.

Lemma signing_key_Some now id s key :
  signing_key now id s = Some key <->
  id <> "" /\ String.length key = 32%nat /\
  let fromEnv := Getenv (key_variable id) s in
  let pub := if fromEnv =?s "" then
               match GetSignatureKey id s with
               | Some k => if IsKeyValid now k then base64_EncodeToString (PublicKey k) else ""
               | None => ""
               end
             else fromEnv in
  pub <> "" /\ base64_DecodeString pub = Some key.
Proof.
  unfold signing_key. cbv zeta. destruct (eqb_spec_s id "") as [->|Hid]; [naive_solver|].
  assert (Hlen : forall k, (if (String.length k =? 32)%nat then Some k else None) = Some key <->
                 k = key /\ String.length key = 32%nat).
  { intros k. destruct (Nat.eqb_spec (String.length k) 32); naive_solver. }
  destruct (eqb_spec_s (Getenv (key_variable id) s) "") as [He|He].
  - destruct (GetSignatureKey id s) as [k|]; cbn; [|naive_solver].
    destruct (IsKeyValid now k); cbn; [|naive_solver].
    rewrite Hlen, base64_DecodeEncode. split.
    + intros [-> ?]. repeat split; try done. intros Hbad.
      pose proof (base64_DecodeEncode key) as Hde. rewrite Hbad in Hde. injection Hde as <-. done.
    + naive_solver.
  - destruct (base64_DecodeString _) as [k|]; cbn; [|naive_solver]. rewrite Hlen. naive_solver.
Qed.

Lemma verifyManifestSignature_Ret now m dir s u :
  verifyManifestSignatureFromEnv sha256 ed25519_Verify faults now m dir s = Ret u <->
  if Signature m =?s "" then Trusted m = true /\ strictPluginSignatures s = false
  else Filename m <> "" /\ exists content,
    ReadFile faults (Join [dir; Filename m]) s = Ret content /\ signed now m content s.
Proof.
  unfold verifyManifestSignatureFromEnv, signed. destruct u.
  destruct (eqb_spec_s (Signature m) "") as [|Hsig].
  { destruct (Trusted m), (strictPluginSignatures s); naive_solver. }
  set (pub := if _ =?s "" then _ else _).
  split.
  - intros H. comp_cases. repeat match goal with H : negb _ = true |- _ => apply nonempty_ne in H end.
    match goal with H : (String.length ?k =? 32)%nat = true |- _ => apply Nat.eqb_eq in H; rename k into key end.
    match goal with H : Verify _ _ _ _ = Ret _ |- _ => apply Verify_Ret in H as [_ ?] end. subst.
    repeat match goal with H : match ?o with Some _ => _ | None => _ end = Ret _ |- _ =>
      destruct o eqn:?; [injection H as ->|done] end.
    split; [done|]. eexists. split; [eassumption|]. exists key. eexists.
    split; [apply signing_key_Some|split; [reflexivity|eassumption]].
    split; [done|]. split; [done|]. cbv zeta. by fold pub.
  - intros (Hf & content & Hread & key & sig & Hkey & Hb & Hv).
    apply signing_key_Some in Hkey as (Hid & Hlen & Hpub & Hdec). cbv zeta in Hpub, Hdec.
    fold pub in Hpub, Hdec. rewrite (proj2 (nonempty_ne _) Hid). cbn [assert bind].
    rewrite (proj2 (nonempty_ne _) Hpub). cbn [assert bind]. rewrite Hdec. cbn [bind].
    rewrite Hlen. cbn [Nat.eqb assert bind]. rewrite Hb. cbn [bind].
    rewrite (proj2 (nonempty_ne _) Hf). cbn [assert bind]. rewrite Hread. cbn [wrap bind].
    unfold Verify. rewrite Hlen. cbn [Nat.eqb bind]. by rewrite Hv.
Qed.


End facts.

(** ** Properties *)

Section properties.
Context (sha256 : string -> string) (ed25519_Verify : string -> string -> string -> bool).
Context (faults : os_faults) (home goos goarch : string).
Abbreviation load := (LoadAndUpdatePlugin sha256 ed25519_Verify faults home goos goarch).

(** What a plugin needs in order to load. *)
Definition loads_from (now : Z) (name baseDir : string) (s : plugin_state) (path : string)
    (m : Manifest) : Prop :=
  exists dir content s',
    find_manifest faults goos goarch baseDir name s = Ret (dir, ManifestData m) /\
    path = Join [dir; Filename m] /\ Trusted m = true /\ Filename m <> "" /\
    ReadFile faults path s = Ret content /\
    (if Signature m =?s "" then strictPluginSignatures s = false
     else signed sha256 ed25519_Verify now m content s) /\
    Checksum m <> "" /\ hex_EncodeToString (sha256 content) = TrimPrefix (Checksum m) "sha256-" /\
    validatePluginPermissions faults dir path s = (s', None).

Lemma check_manifest_Ret now name dir f s m :
  check_manifest sha256 ed25519_Verify faults now name dir f s = Ret m <->
  f = ManifestData m /\ Trusted m = true /\ Filename m <> "" /\
  (if Signature m =?s "" then strictPluginSignatures s = false
   else exists content, ReadFile faults (Join [dir; Filename m]) s = Ret content /\
        signed sha256 ed25519_Verify now m content s) /\
  exists_path (Join [dir; Filename m]) s = true.
Proof.
  unfold check_manifest. destruct f as [m'|]; cbn [bind]; [|naive_solver].
  rewrite bind_Ret. setoid_rewrite assert_Ret. setoid_rewrite bind_Ret.
  setoid_rewrite assert_Ret. setoid_rewrite nonempty_ne. setoid_rewrite bind_Ret.
  setoid_rewrite wrap_Ret. setoid_rewrite verifyManifestSignature_Ret. setoid_rewrite bind_Ret.
  setoid_rewrite assert_Ret. split.
  - intros (_ & Ht & _ & Hf & _ & Hs & _ & He & [= <-]).
    split; [done|]. split; [done|]. split; [done|]. split; [|done].
    destruct (Signature m' =?s ""); [by destruct Hs|]. by destruct Hs as (_ & ?).
  - intros ([= ->] & Ht & Hf & Hs & He). exists tt. split; [done|]. exists tt. split; [done|].
    exists tt. split; [|by exists tt]. by destruct (Signature m =?s "").
Qed.

Lemma verifyManifestSignature_no_panic now m dir s :
  verifyManifestSignatureFromEnv sha256 ed25519_Verify faults now m dir s <> Panic.
Proof.
  unfold verifyManifestSignatureFromEnv, assert, Verify, ReadFile, wrap.
  destruct (Signature m =?s ""); [by destruct (_ && _)|].
  set (pub := if _ =?s "" then _ else _).
  destruct (negb (SignatureKeyID m =?s "")); cbn [bind]; [|done].
  destruct (negb (pub =?s "")); cbn [bind]; [|done].
  destruct (base64_DecodeString pub) as [key|]; cbn [bind]; [|done].
  destruct (String.length key =? 32)%nat; cbn [bind]; [|done].
  destruct (base64_DecodeString _); cbn [bind]; [|done].
  destruct (negb _); cbn [bind]; [|done].
  destruct (readErr faults _); cbn [bind]; [done|].
  destruct (files s !! _) as [[]|]; cbn [bind]; [|done]. by destruct (ed25519_Verify _ _ _).
Qed.

Lemma check_manifest_no_panic now name dir f s :
  check_manifest sha256 ed25519_Verify faults now name dir f s <> Panic.
Proof.
  unfold check_manifest, assert. destruct f as [m|]; cbn [bind]; [|done].
  destruct (Trusted m); cbn [bind]; [|done].
  destruct (negb _); cbn [bind]; [|done].
  pose proof (verifyManifestSignature_no_panic now m dir s).
  destruct (verifyManifestSignatureFromEnv _ _ _ _ _ _ _); cbn [wrap bind]; [|done..].
  by destruct (exists_path _ _).
Qed.

(** The outcome of loading, in the terms of [loads_from]. *)
Lemma load_outcome (now : Z) (name baseDir : string) (s s1 s' : plugin_state)
    (r : comp (string * Manifest)) :
  EnsurePluginDir faults home s = (s1, Ret baseDir) -> load now name s = (s', r) ->
  r <> Panic /\ same_contents s1 s' /\
  (forall path m, r = Ret (path, m) <-> loads_from now name baseDir s1 path m) /\
  (forall path m content mode, r = Ret (path, m) -> files s' !! path = Some (content, mode) ->
     Z.land mode 63 = 0).
Proof.
  intros Hdir Hload. revert Hload. rewrite (surjective_pairing (load now name s)). intros [= <- <-].
  unfold LoadAndUpdatePlugin. rewrite Hdir.
  assert (Hrefl : same_contents s1 s1) by (by repeat split).
  assert (Hpanic : find_manifest faults goos goarch baseDir name s1 <> Panic)
    by (unfold find_manifest; by repeat case_match).
  destruct (find_manifest faults goos goarch baseDir name s1) as [[dir f]|e|] eqn:Ef; cbn [bind fst snd]; [| |done].
  2: { split; [done|]. split; [done|]. split; [|done]. intros path m. split; [done|].
       intros (d & c & s' & H & _). by rewrite Ef in H. }
  pose proof (check_manifest_no_panic now name dir f s1) as Hnp.
  pose proof (check_manifest_Ret now name dir f s1) as Hck.
  destruct (check_manifest _ _ _ _ _ _ _ _) as [m0|e|] eqn:Ec; cbn [bind]; [| |done].
  2: { split; [done|]. split; [done|]. split; [|done]. intros path m. split; [done|].
       intros (d & c & s' & H & -> & Ht & Hfn & Hr & Hsig & _). rewrite Ef in H. injection H as <- ->.
       assert (Hbad : Throw e = Ret m); [|done]. apply Hck. split; [done|].
       split; [done|]. split; [done|]. split; [by destruct (_ =?s _); [|exists c]|].
       apply ReadFile_Ret in Hr as (_ & mode & Hm). unfold exists_path. rewrite Hm.
       by rewrite bool_decide_true by eauto. }
  destruct (proj1 (Hck m0) eq_refl) as (-> & Ht & Hfn & Hsig & Hex). clear Hck Hnp.
  destruct (validatePluginPermissions faults dir (Join [dir; Filename m0]) s1) as [s2 [e|]] eqn:Ev.
  { pose proof Ev as Ev'. unfold validatePluginPermissions in Ev'. split; [done|].
    split; [|split; [|done]].
    - destruct (enforcePermissions faults dir s1) as [s3 [e'|]] eqn:E3.
      + unfold enforcePermissions in E3. injection Ev' as <- <-. repeat case_match; by simplify_eq.
      + assert (s3 = s2) as <-
          by (unfold enforcePermissions in Ev' at 1; repeat case_match; by simplify_eq).
        by apply enforcePermissions_spec in E3 as [? _].
    - intros path m. split; [done|]. intros (d & c & s' & H & -> & _ & _ & _ & _ & _ & _ & Hv).
      rewrite Ef in H. injection H as <- <-. by rewrite Ev in Hv. }
  destruct (validatePluginPermissions_same _ _ _ _ _ Ev) as [Hsame Hmode].
  destruct (verifyFileSHA256 sha256 faults (Join [dir; Filename m0]) (Checksum m0) s2) as [u|e|] eqn:Eh; cbn [wrap bind].
  - apply verifyFileSHA256_Ret in Eh as (Hc & content & Hr & Hhash).
    rewrite (ReadFile_same _ _ _ _ Hsame) in Hr. split; [done|]. split; [done|]. split.
    + intros path m. split.
      * intros [= <- <-]. exists dir, content, s2. split; [done|]. split; [done|]. split; [done|].
        split; [done|]. split; [done|]. split; [|done].
        destruct (Signature m0 =?s ""); [done|]. destruct Hsig as (c & Hr' & Hs). congruence.
      * intros (d & c & s' & H & -> & _). rewrite Ef in H. by injection H as <- <-.
    + intros path m c mode [= <- <-] Hf. apply Hmode. unfold mode_of. cbn [fst] in Hf. by rewrite Hf.
  - split; [done|]. split; [done|]. split; [|done]. intros path m. split; [done|].
    intros (d & c & s' & H & -> & _ & _ & Hr & _ & Hc & Hhash & _). rewrite Ef in H. injection H as <- <-.
    assert (Hok : verifyFileSHA256 sha256 faults (Join [dir; Filename m0]) (Checksum m0) s2 = Ret tt).
    { apply verifyFileSHA256_Ret. split; [done|]. exists c. by rewrite (ReadFile_same _ _ _ _ Hsame). }
    by rewrite Eh in Hok.
  - exfalso. revert Eh. unfold verifyFileSHA256, assert, ReadFile. clear.
    repeat (case_match; cbn [bind]); done.
Qed.

(** C25.  A plugin loads, under its path and manifest, exactly when: its
    manifest is trusted, decodes and names a file; the content of that file has
    the manifest's checksum, and is signed by the manifest's key, or the
    manifest is unsigned and strict mode is off; and the permissions of the
    plugin can be made private, which they then are.  Loading never panics. *)
Theorem LoadAndUpdatePlugin_correct (now : Z) (name baseDir : string) (s s1 s' : plugin_state)
    (r : comp (string * Manifest)) :
  EnsurePluginDir faults home s = (s1, Ret baseDir) -> load now name s = (s', r) ->
  r <> Panic /\ same_contents s1 s' /\
  (forall path m, r = Ret (path, m) <-> loads_from now name baseDir s1 path m) /\
  (forall path m content mode, r = Ret (path, m) -> files s' !! path = Some (content, mode) ->
     Z.land mode 63 = 0).
Proof. apply load_outcome. Qed.

Lemma loadSigningKeys_one key pk s :
  base64_DecodeString (sk_PublicKey key) = Some pk -> sk_KeyID key <> "" ->
  GetSignatureKey (sk_KeyID key) s = None ->
  let s' := loadSigningKeys [key] s in
  GetSignatureKey (sk_KeyID key) s' = Some (mkKey (sk_KeyID key) pk (sk_ExpiresAt key) None) /\
  keyCache s' !! sk_KeyID key = None /\
  Getenv (key_variable (sk_KeyID key)) s' = sk_PublicKey key /\ files s' = files s.
Proof.
  intros Hb Hid Hnone. unfold loadSigningKeys, ConvertToSignatureKey. cbn [foldl]. rewrite Hb.
  unfold RegisterSignatureKey. cbn [KeyID]. rewrite (eqb_neq_s _ _ Hid).
  unfold GetSignatureKey in *. rewrite Hnone. unfold Getenv. cbn.
  by rewrite lookup_insert_eq, lookup_delete_eq, lookup_insert_eq.
Qed.

(** A key whose time has expired when it is loaded is refused by
    [VerifyPluginSignature], but still lets plugins load: the environment
    variable in which [loadSigningKeys] puts it knows no expiry. *)
Theorem expired_key_still_loads (now : Z) (key : PluginSigningKey) (pk : string) (s : plugin_state)
    (m : Manifest) (dir content sig : string) :
  base64_DecodeString (sk_PublicKey key) = Some pk -> String.length pk = 32%nat ->
  sk_KeyID key <> "" -> is_past now (sk_ExpiresAt key) = true ->
  GetSignatureKey (sk_KeyID key) s = None -> SignatureKeyID m = sk_KeyID key ->
  Signature m <> "" -> Filename m <> "" ->
  ReadFile faults (Join [dir; Filename m]) s = Ret content ->
  base64_DecodeString (Signature m) = Some sig -> ed25519_Verify pk (sha256 content) sig = true ->
  let s' := loadSigningKeys [key] s in
  verifyManifestSignatureFromEnv sha256 ed25519_Verify faults now m dir s' = Ret tt /\
  VerifyPluginSignature sha256 ed25519_Verify faults now (Join [dir; Filename m]) (Signature m)
    (SignatureKeyID m) s' = Throw ("signature key " +:+ sk_KeyID key +:+ " is invalid or expired").
Proof.
  intros Hb Hlen Hid Hexp Hnone Hkid Hsig Hfn Hr Hdec Hv s'.
  destruct (loadSigningKeys_one key pk s Hb Hid Hnone) as (Hget & Hcache & Henv & Hfiles).
  fold s' in Hget, Hcache, Henv, Hfiles. split.
  - apply verifyManifestSignature_Ret. rewrite (eqb_neq_s _ _ Hsig). split; [done|]. exists content.
    split; [by unfold ReadFile in *; rewrite Hfiles|]. exists pk, sig. split; [|done].
    unfold signing_key. rewrite Hkid, (eqb_neq_s _ _ Hid). cbv zeta. rewrite Henv.
    destruct (eqb_spec_s (sk_PublicKey key) "") as [He|_].
    + rewrite He in Hb. vm_compute in Hb. by injection Hb as <-.
    + rewrite Hb. cbn [mbind option_bind]. by rewrite Hlen.
  - unfold VerifyPluginSignature, KeyCache_Get. rewrite Hkid, Hcache, Hget.
    rewrite (proj2 (nonempty_ne _) Hsig), (proj2 (nonempty_ne _) Hid). cbn [assert bind].
    unfold IsKeyValid. cbn [ExpiresAt RevokedAt is_past]. by rewrite Hexp.
Qed.

Lemma count_verified_spec now baseDir entries v f s :
  match count_verified sha256 ed25519_Verify faults now baseDir entries v f s with
  | Ret (_, f') => f <= f' /\ (f' = f <-> Forall (fun e =>
      verify_entry sha256 ed25519_Verify faults now baseDir e.1 e.2 s = Ret tt) entries)
  | Throw _ => False
  | Panic => ~ Forall (fun e =>
      verify_entry sha256 ed25519_Verify faults now baseDir e.1 e.2 s = Ret tt) entries
  end.
Proof.
  revert v f. induction entries as [|[name platform] entries IH]; intros v f; cbn [count_verified].
  { split; [lia|]. by split. }
  destruct (verify_entry _ _ _ _ _ name platform s) as [[]|e|] eqn:E.
  - specialize (IH (v + 1) f). destruct (count_verified _ _ _ _ _ _ _ _ _) as [[v' f']| |]; [|done|].
    + rewrite Forall_cons. cbn [fst snd]. tauto.
    + rewrite Forall_cons. tauto.
  - specialize (IH v (f + 1)). destruct (count_verified _ _ _ _ _ _ _ _ _) as [[v' f']| |]; [|done|].
    + destruct IH as [Hle _]. split; [lia|]. rewrite Forall_cons. cbn [fst snd]. rewrite E.
      split; [lia|by intros [? _]].
    + rewrite Forall_cons. tauto.
  - rewrite Forall_cons. cbn [fst snd]. rewrite E. by intros [? _].
Qed.

(** The program starts exactly when every plugin directory verifies. *)
Lemma InitAndWait_Ret now s :
  (InitAndWait sha256 ed25519_Verify faults home now s).2 = Ret tt <->
  exists baseDir s1, EnsurePluginDir faults home s = (s1, Ret baseDir) /\
    Forall (fun e => verify_entry sha256 ed25519_Verify faults now baseDir e.1 e.2 s1 = Ret tt)
      (plugin_entries baseDir s1).
Proof.
  unfold InitAndWait, VerifyAllCachedPlugins.
  destruct (EnsurePluginDir faults home s) as [s1 [baseDir|e|]] eqn:E; cbn [snd bind].
  - pose proof (count_verified_spec now baseDir (plugin_entries baseDir s1) 0 0 s1) as H.
    destruct (count_verified _ _ _ _ _ _ _ _ _) as [[v f]|e|]; cbn [bind snd].
    + destruct H as [Hle H]. rewrite assert_Ret, Z.leb_le. split.
      * intros Hf. exists baseDir, s1. split; [done|]. apply H. lia.
      * intros (b & s2 & [= <- <-] & Hall). apply H in Hall. lia.
    + done.
    + split; [done|]. by intros (b & s2 & [= <- <-] & Hall).
  - split; [done|]. by intros (b & s2 & [= ] & _).
  - split; [done|]. by intros (b & s2 & [= ] & _).
Qed.
End properties.

(** ** Witnesses *)

Definition no_faults : os_faults := mkFaults None (fun _ => None) (fun _ => None) (fun _ => None).

(** A toy signature scheme: a signature is the key followed by the digest. *)
Definition toy_verify (key digest sig : string) : bool := sig =?s key +:+ digest.

Definition key32 : string := "0123456789abcdef0123456789abcdef".

(** A content and its toy digest are the same 32 bytes, so signatures have 64. *)
Definition content32 : string := "print('hello')  # thirty-two byt".

Definition signed_manifest : Manifest :=
  mkManifest "echo" "1.0.0" "echo.py" "" (hex_EncodeToString content32) "core" "python" "" true false
    zeroResources (base64_EncodeToString (key32 +:+ content32)) "k1" false [].

Definition fresh_state : plugin_state := mkState ∅ ∅ ∅ ∅ ∅ ∅.

Definition plugin_base : string := "/home/u/.sentra/plugins".

Definition installed_state : plugin_state :=
  let s := loadSigningKeys [mkSigningKey "k1" (base64_EncodeToString key32) "ed25519" (Some 10) None]
             fresh_state in
  let dir := plugin_base +:+ "/echo/any-any" in
  with_manifests {[dir +:+ "/echo.json" := ManifestData signed_manifest]}
    (with_files {[dir +:+ "/echo.py" := (content32, 493)]} (MkdirAll no_faults dir s).1).

Lemma LoadAndUpdatePlugin_correct_witness :
  (LoadAndUpdatePlugin id toy_verify no_faults "/home/u" "linux" "amd64" 99 "echo" installed_state).2
  = Ret (plugin_base +:+ "/echo/any-any/echo.py", signed_manifest).
Proof.
  pose (s1 := (EnsurePluginDir no_faults "/home/u" installed_state).1).
  assert (Hdir : EnsurePluginDir no_faults "/home/u" installed_state = (s1, Ret plugin_base))
    by (vm_compute; reflexivity).
  assert (Hl : loads_from id toy_verify no_faults "linux" "amd64" 99 "echo" plugin_base s1
                 (plugin_base +:+ "/echo/any-any/echo.py") signed_manifest).
  { exists (plugin_base +:+ "/echo/any-any"), content32,
      (validatePluginPermissions no_faults (plugin_base +:+ "/echo/any-any")
         (plugin_base +:+ "/echo/any-any/echo.py") s1).1.
    split; [vm_compute; reflexivity|]. split; [vm_compute; reflexivity|].
    split; [reflexivity|]. split; [discriminate|]. split; [vm_compute; reflexivity|].
    split; [exists key32, (key32 +:+ content32)|split; [discriminate|]; split; vm_compute; reflexivity].
    split; [vm_compute; reflexivity|]. split; vm_compute; reflexivity. }
  exact (proj2 (proj1 (proj2 (proj2 (LoadAndUpdatePlugin_correct id toy_verify no_faults "/home/u"
    "linux" "amd64" 99 "echo" plugin_base installed_state s1 _ _ Hdir (surjective_pairing _)))) _ _) Hl).
Defined.

Lemma expired_key_still_loads_witness :
  let key := mkSigningKey "k1" (base64_EncodeToString key32) "ed25519" (Some 10) None in
  let s := with_files {["/p/echo.py" := (content32, 448)]} fresh_state in
  let s' := loadSigningKeys [key] s in
  verifyManifestSignatureFromEnv id toy_verify no_faults 99 signed_manifest "/p" s' = Ret tt /\
  VerifyPluginSignature id toy_verify no_faults 99 "/p/echo.py" (Signature signed_manifest) "k1" s'
    = Throw "signature key k1 is invalid or expired".
Proof.
  apply (expired_key_still_loads id toy_verify no_faults 99
    (mkSigningKey "k1" (base64_EncodeToString key32) "ed25519" (Some 10) None) key32
    (with_files {["/p/echo.py" := (content32, 448)]} fresh_state)
    signed_manifest "/p" content32 (key32 +:+ content32));
    solve [vm_compute; reflexivity | vm_compute; discriminate].
Defined.
