(* ===== verification/PluginInstall.v ===== *)
(** * PluginInstall: downloading, installing and updating plugins

    Models [internal/plugin/fetch.go], [db_sync.go] and [update.go]: a download
    with its retries and its atomic write, the installation of a plugin of the
    control plane, and the update of all installed plugins, over the state of
    [PluginVerify].  The network answers each attempt of a download; the order
    in which Go ranges over a decoded map is a parameter. *)
From S2P Require Import Prelude GoFloat Json Path Encoding PluginVerify.
From Stdlib Require Import Ascii.
Local Open Scope comp_scope.

(** ** Plugins of the control plane *)

Record DBPlugin := mkDBPlugin {
  ID : string; db_Name : string; db_Version : string; db_Language : string; db_PluginType : string;
  StoragePath : string; db_Checksum : string; db_Signature : string; db_SignatureKeyID : string;
  db_Resources : RawMessage; db_Trusted : bool; RolloutPercentage : Z; SignedURL : string;
  OS : string; Arch : string; db_PluginGroup : string; db_Network : bool; RuntimeDeps : RawMessage }.

(** [ShouldRunPlugin]: a device is in one of a hundred classes by its id. *)
Definition device_class (sha256 : string -> string) (deviceID : string) : Z :=
  match sha256 deviceID with
  | String a (String b _) => (Z.lor (Z_of_ascii a) (Z.shiftl (Z_of_ascii b) 8)) mod 100
  | _ => 0
  end.

Definition ShouldRunPlugin (sha256 : string -> string) (deviceID : string) (rolloutPercentage : Z) : bool :=
  if 100 <=? rolloutPercentage then true
  else if rolloutPercentage <=? 0 then false
  else device_class sha256 deviceID <? rolloutPercentage.

(** ** Versions *)

Record semverParts := mkSemver { major : Z; minor : Z; patch : Z }.

Definition parseSemver (version : string) : option semverParts :=
  match split_on "."%char version with
  | a :: b :: c :: _ =>
      x ← Sscanf_d a; y ← Sscanf_d b; z ← Sscanf_d c; Some (mkSemver x y z)
  | _ => None
  end.

Definition isNewerVersion (remote local : string) : bool :=
  if local =?s "" then true
  else
    match parseSemver remote, parseSemver local with
    | Some r, Some l =>
        if negb (major r =? major l) then major l <? major r
        else if negb (minor r =? minor l) then minor l <? minor r
        else patch l <? patch r
    | _, _ => negb (remote =?s local)
    end.

Definition knownOS (s : string) : bool :=
  existsb (String.eqb s) ["linux"; "darwin"; "windows"; "freebsd"; "netbsd"; "openbsd"; "any"].
Definition knownArch (s : string) : bool :=
  existsb (String.eqb s) ["amd64"; "386"; "arm64"; "arm"; "armv7"; "ppc64"; "riscv64"; "any"].

(** [strings.SplitN(key, sep, 2)] with a separator of one byte. *)
Definition SplitN2 (sep : Ascii.ascii) (key : string) : option (string * string) :=
  match split_on sep key with
  | a :: b :: l => Some (a, join_with (String sep EmptyString) (b :: l))
  | _ => None
  end.

Definition splitPlatformKey (key : string) : option (string * string) :=
  let try_sep sep :=
    match SplitN2 sep key with
    | Some (os, arch) => if knownOS os && knownArch arch then Some (os, arch) else None
    | None => None
    end in
  match try_sep "-"%char with
  | Some p => Some p
  | None => match try_sep "_"%char with Some p => Some p | None => try_sep "/"%char end
  end.

(** ** Files *)

(** [os.Stat] of a path, and whether its size is not zero; a directory and a
    manifest have a size. *)
Definition present (path : string) (s : plugin_state) : bool :=
  match files s !! path with
  | Some (content, _) => negb (content =?s "")
  | None => exists_path path s
  end.

Definition has_entries (d : string) (s : plugin_state) : bool :=
  existsb (fun kv => Dir kv.1 =?s d) (map_to_list (files s))
  || existsb (fun kv => Dir kv.1 =?s d) (map_to_list (manifests s))
  || existsb (fun kv => (Dir kv.1 =?s d) && negb (kv.1 =?s d)) (map_to_list (dirs s)).

(** [os.Remove], its error ignored; a directory goes only when it is empty. *)
Definition os_Remove (path : string) (s : plugin_state) : plugin_state :=
  match files s !! path with
  | Some _ => with_files (delete path (files s)) s
  | None =>
      match manifests s !! path with
      | Some _ => with_manifests (delete path (manifests s)) s
      | None => if has_entries path s then s else with_dirs (delete path (dirs s)) s
      end
  end.

Definition put_file (path content : string) (mode : Z) (s : plugin_state) : plugin_state :=
  with_files (<[path := (content, mode)]> (files s)) (with_manifests (delete path (manifests s)) s).

Definition put_manifest (path : string) (m : Manifest) (s : plugin_state) : plugin_state :=
  with_manifests (<[path := ManifestData m]> (manifests s)) (with_files (delete path (files s)) s).

(** Where writing a file fails. *)
Inductive write_fault := WriteOk | CreateFails (e : string) | CopyFails (e : string)
  | SyncFails (e : string) | RenameFails (e : string).

(** A file that [os.Create] makes has mode 0644 under the usual umask. *)
Definition atomicWrite (path content : string) (fault : write_fault) (s : plugin_state) :
    plugin_state * error :=
  let tmp := path +:+ ".tmp" in
  match fault with
  | CreateFails e => (s, Some e)
  | CopyFails e => (os_Remove tmp (put_file tmp "" 420 s), Some e)
  | SyncFails e | RenameFails e => (put_file tmp content 420 s, Some e)
  | WriteOk =>
      match dirs s !! path with
      | Some _ => (put_file tmp content 420 s, Some ("rename " +:+ tmp +:+ " " +:+ path +:+ ": file exists"))
      | None => (put_file path content 420 (os_Remove tmp (put_file tmp "" 420 s)), None)
      end
  end.

(** ** Downloads *)

(** What an attempt brings. *)
Inductive download :=
  | RequestErr (e : string)
  | BadStatus (code : Z) (body : string)
  | Content (body : string) (fault : write_fault).

Definition chmod_0700 (faults : os_faults) (path : string) (s : plugin_state) : plugin_state :=
  match chmodErr faults path with Some _ => s | None => set_mode path 448 s end.

Definition download_retries (s : plugin_state) : nat :=
  match Atoi (Getenv "PLUGIN_DOWNLOAD_RETRIES" s) with
  | Some n => if 0 <? n then Z.to_nat n else 3%nat
  | None => 3%nat
  end.

Section installing.
Context (sha256 : string -> string) (ed25519_Verify : string -> string -> string -> bool).
Context (faults : os_faults) (home goos goarch : string).
(** The answers of the servers: by URL and attempt. *)
Context (network : string -> nat -> download).
(** The order of a map, the value of a number, and writing a manifest. *)
Context (mapOrder : list (string * json) -> list (string * json)).
Context (parse_float : string -> option float64).
Context (manifestErr : string -> error).

Fixpoint download_attempts (url outPath : string) (i n : nat) (lastErr : string) (s : plugin_state) :
    plugin_state * error :=
  match n with
  | O => (s, Some lastErr)
  | S n =>
      match network url i with
      | RequestErr e => download_attempts url outPath (S i) n e s
      | BadStatus code body =>
          download_attempts url outPath (S i) n ("download status " +:+ itoa code +:+ ": " +:+ body) s
      | Content body fault =>
          match atomicWrite outPath body fault s with
          | (s, Some e) => download_attempts url outPath (S i) n ("write failed: " +:+ e) s
          | (s, None) => (chmod_0700 faults outPath s, None)
          end
      end
  end.

Definition downloadWithRetries (url outPath : string) (s : plugin_state) : plugin_state * error :=
  let retries := download_retries s in
  match download_attempts url outPath 0 retries "" s with
  | (s, None) => (s, None)
  | (s, Some e) =>
      (s, Some ("download failed after " +:+ itoa (Z.of_nat retries) +:+ " retries: " +:+ e))
  end.

(** ** Manifests from the control plane *)

Definition decodeResources (fs : list (string * json)) : PluginResources * bool :=
  let '(mem, e1) := field dec_int "memory_mb" 0 fs in
  let '(cpu, e2) := field dec_int "cpu_seconds" 0 fs in
  let '(lim, e3) := field (dec_float parse_float) "cpu_limit" (f64_of_Z 0) fs in
  let '(tmo, e4) := field dec_int "timeout_seconds" 0 fs in
  let '(gpu, e5) := field dec_bool "requires_gpu" false fs in
  let '(gmem, e6) := field dec_int "gpu_memory_mb" 0 fs in
  (mkResources mem cpu lim tmo gpu gmem, e1 || e2 || e3 || e4 || e5 || e6).

(** An error is only logged: what was decoded stays. *)
Definition resources_of (p : DBPlugin) : PluginResources :=
  if raw_is_empty (db_Resources p) then zeroResources
  else (Unmarshal_struct zeroResources decodeResources (db_Resources p)).1.

Definition decodeDep (fs : list (string * json)) : RuntimeDependency * bool :=
  let '(n, e1) := field dec_string "name" "" fs in
  let '(v, e2) := field dec_string "version" "" fs in
  let '(x, e3) := field dec_string "source" "" fs in
  (mkDep n v x, e1 || e2 || e3).

Definition all_some {A} (l : list (option A)) : option (list A) :=
  foldr (fun x acc => match x, acc with Some a, Some l => Some (a :: l) | _, _ => None end) (Some []) l.

(** [json.Unmarshal(raw, &deps)] for a slice, and for a map from strings to
    strings: [None] is an error. *)
Definition decode_dep_list (raw : RawMessage) : option (list RuntimeDependency) :=
  match raw with
  | Raw JNull => Some []
  | Raw (JArr l) =>
      all_some (map (fun j => match j with
        | JObj fs => let '(d, bad) := decodeDep fs in if bad then None else Some d
        | JNull => Some (mkDep "" "" "")
        | _ => None
        end) l)
  | _ => None
  end.

Definition string_member (kv : string * json) : option (string * string) :=
  match kv.2 with JStr v => Some (kv.1, v) | JNull => Some (kv.1, "") | _ => None end.

Definition decode_string_map (j : json) : option (list (string * string)) :=
  match j with
  | JNull => Some []
  | JObj fs => all_some (map string_member (mapOrder (map_of_members fs)))
  | _ => None
  end.

Definition dependencies_of (raw : RawMessage) : list RuntimeDependency :=
  if raw_is_empty raw then []
  else
    match decode_dep_list raw with
    | Some deps => deps
    | None =>
        match raw with
        | Raw j =>
            match decode_string_map j with
            | Some kvs => map (fun kv => mkDep kv.1 kv.2 "") kvs
            | None =>
                match j with
                | JObj langs =>
                    match all_some (map (fun kv => decode_string_map kv.2) (mapOrder (map_of_members langs))) with
                    | Some maps => map (fun kv => mkDep kv.1 kv.2 "python") (concat maps)
                    | None => []
                    end
                | _ => []
                end
            end
        | _ => []
        end
    end.

Definition base_manifest (p : DBPlugin) (deps : list RuntimeDependency) : Manifest :=
  mkManifest (db_Name p) (db_Version p) (Base (StoragePath p)) (SignedURL p) (db_Checksum p)
    (db_PluginType p) (db_Language p) (db_PluginGroup p) (db_Trusted p) (db_Network p)
    (resources_of p) (db_Signature p) (db_SignatureKeyID p) false deps.

(** ** [InstallPlugin] *)

Definition verifyBinary (now : Z) (p : DBPlugin) (path : string) (s : plugin_state) : comp unit :=
  let! _ := if db_Checksum p =?s "" then Ret tt
            else wrap "checksum verification failed: " (verifyFileSHA256 sha256 faults path (db_Checksum p) s) in
  if negb (db_Signature p =?s "") && negb (db_SignatureKeyID p =?s "") then
    wrap "signature verification failed: "
      (VerifyPluginSignature sha256 ed25519_Verify faults now path (db_Signature p) (db_SignatureKeyID p) s)
  else if strictPluginSignatures s
  then Throw "plugin is unsigned and strict signature enforcement is enabled"
  else Ret tt.

Definition writeManifest (path : string) (m : Manifest) (s : plugin_state) : plugin_state * error :=
  match manifestErr path with
  | Some e => (s, Some ("save manifest: " +:+ e))
  | None => (put_manifest path m s, None)
  end.

Definition platform_of (p : DBPlugin) : string :=
  if (OS p =?s "") || (Arch p =?s "") then goos +:+ "-" +:+ goarch else OS p +:+ "-" +:+ Arch p.

(** From the download on. *)
Definition fetch_and_verify (now : Z) (p : DBPlugin) (m : Manifest) (outPath localManifestPath : string)
    (s : plugin_state) : plugin_state * comp bool :=
  match downloadWithRetries (SignedURL p) outPath s with
  | (s, Some e) => (s, Throw ("download plugin: " +:+ e))
  | (s, None) =>
      match verifyBinary now p outPath s with
      | Panic => (s, Panic)
      | Throw e => (os_Remove outPath s, Throw e)
      | Ret _ =>
          match writeManifest localManifestPath m s with
          | (s, Some e) => (os_Remove outPath s, Throw e)
          | (s, None) => (s, Ret true)
          end
      end
  end.

Definition InstallPlugin (now : Z) (p : DBPlugin) (baseDir : string) (s : plugin_state) :
    plugin_state * comp bool :=
  if SignedURL p =?s "" then (s, Ret false)
  else
    let m := base_manifest p (dependencies_of (RuntimeDeps p)) in
    let pluginDir := Join [baseDir; db_Name p; platform_of p] in
    match MkdirAll faults pluginDir s with
    | (s, Some e) => (s, Throw ("create plugin directory: " +:+ e))
    | (s, None) =>
        let localManifestPath := manifest_path pluginDir (db_Name p) in
        let outPath := Join [pluginDir; Filename m] in
        if present outPath s then
          match verifyBinary now p outPath s with
          | Panic => (s, Panic)
          | Ret _ => ((writeManifest localManifestPath m s).1, Ret true)
          | Throw _ => fetch_and_verify now p m outPath localManifestPath (os_Remove outPath s)
          end
        else fetch_and_verify now p m outPath localManifestPath s
    end.

(** [SyncPluginsFromAPI], once the plugins are fetched: the plugins installed
    and the ones skipped. *)
Fixpoint sync_plugins (now : Z) (deviceID baseDir : string) (plugins : list DBPlugin)
    (downloaded skipped : Z) (s : plugin_state) : plugin_state * comp (Z * Z) :=
  match plugins with
  | [] => (s, Ret (downloaded, skipped))
  | p :: plugins =>
      if ShouldRunPlugin sha256 deviceID (RolloutPercentage p) then
        match InstallPlugin now p baseDir s with
        | (s, Panic) => (s, Panic)
        | (s, Throw _) | (s, Ret false) => sync_plugins now deviceID baseDir plugins downloaded skipped s
        | (s, Ret true) => sync_plugins now deviceID baseDir plugins (downloaded + 1) skipped s
        end
      else sync_plugins now deviceID baseDir plugins downloaded (skipped + 1) s
  end.

(** ** [AutoUpdatePlugins] *)

Record counts := mkCounts { updated : Z; skipped : Z; failed : Z; newPlugins : list DBPlugin }.

Definition count_updated (c : counts) : counts := mkCounts (updated c + 1) (skipped c) (failed c) (newPlugins c).
Definition count_skipped (c : counts) : counts := mkCounts (updated c) (skipped c + 1) (failed c) (newPlugins c).
Definition count_failed (c : counts) : counts := mkCounts (updated c) (skipped c) (failed c + 1) (newPlugins c).
Definition count_new (p : DBPlugin) (c : counts) : counts :=
  mkCounts (updated c) (skipped c) (failed c) (newPlugins c ++ [p]).

Definition remote_key (name os arch : string) : string := name +:+ "|" +:+ os +:+ "|" +:+ arch.

(** The last of two plugins with one key wins. *)
Definition remote_map (plugins : list DBPlugin) : gmap string DBPlugin :=
  foldl (fun m p => <[remote_key (db_Name p) (OS p) (Arch p) := p]> m) ∅ plugins.

Definition needs_download (remote : DBPlugin) (local : Manifest) (binaryPath : string)
    (s : plugin_state) : bool :=
  negb (present binaryPath s) || isNewerVersion (db_Version remote) (Version local)
  || (negb (db_Checksum remote =?s "") && negb (Checksum local =?s "")
      && negb (db_Checksum remote =?s Checksum local))
  || (negb (db_Signature remote =?s "") && (Signature local =?s "")).

(** The download of an update and what follows it; the manifest that is written
    has no dependencies. *)
Definition apply_update (now : Z) (stamp : string) (remote : DBPlugin) (name pluginDir : string)
    (c : counts) (s : plugin_state) : plugin_state * comp counts :=
  let manifestPath := manifest_path pluginDir name in
  let binaryPath := Join [pluginDir; Base (StoragePath remote)] in
  if SignedURL remote =?s "" then (s, Ret (count_failed c))
  else
    match downloadWithRetries (SignedURL remote) binaryPath s with
    | (s, Some _) => (s, Ret (count_failed c))
    | (s, None) =>
        match (if db_Checksum remote =?s "" then Ret tt
               else verifyFileSHA256 sha256 faults binaryPath (db_Checksum remote) s) with
        | Throw _ | Panic => (os_Remove binaryPath s, Ret (count_failed c))
        | Ret _ =>
            let written := match manifestErr manifestPath with
                           | Some _ => s
                           | None => put_manifest manifestPath (base_manifest remote []) s
                           end in
            if negb (db_Signature remote =?s "") && negb (db_SignatureKeyID remote =?s "") then
              match VerifyPluginSignature sha256 ed25519_Verify faults now binaryPath
                      (db_Signature remote) (db_SignatureKeyID remote) s with
              | Panic => (s, Panic)
              | Throw _ =>
                  let s := os_Remove binaryPath s in
                  let broken := Join [pluginDir; name +:+ "_broken_" +:+ stamp +:+ ".json"] in
                  (match manifests s !! manifestPath with
                   | Some f => with_manifests (<[broken := f]> (delete manifestPath (manifests s))) s
                   | None => s
                   end, Ret (count_failed c))
              | Ret _ => (written, Ret (count_updated c))
              end
            else if strictPluginSignatures s then (os_Remove binaryPath s, Ret (count_failed c))
            else (written, Ret (count_updated c))
        end
    end.

Definition update_entry (now : Z) (stamp : string) (remotes : gmap string DBPlugin)
    (baseDir name platformKey : string) (c : counts) (s : plugin_state) : plugin_state * comp counts :=
  match splitPlatformKey platformKey with
  | None => (s, Ret c)
  | Some (os, arch) =>
      let pluginDir := Join [Join [baseDir; name]; platformKey] in
      match ReadManifest faults (manifest_path pluginDir name) s with
      | Throw _ | Panic => (s, Ret (count_failed c))
      | Ret f =>
          let local := match f with ManifestData m => m | ManifestGarbage m => m end in
          match remotes !! remote_key name os arch with
          | None => (s, Ret c)
          | Some remote =>
              if needs_download remote local (Join [pluginDir; Base (StoragePath remote)]) s
              then apply_update now stamp remote name pluginDir c s
              else (s, Ret (count_skipped c))
          end
      end
  end.

Fixpoint update_entries (now : Z) (stamp : string) (remotes : gmap string DBPlugin) (baseDir : string)
    (entries : list (string * string)) (c : counts) (s : plugin_state) : plugin_state * comp counts :=
  match entries with
  | [] => (s, Ret c)
  | (name, platform) :: entries =>
      match update_entry now stamp remotes baseDir name platform c s with
      | (s, Ret c) => update_entries now stamp remotes baseDir entries c s
      | r => r
      end
  end.

(** Plugins that have no local directory. *)
Fixpoint install_missing (now : Z) (deviceID baseDir : string) (localDirs : list string)
    (plugins : list DBPlugin) (c : counts) (s : plugin_state) : plugin_state * comp counts :=
  match plugins with
  | [] => (s, Ret c)
  | p :: plugins =>
      if negb (ShouldRunPlugin sha256 deviceID (RolloutPercentage p))
         || existsb (String.eqb (db_Name p)) localDirs
      then install_missing now deviceID baseDir localDirs plugins c s
      else
        match InstallPlugin now p baseDir s with
        | (s, Panic) => (s, Panic)
        | (s, Throw _) => install_missing now deviceID baseDir localDirs plugins (count_failed c) s
        | (s, Ret true) => install_missing now deviceID baseDir localDirs plugins (count_new p c) s
        | (s, Ret false) => install_missing now deviceID baseDir localDirs plugins c s
        end
  end.

(** [fetched] is the identity of the device with the plugins of the control
    plane, or the error of one of the two. *)
Definition AutoUpdatePlugins (now : Z) (stamp : string) (fetched : comp (string * list DBPlugin))
    (s : plugin_state) : plugin_state * comp counts :=
  match EnsurePluginDir faults home s with
  | (s, Throw e) => (s, Throw e)
  | (s, Panic) => (s, Panic)
  | (s, Ret baseDir) =>
      match fetched with
      | Throw e => (s, Throw e)
      | Panic => (s, Panic)
      | Ret (deviceID, remotePlugins) =>
          let localDirs := ReadDir_dirs baseDir s in
          match update_entries now stamp (remote_map remotePlugins) baseDir
                  (plugin_entries baseDir s) (mkCounts 0 0 0 []) s with
          | (s, Ret c) => install_missing now deviceID baseDir localDirs remotePlugins c s
          | r => r
          end
      end
  end.
End installing.

(** ** What the operations leave alone *)

(** The signing keys and the environment. *)
Definition same_keys (s s' : plugin_state) : Prop :=
  environ s' = environ s /\ signatureKeys s' = signatureKeys s /\ keyCache s' = keyCache s.

#[export] Instance same_keys_preorder : PreOrder same_keys.
Proof. split; [by intros s|intros s1 s2 s3 (?&?&?) (?&?&?); unfold same_keys; repeat split; congruence]. Qed.

Create HintDb plugins discriminated.

Lemma put_file_keys path content mode s : same_keys s (put_file path content mode s).
Proof. done. Qed.
Lemma put_manifest_keys path m s : same_keys s (put_manifest path m s).
Proof. done. Qed.
Lemma os_Remove_keys path s : same_keys s (os_Remove path s).
Proof. unfold os_Remove. by repeat case_match. Qed.
Lemma set_mode_keys path mode s : same_keys s (set_mode path mode s).
Proof. unfold set_mode. by repeat case_match. Qed.
Lemma MkdirAll_keys faults path s : same_keys s (MkdirAll faults path s).1.
Proof. unfold MkdirAll. by repeat case_match. Qed.

#[export] Hint Resolve put_file_keys put_manifest_keys os_Remove_keys set_mode_keys MkdirAll_keys : plugins.

Lemma atomicWrite_keys path content fault s : same_keys s (atomicWrite path content fault s).1.
Proof.
  unfold atomicWrite. assert (Htmp : same_keys s (os_Remove (path +:+ ".tmp") (put_file (path +:+ ".tmp") "" 420 s)))
    by (etrans; [apply (put_file_keys (path +:+ ".tmp") "" 420)|auto with plugins]).
  destruct fault; [destruct (dirs s !! path)|..]; cbn [fst]; auto with plugins; try done.
Qed.

Lemma chmod_keys faults path s : same_keys s (chmod_0700 faults path s).
Proof. unfold chmod_0700. case_match; [done|auto with plugins]. Qed.

#[export] Hint Resolve atomicWrite_keys chmod_keys : plugins.

Lemma download_attempts_keys faults network url outPath i n e s :
  same_keys s (download_attempts faults network url outPath i n e s).1.
Proof.
  revert i e s. induction n as [|n IH]; intros i e s; cbn [download_attempts]; [done|].
  destruct (network url i) as [x|code body|body fault]; [apply IH..|].
  pose proof (atomicWrite_keys outPath body fault s) as Hw.
  destruct (atomicWrite outPath body fault s) as [s1 [x|]]; cbn [fst] in *.
  - etrans; [exact Hw|apply IH].
  - etrans; [exact Hw|apply chmod_keys].
Qed.

Lemma downloadWithRetries_keys faults network url outPath s :
  same_keys s (downloadWithRetries faults network url outPath s).1.
Proof.
  unfold downloadWithRetries. pose proof (download_attempts_keys faults network url outPath 0
    (download_retries s) "" s) as H. by destruct (download_attempts _ _ _ _ _ _ _ _) as [s1 [e|]].
Qed.
#[export] Hint Resolve downloadWithRetries_keys : plugins.

(** ** The verification of a start *)

Section start.
Context (sha256 : string -> string) (ed25519_Verify : string -> string -> string -> bool).
Context (faults : os_faults) (home : string).

(** The exemption of [VerifyPluginIntegrity]. *)
Definition exempt (m : Manifest) (s : plugin_state) : bool :=
  Trusted m && (Signature m =?s "") && negb (strictPluginSignatures s).

Lemma hex_no_prefix t u : HasPrefix t "sha256-" = true -> hex_EncodeToString u <> t.
Proof.
  intros Hp <-. destruct u as [|c u]; [done|]. cbn [hex_EncodeToString] in Hp. unfold HasPrefix in Hp.
  assert (Hd : hex_digit (Z_of_ascii c / 16) = "s"%char).
  { cbn [String.prefix] in Hp. destruct (ascii_dec "s" _) as [<-|]; [done|done]. }
  unfold hex_digit, ascii_of_Z in Hd. apply (f_equal nat_of_ascii) in Hd.
  pose proof (Z_of_ascii_range c).
  assert (0 <= Z_of_ascii c / 16 < 16) by (Z.to_euclidean_division_equations; lia).
  destruct (Z.ltb_spec (Z_of_ascii c / 16) 10); rewrite nat_ascii_embedding in Hd by lia;
    change (nat_of_ascii "s") with 115%nat in Hd; lia.
Qed.

Lemma prefixed_checksum_rejected now m dir s :
  HasPrefix (Checksum m) "sha256-" = true -> exempt m s = false ->
  exists e, VerifyPluginIntegrity sha256 ed25519_Verify faults now m dir s = Throw e.
Proof.
  intros Hp Hx. unfold VerifyPluginIntegrity. fold (exempt m s). rewrite Hx.
  destruct (negb (Checksum m =?s "")); cbn [assert bind]; [|eauto].
  unfold ComputeFileChecksum. destruct (ReadFile faults _ s) as [content|e|] eqn:Er; cbn [bind wrap]; [|eauto|].
  - rewrite (eqb_neq_s _ _ (hex_no_prefix _ (sha256 content) Hp)). cbn [assert bind]. eauto.
  - unfold ReadFile in Er. by repeat case_match.
Qed.

(** A plugin whose checksum is written with the prefix that
    [verifyFileSHA256] strips installs and loads, but the verification of the
    next start compares the checksum as it is written: unless the plugin is
    exempt from verification, [InitAndWait] fails, and the program with it. *)
Theorem prefixed_checksum_stops_the_start (now : Z) (name platform baseDir : string)
    (m : Manifest) (s s1 : plugin_state) :
  EnsurePluginDir faults home s = (s1, Ret baseDir) ->
  (name, platform) ∈ plugin_entries baseDir s1 ->
  ReadManifest faults (manifest_path (Join [Join [baseDir; name]; platform]) name) s1
    = Ret (ManifestData m) ->
  HasPrefix (Checksum m) "sha256-" = true -> exempt m s1 = false ->
  (InitAndWait sha256 ed25519_Verify faults home now s).2 <> Ret tt.
Proof.
  intros He Hin Hm Hp Hx H. apply InitAndWait_Ret in H as (b & s2 & He' & Hall).
  rewrite He in He'. injection He' as <- <-. rewrite Forall_forall in Hall. specialize (Hall _ Hin).
  cbn [fst snd] in Hall. unfold verify_entry in Hall. rewrite Hm in Hall. cbn [bind] in Hall.
  destruct (prefixed_checksum_rejected now m (Join [Join [baseDir; name]; platform]) s1 Hp Hx) as [e Hv].
  by rewrite Hv in Hall.
Qed.

End start.

Section installed.
Context (sha256 : string -> string) (ed25519_Verify : string -> string -> string -> bool).
Context (faults : os_faults) (home goos goarch : string) (network : string -> nat -> download).
Context (mapOrder : list (string * json) -> list (string * json)).
Context (parse_float : string -> option float64) (manifestErr : string -> error).
Abbreviation install := (InstallPlugin sha256 ed25519_Verify faults goos goarch network mapOrder
  parse_float manifestErr).
Abbreviation verify_binary := (verifyBinary sha256 ed25519_Verify faults).
Abbreviation manifest_of p := (base_manifest parse_float p (dependencies_of mapOrder (RuntimeDeps p))).

(** A verification reads one file, and the keys. *)
Lemma strict_keys s s' : same_keys s s' -> strictPluginSignatures s' = strictPluginSignatures s.
Proof. intros (He & _). unfold strictPluginSignatures, Getenv. by rewrite He. Qed.

Lemma VerifyPluginSignature_ext now path sig id s s' :
  same_keys s s' -> ReadFile faults path s' = ReadFile faults path s ->
  VerifyPluginSignature sha256 ed25519_Verify faults now path sig id s' =
  VerifyPluginSignature sha256 ed25519_Verify faults now path sig id s.
Proof.
  intros (_ & Hs & Hc) Hr. unfold VerifyPluginSignature, KeyCache_Get, GetSignatureKey.
  by rewrite Hs, Hc, Hr.
Qed.

Lemma verifyBinary_ext now p path s s' :
  same_keys s s' -> ReadFile faults path s' = ReadFile faults path s ->
  verify_binary now p path s' = verify_binary now p path s.
Proof.
  intros Hk Hr. unfold verifyBinary. rewrite (VerifyPluginSignature_ext _ _ _ _ s s' Hk Hr).
  rewrite (strict_keys s s' Hk). unfold verifyFileSHA256. by rewrite Hr.
Qed.

Lemma ReadFile_put_manifest path mpath m s :
  mpath <> path -> ReadFile faults path (put_manifest mpath m s) = ReadFile faults path s.
Proof. intros Hne. unfold ReadFile. cbn. by rewrite lookup_delete_ne. Qed.

(** Where a plugin is installed. *)
Definition install_dir (baseDir : string) (p : DBPlugin) : string :=
  Join [baseDir; db_Name p; platform_of goos goarch p].
Definition install_path (baseDir : string) (p : DBPlugin) : string :=
  Join [install_dir baseDir p; Base (StoragePath p)].

(** An installation that succeeds leaves the manifest of the plugin, and a
    binary that verifies. *)
Lemma InstallPlugin_installed now p baseDir s s' :
  let dir := install_dir baseDir p in
  let mpath := manifest_path dir (db_Name p) in
  mpath <> install_path baseDir p -> manifestErr mpath = None ->
  install now p baseDir s = (s', Ret true) ->
  same_keys s s' /\ verify_binary now p (install_path baseDir p) s' = Ret tt /\
  manifests s' !! mpath = Some (ManifestData (manifest_of p)).
Proof.
  intros dir mpath Hne Hme. unfold InstallPlugin. destruct (SignedURL p =?s ""); [done|].
  change (Join [baseDir; db_Name p; platform_of goos goarch p]) with dir.
  pose proof (MkdirAll_keys faults dir s) as Hk0.
  destruct (MkdirAll faults dir s) as [s0 [e|]]; [done|]. cbn [fst] in Hk0. cbv zeta.
  change (Filename (manifest_of p)) with (Base (StoragePath p)).
  change (Join [dir; Base (StoragePath p)]) with (install_path baseDir p). fold mpath.
  set (outPath := install_path baseDir p) in *.
  assert (Hwrite : forall s2, same_keys s s2 -> verify_binary now p outPath s2 = Ret tt ->
    same_keys s (put_manifest mpath (manifest_of p) s2) /\
    verify_binary now p outPath (put_manifest mpath (manifest_of p) s2) = Ret tt /\
    manifests (put_manifest mpath (manifest_of p) s2) !! mpath = Some (ManifestData (manifest_of p))).
  { intros s2 Hk Hv. split; [by etrans; [exact Hk|auto with plugins]|]. split.
    - rewrite (verifyBinary_ext now p outPath s2); [done|auto with plugins|by apply ReadFile_put_manifest].
    - cbn. by rewrite lookup_insert_eq. }
  assert (Hfetch : forall s1 s', same_keys s s1 ->
    fetch_and_verify sha256 ed25519_Verify faults network manifestErr now p (manifest_of p) outPath mpath s1
      = (s', Ret true) ->
    same_keys s s' /\ verify_binary now p outPath s' = Ret tt /\
    manifests s' !! mpath = Some (ManifestData (manifest_of p))).
  { intros s1 s2 Hk. unfold fetch_and_verify.
    pose proof (downloadWithRetries_keys faults network (SignedURL p) outPath s1) as Hd.
    destruct (downloadWithRetries _ _ _ _ s1) as [s3 [e|]]; [done|]. cbn [fst] in Hd.
    destruct (verify_binary now p outPath s3) as [[]|e|] eqn:Ev; [|done..].
    unfold writeManifest. rewrite Hme. intros [= <-]. apply Hwrite; [by etrans|done]. }
  destruct (present outPath s0); [|by apply Hfetch].
  destruct (verify_binary now p outPath s0) as [[]|e|] eqn:Ev; [| |done].
  - unfold writeManifest. rewrite Hme. intros [= <-]. by apply Hwrite.
  - apply Hfetch. by etrans; [exact Hk0|auto with plugins].
Qed.

(** The key of [VerifyPluginSignature]. *)
Definition verification_key (now : Z) (id : string) (s : plugin_state) : option SignatureKey :=
  match KeyCache_Get now id s with Some k => Some k | None => GetSignatureKey id s end.

Lemma VerifyPluginSignature_Ret now path sigB64 id s u :
  VerifyPluginSignature sha256 ed25519_Verify faults now path sigB64 id s = Ret u <->
  sigB64 <> "" /\ id <> "" /\ exists key sig content,
    verification_key now id s = Some key /\ IsKeyValid now key = true /\
    base64_DecodeString sigB64 = Some sig /\ String.length sig = 64%nat /\
    ReadFile faults path s = Ret content /\ String.length (PublicKey key) = 32%nat /\
    ed25519_Verify (PublicKey key) (sha256 content) sig = true.
Proof.
  unfold VerifyPluginSignature, verification_key.
  rewrite bind_Ret. setoid_rewrite assert_Ret. setoid_rewrite bind_Ret. setoid_rewrite assert_Ret.
  setoid_rewrite nonempty_ne. split.
  - intros (_ & Hs & _ & Hi & H). split; [done|]. split; [done|].
    destruct (base64_DecodeString sigB64) as [sig|]; cycle 1.
    { destruct (KeyCache_Get now id s) as [k|]; [|destruct (GetSignatureKey id s) as [k|]; [|done]];
        cbn [bind] in H; by comp_cases. }
    destruct (KeyCache_Get now id s) as [k|]; [|destruct (GetSignatureKey id s) as [k|]; [|done]];
      cbn [bind] in H; apply bind_Ret in H as (_ & Hval%assert_Ret & H); cbn [bind] in H;
      apply bind_Ret in H as (_ & Hl%assert_Ret%Nat.eqb_eq & H);
      apply bind_Ret in H as (content & Hr%wrap_Ret & H);
      apply bind_Ret in H as (ok & Hv%Verify_Ret & Hok%assert_Ret); destruct Hv as [Hlen ->];
      exists k, sig, content; done.
  - intros (Hs & Hi & key & sig & content & Hk & Hval & Hd & Hl & Hr & Hl' & Hv). exists tt.
    split; [done|]. exists tt. split; [done|]. apply bind_Ret. exists key.
    split; [by destruct (KeyCache_Get now id s); simplify_eq; [|rewrite Hk]|].
    rewrite Hval. cbn [assert bind]. rewrite Hd. cbn [bind]. rewrite Hl, Hr. cbn [Nat.eqb assert bind wrap].
    unfold Verify. rewrite Hl'. cbn [Nat.eqb bind]. rewrite Hv. by destruct u.
Qed.

(** Loading uses the key that verification uses: true of keys that
    [loadSigningKeys] has put in both places. *)
Definition keys_agree (now : Z) (id : string) (s : plugin_state) : Prop :=
  forall key, verification_key now id s = Some key -> IsKeyValid now key = true ->
    String.length (PublicKey key) = 32%nat -> signing_key now id s = Some (PublicKey key).


(** ** Properties *)

(** C26.  A plugin that was installed loads, from the path and with the manifest
    that the installation left, exactly when it is trusted and has a checksum:
    an installation that reports success asks for neither.  This holds of a
    plugin for this platform, unsigned or signed by a key that loading and
    installing agree on, when the operating system does not refuse anything. *)
Theorem installed_plugin_loads (now : Z) (p : DBPlugin) (baseDir : string) (s s' s1 : plugin_state) :
  let dir := install_dir baseDir p in
  let path := install_path baseDir p in
  let mpath := manifest_path dir (db_Name p) in
  install now p baseDir s = (s', Ret true) ->
  EnsurePluginDir faults home s' = (s1, Ret baseDir) ->
  (forall x, readErr faults x = None) -> (forall x, chmodErr faults x = None) ->
  manifestErr mpath = None -> mpath <> path -> platform_of goos goarch p = goos +:+ "-" +:+ goarch ->
  exists_path dir s1 = true ->
  (db_Signature p = "" \/ (db_SignatureKeyID p <> "" /\ keys_agree now (db_SignatureKeyID p) s1)) ->
  (LoadAndUpdatePlugin sha256 ed25519_Verify faults home goos goarch now (db_Name p) s').2
    = Ret (path, manifest_of p) <-> db_Trusted p = true /\ db_Checksum p <> "".
Proof.
  intros dir path mpath Hi He Hrd Hch Hme Hne Hpl Hdir Hsig.
  rewrite (proj1 (proj2 (proj2 (load_outcome sha256 ed25519_Verify faults home goos
    goarch now (db_Name p) baseDir s' s1 _ _ He (surjective_pairing _)))) path (manifest_of p)).
  split; [by intros (d & content & s2 & _ & _ & Ht & _ & _ & _ & Hcs & _)|]. intros [Ht Hcs].
  destruct (InstallPlugin_installed now p baseDir s s' Hne Hme Hi) as (_ & Hv & Hm).
  fold dir path mpath in Hv, Hm. pose proof (EnsurePluginDir_same _ _ _ _ _ He) as Hsame.
  pose proof Hsame as (Hf & Henv & Hks & Hkc & Hms).
  assert (Hk : same_keys s' s1) by done.
  rewrite <- (verifyBinary_ext now p path s' s1 Hk (ReadFile_same faults path s' s1 Hsame)) in Hv.
  unfold verifyBinary in Hv. rewrite (eqb_neq_s _ _ Hcs) in Hv.
  apply bind_Ret in Hv as (u & Hsum & Hv). apply wrap_Ret, verifyFileSHA256_Ret in Hsum as (_ & content & Hr & Hh).
  exists dir, content, (validatePluginPermissions faults dir path s1).1. split.
  { unfold find_manifest, getCurrentPlatform. rewrite <- Hpl. unfold ReadManifest at 1. rewrite Hrd, Hms.
    fold (install_dir baseDir p). fold dir mpath. by rewrite Hm. }
  split; [done|]. split; [done|]. split; [apply Base_nonempty|]. split; [exact Hr|]. split; [|split; [done|]].
  - cbn [Signature base_manifest]. destruct (eqb_spec_s (db_Signature p) "") as [Hs0|Hs0].
    + cbn [negb andb] in Hv. by destruct (strictPluginSignatures s1).
    + destruct Hsig as [|[Hid Hag]]; [done|]. rewrite (eqb_neq_s _ _ Hid) in Hv. cbn [negb andb] in Hv.
      apply wrap_Ret, VerifyPluginSignature_Ret in Hv as (_ & _ & key & sig & c & Hvk & Hval & Hd & _ & Hr' & Hl & Hver).
      assert (c = content) as -> by congruence. exists (PublicKey key), sig.
      split; [by apply Hag|done].
  - split; [done|]. unfold validatePluginPermissions.
    pose proof (enforcePermissions_succeeds faults dir s1 (Hch dir) Hdir) as Hok.
    pose proof (enforcePermissions_exists faults path dir s1) as Hex.
    destruct (enforcePermissions faults dir s1) as [s2 e]. cbn [fst snd] in *. subst e.
    rewrite (surjective_pairing (enforcePermissions faults path s2)). cbn [fst]. f_equal.
    apply enforcePermissions_succeeds; [done|]. apply Hex.
    apply ReadFile_Ret in Hr as (_ & mode & Hmo). unfold exists_path. by rewrite Hmo.
Qed.

Lemma download_retries_pos s : exists n, download_retries s = S n.
Proof.
  unfold download_retries. destruct (Atoi _) as [n|]; [|eauto].
  destruct (Z.ltb_spec 0 n); [|eauto]. exists (pred (Z.to_nat n)). lia.
Qed.

Lemma chmod_0700_same path s : same_contents s (chmod_0700 faults path s).
Proof. unfold chmod_0700. case_match; [by repeat split|apply set_mode_same]. Qed.

(** A first attempt that brings a content. *)
Lemma download_content url path body s :
  network url 0 = Content body WriteOk -> dirs s !! path = None ->
  exists s', downloadWithRetries faults network url path s = (s', None) /\
    fst <$> files s' !! path = Some body /\
    forall q, q <> path -> q <> path +:+ ".tmp" -> manifests s' !! q = manifests s !! q.
Proof.
  intros Hn Hd. unfold downloadWithRetries. destruct (download_retries_pos s) as [n ->].
  cbn [download_attempts]. rewrite Hn. unfold atomicWrite. rewrite Hd.
  set (s1 := put_file path body 420 _). destruct (chmod_0700_same path s1) as (Hf & _ & _ & _ & Hm).
  eexists. split; [reflexivity|]. split; [rewrite Hf; cbn; by rewrite lookup_insert_eq|].
  intros q Hq Hqt. rewrite Hm. subst s1. cbn. rewrite lookup_delete_ne by done.
  unfold os_Remove. cbn. rewrite lookup_insert_eq. cbn. by rewrite lookup_delete_ne by done.
Qed.

Lemma verifyFileSHA256_no_panic path expected s : verifyFileSHA256 sha256 faults path expected s <> Panic.
Proof. unfold verifyFileSHA256, assert, ReadFile. by repeat (case_match; cbn [bind]). Qed.

(** An update whose download has the wrong content takes the working
    plugin away: the new content replaced the binary before it was checked, is
    removed after the check, and the old manifest stays; the plugin no longer
    loads, and unless it is exempt the next start fails. *)
Theorem failed_update_removes_plugin (now : Z) (stamp : string) (remotes : gmap string DBPlugin)
    (baseDir name platform os arch body : string) (remote : DBPlugin) (local : Manifest)
    (c : counts) (s : plugin_state) :
  let pluginDir := Join [Join [baseDir; name]; platform] in
  let mpath := manifest_path pluginDir name in
  let bpath := Join [pluginDir; Filename local] in
  splitPlatformKey platform = Some (os, arch) ->
  ReadManifest faults mpath s = Ret (ManifestData local) ->
  remotes !! remote_key name os arch = Some remote -> Base (StoragePath remote) = Filename local ->
  needs_download remote local bpath s = true -> SignedURL remote <> "" ->
  network (SignedURL remote) 0 = Content body WriteOk -> dirs s !! bpath = None ->
  db_Checksum remote <> "" -> hex_EncodeToString (sha256 body) <> TrimPrefix (db_Checksum remote) "sha256-" ->
  mpath <> bpath -> mpath <> bpath +:+ ".tmp" ->
  exists s', update_entry sha256 ed25519_Verify faults network parse_float manifestErr now stamp remotes
      baseDir name platform c s = (s', Ret (count_failed c)) /\
    files s' !! bpath = None /\ manifests s' !! mpath = Some (ManifestData local) /\
    (forall content, ReadFile faults bpath s' <> Ret content) /\
    (exempt local s' = false ->
     VerifyPluginIntegrity sha256 ed25519_Verify faults now local pluginDir s' <> Ret tt).
Proof.
  intros pluginDir mpath bpath Hsplit Hm Hrem Hbase Hneed Hurl Hnet Hdir Hcs Hhash Hne Hnet'.
  unfold update_entry. rewrite Hsplit. fold pluginDir. fold mpath. rewrite Hm, Hrem, Hbase. fold bpath.
  rewrite Hneed. unfold apply_update. rewrite (eqb_neq_s _ _ Hurl), Hbase. fold bpath. fold mpath.
  destruct (download_content (SignedURL remote) bpath body s Hnet Hdir) as (s1 & -> & Hf & Hman).
  rewrite (eqb_neq_s _ _ Hcs).
  assert (Hbad : forall u, verifyFileSHA256 sha256 faults bpath (db_Checksum remote) s1 <> Ret u).
  { intros u (_ & content & Hr & Hh)%verifyFileSHA256_Ret. apply ReadFile_Ret in Hr as (_ & mode & Hmo).
    rewrite Hmo in Hf. injection Hf as ->. done. }
  assert (Hm1 : manifests s1 !! mpath = Some (ManifestData local)).
  { rewrite Hman by done. unfold ReadManifest in Hm. destruct (readErr faults mpath); [done|].
    destruct (manifests s !! mpath); [by injection Hm as ->|done]. }
  assert (Hfin : files (os_Remove bpath s1) !! bpath = None /\
                 manifests (os_Remove bpath s1) !! mpath = Some (ManifestData local)).
  { unfold os_Remove. destruct (files s1 !! bpath) as [x|]; [|done]. cbn. by rewrite lookup_delete_eq. }
  destruct Hfin as [Hfb Hfm]. pose proof (verifyFileSHA256_no_panic bpath (db_Checksum remote) s1) as Hnp.
  destruct (verifyFileSHA256 _ _ _ _ _) as [u|e|]; [by destruct (Hbad u)| |done].
  eexists. split; [reflexivity|]. split; [exact Hfb|]. split; [exact Hfm|].
  assert (Hread : forall content, ReadFile faults bpath (os_Remove bpath s1) <> Ret content)
    by (intros content (_ & mode & Hx)%ReadFile_Ret; congruence).
  split; [exact Hread|]. intros Hx. unfold VerifyPluginIntegrity. fold (exempt local (os_Remove bpath s1)).
  rewrite Hx. fold bpath. intros H. apply bind_Ret in H as (? & _ & H).
  apply bind_Ret in H as (cs & Hc%wrap_Ret & _). unfold ComputeFileChecksum in Hc.
  apply bind_Ret in Hc as (content & Hc & _). by destruct (Hread content).
Qed.
End installed.

(** ** Versions *)

(** Versions of three numbers are compared lexicographically. *)
Lemma isNewerVersion_lex remote local r l :
  local <> "" -> parseSemver remote = Some r -> parseSemver local = Some l ->
  isNewerVersion remote local = true <->
  major l < major r \/ (major l = major r /\ (minor l < minor r \/
    (minor l = minor r /\ patch l < patch r))).
Proof.
  intros Hl Er El. unfold isNewerVersion. rewrite (eqb_neq_s _ _ Hl), Er, El.
  destruct (Z.eqb_spec (major r) (major l)), (Z.eqb_spec (minor r) (minor l)); cbn [negb];
    rewrite Z.ltb_lt; lia.
Qed.

(** The rollout only grows with the percentage. *)
Lemma ShouldRunPlugin_mono sha256 deviceID p q :
  p <= q -> ShouldRunPlugin sha256 deviceID p = true -> ShouldRunPlugin sha256 deviceID q = true.
Proof.
  intros Hpq. unfold ShouldRunPlugin. repeat case_match; try done; lia.
Qed.

Example versions_ex :
  (isNewerVersion "1.10.0" "1.9.9", isNewerVersion "1.2.3" "1.2.3-beta", isNewerVersion "v2.0.0" "v1.0.0",
   isNewerVersion "v1.0.0" "v2.0.0", splitPlatformKey "linux-amd64", splitPlatformKey "any_any",
   splitPlatformKey "linux-mips") =
  (true, false, true, true, Some ("linux", "amd64"), Some ("any", "any"), None).
Proof. vm_compute. reflexivity. Qed.

(** ** Witnesses *)

Lemma pair_of {A B} (x : A * B) b : x.2 = b -> x = (x.1, b).
Proof. intros <-. apply surjective_pairing. Qed.

Definition echo_plugin (checksum : string) : DBPlugin :=
  mkDBPlugin "id-1" "echo" "1.0.0" "python" "core" "org/echo.py" checksum
    (base64_EncodeToString (key32 +:+ content32)) "k1" RawEmpty true 100 "https://plugins/echo"
    "linux" "amd64" "" false (Raw (JObj [("numpy", JStr "1.26")])).

Definition echo_server (url : string) (attempt : nat) : download :=
  if url =?s "https://plugins/echo" then Content content32 WriteOk else RequestErr "no such host".

(** The keys are loaded and the plugin directory exists. *)
Definition ready_state : plugin_state :=
  (EnsurePluginDir no_faults "/home/u"
     (loadSigningKeys [mkSigningKey "k1" (base64_EncodeToString key32) "ed25519" (Some 1000) None] fresh_state)).1.

Abbreviation install_echo checksum :=
  (InstallPlugin id toy_verify no_faults "linux" "amd64" echo_server id (fun _ => None) (fun _ => None)
     99 (echo_plugin checksum) plugin_base ready_state).

Lemma installed_plugin_loads_witness :
  let p := echo_plugin (hex_EncodeToString content32) in
  let r := install_echo (hex_EncodeToString content32) in
  r.2 = Ret true /\
  (LoadAndUpdatePlugin id toy_verify no_faults "/home/u" "linux" "amd64" 99 "echo" r.1).2 =
  Ret (install_path "linux" "amd64" plugin_base p,
       base_manifest (fun _ => None) p (dependencies_of id (RuntimeDeps p))).
Proof.
  cbv zeta. split; [vm_compute; reflexivity|].
  refine (proj2 (installed_plugin_loads id toy_verify no_faults "/home/u" "linux" "amd64" echo_server id
    (fun _ => None) (fun _ => None) 99 (echo_plugin (hex_EncodeToString content32)) plugin_base
    ready_state (install_echo (hex_EncodeToString content32)).1
    (EnsurePluginDir no_faults "/home/u" (install_echo (hex_EncodeToString content32)).1).1 _ _ _ _ _ _ _ _ _) _).
  - apply pair_of. vm_compute. reflexivity.
  - apply pair_of. vm_compute. reflexivity.
  - reflexivity.
  - reflexivity.
  - reflexivity.
  - vm_compute. discriminate.
  - vm_compute. reflexivity.
  - vm_compute. reflexivity.
  - right. split; [discriminate|]. intros key Hk _ _. vm_compute in Hk. injection Hk as <-.
    vm_compute. reflexivity.
  - split; [reflexivity|vm_compute; discriminate].
Defined.

(** The same plugin with a prefixed checksum installs and loads, and then the
    program does not start. *)
Lemma prefixed_checksum_stops_the_start_witness :
  let r := install_echo ("sha256-" +:+ hex_EncodeToString content32) in
  r.2 = Ret true /\
  is_Some (match (LoadAndUpdatePlugin id toy_verify no_faults "/home/u" "linux" "amd64" 99 "echo" r.1).2 with
           | Ret x => Some x | _ => None end) /\
  (InitAndWait id toy_verify no_faults "/home/u" 99 r.1).2 <> Ret tt.
Proof.
  cbv zeta. split; [vm_compute; reflexivity|]. split; [vm_compute; eauto|].
  pose (p := echo_plugin ("sha256-" +:+ hex_EncodeToString content32)).
  apply (prefixed_checksum_stops_the_start id toy_verify no_faults "/home/u" 99 "echo" "linux-amd64"
    plugin_base (base_manifest (fun _ => None) p (dependencies_of id (RuntimeDeps p)))
    (install_echo ("sha256-" +:+ hex_EncodeToString content32)).1
    (EnsurePluginDir no_faults "/home/u"
       (install_echo ("sha256-" +:+ hex_EncodeToString content32)).1).1).
  - apply pair_of. vm_compute. reflexivity.
  - apply (bool_decide_unpack _). vm_compute. exact I.
  - vm_compute. reflexivity.
  - vm_compute. reflexivity.
  - vm_compute. reflexivity.
Defined.

(** Version 1.0.1 is downloaded damaged. *)
Definition damaged_update : DBPlugin :=
  mkDBPlugin "id-1" "echo" "1.0.1" "python" "core" "org/echo.py" "00" "" "" RawEmpty true 100
    "https://plugins/echo" "linux" "amd64" "" false RawEmpty.

Lemma failed_update_removes_plugin_witness :
  let p := echo_plugin (hex_EncodeToString content32) in
  let s := (install_echo (hex_EncodeToString content32)).1 in
  let local := base_manifest (fun _ => None) p (dependencies_of id (RuntimeDeps p)) in
  let bpath := Join [Join [Join [plugin_base; "echo"]; "linux-amd64"]; Filename local] in
  bool_decide (is_Some (files s !! bpath)) = true /\
  exists s', update_entry id toy_verify no_faults echo_server (fun _ => None) (fun _ => None) 99 "t"
      {[remote_key "echo" "linux" "amd64" := damaged_update]} plugin_base "echo" "linux-amd64"
      (mkCounts 0 0 0 []) s = (s', Ret (count_failed (mkCounts 0 0 0 []))) /\
    files s' !! bpath = None.
Proof.
  cbv zeta. split; [vm_compute; reflexivity|].
  pose (p := echo_plugin (hex_EncodeToString content32)).
  destruct (failed_update_removes_plugin id toy_verify no_faults echo_server (fun _ => None) (fun _ => None)
    99 "t" {[remote_key "echo" "linux" "amd64" := damaged_update]}
    plugin_base "echo" "linux-amd64" "linux" "amd64" content32 damaged_update
    (base_manifest (fun _ => None) p (dependencies_of id (RuntimeDeps p)))
    (mkCounts 0 0 0 []) (install_echo (hex_EncodeToString content32)).1)
    as (s' & E & Hf & _);
    [vm_compute; reflexivity..|discriminate|vm_compute; reflexivity|vm_compute; reflexivity
    |discriminate|vm_compute; discriminate|vm_compute; discriminate|vm_compute; discriminate|].
  exists s'. split; [exact E|exact Hf].
Defined.
