(* ===== verification/PluginExecute.v ===== *)
(** * PluginExecute: running a loaded plugin

    Models [internal/plugin/executor.go] and the dependency specifications of
    [sandbox.go]: how the language of a plugin is found and checked against its
    file, and whether it runs natively or in the sandbox.  The two runners are
    parameters. *)
From S2P Require Import Prelude GoFloat Json Path Encoding PluginVerify.
From Stdlib Require Import Ascii.
Local Open Scope comp_scope.

Definition defaultExecutionTimeout : Z := 300 * Second.

Record ExecutionResult := mkExecResult {
  Output : string; Method : string; DurationMs : Z; FallbackReason : string }.

Definition ErrUnsupportedLanguage : string := "unsupported plugin language".
Definition ErrPluginTypeMismatch : string :=
  "plugin type mismatch: file extension does not match declared language".
Definition ErrCGORequired : string := "native plugin requires CGO (CGO_ENABLED=1)".

Definition one_of (t : string) (l : list string) : bool := existsb (String.eqb t) l.

Definition native_languages : list string := ["go"; "rust"; "native"; "c"; "cpp"].
Definition script_languages : list string :=
  ["python"; "python3"; "python2"; "node"; "nodejs"; "javascript"; "ruby"; "bash"; "shell"; "typescript"].

Definition detectLanguageFromPath (pluginPath : string) : string :=
  let ext := strings_ToLower (Ext pluginPath) in
  if one_of ext [".so"; ".a"] then "native"
  else if ext =?s ".py" then "python"
  else if one_of ext [".js"; ".mjs"] then "javascript"
  else if ext =?s ".ts" then "typescript"
  else if ext =?s ".sh" then "bash"
  else "".

(** The extensions a language expects; none is no expectation. *)
Definition expectedExts (lang : string) : list string :=
  if one_of lang native_languages then [".so"; ".a"]
  else if one_of lang ["python"; "python3"; "python2"] then [".py"]
  else if one_of lang ["node"; "nodejs"; "javascript"; "typescript"] then [".js"; ".mjs"; ".ts"]
  else if one_of lang ["bash"; "shell"] then [".sh"]
  else [].

(** The error is its sentinel; the rest of its text is left out. *)
Definition validatePluginTypeMismatch (pluginPath lang : string) : comp unit :=
  let ext := strings_ToLower (Ext pluginPath) in
  if ext =?s "" then
    assert (one_of lang (native_languages ++ script_languages)) ErrPluginTypeMismatch
  else if ext =?s ".wasm" then Ret tt
  else match expectedExts lang with
       | [] => Ret tt
       | exts => assert (one_of ext exts) ErrPluginTypeMismatch
       end.

(** [nil] for what does not decode. *)
Definition parseInputJSON (renum : string -> string) (input : RawMessage) : option (list (string * json)) :=
  match input with
  | Raw JNull => None
  | _ => Unmarshal_map renum input
  end.

(** The timeout of a run, with the multiplication at 64 bits. *)
Definition execution_timeout (m : Manifest) : Z :=
  let t := int64 (int64 (TimeoutSeconds (Resources m)) * Second) in
  if t <=? 0 then defaultExecutionTimeout else t.

(** What a run of the two runners gets to see. *)
Record invocation := mkInvocation {
  i_path : string; i_checksum : string; i_input : option (list (string * json)); i_timeout : Z }.

Section execute.
Context (renum : string -> string) (HasCGO : bool).
Context (nativeRunner : option (invocation -> result string)).
Context (RunSandboxedPlugin : invocation -> Manifest -> result (string * string)).
(** How long a run takes, in milliseconds. *)
Context (duration : invocation -> Z).

Definition executeNative (i : invocation) (m : Manifest) : comp ExecutionResult :=
  match HasCGO, nativeRunner with
  | true, Some run =>
      match run i with
      | Ok out => Ret (mkExecResult out "native_cgo" (duration i) "")
      | Err e => Throw ("native plugin " +:+ Name m +:+ " execution failed: " +:+ e)
      end
  | _, _ => Throw ErrCGORequired
  end.

Definition executeScript (i : invocation) (m : Manifest) : comp ExecutionResult :=
  match RunSandboxedPlugin i m with
  | Ok (out, method) => Ret (mkExecResult out method (duration i) "")
  | Err e => Throw ("sandbox execution failed for plugin " +:+ Name m +:+ ": " +:+ e)
  end.

Definition language_of (pluginPath : string) (m : Manifest) : string :=
  if Language m =?s "" then detectLanguageFromPath pluginPath else Language m.

Definition Execute (pluginPath : string) (m : Manifest) (inputJSON : RawMessage) : comp ExecutionResult :=
  let lang := language_of pluginPath m in
  let! _ := validatePluginTypeMismatch pluginPath lang in
  let i := mkInvocation pluginPath (Checksum m) (parseInputJSON renum inputJSON) (execution_timeout m) in
  if one_of lang native_languages || (lang =?s "") then executeNative i m
  else if one_of lang script_languages then executeScript i m
  else Throw ErrUnsupportedLanguage.
End execute.

(** ** Dependencies *)

Definition StripSpaces (t : string) : string :=
  (fix go t := match t with
    | EmptyString => EmptyString
    | String c t' => if Ascii.eqb c " " then go t' else String c (go t')
    end) t.

(** [strings.ReplaceAll] of a three-byte character by an ASCII text. *)
Fixpoint ReplaceAll3 (a b c : ascii) (by_ : string) (t : string) : string :=
  match t with
  | String x ((String y (String z t')) as rest) =>
      if Ascii.eqb x a && Ascii.eqb y b && Ascii.eqb z c then by_ +:+ ReplaceAll3 a b c by_ t'
      else String x (ReplaceAll3 a b c by_ rest)
  | _ => t
  end.

(** The pip requirement of a dependency; [≥] and [≤] are E2 89 A5 and E2 89 A4. *)
Definition pip_requirement (d : RuntimeDependency) : string :=
  if dep_Version d =?s "" then dep_Name d
  else
    let ver := ReplaceAll3 "226" "137" "165" ">=" (dep_Version d) in
    let ver := ReplaceAll3 "226" "137" "164" "<=" ver in
    let ver := StripSpaces ver in
    if (ver =?s "*") || (ver =?s "latest") then dep_Name d
    else if existsb (HasPrefix ver) [">="; "<="; "=="; "!="; "~="; ">"; "<"] then dep_Name d +:+ ver
    else dep_Name d +:+ "==" +:+ ver.

(** The requirements [EnsurePluginDependencies] installs; [installed] is the
    answer of [pip show]. *)
Definition missing_requirements (installed : string -> bool) (m : Manifest) : list string :=
  if one_of (Language m) ["python"; "python3"] then
    map pip_requirement
      (List.filter (fun d => ((dep_Source d =?s "") || (dep_Source d =?s "python"))
                             && negb (dep_Name d =?s "") && negb (installed (dep_Name d)))
         (Dependencies m))
  else [].

Example pip_ex :
  map pip_requirement [mkDep "numpy" "≥ 1.26" ""; mkDep "pandas" "latest" ""; mkDep "x" "2" ""; mkDep "y" "~= 1" ""] =
  ["numpy>=1.26"; "pandas"; "x==2"; "y~=1"].
Proof. vm_compute. reflexivity. Qed.

(** ** Facts *)

(** The native runner runs only native plugins, with CGO; any other plugin that
    runs, runs in the sandbox; and a file never runs as a language whose
    extensions it does not have. *)
Lemma Execute_dispatch renum cgo runner sandbox duration path m input r :
  Execute renum cgo runner sandbox duration path m input = Ret r ->
  let lang := language_of path m in
  let i := mkInvocation path (Checksum m) (parseInputJSON renum input) (execution_timeout m) in
  validatePluginTypeMismatch path lang = Ret tt /\
  ((one_of lang native_languages = true \/ lang = "") /\ cgo = true /\
     (exists run, runner = Some run /\ run i = Ok (Output r)) /\ Method r = "native_cgo"
   \/ one_of lang script_languages = true /\ sandbox i m = Ok (Output r, Method r)).
Proof.
  unfold Execute. cbv zeta. intros H. apply bind_Ret in H as ([] & Hv & H). split; [done|].
  destruct (one_of (language_of path m) native_languages || (language_of path m =?s "")) eqn:El.
  - left. apply orb_prop in El. unfold executeNative in H.
    destruct cgo, runner as [run|]; try done. destruct (run _) as [out|] eqn:Er; [|done].
    injection H as <-. split; [destruct El as [|El%String.eqb_eq]; auto|]. split; [done|]. split; [by exists run|done].
  - right. destruct (one_of (language_of path m) script_languages); [|done]. split; [done|].
    unfold executeScript in H. destruct (sandbox _ m) as [[out method]|] eqn:Es; [|done]. by injection H as <-.
Qed.

Lemma execution_timeout_pos m : 0 < execution_timeout m < 2 ^ 63.
Proof.
  unfold execution_timeout. case_match; [by vm_compute|].
  pose proof (int64_range (int64 (TimeoutSeconds (Resources m)) * Second)). lia.
Qed.
