(* ===== verification/Seccomp.v ===== *)
(** * Seccomp: the system-call filter of the Linux plugin sandbox

    Models [internal/sandbox/seccomp_linux.go]: the audited allowlists, the
    classic-BPF program that [buildSeccompFilter] assembles from them, and the
    re-exec entry points [SeccompExec] and [NoNewPrivsExec].  The machine that
    runs the filter is the kernel's, so it is an interface here
    ([BpfMachine]): the theorems hold for every machine that executes the three
    instruction forms the program uses, and a concrete interpreter discharges
    the interface. *)
From S2P Require Import Prelude.

(** ** Constants *)

Definition seccompRetKill : Z := 0x00000000.
Definition seccompRetAllow : Z := 0x7fff0000.
Definition seccompRetErrno : Z := 0x00050000.
Definition seccompEperm : Z := 1.
Definition bpfLD : Z := 0x00.
Definition bpfJMP : Z := 0x05.
Definition bpfRET : Z := 0x06.
Definition bpfABS : Z := 0x20.
Definition bpfJEQ : Z := 0x10.
Definition bpfK : Z := 0x00.
Definition seccompDataArch : Z := 4.
Definition seccompDataSyscallNR : Z := 0.
Definition auditArchX86_64 : Z := 0xC000003E.
Definition auditArchI386 : Z := 0x40000003.
Definition auditArchAArch64 : Z := 0xC00000B7.

(** One BPF instruction ([struct sock_filter]). *)
Record sockFilter := mkSockFilter { Code : Z; Jt : Z; Jf : Z; K : Z }.

Definition bpfStmt (code k : Z) : sockFilter := mkSockFilter code 0 0 k.
Definition bpfJump (code k jt jf : Z) : sockFilter := mkSockFilter code jt jf k.

(** The opcodes the program is built from. *)
Definition opLdAbs : Z := Z.lor (Z.lor bpfLD bpfABS) bpfK.
Definition opJeqK : Z := Z.lor (Z.lor bpfJMP bpfJEQ) bpfK.
Definition opRetK : Z := Z.lor bpfRET bpfK.

(** ** The audited allowlists *)

Definition x86_64_file_i_o : list Z := [
  0; (* read *)
  1; (* write *)
  2; (* open *)
  3; (* close *)
  4; (* stat *)
  5; (* fstat *)
  6; (* lstat *)
  8; (* lseek *)
  17; (* pread64 *)
  18; (* pwrite64 *)
  19; (* readv *)
  20; (* writev *)
  21; (* access *)
  40; (* sendfile *)
  72; (* fcntl *)
  73; (* flock *)
  74; (* fsync *)
  75; (* fdatasync *)
  76; (* truncate *)
  77; (* ftruncate *)
  78; (* getdents *)
  79; (* getcwd *)
  80; (* chdir *)
  81; (* fchdir *)
  82; (* rename *)
  83; (* mkdir *)
  84; (* rmdir *)
  85; (* creat *)
  86; (* link *)
  87; (* unlink *)
  88; (* symlink *)
  89; (* readlink *)
  90; (* chmod *)
  91; (* fchmod *)
  92; (* chown *)
  93; (* fchown *)
  94; (* lchown *)
  95; (* umask *)
  137; (* statfs *)
  138; (* fstatfs *)
  217; (* getdents64 *)
  221; (* fadvise64 *)
  257; (* openat *)
  258; (* mkdirat *)
  259; (* mknodat *)
  260; (* fchownat *)
  261; (* futimesat *)
  262; (* newfstatat *)
  263; (* unlinkat *)
  264; (* renameat *)
  265; (* linkat *)
  266; (* symlinkat *)
  267; (* readlinkat *)
  268; (* fchmodat *)
  269; (* faccessat *)
  275; (* splice *)
  276; (* tee *)
  277; (* sync_file_range *)
  278; (* vmsplice *)
  280; (* utimensat *)
  285; (* fallocate *)
  295; (* preadv *)
  296; (* pwritev *)
  302; (* prlimit64 *)
  316; (* renameat2 *)
  326; (* copy_file_range *)
  327; (* preadv2 *)
  328; (* pwritev2 *)
  332; (* statx *)
  436; (* close_range *)
  437; (* openat2 *)
  439 (* faccessat2 *)
].

Definition x86_64_memory : list Z := [
  9; (* mmap *)
  10; (* mprotect *)
  11; (* munmap *)
  12; (* brk *)
  25; (* mremap *)
  26; (* msync *)
  27; (* mincore *)
  28; (* madvise *)
  319 (* memfd_create *)
].

Definition x86_64_processes_threads_signals : list Z := [
  13; (* rt_sigaction *)
  14; (* rt_sigprocmask *)
  15; (* rt_sigreturn *)
  34; (* pause *)
  39; (* getpid *)
  56; (* clone *)
  57; (* fork *)
  58; (* vfork *)
  59; (* execve *)
  60; (* exit *)
  61; (* wait4 *)
  62; (* kill *)
  63; (* uname *)
  109; (* setpgid *)
  110; (* getppid *)
  111; (* getpgrp *)
  112; (* setsid *)
  124; (* getsid *)
  127; (* rt_sigpending *)
  128; (* rt_sigtimedwait *)
  129; (* rt_sigqueueinfo *)
  130; (* rt_sigsuspend *)
  131; (* sigaltstack *)
  186; (* gettid *)
  200; (* tkill *)
  202; (* futex *)
  218; (* set_tid_address *)
  219; (* restart_syscall *)
  231; (* exit_group *)
  234; (* tgkill *)
  247; (* waitid *)
  273; (* set_robust_list *)
  274; (* get_robust_list *)
  322; (* execveat *)
  334; (* rseq *)
  424; (* pidfd_send_signal *)
  434; (* pidfd_open *)
  435; (* clone3 *)
  449 (* futex_waitv *)
].

Definition x86_64_identity_resource_queries : list Z := [
  97; (* getrlimit (needed for ulimit -t / -v) *)
  98; (* getrusage *)
  99; (* sysinfo *)
  100; (* times *)
  102; (* getuid *)
  104; (* getgid *)
  107; (* geteuid *)
  108; (* getegid *)
  115; (* getgroups *)
  118; (* getresuid *)
  120; (* getresgid *)
  121; (* getpgid *)
  125; (* capget (read-only capability query; Node/V8 and Chromium call *)
  126; (* capset (Chromium's DropAllCapabilities() lowers its own cap sets *)
  140; (* getpriority *)
  141; (* setpriority *)
  160; (* setrlimit (needed for ulimit -t / -v) *)
  201 (* time *)
].

Definition x86_64_timers_clocks : list Z := [
  35; (* nanosleep *)
  36; (* getitimer *)
  37; (* alarm *)
  38; (* setitimer *)
  96; (* gettimeofday *)
  222; (* timer_create *)
  223; (* timer_settime *)
  224; (* timer_gettime *)
  225; (* timer_getoverrun *)
  226; (* timer_delete *)
  228; (* clock_gettime *)
  229; (* clock_getres *)
  230 (* clock_nanosleep *)
].

Definition x86_64_scheduling : list Z := [
  24; (* sched_yield *)
  142; (* sched_setparam *)
  143; (* sched_getparam *)
  144; (* sched_setscheduler *)
  145; (* sched_getscheduler *)
  146; (* sched_get_priority_max *)
  147; (* sched_get_priority_min *)
  148; (* sched_rr_get_interval *)
  203; (* sched_setaffinity *)
  204; (* sched_getaffinity *)
  309; (* getcpu *)
  314; (* sched_setattr *)
  315 (* sched_getattr *)
].

Definition x86_64_networking : list Z := [
  41; (* socket *)
  42; (* connect *)
  43; (* accept *)
  44; (* sendto *)
  45; (* recvfrom *)
  46; (* sendmsg *)
  47; (* recvmsg *)
  48; (* shutdown *)
  49; (* bind *)
  50; (* listen *)
  51; (* getsockname *)
  52; (* getpeername *)
  53; (* socketpair *)
  54; (* setsockopt *)
  55; (* getsockopt *)
  288; (* accept4 *)
  299; (* recvmmsg *)
  307 (* sendmmsg *)
].

Definition x86_64_poll_epoll_event_fds : list Z := [
  7; (* poll *)
  16; (* ioctl *)
  22; (* pipe *)
  23; (* select *)
  32; (* dup *)
  33; (* dup2 *)
  213; (* epoll_create *)
  232; (* epoll_wait *)
  233; (* epoll_ctl *)
  253; (* inotify_init *)
  254; (* inotify_add_watch *)
  255; (* inotify_rm_watch *)
  270; (* pselect6 *)
  271; (* ppoll *)
  281; (* epoll_pwait *)
  282; (* signalfd *)
  283; (* timerfd_create *)
  284; (* eventfd *)
  286; (* timerfd_settime *)
  287; (* timerfd_gettime *)
  289; (* signalfd4 *)
  290; (* eventfd2 *)
  291; (* epoll_create1 *)
  292; (* dup3 *)
  293; (* pipe2 *)
  294; (* inotify_init1 *)
  441 (* epoll_pwait2 *)
].

Definition x86_64_misc_runtime : list Z := [
  157; (* prctl (thread names, dumpability) *)
  158; (* arch_prctl (TLS/FS base — required by Go and glibc) *)
  162; (* sync *)
  306; (* syncfs *)
  318; (* getrandom *)
  324 (* membarrier *)
].

Definition allowedSyscallsX86_64 : list Z :=
  x86_64_file_i_o ++ x86_64_memory ++ x86_64_processes_threads_signals ++ x86_64_identity_resource_queries ++ x86_64_timers_clocks ++ x86_64_scheduling ++ x86_64_networking ++ x86_64_poll_epoll_event_fds ++ x86_64_misc_runtime.

Definition arm64_file_i_o : list Z := [
  63; (* read *)
  64; (* write *)
  57; (* close *)
  62; (* lseek *)
  56; (* openat (+ open/creat emulation) *)
  67; (* pread64 *)
  68; (* pwrite64 *)
  65; (* readv *)
  66; (* writev *)
  48; (* faccessat (+ access emulation) *)
  71; (* sendfile *)
  25; (* fcntl *)
  32; (* flock *)
  82; (* fsync *)
  83; (* fdatasync *)
  45; (* truncate *)
  46; (* ftruncate *)
  61; (* getdents64 *)
  17; (* getcwd *)
  49; (* chdir *)
  50; (* fchdir *)
  38; (* renameat (+ rename emulation) *)
  34; (* mkdirat (+ mkdir emulation) *)
  33; (* mknodat *)
  55; (* fchown (+ chown/lchown via fchownat) *)
  54; (* fchownat *)
  35; (* unlinkat (+ unlink/rmdir emulation) *)
  37; (* linkat (+ link emulation) *)
  36; (* symlinkat (+ symlink emulation) *)
  78; (* readlinkat (+ readlink emulation) *)
  52; (* fchmod *)
  53; (* fchmodat (+ chmod emulation) *)
  166; (* umask *)
  43; (* statfs *)
  44; (* fstatfs *)
  79; (* newfstatat (+ stat/lstat emulation) *)
  80; (* fstat *)
  223; (* fadvise64 *)
  276; (* renameat2 *)
  47; (* fallocate *)
  69; (* preadv *)
  70; (* pwritev *)
  261; (* prlimit64 *)
  76; (* splice *)
  77; (* tee *)
  84; (* sync_file_range *)
  75; (* vmsplice *)
  88; (* utimensat *)
  285; (* copy_file_range *)
  286; (* preadv2 *)
  287; (* pwritev2 *)
  291; (* statx *)
  436; (* close_range *)
  437; (* openat2 *)
  439 (* faccessat2 *)
].

Definition arm64_memory : list Z := [
  222; (* mmap *)
  226; (* mprotect *)
  215; (* munmap *)
  214; (* brk *)
  216; (* mremap *)
  227; (* msync *)
  232; (* mincore *)
  233; (* madvise *)
  279 (* memfd_create *)
].

Definition arm64_processes_threads_signals : list Z := [
  134; (* rt_sigaction *)
  135; (* rt_sigprocmask *)
  139; (* rt_sigreturn *)
  220; (* clone (+ fork/vfork emulation) *)
  221; (* execve *)
  93; (* exit *)
  94; (* exit_group *)
  260; (* wait4 *)
  129; (* kill *)
  160; (* uname *)
  154; (* setpgid *)
  156; (* getsid *)
  157; (* setsid *)
  136; (* rt_sigpending *)
  137; (* rt_sigtimedwait *)
  138; (* rt_sigqueueinfo *)
  133; (* rt_sigsuspend *)
  132; (* sigaltstack *)
  130; (* tkill *)
  98; (* futex *)
  96; (* set_tid_address *)
  128; (* restart_syscall *)
  131; (* tgkill *)
  95; (* waitid *)
  99; (* set_robust_list *)
  100; (* get_robust_list *)
  281; (* execveat *)
  293; (* rseq *)
  424; (* pidfd_send_signal *)
  434; (* pidfd_open *)
  435; (* clone3 *)
  449 (* futex_waitv *)
].

Definition arm64_identity_resource_queries : list Z := [
  163; (* getrlimit (needed for ulimit -t / -v) *)
  165; (* getrusage *)
  179; (* sysinfo *)
  153; (* times *)
  172; (* getpid *)
  173; (* getppid *)
  174; (* getuid *)
  175; (* geteuid *)
  176; (* getgid *)
  177; (* getegid *)
  178; (* gettid *)
  158; (* getgroups *)
  148; (* getresuid *)
  150; (* getresgid *)
  155; (* getpgid (+ getpgrp emulation) *)
  90; (* capget (read-only capability query; Node/V8 and Chromium call *)
  91; (* capset (Chromium's DropAllCapabilities() lowers its own cap sets *)
  141; (* getpriority *)
  140; (* setpriority *)
  164 (* setrlimit (needed for ulimit -t / -v) *)
].

Definition arm64_timers_clocks : list Z := [
  101; (* nanosleep *)
  102; (* getitimer *)
  103; (* setitimer *)
  169; (* gettimeofday *)
  107; (* timer_create *)
  110; (* timer_settime *)
  108; (* timer_gettime *)
  109; (* timer_getoverrun *)
  111; (* timer_delete *)
  113; (* clock_gettime *)
  114; (* clock_getres *)
  115 (* clock_nanosleep *)
].

Definition arm64_scheduling : list Z := [
  124; (* sched_yield *)
  118; (* sched_setparam *)
  121; (* sched_getparam *)
  119; (* sched_setscheduler *)
  120; (* sched_getscheduler *)
  125; (* sched_get_priority_max *)
  126; (* sched_get_priority_min *)
  127; (* sched_rr_get_interval *)
  122; (* sched_setaffinity *)
  123; (* sched_getaffinity *)
  168; (* getcpu *)
  274; (* sched_setattr *)
  275 (* sched_getattr *)
].

Definition arm64_networking : list Z := [
  198; (* socket *)
  203; (* connect *)
  202; (* accept *)
  206; (* sendto *)
  207; (* recvfrom *)
  211; (* sendmsg *)
  212; (* recvmsg *)
  210; (* shutdown *)
  200; (* bind *)
  201; (* listen *)
  204; (* getsockname *)
  205; (* getpeername *)
  199; (* socketpair *)
  208; (* setsockopt *)
  209; (* getsockopt *)
  242; (* accept4 *)
  243; (* recvmmsg *)
  269 (* sendmmsg *)
].

Definition arm64_poll_epoll_event_fds : list Z := [
  73; (* ppoll (+ poll emulation) *)
  72; (* pselect6 (+ select emulation) *)
  29; (* ioctl *)
  59; (* pipe2 (+ pipe emulation) *)
  23; (* dup (+ dup2 emulation via dup3) *)
  24; (* dup3 *)
  20; (* epoll_create1 (+ epoll_create emulation) *)
  21; (* epoll_ctl *)
  22; (* epoll_pwait (+ epoll_wait emulation) *)
  26; (* inotify_init1 (+ inotify_init emulation) *)
  27; (* inotify_add_watch *)
  28; (* inotify_rm_watch *)
  74; (* signalfd4 *)
  85; (* timerfd_create *)
  86; (* timerfd_settime *)
  87; (* timerfd_gettime *)
  19; (* eventfd2 (+ eventfd emulation) *)
  441 (* epoll_pwait2 *)
].

Definition arm64_misc_runtime : list Z := [
  167; (* prctl (thread names, dumpability) *)
  81; (* sync *)
  267; (* syncfs *)
  278; (* getrandom *)
  283 (* membarrier *)
].

Definition allowedSyscallsArm64 : list Z :=
  arm64_file_i_o ++ arm64_memory ++ arm64_processes_threads_signals ++ arm64_identity_resource_queries ++ arm64_timers_clocks ++ arm64_scheduling ++ arm64_networking ++ arm64_poll_epoll_event_fds ++ arm64_misc_runtime.

(** ** Architecture selection *)

Definition seccompSupportedArch (GOARCH : string) : bool :=
  (GOARCH =?s "amd64") || (GOARCH =?s "arm64").

Definition syscallsForArch (GOARCH : string) : list Z :=
  if GOARCH =?s "arm64" then allowedSyscallsArm64
  else if GOARCH =?s "amd64" then allowedSyscallsX86_64
  else allowedSyscallsX86_64.

Definition detectAuditArch (GOARCH : string) : Z :=
  if GOARCH =?s "amd64" then auditArchX86_64
  else if GOARCH =?s "386" then auditArchI386
  else if GOARCH =?s "arm64" then auditArchAArch64
  else auditArchX86_64.

(** ** Assembling the filter *)

(** The [for i, nr := range allowedSyscalls] loop: the jump displacement of an
    entry is computed from the length of the filter built so far, and is stored
    in eight bits. *)
Fixpoint allowlist_loop (allowIdx n i : Z) (nrs : list Z)
    (filter : list sockFilter) : list sockFilter :=
  match nrs with
  | [] => filter
  | nr :: rest =>
      let filter' :=
        if i =? n - 1 then filter ++ [bpfJump opJeqK nr 1 0]
        else
          let jt := uint8 (allowIdx - Z.of_nat (length filter) - 1) in
          filter ++ [bpfJump opJeqK nr jt 0] in
      allowlist_loop allowIdx n (i + 1) rest filter'
  end.

(** [buildSeccompFilter] for a given audit architecture and allowlist. *)
Definition assembleFilter (arch : Z) (allowedSyscalls : list Z) : list sockFilter :=
  let n := Z.of_nat (length allowedSyscalls) in
  let allowIdx := 4 + n + 1 in
  let filter := [] in
  let filter := filter ++ [bpfStmt opLdAbs seccompDataArch] in
  let filter := filter ++ [bpfJump opJeqK arch 1 0] in
  let filter := filter ++ [bpfStmt opRetK seccompRetKill] in
  let filter := filter ++ [bpfStmt opLdAbs seccompDataSyscallNR] in
  let filter := allowlist_loop allowIdx n 0 allowedSyscalls filter in
  let filter := filter ++ [bpfStmt opRetK (Z.lor seccompRetErrno seccompEperm)] in
  filter ++ [bpfStmt opRetK seccompRetAllow].

Definition buildSeccompFilter (GOARCH : string) : list sockFilter :=
  assembleFilter (detectAuditArch GOARCH) (syscallsForArch GOARCH).

(** ** Installing the filter and running the target *)

(** What [seccomp(2)] answered when the filter was installed. *)
Inductive seccomp_errno := Unsupported | OtherErrno.

(** [applySeccompFilter]: the length of the program is stored in sixteen bits;
    [kernel] is the answer of the system call. *)
Inductive apply_error := EmptyFilter | SeccompErrno (e : seccomp_errno).

Definition applySeccompFilter (kernel : Z -> list sockFilter -> option seccomp_errno)
    (filter : list sockFilter) : option apply_error :=
  if (length filter =? 0)%nat then Some EmptyFilter
  else match kernel (uint16 (Z.of_nat (length filter))) filter with
       | None => None
       | Some e => Some (SeccompErrno e)
       end.

(** The system calls the re-exec entry points issue, in order. *)
Inductive exec_action :=
  | Prctl_NO_NEW_PRIVS
  | InstallFilter (filter : list sockFilter)
  | Execve (target : string) (argv : list string)
  | OsExit (code : Z).

(** What the kernel answers during one re-exec: whether [prctl] and [execve]
    fail, and the answer of [seccomp(2)]. *)
Record kernel_answers := mkKernel {
  prctl_fails : bool;
  seccomp_answer : Z -> list sockFilter -> option seccomp_errno;
  execve_fails : bool;
}.

(** The tail of both entry points: [syscall.Exec], and [os.Exit(1)] when it
    returns. *)
Definition execTarget (k : kernel_answers) (target : string) (args : list string)
    : list exec_action :=
  Execve target (target :: args) :: if execve_fails k then [OsExit 1] else [].

Definition NoNewPrivsExec (k : kernel_answers) (target : string) (args : list string)
    : list exec_action :=
  Prctl_NO_NEW_PRIVS ::
    if prctl_fails k then [OsExit 1] else execTarget k target args.

Definition SeccompExec (GOARCH profile : string) (k : kernel_answers)
    (target : string) (args : list string) : list exec_action :=
  if negb (seccompSupportedArch GOARCH) || (profile =?s "off")
  then NoNewPrivsExec k target args
  else
    Prctl_NO_NEW_PRIVS ::
    if prctl_fails k then [OsExit 1]
    else
      let filter := buildSeccompFilter GOARCH in
      InstallFilter filter ::
      match applySeccompFilter (seccomp_answer k) filter with
      | Some (SeccompErrno Unsupported) => NoNewPrivsExec k target args
      | Some _ => [OsExit 1]
      | None => execTarget k target args
      end.

(** ** The machine that runs the filter *)

(** The two fields of [struct seccomp_data] that the program loads. *)
Record seccomp_data := mkSeccompData { sd_nr : Z; sd_arch : Z }.

(** What the filter relies on: [run prog d pc acc] is the verdict of the machine
    at program counter [pc] with accumulator [acc].  Loads read the word at the
    given offset, [JEQ] is relative to the next instruction, [RET] ends. *)
Class BpfMachine (run : list sockFilter -> seccomp_data -> nat -> Z -> option Z) := {
  bpf_ld_arch prog d pc acc :
    prog !! pc = Some (bpfStmt opLdAbs seccompDataArch) ->
    run prog d pc acc = run prog d (S pc) (sd_arch d);
  bpf_ld_nr prog d pc acc :
    prog !! pc = Some (bpfStmt opLdAbs seccompDataSyscallNR) ->
    run prog d pc acc = run prog d (S pc) (sd_nr d);
  bpf_jeq prog d pc acc k jt jf :
    prog !! pc = Some (bpfJump opJeqK k jt jf) ->
    run prog d pc acc =
      run prog d (S pc + Z.to_nat (if (acc =? k)%Z then jt else jf))%nat acc;
  bpf_ret prog d pc acc k :
    prog !! pc = Some (bpfStmt opRetK k) -> run prog d pc acc = Some k;
}.

(** A concrete machine: [skip] instructions remain to be jumped over. *)
Fixpoint bpf_interp (d : seccomp_data) (rest : list sockFilter) (skip : nat) (acc : Z)
    : option Z :=
  match rest, skip with
  | [], _ => None
  | _ :: rest', S skip' => bpf_interp d rest' skip' acc
  | ins :: rest', O =>
      if Code ins =? opLdAbs then
        if K ins =? seccompDataArch then bpf_interp d rest' 0 (sd_arch d)
        else if K ins =? seccompDataSyscallNR then bpf_interp d rest' 0 (sd_nr d)
        else None
      else if Code ins =? opJeqK then
        bpf_interp d rest' (Z.to_nat (if acc =? K ins then Jt ins else Jf ins)) acc
      else if Code ins =? opRetK then Some (K ins)
      else None
  end.

Definition bpf_exec (prog : list sockFilter) (d : seccomp_data) (pc : nat) (acc : Z) :=
  bpf_interp d prog pc acc.

Lemma bpf_interp_plus d prog pc k acc :
  bpf_interp d prog (pc + k)%nat acc = bpf_interp d (drop pc prog) k acc.
Proof.
  revert prog. induction pc as [|pc IH]; intros [|ins prog]; simpl; done.
Qed.

Lemma bpf_interp_at d prog pc ins acc :
  prog !! pc = Some ins ->
  bpf_interp d prog pc acc = bpf_interp d (ins :: drop (S pc) prog) 0 acc.
Proof.
  intros Hins. rewrite <- (Nat.add_0_r pc) at 1. rewrite bpf_interp_plus.
  by rewrite (drop_S _ _ _ Hins).
Qed.

#[export] Instance bpf_exec_machine : BpfMachine bpf_exec.
Proof.
  split; intros; unfold bpf_exec; erewrite bpf_interp_at by done; simpl;
    rewrite <- ?bpf_interp_plus, ?Nat.add_0_r; done.
Qed.

(** ** Shape of the assembled program *)

Definition jeq_block (n : Z) (nrs : list Z) (i : Z) : list sockFilter :=
  imap (fun j nr => bpfJump opJeqK nr
          (if i + Z.of_nat j =? n - 1 then 1 else uint8 (n - (i + Z.of_nat j))) 0) nrs.

Lemma allowlist_loop_block n nrs i filter :
  Z.of_nat (length filter) = 4 + i ->
  allowlist_loop (4 + n + 1) n i nrs filter = filter ++ jeq_block n nrs i.
Proof.
  revert i filter. induction nrs as [|nr nrs IH]; intros i filter Hlen; simpl.
  { by rewrite app_nil_r. }
  assert (Hf : (if i =? n - 1 then filter ++ [bpfJump opJeqK nr 1 0]
     else filter ++ [bpfJump opJeqK nr (uint8 (4 + n + 1 - Z.of_nat (length filter) - 1)) 0])
     = filter ++ [bpfJump opJeqK nr (if i =? n - 1 then 1 else uint8 (n - i)) 0]).
  { rewrite Hlen. replace (4 + n + 1 - (4 + i) - 1) with (n - i) by lia.
    by destruct (i =? n - 1). }
  rewrite Hf, IH by (rewrite length_app; simpl; lia).
  rewrite <- app_assoc. f_equal. unfold jeq_block. cbn [app imap].
  rewrite Z.add_0_r. f_equal. apply imap_ext. intros j x _. simpl.
  replace (i + 1 + Z.of_nat j) with (i + Z.of_nat (S j)) by lia. done.
Qed.

(** The program: prologue, one [JEQ] per allowed call, deny, allow. *)
Lemma assembleFilter_shape arch nrs :
  assembleFilter arch nrs =
    [bpfStmt opLdAbs seccompDataArch; bpfJump opJeqK arch 1 0;
     bpfStmt opRetK seccompRetKill; bpfStmt opLdAbs seccompDataSyscallNR]
    ++ jeq_block (Z.of_nat (length nrs)) nrs 0
    ++ [bpfStmt opRetK (Z.lor seccompRetErrno seccompEperm);
        bpfStmt opRetK seccompRetAllow].
Proof.
  unfold assembleFilter. cbn [app].
  rewrite allowlist_loop_block by done.
  by rewrite <- !app_assoc.
Qed.

Lemma assembleFilter_length arch nrs :
  length (assembleFilter arch nrs) = (6 + length nrs)%nat.
Proof.
  rewrite assembleFilter_shape. unfold jeq_block.
  rewrite !length_app, length_imap. simpl. lia.
Qed.

Lemma jeq_block_lookup n nrs j nr :
  nrs !! j = Some nr ->
  jeq_block n nrs 0 !! j =
    Some (bpfJump opJeqK nr (if Z.of_nat j =? n - 1 then 1 else uint8 (n - Z.of_nat j)) 0).
Proof. intros H. unfold jeq_block. rewrite list_lookup_imap, H. done. Qed.

(** ** The specification: what the filter promises *)

Definition DENY : Z := Z.lor seccompRetErrno seccompEperm.

Definition seccomp_spec (arch : Z) (allowed : list Z) (d : seccomp_data) : Z :=
  if sd_arch d =? arch then
    if bool_decide (sd_nr d ∈ allowed) then seccompRetAllow else DENY
  else seccompRetKill.

Section machine.
  Context (run : list sockFilter -> seccomp_data -> nat -> Z -> option Z).
  Context `{!BpfMachine run}.
  Context (arch : Z) (nrs : list Z) (d : seccomp_data).

Let prog := assembleFilter arch nrs.
Let n := length nrs.

Lemma prog_jeq j nr :
    nrs !! j = Some nr ->
    prog !! (4 + j)%nat =
      Some (bpfJump opJeqK nr
              (if Z.of_nat j =? Z.of_nat n - 1 then 1 else uint8 (Z.of_nat n - Z.of_nat j)) 0).
  Proof.
    intros Hj. unfold prog. rewrite assembleFilter_shape. simpl.
    rewrite lookup_app_l; [by apply jeq_block_lookup |].
    unfold jeq_block. rewrite length_imap. by eapply lookup_lt_Some.
  Qed.

Lemma prog_tail i :
    prog !! (4 + n + i)%nat =
      [bpfStmt opRetK DENY; bpfStmt opRetK seccompRetAllow] !! i.
  Proof.
    unfold prog. rewrite assembleFilter_shape. simpl.
    assert (Hn : n = length (jeq_block (Z.of_nat (length nrs)) nrs 0))
      by (unfold jeq_block; by rewrite length_imap).
    rewrite Hn. apply lookup_app_plus.
  Qed.

  (** One step of the linear scan, for an entry whose displacement fits. *)
Lemma run_scan_step j nr :
    nrs !! j = Some nr -> (n - j <= 255)%nat ->
    run prog d (4 + j)%nat (sd_nr d) =
      if sd_nr d =? nr then Some seccompRetAllow
      else run prog d (4 + S j)%nat (sd_nr d).
  Proof.
    intros Hj Hfit. rewrite (bpf_jeq _ _ _ _ _ _ _ (prog_jeq j nr Hj)).
    pose proof (lookup_lt_Some _ _ _ Hj).
    destruct (Z.eqb_spec (sd_nr d) nr); [|f_equal; lia].
    assert (Hjt : Z.to_nat (if Z.of_nat j =? Z.of_nat n - 1 then 1
                            else uint8 (Z.of_nat n - Z.of_nat j)) = (n - j)%nat).
    { destruct (Z.eqb_spec (Z.of_nat j) (Z.of_nat n - 1)); [lia|].
      rewrite uint8_small by lia. lia. }
    rewrite Hjt. replace (S (4 + j) + (n - j))%nat with (4 + n + 1)%nat by lia.
    apply bpf_ret. by rewrite prog_tail.
  Qed.

Lemma run_scan j :
    (j <= n)%nat -> (n - j <= 255)%nat ->
    run prog d (4 + j)%nat (sd_nr d) =
      Some (if bool_decide (sd_nr d ∈ drop j nrs) then seccompRetAllow else DENY).
  Proof.
    intros Hle. remember (n - j)%nat as m eqn:Hm. revert j Hle Hm.
    induction m as [|m IH]; intros j Hle Hm Hfit.
    - rewrite drop_ge by (fold n; lia). rewrite bool_decide_false by set_solver.
      replace (4 + j)%nat with (4 + n + 0)%nat by lia.
      apply bpf_ret. by rewrite prog_tail.
    - destruct (lookup_lt_is_Some_2 nrs j) as [nr Hnr]; [fold n; lia|].
      rewrite (run_scan_step j nr) by first [done | lia].
      rewrite (drop_S _ _ _ Hnr).
      destruct (Z.eqb_spec (sd_nr d) nr) as [->|Hne].
      + by rewrite bool_decide_true by left.
      + rewrite IH by lia. rewrite (bool_decide_ext (sd_nr d ∈ drop (S j) nrs) (sd_nr d ∈ nr :: drop (S j) nrs)); [done|].
        rewrite elem_of_cons. split; [by right | by intros [|]].
  Qed.

Lemma run_prologue :
    run prog d 0%nat 0 =
      if sd_arch d =? arch then run prog d 4 (sd_nr d) else Some seccompRetKill.
  Proof.
    assert (Hpro : forall i, (i < 4)%nat ->
      prog !! i = [bpfStmt opLdAbs seccompDataArch; bpfJump opJeqK arch 1 0;
        bpfStmt opRetK seccompRetKill; bpfStmt opLdAbs seccompDataSyscallNR] !! i).
    { intros i Hi. unfold prog. rewrite assembleFilter_shape.
      by rewrite lookup_app_l by (simpl; lia). }
    rewrite bpf_ld_arch by (by rewrite Hpro by lia).
    rewrite (bpf_jeq _ _ 1 _ arch 1 0) by (by rewrite Hpro by lia).
    destruct (sd_arch d =? arch); simpl.
    - apply bpf_ld_nr. by rewrite Hpro by lia.
    - apply bpf_ret. by rewrite Hpro by lia.
  Qed.

Lemma run_assembled :
    (n <= 255)%nat -> run prog d 0%nat 0 = Some (seccomp_spec arch nrs d).
  Proof.
    intros Hn. rewrite run_prologue. unfold seccomp_spec.
    destruct (sd_arch d =? arch); [|done].
    apply (run_scan 0); lia.
  Qed.
End machine.

(** ** Properties *)

(** C15.  On both supported architectures, and on every machine
    that executes BPF, the assembled filter kills a foreign-architecture call,
    allows exactly the audited system calls and fails every other one with
    [EPERM]; it kills nothing else, although the README and the smoke test expect
    [SIGSYS]. *)
Theorem seccomp_filter_correct (run : list sockFilter -> seccomp_data -> nat -> Z -> option Z)
    `{!BpfMachine run} (GOARCH : string) (d : seccomp_data) :
  seccompSupportedArch GOARCH = true ->
  run (buildSeccompFilter GOARCH) d 0%nat 0 =
    Some (seccomp_spec (detectAuditArch GOARCH) (syscallsForArch GOARCH) d).
Proof.
  intros Harch. apply run_assembled; [done|].
  unfold seccompSupportedArch in Harch. apply orb_true_iff in Harch.
  destruct Harch as [->%String.eqb_eq | ->%String.eqb_eq]; vm_compute; lia.
Qed.

Lemma seccomp_filter_correct_witness :
  seccompSupportedArch "arm64" = true /\
  bpf_exec (buildSeccompFilter "arm64") (mkSeccompData 63 auditArchAArch64) 0%nat 0
    = Some (seccomp_spec auditArchAArch64 allowedSyscallsArm64
              (mkSeccompData 63 auditArchAArch64)).
Proof.
  split; [reflexivity|].
  apply (seccomp_filter_correct bpf_exec "arm64" (mkSeccompData 63 auditArchAArch64)).
  reflexivity.
Defined.

(** The 8-bit jump displacement is what bounds the allowlist:
    a table of exactly 256 entries wraps the displacement of its first entry to
    zero, and the filter then denies a call that the table allows. *)
Theorem allowlist_256_wraps (run : list sockFilter -> seccomp_data -> nat -> Z -> option Z)
    `{!BpfMachine run} (arch nr : Z) (rest : list Z) :
  length rest = 255%nat -> nr ∉ rest ->
  run (assembleFilter arch (nr :: rest)) (mkSeccompData nr arch) 0%nat 0 = Some DENY.
Proof.
  intros Hlen Hnotin. pose (d := mkSeccompData nr arch). fold d.
  rewrite run_prologue by done. simpl (sd_arch d). rewrite Z.eqb_refl.
  rewrite (bpf_jeq _ d 4 (sd_nr d) _ _ _ (prog_jeq arch (nr :: rest) 0 nr eq_refl)).
  simpl (sd_nr d). rewrite Z.eqb_refl. cbn [length]. rewrite Hlen.
  pose proof (run_scan run arch (nr :: rest) d 1) as Hscan.
  simpl in Hscan. rewrite Hlen in Hscan.
  rewrite bool_decide_false in Hscan by done.
  apply Hscan; lia.
Qed.

Lemma allowlist_256_wraps_witness :
  length (List.map Z.of_nat (seq 1 255)) = 255%nat /\
  bpf_exec (assembleFilter 7 (0 :: List.map Z.of_nat (seq 1 255))) (mkSeccompData 0 7) 0%nat 0
    = Some DENY.
Proof.
  split; [vm_compute; reflexivity|].
  apply (allowlist_256_wraps bpf_exec 7 0).
  - vm_compute; reflexivity.
  - apply (bool_decide_eq_true_1 (0 ∉ List.map Z.of_nat (seq 1 255))). vm_compute; reflexivity.
Defined.

Definition last_is_exec (l : list exec_action) : bool :=
  match last l with Some (Execve _ _) => true | _ => false end.

(** [NO_NEW_PRIVS] is the first call of both entry points. *)
Lemma SeccompExec_head GOARCH profile k target args :
  head (SeccompExec GOARCH profile k target args) = Some Prctl_NO_NEW_PRIVS.
Proof. unfold SeccompExec, NoNewPrivsExec. by destruct (_ || _). Qed.

Lemma NoNewPrivs_hardened k target args argv path :
  Execve path argv ∈ NoNewPrivsExec k target args ->
  head (NoNewPrivsExec k target args) = Some Prctl_NO_NEW_PRIVS /\ prctl_fails k = false /\ path = target /\ argv = target :: args.
Proof.
  unfold NoNewPrivsExec, execTarget. intros H. split; [done|].
  destruct (prctl_fails k), (execve_fails k); set_solver.
Qed.

(** Both theorems on plugin runs come from this. *)
Lemma NoNewPrivs_unfiltered k target args f : InstallFilter f ∉ NoNewPrivsExec k target args.
Proof. unfold NoNewPrivsExec, execTarget. destruct (prctl_fails k), (execve_fails k); set_solver. Qed.

Lemma hardened (GOARCH profile : string) (k : kernel_answers)
    (target : string) (args argv : list string) (path : string) :
  Execve path argv ∈ SeccompExec GOARCH profile k target args ->
  head (SeccompExec GOARCH profile k target args) = Some Prctl_NO_NEW_PRIVS /\
  prctl_fails k = false /\ path = target /\ argv = target :: args /\
  (seccompSupportedArch GOARCH = true -> profile <> "off" ->
   applySeccompFilter (seccomp_answer k) (buildSeccompFilter GOARCH)
     <> Some (SeccompErrno Unsupported) ->
   applySeccompFilter (seccomp_answer k) (buildSeccompFilter GOARCH) = None /\
   InstallFilter (buildSeccompFilter GOARCH) ∈ SeccompExec GOARCH profile k target args).
Proof.
  intros Hin. split; [apply SeccompExec_head|].
  assert (Hexec : forall l, Execve path argv ∈ l -> l = execTarget k target args ->
                            path = target /\ argv = target :: args).
  { intros l Hl ->. unfold execTarget in Hl. destruct (execve_fails k); set_solver. }
  unfold SeccompExec, NoNewPrivsExec in *.
  destruct (prctl_fails k) eqn:Hp.
  { destruct (negb _ || _) in Hin; set_solver. }
  split; [done|].
  destruct (negb _ || _) eqn:Hgate in *.
  - apply elem_of_cons in Hin as [|Hin]; [done|].
    destruct (Hexec _ Hin eq_refl) as [-> ->]. do 2 (split; [done|]).
    intros Hs Hoff. exfalso. rewrite Hs in Hgate. simpl in Hgate.
    by apply String.eqb_eq in Hgate.
  - apply elem_of_cons in Hin as [|Hin]; [done|].
    apply elem_of_cons in Hin as [|Hin]; [done|].
    destruct (applySeccompFilter _ _) as [[|[]]|] eqn:Happ; [set_solver| |set_solver|].
    + apply elem_of_cons in Hin as [|Hin]; [done|].
      destruct (Hexec _ Hin eq_refl) as [-> ->]. done.
    + destruct (Hexec _ Hin eq_refl) as [-> ->]. set_solver.
Qed.

(** The target of a plugin run is executed only under
    [NO_NEW_PRIVS]; and when the filter is wanted and the kernel has filter
    mode, it is executed only after exactly the audited filter was installed.
    Any other kernel error ends the run without executing the target. *)
Theorem SeccompExec_hardened (GOARCH profile : string) (k : kernel_answers)
    (target : string) (args argv : list string) (path : string) :
  Execve path argv ∈ SeccompExec GOARCH profile k target args ->
  head (SeccompExec GOARCH profile k target args) = Some Prctl_NO_NEW_PRIVS /\
  prctl_fails k = false /\ path = target /\ argv = target :: args /\
  (seccompSupportedArch GOARCH = true -> profile <> "off" ->
   applySeccompFilter (seccomp_answer k) (buildSeccompFilter GOARCH)
     <> Some (SeccompErrno Unsupported) ->
   applySeccompFilter (seccomp_answer k) (buildSeccompFilter GOARCH) = None /\
   InstallFilter (buildSeccompFilter GOARCH) ∈ SeccompExec GOARCH profile k target args).
Proof. apply hardened. Qed.

Lemma SeccompExec_hardened_witness :
  let k := mkKernel false (fun _ _ => None) true in
  Execve "/p" ["/p"; "a"] ∈ SeccompExec "amd64" "default" k "/p" ["a"] /\
  InstallFilter (buildSeccompFilter "amd64")
    ∈ SeccompExec "amd64" "default" k "/p" ["a"].
Proof.
  intros k.
  assert (H : Execve "/p" ["/p"; "a"] ∈ SeccompExec "amd64" "default" k "/p" ["a"]).
  { right. right. left. }
  split; [exact H|].
  refine (proj2 (proj2 (proj2 (proj2 (proj2
    (SeccompExec_hardened "amd64" "default" k "/p" ["a"] ["/p"; "a"] "/p" H)))) _ _ _)).
  - vm_compute; reflexivity.
  - discriminate.
  - vm_compute; discriminate.
Defined.
