(* ===== verification/JobDedup.v ===== *)
(** * JobDedup: the persistent job-id deduplication store

    Models [internal/dispatcher/job_dedup.go].  The store is a map from job id
    to expiry time (nanoseconds) in memory, a file on disk, and a channel of
    capacity one through which [Add] hands a copy of the map to the
    [snapshotWorker] goroutine.  Time is an argument ([now]).  The order in
    which [sort.Slice] leaves equal expiries is a parameter ([SliceSort]). *)
From S2P Require Import Prelude.

(** ** State *)

(** What the file holds: a JSON object, or bytes that do not decode to one. *)
Inductive dedup_file :=
  | FileJobs (jobs : gmap string Z)
  | FileGarbage.

Record JobDeduplicationStore := mkStore {
  filePath : string;
  ttl : Z;
  maxJobs : Z;
  jobs : gmap string Z;
  cleanupTimer : bool;
  snapshotCh : option (gmap string Z);
}.

Definition with_jobs (s : JobDeduplicationStore) (m : gmap string Z) :=
  mkStore (filePath s) (ttl s) (maxJobs s) m (cleanupTimer s) (snapshotCh s).
Definition with_snapshot (s : JobDeduplicationStore) (c : option (gmap string Z)) :=
  mkStore (filePath s) (ttl s) (maxJobs s) (jobs s) (cleanupTimer s) c.
Definition with_timer (s : JobDeduplicationStore) (b : bool) :=
  mkStore (filePath s) (ttl s) (maxJobs s) (jobs s) b (snapshotCh s).

Definition defaultDedupTTL : Z := 60 * Minute.
Definition defaultDedupMaxJobs : Z := 1000.
Definition dedupFileName : string := "job_dedup.json".

(** The errors of the three file-system calls of a save, in order. *)
Record save_io := mkSaveIO { mkdirErr : error; writeErr : error; renameErr : error }.
Definition io_ok : save_io := mkSaveIO None None None.

(** The outcome of [os.ReadFile] on the store's path. *)
Inductive read_result :=
  | NotExist
  | ReadError (e : string)
  | ReadData (f : dedup_file).

Definition read_disk (disk : option dedup_file) : read_result :=
  match disk with None => NotExist | Some f => ReadData f end.

(** ** Operations *)

(** [load]: the new map, or an error that leaves the map alone. *)
Definition load (r : read_result) (now : Z) (m : gmap string Z) : gmap string Z * error :=
  match r with
  | NotExist => (m, None)
  | ReadError e => (m, Some e)
  | ReadData FileGarbage => (m, Some "invalid JSON")
  | ReadData (FileJobs js) => (filter (fun kv => now < kv.2) js, None)
  end.

(** [save] and [saveSnapshot]: marshal the map, write a temporary file and
    rename it over the store's file. *)
Definition saveSnapshot (io : save_io) (snapshot : gmap string Z)
    (disk : option dedup_file) : option dedup_file * error :=
  match mkdirErr io with
  | Some e => (disk, Some e)
  | None =>
      match writeErr io with
      | Some e => (disk, Some e)
      | None =>
          match renameErr io with
          | Some e => (disk, Some e)
          | None => (Some (FileJobs snapshot), None)
          end
      end
  end.

Definition save (io : save_io) (s : JobDeduplicationStore) (disk : option dedup_file) :=
  saveSnapshot io (jobs s) disk.

(** [startCleanup] arms the timer. *)
Definition startCleanup (s : JobDeduplicationStore) := with_timer s true.

(** [newJobDeduplicationStore]: [env] is [SENTRA_DEDUP_MAX_JOBS]. *)
Definition newJobDeduplicationStore (dataDir : string) (ttl0 : Z) (env : string)
    (r : read_result) (now : Z) : JobDeduplicationStore :=
  let ttl1 := if ttl0 <=? 0 then defaultDedupTTL else ttl0 in
  let maxJobs1 :=
    if env =?s "" then defaultDedupMaxJobs
    else
      let parsed := default 0 (Sscanf_d env) in
      if (0 <? parsed) && (defaultDedupMaxJobs <? parsed)
      then parsed else defaultDedupMaxJobs in
  let js := fst (load r now ∅) in
  startCleanup
    (mkStore (dataDir +:+ "/" +:+ dedupFileName) ttl1 maxJobs1 js false None).

Definition Contains (s : JobDeduplicationStore) (now : Z) (jobID : string) : bool :=
  match jobs s !! jobID with
  | None => false
  | Some expiry => if expiry <? now then false else true
  end.

(** [Add]: every tenth size, a copy of the map is offered to the worker without
    blocking. *)
Definition Add (s : JobDeduplicationStore) (now : Z) (jobID : string) : JobDeduplicationStore :=
  let m := <[jobID := now + ttl s]> (jobs s) in
  let s := with_jobs s m in
  if Z.of_nat (size m) mod 10 =? 0 then
    match snapshotCh s with
    | None => with_snapshot s (Some m)
    | Some _ => s
    end
  else s.

(** One iteration of [snapshotWorker]; [None] when it is blocked. *)
Definition snapshotWorker (io : save_io) (s : JobDeduplicationStore)
    (disk : option dedup_file) : option (JobDeduplicationStore * option dedup_file) :=
  match snapshotCh s with
  | None => None
  | Some snap => Some (with_snapshot s None, fst (saveSnapshot io snap disk))
  end.

Definition Remove (s : JobDeduplicationStore) (jobID : string) : JobDeduplicationStore :=
  with_jobs s (delete jobID (jobs s)).

Definition Count (s : JobDeduplicationStore) (now : Z) : nat :=
  size (filter (fun kv : string * Z => now < kv.2) (jobs s)).

Definition expiry_less (x y : string * Z) : bool := x.2 <? y.2.

(** [delete] of the first [evictCount] sorted entries. *)
Definition evict (entries : list (string * Z)) (evictCount : nat) (m : gmap string Z)
    : gmap string Z :=
  foldl (fun m kv => delete kv.1 m) m (take evictCount entries).

(** The entries that [now.After(expiry)] does not select for removal. *)
Definition unexpired (now : Z) (m : gmap string Z) : gmap string Z :=
  filter (fun kv : string * Z => ~ kv.2 < now) m.

(** [cleanup]: the returned Boolean tells whether the store was changed. *)
Definition cleanup_jobs (sortSlice : list (string * Z) -> list (string * Z))
    (now : Z) (m : gmap string Z) : gmap string Z * bool :=
  let m1 := unexpired now m in
  let changed := negb (size m1 =? size m)%nat in
  if defaultDedupMaxJobs <? Z.of_nat (size m1) then
    let evictCount := (size m1 - Z.to_nat defaultDedupMaxJobs)%nat in
    (evict (sortSlice (map_to_list m1)) evictCount m1, true)
  else (m1, changed).

Definition cleanup (sortSlice : list (string * Z) -> list (string * Z)) (io : save_io)
    (now : Z) (s : JobDeduplicationStore) (disk : option dedup_file)
    : JobDeduplicationStore * option dedup_file :=
  let '(m, changed) := cleanup_jobs sortSlice now (jobs s) in
  let s := with_jobs s m in
  if changed then (s, fst (save io s disk)) else (s, disk).

(** [Close]: stops the timer and persists the map. *)
Definition Close (io : save_io) (s : JobDeduplicationStore) (disk : option dedup_file)
    : JobDeduplicationStore * option dedup_file * error :=
  let s := if cleanupTimer s then with_timer s false else s in
  let '(disk, err) := save io s disk in (s, disk, err).

(** ** Lemmas *)

Lemma size_list_to_map (l : list (string * Z)) :
  NoDup l.*1 -> size (list_to_map l : gmap string Z) = length l.
Proof.
  intros Hnd. rewrite <- length_map_to_list.
  by rewrite (Permutation_length (map_to_list_to_map l Hnd)).
Qed.

Lemma foldl_delete_take (entries : list (string * Z)) c :
  NoDup entries.*1 ->
  foldl (fun m kv => delete kv.1 m) (list_to_map entries : gmap string Z) (take c entries) =
  list_to_map (drop c entries).
Proof.
  revert c. induction entries as [|[k v] es IH]; intros [|c] Hnd; simpl; [done..|].
  apply NoDup_cons in Hnd as [Hk Hnd].
  rewrite delete_insert_id by (by apply not_elem_of_list_to_map_1).
  by apply IH.
Qed.

Section eviction.
Context (sortSlice : list (string * Z) -> list (string * Z)).
Context `{!SliceSort expiry_less sortSlice}.
Implicit Types m : gmap string Z.

Lemma sorted_entries_NoDup m : NoDup (sortSlice (map_to_list m)).*1.
Proof.
  rewrite (fmap_Permutation fst _ _ (sortSlice_perm (map_to_list m))).
  apply NoDup_fst_map_to_list.
Qed.

Lemma sorted_entries_map m : list_to_map (sortSlice (map_to_list m)) = m.
Proof.
  rewrite <- (list_to_map_to_list m) at 2.
  apply list_to_map_proper; [apply sorted_entries_NoDup | apply sortSlice_perm].
Qed.

(** Eviction keeps the tail of the sorted entries. *)
Lemma evict_sorted m c :
  evict (sortSlice (map_to_list m)) c m = list_to_map (drop c (sortSlice (map_to_list m))).
Proof.
  pose proof (foldl_delete_take _ c (sorted_entries_NoDup m)) as H.
  by rewrite sorted_entries_map in H.
Qed.

Lemma sorted_drop_NoDup m c : NoDup (drop c (sortSlice (map_to_list m))).*1.
Proof.
  rewrite fmap_drop. eapply sublist_NoDup; [apply sorted_entries_NoDup|].
  apply sublist_drop.
Qed.

Lemma evict_lookup m c k e :
  evict (sortSlice (map_to_list m)) c m !! k = Some e <->
  (k, e) ∈ drop c (sortSlice (map_to_list m)).
Proof.
  rewrite evict_sorted. symmetry. apply elem_of_list_to_map, sorted_drop_NoDup.
Qed.

Lemma evict_size m c :
  size (evict (sortSlice (map_to_list m)) c m) = (size m - c)%nat.
Proof.
  rewrite evict_sorted, size_list_to_map by apply sorted_drop_NoDup.
  rewrite length_drop, (Permutation_length (sortSlice_perm _)).
  by rewrite length_map_to_list.
Qed.

Lemma sorted_entries_lookup m k e :
  m !! k = Some e <-> (k, e) ∈ sortSlice (map_to_list m).
Proof.
  pose proof (elem_of_list_to_map (M:=gmap string) _ k e (sorted_entries_NoDup m)) as H.
  rewrite sorted_entries_map in H. by symmetry.
Qed.

Lemma evict_subseteq m c : evict (sortSlice (map_to_list m)) c m ⊆ m.
Proof.
  apply map_subseteq_spec. intros k e Hk. apply evict_lookup in Hk.
  apply sorted_entries_lookup.
  rewrite <- (take_drop c (sortSlice (map_to_list m))). set_solver.
Qed.

(** An evicted entry expires no later than any entry that was kept. *)
Lemma evict_oldest m c k e k' e' :
  m !! k = Some e -> evict (sortSlice (map_to_list m)) c m !! k = None ->
  evict (sortSlice (map_to_list m)) c m !! k' = Some e' -> e <= e'.
Proof.
  intros Hk Hgone Hkept%evict_lookup.
  apply sorted_entries_lookup in Hk.
  rewrite <- (take_drop c (sortSlice (map_to_list m))) in Hk.
  apply elem_of_app in Hk as [Hk|Hk].
  - pose proof (sortSlice_sorted (map_to_list m)) as Hs.
    rewrite <- (take_drop c (sortSlice (map_to_list m))) in Hs.
    pose proof (StronglySorted_app_1_elem_of _ _ _ _ _ Hs Hk Hkept) as Hle.
    unfold expiry_less in Hle. simpl in Hle. apply Z.ltb_ge in Hle. lia.
  - apply evict_lookup in Hk. congruence.
Qed.
End eviction.

Lemma lookup_unexpired (m : gmap string Z) now k e :
  unexpired now m !! k = Some e <->
  m !! k = Some e /\ now <= e.
Proof. unfold unexpired. rewrite map_lookup_filter_Some. simpl.
  split; intros []; split; first [done | lia]. Qed.

(** ** Properties *)

(** What a cleanup at time [now] promises about the map it leaves behind. *)
Record cleanup_ok (now : Z) (m m' : gmap string Z) : Prop := {
  co_subset : m' ⊆ m;
  co_fresh k e : m' !! k = Some e -> now <= e;
  co_size : size m' = Nat.min (size (unexpired now m)) 1000;
  co_oldest k e k' e' : m !! k = Some e -> now <= e -> m' !! k = None ->
    m' !! k' = Some e' -> e <= e';
}.

(** [cleanup] drops exactly the expired ids while the store is
    within its limit, never keeps more than 1000, and above the limit evicts
    only ids that expire no later than every id it keeps, however [sort.Slice]
    orders equal expiries. *)
Theorem cleanup_correct (sortSlice : list (string * Z) -> list (string * Z))
    `{!SliceSort expiry_less sortSlice} (now : Z) (m : gmap string Z) :
  cleanup_ok now m (fst (cleanup_jobs sortSlice now m)).
Proof.
  unfold cleanup_jobs. set (m1 := unexpired now m).
  assert (Hsub : m1 ⊆ m) by apply map_filter_subseteq.
  assert (Hbig : Z.to_nat defaultDedupMaxJobs = 1000%nat) by done.
  destruct (Z.ltb_spec defaultDedupMaxJobs (Z.of_nat (size m1))) as [Hlt|Hle];
    unfold defaultDedupMaxJobs in *; simpl fst; rewrite ?Hbig; split; fold m1.
  - by etrans; [apply (evict_subseteq sortSlice)|].
  - intros k e Hk. eapply lookup_weaken in Hk; [|apply (evict_subseteq sortSlice)].
    by apply lookup_unexpired in Hk as [].
  - rewrite (evict_size sortSlice). lia.
  - intros k e k' e' Hk Hf. apply (evict_oldest sortSlice). by apply lookup_unexpired.
  - exact Hsub.
  - intros k e Hk. by apply lookup_unexpired in Hk as [].
  - lia.
  - intros k e k' e' Hk Hf Hnone. exfalso.
    assert (m1 !! k = Some e) by (by apply lookup_unexpired). congruence.
Qed.

Lemma cleanup_correct_witness :
  cleanup_ok 5 {["a" := 3; "b" := 9]}
    (fst (cleanup_jobs (sort_by snd) 5 {["a" := 3; "b" := 9]})) /\
  fst (cleanup_jobs (sort_by snd) 5 {["a" := 3; "b" := 9]}) = {["b" := 9]}.
Proof.
  split.
  - apply (cleanup_correct (sort_by snd) 5).
  - vm_compute. reflexivity.
Defined.

(** The configured limit is dead: whatever
    [SENTRA_DEDUP_MAX_JOBS] was parsed to, a cleanup leaves the same ids. *)
Theorem cleanup_ignores_maxJobs (sortSlice : list (string * Z) -> list (string * Z))
    `{!SliceSort expiry_less sortSlice}
    (dataDir env : string) (t now now' : Z) (io : save_io) (r : read_result)
    (disk : option dedup_file) :
  let s := newJobDeduplicationStore dataDir t env r now in
  let s0 := newJobDeduplicationStore dataDir t "" r now in
  jobs (fst (cleanup sortSlice io now' s disk)) =
    jobs (fst (cleanup sortSlice io now' s0 disk)) /\
  (size (jobs (fst (cleanup sortSlice io now' s disk))) <= 1000)%nat.
Proof.
  intros s s0.
  assert (Hjobs : forall s1, jobs (fst (cleanup sortSlice io now' s1 disk)) =
                             fst (cleanup_jobs sortSlice now' (jobs s1))).
  { intros s1. unfold cleanup. destruct (cleanup_jobs _ _ _) as [m []]; done. }
  rewrite !Hjobs. split; [done|].
  rewrite (co_size _ _ _ (cleanup_correct sortSlice now' (jobs s))). lia.
Qed.

Lemma cleanup_ignores_maxJobs_witness :
  let s := newJobDeduplicationStore "/d" 0 "5000" NotExist 0 in
  maxJobs s = 5000 /\
  (size (jobs (fst (cleanup (sort_by snd) io_ok 7 s None))) <= 1000)%nat.
Proof.
  split; [vm_compute; reflexivity|].
  apply (cleanup_ignores_maxJobs (sort_by snd) "/d" "5000" 0 0 7 io_ok NotExist None).
Defined.

(** A store that was closed and is loaded again by a new agent
    at time [now] answers [Contains] as the old store did at every later time:
    ids survive a clean restart for the rest of their time to live. *)
Theorem restart_preserves_Contains (s : JobDeduplicationStore) (disk : option dedup_file)
    (dataDir env : string) (t now later : Z) (jobID : string) :
  now < later ->
  let '(_, disk', err) := Close io_ok s disk in
  err = None /\
  Contains (newJobDeduplicationStore dataDir t env (read_disk disk') now) later jobID =
  Contains s later jobID.
Proof.
  intros Hlater. unfold Close, save, saveSnapshot. simpl.
  split; [done|].
  assert (Hj : jobs (if cleanupTimer s then with_timer s false else s) = jobs s)
    by (by destruct (cleanupTimer s)).
  rewrite Hj. unfold Contains. simpl.
  destruct (filter _ (jobs s) !! jobID) as [e|] eqn:Hf.
  - apply map_lookup_filter_Some in Hf as [-> _]. done.
  - apply map_lookup_filter_None in Hf.
    destruct (jobs s !! jobID) as [e|]; [|done].
    destruct Hf as [|Hf]; [done|]. specialize (Hf e eq_refl). simpl in Hf.
    destruct (Z.ltb_spec e later); [done|lia].
Qed.

Lemma restart_preserves_Contains_witness :
  let s := Add (newJobDeduplicationStore "/d" 0 "" NotExist 0) 0 "j1" in
  0 < 5 /\
  Contains (newJobDeduplicationStore "/d" 0 "" (read_disk (snd (fst (Close io_ok s None)))) 0) 5 "j1"
    = true.
Proof.
  intros s. split; [lia|].
  destruct (restart_preserves_Contains s None "/d" "" 0 0 5 "j1" ltac:(lia)) as [_ H].
  etransitivity; [exact H | vm_compute; reflexivity].
Defined.

(** The snapshot goroutine can undo a clean shutdown: a copy that
    was queued before the last ids were added replaces the file [Close] wrote,
    and those ids are unknown after the restart. *)
Theorem stale_snapshot_overwrites_Close (s : JobDeduplicationStore)
    (snap : gmap string Z) (disk : option dedup_file) (now : Z) (jobID : string) :
  snapshotCh s = Some snap -> snap !! jobID = None ->
  let '(s1, disk1, _) := Close io_ok s disk in
  exists s2 disk2, snapshotWorker io_ok s1 disk1 = Some (s2, disk2) /\
    fst (load (read_disk disk2) now ∅) !! jobID = None.
Proof.
  intros Hch Hnone. unfold Close, save, saveSnapshot, snapshotWorker. simpl.
  assert (Hs : snapshotCh (if cleanupTimer s then with_timer s false else s) = Some snap)
    by (by destruct (cleanupTimer s)).
  rewrite Hs. eexists _, _. split; [done|]. simpl.
  apply map_lookup_filter_None. by left.
Qed.

(** Ten ids are added (the tenth queues a copy), then an eleventh. *)
Definition eleven_ids : JobDeduplicationStore :=
  foldl (fun s j => Add s 0 j) (newJobDeduplicationStore "/d" 0 "" NotExist 0)
    ["0"; "1"; "2"; "3"; "4"; "5"; "6"; "7"; "8"; "9"; "late"].

Lemma stale_snapshot_overwrites_Close_witness :
  Contains (fst (fst (Close io_ok eleven_ids None))) 1 "late" = true /\
  (let '(s1, disk1, _) := Close io_ok eleven_ids None in
   exists s2 disk2, snapshotWorker io_ok s1 disk1 = Some (s2, disk2) /\
     fst (load (read_disk disk2) 1 ∅) !! "late" = None).
Proof.
  split; [vm_compute; reflexivity|].
  refine (stale_snapshot_overwrites_Close eleven_ids
    (default ∅ (snapshotCh eleven_ids)) None 1 "late" _ _); vm_compute; reflexivity.
Defined.
