(* ===== verification/HttpClient.v ===== *)
(** * HttpClient: the retrying HTTP client

    Models [internal/httpclient/client.go].  The transport ([net/http]) is a
    function from the number of the attempt to a response or an error; the loop
    returns what the caller gets, how many requests were sent and how long it
    slept between them. *)
From Stdlib Require Import Ascii.
From S2P Require Import Prelude Json Path.

(** A response body: its text and the JSON it decodes to.  A closed body can no
    longer be read. *)
Record body := mkBody { body_text : string; body_json : RawMessage }.
Record http_response := mkResponse { StatusCode : Z; Body : option body }.

Record Client := mkClient {
  baseURL : string;
  anonKey : string;
  agentToken : string;
  Timeout : Z;
  maxRetries : Z;
}.

Definition DefaultTimeout : Z := 10 * Second.
Definition DefaultMaxRetries : Z := 3.
Definition InitialBackoff : Z := 200 * Millisecond.
Definition MaxBackoff : Z := 1 * Second.

Definition WithTimeout (timeout : Z) (c : Client) : Client :=
  mkClient (baseURL c) (anonKey c) (agentToken c) timeout (maxRetries c).
Definition WithMaxRetries (n : Z) (c : Client) : Client :=
  mkClient (baseURL c) (anonKey c) (agentToken c) (Timeout c) n.

Definition NewClient (url anon token : string) (opts : list (Client -> Client)) : Client :=
  foldl (fun c opt => opt c)
    (mkClient (trim_right_slash url) anon token DefaultTimeout DefaultMaxRetries) opts.

(** The sleep before the next attempt: [InitialBackoff * (1 << attempt)], an
    [int64] product, capped. *)
Definition backoff (attempt : Z) : Z :=
  let b := int64 (InitialBackoff * int64 (Z.shiftl 1 attempt)) in
  if MaxBackoff <? b then MaxBackoff else b.

(** What the transport did with one attempt. *)
Inductive attempt_result :=
  | TransportError (e : string)
  | Response (r : http_response).

(** The [for attempt := 0; attempt <= maxRetries; attempt++] loop.  A final
    5xx response is returned with its body already closed; the nil response of
    a loop that runs zero times is [None]. *)
Fixpoint retry_loop (send : Z -> attempt_result) (max : Z) (fuel : nat) (attempt : Z)
    (sleeps : list Z) : option (result http_response) * Z * list Z :=
  match fuel with
  | O => (None, attempt, sleeps)
  | S fuel' =>
      match send attempt with
      | TransportError e =>
          if attempt <? max
          then retry_loop send max fuel' (attempt + 1) (sleeps ++ [backoff attempt])
          else (Some (Err e), attempt + 1, sleeps)
      | Response r =>
          if 500 <=? StatusCode r then
            if attempt <? max
            then retry_loop send max fuel' (attempt + 1) (sleeps ++ [backoff attempt])
            else (Some (Ok (mkResponse (StatusCode r) None)), attempt + 1, sleeps)
          else (Some (Ok r), attempt + 1, sleeps)
      end
  end.

Definition DoWithReq (c : Client) (send : Z -> attempt_result)
    : option (result http_response) * Z * list Z :=
  retry_loop send (maxRetries c) (Z.to_nat (maxRetries c + 1)) 0 [].

(** [MaskToken]. *)
Definition MaskToken (token : string) : string :=
  let n := String.length token in
  if (n <=? 8)%nat then "***"
  else String.substring 0 4 token +:+ "***" +:+ String.substring (n - 4) 4 token.

(** ** Requests *)

(** [textproto.CanonicalMIMEHeaderKey]: capitals at the start and after a
    hyphen, lower case elsewhere. *)
Definition ascii_upper (c : ascii) : ascii :=
  let n := nat_of_ascii c in
  if (Nat.leb 97 n && Nat.leb n 122)%bool then ascii_of_nat (n - 32) else c.

Fixpoint canonical_from (upper : bool) (s : string) : string :=
  match s with
  | EmptyString => EmptyString
  | String c s' => String (if upper then ascii_upper c else ascii_lower c) (canonical_from (Ascii.eqb c "-") s')
  end.

Definition CanonicalHeaderKey (k : string) : string := canonical_from true k.

(** The body is the value that was marshalled, or nil. *)
Record http_request := mkRequest {
  Method : string;
  URL : string;
  Header : gmap string string;
  RequestBody : option json }.

(** [Header.Set]. *)
Definition header_Set (k v : string) (h : gmap string string) : gmap string string :=
  <[CanonicalHeaderKey k := v]> h.

(** What [extraHeaders] sets. *)
Abbreviation headers := (list (string * string)).
Definition set_all (extra : headers) (h : gmap string string) : gmap string string :=
  foldl (fun h kv => header_Set kv.1 kv.2 h) h extra.

Section requests.
(** The error of [http.NewRequest] on a URL that does not parse. *)
Context (url_error : string -> error).

Definition NewRequest (c : Client) (method path : string) (b : option json) : result http_request :=
  let url := baseURL c +:+ path in
  match url_error url with
  | Some e => Err e
  | None =>
      Ok (mkRequest method url
            (set_all [("Authorization", "Bearer " +:+ anonKey c); ("x-agent-token", agentToken c);
                      ("Content-Type", "application/json")] ∅) b)
  end.

Definition has_header (name : string) (r : http_request) : bool :=
  existsb (fun kv => strings_ToLower kv.1 =?s name) (map_to_list (Header r)).

(** One attempt up to the transport. *)
Definition prepare (c : Client) (method path : string) (b : option json) (extra : headers) : result http_request :=
  match NewRequest c method path b with
  | Err e => Err e
  | Ok r =>
      let r := mkRequest (Method r) (URL r) (set_all extra (Header r)) (RequestBody r) in
      if has_header "authorization" r && has_header "x-agent-token" r then Ok r
      else Err ("required headers missing: Authorization=" +:+ (if has_header "authorization" r then "true" else "false")
                +:+ ", x-agent-token=" +:+ (if has_header "x-agent-token" r then "true" else "false"))
  end.

(** The transport sees the request, which is the same at every attempt. *)
Context (network : http_request -> Z -> attempt_result).

Definition do_request (c : Client) (method path : string) (b : option json) (extra : headers) : option (result http_response) :=
  match prepare c method path b extra with
  | Err e => Some (Err e)
  | Ok r => (DoWithReq c (network r)).1.1
  end.

Definition Do (c : Client) (method path : string) (b : option json) : option (result http_response) := do_request c method path b [].
Definition Post (c : Client) (path : string) (b : option json) : option (result http_response) := Do c "POST" path b.
Definition Get (c : Client) (path : string) : option (result http_response) := Do c "GET" path None.
Definition PostWithHeaders (c : Client) (path : string) (b : option json) (extra : headers) : option (result http_response) :=
  do_request c "POST" path b extra.
End requests.

(** ** Lemmas *)

Lemma header_kept k h extra : is_Some (h !! k) -> is_Some (set_all extra h !! k).
Proof.
  unfold set_all. revert h. induction extra as [|[k' v] extra IH]; intros h H; [done|]. cbn [foldl]. apply IH.
  unfold header_Set. cbn [fst snd]. destruct (decide (CanonicalHeaderKey k' = k)) as [->|]; [by rewrite lookup_insert_eq|by rewrite lookup_insert_ne].
Qed.

Lemma has_header_lookup k name r : strings_ToLower k = name -> is_Some (Header r !! k) -> has_header name r = true.
Proof.
  intros Hk [v Hv]. unfold has_header. apply existsb_elem_of. exists (k, v).
  split; [by apply elem_of_map_to_list|]. cbn [fst]. by rewrite Hk, eqb_refl_s.
Qed.

(** The header check never fails: headers are only set, never removed. *)
Lemma prepare_ok url_error c method path b extra : url_error (baseURL c +:+ path) = None ->
  exists r, prepare url_error c method path b extra = Ok r /\ Method r = method /\ URL r = baseURL c +:+ path /\ RequestBody r = b /\
    Header r = set_all extra (set_all [("Authorization", "Bearer " +:+ anonKey c); ("x-agent-token", agentToken c);
                                       ("Content-Type", "application/json")] ∅).
Proof.
  intros He. unfold prepare, NewRequest. rewrite He. cbn [Header Method URL RequestBody].
  erewrite (has_header_lookup "Authorization" "authorization"), (has_header_lookup "X-Agent-Token" "x-agent-token");
    [by eexists|done|apply header_kept; by eexists|done|apply header_kept; by eexists].
Qed.

Definition transient (a : attempt_result) : bool :=
  match a with TransportError _ => true | Response r => 500 <=? StatusCode r end.

(** What the caller sees of the last attempt. *)
Definition surfaced (a : attempt_result) : result http_response :=
  match a with
  | TransportError e => Err e
  | Response r => if 500 <=? StatusCode r then Ok (mkResponse (StatusCode r) None) else Ok r
  end.

Lemma retry_loop_spec send max fuel attempt sleeps :
  Z.of_nat fuel = max + 1 - attempt -> 0 <= attempt <= max ->
  exists last,
    attempt <= last <= max /\
    retry_loop send max fuel attempt sleeps =
      (Some (surfaced (send last)), last + 1,
       sleeps ++ List.map backoff (List.map Z.of_nat (seq (Z.to_nat attempt) (Z.to_nat (last - attempt))))) /\
    (forall a, attempt <= a < last -> transient (send a) = true) /\
    (transient (send last) = true -> last = max).
Proof.
  revert attempt sleeps. induction fuel as [|fuel IH]; intros attempt sleeps Hf Ha; [lia|].
  assert (Hstop : exists last, attempt <= last <= max /\
    (Some (surfaced (send attempt)), attempt + 1, sleeps) =
      (Some (surfaced (send last)), last + 1,
       sleeps ++ List.map backoff (List.map Z.of_nat (seq (Z.to_nat attempt) (Z.to_nat (last - attempt))))) /\
    (forall a, attempt <= a < last -> transient (send a) = true) /\ last = attempt).
  { exists attempt. replace (attempt - attempt) with 0 by lia. cbn [Z.to_nat seq List.map].
    rewrite app_nil_r. repeat split; first [done|lia]. }
  simpl. destruct (transient (send attempt)) eqn:Htr.
  - assert (Hgo : retry_loop send max (S fuel) attempt sleeps =
      if attempt <? max then retry_loop send max fuel (attempt + 1) (sleeps ++ [backoff attempt])
      else (Some (surfaced (send attempt)), attempt + 1, sleeps)).
    { simpl. unfold transient in Htr. unfold surfaced. destruct (send attempt) as [e|r]; [done|].
      rewrite Htr. done. }
    simpl in Hgo. rewrite Hgo. destruct (Z.ltb_spec attempt max).
    + destruct (IH (attempt + 1) (sleeps ++ [backoff attempt])) as (last & Hl & -> & Hall & Hlast);
        [lia..|].
      exists last. split; [lia|]. split; [|split].
      * rewrite <- app_assoc.
        replace (Z.to_nat (last - attempt)) with (S (Z.to_nat (last - (attempt + 1)))) by lia.
        replace (Z.to_nat (attempt + 1)) with (S (Z.to_nat attempt)) by lia.
        cbn [seq List.map app]. by rewrite Z2Nat.id by lia.
      * intros a Hra. destruct (Z.eq_dec a attempt) as [->|]; [done|apply Hall; lia].
      * done.
    + destruct Hstop as (last & ? & -> & ? & ->). exists attempt. repeat split; first [done|lia|auto].
  - destruct Hstop as (last & Hle & Heq & Hall & ->). exists attempt.
    split; [done|]. split; [|split; [done|congruence]].
    unfold transient, surfaced in *. destruct (send attempt) as [e|r]; [done|].
    rewrite Htr in *. done.
Qed.

(** ** Properties *)

(** [DoWithReq] returns, after at most [maxRetries + 1] requests,
    the outcome of its last request; every earlier one failed in transport or
    with a 5xx status, the last one did so only if the retries are used up, and
    the client slept once between any two requests, each time no longer than
    [MaxBackoff]. *)
Theorem DoWithReq_correct (c : Client) (send : Z -> attempt_result) :
  0 <= maxRetries c ->
  exists last sleeps,
    DoWithReq c send = (Some (surfaced (send last)), last + 1, sleeps) /\
    0 <= last <= maxRetries c /\
    (forall a, 0 <= a < last -> transient (send a) = true) /\
    (transient (send last) = true -> last = maxRetries c) /\
    Z.of_nat (length sleeps) = last /\ Forall (fun d => d <= MaxBackoff) sleeps.
Proof.
  intros Hc. unfold DoWithReq.
  destruct (retry_loop_spec send (maxRetries c) (Z.to_nat (maxRetries c + 1)) 0 [])
    as (last & Hl & -> & Hall & Hlast); [lia..|].
  eexists last, _. split; [done|]. split; [lia|]. split; [done|]. split; [done|]. split.
  - simpl. rewrite !List.length_map, length_seq. lia.
  - simpl. apply Forall_forall. intros d (z & <- & _)%list_elem_of_In%List.in_map_iff.
    unfold backoff. destruct (Z.ltb_spec MaxBackoff (int64 (InitialBackoff * int64 (Z.shiftl 1 z))));
      lia.
Qed.

Lemma DoWithReq_correct_witness :
  let c := NewClient "https://x//" "a" "t" [] in
  let send := fun a => if a <? 2 then TransportError "refused"
                       else Response (mkResponse 200 (Some (mkBody "{}" (Raw (JObj []))))) in
  0 <= maxRetries c /\ exists last sleeps,
    DoWithReq c send = (Some (surfaced (send last)), last + 1, sleeps) /\
    0 <= last <= maxRetries c.
Proof.
  intros c send. split; [vm_compute; discriminate|].
  destruct (DoWithReq_correct c send ltac:(vm_compute; discriminate))
    as (last & sleeps & H1 & H2 & _).
  exists last, sleeps. split; [exact H1 | exact H2].
Defined.

Example DoWithReq_ex :
  DoWithReq (NewClient "u" "a" "t" [])
    (fun _ => Response (mkResponse 503 (Some (mkBody "x" RawInvalid)))) =
  (Some (Ok (mkResponse 503 None)), 4, [200 * Millisecond; 400 * Millisecond; 800 * Millisecond]).
Proof. vm_compute. reflexivity. Qed.
