(* ===== verification/Backend.v ===== *)
(** * Backend: the execution client

    Models [internal/backend/execution_client.go]: how the agent reads the
    control plane's answers (leases, job start, completion, assignment) and the
    batching buffer of telemetry events.  Each call takes the outcome of the
    HTTP request, as [HttpClient.DoWithReq] returns it. *)
From S2P Require Import Prelude Json HttpClient.

(** ** Answers *)

Record JobLeaseStatus := mkLease {
  lease_JobID : string; lease_Status : string; lease_AgentID : string; IsValid : bool }.

Record StartJobResult := mkStart {
  start_Success : bool; start_Ok : bool; start_JobID : string; start_Status : string;
  start_Error : string }.

Record CompleteJobResult := mkComplete {
  IsLeaseExpired : bool; IsAlreadyDone : bool; IsConcurrentMod : bool; complete_Err : error }.

Record AssignedJob := mkAssigned {
  asg_JobID : string; asg_JobType : string; asg_Payload : RawMessage;
  asg_LeaseTTL : Z; asg_ExecutionID : string }.

Definition zeroAssigned : AssignedJob := mkAssigned "" "" RawEmpty 0 "".

(** The outcome of a request: no response, or a response. *)
Abbreviation outcome := (result http_response).

Definition closed_body : string := "http: read on closed response body".

(** [APIResponse]: the [error] member of an object, when it decodes. *)
Definition api_error (p : RawMessage) : option string :=
  let dec fs :=
    let '(_, b1) := field dec_bool "ok" false fs in
    let '(e, b2) := field dec_string "error" "" fs in (e, b1 || b2) in
  match Unmarshal_struct "" dec p with
  | (e, None) => if e =?s "" then None else Some e
  | (_, Some _) => None
  end.

(** The error text for a status of 300 or more. *)
Definition status_error (what : string) (r : http_response) (b : body) : string :=
  match api_error (body_json b) with
  | Some e => what +:+ " error: " +:+ e
  | None => what +:+ " failed: HTTP " +:+ itoa (StatusCode r) +:+ ": " +:+ body_text b
  end.

(** ** [VerifyJobLease] *)

Definition decodeLease (fs : list (string * json)) : JobLeaseStatus * bool :=
  let '(j, e1) := field dec_string "job_id" "" fs in
  let '(s, e2) := field dec_string "status" "" fs in
  let '(a, e3) := field dec_string "agent_id" "" fs in
  let '(v, e4) := field dec_bool "is_valid" false fs in
  (mkLease j s a v, e1 || e2 || e3 || e4).

Definition VerifyJobLease (jobID : string) (o : outcome) : result JobLeaseStatus :=
  match o with
  | Err e => Err e
  | Ok r =>
      if StatusCode r =? 404 then Ok (mkLease jobID "" "" false)
      else
        match Body r with
        | None => Err ("failed to read response: " +:+ closed_body)
        | Some b =>
            if 300 <=? StatusCode r then Err (status_error "verify_job_lease" r b)
            else
              match Unmarshal_struct (mkLease "" "" "" false) decodeLease (body_json b) with
              | (status, None) => Ok status
              | (_, Some e) => Err ("invalid JSON from verify_job_lease: " +:+ e +:+ " | body=" +:+ body_text b)
              end
        end
  end.

(** ** [StartJob] *)

Definition decodeStart (fs : list (string * json)) : StartJobResult * bool :=
  let '(s, e1) := field dec_bool "success" false fs in
  let '(o, e2) := field dec_bool "ok" false fs in
  let '(j, e3) := field dec_string "job_id" "" fs in
  let '(t, e4) := field dec_string "status" "" fs in
  let '(e, e5) := field dec_string "error" "" fs in
  (mkStart s o j t e, e1 || e2 || e3 || e4 || e5).

(** A body that cannot be read is treated as an empty one. *)
Definition StartJob (o : outcome) : result StartJobResult :=
  match o with
  | Err e => Err ("start_job RPC failed: " +:+ e)
  | Ok r =>
      if 300 <=? StatusCode r then Err ("start_job failed: HTTP " +:+ itoa (StatusCode r))
      else
        let p := match Body r with Some b => body_json b | None => RawEmpty end in
        match Unmarshal_struct (mkStart false false "" "" "") decodeStart p with
        | (x, None) => Ok x
        | (_, Some e) => Err e
        end
  end.

(** ** [RecordPluginExecutionStart] and [RecordPluginExecutionEnd] *)

Definition decodeExecutionID (fs : list (string * json)) : string * bool :=
  field dec_string "execution_id" "" fs.

Definition RecordPluginExecutionStart (o : outcome) : string * error :=
  match o with
  | Err e => ("", Some e)
  | Ok r =>
      match Body r with
      | None => ("", Some ("failed to read response: " +:+ closed_body))
      | Some b =>
          if 300 <=? StatusCode r
          then ("", Some (status_error "record_plugin_execution_start" r b))
          else
            match Unmarshal_struct "" decodeExecutionID (body_json b) with
            | (x, None) => (x, None)
            | (_, Some e) =>
                ("", Some ("invalid JSON from record_plugin_execution_start: " +:+ e +:+ " | body=" +:+ body_text b))
            end
      end
  end.

Definition RecordPluginExecutionEnd (o : outcome) : error :=
  match o with
  | Err e => Some e
  | Ok r =>
      match Body r with
      | None => Some ("failed to read response: " +:+ closed_body)
      | Some b =>
          if 300 <=? StatusCode r
          then Some (status_error "record_plugin_execution_end" r b) else None
      end
  end.

(** ** [CompleteJob] *)

Definition IsStaleExecution (r : CompleteJobResult) : bool :=
  IsLeaseExpired r || IsAlreadyDone r.

Definition IsRetryable (r : CompleteJobResult) : bool :=
  match complete_Err r with
  | None => false
  | Some _ =>
      if IsLeaseExpired r then false
      else if IsAlreadyDone r then false
      else if IsConcurrentMod r then false
      else true
  end.

(** Unmarshalling that ignores the error keeps the fields that decoded. *)
Definition decodeOk (p : RawMessage) : bool * bool :=
  (Unmarshal_struct (false, false)
     (fun fs => let '(o, e1) := field dec_bool "ok" false fs in
                let '(i, e2) := field dec_bool "idempotent" false fs in
                ((o, i), e1 || e2)) p).1.

Definition decodeErrorText (p : RawMessage) : string :=
  (Unmarshal_struct "" (fun fs => field dec_string "error" "" fs) p).1.

Definition completion_error (r : http_response) (b : body) : CompleteJobResult :=
  let errMsg := decodeErrorText (body_json b) in
  let errMsg := if errMsg =?s "" then body_text b else errMsg in
  if strings_Contains errMsg "already completed" || strings_Contains errMsg "terminal state"
  then mkComplete false true false (Some errMsg)
  else mkComplete false false false (Some ("complete_job failed: HTTP " +:+ itoa (StatusCode r) +:+ ": " +:+ errMsg)).

Definition CompleteJob (o : outcome) : CompleteJobResult :=
  match o with
  | Err e => mkComplete false false false (Some e)
  | Ok r =>
      match Body r with
      | None => mkComplete false false false (Some ("failed to read response: " +:+ closed_body))
      | Some b =>
          let '(ok, idem) := decodeOk (body_json b) in
          if (StatusCode r =? 200) && ok then
            if idem then mkComplete false true false None
            else mkComplete false false false None
          else completion_error r b
      end
  end.

(** ** [RequestJobAssignment] *)

Definition dec_assigned : decoder AssignedJob := fun cur j =>
  match j with
  | JObj fs =>
      let '(i, e1) := field dec_string "job_id" (asg_JobID cur) fs in
      let '(t, e2) := field dec_string "job_type" (asg_JobType cur) fs in
      let '(p, e3) := field dec_raw "payload" (asg_Payload cur) fs in
      let '(l, e4) := field dec_int "lease_ttl_seconds" (asg_LeaseTTL cur) fs in
      let '(x, e5) := field dec_string "execution_id" (asg_ExecutionID cur) fs in
      (mkAssigned i t p l x, e1 || e2 || e3 || e4 || e5)
  | JNull => (cur, false)
  | _ => (cur, true)
  end.

(** The response envelope: [ok], [error], the wrapped job and the flat one. *)
Definition decodeAssignment (fs : list (string * json))
    : (bool * string * AssignedJob * AssignedJob) * bool :=
  let '(ok, e1) := field dec_bool "ok" false fs in
  let '(res, e2) := field dec_assigned "result" zeroAssigned fs in
  let '(err, e3) := field dec_string "error" "" fs in
  let '(i, e4) := field dec_string "assigned_job_id" "" fs in
  let '(t, e5) := field dec_string "job_type" "" fs in
  let '(p, e6) := field dec_raw "payload" RawEmpty fs in
  let '(x, e7) := field dec_string "execution_id" "" fs in
  ((ok, err, res, mkAssigned i t p 0 x), e1 || e2 || e3 || e4 || e5 || e6 || e7).

(** [Ok None] is the nil job of a 204 response. *)
Definition RequestJobAssignment (o : outcome) : result (option AssignedJob) :=
  match o with
  | Err e => Err e
  | Ok r =>
      if StatusCode r =? 204 then Ok None
      else
        match Body r with
        | None => Err ("failed to read response: " +:+ closed_body)
        | Some b =>
            if 300 <=? StatusCode r then Err (status_error "assign_agent_job" r b)
            else
              match Unmarshal_struct (false, "", zeroAssigned, zeroAssigned)
                      decodeAssignment (body_json b) with
              | (_, Some e) => Err ("invalid JSON from assign_agent_job: " +:+ e +:+ " | body=" +:+ body_text b)
              | ((ok, err, wrapped, flat), None) =>
                  if negb (asg_JobID wrapped =?s "") then Ok (Some wrapped)
                  else if negb (asg_JobID flat =?s "") then Ok (Some flat)
                  else if negb ok && negb (err =?s "")
                  then Err ("assign_agent_job rejected: " +:+ err)
                  else if negb ok then Err "assign_agent_job failed: no job assigned"
                  else Ok (Some zeroAssigned)
              end
        end
  end.

(** ** Relay batching *)

Section relay.
Context {event : Type}.

Definition relayBatchSize : nat := 5.

(** [relayPending], the one-slot [relayCh], and the batches that were sent. *)
Record relay := mkRelay {
  relayPending : list event;
  relayCh : bool;
  sent : list (list event);
}.

Definition bufferRelayEvent (ev : event) (s : relay) : relay :=
  let pending := relayPending s ++ [ev] in
  if (relayBatchSize <=? length pending)%nat
  then mkRelay pending true (sent s)
  else mkRelay pending (relayCh s) (sent s).

(** The batch leaves the buffer whether or not its delivery succeeds. *)
Definition flushRelayEvents (s : relay) : relay :=
  match relayPending s with
  | [] => s
  | batch => mkRelay [] (relayCh s) (sent s ++ [batch])
  end.

(** One turn of [relayFlusher]: the ticker, or the signal. *)
Inductive flush_cause := Tick | Signal.

Definition relayFlusher_turn (c : flush_cause) (s : relay) : option relay :=
  match c with
  | Tick => Some (flushRelayEvents s)
  | Signal =>
      if relayCh s
      then Some (flushRelayEvents (mkRelay (relayPending s) false (sent s))) else None
  end.

(** Runs of the buffer and its flusher; the list is what was buffered. *)
Inductive relay_run : list event -> relay -> Prop :=
  | run_start : relay_run [] (mkRelay [] false [])
  | run_buffer evs s ev : relay_run evs s -> relay_run (evs ++ [ev]) (bufferRelayEvent ev s)
  | run_turn evs s c s' : relay_run evs s -> relayFlusher_turn c s = Some s' -> relay_run evs s'.
End relay.
Arguments relay : clear implicits.

(** ** Lemmas *)

Lemma flush_spec {event} (s : relay event) :
  relayPending (flushRelayEvents s) = [] /\
  concat (sent (flushRelayEvents s)) = concat (sent s) ++ relayPending s /\
  (Forall (fun b => b <> []) (sent s) -> Forall (fun b => b <> []) (sent (flushRelayEvents s))).
Proof.
  unfold flushRelayEvents. destruct (relayPending s) as [|ev evs] eqn:Hp; simpl.
  - by rewrite Hp, app_nil_r.
  - rewrite concat_app. simpl. rewrite app_nil_r. split; [done|]. split; [done|].
    intros H. apply Forall_app. split; [done|]. by constructor.
Qed.

(** ** Properties *)

(** Batching loses, duplicates and reorders nothing before delivery:
    at every moment the events sent in batches followed by the pending ones are
    exactly the events buffered so far; no empty batch is sent; and a buffer
    that reached the batch size has the flusher signalled. *)
Theorem relay_conservation {event : Type} (evs : list event) (s : relay event) :
  relay_run evs s ->
  concat (sent s) ++ relayPending s = evs /\
  Forall (fun b => b <> []) (sent s) /\
  ((relayBatchSize <= length (relayPending s))%nat -> relayCh s = true).
Proof.
  induction 1 as [|evs s ev _ (IHc & IHe & IHb)|evs s c s' _ (IHc & IHe & IHb) Hturn].
  - split; [done|]. split; [done|]. simpl. unfold relayBatchSize. lia.
  - unfold bufferRelayEvent. destruct (Nat.leb_spec relayBatchSize (length (relayPending s ++ [ev])));
      simpl; (split; [by rewrite app_assoc, IHc|]); (split; [done|]); [done|lia].
  - assert (Hflush : forall s0 : relay event, relayPending s0 = relayPending s -> sent s0 = sent s ->
      concat (sent (flushRelayEvents s0)) ++ relayPending (flushRelayEvents s0) = evs /\
      Forall (fun b => b <> []) (sent (flushRelayEvents s0)) /\
      ((relayBatchSize <= length (relayPending (flushRelayEvents s0)))%nat ->
       relayCh (flushRelayEvents s0) = true)).
    { intros s0 Hp Hs. destruct (flush_spec s0) as (Hnil & Hcat & Hne).
      rewrite Hnil, Hcat, Hp, Hs, app_nil_r. rewrite Hs in Hne.
      split; [done|]. split; [by apply Hne|]. simpl. unfold relayBatchSize. lia. }
    destruct c; simpl in Hturn; [|destruct (relayCh s); [|done]]; injection Hturn as <-;
      by apply Hflush.
Qed.

Lemma relay_conservation_witness :
  let s := bufferRelayEvent 2 (bufferRelayEvent 1 (mkRelay [] false [])) in
  relay_run [1; 2] s /\ concat (sent s) ++ relayPending s = [1; 2].
Proof.
  intros s.
  assert (H : relay_run [1; 2] s) by (apply (run_buffer [1]), (run_buffer []), run_start).
  split; [exact H|]. exact (proj1 (relay_conservation [1; 2] s H)).
Defined.

(** No answer of the control plane is ever read as an expired
    lease or as a concurrent modification: [CompleteJob] reports a stale
    execution only for a completion that was already recorded, and every other
    rejection, an expired lease included, is classified as retryable. *)
Theorem CompleteJob_never_lease_expired (o : outcome) :
  IsLeaseExpired (CompleteJob o) = false /\ IsConcurrentMod (CompleteJob o) = false /\
  IsStaleExecution (CompleteJob o) = IsAlreadyDone (CompleteJob o) /\
  (complete_Err (CompleteJob o) <> None -> IsAlreadyDone (CompleteJob o) = false ->
   IsRetryable (CompleteJob o) = true).
Proof.
  unfold CompleteJob, completion_error, IsStaleExecution, IsRetryable.
  destruct o as [r|e]; [|done].
  destruct (Body r) as [b|]; [|done]. destruct (decodeOk _) as [ok idem].
  destruct (_ && ok).
  - by destruct idem.
  - by destruct (_ || _).
Qed.

Lemma CompleteJob_never_lease_expired_witness :
  let o := Ok (mkResponse 409 (Some (mkBody "" (Raw (JObj [("error", JStr "lease expired")]))))) in
  complete_Err (CompleteJob o) <> None /\ IsRetryable (CompleteJob o) = true.
Proof.
  intros o. split; [vm_compute; discriminate|].
  apply (CompleteJob_never_lease_expired o); vm_compute; first [discriminate|reflexivity].
Defined.
