(* ===== verification/BackendClient.v ===== *)
(** * BackendClient: calls of the control plane

    Models [internal/backend/client.go] and the rest of [execution_client.go]: the
    calls that send a request and read a typed answer, and the events that are
    relayed.  A call is its request and what it makes of the outcome; [run_call]
    puts the retrying client of [HttpClient] between the two. *)
From S2P Require Import Prelude GoFloat Json HttpClient Backend Regexp Sanitize.

(** ** Clients *)

Record BackendClient := mkBackendClient {
  deviceID : string;
  orgID : string;
  httpc : HttpClient.Client }.

(** [NewClient] and [NewExecutionClient]; the URL, the key and the token are
    only used through [httpc]. *)
Definition NewBackendClient (url anon token device org : string) : BackendClient :=
  mkBackendClient device org (HttpClient.NewClient url anon token []).

Definition GetDeviceID (c : BackendClient) : string := deviceID c.

Definition FunctionAgentHealthPolicy : string := "/functions/v1/agent_health_policy".
Definition FunctionAssignAgentJob : string := "/functions/v1/assign_agent_job".
Definition FunctionClaimJobsForDevice : string := "/functions/v1/claim_jobs_for_device".
Definition FunctionCompleteJob : string := "/functions/v1/complete_job".
Definition FunctionReportJobError : string := "/functions/v1/report_job_error".
Definition FunctionRelayJobEvent : string := "/functions/v1/relay_job_event".
Definition FunctionNotifyAvailableDevice : string := "/functions/v1/notify_available_device".
Definition FunctionGetStorageConfig : string := "/functions/v1/get_storage_config".
Definition TraceIDHeader : string := "x-trace-id".

(** ** Calls *)

(** A call that is not made because its request cannot be marshalled, or the
    request and what becomes of its outcome. *)
Inductive call (A : Type) :=
  | Unsendable (e : string)
  | Call (path : string) (b : option json) (extra : headers) (answer : outcome -> A).
Arguments Unsendable {A}. Arguments Call {A}.

(** The outcome is read, then the status is tested. *)
Definition read_answer {A} (what unread : string) (k : http_response -> body -> result A) (o : outcome) : result A :=
  match o with
  | Err e => Err e
  | Ok r =>
      match Body r with
      | None => Err (unread +:+ closed_body)
      | Some b => if 300 <=? StatusCode r then Err (status_error what r b) else k r b
      end
  end.

(** The answer decodes, and a refusal with a reason is an error. *)
Definition decode_answer {A} (what : string) (zero : A) (dec : list (string * json) -> A * bool)
    (ok : A -> bool) (reason : A -> string) (r : http_response) (b : body) : result A :=
  match Unmarshal_struct zero dec (body_json b) with
  | (_, Some e) => Err ("invalid JSON from " +:+ what +:+ ": " +:+ e +:+ " | body=" +:+ body_text b)
  | (x, None) =>
      if negb (ok x) && negb (reason x =?s "") then Err (what +:+ " rejected: " +:+ reason x) else Ok x
  end.

Definition typed_answer {A} (what : string) (zero : A) (dec : list (string * json) -> A * bool)
    (ok : A -> bool) (reason : A -> string) : outcome -> result A :=
  read_answer what "failed to read response: " (decode_answer what zero dec ok reason).

(** [post]: only the status is looked at. *)
Definition post_answer (path unread : string) (o : outcome) : error :=
  match o with
  | Err e => Some e
  | Ok r =>
      match Body r with
      | None => Some (unread +:+ closed_body)
      | Some b =>
          if 300 <=? StatusCode r then
            Some (match api_error (body_json b) with
                  | Some e => "API error: " +:+ e
                  | None => "POST " +:+ path +:+ " failed: HTTP " +:+ itoa (StatusCode r) +:+ ": " +:+ body_text b
                  end)
          else None
      end
  end.

Definition device_header (c : BackendClient) : headers := [("x-device-id", deviceID c)].

(** ** Requests and answers *)

Definition num (n : Z) : json := JNum (itoa n).

(** Members whose tag says [omitempty]. *)
Definition unless (empty : bool) (k : string) (v : json) : list (string * json) := if empty then [] else [(k, v)].

Record HealthPolicyResponse := mkPolicy { hp_Ok : bool; Concurrency : Z; LoadFactor : float64; hp_Error : string }.

Record AssignJobResponse := mkAssign {
  aj_Ok : bool; aj_JobID : string; aj_JobType : string; aj_Payload : RawMessage; aj_LeaseTTL : Z; aj_Error : string }.

Record ClaimedJob := mkClaimed {
  cj_JobID : string; cj_JobType : string; cj_Payload : RawMessage; cj_DatasetID : string; cj_ChunkIndex : Z;
  cj_ExecutionID : string; cj_StepIndex : Z; cj_LeaseExpires : string; cj_IsReclaimed : bool; cj_RetryCount : Z }.

(** A missing or null list of jobs is nil. *)
Record ClaimJobsResponse := mkClaims { cl_Ok : bool; Jobs : option (list ClaimedJob); cl_Error : string }.

Record StorageConfig := mkStorageConfig {
  sc_Ok : bool; sc_StorageMode : string; sc_Provider : string; sc_BucketName : string; sc_Region : string;
  sc_Endpoint : string; sc_MountBasePath : string; sc_Credentials : json; sc_Error : string }.

Record CompleteJobResponse := mkCompleted {
  cr_Ok : bool; cr_JobID : string; cr_Status : string; cr_Idempotent : bool; cr_Error : string }.

Record ReportJobErrorResponse := mkReported {
  re_Ok : bool; re_JobID : string; Action : string; RetryCount : Z; MaxRetries : Z; CanRetry : bool; re_Error : string }.

Record DeviceAssignedJob := mkDeviceJob {
  dj_ID : string; dj_JobType : string; dj_Payload : RawMessage; dj_ExecutionID : string;
  dj_ExecutionStepID : string; dj_OrgID : string; dj_Status : string }.

Record RelayJobEvent := mkEvent { Channel : string; Data : json }.

(** [map[string]any], marshalled with its names in order. *)
Definition any_map (m : list (string * json)) : json := JObj (map_of_members m).

Section calls.
(** [strconv.ParseFloat] on a number, the text [json.Marshal] prints for a
    [float64] (none for infinities and NaN), and what it prints for a number
    that was decoded into an interface. *)
Context (parse_float : string -> option float64) (fmt_float : float64 -> option string) (renum : string -> string).

(** *** Decoders *)

Definition decodePolicy (fs : list (string * json)) : HealthPolicyResponse * bool :=
  let '(o, e1) := field dec_bool "ok" false fs in
  let '(c, e2) := field dec_int "concurrency" 0 fs in
  let '(l, e3) := field (dec_float parse_float) "load_factor" (f64_of_Z 0) fs in
  let '(e, e4) := field dec_string "error" "" fs in
  (mkPolicy o c l e, e1 || e2 || e3 || e4).
Definition zeroPolicy : HealthPolicyResponse := mkPolicy false 0 (f64_of_Z 0) "".

Definition zeroAssign : AssignJobResponse := mkAssign false "" "" RawEmpty 0 "".
Definition dec_assign : decoder AssignJobResponse := fun cur j =>
  match j with
  | JObj fs =>
      let '(o, e1) := field dec_bool "ok" (aj_Ok cur) fs in
      let '(i, e2) := field dec_string "job_id" (aj_JobID cur) fs in
      let '(t, e3) := field dec_string "job_type" (aj_JobType cur) fs in
      let '(p, e4) := field dec_raw "payload" (aj_Payload cur) fs in
      let '(l, e5) := field dec_int "lease_ttl_seconds" (aj_LeaseTTL cur) fs in
      let '(e, e6) := field dec_string "error" (aj_Error cur) fs in
      (mkAssign o i t p l e, e1 || e2 || e3 || e4 || e5 || e6)
  | JNull => (cur, false)
  | _ => (cur, true)
  end.

(** The envelope of an assigned job. *)
Definition decodeAssign (fs : list (string * json)) : (bool * AssignJobResponse * string) * bool :=
  let '(o, e1) := field dec_bool "ok" false fs in
  let '(r, e2) := field dec_assign "result" zeroAssign fs in
  let '(e, e3) := field dec_string "error" "" fs in
  ((o, r, e), e1 || e2 || e3).

Definition zeroClaimed : ClaimedJob := mkClaimed "" "" RawEmpty "" 0 "" 0 "" false 0.
Definition dec_claimed : decoder ClaimedJob := fun cur j =>
  match j with
  | JObj fs =>
      let '(i, e1) := field dec_string "job_id" (cj_JobID cur) fs in
      let '(t, e2) := field dec_string "job_type" (cj_JobType cur) fs in
      let '(p, e3) := field dec_raw "payload" (cj_Payload cur) fs in
      let '(d, e4) := field dec_string "dataset_id" (cj_DatasetID cur) fs in
      let '(c, e5) := field dec_int "chunk_index" (cj_ChunkIndex cur) fs in
      let '(x, e6) := field dec_string "execution_id" (cj_ExecutionID cur) fs in
      let '(s, e7) := field dec_int "step_index" (cj_StepIndex cur) fs in
      let '(l, e8) := field dec_string "lease_expires_at" (cj_LeaseExpires cur) fs in
      let '(r, e9) := field dec_bool "is_reclaimed" (cj_IsReclaimed cur) fs in
      let '(n, e10) := field dec_int "retry_count" (cj_RetryCount cur) fs in
      (mkClaimed i t p d c x s l r n, e1 || e2 || e3 || e4 || e5 || e6 || e7 || e8 || e9 || e10)
  | JNull => (cur, false)
  | _ => (cur, true)
  end.

Definition decodeClaims (fs : list (string * json)) : ClaimJobsResponse * bool :=
  let '(o, e1) := field dec_bool "ok" false fs in
  let '(j, e2) := field (dec_slice zeroClaimed dec_claimed) "jobs" None fs in
  let '(e, e3) := field dec_string "error" "" fs in
  (mkClaims o j e, e1 || e2 || e3).
Definition zeroClaims : ClaimJobsResponse := mkClaims false None "".

(** An [interface{}] takes any value; null is nil. *)
Definition dec_any : decoder json := fun _ j => (to_interface renum j, false).

Definition decodeStorage (fs : list (string * json)) : StorageConfig * bool :=
  let '(o, e1) := field dec_bool "ok" false fs in
  let '(m, e2) := field dec_string "storage_mode" "" fs in
  let '(p, e3) := field dec_string "provider" "" fs in
  let '(b, e4) := field dec_string "bucket_name" "" fs in
  let '(r, e5) := field dec_string "region" "" fs in
  let '(u, e6) := field dec_string "endpoint" "" fs in
  let '(t, e7) := field dec_string "mount_base_path" "" fs in
  let '(c, e8) := field dec_any "credentials" JNull fs in
  let '(e, e9) := field dec_string "error" "" fs in
  (mkStorageConfig o m p b r u t c e, e1 || e2 || e3 || e4 || e5 || e6 || e7 || e8 || e9).
Definition zeroStorage : StorageConfig := mkStorageConfig false "" "" "" "" "" "" JNull "".

Definition decodeCompleted (fs : list (string * json)) : CompleteJobResponse * bool :=
  let '(o, e1) := field dec_bool "ok" false fs in
  let '(j, e2) := field dec_string "job_id" "" fs in
  let '(s, e3) := field dec_string "status" "" fs in
  let '(i, e4) := field dec_bool "idempotent" false fs in
  let '(e, e5) := field dec_string "error" "" fs in
  (mkCompleted o j s i e, e1 || e2 || e3 || e4 || e5).
Definition zeroCompleted : CompleteJobResponse := mkCompleted false "" "" false "".

Definition decodeReported (fs : list (string * json)) : ReportJobErrorResponse * bool :=
  let '(o, e1) := field dec_bool "ok" false fs in
  let '(j, e2) := field dec_string "job_id" "" fs in
  let '(a, e3) := field dec_string "action" "" fs in
  let '(n, e4) := field dec_int "retry_count" 0 fs in
  let '(m, e5) := field dec_int "max_retries" 0 fs in
  let '(c, e6) := field dec_bool "can_retry" false fs in
  let '(e, e7) := field dec_string "error" "" fs in
  (mkReported o j a n m c e, e1 || e2 || e3 || e4 || e5 || e6 || e7).
Definition zeroReported : ReportJobErrorResponse := mkReported false "" "" 0 0 false "".

Definition zeroDeviceJob : DeviceAssignedJob := mkDeviceJob "" "" RawEmpty "" "" "" "".
Definition dec_device_job : decoder DeviceAssignedJob := fun cur j =>
  match j with
  | JObj fs =>
      let '(i, e1) := field dec_string "id" (dj_ID cur) fs in
      let '(t, e2) := field dec_string "job_type" (dj_JobType cur) fs in
      let '(p, e3) := field dec_raw "payload" (dj_Payload cur) fs in
      let '(x, e4) := field dec_string "execution_id" (dj_ExecutionID cur) fs in
      let '(s, e5) := field dec_string "execution_step_id" (dj_ExecutionStepID cur) fs in
      let '(o, e6) := field dec_string "org_id" (dj_OrgID cur) fs in
      let '(u, e7) := field dec_string "status" (dj_Status cur) fs in
      (mkDeviceJob i t p x s o u, e1 || e2 || e3 || e4 || e5 || e6 || e7)
  | JNull => (cur, false)
  | _ => (cur, true)
  end.

Definition decodeDeviceJobs (fs : list (string * json)) : (bool * option (list DeviceAssignedJob)) * bool :=
  let '(o, e1) := field dec_bool "ok" false fs in
  let '(j, e2) := field (dec_slice zeroDeviceJob dec_device_job) "jobs" None fs in
  ((o, j), e1 || e2).

(** *** Requests *)

(** Members that hold a [float64]; one that cannot be printed fails the call. *)
Definition float_member (k : string) (f : float64) : result (string * json) :=
  match fmt_float f with
  | Some lit => Ok (k, JNum lit)
  | None => Err "json: unsupported value"
  end.

Fixpoint all_ok {A} (l : list (result A)) : result (list A) :=
  match l with
  | [] => Ok []
  | Err e :: _ => Err e
  | Ok x :: l' => match all_ok l' with Ok xs => Ok (x :: xs) | Err e => Err e end
  end.

Record HealthPolicyRequest := mkPolicyRequest {
  hr_DeviceID : string; TotalCPUCores : Z; CPUCoresFree : Z; TotalMemoryGB : float64; MemoryFreeGB : float64;
  NetworkLatencyMs : float64; GPUAvailable : bool; CPUUsagePercent : float64; IncomingWorkload : Z }.

Definition marshal_policy (r : HealthPolicyRequest) : result json :=
  match all_ok [Ok ("device_id", JStr (hr_DeviceID r)); Ok ("total_cpu_cores", num (TotalCPUCores r));
                Ok ("cpu_cores_free", num (CPUCoresFree r)); float_member "total_memory_gb" (TotalMemoryGB r);
                float_member "memory_free_gb" (MemoryFreeGB r); float_member "network_latency_ms" (NetworkLatencyMs r);
                Ok ("gpu_available", JBool (GPUAvailable r)); float_member "cpu_usage_percent" (CPUUsagePercent r);
                Ok ("incoming_workload_weight", num (IncomingWorkload r))] with
  | Ok ms => Ok (JObj ms)
  | Err e => Err e
  end.

(** [DeviceHeartbeat] adds the graphics card, the workers and the runtimes. *)
Record DeviceHeartbeat := mkHeartbeat {
  hb_policy : HealthPolicyRequest; GPUModel : string; GPUMemoryFreeGB : float64; GPUMemoryTotalGB : float64;
  ActiveWorkers : Z; PythonVersion : string; NodeVersion : string; DockerAvailable : bool; RuntimeSupported : bool }.

Definition marshal_heartbeat (h : DeviceHeartbeat) : result json :=
  let r := hb_policy h in
  match all_ok [Ok [("device_id", JStr (hr_DeviceID r))]; Ok [("total_cpu_cores", num (TotalCPUCores r))];
                Ok [("cpu_cores_free", num (CPUCoresFree r))]] with
  | Err e => Err e
  | Ok head =>
      match all_ok [float_member "total_memory_gb" (TotalMemoryGB r); float_member "memory_free_gb" (MemoryFreeGB r);
                    float_member "network_latency_ms" (NetworkLatencyMs r)],
            all_ok [float_member "gpu_memory_free_gb" (GPUMemoryFreeGB h); float_member "gpu_memory_total_gb" (GPUMemoryTotalGB h);
                    float_member "cpu_usage_percent" (CPUUsagePercent r)] with
      | Ok memory, Ok graphics =>
          Ok (JObj (concat head ++ memory ++ [("gpu_available", JBool (GPUAvailable r))]
            ++ unless (GPUModel h =?s "") "gpu_model" (JStr (GPUModel h)) ++ graphics
            ++ [("incoming_workload_weight", num (IncomingWorkload r)); ("active_workers", num (ActiveWorkers h))]
            ++ unless (PythonVersion h =?s "") "python_version" (JStr (PythonVersion h))
            ++ unless (NodeVersion h =?s "") "node_version" (JStr (NodeVersion h))
            ++ [("docker_available", JBool (DockerAvailable h)); ("runtime_supported", JBool (RuntimeSupported h))]))
      | Err e, _ => Err e
      | _, Err e => Err e
      end
  end.

(** *** Calls with a typed answer *)

Definition send {A} (path : string) (b : result json) (extra : headers) (answer : outcome -> A) : call A :=
  match b with Ok j => Call path (Some j) extra answer | Err e => Unsendable e end.

Definition policy_answer : outcome -> result HealthPolicyResponse :=
  typed_answer "agent_health_policy" zeroPolicy decodePolicy hp_Ok hp_Error.

Definition SendHealthPolicy (c : BackendClient) (r : HealthPolicyRequest) : call (result HealthPolicyResponse) :=
  send FunctionAgentHealthPolicy (marshal_policy r) (device_header c) policy_answer.

Definition SendDeviceHeartbeat (c : BackendClient) (h : DeviceHeartbeat) : call (result HealthPolicyResponse) :=
  send FunctionAgentHealthPolicy (marshal_heartbeat h) (device_header c) policy_answer.

(** No content is no job. *)
Definition assign_answer (o : outcome) : result (option AssignJobResponse) :=
  match o with
  | Ok r =>
      if StatusCode r =? 204 then Ok None
      else match typed_answer "assign_agent_job" (false, zeroAssign, "") decodeAssign
                   (fun x => x.1.1) (fun x => x.2) o with
           | Ok (_, job, _) => Ok (Some job)
           | Err e => Err e
           end
  | Err e => Err e
  end.

Definition AssignJob (c : BackendClient) (now : string) : call (result (option AssignJobResponse)) :=
  Call FunctionAssignAgentJob (Some (JObj [("org_id", JStr (orgID c)); ("requested_at", JStr now)]))
    (device_header c) assign_answer.

(** The time to live of the leases is not set. *)
Definition ClaimJobsForDevice (c : BackendClient) (limit : Z) : call (result ClaimJobsResponse) :=
  Call FunctionClaimJobsForDevice (Some (JObj [("limit", num limit); ("lease_ttl_seconds", num 0)]))
    (device_header c) (typed_answer "claim_jobs_for_device" zeroClaims decodeClaims cl_Ok cl_Error).

Definition GetStorageConfig (c : BackendClient) : call (result StorageConfig) :=
  Call FunctionGetStorageConfig (Some (JObj [("org_id", JStr (orgID c))])) []
    (typed_answer "get_storage_config" zeroStorage decodeStorage sc_Ok sc_Error).

(** [resultData] is nil, or a value that can be marshalled or not. *)
Definition CompleteJob (c : BackendClient) (jobID status : string) (durationMs : Z) (resultData : option (result json)) :
    call (result CompleteJobResponse) :=
  match resultData with
  | Some (Err e) => Unsendable e
  | _ =>
      Call FunctionCompleteJob
        (Some (JObj ([("job_id", JStr jobID); ("status", JStr status)]
          ++ unless (durationMs =? 0) "duration_ms" (num durationMs)
          ++ match resultData with Some (Ok j) => [("result", j)] | _ => [] end)))
        (device_header c) (typed_answer "complete_job" zeroCompleted decodeCompleted cr_Ok cr_Error)
  end.

Definition ReportJobError (c : BackendClient) (jobID errMsg : string) (forceDeadLetter : bool) : call (result ReportJobErrorResponse) :=
  Call FunctionReportJobError
    (Some (JObj ([("job_id", JStr jobID); ("error_message", JStr (ErrorMessage errMsg))]
      ++ unless (negb forceDeadLetter) "force_dead_letter" (JBool true))))
    (device_header c) (typed_answer "report_job_error" zeroReported decodeReported re_Ok re_Error).

(** The jobs of this device; here every refusal is an error. *)
Definition assigned_answer (o : outcome) : result (option (list DeviceAssignedJob)) :=
  match o with
  | Err e => Err ("get_assigned_jobs request failed: " +:+ e)
  | Ok r =>
      match Body r with
      | None => Err ("get_assigned_jobs read failed: " +:+ closed_body)
      | Some b =>
          if 300 <=? StatusCode r
          then Err ("get_assigned_jobs failed: HTTP " +:+ itoa (StatusCode r) +:+ ": " +:+ body_text b)
          else match Unmarshal_struct (false, None) decodeDeviceJobs (body_json b) with
               | (_, Some e) => Err ("get_assigned_jobs decode failed: " +:+ e)
               | ((ok, jobs), None) => if ok then Ok jobs else Err "get_assigned_jobs rejected"
               end
      end
  end.

Definition GetAssignedJobs : call (result (option (list DeviceAssignedJob))) :=
  Call "/functions/v1/get_assigned_jobs" None [] assigned_answer.

(** *** Posts *)

(** [Client.post] adds the trace id of the context, if it has one. *)
Definition post (path : string) (b : result json) (trace : string) : call error :=
  send path b (if trace =?s "" then [] else [(TraceIDHeader, trace)]) (post_answer path "failed to read response: ").

(** [Client.postWithDeviceID], and [ExecutionClient.post]. *)
Definition postWithDeviceID (c : BackendClient) (path unread : string) (b : result json) : call error :=
  send path b (device_header c) (post_answer path unread).

Definition channel (c : BackendClient) : string := "agent-" +:+ deviceID c.

(** [Client.EmitEvent], [ReportJobStart], [ReportJobComplete] and
    [ReportJobFailure] post their event at once. *)
Definition relay_request (c : BackendClient) (data : list (string * json)) : result json :=
  Ok (JObj [("channel", JStr (channel c)); ("data", any_map data)]).

Definition EmitEvent (c : BackendClient) (trace eventType : string) (data : json) : call error :=
  post FunctionRelayJobEvent (relay_request c [("type", JStr eventType); ("data", data)]) trace.
Definition ReportJobStart (c : BackendClient) (trace now jobID : string) : call error :=
  post FunctionRelayJobEvent
    (relay_request c [("type", JStr "job_started"); ("job_id", JStr jobID); ("started_at", JStr now)]) trace.
Definition ReportJobComplete (c : BackendClient) (trace now jobID : string) (durationMs : Z) (r : json) : call error :=
  post FunctionRelayJobEvent
    (relay_request c [("type", JStr "job_completed"); ("job_id", JStr jobID); ("duration_ms", num durationMs);
                      ("finished_at", JStr now); ("result", r)]) trace.
Definition ReportJobFailure (c : BackendClient) (trace now jobID err : string) : call error :=
  post FunctionRelayJobEvent
    (relay_request c [("type", JStr "job_failed"); ("job_id", JStr jobID); ("error_message", JStr (ErrorMessage err));
                      ("finished_at", JStr now)]) trace.

(** [sysinfo.Specs], as far as it is sent. *)
Record Specs := mkSpecs {
  sp_CPUCores : Z; sp_AvailableCPUCores : Z; sp_CPUUsagePercent : float64; sp_TotalMemoryGB : float64;
  sp_AvailableMemoryGB : float64; sp_GPUModel : string; sp_GPUMemoryFreeGB : float64; sp_GPUMemoryTotalGB : float64;
  sp_IOThroughputMBps : float64; sp_NetworkLatency : float64 }.

Definition marshal_metrics (s : Specs) : result json :=
  match all_ok [Ok ("total_cpu_cores", num (sp_CPUCores s)); Ok ("cpu_cores_free", num (sp_AvailableCPUCores s));
                float_member "total_memory_gb" (sp_TotalMemoryGB s); float_member "memory_free_gb" (sp_AvailableMemoryGB s);
                float_member "cpu_usage_percent" (sp_CPUUsagePercent s); float_member "io_bandwidth_mb_s" (sp_IOThroughputMBps s);
                float_member "network_latency_ms" (sp_NetworkLatency s);
                Ok ("gpu_available", JBool (negb (sp_GPUModel s =?s "")))] with
  | Ok ms => Ok (any_map ms)
  | Err e => Err e
  end.

Definition availability (device : string) (active : Z) (s : Specs) (shape : list (string * json) -> json) : result json :=
  match marshal_metrics s with
  | Ok m => Ok (shape [("device_id", JStr device); ("metrics", m); ("active_workers", num active)])
  | Err e => Err e
  end.

(** The number of workers that may run is not sent. *)
Definition NotifyAvailable (c : BackendClient) (trace : string) (maxWorkers activeWorkers : Z) (s : Specs) : call error :=
  post FunctionNotifyAvailableDevice (availability (deviceID c) activeWorkers s JObj) trace.

(** [realtime.AnnounceAvailable]; a body that cannot be read is empty. *)
Definition announce_answer (o : outcome) : error :=
  match o with
  | Err e => Some e
  | Ok r =>
      if 300 <=? StatusCode r
      then Some ("availability failed: HTTP " +:+ itoa (StatusCode r) +:+ ": "
                 +:+ match Body r with Some b => body_text b | None => "" end)
      else None
  end.

Definition AnnounceAvailable (c : BackendClient) (activeWorkers : Z) (s : Specs) : call error :=
  send FunctionNotifyAvailableDevice (availability (deviceID c) activeWorkers s any_map) (device_header c) announce_answer.

(** *** Events of the execution client *)

(** These are buffered ([bufferRelayEvent]); a struct keeps the order of its
    fields, a map is sorted. *)
Definition relay_event (c : BackendClient) (data : json) : RelayJobEvent := mkEvent (channel c) data.

Definition job_started (c : BackendClient) (now jobID : string) : RelayJobEvent :=
  relay_event c (JObj [("type", JStr "job_started"); ("job_id", JStr jobID); ("started_at", JStr now)]).
Definition job_heartbeat (c : BackendClient) (now jobID : string) : RelayJobEvent :=
  relay_event c (JObj [("type", JStr "job_heartbeat"); ("job_id", JStr jobID); ("timestamp", JStr now)]).
(** A nil result is left out. *)
Definition job_completed (c : BackendClient) (now jobID : string) (durationMs : Z) (r : option json)
    (isLocal isLastStep : bool) : RelayJobEvent :=
  relay_event c (JObj ([("type", JStr "job_completed"); ("job_id", JStr jobID); ("duration_ms", num durationMs);
                        ("finished_at", JStr now)]
    ++ match r with Some v => [("result", v)] | None => [] end
    ++ unless (negb isLocal) "is_local" (JBool true) ++ unless (negb isLastStep) "is_last_step" (JBool true))).
Definition job_failed (c : BackendClient) (now jobID err : string) : RelayJobEvent :=
  relay_event c (JObj [("type", JStr "job_failed"); ("job_id", JStr jobID); ("error_message", JStr (ErrorMessage err));
                       ("finished_at", JStr now)]).
Definition MarkChunkRunning (c : BackendClient) (chunkID : string) : RelayJobEvent :=
  relay_event c (any_map [("type", JStr "chunk_running"); ("chunk_id", JStr chunkID)]).
Definition MarkChunkDone (c : BackendClient) (chunkID : string) : RelayJobEvent :=
  relay_event c (any_map [("type", JStr "chunk_done"); ("chunk_id", JStr chunkID)]).
Definition MarkChunkFailed (c : BackendClient) (chunkID err : string) : RelayJobEvent :=
  relay_event c (any_map [("type", JStr "chunk_failed"); ("chunk_id", JStr chunkID); ("error", JStr err)]).
Definition emit_event (c : BackendClient) (eventType : string) (data : json) : RelayJobEvent :=
  relay_event c (any_map [("type", JStr eventType); ("data", data)]).

(** The body of a batch. *)
Definition batch_body (batch : list RelayJobEvent) : json :=
  any_map [("events", JArr (map (fun e => JObj [("channel", JStr (Channel e)); ("data", Data e)]) batch))].

(** *** Requests of the execution client

    What the calls of [Backend] send.  The result of a job is only sent when the
    job failed, as the text of the error or as a value. *)
Inductive result_data := NoResult | ErrorText (s : string) | ResultValue (v : json).

Definition complete_request (executionID jobID status : string) (durationMs : Z) (r : result_data) (isLocal isLastStep : bool) : json :=
  any_map ([("job_id", JStr jobID); ("execution_id", JStr executionID); ("status", JStr status);
            ("is_local", JBool isLocal); ("is_last_step", JBool isLastStep)]
    ++ unless (durationMs <=? 0) "duration_ms" (num durationMs)
    ++ (if status =?s "failed"
        then match r with NoResult => [] | ErrorText e => [("error", JStr e)] | ResultValue v => [("result", v)] end
        else [])).

Definition complete_call (c : BackendClient) (executionID jobID status : string) (durationMs : Z) (r : result_data)
    (isLocal isLastStep : bool) : call CompleteJobResult :=
  Call FunctionCompleteJob (Some (complete_request executionID jobID status durationMs r isLocal isLastStep))
    (device_header c) Backend.CompleteJob.
Definition start_call (c : BackendClient) (jobID : string) : call (result StartJobResult) :=
  Call "/functions/v1/start_job" (Some (any_map [("p_job_id", JStr jobID)])) (device_header c) StartJob.
Definition lease_call (c : BackendClient) (jobID : string) : call (result JobLeaseStatus) :=
  Call "/functions/v1/verify_job_lease" (Some (any_map [("job_id", JStr jobID); ("agent_id", JStr (deviceID c))]))
    (device_header c) (VerifyJobLease jobID).
Definition assignment_call (c : BackendClient) (now : string) : call (result (option AssignedJob)) :=
  Call FunctionAssignAgentJob (Some (any_map [("org_id", JStr (orgID c)); ("requested_at", JStr now)]))
    (device_header c) RequestJobAssignment.
Definition plugin_start_call (c : BackendClient) (org pluginID jobID device : string) : call (string * error) :=
  Call "/rest/v1/rpc/record_plugin_execution_start"
    (Some (JObj [("p_org_id", JStr org); ("p_plugin_id", JStr pluginID); ("p_job_id", JStr jobID); ("p_device_id", JStr device)]))
    (device_header c ++ [("apikey", anonKey (httpc c))]) RecordPluginExecutionStart.
Definition plugin_end_call (c : BackendClient) (executionID status errMsg : string) : call error :=
  Call "/rest/v1/rpc/record_plugin_execution_end"
    (Some (JObj [("p_execution_id", JStr executionID); ("p_status", JStr status); ("p_error", JStr errMsg)]))
    (device_header c ++ [("apikey", anonKey (httpc c))]) RecordPluginExecutionEnd.
(** The answer to a batch is only logged. *)
Definition batch_call (c : BackendClient) (batch : list RelayJobEvent) : call unit :=
  Call FunctionRelayJobEvent (Some (batch_body batch)) (device_header c) (fun _ => tt).

(** ** Calls over the network *)

Context (url_error : string -> error) (network : http_request -> Z -> attempt_result).

(** [fail] makes a result of the error of a call that is not made. *)
Definition run_call {A} (c : BackendClient) (fail : string -> A) (x : call A) : option A :=
  match x with
  | Unsendable e => Some (fail e)
  | Call path b extra answer => option_map answer (PostWithHeaders url_error network (httpc c) path b extra)
  end.

(** What is read off the answer to the last request: it has arrived with its
    body and a status below 300. *)
Definition replied (a : attempt_result) (r : http_response) (b : body) : Prop :=
  a = Response r /\ StatusCode r < 300 /\ Body r = Some b.

(** The body decodes, and grants the call or gives no reason for a refusal. *)
Definition accepted {A} (zero : A) (dec : list (string * json) -> A * bool) (ok : A -> bool) (reason : A -> string)
    (a : attempt_result) (x : A) : Prop :=
  exists r b, replied a r b /\ Unmarshal_struct zero dec (body_json b) = (x, None) /\ (ok x = true \/ reason x = "").

(** The body decodes. *)
Definition decodes {A} (zero : A) (dec : list (string * json) -> A * bool) (a : attempt_result) (x : A) : Prop :=
  exists r b, replied a r b /\ Unmarshal_struct zero dec (body_json b) = (x, None).

Definition answered_with (status : Z) (a : attempt_result) : Prop := exists r, a = Response r /\ StatusCode r = status.

Lemma do_request_last c path b extra :
  url_error (baseURL c +:+ path) = None -> 0 <= maxRetries c ->
  exists req n, URL req = baseURL c +:+ path /\ RequestBody req = b /\ 0 <= n <= maxRetries c /\
    (forall k, 0 <= k < n -> transient (network req k) = true) /\
    (transient (network req n) = true -> n = maxRetries c) /\
    PostWithHeaders url_error network c path b extra = Some (surfaced (network req n)).
Proof.
  intros Hu Hm. destruct (prepare_ok url_error c "POST" path b extra Hu) as (req & E & _ & HU & HB & _).
  unfold PostWithHeaders, do_request. rewrite E. unfold DoWithReq.
  destruct (retry_loop_spec (network req) (maxRetries c) (Z.to_nat (maxRetries c + 1)) 0 [])
    as (n & Hn & -> & Hall & Hlast); [lia..|].
  by exists req, n.
Qed.

Definition refuses {A} (x : result A) : Prop := forall v, x <> Ok v.

(** A call that reads the answer when it is of the right status, and otherwise
    fails. *)
Lemma reads_reply {A} (right : Z -> Prop) (f : outcome -> result A) (k : http_response -> body -> result A) a v :
  (forall r, surfaced a = Ok r -> right (StatusCode r)) ->
  (forall e, refuses (f (Err e))) ->
  (forall r, right (StatusCode r) -> Body r = None -> refuses (f (Ok r))) ->
  (forall r b, right (StatusCode r) -> Body r = Some b -> 300 <= StatusCode r -> refuses (f (Ok r))) ->
  (forall r b, right (StatusCode r) -> Body r = Some b -> StatusCode r < 300 -> f (Ok r) = k r b) ->
  f (surfaced a) = Ok v <-> exists r b, replied a r b /\ k r b = Ok v.
Proof.
  intros Hright He Hn Hs Hk. destruct a as [e|r]; cbn [surfaced] in *.
  { split; [intros H; by destruct (He e v)|]. by intros (r & b & (? & _) & _). }
  destruct (Z.leb_spec 500 (StatusCode r)) as [H5|H5].
  { split; [intros H; by destruct (Hn _ (Hright _ eq_refl) eq_refl v)|]. intros (r' & b & ([= <-] & H' & _) & _). lia. }
  specialize (Hright r eq_refl). destruct (Body r) as [b|] eqn:HB.
  2:{ split; [intros H; by apply Hn in H|]. intros (r' & b & ([= <-] & _ & HB') & _). congruence. }
  destruct (Z.leb_spec 300 (StatusCode r)) as [H3|H3].
  { split; [intros H; by destruct (Hs _ _ Hright HB H3 v)|]. intros (r' & b' & ([= <-] & H' & _) & _). lia. }
  rewrite (Hk r b Hright HB H3). split; [by exists r, b|].
  intros (r' & b' & (E & _ & HB') & Hv). injection E as <-. congruence.
Qed.

Lemma read_answer_ok {A} what unread (k : http_response -> body -> result A) a v :
  read_answer what unread k (surfaced a) = Ok v <-> exists r b, replied a r b /\ k r b = Ok v.
Proof.
  apply (reads_reply (fun _ => True)); [done|done|..]; unfold read_answer.
  - by intros r _ ->.
  - intros r b _ -> H v'. by rewrite (proj2 (Z.leb_le _ _) H).
  - intros r b _ -> H. by rewrite (proj2 (Z.leb_gt _ _) H).
Qed.

Lemma decode_answer_ok {A} what (zero : A) dec ok reason r b x :
  decode_answer what zero dec ok reason r b = Ok x <->
  Unmarshal_struct zero dec (body_json b) = (x, None) /\ (ok x = true \/ reason x = "").
Proof.
  unfold decode_answer. destruct (Unmarshal_struct zero dec (body_json b)) as [y [e|]].
  { split; [done|]. by intros [? _]. }
  destruct (ok y) eqn:Hok; cbn [negb andb].
  - split; [intros [= ->]; auto|by intros [[= ->] _]].
  - destruct (eqb_spec_s (reason y) "") as [Hr|Hr]; cbn [negb].
    + split; [intros [= ->]; auto|by intros [[= ->] _]].
    + split; [done|]. intros [[= ->] [H|H]]; congruence.
Qed.

Lemma typed_answer_ok {A} what (zero : A) dec ok reason a x :
  typed_answer what zero dec ok reason (surfaced a) = Ok x <-> accepted zero dec ok reason a x.
Proof.
  unfold typed_answer, accepted. rewrite read_answer_ok. by setoid_rewrite decode_answer_ok.
Qed.
End calls.

(** ** Answers *)

(** The value and the error of a call that returns them in another shape. *)
Definition of_error (e : error) : result unit := match e with None => Ok tt | Some e => Err e end.
Definition of_pair (x : string * error) : result string := match x with (s, None) => Ok s | (_, Some e) => Err e end.
Definition of_completion (x : CompleteJobResult) : result bool :=
  match complete_Err x with None => Ok (IsAlreadyDone x) | Some e => Err e end.

Definition unread (_ : Z) : string := "failed to read response: " +:+ closed_body.

(** The status of no content is no job, the absent job is an invalid lease. *)
Definition unless_status {A} (status : Z) (x : A) (granted : attempt_result -> A -> Prop) (a : attempt_result) (v : A) : Prop :=
  (answered_with status a /\ v = x) \/ (~ answered_with status a /\ granted a v).

(** The wrapped job, the flat one, or an empty one when the call was granted. *)
Definition assigned_job (a : attempt_result) (v : option AssignedJob) : Prop :=
  exists ok err wrapped flat,
    decodes (false, "", zeroAssigned, zeroAssigned) decodeAssignment a (ok, err, wrapped, flat) /\
    v = Some (if negb (asg_JobID wrapped =?s "") then wrapped else if negb (asg_JobID flat =?s "") then flat else zeroAssigned) /\
    (asg_JobID wrapped <> "" \/ asg_JobID flat <> "" \/ ok = true).

(** A completion: the status is 200 and the body says so; the value is whether
    the job had been completed before. *)
Definition completion (a : attempt_result) (idempotent : bool) : Prop :=
  exists r b, replied a r b /\ StatusCode r = 200 /\ decodeOk (body_json b) = (true, idempotent).

(** A body is not needed to start a job or to announce a device. *)
Definition started (a : attempt_result) (x : StartJobResult) : Prop :=
  exists r, a = Response r /\ StatusCode r < 300 /\
    Unmarshal_struct (mkStart false false "" "" "") decodeStart
      (match Body r with Some b => body_json b | None => RawEmpty end) = (x, None).
Definition acknowledged (a : attempt_result) (_ : unit) : Prop := exists r, a = Response r /\ StatusCode r < 300.
Definition taken (a : attempt_result) (_ : unit) : Prop := exists r b, replied a r b.

Section endpoints.
Context (parse_float : string -> option float64) (fmt_float : float64 -> option string) (renum : string -> string).

(** Every call of the two clients that returns something, once its request is
    marshalled: how its value and error are returned, what value it reads off the
    answer to its last request, and the error it gives when this fails in the
    server. *)
Inductive typed_call (c : BackendClient) : forall A V,
    call A -> (A -> result V) -> (attempt_result -> V -> Prop) -> (Z -> string) -> Prop :=
  | tc_policy r j : marshal_policy fmt_float r = Ok j ->
      typed_call c _ _ (SendHealthPolicy parse_float fmt_float c r) id
        (accepted zeroPolicy (decodePolicy parse_float) hp_Ok hp_Error) unread
  | tc_heartbeat h j : marshal_heartbeat fmt_float h = Ok j ->
      typed_call c _ _ (SendDeviceHeartbeat parse_float fmt_float c h) id
        (accepted zeroPolicy (decodePolicy parse_float) hp_Ok hp_Error) unread
  | tc_claim limit :
      typed_call c _ _ (ClaimJobsForDevice c limit) id (accepted zeroClaims decodeClaims cl_Ok cl_Error) unread
  | tc_storage :
      typed_call c _ _ (GetStorageConfig renum c) id (accepted zeroStorage (decodeStorage renum) sc_Ok sc_Error) unread
  | tc_complete jobID status ms r : (forall e, r <> Some (Err e)) ->
      typed_call c _ _ (CompleteJob c jobID status ms r) id (accepted zeroCompleted decodeCompleted cr_Ok cr_Error) unread
  | tc_report jobID e force :
      typed_call c _ _ (ReportJobError c jobID e force) id (accepted zeroReported decodeReported re_Ok re_Error) unread
  | tc_assign now :
      typed_call c _ _ (AssignJob c now) id
        (unless_status 204 None (fun a v => exists ok job reason, v = Some job /\
           accepted (false, zeroAssign, "") decodeAssign (fun x => x.1.1) (fun x => x.2) a (ok, job, reason))) unread
  | tc_assignment now :
      typed_call c _ _ (assignment_call c now) id (unless_status 204 None assigned_job) unread
  | tc_assigned :
      typed_call c _ _ GetAssignedJobs id
        (fun a jobs => decodes (false, None) decodeDeviceJobs a (true, jobs))
        (fun _ => "get_assigned_jobs read failed: " +:+ closed_body)
  | tc_lease jobID :
      typed_call c _ _ (lease_call c jobID) id
        (unless_status 404 (mkLease jobID "" "" false) (decodes (mkLease "" "" "" false) decodeLease)) unread
  | tc_start jobID :
      typed_call c _ _ (start_call c jobID) id started (fun status => "start_job failed: HTTP " +:+ itoa status)
  | tc_completion executionID jobID status ms r isLocal isLast :
      typed_call c _ _ (complete_call c executionID jobID status ms r isLocal isLast) of_completion completion unread
  | tc_plugin_start org pluginID jobID device :
      typed_call c _ _ (plugin_start_call c org pluginID jobID device) of_pair (decodes "" decodeExecutionID) unread
  | tc_plugin_end executionID status errMsg :
      typed_call c _ _ (plugin_end_call c executionID status errMsg) of_error taken unread
  | tc_post path j trace : typed_call c _ _ (post path (Ok j) trace) of_error taken unread
  | tc_post_device path text j :
      typed_call c _ _ (postWithDeviceID c path text (Ok j)) of_error taken (fun _ => text +:+ closed_body)
  | tc_announce active s j : availability fmt_float (deviceID c) active s any_map = Ok j ->
      typed_call c _ _ (AnnounceAvailable fmt_float c active s) of_error acknowledged
        (fun status => "availability failed: HTTP " +:+ itoa status +:+ ": ").
End endpoints.

Lemma unless_status_ok {A} status (x : A) (f : outcome -> result A) granted a v : status < 500 ->
  (forall r, StatusCode r = status -> f (Ok r) = Ok x) ->
  ((forall r, surfaced a = Ok r -> StatusCode r <> status) -> f (surfaced a) = Ok v <-> granted a v) ->
  f (surfaced a) = Ok v <-> unless_status status x granted a v.
Proof.
  intros Hs Hx Hg. unfold unless_status, answered_with. destruct a as [e|r].
  { rewrite Hg by done. split; [intros H; right; split; [by intros (? & ? & _)|done]|].
    by intros [[(? & ? & _) _]|[_ ?]]. }
  destruct (decide (StatusCode r = status)) as [Hr|Hr].
  - cbn [surfaced]. rewrite (proj2 (Z.leb_gt 500 (StatusCode r))) by lia. rewrite Hx by done.
    split; [intros [= <-]; left; split; [by exists r|done]|]. intros [[_ ->]|[H _]]; [done|]. destruct H. by exists r.
  - rewrite Hg.
    + split; [intros H; right; split; [by intros (? & [= <-] & ?)|done]|]. by intros [[(? & [= <-] & ?) _]|[_ ?]].
    + intros r' Hr' Er. cbn [surfaced] in Hr'.
      destruct (Z.leb_spec 500 (StatusCode r)); injection Hr' as <-; cbn [StatusCode] in Er; [lia|done].
Qed.

Lemma assign_answer_ok a v : assign_answer (surfaced a) = Ok v <->
  unless_status 204 None (fun a v => exists ok job reason, v = Some job /\
    accepted (false, zeroAssign, "") decodeAssign (fun x => x.1.1) (fun x => x.2) a (ok, job, reason)) a v.
Proof.
  apply unless_status_ok; [done|intros r Hr; cbn; by rewrite Hr|]. intros Hne.
  assert (E : assign_answer (surfaced a) =
    match typed_answer "assign_agent_job" (false, zeroAssign, "") decodeAssign (fun x => x.1.1) (fun x => x.2) (surfaced a) with
    | Ok (_, job, _) => Ok (Some job) | Err e => Err e end).
  { unfold assign_answer. destruct (surfaced a) as [r|e] eqn:Ea; [|done].
    by rewrite (proj2 (Z.eqb_neq _ _) (Hne r eq_refl)). }
  rewrite E. clear E Hne. setoid_rewrite <- (typed_answer_ok "assign_agent_job").
  destruct (typed_answer _ _ _ _ _ _) as [[[ok job] reason]|e].
  - split; [intros [= <-]; by exists ok, job, reason|]. by intros (ok' & job' & reason' & -> & [= -> -> ->]).
  - split; [done|]. by intros (ok & job & reason & _ & ?).
Qed.

(** The status and the body have been looked at. *)
Ltac by_status := intros; repeat match goal with
  | H : ?x <> ?y |- context [?x =? ?y] => rewrite (proj2 (Z.eqb_neq x y) H)
  | H : Body ?r = _ |- context [Body ?r] => rewrite H
  | H : 300 <= ?x |- context [300 <=? ?x] => rewrite (proj2 (Z.leb_le 300 x) H)
  | H : ?x < 300 |- context [300 <=? ?x] => rewrite (proj2 (Z.leb_gt 300 x) H)
  end; try (by intros ?); try reflexivity; auto.

Lemma assigned_answer_ok a jobs :
  assigned_answer (surfaced a) = Ok jobs <-> decodes (false, None) decodeDeviceJobs a (true, jobs).
Proof.
  rewrite (reads_reply (fun _ => True) _ (fun r b => match Unmarshal_struct (false, None) decodeDeviceJobs (body_json b) with
      | (_, Some e) => Err ("get_assigned_jobs decode failed: " +:+ e)
      | ((ok, jobs), None) => if ok then Ok jobs else Err "get_assigned_jobs rejected" end));
    unfold assigned_answer; [|by by_status..].
  unfold decodes. split; intros (r & b & Hr & H); exists r, b; (split; [done|]).
  - destruct (Unmarshal_struct _ _ _) as [[[] j] [e|]]; congruence.
  - by rewrite H.
Qed.

Lemma lease_answer_ok jobID a v : VerifyJobLease jobID (surfaced a) = Ok v <->
  unless_status 404 (mkLease jobID "" "" false) (decodes (mkLease "" "" "" false) decodeLease) a v.
Proof.
  apply unless_status_ok; [done|intros r Hr; cbn; by rewrite Hr|]. intros Hne.
  rewrite (reads_reply (fun s => s <> 404) _ (fun r b => match Unmarshal_struct (mkLease "" "" "" false) decodeLease (body_json b) with
      | (status, None) => Ok status
      | (_, Some e) => Err ("invalid JSON from verify_job_lease: " +:+ e +:+ " | body=" +:+ body_text b) end));
    unfold VerifyJobLease; [|by by_status..].
  unfold decodes. split; intros (r & b & Hr & H); exists r, b; (split; [done|]).
  - destruct (Unmarshal_struct _ _ _) as [s [e|]]; congruence.
  - by rewrite H.
Qed.

(** What [RequestJobAssignment] makes of a decoded answer. *)
Definition chosen_job (x : bool * string * AssignedJob * AssignedJob) : option AssignedJob :=
  let '(ok, _, wrapped, flat) := x in
  if negb (asg_JobID wrapped =?s "") then Some wrapped
  else if negb (asg_JobID flat =?s "") then Some flat
  else if ok then Some zeroAssigned else None.

Lemma assignment_answer_ok a v : RequestJobAssignment (surfaced a) = Ok v <-> unless_status 204 None assigned_job a v.
Proof.
  apply unless_status_ok; [done|intros r Hr; cbn; by rewrite Hr|]. intros Hne.
  assert (Hjob : assigned_job a v <-> exists r b, replied a r b /\
    match Unmarshal_struct (false, "", zeroAssigned, zeroAssigned) decodeAssignment (body_json b) with
    | (_, Some e) => Err ""
    | (x, None) => match chosen_job x with Some j => Ok (Some j) | None => Err "" end
    end = Ok v).
  { unfold assigned_job, decodes, chosen_job. split.
    - intros (ok & err & wrapped & flat & (r & b & Hr & Hu) & -> & Hid). exists r, b. split; [done|]. rewrite Hu.
      destruct (eqb_spec_s (asg_JobID wrapped) ""); cbn [negb]; [|done].
      destruct (eqb_spec_s (asg_JobID flat) ""); cbn [negb]; [|done].
      by destruct Hid as [?|[?| ->]].
    - intros (r & b & Hr & H). destruct (Unmarshal_struct _ _ _) as [[[[ok err] wrapped] flat] [e|]] eqn:Hu; [done|].
      exists ok, err, wrapped, flat. split; [by exists r, b|].
      destruct (eqb_spec_s (asg_JobID wrapped) ""); cbn [negb] in *; [|injection H as <-; auto].
      destruct (eqb_spec_s (asg_JobID flat) ""); cbn [negb] in *; [|injection H as <-; auto].
      destruct ok; [injection H as <-; auto|done]. }
  rewrite Hjob. clear Hjob.
  rewrite (reads_reply (fun s => s <> 204) _ (fun r b => RequestJobAssignment (Ok (mkResponse 200 (Some b)))));
    unfold RequestJobAssignment; [|by by_status..].
  f_equiv; intros r. f_equiv; intros b. apply and_iff_compat_l. cbn [StatusCode Body]. unfold chosen_job.
  change (200 =? 204) with false. change (300 <=? 200) with false. cbv iota.
  destruct (Unmarshal_struct _ _ _) as [[[[ok err] wrapped] flat] [e|]]; [done|].
  destruct (negb (asg_JobID wrapped =?s "")); [done|]. destruct (negb (asg_JobID flat =?s "")); [done|].
  destruct ok; [done|]. by destruct (err =?s "").
Qed.

Lemma start_answer_ok a v : StartJob (surfaced a) = Ok v <-> started a v.
Proof.
  unfold StartJob, started. destruct a as [e|r]; cbn [surfaced].
  { split; [done|]. by intros (r & ? & _). }
  destruct (Z.leb_spec 500 (StatusCode r)) as [H5|H5]; cbn [StatusCode Body].
  { rewrite (proj2 (Z.leb_le 300 (StatusCode r))) by lia. split; [done|]. intros (r' & [= <-] & ? & _). lia. }
  destruct (Z.leb_spec 300 (StatusCode r)) as [H3|H3].
  { split; [done|]. intros (r' & [= <-] & ? & _). lia. }
  destruct (Unmarshal_struct _ _ _) as [x [e|]] eqn:Hu.
  - split; [done|]. intros (r' & [= <-] & _ & Hu'). congruence.
  - split; [intros [= <-]; by exists r|]. intros (r' & [= <-] & _ & Hu'). congruence.
Qed.

Lemma announce_answer_ok a v : of_error (announce_answer (surfaced a)) = Ok v <-> acknowledged a v.
Proof.
  unfold announce_answer, acknowledged. destruct v, a as [e|r]; cbn [surfaced].
  { split; [done|]. by intros (r & ? & _). }
  destruct (Z.leb_spec 500 (StatusCode r)) as [H5|H5]; cbn [StatusCode Body].
  { rewrite (proj2 (Z.leb_le 300 (StatusCode r))) by lia. split; [done|]. intros (r' & [= <-] & ?). lia. }
  destruct (Z.leb_spec 300 (StatusCode r)) as [H3|H3].
  - split; [done|]. intros (r' & [= <-] & ?). lia.
  - split; [by exists r|done].
Qed.

(** An answer that carries nothing but its status. *)
Lemma taken_ok (f : outcome -> result unit) a v :
  (forall e, refuses (f (Err e))) -> (forall r, Body r = None -> refuses (f (Ok r))) ->
  (forall r b, Body r = Some b -> 300 <= StatusCode r -> refuses (f (Ok r))) ->
  (forall r b, Body r = Some b -> StatusCode r < 300 -> f (Ok r) = Ok tt) ->
  f (surfaced a) = Ok v <-> taken a v.
Proof.
  intros He Hn Hs Hk. rewrite (reads_reply (fun _ => True) f (fun _ _ => Ok tt)); [|naive_solver..].
  destruct v. unfold taken. split; [intros (r & b & Hr & _)|intros (r & b & Hr)]; by exists r, b.
Qed.

Lemma post_answer_ok path text a v : of_error (post_answer path text (surfaced a)) = Ok v <-> taken a v.
Proof. apply (taken_ok (fun o => of_error (post_answer path text o))); unfold post_answer; by by_status. Qed.

Lemma plugin_end_ok a v : of_error (RecordPluginExecutionEnd (surfaced a)) = Ok v <-> taken a v.
Proof. apply (taken_ok (fun o => of_error (RecordPluginExecutionEnd o))); unfold RecordPluginExecutionEnd; by by_status. Qed.

Lemma plugin_start_ok a v :
  of_pair (RecordPluginExecutionStart (surfaced a)) = Ok v <-> decodes "" decodeExecutionID a v.
Proof.
  rewrite (reads_reply (fun _ => True) (fun o => of_pair (RecordPluginExecutionStart o))
    (fun r b => match Unmarshal_struct "" decodeExecutionID (body_json b) with (x, None) => Ok x
       | (_, Some e) => Err ("invalid JSON from record_plugin_execution_start: " +:+ e +:+ " | body=" +:+ body_text b) end));
    unfold RecordPluginExecutionStart; [|by by_status..|].
  - unfold decodes. split; intros (r & b & Hr & H); exists r, b; (split; [done|]).
    + destruct (Unmarshal_struct _ _ _) as [s [e|]]; congruence.
    + by rewrite H.
  - by_status. by destruct (Unmarshal_struct _ _ _) as [s [e|]].
Qed.

Lemma completion_ok a v : of_completion (Backend.CompleteJob (surfaced a)) = Ok v <-> completion a v.
Proof.
  assert (Hc : forall r b, refuses (of_completion (completion_error r b))).
  { intros r b x. unfold completion_error. by destruct (_ || _). }
  rewrite (reads_reply (fun _ => True) (fun o => of_completion (Backend.CompleteJob o))
    (fun r b => of_completion (Backend.CompleteJob (Ok (mkResponse (StatusCode r) (Some b))))));
    unfold Backend.CompleteJob; [|try by by_status..].
  - unfold completion. f_equiv; intros r. f_equiv; intros b. apply and_iff_compat_l. cbn [StatusCode Body].
    destruct (decodeOk (body_json b)) as [ok idem].
    destruct (Z.eqb_spec (StatusCode r) 200) as [E|E], ok; cbn [andb].
    + destruct idem; split; [by intros [= <-]|by intros [_ [= <-]]|by intros [= <-]|by intros [_ [= <-]]].
    + split; [intros H; by destruct (Hc _ _ _ H)|by intros [_ ?]].
    + split; [intros H; by destruct (Hc _ _ _ H)|by intros [? _]].
    + split; [intros H; by destruct (Hc _ _ _ H)|by intros [? _]].
  - intros r b _ -> H. destruct (decodeOk _) as [ok idem]. rewrite (proj2 (Z.eqb_neq (StatusCode r) 200)) by lia. apply Hc.
Qed.

(** The answer of a server that failed: its body is closed. *)
Ltac lost_answer n :=
  unfold typed_answer, read_answer, assign_answer, RequestJobAssignment, VerifyJobLease, StartJob, announce_answer,
    Backend.CompleteJob, RecordPluginExecutionStart, RecordPluginExecutionEnd, post_answer, id;
  cbn [StatusCode Body of_error of_pair]; rewrite ?(proj2 (Z.eqb_neq n 204)), ?(proj2 (Z.eqb_neq n 404)) by lia;
  rewrite ?(proj2 (Z.leb_le 300 n)) by lia.

Section endpoints.
Context (parse_float : string -> option float64) (fmt_float : float64 -> option string) (renum : string -> string).

Lemma typed_call_shape c A V x view granted lost : typed_call parse_float fmt_float renum c A V x view granted lost ->
  exists path b extra answer, x = Call path b extra answer /\
    (forall a v, view (answer (surfaced a)) = Ok v <-> granted a v) /\
    (forall status, 500 <= status -> view (answer (Ok (mkResponse status None))) = Err (lost status)).
Proof.
  destruct 1 as [r j E|h j E| | |jobID status ms [[j|e]|] Hr| | | | |jobID|jobID| | | | | |active s j E];
    unfold SendHealthPolicy, SendDeviceHeartbeat, AnnounceAvailable, send; rewrite ?E;
    try (by destruct (Hr e));
    eexists _, _, _, _; (split; [reflexivity|]); (split; [|intros n Hn]);
    first [ exact (typed_answer_ok _ _ _ _ _) | exact assign_answer_ok | exact assignment_answer_ok
          | exact assigned_answer_ok | exact (lease_answer_ok _) | exact start_answer_ok | exact completion_ok
          | exact plugin_start_ok | exact plugin_end_ok | exact (post_answer_ok _ _) | exact announce_answer_ok
          | by lost_answer n ].
Qed.
End endpoints.


(** The second answer, after an error of the server: a refusal without a
    reason, whose jobs are returned. *)
Definition demo_network (r : http_request) (attempt : Z) : attempt_result :=
  if attempt =? 0 then Response (mkResponse 503 (Some (mkBody "busy" RawInvalid)))
  else Response (mkResponse 200 (Some (mkBody "" (Raw (JObj [("ok", JBool false);
    ("jobs", JArr [JObj [("job_id", JStr "j1"); ("job_type", JStr "scan_dataset"); ("retry_count", JNum "2")]])]))))).

Definition demo_client : BackendClient := NewBackendClient "https://cp/" "anon" "token" "d1" "o1".
Definition demo_claims : ClaimJobsResponse :=
  mkClaims false (Some [mkClaimed "j1" "scan_dataset" RawEmpty "" 0 "" 0 "" false 2]) "".

(** A control plane that does not know the job. *)
Definition forgetful_network (r : http_request) (attempt : Z) : attempt_result :=
  Response (mkResponse 404 (Some (mkBody "no such job" RawInvalid))).


(** ** Errors that leave the device *)

Definition member (k : string) (j : json) : option json :=
  match j with JObj fs => map_lookup k fs | _ => None end.

(** The text of an error is masked in the event that reports a failed job and
    in the report of an error, but the completion of the same job and the event
    of a failed chunk carry it as it is. *)
Theorem masking_is_bypassed c now jobID executionID chunkID err ms isLocal isLast force :
  (exists m, member "error_message" (Data (job_failed c now jobID err)) = Some (JStr m) /\ ~ contains emailPattern (chars m)) /\
  (exists path b extra answer m, ReportJobError c jobID err force = Call path (Some b) extra answer /\
     member "error_message" b = Some (JStr m) /\ ~ contains emailPattern (chars m)) /\
  member "error" (complete_request executionID jobID "failed" ms (ErrorText err) isLocal isLast) = Some (JStr err) /\
  member "error" (Data (MarkChunkFailed c chunkID err)) = Some (JStr err).
Proof.
  split; [|split; [|split]].
  - exists (ErrorMessage err). split; [done|]. apply no_address.
  - eexists _, _, _, _, (ErrorMessage err). split; [done|]. split; [done|]. apply no_address.
  - unfold complete_request, unless. by destruct (ms <=? 0).
  - done.
Qed.

Example complete_request_ex :
  complete_request "e1" "j1" "completed" 12 (ResultValue (JStr "kept")) true false =
  JObj [("duration_ms", JNum "12"); ("execution_id", JStr "e1"); ("is_last_step", JBool false); ("is_local", JBool true);
        ("job_id", JStr "j1"); ("status", JStr "completed")].
Proof. vm_compute. reflexivity. Qed.
