(* ===== verification/KeyFetcher.v ===== *)
(** * KeyFetcher: the keys that sign plugins

    Models [internal/plugin/key_fetcher.go]: the cache of keys and the two
    requests that fill it.  [PluginVerify] models what [main] does with the keys
    ([loadSigningKeys]). *)
From S2P Require Import Prelude Json PluginVerify HttpClient Backend.
Local Open Scope comp_scope.

Record KeyFetcher := mkFetcher {
  kf_httpc : HttpClient.Client;
  cache : gmap string PluginSigningKey;
  cacheTTL : Z;
  keyLastFetch : gmap string Z }.

Definition NewKeyFetcher (url anon token : string) (ttl : Z) : KeyFetcher :=
  let ttl := if ttl <=? 0 then 60 * Minute else ttl in
  let ttl := if 120 * Minute <? ttl then 120 * Minute else ttl in
  mkFetcher (HttpClient.NewClient url anon token []) ∅ ttl ∅.

(** Fetched keys enter the cache. *)
Definition remember (now : Z) (kf : KeyFetcher) (key : PluginSigningKey) : KeyFetcher :=
  mkFetcher (kf_httpc kf) (<[sk_KeyID key := key]> (cache kf)) (cacheTTL kf) (<[sk_KeyID key := now]> (keyLastFetch kf)).

Definition InvalidateCache (keyID : string) (kf : KeyFetcher) : KeyFetcher :=
  mkFetcher (kf_httpc kf) (delete keyID (cache kf)) (cacheTTL kf) (keyLastFetch kf).
Definition ClearCache (kf : KeyFetcher) : KeyFetcher := mkFetcher (kf_httpc kf) ∅ (cacheTTL kf) ∅.

(** A key that was fetched less than the time to live ago. *)
Definition cached (now : Z) (keyID : string) (kf : KeyFetcher) : option PluginSigningKey :=
  match cache kf !! keyID, keyLastFetch kf !! keyID with
  | Some key, Some lastFetch => if now - lastFetch <? cacheTTL kf then Some key else None
  | _, _ => None
  end.

Definition decodeKey (fs : list (string * json)) : (string * string * string) * bool :=
  let '(k, e1) := field dec_string "key_id" "" fs in
  let '(p, e2) := field dec_string "public_key" "" fs in
  let '(a, e3) := field dec_string "algorithm" "" fs in
  ((k, p, a), e1 || e2 || e3).

(** The body is decoded from the stream; a closed one gives an error. *)
Definition body_value (r : http_response) : RawMessage := match Body r with Some b => body_json b | None => RawInvalid end.

(** The cache keeps the key under the name that was asked for. *)
Definition FetchPublicKey (now : Z) (keyID : string) (get : string -> outcome) (kf : KeyFetcher) : KeyFetcher * result PluginSigningKey :=
  match cached now keyID kf with
  | Some key => (kf, Ok key)
  | None =>
      match get ("/functions/v1/get_plugin_signing_key?key_id=" +:+ keyID) with
      | Err e => (kf, Err ("failed to fetch key: " +:+ e))
      | Ok r =>
          if StatusCode r =? 404 then (kf, Err ("key " +:+ keyID +:+ " not found"))
          else if negb (StatusCode r =? 200) then (kf, Err ("key fetch failed with status " +:+ itoa (StatusCode r)))
          else match Unmarshal_struct ("", "", "") decodeKey (body_value r) with
               | (_, Some e) => (kf, Err ("failed to decode key response: " +:+ e))
               | ((k, p, a), None) =>
                   let key := mkSigningKey k p a None None in
                   (mkFetcher (kf_httpc kf) (<[keyID := key]> (cache kf)) (cacheTTL kf) (<[keyID := now]> (keyLastFetch kf)), Ok key)
               end
      end
  end.

(** *** All keys of an organization *)

Record key_data := mkKeyData { kd_KeyID : string; kd_PublicKey : string; kd_Algorithm : string; kd_CreatedAt : string; kd_ExpiresAt : string }.
Definition zeroKeyData : key_data := mkKeyData "" "" "" "" "".

(** The elements are pointers: null is nil. *)
Definition dec_key_data : decoder (option key_data) := fun cur j =>
  match j with
  | JObj fs =>
      let c := default zeroKeyData cur in
      let '(k, e1) := field dec_string "key_id" (kd_KeyID c) fs in
      let '(p, e2) := field dec_string "public_key" (kd_PublicKey c) fs in
      let '(a, e3) := field dec_string "algorithm" (kd_Algorithm c) fs in
      let '(t, e4) := field dec_string "created_at" (kd_CreatedAt c) fs in
      let '(x, e5) := field dec_string "expires_at" (kd_ExpiresAt c) fs in
      (Some (mkKeyData k p a t x), e1 || e2 || e3 || e4 || e5)
  | JNull => (None, false)
  | _ => (cur, true)
  end.

Definition decodeKeys (fs : list (string * json)) : (bool * option (list (option key_data))) * bool :=
  let '(o, e1) := field dec_bool "ok" false fs in
  let '(d, e2) := field (dec_slice None dec_key_data) "data" None fs in
  ((o, d), e1 || e2).

Section org_keys.
(** [time.Parse(time.RFC3339, s)]; a text that is no time leaves the zero time. *)
Context (parse_time : string -> option Z).

Definition key_of (k : key_data) : PluginSigningKey :=
  mkSigningKey (kd_KeyID k) (kd_PublicKey k) (kd_Algorithm k)
    (if kd_ExpiresAt k =?s "" then None else parse_time (kd_ExpiresAt k)) None.

(** A nil element is dereferenced. *)
Fixpoint keys_of (data : list (option key_data)) : comp (list PluginSigningKey) :=
  match data with
  | [] => Ret []
  | None :: _ => Panic
  | Some k :: data => let! keys := keys_of data in Ret (key_of k :: keys)
  end.

(** The member [ok] of the answer is not looked at. *)
Definition FetchAllOrgKeys (now : Z) (orgID : string) (get : string -> outcome) (kf : KeyFetcher) : KeyFetcher * comp (list PluginSigningKey) :=
  match get ("/functions/v1/list_plugin_signing_keys?org_id=" +:+ orgID) with
  | Err e => (kf, Throw ("failed to fetch keys: " +:+ e))
  | Ok r =>
      if negb (StatusCode r =? 200) then (kf, Throw ("key list fetch failed with status " +:+ itoa (StatusCode r)))
      else match Unmarshal_struct (false, None) decodeKeys (body_value r) with
           | (_, Some e) => (kf, Throw ("failed to decode keys response: " +:+ e))
           | ((_, data), None) =>
               match keys_of (default [] data) with
               | Ret keys => (foldl (remember now) kf keys, Ret keys)
               | Throw e => (kf, Throw e)
               | Panic => (kf, Panic)
               end
           end
  end.

(** ** Properties *)

Lemma keys_of_cases data :
  (keys_of data = Panic /\ None ∈ data) \/
  (exists ks, data = map Some ks /\ keys_of data = Ret (map key_of ks)).
Proof.
  induction data as [|[k|] data IH].
  - right. by exists [].
  - destruct IH as [[E Hin]|(ks & -> & E)].
    + left. cbn [keys_of]. rewrite E. split; [done|]. by right.
    + right. exists (k :: ks). cbn [keys_of map]. by rewrite E.
  - left. split; [done|]. left.
Qed.

Lemma remember_all now keys kf :
  cacheTTL (foldl (remember now) kf keys) = cacheTTL kf /\
  (forall id, id ∉ map sk_KeyID keys -> cache (foldl (remember now) kf keys) !! id = cache kf !! id /\
     keyLastFetch (foldl (remember now) kf keys) !! id = keyLastFetch kf !! id) /\
  (forall id, id ∈ map sk_KeyID keys -> (exists key, key ∈ keys /\ sk_KeyID key = id /\
     cache (foldl (remember now) kf keys) !! id = Some key) /\ keyLastFetch (foldl (remember now) kf keys) !! id = Some now).
Proof.
  revert kf. induction keys as [|k keys IH]; intros kf; cbn [foldl map].
  - split; [done|]. split; [done|]. by intros id ?%elem_of_nil.
  - destruct (IH (remember now kf k)) as (H1 & H2 & H3). split; [done|]. split.
    + intros id Hn. apply not_elem_of_cons in Hn as [Hne Hn]. destruct (H2 id Hn) as [-> ->].
      cbn [remember cache keyLastFetch]. by rewrite !lookup_insert_ne.
    + intros id Hin. destruct (decide (id ∈ map sk_KeyID keys)) as [Hk|Hk].
      * destruct (H3 id Hk) as [(key & ? & ? & ?) ?]. split; [|done]. exists key. split; [by right|done].
      * apply elem_of_cons in Hin as [->|Hin]; [|done]. destruct (H2 _ Hk) as [-> ->].
        cbn [remember cache keyLastFetch]. rewrite !lookup_insert_eq. split; [|done]. exists k. split; [left|done].
Qed.
End org_keys.

(** The keys of an organization are fetched as the server lists them, whether or
    not it grants the request, none of them revoked, and are cached from then on
    for the time to live; but a null in the list makes the agent panic. *)
Theorem FetchAllOrgKeys_correct parse_time now orgID get kf r ok data :
  get ("/functions/v1/list_plugin_signing_keys?org_id=" +:+ orgID) = Ok r -> StatusCode r = 200 ->
  Unmarshal_struct (false, None) decodeKeys (body_value r) = ((ok, Some data), None) ->
  (None ∈ data -> (FetchAllOrgKeys parse_time now orgID get kf).2 = Panic) /\
  (forall ks, data = map Some ks -> exists kf',
     FetchAllOrgKeys parse_time now orgID get kf = (kf', Ret (map (key_of parse_time) ks)) /\
     Forall (fun key => sk_RevokedAt key = None) (map (key_of parse_time) ks) /\
     forall later k, k ∈ ks -> later - now < cacheTTL kf -> exists k', k' ∈ ks /\ kd_KeyID k' = kd_KeyID k /\
       forall get', FetchPublicKey later (kd_KeyID k) get' kf' = (kf', Ok (key_of parse_time k'))).
Proof.
  intros Hg Hs Hu. unfold FetchAllOrgKeys. rewrite Hg, Hs, Hu. change (negb (200 =? 200)) with false. change (default [] (Some data)) with data. cbv iota beta.
  destruct (keys_of_cases parse_time data) as [[E Hin]|(ks & -> & E)]; rewrite E.
  - split; [done|]. intros ks ->. by apply list_elem_of_fmap in Hin as (? & ? & _).
  - split; [intros Hin; by apply list_elem_of_fmap in Hin as (? & ? & _)|].
    intros ks' Eq. assert (ks' = ks) as -> by (symmetry; by apply (inj (map Some))).
    eexists. split; [done|]. split; [apply Forall_forall; intros key (k & -> & _)%list_elem_of_fmap; done|].
    intros later k Hk Hl. destruct (remember_all now (map (key_of parse_time) ks) kf) as (Ht & _ & H3).
    destruct (H3 (kd_KeyID k)) as [(key & Hkey & Hid & Hc) Hf].
    { rewrite map_map. apply list_elem_of_fmap. by exists k. }
    apply list_elem_of_fmap in Hkey as (k' & -> & Hk'). exists k'. split; [done|]. split; [done|]. intros get'.
    unfold FetchPublicKey, cached. rewrite Hc, Hf, Ht. by rewrite (proj2 (Z.ltb_lt _ _) Hl).
Qed.

Definition demo_answer (data : list json) (path : string) : outcome :=
  Ok (mkResponse 200 (Some (mkBody "" (Raw (JObj [("ok", JBool false); ("data", JArr data)]))))).

Lemma FetchAllOrgKeys_correct_witness :
  let kf := NewKeyFetcher "https://cp" "anon" "token" 0 in
  let k := JObj [("key_id", JStr "k1"); ("public_key", JStr "cGs=")] in
  (FetchAllOrgKeys (fun _ => None) 0 "o1" (demo_answer [k; JNull]) kf).2 = Panic /\
  exists kf', FetchAllOrgKeys (fun _ => None) 0 "o1" (demo_answer [k]) kf = (kf', Ret [mkSigningKey "k1" "cGs=" "" None None]).
Proof.
  intros kf k. split.
  - apply (FetchAllOrgKeys_correct (fun _ => None) 0 "o1" (demo_answer [k; JNull]) kf _ false
      [Some (mkKeyData "k1" "cGs=" "" "" ""); None] eq_refl eq_refl eq_refl). right. left.
  - destruct (FetchAllOrgKeys_correct (fun _ => None) 0 "o1" (demo_answer [k]) kf _ false
      [Some (mkKeyData "k1" "cGs=" "" "" "")] eq_refl eq_refl eq_refl) as [_ H].
    destruct (H [mkKeyData "k1" "cGs=" "" "" ""] eq_refl) as (kf' & E & _). exists kf'. exact E.
Defined.
