(* ===== verification/ExecutorV2.v ===== *)
(** * ExecutorV2: the v2 plugin executor

    Models [cmd/agent/executor/v2/executor.go]: admission (trust, code), the
    retry loop around [executeRuntime], error classification and the tables of
    running and completed jobs.  What one run depends on outside this file (the
    file system, the sandbox and the runtime manager) is a record of answers
    indexed by how many runs were made before ([runtime_env]). *)
From stdpp Require Import pretty.
From S2P Require Import Prelude GoFloat.
From Stdlib Require Import SpecFloat.

(** ** Data *)

Inductive ExecutionMode := ModeNative | ModeRuntime.

Record Dependency := mkDep { dep_Name : string; dep_Version : string; dep_Source : string }.

Record ExecutionPolicy := mkPolicy {
  MaxRetries : Z;
  RetryBackoffSeconds : Z;
  RetryBackoffMultiplier : float64;
  MaxRetryDelaySeconds : Z;
  DefaultTimeoutSeconds : Z;
  HardTimeoutSeconds : Z;
}.

(** The job fields the executor reads. *)
Record Job := mkJob {
  job_ID : string;
  job_Type : string;
  job_RuntimeType : string;
  job_RuntimeDeps : option (list Dependency);
  job_EntryPoint : string;
  job_ExecutionMode : string;
  job_EnvironmentStrict : bool;
  job_TimeoutSeconds : Z;
  job_PluginID : string;
  job_PluginVersion : string;
  job_PluginCode : string;
  job_ExecutionID : string;
  job_ExecutionStepID : string;
  job_RunID : string;
  job_AttemptNumber : Z;
  job_OrgID : string;
  job_DependencyHash : string;
  job_EnvironmentID : string;
  job_ExecutionPolicy : option ExecutionPolicy;
  job_Trusted : bool;
}.

Record Result := mkResult {
  Success : bool;
  res_Error : string;
  ErrorClassification : string;
  DurationMs : Z;
  ExitCode : Z;
  Signal : string;
  OutputSizeBytes : Z;
  LogSizeBytes : Z;
  MaxMemoryBytes : Z;
  RunID : string;
  AttemptNumber : Z;
  res_ExecutionPolicy : option ExecutionPolicy;
}.

(** A result of which only the first three fields are set. *)
Definition failedResult (e c : string) : Result :=
  mkResult false e c 0 0 "" 0 0 0 "" 0 None.

(** [ExecutionState]. *)
Record ExecutionState := mkState {
  runningJobs : gmap string Job;
  completedJobs : gmap string Result;
}.

Definition NewExecutionState : ExecutionState := mkState ∅ ∅.

(** ** What a run asks the runtime manager for *)

Record RuntimeSpec := mkSpec {
  spec_Type : string;
  spec_Version : string;
  spec_DependencyLockHash : string;
  spec_Dependencies : list Dependency;
  spec_EntryPoint : string;
  spec_Strict : bool;
}.

(** [runtime.ExecutionResult], as far as the executor reads it. *)
Record ExecutionResult := mkExec {
  out_Success : bool;
  out_Error : string;
  met_MaxMemoryBytes : Z;
  met_ExitCode : Z;
  met_Signal : string;
  met_OOMKilled : bool;
}.

(** The answers of the environment to the [n]-th run. *)
Record runtime_env := mkRuntimeEnv {
  mkdirAll : nat -> error;
  sandboxPrepare : nat -> Z -> error;
  ExecuteWithMetrics : nat -> Z -> RuntimeSpec -> string -> string -> ExecutionResult * error;
  outputSize : nat -> Z;
  logSize : nat -> Z;
  ctxDone : nat -> bool;
}.

(** ** Error classification *)

Definition retryablePatterns : list string :=
  ["timeout"; "connection"; "network"; "io error"; "disk full"; "no module named";
   "cannot find module"; "install failed"; "out of memory"].

Definition pluginErrors : list string :=
  ["syntax"; "indentation"; "type error"; "undefined"; "import error";
   "attribute error"; "name error"; "value error"; "runtime error"; "exception"].

Definition infraErrors : list string :=
  ["docker"; "container"; "no space left"; "cannot create"; "permission denied";
   "access denied"; "failed to mount"; "failed to start"; "not found";
   "exec format error"].

Definition systemErrors : list string :=
  ["untrusted"; "security"; "panic"; "forbidden"; "invalid signature";
   "checksum mismatch"; "not trusted"].

Definition classifyError (errMsg : string) : string :=
  let errLower := strings_ToLower errMsg in
  let hit := existsb (strings_Contains errLower) in
  if hit systemErrors then "system_error"
  else if hit infraErrors then "infra_error"
  else if hit pluginErrors then "plugin_error"
  else if hit retryablePatterns then "infra_error"
  else "unknown".

(** ** One run *)

Definition selectExecutionModes (executionMode : string) : list ExecutionMode :=
  if executionMode =?s "runtime" then [ModeRuntime]
  else if executionMode =?s "native" then [ModeNative]
  else [ModeRuntime].

(** The run's timeout, in nanoseconds. *)
Definition run_timeout (job : Job) (policy : ExecutionPolicy) : Z :=
  if 0 <? job_TimeoutSeconds job then int64 (job_TimeoutSeconds job * Second)
  else int64 (DefaultTimeoutSeconds policy * Second).

Definition run_spec (job : Job) : RuntimeSpec :=
  {| spec_Type := if job_RuntimeType job =?s "" then "python" else job_RuntimeType job;
     spec_Version := if job_RuntimeType job =?s "" then "3.x" else job_RuntimeType job;
     spec_DependencyLockHash := job_DependencyHash job;
     spec_Dependencies := default [] (job_RuntimeDeps job);
     spec_EntryPoint := job_EntryPoint job;
     spec_Strict := job_EnvironmentStrict job |}.

(** [executeRuntime], as the [n]-th run. *)
Definition executeRuntime (env : runtime_env) (n : nat) (job : Job)
    (policy : ExecutionPolicy) : Result * error :=
  let timeout := run_timeout job policy in
  match mkdirAll env n with
  | Some e => (failedResult ("failed to create sandbox: " +:+ e) "fatal", Some e)
  | None =>
      match sandboxPrepare env n timeout with
      | Some e => (failedResult ("sandbox preparation failed: " +:+ e) "fatal", Some e)
      | None =>
          let '(x, err) :=
            ExecuteWithMetrics env n timeout (run_spec job) (job_PluginCode job) (job_OrgID job) in
          let classification := classifyError (out_Error x) in
          let '(classification, errText) :=
            if negb (out_Error x =?s "") then (classifyError (out_Error x), out_Error x)
            else if met_OOMKilled x then ("fatal", "OOM killed")
            else (classification, out_Error x) in
          (mkResult (out_Success x) errText classification 0 (met_ExitCode x) (met_Signal x)
             (outputSize env n) (logSize env n) (met_MaxMemoryBytes x) "" 0 None, err)
      end
  end.

(** ** The retry loop *)

(** The delay before a retry, in nanoseconds: the product of two durations. *)
Definition retry_delay (policy : ExecutionPolicy) (attempt : Z) : Z :=
  let mult := RetryBackoffMultiplier policy in
  let mult := if f64_le mult (f64_of_Z 0) then f64_of_Z 2 else mult in
  let maxDelay := int64 (MaxRetryDelaySeconds policy * Second) in
  let maxDelay := if maxDelay <=? 0 then 300 * Second else maxDelay in
  let delay := int64 (RetryBackoffSeconds policy *
                      f64_to_int64 (f64_mul mult (f64_of_Z (attempt - 1)))) in
  if maxDelay <? delay then maxDelay else delay.

(** The [for attempt := ...] loop; [fuel] counts the attempts that are left, [n]
    the runs already made.  Returns the runs made in the end and the delays
    that were waited for. *)
Fixpoint retry_loop (env : runtime_env) (job : Job) (policy : ExecutionPolicy)
    (fuel : nat) (attempt : Z) (n : nat) (last : option Result * error) (delays : list Z)
    : option Result * error * nat * list Z :=
  match fuel with
  | O => (last, n, delays)
  | S fuel' =>
      let waits := 0 <? attempt in
      let delays' := if waits then delays ++ [retry_delay policy attempt] else delays in
      if waits && ctxDone env n then (last, n, delays')
      else
        let '(result, lastErr) := executeRuntime env n job policy in
        if (match lastErr with None => true | Some _ => false end) && Success result
        then (Some result, None, S n, delays')
        else if negb (ErrorClassification result =?s "retryable")
        then (Some result, lastErr, S n, delays')
        else retry_loop env job policy fuel' (attempt + 1) (S n) (Some result, lastErr) delays'
  end.

Definition executeRuntimeWithRetry (env : runtime_env) (job : Job)
    (policy : ExecutionPolicy) (mode : ExecutionMode) (n : nat)
    : option Result * error * nat * list Z :=
  if MaxRetries policy <=? 0 then
    match mode with
    | ModeRuntime =>
        let '(r, e) := executeRuntime env n job policy in (Some r, e, S n, [])
    | ModeNative =>
        (Some (failedResult "unsupported execution mode" "fatal"),
         Some "unsupported execution mode", n, [])
    end
  else retry_loop env job policy (Z.to_nat (MaxRetries policy + 1)) 0 n (None, None) [].

(** ** [ExecuteJob] *)

Definition defaultPolicy : ExecutionPolicy :=
  mkPolicy 3 5 (f64_of_Z 0) 300 300 600.

(** The scan of the completed jobs for the entry to evict, in map order. *)
Definition pick_evicted (entries : list (string * Result)) : string :=
  (foldl (fun acc kr =>
     if (acc.1 =?s "") || (DurationMs kr.2 <? acc.2) then (kr.1, DurationMs kr.2) else acc)
   ("", 0) entries).1.

(** Storing a result; [entries] is the order in which the map is ranged over. *)
Definition store_result (entries : list (string * Result)) (id : string) (r : Result)
    (done : gmap string Result) : gmap string Result :=
  let done :=
    if (1000 <=? size done)%nat then
      let oldestKey := pick_evicted entries in
      if negb (oldestKey =?s "") then delete oldestKey done else done
    else done in
  <[id := r]> done.

Definition finish (r : Result) (runID : string) (attempt dur : Z) (p : ExecutionPolicy) : Result :=
  mkResult (Success r) (res_Error r) (ErrorClassification r) dur (ExitCode r) (Signal r)
    (OutputSizeBytes r) (LogSizeBytes r) (MaxMemoryBytes r) runID attempt (Some p).

(** The loop over the execution modes. *)
Fixpoint run_modes (env : runtime_env) (job : Job) (policy : ExecutionPolicy)
    (modes : list ExecutionMode) (n : nat) (acc : option Result * error)
    : option Result * error * nat :=
  match modes with
  | [] => (acc, n)
  | mode :: rest =>
      let '(r, e, n, _) := executeRuntimeWithRetry env job policy mode n in
      match r, e with
      | Some res, None => if Success res then (r, e, n) else run_modes env job policy rest n (r, e)
      | _, _ => run_modes env job policy rest n (r, e)
      end
  end.

(** [ExecuteJob]: the state after the call, the number of runs made, and the
    outcome.  [None] as the outcome is the nil dereference of [result.RunID].
    [newRunID] is what [generateRunID] gives, [dur] the measured duration and
    [entries] the order of the completed jobs. *)
Definition ExecuteJob (env : runtime_env) (newRunID : string) (dur : Z)
    (entries : list (string * Result)) (job : Job) (st : ExecutionState)
    : ExecutionState * nat * option (Result * error) :=
  let runID := if job_RunID job =?s "" then newRunID else job_RunID job in
  let attemptNumber := if job_AttemptNumber job =? 0 then 1 else job_AttemptNumber job in
  if negb (job_Trusted job) then
    (st, 0%nat,
     Some (failedResult ("plugin " +:+ job_PluginID job +:+ " is not trusted and cannot be executed")
             "system_error",
           Some ("plugin " +:+ job_PluginID job +:+ " is not trusted")))
  else if job_PluginCode job =?s "" then
    (st, 0%nat,
     Some (failedResult "plugin_code is empty — no code to execute in v2 runtime" "system_error",
           Some "plugin_code is empty — pipeline jobs should use native handler, not v2 executor"))
  else
    let st := mkState (<[job_ID job := job]> (runningJobs st)) (completedJobs st) in
    let policy := default defaultPolicy (job_ExecutionPolicy job) in
    let '(result, err, n) :=
      run_modes env job policy (selectExecutionModes (job_ExecutionMode job)) 0 (None, None) in
    let running := delete (job_ID job) (runningJobs st) in
    match result with
    | None => (mkState running (completedJobs st), n, None)
    | Some r =>
        let r := finish r runID attemptNumber dur policy in
        (mkState running (store_result entries (job_ID job) r (completedJobs st)), n, Some (r, err))
    end.

Definition GetJobStatus (st : ExecutionState) (jobID : string) : bool * option Result :=
  match runningJobs st !! jobID with
  | Some _ => (true, None)
  | None => (false, completedJobs st !! jobID)
  end.

Definition GetRunningJobs (st : ExecutionState) : list Job := (map_to_list (runningJobs st)).*2.

Definition getPluginFilename (rt : string) : string :=
  if rt =?s "python" then "plugin.py"
  else if rt =?s "node" then "plugin.js"
  else "plugin.py".

(** ** Lemmas *)

Lemma classifyError_values s :
  classifyError s ∈ ["system_error"; "infra_error"; "plugin_error"; "unknown"].
Proof.
  unfold classifyError. cbv zeta.
  destruct (existsb _ systemErrors); [set_solver|].
  destruct (existsb _ infraErrors); [set_solver|].
  destruct (existsb _ pluginErrors); [set_solver|].
  destruct (existsb _ retryablePatterns); set_solver.
Qed.

Lemma classifyError_not_retryable s : (classifyError s =?s "retryable") = false.
Proof.
  pose proof (classifyError_values s) as H.
  repeat (apply elem_of_cons in H as [->|H]; [done|]). set_solver.
Qed.

(** No run is ever classified as retryable. *)
Lemma executeRuntime_not_retryable env n job policy :
  (ErrorClassification (executeRuntime env n job policy).1 =?s "retryable") = false.
Proof.
  unfold executeRuntime. destruct (mkdirAll env n); [done|].
  destruct (sandboxPrepare env n _); [done|].
  destruct (ExecuteWithMetrics _ _ _ _ _ _) as [x err].
  destruct (negb _); simpl; [apply classifyError_not_retryable|].
  destruct (met_OOMKilled x); simpl; [done|apply classifyError_not_retryable].
Qed.

Lemma run_once env job policy mode n :
  0 < MaxRetries policy \/ mode = ModeRuntime ->
  executeRuntimeWithRetry env job policy mode n =
    (Some (executeRuntime env n job policy).1, (executeRuntime env n job policy).2, S n, []).
Proof.
  intros H. unfold executeRuntimeWithRetry.
  destruct (Z.leb_spec (MaxRetries policy) 0) as [Hle|Hlt].
  - destruct H as [| ->]; [lia|]. by destruct (executeRuntime env n job policy).
  - replace (Z.to_nat (MaxRetries policy + 1)) with (S (Z.to_nat (MaxRetries policy))) by lia.
    cbn [retry_loop]. change (0 <? 0) with false. cbn [andb].
    pose proof (executeRuntime_not_retryable env n job policy) as Hc.
    destruct (executeRuntime env n job policy) as [r [e|]]; simpl in *; rewrite Hc; [done|].
    by destruct (Success r).
Qed.

Lemma run_native_disabled env job policy n :
  MaxRetries policy <= 0 ->
  executeRuntimeWithRetry env job policy ModeNative n =
    (Some (failedResult "unsupported execution mode" "fatal"),
     Some "unsupported execution mode", n, []).
Proof.
  intros H. unfold executeRuntimeWithRetry. by destruct (Z.leb_spec (MaxRetries policy) 0); [|lia].
Qed.

Lemma selectExecutionModes_single m :
  exists mode, selectExecutionModes m = [mode].
Proof. unfold selectExecutionModes. destruct (_ =?s _); [eauto|]. destruct (_ =?s _); eauto. Qed.

(** The loop over a single mode keeps whatever the mode returned. *)
Lemma run_modes_single env job policy mode r e n d :
  executeRuntimeWithRetry env job policy mode 0 = (Some r, e, n, d) ->
  run_modes env job policy [mode] 0 (None, None) = ((Some r, e), n).
Proof. intros H. simpl. rewrite H. destruct e; [done|]. by destruct (Success r). Qed.

Lemma run_modes_total env job policy m :
  exists r e n, run_modes env job policy (selectExecutionModes m) 0 (None, None) = ((Some r, e), n)
    /\ (n <= 1)%nat.
Proof.
  destruct (selectExecutionModes_single m) as [mode ->].
  destruct (Z.leb_spec (MaxRetries policy) 0) as [Hle|Hlt].
  - destruct mode.
    + eexists _, _, _. split; [eapply run_modes_single, run_native_disabled; done|lia].
    + eexists _, _, _. split; [eapply run_modes_single, run_once; by right|lia].
  - eexists _, _, _. split; [eapply run_modes_single, run_once; by left|lia].
Qed.

(** *** Eviction *)

Definition evict_scan (acc : string * Z) (kr : string * Result) : string * Z :=
  if (acc.1 =?s "") || (DurationMs kr.2 <? acc.2) then (kr.1, DurationMs kr.2) else acc.

(** After the scan the accumulator is an entry of minimal duration. *)
Lemma evict_scan_min entries k d :
  k <> "" -> (forall kr, kr ∈ entries -> kr.1 <> "") ->
  let acc := foldl evict_scan (k, d) entries in
  acc.1 <> "" /\ acc.2 <= d /\ (forall kr, kr ∈ entries -> acc.2 <= DurationMs kr.2) /\
  (acc = (k, d) \/ exists kr, kr ∈ entries /\ acc = (kr.1, DurationMs kr.2)).
Proof.
  revert k d. induction entries as [|kr es IH]; intros k d Hk Hes; simpl.
  { repeat split; [done|lia|set_solver|by left]. }
  assert (Hstep : evict_scan (k, d) kr =
                  if DurationMs kr.2 <? d then (kr.1, DurationMs kr.2) else (k, d)).
  { unfold evict_scan. simpl. by rewrite (proj2 (String.eqb_neq k "") Hk). }
  assert (Hkr : kr.1 <> "") by (apply Hes; left).
  assert (Hes' : forall x, x ∈ es -> x.1 <> "") by (intros; apply Hes; by right).
  rewrite Hstep. destruct (Z.ltb_spec (DurationMs kr.2) d) as [Hlt|Hge].
  - destruct (IH kr.1 (DurationMs kr.2) Hkr Hes') as (? & ? & Hmin & Hor).
    repeat split; [done|lia| |].
    + intros x [->|?]%elem_of_cons; [done|by apply Hmin].
    + right. destruct Hor as [->|(x & ? & ?)]; [exists kr|exists x]; split; set_solver.
  - destruct (IH k d Hk Hes') as (? & ? & Hmin & Hor).
    repeat split; [done|lia| |].
    + intros x [->|?]%elem_of_cons; [lia|by apply Hmin].
    + destruct Hor as [->|(x & ? & ?)]; [by left|right; exists x; split; set_solver].
Qed.

Lemma pick_evicted_min entries :
  entries <> [] -> (forall kr, kr ∈ entries -> kr.1 <> "") ->
  exists kr, kr ∈ entries /\ pick_evicted entries = kr.1 /\
    forall kr', kr' ∈ entries -> DurationMs kr.2 <= DurationMs kr'.2.
Proof.
  intros Hne Hes. destruct entries as [|kr es]; [done|].
  change (pick_evicted (kr :: es)) with (foldl evict_scan (kr.1, DurationMs kr.2) es).1.
  destruct (evict_scan_min es kr.1 (DurationMs kr.2)) as (? & Hle & Hmin & Hor);
    [apply Hes; left|intros; apply Hes; by right|].
  destruct Hor as [Hacc|(x & Hx & Hacc)]; rewrite Hacc in *; simpl in *.
  - exists kr. split; [left|]. split; [done|].
    intros y [->|?]%elem_of_cons; [lia|by apply Hmin].
  - exists x. split; [by right|]. split; [done|].
    intros y [->|?]%elem_of_cons; [done|by apply Hmin].
Qed.

(** ** Properties *)

(** The retry policy is dead code: whatever [MaxRetries] is, one
    call runs the plugin exactly once, waits for no backoff, and returns that
    run's outcome; with a positive [MaxRetries] even the execution mode is
    ignored. *)
Theorem executeRuntimeWithRetry_runs_once (env : runtime_env) (job : Job)
    (policy : ExecutionPolicy) (mode : ExecutionMode) (n : nat) :
  0 < MaxRetries policy \/ mode = ModeRuntime ->
  executeRuntimeWithRetry env job policy mode n =
    (Some (executeRuntime env n job policy).1, (executeRuntime env n job policy).2, S n, []).
Proof. apply run_once. Qed.

(** An environment in which every run times out, a retryable condition. *)
Definition timing_out : runtime_env :=
  mkRuntimeEnv (fun _ => None) (fun _ _ => None)
    (fun _ _ _ _ _ => (mkExec false "connection timeout" 0 1 "" false, None))
    (fun _ => 0) (fun _ => 0) (fun _ => false).

Definition sample_job (mode : string) : Job :=
  mkJob "job-1" "process" "python" None "" mode false 0 "plugin_x" "" "print(1)" "exec-1" ""
    "run-1" 0 "org" "" "" None true.

Lemma executeRuntimeWithRetry_runs_once_witness :
  0 < MaxRetries defaultPolicy /\
  executeRuntimeWithRetry timing_out (sample_job "native") defaultPolicy ModeNative 0 =
    (Some (executeRuntime timing_out 0 (sample_job "native") defaultPolicy).1, None, 1%nat, []).
Proof.
  split; [vm_compute; reflexivity|].
  apply (executeRuntimeWithRetry_runs_once timing_out (sample_job "native") defaultPolicy
           ModeNative 0).
  left. vm_compute. reflexivity.
Defined.

(** What a call of [ExecuteJob] promises. *)
Record execute_ok (job : Job) (entries : list (string * Result)) (st st' : ExecutionState)
    (runs : nat) (res : Result) (err : error) : Prop := {
  eo_runs : (runs <= 1)%nat;
  eo_rejected : job_Trusted job = false \/ job_PluginCode job = "" ->
    runs = 0%nat /\ st' = st /\ Success res = false /\
    ErrorClassification res = "system_error" /\ err <> None;
  eo_running : job_Trusted job = true -> job_PluginCode job <> "" ->
    runningJobs st' = delete (job_ID job) (runningJobs st);
  eo_completed : job_Trusted job = true -> job_PluginCode job <> "" ->
    completedJobs st' = store_result entries (job_ID job) res (completedJobs st) /\
    GetJobStatus st' (job_ID job) = (false, Some res);
}.

(** [ExecuteJob] always returns a result (its dereference of
    [result] never fails) after at most one run; an untrusted plugin or an empty
    one is rejected without a run and without touching the tables; any other job
    ends outside the running table, with its result as its status. *)
Theorem ExecuteJob_correct (env : runtime_env) (newRunID : string) (dur : Z)
    (entries : list (string * Result)) (job : Job) (st : ExecutionState) :
  exists st' runs res err,
    ExecuteJob env newRunID dur entries job st = (st', runs, Some (res, err)) /\
    execute_ok job entries st st' runs res err.
Proof.
  unfold ExecuteJob. destruct (job_Trusted job) eqn:Ht; simpl.
  2: { eexists _, _, _, _. split; [done|]. split; [lia|done|congruence|congruence]. }
  destruct (eqb_spec_s (job_PluginCode job) "") as [Hc|Hc].
  { eexists _, _, _, _. split; [done|]. split; [lia|done|done|done]. }
  destruct (run_modes_total env job (default defaultPolicy (job_ExecutionPolicy job))
              (job_ExecutionMode job)) as (r & e & n & Hrun & Hn).
  rewrite Hrun. eexists _, _, _, _. split; [done|]. simpl.
  split; simpl; [done| | |].
  - intros [|]; [congruence|done].
  - intros _ _. by rewrite delete_insert_eq.
  - intros _ _. split; [done|]. unfold GetJobStatus. simpl. rewrite lookup_delete_eq.
    unfold store_result. by rewrite lookup_insert_eq.
Qed.

(** When the table of completed jobs is full, the entry that makes
    room is one whose run was the shortest, not one that was stored the longest
    ago; and the table keeps at most 1000 results. *)
Theorem store_result_evicts_shortest (entries : list (string * Result)) (id : string)
    (r : Result) (done : gmap string Result) :
  entries ≡ₚ map_to_list done -> done !! "" = None -> (size done <= 1000)%nat ->
  (size (store_result entries id r done) <= 1000)%nat /\
  (size done = 1000%nat -> exists k x,
     done !! k = Some x /\ store_result entries id r done = <[id := r]> (delete k done) /\
     forall k' x', done !! k' = Some x' -> DurationMs x <= DurationMs x').
Proof.
  intros Hperm Hempty Hsize. unfold store_result.
  assert (Hin : forall k x, (k, x) ∈ entries <-> done !! k = Some x).
  { intros k x. rewrite Hperm. apply elem_of_map_to_list. }
  assert (Hins : forall m : gmap string Result, (size m <= 999)%nat ->
                   (size (<[id := r]> m) <= 1000)%nat).
  { intros m Hm. destruct (m !! id) eqn:Hl.
    - rewrite map_size_insert_Some by done. lia.
    - rewrite map_size_insert_None by done. lia. }
  destruct (Nat.leb_spec 1000 (size done)) as [Hge|Hlt].
  2: { split; [apply Hins; lia|lia]. }
  destruct (pick_evicted_min entries) as ([k x] & Hkr & Hpick & Hmin).
  { intros ->. apply Permutation_nil in Hperm. apply map_to_list_empty_iff in Hperm. subst.
    rewrite map_size_empty in Hge. lia. }
  { intros [k x] Hk%Hin Hk0. simpl in Hk0. congruence. }
  apply Hin in Hkr. simpl in Hpick. rewrite Hpick.
  assert (Hk : (k =?s "") = false) by (apply String.eqb_neq; intros ->; congruence).
  rewrite Hk. simpl. split.
  - apply Hins. rewrite map_size_delete_Some by (by exists x). lia.
  - intros _. exists k, x. split; [done|]. split; [done|].
    intros k' x' Hx'. apply (Hmin (k', x')). by apply Hin.
Qed.

Definition timed (d : Z) : Result := mkResult true "" "unknown" d 0 "" 0 0 0 "" 1 None.

(** A full table: job [i] of 1000 took [1000 - i] milliseconds. *)
Definition full_table : gmap string Result :=
  list_to_map (List.map (fun i => (pretty i, timed (1000 - Z.of_nat i))) (seq 0 1000)).

Lemma store_result_evicts_shortest_witness :
  size full_table = 1000%nat /\
  (size (store_result (map_to_list full_table) "new" (timed 5) full_table) <= 1000)%nat.
Proof.
  split; [vm_compute; reflexivity|].
  refine (proj1 (store_result_evicts_shortest (map_to_list full_table) "new" (timed 5)
                   full_table _ _ _)); [reflexivity| |].
  - vm_compute. reflexivity.
  - apply Nat.leb_le. vm_compute. reflexivity.
Defined.
