(* ===== verification/ExecuteJob.v ===== *)
(** * ExecuteJob: validation and routing of a job

    Models [internal/dispatcher/execute.go].  A payload is validated
    ([extractJobMeta]), checked against its envelope, decoded in full, and
    routed to a built-in handler or to the v2 executor.  The built-in handlers
    are file and network I/O; they are the fields of [Handlers]. *)
From S2P Require Import Prelude GoFloat Json ExecutorV2.

(** ** Data *)

Record JobMeta := mkMeta { meta_JobType : string; meta_ChunkID : string; meta_DatasetID : string }.

Definition decodeMeta (fields : list (string * json)) : JobMeta * bool :=
  let '(t, b1) := field dec_string "job_type" "" fields in
  let '(c, b2) := field dec_string "chunk_id" "" fields in
  let '(d, b3) := field dec_string "dataset_id" "" fields in
  (mkMeta t c d, b1 || b2 || b3).

(** The anonymous struct [fullJob]. *)
Record FullJob := mkFull {
  f_ID : string; f_OrgID : string; f_ExecutionID : string; f_ExecutionStepID : string;
  f_RunID : string; f_AttemptNumber : Z; f_RuntimeType : string;
  f_RuntimeDeps : option (list Dependency); f_ExecutionMode : string;
  f_PluginID : string; f_PluginCode : string; f_ExecutionTimeout : Z;
  f_DependencyHash : string; f_EnvironmentID : string; f_Trusted : bool;
  f_ExecutionPolicy : option (Z * Z * Z * Z);
}.

Definition zeroFull : FullJob :=
  mkFull "" "" "" "" "" 0 "" None "" "" "" 0 "" "" false None.

Definition dec_dependency : decoder Dependency := fun cur j =>
  match j with
  | JObj fs =>
      let '(n, b1) := field dec_string "name" (dep_Name cur) fs in
      let '(v, b2) := field dec_string "version" (dep_Version cur) fs in
      let '(s, b3) := field dec_string "source" (dep_Source cur) fs in
      (mkDep n v s, b1 || b2 || b3)
  | JNull => (cur, false)
  | _ => (cur, true)
  end.

Definition dec_policy : decoder (option (Z * Z * Z * Z)) := fun cur j =>
  match j with
  | JNull => (None, false)
  | JObj fs =>
      let '(r0, b0, d0, h0) := default (0, 0, 0, 0) cur in
      let '(r, b1) := field dec_int "max_retries" r0 fs in
      let '(b, b2) := field dec_int "retry_backoff_seconds" b0 fs in
      let '(d, b3) := field dec_int "default_timeout_seconds" d0 fs in
      let '(h, b4) := field dec_int "hard_timeout_seconds" h0 fs in
      (Some (r, b, d, h), b1 || b2 || b3 || b4)
  | _ => (cur, true)
  end.

Definition decodeFull (fs : list (string * json)) : FullJob * bool :=
  let '(id, e1) := field dec_string "id" "" fs in
  let '(org, e2) := field dec_string "org_id" "" fs in
  let '(exec, e3) := field dec_string "execution_id" "" fs in
  let '(step, e4) := field dec_string "execution_step_id" "" fs in
  let '(run, e5) := field dec_string "run_id" "" fs in
  let '(att, e6) := field dec_int "attempt_number" 0 fs in
  let '(rt, e7) := field dec_string "runtime_type" "" fs in
  let '(deps, e8) := field (dec_slice (mkDep "" "" "") dec_dependency) "runtime_dependencies" None fs in
  let '(mode, e9) := field dec_string "execution_mode" "" fs in
  let '(pid, e10) := field dec_string "plugin_id" "" fs in
  let '(code, e11) := field dec_string "plugin_code" "" fs in
  let '(tmo, e12) := field dec_int "execution_timeout_seconds" 0 fs in
  let '(hash, e13) := field dec_string "dependency_hash" "" fs in
  let '(envid, e14) := field dec_string "environment_id" "" fs in
  let '(trusted, e15) := field dec_bool "trusted" false fs in
  let '(pol, e16) := field dec_policy "execution_policy" None fs in
  (mkFull id org exec step run att rt deps mode pid code tmo hash envid trusted pol,
   e1 || e2 || e3 || e4 || e5 || e6 || e7 || e8 || e9 || e10 || e11 || e12 || e13 || e14
   || e15 || e16).

(** ** [extractJobMeta] *)

(** A value, or the text of an error. *)
Definition extractJobMeta (payload : RawMessage) (envelopeJobType : list string)
    : result JobMeta :=
  if raw_is_empty payload then Err "empty payload - job cannot be processed"
  else if negb (json_Valid payload) then Err "invalid JSON payload - job cannot be parsed"
  else
    match Unmarshal_struct (mkMeta "" "" "") decodeMeta payload with
    | (_, Some e) => Err ("failed to parse job payload: " +:+ e)
    | (meta, None) =>
        let jobType :=
          if meta_JobType meta =?s "" then
            match envelopeJobType with
            | t :: _ => if t =?s "" then None else Some t
            | [] => None
            end
          else Some (meta_JobType meta) in
        match jobType with
        | None => Err "job_type is required"
        | Some t =>
            let t := if t =?s "process_dataset" then "process" else t in
            let meta := mkMeta t (meta_ChunkID meta) (meta_DatasetID meta) in
            if t =?s "process" then
              if (meta_ChunkID meta =?s "") && (meta_DatasetID meta =?s "")
              then Err "process job missing chunk_id or dataset_id" else Ok meta
            else if t =?s "merge_dataset" then
              if meta_DatasetID meta =?s ""
              then Err "merge_dataset job missing dataset_id" else Ok meta
            else if t =?s "preprocess" then Ok meta
            else if t =?s "scan_dataset" then Ok meta
            else Err ("unknown job_type: " +:+ t)
        end
    end.

(** ** [ExecuteJob] *)

Record context := mkContext { ctx_Err : error; ctx_ExecutionID : string }.

(** Where a job goes. *)
Inductive route :=
  | RouteDone
  | RouteScan (ctx : context) (payload : RawMessage)
  | RouteMerge (ctx : context) (payload : RawMessage)
  | RouteProcess (ctx : context) (payload : RawMessage)
  | RouteExecutor (ctx : context) (job : Job).

(** The executor job built from the payload. *)
Definition build_execJob (meta : JobMeta) (fullJob : FullJob) : Job :=
  {| job_ID :=
       if negb (f_ID fullJob =?s "") then f_ID fullJob
       else if negb (f_ExecutionID fullJob =?s "") then f_ExecutionID fullJob
       else if meta_ChunkID meta =?s "" then meta_DatasetID meta else meta_ChunkID meta;
     job_Type := meta_JobType meta;
     job_RuntimeType := f_RuntimeType fullJob;
     job_RuntimeDeps := f_RuntimeDeps fullJob;
     job_EntryPoint := "";
     job_ExecutionMode := f_ExecutionMode fullJob;
     job_EnvironmentStrict := false;
     job_TimeoutSeconds := f_ExecutionTimeout fullJob;
     job_PluginID := f_PluginID fullJob;
     job_PluginVersion := "";
     job_PluginCode := f_PluginCode fullJob;
     job_ExecutionID := f_ExecutionID fullJob;
     job_ExecutionStepID := f_ExecutionStepID fullJob;
     job_RunID := f_RunID fullJob;
     job_AttemptNumber := f_AttemptNumber fullJob;
     job_OrgID := f_OrgID fullJob;
     job_DependencyHash := f_DependencyHash fullJob;
     job_EnvironmentID := f_EnvironmentID fullJob;
     job_ExecutionPolicy :=
       match f_ExecutionPolicy fullJob with
       | Some (r, b, d, h) => Some (mkPolicy r b (f64_of_Z 0) 0 d h)
       | None => None
       end;
     job_Trusted := f_Trusted fullJob |}.

Section routing.
(** How [encoding/json] reprints numbers. *)
Context (renum : string -> string).

(** The payload of a chunk-level job, with the job's id injected. *)
Definition inject_job_id (id : string) (payload : RawMessage) : RawMessage :=
  if id =?s "" then payload
  else match Unmarshal_map renum payload with
       | Some m => Marshal_map (map_insert "job_id" (JStr id) m)
       | None => payload
       end.

Definition route_job (ctx : context) (jobType : string) (payload : RawMessage)
    (executionID : string) : result route :=
  match ctx_Err ctx with
  | Some e => Err e
  | None =>
      let ctx := mkContext None executionID in
      match extractJobMeta payload [jobType] with
      | Err e => Err e
      | Ok meta =>
          let normalizedEnvelopeType :=
            if jobType =?s "process_dataset" then "process" else jobType in
          if negb (jobType =?s "") && negb (normalizedEnvelopeType =?s meta_JobType meta) then
            Err ("job_type mismatch: envelope=" +:+ jobType +:+ " payload=" +:+ meta_JobType meta)
          else
            match Unmarshal_struct zeroFull decodeFull payload with
            | (_, Some e) => Err ("failed to parse full job payload: " +:+ e)
            | (fullJob, None) =>
                if meta_JobType meta =?s "preprocess" then Ok RouteDone
                else if meta_JobType meta =?s "scan_dataset" then Ok (RouteScan ctx payload)
                else if meta_JobType meta =?s "merge_dataset" then Ok (RouteMerge ctx payload)
                else if (meta_JobType meta =?s "process") && (f_PluginCode fullJob =?s "")
                        && negb (meta_ChunkID meta =?s "") then
                  Ok (RouteProcess ctx (inject_job_id (f_ID fullJob) payload))
                else if (meta_JobType meta =?s "process") && (meta_ChunkID meta =?s "")
                        && negb (meta_DatasetID meta =?s "") then Ok RouteDone
                else Ok (RouteExecutor ctx (build_execJob meta fullJob))
            end
      end
  end.

(** The built-in handlers and the executor instance. *)
Record Handlers := mkHandlers {
  executeScanDataset : context -> RawMessage -> error;
  executeMergeDataset : context -> RawMessage -> error;
  executeProcessChunk : context -> RawMessage -> error;
  executorInstance_ExecuteJob : context -> Job -> Result * error;
}.

Definition run_route (h : Handlers) (r : route) : error :=
  match r with
  | RouteDone => None
  | RouteScan ctx p => executeScanDataset h ctx p
  | RouteMerge ctx p => executeMergeDataset h ctx p
  | RouteProcess ctx p => executeProcessChunk h ctx p
  | RouteExecutor ctx job =>
      match executorInstance_ExecuteJob h ctx job with
      | (_, Some e) => Some e
      | (result, None) =>
          if negb (Success result) then
            let errMsg :=
              if res_Error result =?s ""
              then "plugin execution returned failure without error details"
              else res_Error result in
            Some (ErrorClassification result +:+ ": " +:+ errMsg)
          else None
      end
  end.

Definition ExecuteJob (h : Handlers) (ctx : context) (jobType : string)
    (payload : RawMessage) (executionID : string) : error :=
  match route_job ctx jobType payload executionID with
  | Err e => Some e
  | Ok r => run_route h r
  end.
End routing.

(** ** Lemmas *)

Definition known_types : list string := ["process"; "merge_dataset"; "preprocess"; "scan_dataset"].

(** What a validated payload satisfies. *)
Lemma extractJobMeta_ok payload env meta :
  extractJobMeta payload env = Ok meta ->
  meta_JobType meta ∈ known_types /\
  (meta_JobType meta = "process" -> meta_ChunkID meta <> "" \/ meta_DatasetID meta <> "") /\
  (meta_JobType meta = "merge_dataset" -> meta_DatasetID meta <> "").
Proof.
  unfold extractJobMeta. destruct (raw_is_empty payload); [done|].
  destruct (json_Valid payload); [|done]. simpl.
  destruct (Unmarshal_struct _ _ payload) as [m [e|]]; [done|].
  destruct (if meta_JobType m =?s "" then _ else _) as [t|]; [|done].
  generalize (if t =?s "process_dataset" then "process" else t); clear t; intros t.
  repeat match goal with
  | |- context [if ?x =?s ?y then _ else _] => destruct (eqb_spec_s x y) as [?|?]; simpl
  | |- context [if (?x =?s ?y) && _ then _ else _] => destruct (eqb_spec_s x y) as [?|?]; simpl
  end; intros H; simplify_eq; simpl; (split; [set_solver|split; naive_solver]).
Qed.

(** What a route promises about the job that was sent down it. *)
Definition route_ok (renum : string -> string) (payload : RawMessage) (executionID : string)
    (meta : JobMeta) (full : FullJob) (r : route) : Prop :=
  match r with
  | RouteDone =>
      meta_JobType meta = "preprocess" \/
      (meta_JobType meta = "process" /\ meta_ChunkID meta = "" /\ meta_DatasetID meta <> "")
  | RouteScan ctx p =>
      meta_JobType meta = "scan_dataset" /\ p = payload /\ ctx = mkContext None executionID
  | RouteMerge ctx p =>
      meta_JobType meta = "merge_dataset" /\ meta_DatasetID meta <> "" /\ p = payload /\
      ctx = mkContext None executionID
  | RouteProcess ctx p =>
      meta_JobType meta = "process" /\ meta_ChunkID meta <> "" /\ f_PluginCode full = "" /\
      p = inject_job_id renum (f_ID full) payload /\ ctx = mkContext None executionID
  | RouteExecutor ctx job =>
      meta_JobType meta = "process" /\ meta_ChunkID meta <> "" /\ f_PluginCode full <> "" /\
      job = build_execJob meta full /\ ctx = mkContext None executionID
  end.

Lemma route_job_ok renum ctx jobType payload executionID r :
  route_job renum ctx jobType payload executionID = Ok r ->
  ctx_Err ctx = None /\ exists meta full,
    extractJobMeta payload [jobType] = Ok meta /\
    Unmarshal_struct zeroFull decodeFull payload = (full, None) /\
    (jobType <> "" ->
     meta_JobType meta = if jobType =?s "process_dataset" then "process" else jobType) /\
    route_ok renum payload executionID meta full r.
Proof.
  unfold route_job. destruct (ctx_Err ctx); [done|].
  destruct (extractJobMeta payload [jobType]) as [meta|] eqn:Hm; [|done].
  destruct (negb (jobType =?s "") && _) eqn:Henv; [done|].
  destruct (Unmarshal_struct zeroFull decodeFull payload) as [full [e|]] eqn:Hf; [done|].
  intros Hr. split; [done|]. exists meta, full. split; [done|]. split; [done|]. split.
  { intros Hne. apply String.eqb_neq in Hne. rewrite Hne in Henv. simpl in Henv.
    apply negb_false_iff, String.eqb_eq in Henv. done. }
  pose proof (extractJobMeta_ok _ _ _ Hm) as (Hty & Hproc & Hmerge).
  destruct meta as [ty chunk ds]. simpl in *.
  unfold known_types in Hty. rewrite !elem_of_cons, elem_of_nil in Hty.
  destruct Hty as [->|[->|[->|[->|[]]]]]; simpl in Hr; simplify_eq; simpl;
    [|by auto..].
  destruct (eqb_spec_s (f_PluginCode full) ""), (eqb_spec_s chunk ""), (eqb_spec_s ds "");
    simpl in Hr; simplify_eq; simpl; naive_solver.
Qed.

(** ** Properties *)

(** C22.  Every job that passes validation goes to exactly one place: markers
    complete at once, scans and merges go to their handlers under the caller's
    execution id, a chunk without inline code goes to the native handler with
    the job's id injected, and the executor only ever sees a chunk with code. *)
Theorem route_job_correct (renum : string -> string) (ctx : context)
    (jobType executionID : string) (payload : RawMessage) (r : route) :
  route_job renum ctx jobType payload executionID = Ok r ->
  ctx_Err ctx = None /\ exists meta full,
    extractJobMeta payload [jobType] = Ok meta /\
    Unmarshal_struct zeroFull decodeFull payload = (full, None) /\
    (jobType <> "" ->
     meta_JobType meta = if jobType =?s "process_dataset" then "process" else jobType) /\
    route_ok renum payload executionID meta full r.
Proof. apply route_job_ok. Qed.

Definition chunk_payload (trusted : bool) (code : string) : RawMessage :=
  Raw (JObj [("id", JStr "job-1"); ("JOB_TYPE", JStr "process"); ("chunk_id", JStr "c1");
             ("plugin_code", JStr code); ("trusted", JBool trusted)]).

Definition live : context := mkContext None "".

Lemma route_job_correct_witness :
  exists p, route_job id live "process_dataset" (chunk_payload true "") "exec-1"
              = Ok (RouteProcess (mkContext None "exec-1") p) /\
    exists full, p = inject_job_id id (f_ID full) (chunk_payload true "").
Proof.
  eexists. split; [vm_compute; reflexivity|].
  destruct (route_job_correct id live "process_dataset" "exec-1" (chunk_payload true "")
              _ ltac:(vm_compute; reflexivity)) as (_ & meta & full & _ & _ & _ & H).
  exists full. exact (proj1 (proj2 (proj2 (proj2 H)))).
Defined.

(** The executor instance, as the handler of inline plugin code. *)
Definition executor_handler (env : runtime_env) (newRunID : string) (dur : Z)
    (entries : list (string * Result)) (st : ExecutionState) (_ : context) (job : Job)
    : Result * error :=
  match ExecutorV2.ExecuteJob env newRunID dur entries job st with
  | (_, _, Some out) => out
  | (_, _, None) => (failedResult "" "", Some "nil dereference")
  end.

(** C23.  Inline plugin code whose payload does not say
    [trusted: true] never succeeds: when such a job is routed to the executor,
    [ExecuteJob] returns an error. *)
Theorem inline_code_needs_trust (renum : string -> string) (h : Handlers)
    (env : runtime_env) (newRunID : string) (dur : Z) (entries : list (string * Result))
    (st : ExecutionState) (ctx ctx' : context) (jobType executionID : string)
    (payload : RawMessage) (job : Job) :
  executorInstance_ExecuteJob h = executor_handler env newRunID dur entries st ->
  route_job renum ctx jobType payload executionID = Ok (RouteExecutor ctx' job) ->
  f_Trusted (Unmarshal_struct zeroFull decodeFull payload).1 = false ->
  ExecuteJob renum h ctx jobType payload executionID <> None.
Proof.
  intros Hex Hr Htrust. unfold ExecuteJob. rewrite Hr. simpl. rewrite Hex.
  apply route_job_ok in Hr as (_ & meta & full & _ & Hfull & _ & _ & _ & _ & -> & _).
  rewrite Hfull in Htrust. simpl in Htrust.
  unfold executor_handler, ExecutorV2.ExecuteJob. simpl. rewrite Htrust. done.
Qed.

Definition idle_handlers : Handlers :=
  mkHandlers (fun _ _ => None) (fun _ _ => None) (fun _ _ => None)
    (executor_handler timing_out "r" 1 [] NewExecutionState).

Lemma inline_code_needs_trust_witness :
  (exists j, route_job id live "process" (chunk_payload false "print(1)") "e"
               = Ok (RouteExecutor (mkContext None "e") j)) /\
  ExecuteJob id idle_handlers live "process" (chunk_payload false "print(1)") "e" <> None.
Proof.
  split; [eexists; vm_compute; reflexivity|].
  eapply (inline_code_needs_trust id idle_handlers timing_out "r" 1 [] NewExecutionState
            live (mkContext None "e")); [reflexivity|vm_compute; reflexivity|].
  vm_compute. reflexivity.
Defined.

(** [process_dataset] and [process] are one job type on the envelope:
    a payload is accepted under the one iff it is accepted under the other, and
    is then routed to the same place. *)
Theorem process_dataset_is_process (renum : string -> string) (ctx : context)
    (executionID : string) (payload : RawMessage) (r : route) :
  route_job renum ctx "process_dataset" payload executionID = Ok r <->
  route_job renum ctx "process" payload executionID = Ok r.
Proof.
  assert (Hmeta : extractJobMeta payload ["process_dataset"] = extractJobMeta payload ["process"]).
  { unfold extractJobMeta. destruct (raw_is_empty payload); [done|].
    destruct (json_Valid payload); [|done]. simpl.
    destruct (Unmarshal_struct _ _ payload) as [m [e|]]; [done|].
    by destruct (meta_JobType m =?s ""). }
  unfold route_job. rewrite Hmeta. destruct (ctx_Err ctx); [done|].
  destruct (extractJobMeta payload ["process"]) as [meta|]; [|done]. simpl.
  by destruct (meta_JobType meta) as [|c s] eqn:?; [|destruct (negb _)].
Qed.
