(* ===== verification/WorkerPool.v ===== *)
(** * WorkerPool: job submission and the execution wrapper

    Models [internal/dispatcher/worker_pool.go] and the heartbeat registry of
    [internal/reporter/reporter.go].  Both [SubmitJobWithMeta] and
    [executeJobSafe] take and release the dispatcher's mutexes several times;
    each is cut at those points into phases, every phase being one atomic
    section of the code.  The functions of this file run the phases of one call
    in a row; [Dispatch] interleaves the phases of many goroutines. *)
From S2P Require Import Prelude GoFloat Json Backend JobDedup ExecuteJob.

(** ** State *)

Record jobRequest := mkReq {
  jobType : string; payload : RawMessage; jobID : string; orgID : string;
  traceID : string; executionStepID : string; executionID : string }.

(** What the pool does to the outside world, in order: the calls of the
    [ExecutionClient] interface, the execution of a payload, and the
    registered pause callback. *)
Inductive event :=
  | EvVerifyJobLease (jobID : string)
  | EvReportJobFailure (jobID err : string)
  | EvReportJobStart (jobID : string)
  | EvStartJob (jobID : string)
  | EvRecordStart (orgID pluginID jobID deviceID : string)
  | EvExecuteJob (jobType executionID : string) (payload : RawMessage)
  | EvRecordEnd (executionID status errMsg : string)
  | EvCompleteJob (executionID jobID status : string) (durationMs : Z) (resultData : option string)
  | EvPauseSSE.

(** The answers of the backend that the dispatcher acts upon; the others are
    only logged.  An answer may depend on everything that happened before. *)
Record ExecutionClient := mkClient {
  c_VerifyJobLease : list event -> string -> result JobLeaseStatus;
  c_RecordPluginExecutionStart : list event -> string -> string -> string -> string * error }.

(** The package variables of the dispatcher, and [hbs] of the reporter.  A nil
    [jobQueue] is [None]; [now] is the wall clock. *)
Record pool := mkPool {
  jobQueue : option (list jobRequest);
  activeJobs : gset string;
  runningJobs : gset string;
  globalDedupStore : option JobDeduplicationStore;
  totalProcessed : Z;
  totalFailed : Z;
  backpressureEnabled : bool;
  pauseSSE : bool;
  hbs : gset string;
  now : Z;
  events : list event;
}.

Definition DefaultMaxWorkers : Z := 4.
Definition DefaultQueueSize : nat := 128.
Definition HighWaterMarkPercent : float64 := f64_ratio 8 10.
Definition LowWaterMarkPercent : float64 := f64_ratio 5 10.

Definition with_queue (q : list jobRequest) (p : pool) : pool :=
  mkPool (Some q) (activeJobs p) (runningJobs p) (globalDedupStore p) (totalProcessed p)
    (totalFailed p) (backpressureEnabled p) (pauseSSE p) (hbs p) (now p) (events p).
Definition with_activeJobs (a : gset string) (p : pool) : pool :=
  mkPool (jobQueue p) a (runningJobs p) (globalDedupStore p) (totalProcessed p)
    (totalFailed p) (backpressureEnabled p) (pauseSSE p) (hbs p) (now p) (events p).
Definition with_runningJobs (r : gset string) (p : pool) : pool :=
  mkPool (jobQueue p) (activeJobs p) r (globalDedupStore p) (totalProcessed p)
    (totalFailed p) (backpressureEnabled p) (pauseSSE p) (hbs p) (now p) (events p).
Definition with_dedup (d : option JobDeduplicationStore) (p : pool) : pool :=
  mkPool (jobQueue p) (activeJobs p) (runningJobs p) d (totalProcessed p)
    (totalFailed p) (backpressureEnabled p) (pauseSSE p) (hbs p) (now p) (events p).
Definition with_hbs (h : gset string) (p : pool) : pool :=
  mkPool (jobQueue p) (activeJobs p) (runningJobs p) (globalDedupStore p) (totalProcessed p)
    (totalFailed p) (backpressureEnabled p) (pauseSSE p) h (now p) (events p).
Definition with_now (t : Z) (p : pool) : pool :=
  mkPool (jobQueue p) (activeJobs p) (runningJobs p) (globalDedupStore p) (totalProcessed p)
    (totalFailed p) (backpressureEnabled p) (pauseSSE p) (hbs p) t (events p).
Definition emit (e : event) (p : pool) : pool :=
  mkPool (jobQueue p) (activeJobs p) (runningJobs p) (globalDedupStore p) (totalProcessed p)
    (totalFailed p) (backpressureEnabled p) (pauseSSE p) (hbs p) (now p) (events p ++ [e]).

(** [atomic.AddInt64(&totalFailed, 1)] and its sibling. *)
Definition count_failed (p : pool) : pool :=
  mkPool (jobQueue p) (activeJobs p) (runningJobs p) (globalDedupStore p) (totalProcessed p)
    (int64 (totalFailed p + 1)) (backpressureEnabled p) (pauseSSE p) (hbs p) (now p) (events p).
Definition count_processed (p : pool) : pool :=
  mkPool (jobQueue p) (activeJobs p) (runningJobs p) (globalDedupStore p)
    (int64 (totalProcessed p + 1)) (totalFailed p) (backpressureEnabled p) (pauseSSE p)
    (hbs p) (now p) (events p).

Definition nonempty (s : string) : bool := negb (s =?s "").

(** ** The heartbeat registry of the reporter *)

(** The function that [StartExecutionHeartbeat] returns, or a nil one. *)
Inductive stop_fn := StopNil | StopNoop | StopJob (jobID : string).

Definition StartExecutionHeartbeat (jobID : string) (p : pool) : pool * stop_fn :=
  if decide (jobID ∈ hbs p) then (p, StopNoop)
  else (with_hbs ({[jobID]} ∪ hbs p) p, StopJob jobID).

Definition stopHeartbeat (f : stop_fn) (p : pool) : pool :=
  match f with
  | StopJob j => with_hbs (hbs p ∖ {[j]}) p
  | StopNil | StopNoop => p
  end.

(** ** [executeJobSafe] *)

(** The local variables of one execution. *)
Record frame := mkFrame {
  req : jobRequest; stop : stop_fn; pluginExecID : string; err : error; panicked : bool }.

Definition set_stop (f : stop_fn) (fr : frame) :=
  mkFrame (req fr) f (pluginExecID fr) (err fr) (panicked fr).
Definition set_pluginExecID (i : string) (fr : frame) :=
  mkFrame (req fr) (stop fr) i (err fr) (panicked fr).
Definition set_err (e : error) (fr : frame) :=
  mkFrame (req fr) (stop fr) (pluginExecID fr) e (panicked fr).
Definition set_panicked (fr : frame) :=
  mkFrame (req fr) (stop fr) (pluginExecID fr) (err fr) true.
Definition set_executionID (i : string) (fr : frame) :=
  let r := req fr in
  mkFrame (mkReq (jobType r) (payload r) (jobID r) (orgID r) (traceID r) (executionStepID r) i)
    (stop fr) (pluginExecID fr) (err fr) (panicked fr).

(** Where an execution is. *)
Inductive pc :=
  | PVerify | PStartJob | PHeartbeat | PRecordStart | POverride | PValidate | PRun
  | PRecordEnd | PStopHeartbeat | POutcome | PReleaseStep | PReleaseJob | PDone.

Definition step_result : Type := pool * frame * pc.

(** A job that ends in [ExecuteJob] either returns or panics. *)
Inductive job_outcome := Returned (e : error) | Panicked.

Section execution.
Context (renum : string -> string) (h : Handlers).
(** Whether the handlers panic on a job, and how long it runs. *)
Context (panics : string -> RawMessage -> string -> bool) (durationMs : list event -> Z).
Context (execClient : option ExecutionClient).

Definition has_client : bool := match execClient with Some _ => true | None => false end.

Definition abort (reason : string) (fr : frame) (p : pool) : step_result :=
  let p := count_failed p in
  (emit (EvReportJobFailure (jobID (req fr)) reason) p, fr, PReleaseStep).

(** Verify lease before execution. *)
Definition verify_lease (fr : frame) (p : pool) : step_result :=
  match execClient with
  | Some c =>
      if nonempty (jobID (req fr)) then
        let answer := c_VerifyJobLease c (events p) (jobID (req fr)) in
        let p := emit (EvVerifyJobLease (jobID (req fr))) p in
        match answer with
        | Err e => abort ("lease verification failed: " +:+ e) fr p
        | Ok leaseStatus =>
            if IsValid leaseStatus then (p, fr, PStartJob)
            else abort "lease invalid - job claimed by another agent" fr p
        end
      else (p, fr, PStartJob)
  | None => (p, fr, PStartJob)
  end.

(** Job start: both answers are only logged. *)
Definition start_job (fr : frame) (p : pool) : step_result :=
  if has_client && nonempty (jobID (req fr))
  then (emit (EvStartJob (jobID (req fr))) (emit (EvReportJobStart (jobID (req fr))) p), fr, PHeartbeat)
  else (p, fr, PHeartbeat).

Definition start_heartbeat (fr : frame) (p : pool) : step_result :=
  if has_client && nonempty (jobID (req fr)) then
    let '(p, f) := StartExecutionHeartbeat (jobID (req fr)) p in
    (p, set_stop f fr, PRecordStart)
  else (p, fr, PRecordStart).

(** The plugin id the start is recorded under. *)
Definition recorded_plugin (r : jobRequest) : string :=
  if raw_is_empty (payload r) then jobID r
  else
    match Unmarshal_struct ("", "")
            (fun fs => let '(i, e1) := field dec_string "plugin_id" "" fs in
                       let '(n, e2) := field dec_string "plugin_name" "" fs in
                       ((i, n), e1 || e2)) (payload r) with
    | ((i, n), None) =>
        if nonempty i then i else if nonempty n then n else jobID r
    | (_, Some _) => jobID r
    end.

(** The job id is passed for the device id as well. *)
Definition record_start (fr : frame) (p : pool) : step_result :=
  let r := req fr in
  match execClient with
  | Some c =>
      if nonempty (orgID r) && nonempty (jobID r) then
        let pluginID := recorded_plugin r in
        let answer := c_RecordPluginExecutionStart c (events p) (orgID r) pluginID (jobID r) in
        (emit (EvRecordStart (orgID r) pluginID (jobID r) (jobID r)) p,
         set_pluginExecID answer.1 fr, POverride)
      else (p, fr, POverride)
  | None => (p, fr, POverride)
  end.

(** The execution id the payload names, if it does. *)
Definition payload_execution_id (pl : RawMessage) : string :=
  if raw_is_empty pl then ""
  else
    match Unmarshal_struct "" (fun fs => field dec_string "execution_id" "" fs) pl with
    | (i, None) => i
    | (_, Some _) => ""
    end.

Definition override_execution_id (fr : frame) (p : pool) : step_result :=
  let i := payload_execution_id (payload (req fr)) in
  (p, (if nonempty i then set_executionID i fr else fr), PValidate).

(** Strict validation: a missing execution id ends the job here; the heartbeat
    that was started keeps running. *)
Definition strict_validation (fr : frame) (p : pool) : step_result :=
  let r := req fr in
  if (executionID r =?s "") && negb (jobType r =?s "scan_dataset") then
    let p := count_failed p in
    let p := if has_client && nonempty (jobID r)
             then emit (EvReportJobFailure (jobID r)
                    "dispatcher: execution_id missing at execution - cannot complete job") p
             else p in
    (p, fr, PReleaseStep)
  else (p, fr, PRun).

Definition run_job (r : jobRequest) : job_outcome :=
  if panics (jobType r) (payload r) (executionID r) then Panicked
  else Returned (ExecuteJob.ExecuteJob renum h (mkContext None "")
                   (jobType r) (payload r) (executionID r)).

(** A panic unwinds to the deferred release of the claims. *)
Definition run_payload (fr : frame) (p : pool) : step_result :=
  let r := req fr in
  let p := emit (EvExecuteJob (jobType r) (executionID r) (payload r)) p in
  match run_job r with
  | Returned e => (p, set_err e fr, PRecordEnd)
  | Panicked => (p, set_panicked fr, PReleaseStep)
  end.

Definition record_end (fr : frame) (p : pool) : step_result :=
  if has_client && nonempty (pluginExecID fr) then
    let '(status, errMsg) :=
      match err fr with Some e => ("failed", e) | None => ("completed", "") end in
    (emit (EvRecordEnd (pluginExecID fr) status errMsg) p, fr, PStopHeartbeat)
  else (p, fr, PStopHeartbeat).

Definition stop_heartbeat (fr : frame) (p : pool) : step_result :=
  (stopHeartbeat (stop fr) p, fr, POutcome).

Definition failure_path (e : string) (r : jobRequest) (p : pool) : pool :=
  let p := count_failed p in
  if has_client && nonempty (jobID r) then
    let p := emit (EvReportJobFailure (jobID r) e) p in
    emit (EvCompleteJob (executionID r) (jobID r) "failed" (durationMs (events p)) (Some e)) p
  else p.

Definition success_path (r : jobRequest) (p : pool) : pool :=
  let p := count_processed p in
  if has_client && (nonempty (executionID r) || nonempty (jobID r)) then
    emit (EvCompleteJob (executionID r) (jobID r) "completed" (durationMs (events p)) None) p
  else p.

Definition report_outcome (fr : frame) (p : pool) : step_result :=
  match err fr with
  | Some e => (failure_path e (req fr) p, fr, PReleaseStep)
  | None => (success_path (req fr) p, fr, PReleaseStep)
  end.

(** The deferred function: two critical sections. *)
Definition release_step (fr : frame) (p : pool) : step_result :=
  let s := executionStepID (req fr) in
  ((if nonempty s then with_activeJobs (activeJobs p ∖ {[s]}) p else p), fr, PReleaseJob).

Definition release_job (fr : frame) (p : pool) : step_result :=
  let j := jobID (req fr) in
  ((if nonempty j then with_runningJobs (runningJobs p ∖ {[j]}) p else p), fr, PDone).

Definition exec_phase (c : pc) : frame -> pool -> step_result :=
  match c with
  | PVerify => verify_lease
  | PStartJob => start_job
  | PHeartbeat => start_heartbeat
  | PRecordStart => record_start
  | POverride => override_execution_id
  | PValidate => strict_validation
  | PRun => run_payload
  | PRecordEnd => record_end
  | PStopHeartbeat => stop_heartbeat
  | POutcome => report_outcome
  | PReleaseStep => release_step
  | PReleaseJob => release_job
  | PDone => fun fr p => (p, fr, PDone)
  end.

Fixpoint run_phases (fuel : nat) (c : pc) (fr : frame) (p : pool) : option (pool * frame) :=
  match c, fuel with
  | PDone, _ => Some (p, fr)
  | _, O => None
  | _, S fuel => let '(p, fr, c) := exec_phase c fr p in run_phases fuel c fr p
  end.

(** Twelve phases are the longest execution. *)
Definition exec_fuel : nat := 12.

Definition initial_frame (r : jobRequest) : frame := mkFrame r StopNil "" None false.

(** The result is the new state, and whether the worker survives. *)
Definition executeJobSafe (r : jobRequest) (p : pool) : option (pool * bool) :=
  match run_phases exec_fuel PVerify (initial_frame r) p with
  | Some (p, fr) => Some (p, negb (panicked fr))
  | None => None
  end.
End execution.

(** ** [SubmitJobWithMeta] *)

Inductive spc :=
  | SCheck | SDedup | SClaimJob | SClaimStep | SUndoJob | SMeasure | SEnqueue
  | SDedupAdd | SDropStep | SDropJob | SDropReport | SReturn (e : error).

Definition validate_submission (r : jobRequest) (p : pool) : pool * spc :=
  match jobQueue p with
  | None => (p, SReturn (Some "dispatcher: pool not initialized"))
  | Some _ =>
      if jobID r =?s "" then (p, SReturn (Some "dispatcher: job_id is required"))
      else if (executionID r =?s "") && negb (jobType r =?s "scan_dataset")
              && negb (jobType r =?s "merge_dataset")
      then (p, SReturn (Some "dispatcher: execution_id is required for completion"))
      else if jobType r =?s "" then (p, SReturn (Some "dispatcher: job_type is required"))
      else (p, SDedup)
  end.

(** Persistent dedup. *)
Definition check_dedup (r : jobRequest) (p : pool) : pool * spc :=
  match globalDedupStore p with
  | Some s =>
      if nonempty (jobID r) && Contains s (now p) (jobID r)
      then (p, SReturn (Some "dispatcher: duplicate job rejected - seen within dedup TTL"))
      else (p, SClaimJob)
  | None => (p, SClaimJob)
  end.

Definition claim_job (r : jobRequest) (p : pool) : pool * spc :=
  if nonempty (jobID r) then
    if decide (jobID r ∈ runningJobs p)
    then (p, SReturn (Some "dispatcher: duplicate job rejected - job already running"))
    else (with_runningJobs ({[jobID r]} ∪ runningJobs p) p, SClaimStep)
  else (p, SClaimStep).

Definition claim_step (r : jobRequest) (p : pool) : pool * spc :=
  let s := executionStepID r in
  if nonempty s then
    if decide (s ∈ activeJobs p) then (p, SUndoJob)
    else (with_activeJobs ({[s]} ∪ activeJobs p) p, SMeasure)
  else (p, SMeasure).

Definition delete_running (r : jobRequest) (p : pool) : pool :=
  if nonempty (jobID r) then with_runningJobs (runningJobs p ∖ {[jobID r]}) p else p.
Definition delete_active (r : jobRequest) (p : pool) : pool :=
  if nonempty (executionStepID r)
  then with_activeJobs (activeJobs p ∖ {[executionStepID r]}) p else p.

Definition undo_job (r : jobRequest) (p : pool) : pool * spc :=
  (delete_running r p,
   SReturn (Some "dispatcher: duplicate job rejected - one active job per execution step")).

Definition queue_util (q : list jobRequest) : float64 :=
  f64_div (f64_of_Z (Z.of_nat (length q))) (f64_of_Z (Z.of_nat DefaultQueueSize)).

Definition high_water (q : list jobRequest) : bool := f64_lt HighWaterMarkPercent (queue_util q).

(** Backpressure: above the high water mark, the pause callback is called. *)
Definition measure (r : jobRequest) (p : pool) : pool * spc :=
  let q := default [] (jobQueue p) in
  (if high_water q && backpressureEnabled p && pauseSSE p then emit EvPauseSSE p else p, SEnqueue).

Definition enqueue (r : jobRequest) (p : pool) : pool * spc :=
  let q := default [] (jobQueue p) in
  if (length q <? DefaultQueueSize)%nat then (with_queue (q ++ [r]) p, SDedupAdd)
  else (p, SDropStep).

Definition dedup_add (r : jobRequest) (p : pool) : pool * spc :=
  match globalDedupStore p with
  | Some s => ((if nonempty (jobID r) then with_dedup (Some (Add s (now p) (jobID r))) p else p),
               SReturn None)
  | None => (p, SReturn None)
  end.

Section submission.
Context (has_client : bool).

Definition drop_report (r : jobRequest) (p : pool) : pool * spc :=
  let p := count_failed p in
  ((if has_client && nonempty (jobID r)
    then emit (EvReportJobFailure (jobID r) "dispatcher: queue full, job dropped") p else p),
   SReturn (Some "dispatcher: queue full, job dropped")).

Definition submit_phase (c : spc) (r : jobRequest) (p : pool) : pool * spc :=
  match c with
  | SCheck => validate_submission r p
  | SDedup => check_dedup r p
  | SClaimJob => claim_job r p
  | SClaimStep => claim_step r p
  | SUndoJob => undo_job r p
  | SMeasure => measure r p
  | SEnqueue => enqueue r p
  | SDedupAdd => dedup_add r p
  | SDropStep => (delete_active r p, SDropJob)
  | SDropJob => (delete_running r p, SDropReport)
  | SDropReport => drop_report r p
  | SReturn _ => (p, c)
  end.

Fixpoint run_submit (fuel : nat) (c : spc) (r : jobRequest) (p : pool) : option (pool * error) :=
  match c, fuel with
  | SReturn e, _ => Some (p, e)
  | _, O => None
  | _, S fuel => let '(p, c) := submit_phase c r p in run_submit fuel c r p
  end.

Definition submit_fuel : nat := 9.

Definition SubmitJobWithMeta (r : jobRequest) (p : pool) : option (pool * error) :=
  run_submit submit_fuel SCheck r p.
End submission.

(** ** Sizing the pool *)

(** The worker counters: [waiting] of the [activeWorkers] goroutines are blocked
    in their [select]. *)
Record workers := mkWorkers { activeWorkers : Z; maxWorkers : Z; waiting : nat }.

(** [InitWorkerPool]: the number of workers started. *)
Definition InitWorkerPool (numCPU n : Z) (p : pool) : pool * workers :=
  let n := if n <=? 0 then DefaultMaxWorkers else n in
  let maxAllowed := int64 (numCPU * 2) in
  let maxAllowed := if maxAllowed <? 1 then 1 else maxAllowed in
  let n := if maxAllowed <? n then maxAllowed else n in
  (with_queue [] p, mkWorkers n (int32 n) (Z.to_nat n)).

(** The loop of non-blocking sends on the unbuffered [resizeSignal]: one is
    received only by a worker that waits. *)
Fixpoint send_resize (diff : nat) (w : workers) : workers :=
  match diff with
  | O => w
  | S diff =>
      let w := match waiting w with
               | S k => mkWorkers (activeWorkers w - 1) (maxWorkers w) k
               | O => w
               end in
      send_resize diff w
  end.

Definition SetMaxWorkers (newCount : Z) (w : workers) : workers :=
  let newCount := if newCount <=? 0 then 1 else newCount in
  let current := maxWorkers w in
  if newCount =? current then w
  else
    let w :=
      if current <? newCount then
        let k := newCount - current in
        mkWorkers (activeWorkers w + k) (maxWorkers w) (waiting w + Z.to_nat k)
      else send_resize (Z.to_nat (current - newCount)) w in
    mkWorkers (activeWorkers w) (int32 newCount) (waiting w).

(** ** Metrics and shutdown *)

Definition QueueUtilization (p : pool) : float64 :=
  match jobQueue p with
  | None => f64_of_Z 0
  | Some q => queue_util q
  end.

Definition ShouldResumeSSE (p : pool) : bool := f64_lt (QueueUtilization p) LowWaterMarkPercent.

Definition ActiveJobsCount (p : pool) : nat := size (runningJobs p).

(** [QueueLength] of [introspection.go]. *)
Definition QueueLength (p : pool) : nat :=
  match jobQueue p with None => 0%nat | Some q => length q end.

Definition IsJobActive (jobID : string) (p : pool) : bool :=
  bool_decide (jobID ∈ activeJobs p) || bool_decide (jobID ∈ runningJobs p).

Definition shutdown_text : string := "agent shutdown during graceful drain".

Definition report_each (ids : list string) (p : pool) : pool :=
  foldl (fun p i => emit (EvReportJobFailure i shutdown_text) p) p ids.

(** [ReportInFlightFailures] with the backend's client; [mapOrder] is the order
    in which Go ranges over a map. *)
Definition ReportInFlightFailures (mapOrder : gset string -> list string) (p : pool) : pool :=
  report_each (mapOrder (runningJobs p)) (report_each (mapOrder (activeJobs p)) p).

(** ** What an execution amounts to *)

Inductive verdict := Aborted (reason : string) | Crashed | Failed (e : string) | Completed.

Definition final_request (r : jobRequest) : jobRequest :=
  let i := payload_execution_id (payload r) in
  req (if nonempty i then set_executionID i (initial_frame r) else initial_frame r).

Lemma final_request_fields r :
  jobID (final_request r) = jobID r /\ executionStepID (final_request r) = executionStepID r /\
  orgID (final_request r) = orgID r /\ jobType (final_request r) = jobType r /\
  payload (final_request r) = payload r.
Proof. unfold final_request. by destruct (nonempty _). Qed.

Section verdicts.
Context (renum : string -> string) (h : Handlers).
Context (panics : string -> RawMessage -> string -> bool) (durationMs : list event -> Z).
Context (execClient : option ExecutionClient).

(** Why the lease check refuses the job, if it does. *)
Definition lease_refusal (r : jobRequest) (p : pool) : option string :=
  match execClient with
  | Some c =>
      if nonempty (jobID r) then
        match c_VerifyJobLease c (events p) (jobID r) with
        | Err e => Some ("lease verification failed: " +:+ e)
        | Ok s => if IsValid s then None else Some "lease invalid - job claimed by another agent"
        end
      else None
  | None => None
  end.

Definition missing_execution_id (r : jobRequest) : bool :=
  (executionID (final_request r) =?s "") && negb (jobType r =?s "scan_dataset").

Definition verdict_of (r : jobRequest) (p : pool) : verdict :=
  match lease_refusal r p with
  | Some reason => Aborted reason
  | None =>
      if missing_execution_id r
      then Aborted "dispatcher: execution_id missing at execution - cannot complete job"
      else
        match run_job renum h panics (final_request r) with
        | Panicked => Crashed
        | Returned (Some e) => Failed e
        | Returned None => Completed
        end
  end.

(** The calls that settle a job, in a list of events. *)
Definition completions (evs : list event) : list (string * string * string) :=
  omap (fun e => match e with EvCompleteJob x j s _ _ => Some (x, j, s) | _ => None end) evs.
Definition failures (evs : list event) : list (string * string) :=
  omap (fun e => match e with EvReportJobFailure j t => Some (j, t) | _ => None end) evs.
Definition executions (evs : list event) : list (string * string) :=
  omap (fun e => match e with EvExecuteJob t x _ => Some (t, x) | _ => None end) evs.

Definition reported (r : jobRequest) : bool := has_client execClient && nonempty (jobID r).

(** The heartbeat outlives the job when the job stops between the start of the
    heartbeat and its stop. *)
Definition leaks_heartbeat (r : jobRequest) (p : pool) : bool :=
  match lease_refusal r p with
  | Some _ => false
  | None =>
      reported r &&
      (missing_execution_id r ||
       match run_job renum h panics (final_request r) with Panicked => true | _ => false end)
  end.

(** What the counters and the backend see of an execution, by verdict. *)
Definition ledger (r : jobRequest) (p : pool) (v : verdict) (p' : pool) : Prop :=
  exists evs, events p' = events p ++ evs /\
  let x := final_request r in
  match v with
  | Aborted why =>
      totalFailed p' = int64 (totalFailed p + 1) /\ totalProcessed p' = totalProcessed p /\
      executions evs = [] /\ completions evs = [] /\
      failures evs = (if reported r then [(jobID r, why)] else [])
  | Crashed =>
      totalFailed p' = totalFailed p /\ totalProcessed p' = totalProcessed p /\
      executions evs = [(jobType r, executionID x)] /\ completions evs = [] /\ failures evs = []
  | Failed why =>
      totalFailed p' = int64 (totalFailed p + 1) /\ totalProcessed p' = totalProcessed p /\
      executions evs = [(jobType r, executionID x)] /\
      completions evs = (if reported r then [(executionID x, jobID r, "failed")] else []) /\
      failures evs = (if reported r then [(jobID r, why)] else [])
  | Completed =>
      totalFailed p' = totalFailed p /\ totalProcessed p' = int64 (totalProcessed p + 1) /\
      executions evs = [(jobType r, executionID x)] /\
      completions evs = (if has_client execClient && (nonempty (executionID x) || nonempty (jobID r))
                         then [(executionID x, jobID r, "completed")] else []) /\
      failures evs = []
  end.

(** An execution leaves the queue and the dedup store alone, and the claims
    without those of its job. *)
Definition released (r : jobRequest) (p p' : pool) : Prop :=
  jobQueue p' = jobQueue p /\ globalDedupStore p' = globalDedupStore p /\
  activeJobs p' = activeJobs (delete_active r p) /\
  runningJobs p' = runningJobs (delete_running r p).

(** Events that settle nothing. *)
Definition quiet (evs : list event) : Prop :=
  executions evs = [] /\ completions evs = [] /\ failures evs = [].

Lemma quiet_app l k : quiet l -> quiet k -> quiet (l ++ k).
Proof.
  unfold quiet, executions, completions, failures. rewrite !omap_app.
  intros (-> & -> & ->) (-> & -> & ->). done.
Qed.

Abbreviation phase := (exec_phase renum h panics durationMs execClient).
Abbreviation phases := (run_phases renum h panics durationMs execClient).

Lemma run_phases_S n c fr p :
  c <> PDone -> phases (S n) c fr p = phases n (phase c fr p).2 (phase c fr p).1.2 (phase c fr p).1.1.
Proof.
  intros Hc. destruct c; try done; cbn [run_phases];
    by destruct (exec_phase _ _ _ _ _ _ fr p) as [[??]?].
Qed.

(** [p'] is [p] after the events [evs], with heartbeats [hb]. *)
Definition logged (p p' : pool) (hb : gset string) (evs : list event) : Prop :=
  p' = mkPool (jobQueue p) (activeJobs p) (runningJobs p) (globalDedupStore p) (totalProcessed p)
         (totalFailed p) (backpressureEnabled p) (pauseSSE p) hb (now p) (events p ++ evs).

Definition quietly (p p' : pool) (hb : gset string) : Prop :=
  exists evs, quiet evs /\ logged p p' hb evs.

Lemma logged_emit p p' hb evs e : logged p p' hb evs -> logged p (emit e p') hb (evs ++ [e]).
Proof. unfold logged. intros ->. by rewrite app_assoc. Qed.

Lemma logged_hbs p p' hb hb' evs : logged p p' hb evs -> logged p (with_hbs hb' p') hb' evs.
Proof. by intros ->. Qed.

Lemma quietly_refl p : quietly p p (hbs p).
Proof. exists []. split; [done|]. unfold logged. rewrite app_nil_r. by destruct p. Qed.

Lemma quietly_emit p p' hb e : quiet [e] -> quietly p p' hb -> quietly p (emit e p') hb.
Proof.
  intros He (evs & Hq & Hl). exists (evs ++ [e]).
  split; [by apply quiet_app|by apply logged_emit].
Qed.

Lemma quietly_hbs p p' hb hb' : quietly p p' hb -> quietly p (with_hbs hb' p') hb'.
Proof. intros (evs & Hq & Hl). exists evs. split; [done|by eapply logged_hbs]. Qed.

Definition heartbeat_of (r : jobRequest) (p : pool) : stop_fn :=
  if reported r then if decide (jobID r ∈ hbs p) then StopNoop else StopJob (jobID r) else StopNil.

Definition beating (r : jobRequest) (p : pool) : gset string :=
  if reported r then {[jobID r]} ∪ hbs p else hbs p.

Lemma verify_lease_phase r fr p :
  req fr = r ->
  match lease_refusal r p with
  | Some why => reported r = true /\
      exists p', quietly p p' (hbs p) /\ phase PVerify fr p = abort why fr p'
  | None => exists p', quietly p p' (hbs p) /\ phase PVerify fr p = (p', fr, PStartJob)
  end.
Proof.
  intros <-. unfold lease_refusal, reported. simpl. unfold verify_lease.
  pose proof (quietly_refl p) as Hq.
  pose proof (quietly_emit _ _ _ (EvVerifyJobLease (jobID (req fr))) ltac:(done) Hq) as Hq'.
  destruct execClient as [c|]; [|by eauto].
  destruct (nonempty _); [|by eauto].
  destruct (c_VerifyJobLease _ _ _) as [s|e]; [destruct (IsValid s)|]; eauto.
Qed.

Lemma start_job_phase fr p hb p0 :
  quietly p0 p hb -> exists p', quietly p0 p' hb /\ phase PStartJob fr p = (p', fr, PHeartbeat).
Proof.
  intros Hq. simpl. unfold start_job. destruct (_ && _); [|by eauto].
  eexists. split; [|done]. by repeat apply quietly_emit.
Qed.

Lemma start_heartbeat_phase r fr p p0 :
  jobID (req fr) = jobID r -> stop fr = StopNil -> quietly p0 p (hbs p0) ->
  exists p', quietly p0 p' (beating r p0) /\
    phase PHeartbeat fr p = (p', set_stop (heartbeat_of r p0) fr, PRecordStart).
Proof.
  intros Hj Hst Hq. simpl. unfold start_heartbeat, heartbeat_of, beating.
  rewrite Hj. change (has_client execClient && nonempty (jobID r)) with (reported r).
  assert (Hhb : hbs p = hbs p0) by (by destruct Hq as (? & _ & ->)).
  destruct (reported r); [|by exists p; destruct fr; simpl in *; subst].
  unfold StartExecutionHeartbeat. rewrite Hhb. destruct (decide _) as [Hin|Hout].
  - exists p. replace ({[jobID r]} ∪ hbs p0) with (hbs p0) by set_solver. done.
  - eexists. split; [|done]. by eapply quietly_hbs.
Qed.

Lemma record_start_phase fr p hb p0 :
  quietly p0 p hb -> exists p' i, quietly p0 p' hb /\
    phase PRecordStart fr p = (p', set_pluginExecID i fr, POverride).
Proof.
  intros Hq. simpl. unfold record_start. assert (Hsame : set_pluginExecID (pluginExecID fr) fr = fr)
    by (by destruct fr).
  destruct execClient as [c|]; [|by exists p, (pluginExecID fr); rewrite Hsame].
  destruct (_ && _); [|by exists p, (pluginExecID fr); rewrite Hsame].
  eexists _, _. split; [|done]. by apply quietly_emit.
Qed.

(** The frame of a job whose payload is about to run. *)
Definition ready (r : jobRequest) (i : string) (p0 : pool) : frame :=
  mkFrame (final_request r) (heartbeat_of r p0) i None false.

Lemma prefix_phases r p0 n :
  lease_refusal r p0 = None ->
  exists p i, quietly p0 p (beating r p0) /\
    phases (5 + n) PVerify (initial_frame r) p0 = phases n PValidate (ready r i p0) p.
Proof.
  intros Hl. pose proof (verify_lease_phase r (initial_frame r) p0 eq_refl) as Hv.
  rewrite Hl in Hv. destruct Hv as (p1 & Hq1 & E1).
  destruct (start_job_phase (initial_frame r) p1 _ p0 Hq1) as (p2 & Hq2 & E2).
  destruct (start_heartbeat_phase r (initial_frame r) p2 p0 eq_refl eq_refl Hq2) as (p3 & Hq3 & E3).
  destruct (record_start_phase (set_stop (heartbeat_of r p0) (initial_frame r)) p3 _ p0 Hq3)
    as (p4 & i & Hq4 & E4).
  exists p4, i. split; [done|]. change (5 + n)%nat with (S (S (S (S (S n))))).
  do 4 (rewrite run_phases_S by done; rewrite ?E1, ?E2, ?E3, ?E4; simpl fst; simpl snd).
  rewrite run_phases_S by done. simpl. unfold override_execution_id, ready, final_request.
  simpl. by destruct (nonempty _).
Qed.

Lemma release_phases n fr p :
  phases (S (S n)) PReleaseStep fr p = Some (delete_running (req fr) (delete_active (req fr) p), fr).
Proof. by destruct n. Qed.

(** The heartbeats once the job's own [stop] has run. *)
Lemma logged_stopped r p0 p evs :
  logged p0 p (beating r p0) evs ->
  logged p0 (stopHeartbeat (heartbeat_of r p0) p) (hbs p0) evs.
Proof.
  unfold beating, heartbeat_of. destruct (reported r); [|done].
  intros ->. destruct (decide _) as [Hin|Hout]; unfold stopHeartbeat, with_hbs, logged.
  - by replace ({[jobID r]} ∪ hbs p0) with (hbs p0) by set_solver.
  - cbn [hbs]. by replace (({[jobID r]} ∪ hbs p0) ∖ {[jobID r]}) with (hbs p0) by set_solver.
Qed.

Definition hbs_after (r : jobRequest) (p : pool) : gset string :=
  if leaks_heartbeat r p then {[jobID r]} ∪ hbs p else hbs p.

Abbreviation run := (executeJobSafe renum h panics durationMs execClient).

(** [p] keeps the queue, the claims and the dedup store of [p0]. *)
Definition unclaimed (p0 p : pool) : Prop :=
  jobQueue p = jobQueue p0 /\ globalDedupStore p = globalDedupStore p0 /\
  activeJobs p = activeJobs p0 /\ runningJobs p = runningJobs p0.

(** The tail of an execution: a frame that reaches the release. *)
Lemma settles r p0 n fr p (v : verdict) :
  jobID (req fr) = jobID r -> executionStepID (req fr) = executionStepID r ->
  unclaimed p0 p -> ledger r p0 v p -> hbs p = hbs_after r p0 ->
  exists p', phases (S (S n)) PReleaseStep fr p = Some (p', fr) /\
    released r p0 p' /\ ledger r p0 v p' /\ hbs p' = hbs_after r p0.
Proof.
  intros Hj Hs (Hq & Hd & Ha & Hr) Hl Hhb. eexists. rewrite release_phases. split; [done|].
  unfold released, ledger in *. unfold delete_running, delete_active. rewrite Hj, Hs.
  destruct p, p0. cbn in Hq, Hd, Ha, Hr. subst.
  destruct (nonempty (jobID r)), (nonempty (executionStepID r));
    (split; [repeat split|split; [exact Hl|exact Hhb]]).
Qed.

Lemma record_end_phase fr p0 p hb evs :
  logged p0 p hb evs -> exists p' evs', quiet evs' /\ logged p0 p' hb (evs ++ evs') /\
    phase PRecordEnd fr p = (p', fr, PStopHeartbeat).
Proof.
  intros Hl. simpl. unfold record_end.
  destruct (_ && _); [|by exists p, []; rewrite app_nil_r].
  destruct (err fr) as [t|].
  - exists (emit (EvRecordEnd (pluginExecID fr) "failed" t) p), [EvRecordEnd (pluginExecID fr) "failed" t].
    by split; [|split; [apply logged_emit|]].
  - exists (emit (EvRecordEnd (pluginExecID fr) "completed" "") p),
      [EvRecordEnd (pluginExecID fr) "completed" ""].
    by split; [|split; [apply logged_emit|]].
Qed.

(** The phases between the payload and its outcome. *)
Lemma outcome_phases fr r p0 p n evs :
  stop fr = heartbeat_of r p0 -> logged p0 p (beating r p0) evs ->
  exists p' evs', quiet evs' /\ logged p0 p' (hbs p0) (evs ++ evs') /\
    phases (3 + n) PRecordEnd fr p =
      phases n PReleaseStep fr
        (match err fr with Some t => failure_path durationMs execClient t (req fr) p'
                         | None => success_path durationMs execClient (req fr) p' end).
Proof.
  intros Hst Hl. destruct (record_end_phase fr p0 p _ evs Hl) as (q & evs' & Hq & Hl' & E).
  exists (stopHeartbeat (heartbeat_of r p0) q), evs'. split; [done|].
  split; [by apply logged_stopped|]. change (3 + n)%nat with (S (S (S n))).
  rewrite run_phases_S, E by done. simpl fst. simpl snd.
  do 2 (rewrite run_phases_S by done; simpl fst; simpl snd).
  simpl. unfold report_outcome. rewrite Hst. by destruct (err fr).
Qed.

(** The outcome of a payload that returned. *)
Lemma outcome_ledger r e p0 p hb evs :
  logged p0 p hb evs -> executions evs = [(jobType r, executionID (final_request r))] ->
  completions evs = [] -> failures evs = [] ->
  let x := final_request r in
  let q := match e with Some t => failure_path durationMs execClient t x p
                      | None => success_path durationMs execClient x p end in
  ledger r p0 (match e with Some t => Failed t | None => Completed end) q /\
  unclaimed p0 q /\ hbs q = hb.
Proof.
  destruct (final_request_fields r) as (Hj & _). unfold ledger, failure_path, success_path, reported.
  cbv zeta. rewrite Hj. intros -> He Hc Hf.
  destruct e as [t|]; destruct (has_client execClient); simpl;
    try destruct (nonempty (jobID r)) eqn:Ej;
    try destruct (nonempty (executionID (final_request r))) eqn:Ex; simpl;
    (split; [|done]); (eexists; split; [by rewrite <- ?app_assoc|]);
    unfold executions, completions, failures in *; rewrite ?omap_app, ?He, ?Hc, ?Hf; simpl; done.
Qed.

Lemma run_suffix r i p0 p :
  lease_refusal r p0 = None -> missing_execution_id r = false ->
  quietly p0 p (beating r p0) ->
  exists p' fr, phases 6 PRun (ready r i p0) p = Some (p', fr) /\
    panicked fr = (match verdict_of r p0 with Crashed => true | _ => false end) /\
    released r p0 p' /\ ledger r p0 (verdict_of r p0) p' /\ hbs p' = hbs_after r p0.
Proof.
  intros Hl Hm (evs & (He & Hc & Hf) & Hlog).
  destruct (final_request_fields r) as (Hj & Hs & _ & Ht & Hp).
  unfold verdict_of. rewrite Hl, Hm. rewrite run_phases_S by done. cbn [exec_phase]. unfold run_payload.
  assert (Hhb : hbs_after r p0 = match run_job renum h panics (final_request r) with
                                | Panicked => beating r p0 | _ => hbs p0 end).
  { unfold hbs_after, leaks_heartbeat, beating. rewrite Hl, Hm.
    by destruct (reported r), (run_job renum h panics (final_request r)). }
  change (req (ready r i p0)) with (final_request r). rewrite Ht, Hp.
  set (ev := EvExecuteJob _ _ _). pose proof (logged_emit _ _ _ _ ev Hlog) as Hlog'.
  assert (Hx : executions (evs ++ [ev]) = [(jobType r, executionID (final_request r))] /\
               completions (evs ++ [ev]) = [] /\ failures (evs ++ [ev]) = []).
  { unfold executions, completions, failures in *. by rewrite !omap_app, He, Hc, Hf. }
  destruct Hx as (He' & Hc' & Hf').
  destruct (run_job renum h panics (final_request r)) as [e|] eqn:Hrun; cbn [fst snd].
  - destruct (outcome_phases (set_err e (ready r i p0)) r p0 _ 2 _ eq_refl Hlog')
      as (q & evs' & (Hq1 & Hq2 & Hq3) & Hlq & E).
    change 5%nat with (3 + 2)%nat. rewrite E. simpl err. simpl req.
    destruct (outcome_ledger r e p0 q (hbs p0) _ Hlq) as (Hled & Hun & Hh);
      try (unfold executions, completions, failures in *;
           by rewrite omap_app, ?He', ?Hc', ?Hf', ?Hq1, ?Hq2, ?Hq3).
    edestruct (settles r p0 0 (set_err e (ready r i p0))) as (p' & E' & Hrest);
      [exact Hj|exact Hs|exact Hun|exact Hled|by rewrite Hhb|].
    exists p', (set_err e (ready r i p0)). rewrite E'. by destruct e.
  - edestruct (settles r p0 3 (set_panicked (ready r i p0)) (emit ev p) Crashed) as (p' & E' & Hrest);
      [exact Hj|exact Hs|by rewrite Hlog'| |by rewrite Hhb, Hlog'|].
    { exists (evs ++ [ev]). repeat split; try assumption; by rewrite Hlog'. }
    exists p', (set_panicked (ready r i p0)). by rewrite E'.
Qed.

Lemma executeJobSafe_settles r p :
  exists p' fr, phases exec_fuel PVerify (initial_frame r) p = Some (p', fr) /\
    panicked fr = (match verdict_of r p with Crashed => true | _ => false end) /\
    released r p p' /\ ledger r p (verdict_of r p) p' /\ hbs p' = hbs_after r p.
Proof.
  destruct (final_request_fields r) as (Hj & Hs & _ & Ht & _).
  destruct (lease_refusal r p) as [why|] eqn:Hl.
  - pose proof (verify_lease_phase r (initial_frame r) p eq_refl) as Hv.
    rewrite Hl in Hv. destruct Hv as (Hrep & p1 & (evs & (He & Hc & Hf) & ->) & E).
    change exec_fuel with (S (S (S 9))). rewrite run_phases_S, E by done. cbn [abort fst snd].
    unfold verdict_of. rewrite Hl. set (q := emit _ _).
    destruct (settles r p 9 (initial_frame r) q (Aborted why)) as (p' & -> & H); [done..| | |].
    { eexists. split; [by apply eq_sym, app_assoc|]. unfold executions, completions, failures in *.
      by rewrite !omap_app, He, Hc, Hf, Hrep. }
    { unfold hbs_after, leaks_heartbeat. by rewrite Hl. }
    exists p', (initial_frame r). split; [reflexivity|split; [reflexivity|exact H]].
  - destruct (prefix_phases r p 7 Hl) as (p1 & i & Hq & E). change exec_fuel with (5 + 7)%nat.
    rewrite E. rewrite run_phases_S by done. cbn [exec_phase]. unfold strict_validation.
    cbv zeta. change (req (ready r i p)) with (final_request r).
    rewrite Ht. fold (missing_execution_id r).
    destruct (missing_execution_id r) eqn:Hm.
    2:{ destruct (run_suffix r i p p1 Hl Hm Hq) as (p' & fr & E' & Hres). by exists p', fr. }
    rewrite Hj. fold (reported r). set (q := if reported r then _ else _).
    destruct Hq as (evs & (He & Hc & Hf) & Hlog). unfold logged in Hlog. subst p1.
    assert (Hv : verdict_of r p =
      Aborted "dispatcher: execution_id missing at execution - cannot complete job")
      by (unfold verdict_of; by rewrite Hl, Hm). rewrite Hv.
    destruct (settles r p 4 (ready r i p) q (verdict_of r p)) as (p' & E' & Hres);
      rewrite ?Hv in *; [done|done|subst q; by destruct (reported r)| | |].
    3: exists p', (ready r i p); split; [exact E'|split; [reflexivity|exact Hres]].
    + unfold ledger, executions, completions, failures in *. subst q.
      destruct (reported r); cbn [emit count_failed events totalFailed totalProcessed];
        (eexists; split; [rewrite <- ?app_assoc; reflexivity|]);
        by rewrite ?omap_app, He, Hc, Hf.
    + unfold hbs_after, leaks_heartbeat, beating. rewrite Hl, Hm. subst q. unfold beating.
      by destruct (reported r).
Qed.
End verdicts.

(** ** What a submission amounts to *)

(** The first reason that applies, in the order in which the code looks. *)
Fixpoint first_reason (l : list (bool * string)) : error :=
  match l with
  | [] => None
  | (b, e) :: l => if b then Some e else first_reason l
  end.

Definition queue_of (p : pool) : list jobRequest := default [] (jobQueue p).
Definition queue_full (p : pool) : bool := negb (length (queue_of p) <? DefaultQueueSize)%nat.

Definition full_text : string := "dispatcher: queue full, job dropped".

Definition seen (r : jobRequest) (p : pool) : bool :=
  match globalDedupStore p with Some s => Contains s (now p) (jobID r) | None => false end.

Definition submit_verdict (r : jobRequest) (p : pool) : error :=
  first_reason
    [ (match jobQueue p with None => true | Some _ => false end, "dispatcher: pool not initialized");
      (jobID r =?s "", "dispatcher: job_id is required");
      ((executionID r =?s "") && negb (jobType r =?s "scan_dataset")
         && negb (jobType r =?s "merge_dataset"),
       "dispatcher: execution_id is required for completion");
      (jobType r =?s "", "dispatcher: job_type is required");
      (seen r p, "dispatcher: duplicate job rejected - seen within dedup TTL");
      (bool_decide (jobID r ∈ runningJobs p), "dispatcher: duplicate job rejected - job already running");
      (nonempty (executionStepID r) && bool_decide (executionStepID r ∈ activeJobs p),
       "dispatcher: duplicate job rejected - one active job per execution step");
      (queue_full p, full_text) ].

(** The pool after a job was taken in. *)
Definition accepted (r : jobRequest) (p p' : pool) : Prop :=
  jobQueue p' = Some (queue_of p ++ [r]) /\
  runningJobs p' = {[jobID r]} ∪ runningJobs p /\
  activeJobs p' = (if nonempty (executionStepID r)
                   then {[executionStepID r]} ∪ activeJobs p else activeJobs p) /\
  globalDedupStore p' = (s ← globalDedupStore p; Some (Add s (now p) (jobID r))) /\
  totalFailed p' = totalFailed p.

(** The pool after a job was refused: nothing is left of it. *)
Definition rejected (has_client : bool) (r : jobRequest) (p : pool) (e : string) (p' : pool) : Prop :=
  unclaimed p p' /\ totalProcessed p' = totalProcessed p /\
  totalFailed p' = (if e =?s full_text then int64 (totalFailed p + 1) else totalFailed p) /\
  exists evs, events p' = events p ++ evs /\
    failures evs = (if (e =?s full_text) && has_client then [(jobID r, e)] else []).

Lemma claim_undo (x : string) (X : gset string) : x ∉ X -> ({[x]} ∪ X) ∖ {[x]} = X.
Proof. set_solver. Qed.

Section submit_lemmas.
Context (has_client : bool).
Abbreviation sphase := (submit_phase has_client).
Abbreviation sphases := (run_submit has_client).

Lemma run_submit_S n c r p :
  (forall e, c <> SReturn e) ->
  sphases (S n) c r p = sphases n (sphase c r p).2 r (sphase c r p).1.
Proof.
  intros Hc. destruct c; try (by destruct (Hc e)); cbn [run_submit];
    by destruct (submit_phase _ _ _ _).
Qed.

Ltac submit_step := rewrite run_submit_S by done; cbn [submit_phase fst snd].

(** Both claims taken. *)
Definition claimed (r : jobRequest) (p : pool) : pool :=
  with_activeJobs (if nonempty (executionStepID r)
                   then {[executionStepID r]} ∪ activeJobs p else activeJobs p)
    (with_runningJobs ({[jobID r]} ∪ runningJobs p) p).

(** With both claims taken, the queue decides. *)
Lemma measured n r p0 :
  jobQueue p0 <> None -> nonempty (jobID r) = true -> jobID r ∉ runningJobs p0 ->
  (nonempty (executionStepID r) = true -> executionStepID r ∉ activeJobs p0) ->
  exists p', sphases (5 + n) SMeasure r (claimed r p0) =
      Some (p', if queue_full p0 then Some full_text else None) /\
    if queue_full p0 then rejected has_client r p0 full_text p' else accepted r p0 p'.
Proof.
  intros Hq Hj Hjr Hst. unfold claimed. destruct p0 as [[q|] a0 r0 d0 tp0 tf0 bp0 ps0 h0 now0 ev0]; [|done].
  clear Hq. cbn [jobQueue runningJobs activeJobs] in *. unfold queue_full, queue_of. cbn [jobQueue default].
  change (5 + n)%nat with (S (S (S (S (S n))))). submit_step. unfold measure. cbn [fst snd].
  set (evs := if high_water q && bp0 && ps0 then [EvPauseSSE] else []).
  set (p := mkPool (Some q) (if nonempty (executionStepID r) then {[executionStepID r]} ∪ a0 else a0)
              ({[jobID r]} ∪ r0) d0 tp0 tf0 bp0 ps0 h0 now0 (ev0 ++ evs)).
  match goal with |- context [sphases _ SEnqueue r ?x] => replace x with p end.
  2:{ subst p evs. cbn. destruct (high_water q && bp0 && ps0); cbn; [done|by rewrite app_nil_r]. }
  assert (Hevs : failures evs = []) by (subst evs; by destruct (_ && _)).
  submit_step. unfold enqueue. cbn [jobQueue p default fst snd].
  unfold id. destruct (length q <? DefaultQueueSize)%nat; cbn [negb fst snd].
  - submit_step. unfold dedup_add. cbn. rewrite Hj.
    by destruct d0 as [d|]; (eexists; split; [destruct n; reflexivity|repeat split]).
  - do 3 submit_step. unfold drop_report, delete_active, delete_running. rewrite Hj, andb_true_r.
    eexists. split; [by destruct n|]. unfold rejected, unclaimed. subst p.
    assert (Hevs' : exists evs', events (mkPool (Some q) a0 r0 d0 tp0 tf0 bp0 ps0 h0 now0
        (if has_client then (ev0 ++ evs) ++ [EvReportJobFailure (jobID r) full_text] else ev0 ++ evs))
        = ev0 ++ evs' /\ failures evs' = if has_client then [(jobID r, full_text)] else []).
    { cbn. destruct has_client; [|by exists evs]. eexists. rewrite <- app_assoc. split; [done|].
      unfold failures in *. by rewrite omap_app, Hevs. }
    destruct (nonempty (executionStepID r)) eqn:Es; cbn [with_runningJobs with_activeJobs jobQueue
      activeJobs runningJobs]; rewrite ?claim_undo by auto; destruct has_client;
      (split; [repeat split|split; [reflexivity|split; [reflexivity|exact Hevs']]]).
Qed.

Lemma SubmitJob_settles r p :
  exists p', SubmitJobWithMeta has_client r p = Some (p', submit_verdict r p) /\
    match submit_verdict r p with
    | None => accepted r p p'
    | Some e => rejected has_client r p e p'
    end.
Proof.
  unfold SubmitJobWithMeta. assert (Hsame : forall e, e <> full_text -> rejected has_client r p e p).
  { intros e He. unfold rejected. rewrite (eqb_neq_s _ _ He). repeat split; try done.
    exists []. by rewrite app_nil_r. }
  unfold submit_verdict. change submit_fuel with (S (S (S (S 5)))). cbn [first_reason].
  submit_step. unfold validate_submission.
  destruct (jobQueue p) as [q|] eqn:Hq; [|by exists p; split; [|apply Hsame]].
  destruct (jobID r =?s "") eqn:Ej; [by exists p; split; [|apply Hsame]|].
  destruct (_ && negb _ && negb _); [by exists p; split; [|apply Hsame]|].
  destruct (jobType r =?s "") eqn:Et; [by exists p; split; [|apply Hsame]|].
  assert (Hj : nonempty (jobID r) = true) by (unfold nonempty; by rewrite Ej).
  cbn [fst snd]. submit_step.
  assert (Hdedup : check_dedup r p = (p, if seen r p then
            SReturn (Some "dispatcher: duplicate job rejected - seen within dedup TTL") else SClaimJob)).
  { unfold check_dedup, seen. rewrite Hj. destruct (globalDedupStore p) as [d|]; [|done].
    simpl. by destruct (Contains d (now p) (jobID r)). }
  rewrite Hdedup. destruct (seen r p); [by exists p; split; [|apply Hsame]|].
  cbn [fst snd]. submit_step. unfold claim_job. rewrite Hj, decide_bool_decide.
  destruct (bool_decide_reflect (jobID r ∈ runningJobs p)) as [Hin|Hout];
    [by exists p; split; [|apply Hsame]|].
  cbn [fst snd]. submit_step. unfold claim_step. rewrite decide_bool_decide.
  change (activeJobs (with_runningJobs ({[jobID r]} ∪ runningJobs p) p)) with (activeJobs p).
  destruct (nonempty (executionStepID r)) eqn:Es; cbn [andb].
  - destruct (bool_decide_reflect (executionStepID r ∈ activeJobs p)) as [Hins|Houts]; cbn [fst snd].
    + exists p. split; [|by apply Hsame]. submit_step. unfold undo_job, delete_running. rewrite Hj.
      cbn [fst snd run_submit with_runningJobs runningJobs]. rewrite claim_undo by done.
      by destruct p.
    + destruct (measured 0 r p) as (p' & E & H); [by rewrite Hq|done..|].
      unfold claimed in E. rewrite Es in E. change (5 + 0)%nat with 5%nat in E. exists p'. rewrite E. by destruct (queue_full p).
  - cbn [fst snd]. destruct (measured 0 r p) as (p' & E & H); [by rewrite Hq|done..|by rewrite Es|].
    unfold claimed in E. rewrite Es in E. change (5 + 0)%nat with 5%nat in E. exists p'.
    assert (Hid : forall x, with_activeJobs (activeJobs p) (with_runningJobs x p) = with_runningJobs x p)
      by (by destruct p).
    rewrite Hid in E. rewrite E. by destruct (queue_full p).
Qed.
End submit_lemmas.

(** ** Properties *)

(** C4.  [SubmitJobWithMeta] always returns, with the first reason for
    refusal that applies, if any.  An accepted job is at the end of the queue,
    holds its claims and is in the dedup store; a refused one leaves the queue,
    the claims and the store as they were, and only a full queue is counted as a
    failure and reported. *)
Theorem SubmitJobWithMeta_correct (has_client : bool) (r : jobRequest) (p : pool) :
  exists p', SubmitJobWithMeta has_client r p = Some (p', submit_verdict r p) /\
    match submit_verdict r p with
    | None => accepted r p p'
    | Some e => rejected has_client r p e p'
    end.
Proof. apply SubmitJob_settles. Qed.

(** C3.  [executeJobSafe] always finishes, and does what the job's verdict
    says: a job that is refused before it runs, fails, or completes is counted
    exactly once, and the backend gets exactly the failure report and the
    completion that belong to it; a panic costs the worker and is neither
    counted nor reported; the job's claims are released in every case; and the
    heartbeat survives exactly the jobs that [leaks_heartbeat] names. *)
Theorem executeJobSafe_correct (renum : string -> string) (h : Handlers)
    (panics : string -> RawMessage -> string -> bool) (durationMs : list event -> Z)
    (execClient : option ExecutionClient) (r : jobRequest) (p : pool) :
  let v := verdict_of renum h panics execClient r p in
  exists p', executeJobSafe renum h panics durationMs execClient r p =
      Some (p', match v with Crashed => false | _ => true end) /\
    released r p p' /\ ledger execClient r p v p' /\
    hbs p' = if leaks_heartbeat renum h panics execClient r p
             then {[jobID r]} ∪ hbs p else hbs p.
Proof.
  intros v. destruct (executeJobSafe_settles renum h panics durationMs execClient r p)
    as (p' & fr & E & Hpan & H). exists p'. unfold executeJobSafe. rewrite E, Hpan.
  split; [by destruct (verdict_of _ _ _ _ _ _)|exact H].
Qed.

Definition empty_pool : pool :=
  mkPool (Some []) ∅ ∅ None 0 0 true true ∅ 0 [].

(** A [merge_dataset] job without an execution id, which the
    submission accepts as a background task, can only fail: when its turn comes
    [executeJobSafe] aborts it before it runs, and if the backend is there and
    the lease is good, its heartbeat goes on forever. *)
Theorem merge_without_execution_id_doomed (renum : string -> string) (h : Handlers)
    (panics : string -> RawMessage -> string -> bool) (durationMs : list event -> Z)
    (execClient : option ExecutionClient) (r : jobRequest) (p : pool) :
  jobType r = "merge_dataset" -> executionID r = "" -> payload_execution_id (payload r) = "" ->
  jobID r <> "" -> jobQueue p = Some [] -> seen r p = false ->
  jobID r ∉ runningJobs p -> executionStepID r ∉ activeJobs p ->
  exists p1 p2, SubmitJobWithMeta (has_client execClient) r p = Some (p1, None) /\
    jobQueue p1 = Some [r] /\
    executeJobSafe renum h panics durationMs execClient r p1 = Some (p2, true) /\
    totalFailed p2 = int64 (totalFailed p1 + 1) /\
    (exists evs, events p2 = events p1 ++ evs /\ executions evs = [] /\ completions evs = []) /\
    (reported execClient r = true -> lease_refusal execClient r p1 = None ->
     jobID r ∈ hbs p2).
Proof.
  intros Ht Hx Hpx Hj Hq Hseen Hr Ha.
  assert (Hv : submit_verdict r p = None).
  { unfold submit_verdict, queue_full, queue_of. rewrite Hq, Ht, Hx, Hseen. cbn.
    rewrite (eqb_neq_s _ _ Hj), !bool_decide_false by done. by rewrite andb_false_r. }
  destruct (SubmitJob_settles (has_client execClient) r p) as (p1 & E1 & Hacc).
  rewrite Hv in E1, Hacc. destruct Hacc as (Hq1 & _).
  destruct (executeJobSafe_settles renum h panics durationMs execClient r p1)
    as (p2 & fr & E2 & Hpan & _ & Hled & Hhb).
  assert (Hm : missing_execution_id r = true).
  { unfold missing_execution_id, final_request. by rewrite Hpx, Ht; cbn; rewrite Hx. }
  assert (Hab : exists why, verdict_of renum h panics execClient r p1 = Aborted why).
  { unfold verdict_of. rewrite Hm. destruct (lease_refusal _ _ _); eauto. }
  destruct Hab as (why & Hab). rewrite Hab in Hpan, Hled.
  destruct Hled as (evs & Hev & Htf & _ & Hexe & Hcom & _).
  exists p1, p2. split; [exact E1|]. split; [by rewrite Hq1; unfold queue_of; rewrite Hq|].
  split; [unfold executeJobSafe; by rewrite E2, Hpan|]. split; [done|].
  split; [by exists evs|]. intros Hrep Hl. rewrite Hhb.
  unfold hbs_after, leaks_heartbeat. rewrite Hl, Hrep, Hm. cbn [andb orb]. apply elem_of_union_l, elem_of_singleton_2; reflexivity.
Qed.

Definition willing : ExecutionClient :=
  mkClient (fun _ j => Ok (mkLease j "running" "agent" true)) (fun _ _ _ _ => ("pe-1", None)).

Definition merge_request : jobRequest :=
  mkReq "merge_dataset" (Raw (JObj [("dataset_id", JStr "ds")])) "job-1" "org" "" "step-1" "".

Lemma merge_without_execution_id_doomed_witness :
  exists p1 p2, SubmitJobWithMeta true merge_request empty_pool = Some (p1, None) /\
    executeJobSafe id idle_handlers (fun _ _ _ => false) (fun _ => 5) (Some willing)
      merge_request p1 = Some (p2, true) /\ "job-1" ∈ hbs p2.
Proof.
  destruct (merge_without_execution_id_doomed id idle_handlers (fun _ _ _ => false) (fun _ => 5)
    (Some willing) merge_request empty_pool eq_refl eq_refl ltac:(vm_compute; reflexivity)
    ltac:(discriminate) eq_refl eq_refl ltac:(vm_compute; intros H; discriminate H)
    ltac:(vm_compute; intros H; discriminate H))
    as (p1 & p2 & H1 & _ & H2 & _ & _ & H3).
  exists p1, p2. split; [exact H1|]. split; [exact H2|].
  exact (H3 eq_refl eq_refl).
Defined.

Lemma send_resize_eq d w :
  send_resize d w =
    mkWorkers (activeWorkers w - Z.of_nat (min d (waiting w))) (maxWorkers w)
      (waiting w - min d (waiting w)).
Proof.
  revert w. induction d as [|d IH]; intros [a m k]; cbn [send_resize].
  - cbn. f_equal; lia.
  - destruct k as [|k]; cbn [waiting activeWorkers maxWorkers]; rewrite IH;
      cbn [waiting activeWorkers maxWorkers]; f_equal; lia.
Qed.

(** [SetMaxWorkers] grows the pool to the size it is asked for; a shrink
    stops only the workers that wait at that moment, records the new size all the
    same, and cannot be repeated: asking for the same size again does nothing. *)
Theorem SetMaxWorkers_overshoots (newCount : Z) (w : workers) :
  0 < newCount < 2 ^ 31 -> 0 < maxWorkers w ->
  let w' := SetMaxWorkers newCount w in
  maxWorkers w' = newCount /\ SetMaxWorkers newCount w' = w' /\
  activeWorkers w' =
    (if maxWorkers w <? newCount then activeWorkers w + (newCount - maxWorkers w)
     else activeWorkers w - Z.min (maxWorkers w - newCount) (Z.of_nat (waiting w))).
Proof.
  intros Hn Hm. assert (Hi : int32 newCount = newCount)
    by (unfold int32; rewrite Z.mod_small; lia).
  assert (Hmax : maxWorkers (SetMaxWorkers newCount w) = newCount).
  { unfold SetMaxWorkers. destruct (Z.leb_spec newCount 0); [lia|]. cbv zeta.
    destruct (Z.eqb_spec newCount (maxWorkers w)); [done|]. simpl. by rewrite Hi. }
  cbv zeta. split; [done|]. split.
  { unfold SetMaxWorkers at 1. destruct (Z.leb_spec newCount 0); [lia|]. cbv zeta.
    by rewrite Hmax, Z.eqb_refl. }
  unfold SetMaxWorkers. destruct (Z.leb_spec newCount 0); [lia|]. cbv zeta.
  destruct (Z.eqb_spec newCount (maxWorkers w)) as [->|Hne].
  - rewrite Z.ltb_irrefl. lia.
  - destruct (Z.ltb_spec (maxWorkers w) newCount); [done|].
    rewrite send_resize_eq. simpl. lia.
Qed.

(** Eight workers, two of them waiting, are shrunk to four: six go on. *)
Lemma SetMaxWorkers_overshoots_witness :
  let w := SetMaxWorkers 4 (mkWorkers 8 8 2) in
  activeWorkers w = 6 /\ maxWorkers w = 4 /\ SetMaxWorkers 4 w = w.
Proof.
  destruct (SetMaxWorkers_overshoots 4 (mkWorkers 8 8 2) ltac:(lia) ltac:(simpl; lia))
    as (Hm & Hid & Ha).
  split; [exact Ha|]. split; [exact Hm|exact Hid].
Defined.

(** The floating-point water marks are exact at every length the
    queue can have: pausing starts above 102 queued jobs, resuming below 64, so
    the two never apply together. *)
Theorem backpressure_watermarks (p : pool) (q : list jobRequest) :
  jobQueue p = Some q -> (length q <= DefaultQueueSize)%nat ->
  high_water q = (102 <? length q)%nat /\ ShouldResumeSSE p = (length q <? 64)%nat.
Proof.
  intros Hq Hlen. unfold ShouldResumeSSE, QueueUtilization. rewrite Hq.
  unfold high_water, queue_util. generalize dependent (length q). clear. intros n Hn.
  assert (Hall : forallb (fun k =>
    Bool.eqb (f64_lt HighWaterMarkPercent (f64_div (f64_of_Z (Z.of_nat k))
                (f64_of_Z (Z.of_nat DefaultQueueSize)))) (102 <? k)%nat &&
    Bool.eqb (f64_lt (f64_div (f64_of_Z (Z.of_nat k)) (f64_of_Z (Z.of_nat DefaultQueueSize)))
                LowWaterMarkPercent) (k <? 64)%nat) (seq 0 (S DefaultQueueSize)) = true)
    by (vm_compute; reflexivity).
  rewrite forallb_forall in Hall. specialize (Hall n). rewrite <- list_elem_of_In, elem_of_seq in Hall.
  apply andb_prop in Hall as [H1 H2]; [|lia]. by apply Bool.eqb_prop in H1, H2.
Qed.

Lemma backpressure_watermarks_witness :
  ShouldResumeSSE empty_pool = true /\ high_water (replicate 103 merge_request) = true.
Proof.
  split; [apply (backpressure_watermarks empty_pool []); [reflexivity|simpl; lia]|].
  rewrite (proj1 (backpressure_watermarks (with_queue (replicate 103 merge_request) empty_pool)
    (replicate 103 merge_request) eq_refl ltac:(vm_compute; lia))). reflexivity.
Defined.
