(* ===== verification/Dispatch.v ===== *)
(** * Dispatch: submitters and workers, interleaved

    The goroutines that submit jobs and the workers that execute them share the
    dispatcher's variables.  A state of the system is the shared [pool] with the
    program counters of all of them; one step runs one atomic section
    ([submit_phase], [exec_phase]) of one goroutine, or starts or stops a
    goroutine, or lets time pass, or runs the dedup store's background tasks.
    The invariants hold in every reachable state, whatever the scheduler does. *)
From S2P Require Import Prelude Json Backend JobDedup ExecuteJob WorkerPool.

Inductive worker := Idle | Busy (c : pc) (fr : frame) | Gone.

Record sys := mkSys { pl : pool; subs : list (spc * jobRequest); wks : list worker }.

Inductive action :=
  | ASubmit (r : jobRequest)
  | ASub (i : nat)
  | ATake (i : nat)
  | AWork (i : nat)
  | ASpawn
  | AExit (i : nat)
  | ATick (d : Z)
  | ACleanup
  | ASnapshot.

Section system.
Context (renum : string -> string) (h : Handlers).
Context (panics : string -> RawMessage -> string -> bool) (durationMs : list event -> Z).
Context (execClient : option ExecutionClient).
Context (sortSlice : list (string * Z) -> list (string * Z)).

Definition background (f : JobDeduplicationStore -> JobDeduplicationStore) (p : pool) : pool :=
  match globalDedupStore p with Some s => with_dedup (Some (f s)) p | None => p end.

(** A submitter's next section; a submitter that returned has none. *)
Definition act_sub (i : nat) (s : sys) : option sys :=
  match subs s !! i with
  | Some (SReturn _, _) | None => None
  | Some (c, r) =>
      let '(p, c') := submit_phase (has_client execClient) c r (pl s) in
      Some (mkSys p (<[i := (c', r)]> (subs s)) (wks s))
  end.

(** A worker in its [select] receives from the queue. *)
Definition act_take (i : nat) (s : sys) : option sys :=
  match wks s !! i, jobQueue (pl s) with
  | Some Idle, Some (r :: q) =>
      Some (mkSys (with_queue q (pl s)) (subs s)
              (<[i := Busy PVerify (initial_frame r)]> (wks s)))
  | _, _ => None
  end.

(** A worker's next section; a panic that reached the worker's own deferred
    function ends the goroutine. *)
Definition act_work (i : nat) (s : sys) : option sys :=
  match wks s !! i with
  | Some (Busy PDone fr) =>
      Some (mkSys (pl s) (subs s) (<[i := if panicked fr then Gone else Idle]> (wks s)))
  | Some (Busy c fr) =>
      let '(p, fr', c') := exec_phase renum h panics durationMs execClient c fr (pl s) in
      Some (mkSys p (subs s) (<[i := Busy c' fr']> (wks s)))
  | _ => None
  end.

Definition act (a : action) (s : sys) : option sys :=
  match a with
  | ASubmit r => Some (mkSys (pl s) (subs s ++ [(SCheck, r)]) (wks s))
  | ASub i => act_sub i s
  | ATake i => act_take i s
  | AWork i => act_work i s
  | ASpawn => Some (mkSys (pl s) (subs s) (wks s ++ [Idle]))
  | AExit i =>
      match wks s !! i with
      | Some Idle => Some (mkSys (pl s) (subs s) (<[i := Gone]> (wks s)))
      | _ => None
      end
  | ATick d => if d <? 0 then None
               else Some (mkSys (with_now (now (pl s) + d) (pl s)) (subs s) (wks s))
  | ACleanup =>
      Some (mkSys (background (fun d => with_jobs d
                     (cleanup_jobs sortSlice (now (pl s)) (jobs d)).1) (pl s)) (subs s) (wks s))
  | ASnapshot => Some (mkSys (background (fun d => with_snapshot d None) (pl s)) (subs s) (wks s))
  end.

Definition step (s s' : sys) : Prop := exists a, act a s = Some s'.

(** A freshly initialized pool, with no goroutine yet. *)
Definition initial (s : sys) : Prop :=
  subs s = [] /\ wks s = [] /\ jobQueue (pl s) = Some [] /\
  activeJobs (pl s) = ∅ /\ runningJobs (pl s) = ∅.

Definition reachable (s : sys) : Prop := exists s0, initial s0 /\ rtc step s0 s.

(** A schedule is a list of actions. *)
Fixpoint run_schedule (l : list action) (s : sys) : option sys :=
  match l with
  | [] => Some s
  | a :: l => match act a s with Some s => run_schedule l s | None => None end
  end.

Lemma run_schedule_rtc l s s' : run_schedule l s = Some s' -> rtc step s s'.
Proof.
  revert s. induction l as [|a l IH]; intros s; simpl; [intros [= ->]; done|].
  destruct (act a s) as [s1|] eqn:E; [|done]. intros H.
  eapply rtc_l; [by exists a|by apply IH].
Qed.

(** ** Claims *)

(** A set and the list of those who hold its members, each member once. *)
Definition coherent (X : gset string) (l : list string) : Prop :=
  NoDup l /\ forall x, x ∈ l <-> x ∈ X.

#[local] Instance pc_eq_dec : EqDecision pc.
Proof. solve_decision. Defined.

#[local] Instance coherent_proper : Proper (eq ==> (≡ₚ) ==> iff) coherent.
Proof.
  intros X _ <- l l' Hl. unfold coherent. rewrite Hl. split; intros [Hn H]; (split; [done|]);
    intros x; [rewrite <- H, Hl|rewrite <- H, <- Hl]; done.
Qed.

Lemma coherent_add X l x : x ∉ X -> coherent X l -> coherent ({[x]} ∪ X) (x :: l).
Proof. intros Hx [Hn H]. split; [apply NoDup_cons; by rewrite H|]. intros y. set_solver. Qed.

Lemma coherent_remove X l x : coherent X (x :: l) -> coherent (X ∖ {[x]}) l.
Proof.
  intros [[Hx Hn]%NoDup_cons H]. split; [done|]. intros y. specialize (H y). set_solver.
Qed.

Section keys.
(** What a job claims, and where submitters and workers hold the claim. *)
Context (key : jobRequest -> list string) (hs : spc -> bool) (hw : pc -> bool).

Definition sub_claims (cr : spc * jobRequest) : list string := if hs cr.1 then key cr.2 else [].
Definition wk_claims (w : worker) : list string :=
  match w with Busy c fr => if hw c then key (req fr) else [] | _ => [] end.

Definition claims (s : sys) : list string :=
  (subs s ≫= sub_claims) ++ (queue_of (pl s) ≫= key) ++ (wks s ≫= wk_claims).

Lemma bind_insert {A} (f : A -> list string) l i x y :
  l !! i = Some x -> exists rest, l ≫= f ≡ₚ f x ++ rest /\ <[i := y]> l ≫= f ≡ₚ f y ++ rest.
Proof.
  intros Hl. exists ((take i l ≫= f) ++ (drop (S i) l ≫= f)). split.
  - rewrite <- (take_drop_middle l i x Hl) at 1. rewrite bind_app. simpl.
    rewrite !(assoc (++)). by rewrite (comm (++) (f x)).
  - rewrite insert_take_drop by (by eapply lookup_lt_Some). rewrite bind_app. simpl.
    rewrite !(assoc (++)). by rewrite (comm (++) (f y)).
Qed.

(** Two places of a list cannot hold the same member. *)
Lemma bind_NoDup_distinct {A} (f : A -> list string) l i j a b x :
  NoDup (l ≫= f) -> l !! i = Some a -> l !! j = Some b -> x ∈ f a -> x ∈ f b -> i = j.
Proof.
  revert i j. induction l as [|y l IH]; intros i j Hn Hi Hj Ha Hb; [done|].
  simpl in Hn. apply NoDup_app in Hn as (_ & Hdis & Hn).
  assert (Hin : forall k c, l !! k = Some c -> x ∈ f c -> x ∈ l ≫= f).
  { intros k c Hk Hc. apply list_elem_of_bind. exists c. split; [done|]. by eapply list_elem_of_lookup_2. }
  destruct i as [|i], j as [|j]; simpl in *; simplify_eq; [done| | |].
  - by destruct (Hdis x); eauto.
  - by destruct (Hdis x); eauto.
  - f_equal. eauto.
Qed.

(** One section of a submitter, or of a worker, keeps a claim coherent. *)
Definition sub_keeps (X : pool -> gset string) : Prop := forall c r p rest,
  coherent (X p) (sub_claims (c, r) ++ (queue_of p ≫= key) ++ rest) ->
  let '(p', c') := submit_phase (has_client execClient) c r p in
  coherent (X p') (sub_claims (c', r) ++ (queue_of p' ≫= key) ++ rest).

Definition work_keeps (X : pool -> gset string) : Prop := forall c fr p rest,
  coherent (X p) (wk_claims (Busy c fr) ++ (queue_of p ≫= key) ++ rest) ->
  let '(p', fr', c') := exec_phase renum h panics durationMs execClient c fr p in
  coherent (X p') (wk_claims (Busy c' fr') ++ (queue_of p' ≫= key) ++ rest).

Lemma sub_step (X : pool -> gset string) i s s' :
  sub_keeps X -> act_sub i s = Some s' ->
  coherent (X (pl s)) (claims s) -> coherent (X (pl s')) (claims s').
Proof.
  intros Hk. unfold act_sub. destruct (subs s !! i) as [[c r]|] eqn:Hi; [|done].
  specialize (Hk c r (pl s)). destruct (submit_phase _ c r (pl s)) as [p' c'] eqn:E.
  intros Ha. assert (s' = mkSys p' (<[i := (c', r)]> (subs s)) (wks s)) as -> by (destruct c; congruence).
  destruct (bind_insert sub_claims (subs s) i (c, r) (c', r) Hi) as (rest & E1 & E2).
  unfold claims. simpl. rewrite E1, E2, <- !(assoc (++)). intros Hc.
  rewrite (assoc (++) rest), (comm (++) rest), <- (assoc (++)) in Hc |- *.
  by apply Hk.
Qed.

Lemma work_step (X : pool -> gset string) i s s' :
  work_keeps X -> hw PDone = false -> act_work i s = Some s' ->
  coherent (X (pl s)) (claims s) -> coherent (X (pl s')) (claims s').
Proof.
  intros Hk Hd. unfold act_work. destruct (wks s !! i) as [[|c fr|]|] eqn:Hi; [done| |done..].
  specialize (Hk c fr (pl s)).
  destruct (exec_phase _ _ _ _ _ c fr (pl s)) as [[p' fr'] c'] eqn:E. intros Ha.
  assert (Hcase : (c = PDone /\ s' = mkSys (pl s) (subs s)
                     (<[i := if panicked fr then Gone else Idle]> (wks s))) \/
                  s' = mkSys p' (subs s) (<[i := Busy c' fr']> (wks s)))
    by (destruct c; [right; congruence..|left; split; congruence]).
  unfold claims. destruct Hcase as [[-> ->]| ->]; simpl.
  - destruct (bind_insert wk_claims (wks s) i _ (if panicked fr then Gone else Idle) Hi)
      as (rest & E1 & E2). rewrite E1, E2. simpl. rewrite Hd. by destruct (panicked fr).
  - destruct (bind_insert wk_claims (wks s) i _ (Busy c' fr') Hi) as (rest & E1 & E2).
    rewrite E1, E2. intros Hc. specialize (Hk ((subs s ≫= sub_claims) ++ rest)).
    assert (Hperm : forall a b c d : list string, a ++ b ++ c ++ d ≡ₚ c ++ b ++ a ++ d)
      by (intros; solve_Permutation).
    rewrite Hperm in Hc |- *. by apply Hk.
Qed.

Lemma take_step (X : pool -> gset string) i s s' :
  (forall q p, X (with_queue q p) = X p) -> hw PVerify = true -> act_take i s = Some s' ->
  coherent (X (pl s)) (claims s) -> coherent (X (pl s')) (claims s').
Proof.
  intros HX Hv. unfold act_take. destruct (wks s !! i) as [[| |]|] eqn:Hi; [|done..].
  destruct (jobQueue (pl s)) as [[|r q]|] eqn:Hq; [done| |done]. intros [= <-].
  destruct (bind_insert wk_claims (wks s) i Idle (Busy PVerify (initial_frame r)) Hi)
    as (rest & E1 & E2).
  unfold claims, queue_of. simpl. rewrite HX, Hq, E1, E2. simpl. rewrite Hv.
  assert (Hperm : forall a b c d : list string, a ++ (b ++ c) ++ d ≡ₚ a ++ c ++ b ++ d)
    by (intros; solve_Permutation). by rewrite Hperm.
Qed.
End keys.

(** What makes a set of claims trustworthy. *)
Class ClaimDiscipline (key : jobRequest -> list string) (hs : spc -> bool) (hw : pc -> bool)
    (X : pool -> gset string) := {
  cd_check : hs SCheck = false;
  cd_verify : hw PVerify = true;
  cd_done : hw PDone = false;
  cd_queue : forall q p, X (with_queue q p) = X p;
  cd_now : forall t p, X (with_now t p) = X p;
  cd_dedup : forall d p, X (with_dedup d p) = X p;
  cd_sub : sub_keeps key hs X;
  cd_work : work_keeps key hw X;
}.

Lemma background_same `{!ClaimDiscipline key hs hw X} f p :
  X (background f p) = X p /\ queue_of (background f p) = queue_of p.
Proof. unfold background. destruct (globalDedupStore p); [by rewrite cd_dedup|done]. Qed.

Lemma step_coherent `{!ClaimDiscipline key hs hw X} s s' :
  step s s' -> coherent (X (pl s)) (claims key hs hw s) ->
  coherent (X (pl s')) (claims key hs hw s').
Proof.
  intros [a Ha]. destruct a as [r|i|i|i| |i|d| |]; simpl in Ha.
  - simplify_eq. unfold claims. simpl. rewrite bind_app. simpl.
    unfold sub_claims at 3. simpl. by rewrite cd_check, app_nil_r.
  - eapply sub_step; [apply cd_sub|done].
  - eapply take_step; [apply cd_queue|apply cd_verify|done].
  - eapply work_step; [apply cd_work|apply cd_done|done].
  - simplify_eq. unfold claims. simpl. by rewrite bind_app, !app_nil_r.
  - destruct (wks s !! i) as [[| |]|] eqn:Hi; simplify_eq.
    destruct (bind_insert (wk_claims key hw) (wks s) i Idle Gone Hi) as (rest & E1 & E2).
    unfold claims. simpl. by rewrite E1, E2.
  - destruct (d <? 0); simplify_eq. unfold claims. simpl. by rewrite cd_now.
  - simplify_eq. unfold claims. simpl. edestruct background_same as [-> ->]. done.
  - simplify_eq. unfold claims. simpl. edestruct background_same as [-> ->]. done.
Qed.

(** An invariant of the initial states that every step keeps. *)
Lemma reachable_invariant (I : sys -> Prop) s :
  (forall s0, initial s0 -> I s0) -> (forall s1 s2, step s1 s2 -> I s1 -> I s2) ->
  reachable s -> I s.
Proof.
  intros H0 Hstep (s0 & Hinit & Hsteps). specialize (H0 _ Hinit).
  clear Hinit. induction Hsteps; eauto.
Qed.

Lemma reachable_coherent `{!ClaimDiscipline key hs hw X} s :
  (forall s0, initial s0 -> X (pl s0) = ∅) -> reachable s ->
  coherent (X (pl s)) (claims key hs hw s).
Proof.
  intros HX. apply (reachable_invariant (fun s => coherent (X (pl s)) (claims key hs hw s))).
  - intros s0 Hinit. rewrite (HX _ Hinit). destruct Hinit as (E1 & E2 & E3 & _).
    unfold claims, queue_of. rewrite E1, E2, E3. split; [constructor|]. set_solver.
  - intros s1 s2. apply step_coherent.
Qed.

(** ** The two kinds of claims *)

Definition job_key (r : jobRequest) : list string := if nonempty (jobID r) then [jobID r] else [].
Definition step_key (r : jobRequest) : list string :=
  if nonempty (executionStepID r) then [executionStepID r] else [].

(** From where to where a submitter, or a worker, holds the claim of its job id
    and the one of its execution step. *)
Definition sub_holds_job (c : spc) : bool :=
  match c with
  | SClaimStep | SUndoJob | SMeasure | SEnqueue | SDropStep | SDropJob => true
  | _ => false
  end.
Definition sub_holds_step (c : spc) : bool :=
  match c with SMeasure | SEnqueue | SDropStep => true | _ => false end.
Definition work_holds_job (c : pc) : bool := match c with PDone => false | _ => true end.
Definition work_holds_step (c : pc) : bool :=
  match c with PDone | PReleaseJob => false | _ => true end.

(** Sections that do not touch the claims. *)
Lemma exec_phase_frame c fr p :
  c <> PReleaseStep -> c <> PReleaseJob -> c <> PDone ->
  let '(p', fr', c') := exec_phase renum h panics durationMs execClient c fr p in
  jobQueue p' = jobQueue p /\ activeJobs p' = activeJobs p /\ runningJobs p' = runningJobs p /\
  jobID (req fr') = jobID (req fr) /\ executionStepID (req fr') = executionStepID (req fr) /\
  c' <> PReleaseJob /\ c' <> PDone.
Proof.
  intros H1 H2 H3.
  destruct c; try done; cbn [exec_phase];
    unfold verify_lease, start_job, start_heartbeat, record_start, override_execution_id,
      strict_validation, run_payload, record_end, stop_heartbeat, report_outcome, failure_path,
      success_path, abort, StartExecutionHeartbeat, stopHeartbeat;
  repeat case_inner; repeat split; done.
Qed.

(** Taking and dropping a claim that may be absent. *)
Lemma coherent_claim_job r X l :
  jobID r ∉ X -> coherent X l ->
  coherent (if nonempty (jobID r) then {[jobID r]} ∪ X else X) (job_key r ++ l).
Proof. unfold job_key. destruct (nonempty _); [apply coherent_add|done]. Qed.

Lemma coherent_drop_job r p l :
  coherent (runningJobs p) (job_key r ++ l) -> coherent (runningJobs (delete_running r p)) l.
Proof. unfold job_key, delete_running. destruct (nonempty _); [apply coherent_remove|done]. Qed.

Lemma coherent_drop_step r p l :
  coherent (activeJobs p) (step_key r ++ l) -> coherent (activeJobs (delete_active r p)) l.
Proof. unfold step_key, delete_active. destruct (nonempty _); [apply coherent_remove|done]. Qed.

Lemma queue_of_delete_running r p : queue_of (delete_running r p) = queue_of p.
Proof. unfold delete_running. by destruct (nonempty _). Qed.
Lemma queue_of_delete_active r p : queue_of (delete_active r p) = queue_of p.
Proof. unfold delete_active. by destruct (nonempty _). Qed.
Lemma activeJobs_delete_running r p : activeJobs (delete_running r p) = activeJobs p.
Proof. unfold delete_running. by destruct (nonempty _). Qed.
Lemma runningJobs_delete_active r p : runningJobs (delete_active r p) = runningJobs p.
Proof. unfold delete_active. by destruct (nonempty _). Qed.

(** A claim moves from its submitter to the queue. *)
Lemma enqueue_perm (key : jobRequest -> list string) r q rest :
  ((q ++ [r]) ≫= key) ++ rest ≡ₚ key r ++ (q ≫= key) ++ rest.
Proof. rewrite bind_app. simpl. rewrite app_nil_r. solve_Permutation. Qed.

Lemma work_keeps_job : work_keeps job_key work_holds_job runningJobs.
Proof.
  intros c fr p rest. unfold wk_claims.
  destruct (decide (c = PReleaseJob)) as [->|H1].
  { simpl. rewrite <- (queue_of_delete_running (req fr)). apply coherent_drop_job. }
  destruct (decide (c = PReleaseStep)) as [->|H2].
  { simpl. fold (delete_active (req fr) p).
    by rewrite <- (queue_of_delete_active (req fr) p), <- (runningJobs_delete_active (req fr) p). }
  destruct (decide (c = PDone)) as [->|H3]; [done|].
  pose proof (exec_phase_frame c fr p H2 H1 H3) as Hf.
  destruct (exec_phase _ _ _ _ _ c fr p) as [[p' fr'] c'].
  destruct Hf as (Hq & _ & Hr & Hj & _ & _ & Hd). unfold queue_of, job_key.
  rewrite Hq, Hr, Hj. by destruct c, c'.
Qed.

Lemma work_keeps_step : work_keeps step_key work_holds_step activeJobs.
Proof.
  intros c fr p rest. unfold wk_claims.
  destruct (decide (c = PReleaseStep)) as [->|H2].
  { simpl. rewrite <- (queue_of_delete_active (req fr)). apply coherent_drop_step. }
  destruct (decide (c = PReleaseJob)) as [->|H1].
  { simpl. fold (delete_running (req fr) p).
    by rewrite <- (queue_of_delete_running (req fr) p), <- (activeJobs_delete_running (req fr) p). }
  destruct (decide (c = PDone)) as [->|H3]; [done|].
  pose proof (exec_phase_frame c fr p H2 H1 H3) as Hf.
  destruct (exec_phase _ _ _ _ _ c fr p) as [[p' fr'] c'].
  destruct Hf as (Hq & Ha & _ & _ & Hs & Hrj & Hd). unfold queue_of, step_key.
  rewrite Hq, Ha, Hs. by destruct c, c'.
Qed.

(** Submission sections that only decide where to go on. *)
Lemma validate_goes r p :
  validate_submission r p = (p, SDedup) \/ exists e, validate_submission r p = (p, SReturn e).
Proof. unfold validate_submission. repeat case_inner; eauto. Qed.

Lemma dedup_goes r p :
  check_dedup r p = (p, SClaimJob) \/ exists e, check_dedup r p = (p, SReturn e).
Proof. unfold check_dedup. repeat case_inner; eauto. Qed.

Lemma sub_keeps_job : sub_keeps job_key sub_holds_job runningJobs.
Proof.
  intros c r p rest. unfold sub_claims. destruct c; cbn [submit_phase sub_holds_job].
  - destruct (validate_goes r p) as [->|[e ->]]; done.
  - destruct (dedup_goes r p) as [->|[e ->]]; done.
  - unfold claim_job, job_key. destruct (nonempty (jobID r)) eqn:Ej; [|simpl; by rewrite Ej].
    destruct (decide _); [done|]. simpl. rewrite Ej. by apply coherent_add.
  - unfold claim_step. by destruct (nonempty _); [destruct (decide _)|].
  - simpl. rewrite <- (queue_of_delete_running r p) at 1. apply coherent_drop_job.
  - unfold measure. by destruct (_ && _ && _).
  - unfold enqueue, queue_of. simpl. destruct (_ <? _)%nat; simpl; [|done].
    by rewrite enqueue_perm.
  - unfold dedup_add. by destruct (globalDedupStore p); [destruct (nonempty _)|].
  - simpl. by rewrite queue_of_delete_active, runningJobs_delete_active.
  - simpl. rewrite <- (queue_of_delete_running r p) at 1. apply coherent_drop_job.
  - unfold drop_report. by destruct (_ && _).
  - done.
Qed.

Lemma sub_keeps_step : sub_keeps step_key sub_holds_step activeJobs.
Proof.
  intros c r p rest. unfold sub_claims. destruct c; cbn [submit_phase sub_holds_step].
  - destruct (validate_goes r p) as [->|[e ->]]; done.
  - destruct (dedup_goes r p) as [->|[e ->]]; done.
  - unfold claim_job. by destruct (nonempty _); [destruct (decide _)|].
  - unfold claim_step, step_key. destruct (nonempty (executionStepID r)) eqn:Es; [|simpl; by rewrite Es].
    destruct (decide _); [done|]. simpl. rewrite Es. by apply coherent_add.
  - simpl. by rewrite queue_of_delete_running, activeJobs_delete_running.
  - unfold measure. by destruct (_ && _ && _).
  - unfold enqueue, queue_of. simpl. destruct (_ <? _)%nat; simpl; [|done].
    by rewrite enqueue_perm.
  - unfold dedup_add. by destruct (globalDedupStore p); [destruct (nonempty _)|].
  - simpl. rewrite <- (queue_of_delete_active r p) at 1. apply coherent_drop_step.
  - simpl. by rewrite queue_of_delete_running, activeJobs_delete_running.
  - unfold drop_report. by destruct (_ && _).
  - done.
Qed.

#[local] Instance job_discipline :
  ClaimDiscipline job_key sub_holds_job work_holds_job runningJobs.
Proof. split; try done; [apply sub_keeps_job|apply work_keeps_job]. Qed.

#[local] Instance step_discipline :
  ClaimDiscipline step_key sub_holds_step work_holds_step activeJobs.
Proof. split; try done; [apply sub_keeps_step|apply work_keeps_step]. Qed.

(** ** Every job in the system has an id *)

Definition named_sub (cr : spc * jobRequest) : Prop :=
  match cr.1 with SCheck | SReturn _ => True | _ => jobID cr.2 <> "" end.
Definition named_worker (w : worker) : Prop :=
  match w with Busy _ fr => jobID (req fr) <> "" | _ => True end.
Definition named (s : sys) : Prop :=
  Forall named_sub (subs s) /\ Forall (fun r => jobID r <> "") (queue_of (pl s)) /\
  Forall named_worker (wks s).

Lemma submit_phase_named c r p :
  named_sub (c, r) -> Forall (fun r => jobID r <> "") (queue_of p) ->
  let '(p', c') := submit_phase (has_client execClient) c r p in
  named_sub (c', r) /\ Forall (fun r => jobID r <> "") (queue_of p').
Proof.
  intros Hn Hq. destruct c; cbn [submit_phase].
  - unfold validate_submission. destruct (jobQueue p); [|done].
    destruct (eqb_spec_s (jobID r) ""); [done|]. destruct (_ && _ && _); [done|].
    by destruct (_ =?s _).
  - destruct (dedup_goes r p) as [->|[e ->]]; done.
  - unfold claim_job. by destruct (nonempty _); [destruct (decide _)|].
  - unfold claim_step. by destruct (nonempty _); [destruct (decide _)|].
  - simpl. by rewrite queue_of_delete_running.
  - unfold measure. by destruct (_ && _ && _).
  - unfold enqueue. destruct (_ <? _)%nat; [|done]. split; [done|].
    apply Forall_app. by repeat constructor.
  - unfold dedup_add. by destruct (globalDedupStore p); [destruct (nonempty _)|].
  - simpl. by rewrite queue_of_delete_active.
  - simpl. by rewrite queue_of_delete_running.
  - unfold drop_report. by destruct (_ && _).
  - done.
Qed.

Lemma exec_phase_named c fr p :
  let '(p', fr', _) := exec_phase renum h panics durationMs execClient c fr p in
  queue_of p' = queue_of p /\ jobID (req fr') = jobID (req fr).
Proof.
  destruct (decide (c = PReleaseJob)) as [->|H1]; [split; [apply queue_of_delete_running|done]|].
  destruct (decide (c = PReleaseStep)) as [->|H2]; [split; [apply queue_of_delete_active|done]|].
  destruct (decide (c = PDone)) as [->|H3]; [done|].
  pose proof (exec_phase_frame c fr p H2 H1 H3) as Hf.
  destruct (exec_phase _ _ _ _ _ c fr p) as [[p' fr'] c']. unfold queue_of.
  by destruct Hf as (-> & _ & _ & -> & _).
Qed.

Lemma step_named s s' : step s s' -> named s -> named s'.
Proof.
  intros [a Ha] (Hs & Hq & Hw). destruct a as [r|i|i|i| |i|d| |]; simpl in Ha.
  - simplify_eq. split; [|done]. apply Forall_app. by repeat constructor.
  - unfold act_sub in Ha. destruct (subs s !! i) as [[c r]|] eqn:Hi; [|done].
    pose proof (submit_phase_named c r (pl s) (Forall_lookup_1 _ _ _ _ Hs Hi) Hq) as Hn.
    destruct (submit_phase _ c r (pl s)) as [p' c']. destruct Hn as [Hn Hq'].
    assert (s' = mkSys p' (<[i := (c', r)]> (subs s)) (wks s)) as -> by (destruct c; congruence).
    split; [by apply Forall_insert|done].
  - unfold act_take in Ha. destruct (wks s !! i) as [[| |]|]; try done.
    unfold queue_of in Hq. destruct (jobQueue (pl s)) as [[|r q]|]; simplify_eq.
    apply Forall_cons in Hq as [Hr Hq]. split; [done|]. split; [done|]. by apply Forall_insert.
  - unfold act_work in Ha. destruct (wks s !! i) as [[|c fr|]|] eqn:Hi; [done| |done..].
    pose proof (Forall_lookup_1 _ _ _ _ Hw Hi) as Hfr. simpl in Hfr.
    pose proof (exec_phase_named c fr (pl s)) as Hn.
    destruct (exec_phase _ _ _ _ _ c fr (pl s)) as [[p' fr'] c']. destruct Hn as [Hq' Hj].
    destruct c; simplify_eq; (split; [done|]); simpl; rewrite ?Hq'; (split; [done|]);
      apply Forall_insert; simpl; rewrite ?Hj; auto; by destruct (panicked fr).
  - simplify_eq. split; [done|]. split; [done|]. apply Forall_app. by repeat constructor.
  - destruct (wks s !! i) as [[| |]|]; simplify_eq. split; [done|]. split; [done|].
    by apply Forall_insert.
  - by destruct (d <? 0); simplify_eq.
  - simplify_eq. split; [done|]. unfold background. by destruct (globalDedupStore (pl s)).
  - simplify_eq. split; [done|]. unfold background. by destruct (globalDedupStore (pl s)).
Qed.

Lemma reachable_named s : reachable s -> named s.
Proof.
  apply reachable_invariant; [|apply step_named].
  intros s0 (E1 & E2 & E3 & _). unfold named, queue_of. rewrite E1, E2, E3. by repeat constructor.
Qed.

Lemma reachable_job_claims s :
  reachable s -> coherent (runningJobs (pl s)) (claims job_key sub_holds_job work_holds_job s).
Proof. apply reachable_coherent. by intros s0 (_ & _ & _ & _ & ->). Qed.

Lemma reachable_step_claims s :
  reachable s -> coherent (activeJobs (pl s)) (claims step_key sub_holds_step work_holds_step s).
Proof. apply reachable_coherent. by intros s0 (_ & _ & _ & -> & _). Qed.

Lemma nonempty_neq x : x <> "" -> nonempty x = true.
Proof. intros H. unfold nonempty. by rewrite eqb_neq_s. Qed.
End system.

(** ** Properties *)

Section properties.
Context (renum : string -> string) (h : Handlers).
Context (panics : string -> RawMessage -> string -> bool) (durationMs : list event -> Z).
Context (execClient : option ExecutionClient).
Context (sortSlice : list (string * Z) -> list (string * Z)).
Abbreviation Reachable := (reachable renum h panics durationMs execClient sortSlice).

(** C1.  However submitters and workers interleave: no two workers execute
    the same job at the same time, no job waits in the queue while a worker
    executes it, no job waits twice, and no two workers execute jobs of one
    execution step. *)
Theorem dispatcher_mutual_exclusion (s : sys) :
  Reachable s ->
  (forall i j c c' fr fr', wks s !! i = Some (Busy c fr) -> wks s !! j = Some (Busy c' fr') ->
     c <> PDone -> c' <> PDone -> jobID (req fr) = jobID (req fr') -> i = j) /\
  (forall i c fr r, wks s !! i = Some (Busy c fr) -> c <> PDone -> r ∈ queue_of (pl s) ->
     jobID r <> jobID (req fr)) /\
  NoDup (map jobID (queue_of (pl s))) /\
  (forall i j c c' fr fr', wks s !! i = Some (Busy c fr) -> wks s !! j = Some (Busy c' fr') ->
     work_holds_step c = true -> work_holds_step c' = true ->
     executionStepID (req fr) <> "" -> executionStepID (req fr) = executionStepID (req fr') -> i = j).
Proof.
  intros Hreach. destruct (reachable_named _ _ _ _ _ _ _ Hreach) as (_ & Hq & Hw).
  destruct (reachable_job_claims _ _ _ _ _ _ _ Hreach) as [Hnd _].
  destruct (reachable_step_claims _ _ _ _ _ _ _ Hreach) as [Hnds _].
  unfold claims in Hnd, Hnds. apply NoDup_app in Hnd as (_ & _ & Hnd).
  apply NoDup_app in Hnd as (Hndq & Hdis & Hndw).
  apply NoDup_app in Hnds as (_ & _ & Hnds). apply NoDup_app in Hnds as (_ & _ & Hnds).
  assert (Hhold : forall i c fr, wks s !! i = Some (Busy c fr) -> c <> PDone ->
    jobID (req fr) ∈ wk_claims job_key work_holds_job (Busy c fr)).
  { intros i c fr Hi Hc. pose proof (Forall_lookup_1 _ _ _ _ Hw Hi) as Hj. simpl in *.
    unfold job_key. rewrite (nonempty_neq _ Hj). destruct c; try done; by left. }
  split; [|split; [|split]].
  - intros i j c c' fr fr' Hi Hj Hc Hc' E.
    eapply (bind_NoDup_distinct _ _ i j); [exact Hndw|done|done|by eapply Hhold|].
    rewrite E. by eapply Hhold.
  - intros i c fr r Hi Hc Hr E. apply (Hdis (jobID r)).
    + apply list_elem_of_bind. exists r. split; [|done]. unfold job_key.
      rewrite Forall_forall in Hq. rewrite (nonempty_neq _ (Hq r Hr)). by left.
    + apply list_elem_of_bind. exists (Busy c fr). rewrite E.
      split; [by eapply Hhold|by eapply list_elem_of_lookup_2].
  - clear Hdis. induction (queue_of (pl s)) as [|r q IH]; [constructor|].
    apply Forall_cons in Hq as [Hr Hq]. simpl in *. unfold job_key in Hndq at 1.
    rewrite (nonempty_neq _ Hr) in Hndq. apply NoDup_cons in Hndq as [Hn Hndq].
    constructor; [|by apply IH]. intros (r' & E & Hin)%list_elem_of_fmap. apply Hn.
    apply list_elem_of_bind. exists r'. split; [|done]. rewrite Forall_forall in Hq.
    unfold job_key. rewrite (nonempty_neq _ (Hq r' Hin)), E. by left.
  - intros i j c c' fr fr' Hi Hj Hc Hc' Hne E.
    eapply (bind_NoDup_distinct _ _ i j (Busy c fr) (Busy c' fr') (executionStepID (req fr)));
      [exact Hnds|done|done| |];
      simpl; rewrite ?Hc, ?Hc'; unfold step_key; [|rewrite <- E];
      rewrite (nonempty_neq _ Hne); by left.
Qed.

(** Nobody is inside the dispatcher. *)
Definition quiescent (s : sys) : Prop :=
  Forall (fun cr => exists e, cr.1 = SReturn e) (subs s) /\ queue_of (pl s) = [] /\
  Forall (fun w => w = Idle \/ w = Gone) (wks s).

(** C2.  The two claim maps hold exactly the claims of the jobs in the
    system, so [ActiveJobsCount] counts them, and once every submitter has
    returned, the queue is empty and the workers rest, both maps are empty,
    whatever failed or panicked on the way. *)
Theorem claims_never_leak (s : sys) :
  Reachable s ->
  ActiveJobsCount (pl s) = length (claims job_key sub_holds_job work_holds_job s) /\
  (quiescent s -> runningJobs (pl s) = ∅ /\ activeJobs (pl s) = ∅).
Proof.
  intros Hreach. destruct (reachable_job_claims _ _ _ _ _ _ _ Hreach) as [Hnd Hj].
  destruct (reachable_step_claims _ _ _ _ _ _ _ Hreach) as [_ Hs]. split.
  - unfold ActiveJobsCount. rewrite <- (size_list_to_set (C := gset string)) by done.
    f_equal. apply set_eq. intros x. by rewrite elem_of_list_to_set, Hj.
  - intros (Hsub & Hq & Hw).
    assert (Hnil : forall key hs hw, (forall e, hs (SReturn e) = false) ->
              claims key hs hw s = []).
    { intros key hs hw Hret. unfold claims. rewrite Hq. simpl.
      assert (forall (f : worker -> list string) l, Forall (fun w => w = Idle \/ w = Gone) l ->
                f Idle = [] -> f Gone = [] -> l ≫= f = []) as Hb.
      { intros f l Hl H1 H2. induction Hl as [|w l [-> | ->] _ IH]; [done|..];
          simpl; by rewrite ?H1, ?H2. }
      rewrite (Hb (wk_claims key hw)), app_nil_r by done. clear Hw Hb.
      induction Hsub as [|[c r] l [e He] _ IH]; [done|]. simpl in *. subst c.
      unfold sub_claims at 1. simpl. by rewrite Hret. }
    rewrite Hnil in Hj, Hs by done. split; apply set_eq; set_solver.
Qed.
End properties.

(** ** Concrete runs *)

Definition scan_request (job step : string) : jobRequest :=
  mkReq "scan_dataset" (Raw (JObj [("dataset_id", JStr "ds")])) job "org" "" step "exec-1".

(** A pool with an empty dedup store of one hour. *)
Definition start_state : sys :=
  mkSys (mkPool (Some []) ∅ ∅ (Some (mkStore "job_dedup.json" defaultDedupTTL
           defaultDedupMaxJobs ∅ true None)) 0 0 true true ∅ 0 []) [] [].

Definition sched (l : list action) : option sys :=
  run_schedule id idle_handlers (fun _ _ _ => false) (fun _ => 5) (Some willing) (sort_by snd) l
    start_state.

Lemma start_initial : initial start_state.
Proof. done. Qed.

(** Two workers in the middle of two jobs. *)
Definition two_busy : list action :=
  [ASpawn; ASpawn; ASubmit (scan_request "job-1" "step-1"); ASubmit (scan_request "job-2" "step-2")]
  ++ replicate 7 (ASub 0) ++ replicate 7 (ASub 1) ++ [ATake 0; ATake 1; AWork 0; AWork 1; AWork 0].

Definition two_busy_state : sys := Eval vm_compute in default start_state (sched two_busy).

Lemma dispatcher_mutual_exclusion_witness :
  reachable id idle_handlers (fun _ _ _ => false) (fun _ => 5) (Some willing) (sort_by snd)
    two_busy_state /\
  (forall c fr, wks two_busy_state !! 0%nat = Some (Busy c fr) -> c <> PDone ->
     jobID (req fr) <> "job-2").
Proof.
  assert (Hr : reachable id idle_handlers (fun _ _ _ => false) (fun _ => 5) (Some willing)
                 (sort_by snd) two_busy_state).
  { exists start_state. split; [exact start_initial|].
    apply (run_schedule_rtc _ _ _ _ _ _ two_busy). vm_compute. reflexivity. }
  split; [exact Hr|]. intros c fr Hw Hc Hj.
  destruct (dispatcher_mutual_exclusion _ _ _ _ _ _ two_busy_state Hr) as (Hjobs & _).
  discriminate (Hjobs 0%nat 1%nat c PStartJob fr (initial_frame (scan_request "job-2" "step-2"))
    Hw ltac:(vm_compute; reflexivity) Hc ltac:(discriminate) Hj).
Defined.

(** One job from its submission to its end. *)
Definition one_job : list action :=
  [ASpawn; ASubmit (scan_request "job-1" "step-1")] ++ replicate 7 (ASub 0) ++
  ATake 0 :: replicate 13 (AWork 0).

Definition one_job_state : sys := Eval vm_compute in default start_state (sched one_job).

Lemma claims_never_leak_witness :
  reachable id idle_handlers (fun _ _ _ => false) (fun _ => 5) (Some willing) (sort_by snd)
    one_job_state /\ totalProcessed (pl one_job_state) = 1 /\
  runningJobs (pl one_job_state) = ∅ /\ activeJobs (pl one_job_state) = ∅.
Proof.
  assert (Hr : reachable id idle_handlers (fun _ _ _ => false) (fun _ => 5) (Some willing)
                 (sort_by snd) one_job_state).
  { exists start_state. split; [exact start_initial|].
    apply (run_schedule_rtc _ _ _ _ _ _ one_job). vm_compute. reflexivity. }
  split; [exact Hr|]. split; [reflexivity|].
  apply (claims_never_leak _ _ _ _ _ _ one_job_state Hr).
  split; [|split]; [|reflexivity|]; repeat constructor; simpl; eauto.
Defined.

(** Two submitters of one job: the first stops after the store's check, the
    second goes all the way, then the first goes on. *)
Definition race : list action :=
  [ASpawn; ASubmit (scan_request "job-1" "step-1"); ASubmit (scan_request "job-1" "step-1")]
  ++ replicate 2 (ASub 0) ++ replicate 7 (ASub 1) ++ ATake 0 :: replicate 13 (AWork 0)
  ++ replicate 5 (ASub 0) ++ ATake 0 :: replicate 13 (AWork 0).

Definition race_state : sys := Eval vm_compute in default start_state (sched race).

(** The dedup store does not make an execution unique: two
    submitters of one job can both pass the store's check before either records
    the job, and if the first copy runs to its end before the second claims the
    job, the job is executed and completed twice within the TTL. *)
Theorem dedup_check_races :
  exists (schedule : list action) (s : sys),
    sched schedule = Some s /\
    executions (events (pl s)) = [("scan_dataset", "exec-1"); ("scan_dataset", "exec-1")] /\
    completions (events (pl s)) =
      [("exec-1", "job-1", "completed"); ("exec-1", "job-1", "completed")] /\
    now (pl s) = now (pl start_state) /\
    Forall (fun cr => cr = (SReturn None, scan_request "job-1" "step-1")) (subs s).
Proof.
  exists race, race_state. split; [vm_compute; reflexivity|].
  split; [vm_compute; reflexivity|]. split; [vm_compute; reflexivity|].
  split; [vm_compute; reflexivity|]. repeat constructor.
Qed.

(** Submissions that do not overlap are protected: while the TTL
    of an accepted job lasts and its entry stays in the store, every later
    submission of the same job id is refused, even after the job has ended. *)
Theorem dedup_rejects_resubmission (has_client : bool) (r r' : jobRequest) (p p1 p2 : pool)
    (d d2 : JobDeduplicationStore) :
  globalDedupStore p = Some d -> SubmitJobWithMeta has_client r p = Some (p1, None) ->
  globalDedupStore p2 = Some d2 ->
  (exists d1, globalDedupStore p1 = Some d1 /\ jobs d2 !! jobID r = jobs d1 !! jobID r) ->
  now p2 <= now p + ttl d -> jobQueue p2 <> None ->
  jobID r' = jobID r -> executionID r' <> "" -> jobType r' <> "" ->
  exists p3, SubmitJobWithMeta has_client r' p2 =
    Some (p3, Some "dispatcher: duplicate job rejected - seen within dedup TTL") /\
    unclaimed p2 p3.
Proof.
  intros Hd Hsub Hd2 (d1 & Hd1 & Hsame) Hnow Hq Hj Hx Ht.
  destruct (SubmitJob_settles has_client r p) as (p1' & E & Hacc).
  rewrite E in Hsub. simplify_eq.
  assert (Hv : submit_verdict r p = None) by congruence. rewrite Hv in Hacc.
  destruct Hacc as (_ & _ & _ & Hst & _). rewrite Hd in Hst. simpl in Hst.
  rewrite Hd1 in Hst. simplify_eq.
  assert (Hne : jobID r <> "").
  { intros E0. unfold submit_verdict in Hv. rewrite E0 in Hv. by destruct (jobQueue p). }
  assert (Hlook : jobs d2 !! jobID r = Some (now p + ttl d)).
  { rewrite Hsame. unfold Add. destruct (_ =? 0); [destruct (snapshotCh _)|]; simpl;
      by rewrite lookup_insert_eq. }
  assert (Hseen : seen r' p2 = true).
  { unfold seen, Contains. rewrite Hd2, Hj, Hlook. destruct (Z.ltb_spec (now p + ttl d) (now p2)); [lia|done]. }
  destruct (SubmitJob_settles has_client r' p2) as (p3 & E3 & Hres).
  assert (Hv3 : submit_verdict r' p2 =
    Some "dispatcher: duplicate job rejected - seen within dedup TTL").
  { unfold submit_verdict. rewrite Hseen, Hj.
    rewrite (eqb_neq_s _ _ Hne), (eqb_neq_s _ _ Hx), (eqb_neq_s _ _ Ht). by destruct (jobQueue p2). }
  rewrite Hv3 in E3, Hres. exists p3. split; [exact E3|]. apply Hres.
Qed.

Definition resubmitted : jobRequest := scan_request "job-1" "step-1".

Definition after_submit : pool :=
  Eval vm_compute in
    match SubmitJobWithMeta true resubmitted (pl start_state) with
    | Some (p, _) => p
    | None => pl start_state
    end.

(** The job has ended, and is submitted again. *)
Lemma dedup_rejects_resubmission_witness :
  exists p3, SubmitJobWithMeta true resubmitted (pl one_job_state) =
    Some (p3, Some "dispatcher: duplicate job rejected - seen within dedup TTL").
Proof.
  edestruct (dedup_rejects_resubmission true resubmitted resubmitted (pl start_state)
    after_submit (pl one_job_state)) as (p3 & E & _);
    [reflexivity|vm_compute; reflexivity|reflexivity| | | | | | |].
  - eexists. split; [reflexivity|]. vm_compute. reflexivity.
  - vm_compute. discriminate.
  - discriminate.
  - reflexivity.
  - discriminate.
  - discriminate.
  - exists p3. exact E.
Defined.
