(* ===== verification/Realtime.v ===== *)
(** * Realtime: polling for jobs

    Models [internal/realtime/supabase_realtime.go] and [reconcile.go]: the
    decoding of a poll, the validation and deduplication of the jobs it brings,
    their submission to the dispatcher ([WorkerPool.SubmitJobWithMeta]), and
    the schedules of the two polling loops.  The control plane is a function
    from the request to its response, the Redis client is [SETNX] with its
    history, the clock and the random source are arguments. *)
From S2P Require Import Prelude GoFloat Json WorkerPool.

(** ** The jobs of a poll *)

Record RealtimeJobPayload := mkRealtimeJob {
  rj_ID : string; rj_JobID : string; rj_JobType : string;
  rj_Payload : RawMessage; rj_JobPayload : RawMessage; rj_Status : string;
  rj_ExecutionStepID : string; rj_ExecutionID : string; rj_ExecID : string;
  rj_OrgID : string; rj_DatasetID : string; rj_ChunkIndex : Z; rj_StepIndex : Z;
  rj_RunID : string; rj_AttemptNumber : Z; rj_RuntimeType : string;
  rj_RuntimeDeps : RawMessage; rj_ExecutionMode : string; rj_ExecutionTimeout : Z }.

Definition zeroRealtimeJob : RealtimeJobPayload :=
  mkRealtimeJob "" "" "" RawEmpty RawEmpty "" "" "" "" "" "" 0 0 "" 0 "" RawEmpty "" 0.

Definition getJobID (j : RealtimeJobPayload) : string :=
  if nonempty (rj_ID j) then rj_ID j else rj_JobID j.

Definition getExecutionID (j : RealtimeJobPayload) : string :=
  if nonempty (rj_ExecutionID j) then rj_ExecutionID j else rj_ExecID j.

Definition getPayload (j : RealtimeJobPayload) : RawMessage :=
  if raw_is_empty (rj_Payload j) then rj_JobPayload j else rj_Payload j.

Record ClaimJobResponse := mkClaim {
  cj_JobID : string; cj_JobType : string; cj_JobPayload : RawMessage; cj_ExecID : string }.

Definition zeroClaim : ClaimJobResponse := mkClaim "" "" RawEmpty "".

(** A struct inside a slice: [null] leaves it alone, anything but an object is
    an error. *)
Definition dec_struct {A} (dec : A -> list (string * json) -> A * bool) : decoder A :=
  fun cur j =>
  match j with
  | JObj fields => dec cur fields
  | JNull => (cur, false)
  | _ => (cur, true)
  end.

Definition decodeRealtimeJob (c : RealtimeJobPayload) (fs : list (string * json)) :
    RealtimeJobPayload * bool :=
  let '(i, e1) := field dec_string "id" (rj_ID c) fs in
  let '(jid, e2) := field dec_string "job_id" (rj_JobID c) fs in
  let '(ty, e3) := field dec_string "job_type" (rj_JobType c) fs in
  let '(pl, e4) := field dec_raw "payload" (rj_Payload c) fs in
  let '(jpl, e5) := field dec_raw "job_payload" (rj_JobPayload c) fs in
  let '(st, e6) := field dec_string "status" (rj_Status c) fs in
  let '(step, e7) := field dec_string "execution_step_id" (rj_ExecutionStepID c) fs in
  let '(exid, e8) := field dec_string "execution_id" (rj_ExecutionID c) fs in
  let '(ex, e9) := field dec_string "exec_id" (rj_ExecID c) fs in
  let '(org, e10) := field dec_string "org_id" (rj_OrgID c) fs in
  let '(ds, e11) := field dec_string "dataset_id" (rj_DatasetID c) fs in
  let '(ci, e12) := field dec_int "chunk_index" (rj_ChunkIndex c) fs in
  let '(si, e13) := field dec_int "step_index" (rj_StepIndex c) fs in
  let '(run, e14) := field dec_string "run_id" (rj_RunID c) fs in
  let '(an, e15) := field dec_int "attempt_number" (rj_AttemptNumber c) fs in
  let '(rt, e16) := field dec_string "runtime_type" (rj_RuntimeType c) fs in
  let '(deps, e17) := field dec_raw "runtime_dependencies" (rj_RuntimeDeps c) fs in
  let '(em, e18) := field dec_string "execution_mode" (rj_ExecutionMode c) fs in
  let '(et, e19) := field dec_int "execution_timeout_seconds" (rj_ExecutionTimeout c) fs in
  (mkRealtimeJob i jid ty pl jpl st step exid ex org ds ci si run an rt deps em et,
   e1 || e2 || e3 || e4 || e5 || e6 || e7 || e8 || e9 || e10 || e11 || e12 || e13 || e14 || e15
   || e16 || e17 || e18 || e19).

Definition decodeClaim (c : ClaimJobResponse) (fs : list (string * json)) :
    ClaimJobResponse * bool :=
  let '(i, e1) := field dec_string "job_id" (cj_JobID c) fs in
  let '(t, e2) := field dec_string "job_type" (cj_JobType c) fs in
  let '(p, e3) := field dec_raw "job_payload" (cj_JobPayload c) fs in
  let '(x, e4) := field dec_string "exec_id" (cj_ExecID c) fs in
  (mkClaim i t p x, e1 || e2 || e3 || e4).

(** [struct { Ok bool; Jobs []A }]. *)
Definition decodeResult {A} (zero : A) (dec : A -> list (string * json) -> A * bool)
    (fs : list (string * json)) : (bool * list A) * bool :=
  let '(ok, e1) := field dec_bool "ok" false fs in
  let '(jobs, e2) := field (dec_slice zero (dec_struct dec)) "jobs" None fs in
  ((ok, default [] jobs), e1 || e2).

Definition of_claim (a : ClaimJobResponse) : RealtimeJobPayload :=
  mkRealtimeJob (cj_JobID a) "" (cj_JobType a) (cj_JobPayload a) RawEmpty "" "" (cj_ExecID a) ""
    "" "" 0 0 "" 0 "" RawEmpty "" 0.

(** The jobs of a response body with its [ok] flag; [None] if it does not
    decode.  When no job has both ids, the jobs are decoded again in the
    alternative format and appended. *)
Definition decode_poll (body : RawMessage) : option (bool * list RealtimeJobPayload) :=
  match Unmarshal_struct (false, []) (decodeResult zeroRealtimeJob decodeRealtimeJob) body with
  | (_, Some _) => None
  | ((ok, jobs), None) =>
      let hasValidJobs :=
        existsb (fun j => nonempty (getJobID j) && nonempty (getExecutionID j)) jobs in
      if hasValidJobs then Some (ok, jobs)
      else
        match Unmarshal_struct (false, []) (decodeResult zeroClaim decodeClaim) body with
        | ((true, altJobs), None) =>
            Some (ok, jobs ++ map of_claim (filter (fun a => nonempty (cj_JobID a)) altJobs))
        | _ => Some (ok, jobs)
        end
  end.

(** ** The polling client *)

(** A call of [SubmitJobWithMeta] that the client made, and its answer. *)
Record submission := mkSubmission { sub_at : Z; sub_request : jobRequest; sub_err : error }.

(** A [SETNX] the client sent: when, the key, its time to live, the answer. *)
Record setnx_call := mkSetNX { nx_at : Z; nx_key : string; nx_ttl : Z; nx_answer : result bool }.

(** The variable part of [PollingClient], with the dispatcher it feeds and the
    history of its calls. *)
Record PollingClient := mkPoller {
  sentJobs : gmap string Z;
  currentInterval : Z;
  lastMetricsJSON : string;
  lastClaimedJobs : Z;
  dispatcher : pool;
  setnx_calls : list setnx_call;
  submissions : list submission;
}.

Definition with_sentJobs (m : gmap string Z) (s : PollingClient) : PollingClient :=
  mkPoller m (currentInterval s) (lastMetricsJSON s) (lastClaimedJobs s) (dispatcher s)
    (setnx_calls s) (submissions s).
Definition with_interval (d : Z) (s : PollingClient) : PollingClient :=
  mkPoller (sentJobs s) d (lastMetricsJSON s) (lastClaimedJobs s) (dispatcher s)
    (setnx_calls s) (submissions s).
Definition with_metrics (key : string) (s : PollingClient) : PollingClient :=
  mkPoller (sentJobs s) (currentInterval s) key (lastClaimedJobs s) (dispatcher s)
    (setnx_calls s) (submissions s).
Definition with_claimed (n : Z) (s : PollingClient) : PollingClient :=
  mkPoller (sentJobs s) (currentInterval s) (lastMetricsJSON s) n (dispatcher s)
    (setnx_calls s) (submissions s).
Definition with_dispatcher (p : pool) (s : PollingClient) : PollingClient :=
  mkPoller (sentJobs s) (currentInterval s) (lastMetricsJSON s) (lastClaimedJobs s) p
    (setnx_calls s) (submissions s).
Definition log_setnx (c : setnx_call) (s : PollingClient) : PollingClient :=
  mkPoller (sentJobs s) (currentInterval s) (lastMetricsJSON s) (lastClaimedJobs s)
    (dispatcher s) (setnx_calls s ++ [c]) (submissions s).
Definition log_submission (c : submission) (s : PollingClient) : PollingClient :=
  mkPoller (sentJobs s) (currentInterval s) (lastMetricsJSON s) (lastClaimedJobs s)
    (dispatcher s) (setnx_calls s) (submissions s ++ [c]).

Definition sentJobsTTL : Z := 10 * Minute.

(** The poll request, as far as it varies. *)
Record poll_request := mkPoll { claim_jobs : bool; metrics : option string }.

(** What comes back: no response, a status other than 200, a body that breaks
    off, or a body. *)
Inductive poll_response := RequestFailed | Status (code : Z) | ReadFailed | Body (b : RawMessage).

(** [SET key "1" NX]: its answer may depend on every call before it. *)
Definition SetNX : Type := list setnx_call -> Z -> string -> Z -> result bool.

Section poller.
Context (renum : string -> string) (has_client : bool) (deviceID : string).
(** [Some] when the agent has a Redis client. *)
Context (redisClient : option SetNX) (NewTraceID : nat -> string).

Definition dedup_key (jobID : string) : string :=
  "sentra:dedup:" +:+ deviceID +:+ ":" +:+ jobID.

(** [redis.Client.MarkJobProcessed]. *)
Definition MarkJobProcessed (r : SetNX) (now : Z) (jobID : string) (s : PollingClient) :
    PollingClient * result bool :=
  let answer := r (setnx_calls s) now (dedup_key jobID) sentJobsTTL in
  (log_setnx (mkSetNX now (dedup_key jobID) sentJobsTTL answer) s, answer).

(** Duplicate detection: whether the job goes on. *)
Definition detect_duplicate (now : Z) (jobID : string) (s : PollingClient) : PollingClient * bool :=
  match redisClient with
  | Some r =>
      match MarkJobProcessed r now jobID s with
      | (s, Ok added) => (s, added)
      | (s, Err _) => (s, false)
      end
  | None =>
      match sentJobs s !! jobID with
      | Some _ => (s, false)
      | None => (with_sentJobs (<[jobID := now]> (sentJobs s)) s, true)
      end
  end.

(** Merge the runtime dependencies into the payload.  [None] is the panic of an
    assignment to a nil map: a [null] payload decodes into one. *)
Definition merge_runtime_deps (deps payload : RawMessage) : option RawMessage :=
  if raw_is_empty deps then Some payload
  else
    match payload, deps with
    | Raw JNull, Raw _ => None
    | _, Raw d =>
        match Unmarshal_map renum payload with
        | Some m =>
            match map_lookup "runtime_dependencies" m with
            | Some _ => Some payload
            | None => Some (Marshal_map
                        (map_insert "runtime_dependencies" (to_interface renum d) m))
            end
        | None => Some payload
        end
    | _, _ => Some payload
    end.

(** The mandatory validation. *)
Definition well_formed (j : RealtimeJobPayload) : bool :=
  nonempty (getJobID j) && nonempty (rj_JobType j) &&
  negb (negb (raw_is_empty (getPayload j)) && negb (json_Valid (getPayload j))).

Definition request_of (traceID : string) (payload : RawMessage) (j : RealtimeJobPayload) : jobRequest :=
  mkReq (rj_JobType j) payload (getJobID j) (rj_OrgID j) traceID (rj_ExecutionStepID j)
    (getExecutionID j).

(** [SubmitJobWithMeta] at a time; an error is only logged. *)
Definition dispatch (now : Z) (r : jobRequest) (s : PollingClient) : PollingClient :=
  match SubmitJobWithMeta has_client r (with_now now (dispatcher s)) with
  | Some (p, e) => log_submission (mkSubmission now r e) (with_dispatcher p s)
  | None => s
  end.

(** One iteration of the loop over the jobs; [false] is a panic. *)
Definition process_job (now : Z) (j : RealtimeJobPayload) (s : PollingClient) : PollingClient * bool :=
  if well_formed j then
    let '(s, fresh) := detect_duplicate now (getJobID j) s in
    if fresh then
      match merge_runtime_deps (rj_RuntimeDeps j) (getPayload j) with
      | Some payload =>
          (dispatch now (request_of (NewTraceID (length (submissions s))) payload j) s, true)
      | None => (s, false)
      end
    else (s, true)
  else (s, true).

(** [clock i] is the time at which the i-th job is looked at. *)
Fixpoint process_jobs (clock : nat -> Z) (i : nat) (jobs : list RealtimeJobPayload)
    (s : PollingClient) : PollingClient * bool :=
  match jobs with
  | [] => (s, true)
  | j :: jobs =>
      let '(s, alive) := process_job (clock i) j s in
      if alive then process_jobs clock (S i) jobs s else (s, false)
  end.

(** [currentMetrics]: the serialized metrics, unless they are the last ones. *)
Definition currentMetrics (key : string) (s : PollingClient) : PollingClient * option string :=
  if lastMetricsJSON s =?s key then (s, None) else (with_metrics key s, Some key).

(** The result is the number of jobs, or [None] for a panic. *)
Definition fetchNewJobs (ctxDone claimJobs : bool) (metricsKey : string)
    (server : poll_request -> poll_response) (clock : nat -> Z) (s : PollingClient) :
    PollingClient * option Z :=
  if ctxDone then (s, Some 0)
  else
    let '(s, m) := currentMetrics metricsKey s in
    match server (mkPoll claimJobs m) with
    | RequestFailed | Status _ | ReadFailed => (s, Some 0)
    | Body body =>
        match decode_poll body with
        | None | Some (false, _) => (s, Some 0)
        | Some (true, jobs) =>
            let '(s, alive) := process_jobs clock 0 jobs s in
            if alive
            then (with_claimed (int32 (Z.of_nat (length jobs))) s, Some (Z.of_nat (length jobs)))
            else (s, None)
        end
    end.

(** [CleanupOldJobs]: expired entries of the in-memory map. *)
Definition CleanupOldJobs (now : Z) (s : PollingClient) : PollingClient :=
  match redisClient with
  | Some _ => s
  | None => with_sentJobs (filter (fun kv : string * Z => ~ sentJobsTTL < now - kv.2) (sentJobs s)) s
  end.
End poller.

(** ** The schedules *)

(** The package variables that [loadIntervalsFromEnv] may set. *)
Record intervals := mkIntervals {
  minPollInterval : Z; backoffMultiplier : float64; postClaimInterval : Z;
  maxIdlePollInterval : Z; pollJitter : float64; activeGrace : Z }.

Definition defaultIntervals : intervals :=
  mkIntervals (5 * Second) (f64_of_Z 2) (20 * Second) (300 * Second) (f64_ratio 2 10) (2 * Minute).

Section schedules.
Context (k : intervals).

(** [u] is the value of [rand.Float64()], in [0,1). *)
Definition jittered (u : float64) (d : Z) : Z :=
  if f64_le (pollJitter k) (f64_of_Z 0) || (d <=? 0) then d
  else
    let factor := f64_add (f64_of_Z 1)
                    (f64_mul (f64_sub (f64_mul u (f64_of_Z 2)) (f64_of_Z 1)) (pollJitter k)) in
    f64_to_int64 (f64_mul (f64_of_Z d) factor).

(** A zero [time.Time] is [None]. *)
Definition nextPollInterval (u : float64) (jobCount : Z) (lastJobTime : option Z) (now : Z)
    (s : PollingClient) : Z :=
  if 0 <? jobCount then postClaimInterval k
  else if (0 <? activeGrace k) &&
          (match lastJobTime with Some t => now - t <? activeGrace k | None => false end)
  then postClaimInterval k
  else
    let next := f64_to_int64 (f64_mul (f64_of_Z (currentInterval s)) (backoffMultiplier k)) in
    jittered u (if maxIdlePollInterval k <? next then maxIdlePollInterval k else next).

Definition eventDrivenSafety (lastWakeup : option Z) (now : Z) : Z :=
  match lastWakeup with
  | Some t => if now - t <? 2 * maxIdlePollInterval k then 2 * maxIdlePollInterval k
              else maxIdlePollInterval k
  | None => maxIdlePollInterval k
  end.

Definition refreshActivity (now : Z) (s : PollingClient) (lastJobTime : option Z) : option Z :=
  if (0 <? ActiveJobsCount (dispatcher s))%nat || (0 <? QueueLength (dispatcher s))%nat
  then Some now else lastJobTime.

(** Whether the next poll of the adaptive loop claims jobs, and the new count of
    polls at the ceiling. *)
Definition claim_decision (s : PollingClient) (ceilingPolls : Z) : Z * bool :=
  if maxIdlePollInterval k <=? currentInterval s then
    let ceilingPolls := ceilingPolls + 1 in
    (ceilingPolls, Z.rem ceilingPolls 3 =? 0)
  else (0, true).

Section loops.
Context (renum : string -> string) (has_client : bool) (deviceID : string).
Context (redisClient : option SetNX) (NewTraceID : nat -> string).

(** What one poll meets: the state of the context, the metrics, the control
    plane, the times at which the jobs are looked at, the time after the poll,
    and the random number; between two polls the dispatcher moves on. *)
Record tick := mkTick {
  t_others : pool -> pool; t_ctxDone : bool; t_metrics : string;
  t_server : poll_request -> poll_response; t_clock : nat -> Z; t_after : Z; t_rand : float64 }.

(** The local variables of [pollLoopAdaptive]. *)
Record loop := mkLoop { poller : PollingClient; lastJobTime : option Z; ceilingPolls : Z }.

(** A poll and the choice of the next interval. *)
Definition poll_and_schedule (claimJobs : bool) (t : tick) (s : PollingClient)
    (lastJob : option Z) (ceiling : Z) : option loop :=
  match fetchNewJobs renum has_client deviceID redisClient NewTraceID (t_ctxDone t) claimJobs
          (t_metrics t) (t_server t) (t_clock t) (with_dispatcher (t_others t (dispatcher s)) s) with
  | (s, Some jobCount) =>
      let lastJob := if 0 <? jobCount then Some (t_after t) else lastJob in
      let lastJob := refreshActivity (t_after t) s lastJob in
      let current := nextPollInterval (t_rand t) jobCount lastJob (t_after t) s in
      Some (mkLoop (with_interval current s) lastJob ceiling)
  | (_, None) => None
  end.

(** [start], then the first poll of [pollLoopAdaptive]. *)
Definition adaptive_start (t : tick) (s : PollingClient) : option loop :=
  poll_and_schedule true t (with_interval (minPollInterval k) s) None 0.

(** One turn of the loop: whether it claimed, and the loop state unless the poll
    panicked. *)
Definition adaptive_tick (t : tick) (l : loop) : bool * option loop :=
  let '(ceiling, claimJobs) := claim_decision (poller l) (ceilingPolls l) in
  (claimJobs, poll_and_schedule claimJobs t (poller l) (lastJobTime l) ceiling).

(** The claim flags of consecutive turns. *)
Fixpoint adaptive_run (ts : list tick) (l : loop) : list bool :=
  match ts with
  | [] => []
  | t :: ts =>
      match adaptive_tick t l with
      | (b, Some l) => b :: adaptive_run ts l
      | (b, None) => [b]
      end
  end.

(** One turn of [pollLoopEventDriven], by a wakeup or by the safety ticker: the
    client, the last wakeup, and the new period of the ticker. *)
Definition event_turn (wakeup : bool) (now : Z) (t : tick) (s : PollingClient)
    (lastWakeup : option Z) : PollingClient * option Z * Z * option Z :=
  let lastWakeup := if wakeup then Some now else lastWakeup in
  let period := jittered (t_rand t) (eventDrivenSafety lastWakeup now) in
  let '(s, n) := fetchNewJobs renum has_client deviceID redisClient NewTraceID (t_ctxDone t) true
                   (t_metrics t) (t_server t) (t_clock t)
                   (with_dispatcher (t_others t (dispatcher s)) s) in
  (s, lastWakeup, period, n).
End loops.
End schedules.

(** ** [ReconcileAgent] *)

(** [None] when the request fails; otherwise the status, and the body if it
    decodes. *)
Definition ReconcileAgent (token : result string) (send : string -> option (Z * RawMessage)) : error :=
  match token with
  | Err e => Some e
  | Ok deviceToken =>
      match send deviceToken with
      | None => None
      | Some (code, body) =>
          if code =? 404 then None
          else if 300 <=? code then Some ("reconcile_agent failed: HTTP " +:+ itoa code)
          else (Unmarshal_struct (false, 0)
                  (fun fs => let '(ok, e1) := field dec_bool "ok" false fs in
                             let '(n, e2) := field dec_int "restored_jobs" 0 fs in
                             ((ok, n), e1 || e2)) body).2
      end
  end.

(** ** What a poll amounts to *)

(** The jobs of a poll that go on to the dispatcher: well-formed, and the first
    of their id. *)
Fixpoint fresh_jobs (seen : gset string) (jobs : list RealtimeJobPayload) :
    list RealtimeJobPayload :=
  match jobs with
  | [] => []
  | j :: jobs =>
      if well_formed j && negb (bool_decide (getJobID j ∈ seen))
      then j :: fresh_jobs ({[getJobID j]} ∪ seen) jobs
      else fresh_jobs seen jobs
  end.

Definition ids_of (jobs : list RealtimeJobPayload) : gset string :=
  list_to_set (map getJobID jobs).

(** A [null] payload next to runtime dependencies. *)
Definition panics_on (j : RealtimeJobPayload) : bool :=
  match getPayload j with
  | Raw JNull => json_Valid (rj_RuntimeDeps j)
  | _ => false
  end.

(** The dispatcher took the submissions one after the other. *)
Fixpoint submits (has_client : bool) (p : pool) (subs : list submission) (p' : pool) : Prop :=
  match subs with
  | [] => p' = p
  | x :: subs => exists q,
      SubmitJobWithMeta has_client (sub_request x) (with_now (sub_at x) p) = Some (q, sub_err x) /\
      submits has_client q subs p'
  end.

(** A submission carries a job under its ids, with the dependencies merged in. *)
Definition carries (renum : string -> string) (j : RealtimeJobPayload) (x : submission) : Prop :=
  exists traceID payload,
    sub_request x = request_of traceID payload j /\
    merge_runtime_deps renum (rj_RuntimeDeps j) (getPayload j) = Some payload.

Lemma submits_app has_client p xs q ys p' :
  submits has_client p xs q -> submits has_client q ys p' -> submits has_client p (xs ++ ys) p'.
Proof.
  revert p. induction xs as [|x xs IH]; intros p; cbn [submits app]; [by intros ->|].
  intros (r & E & H) Hy. exists r. split; [done|]. by apply IH.
Qed.

Lemma fresh_jobs_facts seen jobs :
  NoDup (map getJobID (fresh_jobs seen jobs)) /\
  Forall (fun j => j ∈ jobs /\ well_formed j = true /\ getJobID j ∉ seen) (fresh_jobs seen jobs).
Proof.
  revert seen. induction jobs as [|j jobs IH]; intros seen; cbn [fresh_jobs map]; [by repeat constructor|].
  destruct (well_formed j && negb (bool_decide (getJobID j ∈ seen))) eqn:E.
  - split_bools. destruct (IH ({[getJobID j]} ∪ seen)) as [Hn Hf]. cbn [map]. split.
    + constructor; [|done]. intros Hin. apply list_elem_of_fmap in Hin as (j' & Heq & Hin).
      rewrite Forall_forall in Hf. destruct (Hf _ Hin) as (_ & _ & Hout). set_solver.
    + constructor; [by split; [left|]|]. eapply Forall_impl; [exact Hf|].
      cbv beta. intros j' (Hin & Hw & Hout). split; [by right|]. split; [done|set_solver].
  - destruct (IH seen) as [Hn Hf]. split; [done|]. eapply Forall_impl; [exact Hf|].
    cbv beta. intros j' (Hin & Hrest). split; [by right|done].
Qed.

Lemma merge_runtime_deps_total renum j :
  is_Some (merge_runtime_deps renum (rj_RuntimeDeps j) (getPayload j)) <-> panics_on j = false.
Proof.
  unfold merge_runtime_deps, panics_on.
  destruct (rj_RuntimeDeps j) as [| |d], (getPayload j) as [| |[]]; cbn;
    repeat case_inner; split; intros H; try done; try (by destruct H).
Qed.

Section memory_guard.
Context (renum : string -> string) (has_client : bool) (deviceID : string) (NewTraceID : nat -> string).
Abbreviation process := (process_job renum has_client deviceID None NewTraceID).
Abbreviation processes := (process_jobs renum has_client deviceID None NewTraceID).

(** What the jobs [js] added to the state. *)
Definition submitted (s : PollingClient) (js : list RealtimeJobPayload) (s' : PollingClient) : Prop :=
  exists subs, submissions s' = submissions s ++ subs /\ Forall2 (carries renum) js subs /\
    submits has_client (dispatcher s) subs (dispatcher s').

Definition added (s : PollingClient) (js : list RealtimeJobPayload) (s' : PollingClient) : Prop :=
  dom (sentJobs s') = dom (sentJobs s) ∪ ids_of js /\ submitted s js s'.

Lemma submitted_nil s s' : submissions s' = submissions s -> dispatcher s' = dispatcher s -> submitted s [] s'.
Proof. intros E D. exists []. by rewrite app_nil_r. Qed.

Lemma submitted_app s js s1 ks s2 : submitted s js s1 -> submitted s1 ks s2 -> submitted s (js ++ ks) s2.
Proof.
  intros (xs & E1 & F1 & S1) (ys & E2 & F2 & S2). exists (xs ++ ys). rewrite E2, E1, app_assoc.
  split; [done|]. split; [by apply Forall2_app|by eapply submits_app].
Qed.

Lemma added_nil s : added s [] s.
Proof.
  split; [unfold ids_of; set_solver|]. exists []. by rewrite app_nil_r.
Qed.

Lemma added_cons s j s1 js s2 : added s [j] s1 -> added s1 js s2 -> added s (j :: js) s2.
Proof.
  intros [Hd1 H1] [Hd2 H2]. split; [rewrite Hd2, Hd1; unfold ids_of; cbn; set_solver|].
  by eapply (submitted_app _ [j]).
Qed.

Lemma process_job_memory now j s :
  if well_formed j && negb (bool_decide (getJobID j ∈ dom (sentJobs s))) then
    if panics_on j then (process now j s).2 = false
    else exists s', process now j s = (s', true) /\ added s [j] s'
  else process now j s = (s, true).
Proof.
  unfold process_job, detect_duplicate. destruct (well_formed j); [cbn [andb]|done].
  destruct (sentJobs s !! getJobID j) as [t|] eqn:Hl; cbv beta iota zeta.
  { rewrite bool_decide_true by (apply elem_of_dom; eauto). done. }
  rewrite bool_decide_false by (by apply not_elem_of_dom). cbn [negb].
  pose proof (merge_runtime_deps_total renum j) as Hm.
  destruct (merge_runtime_deps renum _ _) as [payload|] eqn:Ep.
  - destruct (panics_on j) eqn:Epan; [by destruct (proj1 Hm ltac:(eauto))|].
    eexists. split; [reflexivity|]. unfold dispatch.
    destruct (SubmitJob_settles has_client (request_of (NewTraceID (length (submissions s))) payload j)
      (with_now now (dispatcher s))) as (p' & E & _).
    cbn [dispatcher with_sentJobs submissions] in *. rewrite E. split.
    + cbn. rewrite dom_insert_L. unfold ids_of. cbn. set_solver.
    + eexists. split; [reflexivity|]. split.
      * repeat constructor. eexists _, payload. split; [reflexivity|exact Ep].
      * exists p'. split; [exact E|reflexivity].
  - destruct (panics_on j); [done|]. by destruct (proj2 Hm eq_refl).
Qed.

(** Without Redis nothing is asked. *)
Lemma process_jobs_no_redis clock i jobs s : setnx_calls (processes clock i jobs s).1 = setnx_calls s.
Proof.
  revert i s. induction jobs as [|j jobs IH]; intros i s; cbn [process_jobs]; [done|].
  assert (H : setnx_calls (process (clock i) j s).1 = setnx_calls s).
  { unfold process_job, detect_duplicate, dispatch. destruct (well_formed j); [|done].
    destruct (sentJobs s !! _); [done|]. destruct (merge_runtime_deps _ _ _); [|done]. cbn [fst].
    by destruct (SubmitJobWithMeta _ _ _) as [[p e]|]. }
  destruct (process (clock i) j s) as [s1 []]; cbn [fst] in *; [by rewrite IH|done].
Qed.

Lemma process_jobs_memory clock i jobs s :
  let fresh := fresh_jobs (dom (sentJobs s)) jobs in
  if existsb panics_on fresh then (processes clock i jobs s).2 = false
  else exists s', processes clock i jobs s = (s', true) /\ added s fresh s'.
Proof.
  cbv zeta. revert i s. induction jobs as [|j jobs IH]; intros i s; cbn [fresh_jobs process_jobs existsb].
  { exists s. split; [done|apply added_nil]. }
  pose proof (process_job_memory (clock i) j s) as Hj.
  destruct (well_formed j && _) eqn:Ej.
  - cbn [existsb]. destruct (panics_on j); cbn [orb].
    + destruct (process (clock i) j s) as [s1 b]. cbn in Hj. by subst b.
    + destruct Hj as (s1 & E1 & H1). rewrite E1. cbv beta iota zeta.
      specialize (IH (S i) s1). rewrite (proj1 H1) in IH.
      replace (dom (sentJobs s) ∪ ids_of [j]) with ({[getJobID j]} ∪ dom (sentJobs s)) in IH
        by (unfold ids_of; cbn; set_solver).
      destruct (existsb panics_on _); [done|]. destruct IH as (s2 & E2 & H2).
      exists s2. split; [done|]. by eapply added_cons.
  - rewrite Hj. cbv beta iota zeta. apply IH.
Qed.
End memory_guard.

(** ** Duplicates in Redis *)

(** One [SETNX] for each job, in order, with the answers of the server. *)
Fixpoint asked (r : SetNX) (deviceID : string) (hist : list setnx_call) (jobs : list RealtimeJobPayload)
    (calls : list setnx_call) : Prop :=
  match jobs, calls with
  | [], [] => True
  | j :: jobs, c :: calls =>
      nx_key c = dedup_key deviceID (getJobID j) /\ nx_ttl c = sentJobsTTL /\
      nx_answer c = r hist (nx_at c) (nx_key c) (nx_ttl c) /\ asked r deviceID (hist ++ [c]) jobs calls
  | _, _ => False
  end.

(** The jobs whose key was set. *)
Fixpoint granted (jobs : list RealtimeJobPayload) (calls : list setnx_call) : list RealtimeJobPayload :=
  match jobs, calls with
  | j :: jobs, c :: calls =>
      match nx_answer c with Ok true => j :: granted jobs calls | _ => granted jobs calls end
  | _, _ => []
  end.

Definition candidates (jobs : list RealtimeJobPayload) : list RealtimeJobPayload := List.filter well_formed jobs.

Section redis_guard.
Context (renum : string -> string) (has_client : bool) (deviceID : string) (NewTraceID : nat -> string) (r : SetNX).
Abbreviation process := (process_job renum has_client deviceID (Some r) NewTraceID).
Abbreviation processes := (process_jobs renum has_client deviceID (Some r) NewTraceID).

(** How far a run got: the candidates it asked for, and whether it ended. *)
Definition asked_until (jobs : list RealtimeJobPayload) (s s' : PollingClient) (alive : bool) : Prop :=
  exists n calls,
    let js := take n (candidates jobs) in
    asked r deviceID (setnx_calls s) js calls /\
    setnx_calls s' = setnx_calls s ++ calls /\ sentJobs s' = sentJobs s /\
    if alive then
      js = candidates jobs /\ existsb panics_on (granted js calls) = false /\
      submitted renum has_client s (granted js calls) s'
    else exists before j, granted js calls = before ++ [j] /\ last js = Some j /\ panics_on j = true /\
      submitted renum has_client s before s'.

Lemma process_job_redis now j s : well_formed j = true ->
  exists c s', nx_key c = dedup_key deviceID (getJobID j) /\ nx_ttl c = sentJobsTTL /\
    nx_answer c = r (setnx_calls s) (nx_at c) (nx_key c) (nx_ttl c) /\
    process now j s = (s', match nx_answer c with Ok true => negb (panics_on j) | _ => true end) /\
    setnx_calls s' = setnx_calls s ++ [c] /\ sentJobs s' = sentJobs s /\
    submitted renum has_client s
      (match nx_answer c with Ok true => if panics_on j then [] else [j] | _ => [] end) s'.
Proof.
  intros Hw. set (answer := r (setnx_calls s) now (dedup_key deviceID (getJobID j)) sentJobsTTL).
  exists (mkSetNX now (dedup_key deviceID (getJobID j)) sentJobsTTL answer). cbn [nx_key nx_ttl nx_at nx_answer].
  unfold process_job, detect_duplicate, MarkJobProcessed. rewrite Hw. fold answer.
  set (s1 := log_setnx _ s). pose proof (merge_runtime_deps_total renum j) as Hm.
  destruct answer as [[]|e].
  2,3: exists s1; repeat (split; [done|]); by apply submitted_nil.
  destruct (merge_runtime_deps renum _ _) as [payload|] eqn:Ep.
  2:{ destruct (panics_on j); [|by destruct (proj2 Hm eq_refl)].
      exists s1. repeat (split; [done|]). by apply submitted_nil. }
  destruct (panics_on j) eqn:Epan; [discriminate (proj1 Hm (mk_is_Some _ _ eq_refl))|].
  destruct (SubmitJob_settles has_client (request_of (NewTraceID (length (submissions s))) payload j)
    (with_now now (dispatcher s))) as (p' & E & _).
  unfold dispatch. cbn [s1 dispatcher log_setnx submissions]. rewrite E.
  eexists. do 3 (split; [done|]). split; [reflexivity|]. do 2 (split; [done|]).
  eexists. split; [reflexivity|]. split.
  - repeat constructor. eexists _, payload. split; [reflexivity|exact Ep].
  - exists p'. split; [exact E|reflexivity].
Qed.

Lemma process_jobs_redis clock i jobs s :
  asked_until jobs s (processes clock i jobs s).1 (processes clock i jobs s).2.
Proof.
  revert i s. induction jobs as [|j jobs IH]; intros i s; cbn [process_jobs].
  { exists 0%nat, []. cbn. rewrite app_nil_r. repeat (split; [done|]). by apply submitted_nil. }
  destruct (well_formed j) eqn:Hw.
  2:{ assert (E : process (clock i) j s = (s, true)) by (unfold process_job; by rewrite Hw).
      rewrite E. unfold asked_until, candidates. cbn [List.filter]. rewrite Hw. apply IH. }
  destruct (process_job_redis (clock i) j s Hw) as (c & s1 & Hk & Ht & Ha & -> & Hc & Hs & Hsub).
  unfold asked_until, candidates. cbn [List.filter]. rewrite Hw. fold (candidates jobs).
  destruct (match nx_answer c with Ok true => negb (panics_on j) | _ => true end) eqn:Hal.
  - specialize (IH (S i) s1). destruct (processes clock (S i) jobs s1) as [s2 alive]. cbn [fst snd] in *.
    destruct IH as (n & calls & Hasked & Hc2 & Hs2 & Hend). exists (S n), (c :: calls).
    cbn [take asked granted]. rewrite Hc in Hasked. split; [done|]. rewrite Hc2, Hc, <- app_assoc. split; [done|].
    split; [congruence|].
    assert (Hg : forall l, submitted renum has_client s1 l s2 ->
      submitted renum has_client s (match nx_answer c with Ok true => j :: l | _ => l end) s2 /\
      existsb panics_on (match nx_answer c with Ok true => j :: l | _ => l end) = existsb panics_on l).
    { intros l Hl. destruct (nx_answer c) as [[]|e]; [|split; [exact (submitted_app _ _ _ [] _ _ _ Hsub Hl)|done]..].
      apply negb_true_iff in Hal. rewrite Hal in Hsub.
      split; [exact (submitted_app _ _ _ [j] _ _ _ Hsub Hl)|cbn [existsb]; by rewrite Hal]. }
    destruct alive.
    + destruct Hend as (Hall & Hp & Hs'). destruct (Hg _ Hs') as [H1 H2]. by rewrite Hall at 1; rewrite H2.
    + destruct Hend as (before & j' & Hgr & Hlast & Hp & Hs'). destruct (Hg _ Hs') as [H1 _].
      exists (match nx_answer c with Ok true => j :: before | _ => before end), j'.
      split; [rewrite Hgr; by destruct (nx_answer c) as [[]|e]|]. split; [|done].
      cbn [take]. destruct (take n (candidates jobs)) as [|x xs]; [discriminate Hlast|exact Hlast].
  - cbn [fst snd]. destruct (nx_answer c) as [[]|e] eqn:Eans; [|done..]. apply negb_false_iff in Hal.
    rewrite Hal in Hsub. exists 1%nat, [c]. cbn [take asked granted]. rewrite Eans, take_0.
    split; [done|]. split; [done|]. split; [done|]. by exists [], j.
Qed.
End redis_guard.

(** ** The life of a polling client *)

(** A Redis server that keeps [SET NX] with a time to live: a key is set again
    only when every earlier setting has expired. *)
Class RedisContract (r : SetNX) : Prop :=
  setnx_expired : forall hist now key ttl c,
    r hist now key ttl = Ok true -> c ∈ hist -> nx_key c = key -> nx_answer c = Ok true ->
    nx_at c + nx_ttl c <= now.

(** A server that keeps all its keys. *)
Definition redis_server : SetNX := fun hist now key ttl =>
  Ok (forallb (fun c => negb ((nx_key c =?s key) &&
        (match nx_answer c with Ok true => true | _ => false end)) ||
        (nx_at c + nx_ttl c <=? now)) hist).

#[export] Instance redis_server_contract : RedisContract redis_server.
Proof.
  intros hist now key ttl c [= H] Hin <- Ha. rewrite forallb_forall in H.
  specialize (H c ltac:(by apply list_elem_of_In)). rewrite eqb_refl_s, Ha in H. cbn in H. lia.
Qed.

Section life.
Context (renum : string -> string) (has_client : bool) (deviceID : string).
Context (redisClient : option SetNX) (NewTraceID : nat -> string).
Abbreviation fetch := (fetchNewJobs renum has_client deviceID redisClient NewTraceID).

(** The steps in the life of the client, with the time: polls with any answer,
    the dispatcher's own activity, and, if [cleans], the cleanup. *)
Inductive pstep (cleans : bool) : Z * PollingClient -> Z * PollingClient -> Prop :=
  | step_poll claimJobs key server clock t t' s s' res :
      (forall i, t <= clock i <= t') -> (forall i j, (i <= j)%nat -> clock i <= clock j) ->
      fetch false claimJobs key server clock s = (s', res) ->
      pstep cleans (t, s) (t', s')
  | step_others p t t' s : t <= t' -> pstep cleans (t, s) (t', with_dispatcher p s)
  | step_cleanup t t' s : cleans = true -> t <= t' ->
      pstep cleans (t, s) (t', CleanupOldJobs redisClient t' s).

(** A predicate on the time and the state that every single job keeps is kept by
    a poll. *)
Lemma fetch_preserves (P : Z -> PollingClient -> Prop) claimJobs key server clock t t' s s' res :
  (forall i, t <= clock i <= t') -> (forall i j, (i <= j)%nat -> clock i <= clock j) ->
  (forall a b s, a <= b -> P a s -> P b s) ->
  (forall a s x, P a s -> P a (with_metrics x s)) -> (forall a s x, P a s -> P a (with_claimed x s)) ->
  (forall now j s, P now s -> P now (process_job renum has_client deviceID redisClient NewTraceID now j s).1) ->
  fetch false claimJobs key server clock s = (s', res) -> P t s -> P t' s'.
Proof.
  intros Hc Hm Hmono Hmet Hcl Hjob E Ht. unfold fetchNewJobs in E. cbv beta iota in E.
  assert (Hs : P (clock 0%nat) (currentMetrics key s).1).
  { apply Hmono with t; [apply Hc|]. unfold currentMetrics. by case_inner; [|apply Hmet]. }
  destruct (currentMetrics key s) as [s1 m]. cbn in Hs.
  assert (Hs1 : P t' s1) by (eapply Hmono; [|exact Hs]; apply Hc).
  destruct (server _); try (by injection E as <- <-).
  destruct (decode_poll b) as [[[] jobs]|]; try (by injection E as <- <-).
  assert (Hall : forall jobs i s, P (clock i) s ->
    P t' (process_jobs renum has_client deviceID redisClient NewTraceID clock i jobs s).1).
  { clear - Hc Hm Hmono Hjob. induction jobs as [|j jobs IH]; intros i s H; cbn [process_jobs].
    { eapply Hmono; [|exact H]. apply Hc. }
    specialize (Hjob _ j _ H). destruct (process_job _ _ _ _ _ _ _ _) as [s1 []]; cbn in *.
    - apply IH. eapply Hmono; [|exact Hjob]. apply Hm. lia.
    - eapply Hmono; [|exact Hjob]. apply Hc. }
  specialize (Hall jobs 0%nat _ Hs). destruct (process_jobs _ _ _ _ _ _ _ _ _) as [s2 []];
    injection E as <- <-; [by apply Hcl|done].
Qed.

Definition sub_id (x : submission) : string := jobID (sub_request x).

(** No two submissions of one job are closer than the TTL. *)
Definition spaced (subs : list submission) : Prop :=
  forall i j a b, (i < j)%nat -> subs !! i = Some a -> subs !! j = Some b ->
  sub_id a = sub_id b -> sub_at a + sentJobsTTL <= sub_at b.

Lemma spaced_snoc subs x :
  spaced subs -> (forall a, a ∈ subs -> sub_id a = sub_id x -> sub_at a + sentJobsTTL <= sub_at x) ->
  spaced (subs ++ [x]).
Proof.
  intros H Hx i j a b Hij Ha Hb Heq. apply lookup_app_Some in Hb as [Hb|[Hl Hb]].
  - rewrite lookup_app_l in Ha by (apply lookup_lt_Some in Hb; lia). eauto.
  - apply list_lookup_singleton_Some in Hb as [Hj <-].
    rewrite lookup_app_l in Ha by lia. apply Hx; [by eapply list_elem_of_lookup_2|done].
Qed.

(** The trace a submission leaves in the duplicate detection. *)
Definition remembered (now : Z) (s : PollingClient) (x : submission) : Prop :=
  match redisClient with
  | None => sub_at x + sentJobsTTL < now \/
      exists t, sentJobs s !! sub_id x = Some t /\ sub_at x <= t
  | Some _ => mkSetNX (sub_at x) (dedup_key deviceID (sub_id x)) sentJobsTTL (Ok true)
                ∈ setnx_calls s
  end.

Definition guarded (now : Z) (s : PollingClient) : Prop :=
  spaced (submissions s) /\ forall x, x ∈ submissions s -> sub_at x <= now /\ remembered now s x.

Lemma dispatch_submissions now r s :
  exists e, submissions (dispatch has_client now r s) = submissions s ++ [mkSubmission now r e] /\
    sentJobs (dispatch has_client now r s) = sentJobs s /\
    setnx_calls (dispatch has_client now r s) = setnx_calls s.
Proof.
  unfold dispatch. destruct (SubmitJob_settles has_client r (with_now now (dispatcher s))) as (p & -> & _).
  eexists. repeat split.
Qed.

Lemma guarded_mono a b s : a <= b -> guarded a s -> guarded b s.
Proof.
  intros Hab [Hs Hg]. split; [done|]. intros x Hx. destruct (Hg x Hx) as [Ha Hr]. split; [lia|].
  unfold remembered in *. destruct redisClient; [done|]. destruct Hr as [Hr|Hr]; [left; lia|by right].
Qed.

(** A job that passes the detection is far from its earlier submissions, and is
    remembered from then on. *)
Lemma detect_duplicate_guards now j s s' b :
  (forall r, redisClient = Some r -> RedisContract r) ->
  guarded now s -> detect_duplicate deviceID redisClient now j s = (s', b) ->
  guarded now s' /\ submissions s' = submissions s /\
  (b = true -> (forall e r, jobID r = j -> remembered now s' (mkSubmission now r e)) /\
     forall a, a ∈ submissions s -> sub_id a = j -> sub_at a + sentJobsTTL <= now).
Proof.
  intros Hc [Hs Hg]. unfold detect_duplicate, MarkJobProcessed, remembered in *.
  destruct redisClient as [r|] eqn:Er.
  - set (answer := r _ _ _ _). intros E.
    assert (Es : s' = log_setnx (mkSetNX now (dedup_key deviceID j) sentJobsTTL answer) s)
      by (by destruct answer; injection E).
    assert (Hb : b = true -> answer = Ok true) by (destruct answer; injection E; intros; by subst).
    clear E. subst s'. unfold guarded, remembered. rewrite Er. cbn [submissions log_setnx setnx_calls].
    split; [|split; [done|]].
    + split; [done|]. intros x Hx. destruct (Hg x Hx). split; [done|]. apply elem_of_app. by left.
    + intros Hb'. split.
      * intros e q <-. apply elem_of_app. right. rewrite (Hb Hb'). by left.
      * intros a Ha <-. destruct (Hg a Ha) as [_ Hr].
        by apply (setnx_expired (RedisContract := Hc r eq_refl) _ _ _ _ _ (Hb Hb') Hr).
  - destruct (sentJobs s !! j) as [t|] eqn:El; intros [= <- <-]; (split; [|split; [done|]]); try done.
    + split; [done|]. intros x Hx. unfold remembered. rewrite Er. by apply Hg.
    + split; [done|]. intros x Hx. unfold remembered. rewrite Er. destruct (Hg x Hx) as [Ha Hr].
      split; [done|]. destruct Hr as [Hr|(t & Ht & Hle)]; [by left|]. right.
      cbn. destruct (decide (j = sub_id x)) as [->|Hne]; [by rewrite El in Ht|].
      exists t. by rewrite lookup_insert_ne.
    + intros _. split.
      * intros e r <-. right. exists now. cbn. unfold sub_id. cbn. by rewrite lookup_insert_eq.
      * intros a Ha <-. destruct (Hg a Ha) as [_ [Hr|(t & Ht & _)]]; [lia|]. by rewrite El in Ht.
Qed.

Lemma process_job_guards now j s :
  (forall r, redisClient = Some r -> RedisContract r) -> guarded now s ->
  guarded now (process_job renum has_client deviceID redisClient NewTraceID now j s).1.
Proof.
  intros Hc Hg. unfold process_job. destruct (well_formed j); [|done].
  destruct (detect_duplicate deviceID redisClient now (getJobID j) s) as [s1 b] eqn:E.
  destruct (detect_duplicate_guards _ _ _ _ _ Hc Hg E) as (Hg1 & Es & Hb).
  destruct b; [|done]. destruct (Hb eq_refl) as [Hrem Hfar].
  destruct (merge_runtime_deps _ _ _) as [payload|]; [|done]. cbn [fst].
  set (r := request_of _ _ _).
  destruct (dispatch_submissions now r s1) as (e & Ed & Hsent & Hcalls).
  destruct Hg1 as [Hsp Hall]. unfold guarded. rewrite Ed. split.
  - apply spaced_snoc; [done|]. rewrite Es. exact Hfar.
  - intros x Hx. assert (Hsame : remembered now s1 x -> remembered now (dispatch has_client now r s1) x)
      by (unfold remembered; by rewrite Hsent, Hcalls).
    apply elem_of_app in Hx as [Hx|Hx].
    + destruct (Hall x Hx). auto.
    + apply list_elem_of_singleton in Hx as ->. split; [cbn; lia|]. apply Hsame, Hrem. reflexivity.
Qed.

Lemma CleanupOldJobs_guards t s : guarded t s -> guarded t (CleanupOldJobs redisClient t s).
Proof.
  intros [Hs Hg]. unfold CleanupOldJobs, guarded, remembered in *.
  destruct redisClient; [by split|]. cbn. split; [done|].
  intros x Hx. destruct (Hg x Hx) as [Ha Hr]. split; [done|]. destruct Hr as [Hr|(u & Hu & Hle)]; [by left|].
  destruct (decide (sentJobsTTL < t - u)); [left; lia|]. right. exists u.
  by rewrite map_lookup_filter_Some.
Qed.

Lemma pstep_guards cleans a b :
  (forall r, redisClient = Some r -> RedisContract r) ->
  pstep cleans a b -> guarded a.1 a.2 -> guarded b.1 b.2.
Proof.
  intros Hc Hp Hg. destruct Hp as [claimJobs key server clock t t' s s' res Hcl Hm E|p t t' s Ht|t t' s _ Ht];
    cbn [fst snd] in *.
  - eapply (fetch_preserves guarded); eauto using guarded_mono, process_job_guards.
  - by apply (guarded_mono t).
  - by apply CleanupOldJobs_guards, (guarded_mono t).
Qed.

Lemma reachable_guards cleans a b :
  (forall r, redisClient = Some r -> RedisContract r) ->
  rtc (pstep cleans) a b -> guarded a.1 a.2 -> guarded b.1 b.2.
Proof. induction 2; eauto using pstep_guards. Qed.

(** Without a cleanup the in-memory map only grows, and holds every id that was
    submitted. *)
Definition final (ids : gset string) (subs : list submission) (_ : Z) (s : PollingClient) : Prop :=
  ids ⊆ dom (sentJobs s) /\
  filter (fun x => sub_id x ∈ ids) (submissions s) = subs.

Lemma process_job_final ids subs now j s :
  redisClient = None -> final ids subs now s ->
  final ids subs now (process_job renum has_client deviceID redisClient NewTraceID now j s).1.
Proof.
  intros Hr [Hd Hs]. unfold process_job. destruct (well_formed j); [|done].
  unfold detect_duplicate. rewrite Hr. destruct (sentJobs s !! getJobID j) as [t|] eqn:El; [done|].
  assert (Hf : final ids subs now (with_sentJobs (<[getJobID j := now]> (sentJobs s)) s))
    by (split; [cbn; rewrite dom_insert_L; set_solver|done]).
  destruct (merge_runtime_deps _ _ _) as [payload|]; [|done]. cbn [fst].
  set (r := request_of _ _ _). set (s1 := with_sentJobs _ s) in *.
  destruct (dispatch_submissions now r s1) as (e & Ed & Hsent & _). destruct Hf as [Hd1 Hs1].
  split; [by rewrite Hsent|]. rewrite Ed, filter_app, Hs1, filter_cons_False, filter_nil, app_nil_r; [done|].
  cbn. intros Hin. apply not_elem_of_dom in El. set_solver.
Qed.

Lemma reachable_final ids subs a b :
  redisClient = None -> rtc (pstep false) a b -> final ids subs a.1 a.2 -> final ids subs b.1 b.2.
Proof.
  intros Hr. induction 1 as [|a b c Hp _ IH]; [done|]. intros Hf. apply IH.
  destruct Hp as [claimJobs key server clock t t' s s' res Hcl Hm E|p t t' s Ht|t t' s ? Ht]; [|done|done].
  cbn [fst snd] in *. eapply (fetch_preserves (final ids subs)); eauto using process_job_final.
Qed.
End life.

(** ** Properties *)

(** The jobs that a response delivers, if it is a poll that went well. *)
Definition delivered (resp : poll_response) : option (list RealtimeJobPayload) :=
  match resp with
  | Body b => match decode_poll b with Some (true, jobs) => Some jobs | _ => None end
  | _ => None
  end.

(** Nothing but the metrics that were sent may differ. *)
Definition same_jobs (s s' : PollingClient) : Prop :=
  sentJobs s' = sentJobs s /\ submissions s' = submissions s /\ dispatcher s' = dispatcher s /\
  setnx_calls s' = setnx_calls s.

(** C24.  A poll hands exactly the fresh jobs of the response to the dispatcher, in
    order, each under its canonical ids and with its dependencies merged in, and
    returns the number of jobs in the response, fresh or not.  Without Redis the
    fresh jobs are the well-formed ones whose id is not remembered, and their ids
    are remembered; it panics exactly when a fresh job has a [null] payload beside
    runtime dependencies.  With Redis every well-formed job is asked for once, in
    order, under its key of this device and with the time to live; the fresh jobs
    are those whose key was set (a key that exists, and an error of the server,
    hold the job back), and it panics at the first of them that such a payload
    has.  After the context has ended, or for a response that does not decode or
    is not [ok], nothing is submitted, asked or remembered. *)
Theorem fetchNewJobs_correct (renum : string -> string) (has_client : bool) (deviceID : string)
    (redisClient : option SetNX) (NewTraceID : nat -> string) (ctxDone claimJobs : bool) (key : string)
    (server : poll_request -> poll_response) (clock : nat -> Z) (s : PollingClient) :
  let '(s', res) :=
    fetchNewJobs renum has_client deviceID redisClient NewTraceID ctxDone claimJobs key server clock s in
  match (if ctxDone then None else delivered (server (mkPoll claimJobs (currentMetrics key s).2))) with
  | None => res = Some 0 /\ same_jobs s s'
  | Some jobs =>
      match redisClient with
      | None =>
          let fresh := fresh_jobs (dom (sentJobs s)) jobs in
          if existsb panics_on fresh then res = None
          else res = Some (Z.of_nat (length jobs)) /\ added renum has_client s fresh s' /\ setnx_calls s' = setnx_calls s
      | Some r =>
          exists alive, asked_until renum has_client deviceID r jobs s s' alive /\
            res = if alive then Some (Z.of_nat (length jobs)) else None
      end
  end.
Proof.
  unfold fetchNewJobs, delivered. destruct ctxDone; [done|].
  assert (Hsame : forall m x, currentMetrics key s = (x, m) -> same_jobs s x)
    by (unfold currentMetrics; intros m x; case_inner; intros [= <- _]; done).
  destruct (currentMetrics key s) as [s1 m]. specialize (Hsame _ _ eq_refl) as Hs1. cbn [snd].
  destruct (server _) as [| | |b]; try by split.
  destruct (decode_poll b) as [[[] jobs]|]; try by split.
  destruct Hs1 as (Es & Esub & Ed & Ec). destruct redisClient as [r|].
  - pose proof (process_jobs_redis renum has_client deviceID NewTraceID r clock 0 jobs s1) as Hjobs.
    unfold asked_until, submitted in *. rewrite Es, Esub, Ed, Ec in Hjobs.
    destruct (process_jobs _ _ _ _ _ _ _ _ _) as [s2 []]; [exists true|exists false]; by split.
  - pose proof (process_jobs_memory renum has_client deviceID NewTraceID clock 0 jobs s1) as Hjobs.
    pose proof (process_jobs_no_redis renum has_client deviceID NewTraceID clock 0 jobs s1) as Hc.
    cbv zeta in *. unfold added, submitted in *. rewrite Es, Esub, Ed in Hjobs. rewrite Ec in Hc.
    destruct (existsb panics_on _).
    + destruct (process_jobs _ _ _ _ _ _ _ _ _) as [s2 b']. cbn in Hjobs. by subst b'.
    + destruct Hjobs as (s2 & E & H). by rewrite E in Hc |- *.
Qed.

Definition start_state (p : pool) : PollingClient := mkPoller ∅ 0 "" 0 p [] [].

(** Whatever the control plane answers and however polls, cleanups and
    the dispatcher's work follow each other, two submissions of one job are at
    least [sentJobsTTL] apart, with the in-memory map as with a Redis server
    that keeps its contract. *)
Theorem submissions_spaced (renum : string -> string) (has_client : bool) (deviceID : string)
    (redisClient : option SetNX) (NewTraceID : nat -> string) (t t' : Z) (p : pool) (s : PollingClient) :
  (forall r, redisClient = Some r -> RedisContract r) ->
  rtc (pstep renum has_client deviceID redisClient NewTraceID true) (t, start_state p) (t', s) ->
  forall i j a b, (i < j)%nat -> submissions s !! i = Some a -> submissions s !! j = Some b ->
    jobID (sub_request a) = jobID (sub_request b) -> sub_at a + sentJobsTTL <= sub_at b.
Proof.
  intros Hc Hr. apply (reachable_guards _ _ _ _ _ _ _ _ Hc) in Hr as [Hs _]; [exact Hs|].
  split; [by intros i j a b _ Ha|]. intros x Hx. by apply elem_of_nil in Hx.
Qed.

(** A control plane that delivers one job, whatever the request. *)
Definition one_job : poll_request -> poll_response := fun _ =>
  Body (Raw (JObj [("ok", JBool true); ("jobs", JArr [JObj
    [("id", JStr "job-1"); ("job_type", JStr "process"); ("execution_id", JStr "e-1")]])])).

(** The state after a poll of [one_job] at a time. *)
Definition poll_at (redisClient : option SetNX) (now : Z) (s : PollingClient) : PollingClient :=
  (fetchNewJobs id false "dev" redisClient (fun _ => "trace") false true "" one_job (fun _ => now) s).1.

Lemma poll_at_step redisClient cleans t now s :
  t <= now ->
  pstep id false "dev" redisClient (fun _ => "trace") cleans (t, s) (now, poll_at redisClient now s).
Proof.
  intros Ht. eapply (step_poll _ _ _ _ _ _ true "" one_job (fun _ => now)); [lia|lia|].
  apply surjective_pairing.
Qed.

(** Eleven minutes apart, the job is submitted twice. *)
Lemma submissions_spaced_witness :
  let p := poll_at (Some redis_server) 0 (start_state empty_pool) in
  let s := poll_at (Some redis_server) (11 * Minute) (with_dispatcher empty_pool p) in
  exists a b, submissions s = [a; b] /\ sub_at a + sentJobsTTL <= sub_at b.
Proof.
  cbv zeta. eexists _, _. split; [vm_compute; reflexivity|].
  apply (submissions_spaced id false "dev" (Some redis_server) (fun _ => "trace") 0 (11 * Minute)
    empty_pool (poll_at (Some redis_server) (11 * Minute)
      (with_dispatcher empty_pool (poll_at (Some redis_server) 0 (start_state empty_pool))))
    ltac:(intros r [= <-]; apply redis_server_contract)
    ltac:(eapply rtc_l; [apply (poll_at_step _ _ 0 0); lia|]; eapply rtc_l;
          [apply (step_others _ _ _ _ _ _ empty_pool 0 0); lia|]; apply rtc_once;
          apply poll_at_step; vm_compute; discriminate)
    0%nat 1%nat); [lia|vm_compute; reflexivity..].
Defined.

(** The program never calls [CleanupOldJobs]: without it an agent
    that has no Redis submits a job id only once in its life, and a submission
    that failed, for a full queue say, is never tried again. *)
Theorem failed_submission_final (renum : string -> string) (has_client : bool) (deviceID : string)
    (NewTraceID : nat -> string) (t0 t t' : Z) (p : pool) (s s' : PollingClient) (x : submission) :
  rtc (pstep renum has_client deviceID None NewTraceID false) (t, s) (t', s') ->
  sentJobs s !! jobID (sub_request x) = Some t0 ->
  filter (fun y => jobID (sub_request y) = jobID (sub_request x)) (submissions s') =
  filter (fun y => jobID (sub_request y) = jobID (sub_request x)) (submissions s).
Proof.
  intros Hr Hl. set (ids := {[jobID (sub_request x)]} : gset string).
  assert (Hf : final ids (filter (fun y => sub_id y ∈ ids) (submissions s)) t s).
  { split; [|done]. apply elem_of_dom_2 in Hl. set_solver. }
  apply (reachable_final _ _ _ _ _ _ _ _ _ eq_refl Hr) in Hf as [_ Hf]. cbn [snd] in Hf.
  assert (He : forall l : list submission, filter (fun y => jobID (sub_request y) = jobID (sub_request x)) l =
                         filter (fun y => sub_id y ∈ ids) l).
  { intros l. apply list_filter_iff. intros y. unfold sub_id, ids. set_solver. }
  by rewrite !He, Hf.
Qed.

Definition full_pool : pool := with_queue (replicate 128 merge_request) empty_pool.

(** The job finds the queue full; a year later the queue is empty, the job is
    delivered again, and is not submitted. *)
Lemma failed_submission_final_witness :
  let s := poll_at None 0 (start_state full_pool) in
  let s' := poll_at None (365 * 24 * 60 * Minute) (with_dispatcher empty_pool s) in
  exists x, submissions s = [x] /\ sub_err x = Some full_text /\
    filter (fun y => jobID (sub_request y) = jobID (sub_request x)) (submissions s') = [x].
Proof.
  cbv zeta. eexists. split; [vm_compute; reflexivity|]. split; [reflexivity|].
  rewrite (failed_submission_final id false "dev" (fun _ => "trace") 0 0 (365 * 24 * 60 * Minute)
    full_pool (poll_at None 0 (start_state full_pool))); [vm_compute; reflexivity| |vm_compute; reflexivity].
  eapply rtc_l; [apply (step_others _ _ _ _ _ _ empty_pool 0 0); lia|]. apply rtc_once.
  apply poll_at_step. vm_compute. discriminate.
Defined.

Lemma poll_and_schedule_ceiling k renum has_client deviceID redisClient NewTraceID b t s lj c l :
  poll_and_schedule k renum has_client deviceID redisClient NewTraceID b t s lj c = Some l ->
  ceilingPolls l = c.
Proof.
  unfold poll_and_schedule. destruct (fetchNewJobs _ _ _ _ _ _ _ _ _ _ _) as [s1 [n|]]; [|done].
  by intros [= <-].
Qed.

Lemma adaptive_tick_spec k renum has_client deviceID redisClient NewTraceID t l b l' :
  adaptive_tick k renum has_client deviceID redisClient NewTraceID t l = (b, Some l') ->
  (ceilingPolls l', b) = claim_decision k (poller l) (ceilingPolls l).
Proof.
  unfold adaptive_tick. destruct (claim_decision k (poller l) (ceilingPolls l)) as [c d].
  intros [= <- H]. by apply poll_and_schedule_ceiling in H as ->.
Qed.

Lemma claim_decision_spec k s c :
  0 <= c -> let '(c', b) := claim_decision k s c in
  0 <= c' /\ (b = false -> maxIdlePollInterval k <= currentInterval s /\ c' = c + 1 /\ c' mod 3 <> 0).
Proof.
  intros Hc. unfold claim_decision. destruct (Z.leb_spec (maxIdlePollInterval k) (currentInterval s)).
  - rewrite Z.rem_mod_nonneg by lia. split; [lia|]. intros Hb%Z.eqb_neq. done.
  - split; [lia|done].
Qed.

(** C27.  While the adaptive loop runs, a turn below the idle ceiling
    claims jobs, and so does at least one of any three consecutive turns. *)
Theorem one_of_three_turns_claims (k : intervals) (renum : string -> string) (has_client : bool)
    (deviceID : string) (redisClient : option SetNX) (NewTraceID : nat -> string)
    (ts : list tick) (l : loop) :
  0 <= ceilingPolls l ->
  let flags := adaptive_run k renum has_client deviceID redisClient NewTraceID ts l in
  (currentInterval (poller l) < maxIdlePollInterval k -> flags !! 0%nat <> Some false) /\
  forall i b1 b2 b3, flags !! i = Some b1 -> flags !! S i = Some b2 -> flags !! S (S i) = Some b3 ->
    b1 || b2 || b3 = true.
Proof.
  intros Hc flags. subst flags. split.
  { destruct ts as [|t ts]; cbn [adaptive_run]; [done|]. intros Hlt. unfold adaptive_tick.
    unfold claim_decision. destruct (Z.leb_spec (maxIdlePollInterval k) (currentInterval (poller l))); [lia|].
    by destruct (poll_and_schedule _ _ _ _ _ _ _ _ _ _ _). }
  intros i. revert ts l Hc. induction i as [|i IH]; intros ts l Hc b1 b2 b3.
  all: destruct ts as [|t1 ts]; cbn [adaptive_run]; [done|].
  all: destruct (adaptive_tick _ _ _ _ _ _ t1 l) as [c1 [l1|]] eqn:E1; [|done].
  all: apply adaptive_tick_spec in E1; pose proof (claim_decision_spec k (poller l) _ Hc) as D1;
    rewrite <- E1 in D1; destruct D1 as [Hc1 D1].
  2: { cbn [lookup list_lookup]. by apply IH. }
  cbn [lookup list_lookup]. intros [= <-]. destruct ts as [|t2 ts]; cbn [adaptive_run]; [done|].
  destruct (adaptive_tick _ _ _ _ _ _ t2 l1) as [c2 [l2|]] eqn:E2; [|done].
  apply adaptive_tick_spec in E2; pose proof (claim_decision_spec k (poller l1) _ Hc1) as D2;
    rewrite <- E2 in D2; destruct D2 as [Hc2 D2].
  cbn [lookup list_lookup]. intros [= <-]. destruct ts as [|t3 ts]; cbn [adaptive_run]; [done|].
  unfold adaptive_tick. pose proof (claim_decision_spec k (poller l2) _ Hc2) as D3.
  destruct (claim_decision k (poller l2) (ceilingPolls l2)) as [c c3]. destruct D3 as [_ D3].
  assert (Hb : b3 = c3 -> c1 || c2 || b3 = true).
  { intros ->. destruct c1, c2, c3; try done.
    destruct (D1 eq_refl) as (_ & ? & ?), (D2 eq_refl) as (_ & ? & ?), (D3 eq_refl) as (_ & ? & ?).
    cbn in *. Z.div_mod_to_equations. lia. }
  destruct (poll_and_schedule _ _ _ _ _ _ _ _ _ _ _); cbn; intros [= <-]; by apply Hb.
Qed.

Definition idle_tick : tick :=
  mkTick id false "" (fun _ => RequestFailed) (fun _ => 0) 0 (f64_ratio 1 2).

(** From the ceiling on, an idle agent claims at every third turn. *)
Lemma one_of_three_turns_claims_witness :
  let l := mkLoop (with_interval (300 * Second) (start_state empty_pool)) None 0 in
  let flags := adaptive_run defaultIntervals id false "dev" None (fun _ => "") (replicate 7 idle_tick) l in
  flags = [false; false; true; false; false; true; false] /\
  forall i b1 b2 b3, flags !! i = Some b1 -> flags !! S i = Some b2 -> flags !! S (S i) = Some b3 ->
    b1 || b2 || b3 = true.
Proof.
  split; [vm_compute; reflexivity|].
  apply (one_of_three_turns_claims defaultIntervals id false "dev" None (fun _ => "")
    (replicate 7 idle_tick)
    (mkLoop (with_interval (300 * Second) (start_state empty_pool)) None 0) (Z.le_refl 0)).
Defined.

(** The jitter is applied after the cap: an idle agent at the ceiling may wait
    for longer than the ceiling, or for less and then start to count the polls
    at the ceiling anew. *)
Lemma jitter_leaves_the_ceiling :
  let s := with_interval (300 * Second) (start_state empty_pool) in
  (exists u, f64_le (f64_of_Z 0) u = true /\ f64_lt u (f64_of_Z 1) = true /\
     maxIdlePollInterval defaultIntervals + 40 * Second <
       nextPollInterval defaultIntervals u 0 None 0 s) /\
  (exists u, f64_le (f64_of_Z 0) u = true /\ f64_lt u (f64_of_Z 1) = true /\
     let d := nextPollInterval defaultIntervals u 0 None 0 s in
     d < maxIdlePollInterval defaultIntervals /\
     claim_decision defaultIntervals (with_interval d s) 2 = (0, true)).
Proof.
  split; [exists (f64_ratio 9 10)|exists (f64_ratio 1 10)]; vm_compute; repeat split; reflexivity.
Qed.

(** Metrics are sent once; a request that fails loses them until they change. *)
Lemma metrics_lost_with_the_request renum has_client deviceID r NewTraceID key clock s :
  let s' := (fetchNewJobs renum has_client deviceID r NewTraceID false true key
               (fun _ => RequestFailed) clock s).1 in
  (currentMetrics key s').2 = None.
Proof.
  unfold fetchNewJobs, currentMetrics. cbv beta iota zeta.
  destruct (lastMetricsJSON s =?s key) eqn:E; cbn; by rewrite ?E, ?eqb_refl_s.
Qed.

(** A poll whose jobs carry no execution id counts each of them twice. *)
Example jobs_without_execution_id_count_twice :
  (fetchNewJobs id false "dev" None (fun _ => "trace") false true ""
     (fun _ => Body (Raw (JObj [("ok", JBool true); ("jobs", JArr [JObj
        [("job_id", JStr "job-1"); ("job_type", JStr "scan_dataset")]])])))
     (fun _ => 0) (start_state empty_pool)).2 = Some 2.
Proof. vm_compute. reflexivity. Qed.
