(* ===== verification/Merge.v ===== *)
(** * Merge: the streaming merge of chunk files

    Models [internal/dataset/merge.go].  The file system is a map from paths to
    contents, a set of directories, and the checkpoint files (kept apart, as the
    values they decode to).  Faults of the system calls, the clock, hashing and
    gzip come from an environment [env]; a chunk that is written through a gzip
    writer reaches the file in two parts, the bytes flushed while it is copied
    and the bytes flushed when the writer is closed. *)
From S2P Require Import Prelude GoFloat Path.

(** ** Data *)

Record DeviceOutput := mkDeviceOutput { DeviceID : string; MountPath : string; File : string }.

Record ChunkInfo := mkChunk {
  ChunkID : string; chunk_Path : string; Index : Z; SizeBytes : Z; chunk_Compressed : bool;
  Checksum : string; IsSkipped : bool }.

Record MergeConfig := mkConfig {
  DatasetID : string; DatasetSlug : string; AffinityDeviceID : string;
  cfg_DeviceOutput : option DeviceOutput; Chunks : list ChunkInfo; Strategy : string;
  cfg_MountPath : string; DeleteChunksAfter : bool; Compressed : bool; ChecksumRequired : bool;
  UseTreeMerge : bool; AgentID : string }.

Record MergeResult := mkResult {
  res_DatasetID : string; res_DeviceOutput : option DeviceOutput; res_Checksum : string;
  FileSize : Z; MergedChunks : Z; SkippedChunks : Z; DeletedChunks : Z; DurationMs : Z;
  DiskUsageBefore : Z; DiskUsageAfter : Z }.

(** The times a checkpoint carries are not used again. *)
Record MergeCheckpoint := mkCheckpoint {
  cp_DatasetID : string; OutputPath : string; LastChunkIndex : Z; BytesWritten : Z;
  ChunksMerged : list string }.

Record MergeMetrics := mkMetrics {
  MergeDuration : Z; BytesMerged : Z; metric_Before : Z; metric_After : Z;
  RecoveryEvents : Z; ChecksumFailures : Z }.

Definition DiskSafetyMarginPercent : Z := 15.
Definition ChunkCountThreshold : Z := 200.
Definition DatasetSizeThresholdGB : Z := 50.
Definition MaxChunksPerPass : nat := 64.
Definition CheckpointFileSuffix : string := ".checkpoint.json".
Definition PartialFileSuffix : string := ".partial".

Inductive checkpoint_file := CheckpointData (c : MergeCheckpoint) | CheckpointGarbage.

Record fs := mkFS {
  files : gmap string string;
  dirs : gset string;
  checkpoints : gmap string checkpoint_file;
  mergeMetrics : gmap string MergeMetrics }.

Definition with_files (m : gmap string string) (s : fs) : fs :=
  mkFS m (dirs s) (checkpoints s) (mergeMetrics s).
Definition with_dirs (d : gset string) (s : fs) : fs :=
  mkFS (files s) d (checkpoints s) (mergeMetrics s).
Definition with_checkpoints (c : gmap string checkpoint_file) (s : fs) : fs :=
  mkFS (files s) (dirs s) c (mergeMetrics s).
Definition with_metrics (m : gmap string MergeMetrics) (s : fs) : fs :=
  mkFS (files s) (dirs s) (checkpoints s) m.

(** ** Paths and compression *)

Inductive CompressionType := CompressionNone | CompressionGZ | CompressionZST.

Definition getCompressionType (path : string) : CompressionType :=
  let ext := strings_ToLower (Ext path) in
  if (ext =?s ".gz") || (ext =?s ".gzip") then CompressionGZ
  else if ext =?s ".zst" then CompressionZST
  else CompressionNone.

Definition IsCompressed (path : string) : bool :=
  match getCompressionType path with CompressionNone => false | _ => true end.

Definition resolveChunkPath (path mountPath strategy : string) : result string :=
  if IsAbs path then Ok path
  else if strategy =?s "affinity" then Err "affinity strategy requires absolute path"
  else if strategy =?s "shared_mount" then
    if negb (mountPath =?s "") then Ok (Join [mountPath; path]) else Ok path
  else Ok path.

Definition getOutputPath (deviceOutput : option DeviceOutput) (datasetID datasetSlug : string) : string :=
  let name := if negb (datasetSlug =?s "") then datasetSlug else datasetID in
  let filename := name +:+ "_merged.csv" in
  match deviceOutput with
  | Some d =>
      if negb (File d =?s "") then Join [MountPath d; File d]
      else if negb (MountPath d =?s "") then Join [MountPath d; filename]
      else filename
  | None => filename
  end.

Definition getPartialPath (outputPath : string) : string := outputPath +:+ PartialFileSuffix.
Definition getCheckpointPath (outputPath : string) : string := outputPath +:+ CheckpointFileSuffix.

(** ** Sizes *)

Definition active (chunks : list ChunkInfo) : list ChunkInfo :=
  List.filter (fun c => negb (IsSkipped c)) chunks.

Definition total_size (chunks : list ChunkInfo) : Z :=
  foldl (fun t c => int64 (t + SizeBytes c)) 0 (active chunks).

Definition calculateRequiredSpace (chunks : list ChunkInfo) : Z :=
  let total := total_size chunks in
  let margin := f64_div (f64_mul (f64_of_Z total) (f64_of_Z DiskSafetyMarginPercent)) (f64_of_Z 100) in
  int64 (total + f64_to_int64 margin).

Definition shouldUseTreeMerge (chunks : list ChunkInfo) (totalSizeGB : float64) : bool :=
  f64_lt (f64_of_Z ChunkCountThreshold) (f64_of_Z (Z.of_nat (length (active chunks))))
  || f64_lt (f64_of_Z DatasetSizeThresholdGB) totalSizeGB.

(** ** The environment *)

Record env := mkEnv {
  mkdirErr : error;
  availableSpace : result Z;              (** [getAvailableDiskSpace] before the merge *)
  spaceAfter : Z;
  checkpointReadErr : error;
  openErr : error;                        (** opening the partial file *)
  seekErr : error;
  statErr : string -> error;              (** a failing [Stat] of an existing path *)
  chunkOpenErr : string -> error;
  copyErr : string -> option (nat * string);   (** bytes copied, and the error *)
  syncErr : Z -> error;                   (** the sync after a chunk position; [-1] is the last *)
  saveErr : Z -> error;
  renameErr : error;
  clearErr : error;
  cancelled : Z -> error;                 (** [ctx.Err()] before a chunk position *)
  elapsedMs : Z;
  sha256hex : string -> string;
  gunzip : string -> option string;
  gzip_written : string -> string;        (** flushed while the content is copied *)
  gzip_closed : string -> string;         (** flushed by [Close] *)
}.

(** ** Checksums *)

(** [computeChunkChecksum]: [None] is an error. *)
Definition computeChunkChecksum (e : env) (s : fs) (path : string) : option (string * Z) :=
  content ← files s !! path;
  data ← (match getCompressionType path with
          | CompressionGZ => gunzip e content
          | _ => Some content
          end);
  Some (sha256hex e data, Z.of_nat (String.length content)).

Definition computeChecksumDirect (e : env) (s : fs) (path : string) : option (string * Z) :=
  content ← files s !! path;
  Some (sha256hex e content, Z.of_nat (String.length content)).

Section merging.
Context (e : env) (sortSlice : list ChunkInfo -> list ChunkInfo).

(** The sort happens in place; it never fails. *)
Definition computeDatasetChecksum (chunks : list ChunkInfo) : string :=
  sha256hex e (foldl (fun acc c =>
    if IsSkipped c || (Checksum c =?s "") then acc else acc +:+ Checksum c) "" (sortSlice chunks)).

Definition verifyMergedFile (s : fs) (outputPath expectedChecksum : string) : option bool :=
  if expectedChecksum =?s "" then Some true
  else '(actual, _) ← computeChecksumDirect e s outputPath; Some (actual =?s expectedChecksum).

(** ** Tree merge planning *)

(** The loop of [planTreeMerge]; the flag of the source's index test is
    whether this is the last chunk. *)
Fixpoint plan_stages (chunks currentStage : list ChunkInfo) : list (list ChunkInfo) :=
  match chunks with
  | [] => []
  | c :: rest =>
      let currentStage := currentStage ++ [c] in
      if (MaxChunksPerPass <=? length currentStage)%nat || (match rest with [] => true | _ => false end)
      then currentStage :: plan_stages rest []
      else plan_stages rest currentStage
  end.

Definition planTreeMerge (chunks : list ChunkInfo) : list (list ChunkInfo) :=
  plan_stages (sortSlice (active chunks)) [].

(** ** Checkpoints *)

Definition saveCheckpoint (fault : error) (c : MergeCheckpoint) (s : fs) : fs * error :=
  match fault with
  | Some x => (s, Some x)
  | None =>
      (with_checkpoints (<[getCheckpointPath (OutputPath c) := CheckpointData c]> (checkpoints s)) s, None)
  end.

Definition loadCheckpoint (outputPath : string) (s : fs) : result (option MergeCheckpoint) :=
  match checkpointReadErr e with
  | Some x => Err ("failed to read checkpoint: " +:+ x)
  | None =>
      match checkpoints s !! getCheckpointPath outputPath with
      | None => Ok None
      | Some (CheckpointData c) => Ok (Some c)
      | Some CheckpointGarbage => Err "failed to parse checkpoint: invalid JSON"
      end
  end.

Definition clearCheckpoint (outputPath : string) (s : fs) : fs * error :=
  match clearErr e with
  | Some x => (s, Some ("failed to clear checkpoint: " +:+ x))
  | None => (with_checkpoints (delete (getCheckpointPath outputPath) (checkpoints s)) s, None)
  end.

Definition detectPartialMerge (outputPath : string) (s : fs) : bool :=
  match files s !! getPartialPath outputPath with Some _ => true | None => false end.

(** ** Metrics *)

Definition recordMergeMetrics (datasetID : string) (r : MergeResult) (s : fs) : fs :=
  with_metrics (<[datasetID := mkMetrics (DurationMs r) (FileSize r) (DiskUsageBefore r)
                                 (DiskUsageAfter r) 0 0]> (mergeMetrics s)) s.

Definition recordRecoveryEvent (datasetID : string) (s : fs) : fs :=
  match mergeMetrics s !! datasetID with
  | Some m =>
      with_metrics (<[datasetID := mkMetrics (MergeDuration m) (BytesMerged m) (metric_Before m)
        (metric_After m) (int64 (RecoveryEvents m + 1)) (ChecksumFailures m)]> (mergeMetrics s)) s
  | None => s
  end.

Definition recordChecksumFailure (datasetID : string) (s : fs) : fs :=
  match mergeMetrics s !! datasetID with
  | Some m =>
      with_metrics (<[datasetID := mkMetrics (MergeDuration m) (BytesMerged m) (metric_Before m)
        (metric_After m) (RecoveryEvents m) (int64 (ChecksumFailures m + 1))]> (mergeMetrics s)) s
  | None => s
  end.

Definition GetMergeMetrics (datasetID : string) (s : fs) : option MergeMetrics :=
  mergeMetrics s !! datasetID.

(** ** Removing chunks *)

(** [os.ReadDir(d)] succeeds and gives no entry. *)
Definition empty_dir (d : string) (s : fs) : bool :=
  bool_decide (d ∈ dirs s)
  && forallb (fun kv => negb (Dir kv.1 =?s d)) (map_to_list (files s))
  && forallb (fun kv => negb (Dir kv.1 =?s d)) (map_to_list (checkpoints s))
  && forallb (fun d' => (d' =?s d) || negb (Dir d' =?s d)) (elements (dirs s)).

(** [os.Remove]; [None] is an error. *)
Definition os_Remove (path : string) (s : fs) : option fs :=
  match files s !! path with
  | Some _ => Some (with_files (delete path (files s)) s)
  | None => if empty_dir path s then Some (with_dirs (dirs s ∖ {[path]}) s) else None
  end.

Definition remove (path : string) (s : fs) : fs := default s (os_Remove path s).

(** Remove a directory that became empty, and then its parent. *)
Definition remove_empty_dirs (dir : string) (s : fs) : fs :=
  if empty_dir dir s then
    let s := remove dir s in
    if empty_dir (Dir dir) s then remove (Dir dir) s else s
  else s.

Definition cleanup_chunk (acc : Z * gset string * fs) (chunk : ChunkInfo) : Z * gset string * fs :=
  let '(deletedCount, seenDirs, s) := acc in
  if IsSkipped chunk then acc
  else
    match os_Remove (chunk_Path chunk) s with
    | None => acc
    | Some s =>
        let s := remove (chunk_Path chunk +:+ ".metadata.json") s in
        let dir := Dir (chunk_Path chunk) in
        if decide (dir ∈ seenDirs) then (deletedCount + 1, seenDirs, s)
        else (deletedCount + 1, {[dir]} ∪ seenDirs, remove_empty_dirs dir s)
    end.

Definition cleanupChunks (chunks : list ChunkInfo) (s : fs) : Z * fs :=
  let '(n, _, s) := foldl cleanup_chunk (0, ∅, s) chunks in (n, s).

(** ** [StreamMerge] *)

(** The local variables of the merge loop; [m_gz] are the contents of the gzip
    writers that are still open, the newest first. *)
Record mstate := mkM {
  m_fs : fs; bytesWritten : Z; mergedCount : Z; skippedCount : Z;
  currentCheckpoint : MergeCheckpoint; m_gz : list string }.

Inductive outcome := MOk (r : MergeResult) | MErr (text : string) | MPanic.

(** A write to a file opened with [O_APPEND] goes to its end. *)
Definition append_file (path data : string) (s : fs) : fs :=
  with_files (<[path := default "" (files s !! path) +:+ data]> (files s)) s.

Definition set_fs (s : fs) (m : mstate) : mstate :=
  mkM s (bytesWritten m) (mergedCount m) (skippedCount m) (currentCheckpoint m) (m_gz m).
Definition skip_chunk (m : mstate) : mstate :=
  mkM (m_fs m) (bytesWritten m) (mergedCount m) (skippedCount m + 1) (currentCheckpoint m) (m_gz m).
Definition merged_before (m : mstate) : mstate :=
  mkM (m_fs m) (bytesWritten m) (mergedCount m + 1) (skippedCount m) (currentCheckpoint m) (m_gz m).
Definition open_gz (content : string) (m : mstate) : mstate :=
  mkM (m_fs m) (bytesWritten m) (mergedCount m) (skippedCount m) (currentCheckpoint m) (content :: m_gz m).

(** After a chunk was copied: count, sync, and save a checkpoint (an error of
    which is only logged). *)
Definition chunk_copied (i : Z) (chunk : ChunkInfo) (written : Z) (m : mstate)
    : mstate + (string * mstate) :=
  let bytes := int64 (bytesWritten m + written) in
  let m1 := mkM (m_fs m) bytes (mergedCount m + 1) (skippedCount m) (currentCheckpoint m) (m_gz m) in
  match syncErr e i with
  | Some x => inr ("failed to sync output: " +:+ x, m1)
  | None =>
      let cp := currentCheckpoint m in
      let cp := mkCheckpoint (cp_DatasetID cp) (OutputPath cp) (Index chunk) bytes
                  (ChunksMerged cp ++ [ChunkID chunk]) in
      inl (mkM (saveCheckpoint (saveErr e i) cp (m_fs m)).1 bytes (mergedCount m + 1)
             (skippedCount m) cp (m_gz m))
  end.

Definition merge_chunk (config : MergeConfig) (partialPath : string) (i : Z) (chunk : ChunkInfo)
    (m : mstate) : mstate + (string * mstate) :=
  match cancelled e i with
  | Some x => inr (x, m)
  | None =>
      match resolveChunkPath (chunk_Path chunk) (cfg_MountPath config) (Strategy config) with
      | Err _ => inl (skip_chunk m)
      | Ok resolvedPath =>
          let s := m_fs m in
          match statErr e resolvedPath with
          | Some x => inr ("failed to access chunk file " +:+ resolvedPath +:+ ": " +:+ x, m)
          | None =>
              if decide (resolvedPath ∈ dirs s)
              then inr ("chunk path is a directory: " +:+ resolvedPath, m)
              else
                match files s !! resolvedPath with
                | None => inl (skip_chunk m)
                | Some content =>
                    match chunkOpenErr e resolvedPath with
                    | Some x => inr ("failed to open chunk " +:+ resolvedPath +:+ ": " +:+ x, m)
                    | None =>
                        let gz := match getCompressionType resolvedPath with
                                  | CompressionGZ => Compressed config | _ => false end in
                        let emit (data : string) :=
                          let out := if gz then gzip_written e data else data in
                          let m := set_fs (append_file partialPath out s) m in
                          if gz then open_gz data m else m in
                        match copyErr e resolvedPath with
                        | Some (n, x) =>
                            inr ("failed to write chunk " +:+ resolvedPath +:+ ": " +:+ x,
                                 emit (String.substring 0 n content))
                        | None =>
                            let m := emit content in
                            let written := Z.of_nat (String.length content) in
                            if written =? 0 then inl (skip_chunk m) else chunk_copied i chunk written m
                        end
                    end
                end
          end
      end
  end.

Fixpoint merge_loop (config : MergeConfig) (partialPath : string) (resumeIndex i : Z)
    (chunks : list ChunkInfo) (m : mstate) : mstate + (string * mstate) :=
  match chunks with
  | [] => inl m
  | c :: rest =>
      if i <? resumeIndex then merge_loop config partialPath resumeIndex (i + 1) rest (merged_before m)
      else
        match merge_chunk config partialPath i c m with
        | inl m => merge_loop config partialPath resumeIndex (i + 1) rest m
        | inr x => inr x
        end
  end.

(** The deferred [Close] of the gzip writers, while the output is still open. *)
Definition close_gz (partialPath : string) (gz : list string) (s : fs) : fs :=
  foldl (fun s content => append_file partialPath (gzip_closed e content) s) s gz.

(** Fill in the checksum of an active chunk that has none. *)
Definition with_checksum (s : fs) (c : ChunkInfo) : ChunkInfo :=
  if Checksum c =?s "" then
    match computeChunkChecksum e s (chunk_Path c) with
    | None => c
    | Some (checksum, size) =>
        mkChunk (ChunkID c) (chunk_Path c) (Index c) size (chunk_Compressed c) checksum (IsSkipped c)
    end
  else c.

Definition sorted_active (config : MergeConfig) (s : fs) : list ChunkInfo :=
  sortSlice (map (with_checksum s) (active (Chunks config))).

(** Empty sub-directories of the output's directory are removed. *)
Definition clean_subdirs (outputDir : string) (s : fs) : fs :=
  foldl (fun s d => if (Dir d =?s outputDir) && negb (d =?s outputDir) && empty_dir d s
                    then remove d s else s) s (elements (dirs s)).

(** From the end of the loop to the result.  The gzip writers that are still
    open are closed after the output is, and what they still hold is lost. *)
Definition finish_merge (config : MergeConfig) (outputPath partialPath : string)
    (activeChunks : list ChunkInfo) (available : Z) (m : mstate) : outcome * fs :=
  let '(deletedCount, s) := cleanupChunks activeChunks (m_fs m) in
  match syncErr e (-1) with
  | Some x => (MErr ("failed to sync final output: " +:+ x), close_gz partialPath (m_gz m) s)
  | None =>
      match renameErr e with
      | Some x => (MErr ("failed to atomic rename output: " +:+ x), s)
      | None =>
          let content := default "" (files s !! partialPath) in
          let s := with_files (<[outputPath := content]> (delete partialPath (files s))) s in
          let s := (clearCheckpoint outputPath s).1 in
          let checksum := if ChecksumRequired config then computeDatasetChecksum activeChunks else "" in
          if elapsedMs e =? 0 then (MPanic, s)
          else
            let r := mkResult (DatasetID config)
                       (Some (mkDeviceOutput (AffinityDeviceID config) (Dir outputPath) (Base outputPath)))
                       checksum (Z.of_nat (String.length content)) (mergedCount m) (skippedCount m)
                       deletedCount (elapsedMs e) available (spaceAfter e) in
            let s := recordMergeMetrics (DatasetID config) r s in
            (MOk r, clean_subdirs (Dir outputPath) s)
      end
  end.

(** From the opened partial file to the result. *)
Definition run_merge (config : MergeConfig) (outputPath : string) (activeChunks : list ChunkInfo)
    (available : Z) (checkpoint : option MergeCheckpoint) (s : fs) : outcome * fs :=
  let partialPath := getPartialPath outputPath in
  let s := append_file partialPath "" s in
  match checkpoint, seekErr e with
  | Some _, Some x => (MErr ("failed to seek to checkpoint: " +:+ x), s)
  | _, _ =>
      let resumeIndex := match checkpoint with Some c => int64 (LastChunkIndex c + 1) | None => 0 end in
      let bytes := match checkpoint with Some c => BytesWritten c | None => 0 end in
      let m := mkM s bytes 0 0 (mkCheckpoint (DatasetID config) outputPath (-1) 0 []) [] in
      match merge_loop config partialPath resumeIndex 0 activeChunks m with
      | inr (x, m) => (MErr x, close_gz partialPath (m_gz m) (m_fs m))
      | inl m => finish_merge config outputPath partialPath activeChunks available m
      end
  end.

Definition StreamMerge (config : MergeConfig) (s : fs) : outcome * fs :=
  if DatasetID config =?s "" then (MErr "dataset_id is required", s)
  else if AgentID config =?s "" then (MErr "agent_id is required", s)
  else
    let activeChunks := sorted_active config s in
    let outputPath := getOutputPath (cfg_DeviceOutput config) (DatasetID config) (DatasetSlug config) in
    let outputDir := Dir outputPath in
    match mkdirErr e with
    | Some x => (MErr ("failed to create output directory: " +:+ x), s)
    | None =>
        let s := with_dirs ({[outputDir]} ∪ dirs s) s in
        let '(short, available) :=
          match availableSpace e with
          | Err _ => (false, 0)
          | Ok a => (a <? calculateRequiredSpace activeChunks, a)
          end in
        if short then (MErr ("insufficient disk space: need " +:+ itoa (calculateRequiredSpace activeChunks)
                          +:+ " bytes, have " +:+ itoa available +:+ " bytes"), s)
        else
          match loadCheckpoint outputPath s with
          | Err x => (MErr ("failed to load checkpoint: " +:+ x), s)
          | Ok checkpoint =>
              let s := match checkpoint with
                       | Some _ => recordRecoveryEvent (DatasetID config) s
                       | None => s
                       end in
              match openErr e with
              | Some x => (MErr ("failed to open partial output: " +:+ x), s)
              | None => run_merge config outputPath activeChunks available checkpoint s
              end
          end
    end.
End merging.

(** ** Lemmas *)

Definition concat_str (l : list string) : string := foldr String.append "" l.

Lemma concat_str_app l k : concat_str (l ++ k) = concat_str l +:+ concat_str k.
Proof. induction l as [|x l IH]; simpl; [done|]. by rewrite IH, append_assoc. Qed.

(** No system call fails and nothing is cancelled. *)
Record faultless (e : env) : Prop := {
  no_mkdir : mkdirErr e = None;
  no_checkpoint_read : checkpointReadErr e = None;
  no_open : openErr e = None;
  no_seek : seekErr e = None;
  no_stat p : statErr e p = None;
  no_chunk_open p : chunkOpenErr e p = None;
  no_copy p : copyErr e p = None;
  no_sync i : syncErr e i = None;
  no_rename : renameErr e = None;
  no_clear : clearErr e = None;
  no_cancel i : cancelled e i = None;
}.

(** Besides, the clock advances by a millisecond at least: a merge that takes
    less divides by zero when it is done. *)
Definition timed (e : env) : Prop := faultless e /\ elapsedMs e <> 0.

Section merge_lemmas.
Context (e : env) (config : MergeConfig) (partialPath : string).

(** The bytes of a chunk, and the bytes that reach the output while it is
    copied. *)
Definition chunk_data (s : fs) (c : ChunkInfo) : string :=
  match resolveChunkPath (chunk_Path c) (cfg_MountPath config) (Strategy config) with
  | Ok p => default "" (files s !! p)
  | Err _ => ""
  end.

Definition through_gzip (c : ChunkInfo) : bool :=
  match resolveChunkPath (chunk_Path c) (cfg_MountPath config) (Strategy config) with
  | Ok p => match getCompressionType p with CompressionGZ => Compressed config | _ => false end
  | Err _ => false
  end.

Definition chunk_out (s : fs) (c : ChunkInfo) : string :=
  match resolveChunkPath (chunk_Path c) (cfg_MountPath config) (Strategy config) with
  | Ok p =>
      match files s !! p with
      | Some content => if through_gzip c then gzip_written e content else content
      | None => ""
      end
  | Err _ => ""
  end.

Definition is_empty (s : string) : bool := s =?s "".

(** The chunk is a file that is not the output in progress. *)
Definition mergeable (s : fs) (c : ChunkInfo) : Prop :=
  forall p, resolveChunkPath (chunk_Path c) (cfg_MountPath config) (Strategy config) = Ok p ->
    (p ∉ dirs s) /\ p <> partialPath.

(** [s] is [s0] with [old] in the partial file, and other checkpoints. *)
Definition partially (s0 : fs) (old : string) (s : fs) : Prop :=
  files s = <[partialPath := old]> (files s0) /\ dirs s = dirs s0 /\ mergeMetrics s = mergeMetrics s0.

Lemma partially_append s0 old s data :
  partially s0 old s -> partially s0 (old +:+ data) (append_file partialPath data s).
Proof.
  intros (Hf & Hd & Hm). unfold partially. simpl. rewrite Hf, lookup_insert_eq. simpl.
  by rewrite insert_insert_eq.
Qed.

Lemma partially_checkpoints s0 old s c :
  partially s0 old s -> partially s0 old (with_checkpoints c s).
Proof. done. Qed.

Lemma partially_save s0 old s fault c :
  partially s0 old s -> partially s0 old (saveCheckpoint fault c s).1.
Proof. by destruct fault. Qed.

Definition count (b : bool) : Z := if b then 1 else 0.

(** The checkpoint after a chunk at position [i] was merged. *)
Definition after_chunk (i : Z) (c : ChunkInfo) (s0 : fs) (m m' : mstate) : Prop :=
  if is_empty (chunk_data s0 c)
  then currentCheckpoint m' = currentCheckpoint m /\ checkpoints (m_fs m') = checkpoints (m_fs m)
  else
    LastChunkIndex (currentCheckpoint m') = Index c /\
    OutputPath (currentCheckpoint m') = OutputPath (currentCheckpoint m) /\
    (saveErr e i = None -> checkpoints (m_fs m') =
       <[getCheckpointPath (OutputPath (currentCheckpoint m)) := CheckpointData (currentCheckpoint m')]>
         (checkpoints (m_fs m))).

Lemma empty_length s : (Z.of_nat (String.length s) =? 0) = is_empty s.
Proof. by destruct s. Qed.

(** One chunk, without faults. *)
Lemma merge_chunk_ok i c s0 old m :
  (forall p, statErr e p = None) -> (forall p, chunkOpenErr e p = None) ->
  (forall p, copyErr e p = None) -> syncErr e i = None -> cancelled e i = None ->
  mergeable s0 c -> partially s0 old (m_fs m) ->
  exists m', merge_chunk e config partialPath i c m = inl m' /\
    partially s0 (old +:+ chunk_out s0 c) (m_fs m') /\
    mergedCount m' = mergedCount m + count (negb (is_empty (chunk_data s0 c))) /\
    skippedCount m' = skippedCount m + count (is_empty (chunk_data s0 c)) /\
    after_chunk i c s0 m m'.
Proof.
  intros Hst Ho Hc Hsy Hca Hm Hp. unfold merge_chunk, chunk_out, through_gzip, after_chunk, chunk_data.
  rewrite Hca. unfold mergeable in Hm.
  destruct (resolveChunkPath _ _ _) as [p|x].
  2:{ exists (skip_chunk m). rewrite append_nil_r. simpl. rewrite Z.add_0_r. done. }
  destruct (Hm p eq_refl) as [Hdir Hne]. rewrite Hst. pose proof Hp as (Hf & Hd & Hmt).
  rewrite Hd, decide_False, Hf, lookup_insert_ne, Ho, Hc by done.
  destruct (files s0 !! p) as [content|] eqn:Hlook; cbn [from_option default].
  2:{ exists (skip_chunk m). rewrite append_nil_r. simpl. rewrite Z.add_0_r. done. }
  unfold id. rewrite empty_length. set (gz := match getCompressionType p with CompressionGZ => _ | _ => _ end).
  set (out := if gz then gzip_written e content else content).
  set (m1 := set_fs (append_file partialPath out (m_fs m)) m).
  set (m2 := if gz then open_gz content m1 else m1).
  assert (Hp2 : partially s0 (old +:+ out) (m_fs m2))
    by (subst m2; destruct gz; by apply partially_append).
  assert (Hm2 : mergedCount m2 = mergedCount m /\ skippedCount m2 = skippedCount m /\
    currentCheckpoint m2 = currentCheckpoint m /\ checkpoints (m_fs m2) = checkpoints (m_fs m))
    by (subst m2; by destruct gz).
  destruct Hm2 as (E1 & E2 & E3 & E4). clearbody m2. destruct (is_empty content); simpl.
  - exists (skip_chunk m2). simpl. rewrite E1, E2, E3, E4, Z.add_0_r. done.
  - unfold chunk_copied. rewrite Hsy. eexists. split; [done|]. simpl.
    rewrite E1, E2, E3, Z.add_0_r. split; [by apply partially_save|].
    repeat split. intros ->. simpl. by rewrite E4.
Qed.

Lemma merge_loop_ok s0 resume i cs old m :
  (forall p, statErr e p = None) -> (forall p, chunkOpenErr e p = None) ->
  (forall p, copyErr e p = None) -> (forall j, syncErr e j = None) ->
  (forall j, i <= j < i + Z.of_nat (length cs) -> cancelled e j = None) ->
  Forall (mergeable s0) cs -> partially s0 old (m_fs m) ->
  let todo := drop (Z.to_nat (resume - i)) cs in
  exists m', merge_loop e config partialPath resume i cs m = inl m' /\
    partially s0 (old +:+ concat_str (map (chunk_out s0) todo)) (m_fs m') /\
    mergedCount m' + skippedCount m' = mergedCount m + skippedCount m + Z.of_nat (length cs) /\
    skippedCount m' = skippedCount m +
      Z.of_nat (length (List.filter (fun c => is_empty (chunk_data s0 c)) todo)).
Proof.
  intros Hst Ho Hc Hsy Hca Hall. revert i old m Hca.
  induction Hall as [|c cs Hm Hall IH]; intros i old m Hca Hp todo; cbn [merge_loop].
  { exists m. subst todo. rewrite drop_nil. simpl. rewrite append_nil_r. split; [done|]. split; [done|lia]. }
  assert (Hca' : forall j, i + 1 <= j < i + 1 + Z.of_nat (length cs) -> cancelled e j = None)
    by (intros; apply Hca; simpl; lia).
  destruct (Z.ltb_spec i resume) as [Hlt|Hge].
  - destruct (IH (i + 1) old (merged_before m) Hca' Hp) as (m' & E & Hp' & Hn & Hs).
    subst todo. replace (Z.to_nat (resume - i)) with (S (Z.to_nat (resume - (i + 1)))) by lia.
    exists m'. split; [exact E|]. split; [exact Hp'|]. split; [simpl in *; lia|exact Hs].
  - destruct (merge_chunk_ok i c s0 old m Hst Ho Hc (Hsy i) (Hca i ltac:(simpl; lia)) Hm Hp)
      as (m1 & -> & Hp1 & Hn1 & Hs1 & _).
    destruct (IH (i + 1) _ m1 Hca' Hp1) as (m' & E & Hp' & Hn & Hs).
    replace (Z.to_nat (resume - (i + 1))) with 0%nat in * by lia.
    subst todo. replace (Z.to_nat (resume - i)) with 0%nat by lia. simpl in *.
    exists m'. rewrite append_assoc in Hp'. split; [done|]. split; [done|].
    destruct (is_empty (chunk_data s0 c)); rewrite ?drop_0 in *; simpl in *; lia.
Qed.

(** Without compression nothing is left in a gzip writer. *)
Lemma chunk_out_plain s c : Compressed config = false -> chunk_out s c = chunk_data s c.
Proof.
  intros Hplain. unfold chunk_out, chunk_data, through_gzip. destruct (resolveChunkPath _ _ _) as [p|]; [|done].
  destruct (files s !! p); [|done]. by destruct (getCompressionType p); rewrite ?Hplain.
Qed.

Lemma merge_chunk_gz i c m m' :
  Compressed config = false -> merge_chunk e config partialPath i c m = inl m' -> m_gz m' = m_gz m.
Proof.
  intros Hplain. unfold merge_chunk, chunk_copied. rewrite Hplain. cbv zeta.
  repeat case_inner; intros H; simplify_eq; done.
Qed.

Lemma merge_loop_gz resume i cs m m' :
  Compressed config = false -> merge_loop e config partialPath resume i cs m = inl m' ->
  m_gz m' = m_gz m.
Proof.
  intros Hplain. revert i m. induction cs as [|c cs IH]; intros i m; simpl; [by intros [= ->]|].
  destruct (i <? resume); [intros H; by rewrite (IH _ _ H)|].
  destruct (merge_chunk e config partialPath i c m) as [m1|] eqn:E; [|done].
  intros H. rewrite (IH _ _ H). by eapply merge_chunk_gz.
Qed.

(** A loop in two halves. *)
Lemma merge_loop_app resume i l1 l2 m :
  merge_loop e config partialPath resume i (l1 ++ l2) m =
  match merge_loop e config partialPath resume i l1 m with
  | inl m' => merge_loop e config partialPath resume (i + Z.of_nat (length l1)) l2 m'
  | inr x => inr x
  end.
Proof.
  revert i m. induction l1 as [|c l1 IH]; intros i m; [by rewrite Z.add_0_r|].
  cbn [merge_loop app length].
  replace (i + Z.of_nat (S (length l1))) with (i + 1 + Z.of_nat (length l1)) by lia. destruct (i <? resume); [apply IH|].
  destruct (merge_chunk e config partialPath i c m); [apply IH|done].
Qed.

Definition resume_of (checkpoint : option checkpoint_file) : option Z :=
  match checkpoint with
  | None => Some 0
  | Some (CheckpointData c) => Some (int64 (LastChunkIndex c + 1))
  | Some CheckpointGarbage => None
  end.

(** Where a merge resumes that was stopped after the chunks [l]: behind the index
    of the last of them that has content. *)
Definition resume_after (s : fs) (l : list ChunkInfo) : Z :=
  match last (List.filter (fun c => negb (is_empty (chunk_data s c))) l) with
  | None => 0
  | Some c => int64 (Index c + 1)
  end.

Lemma resume_after_snoc s l c :
  resume_after s (l ++ [c]) = if is_empty (chunk_data s c) then resume_after s l else int64 (Index c + 1).
Proof.
  unfold resume_after. rewrite List.filter_app. simpl. destruct (is_empty (chunk_data s c)); simpl; [by rewrite app_nil_r|].
  by rewrite last_snoc.
Qed.

(** The saved checkpoint is the one of the chunks [pre] that were processed. *)
Definition resumable (out : string) (s0 : fs) (pre : list ChunkInfo) (m : mstate) : Prop :=
  OutputPath (currentCheckpoint m) = out /\
  resume_of (checkpoints (m_fs m) !! getCheckpointPath out) = Some (resume_after s0 pre).

Lemma resumable_chunk out s0 pre c m m' i :
  saveErr e i = None -> after_chunk i c s0 m m' -> resumable out s0 pre m -> resumable out s0 (pre ++ [c]) m'.
Proof.
  intros Hsave Hafter [Hout Hr]. unfold after_chunk in Hafter. unfold resumable. rewrite resume_after_snoc.
  destruct (is_empty (chunk_data s0 c)).
  - destruct Hafter as [E1 E2]. by rewrite E1, E2.
  - destruct Hafter as (Hlast & Hop & Hcp). split; [congruence|]. rewrite Hout in Hcp.
    rewrite (Hcp Hsave), lookup_insert_eq. simpl. by rewrite Hlast.
Qed.

Lemma merge_loop_progress out s0 l pre old m :
  (forall p, statErr e p = None) -> (forall p, chunkOpenErr e p = None) ->
  (forall p, copyErr e p = None) -> (forall j, syncErr e j = None) -> (forall j, saveErr e j = None) ->
  (forall j, Z.of_nat (length pre) <= j < Z.of_nat (length (pre ++ l)) -> cancelled e j = None) ->
  Forall (mergeable s0) l -> partially s0 old (m_fs m) -> resumable out s0 pre m ->
  exists m', merge_loop e config partialPath 0 (Z.of_nat (length pre)) l m = inl m' /\
    partially s0 (old +:+ concat_str (map (chunk_out s0) l)) (m_fs m') /\
    resumable out s0 (pre ++ l) m'.
Proof.
  intros Hst Ho Hc Hsy Hsv Hca Hall. revert pre old m Hca.
  induction Hall as [|c l Hm _ IH]; intros pre old m Hca Hp Hr.
  { exists m. simpl. by rewrite append_nil_r, app_nil_r. }
  cbn [merge_loop]. destruct (Z.ltb_spec (Z.of_nat (length pre)) 0); [lia|].
  destruct (merge_chunk_ok (Z.of_nat (length pre)) c s0 old m Hst Ho Hc (Hsy _)
    (Hca (Z.of_nat (length pre)) ltac:(rewrite length_app; simpl; lia)) Hm Hp) as (m1 & -> & Hp1 & _ & _ & Hafter).
  pose proof (resumable_chunk out s0 pre c m m1 _ (Hsv _) Hafter Hr) as Hr1.
  assert (Happ : (pre ++ [c]) ++ l = pre ++ c :: l) by (by rewrite <- app_assoc).
  destruct (IH (pre ++ [c]) (old +:+ chunk_out s0 c) m1) as (m' & E & Hp' & Hr'); try done.
  { rewrite Happ. intros j Hj. apply Hca. rewrite !length_app in *. simpl in *. lia. }
  exists m'. rewrite length_app in E. simpl in E.
  replace (Z.of_nat (length pre) + 1) with (Z.of_nat (length pre + 1)) by lia.
  split; [done|]. simpl. rewrite append_assoc in Hp'. by rewrite <- Happ.
Qed.
End merge_lemmas.

(** [s'] has what [s] has at [q], the same checkpoints, and no new directory. *)
Definition keeps (q : string) (s s' : fs) : Prop :=
  files s' !! q = files s !! q /\ dirs s' ⊆ dirs s /\ checkpoints s' = checkpoints s /\
  mergeMetrics s' = mergeMetrics s.

#[export] Instance keeps_preorder q : PreOrder (keeps q).
Proof.
  split; [by intros s|]. intros s1 s2 s3 (E1 & D1 & C1 & M1) (E2 & D2 & C2 & M2).
  split; [congruence|]. split; [set_solver|]. split; congruence.
Qed.

Lemma os_Remove_keeps q path s s' : q <> path -> os_Remove path s = Some s' -> keeps q s s'.
Proof.
  intros Hne. unfold os_Remove. destruct (files s !! path).
  - intros [= <-]. split; [by apply lookup_delete_ne|]. done.
  - destruct (empty_dir path s); [|done]. intros [= <-]. split; [done|]. split; [|done].
    simpl. set_solver.
Qed.

Lemma remove_keeps q path s : q <> path -> keeps q s (remove path s).
Proof.
  intros Hne. unfold remove. destruct (os_Remove path s) eqn:E; [by eapply os_Remove_keeps|done].
Qed.

Lemma empty_dir_dirs d s : empty_dir d s = true -> d ∈ dirs s.
Proof. unfold empty_dir. intros H. by split_bools. Qed.

Lemma remove_dir_keeps q d s : q ∉ dirs s -> empty_dir d s = true -> keeps q s (remove d s).
Proof. intros Hq Hd. apply empty_dir_dirs in Hd. apply remove_keeps. by intros ->. Qed.

Lemma keeps_not_dir q s s' : keeps q s s' -> q ∉ dirs s -> q ∉ dirs s'.
Proof. intros (_ & H & _). set_solver. Qed.

Lemma remove_empty_dirs_keeps q d s : q ∉ dirs s -> keeps q s (remove_empty_dirs d s).
Proof.
  intros Hq. unfold remove_empty_dirs. destruct (empty_dir d s) eqn:E; [|done].
  pose proof (remove_dir_keeps q d s Hq E) as Hk. cbv zeta.
  destruct (empty_dir (Dir d) (remove d s)) eqn:E'; [|done].
  etrans; [exact Hk|]. apply remove_dir_keeps; [by eapply keeps_not_dir|done].
Qed.

(** A path that no chunk is stored under. *)
Definition spared (q : string) (c : ChunkInfo) : Prop :=
  chunk_Path c <> q /\ chunk_Path c +:+ ".metadata.json" <> q.

Lemma cleanup_chunk_keeps q acc c :
  spared q c -> q ∉ dirs acc.2 -> keeps q acc.2 (cleanup_chunk acc c).2.
Proof.
  intros [H1 H2] Hq. destruct acc as [[n seen] s]. unfold cleanup_chunk. simpl in Hq.
  destruct (IsSkipped c); [done|]. destruct (os_Remove (chunk_Path c) s) as [s1|] eqn:E; [|done].
  pose proof (os_Remove_keeps q _ _ _ (not_eq_sym H1) E) as K1. cbv zeta.
  pose proof (remove_keeps q _ s1 (not_eq_sym H2)) as K2.
  assert (K : keeps q s (remove (chunk_Path c +:+ ".metadata.json") s1)) by (by etrans).
  destruct (decide _); [exact K|]. cbn [snd]. etrans; [exact K|].
  apply remove_empty_dirs_keeps. by eapply keeps_not_dir.
Qed.

Lemma cleanupChunks_keeps q cs s :
  Forall (spared q) cs -> q ∉ dirs s -> keeps q s (cleanupChunks cs s).2.
Proof.
  intros Hcs. unfold cleanupChunks.
  assert (H : forall acc, q ∉ dirs acc.2 -> keeps q acc.2 (foldl cleanup_chunk acc cs).2).
  { induction Hcs as [|c cs Hc _ IH]; intros acc Hq; [done|]. simpl.
    pose proof (cleanup_chunk_keeps q acc c Hc Hq) as K. etrans; [exact K|].
    apply IH. by eapply keeps_not_dir. }
  intros Hq. specialize (H (0, ∅, s) Hq). by destruct (foldl cleanup_chunk (0, ∅, s) cs) as [[n seen] s'].
Qed.

Lemma clean_subdirs_keeps q d s : q ∉ dirs s -> keeps q s (clean_subdirs d s).
Proof.
  unfold clean_subdirs. generalize (elements (dirs s)). intros l. revert s.
  induction l as [|x l IH]; intros s Hq; [done|]. simpl.
  destruct (_ && _ && empty_dir x s) eqn:E; [|by apply IH].
  apply andb_prop in E as [_ E]. pose proof (remove_dir_keeps q x s Hq E) as K.
  etrans; [exact K|]. apply IH. by eapply keeps_not_dir.
Qed.

(** ** Placement *)

Definition output_of (config : MergeConfig) : string :=
  getOutputPath (cfg_DeviceOutput config) (DatasetID config) (DatasetSlug config).
Definition partial_of (config : MergeConfig) : string := getPartialPath (output_of config).
Definition checkpoint_of (config : MergeConfig) : string := getCheckpointPath (output_of config).

(** The state once the output's directory was made. *)
Definition prepared (config : MergeConfig) (s : fs) : fs :=
  with_dirs ({[Dir (output_of config)]} ∪ dirs s) s.

(** Nothing stands where the merge writes: no chunk is stored under the path of
    the partial file, and neither it nor the output is a directory; chunk paths
    are not directories. *)
Record well_placed (config : MergeConfig) (s : fs) : Prop := {
  wp_partial : partial_of config ∉ dirs (prepared config s);
  wp_output : output_of config ∉ dirs (prepared config s);
  wp_chunks : Forall (fun c => spared (partial_of config) c /\
                mergeable config (partial_of config) (prepared config s) c) (Chunks config);
}.

Lemma partial_neq_output config : partial_of config <> output_of config.
Proof. by apply append_neq_r. Qed.

(** Chunks keep their paths when they get a checksum. *)
Lemma with_checksum_path e s c : chunk_Path (with_checksum e s c) = chunk_Path c.
Proof. unfold with_checksum. destruct (_ =?s _); [|done]. by destruct (computeChunkChecksum _ _ _) as [[??]|]. Qed.

Lemma sorted_active_Forall e sortSlice config s (P : ChunkInfo -> Prop) :
  SliceSort (fun x y => Index x <? Index y) sortSlice ->
  (forall c, P c -> P (with_checksum e s c)) -> Forall P (Chunks config) ->
  Forall P (sorted_active e sortSlice config s).
Proof.
  intros Hsort HP H. unfold sorted_active. rewrite (sortSlice_perm (SliceSort := Hsort)).
  unfold active. rewrite Forall_forall in H |- *. intros c (c' & -> & Hin)%list_elem_of_fmap.
  apply HP, H. apply list_elem_of_In in Hin. apply filter_In in Hin as [Hin _]. by apply list_elem_of_In.
Qed.

Lemma well_placed_active e sortSlice config s s' :
  SliceSort (fun x y => Index x <? Index y) sortSlice -> well_placed config s ->
  Forall (spared (partial_of config)) (sorted_active e sortSlice config s') /\
  Forall (mergeable config (partial_of config) (prepared config s)) (sorted_active e sortSlice config s').
Proof.
  intros Hsort [_ _ H]. rewrite <- Forall_and. apply sorted_active_Forall; [done| |done].
  intros c. unfold spared, mergeable. by rewrite with_checksum_path.
Qed.

Section merge_theorems.
Context (e : env) (sortSlice : list ChunkInfo -> list ChunkInfo).
Context (Hsort : SliceSort (fun x y => Index x <? Index y) sortSlice).

(** What the end of a merge leaves. *)
Definition merged_files (config : MergeConfig) (content : string) (s : fs) : Prop :=
  files s !! output_of config = Some content /\ files s !! partial_of config = None /\
  checkpoints s !! checkpoint_of config = None.

Definition merged_to (config : MergeConfig) (content : string) (r : MergeResult) (s : fs) : Prop :=
  files s !! output_of config = Some content /\ files s !! partial_of config = None /\
  checkpoints s !! checkpoint_of config = None /\
  FileSize r = Z.of_nat (String.length content).

(** The files are in place; a result is returned, unless the clock stood still. *)
Definition ends_with (config : MergeConfig) (content : string) (P : MergeResult -> Prop) (o : outcome * fs) : Prop :=
  merged_files config content o.2 /\
  if elapsedMs e =? 0 then o.1 = MPanic
  else exists r, o.1 = MOk r /\ FileSize r = Z.of_nat (String.length content) /\ P r.

Lemma finish_merge_ends config cs available m content :
  faultless e -> Forall (spared (partial_of config)) cs ->
  partial_of config ∉ dirs (m_fs m) -> output_of config ∉ dirs (m_fs m) ->
  files (m_fs m) !! partial_of config = Some content ->
  ends_with config content (fun r => MergedChunks r = mergedCount m /\ SkippedChunks r = skippedCount m)
    (finish_merge e sortSlice config (output_of config) (partial_of config) cs available m).
Proof.
  intros He Hcs Hp Ho Hlook. unfold finish_merge, ends_with.
  pose proof (cleanupChunks_keeps _ cs _ Hcs Hp) as (Hf & Hd & _ & _).
  destruct (cleanupChunks cs (m_fs m)) as [deleted s]. simpl in Hf, Hd.
  rewrite (no_sync _ He), (no_rename _ He), Hf, Hlook. cbn [default from_option]. unfold id.
  unfold clearCheckpoint. rewrite (no_clear _ He). cbn [fst].
  match goal with |- context [if elapsedMs e =? 0 then (MPanic, ?x) else _] => set (s0 := x) end.
  assert (H0 : merged_files config content s0).
  { subst s0. split; [apply lookup_insert_eq|]. split; [|apply lookup_delete_eq]. simpl.
    rewrite lookup_insert_ne by (apply not_eq_sym, partial_neq_output). apply lookup_delete_eq. }
  destruct (elapsedMs e =? 0); [by split|]. cbn [fst snd].
  match goal with |- context [clean_subdirs ?d ?x] => set (s1 := x); set (dir := d) end.
  assert (Hp1 : partial_of config ∉ dirs s1) by (subst s1 s0; simpl; set_solver).
  assert (Ho1 : output_of config ∉ dirs s1) by (subst s1 s0; simpl; set_solver).
  destruct (clean_subdirs_keeps _ dir s1 Hp1) as (E1 & _ & E3 & _).
  destruct (clean_subdirs_keeps _ dir s1 Ho1) as (E2 & _).
  split; [|by eexists]. unfold merged_files. by rewrite E1, E2, E3.
Qed.

Definition enough_space (cs : list ChunkInfo) : Prop :=
  match availableSpace e with Ok a => calculateRequiredSpace cs <= a | Err _ => True end.

(** The content of a merge that resumes at position [resume] of [cs], and the
    outcome. *)
Definition content_from (config : MergeConfig) (s : fs) (resume : Z) (cs : list ChunkInfo) : string :=
  default "" (files s !! partial_of config) +:+
  concat_str (map (chunk_out e config s) (drop (Z.to_nat resume) cs)).

Definition counted (config : MergeConfig) (s : fs) (resume : Z) (cs : list ChunkInfo) (r : MergeResult) : Prop :=
  MergedChunks r + SkippedChunks r = Z.of_nat (length cs) /\
  SkippedChunks r = Z.of_nat (length (List.filter (fun c => is_empty (chunk_data config s c))
                                       (drop (Z.to_nat resume) cs))).

Lemma chunk_out_files config s s1 :
  files s1 = files s -> chunk_out e config s1 = chunk_out e config s /\
  chunk_data config s1 = chunk_data config s.
Proof. intros H. unfold chunk_out, chunk_data. by rewrite H. Qed.

Lemma ends_with_impl config content (P Q : MergeResult -> Prop) o :
  (forall r, P r -> Q r) -> ends_with config content P o -> ends_with config content Q o.
Proof. intros H [H1 H2]. split; [done|]. destruct (_ =? 0); [done|]. destruct H2 as (r & ? & ? & ?). eauto. Qed.

Lemma run_merge_ends config s s1 cs available cp resume :
  faultless e -> well_placed config s -> files s1 = files s -> dirs s1 = dirs (prepared config s) ->
  Forall (spared (partial_of config)) cs ->
  Forall (mergeable config (partial_of config) (prepared config s)) cs ->
  resume_of (CheckpointData <$> cp) = Some resume ->
  ends_with config (content_from config s resume cs) (counted config s resume cs)
    (run_merge e sortSlice config (output_of config) cs available cp s1).
Proof.
  intros He Hwp Hf Hd Hspared Hmerge Hcp. unfold run_merge. fold (partial_of config).
  rewrite (no_seek _ He). cbv zeta.
  assert (Hr : (match cp with Some c => int64 (LastChunkIndex c + 1) | None => 0 end) = resume)
    by (destruct cp; by injection Hcp). rewrite Hr.
  set (m := mkM _ _ _ _ _ _).
  assert (Hp : partially (partial_of config) s1 (default "" (files s !! partial_of config)) (m_fs m)).
  { subst m. simpl. unfold partially. simpl. by rewrite Hf, append_nil_r. }
  assert (Hmerge1 : Forall (mergeable config (partial_of config) s1) cs).
  { unfold mergeable in *. by rewrite Hd. }
  destruct (merge_loop_ok e config (partial_of config) s1 resume 0 cs _ m
    (no_stat _ He) (no_chunk_open _ He) (no_copy _ He) (no_sync _ He) (fun j _ => no_cancel _ He j) Hmerge1 Hp)
    as (m' & E & Hp' & Hn & Hs). destruct (chunk_out_files config s s1 Hf) as [Ho Hdat].
  rewrite Ho in Hp'. rewrite Hdat in Hs. rewrite Z.sub_0_r in Hp', Hs.
  assert (Hm' : dirs (m_fs m') = dirs (prepared config s)) by (by destruct Hp' as (_ & -> & _)).
  rewrite E.
  assert (Hend := finish_merge_ends config cs available m' (content_from config s resume cs) He Hspared
    ltac:(rewrite Hm'; apply Hwp) ltac:(rewrite Hm'; apply Hwp)
    ltac:(destruct Hp' as (-> & _); apply lookup_insert_eq)).
  destruct cp; (eapply ends_with_impl; [|exact Hend]); intros r [H1 H2]; unfold counted; rewrite H1, H2;
    subst m; simpl in Hn, Hs; (split; [lia|by rewrite Hs]).
Qed.

(** The whole merge, without faults. *)
Lemma StreamMerge_ends config s resume :
  faultless e -> DatasetID config <> "" -> AgentID config <> "" -> well_placed config s ->
  let cs := sorted_active e sortSlice config s in
  enough_space cs -> resume_of (checkpoints s !! checkpoint_of config) = Some resume ->
  ends_with config (content_from config s resume cs) (counted config s resume cs) (StreamMerge e sortSlice config s).
Proof.
  intros He Hds Hag Hwp cs Hspace Hres.
  destruct (well_placed_active e sortSlice config s s Hsort Hwp) as [Hspared Hmerge].
  unfold StreamMerge. rewrite (eqb_neq_s _ _ Hds), (eqb_neq_s _ _ Hag). fold cs.
  fold (output_of config). rewrite (no_mkdir _ He). fold (prepared config s). cbv zeta.
  assert (Hshort : fst (match availableSpace e with
    | Ok a => (a <? calculateRequiredSpace cs, a) | Err _ => (false, 0) end) = false).
  { unfold enough_space in Hspace. destruct (availableSpace e); [|done]. by apply Z.ltb_ge. }
  destruct (match availableSpace e with Ok a => _ | Err _ => _ end) as [short available].
  simpl in Hshort. subst short. unfold loadCheckpoint. rewrite (no_checkpoint_read _ He).
  change (checkpoints (prepared config s)) with (checkpoints s).
  change (getCheckpointPath (output_of config)) with (checkpoint_of config).
  destruct (checkpoints s !! checkpoint_of config) as [[cp|]|]; [|done|]; rewrite (no_open _ He);
    apply run_merge_ends; try done; unfold recordRecoveryEvent; simpl;
    by destruct (mergeMetrics s !! _).
Qed.

(** With a clock that advances it returns its result. *)
Lemma StreamMerge_runs config s resume :
  timed e -> DatasetID config <> "" -> AgentID config <> "" -> well_placed config s ->
  let cs := sorted_active e sortSlice config s in
  enough_space cs -> resume_of (checkpoints s !! checkpoint_of config) = Some resume ->
  exists r s', StreamMerge e sortSlice config s = (MOk r, s') /\
    merged_to config (content_from config s resume cs) r s' /\ counted config s resume cs r.
Proof.
  intros [He Ht] Hds Hag Hwp cs Hspace Hres.
  destruct (StreamMerge_ends config s resume He Hds Hag Hwp Hspace Hres) as [(H1 & H2 & H3) Hr].
  destruct (Z.eqb_spec (elapsedMs e) 0); [done|]. destruct Hr as (r & Er & Hsize & Hc).
  destruct (StreamMerge e sortSlice config s) as [o s']. simpl in *. subst o. by exists r, s'.
Qed.

(** ** Interruption and resumption *)

(** The same environment, but the context is cancelled at position [k]. *)
Definition cancel_at (k : nat) (x : string) : env :=
  mkEnv (mkdirErr e) (availableSpace e) (spaceAfter e) (checkpointReadErr e) (openErr e) (seekErr e)
    (statErr e) (chunkOpenErr e) (copyErr e) (syncErr e) (saveErr e) (renameErr e) (clearErr e)
    (fun i => if i =? Z.of_nat k then Some x else None)
    (elapsedMs e) (sha256hex e) (gunzip e) (gzip_written e) (gzip_closed e).

(** A fresh merge: no partial file, no checkpoint. *)
Definition fresh (config : MergeConfig) (s : fs) : Prop :=
  files s !! partial_of config = None /\ checkpoints s !! checkpoint_of config = None.

(** The state in which the interrupted merge is left. *)
Definition left_at (config : MergeConfig) (s : fs) (cs : list ChunkInfo) (k : nat) (s1 : fs) : Prop :=
  files s1 = <[partial_of config := concat_str (map (chunk_data config s) (take k cs))]> (files s) /\
  dirs s1 = dirs (prepared config s) /\
  resume_of (checkpoints s1 !! checkpoint_of config) = Some (resume_after config s (take k cs)).

(** The index of each chunk is its position. *)
Definition positioned (cs : list ChunkInfo) : Prop :=
  Z.of_nat (length cs) < 2 ^ 62 /\ forall j c, cs !! j = Some c -> Index c = Z.of_nat j.

(** Then what is left out when the merge resumes has no content. *)
Lemma resume_after_positioned config s l :
  positioned l -> exists r, resume_after config s l = Z.of_nat r /\ (r <= length l)%nat /\
    concat_str (map (chunk_data config s) (drop r l)) = "".
Proof.
  induction l as [|c l IH] using rev_ind; intros [Hlen Hidx]; [by exists 0%nat|].
  rewrite length_app in Hlen. simpl in Hlen. rewrite resume_after_snoc.
  destruct (is_empty (chunk_data config s c)) eqn:Hemp.
  - destruct IH as (r & E & Hle & Hc).
    { split; [lia|]. intros j x Hj. apply Hidx. by apply lookup_app_l_Some. }
    exists r. split; [done|]. rewrite length_app. split; [lia|]. rewrite drop_app_le, map_app, concat_str_app, Hc by done.
    simpl. apply String.eqb_eq in Hemp. by rewrite Hemp.
  - rewrite (Hidx (length l) c) by (by rewrite lookup_app_r, Nat.sub_diag by lia).
    exists (length (l ++ [c])). rewrite int64_small, length_app by lia. simpl. split; [lia|]. split; [lia|].
    by rewrite drop_ge by (rewrite length_app; simpl; lia).
Qed.

(** What the interrupted merge and the second run leave together. *)
Definition resumed_content (config : MergeConfig) (s : fs) (cs : list ChunkInfo) (k : nat) : string :=
  concat_str (map (chunk_data config s) (take k cs)) +:+
  concat_str (map (chunk_data config s) (drop (Z.to_nat (resume_after config s (take k cs))) cs)).

Lemma resumed_content_positioned config s cs k :
  positioned cs -> (k <= length cs)%nat ->
  resumed_content config s cs k = concat_str (map (chunk_data config s) cs).
Proof.
  intros [Hlen Hidx] Hk. destruct (resume_after_positioned config s (take k cs)) as (r & Hr & Hle & Hemp).
  { split; [rewrite length_take; lia|]. intros j c Hj. apply lookup_take_Some in Hj as [Hj _]. by apply Hidx. }
  rewrite length_take in Hle. unfold resumed_content. rewrite Hr, Nat2Z.id.
  rewrite <- (take_drop r (take k cs)) at 1. rewrite take_take, Nat.min_l by lia.
  rewrite map_app, concat_str_app, Hemp, append_nil_r, <- concat_str_app, <- map_app. by rewrite take_drop.
Qed.

Lemma interrupted_run config s k x :
  faultless e -> (forall i, saveErr e i = None) -> DatasetID config <> "" -> AgentID config <> "" ->
  well_placed config s -> Compressed config = false -> fresh config s ->
  let cs := sorted_active e sortSlice config s in
  enough_space cs -> (k < length cs)%nat ->
  exists s1, StreamMerge (cancel_at k x) sortSlice config s = (MErr x, s1) /\ left_at config s cs k s1.
Proof.
  intros He Hsave Hds Hag Hwp Hplain [Hnp Hnc] cs Hspace Hk.
  destruct (well_placed_active e sortSlice config s s Hsort Hwp) as [_ Hmerge]. fold cs in Hmerge.
  unfold StreamMerge. rewrite (eqb_neq_s _ _ Hds), (eqb_neq_s _ _ Hag).
  change (sorted_active (cancel_at k x) sortSlice config s) with cs.
  fold (output_of config). cbn [cancel_at mkdirErr availableSpace openErr].
  rewrite (no_mkdir _ He). fold (prepared config s). cbv zeta.
  assert (Hshort : fst (match availableSpace e with
    | Ok a => (a <? calculateRequiredSpace cs, a) | Err _ => (false, 0) end) = false).
  { unfold enough_space in Hspace. destruct (availableSpace e); [|done]. by apply Z.ltb_ge. }
  destruct (match availableSpace e with Ok a => _ | Err _ => _ end) as [short available].
  simpl in Hshort. subst short. unfold loadCheckpoint. cbn [checkpointReadErr cancel_at].
  rewrite (no_checkpoint_read _ He).
  change (checkpoints (prepared config s)) with (checkpoints s).
  change (getCheckpointPath (output_of config)) with (checkpoint_of config). rewrite Hnc, (no_open _ He).
  unfold run_merge. fold (partial_of config). cbn [seekErr cancel_at]. cbv zeta.
  set (m := mkM _ _ _ _ _ _).
  assert (Hp : partially (partial_of config) (prepared config s) "" (m_fs m)).
  { unfold partially. simpl. by rewrite Hnp. }
  assert (Hcs : take k cs ++ drop k cs = cs) by apply take_drop.
  assert (Hlk : length (take k cs) = k) by (rewrite length_take; lia).
  destruct (merge_loop_progress (cancel_at k x) config (partial_of config) (output_of config)
    (prepared config s) (take k cs) [] "" m) as (m' & E & Hp' & Hr'); try done; try apply He.
  { intros j Hj. simpl in *. destruct (Z.eqb_spec j (Z.of_nat k)); [lia|done]. }
  { by apply Forall_take. }
  { split; [done|]. change (resume_of (checkpoints s !! checkpoint_of config) = Some 0). by rewrite Hnc. }
  assert (Hgz : m_gz m' = []) by (by rewrite (merge_loop_gz _ _ _ _ _ _ _ _ Hplain E)).
  assert (Hloop : merge_loop (cancel_at k x) config (partial_of config) 0 0 cs m = inr (x, m')).
  { transitivity (merge_loop (cancel_at k x) config (partial_of config) 0 0 (take k cs ++ drop k cs) m);
      [by rewrite Hcs|]. rewrite merge_loop_app.
    change (Z.of_nat (length [])) with 0 in E. rewrite E, Hlk.
    destruct (drop k cs) as [|c rest] eqn:Hd.
    { apply (f_equal length) in Hd. rewrite length_drop in Hd. simpl in Hd. lia. }
    cbn [merge_loop]. destruct (Z.ltb_spec (0 + Z.of_nat k) 0); [lia|].
    unfold merge_chunk. cbn [cancelled cancel_at]. by rewrite Z.add_0_l, Z.eqb_refl. }
  rewrite Hloop, Hgz.
  exists (m_fs m'). split; [done|]. destruct Hp' as (Hf & Hdir & _). destruct Hr' as [_ Hr].
  split; [|by split].
  rewrite Hf. rewrite (map_ext _ (chunk_data config s)); [done|].
  intros c'. transitivity (chunk_data config (prepared config s) c'); [by apply chunk_out_plain|done].
Qed.

(** Running the merge again from there. *)
Lemma resumed_run config s k s1 :
  timed e -> DatasetID config <> "" -> AgentID config <> "" ->
  well_placed config s -> Compressed config = false ->
  let cs := sorted_active e sortSlice config s in
  enough_space cs -> left_at config s cs k s1 ->
  exists r s2, StreamMerge e sortSlice config s1 = (MOk r, s2) /\
    merged_to config (resumed_content config s cs k) r s2.
Proof.
  intros He Hds Hag Hwp Hplain cs Hspace (Hf & Hd & Hr).
  destruct (well_placed_active e sortSlice config s s Hsort Hwp) as [_ Hmerge]. fold cs in Hmerge.
  assert (Hwp1 : well_placed config s1).
  { destruct Hwp as [W1 W2 W3]. unfold prepared in *. simpl in *.
    split; simpl; rewrite ?Hd; simpl; [set_solver..|].
    eapply Forall_impl; [exact W3|]. intros c [Hs Hm]. split; [done|].
    intros p Hp. specialize (Hm p Hp). simpl in *. rewrite Hd. simpl. set_solver. }
  assert (Hcs : sorted_active e sortSlice config s1 = cs).
  { subst cs. unfold sorted_active. f_equal. apply map_ext_in. intros c Hin.
    apply filter_In in Hin as [Hin _]. apply list_elem_of_In in Hin.
    pose proof (wp_chunks _ _ Hwp) as W. rewrite Forall_forall in W.
    destruct (W c Hin) as [[Hne _] _]. unfold with_checksum, computeChunkChecksum.
    rewrite Hf. by rewrite lookup_insert_ne by done. }
  destruct (StreamMerge_runs config s1 _ He Hds Hag Hwp1 ltac:(by rewrite Hcs) Hr) as (res & s2 & E & Hto & _).
  exists res, s2. split; [done|]. unfold content_from in Hto. rewrite Hcs, Hf, lookup_insert_eq in Hto. simpl in Hto.
  unfold resumed_content. set (n := Z.to_nat _) in *.
  assert (Hrest : map (chunk_out e config s1) (drop n cs) = map (chunk_data config s) (drop n cs)); [|by rewrite Hrest in Hto].
  apply map_ext_in. intros c Hin. rewrite chunk_out_plain by done.
  apply list_elem_of_In in Hin. apply (Forall_drop _ n) in Hmerge. rewrite Forall_forall in Hmerge.
  specialize (Hmerge c Hin). unfold chunk_data, mergeable in *.
  destruct (resolveChunkPath _ _ _) as [p|]; [|done]. destruct (Hmerge p eq_refl) as [_ Hne].
  by rewrite Hf, lookup_insert_ne.
Qed.
End merge_theorems.

Lemma sorted_active_sorted e sortSlice config s :
  SliceSort (fun x y => Index x <? Index y) sortSlice ->
  StronglySorted (fun x y => Index x <= Index y) (sorted_active e sortSlice config s).
Proof.
  intros Hsort. pose proof (sortSlice_sorted (SliceSort := Hsort) (map (with_checksum e s) (active (Chunks config)))) as Hs.
  fold (sorted_active e sortSlice config s) in Hs.
  induction Hs as [|x l _ IH Hall]; constructor; [done|]. eapply Forall_impl; [exact Hall|].
  intros y H. simpl in H. lia.
Qed.

(** ** Properties *)

(** C9.  When no system call fails, nothing is cancelled and there is room,
    [StreamMerge] leaves in the output, in this order, whatever the partial file
    held, and what the active chunks contribute in increasing order of their
    indices, from the position after the checkpoint on; the partial file and the
    checkpoint are gone.  A chunk contributes its content, unless the
    configuration compresses and the chunk is a gzip file: then only what its
    gzip writer has written while it was copied.  If the clock has advanced by a
    millisecond the result counts every active chunk as merged or as skipped, the
    latter exactly when it has no content; otherwise the caller gets a panic. *)
Theorem StreamMerge_concatenates (e : env) (sortSlice : list ChunkInfo -> list ChunkInfo)
    (config : MergeConfig) (s : fs) (resume : Z) :
  SliceSort (fun x y => Index x <? Index y) sortSlice ->
  faultless e -> DatasetID config <> "" -> AgentID config <> "" -> well_placed config s ->
  enough_space e (sorted_active e sortSlice config s) ->
  resume_of (checkpoints s !! checkpoint_of config) = Some resume ->
  let cs := sorted_active e sortSlice config s in
  let todo := drop (Z.to_nat resume) cs in
  let old := default "" (files s !! partial_of config) in
  let content := old +:+ concat_str (map (chunk_out e config s) todo) in
  let run := StreamMerge e sortSlice config s in
  StronglySorted (fun x y => Index x <= Index y) cs /\
  (Compressed config = false -> content = old +:+ concat_str (map (chunk_data config s) todo)) /\
  files run.2 !! output_of config = Some content /\
  files run.2 !! partial_of config = None /\ checkpoints run.2 !! checkpoint_of config = None /\
  if elapsedMs e =? 0 then run.1 = MPanic
  else exists r, run.1 = MOk r /\ FileSize r = Z.of_nat (String.length content) /\
    MergedChunks r + SkippedChunks r = Z.of_nat (length cs) /\
    SkippedChunks r = Z.of_nat (length (List.filter (fun c => is_empty (chunk_data config s c)) todo)).
Proof.
  intros Hsort He Hds Hag Hwp Hspace Hres cs todo old content run.
  destruct (StreamMerge_ends e sortSlice Hsort config s resume He Hds Hag Hwp Hspace Hres) as [(H1 & H2 & H3) Hr].
  split; [apply sorted_active_sorted; exact Hsort|].
  split; [intros Hp; subst content; by rewrite (map_ext _ _ (fun c => chunk_out_plain e config s c Hp))|].
  split; [exact H1|]. split; [exact H2|]. split; [exact H3|]. destruct (elapsedMs e =? 0); [exact Hr|].
  destruct Hr as (r & Er & Hsize & Hn & Hs). by exists r.
Qed.

(** A concrete merge: three chunks, the second empty, listed out of order. *)
Definition calm_env : env :=
  mkEnv None (Ok 1000000) 0 None None None (fun _ => None) (fun _ => None) (fun _ => None)
    (fun _ => None) (fun _ => None) None None (fun _ => None) 5
    (fun s => "sha:" +:+ s) (fun s => Some s) (fun s => "[" +:+ s) (fun _ => "]").

Lemma calm_faultless : faultless calm_env.
Proof. by split. Qed.

Lemma calm_timed : timed calm_env.
Proof. by split; [apply calm_faultless|]. Qed.

Definition demo_chunk (i : Z) (path : string) : ChunkInfo := mkChunk path path i 0 false "" false.

Definition demo_config (gz : bool) (cs : list ChunkInfo) : MergeConfig :=
  mkConfig "ds" "" "dev" (Some (mkDeviceOutput "dev" "/out" "")) cs "shared_mount" "" true gz true
    false "agent".

Definition demo_chunks : list ChunkInfo :=
  [demo_chunk 2 "/in/c2"; demo_chunk 0 "/in/c0"; demo_chunk 1 "/in/c1"].

Definition demo_files : gmap string string :=
  {["/in/c0" := "AAAA"; "/in/c1" := ""; "/in/c2" := "BB"]}.

Definition demo_fs (extra : gmap string string) (cps : gmap string checkpoint_file) : fs :=
  mkFS (extra ∪ demo_files) {["/in"]} cps ∅.

Ltac solve_placed :=
  split; [vm_compute; intros H; discriminate H|vm_compute; intros H; discriminate H|];
  repeat first [apply Forall_nil_2 | apply Forall_cons_2; [split; [split; discriminate|]|]];
  intros p Hp; vm_compute in Hp; injection Hp as <-; (split; [vm_compute; intros H; discriminate H|discriminate]).

Lemma demo_placed extra cps : well_placed (demo_config false demo_chunks) (demo_fs extra cps).
Proof. solve_placed. Qed.

(** The same merge is compressed, of one gzip file; and on a clock that stands still. *)
Definition gz_config : MergeConfig := demo_config true [demo_chunk 0 "/in/c0.gz"].
Definition gz_fs : fs := demo_fs {["/in/c0.gz" := "AAAA"]} ∅.

Definition instant_env : env :=
  mkEnv None (Ok 1000000) 0 None None None (fun _ => None) (fun _ => None) (fun _ => None)
    (fun _ => None) (fun _ => None) None None (fun _ => None) 0
    (fun s => s) (fun s => Some s) (fun s => s) (fun _ => "").

Lemma StreamMerge_concatenates_witness :
  (exists r, (StreamMerge calm_env (sort_by Index) (demo_config false demo_chunks) (demo_fs ∅ ∅)).1 = MOk r /\
     SkippedChunks r = 1) /\
  files (StreamMerge calm_env (sort_by Index) (demo_config false demo_chunks) (demo_fs ∅ ∅)).2
    !! "/out/ds_merged.csv" = Some "AAAABB" /\
  files (StreamMerge calm_env (sort_by Index) gz_config gz_fs).2 !! "/out/ds_merged.csv" = Some "[AAAA" /\
  (StreamMerge instant_env (sort_by Index) (demo_config false demo_chunks) (demo_fs ∅ ∅)).1 = MPanic.
Proof.
  destruct (StreamMerge_concatenates calm_env (sort_by Index) (demo_config false demo_chunks)
    (demo_fs ∅ ∅) 0 _ calm_faultless ltac:(discriminate) ltac:(discriminate) (demo_placed ∅ ∅)
    ltac:(vm_compute; discriminate) ltac:(vm_compute; reflexivity)) as (_ & _ & Hout & _ & _ & r & Er & _ & _ & Hs).
  destruct (StreamMerge_concatenates calm_env (sort_by Index) gz_config gz_fs 0 _ calm_faultless
    ltac:(discriminate) ltac:(discriminate) ltac:(solve_placed)
    ltac:(vm_compute; discriminate) ltac:(vm_compute; reflexivity)) as (_ & _ & Hgz & _).
  destruct (StreamMerge_concatenates instant_env (sort_by Index) (demo_config false demo_chunks)
    (demo_fs ∅ ∅) 0 _ ltac:(by split) ltac:(discriminate) ltac:(discriminate) (demo_placed ∅ ∅)
    ltac:(vm_compute; discriminate) ltac:(vm_compute; reflexivity)) as (_ & _ & _ & _ & _ & Hp).
  split; [exists r; split; [exact Er|exact Hs]|]. split; [exact Hout|]. split; [exact Hgz|exact Hp].
Defined.

(** C10.  A fresh merge without compression whose checkpoints are saved and that is
    cancelled at its [k]-th active chunk, and then run again undisturbed, leaves the
    first [k] chunks followed by the chunks from the position that the index of the
    last chunk with content among them, plus one, names.  So where the index of
    every active chunk is its position the output is that of an uninterrupted
    merge; where indices have gaps, because chunks are skipped or left out,
    chunks that were pending are passed over. *)
Theorem merge_resumes (e : env) (sortSlice : list ChunkInfo -> list ChunkInfo)
    (config : MergeConfig) (s : fs) (k : nat) (x : string) :
  SliceSort (fun x y => Index x <? Index y) sortSlice ->
  timed e -> (forall i, saveErr e i = None) -> DatasetID config <> "" -> AgentID config <> "" ->
  well_placed config s -> Compressed config = false -> fresh config s ->
  let cs := sorted_active e sortSlice config s in
  enough_space e cs -> (k < length cs)%nat ->
  exists s1 r s2, StreamMerge (cancel_at e k x) sortSlice config s = (MErr x, s1) /\
    StreamMerge e sortSlice config s1 = (MOk r, s2) /\
    merged_to config (resumed_content config s cs k) r s2 /\
    (positioned cs -> resumed_content config s cs k = concat_str (map (chunk_data config s) cs)).
Proof.
  intros Hsort He Hsave Hds Hag Hwp Hplain Hfresh cs Hspace Hk.
  destruct (interrupted_run e sortSlice Hsort config s k x) as (s1 & E1 & Hleft); [apply He|done..|].
  destruct (resumed_run e sortSlice Hsort config s k s1) as (r & s2 & E2 & Hto); [done..|].
  exists s1, r, s2. split; [done|]. split; [done|]. split; [done|].
  intros Hpos. by apply resumed_content_positioned; [|apply Nat.lt_le_incl].
Qed.

(** Three chunks in place; and the first and the last two of four, the second
    being skipped: the last chunk is passed over. *)
Definition gap_chunks : list ChunkInfo :=
  [demo_chunk 0 "/in/c0"; mkChunk "/in/c1" "/in/c1" 1 0 false "" true; demo_chunk 2 "/in/c2"; demo_chunk 3 "/in/c3"].
Definition gap_fs : fs := demo_fs {["/in/c3" := "CC"]} ∅.

Lemma merge_resumes_witness :
  (exists s1 r s2,
    StreamMerge (cancel_at calm_env 2 "context canceled") (sort_by Index)
      (demo_config false demo_chunks) (demo_fs ∅ ∅) = (MErr "context canceled", s1) /\
    StreamMerge calm_env (sort_by Index) (demo_config false demo_chunks) s1 = (MOk r, s2) /\
    files s2 !! "/out/ds_merged.csv" = Some "AAAABB") /\
  (exists s1 r s2,
    StreamMerge (cancel_at calm_env 2 "context canceled") (sort_by Index)
      (demo_config false gap_chunks) gap_fs = (MErr "context canceled", s1) /\
    StreamMerge calm_env (sort_by Index) (demo_config false gap_chunks) s1 = (MOk r, s2) /\
    files s2 !! "/out/ds_merged.csv" = Some "AAAABB" /\
    files (StreamMerge calm_env (sort_by Index) (demo_config false gap_chunks) gap_fs).2 !! "/out/ds_merged.csv"
      = Some "AAAABBCC").
Proof.
  split.
  - destruct (merge_resumes calm_env (sort_by Index) (demo_config false demo_chunks) (demo_fs ∅ ∅) 2
      "context canceled" _ calm_timed ltac:(reflexivity) ltac:(discriminate) ltac:(discriminate)
      (demo_placed ∅ ∅) eq_refl ltac:(split; reflexivity) ltac:(vm_compute; discriminate)
      ltac:(vm_compute; lia)) as (s1 & r & s2 & E1 & E2 & (Hout & _) & Hpos).
    exists s1, r, s2. split; [exact E1|]. split; [exact E2|]. rewrite Hpos in Hout; [exact Hout|].
    split; [vm_compute; reflexivity|]. intros [|[|[|j]]] c Hc; vm_compute in Hc;
      first [discriminate Hc|injection Hc as <-; reflexivity].
  - destruct (merge_resumes calm_env (sort_by Index) (demo_config false gap_chunks) gap_fs 2
      "context canceled" _ calm_timed ltac:(reflexivity) ltac:(discriminate) ltac:(discriminate)
      ltac:(solve_placed) eq_refl ltac:(split; reflexivity) ltac:(vm_compute; discriminate)
      ltac:(vm_compute; lia)) as (s1 & r & s2 & E1 & E2 & (Hout & _) & _).
    exists s1, r, s2. split; [exact E1|]. split; [exact E2|]. split; [exact Hout|vm_compute; reflexivity].
Defined.

(** A merge that resumes does not cut the partial file back to the length
    its checkpoint records: when the process died while it was copying a chunk,
    the bytes of the torn copy stay in the output, in front of the whole chunk. *)
Theorem torn_write_stays (e : env) (sortSlice : list ChunkInfo -> list ChunkInfo)
    (config : MergeConfig) (s : fs) (cp : MergeCheckpoint) (whole torn : string) :
  SliceSort (fun x y => Index x <? Index y) sortSlice ->
  timed e -> DatasetID config <> "" -> AgentID config <> "" -> well_placed config s ->
  Compressed config = false ->
  enough_space e (sorted_active e sortSlice config s) ->
  checkpoints s !! checkpoint_of config = Some (CheckpointData cp) ->
  files s !! partial_of config = Some (whole +:+ torn) ->
  BytesWritten cp = Z.of_nat (String.length whole) ->
  let todo := drop (Z.to_nat (int64 (LastChunkIndex cp + 1))) (sorted_active e sortSlice config s) in
  exists r s', StreamMerge e sortSlice config s = (MOk r, s') /\
    merged_to config (whole +:+ torn +:+ concat_str (map (chunk_data config s) todo)) r s'.
Proof.
  intros Hsort He Hds Hag Hwp Hplain Hspace Hcp Hpart _ todo.
  destruct (StreamMerge_runs e sortSlice Hsort config s (int64 (LastChunkIndex cp + 1)))
    as (r & s' & E & Hto & _); [done..|by rewrite Hcp|].
  exists r, s'. split; [done|]. unfold content_from in Hto. rewrite Hpart in Hto. simpl in Hto.
  rewrite (map_ext _ _ (fun c => chunk_out_plain e config s c Hplain)) in Hto.
  by rewrite append_assoc in Hto.
Qed.

(** The first byte of the third chunk was written when the process died. *)
Definition torn_fs : fs :=
  demo_fs {["/out/ds_merged.csv.partial" := "AAAAB"]}
    {["/out/ds_merged.csv.checkpoint.json" :=
        CheckpointData (mkCheckpoint "ds" "/out/ds_merged.csv" 0 4 ["/in/c0"])]}.

Lemma torn_write_stays_witness :
  exists r s', StreamMerge calm_env (sort_by Index) (demo_config false demo_chunks) torn_fs
      = (MOk r, s') /\ files s' !! "/out/ds_merged.csv" = Some "AAAABBB".
Proof.
  destruct (torn_write_stays calm_env (sort_by Index) (demo_config false demo_chunks) torn_fs
    (mkCheckpoint "ds" "/out/ds_merged.csv" 0 4 ["/in/c0"]) "AAAA" "B" _ calm_timed
    ltac:(discriminate) ltac:(discriminate) (demo_placed _ _) eq_refl
    ltac:(vm_compute; discriminate) ltac:(vm_compute; reflexivity) ltac:(vm_compute; reflexivity)
    eq_refl) as (r & s' & E & (Hout & _)).
  exists r, s'. split; [exact E|exact Hout].
Defined.

(** Chunks that go through a gzip writer lose the bytes that the writer
    still holds when the merge is over: the writers are closed after the output
    file is, so what [Close] would flush never reaches the output, whatever it
    is. *)
Theorem gzip_tails_are_lost (e : env) (sortSlice : list ChunkInfo -> list ChunkInfo)
    (config : MergeConfig) (s : fs) :
  SliceSort (fun x y => Index x <? Index y) sortSlice ->
  timed e -> DatasetID config <> "" -> AgentID config <> "" -> well_placed config s ->
  fresh config s ->
  let cs := sorted_active e sortSlice config s in
  enough_space e cs ->
  Forall (fun c => through_gzip config c = true /\ is_empty (chunk_data config s c) = false) cs ->
  exists r s', StreamMerge e sortSlice config s = (MOk r, s') /\ SkippedChunks r = 0 /\
    merged_to config (concat_str (map (fun c => gzip_written e (chunk_data config s c)) cs)) r s'.
Proof.
  intros Hsort He Hds Hag Hwp [Hnp Hnc] cs Hspace Hgz.
  destruct (StreamMerge_runs e sortSlice Hsort config s 0) as (r & s' & E & Hto & _ & Hsk);
    [done..|by rewrite Hnc|]. exists r, s'. split; [done|]. fold cs in Hto, Hsk. unfold content_from in Hto. rewrite Hnp in Hto. simpl in Hto, Hsk.
  change (Z.to_nat 0) with 0%nat in Hto, Hsk. rewrite drop_0 in Hto, Hsk. split.
  - rewrite Hsk. clear -Hgz. induction Hgz as [|c l [_ H] _ IH]; [done|]. simpl. by rewrite H.
  - rewrite (map_ext_in _ (chunk_out e config s)); [exact Hto|]. intros c Hin.
    apply list_elem_of_In in Hin. rewrite Forall_forall in Hgz. destruct (Hgz c Hin) as [Hc Hne].
    unfold chunk_out, chunk_data in *. rewrite Hc. unfold through_gzip in Hc.
    destruct (resolveChunkPath _ _ _) as [p|]; [|done]. by destruct (files s !! p).
Qed.

Lemma gzip_tails_are_lost_witness :
  exists r s', StreamMerge calm_env (sort_by Index) gz_config gz_fs = (MOk r, s') /\
    files s' !! "/out/ds_merged.csv" = Some "[AAAA".
Proof.
  destruct (gzip_tails_are_lost calm_env (sort_by Index) gz_config gz_fs _ calm_timed
    ltac:(discriminate) ltac:(discriminate) ltac:(solve_placed) ltac:(split; reflexivity)
    ltac:(vm_compute; discriminate) ltac:(repeat constructor)) as (r & s' & E & _ & (Hout & _)).
  exists r, s'. split; [exact E|exact Hout].
Defined.

(** A merge that is over in less than a millisecond divides by zero after
    its work is done: the output is in place and the chunks may be gone, but the
    caller gets a panic and no result. *)
Theorem instant_merge_panics (e : env) (sortSlice : list ChunkInfo -> list ChunkInfo)
    (config : MergeConfig) (cs : list ChunkInfo) (available : Z) (m : mstate) :
  elapsedMs e = 0 -> syncErr e (-1) = None -> renameErr e = None ->
  exists s', finish_merge e sortSlice config (output_of config) (partial_of config) cs available m
      = (MPanic, s') /\
    files s' !! output_of config =
      Some (default "" (files (cleanupChunks cs (m_fs m)).2 !! partial_of config)).
Proof.
  intros Hz Hs Hr. unfold finish_merge. destruct (cleanupChunks cs (m_fs m)) as [n s].
  rewrite Hs, Hr, Hz. simpl. eexists. split; [reflexivity|].
  unfold clearCheckpoint. destruct (clearErr e); apply lookup_insert_eq.
Qed.

Lemma instant_merge_panics_witness :
  exists s', finish_merge instant_env (sort_by Index) (demo_config false demo_chunks)
      "/out/ds_merged.csv" "/out/ds_merged.csv.partial" demo_chunks 1000000
      (mkM (demo_fs {["/out/ds_merged.csv.partial" := "AAAABB"]} ∅) 6 2 1
         (mkCheckpoint "ds" "/out/ds_merged.csv" 2 6 []) [])
      = (MPanic, s') /\ files s' !! "/out/ds_merged.csv" = Some "AAAABB".
Proof.
  exact (instant_merge_panics instant_env (sort_by Index) (demo_config false demo_chunks) demo_chunks
    1000000 (mkM (demo_fs {["/out/ds_merged.csv.partial" := "AAAABB"]} ∅) 6 2 1
         (mkCheckpoint "ds" "/out/ds_merged.csv" 2 6 []) []) eq_refl eq_refl eq_refl).
Defined.

(** ** Tree merge *)

Lemma plan_stages_ok chunks cur :
  (length cur < MaxChunksPerPass)%nat ->
  let stages := plan_stages chunks cur in
  (chunks <> [] -> mjoin stages = cur ++ chunks) /\
  Forall (fun st => (0 < length st <= MaxChunksPerPass)%nat) stages /\
  (forall i st, stages !! i = Some st -> (S i < length stages)%nat -> length st = MaxChunksPerPass).
Proof.
  revert cur. induction chunks as [|c rest IH]; intros cur Hcur; cbn [plan_stages].
  { split; [done|]. split; [constructor|]. intros i st H. by rewrite lookup_nil in H. }
  assert (Hlen : length (cur ++ [c]) = S (length cur)) by (rewrite length_app; simpl; lia).
  rewrite Hlen. destruct (Nat.leb_spec MaxChunksPerPass (S (length cur))) as [Hfull|Hroom]; cbn [orb].
  - destruct (IH [] ltac:(unfold MaxChunksPerPass; simpl; lia)) as (H1 & H2 & H3).
    split; [|split].
    + intros _. simpl. destruct rest as [|c' rest]; [simpl; by rewrite app_nil_r|].
      rewrite H1 by done. by rewrite <- app_assoc.
    + constructor; [rewrite Hlen; lia|done].
    + intros [|i] st Hi Hlt; simpl in *; [injection Hi as <-; lia|]. apply (H3 i st Hi). lia.
  - destruct rest as [|c' rest].
    + split; [|split]; [intros _; simpl; by rewrite app_nil_r|constructor; [rewrite Hlen; lia|constructor]|].
      intros [|i] st Hi Hlt; simpl in *; [lia|done].
    + destruct (IH (cur ++ [c]) ltac:(by rewrite Hlen)) as (H1 & H2 & H3).
      split; [|by split]. intros _. rewrite H1 by done. by rewrite <- app_assoc.
Qed.

(** [planTreeMerge] partitions the active chunks, in index order, into
    stages of exactly [MaxChunksPerPass] chunks, the last one taking the rest. *)
Theorem planTreeMerge_correct (sortSlice : list ChunkInfo -> list ChunkInfo)
    (chunks : list ChunkInfo) :
  SliceSort (fun x y => Index x <? Index y) sortSlice ->
  let stages := planTreeMerge sortSlice chunks in
  mjoin stages = sortSlice (active chunks) /\
  mjoin stages ≡ₚ active chunks /\
  Forall (fun st => (0 < length st <= MaxChunksPerPass)%nat) stages /\
  (forall i st, stages !! i = Some st -> (S i < length stages)%nat -> length st = MaxChunksPerPass).
Proof.
  intros Hsort stages.
  destruct (plan_stages_ok (sortSlice (active chunks)) [] ltac:(unfold MaxChunksPerPass; simpl; lia))
    as (H1 & H2 & H3).
  assert (Hjoin : mjoin stages = sortSlice (active chunks)).
  { subst stages. unfold planTreeMerge. destruct (sortSlice (active chunks)) eqn:E; [done|].
    by apply H1. }
  split; [done|]. split; [|by split]. rewrite Hjoin. apply (sortSlice_perm (SliceSort := Hsort)).
Qed.

Lemma planTreeMerge_correct_witness :
  map (@length ChunkInfo)
    (planTreeMerge (sort_by Index) (map (fun i => demo_chunk (Z.of_nat i) "/c") (seq 0 130)))
    = [64; 64; 2]%nat /\
  mjoin (planTreeMerge (sort_by Index) demo_chunks) ≡ₚ demo_chunks.
Proof.
  split; [vm_compute; reflexivity|].
  exact (proj1 (proj2 (planTreeMerge_correct (sort_by Index) demo_chunks _))).
Defined.
