(* ===== verification/MergeTree.v ===== *)
(** * MergeTree: merging in stages

    Models [StreamMergeTree], [MergeReaders] and [GetAllMergeMetrics] of
    [internal/dataset/merge.go].  A tree merge is a sequence of calls of
    [StreamMerge], each with an environment of its own. *)
From S2P Require Import Prelude GoFloat Path Merge.
From Stdlib Require Import Ascii.

(** ** Definitions *)

(** [os.Rename] of a file. *)
Definition os_Rename (fault : error) (src dst : string) (s : fs) : fs * error :=
  match fault with
  | Some x => (s, Some x)
  | None =>
      match files s !! src with
      | None => (s, Some ("rename " +:+ src +:+ " " +:+ dst +:+ ": no such file or directory"))
      | Some content =>
          if decide (dst ∈ dirs s)
          then (s, Some ("rename " +:+ src +:+ " " +:+ dst +:+ ": file exists"))
          else (with_files (<[dst := content]> (delete src (files s))) s, None)
      end
  end.

Definition stage_name (datasetID : string) (stageIdx : nat) : string :=
  "stage_" +:+ itoa (Z.of_nat stageIdx) +:+ "_" +:+ datasetID +:+ ".partial".

Definition stage_id (datasetID : string) (stageIdx : nat) : string :=
  datasetID +:+ "_stage_" +:+ itoa (Z.of_nat stageIdx).

(** The configuration of a stage. *)
Definition stage_config (config : MergeConfig) (outputDir : string) (stageIdx : nat)
    (stageChunks : list ChunkInfo) : MergeConfig :=
  let stageOutput := Join [outputDir; stage_name (DatasetID config) stageIdx] in
  let stageSlug := if negb (DatasetSlug config =?s "") then DatasetSlug config else DatasetID config in
  mkConfig (stage_id (DatasetID config) stageIdx) (stage_id stageSlug stageIdx) (AffinityDeviceID config)
    (Some (mkDeviceOutput (AffinityDeviceID config) outputDir (Base stageOutput)))
    stageChunks (Strategy config) (cfg_MountPath config) (0 <? stageIdx)%nat (Compressed config)
    (ChecksumRequired config) false (AgentID config).

(** The chunks of the last stage are the outputs of the others. *)
Definition intermediate_chunk (s : fs) (outputDir : string) (i : nat) (path : string) : ChunkInfo :=
  let full := Join [outputDir; path] in
  mkChunk ("intermediate_" +:+ itoa (Z.of_nat i)) full (Z.of_nat i)
    (match files s !! full with Some content => Z.of_nat (String.length content) | None => 0 end)
    false "" false.

Definition final_config (config : MergeConfig) (s : fs) (outputDir : string)
    (intermediateOutputs : list string) : MergeConfig :=
  mkConfig (DatasetID config) (DatasetSlug config) (AffinityDeviceID config) (cfg_DeviceOutput config)
    (imap (intermediate_chunk s outputDir) intermediateOutputs) (Strategy config) outputDir true
    (Compressed config) (ChecksumRequired config) false (AgentID config).

Definition result_file (r : MergeResult) : string :=
  match res_DeviceOutput r with Some d => File d | None => "" end.

Section tree.
(** [ee i] is the environment of the [i]-th call of [StreamMerge], [stop i] what
    [ctx.Err()] gives before stage [i]. *)
Context (ee : nat -> env) (stop : nat -> error) (renameFault : error)
  (sortSlice : list ChunkInfo -> list ChunkInfo).

(** The loop over the stages: the names of the intermediate outputs, or what
    the caller gets. *)
Fixpoint run_stages (config : MergeConfig) (outputDir : string) (stageIdx : nat)
    (stages : list (list ChunkInfo)) (s : fs) : (list string + outcome) * fs :=
  match stages with
  | [] => (inl [], s)
  | stageChunks :: rest =>
      match stop stageIdx with
      | Some x => (inr (MErr x), s)
      | None =>
          match StreamMerge (ee stageIdx) sortSlice (stage_config config outputDir stageIdx stageChunks) s with
          | (MOk r, s) =>
              match run_stages config outputDir (S stageIdx) rest s with
              | (inl outs, s) => (inl (result_file r :: outs), s)
              | (inr o, s) => (inr o, s)
              end
          | (MErr x, s) => (inr (MErr ("stage " +:+ itoa (Z.of_nat stageIdx) +:+ " failed: " +:+ x)), s)
          | (MPanic, s) => (inr MPanic, s)
          end
      end
  end.

(** The merge of the intermediate outputs, when there are several. *)
Definition run_final (config : MergeConfig) (outputDir : string) (outs : list string) (s : fs)
    : (string + outcome) * fs :=
  if (1 <? length outs)%nat then
    match StreamMerge (ee (length outs)) sortSlice (final_config config s outputDir outs) s with
    | (MOk r, s) => (inl (result_file r), s)
    | (MErr x, s) => (inr (MErr ("final stage failed: " +:+ x)), s)
    | (MPanic, s) => (inr MPanic, s)
    end
  else (inl (List.last outs ""), s).

(** From the last output to the result; [e] is the environment of these
    steps. *)
Definition finish_tree (e : env) (config : MergeConfig) (outputDir : string) (outs : list string)
    (finalOutput : string) (s : fs) : outcome * fs :=
  let outputPath := output_of config in
  let '(s, renamed) :=
    if finalOutput =?s outputPath then (s, None)
    else os_Rename renameFault (Join [outputDir; finalOutput]) outputPath s in
  match renamed with
  | Some x => (MErr ("failed to rename final output: " +:+ x), s)
  | None =>
      let '(checksum, fileSize) := default ("", 0) (computeChecksumDirect e s outputPath) in
      let datasetChecksum := computeDatasetChecksum e sortSlice (active (Chunks config)) in
      let checksum := if datasetChecksum =?s "" then checksum else datasetChecksum in
      let r := mkResult (DatasetID config)
                 (Some (mkDeviceOutput (AffinityDeviceID config) outputDir (Base outputPath)))
                 checksum fileSize (Z.of_nat (length (active (Chunks config)))) 0 0 (elapsedMs e) 0 0 in
      let s := recordMergeMetrics (DatasetID config) r s in
      let s := foldl (fun s intermediate => remove (Join [outputDir; intermediate]) s) s outs in
      (MOk r, clean_subdirs outputDir s)
  end.

(** The merge in stages, once it was chosen. *)
Definition tree_merge (e : env) (config : MergeConfig) (s : fs) : outcome * fs :=
  let outputDir := Dir (output_of config) in
  let stages := planTreeMerge sortSlice (Chunks config) in
  match stages with
  | [] => (MErr "no merge stages planned", s)
  | _ =>
      match run_stages config outputDir 0 stages s with
      | (inr o, s) => (o, s)
      | (inl outs, s) =>
          match run_final config outputDir outs s with
          | (inr o, s) => (o, s)
          | (inl finalOutput, s) => finish_tree e config outputDir outs finalOutput s
          end
      end
  end.

Definition StreamMergeTree (e : env) (config : MergeConfig) (s : fs) : outcome * fs :=
  let totalSizeGB := f64_div (f64_of_Z (total_size (Chunks config))) (f64_of_Z (1024 * 1024 * 1024)) in
  if negb (shouldUseTreeMerge (active (Chunks config)) totalSizeGB)
  then StreamMerge (ee 0) sortSlice config s
  else tree_merge e config s.
End tree.

(** *** [MergeReaders] and the metrics *)

(** A reader: the bytes it gives, and the error it ends with, if any. *)
Record reader := mkReader { r_data : string; r_err : error }.

(** The goroutine that feeds the pipe; [i] is the index of the next reader and
    [ctxErr] the context's error before each. *)
Fixpoint pump (ctxErr : nat -> error) (i : nat) (readers : list reader) : reader :=
  match readers with
  | [] => mkReader "" None
  | r :: rest =>
      match ctxErr i with
      | Some x => mkReader "" (Some x)
      | None =>
          match r_err r with
          | Some x => mkReader (r_data r) (Some ("failed to copy reader: " +:+ x))
          | None =>
              let tail := pump ctxErr (S i) rest in
              mkReader (r_data r +:+ r_data tail) (r_err tail)
          end
      end
  end.

Definition MergeReaders (ctxErr : nat -> error) (readers : list reader) : result reader :=
  match readers with
  | [] => Err "no readers provided"
  | [r] => Ok r
  | _ => Ok (pump ctxErr 0 readers)
  end.

Definition GetAllMergeMetrics (s : fs) : gmap string MergeMetrics := mergeMetrics s.

(** ** What a merge leaves alone *)

(** From [m] to [m'] only the partial file and the merge's checkpoint change. *)
Definition loop_frame (partialPath : string) (m m' : mstate) : Prop :=
  (forall q, q <> partialPath -> files (m_fs m') !! q = files (m_fs m) !! q) /\
  dirs (m_fs m') = dirs (m_fs m) /\
  OutputPath (currentCheckpoint m') = OutputPath (currentCheckpoint m) /\
  (forall k, k <> getCheckpointPath (OutputPath (currentCheckpoint m)) ->
     checkpoints (m_fs m') !! k = checkpoints (m_fs m) !! k).

#[local] Instance loop_frame_preorder p : PreOrder (loop_frame p).
Proof.
  split; [by intros m|]. intros m1 m2 m3 (F1 & D1 & O1 & C1) (F2 & D2 & O2 & C2).
  split; [intros q Hq; by rewrite F2, F1|]. split; [congruence|]. split; [congruence|].
  intros k Hk. rewrite C2, C1 by congruence. done.
Qed.

Lemma loop_frame_append p data m : loop_frame p m (set_fs (append_file p data (m_fs m)) m).
Proof. split; [|done]. intros q Hq. simpl. by rewrite lookup_insert_ne. Qed.

Lemma chunk_copied_frame e p i c written m m' :
  chunk_copied e i c written m = inl m' -> loop_frame p m m'.
Proof.
  unfold chunk_copied. destruct (syncErr e i); [done|]. intros [= <-].
  unfold saveCheckpoint. destruct (saveErr e i); [done|]. split; [done|]. split; [done|]. split; [done|].
  intros k Hk. simpl. by rewrite lookup_insert_ne.
Qed.

Lemma merge_chunk_frame e config p i c m m' :
  merge_chunk e config p i c m = inl m' -> loop_frame p m m'.
Proof.
  unfold merge_chunk. destruct (cancelled e i); [done|].
  destruct (resolveChunkPath _ _ _) as [path|x]; [|by intros [= <-]].
  destruct (statErr e path); [done|]. destruct (decide _); [done|].
  destruct (files (m_fs m) !! path) as [content|]; [|by intros [= <-]].
  destruct (chunkOpenErr e path); [done|]. destruct (copyErr e path) as [[len x]|]; [done|].
  set (gz := match getCompressionType path with CompressionGZ => _ | _ => _ end). cbv zeta.
  pose proof (loop_frame_append p (if gz then gzip_written e content else content) m) as Ha.
  set (m1 := set_fs _ m) in *. set (m2 := if gz then open_gz content m1 else m1).
  assert (H2 : loop_frame p m m2) by (subst m2; by destruct gz). clearbody m2.
  destruct (_ =? 0); [by intros [= <-]|]. intros H. etrans; [exact H2|]. by eapply chunk_copied_frame.
Qed.

Lemma merge_loop_frame e config p resume i cs m m' :
  merge_loop e config p resume i cs m = inl m' -> loop_frame p m m'.
Proof.
  revert i m. induction cs as [|c cs IH]; intros i m; cbn [merge_loop]; [by intros [= ->]|].
  destruct (i <? resume); [intros H; by apply IH in H|].
  destruct (merge_chunk e config p i c m) as [m1|] eqn:E; [|done].
  intros H. etrans; [by eapply merge_chunk_frame|]. by eapply IH.
Qed.

(** A path that the merge of [config] from [s] does not touch. *)
Record untouched (config : MergeConfig) (s : fs) (q : string) : Prop := {
  ut_output : q <> output_of config;
  ut_partial : q <> partial_of config;
  ut_dir : q ∉ dirs (prepared config s);
  ut_chunks : Forall (spared q) (Chunks config);
}.

(** What a merge leaves: no other checkpoint changes, no other directory
    appears. *)
Record merge_frame (config : MergeConfig) (s s' : fs) : Prop := {
  mf_files q : untouched config s q -> files s' !! q = files s !! q;
  mf_dirs : dirs s' ⊆ dirs (prepared config s);
  mf_checkpoints k : k <> checkpoint_of config -> checkpoints s' !! k = checkpoints s !! k;
}.

(** The end of a merge, seen from a path [q] it does not touch. *)
Lemma finish_merge_keeps e sortSlice config cs available m r s' q :
  finish_merge e sortSlice config (output_of config) (partial_of config) cs available m = (MOk r, s') ->
  q ∉ dirs (m_fs m) -> Forall (spared q) cs ->
  (q <> output_of config -> q <> partial_of config -> files s' !! q = files (m_fs m) !! q) /\
  dirs s' ⊆ dirs (m_fs m) /\
  (forall k, k <> checkpoint_of config -> checkpoints s' !! k = checkpoints (m_fs m) !! k).
Proof.
  intros H Hq Hcs. unfold finish_merge in H.
  pose proof (cleanupChunks_keeps q cs _ Hcs Hq) as K.
  destruct (cleanupChunks cs (m_fs m)) as [n s]. cbn [snd] in K.
  destruct (syncErr e (-1)); [discriminate H|]. destruct (renameErr e); [discriminate H|].
  destruct (elapsedMs e =? 0); [discriminate H|]. injection H as _ <-.
  match goal with |- context [clean_subdirs ?d ?x] => set (s1 := x); set (dir := d) end.
  assert (H1 : dirs s1 = dirs s) by (subst s1; simpl; unfold clearCheckpoint; by destruct (clearErr e)).
  destruct K as (F & D & C & _).
  assert (Hq1 : q ∉ dirs s1) by (rewrite H1; set_solver).
  destruct (clean_subdirs_keeps q dir s1 Hq1) as (F' & D' & C' & _).
  split; [|split].
  - intros Ho Hp. rewrite F'. subst s1. unfold clearCheckpoint.
    destruct (clearErr e); simpl; by rewrite lookup_insert_ne, lookup_delete_ne.
  - etrans; [exact D'|]. by rewrite H1.
  - intros k Hk. rewrite C'. subst s1. unfold clearCheckpoint.
    destruct (clearErr e); simpl; [by rewrite C|]. rewrite lookup_delete_ne by (by apply not_eq_sym).
    by rewrite C.
Qed.

(** A merge that succeeds ran its loop and its end. *)
Lemma StreamMerge_inv e sortSlice config s r s' :
  StreamMerge e sortSlice config s = (MOk r, s') ->
  exists available m,
    finish_merge e sortSlice config (output_of config) (partial_of config)
      (sorted_active e sortSlice config s) available m = (MOk r, s') /\
    (forall q, q <> partial_of config -> files (m_fs m) !! q = files s !! q) /\
    dirs (m_fs m) = dirs (prepared config s) /\
    (forall k, k <> checkpoint_of config -> checkpoints (m_fs m) !! k = checkpoints s !! k).
Proof.
  unfold StreamMerge. destruct (_ =?s ""); [done|]. destruct (AgentID config =?s ""); [done|].
  fold (output_of config). destruct (mkdirErr e); [done|]. fold (prepared config s). cbv zeta.
  destruct (match availableSpace e with Ok a => _ | Err _ => _ end) as [[] available]; [done|].
  destruct (loadCheckpoint e _ _) as [cp|]; [|done]. destruct (openErr e); [done|].
  set (s1 := match cp with Some _ => _ | None => _ end). intros H.
  assert (H1 : files s1 = files s /\ dirs s1 = dirs (prepared config s) /\ checkpoints s1 = checkpoints s).
  { subst s1. destruct cp; [|done]. unfold recordRecoveryEvent. by destruct (mergeMetrics _ !! _). }
  clearbody s1. destruct H1 as (F1 & D1 & C1). exists available.
  unfold run_merge in H. fold (partial_of config) in H. set (m := mkM _ _ _ _ _ _) in H.
  assert (E : exists resume m', merge_loop e config (partial_of config) resume 0
      (sorted_active e sortSlice config s) m = inl m' /\
    finish_merge e sortSlice config (output_of config) (partial_of config)
      (sorted_active e sortSlice config s) available m' = (MOk r, s')).
  { destruct cp as [cp|], (seekErr e); try discriminate H; cbv zeta in H; subst m;
      match type of H with context [merge_loop ?e ?c ?p ?re ?i ?cs ?m] =>
        destruct (merge_loop e c p re i cs m) as [m'|[??]] eqn:E; [|discriminate H]; by exists re, m' end. }
  destruct E as (resume & m' & Hloop & Hfin). exists m'. split; [done|].
  destruct (merge_loop_frame _ _ _ _ _ _ _ _ Hloop) as (F & D & _ & C). subst m. simpl in F, D, C.
  split; [intros q Hq; rewrite F by done; by rewrite lookup_insert_ne, F1 by done|].
  split; [by rewrite D|]. intros k Hk. rewrite C by done. by rewrite C1.
Qed.

Lemma StreamMerge_device e sortSlice config s r s' :
  StreamMerge e sortSlice config s = (MOk r, s') ->
  res_DeviceOutput r =
    Some (mkDeviceOutput (AffinityDeviceID config) (Dir (output_of config)) (Base (output_of config))).
Proof.
  intros (available & m & H & _)%StreamMerge_inv. unfold finish_merge in H.
  destruct (cleanupChunks _ _). destruct (syncErr e (-1)); [discriminate H|].
  destruct (renameErr e); [discriminate H|]. destruct (elapsedMs e =? 0); [discriminate H|].
  by injection H as <- _.
Qed.

Lemma StreamMerge_dataset e sortSlice config s r s' :
  StreamMerge e sortSlice config s = (MOk r, s') ->
  res_DatasetID r = DatasetID config /\ DatasetID config <> "".
Proof.
  intros H0. split.
  - destruct (StreamMerge_inv _ _ _ _ _ _ H0) as (available & m & H & _). unfold finish_merge in H.
    destruct (cleanupChunks _ _). destruct (syncErr e (-1)); [discriminate H|].
    destruct (renameErr e); [discriminate H|]. destruct (elapsedMs e =? 0); [discriminate H|].
    by injection H as <- _.
  - intros E. unfold StreamMerge in H0. by rewrite E in H0.
Qed.

Lemma StreamMerge_frame e sortSlice config s r s' :
  SliceSort (fun x y => Index x <? Index y) sortSlice -> well_placed config s ->
  StreamMerge e sortSlice config s = (MOk r, s') -> merge_frame config s s'.
Proof.
  intros Hsort Hwp (available & m & H & F & D & C)%StreamMerge_inv.
  assert (G : forall q, q ∉ dirs (prepared config s) -> Forall (spared q) (Chunks config) -> _)
    by (intros q Hq Hs; refine (finish_merge_keeps _ _ _ _ _ _ _ _ q H _ _);
        [by rewrite D|by apply sorted_active_Forall; [| intros c; unfold spared; rewrite with_checksum_path|]]).
  assert (Hp : Forall (spared (partial_of config)) (Chunks config)).
  { eapply Forall_impl; [apply (wp_chunks _ _ Hwp)|]. by intros c [? _]. }
  destruct (G (partial_of config) (wp_partial _ _ Hwp) Hp) as (_ & Hd & Hc). split.
  - intros q [Ho Hq Hqd Hqc]. destruct (G q Hqd Hqc) as (Hf & _). by rewrite Hf, F.
  - by rewrite <- D.
  - intros k Hk. by rewrite Hc, C.
Qed.

(** ** What a merge deletes *)

(** No file appears. *)
Definition shrinks (s s' : fs) : Prop := forall q, files s !! q = None -> files s' !! q = None.

#[local] Instance shrinks_preorder : PreOrder shrinks.
Proof. split; [by intros s q|]. intros s1 s2 s3 H1 H2 q Hq. by apply H2, H1. Qed.

Lemma os_Remove_shrinks p s s' : os_Remove p s = Some s' -> shrinks s s' /\ files s' !! p = None.
Proof.
  unfold os_Remove. destruct (files s !! p) eqn:E.
  - intros [= <-]. split; [|apply lookup_delete_eq]. intros q Hq. simpl.
    destruct (decide (p = q)) as [->|Hne]; [apply lookup_delete_eq|by rewrite lookup_delete_ne].
  - destruct (empty_dir p s); [|done]. intros [= <-]. by split; [intros q Hq|].
Qed.

Lemma remove_shrinks p s : shrinks s (remove p s).
Proof. unfold remove. destruct (os_Remove p s) eqn:E; [by eapply os_Remove_shrinks|done]. Qed.

Lemma remove_empty_dirs_shrinks d s : shrinks s (remove_empty_dirs d s).
Proof.
  unfold remove_empty_dirs. destruct (empty_dir d s); [|done]. cbv zeta.
  destruct (empty_dir (Dir d) (remove d s)); [|apply remove_shrinks].
  etrans; apply remove_shrinks.
Qed.

Lemma clean_subdirs_shrinks d s : shrinks s (clean_subdirs d s).
Proof.
  unfold clean_subdirs. generalize (elements (dirs s)). intros l. revert s.
  induction l as [|x l IH]; intros s; [done|]. simpl. etrans; [|apply IH].
  destruct (_ && _); [apply remove_shrinks|done].
Qed.

Lemma cleanup_chunk_shrinks acc c :
  shrinks acc.2 (cleanup_chunk acc c).2 /\
  (IsSkipped c = false -> files acc.2 !! chunk_Path c = None \/ files (cleanup_chunk acc c).2 !! chunk_Path c = None).
Proof.
  destruct acc as [[n seen] s]. unfold cleanup_chunk. simpl. destruct (IsSkipped c); [done|].
  destruct (os_Remove (chunk_Path c) s) as [s1|] eqn:E.
  - destruct (os_Remove_shrinks _ _ _ E) as [H1 H2]. cbv zeta.
    assert (H3 : shrinks s1 (remove (chunk_Path c +:+ ".metadata.json") s1)) by apply remove_shrinks.
    destruct (decide _); simpl; [split; [by etrans|]; right; by apply H3|].
    pose proof (remove_empty_dirs_shrinks (Dir (chunk_Path c)) (remove (chunk_Path c +:+ ".metadata.json") s1)) as H4.
    split; [etrans; [exact H1|]; by etrans|]. right. by apply H4, H3.
  - simpl. split; [done|]. left. unfold os_Remove in E. by destruct (files s !! chunk_Path c).
Qed.

Lemma cleanupChunks_deletes cs s :
  shrinks s (cleanupChunks cs s).2 /\
  forall c, c ∈ cs -> IsSkipped c = false -> files (cleanupChunks cs s).2 !! chunk_Path c = None.
Proof.
  unfold cleanupChunks.
  assert (H : forall acc, shrinks acc.2 (foldl cleanup_chunk acc cs).2 /\
    forall c, c ∈ cs -> IsSkipped c = false -> files (foldl cleanup_chunk acc cs).2 !! chunk_Path c = None).
  { induction cs as [|c cs IH]; intros acc; [by split; [|intros c H; apply elem_of_nil in H]|]. simpl.
    destruct (cleanup_chunk_shrinks acc c) as [H1 H2]. destruct (IH (cleanup_chunk acc c)) as [H3 H4].
    split; [by etrans|]. intros c' [->|Hin]%elem_of_cons Hs; [|by apply H4].
    apply H3. destruct (H2 Hs) as [H|H]; [by apply H1|done]. }
  destruct (H (0, ∅, s)) as [H1 H2]. by destruct (foldl cleanup_chunk (0, ∅, s) cs) as [[n seen] s'].
Qed.

Lemma finish_merge_deletes e sortSlice config cs available m r s' c :
  finish_merge e sortSlice config (output_of config) (partial_of config) cs available m = (MOk r, s') ->
  c ∈ cs -> IsSkipped c = false -> chunk_Path c <> output_of config -> files s' !! chunk_Path c = None.
Proof.
  intros H Hc Hs Hne. unfold finish_merge in H.
  pose proof (cleanupChunks_deletes cs (m_fs m)) as [_ K].
  destruct (cleanupChunks cs (m_fs m)) as [n s]. cbn [snd] in K.
  destruct (syncErr e (-1)); [discriminate H|]. destruct (renameErr e); [discriminate H|].
  destruct (elapsedMs e =? 0); [discriminate H|]. injection H as _ <-.
  apply clean_subdirs_shrinks. specialize (K c Hc Hs). unfold clearCheckpoint.
  destruct (decide (partial_of config = chunk_Path c)) as [E|E], (clearErr e); simpl;
    rewrite lookup_insert_ne by (by apply not_eq_sym); rewrite ?E, ?lookup_delete_eq, ?lookup_delete_ne; done.
Qed.

(** A merge that succeeds has deleted its chunks, whatever
    [DeleteChunksAfter] says. *)
Lemma StreamMerge_deletes e sortSlice config s r s' c :
  SliceSort (fun x y => Index x <? Index y) sortSlice ->
  StreamMerge e sortSlice config s = (MOk r, s') ->
  c ∈ Chunks config -> IsSkipped c = false -> chunk_Path c <> output_of config ->
  files s' !! chunk_Path c = None.
Proof.
  intros Hsort (available & m & H & _)%StreamMerge_inv Hc Hs Hne.
  assert (Hin : with_checksum e s c ∈ sorted_active e sortSlice config s).
  { unfold sorted_active. rewrite (sortSlice_perm (SliceSort := Hsort)). apply list_elem_of_fmap.
    exists c. split; [done|]. unfold active. apply list_elem_of_In, filter_In.
    split; [by apply list_elem_of_In|by rewrite Hs]. }
  assert (Hs' : IsSkipped (with_checksum e s c) = false).
  { unfold with_checksum. destruct (_ =?s _); [|done]. by destruct (computeChunkChecksum _ _ _) as [[??]|]. }
  pose proof (finish_merge_deletes _ _ _ _ _ _ _ _ _ H Hin Hs') as K.
  rewrite with_checksum_path in K. by apply K.
Qed.

(** It makes no file but its output. *)
Lemma StreamMerge_creates e sortSlice config s r s' q :
  StreamMerge e sortSlice config s = (MOk r, s') -> q <> output_of config -> q <> partial_of config ->
  files s !! q = None -> files s' !! q = None.
Proof.
  intros (available & m & H & F & _)%StreamMerge_inv Ho Hp Hq. unfold finish_merge in H.
  pose proof (cleanupChunks_deletes (sorted_active e sortSlice config s) (m_fs m)) as [K _].
  destruct (cleanupChunks _ (m_fs m)) as [n s1]. cbn [snd] in K.
  destruct (syncErr e (-1)); [discriminate H|]. destruct (renameErr e); [discriminate H|].
  destruct (elapsedMs e =? 0); [discriminate H|]. injection H as _ <-.
  apply clean_subdirs_shrinks. unfold clearCheckpoint.
  destruct (clearErr e); simpl; rewrite lookup_insert_ne, lookup_delete_ne by done; apply K; by rewrite F.
Qed.

(** ** Lists of increasing indices *)

Definition increasing (l : list ChunkInfo) : Prop := StronglySorted (fun x y => Index x < Index y) l.

Lemma increasing_inj l x y : increasing l -> x ∈ l -> y ∈ l -> Index x = Index y -> x = y.
Proof.
  intros Hl. induction Hl as [|z l _ IH Hz]; intros Hx Hy E; [by apply elem_of_nil in Hx|].
  rewrite Forall_forall in Hz. apply elem_of_cons in Hx as [->|Hx], Hy as [->|Hy]; [done| | |by apply IH].
  - specialize (Hz y Hy). simpl in Hz. lia.
  - specialize (Hz x Hx). simpl in Hz. lia.
Qed.

Lemma increasing_sorted l : increasing l -> StronglySorted (fun x y => Index x <= Index y) l.
Proof.
  intros Hl. induction Hl as [|z l _ IH Hz]; constructor; [done|].
  eapply Forall_impl; [exact Hz|]. simpl. intros; lia.
Qed.

Lemma sortSlice_weak sortSlice (l : list ChunkInfo) :
  SliceSort (fun x y => Index x <? Index y) sortSlice ->
  StronglySorted (fun x y => Index x <= Index y) (sortSlice l).
Proof.
  intros Hsort. pose proof (sortSlice_sorted (SliceSort := Hsort) l) as H.
  induction H as [|x k _ IH Hx]; constructor; [done|].
  eapply Forall_impl; [exact Hx|]. simpl. intros y Hy. by apply Z.ltb_ge.
Qed.

Lemma sort_increasing sortSlice l k :
  SliceSort (fun x y => Index x <? Index y) sortSlice -> l ≡ₚ k -> increasing k -> sortSlice l = k.
Proof.
  intros Hsort Hp Hk. pose proof (sortSlice_perm (SliceSort := Hsort) l) as Hpl.
  apply (StronglySorted_unique_strong (fun x y => Index x <= Index y)).
  - intros x y Hx Hy H1 H2. rewrite Hpl, Hp in Hx. apply (increasing_inj k); [done..|lia].
  - by apply sortSlice_weak.
  - by apply increasing_sorted.
  - by rewrite Hpl.
Qed.

Lemma sortSlice_increasing sortSlice l :
  SliceSort (fun x y => Index x <? Index y) sortSlice -> NoDup (Index <$> l) -> increasing (sortSlice l).
Proof.
  intros Hsort Hnd. pose proof (sortSlice_perm (SliceSort := Hsort) l) as Hpl.
  rewrite <- Hpl in Hnd. pose proof (sortSlice_weak sortSlice l Hsort) as H.
  clear Hpl. revert Hnd.
  induction H as [|x k _ IH Hx]; intros Hnd; [constructor|].
  rewrite fmap_cons, NoDup_cons in Hnd. destruct Hnd as [Hnin Hnd]. constructor.
  - by apply IH.
  - rewrite Forall_forall in Hx |- *.
    intros y Hy. specialize (Hx y Hy). simpl in Hx.
    assert (Index x <> Index y) by (intros E; apply Hnin; rewrite E; by apply list_elem_of_fmap_2). lia.
Qed.

Lemma increasing_map (f : ChunkInfo -> ChunkInfo) l :
  (forall c, Index (f c) = Index c) -> increasing l -> increasing (map f l).
Proof.
  intros Hf Hl. induction Hl as [|z l _ IH Hz]; simpl; constructor; [done|].
  rewrite Forall_forall in Hz |- *. intros y (c & -> & Hc)%list_elem_of_fmap. rewrite !Hf. by apply Hz.
Qed.

Lemma increasing_imap {A} a (g : nat -> A -> ChunkInfo) (l : list A) :
  (forall i x, Index (g i x) = Z.of_nat (a + i)) -> increasing (imap g l).
Proof.
  revert a g. induction l as [|x l IH]; intros a g Hg; [constructor|]. rewrite imap_cons. constructor.
  - apply (IH (S a)). intros i y. unfold compose. rewrite Hg. f_equal. lia.
  - apply Forall_lookup. intros i c Hi. rewrite list_lookup_imap in Hi.
    destruct (l !! i) as [y|]; [|done]. injection Hi as <-. unfold compose. rewrite !Hg. lia.
Qed.

Lemma increasing_app l k :
  increasing (l ++ k) ->
  increasing l /\ increasing k /\ forall x y, x ∈ l -> y ∈ k -> Index x <> Index y.
Proof.
  intros H. split; [by eapply StronglySorted_app_1_l|]. split; [by eapply StronglySorted_app_1_r|].
  intros x y Hx Hy. assert (E : Index x < Index y); [|lia].
  apply (StronglySorted_app_1_elem_of (fun x y => Index x < Index y) l k); done.
Qed.

(** Lemmas on [fmap] apply to [map]. *)
Ltac as_fmap := repeat match goal with
  | |- context [map ?f ?l] => change (map f l) with (f <$> l)
  | H : context [map ?f ?l] |- _ => change (map f l) with (f <$> l) in H
  end.

(** ** The files a tree merge writes *)

Definition stage_out (config : MergeConfig) (i : nat) : string :=
  Join [Dir (output_of config); stage_name (DatasetID config) i].

Definition stage_partial (config : MergeConfig) (i : nat) : string := getPartialPath (stage_out config i).

Definition tree_writes (config : MergeConfig) (n : nat) : list string :=
  [output_of config; partial_of config] ++
  flat_map (fun i => [stage_out config i; stage_partial config i]) (seq 0 n).

(** The output is a cleaned absolute path. *)
Definition clean_output (config : MergeConfig) : Prop :=
  exists l f, Forall plain_name l /\ plain_name f /\ output_of config = abs_path (l ++ [f]).

Lemma stage_name_plain id i : no_slash id -> plain_name (stage_name id i).
Proof.
  intros Hid. unfold stage_name. split; [done|]. split; [done|]. split; [done|].
  apply no_slash_app; [done|]. apply no_slash_app; [apply itoa_no_slash|].
  apply no_slash_app; [done|]. by apply no_slash_app.
Qed.

(** Every output of a stage is where the code looks for it. *)
Lemma stage_paths config i chunks :
  clean_output config -> no_slash (DatasetID config) ->
  let d := Dir (output_of config) in
  output_of (stage_config config d i chunks) = stage_out config i /\
  Dir (stage_out config i) = d /\ Base (stage_out config i) = stage_name (DatasetID config) i /\
  IsAbs (stage_out config i) = true.
Proof.
  intros (l & f & Hl & Hf & Hout) Hid d.
  pose proof (stage_name_plain (DatasetID config) i Hid) as Hn.
  assert (Hd : d = abs_path l) by (subst d; rewrite Hout; by apply Dir_abs).
  assert (E : stage_out config i = abs_path (l ++ [stage_name (DatasetID config) i]))
    by (unfold stage_out; fold d; rewrite Hd; by apply Join_abs).
  assert (Hb : Base (stage_out config i) = stage_name (DatasetID config) i) by (rewrite E; by apply Base_abs).
  split; [|split; [rewrite E, Hd; by apply Dir_abs|split; [done|rewrite E; apply abs_path_IsAbs]]].
  unfold output_of, stage_config, getOutputPath. cbn [cfg_DeviceOutput File MountPath].
  fold (output_of config). fold d. change (Join [d; stage_name (DatasetID config) i]) with (stage_out config i).
  rewrite Hb. destruct Hn as (Hne & _). by rewrite (eqb_neq_s _ "") by done.
Qed.

Lemma stage_id_nonempty id i : stage_id id i <> "".
Proof. by destruct id. Qed.

Lemma with_checksum_index e s c : Index (with_checksum e s c) = Index c.
Proof. unfold with_checksum. destruct (_ =?s _); [|done]. by destruct (computeChunkChecksum _ _ _) as [[??]|]. Qed.

Lemma with_checksum_data e s config s' c :
  chunk_data config s' (with_checksum e s c) = chunk_data config s' c.
Proof. unfold chunk_data. by rewrite with_checksum_path. Qed.

Lemma active_all l : Forall (fun c => IsSkipped c = false) l -> active l = l.
Proof. intros H. induction H as [|c l Hc _ IH]; [done|]. unfold active in *. simpl. by rewrite Hc, IH. Qed.

(** The chunks of a merge whose chunks are listed in order. *)
Lemma sorted_active_increasing e sortSlice config s :
  SliceSort (fun x y => Index x <? Index y) sortSlice ->
  Forall (fun c => IsSkipped c = false) (Chunks config) -> increasing (Chunks config) ->
  sorted_active e sortSlice config s = map (with_checksum e s) (Chunks config).
Proof.
  intros Hsort Hact Hinc. unfold sorted_active. rewrite active_all by done.
  apply sort_increasing; [done|done|]. apply increasing_map; [apply with_checksum_index|done].
Qed.

(** A merge from nothing, whose chunks are listed in order. *)
Lemma StreamMerge_in_order e sortSlice config s :
  SliceSort (fun x y => Index x <? Index y) sortSlice -> timed e ->
  DatasetID config <> "" -> AgentID config <> "" -> Compressed config = false ->
  (forall cs, enough_space e cs) -> well_placed config s -> fresh config s ->
  Forall (fun c => IsSkipped c = false) (Chunks config) -> increasing (Chunks config) ->
  exists r s', StreamMerge e sortSlice config s = (MOk r, s') /\ merge_frame config s s' /\
    result_file r = Base (output_of config) /\ fresh config s' /\
    files s' !! output_of config = Some (concat_str (map (chunk_data config s) (Chunks config))).
Proof.
  intros Hsort He Hds Hag Hplain Hspace Hwp [Hnp Hnc] Hact Hinc.
  destruct (StreamMerge_runs e sortSlice Hsort config s 0 He Hds Hag Hwp (Hspace _))
    as (r & s' & E & (Hout & Hp' & Hc' & _) & _); [by rewrite Hnc|].
  exists r, s'. split; [done|]. split; [by eapply StreamMerge_frame|].
  split; [unfold result_file; by rewrite (StreamMerge_device _ _ _ _ _ _ E)|].
  split; [done|].
  rewrite Hout. unfold content_from. rewrite Hnp. change (Z.to_nat 0) with 0%nat. rewrite drop_0. simpl.
  rewrite (map_ext _ _ (fun c => chunk_out_plain e config s c Hplain)).
  rewrite (sorted_active_increasing e sortSlice config s) by done. rewrite map_map.
  by rewrite (map_ext _ _ (with_checksum_data e s config s)).
Qed.

(** ** The stages *)

Section stages.
Context (ee : nat -> env) (stop : nat -> error) (renameFault : error)
  (sortSlice : list ChunkInfo -> list ChunkInfo) (config : MergeConfig) (n : nat) (D : gset string).
Context (Hsort : SliceSort (fun x y => Index x <? Index y) sortSlice).
Context (He : forall i, timed (ee i)) (Hspace : forall i cs, enough_space (ee i) cs).
Context (Hag : AgentID config <> "") (Hplain : Compressed config = false).
Context (Hclean : clean_output config) (Hid : no_slash (DatasetID config)).
Context (HD : Dir (output_of config) ∈ D) (Hnd : NoDup (tree_writes config n))
  (Hwr : Forall (fun q => q ∉ D) (tree_writes config n)).

Definition resolved (c : ChunkInfo) (p : string) : Prop :=
  resolveChunkPath (chunk_Path c) (cfg_MountPath config) (Strategy config) = Ok p.

(** A chunk that the merge's own files do not meet. *)
Definition chunk_ok (c : ChunkInfo) : Prop :=
  IsSkipped c = false /\ Forall (fun q => spared q c) (tree_writes config n) /\
  forall p, resolved c p -> (p ∉ D) /\ p ∉ tree_writes config n.

(** Removing the one does not remove the other. *)
Definition apart (c c' : ChunkInfo) : Prop := forall p, resolved c' p -> spared p c.

Lemma stage_out_writes i : (i < n)%nat -> stage_out config i ∈ tree_writes config n.
Proof.
  intros Hi. apply elem_of_app. right. apply list_elem_of_In, in_flat_map. exists i.
  split; [apply in_seq; lia|by left].
Qed.

Lemma stage_partial_writes i : (i < n)%nat -> stage_partial config i ∈ tree_writes config n.
Proof.
  intros Hi. apply elem_of_app. right. apply list_elem_of_In, in_flat_map. exists i.
  split; [apply in_seq; lia|by right; left].
Qed.

Lemma writes_not_dir q : q ∈ tree_writes config n -> q ∉ D.
Proof. rewrite Forall_forall in Hwr. apply Hwr. Qed.

Definition stage_fresh (i : nat) (s : fs) : Prop :=
  files s !! stage_partial config i = None /\
  checkpoints s !! getCheckpointPath (stage_out config i) = None.

(** A path a stage does not touch. *)
Definition clear_of (i : nat) (l : list ChunkInfo) (q : string) : Prop :=
  (q ∉ D) /\ q <> stage_out config i /\ q <> stage_partial config i /\ Forall (spared q) l.

Record staged (i : nat) (l : list ChunkInfo) (s s' : fs) : Prop := {
  st_out : files s' !! stage_out config i = Some (concat_str (map (chunk_data config s) l));
  st_files q : clear_of i l q -> files s' !! q = files s !! q;
  st_dirs : dirs s' ⊆ D;
  st_checkpoints k : k <> getCheckpointPath (stage_out config i) -> checkpoints s' !! k = checkpoints s !! k;
  st_fresh : stage_fresh i s';
  st_deleted c : c ∈ l -> files s' !! chunk_Path c = None;
  st_creates q : q <> stage_out config i -> q <> stage_partial config i ->
    files s !! q = None -> files s' !! q = None;
}.

Lemma stage_ok i l s :
  (i < n)%nat -> Forall chunk_ok l -> increasing l -> dirs s ⊆ D -> stage_fresh i s ->
  exists r s', StreamMerge (ee i) sortSlice (stage_config config (Dir (output_of config)) i l) s = (MOk r, s') /\
    result_file r = stage_name (DatasetID config) i /\ staged i l s s'.
Proof.
  intros Hi Hl Hinc Hs Hfresh. set (sc := stage_config config (Dir (output_of config)) i l).
  destruct (stage_paths config i l Hclean Hid) as (Hout & Hdir & Hbase & _). fold sc in Hout.
  assert (Hpart : partial_of sc = stage_partial config i) by (unfold partial_of; by rewrite Hout).
  assert (Hprep : dirs (prepared sc s) ⊆ D).
  { unfold prepared. rewrite Hout, Hdir. simpl. set_solver. }
  assert (Hwp : well_placed sc s).
  { split; rewrite ?Hpart, ?Hout.
    - pose proof (writes_not_dir _ (stage_partial_writes i Hi)). set_solver.
    - pose proof (writes_not_dir _ (stage_out_writes i Hi)). set_solver.
    - change (Chunks sc) with l. eapply Forall_impl; [exact Hl|]. intros c (_ & Hsp & Hres).
      rewrite Forall_forall in Hsp. split; [by apply Hsp, stage_partial_writes|].
      intros p Hp. destruct (Hres p Hp) as [H1 H2]. split; [set_solver|].
      intros ->. by apply H2, stage_partial_writes. }
  destruct (StreamMerge_in_order (ee i) sortSlice sc s) as (r & s' & E & [Ff Fd Fc] & Hr & Hfr & Hfile);
    [done|done|by apply stage_id_nonempty|done|done|done|done|by unfold fresh, checkpoint_of; rewrite Hpart, Hout| |done|].
  { eapply Forall_impl; [exact Hl|]. by intros c (? & _). }
  exists r, s'. split; [done|]. rewrite Hout in Hr, Hfile. split; [by rewrite Hr|]. split.
  - exact Hfile.
  - intros q (H1 & H2 & H3 & H4). apply Ff. split; rewrite ?Hpart, ?Hout; [done|done|set_solver|done].
  - set_solver.
  - intros k Hk. apply Fc. unfold checkpoint_of. by rewrite Hout.
  - unfold fresh, checkpoint_of in Hfr. by rewrite Hpart, Hout in Hfr.
  - intros c Hc. rewrite Forall_forall in Hl. destruct (Hl c Hc) as (Hsk & Hsp & _).
    eapply StreamMerge_deletes; [exact Hsort|exact E|done|done|]. rewrite Hout.
    rewrite Forall_forall in Hsp. by apply Hsp, stage_out_writes.
  - intros q H1 H2. eapply StreamMerge_creates; [exact E|by rewrite Hout|by rewrite Hpart].
Qed.

Lemma pairs_lookup {A} (f g : nat -> A) a k i :
  (i < k)%nat ->
  flat_map (fun i => [f i; g i]) (seq a k) !! (2 * i)%nat = Some (f (a + i)%nat) /\
  flat_map (fun i => [f i; g i]) (seq a k) !! S (2 * i)%nat = Some (g (a + i)%nat).
Proof.
  revert a i. induction k as [|k IH]; intros a i Hi; [lia|]. destruct i as [|i].
  - simpl. by rewrite Nat.add_0_r.
  - replace (2 * S i)%nat with (S (S (2 * i))) by lia. cbn [seq flat_map app].
    destruct (IH (S a) i ltac:(lia)) as [H1 H2]. replace (a + S i)%nat with (S a + i)%nat by lia.
    by split.
Qed.

Lemma writes_lookup i :
  (i < n)%nat ->
  tree_writes config n !! (2 + 2 * i)%nat = Some (stage_out config i) /\
  tree_writes config n !! (3 + 2 * i)%nat = Some (stage_partial config i).
Proof. intros Hi. by destruct (pairs_lookup (stage_out config) (stage_partial config) 0 n i Hi). Qed.

Lemma writes_differ a b p q :
  tree_writes config n !! a = Some p -> tree_writes config n !! b = Some q -> a <> b -> p <> q.
Proof. intros Ha Hb Hne ->. by apply Hne, (NoDup_lookup _ _ _ _ Hnd Ha Hb). Qed.

(** Other stages write other files. *)
Lemma stages_differ i j :
  (i < n)%nat -> (j < n)%nat -> i <> j ->
  stage_out config i <> stage_out config j /\ stage_out config i <> stage_partial config j /\
  stage_partial config i <> stage_out config j /\ stage_partial config i <> stage_partial config j.
Proof.
  intros Hi Hj Hne. destruct (writes_lookup i Hi) as [I1 I2], (writes_lookup j Hj) as [J1 J2].
  repeat apply conj; eapply writes_differ; eauto; lia.
Qed.

Lemma stages_fresh_after i l j s s' :
  (i < n)%nat -> (j < n)%nat -> i <> j -> Forall chunk_ok l -> staged i l s s' ->
  stage_fresh j s -> stage_fresh j s'.
Proof.
  intros Hi Hj Hne Hl [_ Hf _ Hc _ _ _] [H1 H2]. destruct (stages_differ j i Hj Hi (not_eq_sym Hne)) as (A & B & C & E).
  split.
  - rewrite Hf; [done|]. split; [apply writes_not_dir; by apply stage_partial_writes|].
    split; [done|]. split; [done|]. eapply Forall_impl; [exact Hl|]. intros c (_ & Hsp & _).
    rewrite Forall_forall in Hsp. by apply Hsp, stage_partial_writes.
  - rewrite Hc; [done|]. intros Heq. apply append_inj_r in Heq. by apply A.
Qed.

(** The chunks of the other stages keep their contents. *)
Lemma chunk_data_after i l s s' c :
  (i < n)%nat -> staged i l s s' -> chunk_ok c -> Forall (fun c' => apart c' c) l ->
  chunk_data config s' c = chunk_data config s c.
Proof.
  intros Hi [_ Hf _ _ _ _ _] (_ & _ & Hres) Hap. unfold chunk_data.
  destruct (resolveChunkPath _ _ _) as [p|] eqn:E; [|done]. destruct (Hres p E) as [H1 H2].
  rewrite Hf; [done|]. split; [done|]. split; [intros ->; by apply H2, stage_out_writes|].
  split; [intros ->; by apply H2, stage_partial_writes|].
  eapply Forall_impl; [exact Hap|]. intros c' H. by apply H.
Qed.

(** A path that stages [i] to [i + k - 1] do not touch. *)
Definition clear_of_stages (i k : nat) (cs : list ChunkInfo) (q : string) : Prop :=
  (q ∉ D) /\ (forall j, (i <= j < i + k)%nat -> q <> stage_out config j /\ q <> stage_partial config j) /\
  Forall (spared q) cs.

Record all_staged (i : nat) (stages : list (list ChunkInfo)) (s s' : fs) : Prop := {
  as_out j l : stages !! j = Some l ->
    files s' !! stage_out config (i + j) = Some (concat_str (map (chunk_data config s) l));
  as_files q : clear_of_stages i (length stages) (mjoin stages) q -> files s' !! q = files s !! q;
  as_dirs : dirs s' ⊆ D;
  as_checkpoints k : (forall j, (i <= j < i + length stages)%nat -> k <> getCheckpointPath (stage_out config j)) ->
    checkpoints s' !! k = checkpoints s !! k;
  as_fresh j : (j < n)%nat -> stage_fresh j s -> stage_fresh j s';
  as_deleted c : c ∈ mjoin stages -> files s' !! chunk_Path c = None;
  as_creates q : (q ∉ tree_writes config n) -> files s !! q = None -> files s' !! q = None;
}.

Lemma run_stages_ok stages i s :
  (forall j, (i <= j < i + length stages)%nat -> stop j = None) ->
  (i + length stages <= n)%nat -> Forall chunk_ok (mjoin stages) ->
  increasing (mjoin stages) ->
  (forall c c', c ∈ mjoin stages -> c' ∈ mjoin stages -> Index c <> Index c' -> apart c c') ->
  dirs s ⊆ D -> (forall j, (i <= j < i + length stages)%nat -> stage_fresh j s) ->
  exists s', run_stages ee stop sortSlice config (Dir (output_of config)) i stages s
      = (inl (map (stage_name (DatasetID config)) (seq i (length stages))), s') /\
    all_staged i stages s s'.
Proof.
  revert i s. induction stages as [|l stages IH]; intros i s Hstop Hn Hok Hinc Hap Hs Hfresh.
  { exists s. split; [done|]. split; [intros j l H; by rewrite lookup_nil in H|done|done|done|done| |done].
    intros c H. by apply elem_of_nil in H. }
  cbn [length] in Hstop, Hn, Hfresh. change (mjoin (l :: stages)) with (l ++ mjoin stages) in *.
  apply Forall_app in Hok as [Hl Hrest]. destruct (increasing_app _ _ Hinc) as (Hil & Hir & Hne).
  destruct (stage_ok i l s ltac:(lia) Hl Hil Hs (Hfresh i ltac:(lia))) as (r & s1 & E & Hr & Hst).
  destruct (IH (S i) s1) as (s' & E' & [Ho Hf Hd Hc Hfr Hdel Hcr]);
    [intros j Hj; apply Hstop; lia|lia|done|done| |apply Hst| |].
  { intros c c' H1 H2. apply Hap; apply elem_of_app; by right. }
  { intros j Hj. eapply stages_fresh_after; [| | |exact Hl|exact Hst|apply Hfresh]; lia. }
  exists s'. cbn [run_stages]. rewrite (Hstop i), E, E', Hr by lia. split; [done|].
  assert (Hsame : forall c, c ∈ mjoin stages -> chunk_data config s1 c = chunk_data config s c).
  { intros c Hcin. eapply chunk_data_after; [|exact Hst| |]; [lia|rewrite Forall_forall in Hrest; by apply Hrest|].
    apply Forall_forall. intros c' Hc'. apply Hap; [apply elem_of_app; by left|apply elem_of_app; by right|by apply Hne]. }
  split.
  - intros [|j] k Hk.
    + injection Hk as <-. rewrite Nat.add_0_r, Hf; [apply Hst|].
      split; [apply writes_not_dir, stage_out_writes; lia|]. split.
      * intros j Hj. destruct (stages_differ i j) as (A & B & _); [lia..|]. by split.
      * eapply Forall_impl; [exact Hrest|]. intros c (_ & Hsp & _).
        rewrite Forall_forall in Hsp. apply Hsp, stage_out_writes. lia.
    + simpl in Hk. replace (i + S j)%nat with (S i + j)%nat by lia. rewrite (Ho j k Hk). do 2 f_equal.
      apply map_ext_in. intros c Hcin. apply Hsame. apply list_elem_of_join. exists k.
      split; [by apply list_elem_of_In|by eapply list_elem_of_lookup_2].
  - intros q (Hq & Hj & Hsp). apply Forall_app in Hsp as [H1 H2].
    rewrite Hf; [|split; [done|split; [intros j Hjj; apply Hj; simpl; lia|done]]].
    apply (st_files _ _ _ _ Hst). split; [done|]. destruct (Hj i ltac:(simpl; lia)) as [A B]. by split.
  - done.
  - intros k Hk. rewrite Hc by (intros j Hj; apply Hk; simpl; lia).
    apply (st_checkpoints _ _ _ _ Hst). apply Hk. simpl. lia.
  - intros j Hj Hfj. apply Hfr; [done|]. destruct (decide (i = j)) as [<-|Hne']; [apply Hst|].
    eapply stages_fresh_after; [| |exact Hne'|exact Hl|exact Hst|done]; lia.
  - intros c [Hcl|Hcr']%elem_of_app; [|by apply Hdel]. apply Hcr; [|by apply (st_deleted _ _ _ _ Hst)].
    intros Hin. rewrite Forall_forall in Hl. destruct (Hl c Hcl) as (_ & Hsp & _).
    rewrite Forall_forall in Hsp. by destruct (Hsp _ Hin).
  - intros q Hq Hnone. apply Hcr; [done|]. apply (st_creates _ _ _ _ Hst); [| |done]; intros ->; apply Hq;
      [apply stage_out_writes|apply stage_partial_writes]; lia.
Qed.

(** The stages leave alone what the last one writes. *)
Lemma fresh_after i stages s s' :
  all_staged i stages s s' -> (i + length stages <= n)%nat -> Forall chunk_ok (mjoin stages) ->
  fresh config s -> fresh config s'.
Proof.
  intros Hall Hle Hok [H1 H2]. split.
  - rewrite (as_files _ _ _ _ Hall); [done|]. split; [apply writes_not_dir, elem_of_app; left; set_solver|].
    split.
    + intros j Hj. destruct (writes_lookup j ltac:(lia)) as [W1 W2].
      split; (eapply (writes_differ 1); [reflexivity| |]; [eassumption|lia]).
    + eapply Forall_impl; [exact Hok|]. intros c (_ & Hsp & _). rewrite Forall_forall in Hsp.
      apply Hsp, elem_of_app. left. set_solver.
  - rewrite (as_checkpoints _ _ _ _ Hall); [done|]. intros j Hj Heq. apply append_inj_r in Heq.
    destruct (writes_lookup j ltac:(lia)) as [W _]. by apply (writes_differ 0 (2 + 2 * j) _ _ eq_refl W).
Qed.

(** What is left of the chunks, when they have absolute paths: nothing of
    those that were merged, and the others as they were. *)
Lemma chunk_data_done i stages s s' c :
  all_staged i stages s s' -> c ∈ mjoin stages -> IsAbs (chunk_Path c) = true ->
  chunk_data config s' c = "".
Proof.
  intros Hall Hc Habs. unfold chunk_data, resolveChunkPath. rewrite Habs.
  by rewrite (as_deleted _ _ _ _ Hall c Hc).
Qed.

Lemma chunk_data_left i stages s s' c :
  all_staged i stages s s' -> (i + length stages <= n)%nat -> chunk_ok c ->
  (forall c', c' ∈ mjoin stages -> apart c' c) -> chunk_data config s' c = chunk_data config s c.
Proof.
  intros Hall Hle (_ & _ & Hres) Hap. unfold chunk_data.
  destruct (resolveChunkPath _ _ _) as [p|] eqn:E; [|done]. destruct (Hres p E) as [H1 H2].
  rewrite (as_files _ _ _ _ Hall); [done|]. split; [done|]. split.
  - intros j Hj. split; intros ->; apply H2; [apply stage_out_writes|apply stage_partial_writes]; lia.
  - apply Forall_forall. intros c' Hc'. by apply (Hap c' Hc').
Qed.

(** ** The last stage *)

Fixpoint last_char (s : string) (d : Ascii.ascii) : Ascii.ascii :=
  match s with EmptyString => d | String c s => last_char s c end.

Lemma last_char_app s t d : last_char (s +:+ t) d = last_char t (last_char s d).
Proof. revert d. induction s as [|c s IH]; intros d; [done|]. rewrite append_cons. simpl. apply IH. Qed.

Lemma suffix_clash s t : s +:+ ".metadata.json" <> t +:+ ".partial".
Proof.
  intros H. apply (f_equal (fun x => last_char x "000"%char)) in H. rewrite !last_char_app in H.
  discriminate H.
Qed.

Definition intermediates (s : fs) : list ChunkInfo :=
  imap (intermediate_chunk s (Dir (output_of config))) (map (stage_name (DatasetID config)) (seq 0 n)).

Lemma intermediates_lookup s j c :
  intermediates s !! j = Some c ->
  (j < n)%nat /\ Index c = Z.of_nat j /\ chunk_Path c = stage_out config j /\ IsSkipped c = false.
Proof.
  unfold intermediates. rewrite list_lookup_imap. as_fmap.
  destruct ((_ <$> _) !! j) as [x|] eqn:E; [|done]. intros [= <-]. rewrite list_lookup_fmap in E. destruct (seq 0 n !! j) as [k|] eqn:Ek; [|done]. injection E as <-.
  apply lookup_seq in Ek as [-> Hj]. done.
Qed.

Lemma intermediates_increasing s : increasing (intermediates s).
Proof. by apply (increasing_imap 0). Qed.

Lemma intermediates_data s contents :
  length contents = n ->
  (forall j x, contents !! j = Some x -> files s !! stage_out config j = Some x) ->
  map (chunk_data (final_config config s (Dir (output_of config))
         (map (stage_name (DatasetID config)) (seq 0 n))) s) (intermediates s) = contents.
Proof.
  intros Hlen Hf. apply list_eq. intros j. as_fmap. rewrite list_lookup_fmap. destruct (intermediates s !! j) as [c|] eqn:E.
  - destruct (intermediates_lookup s j c E) as (Hj & _ & Hp & _).
    destruct (lookup_lt_is_Some_2 contents j ltac:(lia)) as [x Hx]. rewrite Hx. simpl. f_equal.
    unfold chunk_data, resolveChunkPath. rewrite Hp.
    destruct (stage_paths config j [] Hclean Hid) as (_ & _ & _ & ->). by rewrite (Hf j x Hx).
  - apply lookup_ge_None in E. unfold intermediates in E.
    rewrite length_imap, length_map, length_seq in E. symmetry. apply lookup_ge_None. lia.
Qed.

Lemma final_ok s contents :
  DatasetID config <> "" -> length contents = n -> dirs s ⊆ D -> fresh config s ->
  (forall j x, contents !! j = Some x -> files s !! stage_out config j = Some x) ->
  let outs := map (stage_name (DatasetID config)) (seq 0 n) in
  exists r s', StreamMerge (ee n) sortSlice (final_config config s (Dir (output_of config)) outs) s = (MOk r, s') /\
    result_file r = Base (output_of config) /\ dirs s' ⊆ D /\
    files s' !! output_of config = Some (concat_str contents).
Proof.
  intros Hds Hlen Hs Hfresh Hf outs. set (fc := final_config config s _ outs).
  assert (Hint : Chunks fc = intermediates s) by done.
  assert (Hprep : dirs (prepared fc s) ⊆ D) by (unfold prepared; simpl; set_solver).
  assert (Hw : forall p, p ∈ [output_of config; partial_of config] -> p ∈ tree_writes config n)
    by (intros p Hp; apply elem_of_app; by left).
  assert (Hwp : well_placed fc s).
  { split.
    - change (partial_of fc) with (partial_of config).
      pose proof (writes_not_dir _ (Hw (partial_of config) ltac:(set_solver))). set_solver.
    - change (output_of fc) with (output_of config).
      pose proof (writes_not_dir _ (Hw (output_of config) ltac:(set_solver))). set_solver.
    - rewrite Hint. apply Forall_lookup. intros j c Hj.
      destruct (intermediates_lookup s j c Hj) as (Hlt & _ & Hp & _).
      destruct (writes_lookup j Hlt) as [W _].
      assert (Hne : stage_out config j <> partial_of config).
      { apply (writes_differ _ 1 _ _ W); [done|lia]. }
      change (partial_of fc) with (partial_of config). unfold spared, mergeable. rewrite Hp.
      split; [split; [done|apply suffix_clash]|]. unfold resolveChunkPath.
      destruct (stage_paths config j [] Hclean Hid) as (_ & _ & _ & ->). intros p [= <-].
      pose proof (writes_not_dir _ (stage_out_writes j Hlt)). split; [set_solver|done]. }
  destruct (StreamMerge_in_order (ee n) sortSlice fc s) as (r & s' & E & [_ Fd _] & Hr & _ & Hfile);
    [done|done|done|done|done|done|done|done| |rewrite Hint; apply intermediates_increasing|].
  { rewrite Hint. apply Forall_lookup. intros j c Hj. by apply intermediates_lookup in Hj as (_ & _ & _ & ?). }
  exists r, s'. split; [done|]. split; [done|]. split; [set_solver|].
  change (output_of fc) with (output_of config) in Hfile.
  pose proof (intermediates_data s contents Hlen Hf) as Hdata. fold outs in Hdata. fold fc in Hdata.
  by rewrite Hint, Hdata in Hfile.
Qed.

(** ** The end *)

Lemma no_slash_not_abs l f : Forall plain_name l -> no_slash f -> f <> abs_path l.
Proof.
  intros Hl Hf ->. unfold no_slash in Hf. rewrite split_on_abs in Hf by done.
  destruct l as [|x l]; discriminate Hf.
Qed.

Lemma removes_keep q (outs : list string) s :
  (forall f, f ∈ outs -> q <> Join [Dir (output_of config); f]) ->
  keeps q s (foldl (fun s f => remove (Join [Dir (output_of config); f]) s) s outs).
Proof.
  revert s. induction outs as [|f outs IH]; intros s H; [done|]. simpl. etrans.
  - apply remove_keeps, H. by left.
  - apply IH. intros f' Hf'. apply H. by right.
Qed.

Lemma finish_tree_ok e outs finalOutput content s :
  renameFault = None -> dirs s ⊆ D -> no_slash finalOutput ->
  (forall f, f ∈ outs -> output_of config <> Join [Dir (output_of config); f]) ->
  files s !! Join [Dir (output_of config); finalOutput] = Some content ->
  exists r s', finish_tree renameFault sortSlice e config (Dir (output_of config)) outs finalOutput s = (MOk r, s') /\
    files s' !! output_of config = Some content /\
    FileSize r = Z.of_nat (String.length content) /\
    MergedChunks r = Z.of_nat (length (active (Chunks config))).
Proof.
  intros Hrf Hs Hfo Houts Hfile.
  assert (Hnd0 : output_of config ∉ D) by (apply writes_not_dir, elem_of_app; left; set_solver).
  unfold finish_tree. pose proof Hclean as (l & f & Hl & Hf & Ho).
  rewrite (eqb_neq_s finalOutput).
  2:{ rewrite Ho. apply no_slash_not_abs; [by apply Forall_snoc|done]. }
  unfold os_Rename. rewrite Hrf, Hfile, decide_False by set_solver.
  unfold computeChecksumDirect. cbn [with_files files]. rewrite lookup_insert_eq. cbn [mbind option_bind from_option default].
  unfold id. cbv beta iota zeta.
  match goal with |- context [foldl ?g ?x outs] => set (s1 := x) end.
  eexists _, _. split; [reflexivity|]. split; [|done].
  destruct (removes_keep (output_of config) outs s1 Houts) as (F & Dd & _).
  match goal with |- files (clean_subdirs ?d ?x) !! _ = _ => destruct (clean_subdirs_keeps (output_of config) d x) as (F' & _) end.
  { subst s1. simpl in Dd. set_solver. }
  rewrite F', F. subst s1. simpl. apply lookup_insert_eq.
Qed.

Lemma tree_merge_stages e s :
  renameFault = None -> (forall j, stop j = None) -> DatasetID config <> "" -> (0 < n)%nat ->
  let stages := planTreeMerge sortSlice (Chunks config) in
  length stages = n -> Forall chunk_ok (mjoin stages) -> increasing (mjoin stages) ->
  (forall c c', c ∈ mjoin stages -> c' ∈ mjoin stages -> Index c <> Index c' -> apart c c') ->
  dirs s ⊆ D -> fresh config s -> (forall j, (j < n)%nat -> stage_fresh j s) ->
  exists r s', tree_merge ee stop renameFault sortSlice e config s = (MOk r, s') /\
    files s' !! output_of config = Some (concat_str (map (chunk_data config s) (mjoin stages))) /\
    FileSize r = Z.of_nat (String.length (concat_str (map (chunk_data config s) (mjoin stages)))) /\
    MergedChunks r = Z.of_nat (length (active (Chunks config))).
Proof.
  intros Hrf Hstop Hds Hn stages Hlen Hok Hinc Hap Hs Hfr Hfresh. unfold tree_merge. fold stages.
  destruct (run_stages_ok stages 0 s (fun j _ => Hstop j)) as (s1 & E & Hall); [lia|done|done|done|done| |].
  { intros j Hj. apply Hfresh. lia. }
  pose proof Hall as [Ho _ Hd _ _ _ _]. rewrite Hlen in E. set (outs := map (stage_name (DatasetID config)) (seq 0 n)) in *.
  assert (Hlo : length outs = n) by (subst outs; by rewrite length_map, length_seq).
  destruct stages as [|l0 stages0] eqn:Est; [simpl in Hlen; lia|]. rewrite <- Est in *. rewrite E. clear E.
  set (contents := map (fun l => concat_str (map (chunk_data config s) l)) stages).
  assert (Hcon : concat_str contents = concat_str (map (chunk_data config s) (mjoin stages))).
  { subst contents. clear. induction stages as [|l k IH]; [done|].
    change (mjoin (l :: k)) with (l ++ mjoin k). rewrite map_app, concat_str_app. simpl. by rewrite IH. }
  assert (Hlc : length contents = n) by (subst contents; by rewrite length_map).
  assert (Hfc : forall j x, contents !! j = Some x -> files s1 !! stage_out config j = Some x).
  { intros j x Hx. subst contents. as_fmap.
    rewrite list_lookup_fmap in Hx. destruct (stages !! j) as [l|] eqn:El; [|done].
    injection Hx as <-. by apply (Ho j l). }
  assert (Houts : forall f, f ∈ outs -> output_of config <> Join [Dir (output_of config); f]).
  { intros f (j & -> & Hj)%list_elem_of_fmap. apply elem_of_seq in Hj.
    destruct (writes_lookup j ltac:(lia)) as [W _]. apply (writes_differ 0 (2 + 2 * j)); [done|exact W|lia]. }
  unfold run_final. rewrite Hlo. destruct (Nat.ltb_spec 1 n) as [Hmany|Hone].
  - assert (Hfr1 : fresh config s1) by (apply (fresh_after 0 stages s s1); try done; lia).
    destruct (final_ok s1 contents Hds Hlc Hd Hfr1 Hfc) as (r & s2 & E & Hr & Hd2 & Hfile).
    fold outs in E. rewrite E, Hr. rewrite <- Hcon.
    pose proof Hclean as (l & f & Hl & Hpf & Hout). assert (Hb : Base (output_of config) = f) by (rewrite Hout; by apply Base_abs).
    apply finish_tree_ok; [done|done|by rewrite Hb; apply Hpf|done|]. rewrite Hb, <- Hfile. f_equal.
    rewrite Hout, Dir_abs by done. by apply Join_abs.
  - assert (n = 1)%nat as Hn1 by lia.
    assert (Hlast : List.last outs "" = stage_name (DatasetID config) 0) by (subst outs; by rewrite Hn1).
    rewrite <- Hcon, Hlast. clear Hcon. clearbody contents.
    destruct contents as [|x [|y k]]; simpl in Hlc; [lia| |lia]. simpl concat_str. rewrite append_nil_r.
    apply finish_tree_ok; [done|done|by apply stage_name_plain|done|]. by apply (Hfc 0%nat x).
Qed.
End stages.

(** ** Placement of a tree merge *)

(** Nothing stands where the merge in [n] stages writes, it starts from
    nothing, indices tell chunks apart, and no chunk is stored where another's
    metadata would be. *)
Record tree_placed (config : MergeConfig) (n : nat) (s : fs) : Prop := {
  tp_output : clean_output config;
  tp_id : no_slash (DatasetID config);
  tp_distinct : NoDup (tree_writes config n);
  tp_dirs : Forall (fun q => q ∉ dirs (prepared config s)) (tree_writes config n);
  tp_fresh : fresh config s;
  tp_stages j : (j < n)%nat -> stage_fresh config j s;
  tp_index : NoDup (Index <$> active (Chunks config));
  tp_chunks : Forall (fun c => Forall (fun q => spared q c) (tree_writes config n) /\
    forall p, resolved config c p -> (p ∉ dirs (prepared config s)) /\ p ∉ tree_writes config n)
    (Chunks config);
  tp_apart c c' : c ∈ active (Chunks config) -> c' ∈ active (Chunks config) ->
    Index c <> Index c' -> apart config c c';
}.

Lemma elem_of_active c chunks : c ∈ active chunks <-> c ∈ chunks /\ IsSkipped c = false.
Proof.
  unfold active. rewrite !list_elem_of_In, filter_In. by rewrite negb_true_iff.
Qed.

Lemma output_dir_prepared config s : Dir (output_of config) ∈ dirs (prepared config s).
Proof. unfold prepared. simpl. set_solver. Qed.

Lemma prepared_grows config s : dirs s ⊆ dirs (prepared config s).
Proof. unfold prepared. simpl. set_solver. Qed.

Section placed.
Context (sortSlice : list ChunkInfo -> list ChunkInfo) (config : MergeConfig) (s : fs).
Context (Hsort : SliceSort (fun x y => Index x <? Index y) sortSlice).
Let stages := planTreeMerge sortSlice (Chunks config).
Context (Htp : tree_placed config (length stages) s).

Lemma stages_join : mjoin stages = sortSlice (active (Chunks config)).
Proof.
  subst stages. unfold planTreeMerge. destruct (sortSlice (active (Chunks config))) as [|c l]; [done|].
  destruct (plan_stages_ok (c :: l) [] ltac:(unfold MaxChunksPerPass; simpl; lia)) as [H _]. by apply H.
Qed.

Lemma elem_of_stages c : c ∈ mjoin stages <-> c ∈ active (Chunks config).
Proof. rewrite stages_join. by rewrite (sortSlice_perm (SliceSort := Hsort)). Qed.

Lemma stages_increasing : increasing (mjoin stages).
Proof. rewrite stages_join. apply sortSlice_increasing; [done|apply Htp]. Qed.

Lemma stages_apart c c' :
  c ∈ mjoin stages -> c' ∈ mjoin stages -> Index c <> Index c' -> apart config c c'.
Proof. rewrite !elem_of_stages. apply Htp. Qed.

Lemma stages_chunks_ok D :
  D ⊆ dirs (prepared config s) -> Forall (chunk_ok config (length stages) D) (mjoin stages).
Proof.
  intros HD. apply Forall_forall. intros c Hc. apply elem_of_stages, elem_of_active in Hc as [Hc Hs].
  pose proof (tp_chunks _ _ _ Htp) as H. rewrite Forall_forall in H. destruct (H c Hc) as [H1 H2].
  split; [done|]. split; [done|]. intros p Hp. destruct (H2 p Hp). split; [set_solver|done].
Qed.

Lemma stages_not_dirs : Forall (fun q => q ∉ dirs (prepared config s)) (tree_writes config (length stages)).
Proof. apply Htp. Qed.

(** The merge in stages, without faults. *)
Lemma tree_merge_ok ee stop e :
  (forall i, timed (ee i)) -> (forall i cs, enough_space (ee i) cs) -> (forall j, stop j = None) ->
  DatasetID config <> "" -> AgentID config <> "" -> Compressed config = false ->
  active (Chunks config) <> [] ->
  let content := concat_str (map (chunk_data config s) (sortSlice (active (Chunks config)))) in
  exists r s', tree_merge ee stop None sortSlice e config s = (MOk r, s') /\
    files s' !! output_of config = Some content /\
    FileSize r = Z.of_nat (String.length content) /\
    MergedChunks r = Z.of_nat (length (active (Chunks config))).
Proof.
  intros He Hspace Hstop Hds Hag Hplain Hne. rewrite <- stages_join.
  assert (Hlen : (0 < length stages)%nat).
  { destruct stages as [|l k] eqn:E; [|simpl; lia]. destruct Hne.
    pose proof (sortSlice_perm (SliceSort := Hsort) (active (Chunks config))) as H.
    rewrite <- stages_join, E in H. by apply Permutation_nil. }
  apply (tree_merge_stages ee stop None sortSlice config (length stages) (dirs (prepared config s)));
    try done; try apply Htp.
  - apply output_dir_prepared.
  - by apply stages_chunks_ok.
  - apply stages_increasing.
  - apply stages_apart.
  - apply prepared_grows.
Qed.
End placed.

Lemma tree_placed_well_placed config n s : tree_placed config n s -> well_placed config s.
Proof.
  intros H. pose proof (tp_dirs _ _ _ H) as Hd. pose proof (tp_chunks _ _ _ H) as Hc.
  rewrite Forall_forall in Hd. split; [apply Hd, elem_of_app; left; set_solver..|].
  eapply Forall_impl; [exact Hc|]. intros c [Hsp Hr]. rewrite Forall_forall in Hsp.
  assert (Hw : partial_of config ∈ tree_writes config n) by (apply elem_of_app; left; set_solver).
  split; [by apply Hsp|]. intros p Hp. destruct (Hr p Hp) as [H1 H2]. split; [done|].
  intros ->. by apply H2.
Qed.

(** A merge in one pass of the same configuration. *)
Lemma one_pass e sortSlice config n s :
  SliceSort (fun x y => Index x <? Index y) sortSlice -> timed e ->
  (forall cs, enough_space e cs) -> DatasetID config <> "" -> AgentID config <> "" ->
  Compressed config = false -> tree_placed config n s ->
  let content := concat_str (map (chunk_data config s) (sortSlice (active (Chunks config)))) in
  exists r s', StreamMerge e sortSlice config s = (MOk r, s') /\
    files s' !! output_of config = Some content /\ FileSize r = Z.of_nat (String.length content).
Proof.
  intros Hsort He Hspace Hds Hag Hplain Htp content. destruct (tp_fresh _ _ _ Htp) as [Hnp Hnc].
  destruct (StreamMerge_runs e sortSlice Hsort config s 0 He Hds Hag (tree_placed_well_placed _ _ _ Htp) (Hspace _))
    as (r & s' & E & (Hout & _ & _ & Hsize) & _); [by rewrite Hnc|].
  unfold content_from in Hout, Hsize. rewrite Hnp in Hout, Hsize. change (Z.to_nat 0) with 0%nat in *. rewrite drop_0 in Hout, Hsize. simpl in Hout, Hsize.
  rewrite (map_ext _ _ (fun c => chunk_out_plain e config s c Hplain)) in Hout, Hsize.
  assert (Hs : sorted_active e sortSlice config s =
    map (with_checksum e s) (sortSlice (active (Chunks config)))).
  { unfold sorted_active. apply sort_increasing; [done| |].
    - apply Permutation_map. symmetry. apply (sortSlice_perm (SliceSort := Hsort)).
    - apply increasing_map; [apply with_checksum_index|]. apply sortSlice_increasing; [done|apply Htp]. }
  rewrite Hs, map_map, (map_ext _ _ (with_checksum_data e s config s)) in Hout, Hsize.
  by exists r, s'.
Qed.

Lemma small_merges_stream chunks :
  active chunks = [] -> shouldUseTreeMerge (active chunks)
    (f64_div (f64_of_Z (total_size chunks)) (f64_of_Z (1024 * 1024 * 1024))) = false.
Proof. intros H. unfold total_size. rewrite H. vm_compute. reflexivity. Qed.

(** ** Properties *)

(** C11.  [StreamMergeTree] writes the same output as [StreamMerge]: without
    faults, with a clock that advances, and whether or not it chooses to merge in
    stages, both succeed, and both leave the contents of the active chunks in the order of their indices,
    so that intermediate files, their names and their sizes do not show. *)
Theorem StreamMergeTree_equivalent (ee : nat -> env) (e e0 : env) (stop : nat -> error)
    (sortSlice : list ChunkInfo -> list ChunkInfo) (config : MergeConfig) (s : fs) :
  SliceSort (fun x y => Index x <? Index y) sortSlice ->
  (forall i, timed (ee i)) -> timed e0 ->
  (forall i cs, enough_space (ee i) cs) -> (forall cs, enough_space e0 cs) ->
  (forall j, stop j = None) ->
  DatasetID config <> "" -> AgentID config <> "" -> Compressed config = false ->
  tree_placed config (length (planTreeMerge sortSlice (Chunks config))) s ->
  exists r s1 r0 s2,
    StreamMergeTree ee stop None sortSlice e config s = (MOk r, s1) /\
    StreamMerge e0 sortSlice config s = (MOk r0, s2) /\
    files s1 !! output_of config = files s2 !! output_of config /\ FileSize r = FileSize r0 /\
    files s1 !! output_of config =
      Some (concat_str (map (chunk_data config s) (sortSlice (active (Chunks config))))).
Proof.
  intros Hsort He He0 Hspace Hspace0 Hstop Hds Hag Hplain Htp.
  destruct (one_pass e0 sortSlice config _ s Hsort He0 Hspace0 Hds Hag Hplain Htp) as (r0 & s2 & E0 & F0 & S0).
  assert (H : exists r s1, StreamMergeTree ee stop None sortSlice e config s = (MOk r, s1) /\
    files s1 !! output_of config =
      Some (concat_str (map (chunk_data config s) (sortSlice (active (Chunks config))))) /\
    FileSize r = Z.of_nat (String.length
      (concat_str (map (chunk_data config s) (sortSlice (active (Chunks config))))))).
  { unfold StreamMergeTree. cbv zeta. destruct (shouldUseTreeMerge _ _) eqn:Etree; cbn [negb].
    - assert (Hne : active (Chunks config) <> [])
        by (intros Hn; by rewrite small_merges_stream in Etree).
      destruct (tree_merge_ok sortSlice config s Hsort Htp ee stop e He Hspace Hstop Hds Hag Hplain Hne)
        as (r & s1 & E1 & F1 & S1 & _). by exists r, s1.
    - by apply (one_pass _ _ _ _ _ Hsort (He 0%nat) (Hspace 0%nat) Hds Hag Hplain Htp). }
  destruct H as (r & s1 & E1 & F1 & S1). exists r, s1, r0, s2.
  split; [done|]. split; [done|]. split; [by rewrite F1, F0|]. split; [by rewrite S1, S0|done].
Qed.

(** ** Retrying a tree merge *)

Lemma run_stages_app ee stop sortSlice config d i l1 l2 s :
  run_stages ee stop sortSlice config d i (l1 ++ l2) s =
  match run_stages ee stop sortSlice config d i l1 s with
  | (inl outs, s1) =>
      match run_stages ee stop sortSlice config d (i + length l1) l2 s1 with
      | (inl outs', s2) => (inl (outs ++ outs'), s2)
      | (inr o, s2) => (inr o, s2)
      end
  | (inr o, s1) => (inr o, s1)
  end.
Proof.
  revert i s. induction l1 as [|l l1 IH]; intros i s.
  - simpl. rewrite Nat.add_0_r. by destruct (run_stages _ _ _ _ _ i l2 s) as [[]].
  - cbn [app run_stages length]. destruct (stop i); [done|].
    destruct (StreamMerge _ _ _ _) as [[r| |] s1]; [|done|done].
    rewrite IH. replace (i + S (length l1))%nat with (S i + length l1)%nat by lia.
    destruct (run_stages _ _ _ _ _ (S i) l1 s1) as [[outs|o] s2]; [|done].
    by destruct (run_stages _ _ _ _ _ _ l2 s2) as [[outs'|o] s3].
Qed.

Lemma tree_placed_after config n s s1 :
  tree_placed config n s -> dirs s1 ⊆ dirs (prepared config s) -> fresh config s1 ->
  (forall j, (j < n)%nat -> stage_fresh config j s1) -> tree_placed config n s1.
Proof.
  intros [H1 H2 H3 H4 H5 H6 H7 H8 H9] Hd Hf Hs.
  assert (Hp : dirs (prepared config s1) ⊆ dirs (prepared config s)) by (unfold prepared in *; simpl in *; set_solver).
  split; try done.
  - eapply Forall_impl; [exact H4|]. set_solver.
  - eapply Forall_impl; [exact H8|]. intros c [Hsp Hr]. split; [done|].
    intros p Hpp. destruct (Hr p Hpp). split; [set_solver|done].
Qed.

Lemma map_ext_elem {A B} (f g : A -> B) l : (forall x, x ∈ l -> f x = g x) -> map f l = map g l.
Proof. intros H. apply map_ext_in. intros x Hx. apply H. by apply list_elem_of_In. Qed.

Lemma concat_str_nothing {A} (f : A -> string) l : (forall x, x ∈ l -> f x = "") -> concat_str (map f l) = "".
Proof.
  intros H. induction l as [|x l IH]; [done|]. simpl. rewrite H by by left.
  apply IH. intros y Hy. apply H. by right.
Qed.

Section retry.
Context (ee : nat -> env) (e : env) (stop : nat -> error) (sortSlice : list ChunkInfo -> list ChunkInfo)
  (config : MergeConfig) (s : fs) (k : nat) (x : string).
Context (Hsort : SliceSort (fun x y => Index x <? Index y) sortSlice).
Context (He : forall i, timed (ee i)) (Hspace : forall i cs, enough_space (ee i) cs).
Context (Hag : AgentID config <> "") (Hplain : Compressed config = false).
Let stages := planTreeMerge sortSlice (Chunks config).
Context (Htp : tree_placed config (length stages) s).
Context (Habs : Forall (fun c => IsAbs (chunk_Path c) = true) (Chunks config)).
Context (Hk : (k < length stages)%nat) (Hbefore : forall j, (j < k)%nat -> stop j = None)
  (Hstop : stop k = Some x).

(** The first run, up to the cancellation. *)
Lemma cancelled_tree :
  exists s1, tree_merge ee stop None sortSlice e config s = (MErr x, s1) /\
    tree_placed config (length stages) s1 /\
    concat_str (map (chunk_data config s1) (mjoin stages)) =
    concat_str (map (chunk_data config s) (mjoin (drop k stages))).
Proof.
  set (D := dirs (prepared config s)).
  pose proof (stages_chunks_ok sortSlice config s Hsort Htp D ltac:(done)) as Hok.
  pose proof (stages_increasing sortSlice config s Hsort Htp) as Hinc.
  pose proof (stages_apart sortSlice config s Hsort Htp) as Hap.
  assert (Hsplit : mjoin stages = mjoin (take k stages) ++ mjoin (drop k stages)).
  { transitivity (mjoin (take k stages ++ drop k stages)); [by rewrite take_drop|apply join_app]. }
  fold stages in Hok, Hinc, Hap. rewrite Hsplit in Hok, Hinc, Hap. apply Forall_app in Hok as [Hok1 Hok2].
  destruct (increasing_app _ _ Hinc) as (Hinc1 & _ & Hne).
  assert (Hlk : length (take k stages) = k) by (rewrite length_take; lia).
  pose proof (output_dir_prepared config s) as HD. pose proof (prepared_grows config s) as Hgrow.
  pose proof Htp as [T1 T2 T3 T4 T5 T6 _ _ _].
  destruct (run_stages_ok ee stop sortSlice config (length stages) D Hsort He Hspace Hag Hplain T1 T2 HD T3 T4
    (take k stages) 0 s) as (s1 & E & Hall); rewrite ?Hlk; try done; try lia.
  { intros j Hj. apply Hbefore. lia. }
  { intros c c' H1 H2. apply Hap; apply elem_of_app; by left. }
  { intros j Hj. apply T6. lia. }
  exists s1. split; [|split].
  - unfold tree_merge. fold stages. destruct stages as [|l0 st0] eqn:Est; [simpl in Hk; lia|]. rewrite <- Est in *.
    assert (Hrun : run_stages ee stop sortSlice config (Dir (output_of config)) 0 stages s = (inr (MErr x), s1)).
    { rewrite <- (take_drop k stages) at 1. rewrite run_stages_app, E, Hlk.
      destruct (drop k stages) as [|l k'] eqn:Ed; [apply (f_equal length) in Ed; rewrite length_drop in Ed; simpl in Ed; lia|].
      cbn [run_stages]. rewrite Nat.add_0_l. by rewrite Hstop. }
    by rewrite Hrun.
  - apply (tree_placed_after config (length stages) s); [done|apply Hall| |].
    + apply (fresh_after ee stop sortSlice config (length stages) D Hsort He Hspace Hag Hplain T1 T2 HD T3 T4
        0 (take k stages) s s1); try done. rewrite Hlk. lia.
    + intros j Hj. by apply (as_fresh _ _ _ _ _ _ _ Hall), T6.
  - rewrite Hsplit, map_app, concat_str_app.
    rewrite (concat_str_nothing (chunk_data config s1) (mjoin (take k stages))).
    + change (concat_str (map (chunk_data config s1) (mjoin (drop k stages))) =
              concat_str (map (chunk_data config s) (mjoin (drop k stages)))).
      f_equal. apply map_ext_elem. intros c Hc.
      apply (chunk_data_left config (length stages) D 0 (take k stages)); [done|rewrite Hlk; lia| |].
      * rewrite Forall_forall in Hok2. by apply Hok2.
      * intros c' Hc'. apply Hap; [apply elem_of_app; by left|apply elem_of_app; by right|by apply Hne].
    + intros c Hc. apply (chunk_data_done config (length stages) D 0 (take k stages) s); [done|done|].
      rewrite Forall_forall in Habs. apply Habs. apply (elem_of_active c (Chunks config)).
      apply (elem_of_stages sortSlice config Hsort). fold stages. rewrite Hsplit.
      apply elem_of_app. by left.
Qed.
End retry.

(** A tree merge deletes the chunks of each stage as soon as the stage is
    written, although the stage is configured not to, and it keeps no record of
    the stages that are done.  So when it is cancelled after [k] stages and run
    again, it merges nothing for these stages, writes over their outputs, and
    still succeeds: the output has only the chunks of the later stages, while the
    result counts all of them as merged. *)
Theorem tree_merge_retry_loses_stages (ee : nat -> env) (e : env) (stop : nat -> error)
    (sortSlice : list ChunkInfo -> list ChunkInfo) (config : MergeConfig) (s : fs) (k : nat) (x : string) :
  SliceSort (fun x y => Index x <? Index y) sortSlice ->
  (forall i, timed (ee i)) -> (forall i cs, enough_space (ee i) cs) ->
  DatasetID config <> "" -> AgentID config <> "" -> Compressed config = false ->
  let stages := planTreeMerge sortSlice (Chunks config) in
  tree_placed config (length stages) s ->
  Forall (fun c => IsAbs (chunk_Path c) = true) (Chunks config) ->
  shouldUseTreeMerge (active (Chunks config))
    (f64_div (f64_of_Z (total_size (Chunks config))) (f64_of_Z (1024 * 1024 * 1024))) = true ->
  (k < length stages)%nat -> (forall j, (j < k)%nat -> stop j = None) -> stop k = Some x ->
  exists s1 r s2,
    StreamMergeTree ee stop None sortSlice e config s = (MErr x, s1) /\
    StreamMergeTree ee (fun _ => None) None sortSlice e config s1 = (MOk r, s2) /\
    files s2 !! output_of config =
      Some (concat_str (map (chunk_data config s) (mjoin (drop k stages)))) /\
    MergedChunks r = Z.of_nat (length (active (Chunks config))).
Proof.
  intros Hsort He Hspace Hds Hag Hplain stages Htp Habs Htree Hk Hbefore Hstop.
  destruct (cancelled_tree ee e stop sortSlice config s k x Hsort He Hspace Hag Hplain Htp Habs Hk Hbefore Hstop)
    as (s1 & E1 & Htp1 & Hcon).
  assert (Hne : active (Chunks config) <> []) by (intros Hn; by rewrite small_merges_stream in Htree).
  destruct (tree_merge_ok sortSlice config s1 Hsort Htp1 ee (fun _ => None) e He Hspace (fun _ => eq_refl)
    Hds Hag Hplain Hne) as (r & s2 & E2 & F2 & _ & M2).
  exists s1, r, s2. unfold StreamMergeTree. rewrite Htree. cbn [negb].
  split; [done|]. split; [done|]. split; [|done]. rewrite F2. f_equal.
  rewrite <- (stages_join sortSlice config). exact Hcon.
Qed.

(** *** A concrete tree merge: two stages *)

Definition big_chunk (i : nat) : ChunkInfo :=
  mkChunk ("c" +:+ itoa (Z.of_nat i)) ("/in/c" +:+ itoa (Z.of_nat i) +:+ ".csv") (Z.of_nat i)
    (2 ^ 30) false "" false.

Definition big_config : MergeConfig :=
  mkConfig "ds" "" "dev" (Some (mkDeviceOutput "dev" "/out" "")) (map big_chunk (seq 0 66)) "affinity" ""
    false false true true "agent".

Definition big_fs : fs :=
  mkFS (list_to_map (map (fun i => (chunk_Path (big_chunk i), if (i <? 64)%nat then "a" else "Z")) (seq 0 66)))
    {["/in"]} ∅ ∅.

(** The available space cannot be read, so nothing is refused. *)
Definition roomy_env : env :=
  mkEnv None (Err "statfs") 0 None None None (fun _ => None) (fun _ => None) (fun _ => None)
    (fun _ => None) (fun _ => None) None None (fun _ => None) 5
    (fun s => "sha:" +:+ s) (fun s => Some s) (fun s => s) (fun _ => "").

Lemma roomy_timed : timed roomy_env.
Proof. by split; [split|]. Qed.

Lemma big_writes :
  tree_writes big_config (length (planTreeMerge (sort_by Index) (Chunks big_config))) =
  ["/out/ds_merged.csv"; "/out/ds_merged.csv.partial";
   "/out/stage_0_ds.partial"; "/out/stage_0_ds.partial.partial";
   "/out/stage_1_ds.partial"; "/out/stage_1_ds.partial.partial"].
Proof. vm_compute. reflexivity. Qed.

Lemma big_apart i j : i <> j -> spared (chunk_Path (big_chunk j)) (big_chunk i).
Proof.
  intros Hne. unfold spared, big_chunk. cbn [chunk_Path]. split.
  - intros H. injection H as H.
    apply (append_inj_r (itoa (Z.of_nat i)) (itoa (Z.of_nat j)) ".csv") in H. apply Hne.
    apply Nat2Z.inj. by apply (inj pretty.pretty) in H.
  - intros H. apply (f_equal (fun x => last_char x "000"%char)) in H. rewrite !last_char_app in H. discriminate H.
Qed.

Lemma big_placed :
  tree_placed big_config (length (planTreeMerge (sort_by Index) (Chunks big_config))) big_fs.
Proof.
  assert (Hd : dirs (prepared big_config big_fs) = {["/out"]} ∪ {["/in"]}) by (vm_compute; reflexivity).
  split; rewrite ?big_writes, ?Hd.
  - exists ["out"], "ds_merged.csv". repeat constructor; done.
  - reflexivity.
  - apply (bool_decide_unpack _). vm_compute. exact I.
  - apply (bool_decide_unpack _). vm_compute. exact I.
  - split; vm_compute; reflexivity.
  - intros j Hj. replace (length _) with 2%nat in Hj by (vm_compute; reflexivity).
    destruct j as [|[|j]]; [split; vm_compute; reflexivity..|lia].
  - apply (bool_decide_unpack _). vm_compute. exact I.
  - change (Chunks big_config) with (map big_chunk (seq 0 66)). apply Forall_forall.
    intros c (i & -> & _)%list_elem_of_fmap. split.
    + repeat first [apply Forall_nil_2 | apply Forall_cons_2; [split; discriminate|]].
    + unfold resolved, resolveChunkPath. intros p Hp.
      change (IsAbs (chunk_Path (big_chunk i))) with true in Hp. injection Hp as <-. split.
      * apply not_elem_of_union. split; apply not_elem_of_singleton; discriminate.
      * repeat (apply not_elem_of_cons; split; [discriminate|]). apply not_elem_of_nil.
  - intros c c' Hc Hc' Hne p Hp. apply elem_of_active in Hc as [Hc _], Hc' as [Hc' _].
    apply list_elem_of_fmap in Hc as (i & -> & _), Hc' as (j & -> & _).
    unfold resolved, resolveChunkPath in Hp.
    change (IsAbs (chunk_Path (big_chunk j))) with true in Hp. injection Hp as <-.
    apply big_apart. intros ->. done.
Qed.

Lemma StreamMergeTree_equivalent_witness :
  exists r s1 r0 s2,
    StreamMergeTree (fun _ => roomy_env) (fun _ => None) None (sort_by Index) roomy_env big_config big_fs
      = (MOk r, s1) /\
    StreamMerge roomy_env (sort_by Index) big_config big_fs = (MOk r0, s2) /\
    files s1 !! "/out/ds_merged.csv" = Some (concat_str (repeat "a" 64) +:+ "ZZ") /\
    files s2 !! "/out/ds_merged.csv" = Some (concat_str (repeat "a" 64) +:+ "ZZ").
Proof.
  destruct (StreamMergeTree_equivalent (fun _ => roomy_env) roomy_env roomy_env (fun _ => None)
    (sort_by Index) big_config big_fs _ (fun _ => roomy_timed) roomy_timed
    (fun _ _ => I) (fun _ => I) (fun _ => eq_refl) ltac:(discriminate) ltac:(discriminate) eq_refl big_placed)
    as (r & s1 & r0 & s2 & E1 & E2 & Heq & _ & Hc).
  assert (Hv : concat_str (map (chunk_data big_config big_fs) (sort_by Index (active (Chunks big_config)))) =
    concat_str (repeat "a" 64) +:+ "ZZ") by (vm_compute; reflexivity).
  rewrite Hv in Hc. rewrite Hc in Heq. change (output_of big_config) with "/out/ds_merged.csv" in *.
  exists r, s1, r0, s2. split; [exact E1|]. split; [exact E2|]. split; [exact Hc|by symmetry].
Defined.

Lemma tree_merge_retry_loses_stages_witness :
  exists s1 r s2,
    StreamMergeTree (fun _ => roomy_env) (fun j => if (j =? 1)%nat then Some "context canceled" else None)
      None (sort_by Index) roomy_env big_config big_fs = (MErr "context canceled", s1) /\
    StreamMergeTree (fun _ => roomy_env) (fun _ => None) None (sort_by Index) roomy_env big_config s1 = (MOk r, s2) /\
    files s2 !! "/out/ds_merged.csv" = Some "ZZ" /\ MergedChunks r = 66.
Proof.
  destruct (tree_merge_retry_loses_stages (fun _ => roomy_env) roomy_env
    (fun j => if (j =? 1)%nat then Some "context canceled" else None) (sort_by Index) big_config big_fs
    1 "context canceled" _ (fun _ => roomy_timed) (fun _ _ => I) ltac:(discriminate) ltac:(discriminate)
    eq_refl big_placed) as (s1 & r & s2 & E1 & E2 & F & M).
  - apply Forall_forall. intros c (i & -> & _)%list_elem_of_fmap. reflexivity.
  - vm_compute. reflexivity.
  - vm_compute. lia.
  - intros [|j] Hj; [reflexivity|lia].
  - reflexivity.
  - exists s1, r, s2. split; [exact E1|]. split; [exact E2|].
    assert (Hv : concat_str (map (chunk_data big_config big_fs)
      (mjoin (drop 1 (planTreeMerge (sort_by Index) (Chunks big_config))))) = "ZZ") by (vm_compute; reflexivity).
    rewrite Hv in F. split; [exact F|]. rewrite M. vm_compute. reflexivity.
Defined.
