(* ===== verification/Recovery.v ===== *)
(** * Recovery: recovery states and merge artifacts

    Models [internal/dataset/recovery.go] and [internal/dataset/artifact.go].
    The files of the recovery directory and the metadata files beside the merged
    files are kept as the values they decode to, by their paths. *)
From S2P Require Import Prelude Path Merge MergeTree.
From Stdlib Require Import Ascii.

(** ** Recovery states *)

Record MergeRecoveryState := mkRecovery {
  r_DatasetID : string; r_OutputPath : string; r_ChunksMerged : list string;
  r_ChunksPending : list string; LastUpdatedAt : Z }.

Inductive recovery_file := RecoveryData (r : MergeRecoveryState) | RecoveryGarbage.

(** The recovery directory: [None] when it does not exist. *)
Abbreviation recovery_dir := (option (gmap string recovery_file)).

Section recovery.
(** The home directory, and the faults of the directory's system calls. *)
Context (homeDir : string) (readErr : string -> error) (readDirErr : error).

Definition getRecoveryStateDir : string := Join [homeDir; ".sentra"; "recovery"].

Definition recovery_suffix : string := ".recovery.json".

Definition statePath (datasetID : string) : string :=
  Join [getRecoveryStateDir; datasetID +:+ recovery_suffix].

(** [Save]: the state that is written carries the time of the write.  A write to
    a path that is not in the directory fails, as its parent does not exist. *)
Definition Save (mkdirFault writeFault renameFault : error) (now : Z) (r : MergeRecoveryState)
    (d : recovery_dir) : recovery_dir * error :=
  match mkdirFault with
  | Some x => (d, Some ("failed to create recovery state directory: " +:+ x))
  | None =>
      let m := default ∅ d in
      let r := mkRecovery (r_DatasetID r) (r_OutputPath r) (r_ChunksMerged r) (r_ChunksPending r) now in
      let path := statePath (r_DatasetID r) in
      match writeFault with
      | Some x => (Some m, Some ("failed to write recovery state: " +:+ x))
      | None =>
          if negb (Dir path =?s getRecoveryStateDir)
          then (Some m, Some "failed to write recovery state: no such file or directory")
          else
            match renameFault with
            | Some x => (Some (<[path +:+ ".tmp" := RecoveryData r]> m), Some x)
            | None => (Some (<[path := RecoveryData r]> (delete (path +:+ ".tmp") m)), None)
            end
      end
  end.

Definition LoadMergeRecoveryState (datasetID : string) (d : recovery_dir)
    : result (option MergeRecoveryState) :=
  let path := statePath datasetID in
  match readErr path with
  | Some x => Err ("failed to read recovery state: " +:+ x)
  | None =>
      match default ∅ d !! path with
      | None => Ok None
      | Some (RecoveryData r) => Ok (Some r)
      | Some RecoveryGarbage => Err "failed to parse recovery state: invalid JSON"
      end
  end.

Definition ClearMergeRecoveryState (removeFault : string -> error) (datasetID : string)
    (d : recovery_dir) : recovery_dir * error :=
  let path := statePath datasetID in
  match removeFault path, default ∅ d !! path with
  | Some x, _ => (d, Some x)
  | None, None => (d, Some ("remove " +:+ path +:+ ": no such file or directory"))
  | None, Some _ => (delete path <$> d, None)
  end.

(** The data set ids that the files of the directory name; [os.ReadDir] lists
    the entries by name. *)
Definition recovery_ids (d : gmap string recovery_file) : list string :=
  let names := merge_sort String.le (map (fun kv => Base kv.1) (map_to_list d)) in
  map (fun name => TrimSuffix name recovery_suffix)
    (List.filter (fun name => HasSuffix name recovery_suffix) names).

Definition FindIncompleteMerges (d : recovery_dir) : result (list MergeRecoveryState) :=
  match readDirErr, d with
  | Some x, _ => Err ("failed to read recovery directory: " +:+ x)
  | None, None => Ok []
  | None, Some m =>
      Ok (omap (fun id =>
            match LoadMergeRecoveryState id d with
            | Ok (Some r) => match r_ChunksPending r with [] => None | _ => Some r end
            | _ => None
            end) (recovery_ids m))
  end.

(** [time.Duration] subtraction saturates; times are far from its bounds. *)
Definition CleanupStaleRecoveryStates (removeFault : string -> error) (now maxAge : Z)
    (d : recovery_dir) : recovery_dir * error :=
  match readDirErr, d with
  | Some x, _ => (d, Some ("failed to read recovery directory: " +:+ x))
  | None, None => (d, None)
  | None, Some m =>
      (foldl (fun d id =>
         match LoadMergeRecoveryState id d with
         | Ok (Some r) =>
             if maxAge <? now - LastUpdatedAt r then (ClearMergeRecoveryState removeFault id d).1 else d
         | _ => d
         end) d (recovery_ids m), None)
  end.

(** It only logs what it finds. *)
Definition DetectAndRecoverFromCrashes (d : recovery_dir) : error :=
  match FindIncompleteMerges d with
  | Err x => Some ("failed to find incomplete merges: " +:+ x)
  | Ok _ => None
  end.

(** *** Resuming *)

Definition pending_chunks (r : MergeRecoveryState) (chunks : list ChunkInfo) : list ChunkInfo :=
  List.filter (fun c => negb (bool_decide (ChunkID c ∈ r_ChunksMerged r)) && negb (IsSkipped c)) chunks.

Definition with_chunks (cs : list ChunkInfo) (config : MergeConfig) : MergeConfig :=
  mkConfig (DatasetID config) (DatasetSlug config) (AffinityDeviceID config) (cfg_DeviceOutput config)
    cs (Strategy config) (cfg_MountPath config) (DeleteChunksAfter config) (Compressed config)
    (ChecksumRequired config) (UseTreeMerge config) (AgentID config).

(** The result when the output is there and no chunk is left. *)
Definition already_merged (e : env) (sortSlice : list ChunkInfo -> list ChunkInfo)
    (config : MergeConfig) (s : fs) : MergeResult :=
  let '(checksum, size) := default ("", 0) (computeChecksumDirect e s (output_of config)) in
  let datasetChecksum := computeDatasetChecksum e sortSlice (Chunks config) in
  mkResult (DatasetID config) (cfg_DeviceOutput config)
    (if datasetChecksum =?s "" then checksum else datasetChecksum) size 0 0 0 0 0 0.

Definition output_exists (config : MergeConfig) (s : fs) : bool :=
  match files s !! output_of config with
  | Some _ => true
  | None => bool_decide (output_of config ∈ dirs s)
  end.

Definition ResumeMergeFromRecovery (e : env) (sortSlice : list ChunkInfo -> list ChunkInfo)
    (removeFault : string -> error) (config : MergeConfig) (s : fs) (d : recovery_dir)
    : outcome * fs * recovery_dir :=
  match LoadMergeRecoveryState (DatasetID config) d with
  | Err x => (MErr ("failed to load recovery state: " +:+ x), s, d)
  | Ok None => (StreamMerge e sortSlice config s, d)
  | Ok (Some r) =>
      let chunksToMerge := pending_chunks r (Chunks config) in
      if match chunksToMerge with [] => output_exists config s | _ => false end
      then (MOk (already_merged e sortSlice config s), s, d)
      else
        match StreamMerge e sortSlice (with_chunks chunksToMerge config) s with
        | (MOk res, s) => (MOk res, s, (ClearMergeRecoveryState removeFault (DatasetID config) d).1)
        | (o, s) => (o, s, d)
        end
  end.
End recovery.

(** ** Artifacts *)

Record Artifact := mkArtifact {
  a_ID : string; a_DatasetID : string; a_AgentID : string; a_Checksum : string; a_FileSize : Z;
  LocalPath : string; CreatedAt : option Z; Metadata : gmap string string; StageIndex : Z; IsPartial : bool }.

Inductive artifact_file := ArtifactData (a : Artifact) | ArtifactGarbage.

Definition metadata_path (localPath : string) : string := localPath +:+ ".metadata.json".

Definition RegisterArtifact (mkdirFault writeFault : error) (now : Z) (a : Artifact)
    (m : gmap string artifact_file) : gmap string artifact_file * error :=
  if a_ID a =?s "" then (m, Some "artifact id is required")
  else if a_DatasetID a =?s "" then (m, Some "dataset_id is required")
  else if LocalPath a =?s "" then (m, Some "local_path is required")
  else
    let a := mkArtifact (a_ID a) (a_DatasetID a) (a_AgentID a) (a_Checksum a) (a_FileSize a) (LocalPath a)
               (Some (default now (CreatedAt a))) (Metadata a) (StageIndex a) (IsPartial a) in
    match mkdirFault, writeFault with
    | Some x, _ => (m, Some ("failed to create artifact directory: " +:+ x))
    | None, Some x => (m, Some ("failed to write artifact metadata: " +:+ x))
    | None, None => (<[metadata_path (LocalPath a) := ArtifactData a]> m, None)
    end.

Definition LoadArtifactMetadata (readFault : error) (localPath : string)
    (m : gmap string artifact_file) : result Artifact :=
  match readFault, m !! metadata_path localPath with
  | Some x, _ => Err ("failed to read artifact metadata: " +:+ x)
  | None, None => Err "failed to read artifact metadata: no such file or directory"
  | None, Some (ArtifactData a) => Ok a
  | None, Some ArtifactGarbage => Err "failed to parse artifact metadata: invalid JSON"
  end.

(** The artifact of a merge result; [affinity] is its [AffinityDeviceID]. *)
Definition merge_artifact (now : Z) (affinity : string) (r : MergeResult) (agentID : string) : Artifact :=
  let deviceOutput := default (mkDeviceOutput affinity "" "") (res_DeviceOutput r) in
  mkArtifact ("artifact_" +:+ res_DatasetID r) (res_DatasetID r) agentID (res_Checksum r) (FileSize r)
    (Join [MountPath deviceOutput; File deviceOutput]) (Some now)
    (list_to_map
      [("merged_chunks", itoa (MergedChunks r)); ("skipped_chunks", itoa (SkippedChunks r));
       ("deleted_chunks", itoa (DeletedChunks r)); ("duration_ms", itoa (DurationMs r));
       ("device_id", affinity)]) 0 false.

Definition EmitMergeCompletedEvent (mkdirFault writeFault : error) (now : Z) (affinity : string)
    (r : MergeResult) (agentID : string) (m : gmap string artifact_file)
    : gmap string artifact_file * error :=
  match RegisterArtifact mkdirFault writeFault now (merge_artifact now affinity r agentID) m with
  | (m, Some x) => (m, Some ("failed to register artifact: " +:+ x))
  | (m, None) => (m, None)
  end.

(** ** Lemmas *)

(** The home directory is a cleaned absolute path. *)
Definition clean_home (homeDir : string) : Prop :=
  exists l, Forall plain_name l /\ homeDir = abs_path l.

Section recovery_lemmas.
Context (homeDir : string) (Hhome : clean_home homeDir).

Lemma recovery_dir_abs :
  exists l, Forall plain_name l /\ getRecoveryStateDir homeDir = abs_path l.
Proof.
  destruct Hhome as (l & Hl & ->). exists (l ++ [".sentra"; "recovery"]).
  assert (Hf : Forall plain_name [".sentra"; "recovery"]) by (repeat constructor; done).
  split; [by apply Forall_app|]. by apply Join_abs_list.
Qed.

Lemma recovery_name_plain id : no_slash id -> plain_name (id +:+ recovery_suffix).
Proof.
  intros Hid. assert (Hlen : (14 <= String.length (id +:+ recovery_suffix))%nat).
  { rewrite length_append. change (String.length recovery_suffix) with 14%nat. lia. }
  assert (H : forall t, (String.length t < 14)%nat -> id +:+ recovery_suffix <> t).
  { intros t Ht E. rewrite E in Hlen. lia. }
  split; [apply H; simpl; lia|]. split; [apply H; simpl; lia|]. split; [apply H; simpl; lia|].
  by apply no_slash_app.
Qed.

Lemma statePath_parts id :
  no_slash id -> Dir (statePath homeDir id) = getRecoveryStateDir homeDir /\
  Base (statePath homeDir id) = id +:+ recovery_suffix.
Proof.
  intros Hid. destruct recovery_dir_abs as (l & Hl & E). unfold statePath. rewrite E.
  pose proof (recovery_name_plain id Hid) as Hn. rewrite Join_abs by done.
  split; [by apply Dir_abs|by apply Base_abs].
Qed.

Lemma statePath_ends id : no_slash id -> exists x, statePath homeDir id = x +:+ recovery_suffix.
Proof.
  intros Hid. destruct recovery_dir_abs as (l & Hl & E). unfold statePath. rewrite E.
  rewrite Join_abs by (done || by apply recovery_name_plain).
  assert (H : exists x, join_with "/" (l ++ [id +:+ recovery_suffix]) = x +:+ (id +:+ recovery_suffix)).
  { clear E Hl. induction l as [|y l [x IH]]; [by exists ""|]. exists (y +:+ "/" +:+ x).
    rewrite !append_assoc, <- IH. cbn [app join_with]. by destruct (l ++ [id +:+ recovery_suffix]) eqn:El;
      [destruct l|]. }
  destruct H as [x Hx]. exists ("/" +:+ x +:+ id). unfold abs_path. by rewrite Hx, !append_assoc.
Qed.

Lemma statePath_inj id id' :
  no_slash id -> no_slash id' -> statePath homeDir id = statePath homeDir id' -> id = id'.
Proof.
  intros H H' E. destruct (statePath_parts id H) as [_ B], (statePath_parts id' H') as [_ B'].
  rewrite E, B' in B. by apply append_inj_r in B.
Qed.
End recovery_lemmas.

Lemma elem_of_recovery_ids (d : gmap string recovery_file) path id f :
  d !! path = Some f -> Base path = id +:+ recovery_suffix -> id ∈ recovery_ids d.
Proof.
  intros Hd Hb. unfold recovery_ids. apply list_elem_of_fmap. exists (id +:+ recovery_suffix).
  split; [by rewrite TrimSuffix_app|]. apply list_elem_of_In, filter_In.
  split; [|apply HasSuffix_app]. apply list_elem_of_In. rewrite merge_sort_Permutation.
  apply list_elem_of_fmap. exists (path, f). split; [done|]. by apply elem_of_map_to_list.
Qed.

(** ** Properties *)

Definition saved_at (now : Z) (r : MergeRecoveryState) : MergeRecoveryState :=
  mkRecovery (r_DatasetID r) (r_OutputPath r) (r_ChunksMerged r) (r_ChunksPending r) now.

(** A recovery state that [Save] wrote is what [LoadMergeRecoveryState]
    reads, with the time of the write; it is among the states that
    [FindIncompleteMerges] finds if it has a pending chunk; and once it is
    cleared it is not read again.  States of other data sets stay as they were
    throughout. *)
Theorem recovery_state_round_trip (homeDir : string) (now : Z) (r : MergeRecoveryState)
    (d : recovery_dir) :
  clean_home homeDir -> no_slash (r_DatasetID r) ->
  let load := LoadMergeRecoveryState homeDir (fun _ => None) in
  exists d1 d2, Save homeDir None None None now r d = (d1, None) /\
    load (r_DatasetID r) d1 = Ok (Some (saved_at now r)) /\
    (r_ChunksPending r <> [] ->
       exists l, FindIncompleteMerges homeDir (fun _ => None) None d1 = Ok l /\ saved_at now r ∈ l) /\
    ClearMergeRecoveryState homeDir (fun _ => None) (r_DatasetID r) d1 = (d2, None) /\
    load (r_DatasetID r) d2 = Ok None /\
    (forall id, no_slash id -> id <> r_DatasetID r -> load id d1 = load id d /\ load id d2 = load id d).
Proof.
  intros Hhome Hid load. destruct (statePath_parts homeDir Hhome _ Hid) as [Hdir Hbase].
  set (p := statePath homeDir (r_DatasetID r)) in *. set (m := default ∅ d).
  exists (Some (<[p := RecoveryData (saved_at now r)]> (delete (p +:+ ".tmp") m))),
         (Some (delete p (<[p := RecoveryData (saved_at now r)]> (delete (p +:+ ".tmp") m)))).
  assert (Hload : load (r_DatasetID r) (Some (<[p := RecoveryData (saved_at now r)]> (delete (p +:+ ".tmp") m)))
    = Ok (Some (saved_at now r))).
  { unfold load, LoadMergeRecoveryState. fold p. simpl. by rewrite lookup_insert_eq. }
  split; [unfold Save; cbv zeta; cbn [r_DatasetID]; fold p; by rewrite Hdir, eqb_refl_s|]. split; [exact Hload|]. split.
  { intros Hp. eexists. split; [reflexivity|]. apply list_elem_of_omap. exists (r_DatasetID r).
    split; [eapply (elem_of_recovery_ids _ p); [apply lookup_insert_eq|done]|].
    change (LoadMergeRecoveryState homeDir (fun _ => None)) with load. rewrite Hload. simpl.
    by destruct (r_ChunksPending r). }
  split; [unfold ClearMergeRecoveryState; fold p; simpl; by rewrite lookup_insert_eq|].
  split; [unfold load, LoadMergeRecoveryState; fold p; simpl; by rewrite lookup_delete_eq|].
  intros id Hid' Hne. assert (Hpp : p <> statePath homeDir id).
  { intros E. apply Hne. symmetry. by apply (statePath_inj homeDir Hhome). }
  assert (Htmp : p +:+ ".tmp" <> statePath homeDir id).
  { intros E. destruct (statePath_ends homeDir Hhome id Hid') as [x Hx]. rewrite Hx in E.
    apply (f_equal (fun x => last_char x "000"%char)) in E. rewrite !last_char_app in E. discriminate E. }
  unfold load, LoadMergeRecoveryState. simpl.
  by rewrite lookup_delete_ne, lookup_insert_ne, lookup_delete_ne by done.
Qed.

Definition demo_recovery : MergeRecoveryState := mkRecovery "ds" "/out/ds_merged.csv" ["/in/c0"] ["/in/c1"; "/in/c2"] 0.

Lemma demo_home : clean_home "/home/agent".
Proof. exists ["home"; "agent"]. repeat constructor; done. Qed.

Lemma recovery_state_round_trip_witness :
  no_slash "ds" /\
  exists d1 d2, Save "/home/agent" None None None 7 demo_recovery None = (d1, None) /\
    LoadMergeRecoveryState "/home/agent" (fun _ => None) "ds" d1 = Ok (Some (saved_at 7 demo_recovery)) /\
    ClearMergeRecoveryState "/home/agent" (fun _ => None) "ds" d1 = (d2, None) /\
    LoadMergeRecoveryState "/home/agent" (fun _ => None) "ds" d2 = Ok None.
Proof.
  split; [reflexivity|].
  destruct (recovery_state_round_trip "/home/agent" 7 demo_recovery None demo_home eq_refl)
    as (d1 & d2 & H1 & H2 & _ & H3 & H4 & _).
  exists d1, d2. split; [exact H1|]. split; [exact H2|]. split; [exact H3|exact H4].
Defined.

(** [ResumeMergeFromRecovery] leaves out the chunks that the recovery state
    lists as merged, and then the merge skips, at the beginning of what is left,
    as many positions as its checkpoint counts: the pending chunks at these
    positions are in the output only if the partial file has them, the merge
    succeeds all the same, and the recovery state is removed. *)
Theorem resume_skips_pending_chunks (homeDir : string) (e : env)
    (sortSlice : list ChunkInfo -> list ChunkInfo) (config : MergeConfig) (s : fs) (d : recovery_dir)
    (r : MergeRecoveryState) (resume : Z) :
  SliceSort (fun x y => Index x <? Index y) sortSlice ->
  timed e -> (forall cs, enough_space e cs) -> DatasetID config <> "" -> AgentID config <> "" ->
  Compressed config = false ->
  LoadMergeRecoveryState homeDir (fun _ => None) (DatasetID config) d = Ok (Some r) ->
  pending_chunks r (Chunks config) <> [] ->
  well_placed (with_chunks (pending_chunks r (Chunks config)) config) s ->
  resume_of (checkpoints s !! checkpoint_of config) = Some resume ->
  let pending := sorted_active e sortSlice (with_chunks (pending_chunks r (Chunks config)) config) s in
  exists res s' d', ResumeMergeFromRecovery homeDir (fun _ => None) e sortSlice (fun _ => None) config s d
      = (MOk res, s', d') /\
    files s' !! output_of config =
      Some (default "" (files s !! partial_of config) +:+
            concat_str (map (chunk_data config s) (drop (Z.to_nat resume) pending))) /\
    LoadMergeRecoveryState homeDir (fun _ => None) (DatasetID config) d' = Ok None.
Proof.
  intros Hsort He Hspace Hds Hag Hplain Hload Hpend Hwp Hres pending.
  destruct (StreamMerge_runs e sortSlice Hsort (with_chunks (pending_chunks r (Chunks config)) config) s resume
    He Hds Hag Hwp (Hspace _) Hres) as (res & s' & E & (Hout & _) & _). unfold content_from in Hout.
  rewrite (map_ext _ _ (fun c => chunk_out_plain e _ s c Hplain)) in Hout.
  exists res, s', (ClearMergeRecoveryState homeDir (fun _ => None) (DatasetID config) d).1.
  split; [|split; [exact Hout|]].
  - unfold ResumeMergeFromRecovery. rewrite Hload.
    destruct (pending_chunks r (Chunks config)) as [|c cs] eqn:Ep; [done|]. cbv zeta. by rewrite E.
  - unfold LoadMergeRecoveryState, ClearMergeRecoveryState in *.
    destruct (default ∅ d !! statePath homeDir (DatasetID config)) eqn:El; [|done].
    destruct d as [m|]; simpl in *; [by rewrite lookup_delete_eq|done].
Qed.

(** The first of three chunks was merged: its bytes are in the partial file, the
    checkpoint is after it, and the recovery state lists it. *)
Definition recovery_fs : fs :=
  mkFS {["/in/c1" := "BB"; "/in/c2" := "CC"; "/out/ds_merged.csv.partial" := "AA"]} {["/in"]}
    {["/out/ds_merged.csv.checkpoint.json" :=
        CheckpointData (mkCheckpoint "ds" "/out/ds_merged.csv" 0 2 ["/in/c0"])]} ∅.

Definition recovery_config : MergeConfig :=
  demo_config false [demo_chunk 0 "/in/c0"; demo_chunk 1 "/in/c1"; demo_chunk 2 "/in/c2"].

Definition recovery_store : recovery_dir :=
  Some {[statePath "/home/agent" "ds" := RecoveryData demo_recovery]}.

Lemma resume_skips_pending_chunks_witness :
  exists res s' d', ResumeMergeFromRecovery "/home/agent" (fun _ => None) roomy_env (sort_by Index)
      (fun _ => None) recovery_config recovery_fs recovery_store = (MOk res, s', d') /\
    files s' !! "/out/ds_merged.csv" = Some "AACC" /\
    LoadMergeRecoveryState "/home/agent" (fun _ => None) "ds" d' = Ok None.
Proof.
  destruct (resume_skips_pending_chunks "/home/agent" roomy_env (sort_by Index) recovery_config recovery_fs
    recovery_store demo_recovery 1 _ roomy_timed (fun _ => I) ltac:(discriminate) ltac:(discriminate)
    eq_refl ltac:(vm_compute; reflexivity) ltac:(vm_compute; discriminate) ltac:(solve_placed)
    ltac:(vm_compute; reflexivity)) as (res & s' & d' & E & F & L).
  exists res, s', d'. split; [exact E|]. split; [exact F|exact L].
Defined.

(** After a merge that succeeded, [EmitMergeCompletedEvent] registers an
    artifact under the path of the output: what [LoadArtifactMetadata] reads there
    names the data set, the agent and the output, with the size and the checksum
    of the result. *)
Theorem merge_artifact_round_trip (e : env) (sortSlice : list ChunkInfo -> list ChunkInfo)
    (config : MergeConfig) (s s' : fs) (r : MergeResult) (now : Z) (agentID : string)
    (m : gmap string artifact_file) :
  clean_output config -> StreamMerge e sortSlice config s = (MOk r, s') ->
  exists m' a, EmitMergeCompletedEvent None None now (AffinityDeviceID config) r agentID m = (m', None) /\
    LoadArtifactMetadata None (output_of config) m' = Ok a /\
    a_DatasetID a = DatasetID config /\ a_AgentID a = agentID /\ LocalPath a = output_of config /\
    a_FileSize a = FileSize r /\ a_Checksum a = res_Checksum r /\ CreatedAt a = Some now /\
    (forall p, p <> output_of config -> LoadArtifactMetadata None p m' = LoadArtifactMetadata None p m).
Proof.
  intros (l & f & Hl & Hf & Hout) H.
  pose proof (StreamMerge_device _ _ _ _ _ _ H) as Hdev.
  destruct (StreamMerge_dataset _ _ _ _ _ _ H) as [Hds Hne].
  assert (Hpath : Join [Dir (output_of config); Base (output_of config)] = output_of config).
  { rewrite Hout, Dir_abs, Base_abs by done. by apply Join_abs. }
  assert (Hart : LocalPath (merge_artifact now (AffinityDeviceID config) r agentID) = output_of config).
  { unfold merge_artifact. rewrite Hdev. exact Hpath. }
  unfold EmitMergeCompletedEvent, RegisterArtifact. rewrite Hart.
  change (a_DatasetID (merge_artifact _ _ _ _)) with (res_DatasetID r).
  change (a_ID (merge_artifact _ _ _ _)) with ("artifact_" +:+ res_DatasetID r).
  rewrite Hds, (eqb_neq_s _ _ Hne), (eqb_neq_s (output_of config) "") by (by rewrite Hout).
  eexists _, _. split; [reflexivity|]. cbn [fst LocalPath]. unfold LoadArtifactMetadata.
  rewrite lookup_insert_eq. split; [reflexivity|]. repeat (split; [done|]).
  intros p Hp. rewrite lookup_insert_ne; [done|]. intros E. by apply append_inj_r in E.
Qed.

Lemma merge_artifact_round_trip_witness :
  exists r s' m' a,
    StreamMerge calm_env (sort_by Index) (demo_config false demo_chunks) (demo_fs ∅ ∅) = (MOk r, s') /\
    EmitMergeCompletedEvent None None 9 "dev" r "agent" ∅ = (m', None) /\
    LoadArtifactMetadata None "/out/ds_merged.csv" m' = Ok a /\ a_FileSize a = FileSize r.
Proof.
  destruct (StreamMerge calm_env (sort_by Index) (demo_config false demo_chunks) (demo_fs ∅ ∅))
    as [[r|x|] s'] eqn:E; [|vm_compute in E; discriminate E..].
  destruct (merge_artifact_round_trip calm_env (sort_by Index) (demo_config false demo_chunks) (demo_fs ∅ ∅)
    s' r 9 "agent" ∅) as (m' & a & H1 & H2 & _ & _ & _ & H3 & _).
  - exists ["out"], "ds_merged.csv". repeat constructor; done.
  - exact E.
  - exists r, s', m', a. split; [reflexivity|]. split; [exact H1|]. split; [exact H2|exact H3].
Defined.
