(* ===== verification/Storage.v ===== *)
(** * Storage: configuration and object stores

    Models [internal/storage/config.go] and [internal/storage/s3http.go]: how the
    configuration of a store is fetched and cached, the choice of a backend, the
    names of objects, the backend on a shared mount, and the client of an S3
    server, with its signatures and its reading of listings.  The server, SHA-256
    and HMAC are parameters. *)
From S2P Require Import Prelude Json Path Encoding HttpClient Merge MergeTree.
From Stdlib Require Import Ascii.

(** ** The host of a backend: its disk, and a remote store *)

Record host := mkHost { disk : fs; objects : gmap string string }.

Definition on_disk (f : fs -> fs) (h : host) : host := mkHost (f (disk h)) (objects h).
Definition with_objects (m : gmap string string) (h : host) : host := mkHost (disk h) m.

Record ObjectInfo := mkObject { Key : string; Size : Z }.

(** The interface [StorageBackend].  A read gives a reader, which may fail
    later. *)
Record StorageBackend := mkBackend {
  is_shared_mount : bool;
  ReadObject : string -> host -> result reader;
  WriteObject : string -> reader -> host -> host * error;
  ListObjects : string -> host -> result (list ObjectInfo);
  StatObject : string -> host -> result ObjectInfo;
  DeleteObject : string -> host -> host * error;
}.

(** ** Names *)

Definition GetRemotePathWithSlug (datasetID datasetSlug : string) (chunkIndex : Z) (pathType : string) : string :=
  let base := if negb (datasetSlug =?s "") then datasetSlug else datasetID in
  if pathType =?s "chunk" then base +:+ "/chunks/chunk_" +:+ itoa chunkIndex +:+ ".bin"
  else if pathType =?s "result" then base +:+ "/chunks/chunk_" +:+ itoa chunkIndex +:+ ".out"
  else if pathType =?s "merged" then base +:+ "_merged.csv"
  else "".

Definition GetRemotePath (datasetID : string) (chunkIndex : Z) (pathType : string) : string :=
  GetRemotePathWithSlug datasetID "" chunkIndex pathType.

Definition normalizeStorageMode (mode : string) : string :=
  let m := strings_ToLower mode in
  if existsb (String.eqb m) ["aws_s3"; "s3"; "s3_compatible"] then "s3"
  else if existsb (String.eqb m) ["gcs"; "google_cloud_storage"] then "gcs"
  else if m =?s "azure_blob" then "azure_blob"
  else if existsb (String.eqb m) ["shared_mount"; "local"] then "shared_mount"
  else if m =?s "object_storage" then "s3"
  else mode.

(** ** The backend on a shared mount *)

Section shared_mount.
(** [SENTRA_MOUNT_PATH], and the faults of the system calls by path. *)
Context (mountEnv : string).
Context (openErr mkdirErr createErr writeErr syncErr statErr removeErr walkErr : string -> error).

Definition NewSharedMountBase (mountBasePath : string) : string :=
  if mountBasePath =?s "" then (if negb (mountEnv =?s "") then mountEnv else "/data/sentra")
  else mountBasePath.

(** [os.Open]: a directory opens, and fails when it is read. *)
Definition os_Open (path : string) (s : fs) : result reader :=
  match openErr path with
  | Some x => Err x
  | None =>
      match files s !! path with
      | Some content => Ok (mkReader content None)
      | None =>
          if decide (path ∈ dirs s) then Ok (mkReader "" (Some ("read " +:+ path +:+ ": is a directory")))
          else Err ("open " +:+ path +:+ ": no such file or directory")
      end
  end.

(** [os.Create] and [io.Copy] from a reader: what was read before an error is
    written. *)
Definition os_Create (path : string) (s : fs) : fs * error :=
  match createErr path with
  | Some x => (s, Some x)
  | None =>
      if decide (path ∈ dirs s) then (s, Some ("open " +:+ path +:+ ": is a directory"))
      else (with_files (<[path := ""]> (files s)) s, None)
  end.

Definition io_Copy (path : string) (r : reader) (s : fs) : fs * error :=
  match writeErr path with
  | Some x => (s, Some x)
  | None => (append_file path (r_data r) s, r_err r)
  end.

Definition os_MkdirAll (path : string) (s : fs) : fs * error :=
  match mkdirErr path with
  | Some x => (s, Some x)
  | None => (with_dirs ({[path]} ∪ dirs s) s, None)
  end.

Definition SharedMount_ReadObject (mountBasePath remotePath : string) (h : host) : result reader :=
  os_Open (Join [mountBasePath; remotePath]) (disk h).

Definition SharedMount_WriteObject (mountBasePath remotePath : string) (r : reader) (h : host) : host * error :=
  let fullPath := Join [mountBasePath; remotePath] in
  let dir := Dir fullPath in
  match os_MkdirAll dir (disk h) with
  | (s, Some x) => (mkHost s (objects h), Some ("failed to create directory " +:+ dir +:+ ": " +:+ x))
  | (s, None) =>
      match os_Create fullPath s with
      | (s, Some x) => (mkHost s (objects h), Some ("failed to create file " +:+ fullPath +:+ ": " +:+ x))
      | (s, None) =>
          match io_Copy fullPath r s with
          | (s, Some x) => (mkHost s (objects h), Some ("failed to write to " +:+ fullPath +:+ ": " +:+ x))
          | (s, None) => (mkHost s (objects h), syncErr fullPath)
          end
      end
  end.

(** [filepath.Walk] below a path, and [filepath.Rel] to the base. *)
Definition below (dir path : string) : bool := (path =?s dir) || HasPrefix path (dir +:+ "/").

Definition SharedMount_ListObjects (mountBasePath prefix : string) (h : host) : result (list ObjectInfo) :=
  let fullPath := Join [mountBasePath; prefix] in
  match walkErr fullPath with
  | Some x => Err x
  | None =>
      let found := List.filter (fun kv => below fullPath kv.1) (map_to_list (files (disk h))) in
      match found with
      | [] => if existsb (below fullPath) (elements (dirs (disk h))) then Ok []
              else Err ("lstat " +:+ fullPath +:+ ": no such file or directory")
      | _ =>
          let keys := merge_sort String.le (map fst found) in
          Ok (map (fun p => mkObject (TrimPrefix p (mountBasePath +:+ "/"))
                              (Z.of_nat (String.length (default "" (files (disk h) !! p))))) keys)
      end
  end.

Definition SharedMount_StatObject (mountBasePath remotePath : string) (h : host) : result ObjectInfo :=
  let fullPath := Join [mountBasePath; remotePath] in
  match statErr fullPath, files (disk h) !! fullPath with
  | Some x, _ => Err x
  | None, Some content => Ok (mkObject remotePath (Z.of_nat (String.length content)))
  | None, None =>
      if decide (fullPath ∈ dirs (disk h)) then Ok (mkObject remotePath 4096)
      else Err ("stat " +:+ fullPath +:+ ": no such file or directory")
  end.

Definition SharedMount_DeleteObject (mountBasePath remotePath : string) (h : host) : host * error :=
  let fullPath := Join [mountBasePath; remotePath] in
  match removeErr fullPath, os_Remove fullPath (disk h) with
  | Some x, _ => (h, Some x)
  | None, Some s => (mkHost s (objects h), None)
  | None, None => (h, Some ("remove " +:+ fullPath +:+ ": no such file or directory"))
  end.

Definition SharedMountBackend (mountBasePath : string) : StorageBackend :=
  mkBackend true (SharedMount_ReadObject mountBasePath) (SharedMount_WriteObject mountBasePath)
    (SharedMount_ListObjects mountBasePath) (SharedMount_StatObject mountBasePath)
    (SharedMount_DeleteObject mountBasePath).
End shared_mount.

(** ** The client of an S3 server *)

Fixpoint str_drop (n : nat) (s : string) : string :=
  match n, s with
  | S n, String _ s => str_drop n s
  | _, _ => s
  end.

Fixpoint str_take (n : nat) (s : string) : string :=
  match n, s with
  | S n, String c s => String c (str_take n s)
  | _, _ => ""
  end.

(** [url.QueryEscape]. *)
Definition unreserved (c : ascii) : bool :=
  let n := nat_of_ascii c in
  ((48 <=? n) && (n <=? 57) || (65 <=? n) && (n <=? 90) || (97 <=? n) && (n <=? 122))%nat
  || existsb (Ascii.eqb c) ["-"; "_"; "."; "~"]%char.

Definition hex_upper (n : nat) : ascii := ascii_of_nat (if (n <? 10)%nat then 48 + n else 55 + n).

Fixpoint QueryEscape (s : string) : string :=
  match s with
  | EmptyString => EmptyString
  | String c s =>
      if unreserved c then String c (QueryEscape s)
      else if Ascii.eqb c " " then String "+" (QueryEscape s)
      else String "%" (String (hex_upper (nat_of_ascii c / 16))
                         (String (hex_upper (nat_of_ascii c mod 16)) (QueryEscape s)))
  end.

(** The part of a listing that is left to read, or a slice out of range. *)
Inductive listing := Listed (l : list ObjectInfo) | ListPanics.

(** [parseListObjectsV2]; [None] is out of fuel. *)
Fixpoint parse_listing (fuel : nat) (xmlStr : string) (found : list ObjectInfo) : option listing :=
  match fuel with
  | O => None
  | S fuel =>
      match strings_Index xmlStr "<Key>" with
      | None => Some (Listed found)
      | Some start =>
          let tail := str_drop start xmlStr in
          match strings_Index tail "</Key>" with
          | None => Some (Listed found)
          | Some end_ =>
              let key := str_take (end_ - 5) (str_drop 5 tail) in
              let xmlStr := str_drop (end_ + 6) tail in
              match strings_Index xmlStr "<Size>" with
              | None => Some ListPanics
              | Some sizeStart =>
                  let tail := str_drop sizeStart xmlStr in
                  let size := match strings_Index tail "</Size>" with
                              | Some (S _ as sizeEnd) => default 0 (Sscanf_d (str_take (sizeEnd - 6) (str_drop 6 tail)))
                              | _ => 0
                              end in
                  parse_listing fuel xmlStr (if key =?s "" then found else found ++ [mkObject key size])
              end
          end
      end
  end.

Definition parseListObjectsV2 (xmlStr : string) : option listing :=
  parse_listing (S (String.length xmlStr)) xmlStr [].

Record S3HTTPBackend := mkS3 {
  bucketName : string; endpoint : string; s3_host : string; accessKey : string; secretKey : string; region : string }.

Record S3Credentials := mkCreds { AccessKeyID : string; SecretAccessKey : string; SessionToken : string }.

Definition buildURL (b : S3HTTPBackend) (objectKey : string) : string :=
  let bucket := endpoint b +:+ "/" +:+ bucketName b in
  if (objectKey =?s "") || (objectKey =?s "/") then bucket
  else if HasPrefix objectKey "?" then bucket +:+ objectKey
  else bucket +:+ "/" +:+ TrimPrefix objectKey "/".

Record s3_request := mkRequest {
  q_Method : string; q_URL : string; q_Body : string; q_Headers : gmap string string }.

Section s3.
(** SHA-256 in hexadecimal and HMAC-SHA-256; the path and the query of a URL, as
    [url.Parse] gives them, or the error of [http.NewRequest]; the date of a
    request, in the two formats; and the server. *)
Context (sha256Hex : string -> string) (hmacSHA256 : string -> string -> string).
Context (parseURL : string -> result (string * list (string * list string))).
Context (amzDate dateStamp : string).
Context (send : s3_request -> host -> host * result http_response).

Definition sha256EmptyHash : string := "e3b0c44298fc1c149afbf4c8996fb92427ae41e4649b934ca495991b7852b855".

(** [url.Parse] of the endpoint gives the host. *)
Definition NewS3HTTPBackend (hostOf : string -> string) (endpoint bucketName region : string)
    (creds : S3Credentials) : S3HTTPBackend :=
  let endpoint := TrimSuffix endpoint "/" in
  mkS3 bucketName endpoint (hostOf endpoint) (TrimSpace (AccessKeyID creds))
    (TrimSpace (SecretAccessKey creds)) (TrimSpace region).

(** The values of the keys in order; a separator goes before every value of a
    key that is not the first. *)
Definition canonical_query (queries : list (string * list string)) : string :=
  let keys := merge_sort String.le (map fst queries) in
  foldl String.append ""
    (imap (fun i k =>
       foldl String.append ""
         (map (fun v => (if (0 <? i)%nat then "&" else "") +:+ QueryEscape k +:+ "=" +:+ QueryEscape v)
            (default [] ((list_to_map queries : gmap string (list string)) !! k)))) keys).

Definition newline : string := String "010" "".

Definition canonical_request (b : S3HTTPBackend) (method uri query payloadHash : string) : string :=
  let canonicalURI := if uri =?s "" then "/" else uri in
  let canonicalHeaders :=
    "host:" +:+ s3_host b +:+ newline +:+ "x-amz-content-sha256:" +:+ payloadHash +:+ newline +:+
    "x-amz-date:" +:+ amzDate +:+ newline in
  join_with newline
    [method; canonicalURI; query; canonicalHeaders; "host;x-amz-content-sha256;x-amz-date"; payloadHash].

Definition credential_scope (b : S3HTTPBackend) : string :=
  dateStamp +:+ "/" +:+ region b +:+ "/s3/aws4_request".

Definition string_to_sign (b : S3HTTPBackend) (canonicalRequest : string) : string :=
  join_with newline ["AWS4-HMAC-SHA256"; amzDate; credential_scope b; sha256Hex canonicalRequest].

Definition signing_key (b : S3HTTPBackend) : string :=
  let kDate := hmacSHA256 ("AWS4" +:+ secretKey b) dateStamp in
  let kRegion := hmacSHA256 kDate (region b) in
  let kService := hmacSHA256 kRegion "s3" in
  hmacSHA256 kService "aws4_request".

Definition signRequest (b : S3HTTPBackend) (uri : string) (queries : list (string * list string))
    (payloadHash : string) (r : s3_request) : s3_request :=
  let canonicalRequest := canonical_request b (q_Method r) uri (canonical_query queries) payloadHash in
  let signature := hex_EncodeToString (hmacSHA256 (signing_key b) (string_to_sign b canonicalRequest)) in
  let authHeader := "AWS4-HMAC-SHA256 Credential=" +:+ accessKey b +:+ "/" +:+ credential_scope b +:+
    ", SignedHeaders=host;x-amz-content-sha256;x-amz-date, Signature=" +:+ signature in
  mkRequest (q_Method r) (q_URL r) (q_Body r)
    (<["Authorization" := authHeader]> (<["X-Amz-Content-Sha256" := payloadHash]>
      (<["Host" := s3_host b]> (<["X-Amz-Date" := amzDate]> (q_Headers r))))).

(** Build, sign and send a request. *)
Definition s3_do (b : S3HTTPBackend) (method url content payloadHash : string) (headers : gmap string string)
    (h : host) : host * result http_response :=
  match parseURL url with
  | Err x => (h, Err x)
  | Ok (uri, queries) => send (signRequest b uri queries payloadHash (mkRequest method url content headers)) h
  end.

Definition response_text (r : http_response) : string :=
  match Body r with Some t => body_text t | None => "" end.

Definition http_error (r : http_response) : string :=
  "HTTP " +:+ itoa (StatusCode r) +:+ ": " +:+ response_text r.

Definition S3_ReadObject (b : S3HTTPBackend) (remotePath : string) (h : host) : result reader :=
  match (s3_do b "GET" (buildURL b remotePath) "" sha256EmptyHash ∅ h).2 with
  | Err x => Err x
  | Ok r => if 400 <=? StatusCode r then Err (http_error r)
            else Ok (mkReader (response_text r) (match Body r with Some _ => None | None => Some "unexpected EOF" end))
  end.

Definition S3_WriteObject (b : S3HTTPBackend) (remotePath : string) (rd : reader) (h : host) : host * error :=
  match r_err rd with
  | Some x => (h, Some ("failed to read payload: " +:+ x))
  | None =>
      match s3_do b "PUT" (buildURL b remotePath) (r_data rd) (sha256Hex (r_data rd))
              {["Content-Type" := "application/octet-stream"]} h with
      | (h, Err x) => (h, Some x)
      | (h, Ok r) => (h, if 400 <=? StatusCode r then Some (http_error r) else None)
      end
  end.

(** [contentLength] is the [Content-Length] of an answer. *)
Definition S3_StatObject (contentLength : http_response -> Z) (b : S3HTTPBackend) (remotePath : string)
    (h : host) : result ObjectInfo :=
  match (s3_do b "HEAD" (buildURL b remotePath) "" sha256EmptyHash ∅ h).2 with
  | Err x => Err x
  | Ok r => if StatusCode r =? 404 then Err "not found"
            else if 400 <=? StatusCode r then Err ("HTTP " +:+ itoa (StatusCode r))
            else Ok (mkObject remotePath (contentLength r))
  end.

Definition S3_DeleteObject (b : S3HTTPBackend) (remotePath : string) (h : host) : host * error :=
  match s3_do b "DELETE" (buildURL b remotePath) "" sha256EmptyHash ∅ h with
  | (h, Err x) => (h, Some x)
  | (h, Ok r) => (h, if 400 <=? StatusCode r then Some (http_error r) else None)
  end.

(** What the attempts of [ListObjects] lead to: an answer, an error, or a
    crash. *)
Inductive list_outcome := LOk (l : list ObjectInfo) | LErr (x : string) | LPanic.

(** Three attempts, [attempt] being the number of the next; an error that
    mentions TLS or the network is tried again. *)
Fixpoint list_attempts (n : nat) (b : S3HTTPBackend) (url : string) (lastErr : string) (h : host)
    : host * list_outcome :=
  match n with
  | O => (h, LErr ("ListObjects failed after 3 retries: " +:+ lastErr))
  | S n =>
      match parseURL url with
      | Err x => (h, LErr x)
      | Ok _ =>
          match s3_do b "GET" url "" sha256EmptyHash ∅ h with
          | (h, Err x) =>
              if strings_Contains x "tls:" || strings_Contains x "network"
              then list_attempts n b url x h else (h, LErr x)
          | (h, Ok r) =>
              match Body r with
              | None => (h, LErr "unexpected EOF")
              | Some body =>
                  let text := body_text body in
                  if 400 <=? StatusCode r then
                    if strings_Contains text "tls:" || strings_Contains text "handshake"
                    then list_attempts n b url ("TLS error: " +:+ text) h
                    else (h, LErr ("S3 HTTP " +:+ itoa (StatusCode r) +:+ ": " +:+ text))
                  else match parseListObjectsV2 text with
                       | Some (Listed l) => (h, LOk l)
                       | _ => (h, LPanic)
                       end
              end
          end
      end
  end.

Definition listing_url (b : S3HTTPBackend) (prefix : string) : string :=
  endpoint b +:+ "/" +:+ bucketName b +:+ "?list-type=2&prefix=" +:+ QueryEscape prefix +:+ "&max-keys=1000".

Definition S3_ListObjects (b : S3HTTPBackend) (prefix : string) (h : host) : host * list_outcome :=
  list_attempts 3 b (listing_url b prefix) "" h.

(** As a backend.  A crash of the agent is an error here: the agent does not go
    on. *)
Definition S3_backend (contentLength : http_response -> Z) (b : S3HTTPBackend) : StorageBackend :=
  mkBackend false (S3_ReadObject b) (S3_WriteObject b)
    (fun prefix h => match (S3_ListObjects b prefix h).2 with
                     | LOk l => Ok l | LErr x => Err x | LPanic => Err "panic" end)
    (S3_StatObject contentLength b) (S3_DeleteObject b).
End s3.

(** ** Configuration *)

(** [credentials] is any JSON value; [None] is nil. *)
Record StorageConfig := mkStorageConfig {
  StorageMode : string; Provider : string; BucketName : string; Region : string; Endpoint : string;
  MountBasePath : string; Credentials : option json; VaultSecretName : string }.

(** *** Paths *)

Definition GetDatasetPath (c : StorageConfig) (datasetID : string) : string :=
  if StorageMode c =?s "shared_mount" then MountBasePath c +:+ "/datasets/" +:+ datasetID else "".

Definition GetChunkPath (c : StorageConfig) (datasetID : string) (chunkIndex : Z) : string :=
  if StorageMode c =?s "shared_mount"
  then GetDatasetPath c datasetID +:+ "/chunks/chunk_" +:+ itoa chunkIndex +:+ ".bin" else "".

Definition GetResultPath (c : StorageConfig) (datasetID : string) (chunkIndex : Z) : string :=
  if StorageMode c =?s "shared_mount"
  then GetDatasetPath c datasetID +:+ "/chunks/chunk_" +:+ itoa chunkIndex +:+ ".out" else "".

Definition GetMergedPath (c : StorageConfig) (datasetID : string) : string :=
  if StorageMode c =?s "shared_mount" then GetDatasetPath c datasetID +:+ "/" +:+ datasetID +:+ ".csv" else "".

Definition GetSourcePath (c : StorageConfig) (datasetID : string) : string :=
  if StorageMode c =?s "shared_mount" then GetDatasetPath c datasetID +:+ "/source" else "".

(** *** Choosing a backend *)

Definition decodeCredentials (fs : list (string * json)) : S3Credentials * bool :=
  let '(a, e1) := field dec_string "access_key_id" "" fs in
  let '(k, e2) := field dec_string "secret_access_key" "" fs in
  let '(t, e3) := field dec_string "session_token" "" fs in
  (mkCreds a k t, e1 || e2 || e3).

Definition zero_creds : S3Credentials := mkCreds "" "" "".

(** [s3] and [shared] construct the two backends. *)
Definition NewBackend {B : Type} (s3 : string -> string -> string -> S3Credentials -> B) (shared : string -> B)
    (cfg : option StorageConfig) : result B :=
  match cfg with
  | None => Err "storage config is nil"
  | Some c =>
      let storageMode := normalizeStorageMode (StorageMode c) in
      if storageMode =?s "s3" then
        if BucketName c =?s "" then Err "S3 storage mode requires bucket_name"
        else if Endpoint c =?s "" then Err "S3 storage mode requires endpoint"
        else
          match (match Credentials c with
                 | None => (zero_creds, None)
                 | Some j => Unmarshal_struct zero_creds decodeCredentials (Raw j)
                 end) with
          | (_, Some x) => Err ("failed to unmarshal credentials: " +:+ x)
          | (creds, None) =>
              if (AccessKeyID creds =?s "") || (SecretAccessKey creds =?s "")
              then Err "S3 storage mode requires credentials with access_key_id and secret_access_key"
              else Ok (s3 (Endpoint c) (BucketName c) (Region c) creds)
          end
      else if (storageMode =?s "gcs") || (storageMode =?s "azure_blob")
      then Err (storageMode +:+ " storage mode not yet implemented")
      else if storageMode =?s "shared_mount" then Ok (shared (MountBasePath c))
      else if negb (storageMode =?s "")
      then Err ("unknown storage mode: " +:+ storageMode +:+ " (must be one of: s3, shared_mount)")
      else Err "storage mode is required"
  end.

(** *** Fetching *)

Section fetch.
(** [PostWithHeaders]: the path and the members of the body to the outcome of
    the request. *)
Context (post : string -> list (string * string) -> result http_response).

Definition doRequest (path : string) (payload : list (string * string)) : result RawMessage :=
  match post path payload with
  | Err x => Err x
  | Ok r =>
      match Body r with
      | None => if 300 <=? StatusCode r then Err ("HTTP " +:+ itoa (StatusCode r) +:+ ": ")
                else Err "http: read on closed response body"
      | Some b => if 300 <=? StatusCode r then Err ("HTTP " +:+ itoa (StatusCode r) +:+ ": " +:+ body_text b)
                  else Ok (body_json b)
      end
  end.

Definition dec_any : decoder (option json) := fun _ j => (match j with JNull => None | _ => Some j end, false).

Definition decodeConfig (fs : list (string * json)) : StorageConfig * bool :=
  let '(m, e1) := field dec_string "storage_mode" "" fs in
  let '(p, e2) := field dec_string "provider" "" fs in
  let '(b, e3) := field dec_string "bucket_name" "" fs in
  let '(r, e4) := field dec_string "region" "" fs in
  let '(e, e5) := field dec_string "endpoint" "" fs in
  let '(mb, e6) := field dec_string "mount_base_path" "" fs in
  let '(c, _) := field dec_any "credentials" None fs in
  let '(v, e7) := field dec_string "vault_secret_name" "" fs in
  (mkStorageConfig m p b r e mb c v, e1 || e2 || e3 || e4 || e5 || e6 || e7).

Definition zero_config : StorageConfig := mkStorageConfig "" "" "" "" "" "" None "".

(** The [ok], [error] and [details] members. *)
Definition decodeStatus (fs : list (string * json)) : (bool * string * string) * bool :=
  let '(ok, e1) := field dec_bool "ok" false fs in
  let '(e, e2) := field dec_string "error" "" fs in
  let '(d, e3) := field dec_string "details" "" fs in
  ((ok, e, d), e1 || e2 || e3).

Definition decodeVaultData : decoder (option S3Credentials) := fun cur j =>
  match j with
  | JNull => (None, false)
  | JObj fs => let '(c, e) := decodeCredentials fs in (Some c, e)
  | _ => (cur, true)
  end.

Definition decodeVault (fs : list (string * json)) : (bool * string * string * option S3Credentials) * bool :=
  let '(st, e1) := decodeStatus fs in
  let '(d, e2) := field decodeVaultData "data" None fs in
  ((st, d), e1 || e2).

Definition resolveVaultSecret (orgID secretName : string) : result S3Credentials :=
  match doRequest "/functions/v1/decrypt_vault_secret" [("org_id", orgID); ("secret_name", secretName)] with
  | Err x => Err x
  | Ok resp =>
      match Unmarshal_struct ((false, "", ""), None) decodeVault resp with
      | (_, Some x) => Err ("failed to parse vault secret response: " +:+ x)
      | (((ok, e, d), data), None) =>
          if negb ok then Err ("vault secret decryption failed: " +:+ e +:+ " (" +:+ d +:+ ")")
          else
            match data with
            | Some c =>
                if (AccessKeyID c =?s "") || (SecretAccessKey c =?s "")
                then Err ("vault secret " +:+ secretName +:+ " missing access_key_id or secret_access_key")
                else Ok c
            | None => Err ("vault secret " +:+ secretName +:+ " missing access_key_id or secret_access_key")
            end
      end
  end.

(** What [json.Marshal] makes of resolved credentials. *)
Definition creds_json (c : S3Credentials) : json :=
  JObj ([("access_key_id", JStr (AccessKeyID c)); ("secret_access_key", JStr (SecretAccessKey c))]
        ++ (if SessionToken c =?s "" then [] else [("session_token", JStr (SessionToken c))])).

Definition with_credentials (c : option json) (vault : string) (cfg : StorageConfig) : StorageConfig :=
  mkStorageConfig (StorageMode cfg) (Provider cfg) (BucketName cfg) (Region cfg) (Endpoint cfg)
    (MountBasePath cfg) c vault.

(** [FetchConfig] and [FetchConfigByID] differ in the body of the request and in
    whether the name of a resolved secret is kept. *)
Definition fetch_config (orgID : string) (payload : list (string * string)) (keepName : bool)
    : result StorageConfig :=
  match doRequest "/functions/v1/get_storage_config" payload with
  | Err x => Err x
  | Ok resp =>
      match Unmarshal_struct (false, "", "") decodeStatus resp with
      | ((false, e, d), None) => Err ("storage config unavailable: " +:+ e +:+ " (" +:+ d +:+ ")")
      | _ =>
          match Unmarshal_struct zero_config decodeConfig resp with
          | (_, Some x) => Err x
          | (cfg, None) =>
              let resolved :=
                if negb (VaultSecretName cfg =?s "") then
                  match resolveVaultSecret orgID (VaultSecretName cfg) with
                  | Err x => Err ("failed to resolve vault secret " +:+ VaultSecretName cfg +:+ ": " +:+ x)
                  | Ok c => Ok (with_credentials (Some (creds_json c))
                                  (if keepName then VaultSecretName cfg else "") cfg)
                  end
                else Ok cfg in
              match resolved with
              | Err x => Err x
              | Ok cfg =>
                  match Credentials cfg with
                  | None =>
                      if (StorageMode cfg =?s "s3") || (StorageMode cfg =?s "object_storage")
                      then Err ("storage config unavailable: no credentials and storage_mode=" +:+ StorageMode cfg)
                      else Ok cfg
                  | Some _ => Ok cfg
                  end
              end
          end
      end
  end.

Definition FetchConfig (orgID : string) : result StorageConfig :=
  fetch_config orgID [("org_id", orgID)] true.

Definition FetchConfigByID (orgID storageConfigID : string) : result StorageConfig :=
  fetch_config orgID [("org_id", orgID); ("storage_config_id", storageConfigID)] false.
End fetch.

(** *** The global configuration and backend *)

Section globals.
(** [fetchConfig], [globalOrgID] and [globalBaseURL] with the variables they
    fall back to, and the constructors of backends. *)
Context {B : Type} (construct : option StorageConfig -> result B).

Record globals := mkGlobals {
  cfgDone : option (option StorageConfig * error);   (** what [cfgOnce] computed *)
  backendDone : bool;                                (** [globalBackendOnce] *)
  globalBackend : option B; globalBackendErr : error; backendInvalidated : bool }.

Definition no_globals : globals := mkGlobals None false None None false.

Definition of_result {A} (r : result A) : option A * error :=
  match r with Ok a => (Some a, None) | Err x => (None, Some x) end.

(** [fetched] is the answer a fetch would get now. *)
Definition GetConfig (fetched : result StorageConfig) (g : globals) : globals * (option StorageConfig * error) :=
  match cfgDone g with
  | Some r => (g, r)
  | None =>
      let r := of_result fetched in
      (mkGlobals (Some r) (backendDone g) (globalBackend g) (globalBackendErr g) (backendInvalidated g), r)
  end.

Definition set_backend (b : option B) (e : error) (inv : bool) (g : globals) : globals :=
  mkGlobals (cfgDone g) (backendDone g) b e inv.

(** The first call constructs the backend. *)
Definition backend_once (fetched : result StorageConfig) (g : globals) : globals :=
  if backendDone g then g
  else
    let '(g, (cfg, e)) := GetConfig fetched g in
    let g := mkGlobals (cfgDone g) true (globalBackend g) (globalBackendErr g) (backendInvalidated g) in
    match e with
    | Some x => set_backend (globalBackend g) (Some x) (backendInvalidated g) g
    | None =>
        let '(b, e) := of_result (construct cfg) in set_backend b e (backendInvalidated g) g
    end.

Definition GetBackend (fetched : result StorageConfig) (g : globals) : globals * (option B * error) :=
  match globalBackend g, backendInvalidated g with
  | Some b, false => (g, (Some b, globalBackendErr g))
  | _, _ =>
      let g := backend_once fetched g in
      match backendInvalidated g, globalBackendErr g with
      | true, None =>
          let '(g, (cfg, e)) := GetConfig fetched g in
          match e with
          | Some x => (set_backend (globalBackend g) (Some x) true g, (None, Some x))
          | None =>
              match construct cfg with
              | Err x => (set_backend (globalBackend g) (Some x) true g, (None, Some x))
              | Ok b => (set_backend (Some b) None false g, (Some b, None))
              end
          end
      | _, _ => (g, (globalBackend g, globalBackendErr g))
      end
  end.

Definition InvalidateBackend (g : globals) : globals :=
  mkGlobals (cfgDone g) (backendDone g) None None true.
End globals.

Record api_globals := mkApi { globalOrgID : string; globalBaseURL : string }.

(** [GetConfigByID]; [envOrg] and [envURL] are the variables, [byID] the fetch
    with an organization. *)
Definition GetConfigByID (getConfig : result StorageConfig) (byID : string -> result StorageConfig)
    (api : api_globals) (envOrg envURL : string) (storageConfigID : string) : result StorageConfig :=
  if storageConfigID =?s "" then getConfig
  else
    let '(orgID, baseURL) :=
      if (globalBaseURL api =?s "") || (globalOrgID api =?s "") then (envOrg, envURL)
      else (globalOrgID api, globalBaseURL api) in
    if (baseURL =?s "") || (orgID =?s "") then Err "SUPABASE_URL or ORG_ID not configured"
    else byID orgID.

(** *** The paths a client answers, from the configuration that was cached *)

Definition client_path (cfg : option StorageConfig) (tail : string) : string :=
  match cfg with
  | Some c => if (StorageMode c =?s "shared_mount") && negb (MountBasePath c =?s "")
              then MountBasePath c +:+ "/datasets/" +:+ tail else ""
  | None => ""
  end.

Definition client_GetDatasetPath cfg (id : string) : string := client_path cfg id.
Definition client_GetChunkPath cfg (id : string) (i : Z) : string :=
  client_path cfg (id +:+ "/chunks/chunk_" +:+ itoa i +:+ ".bin").
Definition client_GetResultPath cfg (id : string) (i : Z) : string :=
  client_path cfg (id +:+ "/chunks/chunk_" +:+ itoa i +:+ ".out").
Definition client_GetMergedPath cfg (id : string) : string := client_path cfg (id +:+ "/" +:+ id +:+ ".csv").
Definition client_GetSourcePath cfg (id : string) : string := client_path cfg (id +:+ "/source").
Definition client_GetStorageMode (cfg : option StorageConfig) : string :=
  match cfg with Some c => StorageMode c | None => "shared_mount" end.

(** ** Lemmas on texts *)

(** An entry of a directory is below it. *)
Lemma below_abs l f : l <> [] -> below (abs_path l) (abs_path (l ++ [f])) = true.
Proof.
  intros Hne. unfold below, abs_path. rewrite (join_with_app "/" l) by done. cbn [join_with].
  rewrite <- !append_assoc, HasPrefix_app. apply orb_true_r.
Qed.

(** A byte that a text does not have. *)
Fixpoint lacks (c : ascii) (s : string) : Prop :=
  match s with EmptyString => True | String c' s => c' <> c /\ lacks c s end.

Lemma lacks_app c s t : lacks c (s +:+ t) <-> lacks c s /\ lacks c t.
Proof.
  induction s as [|c' s IH]; [by split; [intros H|intros [_ H]]|]. rewrite append_cons. simpl.
  rewrite IH. tauto.
Qed.

Lemma Index_lacks c s t u :
  lacks c s -> strings_Index (s +:+ t) (String c u) = (fun n => String.length s + n)%nat <$> strings_Index t (String c u).
Proof.
  induction s as [|c' s IH]; intros Hl.
  - change ("" +:+ t) with t. by destruct (strings_Index t (String c u)).
  - destruct Hl as [Hne Hl]. rewrite append_cons. cbn [strings_Index String.prefix String.length].
    destruct (ascii_dec c c') as [->|_]; [done|]. rewrite IH by done.
    by destruct (strings_Index t (String c u)).
Qed.

(** A tag that is not the one looked for. *)
Lemma Index_text c s t u :
  lacks c s -> String.prefix (String c u) (String c (s +:+ t)) = false ->
  strings_Index (String c (s +:+ t)) (String c u) =
  (fun n => S (String.length s) + n)%nat <$> strings_Index t (String c u).
Proof.
  intros Hl Hp. cbn [strings_Index]. rewrite Hp, Index_lacks by done.
  by destruct (strings_Index t (String c u)).
Qed.

Lemma Index_here s t : strings_Index (s +:+ t) s = Some 0%nat.
Proof.
  assert (H : String.prefix s (s +:+ t) = true).
  { induction s as [|c s IH]; [by destruct t|]. rewrite append_cons. simpl. by destruct (ascii_dec c c). }
  destruct s as [|c s]; [by destruct t|]. rewrite append_cons in *. cbn [strings_Index]. by rewrite H.
Qed.

Lemma str_drop_app s t n : str_drop (String.length s + n) (s +:+ t) = str_drop n t.
Proof. induction s as [|c s IH]; [done|]. rewrite append_cons. simpl. apply IH. Qed.

Lemma str_take_app s t : str_take (String.length s) (s +:+ t) = s.
Proof. induction s as [|c s IH]; [by destruct t|]. rewrite append_cons. simpl. by rewrite IH. Qed.

(** Digits are read back. *)
Lemma read_digits_pretty (x : N) :
  (0 < x)%N -> exists k, forall s acc, read_digits (pretty.pretty_N_go x s) acc = read_digits s (acc * k + Z.of_N x).
Proof.
  induction (N.lt_wf_0 x) as [x _ IH]. intros Hx.
  assert (Hd : forall s acc, read_digits (String (pretty.pretty_N_char (x mod 10)) s) acc =
    read_digits s (10 * acc + Z.of_N (x mod 10))).
  { intros s acc. pose proof (N.mod_lt x 10 ltac:(lia)) as Hm. revert Hm.
    generalize (x mod 10)%N. intros d Hm. cbn [read_digits].
    assert (Hc : digit_of (pretty.pretty_N_char d) = Some (Z.of_N d)).
    { destruct d as [|p]; [done|]. do 4 (destruct p as [p|p|]; try done; try lia). }
    by rewrite Hc. }
  destruct (N.eq_dec (x / 10) 0) as [Hz|Hz].
  - exists 10. intros s acc. rewrite pretty.pretty_N_go_step by lia. rewrite Hz, pretty.pretty_N_go_0, Hd.
    f_equal. pose proof (N.div_mod x 10 ltac:(lia)) as E. rewrite Hz in E. lia.
  - destruct (IH (x / 10)%N) as [k Hk]; [apply N.div_lt; [exact Hx|reflexivity]|by apply N.neq_0_lt_0|]. exists (10 * k).
    intros s acc. rewrite pretty.pretty_N_go_step by lia. rewrite Hk, Hd. f_equal.
    pose proof (N.div_mod x 10 ltac:(lia)) as E. lia.
Qed.

Lemma pretty_go_nonempty (x : N) s : (0 < x)%N -> exists c t, pretty.pretty_N_go x s = String c t /\ digit_of c <> None.
Proof.
  revert s. induction (N.lt_wf_0 x) as [x _ IH]. intros s Hx. rewrite pretty.pretty_N_go_step by lia.
  destruct (N.eq_dec (x / 10) 0) as [Hz|Hz].
  - rewrite Hz, pretty.pretty_N_go_0. eexists _, _. split; [reflexivity|].
    pose proof (N.mod_lt x 10 ltac:(lia)) as Hm. revert Hm. generalize (x mod 10)%N. intros d Hm.
    destruct d as [|p]; [done|]. do 4 (destruct p as [p|p|]; try done; try lia).
  - apply IH; [apply N.div_lt; [exact Hx|reflexivity]|by apply N.neq_0_lt_0].
Qed.

Lemma Sscanf_itoa n : 0 <= n < 2 ^ 63 -> Sscanf_d (itoa n) = Some n.
Proof.
  intros Hn. destruct n as [|p|p]; [done| |lia].
  assert (E : itoa (Z.pos p) = pretty.pretty_N_go (N.pos p) "").
  { reflexivity. }
  rewrite E. destruct (read_digits_pretty (N.pos p) eq_refl) as [k Hk].
  destruct (pretty_go_nonempty (N.pos p) "" eq_refl) as (c & t & Ec & Hc). specialize (Hk "" 0).
  rewrite Ec in *. unfold Sscanf_d. destruct (digit_of c) as [d|] eqn:Ed; [|done].
  assert (Hb : is_blank c = false /\ c <> "-"%char /\ c <> "+"%char).
  { unfold digit_of in Ed. destruct (_ && _) eqn:Er in Ed; [|done]. apply andb_prop in Er as [H1 H2].
    apply Nat.leb_le in H1, H2. split; [|split; intros ->; vm_compute in H1, H2; lia].
    unfold is_blank. repeat (rewrite (proj2 (Nat.eqb_neq _ _)) by lia). done. }
  destruct Hb as (Hb & Hm & Hp). cbn [skip_blanks]. rewrite Hb. cbn [read_digits] in Hk. rewrite Ed in Hk.
  assert (Er : read_nat (String c t) = Some (Z.pos p)).
  { cbn [read_nat]. rewrite Ed. f_equal. rewrite Z.mul_0_r, Z.add_0_l in Hk. rewrite Hk. simpl. lia. }
  assert (Hcase : (match String c t with
    | String "-"%char s' => option_map Z.opp (read_nat s')
    | String "+"%char s' => read_nat s'
    | _ => read_nat (String c t) end) = Some (Z.pos p)).
  { rewrite <- Er. destruct c as [[] [] [] [] [] [] [] []]; try reflexivity; by destruct Hm || by destruct Hp. }
  cbv zeta. rewrite Hcase.
  destruct (Z.leb_spec (- 2 ^ 63) (Z.pos p)); [|lia]. destruct (Z.ltb_spec (Z.pos p) (2 ^ 63)); [done|lia].
Qed.

Lemma itoa_lacks c n : digit_of c = None -> c <> "-"%char -> lacks c (itoa n).
Proof.
  intros Hc Hm.
  assert (Hd : forall k, pretty.pretty_N_char k <> c).
  { intros k <-. apply eq_None_not_Some in Hc. apply Hc. unfold pretty.pretty_N_char.
    repeat case_match; by eexists. }
  assert (Hgo : forall k s, lacks c s -> lacks c (pretty.pretty_N_go k s)).
  { intros k. induction (N.lt_wf_0 k) as [k _ IH]. intros s Hs.
    destruct (decide (k = 0)%N) as [->|Hk]; [by rewrite pretty.pretty_N_go_0|].
    rewrite pretty.pretty_N_go_step by lia. apply IH; [apply N.div_lt; lia|]. by split. }
  assert (HN : forall k : N, lacks c (pretty.pretty k)).
  { intros k. unfold pretty.pretty, pretty.pretty_N. case_decide; [|by apply Hgo].
    split; [|done]. intros <-. done. }
  unfold itoa. destruct n as [|p|p]; [|exact (HN (Npos p))|].
  - split; [|done]. intros <-. done.
  - apply (lacks_app c "-"). split; [split; [by apply not_eq_sym|done]|exact (HN (Npos p))].
Qed.

(** ** Listings *)

(** The fuel of [parseListObjectsV2] is enough. *)
Lemma str_drop_length n s : (String.length (str_drop n s) <= String.length s - n)%nat.
Proof.
  revert s. induction n as [|n IH]; intros [|c s]; simpl; [lia..|]. specialize (IH s). lia.
Qed.

Lemma parse_listing_total fuel xml found :
  (String.length xml < fuel)%nat -> exists r, parse_listing fuel xml found = Some r.
Proof.
  revert xml found. induction fuel as [|fuel IH]; intros xml found Hf; [lia|]. cbn [parse_listing].
  destruct (strings_Index xml "<Key>") as [start|] eqn:E; [|by eexists].
  destruct (strings_Index (str_drop start xml) "</Key>") as [end_|]; [|by eexists].
  destruct (strings_Index (str_drop (end_ + 6) _) "<Size>"); [|by eexists].
  apply IH. pose proof (str_drop_length (end_ + 6) (str_drop start xml)).
  pose proof (str_drop_length start xml). assert (xml <> "") by (intros ->; discriminate E).
  destruct xml; simpl in *; [done|lia].
Qed.

Lemma parseListObjectsV2_total xml : exists r, parseListObjectsV2 xml = Some r.
Proof. apply parse_listing_total. lia. Qed.

(** Text without the next key is skipped. *)
Lemma parse_skip fuel s xml found :
  strings_Index (s +:+ xml) "<Key>" = (fun n => String.length s + n)%nat <$> strings_Index xml "<Key>" ->
  parse_listing (S fuel) (s +:+ xml) found = parse_listing (S fuel) xml found.
Proof.
  intros H. cbn [parse_listing]. rewrite H. destruct (strings_Index xml "<Key>") as [n|]; [|done].
  cbn [fmap option_fmap option_map]. by rewrite str_drop_app.
Qed.

(** One object of a listing, and a listing, as a server writes them. *)
Definition entry_tail (o : ObjectInfo) : string := "<Size>" +:+ itoa (Size o) +:+ "</Size></Contents>".
Definition listing_entry (o : ObjectInfo) : string :=
  "<Contents><Key>" +:+ Key o +:+ "</Key>" +:+ entry_tail o.
Definition listing_xml (objects : list ObjectInfo) : string :=
  "<ListBucketResult>" +:+ concat_str (map listing_entry objects).

Definition plain_object (o : ObjectInfo) : Prop :=
  Key o <> "" /\ lacks "<" (Key o) /\ 0 <= Size o < 2 ^ 63.

Lemma entry_tail_skip o xml :
  0 <= Size o < 2 ^ 63 ->
  strings_Index (entry_tail o +:+ xml) "<Key>" =
  (fun n => String.length (entry_tail o) + n)%nat <$> strings_Index xml "<Key>".
Proof.
  intros _. unfold entry_tail. rewrite !append_assoc.
  assert (H1 : forall t, strings_Index ("<Size>" +:+ t) "<Key>" = (fun n => 6 + n)%nat <$> strings_Index t "<Key>").
  { intros t. by apply (Index_text "<" "Size>"). }
  assert (H2 : forall t, strings_Index ("</Size></Contents>" +:+ t) "<Key>" = (fun n => 18 + n)%nat <$> strings_Index t "<Key>").
  { intros t. transitivity ((fun n => 7 + n)%nat <$> strings_Index (String "<" ("/Contents>" +:+ t)) "<Key>").
    - by apply (Index_text "<" "/Size>").
    - rewrite (Index_text "<" "/Contents>") by done. by destruct (strings_Index t "<Key>"). }
  rewrite H1, Index_lacks, H2 by (by apply itoa_lacks).
  rewrite !length_append. change (String.length "<Size>") with 6%nat.
  change (String.length "</Size></Contents>") with 18%nat.
  destruct (strings_Index xml "<Key>"); [|done]. cbn [fmap option_fmap option_map]. f_equal. lia.
Qed.

Lemma parse_entry fuel o xml found :
  plain_object o ->
  parse_listing (S fuel) (listing_entry o +:+ xml) found =
  parse_listing fuel (entry_tail o +:+ xml) (found ++ [o]).
Proof.
  intros (Hk & Hl & Hs). unfold listing_entry. rewrite !append_assoc.
  set (rest := entry_tail o +:+ xml).
  assert (H1 : strings_Index ("<Contents><Key>" +:+ Key o +:+ "</Key>" +:+ rest) "<Key>" = Some 10%nat).
  { transitivity ((fun n => 10 + n)%nat <$> strings_Index ("<Key>" +:+ Key o +:+ "</Key>" +:+ rest) "<Key>").
    - by apply (Index_text "<" "Contents>").
    - by rewrite Index_here. }
  cbn [parse_listing]. rewrite H1.
  change (str_drop 10 ("<Contents><Key>" +:+ Key o +:+ "</Key>" +:+ rest)) with ("<Key>" +:+ Key o +:+ "</Key>" +:+ rest).
  assert (H2 : strings_Index ("<Key>" +:+ Key o +:+ "</Key>" +:+ rest) "</Key>" = Some (5 + String.length (Key o))%nat).
  { transitivity ((fun n => 5 + n)%nat <$> strings_Index (Key o +:+ "</Key>" +:+ rest) "</Key>").
    - by apply (Index_text "<" "Key>").
    - rewrite Index_lacks by done. cbn [fmap option_fmap option_map].
      assert (E : strings_Index ("</Key>" +:+ rest) "</Key>" = Some 0%nat) by apply Index_here.
      rewrite E. cbn [fmap option_fmap option_map]. f_equal. lia. }
  rewrite H2. replace (5 + String.length (Key o) - 5)%nat with (String.length (Key o)) by lia.
  change (str_drop 5 ("<Key>" +:+ Key o +:+ "</Key>" +:+ rest)) with (Key o +:+ "</Key>" +:+ rest).
  rewrite str_take_app.
  assert (H3 : str_drop (5 + String.length (Key o) + 6) ("<Key>" +:+ Key o +:+ "</Key>" +:+ rest) = rest).
  { change ("<Key>" +:+ Key o +:+ "</Key>" +:+ rest) with (("<Key>" +:+ Key o) +:+ "</Key>" +:+ rest).
    replace (5 + String.length (Key o))%nat with (String.length ("<Key>" +:+ Key o)) by (by rewrite length_append).
    by rewrite str_drop_app. }
  rewrite H3.
  assert (Erest : rest = "<Size>" +:+ itoa (Size o) +:+ "</Size></Contents>" +:+ xml)
    by (subst rest; unfold entry_tail; by rewrite !append_assoc).
  clear H1 H2 H3. fold rest. clearbody rest.
  assert (H4 : strings_Index rest "<Size>" = Some 0%nat) by (rewrite Erest; apply Index_here).
  assert (H5 : strings_Index rest "</Size>" = Some (S (5 + String.length (itoa (Size o))))).
  { rewrite Erest.
    transitivity ((fun n => 6 + n)%nat <$> strings_Index (itoa (Size o) +:+ "</Size></Contents>" +:+ xml) "</Size>").
    - by apply (Index_text "<" "Size>").
    - rewrite Index_lacks by (by apply itoa_lacks).
      assert (E : strings_Index ("</Size></Contents>" +:+ xml) "</Size>" = Some 0%nat)
        by exact (Index_here "</Size>" ("</Contents>" +:+ xml)).
      rewrite E. cbn [fmap option_fmap option_map]. f_equal. lia. }
  assert (E6 : str_drop 6 rest = itoa (Size o) +:+ "</Size></Contents>" +:+ xml) by (by rewrite Erest).
  rewrite H4. cbv beta iota zeta. change (str_drop 0 rest) with rest. rewrite H5. cbv beta iota zeta. rewrite E6.
  replace (S (5 + String.length (itoa (Size o))) - 6)%nat with (String.length (itoa (Size o))) by lia.
  rewrite str_take_app, Sscanf_itoa, (eqb_neq_s _ _ Hk) by done. by destruct o.
Qed.

Lemma parse_entries objects n tail found :
  Forall plain_object objects ->
  parse_listing (length objects + S n) (concat_str (map listing_entry objects) +:+ tail) found =
  parse_listing (S n) tail (found ++ objects).
Proof.
  intros Hall. revert found. induction Hall as [|o objects Ho _ IH]; intros found; [by rewrite app_nil_r|].
  change (concat_str (map listing_entry (o :: objects)))
    with (listing_entry o +:+ concat_str (map listing_entry objects)).
  rewrite append_assoc. change (length (o :: objects) + S n)%nat with (S (length objects + S n)).
  rewrite parse_entry by done. replace (length objects + S n)%nat with (S (length objects + n)) by lia.
  rewrite parse_skip by (apply entry_tail_skip, Ho).
  replace (S (length objects + n)) with (length objects + S n)%nat by lia.
  by rewrite IH, <- app_assoc.
Qed.

Lemma listing_length objects : (length objects <= String.length (concat_str (map listing_entry objects)))%nat.
Proof.
  induction objects as [|o l IH]; [done|].
  change (concat_str (map listing_entry (o :: l))) with (listing_entry o +:+ concat_str (map listing_entry l)).
  rewrite length_append. unfold listing_entry at 1. rewrite length_append.
  change (String.length "<Contents><Key>") with 15%nat. cbn [length]. lia.
Qed.

Lemma parse_listing_xml objects tail :
  Forall plain_object objects ->
  exists n, parseListObjectsV2 (listing_xml objects +:+ tail) = parse_listing (S n) tail objects /\
    (String.length tail <= n)%nat.
Proof.
  intros Hall. unfold parseListObjectsV2, listing_xml. rewrite append_assoc.
  rewrite parse_skip by (by apply (Index_text "<" "ListBucketResult>")).
  rewrite !length_append. pose proof (listing_length objects) as Hlen.
  set (m := String.length (concat_str (map listing_entry objects))) in *.
  exists (18 + m + String.length tail - length objects)%nat.
  change (String.length "<ListBucketResult>") with 18%nat. split; [|lia].
  replace (S (18 + (m + String.length tail)))%nat
    with (length objects + S (18 + m + String.length tail - length objects))%nat by lia.
  by rewrite parse_entries.
Qed.

(** ** Properties *)

(** Reading the listing that a server writes for a list of objects gives
    this list back; and a listing whose last key has no size crashes the agent,
    because the failed search for the size is used as a slice bound. *)
Theorem parseListObjectsV2_correct (objects : list ObjectInfo) (key : string) :
  Forall plain_object objects -> lacks "<" key ->
  parseListObjectsV2 (listing_xml objects +:+ "</ListBucketResult>") = Some (Listed objects) /\
  parseListObjectsV2 (listing_xml objects +:+ "<Contents><Key>" +:+ key +:+ "</Key></Contents>") =
    Some ListPanics.
Proof.
  intros Hall Hkey. split.
  - destruct (parse_listing_xml objects "</ListBucketResult>" Hall) as (n & -> & _). reflexivity.
  - destruct (parse_listing_xml objects ("<Contents><Key>" +:+ key +:+ "</Key></Contents>") Hall) as (n & -> & _).
    cbn [parse_listing].
    assert (H1 : strings_Index ("<Contents><Key>" +:+ key +:+ "</Key></Contents>") "<Key>" = Some 10%nat).
    { transitivity ((fun n => 10 + n)%nat <$> strings_Index ("<Key>" +:+ key +:+ "</Key></Contents>") "<Key>").
      - by apply (Index_text "<" "Contents>").
      - by rewrite Index_here. }
    rewrite H1. set (tl := "<Key>" +:+ key +:+ "</Key></Contents>").
    change (str_drop 10 ("<Contents><Key>" +:+ key +:+ "</Key></Contents>")) with tl.
    assert (H2 : strings_Index tl "</Key>" = Some (5 + String.length key)%nat).
    { transitivity ((fun n => 5 + n)%nat <$> strings_Index (key +:+ "</Key></Contents>") "</Key>").
      - by apply (Index_text "<" "Key>").
      - rewrite Index_lacks by done. cbn. f_equal. lia. }
    assert (H3 : str_drop (5 + String.length key + 6) tl = "</Contents>").
    { change tl with (("<Key>" +:+ key) +:+ "</Key></Contents>").
      replace (5 + String.length key)%nat with (String.length ("<Key>" +:+ key)) by (by rewrite length_append).
      by rewrite str_drop_app. }
    rewrite H2, H3. reflexivity.
Qed.

Lemma parseListObjectsV2_correct_witness :
  parseListObjectsV2 (listing_xml [mkObject "a/x.csv" 12; mkObject "b" 0] +:+ "</ListBucketResult>") =
    Some (Listed [mkObject "a/x.csv" 12; mkObject "b" 0]) /\
  parseListObjectsV2 (listing_xml [] +:+ "<Contents><Key>" +:+ "k" +:+ "</Key></Contents>") = Some ListPanics.
Proof.
  assert (H : Forall plain_object [mkObject "a/x.csv" 12; mkObject "b" 0]).
  { repeat constructor; try discriminate; simpl; lia. }
  split; [exact (proj1 (parseListObjectsV2_correct [mkObject "a/x.csv" 12; mkObject "b" 0] "k" H
                   ltac:(repeat constructor; discriminate)))|].
  exact (proj2 (parseListObjectsV2_correct [] "k" ltac:(constructor) ltac:(repeat constructor; discriminate))).
Defined.
