(* ===== verification/ObjectStore.v ===== *)
(** * ObjectStore: what the handlers rely on from a storage backend

    The contract of [StorageBackend] in [internal/storage/config.go] for the
    objects of a data set, as a class; the backend on a shared mount and the
    client of an S3 server implement it. *)
From S2P Require Import Prelude Json Path HttpClient Merge MergeTree Storage.
From Stdlib Require Import Ascii.

(** What a read of an object gives, when it succeeds to the end. *)
Definition contents (b : StorageBackend) (k : string) (h : host) : option string :=
  match ReadObject b k h with
  | Ok r => match r_err r with None => Some (r_data r) | Some _ => None end
  | Err _ => None
  end.

(** A reader that gives all of [data]. *)
Definition whole (data : string) : reader := mkReader data None.

Lemma contents_read b k h data : contents b k h = Some data <-> ReadObject b k h = Ok (whole data).
Proof.
  unfold contents, whole. destruct (ReadObject b k h) as [[d [e|]]|]; simpl; split; by intros [= <-].
Qed.

(** On the keys [valid], in the states [good]: what is written is read back, what
    is deleted is gone, and other objects stay. *)
Class ObjectStore (b : StorageBackend) (valid : string -> Prop) (good : host -> Prop) := {
  store_write k r h : valid k -> good h -> r_err r = None ->
    exists h', WriteObject b k r h = (h', None) /\ good h' /\ contents b k h' = Some (r_data r) /\
      (forall k', valid k' -> k' <> k -> contents b k' h' = contents b k' h);
  store_delete k h : valid k -> good h ->
    exists h' e, DeleteObject b k h = (h', e) /\ good h' /\ contents b k h' = None /\
      (forall k', valid k' -> k' <> k -> contents b k' h' = contents b k' h);
}.

(** ** The shared mount *)

Section shared.
Context (mount : list string) (valid : string -> Prop).
Context (Hmount : Forall plain_name mount).

Definition no_fault (_ : string) : error := None.

Definition calm_mount : StorageBackend :=
  SharedMountBackend no_fault no_fault no_fault no_fault no_fault no_fault no_fault no_fault (abs_path mount).

Definition object_path (k : string) : string := Join [abs_path mount; k].

(** A key is a relative path of plain components. *)
Definition plain_key (k : string) : Prop :=
  exists fs, fs <> [] /\ Forall plain_name fs /\ k = join_with "/" fs.

Context (Hplain : forall k, valid k -> plain_key k).
(** No object is stored where another one's directory is. *)
Context (Hdirs : forall k k', valid k -> valid k' -> Dir (object_path k) <> object_path k').

Definition mount_good (h : host) : Prop := forall k, valid k -> object_path k ∉ dirs (disk h).

Lemma object_path_inj k k' : valid k -> valid k' -> object_path k = object_path k' -> k = k'.
Proof.
  intros Hk Hk' E. destruct (Hplain k Hk) as (fs & Hn & Hf & ->), (Hplain k' Hk') as (fs' & Hn' & Hf' & ->).
  unfold object_path in E. rewrite !Join_joined in E by done.
  apply abs_path_inj in E; [|by apply Forall_app..]. by apply app_inv_head in E as ->.
Qed.

Lemma mount_contents k h : contents calm_mount k h = files (disk h) !! object_path k.
Proof.
  unfold contents. cbn [ReadObject calm_mount SharedMountBackend].
  unfold SharedMount_ReadObject, os_Open, no_fault. fold (object_path k).
  destruct (files (disk h) !! object_path k); [done|]. by case_decide.
Qed.

#[export] Instance mount_store : ObjectStore calm_mount valid mount_good.
Proof.
  split.
  - intros k r h Hk Hg Hr. cbn [WriteObject calm_mount SharedMountBackend].
    unfold SharedMount_WriteObject, os_MkdirAll, os_Create, io_Copy, no_fault. cbv zeta. fold (object_path k).
    cbn [dirs with_dirs]. assert (Hd : object_path k ∉ {[Dir (object_path k)]} ∪ dirs (disk h)).
    { apply not_elem_of_union. split; [|by apply Hg]. apply not_elem_of_singleton. apply not_eq_sym. by apply Hdirs. }
    rewrite decide_False by done. rewrite Hr. eexists. split; [reflexivity|].
    assert (Hgood : mount_good (mkHost (append_file (object_path k) (r_data r)
        (with_files (<[object_path k := ""]> (files (disk h))) (with_dirs ({[Dir (object_path k)]} ∪ dirs (disk h)) (disk h))))
        (objects h))).
    { intros k' Hk'. simpl. apply not_elem_of_union. split; [|by apply Hg].
      apply not_elem_of_singleton. apply not_eq_sym. by apply Hdirs. }
    split; [exact Hgood|]. split.
    + rewrite mount_contents. simpl. by rewrite !lookup_insert_eq.
    + intros k' Hk' Hne. rewrite !mount_contents. simpl.
      assert (Hp : object_path k <> object_path k') by (intros E; apply Hne; symmetry; by apply object_path_inj).
      by rewrite !lookup_insert_ne.
  - intros k h Hk Hg. cbn [DeleteObject calm_mount SharedMountBackend].
    unfold SharedMount_DeleteObject, no_fault. cbv zeta. fold (object_path k). unfold os_Remove.
    destruct (files (disk h) !! object_path k) eqn:E.
    + eexists _, _. split; [reflexivity|]. split; [exact Hg|]. split.
      * rewrite mount_contents. simpl. apply lookup_delete_eq.
      * intros k' Hk' Hne. rewrite !mount_contents. simpl.
        assert (Hp : object_path k <> object_path k') by (intros E'; apply Hne; symmetry; by apply object_path_inj).
        by rewrite lookup_delete_ne.
    + assert (He : empty_dir (object_path k) (disk h) = false).
      { destruct (empty_dir _ _) eqn:Ee; [|done]. apply empty_dir_dirs in Ee. by apply Hg in Ee. }
      rewrite He. eexists _, _. split; [reflexivity|]. split; [exact Hg|]. split; [|done].
      by rewrite mount_contents, E.
Qed.
End shared.

(** ** The objects of a data set *)

Definition dataset_base (datasetID datasetSlug : string) : string :=
  if negb (datasetSlug =?s "") then datasetSlug else datasetID.

Inductive dataset_key (id slug : string) : string -> Prop :=
  | key_chunk i : dataset_key id slug (GetRemotePathWithSlug id slug i "chunk")
  | key_result i : dataset_key id slug (GetRemotePathWithSlug id slug i "result")
  | key_merged : dataset_key id slug (GetRemotePathWithSlug id slug 0 "merged").

Lemma chunk_name_plain i s : no_slash s -> plain_name ("chunk_" +:+ itoa i +:+ s).
Proof.
  intros Hs. split; [done|]. split; [done|]. split; [done|].
  apply no_slash_app; [done|]. apply no_slash_app; [apply itoa_no_slash|done].
Qed.

Lemma merged_name_plain base : no_slash base -> plain_name (base +:+ "_merged.csv").
Proof.
  intros Hb. assert (Hlen : (11 <= String.length (base +:+ "_merged.csv"))%nat).
  { rewrite length_append. change (String.length "_merged.csv") with 11%nat. lia. }
  split; [by destruct base|]. split; [intros E; rewrite E in Hlen; simpl in Hlen; lia|].
  split; [intros E; rewrite E in Hlen; simpl in Hlen; lia|]. by apply no_slash_app.
Qed.

Lemma chunk_parts_plain base f : plain_name base -> plain_name f -> Forall plain_name [base; "chunks"; f].
Proof. intros Hb Hf. rewrite !Forall_cons. by split; [|split; [|split; [|constructor]]]. Qed.

(** The components of a key. *)
Lemma dataset_key_parts id slug k :
  plain_name (dataset_base id slug) -> dataset_key id slug k ->
  exists fs, k = join_with "/" fs /\ Forall plain_name fs /\
    ((exists f, plain_name f /\ fs = [dataset_base id slug; "chunks"; f]) \/
     fs = [dataset_base id slug +:+ "_merged.csv"]).
Proof.
  intros Hb Hk. assert (Hc : plain_name "chunks") by done.
  destruct Hk as [i|i|].
  - exists [dataset_base id slug; "chunks"; "chunk_" +:+ itoa i +:+ ".bin"].
    assert (Hp : plain_name ("chunk_" +:+ itoa i +:+ ".bin")) by (by apply chunk_name_plain).
    split; [done|]. split; [by apply chunk_parts_plain|left; by eexists].
  - exists [dataset_base id slug; "chunks"; "chunk_" +:+ itoa i +:+ ".out"].
    assert (Hp : plain_name ("chunk_" +:+ itoa i +:+ ".out")) by (by apply chunk_name_plain).
    split; [done|]. split; [by apply chunk_parts_plain|left; by eexists].
  - exists [dataset_base id slug +:+ "_merged.csv"]. split; [done|].
    split; [|by right]. apply Forall_singleton, merged_name_plain. apply Hb.
Qed.

(** The objects of a data set on a shared mount. *)
Lemma dataset_mount_store mount id slug :
  Forall plain_name mount -> plain_name (dataset_base id slug) ->
  ObjectStore (calm_mount mount) (dataset_key id slug) (mount_good mount (dataset_key id slug)).
Proof.
  intros Hm Hb. apply mount_store; [done| |].
  - intros k Hk. destruct (dataset_key_parts id slug k Hb Hk) as (fs & E & Hf & Hcase).
    exists fs. split; [|done]. destruct Hcase as [(f & _ & ->)| ->]; done.
  - intros k k' Hk Hk'. destruct (dataset_key_parts id slug k Hb Hk) as (fs & -> & Hf & Hcase),
      (dataset_key_parts id slug k' Hb Hk') as (fs' & -> & Hf' & Hcase').
    assert (Hn : fs <> [] /\ fs' <> []) by (split; [by destruct Hcase as [(? & _ & ->)| ->]|by destruct Hcase' as [(? & _ & ->)| ->]]).
    unfold object_path. rewrite !Join_joined by (done || apply Hn).
    assert (Hdir : exists d, Dir (abs_path (mount ++ fs)) = abs_path d /\ Forall plain_name d /\
      length d <> (length mount + 1)%nat /\ length d <> (length mount + 3)%nat).
    { destruct Hcase as [(f & Hpf & ->)| ->].
      - exists (mount ++ [dataset_base id slug; "chunks"]).
        change [dataset_base id slug; "chunks"; f] with ([dataset_base id slug; "chunks"] ++ [f]).
        assert (Hd : Forall plain_name (mount ++ [dataset_base id slug; "chunks"])).
        { apply Forall_app. split; [done|]. rewrite !Forall_cons. by split; [|split; [|constructor]]. }
        split; [rewrite app_assoc; by apply Dir_abs|]. split; [done|]. rewrite length_app. simpl. lia.
      - exists mount. split; [apply Dir_abs; [done|by inversion Hf]|]. split; [done|lia]. }
    destruct Hdir as (d & -> & Hd & Hl1 & Hl2). intros E. apply abs_path_inj in E; [|done|by apply Forall_app].
    subst d. rewrite length_app in *. destruct Hcase' as [(f & _ & ->)| ->]; simpl in *; lia.
Qed.

(** ** The client of an S3 server *)

(** A store that the disk of the host has nothing to do with. *)
Class RemoteStore (b : StorageBackend) (valid : string -> Prop) (good : host -> Prop) := {
  #[global] remote_store :: ObjectStore b valid good;
  remote_local : is_shared_mount b = false;
  remote_read k h h' : objects h = objects h' -> contents b k h = contents b k h';
  remote_good h h' : objects h = objects h' -> good h -> good h';
  remote_write_disk k r h : r_err r = None -> disk (WriteObject b k r h).1 = disk h;
  remote_delete_disk k h : disk (DeleteObject b k h).1 = disk h }.

(** What the documentation of S3 promises for objects: the last version that was
    put is given back, and a deleted object is not found.  Objects are named by
    their URL. *)
Record s3_server (send : s3_request -> host -> host * result http_response) : Prop := {
  server_put r h : q_Method r = "PUT" -> exists resp,
    send r h = (with_objects (<[q_URL r := q_Body r]> (objects h)) h, Ok resp) /\ StatusCode resp < 400;
  server_get r h : q_Method r = "GET" -> exists resp,
    send r h = (h, Ok resp) /\
    match objects h !! q_URL r with
    | Some data => StatusCode resp < 400 /\ exists j, Body resp = Some (mkBody data j)
    | None => 400 <= StatusCode resp
    end;
  server_delete r h : q_Method r = "DELETE" -> exists resp,
    send r h = (with_objects (delete (q_URL r) (objects h)) h, Ok resp) /\ StatusCode resp < 400 }.

Section s3.
Context (sha256Hex : string -> string) (hmacSHA256 : string -> string -> string).
Context (parseURL : string -> result (string * list (string * list string))) (amzDate dateStamp : string).
Context (send : s3_request -> host -> host * result http_response).
Context (contentLength : http_response -> Z) (c : S3HTTPBackend).
Context (Hserver : s3_server send) (Hparse : forall url, exists u, parseURL url = Ok u).

Abbreviation store := (S3_backend sha256Hex hmacSHA256 parseURL amzDate dateStamp send contentLength c).

(** Keys that are used as they are. *)
Definition object_key (k : string) : Prop :=
  k <> "" /\ HasPrefix k "?" = false /\ HasPrefix k "/" = false.

Lemma append_inj s t u : s +:+ t = s +:+ u -> t = u.
Proof. induction s as [|ch s IH]; [done|]. rewrite !append_cons. intros [= E]. by apply IH. Qed.

Lemma buildURL_key k : object_key k -> buildURL c k = endpoint c +:+ "/" +:+ bucketName c +:+ "/" +:+ k.
Proof.
  intros (Hne & Hq & Hs). unfold buildURL, TrimPrefix. rewrite Hq, Hs, (eqb_neq_s k "") by done.
  destruct (eqb_spec_s k "/") as [->|_]; [done|]. cbn [orb]. by rewrite !append_assoc.
Qed.

Lemma buildURL_inj k k' : object_key k -> object_key k' -> buildURL c k = buildURL c k' -> k = k'.
Proof.
  intros Hk Hk'. rewrite !buildURL_key by done. intros E. by do 4 apply append_inj in E.
Qed.

Lemma s3_contents k h : contents store k h = objects h !! buildURL c k.
Proof.
  unfold contents. cbn [ReadObject S3_backend]. unfold S3_ReadObject, s3_do.
  destruct (Hparse (buildURL c k)) as [[u q] ->]. set (r := signRequest _ _ _ _ _ _ _ _ _).
  destruct (server_get _ Hserver r h eq_refl) as (resp & Hs & Hg).
  change (q_URL r) with (buildURL c k) in Hg. rewrite Hs. cbn [snd]. unfold response_text.
  destruct (objects h !! buildURL c k).
  - destruct Hg as (Hst & j & ->). destruct (Z.leb_spec 400 (StatusCode resp)); [lia|done].
  - destruct (Z.leb_spec 400 (StatusCode resp)); [done|lia].
Qed.

Lemma s3_write k r h :
  r_err r = None -> WriteObject store k r h = (with_objects (<[buildURL c k := r_data r]> (objects h)) h, None).
Proof.
  intros Hr. cbn [WriteObject S3_backend]. unfold S3_WriteObject, s3_do. rewrite Hr.
  destruct (Hparse (buildURL c k)) as [[u q] ->]. set (rq := signRequest _ _ _ _ _ _ _ _ _).
  destruct (server_put _ Hserver rq h eq_refl) as (resp & Hs & Hst). rewrite Hs.
  by destruct (Z.leb_spec 400 (StatusCode resp)); [lia|].
Qed.

Lemma s3_delete k h :
  DeleteObject store k h = (with_objects (delete (buildURL c k) (objects h)) h, None).
Proof.
  cbn [DeleteObject S3_backend]. unfold S3_DeleteObject, s3_do.
  destruct (Hparse (buildURL c k)) as [[u q] ->]. set (rq := signRequest _ _ _ _ _ _ _ _ _).
  destruct (server_delete _ Hserver rq h eq_refl) as (resp & Hs & Hst). rewrite Hs.
  by destruct (Z.leb_spec 400 (StatusCode resp)); [lia|].
Qed.

#[export] Instance s3_store (valid : string -> Prop) (Hvalid : forall k, valid k -> object_key k) :
  RemoteStore store valid (fun _ => True).
Proof.
  assert (Hinj : forall k k', valid k -> valid k' -> k' <> k -> buildURL c k <> buildURL c k').
  { intros k k' Hk Hk' Hne E. apply Hne. symmetry. apply buildURL_inj; auto. }
  unshelve refine {| remote_store := _ |}.
  - split.
    + intros k r h Hk _ Hr. rewrite s3_write by done. eexists. split; [reflexivity|]. split; [done|].
      split; [rewrite s3_contents; apply lookup_insert_eq|].
      intros k' Hk' Hne. rewrite !s3_contents. apply lookup_insert_ne. by apply Hinj.
    + intros k h Hk _. rewrite s3_delete. eexists _, _. split; [reflexivity|]. split; [done|].
      split; [rewrite s3_contents; apply lookup_delete_eq|].
      intros k' Hk' Hne. rewrite !s3_contents. apply lookup_delete_ne. by apply Hinj.
  - done.
  - intros k h h' E. by rewrite !s3_contents, E.
  - done.
  - intros k r h Hr. by rewrite s3_write.
  - intros k h. by rewrite s3_delete.
Qed.
End s3.

(** ** Keys of a data set *)

Lemma dataset_object_key id slug k :
  plain_name (dataset_base id slug) -> HasPrefix (dataset_base id slug) "?" = false ->
  dataset_key id slug k -> object_key k.
Proof.
  intros (Hne & _ & _ & Hslash) Hq Hk. set (base := dataset_base id slug) in *.
  assert (Hall : exists t, k = base +:+ t).
  { destruct Hk; unfold GetRemotePathWithSlug; fold (dataset_base id slug); fold base; by eexists. }
  destruct Hall as [t ->]. destruct base as [|ch base]; [done|]. unfold object_key. rewrite append_cons.
  split; [done|]. unfold HasPrefix in *. cbn [String.prefix] in *.
  split; [destruct (ascii_dec "?" ch) as [<-|]; [by destruct base|done]|]. destruct (ascii_dec "/" ch) as [<-|]; [|done].
  exfalso. apply no_slash_cons in Hslash as [Hs _]. by destruct Hs.
Qed.

Section keys.
Context (id slug : string).
Abbreviation key := (GetRemotePathWithSlug id slug).

Lemma key_unfold i t :
  key i t = if t =?s "chunk" then dataset_base id slug +:+ "/chunks/chunk_" +:+ itoa i +:+ ".bin"
            else if t =?s "result" then dataset_base id slug +:+ "/chunks/chunk_" +:+ itoa i +:+ ".out"
            else if t =?s "merged" then dataset_base id slug +:+ "_merged.csv" else "".
Proof. done. Qed.

Lemma itoa_inj i j : itoa i = itoa j -> i = j.
Proof. apply (inj pretty.pretty). Qed.

Lemma key_inj i j t : t = "result" \/ t = "chunk" -> key i t = key j t -> i = j.
Proof.
  intros Ht E. apply itoa_inj. destruct Ht as [-> | ->]; rewrite !key_unfold in E; simpl in E;
    apply append_inj in E; apply (append_inj "/chunks/chunk_") in E; by apply append_inj_r in E.
Qed.

(** The last character tells results from chunks, the next part the merged one. *)
Lemma key_result_chunk i j : key i "result" <> key j "chunk".
Proof.
  rewrite !key_unfold. simpl. intros E. apply append_inj in E. apply (append_inj "/chunks/chunk_") in E.
  assert (H : forall s t, s +:+ ".out" <> t +:+ ".bin").
  { intros s t H. apply (f_equal (fun s => last_char s "x"%char)) in H. by rewrite !last_char_app in H. }
  by apply H in E.
Qed.

Lemma key_merged_chunk i t : t = "result" \/ t = "chunk" -> key 0 "merged" <> key i t.
Proof.
  intros Ht E. destruct Ht as [-> | ->]; rewrite !key_unfold in E; simpl in E; by apply append_inj in E.
Qed.
End keys.

(** ** A server in memory *)

Definition memory_server (r : s3_request) (h : host) : host * result http_response :=
  let ok data := Ok (mkResponse 200 (Some (mkBody data RawInvalid))) in
  if q_Method r =?s "PUT" then (with_objects (<[q_URL r := q_Body r]> (objects h)) h, ok "")
  else if q_Method r =?s "DELETE" then (with_objects (delete (q_URL r) (objects h)) h, ok "")
  else match objects h !! q_URL r with
       | Some data => (h, ok data)
       | None => (h, Ok (mkResponse 404 (Some (mkBody "" RawInvalid))))
       end.

Lemma memory_server_ok : s3_server memory_server.
Proof.
  split; intros r h Hm; unfold memory_server; rewrite Hm; simpl.
  - by eexists.
  - destruct (objects h !! q_URL r); eexists; (split; [reflexivity|]); [|done]. split; [done|by eexists].
  - by eexists.
Qed.

Definition memory_bucket : S3HTTPBackend := mkS3 "b" "https://s3" "s3" "A" "K" "r".

(** A client of it. *)
Definition memory_store : StorageBackend :=
  S3_backend (fun s => s) (fun _ _ => "") (fun url => Ok (url, [])) "20260101T000000Z" "20260101"
    memory_server (fun _ => 0) memory_bucket.

Lemma memory_remote valid : (forall k, valid k -> object_key k) -> RemoteStore memory_store valid (fun _ => True).
Proof.
  intros Hvalid. apply s3_store; [apply memory_server_ok|by eexists|done].
Qed.

Lemma memory_contents k h : contents memory_store k h = objects h !! buildURL memory_bucket k.
Proof. apply s3_contents; [apply memory_server_ok|by eexists]. Qed.
