(* ===== verification/Handler.v ===== *)
(** * Handler: what the job handlers share

    Models the helpers of [internal/dispatcher/handlers_unix.go], [job.go] and
    [plugin_lookup.go] that the handlers of process and merge jobs are made of:
    the records a payload decodes to, the paths of a data set, the files of a
    host, the choice of a storage backend, the look-up of plugins, and the
    output of a plugin.

    A handler is a computation on a [world]: the host of the storage backends,
    the plugin directory, the table of plugin names, the progress reports and the
    metadata of artifacts.
    What runs outside the handlers is a record of operations, [services]. *)
From S2P Require Import Prelude Json Path Encoding ExecutorV2 HttpClient PluginVerify PluginInstall PluginExecute.
From S2P Require Import Merge MergeTree Recovery Storage.
From Stdlib Require Import Ascii.

(** ** The world, and computations on it *)

Record StepEvent := mkStepEvent {
  ev_JobID : string; ev_ExecutionID : string; ev_ChunkID : string; ev_StepIndex : Z;
  ev_Status : string; ev_Error : string }.

Record world := mkWorld {
  w_host : host; w_plugins : plugin_state; w_names : gmap string string; w_events : list StepEvent;
  w_artifacts : gmap string artifact_file }.

Definition with_host (h : host) (w : world) : world :=
  mkWorld h (w_plugins w) (w_names w) (w_events w) (w_artifacts w).
Definition with_plugins (p : plugin_state) (w : world) : world :=
  mkWorld (w_host w) p (w_names w) (w_events w) (w_artifacts w).
Definition with_names (m : gmap string string) (w : world) : world :=
  mkWorld (w_host w) (w_plugins w) m (w_events w) (w_artifacts w).
Definition with_event (e : StepEvent) (w : world) : world :=
  mkWorld (w_host w) (w_plugins w) (w_names w) (w_events w ++ [e]) (w_artifacts w).
Definition with_artifacts (m : gmap string artifact_file) (w : world) : world :=
  mkWorld (w_host w) (w_plugins w) (w_names w) (w_events w) m.

Definition w_disk (w : world) : fs := disk (w_host w).
Definition with_disk (s : fs) (w : world) : world := with_host (mkHost s (objects (w_host w))) w.

Definition M (A : Type) : Type := world -> world * comp A.

Definition ret {A} (a : A) : M A := fun w => (w, Ret a).
Definition throw {A} (e : string) : M A := fun w => (w, Throw e).
Definition mbind {A B} (c : M A) (k : A -> M B) : M B := fun w =>
  match c w with
  | (w, Ret a) => k a w
  | (w, Throw e) => (w, Throw e)
  | (w, Panic) => (w, Panic)
  end.

(** A value or an error that is computed without a change. *)
Definition lift {A} (c : comp A) : M A := fun w => (w, c).
Definition of_Result {A} (ctx : string) (r : result A) : comp A :=
  match r with Ok a => Ret a | Err e => Throw (ctx +:+ e) end.

Definition get : M world := fun w => (w, Ret w).

(** A system call, whose error ends the computation or is ignored. *)
Definition call (ctx : string) (f : fs -> fs * error) : M unit := fun w =>
  match f (w_disk w) with
  | (s, Some e) => (with_disk s w, Throw (ctx +:+ e))
  | (s, None) => (with_disk s w, Ret tt)
  end.
Definition ignore (f : fs -> fs * error) : M unit := fun w => (with_disk (f (w_disk w)).1 w, Ret tt).

(** A call of the storage backend. *)
Definition write_call (ctx : string) (f : host -> host * error) : M unit := fun w =>
  match f (w_host w) with
  | (h, Some e) => (with_host h w, Throw (ctx +:+ e))
  | (h, None) => (with_host h w, Ret tt)
  end.

Definition wrapM {A} (ctx : string) (c : M A) : M A := fun w => let '(w, r) := c w in (w, wrap ctx r).

Declare Scope handler_scope.
Delimit Scope handler_scope with handler.
Notation "'let*' x := c 'in' k" := (mbind c (fun x => k))
  (at level 10, x pattern, c at level 100, k at level 200) : handler_scope.
Notation "c ';;' k" := (mbind c (fun _ => k)) (at level 100, k at level 200, right associativity) : handler_scope.
Local Open Scope handler_scope.

(** ** Files *)

(** The faults of the system calls, by path. *)
Record disk_faults := mkFaults {
  f_open : string -> error; f_mkdir : string -> error; f_create : string -> error;
  f_write : string -> error; f_stat : string -> error; f_remove : string -> error;
  f_rename : string -> error }.

Definition no_disk_faults : disk_faults :=
  mkFaults (fun _ => None) (fun _ => None) (fun _ => None) (fun _ => None) (fun _ => None) (fun _ => None)
    (fun _ => None).

Inductive stat_result := StatFile (size : Z) | StatDir | StatMissing | StatFault (e : string).

Section files.
Context (F : disk_faults).

Definition os_Stat (path : string) (s : fs) : stat_result :=
  match f_stat F path with
  | Some e => StatFault e
  | None =>
      match Merge.files s !! path with
      | Some content => StatFile (Z.of_nat (String.length content))
      | None => if decide (path ∈ Merge.dirs s) then StatDir else StatMissing
      end
  end.

Definition fileExists (path : string) (s : fs) : bool :=
  match os_Stat path s with StatFile _ | StatDir => true | _ => false end.

(** The files of a directory, by name. *)
Definition child_files (dir : string) (s : fs) : list string :=
  merge_sort String.le
    (map fst (List.filter (fun kv => Dir kv.1 =?s dir) (map_to_list (Merge.files s)))).

Definition hasRealOutput (outputPath : string) (s : fs) : bool :=
  match os_Stat outputPath s with
  | StatFile size => 0 <? size
  | StatDir => match f_open F outputPath with
               | Some _ => false
               | None => match child_files outputPath s with [] => false | _ => true end
               end
  | _ => false
  end.

(** [os.Create] and a copy into the new file. *)
Definition create_with (ctxCreate ctxCopy : string) (path : string) (r : reader) : M unit :=
  call ctxCreate (os_Create (f_create F) path);;
  call ctxCopy (io_Copy (f_write F) path r).

(** The same, with one error; what was created stays. *)
Definition write_reader (path : string) (r : reader) (s : fs) : fs * error :=
  match os_Create (f_create F) path s with
  | (s, Some e) => (s, Some e)
  | (s, None) => io_Copy (f_write F) path r s
  end.

Definition copyFile (src dst : string) (s : fs) : fs * error :=
  match os_Open (f_open F) src s with
  | Err e => (s, Some e)
  | Ok r => write_reader dst r s
  end.

(** [os.MkdirAll(filepath.Dir(path))], whose error is ignored, and
    [os.WriteFile]: without its directory the write fails too. *)
Definition write_below (path data : string) (s : fs) : fs * error :=
  match os_MkdirAll (f_mkdir F) (Dir path) s with
  | (s, Some e) => (s, Some e)
  | (s, None) => write_reader path (mkReader data None) s
  end.

(** [os.WriteFile], which needs the directory of the file. *)
Definition os_WriteFile (path data : string) (s : fs) : fs * error :=
  if decide (Dir path ∈ dirs s) then write_reader path (mkReader data None) s
  else (s, Some ("open " +:+ path +:+ ": no such file or directory")).

Definition os_ReadFile (path : string) (s : fs) : result string :=
  match os_Open (f_open F) path s with
  | Err e => Err e
  | Ok r => match r_err r with Some e => Err e | None => Ok (r_data r) end
  end.

Definition os_RemoveAll (path : string) (s : fs) : fs * error :=
  match f_remove F path with
  | Some e => (s, Some e)
  | None =>
      (with_files (filter (fun kv => below path kv.1 = false) (Merge.files s))
         (with_dirs (filter (fun d => below path d = false) (Merge.dirs s)) s), None)
  end.

(** [PrepareJobWorkDir] with the deferred clean-up; [tempDir] is the directory
    of the sandbox's configuration. *)
Definition with_workdir {A} (tempDir ctx id : string) (body : string -> M A) : M A := fun w =>
  let workDir := Join [tempDir; "sentra-" +:+ id] in
  match os_MkdirAll (f_mkdir F) workDir (w_disk w) with
  | (s, Some e) => (with_disk s w, Throw (ctx +:+ "failed to create work dir: " +:+ e))
  | (s, None) =>
      let '(w, r) := body workDir (with_disk s w) in
      (with_disk (os_RemoveAll workDir (w_disk w)).1 w, r)
  end.
End files.

(** ** Payloads *)

Record Job := mkJob {
  j_ID : string; j_Type : string; j_OrgID : string; j_DatasetID : string; j_ChunkIndex : Z;
  j_ChunkID : string; j_ExecutionID : string; j_ExecutionStepID : string; j_StepIndex : Z;
  j_StepConfig : RawMessage; j_StorageMode : string; j_StorageType : string; j_PluginName : string;
  j_PluginID : string; j_InputPath : string; j_Payload : RawMessage; j_SourcePath : string;
  j_StorageConfigID : string }.

Definition zeroJob : Job := mkJob "" "" "" "" 0 "" "" "" 0 RawEmpty "" "" "" "" "" RawEmpty "" "".

(** The members that no handler reads only matter when they do not decode. *)
Definition decodeJob (fs : list (string * json)) : Job * bool :=
  let str name := field dec_string name "" fs in
  let int name := field dec_int name 0 fs in
  let raw name := (field dec_raw name RawEmpty fs).1 in
  let bad := existsb (fun name => (str name).2)
      ["job_id"; "job_type"; "org_id"; "dataset_id"; "chunk_id"; "batch_id"; "execution_id";
       "execution_step_id"; "checksum"; "storage_mode"; "storage_type"; "plugin_name"; "plugin_id";
       "input_path"; "output_path"; "source_path"; "storage_config_id"]
    || existsb (fun name => (int name).2) ["chunk_index"; "step_index"; "rows"; "retry_attempt"; "total_steps"] in
  (mkJob (str "job_id").1 (str "job_type").1 (str "org_id").1 (str "dataset_id").1 (int "chunk_index").1
     (str "chunk_id").1 (str "execution_id").1 (str "execution_step_id").1 (int "step_index").1
     (raw "config") (str "storage_mode").1 (str "storage_type").1 (str "plugin_name").1 (str "plugin_id").1
     (str "input_path").1 (raw "payload") (str "source_path").1 (str "storage_config_id").1, bad).

Record CompoundStep := mkStep { cs_StepIndex : Z; cs_PluginID : string; cs_Config : RawMessage }.

Definition dec_step : decoder CompoundStep := fun cur j =>
  match j with
  | JNull => (cur, false)
  | JObj fs =>
      let '(i, e1) := field dec_int "step_index" (cs_StepIndex cur) fs in
      let '(p, e2) := field dec_string "plugin_id" (cs_PluginID cur) fs in
      let '(c, _) := field dec_raw "config" (cs_Config cur) fs in
      (mkStep i p c, e1 || e2)
  | _ => (cur, true)
  end.

Record ProcessPayload := mkProcess {
  p_ChunkID : string; p_InputPath : string; p_OutputPath : string; p_DatasetID : string;
  p_DatasetSlug : string; p_ChunkIndex : Z; p_StorageMode : string; p_PluginID : string; p_Rows : Z;
  p_Checksum : string; p_Config : RawMessage; p_MockMode : bool; p_SourcePath : string;
  p_IsCompound : bool; p_Steps : list CompoundStep; p_CurrentStepIndex : Z; p_ChunkStrategy : string;
  p_ByteRangeStart : Z; p_ByteRangeEnd : Z; p_FileList : list string; p_SourceFilePath : string }.

Definition decodeProcess (fs : list (string * json)) : ProcessPayload * bool :=
  let str name := field dec_string name "" fs in
  let int name := field dec_int name 0 fs in
  let bool_ name := field dec_bool name false fs in
  let steps := field (dec_slice (mkStep 0 "" RawEmpty) dec_step) "steps" None fs in
  let files := field (dec_slice "" dec_string) "file_list" None fs in
  let bad := existsb (fun name => (str name).2)
      ["chunk_id"; "input_path"; "output_path"; "dataset_id"; "dataset_slug"; "storage_mode"; "plugin_id";
       "checksum"; "source_path"; "chunk_strategy"; "source_file_path"]
    || existsb (fun name => (int name).2)
         ["chunk_index"; "rows"; "total_chunks"; "total_steps"; "current_step_index"; "byte_range_start";
          "byte_range_end"]
    || existsb (fun name => (bool_ name).2) ["mock_mode"; "is_compound"] || steps.2 || files.2 in
  (mkProcess (str "chunk_id").1 (str "input_path").1 (str "output_path").1 (str "dataset_id").1
     (str "dataset_slug").1 (int "chunk_index").1 (str "storage_mode").1 (str "plugin_id").1 (int "rows").1
     (str "checksum").1 (field dec_raw "config" RawEmpty fs).1 (bool_ "mock_mode").1 (str "source_path").1
     (bool_ "is_compound").1 (default [] steps.1) (int "current_step_index").1 (str "chunk_strategy").1
     (int "byte_range_start").1 (int "byte_range_end").1 (default [] files.1) (str "source_file_path").1, bad).

Definition zeroProcess : ProcessPayload :=
  mkProcess "" "" "" "" "" 0 "" "" 0 "" RawEmpty false "" false [] 0 "" 0 0 [] "".

(** Where a plugin reads and writes, as the handler sets it. *)
Definition with_paths (input output : string) (p : ProcessPayload) : ProcessPayload :=
  mkProcess (p_ChunkID p) input output (p_DatasetID p) (p_DatasetSlug p) (p_ChunkIndex p) (p_StorageMode p)
    (p_PluginID p) (p_Rows p) (p_Checksum p) (p_Config p) (p_MockMode p) (p_SourcePath p) (p_IsCompound p)
    (p_Steps p) (p_CurrentStepIndex p) (p_ChunkStrategy p) (p_ByteRangeStart p) (p_ByteRangeEnd p)
    (p_FileList p) (p_SourceFilePath p).

(** ** Paths *)

Section paths.
(** [SENTRA_MOUNT_PATH], the home directory if there is one, and the directory
    of temporary files. *)
Context (mountEnv : string) (home : option string) (osTemp : string).

Definition deriveMountBasePath (storageMode : string) : string :=
  if negb (storageMode =?s "shared_mount") then ""
  else if negb (mountEnv =?s "") then mountEnv else "/data/sentra".

Definition deriveDatasetPaths (datasetID storageMode mountBasePath : string)
    : string * string * string * string :=
  if storageMode =?s "shared_mount" then
    let basePath := if mountBasePath =?s "" then Join [default "" home; "sentra"; "data"] else mountBasePath in
    (Join [basePath; "datasets"; datasetID; "source"], Join [basePath; "datasets"; datasetID; "chunks"],
     Join [basePath; "datasets"; datasetID; "chunks"], Join [basePath; "datasets"; datasetID])
  else ("", "", "", "").

Definition chunk_file (chunkIndex : Z) (ext : string) : string := "chunk_" +:+ itoa chunkIndex +:+ ext.

Definition deriveChunkPath (datasetID : string) (chunkIndex : Z) (pathType storageMode mountBasePath : string)
    : string :=
  if storageMode =?s "shared_mount" then
    let mountBasePath := if mountBasePath =?s "" then deriveMountBasePath storageMode else mountBasePath in
    let basePath := Join [mountBasePath; "datasets"; datasetID] in
    if pathType =?s "source" then Join [basePath; "source"]
    else if pathType =?s "chunk" then Join [basePath; "chunks"; chunk_file chunkIndex ".bin"]
    else if pathType =?s "result" then Join [basePath; "chunks"; chunk_file chunkIndex ".out"]
    else if pathType =?s "merged" then Join [basePath; datasetID +:+ ".csv"]
    else ""
  else "".

(** The path the handlers build themselves. *)
Definition mount_chunk (mount datasetID : string) (chunkIndex : Z) (ext : string) : string :=
  Join [mount; "datasets"; datasetID; "chunks"; chunk_file chunkIndex ext].

Definition getCompoundCacheDir (executionID chunkID : string) : string :=
  match home with
  | None => Join [osTemp; "sentra-cache"; executionID; chunkID]
  | Some homeDir => Join [homeDir; ".sentra"; "cache"; executionID; chunkID]
  end.
End paths.

Definition normalizeStorageModeForJob (mode : string) : string :=
  if existsb (String.eqb mode) ["s3"; "aws_s3"; "s3_compatible"; "object_storage"] then "s3"
  else if existsb (String.eqb mode) ["gcs"; "google_cloud_storage"] then "gcs"
  else if mode =?s "azure_blob" then "azure_blob"
  else if existsb (String.eqb mode) ["shared_mount"; "local"] then "shared_mount"
  else mode.

(** ** The output of a plugin *)

Section output.
(** The syntax analysis of a text by [encoding/json], and numbers as
    [float64]. *)
Context (parse : string -> RawMessage) (renum : string -> string).

Definition newline_char : ascii := "010".

(** [json.Unmarshal] of a text into a map, which [null] leaves nil. *)
Definition unmarshal_map (text : string) : option (option (list (string * json))) :=
  match parse text with
  | Raw JNull => Some None
  | p => Some <$> Unmarshal_map renum p
  end.

Definition truncateForLog (s : string) (maxLen : nat) : string :=
  if (String.length s <=? maxLen)%nat then s else str_take maxLen s +:+ "...".

(** The lines from the last on. *)
Fixpoint last_object (lines : list string) : option (option (list (string * json))) :=
  match lines with
  | [] => None
  | l :: rest =>
      let line := TrimSpace l in
      if HasPrefix line "{" && HasSuffix line "}" then
        match unmarshal_map line with Some m => Some m | None => last_object rest end
      else last_object rest
  end.

Definition parsePluginOutputAsJSON (output : string) : result (option (list (string * json))) :=
  let output := TrimSpace output in
  if output =?s "" then Ok None
  else match unmarshal_map output with
       | Some m => Ok m
       | None =>
           match last_object (rev (split_on newline_char output)) with
           | Some m => Ok m
           | None => Err ("no valid JSON object found in plugin output: " +:+ truncateForLog output 200)
           end
       end.

Fixpoint last_value (lines : list string) : option string :=
  match lines with
  | [] => None
  | l :: rest =>
      let line := TrimSpace l in
      if (2 <=? String.length line)%nat
         && (HasPrefix line "{" && HasSuffix line "}" || HasPrefix line "[" && HasSuffix line "]")
         && json_Valid (parse line)
      then Some line else last_value rest
  end.

Definition extractLastJSONString (output : string) : string :=
  let trimmed := TrimSpace output in
  if trimmed =?s "" then trimmed
  else if json_Valid (parse trimmed) then trimmed
  else default trimmed (last_value (rev (split_on newline_char trimmed))).

Definition tryParseJSONString (s : string) : option json :=
  let s := TrimSpace s in
  if (String.length s <? 2)%nat then None
  else if HasPrefix s "{" && HasSuffix s "}" || HasPrefix s "[" && HasSuffix s "]" then
    match parse s with Raw j => Some (to_interface renum j) | _ => None end
  else None.

(** [result["data"].(map[string]any)["output_path"].(string)], or empty. *)
Definition member_string (key : string) (m : list (string * json)) : string :=
  match map_lookup key m with Some (JStr s) => s | _ => "" end.

Definition data_output_path (result : option (list (string * json))) : string :=
  match map_lookup "data" (default [] result) with
  | Some (JObj data) => member_string "output_path" data
  | _ => ""
  end.
End output.

(** ** Services *)

(** What the v2 executor answers, as far as the handlers read it. *)
Record v2_result := mkV2 {
  v2_Success : bool; v2_Error : string; v2_Data : option (list (string * json)); v2_DurationMs : Z }.

(** What a plugin is told. *)
Record PluginContext := mkPluginContext {
  pc_JobID : string; pc_OrgID : string; pc_DatasetID : string; pc_ExecutionID : string; pc_StepIndex : Z;
  pc_ChunkID : string; pc_ChunkIndex : Z; pc_InputPath : string; pc_OutputPath : string;
  pc_Config : RawMessage }.

Definition raw_value (p : RawMessage) : json := match p with Raw j => j | _ => JNull end.

(** [json.Marshal]; empty members are left out where their tag says so, and a
    configuration that is no JSON makes it fail, which is ignored. *)
Definition marshal_context (c : PluginContext) : RawMessage :=
  match pc_Config c with
  | RawInvalid => RawEmpty
  | _ =>
      let opt (b : bool) (m : string * json) := if b then [] else [m] in
      Raw (JObj ([("job_id", JStr (pc_JobID c)); ("org_id", JStr (pc_OrgID c)); ("dataset_id", JStr (pc_DatasetID c))]
        ++ opt (pc_ExecutionID c =?s "") ("execution_id", JStr (pc_ExecutionID c))
        ++ opt (pc_StepIndex c =? 0) ("step_index", JNum (itoa (pc_StepIndex c)))
        ++ [("chunk_id", JStr (pc_ChunkID c)); ("chunk_index", JNum (itoa (pc_ChunkIndex c)));
            ("input_path", JStr (pc_InputPath c)); ("output_path", JStr (pc_OutputPath c))]
        ++ opt (raw_is_empty (pc_Config c)) ("config", raw_value (pc_Config c))))
  end.

(** The operations the handlers call: [GetConfigByID] and [NewBackend] of
    Storage; the global backend; fetching the plugins of the server;
    [InstallPlugin] and [LoadAndUpdatePlugin] of the plugin files; a run of a
    plugin ([plugin.Execute]), which changes the host; and a run of the v2
    executor. *)
Record services := mkServices {
  s_GetConfigByID : string -> result StorageConfig;
  s_NewBackend : option StorageConfig -> result StorageBackend;
  s_global : option StorageBackend;
  s_plugins : result (list DBPlugin);
  s_EnsurePluginDir : plugin_state -> plugin_state * comp string;
  s_InstallPlugin : DBPlugin -> string -> plugin_state -> plugin_state * comp bool;
  s_LoadAndUpdatePlugin : string -> plugin_state -> plugin_state * comp (string * Manifest);
  s_ReadFile : string -> plugin_state -> comp string;
  s_Execute : string -> Manifest -> RawMessage -> host -> host * comp PluginExecute.ExecutionResult;
  s_ExecuteJob : ExecutorV2.Job -> list (string * json) -> host -> host * result v2_result }.

Section services.
Context (V : services).

(** *** Storage backends *)

Definition remote_modes : list string :=
  ["s3"; "aws_s3"; "object_storage"; "gcs"; "google_cloud_storage"; "azure_blob"].

(** A backend of its own for a job, [mode] giving the mode from the
    configuration's. *)
Definition backend_by_id (id : string) (mode : string -> string) : comp StorageBackend :=
  match s_GetConfigByID V id with
  | Err e => Throw ("failed to get storage config " +:+ id +:+ ": " +:+ e)
  | Ok cfg =>
      let c := mkStorageConfig (mode (StorageMode cfg)) (Provider cfg) (BucketName cfg) (Region cfg)
                 (Endpoint cfg) (MountBasePath cfg) (Credentials cfg) "" in
      match s_NewBackend V (Some c) with
      | Err e => Throw ("failed to initialize storage backend for " +:+ id +:+ ": " +:+ e)
      | Ok b => Ret b
      end
  end.

Definition global_backend : comp StorageBackend :=
  match s_global V with Some b => Ret b | None => Throw "storage backend not initialized" end.

(** The backend of a scan or process job. *)
Definition job_backend (storageConfigID storageMode : string) : comp StorageBackend :=
  if negb (storageConfigID =?s "") && existsb (String.eqb storageMode) remote_modes
  then backend_by_id storageConfigID (fun _ => storageMode)
  else global_backend.

(** A backend that reads and writes locally forces local paths. *)
Definition effective_mode (storageMode : string) (b : StorageBackend) : string :=
  if is_shared_mount b then "shared_mount" else storageMode.

(** *** Plugins *)

Definition PopulatePluginIDMap (plugins : list DBPlugin) (names : gmap string string) : gmap string string :=
  foldl (fun m p =>
    if negb (ID p =?s "") && negb (db_Name p =?s "") then
      let m := <[db_Name p := db_Name p]> (<[ID p := db_Name p]> m) in
      if (7 <? String.length (db_Name p))%nat && HasPrefix (db_Name p) "plugin_"
      then <[str_drop 7 (db_Name p) := db_Name p]> m else m
    else m) names plugins.

Definition find_plugin (id : string) (l : list DBPlugin) : option DBPlugin :=
  List.find (fun p => ID p =?s id) l.

Definition on_plugins {A} (ctx : string) (f : plugin_state -> plugin_state * comp A) : M A := fun w =>
  let '(s, r) := f (w_plugins w) in (with_plugins s w, wrap ctx r).

Definition FetchAndInstallPluginByID (pluginID : string) : M DBPlugin :=
  let* plugins := lift (of_Result "" (s_plugins V)) in
  match find_plugin pluginID plugins with
  | None => throw ("plugin ID " +:+ pluginID +:+ " not found on server")
  | Some p =>
      let* baseDir := on_plugins "plugin dir: " (s_EnsurePluginDir V) in
      let* _ := on_plugins ("install plugin " +:+ db_Name p +:+ ": ") (s_InstallPlugin V p baseDir) in
      ret p
  end.

(** The empty name is none; a failed fetch is only logged. *)
Definition ResolvePluginName (pluginID pluginName : string) : M string := fun w =>
  if negb (pluginName =?s "") then (w, Ret pluginName)
  else if pluginID =?s "" then (w, Ret "")
  else match w_names w !! pluginID with
       | Some name => (w, Ret name)
       | None =>
           match FetchAndInstallPluginByID pluginID w with
           | (w, Ret p) => (with_names (<[db_Name p := db_Name p]> (<[ID p := db_Name p]> (w_names w))) w,
                            Ret (db_Name p))
           | (w, Throw _) => (w, Ret "")
           | (w, Panic) => (w, Panic)
           end
       end.

Definition on_host {A} (f : host -> host * comp A) : M A := fun w =>
  let '(h, r) := f (w_host w) in (with_host h w, r).
End services.

(** ** Running a plugin *)

(** What a handler finds around it: the faults of the host, the environment, the
    reading and printing of JSON text, the agent's id and the services. *)
Record agent := mkAgent {
  a_faults : disk_faults; a_mountEnv : string; a_home : option string; a_osTemp : string;
  a_tempDir : string; a_parse : string -> RawMessage; a_print : json -> string;
  a_renum : string -> string; a_ID : string; a_services : services }.

Section running.
Context (E : agent).

Definition runtime_type (language : string) : option string :=
  if one_of language ["python"; "python3"; "python2"] then Some "python"
  else if one_of language ["node"; "nodejs"; "javascript"; "typescript"] then Some "node"
  else None.

Definition mapDepsToV2 (deps : list RuntimeDependency) : option (list ExecutorV2.Dependency) :=
  match deps with
  | [] => None
  | _ => Some (map (fun d => ExecutorV2.mkDep (PluginVerify.dep_Name d) (PluginVerify.dep_Version d)
                               (PluginVerify.dep_Source d)) deps)
  end.

(** The payload of the v2 job; the members of the configuration come last. *)
Definition v2_payload (p : ProcessPayload) : list (string * json) :=
  let m := map_of_members
    [("dataset_id", JStr (p_DatasetID p)); ("chunk_id", JStr (p_ChunkID p));
     ("chunk_index", JNum (itoa (p_ChunkIndex p))); ("input_path", JStr (p_InputPath p));
     ("output_path", JStr (p_OutputPath p)); ("mock_mode", JBool (p_MockMode p))] in
  match Unmarshal_map (a_renum E) (p_Config p) with
  | Some cfg => foldl (fun m kv => map_insert kv.1 kv.2 m) m cfg
  | None => m
  end.

Definition v2_job (job : Job) (m : Manifest) (rtType code : string) : ExecutorV2.Job :=
  ExecutorV2.mkJob (j_ID job) (j_Type job) rtType (mapDepsToV2 (Dependencies m)) "" "" false 300
    (j_PluginID job) "" code (j_ExecutionID job) (j_ExecutionStepID job) "" 0 (j_OrgID job) "" "" None
    (Trusted m).

(** The output of a run that succeeded, or its error. *)
Definition fallbackToV2Runtime (pluginPath : string) (m : Manifest) (p : ProcessPayload) (job : Job)
    : M string :=
  let* w := get in
  let* code := lift (wrap "failed to read plugin file for v2 fallback: "
                       (s_ReadFile (a_services E) pluginPath (w_plugins w))) in
  match runtime_type (Language m) with
  | None => throw ("v2 fallback: unsupported language " +:+ Language m)
  | Some rtType =>
      let* r := on_host (fun h =>
        let '(h, r) := s_ExecuteJob (a_services E) (v2_job job m rtType code) (v2_payload p) h in
        (h, of_Result "" r)) in
      if v2_Success r then
        ret (match v2_Data r with Some data => a_print E (JObj data) | None => "" end)
      else throw ("v2 fallback: " +:+
                  (if v2_Error r =?s "" then "v2 fallback execution returned failure" else v2_Error r))
  end.

Definition mentions_docker (e : string) : bool := strings_Contains e "Docker" || strings_Contains e "docker".

(** A failed run with some output on disk counts as a success without output;
    a failure that mentions Docker goes to the v2 runtime. *)
Definition run_plugin (pluginPath : string) (m : Manifest) (input : RawMessage) (outputPath : string)
    (p : ProcessPayload) (job : Job) : M string := fun w =>
  match on_host (s_Execute (a_services E) pluginPath m input) w with
  | (w, Ret r) => (w, Ret (PluginExecute.Output r))
  | (w, Panic) => (w, Panic)
  | (w, Throw e) =>
      if hasRealOutput (a_faults E) outputPath (w_disk w) then (w, Ret "")
      else if mentions_docker e
      then wrapM "process plugin failed (native+v2 fallback): " (fallbackToV2Runtime pluginPath m p job) w
      else (w, Throw ("process plugin failed: " +:+ e))
  end.

Definition missing (path : string) (s : fs) : bool :=
  match os_Stat (a_faults E) path s with StatMissing => true | _ => false end.

(** Move a file to where the output is expected, or copy it. *)
Definition move_output (actualPath outputPath : string) (s : fs) : fs * error :=
  match os_Stat (a_faults E) actualPath s with
  | StatFile _ =>
      match os_MkdirAll (f_mkdir (a_faults E)) (Dir outputPath) s with
      | (s, Some e) => (s, Some e)
      | (s, None) =>
          match os_Rename (f_rename (a_faults E) actualPath) actualPath outputPath s with
          | (s, Some _) => copyFile (a_faults E) actualPath outputPath s
          | (s, None) => (s, None)
          end
      end
  | _ => (s, None)
  end.

(** Write what a plugin printed, if the output is still missing. *)
Definition write_stdout (outputPath output : string) : M unit := fun w =>
  if missing outputPath (w_disk w) && negb (output =?s "")
  then ignore (write_below (a_faults E) outputPath output) w else (w, Ret tt).

(** Make sure that the output file exists; [strict] is whether a failed copy
    ends the job. *)
Definition settle_output (strict : bool) (outputPath output : string)
    (result : option (list (string * json))) : M unit := fun w =>
  if missing outputPath (w_disk w) then
    let actualPath := data_output_path result in
    (let* _ := if actualPath =?s "" then ret tt
               else if strict then call "failed to copy output to expected path: " (move_output actualPath outputPath)
               else ignore (move_output actualPath outputPath) in
     write_stdout outputPath output) w
  else (w, Ret tt).

(** Send the output file to the backend. *)
Definition upload (ctxOpen ctxWrite : string) (b : StorageBackend) (key outputPath : string) : M unit :=
  let* w := get in
  let* r := lift (of_Result ctxOpen (os_Open (f_open (a_faults E)) outputPath (w_disk w))) in
  write_call ctxWrite (WriteObject b key r).

(** Read an object into a file. *)
Definition download (ctxRead ctxCreate ctxCopy : string) (b : StorageBackend) (key path : string) : M unit :=
  let* w := get in
  let* r := lift (of_Result ctxRead (ReadObject b key (w_host w))) in
  create_with (a_faults E) ctxCreate ctxCopy path r.
End running.

(** ** Reasoning about computations *)

(** What a computation keeps, whatever its outcome. *)
Definition keeps {A} (P : world -> Prop) (c : M A) : Prop := forall w, P w -> P (c w).1.

Create HintDb handler discriminated.

Section keeps.
Context {A B : Type} (P : world -> Prop).

Lemma keeps_ret (a : A) : keeps P (ret a).
Proof. by intros w. Qed.
Lemma keeps_throw e : keeps P (@throw A e).
Proof. by intros w. Qed.
Lemma keeps_lift (c : comp A) : keeps P (lift c).
Proof. by intros w. Qed.
Lemma keeps_get : keeps P get.
Proof. by intros w. Qed.
Lemma keeps_bind (c : M A) (k : A -> M B) : keeps P c -> (forall a, keeps P (k a)) -> keeps P (mbind c k).
Proof.
  intros Hc Hk w Hw. specialize (Hc w Hw). unfold mbind. destruct (c w) as [w' [a| |]]; [|done..].
  by apply Hk.
Qed.
Lemma keeps_wrap ctx (c : M A) : keeps P c -> keeps P (wrapM ctx c).
Proof. intros Hc w Hw. specialize (Hc w Hw). unfold wrapM. by destruct (c w). Qed.
End keeps.

(** On the disk. *)
Section keeps_disk.
Context (Q : fs -> Prop).
Abbreviation onQ := (fun w => Q (w_disk w)).

Lemma keeps_call ctx f : (forall s, Q s -> Q (f s).1) -> keeps onQ (call ctx f).
Proof.
  intros Hf w Hw. unfold call. specialize (Hf _ Hw). destruct (f (w_disk w)) as [s [e|]]; exact Hf.
Qed.
Lemma keeps_ignore f : (forall s, Q s -> Q (f s).1) -> keeps onQ (ignore f).
Proof. intros Hf w Hw. exact (Hf _ Hw). Qed.
Lemma keeps_plugins {A} ctx (f : plugin_state -> plugin_state * comp A) : keeps onQ (on_plugins ctx f).
Proof. intros w Hw. unfold on_plugins. by destruct (f (w_plugins w)). Qed.
Lemma keeps_host {A} (f : host -> host * comp A) : (forall h, Q (disk h) -> Q (disk (f h).1)) -> keeps onQ (on_host f).
Proof.
  intros Hf w Hw. unfold on_host. specialize (Hf (w_host w) Hw). by destruct (f (w_host w)).
Qed.
Lemma keeps_workdir {A} F tempDir ctx id (body : string -> M A) :
  (forall d s, Q s -> Q (with_dirs d s)) -> (forall p s, Q s -> Q (os_RemoveAll F p s).1) ->
  (forall d, d = Join [tempDir; "sentra-" +:+ id] -> keeps onQ (body d)) ->
  keeps onQ (with_workdir F tempDir ctx id body).
Proof.
  intros Hd Hr Hb w Hw. unfold with_workdir, os_MkdirAll. destruct (f_mkdir F _); [exact Hw|].
  specialize (Hb _ eq_refl (with_disk (with_dirs ({[Join [tempDir; "sentra-" +:+ id]]} ∪ Merge.dirs (w_disk w)) (w_disk w)) w)
                (Hd _ _ Hw)).
  destruct (body _ _) as [w' r]. by apply Hr.
Qed.
End keeps_disk.

#[export] Hint Resolve keeps_ret keeps_throw keeps_lift keeps_get keeps_bind keeps_wrap keeps_plugins : handler.

(** ** Writing without faults *)

Lemma write_reader_no_faults path data d : (path ∉ Merge.dirs d) ->
  write_reader no_disk_faults path (mkReader data None) d = (with_files (<[path := data]> (Merge.files d)) d, None).
Proof.
  intros Hd. unfold write_reader, os_Create. cbn [no_disk_faults f_create].
  rewrite decide_False by done. unfold io_Copy, append_file. cbn. by rewrite lookup_insert_eq, insert_insert_eq.
Qed.

(** ** A path that stays free *)

Section absent.
Context (q : string).

Definition absent (s : fs) : Prop := Merge.files s !! q = None.

Lemma absent_insert p data s : p <> q -> absent s -> absent (with_files (<[p := data]> (Merge.files s)) s).
Proof. intros Hp Hs. unfold absent. simpl. by rewrite lookup_insert_ne. Qed.

Lemma absent_mkdir f p s : absent s -> absent (os_MkdirAll f p s).1.
Proof. unfold os_MkdirAll. by destruct (f p). Qed.

Lemma absent_create f p s : p <> q -> absent s -> absent (os_Create f p s).1.
Proof.
  intros Hp Hs. unfold os_Create. destruct (f p); [done|]. case_decide; [done|]. by apply absent_insert.
Qed.

Lemma absent_copy f p r s : p <> q -> absent s -> absent (io_Copy f p r s).1.
Proof. intros Hp Hs. unfold io_Copy. destruct (f p); [done|]. by apply absent_insert. Qed.

Lemma absent_write F p r s : p <> q -> absent s -> absent (write_reader F p r s).1.
Proof.
  intros Hp Hs. unfold write_reader. pose proof (absent_create (f_create F) p s Hp Hs) as H.
  destruct (os_Create _ p s) as [s' [e|]]; [done|]. by apply absent_copy.
Qed.

Lemma absent_copyFile F src p s : p <> q -> absent s -> absent (copyFile F src p s).1.
Proof. intros Hp Hs. unfold copyFile. destruct (os_Open _ src s); [by apply absent_write|done]. Qed.

Lemma absent_write_below F p data s : p <> q -> absent s -> absent (write_below F p data s).1.
Proof.
  intros Hp Hs. unfold write_below. pose proof (absent_mkdir (f_mkdir F) (Dir p) s Hs) as H.
  destruct (os_MkdirAll _ _ s) as [s' [e|]]; [done|]. by apply absent_write.
Qed.

Lemma absent_rename f src p s : p <> q -> absent s -> absent (os_Rename f src p s).1.
Proof.
  intros Hp Hs. unfold os_Rename. destruct f; [done|]. destruct (Merge.files s !! src); [|done].
  case_decide; [done|]. unfold absent. simpl. rewrite lookup_insert_ne by done.
  destruct (decide (src = q)) as [->|]; [apply lookup_delete_eq|by rewrite lookup_delete_ne].
Qed.

Lemma absent_RemoveAll F p s : absent s -> absent (os_RemoveAll F p s).1.
Proof.
  intros Hs. unfold os_RemoveAll. destruct (f_remove F p); [done|]. unfold absent. simpl.
  apply map_lookup_filter_None_2. by left.
Qed.

Lemma absent_move E src p s : p <> q -> absent s -> absent (move_output E src p s).1.
Proof.
  intros Hp Hs. unfold move_output. destruct (os_Stat _ src s); try done.
  pose proof (absent_mkdir (f_mkdir (a_faults E)) (Dir p) s Hs) as H.
  destruct (os_MkdirAll _ _ s) as [s' [e|]]; [done|].
  pose proof (absent_rename (f_rename (a_faults E) src) src p s' Hp H) as H'.
  destruct (os_Rename _ src p s') as [s'' [e|]]; [by apply absent_copyFile|done].
Qed.
End absent.
#[export] Hint Resolve absent_mkdir absent_create absent_copy absent_write absent_copyFile absent_write_below
  absent_move : handler.

(** ** An agent without faults *)

(** Services with one backend, and one installed plugin that [run] runs. *)
Definition plain_services (b : option StorageBackend) (m : Manifest)
    (run : RawMessage -> host -> host * comp PluginExecute.ExecutionResult) : services :=
  mkServices (fun _ => Err "no configuration") (fun _ => Err "no backend") b (Ok [])
    (fun s => (s, Ret "/plugins")) (fun _ _ s => (s, Ret false))
    (fun _ s => (s, Ret ("/plugins/p.py", m))) (fun _ _ => Ret "code")
    (fun _ _ => run) (fun _ _ h => (h, Err "no runtime")).

Definition plain_agent (V : services) : agent :=
  mkAgent no_disk_faults "/mnt" (Some "/home/u") "/tmp" "/tmp" (fun _ => RawInvalid) (fun _ => "")
    (fun s => s) "agent-1" V.

Definition empty_world (files objects : gmap string string) : world :=
  mkWorld (mkHost (mkFS files ∅ ∅ ∅) objects) (mkState ∅ ∅ ∅ ∅ ∅ ∅) ∅ [] ∅.
