(* ===== verification/ChunkHandler.v ===== *)
(** * ChunkHandler: processing one chunk

    Models [executeProcessChunkByteRange], [executeProcessChunkFileList] and the
    part of [executeProcessChunk] for plain jobs, of
    [internal/dispatcher/handlers_unix.go]: how the input of a plugin is found
    on a shared mount or fetched from a store, the run, and what becomes of its
    output. *)
From S2P Require Import Prelude Json Path Encoding ExecutorV2 HttpClient PluginVerify PluginInstall PluginExecute.
From S2P Require Import Merge MergeTree Storage ObjectStore Handler.
From Stdlib Require Import Ascii.
Local Open Scope handler_scope.

(** ** Definitions *)

Definition first_nonempty (l : list string) : string :=
  default "" (List.find (fun s => negb (s =?s "")) l).

(** *** [filepath.Match]

    Whether a name matches; a malformed pattern matches nothing here, as the
    handlers treat its error in the same way.  Characters are bytes. *)

(** A character of a class, and what is left. *)
Definition getEsc (p : string) : option (ascii * string) :=
  match p with
  | String c p' =>
      if Ascii.eqb c "-" || Ascii.eqb c "]" then None
      else if Ascii.eqb c "\" then match p' with String d p'' => Some (d, p'') | EmptyString => None end
      else Some (c, p')
  | EmptyString => None
  end.

(** The ranges of a class up to its bracket: whether one holds [c]. *)
Fixpoint class_match (fuel : nat) (c : ascii) (first found : bool) (p : string) : option (bool * string) :=
  match fuel with
  | O => None
  | S fuel =>
      match p with
      | String "]" p' => if first then None else Some (found, p')
      | _ =>
          match getEsc p with
          | None => None
          | Some (lo, p1) =>
              match (match p1 with String "-" p2 => getEsc p2 | _ => Some (lo, p1) end) with
              | None => None
              | Some (hi, p3) =>
                  let n := nat_of_ascii c in
                  class_match fuel c false
                    (found || (nat_of_ascii lo <=? n)%nat && (n <=? nat_of_ascii hi)%nat) p3
              end
          end
      end
  end.

Fixpoint glob (fuel : nat) (p name : string) : bool :=
  match fuel with
  | O => false
  | S fuel =>
      match p with
      | EmptyString => name =?s ""
      | String "*" p' =>
          glob fuel p' name
          || match name with String c n => negb (Ascii.eqb c "/") && glob fuel p n | EmptyString => false end
      | String "?" p' => match name with String c n => negb (Ascii.eqb c "/") && glob fuel p' n | EmptyString => false end
      | String "[" p' =>
          match name with
          | EmptyString => false
          | String c n =>
              let '(neg, p'') := match p' with String "^" q => (true, q) | _ => (false, p') end in
              match class_match (S (String.length p'')) c true false p'' with
              | Some (found, rest) => xorb found neg && glob fuel rest n
              | None => false
              end
          end
      | String "\" p' =>
          match p', name with
          | String d p'', String c n => Ascii.eqb c d && glob fuel p'' n
          | _, _ => false
          end
      | String d p' => match name with String c n => Ascii.eqb c d && glob fuel p' n | EmptyString => false end
      end
  end.

Definition filepath_Match (pattern name : string) : bool :=
  glob (S (String.length pattern + String.length name)) pattern name.

Example filepath_Match_ex :
  map (fun pn => filepath_Match pn.1 pn.2)
    [("*.csv", "a.csv"); ("*.csv", "a/b.csv"); ("chunk_[0-9].*", "chunk_7.out"); ("[^a-c]?", "bz"); ("[", "[")] =
  [true; false; true; false; false].
Proof. reflexivity. Qed.

(** *** Parts of a file *)

(** [io.Copy] from [io.NewSectionReader(f, start, n)].  The end of the section is
    the largest offset when [start + n] seems to overflow, which a negative [n]
    causes too: the section then ends with the file. *)
Definition section_end (start n : Z) : Z :=
  let maxint64 := 2 ^ 63 - 1 in
  if start <=? int64 (maxint64 - n) then int64 (n + start) else maxint64.

Definition section_of (path : string) (start n : Z) (r : reader) : reader :=
  if section_end start n <=? start then mkReader "" None
  else if start <? 0 then mkReader "" (Some ("readat " +:+ path +:+ ": negative offset"))
  else
    let rest := str_drop (Z.to_nat start) (r_data r) in
    mkReader (str_take (Z.to_nat (Z.min (section_end start n - start) (Z.of_nat (String.length rest)))) rest)
      (r_err r).

(** A range that ends before it starts, or has no end, is read to the end of the
    file when the data set is on a mount. *)
Example open_range_reads_on :
  r_data (section_of "f" 2 (-2) (whole "abcdef")) = "cdef" /\ r_data (section_of "f" 2 0 (whole "abcdef")) = "".
Proof. split; reflexivity. Qed.

(** Skip and read from a stream, with [io.CopyN]: the bytes read, and an error
    other than [io.EOF]. *)
Definition skip_bytes (start : Z) (r : reader) : result reader :=
  if start <=? 0 then Ok r
  else if Z.of_nat (String.length (r_data r)) <? start
       then Err ("failed to skip to byte start: " +:+ default "EOF" (r_err r))
       else Ok (mkReader (str_drop (Z.to_nat start) (r_data r)) (r_err r)).

Definition read_bytes (n : Z) (r : reader) : reader :=
  if n <=? 0 then mkReader "" None
  else if n <=? Z.of_nat (String.length (r_data r)) then mkReader (str_take (Z.to_nat n) (r_data r)) None
  else r.

Section handlers.
Context (E : agent).
Abbreviation F := (a_faults E).
Abbreviation V := (a_services E).

(** *** Running the plugin and keeping its output *)

Definition no_plugin_id (main : bool) : string :=
  if main then "no plugin_id in job payload — cannot determine which plugin to execute"
  else "no plugin_id in job payload".

Definition chunk_context (job : Job) (p : ProcessPayload) (inputPath outputPath : string) : PluginContext :=
  mkPluginContext (j_ID job) (j_OrgID job) (p_DatasetID p) (j_ExecutionID job) (j_StepIndex job)
    (p_ChunkID p) (p_ChunkIndex p) inputPath outputPath
    (if raw_is_empty (p_Config p) then j_StepConfig job else p_Config p).

(** The common end of the three handlers; the plain one, [main], insists on the
    plugin's output and forgives a failed copy, the others the reverse. *)
Definition run_chunk (main : bool) (job : Job) (p : ProcessPayload) (b : StorageBackend) (storageMode : string)
    (inputPath outputPath : string) : M unit :=
  let* pluginName := ResolvePluginName V (first_nonempty [j_PluginID job; p_PluginID p]) (j_PluginName job) in
  if pluginName =?s "" then throw (no_plugin_id main)
  else
    let* (pluginPath, manifest) := on_plugins "" (s_LoadAndUpdatePlugin V pluginName) in
    let* output := run_plugin E pluginPath manifest
                     (marshal_context (chunk_context job p inputPath outputPath)) outputPath p job in
    let* result := match parsePluginOutputAsJSON (a_parse E) (a_renum E) output with
                   | Ok r => ret r
                   | Err e => if main then throw ("failed to parse process plugin output: " +:+ e) else ret None
                   end in
    settle_output E (negb main) outputPath output result;;
    if storageMode =?s "shared_mount" then ret tt
    else
      write_stdout E outputPath output;;
      upload E (if main then "failed to open output file: " else "failed to open output file for upload: ")
        (if main then "failed to write result: " else "failed to write result to backend: ")
        b (GetRemotePathWithSlug (p_DatasetID p) (p_DatasetSlug p) (p_ChunkIndex p) "result") outputPath.

(** *** Byte ranges *)

Definition byte_range_input (p : ProcessPayload) (b : StorageBackend) (storageMode workDir : string) : M string :=
  let n := int64 (p_ByteRangeEnd p - p_ByteRangeStart p) in
  if storageMode =?s "shared_mount" then
    let source := if IsAbs (p_SourceFilePath p) then p_SourceFilePath p
                  else Join [deriveMountBasePath (a_mountEnv E) storageMode; p_SourceFilePath p] in
    let* w := get in
    let* r := lift (of_Result "failed to open source file for byte range: "
                      (os_Open (f_open F) source (w_disk w))) in
    let inputPath := Join [workDir; chunk_file (p_ChunkIndex p) ".bin"] in
    create_with F "failed to create input file: " "failed to copy byte range: " inputPath
      (section_of source (p_ByteRangeStart p) n r);;
    ret inputPath
  else
    let* w := get in
    let* r := lift (of_Result "failed to read source from backend: "
                      (ReadObject b (p_SourceFilePath p) (w_host w))) in
    let inputPath := Join [workDir; "source.bin"] in
    call "failed to create input file: " (os_Create (f_create F) inputPath);;
    let* r := lift (of_Result "" (skip_bytes (p_ByteRangeStart p) r)) in
    let part := read_bytes n r in
    call "failed to read byte range from source: " (io_Copy (f_write F) inputPath part);;
    if r_data part =?s ""
    then throw ("read 0 bytes from byte range " +:+ itoa (p_ByteRangeStart p) +:+ "-" +:+ itoa (p_ByteRangeEnd p))
    else ret inputPath.

Definition executeProcessChunkByteRange (job : Job) (p : ProcessPayload) (b : StorageBackend)
    (storageMode : string) : M unit :=
  with_workdir F (a_tempDir E) "failed to prepare work dir: " (j_ID job) (fun workDir =>
    if p_SourceFilePath p =?s "" then throw "byte_range chunk requires source_file_path"
    else
      let* inputPath := byte_range_input p b storageMode workDir in
      run_chunk false job p b storageMode inputPath (Join [workDir; chunk_file (p_ChunkIndex p) ".out"])).

(** *** Lists of files *)

Definition copy_listed (storageMode chunkDir : string) (b : StorageBackend) (f : string) : M unit :=
  if storageMode =?s "shared_mount" then
    let src := if IsAbs f then f else Join [deriveMountBasePath (a_mountEnv E) storageMode; f] in
    call ("failed to copy file " +:+ f +:+ ": ") (copyFile F src (Join [chunkDir; Base src]))
  else
    download E ("failed to read file " +:+ f +:+ " from backend: ")
      ("failed to create file " +:+ Join [chunkDir; Base f] +:+ ": ")
      ("failed to write file " +:+ Join [chunkDir; Base f] +:+ ": ") b f (Join [chunkDir; Base f]).

Fixpoint each {A} (f : A -> M unit) (l : list A) : M unit :=
  match l with
  | [] => ret tt
  | x :: l => f x;; each f l
  end.

Definition executeProcessChunkFileList (job : Job) (p : ProcessPayload) (b : StorageBackend)
    (storageMode : string) : M unit :=
  with_workdir F (a_tempDir E) "failed to prepare work dir: " (j_ID job) (fun workDir =>
    match p_FileList p with
    | [] => throw "file_list chunk requires at least one file"
    | fileList =>
        let chunkDir := Join [workDir; "files"] in
        call "failed to create chunk file dir: " (os_MkdirAll (f_mkdir F) chunkDir);;
        each (copy_listed storageMode chunkDir b) fileList;;
        run_chunk false job p b storageMode chunkDir (Join [workDir; chunk_file (p_ChunkIndex p) ".out"])
    end).

(** *** Plain jobs *)

(** The objects below a source prefix, into a directory. *)
Definition file_pattern (config : RawMessage) : string :=
  match Unmarshal_map (a_renum E) config with Some m => member_string "file_pattern" m | None => "" end.

Definition skipped_object (pattern : string) (o : ObjectInfo) : bool :=
  HasSuffix (Key o) "/" || negb (pattern =?s "") && negb (filepath_Match pattern (Base (Key o))).

Definition download_listed (b : StorageBackend) (filesDir pattern : string) (o : ObjectInfo) : M unit :=
  if skipped_object pattern o then ret tt
  else
    let dst := Join [filesDir; Base (Key o)] in
    download E ("read source file " +:+ Key o +:+ ": ") ("create file " +:+ dst +:+ ": ")
      ("copy file " +:+ dst +:+ ": ") b (Key o) dst.

(** The input of the first step from the source path in a store. *)
Definition remote_source (p : ProcessPayload) (b : StorageBackend) (workDir : string) : M string :=
  let source := p_SourcePath p in
  if source =?s "" then throw "source_path is required for S3 process jobs (no /source/ prefix fallback)"
  else if HasSuffix source "/" then
    let* w := get in
    let* found := lift (of_Result ("failed to list source directory " +:+ source +:+ ": ")
                          (ListObjects b source (w_host w))) in
    match found with
    | [] => throw ("no files found at " +:+ source)
    | _ =>
        let filesDir := Join [workDir; "files"] in
        call "create files dir: " (os_MkdirAll (f_mkdir F) filesDir);;
        each (download_listed b filesDir (file_pattern (p_Config p))) found;;
        ret filesDir
    end
  else
    let outPath := Join [workDir; "source" +:+ Ext source] in
    download E ("failed to read source " +:+ source +:+ ": ") "failed to create source file: "
      "failed to write source file: " b source outPath;;
    ret outPath.

(** Where a plain job reads and writes. *)
Definition mount_input (job : Job) (p : ProcessPayload) (b : StorageBackend) (storageMode workDir : string)
    : M string :=
  let mount := deriveMountBasePath (a_mountEnv E) storageMode in
  let datasetID := p_DatasetID p in
  if negb (p_InputPath p =?s "") || (datasetID =?s "") then ret (p_InputPath p)
  else if 0 <? j_StepIndex job then ret (mount_chunk mount datasetID (p_ChunkIndex p) ".out")
  else
    let sharedPath := mount_chunk mount datasetID (p_ChunkIndex p) ".bin" in
    let* w := get in
    if fileExists F sharedPath (w_disk w) then ret sharedPath
    else
      let source := first_nonempty [p_SourcePath p; j_SourcePath job] in
      if source =?s ""
      then throw ("shared_mount chunk not found at " +:+ sharedPath +:+ " and no source_path for S3 fallback")
      else
        let outPath := Join [workDir; "source" +:+ Ext source] in
        download E ("step 0: read source from S3 fallback " +:+ source +:+ ": ")
          "step 0: create source file from S3 fallback: " "step 0: copy source from S3 fallback: "
          b source outPath;;
        ret outPath.

Definition mount_output (p : ProcessPayload) (storageMode : string) : string :=
  if (p_OutputPath p =?s "") && negb (p_DatasetID p =?s "")
  then mount_chunk (deriveMountBasePath (a_mountEnv E) storageMode) (p_DatasetID p) (p_ChunkIndex p) ".out"
  else p_OutputPath p.

Definition remote_input (job : Job) (p : ProcessPayload) (b : StorageBackend) (workDir : string) : M string :=
  if 0 <? j_StepIndex job then
    let inputPath := Join [workDir; chunk_file (p_ChunkIndex p) ".bin"] in
    download E "failed to read result object: " "failed to create input file: " "failed to write input file: "
      b (GetRemotePathWithSlug (p_DatasetID p) (p_DatasetSlug p) (p_ChunkIndex p) "result") inputPath;;
    ret inputPath
  else remote_source p b workDir.

Definition process_plain (job : Job) (p : ProcessPayload) (b : StorageBackend) (storageMode : string) : M unit :=
  let workDirID := first_nonempty [j_ID job; p_ChunkID p; p_DatasetID p] in
  with_workdir F (a_tempDir E) "failed to prepare work dir: " workDirID (fun workDir =>
    let* inputPath := if storageMode =?s "shared_mount" then mount_input job p b storageMode workDir
                      else remote_input job p b workDir in
    let outputPath := if storageMode =?s "shared_mount" then mount_output p storageMode
                      else Join [workDir; chunk_file (p_ChunkIndex p) ".out"] in
    if inputPath =?s "" then throw "could not derive input_path"
    else if outputPath =?s "" then throw "could not derive output_path"
    else run_chunk true job (with_paths inputPath outputPath p) b storageMode inputPath outputPath).

(** *** The handler *)

(** Fields that are missing at the top level come from the nested payload. *)
Definition fill_nested (p nested : ProcessPayload) : ProcessPayload :=
  let str (a b : string) := if a =?s "" then b else a in
  let int (a b : Z) := if a =? 0 then b else a in
  mkProcess (str (p_ChunkID p) (p_ChunkID nested)) (p_InputPath p) (p_OutputPath p)
    (str (p_DatasetID p) (p_DatasetID nested)) (str (p_DatasetSlug p) (p_DatasetSlug nested))
    (int (p_ChunkIndex p) (p_ChunkIndex nested)) (str (p_StorageMode p) (p_StorageMode nested))
    (str (p_PluginID p) (p_PluginID nested)) (int (p_Rows p) (p_Rows nested))
    (str (p_Checksum p) (p_Checksum nested))
    (if raw_is_empty (p_Config p) then p_Config nested else p_Config p)
    (p_MockMode p) (p_SourcePath p) (p_IsCompound p) (p_Steps p) (p_CurrentStepIndex p)
    (str (p_ChunkStrategy p) (p_ChunkStrategy nested)) (int (p_ByteRangeStart p) (p_ByteRangeStart nested))
    (int (p_ByteRangeEnd p) (p_ByteRangeEnd nested))
    (match p_FileList p with [] => p_FileList nested | l => l end)
    (str (p_SourceFilePath p) (p_SourceFilePath nested)).

Definition decode {A} (ctx : string) (zero : A) (dec : list (string * json) -> A * bool) (payload : RawMessage)
    : comp A :=
  match Unmarshal_struct zero dec payload with
  | (a, None) => Ret a
  | (_, Some e) => Throw (ctx +:+ e)
  end.

(** From the payload to the job, its backend and its storage mode. *)
Definition prepare_process (payload : RawMessage) : comp (Job * ProcessPayload * StorageBackend * string) :=
  match decode "invalid payload: " zeroJob decodeJob payload with
  | Throw e => Throw e | Panic => Panic
  | Ret job =>
      match decode "invalid process payload: " zeroProcess decodeProcess payload with
      | Throw e => Throw e | Panic => Panic
      | Ret p =>
          let p := fill_nested p (Unmarshal_struct zeroProcess decodeProcess (j_Payload job)).1 in
          if (p_ChunkID p =?s "") && (p_DatasetID p =?s "") then Throw "missing chunk_id or dataset_id"
          else
            let mode := normalizeStorageModeForJob
                          (first_nonempty [p_StorageMode p; j_StorageMode job; "shared_mount"]) in
            match job_backend V (j_StorageConfigID job) mode with
            | Throw e => Throw e | Panic => Panic
            | Ret b => Ret (job, p, b, effective_mode mode b)
            end
      end
  end.

(** [compound] is [executeCompoundProcessChunk]. *)
Definition process_chunk (compound : Job -> ProcessPayload -> StorageBackend -> string -> M unit)
    (payload : RawMessage) : M unit :=
  let* (job, p, b, mode) := lift (prepare_process payload) in
  if p_IsCompound p && negb (match p_Steps p with [] => true | _ => false end) then compound job p b mode
  else if p_ChunkStrategy p =?s "byte_range" then executeProcessChunkByteRange job p b mode
  else if p_ChunkStrategy p =?s "file_per_chunk" then executeProcessChunkFileList job p b mode
  else process_plain job p b mode.
End handlers.

(** ** Results that are not kept *)

Section lost.
Context (E : agent) (out : string).
Abbreviation stays := (keeps (fun w => absent out (w_disk w))).

(** Runs of plugins do not write to [out]. *)
Context (Hexec : forall path m i h, absent out (disk h) ->
  absent out (disk (s_Execute (a_services E) path m i h).1)).
Context (Hv2 : forall job m h, absent out (disk h) -> absent out (disk (s_ExecuteJob (a_services E) job m h).1)).

Lemma stays_fetch id : stays (FetchAndInstallPluginByID (a_services E) id).
Proof.
  unfold FetchAndInstallPluginByID. apply keeps_bind; [auto with handler|]. intros plugins.
  destruct (find_plugin id plugins); auto 6 with handler.
Qed.

Lemma stays_resolve id name : stays (ResolvePluginName (a_services E) id name).
Proof.
  intros w Hw. unfold ResolvePluginName. destruct (negb _); [done|]. destruct (_ =?s _); [done|].
  destruct (w_names w !! id); [done|]. pose proof (stays_fetch id w Hw) as H.
  by destruct (FetchAndInstallPluginByID _ id w) as [w' [a| |]].
Qed.

Lemma stays_v2 path m p job : stays (fallbackToV2Runtime E path m p job).
Proof.
  unfold fallbackToV2Runtime. apply keeps_bind; [auto with handler|]. intros w.
  apply keeps_bind; [auto with handler|]. intros code. destruct (runtime_type _); [|auto with handler].
  apply keeps_bind.
  - apply (keeps_host (absent out)). intros h Hh. specialize (Hv2 (v2_job job m s code) (v2_payload E p) h Hh).
    by destruct (s_ExecuteJob _ _ _ h).
  - intros r. destruct (v2_Success r); auto with handler.
Qed.

Lemma stays_run_plugin path m input o p job : stays (run_plugin E path m input o p job).
Proof.
  intros w Hw. unfold run_plugin.
  pose proof (keeps_host (absent out) (s_Execute (a_services E) path m input) (Hexec path m input) w Hw) as H.
  destruct (on_host _ w) as [w' [a|e|]]; [done| |done].
  destruct (hasRealOutput _ _ _); [done|]. destruct (mentions_docker e); [|done].
  by apply keeps_wrap; [apply stays_v2|].
Qed.

Lemma stays_stdout o output : o <> out -> stays (write_stdout E o output).
Proof.
  intros Ho w Hw. unfold write_stdout. destruct (_ && _); [|done].
  apply (keeps_ignore (absent out)); [|done]. intros s Hs. by apply absent_write_below.
Qed.

Lemma stays_settle strict o output res : o <> out -> stays (settle_output E strict o output res).
Proof.
  intros Ho w Hw. unfold settle_output. destruct (missing _ _ _); [|done].
  revert w Hw. change (stays (let* _ := if data_output_path res =?s "" then ret tt
    else if strict then call "failed to copy output to expected path: " (move_output E (data_output_path res) o)
    else ignore (move_output E (data_output_path res) o) in write_stdout E o output)).
  apply keeps_bind; [|intros _; by apply stays_stdout].
  destruct (_ =?s _); [auto with handler|].
  destruct strict; [apply (keeps_call (absent out))|apply (keeps_ignore (absent out))];
    intros s Hs; by apply absent_move.
Qed.

Lemma stays_run_chunk main job p b inp o : o <> out -> stays (run_chunk E main job p b "shared_mount" inp o).
Proof.
  intros Ho. unfold run_chunk. apply keeps_bind; [apply stays_resolve|]. intros name.
  destruct (name =?s ""); [auto with handler|]. apply keeps_bind; [auto with handler|]. intros [path m].
  apply keeps_bind; [apply stays_run_plugin|]. intros output.
  apply keeps_bind; [destruct (parsePluginOutputAsJSON _ _ _); [|destruct main]; auto with handler|].
  intros res. apply keeps_bind; [by apply stays_settle|]. intros _. rewrite eqb_refl_s. auto with handler.
Qed.

Lemma stays_create ctx1 ctx2 path r : path <> out -> stays (create_with (a_faults E) ctx1 ctx2 path r).
Proof.
  intros Hp. unfold create_with. apply keeps_bind.
  - apply (keeps_call (absent out)). intros s Hs. by apply absent_create.
  - intros _. apply (keeps_call (absent out)). intros s Hs. by apply absent_copy.
Qed.

Lemma stays_each {A} (f : A -> M unit) l : (forall x, x ∈ l -> stays (f x)) -> stays (each f l).
Proof.
  induction l as [|x l IH]; intros Hf; [apply keeps_ret|]. cbn [each].
  apply keeps_bind; [by apply Hf, list_elem_of_here|]. intros _. apply IH. intros y Hy. by apply Hf, list_elem_of_further.
Qed.
End lost.

(** ** Work directories *)

(** The directory of temporary files and the id of a job are plain. *)
Definition plain_workdir (tempDir : string) (t : list string) (id : string) : Prop :=
  tempDir = abs_path t /\ Forall plain_name t /\ no_slash id.

Definition work_path (t : list string) (id : string) (fs : list string) : string :=
  abs_path (t ++ ("sentra-" +:+ id) :: fs).

Lemma sentra_plain id : no_slash id -> plain_name ("sentra-" +:+ id).
Proof. intros H. split; [done|]. split; [done|]. split; [done|]. by apply no_slash_app. Qed.

Lemma work_dir_path tempDir t id :
  plain_workdir tempDir t id -> Join [tempDir; "sentra-" +:+ id] = work_path t id [].
Proof.
  intros (-> & Ht & Hid). unfold work_path. apply (Join_abs_list t ["sentra-" +:+ id]); [done|].
  by apply Forall_singleton, sentra_plain.
Qed.

Lemma work_file_path t id f :
  Forall plain_name t -> no_slash id -> plain_name f -> Join [work_path t id []; f] = work_path t id [f].
Proof.
  intros Ht Hid Hf. unfold work_path. replace (t ++ ["sentra-" +:+ id; f]) with ((t ++ ["sentra-" +:+ id]) ++ [f])
    by (by rewrite <- app_assoc).
  apply Join_abs_list; [|by apply Forall_singleton]. apply Forall_app. split; [done|].
  by apply Forall_singleton, sentra_plain.
Qed.

Lemma chunk_file_plain i ext : no_slash ext -> plain_name (chunk_file i ext).
Proof. apply chunk_name_plain. Qed.

(** The files of a work directory are below it. *)
Lemma work_below t id fs : below (work_path t id []) (work_path t id fs) = true.
Proof.
  unfold below. destruct fs as [|f fs]; [by rewrite eqb_refl_s|]. apply orb_true_iff. right.
  assert (E : work_path t id (f :: fs) = (work_path t id [] +:+ "/") +:+ join_with "/" (f :: fs)).
  { unfold work_path, abs_path.
    replace (t ++ ("sentra-" +:+ id) :: f :: fs) with ((t ++ ["sentra-" +:+ id]) ++ f :: fs) by (by rewrite <- app_assoc).
    rewrite (join_with_app "/" (t ++ ["sentra-" +:+ id])) by (done || by destruct t). by rewrite append_assoc. }
  rewrite E. apply HasPrefix_app.
Qed.

Lemma RemoveAll_below F dir q s : f_remove F dir = None -> below dir q = true ->
  files (os_RemoveAll F dir s).1 !! q = None.
Proof.
  intros Hr Hq. unfold os_RemoveAll. rewrite Hr. simpl. apply map_lookup_filter_None_2. right.
  intros x _ H. simpl in H. congruence.
Qed.

(** After a job its work directory is gone. *)
Lemma with_workdir_gone {A} F tempDir ctx id (body : string -> M A) w w' a q :
  f_remove F (Join [tempDir; "sentra-" +:+ id]) = None ->
  with_workdir F tempDir ctx id body w = (w', Ret a) ->
  below (Join [tempDir; "sentra-" +:+ id]) q = true -> files (w_disk w') !! q = None.
Proof.
  intros Hr E Hq. unfold with_workdir in E. destruct (os_MkdirAll _ _ _) as [s [e|]]; [done|].
  destruct (body _ _) as [w1 r]. injection E as <- _. by apply RemoveAll_below.
Qed.

Section lost_results.
Context (E : agent) (t : list string) (job : Job) (p : ProcessPayload) (b : StorageBackend).
Context (Hplain : plain_workdir (a_tempDir E) t (j_ID job)).
Abbreviation mount_result := (mount_chunk (deriveMountBasePath (a_mountEnv E) "shared_mount") (p_DatasetID p)
                                (p_ChunkIndex p) ".out").
Context (Haway : below (work_path t (j_ID job) []) mount_result = false).
Context (Hexec : forall path m i h, absent mount_result (disk h) ->
  absent mount_result (disk (s_Execute (a_services E) path m i h).1)).
Context (Hv2 : forall j m h, absent mount_result (disk h) ->
  absent mount_result (disk (s_ExecuteJob (a_services E) j m h).1)).

Lemma work_not_result fs : work_path t (j_ID job) fs <> mount_result.
Proof. intros Ew. rewrite <- Ew, work_below in Haway. done. Qed.

Lemma stays_in_workdir (body : string -> M unit) :
  keeps (fun w => absent mount_result (w_disk w)) (body (work_path t (j_ID job) [])) ->
  keeps (fun w => absent mount_result (w_disk w))
    (with_workdir (a_faults E) (a_tempDir E) "failed to prepare work dir: " (j_ID job) body).
Proof.
  intros Hb. apply (keeps_workdir (absent mount_result)); [done|intros; by apply absent_RemoveAll|].
  intros d ->. by rewrite (work_dir_path _ t).
Qed.

Lemma stays_byte_range :
  keeps (fun w => absent mount_result (w_disk w)) (executeProcessChunkByteRange E job p b "shared_mount").
Proof.
  pose proof Hplain as (_ & Ht & Hid). unfold executeProcessChunkByteRange. apply stays_in_workdir.
  destruct (_ =?s ""); [auto with handler|]. unfold byte_range_input. rewrite eqb_refl_s.
  rewrite !work_file_path by (done || by apply chunk_file_plain).
  apply keeps_bind.
  - apply keeps_bind; [apply keeps_get|]. intros w. apply keeps_bind; [apply keeps_lift|]. intros r.
    apply keeps_bind; [apply stays_create, work_not_result|]. intros _. apply keeps_ret.
  - intros inp. apply stays_run_chunk; [done..|apply work_not_result].
Qed.

Lemma stays_file_list :
  Forall (fun f => plain_name (Base (if IsAbs f then f
            else Join [deriveMountBasePath (a_mountEnv E) "shared_mount"; f]))) (p_FileList p) ->
  keeps (fun w => absent mount_result (w_disk w)) (executeProcessChunkFileList E job p b "shared_mount").
Proof.
  intros Hf. pose proof Hplain as (_ & Ht & Hid). unfold executeProcessChunkFileList. apply stays_in_workdir.
  destruct (p_FileList p) as [|f l]; [auto with handler|]. rewrite Forall_forall in Hf.
  rewrite !work_file_path by (done || by apply chunk_file_plain).
  apply keeps_bind; [apply (keeps_call (absent mount_result)); intros; by apply absent_mkdir|]. intros _.
  apply keeps_bind.
  - apply stays_each. intros x Hx. unfold copy_listed. rewrite eqb_refl_s.
    apply (keeps_call (absent mount_result)). intros s Hs. apply absent_copyFile; [|done].
    specialize (Hf x Hx). simpl in Hf.
    assert (Ew : forall g, plain_name g -> Join [work_path t (j_ID job) ["files"]; g] = work_path t (j_ID job) ["files"; g]).
    { intros g Hg. unfold work_path.
      replace (t ++ ["sentra-" +:+ j_ID job; "files"; g]) with ((t ++ ["sentra-" +:+ j_ID job; "files"]) ++ [g])
        by (by rewrite <- app_assoc).
      apply Join_abs_list; [|by apply Forall_singleton]. apply Forall_app. split; [done|].
      apply Forall_cons_2; [by apply sentra_plain|by apply Forall_singleton]. }
    rewrite Ew by done. apply work_not_result.
  - intros _. apply stays_run_chunk; [done..|apply work_not_result].
Qed.
End lost_results.

(** ** Runs that succeed *)

Section success.
Context (E : agent) (HF : a_faults E = no_disk_faults).

Lemma stat_file path s data : files s !! path = Some data ->
  os_Stat (a_faults E) path s = StatFile (Z.of_nat (String.length data)).
Proof. intros H. rewrite HF. unfold os_Stat. simpl. by rewrite H. Qed.

Lemma settle_present strict o output res w data :
  files (w_disk w) !! o = Some data -> settle_output E strict o output res w = (w, Ret tt).
Proof. intros H. unfold settle_output, missing. by rewrite (stat_file o _ data). Qed.

(** The plugin is found and run, and leaves an output file. *)
Lemma run_chunk_ok main job p b mode inp o w pl path m h r data :
  j_PluginName job <> "" ->
  s_LoadAndUpdatePlugin (a_services E) (j_PluginName job) (w_plugins w) = (pl, Ret (path, m)) ->
  s_Execute (a_services E) path m (marshal_context (chunk_context job p inp o)) (w_host w) = (h, Ret r) ->
  main = false \/ is_ok (parsePluginOutputAsJSON (a_parse E) (a_renum E) (PluginExecute.Output r)) = true ->
  files (disk h) !! o = Some data ->
  let w' := with_host h (with_plugins pl w) in
  run_chunk E main job p b mode inp o w =
    if mode =?s "shared_mount" then (w', Ret tt)
    else write_call (if main then "failed to write result: " else "failed to write result to backend: ")
           (WriteObject b (GetRemotePathWithSlug (p_DatasetID p) (p_DatasetSlug p) (p_ChunkIndex p) "result")
              (whole data)) w'.
Proof.
  intros Hname Hload Hexec Hparse Hfile w'. unfold run_chunk, ResolvePluginName. unfold mbind at 1.
  rewrite !(eqb_neq_s _ _ Hname). cbn [negb]. rewrite (eqb_neq_s _ _ Hname). unfold mbind at 1, on_plugins.
  rewrite Hload. cbn [wrap]. unfold mbind at 1, run_plugin, on_host.
  change (w_host (with_plugins pl w)) with (w_host w). rewrite Hexec. fold w'.
  assert (Hw : files (w_disk w') !! o = Some data) by exact Hfile.
  assert (Hres : exists res, match parsePluginOutputAsJSON (a_parse E) (a_renum E) (PluginExecute.Output r) with
     | Ok r => ret r
     | Err e => if main then throw ("failed to parse process plugin output: " +:+ e) else ret None
     end = ret res).
  { destruct (parsePluginOutputAsJSON _ _ _) as [res|e]; [by eexists|].
    destruct Hparse as [->|H]; [by eexists|done]. }
  destruct Hres as [res ->]. unfold mbind at 1, ret at 1. unfold mbind at 1.
  rewrite (settle_present _ o _ res w' data Hw). destruct (mode =?s "shared_mount"); [done|].
  unfold mbind at 1, write_stdout, missing. rewrite (stat_file o _ data Hw). cbn [andb].
  unfold upload, mbind, get, lift, os_Open. rewrite HF. cbn [no_disk_faults f_open]. by rewrite Hw.
Qed.

(** A failed run counts as a success when there was output before. *)
Lemma run_chunk_failed main job p b inp o w pl path m h e data :
  j_PluginName job <> "" ->
  s_LoadAndUpdatePlugin (a_services E) (j_PluginName job) (w_plugins w) = (pl, Ret (path, m)) ->
  s_Execute (a_services E) path m (marshal_context (chunk_context job p inp o)) (w_host w) = (h, Throw e) ->
  files (disk h) !! o = Some data -> data <> "" ->
  run_chunk E main job p b "shared_mount" inp o w = (with_host h (with_plugins pl w), Ret tt).
Proof.
  intros Hname Hload Hexec Hfile Hne. unfold run_chunk, ResolvePluginName. unfold mbind at 1.
  rewrite !(eqb_neq_s _ _ Hname). cbn [negb]. rewrite (eqb_neq_s _ _ Hname). unfold mbind at 1, on_plugins.
  rewrite Hload. cbn [wrap]. unfold mbind at 1, run_plugin, on_host.
  change (w_host (with_plugins pl w)) with (w_host w). rewrite Hexec.
  assert (Ho : hasRealOutput (a_faults E) o (w_disk (with_host h (with_plugins pl w))) = true).
  { unfold hasRealOutput. rewrite (stat_file o _ data) by exact Hfile. destruct data; [done|]. by simpl. }
  rewrite Ho.
  change (parsePluginOutputAsJSON (a_parse E) (a_renum E) "") with (Ok (A := option (list (string * json))) None).
  unfold mbind at 1, ret at 1. unfold mbind at 1.
  rewrite (settle_present _ o _ None _ data) by exact Hfile. done.
Qed.
End success.

Lemma Clean_nonempty path : Clean path <> "".
Proof. unfold Clean. destruct (path =?s ""); [done|]. destruct (IsAbs path); [done|]. by case_match eqn:E; [|apply String.eqb_neq]. Qed.

Lemma mount_chunk_nonempty mount id i ext : mount_chunk mount id i ext <> "".
Proof.
  unfold mount_chunk, Join. simpl. destruct (mount =?s ""), (id =?s ""); apply Clean_nonempty.
Qed.

(** ** Properties *)

(** On a shared mount a later step of a chunk reads and writes the same
    file: when its plugin fails without touching it, the job still succeeds, and
    the output of the step before stands as its result. *)
Theorem failed_step_reported_done (E : agent) compound (payload : RawMessage) (job : Job) (p : ProcessPayload)
    (b : StorageBackend) (w : world) (pl : plugin_state) (path : string) (m : Manifest) (data : string) :
  let out := mount_chunk (deriveMountBasePath (a_mountEnv E) "shared_mount") (p_DatasetID p) (p_ChunkIndex p) ".out" in
  prepare_process E payload = Ret (job, p, b, "shared_mount") ->
  p_IsCompound p = false -> p_ChunkStrategy p = "" -> 0 < j_StepIndex job ->
  p_InputPath p = "" -> p_OutputPath p = "" -> p_DatasetID p <> "" ->
  a_faults E = no_disk_faults -> j_PluginName job <> "" ->
  below (Join [a_tempDir E; "sentra-" +:+ first_nonempty [j_ID job; p_ChunkID p; p_DatasetID p]]) out = false ->
  s_LoadAndUpdatePlugin (a_services E) (j_PluginName job) (w_plugins w) = (pl, Ret (path, m)) ->
  files (w_disk w) !! out = Some data -> data <> "" ->
  (forall i h, files (disk h) !! out = Some data -> exists h' e,
     s_Execute (a_services E) path m i h = (h', Throw e) /\ files (disk h') !! out = Some data) ->
  exists w', process_chunk E compound payload w = (w', Ret tt) /\ files (w_disk w') !! out = Some data.
Proof.
  intros out Hprep Hc Hs Hstep Hi Ho Hd HF Hname Hbelow Hload Hfile Hne Hexec.
  assert (Hout : out <> "") by apply mount_chunk_nonempty.
  unfold process_chunk, mbind, lift. rewrite Hprep, Hc, Hs. cbn [andb]. unfold process_plain, with_workdir.
  rewrite !eqb_refl_s. unfold mount_input, mount_output. rewrite Hi, Ho, (eqb_neq_s _ _ Hd). cbn [negb andb orb].
  destruct (Z.ltb_spec 0 (j_StepIndex job)); [|lia]. fold out. rewrite HF. unfold os_MkdirAll.
  cbn [no_disk_faults f_mkdir]. unfold mbind.
  change ("" =?s "byte_range") with false. change ("" =?s "file_per_chunk") with false.
  change (negb ("" =?s "") || false) with false. change (("" =?s "") && true) with true. cbv beta iota zeta. unfold ret at 1. cbv beta iota zeta.
  rewrite !(eqb_neq_s _ _ Hout).
  set (workDir := Join [a_tempDir E; _]) in *. set (w1 := with_disk _ w).
  destruct (Hexec (marshal_context (chunk_context job (with_paths out out p) out out)) (w_host w1) Hfile)
    as (h' & e & He & Hf').
  rewrite (run_chunk_failed E HF true job (with_paths out out p) b out out w1 pl path m h' e data Hname Hload He Hf' Hne).
  eexists. split; [reflexivity|]. unfold os_RemoveAll. cbn [no_disk_faults f_remove]. simpl.
  by apply map_lookup_filter_Some_2.
Qed.

Definition failing_agent : agent :=
  plain_agent (plain_services (Some (calm_mount ["mnt"])) zeroManifest (fun _ h => (h, Throw "exit status 1"))).

Definition later_step : RawMessage :=
  Raw (JObj [("job_id", JStr "j"); ("dataset_id", JStr "d"); ("chunk_id", JStr "c"); ("step_index", JNum "1");
             ("plugin_name", JStr "p")]).

Definition step0_done : world := empty_world {["/mnt/datasets/d/chunks/chunk_0.out" := "rows of step 0"]} ∅.

Lemma failed_step_reported_done_witness :
  exists w', process_chunk failing_agent (fun _ _ _ _ => throw "compound") later_step step0_done = (w', Ret tt) /\
    files (w_disk w') !! "/mnt/datasets/d/chunks/chunk_0.out" = Some "rows of step 0".
Proof.
  refine (failed_step_reported_done failing_agent _ later_step
    (mkJob "j" "" "" "d" 0 "c" "" "" 1 RawEmpty "" "" "p" "" "" RawEmpty "" "")
    (mkProcess "c" "" "" "d" "" 0 "" "" 0 "" RawEmpty false "" false [] 0 "" 0 0 [] "") (calm_mount ["mnt"])
    step0_done _ "/plugins/p.py" zeroManifest "rows of step 0" eq_refl eq_refl eq_refl _ eq_refl eq_refl _ eq_refl _
    eq_refl eq_refl eq_refl _ _); try discriminate; [reflexivity|].
  intros i h Hh. by eexists h, _.
Defined.

(** On a shared mount the result of a byte range, and of a list of files,
    is lost: the job succeeds, its work directory with the output is removed, and
    the file that a merge reads is not there. *)
Theorem shared_mount_result_lost (E : agent) (t : list string) (job : Job) (p : ProcessPayload)
    (b : StorageBackend) (w w' : world) :
  let out := mount_chunk (deriveMountBasePath (a_mountEnv E) "shared_mount") (p_DatasetID p) (p_ChunkIndex p) ".out" in
  let workDir := work_path t (j_ID job) [] in
  plain_workdir (a_tempDir E) t (j_ID job) -> below workDir out = false -> f_remove (a_faults E) workDir = None ->
  Forall (fun f => plain_name (Base (if IsAbs f then f
            else Join [deriveMountBasePath (a_mountEnv E) "shared_mount"; f]))) (p_FileList p) ->
  (forall path m i h, absent out (disk h) -> absent out (disk (s_Execute (a_services E) path m i h).1)) ->
  (forall j m h, absent out (disk h) -> absent out (disk (s_ExecuteJob (a_services E) j m h).1)) ->
  absent out (w_disk w) ->
  executeProcessChunkByteRange E job p b "shared_mount" w = (w', Ret tt) \/
  executeProcessChunkFileList E job p b "shared_mount" w = (w', Ret tt) ->
  absent out (w_disk w') /\ forall q, below workDir q = true -> absent q (w_disk w').
Proof.
  intros out workDir Hplain Haway Hr Hf Hexec Hv2 Hw Hrun.
  assert (Hd : Join [a_tempDir E; "sentra-" +:+ j_ID job] = workDir) by (by apply work_dir_path).
  split.
  - destruct Hrun as [Hrun|Hrun].
    + pose proof (stays_byte_range E t job p b Hplain Haway Hexec Hv2 w Hw) as H. by rewrite Hrun in H.
    + pose proof (stays_file_list E t job p b Hplain Haway Hexec Hv2 Hf w Hw) as H. by rewrite Hrun in H.
  - intros q Hq. destruct Hrun as [Hrun|Hrun]; eapply with_workdir_gone; try exact Hrun; by rewrite Hd.
Qed.

(** A plugin that writes its output where it is told to. *)
Definition obedient (i : RawMessage) (h : host) : host * comp PluginExecute.ExecutionResult :=
  (mkHost (with_files (<["/tmp/sentra-j/chunk_0.out" := "result"]> (files (disk h))) (disk h)) (objects h),
   Ret (mkExecResult "" "docker" 1 "")).

Definition obedient_agent : agent := plain_agent (plain_services (Some (calm_mount ["mnt"])) zeroManifest obedient).

Definition range_job : Job := mkJob "j" "" "" "d" 0 "c" "" "" 0 RawEmpty "" "" "p" "" "" RawEmpty "" "".
Definition range_payload : ProcessPayload :=
  mkProcess "c" "" "" "d" "" 0 "" "" 0 "" RawEmpty false "" false [] 0 "byte_range" 2 4 [] "data.bin".
Definition range_world : world := empty_world {["/mnt/data.bin" := "abcdef"]} ∅.

Lemma shared_mount_result_lost_witness :
  let r := executeProcessChunkByteRange obedient_agent range_job range_payload (calm_mount ["mnt"]) "shared_mount"
             range_world in
  r.2 = Ret tt /\ absent "/mnt/datasets/d/chunks/chunk_0.out" (w_disk r.1) /\
  absent "/tmp/sentra-j/chunk_0.out" (w_disk r.1).
Proof.
  intros r. assert (Hok : r.2 = Ret tt) by (vm_compute; reflexivity). split; [exact Hok|].
  destruct (shared_mount_result_lost obedient_agent ["tmp"] range_job range_payload (calm_mount ["mnt"]) range_world r.1)
    as [H1 H2]; try reflexivity.
  - split; [reflexivity|]. split; [apply Forall_singleton|]; repeat split; discriminate.
  - constructor.
  - intros path m i h H. apply (absent_insert _ "/tmp/sentra-j/chunk_0.out" "result" (disk h)); [done|exact H].
  - intros j m h H. exact H.
  - left. rewrite <- Hok. exact (surjective_pairing r).
  - split; [exact H1|]. by apply H2.
Defined.
