(* ===== verification/MergeHandler.v ===== *)
(** * MergeHandler: merge jobs

    Models [executeMergeDataset] and [executeConcatMerge] of
    [internal/dispatcher/handlers_unix.go]: the checks of a merge payload, the
    choice between a merge in the store and a merge of local files, and both
    merges. *)
From S2P Require Import Prelude GoFloat Json Path Encoding ExecutorV2 HttpClient PluginVerify PluginInstall PluginExecute.
From S2P Require Import Merge MergeTree Recovery Storage ObjectStore Handler ChunkHandler.
From Stdlib Require Import Ascii.
Local Open Scope handler_scope.

(** ** Payload *)

Record MergeChunk := mkMergeChunk { mc_ChunkID : string; mc_ChunkIndex : Z; mc_Path : string; mc_IsSkipped : bool }.

Record MergePayload := mkMergePayload {
  mp_DatasetID : string; mp_DatasetSlug : string; mp_AffinityDeviceID : string;
  mp_DeviceOutput : option DeviceOutput; mp_Strategy : string; mp_StorageMode : string;
  mp_StorageConfigID : string; mp_Chunks : list MergeChunk; mp_MountPath : string; mp_IsPartial : bool;
  mp_DeleteChunksAfter : bool; mp_Compressed : bool; mp_ChecksumRequired : bool; mp_UseTreeMerge : bool }.

Definition dec_chunk : decoder MergeChunk := fun cur j =>
  match j with
  | JNull => (cur, false)
  | JObj fs =>
      let '(i, e1) := field dec_string "chunk_id" (mc_ChunkID cur) fs in
      let '(n, e2) := field dec_int "chunk_index" (mc_ChunkIndex cur) fs in
      let '(p, e3) := field dec_string "path" (mc_Path cur) fs in
      let '(k, e4) := field dec_bool "is_skipped" (mc_IsSkipped cur) fs in
      (mkMergeChunk i n p k, e1 || e2 || e3 || e4)
  | _ => (cur, true)
  end.

Definition dec_device_output : decoder (option DeviceOutput) := fun cur j =>
  match j with
  | JNull => (None, false)
  | JObj fs =>
      let d := default (mkDeviceOutput "" "" "") cur in
      let '(i, e1) := field dec_string "device_id" (DeviceID d) fs in
      let '(m, e2) := field dec_string "mount_path" (MountPath d) fs in
      let '(f, e3) := field dec_string "file" (File d) fs in
      (Some (mkDeviceOutput i m f), e1 || e2 || e3)
  | _ => (cur, true)
  end.

Definition decodeMerge (fs : list (string * json)) : MergePayload * bool :=
  let str name := field dec_string name "" fs in
  let bool_ name := field dec_bool name false fs in
  let device := field dec_device_output "device_output" None fs in
  let chunks := field (dec_slice (mkMergeChunk "" 0 "" false) dec_chunk) "chunks" None fs in
  let bad := existsb (fun name => (str name).2)
      ["dataset_id"; "dataset_slug"; "affinity_device_id"; "strategy"; "storage_mode"; "storage_config_id";
       "mount_path"]
    || existsb (fun name => (bool_ name).2)
         ["is_partial"; "delete_chunks_after"; "compressed"; "checksum_required"; "use_tree_merge"]
    || device.2 || chunks.2 in
  (mkMergePayload (str "dataset_id").1 (str "dataset_slug").1 (str "affinity_device_id").1 device.1
     (str "strategy").1 (str "storage_mode").1 (str "storage_config_id").1 (default [] chunks.1)
     (str "mount_path").1 (bool_ "is_partial").1 (bool_ "delete_chunks_after").1 (bool_ "compressed").1
     (bool_ "checksum_required").1 (bool_ "use_tree_merge").1, bad).

Definition zeroMerge : MergePayload := mkMergePayload "" "" "" None "" "" "" [] "" false false false false false.

Section handler.
Context (E : agent).
(** What [MergeReaders] and the two merges need: the context before each reader,
    the environments of the merges, a sort; and the time and the faults of
    writing an artifact. *)
Context (ctxErr : nat -> error) (e : env) (ee : nat -> env) (stop : nat -> error) (renameFault : error).
Context (sortSlice : list ChunkInfo -> list ChunkInfo) (artifactErr : error * error) (now : Z).
Abbreviation F := (a_faults E).
Abbreviation V := (a_services E).

(** *** In the store *)

Definition result_key (p : MergePayload) (c : MergeChunk) (pathType : string) : string :=
  GetRemotePathWithSlug (mp_DatasetID p) (mp_DatasetSlug p) (mc_ChunkIndex c) pathType.

Definition merged_key (p : MergePayload) : string :=
  GetRemotePathWithSlug (mp_DatasetID p) (mp_DatasetSlug p) 0 "merged".

Fixpoint open_results (p : MergePayload) (b : StorageBackend) (ctx : string) (cs : list MergeChunk) (h : host)
    : comp (list reader) :=
  match cs with
  | [] => Ret []
  | c :: cs =>
      match ReadObject b (result_key p c "result") h with
      | Err x => Throw ("failed to read chunk " +:+ mc_ChunkID c +:+ ctx +:+ ": " +:+ x)
      | Ok r => match open_results p b ctx cs h with Ret rs => Ret (r :: rs) | Throw x => Throw x | Panic => Panic end
      end
  end.

(** A failed deletion is only logged. *)
Definition delete_key (b : StorageBackend) (key : string) : M unit := fun w =>
  (with_host (DeleteObject b key (w_host w)).1 w, Ret tt).

Definition delete_results (p : MergePayload) (b : StorageBackend) : M unit :=
  each (fun c => each (fun pathType => delete_key b (result_key p c pathType)) ["result"; "chunk"]) (mp_Chunks p).

Definition remote_merge (p : MergePayload) (b : StorageBackend) : M unit :=
  let* w := get in
  let* readers := lift (open_results p b "" (mp_Chunks p) (w_host w)) in
  let* merged := lift (of_Result "failed to merge readers: " (MergeReaders ctxErr readers)) in
  write_call "failed to write merged result: " (WriteObject b (merged_key p) merged);;
  delete_results p b.

(** [io.MultiReader]. *)
Fixpoint multi_reader (rs : list reader) : reader :=
  match rs with
  | [] => mkReader "" None
  | r :: rs =>
      match r_err r with
      | Some x => r
      | None => let tail := multi_reader rs in mkReader (r_data r +:+ r_data tail) (r_err tail)
      end
  end.

(** The local branch. *)
Definition append_result (mount mergedPath : string) (p : MergePayload) (c : MergeChunk) : M unit := fun w =>
  let chunkPath := mount_chunk mount (mp_DatasetID p) (mc_ChunkIndex c) ".out" in
  match os_Open (f_open F) chunkPath (w_disk w) with
  | Err x =>
      match f_open F chunkPath with
      | None => (w, Ret tt)
      | Some _ => (w, Throw ("failed to open chunk " +:+ mc_ChunkID c +:+ " for concat merge: " +:+ x))
      end
  | Ok r =>
      (call ("failed to append chunk " +:+ mc_ChunkID c +:+ ": ") (io_Copy (f_write F) mergedPath r);;
       ignore (fun s => match f_remove F chunkPath with Some x => (s, Some x) | None => (remove chunkPath s, None) end)) w
  end.

Definition local_concat (p : MergePayload) : M unit :=
  let mount := deriveMountBasePath (a_mountEnv E) (mp_Strategy p) in
  let mergedPath := Join [mount; "datasets"; mp_DatasetID p; "merged"] in
  call "failed to create merged output dir: " (os_MkdirAll (f_mkdir F) (Dir mergedPath));;
  call "failed to create merged file: " (os_Create (f_create F) mergedPath);;
  each (append_result mount mergedPath p) (mp_Chunks p).

Definition executeConcatMerge (p : MergePayload) (backend : option StorageBackend) : M unit :=
  match backend with
  | None => local_concat p
  | Some b =>
      let* w := get in
      let* readers := lift (open_results p b " for concat merge" (mp_Chunks p) (w_host w)) in
      write_call "failed to write concatenated result: " (WriteObject b (merged_key p) (multi_reader readers));;
      delete_results p b
  end.

(** *** Of local files *)

(** The path of a chunk of the payload. *)
Definition chunk_path (p : MergePayload) (c : MergeChunk) : comp string :=
  let path := mc_Path c in
  let strategy := if (mp_Strategy p =?s "") && (mp_StorageMode p =?s "shared_mount")
                  then "shared_mount" else mp_Strategy p in
  if strategy =?s "affinity" then
    if IsAbs path then Ret path
    else Throw ("affinity strategy requires absolute path for chunk " +:+ mc_ChunkID c)
  else if strategy =?s "shared_mount" then
    if path =?s "" then
      let mount := if mp_MountPath p =?s "" then deriveMountBasePath (a_mountEnv E) "shared_mount"
                   else mp_MountPath p in
      Ret (mount_chunk mount (mp_DatasetID p) (mc_ChunkIndex c) ".out")
    else if negb (IsAbs path) && negb (mp_MountPath p =?s "") then Ret (Join [mp_MountPath p; path])
    else Ret path
  else Ret path.

(** The chunk at position [i] of the payload. *)
Definition local_chunk (p : MergePayload) (i : Z) (c : MergeChunk) (s : fs) : comp ChunkInfo :=
  match chunk_path p c with
  | Throw x => Throw x
  | Panic => Panic
  | Ret path =>
      match os_Stat F path s with
      | StatMissing =>
          if mp_IsPartial p then Ret (mkChunk (mc_ChunkID c) path i 0 false "" true)
          else Throw ("missing chunk file (not declared as skipped): " +:+ path)
      | StatFault x => Throw ("failed to access chunk file " +:+ path +:+ ": " +:+ x)
      | StatDir => Throw ("chunk path is a directory, expected file: " +:+ path)
      | StatFile size => Ret (mkChunk (mc_ChunkID c) path i size (IsCompressed path) "" (mc_IsSkipped c))
      end
  end.

Fixpoint local_chunks (p : MergePayload) (i : Z) (cs : list MergeChunk) (s : fs) : comp (list ChunkInfo) :=
  match cs with
  | [] => Ret []
  | c :: cs =>
      match local_chunk p i c s with
      | Throw x => Throw x
      | Panic => Panic
      | Ret x => match local_chunks p (i + 1) cs s with Ret l => Ret (x :: l) | Throw y => Throw y | Panic => Panic end
      end
  end.

Definition merge_config (p : MergePayload) (chunks : list ChunkInfo) : MergeConfig :=
  let device := match mp_DeviceOutput p with
                | Some d => d
                | None =>
                    let mount := if mp_MountPath p =?s ""
                                 then deriveMountBasePath (a_mountEnv E) (first_nonempty [mp_Strategy p; mp_StorageMode p])
                                 else mp_MountPath p in
                    mkDeviceOutput (mp_AffinityDeviceID p) mount ""
                end in
  mkConfig (mp_DatasetID p) (mp_DatasetSlug p) (mp_AffinityDeviceID p) (Some device) chunks (mp_Strategy p)
    (mp_MountPath p) (mp_DeleteChunksAfter p) (mp_Compressed p) (mp_ChecksumRequired p) (mp_UseTreeMerge p) (a_ID E).

Definition local_merge (p : MergePayload) (chunks : list ChunkInfo) : M unit := fun w =>
  let config := merge_config p chunks in
  let '(r, s) := if mp_UseTreeMerge p then StreamMergeTree ee stop renameFault sortSlice e config (w_disk w)
                 else StreamMerge e sortSlice config (w_disk w) in
  let w := with_disk s w in
  match r with
  | MPanic => (w, Panic)
  | MErr x => (w, Throw ("merge failed: " +:+ x))
  | MOk r => (with_artifacts (EmitMergeCompletedEvent artifactErr.1 artifactErr.2 now (mp_AffinityDeviceID p) r
                                (a_ID E) (w_artifacts w)).1 w, Ret tt)
  end.

(** *** The handler *)

Definition is_concat (p : MergePayload) : bool :=
  (mp_Strategy p =?s "byte_range") || (mp_Strategy p =?s "file_per_chunk").

Definition check_merge (p : MergePayload) : comp unit :=
  if mp_DatasetID p =?s "" then Throw "missing dataset_id"
  else if negb (is_concat p) && (mp_AffinityDeviceID p =?s "")
          && (match mp_DeviceOutput p with None => true | Some _ => false end) && negb (mp_IsPartial p)
  then Throw "missing affinity_device_id or device_output"
  else if (match mp_Chunks p with [] => true | _ => false end) && negb (mp_IsPartial p)
  then Throw "no chunks provided"
  else Ret tt.

Definition merge_backend (p : MergePayload) : comp StorageBackend :=
  if negb (mp_StorageConfigID p =?s "")
  then backend_by_id V (mp_StorageConfigID p)
         (fun cfgMode => first_nonempty [mp_Strategy p; mp_StorageMode p; cfgMode])
  else global_backend V.

(** The nested payload gives a storage mode when the top level has none. *)
Definition nested_mode (job : Job) : string :=
  (Unmarshal_struct "" (fun fs => field dec_string "storage_mode" "" fs) (j_Payload job)).1.

Definition merge_mode (job : Job) (p : MergePayload) (b : StorageBackend) : string :=
  effective_mode (first_nonempty [mp_Strategy p; mp_StorageMode p; nested_mode job]) b.

Definition executeMergeDataset (payload : RawMessage) : M unit :=
  let* job := lift (decode "invalid payload: " zeroJob decodeJob payload) in
  let* p := lift (decode "invalid merge payload: " zeroMerge decodeMerge payload) in
  let* _ := lift (check_merge p) in
  let* b := lift (merge_backend p) in
  if is_concat p then executeConcatMerge p (Some b)
  else
    let mode := merge_mode job p b in
    if negb (mode =?s "shared_mount") && negb (mode =?s "affinity") then remote_merge p b
    else
      let* w := get in
      let* chunks := lift (local_chunks p 0 (mp_Chunks p) (w_disk w)) in
      local_merge p chunks.
End handler.

(** ** Merging in the store *)

(** The objects of the chunks were read in order. *)
Definition results_are (b : StorageBackend) (p : MergePayload) (datas : list string) (h : host) : Prop :=
  Forall2 (fun c data => contents b (result_key p c "result") h = Some data) (mp_Chunks p) datas.

Lemma open_results_all p b ctx h datas :
  results_are b p datas h -> open_results p b ctx (mp_Chunks p) h = Ret (map whole datas).
Proof.
  unfold results_are. induction 1 as [|c d cs ds Hd _ IH]; [done|]. cbn [open_results].
  apply contents_read in Hd. by rewrite Hd, IH.
Qed.

Lemma multi_reader_all datas : multi_reader (map whole datas) = whole (concat_str datas).
Proof. induction datas as [|d ds IH]; [done|]. simpl. by rewrite IH. Qed.

Lemma pump_all ctxErr i datas :
  (forall i, ctxErr i = None) -> pump ctxErr i (map whole datas) = whole (concat_str datas).
Proof. intros Hctx. revert i. induction datas as [|d ds IH]; intros i; [done|]. simpl. by rewrite Hctx, IH. Qed.

Lemma MergeReaders_all ctxErr datas :
  (forall i, ctxErr i = None) -> datas <> [] -> MergeReaders ctxErr (map whole datas) = Ok (whole (concat_str datas)).
Proof.
  intros Hctx Hne. destruct datas as [|d [|d' ds]]; [done| |].
  - unfold whole. simpl. by rewrite append_nil_r.
  - change (Ok (pump ctxErr 0 (map whole (d :: d' :: ds))) = Ok (whole (concat_str (d :: d' :: ds)))).
    by rewrite pump_all.
Qed.

(** The keys that a merge deletes. *)
Definition chunk_keys (p : MergePayload) (cs : list MergeChunk) : list string :=
  concat (map (fun c => [result_key p c "result"; result_key p c "chunk"]) cs).

Section store.
Context (p : MergePayload) (b : StorageBackend) (valid : string -> Prop) (good : host -> Prop).
Context `{Hstore : !ObjectStore b valid good}.
Context (Hvalid : forall k, dataset_key (mp_DatasetID p) (mp_DatasetSlug p) k -> valid k).

(** What a merge in the store leaves. *)
Record merged_remotely (merged : string) (w w' : world) : Prop := {
  mr_good : good (w_host w');
  mr_merged : contents b (merged_key p) (w_host w') = Some merged;
  mr_gone k : k ∈ chunk_keys p (mp_Chunks p) -> contents b k (w_host w') = None;
  mr_others k : valid k -> k <> merged_key p -> (k ∉ chunk_keys p (mp_Chunks p)) ->
    contents b k (w_host w') = contents b k (w_host w) }.

Lemma delete_key_runs k w :
  valid k -> good (w_host w) -> exists w', delete_key b k w = (w', Ret tt) /\ good (w_host w') /\
    contents b k (w_host w') = None /\
    (forall k', valid k' -> k' <> k -> contents b k' (w_host w') = contents b k' (w_host w)).
Proof.
  intros Hk Hg. destruct (store_delete k (w_host w) Hk Hg) as (h' & x & E & H).
  exists (with_host h' w). unfold delete_key. by rewrite E.
Qed.

Lemma each_delete_runs keys w :
  Forall valid keys -> good (w_host w) -> exists w', each (delete_key b) keys w = (w', Ret tt) /\
    good (w_host w') /\ (forall k, k ∈ keys -> contents b k (w_host w') = None) /\
    (forall k, valid k -> (k ∉ keys) -> contents b k (w_host w') = contents b k (w_host w)).
Proof.
  intros Hv. revert w. induction Hv as [|k keys Hk Hv IH]; intros w Hg.
  - exists w. split; [done|]. split; [done|]. split; [by intros k ?%elem_of_nil|done].
  - destruct (delete_key_runs k w Hk Hg) as (w1 & E1 & Hg1 & Hgone & Hsame).
    destruct (IH w1 Hg1) as (w2 & E2 & Hg2 & Hgone2 & Hsame2).
    exists w2. cbn [each]. unfold mbind. rewrite E1, E2. split; [done|]. split; [done|]. split.
    + intros k' [->|Hin]%elem_of_cons; [|by apply Hgone2].
      destruct (decide (k ∈ keys)) as [Hin|Hnin]; [by apply Hgone2|]. by rewrite Hsame2.
    + intros k' Hk' Hnin. apply not_elem_of_cons in Hnin as [Hne Hnin].
      rewrite Hsame2 by done. by apply Hsame.
Qed.

Lemma each_app {A} (f : A -> M unit) l k w w' :
  each f l w = (w', Ret tt) -> each f (l ++ k) w = each f k w'.
Proof.
  revert w. induction l as [|x l IH]; intros w E; [by injection E as ->|]. cbn [each app] in *. unfold mbind in *.
  destruct (f x w) as [w1 [[]| |]]; [by apply IH|done|done].
Qed.

Lemma delete_results_flat w :
  delete_results p b w = each (delete_key b) (chunk_keys p (mp_Chunks p)) w.
Proof.
  unfold delete_results, chunk_keys. revert w. induction (mp_Chunks p) as [|c cs IH]; intros w; [done|].
  cbn [each map concat app]. unfold mbind, delete_key. cbn [ret]. rewrite IH. done.
Qed.

Lemma chunk_keys_valid : Forall valid (chunk_keys p (mp_Chunks p)).
Proof.
  unfold chunk_keys. induction (mp_Chunks p) as [|c cs IH]; [constructor|]. simpl.
  constructor; [apply Hvalid; constructor|]. constructor; [apply Hvalid; constructor|done].
Qed.

Lemma merged_not_deleted : merged_key p ∉ chunk_keys p (mp_Chunks p).
Proof.
  unfold chunk_keys. induction (mp_Chunks p) as [|c cs IH]; [apply not_elem_of_nil|]. simpl.
  rewrite !not_elem_of_cons. split; [|split; [|done]]; apply key_merged_chunk; auto.
Qed.

(** Write the merged object, and delete the chunks. *)
Lemma write_and_delete ctx merged w :
  good (w_host w) -> exists w',
    mbind (write_call ctx (WriteObject b (merged_key p) (whole merged))) (fun _ => delete_results p b) w
      = (w', Ret tt) /\ merged_remotely merged w w'.
Proof.
  intros Hg. destruct (store_write (merged_key p) (whole merged) (w_host w)) as (h1 & E1 & Hg1 & Hm & Hsame);
    [apply Hvalid; constructor|done|done|].
  destruct (each_delete_runs _ (with_host h1 w) chunk_keys_valid Hg1) as (w2 & E2 & Hg2 & Hgone & Hsame2).
  exists w2. unfold mbind, write_call. rewrite E1, delete_results_flat, E2. split; [done|].
  split; [done| |done|].
  - rewrite Hsame2; [done|apply Hvalid; constructor|apply merged_not_deleted].
  - intros k Hk Hne Hnin. rewrite Hsame2 by done. by apply Hsame.
Qed.
End store.

(** ** The job *)

(** The payload is that of a merge job, and its backend is there. *)
Record merge_job (E : agent) (payload : RawMessage) (job : Job) (p : MergePayload) (b : StorageBackend) : Prop := {
  mj_job : decode "invalid payload: " zeroJob decodeJob payload = Ret job;
  mj_payload : decode "invalid merge payload: " zeroMerge decodeMerge payload = Ret p;
  mj_checked : check_merge p = Ret tt;
  mj_backend : merge_backend E p = Ret b }.

Definition in_store (job : Job) (p : MergePayload) (b : StorageBackend) : bool :=
  is_concat p || negb (merge_mode job p b =?s "shared_mount") && negb (merge_mode job p b =?s "affinity").

Section job.
Context (E : agent) (ctxErr : nat -> error) (e : env) (ee : nat -> env) (stop : nat -> error) (renameFault : error).
Context (sortSlice : list ChunkInfo -> list ChunkInfo) (artifactErr : error * error) (now : Z).
Abbreviation run := (executeMergeDataset E ctxErr e ee stop renameFault sortSlice artifactErr now).

Lemma run_in_store payload job p b w :
  merge_job E payload job p b -> in_store job p b = true ->
  run payload w = (if is_concat p then executeConcatMerge E p (Some b) else remote_merge ctxErr p b) w.
Proof.
  intros [Hj Hp Hc Hb] Hin. unfold executeMergeDataset, in_store in *. rewrite Hj, Hp. unfold mbind, lift.
  rewrite Hc, Hb. destruct (is_concat p); [done|]. simpl in Hin. by rewrite Hin.
Qed.

Lemma run_local payload job p b w cs :
  merge_job E payload job p b -> in_store job p b = false -> local_chunks E p 0 (mp_Chunks p) (w_disk w) = Ret cs ->
  run payload w = local_merge E e ee stop renameFault sortSlice artifactErr now p cs w.
Proof.
  intros [Hj Hp Hc Hb] Hin Hcs. unfold executeMergeDataset, in_store in *. rewrite Hj, Hp. unfold mbind, lift.
  rewrite Hc, Hb. apply orb_false_elim in Hin as [-> Hin]. rewrite Hin. unfold get. by rewrite Hcs.
Qed.

Lemma concat_is_in_store payload job p b :
  merge_job E payload job p b -> is_concat p = true -> in_store job p b = true.
Proof. intros _ H. unfold in_store. by rewrite H. Qed.
End job.

(** A missing result stops both merges before they change anything. *)
Lemma open_results_missing p b ctx cs c x h :
  c ∈ cs -> ReadObject b (result_key p c "result") h = Err x -> exists y, open_results p b ctx cs h = Throw y.
Proof.
  intros Hin Hx. induction cs as [|c' cs IH]; [by apply elem_of_nil in Hin|]. cbn [open_results].
  destruct (ReadObject b (result_key p c' "result") h) eqn:E'; [|by eexists].
  apply elem_of_cons in Hin as [->|Hin]; [congruence|]. destruct (IH Hin) as [y ->]. by eexists.
Qed.

(** ** Local chunks *)

Section local.
Context (E : agent).

(** The file of a chunk. *)
Definition chunk_file_is (p : MergePayload) (s : fs) (c : MergeChunk) (data : string) : Prop :=
  exists path, chunk_path E p c = Ret path /\ IsAbs path = true /\ f_stat (a_faults E) path = None /\
    files s !! path = Some data.

Lemma local_chunks_all p i cs s datas :
  Forall2 (chunk_file_is p s) cs datas ->
  exists l, local_chunks E p i cs s = Ret l /\
    Forall2 (fun c x => IsSkipped x = mc_IsSkipped c /\ Checksum x = "" /\ IsAbs (chunk_Path x) = true) cs l /\
    Forall2 (fun x data => files s !! chunk_Path x = Some data) l datas /\
    forall j x, l !! j = Some x -> Index x = i + Z.of_nat j.
Proof.
  intros H. revert i. induction H as [|c d cs ds (path & Hp & Habs & Hst & Hf) _ IH]; intros i.
  - exists []. split; [done|]. split; [constructor|]. split; [constructor|done].
  - destruct (IH (i + 1)) as (l & El & Hl & Hd & Hi). cbn [local_chunks]. unfold local_chunk, os_Stat.
    rewrite Hp, Hst, Hf, El. eexists. split; [reflexivity|]. split; [by constructor|]. split; [by constructor|].
    intros [|j] x Hj; [injection Hj as <-; simpl; lia|]. rewrite (Hi j x Hj). lia.
Qed.
End local.

Lemma active_Forall2 {A} (R : ChunkInfo -> A -> Prop) l k :
  Forall2 R l k -> Forall2 R (active l) (map snd (List.filter (fun xd => negb (IsSkipped xd.1)) (zip l k))).
Proof.
  unfold active. induction 1 as [|x d l k Hx _ IH]; [constructor|]. simpl. destruct (IsSkipped x); simpl; [done|].
  by constructor.
Qed.

(** Chunks listed by position stay in this order. *)
Lemma positions_sorted e sortSlice config s :
  SliceSort (fun x y => Index x <? Index y) sortSlice ->
  (forall j x, Chunks config !! j = Some x -> Index x = Z.of_nat j) ->
  sorted_active e sortSlice config s = map (with_checksum e s) (active (Chunks config)).
Proof.
  intros Hsort Hi. unfold sorted_active. apply sort_increasing; [done|done|].
  apply increasing_map; [intros c; unfold with_checksum; destruct (_ =?s _); [|done];
    by destruct (computeChunkChecksum _ _ _) as [[? ?]|]|].
  assert (H : increasing (Chunks config)).
  { assert (H : Chunks config = imap (fun _ x => x) (Chunks config)).
    { generalize (Chunks config). intros l. induction l as [|x l IH]; [done|]. rewrite imap_cons. by f_equal. }
    clear - Hi. assert (G : forall a l, (forall j x, l !! j = Some x -> Index x = Z.of_nat (a + j)) -> increasing l).
    { intros a l. revert a. induction l as [|x l IH]; intros a Hl; [constructor|]. constructor.
      - apply (IH (S a)). intros j y Hj. rewrite (Hl (S j) y Hj). f_equal. lia.
      - apply Forall_lookup. intros j y Hj. rewrite (Hl 0%nat x eq_refl), (Hl (S j) y Hj). lia. }
    by apply (G 0%nat). }
  clear Hi. unfold active. unfold increasing in *. induction H as [|x l _ IH Hx]; [constructor|]. simpl.
  destruct (negb (IsSkipped x)); [|done]. constructor; [done|].
  rewrite Forall_forall in Hx |- *. intros y Hy. apply Hx. apply list_elem_of_In, filter_In in Hy as [Hy _].
  by apply list_elem_of_In.
Qed.

(** The contents of the chunks that are not declared as skipped, in the order of
    the payload. *)
Definition included (cs : list MergeChunk) (datas : list string) : list string :=
  map snd (List.filter (fun cd => negb (mc_IsSkipped cd.1)) (zip cs datas)).

Lemma included_active cs (l : list ChunkInfo) datas :
  Forall2 (fun c x => IsSkipped x = mc_IsSkipped c /\ Checksum x = "" /\ IsAbs (chunk_Path x) = true) cs l ->
  length l = length datas ->
  map snd (List.filter (fun xd => negb (IsSkipped xd.1)) (zip l datas)) = included cs datas.
Proof.
  intros H. revert datas. unfold included. induction H as [|c x cs l (Hs & _) _ IH]; intros [|d ds] Hlen; [done..|].
  simpl. rewrite Hs. destruct (mc_IsSkipped c); simpl; rewrite IH by (by injection Hlen); done.
Qed.

Lemma chunk_data_paths config s l datas :
  Forall2 (fun x data => files s !! chunk_Path x = Some data) l datas ->
  Forall (fun x => IsAbs (chunk_Path x) = true) l ->
  map (chunk_data config s) l = datas.
Proof.
  induction 1 as [|x d l ds Hx _ IH]; intros Hall; [done|]. apply Forall_cons in Hall as [Ha Hall]. simpl.
  rewrite IH by done. f_equal. unfold chunk_data, resolveChunkPath. by rewrite Ha, Hx.
Qed.

Section local_merge.
Context (E : agent) (e : env) (ee : nat -> env) (stop : nat -> error) (renameFault : error).
Context (sortSlice : list ChunkInfo -> list ChunkInfo) (artifactErr : error * error) (now : Z).
Context (Hsort : SliceSort (fun x y => Index x <? Index y) sortSlice).

Lemma local_merge_runs p cs datas w :
  timed e -> mp_DatasetID p <> "" -> a_ID E <> "" -> mp_UseTreeMerge p = false -> mp_Compressed p = false ->
  local_chunks E p 0 (mp_Chunks p) (w_disk w) = Ret cs -> Forall2 (chunk_file_is E p (w_disk w)) (mp_Chunks p) datas ->
  let config := merge_config E p cs in
  well_placed config (w_disk w) -> fresh config (w_disk w) ->
  enough_space e (sorted_active e sortSlice config (w_disk w)) ->
  exists w', local_merge E e ee stop renameFault sortSlice artifactErr now p cs w = (w', Ret tt) /\
    files (w_disk w') !! output_of config = Some (concat_str (included (mp_Chunks p) datas)).
Proof.
  intros He Hds Hag Htree Hplain Hcs Hfiles config Hwp [Hnp Hnc] Hspace.
  destruct (local_chunks_all E p 0 _ _ _ Hfiles) as (cs' & E' & Hl & Hd & Hi).
  assert (cs' = cs) by congruence. subst cs'.
  destruct (StreamMerge_runs e sortSlice Hsort config (w_disk w) 0 He Hds Hag Hwp Hspace) as (r & s' & Er & Hto & _);
    [by rewrite Hnc|].
  unfold local_merge. rewrite Htree. fold config. rewrite Er. eexists. split; [reflexivity|].
  destruct Hto as (Hout & _). transitivity (files s' !! output_of config); [done|]. rewrite Hout. f_equal.
  unfold content_from. rewrite Hnp. change (Z.to_nat 0) with 0%nat. cbn [default from_option].
  rewrite (positions_sorted e sortSlice config) by done.
  rewrite (map_ext _ (chunk_data config (w_disk w))) by (intros; by apply chunk_out_plain).
  rewrite drop_0, map_map. change (Chunks config) with cs.
  rewrite (map_ext _ (chunk_data config (w_disk w)))
    by (intros c; unfold chunk_data; by rewrite with_checksum_path).
  assert (Hlen : length cs = length datas) by (eapply Forall2_length; exact Hd).
  rewrite <- (included_active (mp_Chunks p) cs datas Hl Hlen).
  rewrite (chunk_data_paths config (w_disk w) (active cs) _ (active_Forall2 _ _ _ Hd)); [done|].
  apply Forall_forall. intros x Hx. apply list_elem_of_In, filter_In in Hx as [Hx _].
  apply list_elem_of_In in Hx. apply list_elem_of_lookup in Hx as [j Hj].
  apply (Forall2_lookup_r _ _ _ _ _ Hl) in Hj as (c & _ & _ & _ & Ha). exact Ha.
Qed.
End local_merge.

(** ** Properties *)

(** C12.  A merge job that merges in the store writes the results of the chunks,
    concatenated in the order of the payload, removes the result and the input of
    every chunk, and leaves the other objects; when a result
    cannot be read, the job fails and nothing has changed. *)
Theorem remote_merge_correct (E : agent) ctxErr e ee stop renameFault sortSlice artifactErr now
    (payload : RawMessage) (job : Job) (p : MergePayload) (b : StorageBackend) (good : host -> Prop) (w : world) :
  merge_job E payload job p b -> in_store job p b = true ->
  let run := executeMergeDataset E ctxErr e ee stop renameFault sortSlice artifactErr now payload in
  (forall datas valid, ObjectStore b valid good ->
     (forall k, dataset_key (mp_DatasetID p) (mp_DatasetSlug p) k -> valid k) -> (forall i, ctxErr i = None) -> mp_Chunks p <> [] -> good (w_host w) -> results_are b p datas (w_host w) ->
     exists w', run w = (w', Ret tt) /\ merged_remotely p b valid good (concat_str datas) w w') /\
  (forall c x, c ∈ mp_Chunks p -> ReadObject b (result_key p c "result") (w_host w) = Err x ->
     exists y, run w = (w, Throw y)).
Proof.
  intros Hjob Hin run. subst run. rewrite (run_in_store E ctxErr e ee stop renameFault sortSlice artifactErr now
    payload job p b w Hjob Hin). split.
  - intros datas valid Hstore Hvalid Hctx Hne Hg Hres.
    assert (Hds : datas <> []) by (intros ->; by apply Forall2_nil_inv_r in Hres).
    destruct (is_concat p).
    + destruct (write_and_delete p b valid good Hvalid "failed to write concatenated result: " (concat_str datas) w Hg)
        as (w' & Er & H). exists w'. split; [|done].
      unfold executeConcatMerge, mbind, get, lift. by rewrite (open_results_all p b _ _ _ Hres), multi_reader_all.
    + destruct (write_and_delete p b valid good Hvalid "failed to write merged result: " (concat_str datas) w Hg)
        as (w' & Er & H). exists w'. split; [|done].
      unfold remote_merge, mbind, get, lift. by rewrite (open_results_all p b _ _ _ Hres), MergeReaders_all.
  - intros c x Hc Hx. destruct (is_concat p).
    + destruct (open_results_missing p b " for concat merge" _ c x _ Hc Hx) as [y Hy]. exists y.
      unfold executeConcatMerge, mbind, get, lift. by rewrite Hy.
    + destruct (open_results_missing p b "" _ c x _ Hc Hx) as [y Hy]. exists y.
      unfold remote_merge, mbind, get, lift. by rewrite Hy.
Qed.

Definition demo_merge_payload : RawMessage :=
  Raw (JObj [("job_id", JStr "j"); ("dataset_id", JStr "d"); ("strategy", JStr "byte_range");
             ("chunks", JArr [JObj [("chunk_id", JStr "c0")]; JObj [("chunk_id", JStr "c1"); ("chunk_index", JNum "1")]])]).

Definition demo_merge : MergePayload :=
  mkMergePayload "d" "" "" None "byte_range" "" "" [mkMergeChunk "c0" 0 "" false; mkMergeChunk "c1" 1 "" false]
    "" false false false false false.

Definition demo_agent (b : StorageBackend) : agent :=
  plain_agent (plain_services (Some b) zeroManifest (fun _ h => (h, Throw "not run"))).

Definition demo_results : world :=
  empty_world ∅ {["https://s3/b/d/chunks/chunk_0.out" := "ab"; "https://s3/b/d/chunks/chunk_1.out" := "c"]}.

Lemma remote_merge_correct_witness :
  exists w', executeMergeDataset (demo_agent memory_store) (fun _ => None) calm_env (fun _ => calm_env) (fun _ => None)
      None (sort_by Index) (None, None) 0 demo_merge_payload demo_results = (w', Ret tt) /\
    contents memory_store "d_merged.csv" (w_host w') = Some "abc" /\
    contents memory_store "d/chunks/chunk_0.out" (w_host w') = None.
Proof.
  assert (Hj : merge_job (demo_agent memory_store) demo_merge_payload
                 (mkJob "j" "" "" "d" 0 "" "" "" 0 RawEmpty "" "" "" "" "" RawEmpty "" "") demo_merge memory_store)
    by (split; reflexivity).
  assert (Hs : RemoteStore memory_store (dataset_key "d" "") (fun _ => True)).
  { apply memory_remote. intros k. apply dataset_object_key; done. }
  destruct (remote_merge_correct (demo_agent memory_store) (fun _ => None) calm_env (fun _ => calm_env) (fun _ => None)
    None (sort_by Index) (None, None) 0 demo_merge_payload _ demo_merge memory_store (fun _ => True) demo_results Hj
    eq_refl) as [H _].
  destruct (H ["ab"; "c"] _ _ (fun _ Hk => Hk) (fun _ => eq_refl) ltac:(discriminate) I) as (w' & Er & Hm).
  { constructor; [|constructor; [|constructor]]; rewrite memory_contents; reflexivity. }
  exists w'. split; [exact Er|]. split; [apply Hm|]. apply (mr_gone _ _ _ _ _ _ _ Hm).
  change ("d/chunks/chunk_0.out" ∈ chunk_keys demo_merge (mp_Chunks demo_merge)). left.
Defined.

(** A merge of byte ranges or of files by chunk whose payload names a
    storage configuration always fails: the strategy is taken for the storage
    mode, for which there is no backend. *)
Theorem configured_concat_fails (E : agent) ctxErr e ee stop renameFault sortSlice artifactErr now
    (payload : RawMessage) (job : Job) (p : MergePayload) (s3 : string -> string -> string -> S3Credentials -> StorageBackend)
    (shared : string -> StorageBackend) (w : world) :
  decode "invalid payload: " zeroJob decodeJob payload = Ret job ->
  decode "invalid merge payload: " zeroMerge decodeMerge payload = Ret p ->
  is_concat p = true -> mp_StorageConfigID p <> "" ->
  s_NewBackend (a_services E) = NewBackend s3 shared ->
  exists x, executeMergeDataset E ctxErr e ee stop renameFault sortSlice artifactErr now payload w = (w, Throw x).
Proof.
  intros Hj Hp Hc Hid Hnew. unfold executeMergeDataset, mbind, lift. rewrite Hj, Hp.
  destruct (check_merge p) as [[]|x|] eqn:Hchk; [|by eexists|].
  2:{ exfalso. unfold check_merge in Hchk. by repeat case_match. }
  unfold merge_backend. rewrite (eqb_neq_s _ _ Hid). cbn [negb]. unfold backend_by_id.
  destruct (s_GetConfigByID _ _) as [cfg|x]; [|by eexists]. rewrite Hnew.
  assert (Hm : first_nonempty [mp_Strategy p; mp_StorageMode p; StorageMode cfg] = mp_Strategy p /\
               (mp_Strategy p = "byte_range" \/ mp_Strategy p = "file_per_chunk")).
  { unfold is_concat in Hc. apply orb_true_iff in Hc as [E1|E1]; apply String.eqb_eq in E1; rewrite E1; auto. }
  destruct Hm as (-> & [-> | ->]); by eexists.
Qed.

Definition configured_agent : agent :=
  plain_agent (mkServices (fun _ => Ok (mkStorageConfig "s3" "" "b" "r" "https://s3" "" None ""))
    (NewBackend (fun _ _ _ _ => memory_store) (fun _ => memory_store)) (Some memory_store) (Ok [])
    (fun s => (s, Ret "/plugins")) (fun _ _ s => (s, Ret false)) (fun _ s => (s, Throw "no plugin"))
    (fun _ _ => Ret "code") (fun _ _ _ h => (h, Throw "not run")) (fun _ _ h => (h, Err "no runtime"))).

Definition configured_payload : RawMessage :=
  Raw (JObj [("dataset_id", JStr "d"); ("strategy", JStr "byte_range"); ("storage_config_id", JStr "cfg");
             ("chunks", JArr [JObj []])]).

Lemma configured_concat_fails_witness :
  exists x, executeMergeDataset configured_agent (fun _ => None) calm_env (fun _ => calm_env) (fun _ => None) None
      (sort_by Index) (None, None) 0 configured_payload demo_results = (demo_results, Throw x).
Proof.
  exact (configured_concat_fails configured_agent (fun _ => None) calm_env (fun _ => calm_env) (fun _ => None) None
    (sort_by Index) (None, None) 0 configured_payload
    (mkJob "" "" "" "d" 0 "" "" "" 0 RawEmpty "" "" "" "" "" RawEmpty "" "cfg")
    (mkMergePayload "d" "" "" None "byte_range" "" "cfg" [mkMergeChunk "" 0 "" false] "" false false false false false)
    (fun _ _ _ _ => memory_store) (fun _ => memory_store) demo_results eq_refl eq_refl eq_refl
    ltac:(discriminate) eq_refl).
Defined.

(** A merge of local files writes the files of the chunks that are not
    declared as skipped in the order in which the payload lists them: the index
    of a chunk only names its file. *)
Theorem local_merge_in_order (E : agent) ctxErr e ee stop renameFault sortSlice artifactErr now
    (payload : RawMessage) (job : Job) (p : MergePayload) (b : StorageBackend) (cs : list ChunkInfo)
    (datas : list string) (w : world) :
  SliceSort (fun x y => Index x <? Index y) sortSlice ->
  merge_job E payload job p b -> in_store job p b = false ->
  mp_UseTreeMerge p = false -> mp_Compressed p = false -> a_ID E <> "" -> timed e ->
  Forall2 (chunk_file_is E p (w_disk w)) (mp_Chunks p) datas ->
  local_chunks E p 0 (mp_Chunks p) (w_disk w) = Ret cs ->
  let config := merge_config E p cs in
  well_placed config (w_disk w) -> fresh config (w_disk w) ->
  enough_space e (sorted_active e sortSlice config (w_disk w)) ->
  exists w', executeMergeDataset E ctxErr e ee stop renameFault sortSlice artifactErr now payload w = (w', Ret tt) /\
    files (w_disk w') !! output_of config = Some (concat_str (included (mp_Chunks p) datas)).
Proof.
  intros Hsort Hjob Hin Htree Hplain Hag He Hfiles Hcs config Hwp Hfr Hspace.
  rewrite (run_local E ctxErr e ee stop renameFault sortSlice artifactErr now payload job p b w cs Hjob Hin Hcs).
  apply local_merge_runs; try done.
  intros Hid. destruct Hjob as [_ _ Hchk _]. unfold check_merge in Hchk. by rewrite Hid in Hchk.
Qed.

Definition local_payload : RawMessage :=
  Raw (JObj [("dataset_id", JStr "d"); ("affinity_device_id", JStr "dev"); ("storage_mode", JStr "shared_mount");
             ("chunks", JArr [JObj [("chunk_index", JNum "1")]; JObj [("chunk_index", JNum "0")]])]).

Definition local_job : MergePayload :=
  mkMergePayload "d" "" "dev" None "" "shared_mount" "" [mkMergeChunk "" 1 "" false; mkMergeChunk "" 0 "" false]
    "" false false false false false.

Definition mount_files : world :=
  empty_world {["/mnt/datasets/d/chunks/chunk_0.out" := "zero"; "/mnt/datasets/d/chunks/chunk_1.out" := "one"]} ∅.

Lemma local_merge_in_order_witness :
  exists w', executeMergeDataset (demo_agent (calm_mount ["mnt"])) (fun _ => None) calm_env (fun _ => calm_env)
      (fun _ => None) None (sort_by Index) (None, None) 0 local_payload mount_files = (w', Ret tt) /\
    files (w_disk w') !! "/mnt/d_merged.csv" = Some "onezero".
Proof.
  set (cs := [mkChunk "" "/mnt/datasets/d/chunks/chunk_1.out" 0 3 false "" false;
              mkChunk "" "/mnt/datasets/d/chunks/chunk_0.out" 1 4 false "" false]).
  refine (local_merge_in_order (demo_agent (calm_mount ["mnt"])) (fun _ => None) calm_env (fun _ => calm_env)
    (fun _ => None) None (sort_by Index) (None, None) 0 local_payload
    (mkJob "" "" "" "d" 0 "" "" "" 0 RawEmpty "shared_mount" "" "" "" "" RawEmpty "" "") local_job
    (calm_mount ["mnt"]) cs ["one"; "zero"] mount_files _ _ eq_refl eq_refl eq_refl
    ltac:(discriminate) calm_timed _ _ _ _ _).
  - split; reflexivity.
  - constructor; [|constructor; [|constructor]]; eexists; (split; [reflexivity|]); by vm_compute.
  - reflexivity.
  - solve_placed.
  - by split.
  - vm_compute. discriminate.
Defined.
