(* ===== verification/Pipeline.v ===== *)
(** * Pipeline: from byte ranges to the merged result

    The composition of ChunkHandler and MergeHandler on a remote store: a source
    object is cut into byte ranges, each range is processed by a plugin, and the
    results are merged.  The store is known by its contract, the plugin by the
    function it computes. *)
From S2P Require Import Prelude GoFloat Json Path Encoding ExecutorV2 HttpClient PluginVerify PluginInstall PluginExecute.
From S2P Require Import Merge MergeTree Recovery Storage ObjectStore Handler ChunkHandler MergeHandler.
Local Open Scope handler_scope.

(** ** Parts of a text *)

Definition slice (start end_ : Z) (data : string) : string :=
  str_take (Z.to_nat (end_ - start)) (str_drop (Z.to_nat start) data).

Lemma str_take_drop n s : str_take n s +:+ str_drop n s = s.
Proof.
  revert s. induction n as [|n IH]; intros s; [done|]. destruct s as [|c s]; [done|].
  cbn [str_take str_drop]. rewrite append_cons. by rewrite IH.
Qed.

Lemma str_drop_drop n k s : str_drop n (str_drop k s) = str_drop (k + n) s.
Proof.
  revert s. induction k as [|k IH]; intros s; [done|]. destruct s as [|c s]; [by destruct n|]. apply IH.
Qed.

Lemma str_take_plus n k s : str_take (n + k) s = str_take n s +:+ str_take k (str_drop n s).
Proof.
  revert s. induction n as [|n IH]; intros s; [done|]. destruct s as [|c s]; [by destruct k|].
  cbn [Nat.add str_take str_drop]. rewrite append_cons. by rewrite IH.
Qed.

Lemma str_take_length n s : (n <= String.length s)%nat -> String.length (str_take n s) = n.
Proof.
  revert s. induction n as [|n IH]; intros [|c s] Hn; simpl in *; try lia. rewrite IH; lia.
Qed.

Lemma str_drop_length_eq n s : String.length (str_drop n s) = (String.length s - n)%nat.
Proof. revert s. induction n as [|n IH]; intros [|c s]; simpl; [done..|]. apply IH. Qed.

Lemma str_take_all n s : (String.length s <= n)%nat -> str_take n s = s.
Proof.
  revert s. induction n as [|n IH]; intros [|c s] Hn; simpl in *; try done; [lia|]. rewrite IH; [done|lia].
Qed.

Lemma slice_app a m c data : 0 <= a <= m -> m <= c -> slice a m data +:+ slice m c data = slice a c data.
Proof.
  intros Ha Hm. unfold slice. replace (Z.to_nat (c - a)) with (Z.to_nat (m - a) + Z.to_nat (c - m))%nat by lia.
  rewrite str_take_plus, str_drop_drop. by replace (Z.to_nat a + Z.to_nat (m - a))%nat with (Z.to_nat m) by lia.
Qed.

Lemma slice_all data : slice 0 (Z.of_nat (String.length data)) data = data.
Proof. unfold slice. change (str_drop (Z.to_nat 0) data) with data. apply str_take_all. lia. Qed.

Lemma slice_length a c data :
  0 <= a <= c -> c <= Z.of_nat (String.length data) -> String.length (slice a c data) = Z.to_nat (c - a).
Proof. intros Ha Hc. unfold slice. apply str_take_length. rewrite str_drop_length_eq. lia. Qed.

(** Ranges that follow one another from [a] to [c]. *)
Fixpoint consecutive (a c : Z) (l : list (Z * Z)) : Prop :=
  match l with
  | [] => a = c
  | (x, y) :: l => x = a /\ x <= y /\ consecutive y c l
  end.

Lemma consecutive_le a c l : consecutive a c l -> a <= c.
Proof. revert a. induction l as [|[x y] l IH]; simpl; intros a; [lia|]. intros (-> & Hxy & Hl). apply IH in Hl. lia. Qed.

(** A function that treats parts one by one gives the same on the whole. *)
Lemma consecutive_slices (f : string -> string) a c l data :
  f "" = "" -> (forall s u, f (s +:+ u) = f s +:+ f u) -> 0 <= a -> consecutive a c l ->
  concat_str (map (fun r => f (slice r.1 r.2 data)) l) = f (slice a c data).
Proof.
  intros H0 Hf. revert a. induction l as [|[x y] l IH]; intros a Ha Hl.
  - simpl in Hl. subst c. unfold slice. rewrite Z.sub_diag. symmetry. exact H0.
  - destruct Hl as (-> & Hxy & Hl). simpl. rewrite (IH y) by (lia || done).
    rewrite <- Hf, slice_app; [done|lia|by eapply consecutive_le].
Qed.

(** ** One range *)

Section pipeline.
Context (E : agent) (HF : a_faults E = no_disk_faults) (t : list string).
Context (Htemp : a_tempDir E = abs_path t) (Ht : Forall plain_name t).
Context (b : StorageBackend) (id slug source : string) (good : host -> Prop) (f : string -> string).

(** The source and the objects of the data set. *)
Definition pipeline_key (k : string) : Prop := dataset_key id slug k \/ k = source.

Context `{Hstore : !RemoteStore b pipeline_key good} (Hsource : ~ dataset_key id slug source) (Hne : source <> "").

(** Every plugin is installed and computes [f], from its input file to its
    output file. *)
Record plugin_computes : Prop := {
  pl_load name pl : name <> "" -> exists pl' path m,
    s_LoadAndUpdatePlugin (a_services E) name pl = (pl', Ret (path, m));
  pl_run path m c h d : pc_Config c <> RawInvalid -> files (disk h) !! pc_InputPath c = Some d -> exists h' r,
    s_Execute (a_services E) path m (marshal_context c) h = (h', Ret r) /\ objects h' = objects h /\
    dirs (disk h') = dirs (disk h) /\ files (disk h') !! pc_OutputPath c = Some (f d) }.

Context (Hplugin : plugin_computes).

(** A chunk of the source. *)
Record range_chunk (len : Z) (jp : Job * ProcessPayload) : Prop := {
  rc_dataset : p_DatasetID jp.2 = id; rc_slug : p_DatasetSlug jp.2 = slug;
  rc_source : p_SourceFilePath jp.2 = source; rc_plugin : j_PluginName jp.1 <> "";
  rc_id : no_slash (j_ID jp.1); rc_config : p_Config jp.2 <> RawInvalid /\ j_StepConfig jp.1 <> RawInvalid;
  rc_range : 0 <= p_ByteRangeStart jp.2 < p_ByteRangeEnd jp.2 /\ p_ByteRangeEnd jp.2 <= len }.

Definition part (data : string) (jp : Job * ProcessPayload) : string :=
  slice (p_ByteRangeStart jp.2) (p_ByteRangeEnd jp.2) data.

Definition key_of (jp : Job * ProcessPayload) : string := GetRemotePathWithSlug id slug (p_ChunkIndex jp.2) "result".

Definition input_file (jp : Job * ProcessPayload) : string := work_path t (j_ID jp.1) ["source.bin"].

Lemma workdir_plain jp len : range_chunk len jp -> plain_workdir (a_tempDir E) t (j_ID jp.1).
Proof. intros H. split; [done|]. split; [done|]. apply (rc_id _ _ H). Qed.

Lemma remote_part data start end_ :
  0 <= start < end_ -> end_ <= Z.of_nat (String.length data) ->
  exists r, skip_bytes start (whole data) = Ok r /\ read_bytes (end_ - start) r = whole (slice start end_ data).
Proof.
  intros Hs He. unfold skip_bytes, whole. destruct (Z.leb_spec start 0).
  - eexists. split; [reflexivity|]. unfold read_bytes. simpl.
    destruct (Z.leb_spec (end_ - start) 0); [lia|]. destruct (Z.leb_spec (end_ - start) (Z.of_nat (String.length data))); [|lia].
    unfold slice. by replace (Z.to_nat start) with 0%nat by lia.
  - simpl. destruct (Z.ltb_spec (Z.of_nat (String.length data)) start); [lia|]. eexists. split; [reflexivity|].
    unfold read_bytes. simpl. rewrite str_drop_length_eq.
    destruct (Z.leb_spec (end_ - start) 0); [lia|].
    destruct (Z.leb_spec (end_ - start) (Z.of_nat (String.length data - Z.to_nat start))); [done|lia].
Qed.

(** The input that the plugin is given. *)
Lemma byte_range_input_runs data jp w :
  range_chunk (Z.of_nat (String.length data)) jp -> Z.of_nat (String.length data) < 2 ^ 63 ->
  contents b source (w_host w) = Some data -> (input_file jp ∉ dirs (w_disk w)) ->
  exists s, byte_range_input E jp.2 b "s3" (work_path t (j_ID jp.1) []) w = (with_disk s w, Ret (input_file jp)) /\
    files s !! input_file jp = Some (part data jp) /\ dirs s = dirs (w_disk w).
Proof.
  intros [_ _ Hsrc _ Hid _ [Hr1 Hr2]] Hlen Hc Hnd. apply contents_read in Hc.
  unfold byte_range_input. change ("s3" =?s "shared_mount") with false. cbv beta iota zeta.
  rewrite int64_small by lia. rewrite Hsrc. unfold mbind, get, lift. rewrite Hc. cbn [of_Result].
  rewrite work_file_path by done. fold (input_file jp). unfold call, os_Create. rewrite HF. cbn [no_disk_faults f_create].
  rewrite decide_False by done. destruct (remote_part data _ _ Hr1 Hr2) as (r & -> & Er). cbn [of_Result]. rewrite Er.
  unfold io_Copy. cbn [no_disk_faults f_write whole r_data r_err].
  assert (Hz : (slice (p_ByteRangeStart jp.2) (p_ByteRangeEnd jp.2) data =?s "") = false).
  { apply eqb_neq_s. intros Hs0. pose proof (slice_length (p_ByteRangeStart jp.2) (p_ByteRangeEnd jp.2) data) as Hl.
    rewrite Hs0 in Hl. simpl in Hl. lia. }
  rewrite Hz. eexists. split; [reflexivity|]. split; [|done]. simpl. rewrite !lookup_insert_eq. done.
Qed.

Lemma store_local h h' k : objects h = objects h' -> contents b k h = contents b k h'.
Proof. apply (remote_read (RemoteStore := Hstore)). Qed.

(** A chunk is processed: its result is there, the other objects are as
    before. *)
Lemma chunk_runs data jp w :
  range_chunk (Z.of_nat (String.length data)) jp -> Z.of_nat (String.length data) < 2 ^ 63 ->
  good (w_host w) -> contents b source (w_host w) = Some data -> (input_file jp ∉ dirs (w_disk w)) ->
  exists w', executeProcessChunkByteRange E jp.1 jp.2 b "s3" w = (w', Ret tt) /\ good (w_host w') /\
    contents b (key_of jp) (w_host w') = Some (f (part data jp)) /\
    (forall k, pipeline_key k -> k <> key_of jp -> contents b k (w_host w') = contents b k (w_host w)) /\
    dirs (w_disk w') ⊆ dirs (w_disk w).
Proof.
  intros Hrc Hlen Hg Hc Hnd. pose proof Hrc as [Hd Hsl Hsrc Hname Hid [Hcf1 Hcf2] _].
  unfold executeProcessChunkByteRange, with_workdir. rewrite (work_dir_path _ t) by (by eapply workdir_plain).
  unfold os_MkdirAll. rewrite HF. cbn [no_disk_faults f_mkdir]. rewrite Hsrc, (eqb_neq_s _ _ Hne).
  set (w0 := with_disk _ w).
  assert (Hnd0 : input_file jp ∉ dirs (w_disk w0)).
  { simpl. apply not_elem_of_union. split; [|done]. apply not_elem_of_singleton. unfold input_file, work_path.
    intros Ei. apply abs_path_inj in Ei; [by apply app_inv_head in Ei| |]; apply Forall_app; (split; [done|]);
      (apply Forall_cons_2; [by apply sentra_plain|]); [by apply Forall_singleton|constructor]. }
  assert (Hc0 : contents b source (w_host w0) = Some data) by (rewrite (store_local _ (w_host w)); done).
  destruct (byte_range_input_runs data jp w0 Hrc Hlen Hc0 Hnd0) as (s1 & Ein & Hin & Hd1).
  unfold mbind at 1. rewrite Ein. set (w1 := with_disk s1 w0).
  set (out := Join [_; chunk_file _ ".out"]).
  destruct (pl_load Hplugin (j_PluginName jp.1) (w_plugins w1) Hname) as (pl & path & m & Hload).
  destruct (pl_run Hplugin path m (chunk_context jp.1 jp.2 (input_file jp) out) (w_host w1) (part data jp))
    as (h & r & Hex & Ho & Hdirs & Hf); [simpl; by destruct (raw_is_empty _)|exact Hin|].
  rewrite (run_chunk_ok E HF false jp.1 jp.2 b "s3" (input_file jp) out w1 pl path m h r _ Hname Hload Hex
             (or_introl eq_refl) Hf).
  change ("s3" =?s "shared_mount") with false. cbv iota. unfold write_call.
  change (w_host (with_host h (with_plugins pl w1))) with h. rewrite Hd, Hsl. fold (key_of jp).
  assert (Hh : objects h = objects (w_host w)) by exact Ho.
  destruct (store_write (key_of jp) (whole (f (part data jp))) h) as (h' & Ew & Hg' & Hc' & Hsame);
    [by left; constructor|by apply (remote_good (RemoteStore := Hstore) (w_host w))|done|].
  pose proof (remote_write_disk (RemoteStore := Hstore) (key_of jp) (whole (f (part data jp))) h eq_refl) as Hdisk.
  rewrite Ew in Hdisk |- *. cbn [fst] in Hdisk. cbv beta iota.
  eexists. split; [reflexivity|].
  set (w2 := with_disk _ _). assert (Hobj : objects (w_host w2) = objects h') by done.
  split; [by apply (remote_good (RemoteStore := Hstore) h')|]. split; [by rewrite (store_local _ h')|]. split.
  - intros k Hk Hkne. rewrite (store_local _ h') by done. rewrite Hsame by done. by apply store_local.
  - subst w2. unfold os_RemoveAll. cbn [no_disk_faults f_remove]. simpl. unfold w_disk. simpl. rewrite Hdisk, Hdirs.
    simpl. rewrite Hd1. simpl. intros d. rewrite elem_of_filter, elem_of_union, elem_of_singleton.
    intros [Hb [->|Hin']]; [|done]. by rewrite work_below in Hb.
Qed.

(** ** All ranges, in any order *)

Definition process_all (jobs : list (Job * ProcessPayload)) : M unit :=
  each (fun jp => executeProcessChunkByteRange E jp.1 jp.2 b "s3") jobs.

Lemma key_of_inj jp jp' : key_of jp = key_of jp' -> p_ChunkIndex jp.2 = p_ChunkIndex jp'.2.
Proof. intros H. eapply (key_inj id slug _ _ "result"); [by left|exact H]. Qed.

Lemma process_all_runs data jobs w :
  Forall (range_chunk (Z.of_nat (String.length data))) jobs -> Z.of_nat (String.length data) < 2 ^ 63 ->
  NoDup (map (fun jp => p_ChunkIndex jp.2) jobs) ->
  good (w_host w) -> contents b source (w_host w) = Some data ->
  Forall (fun jp => input_file jp ∉ dirs (w_disk w)) jobs ->
  exists w', process_all jobs w = (w', Ret tt) /\ good (w_host w') /\
    (forall jp, jp ∈ jobs -> contents b (key_of jp) (w_host w') = Some (f (part data jp))) /\
    (forall k, pipeline_key k -> (forall jp, jp ∈ jobs -> k <> key_of jp) ->
       contents b k (w_host w') = contents b k (w_host w)).
Proof.
  intros Hrc Hlen. revert w. induction Hrc as [|jp jobs Hjp _ IH]; intros w Hnd Hg Hc Hdirs.
  - exists w. split; [done|]. split; [done|]. split; [by intros jp ?%elem_of_nil|done].
  - simpl in Hnd. rewrite NoDup_cons in Hnd. destruct Hnd as [Hnin Hnd].
    apply Forall_cons in Hdirs as [Hd Hdirs].
    destruct (chunk_runs data jp w Hjp Hlen Hg Hc Hd) as (w1 & E1 & Hg1 & Hk1 & Hsame1 & Hdirs1).
    assert (Hsrc : source <> key_of jp) by (intros Ek; apply Hsource; rewrite Ek; constructor).
    destruct (IH w1 Hnd Hg1) as (w2 & E2 & Hg2 & Hk2 & Hsame2).
    { rewrite Hsame1; [done|by right|done]. }
    { eapply Forall_impl; [exact Hdirs|]. intros x Hx. set_solver. }
    exists w2. unfold process_all. cbn [each]. unfold mbind. rewrite E1. fold (process_all jobs). rewrite E2.
    split; [done|]. split; [done|]. split.
    + intros jp' [->|Hin]%elem_of_cons; [|by apply Hk2]. rewrite Hsame2; [done|left; constructor|].
      intros jp' Hin Ek. apply Hnin. rewrite (key_of_inj _ _ Ek).
      by apply (list_elem_of_fmap_2 (fun jp : Job * ProcessPayload => p_ChunkIndex jp.2)).
    + intros k Hk Hne'. rewrite Hsame2; [apply Hsame1; [done|by apply Hne', list_elem_of_here]|done|].
      intros jp' Hin. by apply Hne', list_elem_of_further.
Qed.
End pipeline.

(** ** Properties *)

(** C5.  The ranges of a source object are processed in any order, each by a
    plugin that computes [f] on its part, and a merge then lists the chunks in
    the order [order]: the merged object is the concatenation of [f] of the
    parts in that order, and the source is as before.  When the ranges of the
    order cover the source, one after the other, and [f] works piecewise, this is
    [f] of the source. *)
Theorem byte_range_pipeline (E : agent) (t : list string) (b : StorageBackend) (id slug source : string)
    (good : host -> Prop) (f : string -> string) (jobs order : list (Job * ProcessPayload)) (pm : MergePayload)
    (data : string) (w : world) :
  a_faults E = no_disk_faults -> a_tempDir E = abs_path t -> Forall plain_name t ->
  RemoteStore b (pipeline_key id slug source) good -> ~ dataset_key id slug source -> source <> "" ->
  plugin_computes E f ->
  Forall (range_chunk id slug source (Z.of_nat (String.length data))) jobs ->
  Z.of_nat (String.length data) < 2 ^ 63 -> NoDup (map (fun jp => p_ChunkIndex jp.2) jobs) ->
  good (w_host w) -> contents b source (w_host w) = Some data ->
  Forall (fun jp => input_file t jp ∉ dirs (w_disk w)) jobs ->
  order ≡ₚ jobs -> mp_DatasetID pm = id -> mp_DatasetSlug pm = slug ->
  map mc_ChunkIndex (mp_Chunks pm) = map (fun jp => p_ChunkIndex jp.2) order ->
  let merged := concat_str (map (fun jp => f (part data jp)) order) in
  exists w', mbind (process_all E b jobs) (fun _ => executeConcatMerge E pm (Some b)) w = (w', Ret tt) /\
    contents b (merged_key pm) (w_host w') = Some merged /\ contents b source (w_host w') = Some data /\
    (f "" = "" -> (forall s u, f (s +:+ u) = f s +:+ f u) ->
     consecutive 0 (Z.of_nat (String.length data))
       (map (fun jp => (p_ByteRangeStart jp.2, p_ByteRangeEnd jp.2)) order) -> merged = f data).
Proof.
  intros HF Htemp Ht Hstore Hsource Hne Hplugin Hrc Hlen Hnd Hg Hc Hdirs Hperm Hid Hslug Hidx merged.
  destruct (process_all_runs E HF t Htemp Ht b id slug source good f Hsource Hne Hplugin data jobs w Hrc Hlen Hnd Hg Hc
    Hdirs) as (w1 & E1 & Hg1 & Hk & Hsame).
  assert (Hres : results_are b pm (map (fun jp => f (part data jp)) order) (w_host w1)).
  { unfold results_are. apply Forall2_same_length_lookup. split.
    - apply (f_equal length) in Hidx. rewrite !length_map in *. done.
    - intros i c d Hci Hdi. as_fmap. apply (f_equal (fun l => l !! i)) in Hidx.
      rewrite !list_lookup_fmap in *. rewrite Hci in Hidx. simpl in Hidx.
      destruct (order !! i) as [jp|] eqn:Ejp; [|done]. injection Hdi as <-. injection Hidx as Hi.
      unfold result_key. rewrite Hid, Hslug, Hi. apply Hk. rewrite <- Hperm.
      by eapply list_elem_of_lookup_2. }
  destruct (write_and_delete pm b (pipeline_key id slug source) good ltac:(intros k Hk'; left; by rewrite <- Hid, <- Hslug)
    "failed to write concatenated result: " merged w1 Hg1) as (w2 & E2 & [_ Hm _ Ho]).
  exists w2. unfold mbind at 1. rewrite E1. split.
  { unfold executeConcatMerge. unfold mbind at 1, get. unfold mbind at 1, lift.
    rewrite (open_results_all pm b _ _ _ Hres), multi_reader_all. exact E2. }
  split; [exact Hm|]. split.
  - assert (Hsk : forall k, dataset_key id slug k -> source <> k) by (intros k Hk' ->; by apply Hsource).
    rewrite Ho; [|by right|apply Hsk; rewrite <- Hid, <- Hslug; constructor|].
    + rewrite Hsame; [done|by right|]. intros jp _. apply Hsk. constructor.
    + intros Hin. pose proof (chunk_keys_valid pm (dataset_key id slug) ltac:(by rewrite Hid, Hslug)) as Hv.
      rewrite Forall_forall in Hv. by apply Hsource, Hv.
  - intros H0 Hf Hcons. transitivity (f (slice 0 (Z.of_nat (String.length data)) data)); [|by rewrite slice_all].
    rewrite <- (consecutive_slices f 0 _ _ data H0 Hf ltac:(lia) Hcons). subst merged. by rewrite map_map.
Qed.

(** *** A concrete run *)

(** The member of a plugin's context. *)
Definition context_member (name : string) (i : RawMessage) : string :=
  match i with Raw (JObj fs) => (field dec_string name "" fs).1 | _ => "" end.

(** A plugin that turns its input into lower case. *)
Definition lower_plugin (i : RawMessage) (h : host) : host * comp PluginExecute.ExecutionResult :=
  let content := default "" (files (disk h) !! context_member "input_path" i) in
  (mkHost (with_files (<[context_member "output_path" i := strings_ToLower content]> (files (disk h))) (disk h))
     (objects h), Ret (mkExecResult "" "docker" 1 "")).

Definition lower_agent : agent := plain_agent (plain_services (Some memory_store) zeroManifest lower_plugin).

Definition lower_chunk (i start end_ : Z) : Job * ProcessPayload :=
  (mkJob ("j" +:+ itoa i) "" "" "d" i "" "" "" 0 RawEmpty "" "" "p" "" "" RawEmpty "" "",
   mkProcess "" "" "" "d" "" i "" "" 0 "" RawEmpty false "" false [] 0 "byte_range" start end_ [] "src/data.txt").

Definition lower_merge : MergePayload :=
  mkMergePayload "d" "" "" None "byte_range" "" "" [mkMergeChunk "" 0 "" false; mkMergeChunk "" 1 "" false]
    "" false false false false false.

Definition upper_world : world := empty_world ∅ {["https://s3/b/src/data.txt" := "ABCDE"]}.

Lemma ToLower_app s u : strings_ToLower (s +:+ u) = strings_ToLower s +:+ strings_ToLower u.
Proof. induction s as [|c s IH]; [done|]. rewrite !append_cons. simpl. by rewrite IH. Qed.

Lemma context_paths c :
  pc_Config c <> RawInvalid ->
  context_member "input_path" (marshal_context c) = pc_InputPath c /\
  context_member "output_path" (marshal_context c) = pc_OutputPath c.
Proof.
  intros Hc. unfold marshal_context. destruct (pc_Config c) as [| |j]; [| done |];
    destruct (pc_ExecutionID c =?s ""), (pc_StepIndex c =? 0); by split.
Qed.

Lemma lower_computes : plugin_computes lower_agent strings_ToLower.
Proof.
  split.
  - intros name pl _. by eexists _, _, _.
  - intros path m c h d Hc Hd. destruct (context_paths c Hc) as [Ei Eo]. eexists _, _. split; [reflexivity|].
    split; [done|]. split; [done|]. simpl. rewrite Ei, Eo, Hd. apply lookup_insert_eq.
Qed.

Lemma byte_range_pipeline_witness :
  exists w', mbind (process_all lower_agent memory_store [lower_chunk 1 2 5; lower_chunk 0 0 2])
      (fun _ => executeConcatMerge lower_agent lower_merge (Some memory_store)) upper_world = (w', Ret tt) /\
    contents memory_store "d_merged.csv" (w_host w') = Some "abcde".
Proof.
  assert (Hkey : forall k, dataset_key "d" "" k -> exists u, k = "d" +:+ u) by (intros k []; by eexists).
  assert (Hno : ~ dataset_key "d" "" "src/data.txt") by (intros [u Hu]%Hkey; discriminate Hu).
  assert (Hs : RemoteStore memory_store (pipeline_key "d" "" "src/data.txt") (fun _ => True)).
  { apply memory_remote. intros k [Hk| ->]; [|done]. apply (dataset_object_key "d" ""); done. }
  destruct (byte_range_pipeline lower_agent ["tmp"] memory_store "d" "" "src/data.txt" (fun _ => True) strings_ToLower
    [lower_chunk 1 2 5; lower_chunk 0 0 2] [lower_chunk 0 0 2; lower_chunk 1 2 5] lower_merge "ABCDE" upper_world)
    as (w' & Er & Hm & _ & Hall); try reflexivity; try exact Hs; try exact Hno; try exact lower_computes.
  - by apply Forall_singleton.
  - discriminate.
  - apply Forall_cons_2; [|apply Forall_cons_2; [|constructor]]; split; try done; lia.
  - by apply (bool_decide_eq_true_1 (NoDup [1; 0])).
  - apply Forall_cons_2; [|apply Forall_cons_2; [|constructor]]; intros H; vm_compute in H; discriminate H.
  - apply Permutation_swap.
  - exists w'. split; [exact Er|].
    change (contents memory_store (merged_key lower_merge) (w_host w') = Some (strings_ToLower "ABCDE")).
    rewrite <- (Hall eq_refl ToLower_app); [exact Hm|]. simpl. lia.
Defined.
