(* ===== verification/Compound.v ===== *)
(** * Compound: jobs of several steps

    Models [executePluginStepEx], [executeCompoundProcessChunk] and
    [reportStepProgress] of [internal/dispatcher/handlers_unix.go]: the steps of
    a compound job run one after the other on the agent, each on the output of
    the one before, with their outputs in a cache until the job succeeds; and
    [executeProcessChunk] with this branch. *)
From S2P Require Import Prelude Json Path Encoding ExecutorV2 HttpClient PluginVerify PluginInstall PluginExecute.
From S2P Require Import Merge MergeTree Recovery Storage ObjectStore Handler ChunkHandler.
From Stdlib Require Import Ascii.
Local Open Scope handler_scope.

(** ** Definitions *)

Section compound.
Context (E : agent).
(** Modification times, in nanoseconds since the zero time. *)
Context (modTime : string -> fs -> Z).
Abbreviation F := (a_faults E).
Abbreviation V := (a_services E).

(** *** One step *)

(** The event is buffered for the relay; that this may fail is only logged. *)
Definition reportStepProgress (jobID executionID chunkID : string) (stepIndex : Z) (status errorMsg : string)
    : M unit := fun w => (with_event (mkStepEvent jobID executionID chunkID stepIndex status errorMsg) w, Ret tt).

Definition prev_json (prev : option (list (string * json))) : json :=
  match prev with Some m => JObj m | None => JNull end.

(** The input of the plugin; a configuration that is no object is left out. *)
Definition step_context (job : Job) (p : ProcessPayload) (config : RawMessage) (stepIndex : Z)
    (inputPath outputPath outputDir : string) (prev : option (list (string * json))) : RawMessage :=
  let cfg := if raw_is_empty config then [("config", JNull)]
             else match config with
                  | Raw JNull => [("config", JNull)]
                  | _ => match Unmarshal_map (a_renum E) config with
                         | Some m => [("config", JObj m)]
                         | None => []
                         end
                  end in
  Marshal_map (map_of_members
    ([("job_id", JStr (j_ID job)); ("org_id", JStr (j_OrgID job)); ("dataset_id", JStr (p_DatasetID p));
      ("execution_id", JStr (j_ExecutionID job)); ("step_index", JNum (itoa stepIndex));
      ("chunk_id", JStr (p_ChunkID p)); ("chunk_index", JNum (itoa (p_ChunkIndex p)));
      ("input_path", JStr inputPath); ("output_path", JStr outputPath); ("output_dir", JStr outputDir);
      ("previous_data", prev_json prev)] ++ cfg)).

Definition step_failed (stepIndex : Z) (how e : string) : string :=
  "step " +:+ itoa stepIndex +:+ " plugin failed" +:+ how +:+ ": " +:+ e.

(** A failed run with output on disk is a success; one that cgroups stopped is
    run again; one that Docker stopped goes to the v2 runtime. *)
Definition run_step (path : string) (m : Manifest) (input : RawMessage) (stepIndex : Z) (outputPath : string)
    (p : ProcessPayload) (job : Job) : M string := fun w =>
  match on_host (s_Execute V path m input) w with
  | (w, Ret r) => (w, Ret (PluginExecute.Output r))
  | (w, Panic) => (w, Panic)
  | (w, Throw e) =>
      if hasRealOutput F outputPath (w_disk w) then (w, Ret "")
      else if strings_Contains e "cgroup:" then
        match on_host (s_Execute V path m input) w with
        | (w, Ret r) => (w, Ret (PluginExecute.Output r))
        | (w, Panic) => (w, Panic)
        | (w, Throw e) => if hasRealOutput F outputPath (w_disk w) then (w, Ret "")
                          else (w, Throw (step_failed stepIndex "" e))
        end
      else if mentions_docker e
      then wrapM ("step " +:+ itoa stepIndex +:+ " plugin failed (native+v2): ")
             (fallbackToV2Runtime E path m p job) w
      else (w, Throw (step_failed stepIndex "" e))
  end.

Definition executePluginStepEx (job : Job) (p : ProcessPayload) (pluginID : string) (config : RawMessage)
    (stepIndex : Z) (inputPath outputPath outputDir : string) (prev : option (list (string * json)))
    : M (option (list (string * json))) :=
  let* pluginName := ResolvePluginName V pluginID "" in
  if pluginName =?s "" then throw ("no plugin name for ID " +:+ pluginID)
  else
    let* (path, m) := on_plugins ("load plugin " +:+ pluginName +:+ ": ") (s_LoadAndUpdatePlugin V pluginName) in
    let* output := run_step path m (step_context job p config stepIndex inputPath outputPath outputDir prev)
                     stepIndex outputPath (with_paths inputPath outputPath p) job in
    let result := match parsePluginOutputAsJSON (a_parse E) (a_renum E) output with Ok r => r | Err _ => None end in
    write_stdout E outputPath output;;
    ret result.

(** *** The input of a step *)

Definition step_ctx (si : Z) (what : string) : string := "step " +:+ itoa si +:+ ": " +:+ what.

Definition child_dirs (dir : string) (s : fs) : list string :=
  List.filter (fun d => (Dir d =?s dir) && negb (d =?s dir)) (elements (dirs s)).

(** A directory with one entry stands for this entry. *)
Definition only_entry (filesDir : string) (s : fs) : string :=
  match f_open F filesDir, (child_files filesDir s ++ child_dirs filesDir s)%list with
  | None, [path] => path
  | _, _ => filesDir
  end.

Definition fetch_source (si : Z) (what1 what2 what3 : string) (p : ProcessPayload) (b : StorageBackend)
    (workDir : string) : M string :=
  let outPath := Join [workDir; "source" +:+ Ext (p_SourcePath p)] in
  download E (step_ctx si (what1 +:+ p_SourcePath p +:+ ": ")) (step_ctx si what2) (step_ctx si what3) b
    (p_SourcePath p) outPath;;
  ret outPath.

(** The input of the first step, and the directory of the source files. *)
Definition first_input (p : ProcessPayload) (b : StorageBackend) (storageMode workDir filesDir : string)
    : M (string * string) :=
  if storageMode =?s "shared_mount" then
    let sharedPath := mount_chunk (deriveMountBasePath (a_mountEnv E) storageMode) (p_DatasetID p) (p_ChunkIndex p) ".bin" in
    let* w := get in
    if fileExists F sharedPath (w_disk w) then ret (sharedPath, filesDir)
    else if p_SourcePath p =?s "" then
      throw (step_ctx 0 ("shared_mount chunk not found at " +:+ sharedPath +:+ " and no source_path for S3 fallback"))
    else
      let* path := fetch_source 0 "read source from S3 fallback " "create source file from S3 fallback: "
                     "copy source from S3 fallback: " p b workDir in
      ret (path, filesDir)
  else if negb (filesDir =?s "") then
    let* w := get in ret (only_entry filesDir (w_disk w), filesDir)
  else if p_SourcePath p =?s "" then
    throw (step_ctx 0 "source_path or file_list required for S3 process jobs")
  else if HasSuffix (p_SourcePath p) "/" then
    let* w := get in
    let* found := lift (of_Result (step_ctx 0 ("list source directory " +:+ p_SourcePath p +:+ ": "))
                          (ListObjects b (p_SourcePath p) (w_host w))) in
    match found with
    | [] => throw (step_ctx 0 ("no files found at " +:+ p_SourcePath p))
    | _ =>
        let filesDir := Join [workDir; "files"] in
        call (step_ctx 0 "create files dir: ") (os_MkdirAll (f_mkdir F) filesDir);;
        wrapM "step 0: " (each (download_listed E b filesDir (file_pattern E (p_Config p))) found);;
        ret (filesDir, filesDir)
    end
  else
    let* path := fetch_source 0 "read source " "create source file: " "copy source: " p b workDir in
    ret (path, filesDir).

(** What the step before told about its output. *)
Definition chained_input (prev : option (list (string * json))) (s : fs) : string :=
  let od := member_string "output_dir" (default [] prev) in
  let op := member_string "output_path" (default [] prev) in
  if negb (od =?s "") then od
  else if negb (op =?s "") && fileExists F op s then op
  else "".

Definition step_dir (cacheDir : string) (si : Z) : string :=
  Join [cacheDir; "step_" +:+ itoa si +:+ "_output"].

Definition next_input (si : Z) (p : ProcessPayload) (b : StorageBackend)
    (storageMode workDir cacheDir filesDir : string) (prev : option (list (string * json))) : M string :=
  let* w := get in
  let chained := chained_input prev (w_disk w) in
  if negb (chained =?s "") then ret chained
  else if negb (filesDir =?s "") then ret filesDir
  else if fileExists F (step_dir cacheDir (si - 1)) (w_disk w) then ret (step_dir cacheDir (si - 1))
  else if storageMode =?s "shared_mount" then
    let path := mount_chunk (deriveMountBasePath (a_mountEnv E) storageMode) (p_DatasetID p) (p_ChunkIndex p) ".out" in
    if fileExists F path (w_disk w) then ret path
    else throw (step_ctx si ("prev output not found at " +:+ path))
  else
    let path := Join [workDir; chunk_file (p_ChunkIndex p) ".out"] in
    download E (step_ctx si "download prev output: ") (step_ctx si "create prev file: ") (step_ctx si "copy prev: ")
      b (GetRemotePathWithSlug (p_DatasetID p) (p_DatasetSlug p) (p_ChunkIndex p) "result") path;;
    ret path.

(** *** The steps *)

(** What is carried from step to step. *)
Record progress := mkProgress {
  g_filesDir : string; g_prev : option (list (string * json)); g_lastOutput : string }.

(** The data for the next step, from the result of this one. *)
Definition next_data (result prev : option (list (string * json))) : option (list (string * json)) :=
  match result with
  | None => prev
  | Some r =>
      match map_lookup "data" r with
      | Some (JObj data) => Some data
      | _ => if existsb (fun k => match map_lookup k r with Some _ => true | None => false end)
                  ["output_path"; "output_dir"; "file_list"]
             then Some r else prev
      end
  end.

Definition step_output (cacheDir : string) (si : Z) : string :=
  Join [step_dir cacheDir si; "step_" +:+ itoa si +:+ "_output.json"].

(** Run a step and report it. *)
Definition reported (job : Job) (chunkID : string) (si : Z) (c : M (option (list (string * json))))
    : M (option (list (string * json))) := fun w =>
  match c w with
  | (w, Ret r) => mbind (reportStepProgress (j_ID job) (j_ExecutionID job) chunkID si "completed" "")
                    (fun _ => ret r) w
  | (w, Throw e) =>
      let e := step_ctx si e in
      mbind (reportStepProgress (j_ID job) (j_ExecutionID job) chunkID si "failed" e) (fun _ => throw e) w
  | (w, Panic) => (w, Panic)
  end.

Definition compound_step (job : Job) (p : ProcessPayload) (b : StorageBackend) (storageMode workDir cacheDir : string)
    (si : Z) (g : progress) : M progress :=
  match (if si <? 0 then None else p_Steps p !! Z.to_nat si) with
  | None => lift Panic
  | Some step =>
      let stepOutDir := step_dir cacheDir si in
      let* w := get in
      (if fileExists F stepOutDir (w_disk w)
       then call (step_ctx si "clean partial output: ") (os_RemoveAll F stepOutDir) else ret tt);;
      call (step_ctx si "create output dir: ") (os_MkdirAll (f_mkdir F) stepOutDir);;
      let* (inputPath, filesDir) :=
        if si =? 0 then first_input p b storageMode workDir (g_filesDir g)
        else let* i := next_input si p b storageMode workDir cacheDir (g_filesDir g) (g_prev g) in
             ret (i, g_filesDir g) in
      let outputPath := step_output cacheDir si in
      let* result := reported job (p_ChunkID p) si
        (executePluginStepEx job p (cs_PluginID step) (cs_Config step) si inputPath outputPath stepOutDir (g_prev g)) in
      ret (mkProgress filesDir (next_data result (g_prev g)) outputPath)
  end.

Fixpoint compound_steps (job : Job) (p : ProcessPayload) (b : StorageBackend) (storageMode workDir cacheDir : string)
    (n : nat) (si : Z) (g : progress) : M progress :=
  match n with
  | O => ret g
  | S n =>
      let* g := compound_step job p b storageMode workDir cacheDir si g in
      compound_steps job p b storageMode workDir cacheDir n (si + 1) g
  end.

(** *** The end of the job *)

(** The first of the newest files of a directory. *)
Definition newest_file (dir : string) (s : fs) : string :=
  match f_open F dir with
  | Some _ => ""
  | None =>
      (foldl (fun acc path => if acc.2 <? modTime path s then (path, modTime path s) else acc) ("", 0)
         (child_files dir s)).1
  end.

(** The output of the last step; or any other file of its directory. *)
Definition final_output (lastOutput lastDir : string) (s : fs) : string :=
  if fileExists F lastOutput s then lastOutput
  else if bool_decide (lastDir ∈ dirs s) then newest_file lastDir s else "".

Definition final_meta (lastDir : string) (steps : Z) (prev : option (list (string * json))) : json :=
  JObj [("file_list", match map_lookup "file_list" (default [] prev) with Some l => l | None => JNull end);
        ("output_dir", JStr lastDir); ("steps", JNum (itoa steps))].

Definition publish (p : ProcessPayload) (b : StorageBackend) (storageMode lastDir : string) (g : progress) : M unit :=
  let mount := deriveMountBasePath (a_mountEnv E) storageMode in
  let resultKey := GetRemotePathWithSlug (p_DatasetID p) (p_DatasetSlug p) (p_ChunkIndex p) "result" in
  let* w := get in
  let uploadFilePath := final_output (g_lastOutput g) lastDir (w_disk w) in
  if negb (uploadFilePath =?s "") then
    if storageMode =?s "shared_mount" then
      let chunkOutPath := mount_chunk mount (p_DatasetID p) (p_ChunkIndex p) ".out" in
      call "create output dir: " (os_MkdirAll (f_mkdir F) (Dir chunkOutPath));;
      call "copy final output: " (copyFile F uploadFilePath chunkOutPath)
    else upload E "open output file: " "write result: " b resultKey uploadFilePath
  else
    let meta := a_print E (final_meta lastDir (Z.of_nat (length (p_Steps p))) (g_prev g)) in
    if storageMode =?s "shared_mount" then
      let metaPath := mount_chunk mount (p_DatasetID p) (p_ChunkIndex p) ".json" in
      call "create meta dir: " (os_MkdirAll (f_mkdir F) (Dir metaPath));;
      call "write final result meta: " (write_reader F metaPath (whole meta))
    else write_call "write final result meta: " (WriteObject b resultKey (whole meta)).

(** The files of the list, under their base names. *)
Definition fetch_files (p : ProcessPayload) (b : StorageBackend) (workDir : string) : M string :=
  match p_FileList p with
  | [] => ret ""
  | l =>
      let filesDir := Join [workDir; "files"] in
      call "create files dir: " (os_MkdirAll (f_mkdir F) filesDir);;
      each (fun f => let dst := Join [filesDir; Base f] in
              download E ("read file " +:+ f +:+ ": ") ("create file " +:+ dst +:+ ": ")
                ("copy file " +:+ dst +:+ ": ") b f dst) l;;
      ret filesDir
  end.

Definition executeCompoundProcessChunk (job : Job) (p : ProcessPayload) (b : StorageBackend)
    (storageMode : string) : M unit :=
  let startStep := p_CurrentStepIndex p in
  let lastStep := Z.of_nat (length (p_Steps p)) - 1 in
  let cacheDir := getCompoundCacheDir (a_home E) (a_osTemp E) (j_ExecutionID job) (p_ChunkID p) in
  call "create cache dir: " (os_MkdirAll (f_mkdir F) cacheDir);;
  with_workdir F (a_tempDir E) "prepare work dir: " (first_nonempty [j_ID job; p_ChunkID p]) (fun workDir =>
    let* filesDir := fetch_files p b workDir in
    let* g := compound_steps job p b storageMode workDir cacheDir (Z.to_nat (lastStep - startStep + 1)) startStep
                (mkProgress filesDir None "") in
    publish p b storageMode (step_dir cacheDir lastStep) g;;
    ignore (os_RemoveAll F cacheDir)).

(** The whole handler of process jobs. *)
Definition executeProcessChunk (payload : RawMessage) : M unit :=
  process_chunk E executeCompoundProcessChunk payload.
End compound.

(** ** Paths of the cache *)

Lemma below_prefix l k : Forall plain_name l -> Forall plain_name k -> l <> [] ->
  below (abs_path l) (abs_path k) = true -> exists r, k = l ++ r.
Proof.
  intros Hl Hk Hne. unfold below. intros [Eq|Hp]%orb_true_iff.
  - apply String.eqb_eq in Eq. apply abs_path_inj in Eq as ->; [|done..]. exists []. by rewrite app_nil_r.
  - apply HasPrefix_split in Hp as [rest Er]. rewrite append_assoc in Er.
    apply (f_equal (split_on slash)) in Er. rewrite split_on_abs in Er by done.
    change ("/" +:+ rest) with (String slash rest) in Er. rewrite split_on_app, split_on_abs in Er by done.
    destruct l as [|x l]; [done|]. destruct k as [|y k].
    + exfalso. injection Er as Ex _. apply Forall_cons in Hl as [(Hn & _) _]. by destruct Hn.
    + injection Er as -> Er. exists (split_on slash rest). by rewrite Er.
Qed.

Section cache.
Context (cl : list string) (Hcl : Forall plain_name cl).

Definition step_name (si : Z) (ext : string) : string := "step_" +:+ itoa si +:+ "_output" +:+ ext.

Lemma step_name_plain si ext : no_slash ext -> plain_name (step_name si ext).
Proof.
  intros He. split; [done|]. split; [done|]. split; [done|].
  apply (no_slash_app "step_"); [done|]. apply no_slash_app; [apply itoa_no_slash|]. by apply (no_slash_app "_output").
Qed.

Lemma step_dir_path si : step_dir (abs_path cl) si = abs_path (cl ++ [step_name si ""]).
Proof. unfold step_dir. apply Join_abs; [done|by apply step_name_plain]. Qed.

Lemma step_output_path si : step_output (abs_path cl) si = abs_path (cl ++ [step_name si ""; step_name si ".json"]).
Proof.
  unfold step_output. rewrite step_dir_path.
  change ("step_" +:+ itoa si +:+ "_output.json") with (step_name si ".json").
  replace (cl ++ [step_name si ""; step_name si ".json"]) with ((cl ++ [step_name si ""]) ++ [step_name si ".json"])
    by (by rewrite <- app_assoc).
  apply Join_abs; [|by apply step_name_plain]. apply Forall_app. split; [done|].
  by apply Forall_singleton, step_name_plain.
Qed.

Lemma step_name_inj i j : step_name i "" = step_name j "" -> i = j.
Proof.
  unfold step_name. intros H. apply (append_inj "step_") in H. apply append_inj_r in H. by apply itoa_inj.
Qed.

Lemma step_dirs_apart i j : i <> j -> below (step_dir (abs_path cl) i) (step_output (abs_path cl) j) = false.
Proof.
  intros Hij. rewrite step_dir_path, step_output_path. destruct (below _ _) eqn:Hb; [|done]. exfalso.
  apply below_prefix in Hb as [r Hr].
  - rewrite <- app_assoc in Hr. apply app_inv_head in Hr. apply (f_equal (List.hd "")) in Hr.
    apply Hij. symmetry. exact (step_name_inj j i Hr).
  - apply Forall_app. split; [done|]. by apply Forall_singleton, step_name_plain.
  - apply Forall_app. split; [done|]. rewrite !Forall_cons. by split; [apply step_name_plain|split; [apply step_name_plain|]].
  - by destruct cl.
Qed.

Lemma step_output_nonempty si : step_output (abs_path cl) si <> "".
Proof. by rewrite step_output_path. Qed.
End cache.

(** ** Runs of all steps *)

(** What a step says when it names its output file. *)
Definition says (o : string) (m : list (string * json)) : Prop :=
  map_lookup "data" m = None /\ map_lookup "output_dir" m = None /\ map_lookup "output_path" m = Some (JStr o).

Lemma says_next o m prev : says o m -> next_data (Some m) prev = Some m.
Proof. intros (H1 & _ & H3). unfold next_data. rewrite H1. simpl. by rewrite H3. Qed.

(** The steps of the rest of a job: what the last one leaves, [cur] being the
    output that the next step is told about. *)
Fixpoint chain (f : Z -> string -> string) (talk : Z -> bool) (n : nat) (si : Z) (cur last : string) : string :=
  match n with
  | O => last
  | S n => let out := f si cur in chain f talk n (si + 1) (if talk si then out else cur) out
  end.

Section chain.
Context (E : agent) (HF : a_faults E = no_disk_faults) (cl : list string) (Hcl : Forall plain_name cl).
Context (b : StorageBackend) (workDir : string) (job : Job) (p : ProcessPayload).
Context (f : Z -> string -> string) (talk : Z -> bool).
Abbreviation cacheDir := (abs_path cl).
Abbreviation outs := (step_output cacheDir).

(** The plugin of each step is installed under its id; it computes [f] from its
    input file to its output file, writes nowhere else, and names its output
    when [talk] says so. *)
Record steps_compute (names : gmap string string) : Prop := {
  sc_name si step : p_Steps p !! Z.to_nat si = Some step -> cs_PluginID step <> "" /\ exists name,
    name <> "" /\ names !! cs_PluginID step = Some name;
  sc_load name pl : name <> "" -> exists pl' path m,
    s_LoadAndUpdatePlugin (a_services E) name pl = (pl', Ret (path, m));
  sc_run path m si step inp prev h d :
    0 <= si -> p_Steps p !! Z.to_nat si = Some step -> files (disk h) !! inp = Some d -> exists h' r,
    s_Execute (a_services E) path m (step_context E job p (cs_Config step) si inp (outs si) (step_dir cacheDir si) prev) h
      = (h', Ret r) /\ objects h' = objects h /\ dirs (disk h') = dirs (disk h) /\
    (forall q, below (step_dir cacheDir si) q = false -> files (disk h') !! q = files (disk h) !! q) /\
    files (disk h') !! outs si = Some (f si d) /\
    if talk si then exists rm, parsePluginOutputAsJSON (a_parse E) (a_renum E) (PluginExecute.Output r) = Ok (Some rm) /\
                      says (outs si) rm
    else parsePluginOutputAsJSON (a_parse E) (a_renum E) (PluginExecute.Output r) = Ok None }.

(** The result of a step, for the next one. *)
Definition result_of (si : Z) (result : option (list (string * json))) : Prop :=
  if talk si then exists rm, result = Some rm /\ says (outs si) rm else result = None.

Lemma step_executes names si step inp prev w d :
  steps_compute names -> w_names w = names -> 0 <= si -> p_Steps p !! Z.to_nat si = Some step ->
  files (w_disk w) !! inp = Some d ->
  exists h pl result,
    executePluginStepEx E job p (cs_PluginID step) (cs_Config step) si inp (outs si) (step_dir cacheDir si) prev w
      = (with_host h (with_plugins pl w), Ret result) /\ result_of si result /\
    objects h = objects (w_host w) /\ dirs (disk h) = dirs (w_disk w) /\
    (forall q, below (step_dir cacheDir si) q = false -> files (disk h) !! q = files (w_disk w) !! q) /\
    files (disk h) !! outs si = Some (f si d).
Proof.
  intros Hsc Hn Hsi Hstep Hin. destruct (sc_name _ Hsc si step Hstep) as (Hid & name & Hne & Hname).
  destruct (sc_load _ Hsc name (w_plugins w) Hne) as (pl & path & m & Hload).
  destruct (sc_run _ Hsc path m si step inp prev (w_host w) d Hsi Hstep Hin) as (h & r & Hex & Ho & Hd & Hq & Hf & Ht).
  assert (Hres : result_of si (match parsePluginOutputAsJSON (a_parse E) (a_renum E) (PluginExecute.Output r) with
    | Ok r => r | Err _ => None end)).
  { unfold result_of. destruct (talk si); [destruct Ht as (rm & -> & Hs); by exists rm|by rewrite Ht]. }
  exists h, pl. eexists. split; [|split; [exact Hres|done]].
  unfold executePluginStepEx, ResolvePluginName. unfold mbind at 1. change ("" =?s "") with true. cbn [negb].
  rewrite (eqb_neq_s _ _ Hid), Hn, Hname, (eqb_neq_s _ _ Hne). unfold mbind at 1, on_plugins. rewrite Hload.
  cbn [wrap]. unfold mbind at 1, run_step, on_host. change (w_host (with_plugins pl w)) with (w_host w). rewrite Hex.
  unfold mbind, write_stdout, missing.
  rewrite (stat_file E HF (outs si) (w_disk (with_host h (with_plugins pl w))) (f si d)) by exact Hf. done.
Qed.

(** The directory of a step is emptied first. *)
Definition cleaned (si : Z) (s : fs) : fs :=
  let s := if fileExists (a_faults E) (step_dir cacheDir si) s
           then (os_RemoveAll (a_faults E) (step_dir cacheDir si) s).1 else s in
  with_dirs ({[step_dir cacheDir si]} ∪ dirs s) s.

Lemma cleaned_file si s q : below (step_dir cacheDir si) q = false -> files (cleaned si s) !! q = files s !! q.
Proof.
  intros Hq. unfold cleaned. destruct (fileExists _ _ _); [|done]. unfold os_RemoveAll. rewrite HF. simpl.
  destruct (files s !! q) eqn:Eq; [by apply map_lookup_filter_Some_2|]. apply map_lookup_filter_None_2. by left.
Qed.

Lemma cleaned_dirs si s : dirs (cleaned si s) ⊆ {[step_dir cacheDir si]} ∪ dirs s.
Proof.
  unfold cleaned. destruct (fileExists _ _ _); [|done]. unfold os_RemoveAll. rewrite HF. simpl.
  intros d. rewrite !elem_of_union, elem_of_filter. intros [H|[_ H]]; [by left|by right].
Qed.

Definition done_event (si : Z) : StepEvent :=
  mkStepEvent (j_ID job) (j_ExecutionID job) (p_ChunkID p) si "completed" "".

(** One step, from its input on. *)
Lemma step_runs names mode si step g inp fd w w2 d :
  steps_compute names -> w_names w2 = names -> 0 <= si -> p_Steps p !! Z.to_nat si = Some step ->
  (if si =? 0 then first_input E p b mode workDir (g_filesDir g)
   else let* i := next_input E si p b mode workDir cacheDir (g_filesDir g) (g_prev g) in ret (i, g_filesDir g))
    (with_disk (cleaned si (w_disk w)) w) = (w2, Ret (inp, fd)) ->
  files (w_disk w2) !! inp = Some d ->
  exists w' result, compound_step E job p b mode workDir cacheDir si g w =
      (w', Ret (mkProgress fd (next_data result (g_prev g)) (outs si))) /\ result_of si result /\
    objects (w_host w') = objects (w_host w2) /\ dirs (w_disk w') = dirs (w_disk w2) /\ w_names w' = names /\
    (forall q, below (step_dir cacheDir si) q = false -> files (w_disk w') !! q = files (w_disk w2) !! q) /\
    files (w_disk w') !! outs si = Some (f si d) /\ w_events w' = w_events w2 ++ [done_event si].
Proof.
  intros Hsc Hn Hsi Hstep Hin Hd.
  destruct (step_executes names si step inp (g_prev g) w2 d Hsc Hn Hsi Hstep Hd)
    as (h & pl & result & Hex & Hres & Ho & Hdir & Hq & Hf).
  exists (with_event (done_event si) (with_host h (with_plugins pl w2))), result.
  split; [|by split; [|split; [|split; [|split; [|split; [|split]]]]]].
  unfold compound_step. destruct (Z.ltb_spec si 0); [lia|]. rewrite Hstep.
  assert (Hclean : forall A (k : M A),
    (let* w := get in
     (if fileExists (a_faults E) (step_dir cacheDir si) (w_disk w)
      then call (step_ctx si "clean partial output: ") (os_RemoveAll (a_faults E) (step_dir cacheDir si)) else ret tt);;
     call (step_ctx si "create output dir: ") (os_MkdirAll (f_mkdir (a_faults E)) (step_dir cacheDir si));; k) w
    = k (with_disk (cleaned si (w_disk w)) w)).
  { intros A k. unfold mbind, get, cleaned. rewrite HF.
    destruct (fileExists no_disk_faults (step_dir cacheDir si) (w_disk w)); [|done].
    unfold call, os_RemoveAll, os_MkdirAll. done. }
  cbv zeta. rewrite Hclean. unfold mbind at 1. rewrite Hin. unfold mbind at 1, reported. rewrite Hex. done.
Qed.
(** Between steps: the last output, and the one that the next step is told
    about. *)
Record between (names : gmap string string) (si : Z) (cur last : string) (g : progress) (w : world) : Prop := {
  bt_names : w_names w = names; bt_no_files : g_filesDir g = "";
  bt_last : g_lastOutput g = outs (si - 1) /\ files (w_disk w) !! outs (si - 1) = Some last;
  bt_prev : exists j rm, 0 <= j < si /\ g_prev g = Some rm /\ says (outs j) rm /\ files (w_disk w) !! outs j = Some cur }.

Lemma between_next names si step result g w w' fd cur last :
  between names si cur last g w -> 0 < si -> p_Steps p !! Z.to_nat si = Some step -> fd = "" ->
  result_of si result -> w_names w' = names ->
  (forall q, below (step_dir cacheDir si) q = false -> files (w_disk w') !! q = files (w_disk w) !! q) ->
  files (w_disk w') !! outs si = Some (f si cur) ->
  between names (si + 1) (if talk si then f si cur else cur) (f si cur)
    (mkProgress fd (next_data result (g_prev g)) (outs si)) w'.
Proof.
  intros [_ _ _ (j & rm & Hj & Hg & Hs & Hf)] Hsi Hstep -> Hres Hn Hq Hout.
  split; [done|done|by replace (si + 1 - 1) with si by lia|]. unfold result_of in Hres. simpl.
  destruct (talk si).
  - destruct Hres as (rm' & -> & Hs'). exists si, rm'. split; [lia|]. by rewrite (says_next (outs si)).
  - subst result. exists j, rm. split; [lia|]. split; [done|]. split; [done|].
    rewrite Hq; [done|]. apply step_dirs_apart; [done|lia].
Qed.

Lemma next_input_told names mode si g w cur last :
  between names si cur last g w -> exists i, next_input E si p b mode workDir cacheDir (g_filesDir g) (g_prev g) w = (w, Ret i) /\
    files (w_disk w) !! i = Some cur.
Proof.
  intros [_ _ _ (j & rm & Hj & Hg & (_ & Hs2 & Hs3) & Hf)]. exists (outs j). split; [|done].
  assert (Hchain : chained_input E (g_prev g) (w_disk w) = outs j).
  { unfold chained_input. rewrite Hg. cbn [default from_option]. unfold id, member_string. rewrite Hs2, Hs3. cbn [negb].
    change ("" =?s "") with true. cbn [negb]. rewrite (eqb_neq_s (outs j) "") by (by apply step_output_nonempty).
    cbn [negb andb]. unfold fileExists. by rewrite (stat_file E HF (outs j) (w_disk w) cur). }
  unfold next_input, mbind, get. rewrite Hchain, (eqb_neq_s (outs j) "") by (by apply step_output_nonempty). done.
Qed.

(** The steps from the second on. *)
Lemma steps_run names mode n si g w cur last :
  steps_compute names -> between names si cur last g w -> 0 < si -> si + Z.of_nat n = Z.of_nat (length (p_Steps p)) ->
  exists w' g', compound_steps E job p b mode workDir cacheDir n si g w = (w', Ret g') /\
    g_lastOutput g' = outs (si + Z.of_nat n - 1) /\
    files (w_disk w') !! g_lastOutput g' = Some (chain f talk n si cur last) /\
    objects (w_host w') = objects (w_host w) /\
    w_events w' = w_events w ++ map done_event (seqZ si (Z.of_nat n)).
Proof.
  intros Hsc. revert si g w cur last. induction n as [|n IH]; intros si g w cur last Hb Hsi Hlen.
  - exists w, g. destruct (bt_last _ _ _ _ _ _ Hb) as [H1 H2]. split; [done|]. rewrite Z.add_0_r.
    split; [done|]. split; [by rewrite H1|]. split; [done|]. by rewrite app_nil_r.
  - destruct (lookup_lt_is_Some_2 (p_Steps p) (Z.to_nat si)) as [step Hstep]; [lia|].
    set (w1 := with_disk (cleaned si (w_disk w)) w).
    assert (Hb1 : between names si cur last g w1).
    { destruct Hb as [H1 H2 (H3 & H4) (j & rm & Hj & Hg & Hs & Hf)].
      split; [done|done|split; [done|]|exists j, rm; split; [done|]; split; [done|]; split; [done|]].
      - simpl. rewrite <- H4. apply cleaned_file, step_dirs_apart; [done|lia].
      - simpl. rewrite <- Hf. apply cleaned_file, step_dirs_apart; [done|lia]. }
    destruct (next_input_told names mode si g w1 cur last Hb1) as (inp & Hinp & Hcur).
    destruct (step_runs names mode si step g inp (g_filesDir g) w w1 cur Hsc (bt_names _ _ _ _ _ _ Hb) ltac:(lia)
      Hstep) as (w' & result & Er & Hres & Ho & Hd & Hn & Hq & Hout & Hev).
    { destruct (Z.eqb_spec si 0); [lia|]. unfold mbind. fold w1. by rewrite Hinp. }
    { done. }
    pose proof (between_next names si step result g w1 w' (g_filesDir g) cur last Hb1 Hsi Hstep (bt_no_files _ _ _ _ _ _ Hb)
      Hres Hn Hq Hout) as Hb'.
    destruct (IH (si + 1) _ w' _ _ Hb' ltac:(lia) ltac:(lia)) as (w2 & g2 & E2 & Hl2 & Hf2 & Ho2 & Hev2).
    exists w2, g2. cbn [compound_steps]. unfold mbind at 1. rewrite Er, E2. split; [done|].
    replace (si + Z.of_nat (S n) - 1) with (si + 1 + Z.of_nat n - 1) by lia. split; [done|].
    split; [exact Hf2|]. split; [by rewrite Ho2, Ho|].
    rewrite Hev2, Hev. change (w_events w1) with (w_events w).
    rewrite (seqZ_cons si) by lia. rewrite <- app_assoc. simpl. do 2 f_equal. f_equal. f_equal; lia.
Qed.
End chain.

Lemma chain_all_talk f n si cur : chain f (fun _ => true) n si cur cur = foldl (fun d i => f i d) cur (seqZ si (Z.of_nat n)).
Proof.
  revert si cur. induction n as [|n IH]; intros si cur; [done|]. rewrite (seqZ_cons si) by lia. simpl.
  rewrite IH. by replace (Z.pred (Z.of_nat (S n))) with (Z.of_nat n) by lia.
Qed.

(** Only the steps that name their output, and the last one, matter. *)
Lemma chain_silent f f' talk n si cur last :
  (forall i d, talk i = true \/ i = si + Z.of_nat n - 1 -> f' i d = f i d) ->
  chain f' talk n si cur last = chain f talk n si cur last.
Proof.
  revert si cur last. induction n as [|n IH]; intros si cur last Hf; [done|]. simpl.
  assert (Hn : forall cur l1 l2, (n <> 0)%nat -> chain f talk n (si + 1) cur l1 = chain f talk n (si + 1) cur l2).
  { intros. by destruct n. }
  rewrite IH by (intros i d [Hi|Hi]; apply Hf; [by left|right; lia]).
  destruct (talk si) eqn:Et; [by rewrite Hf by (by left)|].
  destruct n as [|n]; [by rewrite Hf by (right; lia)|by apply Hn].
Qed.

Lemma below_step_dir cl si : Forall plain_name cl -> cl <> [] -> below (abs_path cl) (step_dir (abs_path cl) si) = true.
Proof.
  intros Hcl Hne. rewrite step_dir_path by done. by apply below_abs.
Qed.

Section compound_job.
Context (E : agent) (modTime : string -> fs -> Z) (t cl : list string) (b : StorageBackend).
Context (valid : string -> Prop) (good : host -> Prop) `{Hstore : !RemoteStore b valid good}.
Context (job : Job) (p : ProcessPayload) (f : Z -> string -> string) (talk : Z -> bool).
Abbreviation wid := (first_nonempty [j_ID job; p_ChunkID p]).
Abbreviation srcfile := (work_path t wid ["source" +:+ Ext (p_SourcePath p)]).
Abbreviation result_key := (GetRemotePathWithSlug (p_DatasetID p) (p_DatasetSlug p) (p_ChunkIndex p) "result").

(** A compound job from its first step, on one source object. *)
Record compound_job : Prop := {
  cj_faults : a_faults E = no_disk_faults; cj_temp : a_tempDir E = abs_path t; cj_plain_temp : Forall plain_name t;
  cj_cache : getCompoundCacheDir (a_home E) (a_osTemp E) (j_ExecutionID job) (p_ChunkID p) = abs_path cl;
  cj_plain_cache : Forall plain_name cl /\ cl <> [];
  cj_id : no_slash wid; cj_source : p_SourcePath p <> "" /\ HasSuffix (p_SourcePath p) "/" = false;
  cj_file : plain_name ("source" +:+ Ext (p_SourcePath p)); cj_apart : below (abs_path cl) srcfile = false;
  cj_no_list : p_FileList p = []; cj_start : p_CurrentStepIndex p = 0; cj_steps : p_Steps p <> [];
  cj_talk : talk 0 = true; cj_valid : valid result_key }.

(** The first step is given the source. *)
Lemma first_input_runs data w :
  compound_job -> contents b (p_SourcePath p) (w_host w) = Some data -> (srcfile ∉ dirs (w_disk w)) ->
  exists s, first_input E p b "s3" (work_path t wid []) "" w = (with_disk s w, Ret (srcfile, "")) /\
    files s !! srcfile = Some data /\ dirs s = dirs (w_disk w) /\
    forall q, q <> srcfile -> files s !! q = files (w_disk w) !! q.
Proof.
  intros [HF _ Ht _ _ Hid [Hne Hsuf] Hfile _ _ _ _ _ _] Hc Hnd. apply contents_read in Hc.
  unfold first_input. change ("s3" =?s "shared_mount") with false. change ("" =?s "") with true.
  rewrite (eqb_neq_s _ _ Hne), Hsuf. cbn [negb]. cbv iota. unfold fetch_source, download, create_with.
  rewrite work_file_path by done. unfold mbind, get, lift. rewrite Hc. cbn [of_Result].
  unfold call, os_Create, io_Copy. rewrite HF. cbn [no_disk_faults f_create f_write].
  rewrite decide_False by done. cbn [whole r_data r_err]. eexists. split; [reflexivity|].
  split; [simpl; by rewrite !lookup_insert_eq|]. split; [done|].
  intros q Hq. simpl. by rewrite !lookup_insert_ne.
Qed.

Lemma store_local' h h' k : objects h = objects h' -> contents b k h = contents b k h'.
Proof. apply (remote_read (RemoteStore := Hstore)). Qed.

(** All the steps. *)
Lemma compound_steps_run names data w :
  compound_job -> steps_compute E cl job p f talk names -> w_names w = names ->
  contents b (p_SourcePath p) (w_host w) = Some data -> (srcfile ∉ dirs (w_disk w)) ->
  exists w' g', compound_steps E job p b "s3" (work_path t wid []) (abs_path cl) (length (p_Steps p)) 0
      (mkProgress "" None "") w = (w', Ret g') /\
    g_lastOutput g' = step_output (abs_path cl) (Z.of_nat (length (p_Steps p)) - 1) /\
    files (w_disk w') !! g_lastOutput g' = Some (chain f talk (length (p_Steps p)) 0 data "") /\
    objects (w_host w') = objects (w_host w) /\
    w_events w' = w_events w ++ map (done_event job p) (seqZ 0 (Z.of_nat (length (p_Steps p)))).
Proof.
  intros Hcj Hsc Hn Hc Hnd. pose proof Hcj as [HF _ Ht _ [Hcl Hclne] Hid _ Hfile Hapart _ _ Hsteps Htalk _].
  destruct (p_Steps p) as [|step rest] eqn:Es; [done|].
  assert (Hstep : p_Steps p !! Z.to_nat 0 = Some step) by (by rewrite Es).
  set (w1 := with_disk (cleaned E cl 0 (w_disk w)) w).
  assert (Hc1 : contents b (p_SourcePath p) (w_host w1) = Some data) by (rewrite (store_local' _ (w_host w)); done).
  assert (Hnd1 : srcfile ∉ dirs (w_disk w1)).
  { intros Hin. apply (cleaned_dirs E HF cl 0 (w_disk w)) in Hin.
    apply elem_of_union in Hin as [Hin|Hin]; [|done]. apply elem_of_singleton in Hin.
    rewrite Hin, below_step_dir in Hapart by done. done. }
  destruct (first_input_runs data w1 Hcj Hc1 Hnd1) as (s & Ein & Hin & Hd & Hq).
  destruct (step_runs E HF cl b (work_path t wid []) job p f talk names "s3" 0 step (mkProgress "" None "")
    srcfile "" w (with_disk s w1) data Hsc Hn ltac:(lia) Hstep Ein Hin)
    as (w' & result & Er & Hres & Ho & _ & Hn' & _ & Hout & Hev).
  unfold result_of in Hres. rewrite Htalk in Hres. destruct Hres as (rm & -> & Hsays).
  set (g1 := mkProgress "" (next_data (Some rm) None) (step_output (abs_path cl) 0)).
  assert (Hb : between cl names 1 (f 0 data) (f 0 data) g1 w').
  { split; [done|done|done|]. exists 0, rm. split; [lia|].
    by split; [exact (says_next (step_output (abs_path cl) 0) rm None Hsays)|]. }
  destruct (steps_run E HF cl Hcl b (work_path t wid []) job p f talk names "s3" (length rest) 1 g1 w' _ _ Hsc Hb
    ltac:(lia) ltac:(rewrite Es; simpl; lia)) as (w2 & g2 & E2 & Hl2 & Hf2 & Ho2 & Hev2).
  exists w2, g2. cbn [length compound_steps]. unfold mbind at 1. cbn [g_prev] in Er. rewrite Er. fold g1. change (0 + 1) with 1.
  rewrite E2.
  split; [done|]. split; [rewrite Hl2; f_equal; lia|]. split; [rewrite Hf2; cbn [chain]; by rewrite Htalk|].
  split; [by rewrite Ho2, Ho|]. rewrite Hev2, Hev. change (w_events (with_disk s w1)) with (w_events w).
  rewrite (seqZ_cons 0) by lia. rewrite <- app_assoc. simpl. do 2 f_equal. f_equal. f_equal; lia.
Qed.
End compound_job.

(** ** Properties *)

(** C6.  A compound job on one source object of a remote store runs all its
    steps and succeeds: its result is the output of the last step, each step
    having worked on the output of the latest step before it that named its
    output; the other objects are as before, the cache is empty, and every step
    is reported as completed.  When every step names its output this is the
    composition of the steps; the work of a step that does not is lost, unless it
    is the last. *)
Theorem compound_job_chains (E : agent) modTime (t cl : list string) (b : StorageBackend) (valid : string -> Prop)
    (good : host -> Prop) (job : Job) (p : ProcessPayload) (f : Z -> string -> string) (talk : Z -> bool)
    (data : string) (w : world) :
  RemoteStore b valid good -> compound_job E t cl valid job p talk ->
  steps_compute E cl job p f talk (w_names w) -> good (w_host w) ->
  contents b (p_SourcePath p) (w_host w) = Some data ->
  let wid := first_nonempty [j_ID job; p_ChunkID p] in
  let key := GetRemotePathWithSlug (p_DatasetID p) (p_DatasetSlug p) (p_ChunkIndex p) "result" in
  let n := length (p_Steps p) in
  let result := chain f talk n 0 data "" in
  (work_path t wid ["source" +:+ Ext (p_SourcePath p)] ∉ dirs (w_disk w)) ->
  (exists w', executeCompoundProcessChunk E modTime job p b "s3" w = (w', Ret tt) /\
     contents b key (w_host w') = Some result /\
     (forall k, valid k -> k <> key -> contents b k (w_host w') = contents b k (w_host w)) /\
     (forall q, below (abs_path cl) q = true -> absent q (w_disk w')) /\
     w_events w' = w_events w ++ map (done_event job p) (seqZ 0 (Z.of_nat n))) /\
  ((forall i, talk i = true) -> result = foldl (fun d i => f i d) data (seqZ 0 (Z.of_nat n))) /\
  (forall f', (forall i d, talk i = true \/ i = Z.of_nat n - 1 -> f' i d = f i d) ->
     chain f' talk n 0 data "" = result).
Proof.
  intros Hstore Hcj Hsc Hg Hc wid key n result Hnd. split; [|split].
  2:{ intros Hall. subst result. rewrite <- chain_all_talk. destruct n eqn:En; [|].
      - subst n. pose proof (cj_steps _ _ _ _ _ _ _ Hcj). by destruct (p_Steps p).
      - simpl. rewrite Hall. clear -Hall. generalize (f 0 data). generalize (0 + 1).
        induction n0 as [|m IH]; intros i d; [done|]. simpl. rewrite Hall. apply IH. }
  2:{ intros f' Hf'. apply chain_silent. intros i d [Hi|Hi]; apply Hf'; [by left|right; lia]. }
  pose proof Hcj as [HF Htemp Ht Hcache [Hcl Hclne] Hid _ Hfile Hapart Hlist Hstart Hsteps _ Hvalid].
  fold wid in Hid, Hapart. fold key in Hvalid.
  unfold executeCompoundProcessChunk. rewrite Hcache, Hstart. cbv zeta.
  unfold mbind at 1, call at 1, os_MkdirAll at 1. rewrite HF. cbn [no_disk_faults f_mkdir].
  set (w0 := with_disk _ w). unfold with_workdir.
  rewrite (work_dir_path _ t) by (split; [exact Htemp|by split]). unfold os_MkdirAll at 1. cbn [no_disk_faults f_mkdir].
  fold wid. set (w1 := with_disk _ w0).
  assert (Hc1 : contents b (p_SourcePath p) (w_host w1) = Some data)
    by (rewrite (store_local' b valid good _ (w_host w)); done).
  assert (Hnd1 : work_path t wid ["source" +:+ Ext (p_SourcePath p)] ∉ dirs (w_disk w1)).
  { simpl. rewrite !elem_of_union, !elem_of_singleton. intros [Hx|[Hx|Hx]]; [| |done].
    - apply abs_path_inj in Hx; [by apply app_inv_head in Hx| |]; apply Forall_app; (split; [done|]);
        (apply Forall_cons_2; [by apply sentra_plain|]); [by apply Forall_singleton|constructor].
    - rewrite Hx in Hapart. unfold below in Hapart. by rewrite eqb_refl_s in Hapart. }
  destruct (compound_steps_run E t cl b valid good job p f talk (w_names w) data w1 Hcj Hsc eq_refl Hc1 Hnd1)
    as (w2 & g & Er & Hlast & Hfl & Ho & Hev). fold wid in Er.
  unfold fetch_files. rewrite Hlist. unfold mbind at 1, ret at 1.
  replace (Z.to_nat (Z.of_nat (length (p_Steps p)) - 1 - 0 + 1)) with (length (p_Steps p)) by lia.
  unfold mbind at 1. rewrite Er. unfold mbind at 1, publish, mbind at 1, get.
  assert (Hfinal : final_output E modTime (g_lastOutput g) (step_dir (abs_path cl) (Z.of_nat (length (p_Steps p)) - 1))
                     (w_disk w2) = g_lastOutput g).
  { unfold final_output, fileExists. rewrite (stat_file E HF _ _ _ Hfl). done. }
  rewrite Hfinal. rewrite (eqb_neq_s (g_lastOutput g) "") by (rewrite Hlast; by apply step_output_nonempty).
  change ("s3" =?s "shared_mount") with false. cbv iota. cbn [negb].
  unfold upload, mbind, get, lift, os_Open. rewrite HF. cbn [no_disk_faults f_open]. rewrite Hfl. cbn [of_Result].
  assert (Hg2 : good (w_host w2)) by (by apply (remote_good (w_host w))).
  destruct (store_write key (whole result) (w_host w2) Hvalid Hg2 eq_refl) as (h & Ew & Hgh & Hk & Hsame).
  unfold write_call. fold key. change (mkReader (chain f talk (length (p_Steps p)) 0 data "") None) with (whole result).
  rewrite Ew. unfold ignore. eexists. split; [reflexivity|].
  split; [by rewrite (store_local' b valid good _ h)|]. split.
  - intros k Hk' Hne. rewrite (store_local' b valid good _ h) by done. rewrite Hsame by done.
    by apply (store_local' b valid good).
  - split; [|transitivity (w_events w2); [done|by rewrite Hev]].
    intros q Hq. unfold absent. cbn [w_disk with_disk with_host w_host disk].
    apply absent_RemoveAll. unfold absent. apply RemoveAll_below; [done|exact Hq].
Qed.

(** A plugin whose output has a mark of its step; the second of three says
    nothing about it. *)
Definition int_member (name : string) (i : RawMessage) : Z :=
  match i with Raw (JObj fs) => (field dec_int name 0 fs).1 | _ => 0 end.

Definition mark (si : Z) (d : string) : string := d +:+ itoa si.
Definition talks (si : Z) : bool := negb (si =? 1).

Definition member (name : string) (i : RawMessage) : string :=
  match i with Raw (JObj fs) => match map_lookup name fs with Some (JStr s) => s | _ => "" end | _ => "" end.

Definition marking (i : RawMessage) (h : host) : host * comp PluginExecute.ExecutionResult :=
  let si := int_member "step_index" i in
  let out := member "output_path" i in
  let content := default "" (files (disk h) !! member "input_path" i) in
  (mkHost (with_files (<[out := mark si content]> (files (disk h))) (disk h)) (objects h),
   Ret (mkExecResult (if talks si then out else "") "docker" 1 "")).

(** The text a plugin prints stands for the object that names its output. *)
Definition marking_agent : agent :=
  mkAgent no_disk_faults "/mnt" (Some "/home/u") "/tmp" "/tmp"
    (fun text => Raw (JObj [("output_path", JStr text)])) (fun _ => "") (fun s => s) "agent-1"
    (plain_services (Some memory_store) zeroManifest marking).

Definition step_of (i : Z) : CompoundStep := mkStep i "id" RawEmpty.
Definition marking_job : Job := mkJob "j" "" "" "d" 0 "c" "x" "" 0 RawEmpty "" "" "" "" "" RawEmpty "" "".
Definition marking_payload : ProcessPayload :=
  mkProcess "c" "" "" "d" "" 0 "" "" 0 "" RawEmpty false "src/a.txt" true [step_of 0; step_of 1; step_of 2] 0 "" 0 0 [] "".

Definition marking_world : world :=
  mkWorld (mkHost (mkFS ∅ ∅ ∅ ∅) {["https://s3/b/src/a.txt" := "A"]}) (mkState ∅ ∅ ∅ ∅ ∅ ∅) {["id" := "p"]} [] ∅.

Lemma marking_cases si step : 0 <= si -> p_Steps marking_payload !! Z.to_nat si = Some step ->
  step = step_of si /\ (si = 0 \/ si = 1 \/ si = 2).
Proof.
  intros Hsi H. destruct (Z.to_nat si) as [|[|[|k]]] eqn:Ek; [| | |done]; injection H as <-.
  - assert (si = 0) as -> by lia. auto.
  - assert (si = 1) as -> by lia. auto.
  - assert (si = 2) as -> by lia. auto.
Qed.

Lemma marking_computes :
  steps_compute marking_agent ["home"; "u"; ".sentra"; "cache"; "x"; "c"] marking_job marking_payload mark talks
    (w_names marking_world).
Proof.
  split.
  - intros si step H. assert (Hid : cs_PluginID step = "id").
    { destruct (Z.to_nat si) as [|[|[|k]]]; [injection H as <-; done..|done]. }
    rewrite Hid. split; [done|]. by exists "p".
  - intros name pl _. by eexists _, _, _.
  - intros path m si step inp prev h d Hsi Hstep Hd. destruct (marking_cases si step Hsi Hstep) as [-> Hcase].
    eexists _, _. split; [reflexivity|]. split; [done|]. split; [done|].
    set (cd := abs_path ["home"; "u"; ".sentra"; "cache"; "x"; "c"]).
    set (out := step_output cd si). set (i := step_context _ _ _ _ _ _ _ _ _).
    assert (Hm : member "input_path" i = inp /\ member "output_path" i = out /\ int_member "step_index" i = si).
    { destruct Hcase as [->|[->| ->]]; (split; [reflexivity|split; reflexivity]). }
    destruct Hm as (Hi & Ho & Hs). split; [|split].
    + intros q Hq. cbn [disk files with_files]. rewrite Ho, lookup_insert_ne; [done|]. intros <-.
      assert (Hb : below (step_dir cd si) out = true) by (destruct Hcase as [->|[->| ->]]; reflexivity). congruence.
    + cbn [disk files with_files]. rewrite Hi, Ho, Hs, Hd. apply lookup_insert_eq.
    + unfold talks. destruct Hcase as [->|[->| ->]]; simpl; [eexists; split; [reflexivity|by split]|reflexivity|
        eexists; split; [reflexivity|by split]].
Qed.

Lemma compound_job_chains_witness :
  exists w', executeCompoundProcessChunk marking_agent (fun _ _ => 0) marking_job marking_payload memory_store "s3"
      marking_world = (w', Ret tt) /\ contents memory_store "d/chunks/chunk_0.out" (w_host w') = Some "A02".
Proof.
  assert (Hs : RemoteStore memory_store (dataset_key "d" "") (fun _ => True)).
  { apply memory_remote. intros k. apply dataset_object_key; done. }
  assert (Hp : Forall plain_name ["home"; "u"; ".sentra"; "cache"; "x"; "c"]).
  { repeat (apply Forall_cons_2; [repeat split; discriminate|]). constructor. }
  destruct (compound_job_chains marking_agent (fun _ _ => 0) ["tmp"] ["home"; "u"; ".sentra"; "cache"; "x"; "c"]
    memory_store (dataset_key "d" "") (fun _ => True) marking_job marking_payload mark talks "A" marking_world Hs)
    as [(w' & Er & Hk & _) _]; try reflexivity.
  - split; try reflexivity; try discriminate; [|by split| |repeat split; discriminate|constructor].
    + apply Forall_singleton. repeat split; discriminate.
    + by split.
  - exact marking_computes.
  - intros H. vm_compute in H. discriminate H.
  - exists w'. split; [exact Er|exact Hk].
Defined.
