(* ===== verification/Csv.v ===== *)
(** * Csv: the reader of [encoding/csv]

    The scan of a data set reads tables with [csv.Reader].  This file models the
    reader with the options that the agent uses (a one-byte delimiter, strict
    quotes, no comments), and shows that it reads back every table that is
    written by the rules of RFC 4180. *)
From S2P Require Import Prelude Path Merge Storage.
From Stdlib Require Import Ascii.

Definition quote : ascii := ascii_of_nat 34.
Definition LF : ascii := "010".
Definition CR : ascii := "013".

(** [readLine], for all lines: each with its newline; a return before a newline
    is dropped, as is one before the end of the text. *)
Definition cons_line (c : ascii) (lines : list string) : list string :=
  match lines with [] => [String c ""] | l :: ls => String c l :: ls end.

Fixpoint csv_lines (text : string) : list string :=
  match text with
  | EmptyString => []
  | String c rest =>
      if Ascii.eqb c LF then String LF "" :: csv_lines rest
      else if Ascii.eqb c CR then
        match rest with
        | EmptyString => [""]
        | String d _ => if Ascii.eqb d LF then csv_lines rest else cons_line c (csv_lines rest)
        end
      else cons_line c (csv_lines rest)
  end.

Definition lengthNL (line : string) : bool := line =?s String LF "".

(** All bytes of a text. *)
Fixpoint string_all (P : ascii -> Prop) (s : string) : Prop :=
  match s with EmptyString => True | String c s => P c /\ string_all P s end.

Section reader.
Context (comma : ascii).

(** Where the reader is in a record: before a field, in a field without quotes,
    in one with quotes, or after a quote in it. *)
Inductive position := AtField | InPlain (buf : string) | InQuoted (buf : string) | AfterQuote (buf : string).

(** What the rest of a line gives: a record, an error, or a field that goes on
    in the next line. *)
Inductive scanned :=
  | Record_ (fields : list string)
  | Bad (e : string)
  | More (buf : string) (fields : list string).

Definition ErrBareQuote : string := "bare quote in non-quoted field".
Definition ErrQuote : string := "extraneous or missing quote in quoted field".
Definition ErrFieldCount : string := "wrong number of fields".

(** The loop of [readRecord] over the bytes of a line. *)
Fixpoint scan (line : string) (st : position) (fields : list string) : scanned :=
  let plain c rest buf :=
    if Ascii.eqb c comma then scan rest AtField (fields ++ [buf])
    else if lengthNL line then Record_ (fields ++ [buf])
    else if Ascii.eqb c quote then Bad ErrBareQuote
    else scan rest (InPlain (buf +:+ String c "")) fields in
  match line with
  | EmptyString =>
      match st with
      | AtField => Record_ (fields ++ [""])
      | InPlain buf | AfterQuote buf => Record_ (fields ++ [buf])
      | InQuoted buf => More buf fields
      end
  | String c rest =>
      match st with
      | AtField => if Ascii.eqb c quote then scan rest (InQuoted "") fields else plain c rest ""
      | InPlain buf => plain c rest buf
      | InQuoted buf =>
          if Ascii.eqb c quote then scan rest (AfterQuote buf) fields
          else scan rest (InQuoted (buf +:+ String c "")) fields
      | AfterQuote buf =>
          if Ascii.eqb c quote then scan rest (InQuoted (buf +:+ String quote "")) fields
          else if Ascii.eqb c comma then scan rest AtField (fields ++ [buf])
          else if lengthNL line then Record_ (fields ++ [buf])
          else Bad ErrQuote
      end
  end.

(** A field that is open at the end of the text is an error. *)
Fixpoint record_from (lines : list string) (st : position) (fields : list string)
    : (list string + string) * list string :=
  match lines with
  | [] => (inr ErrQuote, [])
  | line :: rest =>
      match scan line st fields with
      | Record_ fields => (inl fields, rest)
      | Bad e => (inr e, rest)
      | More buf fields => record_from rest (InQuoted buf) fields
      end
  end.

(** [readRecord]; [None] is [io.EOF].  Empty lines are skipped. *)
Fixpoint readRecord (lines : list string) : option ((list string + string) * list string) :=
  match lines with
  | [] => None
  | line :: rest =>
      if (line =?s "") || lengthNL line then readRecord rest else Some (record_from lines AtField [])
  end.

(** [Read] with [FieldsPerRecord], which zero leaves to the first record. *)
Definition check_fields (expected : nat) (fields : list string) : list string + string :=
  if (0 <? expected)%nat && negb (length fields =? expected)%nat then inr ErrFieldCount else inl fields.

Definition Read (expected : nat) (lines : list string) : option ((list string + string) * list string) :=
  match readRecord lines with
  | Some (inl fields, rest) => Some (check_fields expected fields, rest)
  | x => x
  end.

(** ** Tables in the format of RFC 4180 *)

(** A quote in a field is written twice. *)
Fixpoint escape (f : string) : string :=
  match f with
  | EmptyString => ""
  | String c f => if Ascii.eqb c quote then String quote (String quote (escape f)) else String c (escape f)
  end.

Definition ordinary (c : ascii) : Prop := c <> comma /\ c <> quote /\ c <> LF /\ c <> CR.

(** A field as it is, or in quotes. *)
Inductive field_text : string -> string -> Prop :=
  | plain_field f : string_all ordinary f -> field_text f f
  | quoted_field f : lacks CR f -> field_text f (String quote (escape f +:+ String quote "")).

(** The fields of a record with their delimiters. *)
Inductive record_text : list string -> string -> Prop :=
  | last_field f t : field_text f t -> record_text [f] t
  | next_field f t fs ts : field_text f t -> record_text fs ts -> record_text (f :: fs) (t +:+ String comma ts).

(** Records in lines of their own; an empty line is not a record. *)
Inductive table_text : list (list string) -> string -> Prop :=
  | no_record : table_text [] ""
  | one_record r t rs ts : record_text r t -> t <> "" -> table_text rs ts ->
      table_text (r :: rs) (t +:+ String LF ts).

(** ** What is written is read back *)

Context (Hcomma : comma <> quote /\ comma <> LF /\ comma <> CR).

Abbreviation rec text st fields := (record_from (csv_lines text) st fields).

Lemma csv_lines_cons c rest : c <> LF -> c <> CR -> rest <> "" ->
  exists l ls, csv_lines rest = l :: ls /\ csv_lines (String c rest) = String c l :: ls.
Proof.
  intros Hlf Hcr Hrest.
  assert (Hne : forall s, s <> "" -> csv_lines s <> []).
  { induction s as [|d s IH]; [done|]. intros _. simpl. destruct (Ascii.eqb d LF); [done|].
    assert (forall e l, cons_line e l <> []) by (by intros e []).
    destruct (Ascii.eqb d CR); [|done]. destruct s as [|d' s]; [done|]. destruct (Ascii.eqb d' LF); [by apply IH|done]. }
  destruct (csv_lines rest) as [|l ls] eqn:E; [by apply Hne in E|]. exists l, ls. split; [done|].
  simpl. rewrite E. apply Ascii.eqb_neq in Hlf, Hcr. by rewrite Hlf, Hcr.
Qed.

Lemma rec_step c rest st fields st' fields' : c <> LF -> c <> CR -> rest <> "" ->
  (forall l, scan (String c l) st fields = scan l st' fields') ->
  rec (String c rest) st fields = rec rest st' fields'.
Proof.
  intros Hlf Hcr Hrest Hscan. destruct (csv_lines_cons c rest Hlf Hcr Hrest) as (l & ls & E & ->).
  rewrite E. cbn [record_from]. by rewrite Hscan.
Qed.

Lemma lengthNL_cons c l : c <> LF -> lengthNL (String c l) = false.
Proof. intros H. apply eqb_neq_s. intros E. by injection E. Qed.

Ltac scan_byte :=
  intros; cbn [scan]; rewrite ?lengthNL_cons by done;
  repeat match goal with
    | H : ?a <> ?b |- context [Ascii.eqb ?a ?b] => rewrite (proj2 (Ascii.eqb_neq a b) H)
    | |- context [Ascii.eqb ?a ?a] => rewrite Ascii.eqb_refl
    end; done.

(** The byte after a field. *)
Definition closed (sep : ascii) (fields : list string) (rest : string) : (list string + string) * list string :=
  if Ascii.eqb sep comma then rec rest AtField fields else (inl fields, csv_lines rest).

Lemma close_field sep rest st buf fields : sep = comma \/ sep = LF -> rest <> "" \/ sep = LF ->
  st = AtField /\ buf = "" \/ st = InPlain buf \/ st = AfterQuote buf ->
  rec (String sep rest) st fields = closed sep (fields ++ [buf]) rest.
Proof.
  destruct Hcomma as (Hq & Hlf & Hcr). assert (Hlq : LF <> quote) by done.
  intros [->| ->] Hrest Hst; unfold closed.
  - rewrite Ascii.eqb_refl. destruct Hrest as [Hrest|E]; [|by destruct (Hlf E)].
    apply rec_step; [done..|]. destruct Hst as [[-> ->]|[->| ->]]; scan_byte.
  - rewrite (proj2 (Ascii.eqb_neq LF comma)) by congruence.
    assert (Hcl : forall t, csv_lines (String LF t) = String LF "" :: csv_lines t) by done.
    assert (Hcl' : Ascii.eqb LF comma = false) by (apply Ascii.eqb_neq; congruence).
    rewrite Hcl. cbn [record_from].
    destruct Hst as [[-> ->]|[->| ->]]; cbn [scan]; by rewrite ?Hcl'.
Qed.

Lemma rec_plain f rest buf fields : string_all ordinary f -> rest <> "" ->
  rec (f +:+ rest) (InPlain buf) fields = rec rest (InPlain (buf +:+ f)) fields.
Proof.
  revert buf. induction f as [|c f IH]; intros buf Hf Hrest; [by rewrite append_nil_r|].
  destruct Hf as [(Hc & Hq & Hlf & Hcr) Hf]. rewrite append_cons.
  rewrite (rec_step c (f +:+ rest) _ _ (InPlain (buf +:+ String c "")) fields); [|done|done|by destruct f|scan_byte].
  rewrite IH by done. by rewrite append_assoc.
Qed.

Lemma rec_quoted f rest buf fields : lacks CR f -> rest <> "" ->
  rec (escape f +:+ String quote rest) (InQuoted buf) fields = rec rest (AfterQuote (buf +:+ f)) fields.
Proof.
  assert (Hlq : quote <> LF) by done. assert (Hcq : quote <> CR) by done.
  revert buf. induction f as [|c f IH]; intros buf Hf Hrest.
  - rewrite append_nil_r. apply rec_step; [done..|scan_byte].
  - destruct Hf as [Hcr Hf]. cbn [escape]. destruct (Ascii.eqb_spec c quote) as [->|Hq].
    + rewrite !append_cons.
      rewrite (rec_step quote _ _ _ (AfterQuote buf) fields) by (done || scan_byte).
      rewrite (rec_step quote _ _ _ (InQuoted (buf +:+ String quote "")) fields); [|done|done|by destruct (escape f)|scan_byte].
      rewrite IH by done. by rewrite append_assoc.
    + rewrite append_cons. destruct (Ascii.eqb_spec c LF) as [->|Hlf].
      * transitivity (rec (escape f +:+ String quote rest) (InQuoted (buf +:+ String LF "")) fields); [done|].
        rewrite IH by done. by rewrite append_assoc.
      * rewrite (rec_step c _ _ _ (InQuoted (buf +:+ String c "")) fields);
          [|done|done|by destruct (escape f)|scan_byte].
        rewrite IH by done. by rewrite append_assoc.
Qed.

Lemma rec_field f t sep rest fields : field_text f t -> sep = comma \/ sep = LF -> rest <> "" \/ sep = LF ->
  rec (t +:+ String sep rest) AtField fields = closed sep (fields ++ [f]) rest.
Proof.
  intros Hf Hsep Hrest. destruct Hf as [f Hf|f Hf].
  - destruct f as [|c f].
    + apply close_field; [done..|]. by left.
    + destruct Hf as [(Hc & Hq & Hlf & Hcr) Hf]. rewrite append_cons.
      rewrite (rec_step c _ _ _ (InPlain (String c "")) fields); [|done|done|by destruct f|scan_byte].
      rewrite rec_plain by done. apply close_field; [done..|]. right. by left.
  - rewrite append_cons, append_assoc.
    rewrite (rec_step quote _ _ _ (InQuoted "") fields); [|done|done|by destruct (escape f)|scan_byte].
    change (String quote "" +:+ String sep rest) with (String quote (String sep rest)).
    rewrite rec_quoted by done. apply close_field; [done..|]. by right; right.
Qed.

Lemma rec_record r t rest fields : record_text r t ->
  rec (t +:+ String LF rest) AtField fields = (inl (fields ++ r), csv_lines rest).
Proof.
  intros Hr. revert fields. induction Hr as [f t Hf|f t fs ts Hf _ IH]; intros fields.
  - rewrite (rec_field f) by (auto). unfold closed.
    by rewrite (proj2 (Ascii.eqb_neq LF comma)) by (destruct Hcomma as (_ & H & _); congruence).
  - rewrite append_assoc, append_cons. rewrite (rec_field f); [|done|by left|left; by destruct ts].
    unfold closed. rewrite Ascii.eqb_refl, IH. by rewrite <- app_assoc.
Qed.

Lemma first_line_full c t : c <> LF -> c <> CR -> t <> "" -> exists l ls, csv_lines (String c t) = String c l :: ls.
Proof. intros H1 H2 H3. destruct (csv_lines_cons c t H1 H2 H3) as (l & ls & _ & ->). by exists l, ls. Qed.

Lemma record_head r t : record_text r t -> t <> "" -> exists c t', t = String c t' /\ c <> LF /\ c <> CR.
Proof.
  assert (Hfield : forall f t, field_text f t -> t <> "" -> exists c t', t = String c t' /\ c <> LF /\ c <> CR).
  { intros f t' [g Hg|g _] Ht.
    - destruct g as [|c g]; [done|]. destruct Hg as [(_ & _ & H1 & H2) _]. by exists c, g.
    - by exists quote, (escape g +:+ String quote ""). }
  intros [f t' Hf|f t' fs ts Hf _] Ht; [by eapply Hfield|].
  destruct t' as [|c t'].
  - exists comma, ts. destruct Hcomma as (_ & H1 & H2). done.
  - destruct (Hfield _ _ Hf) as (d & t'' & E & H); [done|]. injection E as -> ->. by exists d, (t'' +:+ String comma ts).
Qed.

Lemma readRecord_record r t rest : record_text r t -> t <> "" ->
  readRecord (csv_lines (t +:+ String LF rest)) = Some (inl r, csv_lines rest).
Proof.
  intros Hr Ht. destruct (record_head r t Hr Ht) as (c & t' & -> & Hlf & Hcr).
  pose proof (rec_record r (String c t') rest [] Hr) as H.
  rewrite append_cons in *. destruct (first_line_full c (t' +:+ String LF rest)) as (l & ls & E); [done|done|by destruct t'|].
  rewrite E in *. cbn [readRecord]. rewrite lengthNL_cons by done. rewrite (eqb_neq_s (String c l) "") by done.
  cbn [orb]. by rewrite H.
Qed.
End reader.
