(* ===== verification/Metadata.v ===== *)
(** * Metadata: what a scan finds out about a file

    Models [extractFileMetadata] of [internal/dispatcher/handlers_unix.go] and the
    extractors behind it.  The metadata of a file is a map from names to values
    of different Go types.  The readers of spreadsheets, Parquet and PDF files,
    archives, pictures and executables are parameters ([libraries]); tables and
    JSON are read as the code and [encoding/csv] do. *)
From S2P Require Import Prelude GoFloat Json Path Encoding ExecutorV2 PluginVerify Merge MergeTree Recovery Storage Handler Csv.
From Stdlib Require Import Ascii.

(** ** Types of values in tables *)

(** [strconv.ParseInt(s, 10, 64)]: a sign and decimal digits. *)
Definition is_int (s : string) : bool :=
  let digits := match s with
                | String c t => if Ascii.eqb c "-" || Ascii.eqb c "+" then t else s
                | EmptyString => s
                end in
  all_digits digits && match Sscanf_d s with Some _ => true | None => false end.

(** *** [time.Parse] for the five layouts *)

(** A decimal number of one or two digits, at the start of a text. *)
Definition getnum (fixed : bool) (s : string) : option (Z * string) :=
  match s with
  | String c t =>
      match digit_of c with
      | None => None
      | Some d =>
          match t with
          | String c' u => match digit_of c' with
                           | Some d' => Some (10 * d + d', u)
                           | None => if fixed then None else Some (d, t)
                           end
          | EmptyString => if fixed then None else Some (d, t)
          end
      end
  | EmptyString => None
  end.

Definition year (s : string) : option (Z * string) :=
  match getnum true s with
  | Some (a, t) => match getnum true t with Some (b, u) => Some (100 * a + b, u) | None => None end
  | None => None
  end.

Definition expect (c : ascii) (s : string) : option string :=
  match s with String d t => if Ascii.eqb c d then Some t else None | EmptyString => None end.

Definition leap (y : Z) : bool := (y mod 4 =? 0) && (negb (y mod 100 =? 0) || (y mod 400 =? 0)).
Definition daysIn (m y : Z) : Z :=
  if m =? 2 then (if leap y then 29 else 28)
  else if existsb (Z.eqb m) [4; 6; 9; 11] then 30 else 31.
Definition valid_date (y m d : Z) : bool := (1 <=? m) && (m <=? 12) && (1 <=? d) && (d <=? daysIn m y).

Local Notation "'let?' x := c 'in' k" := (match c with Some x => k | None => None end)
  (at level 10, x pattern, c at level 100, k at level 200).

(** ["2006-01-02"] with the separator [sep], and what follows. *)
Definition date_ymd (sep : ascii) (s : string) : option string :=
  let? (y, s) := year s in
  let? s := expect sep s in
  let? (m, s) := getnum true s in
  let? s := expect sep s in
  let? (d, s) := getnum true s in
  (if valid_date y m d then Some s else None).

Definition date_mdy (s : string) : option string :=
  let? (m, s) := getnum true s in
  let? s := expect "/" s in
  let? (d, s) := getnum true s in
  let? s := expect "/" s in
  let? (y, s) := year s in
  (if valid_date y m d then Some s else None).

Fixpoint skip_digits (s : string) : string :=
  match s with
  | String c t => match digit_of c with Some _ => skip_digits t | None => s end
  | EmptyString => s
  end.

(** A fraction of a second is read although no layout has one. *)
Definition skip_fraction (s : string) : string :=
  match s with
  | String c (String d t) =>
      if (Ascii.eqb c "." || Ascii.eqb c ",") && match digit_of d with Some _ => true | None => false end
      then skip_digits t else s
  | _ => s
  end.

Definition clock (s : string) : option string :=
  let? (h, s) := getnum false s in
  let? s := expect ":" s in
  let? (m, s) := getnum true s in
  let? s := expect ":" s in
  let? (x, s) := getnum true s in
  (if (h <? 24) && (m <? 60) && (x <? 60) then Some (skip_fraction s) else None).

(** A blank in a layout stands for any number of blanks, at least one unless the
    text ends. *)
Fixpoint cutspace (s : string) : string :=
  match s with String c t => if Ascii.eqb c " " then cutspace t else s | EmptyString => s end.
Definition skip_blank (s : string) : option string :=
  match s with
  | String c _ => if Ascii.eqb c " " then Some (cutspace s) else None
  | EmptyString => Some s
  end.

Definition is_datetime (s : string) : bool :=
  let whole (r : option string) := match r with Some t => t =?s "" | None => false end in
  whole (date_ymd "-" s) || whole (date_ymd "/" s) || whole (date_mdy s)
  || whole (let? s := date_ymd "-" s in let? s := expect "T" s in clock s)
  || whole (let? s := date_ymd "-" s in let? s := skip_blank s in clock s).

Section types.
(** Whether [strconv.ParseFloat] accepts a text. *)
Context (is_float : string -> bool).

Definition detectValueType (value : string) : string :=
  if value =?s "" then "null"
  else if is_int value then "integer"
  else if is_float value then "float"
  else
    let lower := strings_ToLower value in
    if (lower =?s "true") || (lower =?s "false") then "boolean"
    else if is_datetime value then "datetime"
    else "string".
End types.

(** A decoded value holds no [int]: numbers are [float64]. *)
Definition detectValueTypeFromAny (value : json) : string :=
  match value with
  | JNull => "null"
  | JNum _ => "float"
  | JBool _ => "boolean"
  | JStr _ => "string"
  | JArr _ => "array"
  | JObj _ => "object"
  end.

(** [typeStr] is the name of the Go type of a Parquet type. *)
Definition parquetTypeToString (typeStr : string) : string :=
  if strings_Contains typeStr "Int64" then "integer"
  else if strings_Contains typeStr "Float" then "float"
  else if strings_Contains typeStr "Boolean" then "boolean"
  else if strings_Contains typeStr "ByteArray" then "binary"
  else if strings_Contains typeStr "UTF8" then "string"
  else typeStr.

Example value_types :
  map (detectValueType (fun s => s =?s "1.5"))
    [""; "12"; "+3"; "1.5"; "TRUE"; "2024-02-29"; "2023-02-29"; "2024-01-02 3:04:05.6"; "01/31/2024"; "x"] =
  ["null"; "integer"; "integer"; "float"; "boolean"; "datetime"; "string"; "datetime"; "datetime"; "string"].
Proof. reflexivity. Qed.

(** ** Metadata *)

(** Go values by their types; a row is a decoded map. *)
Inductive value :=
  | VInt (n : Z) | VInt64 (n : Z) | VUint32 (n : Z) | VFloat (f : float64) | VBool (b : bool) | VStr (s : string)
  | VStrings (l : list string)                (** [[]string] *)
  | VTypes (m : gmap string string)           (** [map[string]string] *)
  | VCounts (m : gmap string Z)               (** [map[string]int] *)
  | VRows (l : list (list (string * json))).  (** [[]map[string]any] *)

Abbreviation metadata := (gmap string value).

(** [m[k] = v] for each of a list in turn. *)
Definition assign (l : list (string * value)) (m : metadata) : metadata :=
  foldl (fun m kv => <[kv.1 := kv.2]> m) m l.
Definition metadata_of (l : list (string * value)) : metadata := assign l ∅.

(** What the libraries find in the content of a file. *)
Record workbook := mkWorkbook {
  wb_sheets : list string;
  wb_Rows : string -> result (list (result (list string)));
  wb_GetSheetDimension : string -> result string;
  CellNameToCoordinates : string -> option Z   (** the row *) }.

Record parquet_file := mkParquet {
  pq_fields : list (string * string);          (** names, and names of the Go types *)
  pq_rows : list (option (list (string * json)));  (** rows up to [io.EOF]; [None] did not decode *)
  pq_NumRows : Z }.

Inductive executable :=
  | ELF (machine : string) (type : Z)
  | PE (machine : Z)
  | MachO (cpu : string) (type : Z)
  | FatMachO (cpus : list string)
  | NotExecutable.

Record libraries := mkLibraries {
  l_is_float : string -> bool;
  l_parse : string -> RawMessage; l_renum : string -> string;
  (** the order of a range over a map *)
  l_order : list string -> list string;
  l_excel : string -> result workbook;
  l_parquet : string -> comp parquet_file;
  l_mime : string -> string; l_image : string -> option (Z * Z * string);
  l_pdf : string -> option (Z * string * bool * bool);
  l_zip : string -> option (list Z);           (** uncompressed sizes *)
  l_tar : bool -> string -> list (bool * Z);   (** entries: a regular file, and its size *)
  l_executable : string -> executable;
  l_hex : Z -> string }.

(** The sizes of the buffers that are read. *)
Definition header_size : nat := Z.to_nat 4096.
Definition content_size : nat := Z.to_nat 1000.
Definition mime_size : nat := Z.to_nat 512.

(** The first [n] bytes in a buffer of [n] bytes. *)
Definition zeros (n : nat) : string := String.string_of_list_ascii (repeat "000"%char n).
Definition buffer (n : nat) (data : string) : string := str_take n data +:+ zeros (n - String.length data).
Definition byte_at (n : nat) (s : string) : Z :=
  match String.get n s with Some c => Z_of_ascii c | None => 0 end.
Definition bytes (l : list Z) : string := String.string_of_list_ascii (map ascii_of_Z l).

Section extractors.
Context (L : libraries) (F : disk_faults).

Definition file_data (path : string) (s : fs) : comp string :=
  match os_Open (f_open F) path s with Ok r => Ret (r_data r) | Err e => Throw e end.

(** [os.Stat(path)], whose error has the prefix [ctx]. *)
Definition file_size (ctx path : string) (s : fs) : comp Z :=
  match os_Stat F path s with
  | StatFile n => Ret n
  | StatDir => Ret 4096
  | StatMissing => Throw (ctx +:+ "stat " +:+ path +:+ ": no such file or directory")
  | StatFault e => Throw (ctx +:+ e)
  end.

Definition estimateTotalRows (path : string) (sampleRowCount : Z) (s : fs) : Z :=
  if sampleRowCount =? 0 then 0
  else match file_size "" path s with
       | Ret size =>
           let avgRowSize := Z.quot size sampleRowCount in
           if avgRowSize =? 0 then 0 else Z.quot size avgRowSize
       | _ => 0
       end.

(** *** Tables *)

Fixpoint count_byte (c : ascii) (s : string) : Z :=
  match s with String d t => (if Ascii.eqb c d then 1 else 0) + count_byte c t | EmptyString => 0 end.

(** The most frequent delimiter of the first line, which must end. *)
Definition detectDelimiter (data : string) : ascii :=
  match strings_Index data (String LF "") with
  | None => ","
  | Some n =>
      let line := str_take n data in
      let better (best : Z * ascii) (key : string) :=
        match key with
        | String d _ => let count := count_byte d line in if best.1 <? count then (count, d) else best
        | EmptyString => best
        end in
      (foldl better (0, ","%char) (l_order L [","; String "009" ""; ";"; "|"])).2
  end.

Definition row_map (headers row : list string) : list (string * json) :=
  map_of_members (zip headers (map JStr row)).

(** The type of a column is that of its first value that is not empty. *)
Definition hint_types (types : gmap string string) (headers row : list string) : gmap string string :=
  foldl (fun m hv => if bool_decide (is_Some (m !! hv.1)) || (hv.2 =?s "") then m
                     else <[hv.1 := detectValueType (l_is_float L) hv.2]> m) types (zip headers row).

Record sample := mkSample {
  sm_rowCount : Z; sm_types : gmap string string; sm_rows : list (list (string * json)) }.

Definition csv_row (headers : list string) (i : Z) (row : list string) (a : sample) : sample :=
  mkSample (sm_rowCount a + 1) (hint_types (sm_types a) headers row)
    (if i <? 10 then sm_rows a ++ [row_map headers row] else sm_rows a).

(** At most [n] reads; a record that is not read counts as a turn. *)
Fixpoint csv_loop (comma : ascii) (headers : list string) (n : nat) (i : Z) (lines : list string) (a : sample)
    : sample :=
  match n with
  | O => a
  | S n =>
      match Read comma (length headers) lines with
      | None => a
      | Some (inr _, rest) => csv_loop comma headers n (i + 1) rest a
      | Some (inl row, rest) => csv_loop comma headers n (i + 1) rest (csv_row headers i row a)
      end
  end.

Definition columns (headers : list string) : list (string * value) :=
  [("headers", VStrings headers); ("columns", VStrings headers); ("column_count", VInt (Z.of_nat (length headers)))].

Definition extractCSVMetadata (path : string) (s : fs) : comp metadata :=
  bind (file_data path s) (fun data =>
  let comma := detectDelimiter data in
  let m := metadata_of [("format", VStr "csv"); ("sample_file", VStr (Base path)); ("delimiter", VStr (String comma ""))] in
  match Read comma 0 (csv_lines data) with
  | None => Ret m
  | Some (inr e, _) => Throw e
  | Some (inl headers, rest) =>
      let a := csv_loop comma headers 100 0 rest (mkSample 0 ∅ []) in
      Ret (assign (columns headers ++
        [("sample_row_count", VInt (sm_rowCount a)); ("schema", VTypes (sm_types a)); ("sample_rows", VRows (sm_rows a));
         ("has_header", VBool true); ("estimated_row_count", VInt (estimateTotalRows path (sm_rowCount a) s))]) m)
  end).

(** *** Spreadsheets *)

(** [rowCount] counts the line of the headers. *)
Fixpoint excel_rows (n : nat) (headers : list string) (m : metadata) (a : sample) (rows : list (result (list string)))
    : comp (metadata * sample) :=
  match n, rows with
  | O, _ | _, [] => Ret (m, a)
  | S n, Err e :: _ => Throw e
  | S n, Ok row :: rows =>
      if sm_rowCount a =? 0 then
        let headers := map TrimSpace row in
        excel_rows n headers (assign (columns headers ++ [("has_header", VBool true)]) m)
          (mkSample 1 (sm_types a) (sm_rows a)) rows
      else
        excel_rows n headers m
          (mkSample (sm_rowCount a + 1) (hint_types (sm_types a) headers row)
             (if (length (sm_rows a) <? 10)%nat then sm_rows a ++ [row_map headers row] else sm_rows a)) rows
  end.

(** The last row of a dimension such as ["A1:C20"]. *)
Fixpoint without (c : ascii) (s : string) : string :=
  match s with String d t => if Ascii.eqb c d then without c t else String d (without c t) | EmptyString => "" end.
Definition last_row (wb : workbook) (sheet : string) : option Z :=
  match wb_GetSheetDimension wb sheet with
  | Ok dimension =>
      if dimension =?s "" then None
      else CellNameToCoordinates wb (List.last (split_on ":" (without "$" dimension)) "")
  | Err _ => None
  end.

Definition extractExcelMetadata (path : string) (s : fs) : comp metadata :=
  let m := metadata_of [("format", VStr "excel"); ("sample_file", VStr (Base path))] in
  bind (file_data path s) (fun data =>
  match l_excel L data with
  | Err e => Throw e
  | Ok wb =>
      let m := assign [("sheet_names", VStrings (wb_sheets wb))] m in
      match wb_sheets wb with
      | [] => Ret m
      | sheet :: _ =>
          let m := assign [("sheet_name", VStr sheet)] m in
          match wb_Rows wb sheet with
          | Err e => Throw e
          | Ok rows =>
              bind (excel_rows 100 [] m (mkSample 0 ∅ []) rows) (fun '(m, a) =>
              let estimated := if 0 <? sm_rowCount a then sm_rowCount a - 1 else 0 in
              let estimated := match last_row wb sheet with
                               | Some row => if 1 <? row then row - 1 else estimated
                               | None => estimated
                               end in
              Ret (assign [("sample_row_count", VInt (sm_rowCount a)); ("schema", VTypes (sm_types a));
                           ("sample_rows", VRows (sm_rows a)); ("estimated_row_count", VInt estimated)] m))
          end
      end
  end).

(** *** JSON *)

Definition unmarshal_any (data : string) : comp json :=
  match l_parse L data with
  | Raw j => Ret (to_interface (l_renum L) j)
  | _ => Throw "invalid JSON"
  end.

Definition object_types (obj : list (string * json)) : gmap string string :=
  list_to_map (map (fun kv => (kv.1, detectValueTypeFromAny kv.2)) obj).

Definition object_columns (obj : list (string * json)) : list (string * value) :=
  columns (l_order L (map fst obj)) ++ [("schema", VTypes (object_types obj))].

Definition object_of (j : json) : option (list (string * json)) := match j with JObj fs => Some fs | _ => None end.

Definition json_metadata (j : json) : list (string * value) :=
  match j with
  | JArr v =>
      [("array_length", VInt (Z.of_nat (length v)))] ++
      match v with
      | JObj obj :: _ => object_columns obj ++ [("sample_rows", VRows (omap object_of (take 10 v)))]
      | _ => []
      end
  | JObj obj => object_columns obj ++ [("sample_rows", VRows [obj])]
  | _ => []
  end.

Definition extractJSONMetadata (path : string) (s : fs) : comp metadata :=
  bind (file_data path s) (fun data => bind (unmarshal_any data) (fun j =>
  Ret (assign (json_metadata j ++ [("estimated_row_count", VInt (estimateTotalRows path 1 s))])
         (metadata_of [("format", VStr "json"); ("sample_file", VStr (Base path))])))).

(** [bufio.Scanner]: the lines of a text, up to one that is too long. *)
Definition max_token : Z := 65536.
Fixpoint tokens (parts : list string) : list string :=
  match parts with
  | [] => []
  | p :: rest =>
      if max_token <=? Z.of_nat (String.length p) then []
      else match rest with
           | [] => if p =?s "" then [] else [TrimSuffix p (String CR "")]
           | _ => TrimSuffix p (String CR "") :: tokens rest
           end
  end.
Definition scanner_lines (data : string) : list string := tokens (split_on LF data).

(** The headers are those of the first line, if it is an object. *)
Record jsonl_state := mkJsonl { jl_headers : list string; jl_sample : sample }.

Definition jsonl_line (i : Z) (line : string) (a : jsonl_state) : jsonl_state :=
  if line =?s "" then a
  else match unmarshal_map (l_parse L) (l_renum L) line with
       | None => a
       | Some row =>
           let row := default [] row in
           let b := jl_sample a in
           mkJsonl (if i =? 0 then l_order L (map fst row) else jl_headers a)
             (mkSample (sm_rowCount b + 1) (if i =? 0 then object_types row else sm_types b)
                (if i <? 10 then sm_rows b ++ [row] else sm_rows b))
       end.

Fixpoint jsonl_loop (i : Z) (lines : list string) (a : jsonl_state) : jsonl_state :=
  match lines with [] => a | line :: rest => jsonl_loop (i + 1) rest (jsonl_line i line a) end.

Definition extractJSONLMetadata (path : string) (s : fs) : comp metadata :=
  bind (file_data path s) (fun data =>
  let a := jsonl_loop 0 (take 100 (scanner_lines data)) (mkJsonl [] (mkSample 0 ∅ [])) in
  let b := jl_sample a in
  Ret (assign (columns (jl_headers a) ++
         [("schema", VTypes (sm_types b)); ("sample_rows", VRows (sm_rows b)); ("sample_row_count", VInt (sm_rowCount b));
          ("estimated_row_count", VInt (estimateTotalRows path (sm_rowCount b) s))])
         (metadata_of [("format", VStr "jsonl"); ("sample_file", VStr (Base path))]))).

(** *** Parquet *)

Definition extractParquetMetadata (path : string) (s : fs) : comp metadata :=
  bind (file_data path s) (fun data => bind (l_parquet L data) (fun pr =>
  let schema := foldl (fun m f => <[f.1 := parquetTypeToString f.2]> m) ∅ (pq_fields pr) in
  let rows := omap id (take (Z.to_nat (Z.min 10 (pq_NumRows pr))) (pq_rows pr)) in
  Ret (assign (columns (map fst (pq_fields pr)) ++
         [("schema", VTypes schema); ("sample_rows", VRows rows); ("total_row_count", VInt (pq_NumRows pr));
          ("estimated_row_count", VInt (pq_NumRows pr))])
         (metadata_of [("format", VStr "parquet"); ("sample_file", VStr (Base path))])))).

(** *** Other formats *)

Definition size_value (data : string) : string * value := ("file_size_bytes", VInt64 (Z.of_nat (String.length data))).

(** The content type is guessed from a buffer that is padded with zeros. *)
Definition extractImageMetadata (path : string) (s : fs) : comp metadata :=
  bind (file_data path s) (fun data =>
  Ret (metadata_of ([("format", VStr "image"); ("image_mime", VStr (l_mime L (buffer mime_size data)))] ++
    match l_image L data with
    | Some (w, h, model) =>
        [("image_width", VInt w); ("image_height", VInt h); ("image_color_model", VStr model)]
    | None => []
    end ++ [size_value data]))).

Fixpoint trim_zeros (s : string) : string :=
  match s with
  | EmptyString => ""
  | String c t => match trim_zeros t with EmptyString => if Ascii.eqb c "000" then "" else String c "" | u => String c u end
  end.

Definition slice (a b : nat) (s : string) : string := str_take (b - a) (str_drop a s).

Definition video_container (buf : string) : list (string * value) :=
  match strings_Index buf "ftyp" with
  | Some i =>
      ("video_container", VStr "mp4") ::
      (if (i + 12 <? String.length buf)%nat
       then [("video_codec", VStr (trim_zeros (slice (i + 8) (i + 12) buf)))] else [])
  | None =>
      [("video_container", VStr
         (if HasPrefix buf (bytes [26; 69; 223; 163]) then "matroska"
          else if HasPrefix buf "RIFF" && strings_Contains (str_take 12 buf) "AVI " then "avi"
          else if HasPrefix buf (bytes [0; 0; 0; 28; 102; 116; 121; 112]) then "quicktime"
          else "unknown"))]
  end.

Definition quality (size : Z) : string :=
  if 500 * 1024 * 1024 <? size then "high" else if 50 * 1024 * 1024 <? size then "medium" else "low".

Definition extractVideoMetadata (path : string) (s : fs) : comp metadata :=
  bind (file_data path s) (fun data =>
  let size := Z.of_nat (String.length data) in
  Ret (metadata_of ([("format", VStr "video"); size_value data] ++ video_container (buffer header_size data) ++
    [("estimated_duration_seconds", VFloat (f64_ratio size 500000)); ("quality_estimate", VStr (quality size))]))).

Definition extractPDFMetadata (path : string) (s : fs) : comp metadata :=
  bind (file_size ("stat pdf " +:+ path +:+ ": ") path s) (fun size =>
  Ret (metadata_of ([("format", VStr "pdf"); ("file_size_bytes", VInt64 size)] ++
    match file_data path s with
    | Ret data =>
        match l_pdf L data with
        | Some (pages, version, encrypted, linearized) =>
            [("pdf_page_count", VInt pages); ("pdf_version", VStr version); ("pdf_encrypted", VBool encrypted);
             ("pdf_linearized", VBool linearized)]
        | None => []
        end
    | _ => []
    end))).

Definition audio_codec (buf : string) : list (string * value) :=
  if HasPrefix buf "ID3" then
    [("audio_codec", VStr "mp3"); ("id3_tag_present", VBool true);
     ("id3_tag_size", VInt (Z.lor (Z.lor (Z.lor (Z.shiftl (byte_at 6 buf) 21) (Z.shiftl (byte_at 7 buf) 14))
                                 (Z.shiftl (byte_at 8 buf) 7)) (byte_at 9 buf)))]
  else if HasPrefix buf "RIFF" && strings_Contains (str_take 12 buf) "WAVE" then
    [("audio_codec", VStr "pcm");
     ("audio_sample_rate", VUint32 (Z.lor (Z.lor (byte_at 24 buf) (Z.shiftl (byte_at 25 buf) 8))
                                      (Z.lor (Z.shiftl (byte_at 26 buf) 16) (Z.shiftl (byte_at 27 buf) 24))))]
  else if HasPrefix buf "fLaC" then [("audio_codec", VStr "flac")]
  else if (byte_at 0 buf =? 255) && (Z.land (byte_at 1 buf) 224 =? 224) then [("audio_codec", VStr "mp3")]
  else [("audio_codec", VStr "unknown")].

Definition extractAudioMetadata (path : string) (s : fs) : comp metadata :=
  bind (file_data path s) (fun data =>
  Ret (metadata_of ([("format", VStr "audio"); size_value data] ++ audio_codec (buffer header_size data)))).

Definition archive_counts (count total size : Z) : list (string * value) :=
  [("archive_file_count", VInt count); ("archive_uncompressed_bytes", VInt64 total)]
  ++ (if 0 <? size then [("archive_compression_ratio", VFloat (f64_ratio total size))] else []).

Definition sum64 (l : list Z) : Z := foldl (fun a n => int64 (a + int64 n)) 0 l.

Definition extractArchiveMetadata (path : string) (s : fs) : comp metadata :=
  bind (file_size ("stat archive " +:+ path +:+ ": ") path s) (fun size =>
  let m := metadata_of [("format", VStr "archive"); ("file_size_bytes", VInt64 size)] in
  match file_data path s with
  | Ret data =>
      match l_zip L data with
      | Some sizes =>
          Ret (assign (("archive_format", VStr "zip") :: archive_counts (Z.of_nat (length sizes)) (sum64 sizes) size) m)
      | None =>
          let buf := buffer 2 data in
          let gz := (byte_at 0 buf =? 31) && (byte_at 1 buf =? 139) in
          let regular := List.filter fst (l_tar L gz data) in
          Ret (assign (("archive_format", VStr (if gz then "tar.gz" else "tar")) ::
                       archive_counts (Z.of_nat (length regular)) (sum64 (map snd regular)) size) m)
      end
  | Throw e => Throw ("open archive " +:+ path +:+ ": " +:+ e)
  | Panic => Panic
  end).

Definition pe_arch (machine : Z) : string :=
  if machine =? 332 then "i386" else if machine =? 34404 then "x86_64" else if machine =? 43620 then "arm64"
  else "0x" +:+ l_hex L machine.

(** [ET_REL], [ET_EXEC] and [ET_DYN]; [TypeExec], [TypeDylib] and [TypeBundle]. *)
Definition elf_type (t : Z) : option string :=
  if t =? 2 then Some "executable" else if t =? 3 then Some "shared_library"
  else if t =? 1 then Some "relocatable" else None.
Definition macho_type (t : Z) : option string :=
  if t =? 2 then Some "executable" else if t =? 6 then Some "dynamic_library"
  else if t =? 8 then Some "bundle" else None.

Definition optional (k : string) (v : option string) : list (string * value) :=
  match v with Some s => [(k, VStr s)] | None => [] end.

Definition binary_metadata (e : executable) : list (string * value) :=
  match e with
  | ELF machine type =>
      [("binary_format", VStr "elf"); ("binary_arch", VStr machine)] ++ optional "binary_type" (elf_type type)
  | PE machine => [("binary_format", VStr "pe"); ("binary_arch", VStr (pe_arch machine))]
  | MachO cpu type =>
      [("binary_format", VStr "macho"); ("binary_arch", VStr cpu)] ++ optional "binary_type" (macho_type type)
  | FatMachO cpus =>
      [("binary_format", VStr "macho"); ("binary_arch", VStr (join_with "," cpus));
       ("binary_type", VStr "executable"); ("binary_fat", VBool true)]
  | NotExecutable => [("binary_format", VStr "unknown")]
  end.

Definition extractBinaryMetadata (path : string) (s : fs) : comp metadata :=
  bind (file_size ("stat binary " +:+ path +:+ ": ") path s) (fun size =>
  let e := match file_data path s with Ret data => l_executable L data | _ => NotExecutable end in
  Ret (metadata_of ([("format", VStr "binary"); ("file_size_bytes", VInt64 size)] ++ binary_metadata e))).
(** *** Any file *)

Definition unknown_metadata (path : string) (s : fs) : metadata :=
  metadata_of ([("format", VStr "unknown"); ("sample_file", VStr (Base path))]
    ++ match file_size "" path s with Ret n => [("file_size_bytes", VInt64 n)] | _ => [] end).

(** Formats by their first bytes; the reader that fits is used. *)
Definition detectAndExtractMetadata (path : string) (s : fs) : comp metadata :=
  let m := unknown_metadata path s in
  bind (file_data path s) (fun data =>
  if data =?s "" then Throw "EOF"
  else
    let header := str_take header_size data in
    let starts (l : list Z) := HasPrefix header (bytes l) in
    let content := str_take content_size header in
    let by_content :=
      if HasPrefix content "{" || HasPrefix content "[" then
        if strings_Contains content (String LF "") then extractJSONLMetadata path s else extractJSONMetadata path s
      else if strings_Contains content "," || strings_Contains content (String "009" "") || strings_Contains content ";"
      then extractCSVMetadata path s
      else Ret m in
    if (4 <=? String.length header)%nat then
      if HasPrefix header "PAR1" then extractParquetMetadata path s
      else if starts [31; 139] then Ret (assign [("format", VStr "gzip")] m)
      else if starts [137; 80; 78; 71; 13; 10; 26; 10] || starts [255; 216; 255] then extractImageMetadata path s
      else if HasPrefix header "%PDF-" then extractPDFMetadata path s
      else if starts [127; 69; 76; 70] then extractBinaryMetadata path s
      else if starts [80; 75; 3] || starts [80; 75; 5] || starts [80; 75; 7] then extractArchiveMetadata path s
      else if HasPrefix header "RIFF" then
        if slice 8 12 header =?s "WAVE" then extractAudioMetadata path s else Ret m
      else by_content
    else by_content).

Definition extractFileMetadata (path : string) (s : fs) : comp metadata :=
  let ext := strings_ToLower (Ext path) in
  let is_ext l := existsb (String.eqb ext) l in
  if is_ext [".csv"; ".tsv"; ".txt"] then extractCSVMetadata path s
  else if is_ext [".xlsx"; ".xlsm"] then extractExcelMetadata path s
  else if is_ext [".json"; ".jsonl"] then extractJSONMetadata path s
  else if is_ext [".parquet"] then extractParquetMetadata path s
  else if is_ext [".ndjson"] then extractJSONLMetadata path s
  else if is_ext [".jpg"; ".jpeg"; ".png"; ".gif"; ".webp"; ".bmp"; ".tiff"; ".tif"; ".svg"]
  then extractImageMetadata path s
  else if is_ext [".mp4"; ".mkv"; ".webm"; ".avi"; ".mov"; ".wmv"; ".flv"; ".m4v"] then extractVideoMetadata path s
  else if is_ext [".pdf"] then extractPDFMetadata path s
  else if is_ext [".mp3"; ".wav"; ".flac"; ".aac"; ".ogg"; ".wma"; ".m4a"] then extractAudioMetadata path s
  else if is_ext [".zip"; ".tar"; ".gz"; ".tgz"; ".bz2"; ".xz"; ".7z"; ".rar"] then extractArchiveMetadata path s
  else if is_ext [".so"; ".dll"; ".dylib"; ".exe"; ".elf"; ".o"; ".obj"] then extractBinaryMetadata path s
  else detectAndExtractMetadata path s.

(** ** The scan of a path *)

Definition empty_summary : metadata :=
  metadata_of [("file_count", VInt 0); ("total_size_bytes", VInt64 0); ("file_types", VCounts ∅);
    ("headers", VStrings []); ("columns", VStrings []); ("sample_row_count", VInt 0);
    ("detected_formats", VStrings []); ("schema", VTypes ∅)].

Definition count_type (m : gmap string Z) (name : string) : gmap string Z :=
  let ext := if Ext name =?s "" then "(no extension)" else Ext name in
  <[ext := int64 (default 0 (m !! ext) + 1)]> m.

(** What the files of a path add to the summary, and the first that is not
    empty. *)
Definition summarize (files : list (string * Z)) : metadata :=
  assign [("file_count", VInt (Z.of_nat (length files)));
          ("total_size_bytes", VInt64 (foldl (fun a f => int64 (a + f.2)) 0 files));
          ("file_types", VCounts (foldl (fun m f => count_type m f.1) ∅ files));
          ("detected_formats", VStrings [])] empty_summary.

Definition sample_of (files : list (string * Z)) : option string :=
  fst <$> List.find (fun f => 0 <? f.2) files.

(** Metadata of the sample go into the summary. *)
Definition with_metadata (m summary : metadata) : metadata :=
  let summary := m ∪ summary in
  match m !! "format" with
  | Some (VStr format) => if format =?s "" then summary else assign [("detected_formats", VStrings [format])] summary
  | _ => summary
  end.

(** The log line at the end asserts the type of the columns. *)
Definition assert_columns (summary : metadata) : comp metadata :=
  match summary !! "columns" with Some (VStrings _) => Ret summary | _ => Panic end.

Definition scan_files (files : list (string * Z)) (path : string -> string) (s : fs) : comp metadata :=
  let summary := summarize files in
  match sample_of files with
  | None => assert_columns summary
  | Some name =>
      match extractFileMetadata (path name) s with
      | Ret m => assert_columns (with_metadata m summary)
      | Throw _ => assert_columns summary
      | Panic => Panic
      end
  end.

Definition scanDatasetBuiltin (inputPath : string) (s : fs) : comp metadata :=
  if inputPath =?s "" then Ret empty_summary
  else match os_Stat F inputPath s with
       | StatMissing => Ret empty_summary
       | StatFault e => Throw e
       | StatFile size => scan_files [(Base inputPath, size)] (fun _ => inputPath) s
       | StatDir =>
           match f_open F inputPath with
           | Some e => Throw e
           | None =>
               let entry p := (Base p, Z.of_nat (String.length (default "" (Merge.files s !! p)))) in
               scan_files (map entry (child_files inputPath s)) (fun name => Join [inputPath; name]) s
           end
       end.
End extractors.

(** ** Every summary is well typed *)

Inductive kind := KInt | KInt64 | KUint32 | KFloat | KBool | KStr | KStrings | KTypes | KCounts | KRows.

Definition kind_of (v : value) : kind :=
  match v with
  | VInt _ => KInt | VInt64 _ => KInt64 | VUint32 _ => KUint32 | VFloat _ => KFloat | VBool _ => KBool
  | VStr _ => KStr | VStrings _ => KStrings | VTypes _ => KTypes | VCounts _ => KCounts | VRows _ => KRows
  end.

(** The names that occur in metadata, and the types of their values. *)
Definition key_kind (k : string) : option kind :=
  let named l := existsb (String.eqb k) l in
  if named ["file_count"; "column_count"; "sample_row_count"; "estimated_row_count"; "total_row_count"; "array_length";
         "image_width"; "image_height"; "pdf_page_count"; "id3_tag_size"; "archive_file_count"] then Some KInt
  else if named ["total_size_bytes"; "file_size_bytes"; "archive_uncompressed_bytes"] then Some KInt64
  else if named ["audio_sample_rate"] then Some KUint32
  else if named ["estimated_duration_seconds"; "archive_compression_ratio"] then Some KFloat
  else if named ["has_header"; "pdf_encrypted"; "pdf_linearized"; "id3_tag_present"; "binary_fat"] then Some KBool
  else if named ["format"; "sample_file"; "delimiter"; "sheet_name"; "image_mime"; "image_color_model"; "video_container";
              "video_codec"; "quality_estimate"; "pdf_version"; "audio_codec"; "archive_format"; "binary_format";
              "binary_arch"; "binary_type"; "file_type"] then Some KStr
  else if named ["headers"; "columns"; "detected_formats"; "sheet_names"; "source_files"] then Some KStrings
  else if named ["schema"] then Some KTypes
  else if named ["file_types"] then Some KCounts
  else if named ["sample_rows"] then Some KRows
  else None.

Definition typed_entry (kv : string * value) : Prop := key_kind kv.1 = Some (kind_of kv.2).
Definition typed (m : metadata) : Prop := forall k v, m !! k = Some v -> typed_entry (k, v).

(** What every summary has. *)
Definition required : list string :=
  ["file_count"; "total_size_bytes"; "file_types"; "headers"; "columns"; "sample_row_count"; "detected_formats"; "schema"].
Definition complete (m : metadata) : Prop := Forall (fun k => is_Some (m !! k)) required.

(** The possible outcomes: metadata of the right types, or an error. *)
Definition sound (c : comp metadata) : Prop :=
  match c with Ret m => typed m | Throw _ => True | Panic => False end.

Lemma typed_assign l m : Forall typed_entry l -> typed m -> typed (assign l m).
Proof.
  revert m. induction l as [|[k v] l IH]; intros m Hl Hm; [done|]. apply Forall_cons in Hl as [Hkv Hl].
  change (typed (assign l (<[k:=v]> m))). apply IH; [done|]. intros k' v' H. destruct (decide (k = k')) as [->|Hne].
  - rewrite lookup_insert_eq in H. by injection H as <-.
  - rewrite lookup_insert_ne in H by done. by apply Hm.
Qed.

Lemma typed_of l : Forall typed_entry l -> typed (metadata_of l).
Proof. intros Hl. by apply typed_assign. Qed.

Lemma typed_columns hs : Forall typed_entry (columns hs).
Proof. by repeat apply Forall_cons_2. Qed.

Lemma typed_union m m' : typed m -> typed m' -> typed (m ∪ m').
Proof. intros H H' k v [E|[_ E]]%lookup_union_Some_raw; [by apply H|by apply H']. Qed.

Lemma sound_bind {A} (c : comp A) (k : A -> comp metadata) :
  c <> Panic -> (forall a, sound (k a)) -> sound (bind c k).
Proof. intros H Hk. destruct c; [apply Hk|done|by destruct H]. Qed.

(** Metadata that is put together from typed entries. *)
Ltac typing :=
  repeat match goal with
    | |- sound (Ret _) => cbn [sound]
    | |- typed (assign _ _) => apply typed_assign
    | |- typed (metadata_of _) => apply typed_of
    | |- typed _ => assumption
    | |- Forall typed_entry (columns _) => apply typed_columns
    | |- Forall typed_entry (_ ++ _) => apply Forall_app_2
    | |- Forall typed_entry [] => apply Forall_nil_2
    | |- Forall typed_entry (_ :: _) => apply Forall_cons_2; [reflexivity|]
    | H : _ |- Forall typed_entry _ => apply H
    end.

Section well_typed.
Context (L : libraries) (F : disk_faults).
Context (Hparquet : forall data, l_parquet L data <> Panic).

Lemma file_data_returns path s : file_data F path s <> Panic.
Proof. unfold file_data. by destruct (os_Open _ _ _). Qed.
Lemma file_size_returns ctx path s : file_size F ctx path s <> Panic.
Proof. unfold file_size. by destruct (os_Stat _ _ _). Qed.

Lemma csv_sound path s : sound (extractCSVMetadata L F path s).
Proof.
  apply sound_bind; [apply file_data_returns|]. intros data. cbv zeta.
  destruct (Read _ _ _) as [[[hs|e] rest]|]; [|done|]; cbn [sound]; typing.
Qed.

Lemma excel_rows_sound n hs m a rows : typed m ->
  match excel_rows L n hs m a rows with Ret (m, _) => typed m | Throw _ => True | Panic => False end.
Proof.
  revert hs m a rows. induction n as [|n IH]; intros hs m a rows Hm; [by destruct rows|].
  destruct rows as [|[row|e] rows]; [done| |done]. cbn [excel_rows].
  destruct (sm_rowCount a =? 0); apply IH; [|done]. typing.
Qed.

Lemma excel_sound path s : sound (extractExcelMetadata L F path s).
Proof.
  apply sound_bind; [apply file_data_returns|]. intros data. cbv zeta.
  destruct (l_excel L data) as [wb|]; [|done].
  destruct (wb_sheets wb) as [|sheet sheets]; [cbn [sound]; typing|].
  destruct (wb_Rows wb sheet) as [rows|]; [|done].
  match goal with |- sound (bind (excel_rows _ ?n ?hs ?m ?a rows) _) =>
    pose proof (excel_rows_sound n hs m a rows ltac:(typing)) as H;
    destruct (excel_rows L n hs m a rows) as [[m' a']| |] end; [|done|done].
  cbn [sound bind]. typing.
Qed.

Lemma object_typed obj : Forall typed_entry (object_columns L obj).
Proof. unfold object_columns. typing. Qed.

Lemma json_sound path s : sound (extractJSONMetadata L F path s).
Proof.
  apply sound_bind; [apply file_data_returns|]. intros data.
  apply sound_bind; [unfold unmarshal_any; by destruct (l_parse L data)|].
  intros j. apply typed_assign; [|typing]. apply Forall_app_2; [|typing].
  pose proof object_typed.
  destruct j as [| | | |v|obj]; cbn [json_metadata]; typing.
  destruct v as [|[| | | | |obj] v]; typing.
Qed.

Lemma jsonl_sound path s : sound (extractJSONLMetadata L F path s).
Proof. apply sound_bind; [apply file_data_returns|]. intros data. cbn [sound bind]. typing. Qed.

Lemma parquet_sound path s : sound (extractParquetMetadata L F path s).
Proof.
  apply sound_bind; [apply file_data_returns|]. intros data. apply sound_bind; [apply Hparquet|].
  intros pr. cbn [sound bind]. typing.
Qed.

Lemma image_sound path s : sound (extractImageMetadata L F path s).
Proof.
  apply sound_bind; [apply file_data_returns|]. intros data.
  destruct (l_image L data) as [[[? ?] ?]|]; cbn [sound]; typing.
Qed.

Lemma video_sound path s : sound (extractVideoMetadata F path s).
Proof.
  apply sound_bind; [apply file_data_returns|]. intros data. apply typed_of.
  apply Forall_app_2; [typing|]. apply Forall_app_2; [|typing].
  unfold video_container. destruct (strings_Index _ _); [|typing].
  destruct (_ <? _)%nat; typing.
Qed.

Lemma pdf_sound path s : sound (extractPDFMetadata L F path s).
Proof.
  apply sound_bind; [apply file_size_returns|]. intros size. apply typed_of. apply Forall_app_2; [typing|].
  destruct (file_data F path s) as [data| |]; typing.
  destruct (l_pdf L data) as [[[[? ?] ?] ?]|]; typing.
Qed.

Lemma audio_sound path s : sound (extractAudioMetadata F path s).
Proof.
  apply sound_bind; [apply file_data_returns|]. intros data. apply typed_of. apply Forall_app_2; [typing|].
  unfold audio_codec. repeat case_match; typing.
Qed.

Lemma archive_sound path s : sound (extractArchiveMetadata L F path s).
Proof.
  apply sound_bind; [apply file_size_returns|]. intros size. cbv zeta.
  assert (Hc : forall c t, Forall typed_entry (archive_counts c t size)).
  { intros c t. unfold archive_counts. destruct (0 <? size); typing. }
  pose proof (file_data_returns path s). destruct (file_data F path s) as [data| |]; [|done|done].
  destruct (l_zip L data); cbn [sound]; typing.
Qed.

Lemma binary_sound path s : sound (extractBinaryMetadata L F path s).
Proof.
  apply sound_bind; [apply file_size_returns|]. intros size. apply typed_of. apply Forall_app_2; [typing|].
  set (e := match file_data F path s with Ret _ => _ | _ => _ end).
  destruct e as [c t|m|c t|cs|]; simpl; unfold elf_type, macho_type, optional; repeat case_match; typing.
Qed.

Create HintDb metadata.
Hint Resolve csv_sound excel_sound json_sound jsonl_sound parquet_sound image_sound video_sound pdf_sound audio_sound
  archive_sound binary_sound : metadata.

Ltac branches := repeat match goal with |- sound (if ?b then _ else _) => destruct b end.

Lemma detect_sound path s : sound (detectAndExtractMetadata L F path s).
Proof.
  unfold detectAndExtractMetadata.
  assert (Hm : typed (unknown_metadata F path s)).
  { apply typed_of, Forall_app_2; [typing|]. destruct (file_size F "" path s); typing. }
  apply sound_bind; [apply file_data_returns|]. intros data. cbv zeta.
  branches; auto with metadata; typing; done.
Qed.

Lemma extract_sound path s : sound (extractFileMetadata L F path s).
Proof. unfold extractFileMetadata. cbv zeta. pose proof (detect_sound path s). branches; auto with metadata. Qed.
End well_typed.

(** The summary of a scan: types and presence. *)
Definition summary_ok (m : metadata) : Prop := typed m /\ complete m.
Definition scan_ok (c : comp metadata) : Prop :=
  match c with Ret m => summary_ok m | Throw _ => True | Panic => False end.

Lemma complete_insert k v m : complete m -> complete (<[k := v]> m).
Proof.
  intros H. eapply Forall_impl; [exact H|]. intros k' [x Hx]. simpl. destruct (decide (k = k')) as [->|Hne].
  - rewrite lookup_insert_eq. by eexists.
  - rewrite lookup_insert_ne by done. by eexists.
Qed.

Lemma complete_assign l m : complete m -> complete (assign l m).
Proof. revert m. induction l as [|[k v] l IH]; intros m H; [done|]. by apply (IH (<[k := v]> m)), complete_insert. Qed.

Lemma complete_union m m' : complete m' -> complete (m ∪ m').
Proof.
  intros H. eapply Forall_impl; [exact H|]. intros k [x Hx]. simpl. apply lookup_union_is_Some. right. by exists x.
Qed.

Lemma empty_summary_ok : summary_ok empty_summary.
Proof. split; [unfold empty_summary; typing|]. by apply (bool_decide_unpack _). Qed.

Lemma assign_ok l m : Forall typed_entry l -> summary_ok m -> summary_ok (assign l m).
Proof. intros Hl [Ht Hc]. split; [by apply typed_assign|by apply complete_assign]. Qed.

Lemma with_metadata_ok m summary : typed m -> summary_ok summary -> summary_ok (with_metadata m summary).
Proof.
  intros Hm [Ht Hc]. assert (H : summary_ok (m ∪ summary)) by (split; [by apply typed_union|by apply complete_union]).
  unfold with_metadata. destruct (m !! "format") as [[]|]; try done.
  destruct (_ =?s _); [done|]. apply assign_ok; [typing|done].
Qed.

Lemma assert_columns_ok m : summary_ok m -> scan_ok (assert_columns m).
Proof.
  intros [Ht Hc]. assert (Hk : is_Some (m !! "columns")).
  { unfold complete in Hc. rewrite Forall_forall in Hc. apply (Hc "columns"). unfold required. set_solver. }
  destruct Hk as [v Hv]. pose proof (Ht _ _ Hv) as H. unfold assert_columns. rewrite Hv.
  by destruct v.
Qed.

Lemma scan_files_ok L F files path s : (forall data, l_parquet L data <> Panic) ->
  scan_ok (scan_files L F files path s).
Proof.
  intros Hp. assert (Hs : summary_ok (summarize files)) by (apply assign_ok; [typing|apply empty_summary_ok]).
  unfold scan_files. cbv zeta. destruct (sample_of files) as [name|]; [|by apply assert_columns_ok].
  pose proof (extract_sound L F Hp (path name) s) as He.
  destruct (extractFileMetadata L F (path name) s) as [m|e|]; [|by apply assert_columns_ok|done].
  by apply assert_columns_ok, with_metadata_ok.
Qed.

Lemma builtin_ok L F path s : (forall data, l_parquet L data <> Panic) -> scan_ok (scanDatasetBuiltin L F path s).
Proof.
  intros Hp. unfold scanDatasetBuiltin. destruct (path =?s ""); [apply empty_summary_ok|].
  destruct (os_Stat F path s); [by apply scan_files_ok| |apply empty_summary_ok|done].
  destruct (f_open F path); [done|by apply scan_files_ok].
Qed.


(** ** The estimated number of rows *)

(** The estimate of the number of rows is the number of sampled rows: for a
    file of at least [n * n] bytes it is [n], however many rows the file has; for
    JSON, which samples one row, it is always 1.  It is never less than the
    sample, if the file has a byte for each row. *)
Theorem estimate_is_the_sample F path data s :
  f_stat F path = None -> Merge.files s !! path = Some data ->
  (forall n, 0 < n -> n * n <= Z.of_nat (String.length data) -> estimateTotalRows F path n s = n) /\
  (forall n, 0 < n <= Z.of_nat (String.length data) -> n <= estimateTotalRows F path n s <= Z.of_nat (String.length data)) /\
  (data <> "" -> estimateTotalRows F path 1 s = 1).
Proof.
  intros Hf Hd. set (size := Z.of_nat (String.length data)).
  assert (Hest : forall n, 0 < n <= size -> estimateTotalRows F path n s = size / (size / n) /\ 0 < size / n).
  { intros n Hn. assert (0 < size / n) by (apply Z.div_str_pos; lia).
    unfold estimateTotalRows, file_size, os_Stat. rewrite Hf, Hd. fold size.
    rewrite Z.quot_div_nonneg, (proj2 (Z.eqb_neq n 0)) by lia. cbv zeta.
    rewrite (proj2 (Z.eqb_neq (size / n) 0)), Z.quot_div_nonneg by lia. done. }
  assert (Hsq : forall n, 0 < n -> n * n <= size -> estimateTotalRows F path n s = n).
  { intros n Hn Hle. destruct (Hest n) as [-> Hq]; [nia|].
    assert (n <= size / n) by (apply Z.div_le_lower_bound; lia).
    symmetry. apply (Z.div_unique_pos _ _ _ (size mod n)); [pose proof (Z.mod_pos_bound size n); lia|].
    pose proof (Z.div_mod size n). lia. }
  split; [done|]. split.
  - intros n Hn. destruct (Hest n Hn) as [-> Hq]. split.
    + apply Z.div_le_lower_bound; [done|]. pose proof (Z.mul_div_le size n). lia.
    + apply Z.div_le_upper_bound; [done|]. nia.
  - intros Hne. apply Hsq; [lia|]. destruct data; [done|]. unfold size. simpl. lia.
Qed.

(** ** The metadata of a table *)

(** The value that was assigned last to a key. *)
Ltac find_key := rewrite ?lookup_insert_ne by done; rewrite lookup_insert_eq.

Section tables.
Context (L : libraries) (F : disk_faults) (comma : ascii).
Context (Hcomma : comma <> quote /\ comma <> LF /\ comma <> CR).

(** The rows that have as many fields as the header: the others are not read. *)
Definition regular (hs : list string) (rows : list (list string)) : list (list string) :=
  List.filter (fun r => (length r =? length hs)%nat) rows.

Fixpoint fold_rows (hs : list string) (i : Z) (rows : list (list string)) (a : sample) : sample :=
  match rows with
  | [] => a
  | r :: rows => fold_rows hs (i + 1) rows (if (length r =? length hs)%nat then csv_row L hs i r a else a)
  end.

Lemma csv_loop_rows hs n i rows text a : hs <> [] -> table_text comma rows text ->
  csv_loop L comma hs n i (csv_lines text) a = fold_rows hs i (take n rows) a.
Proof.
  intros Hhs Ht. revert n i a. induction Ht as [|r t rs ts Hr Hne _ IH]; intros n i a; [by destruct n|].
  destruct n as [|n]; [done|]. cbn [csv_loop take fold_rows]. unfold Read.
  rewrite (readRecord_record comma Hcomma r t ts Hr Hne). unfold check_fields.
  assert ((0 <? length hs)%nat = true) as -> by (destruct hs; [done|by apply Nat.ltb_lt; simpl; lia]). cbn [andb].
  destruct (length r =? length hs)%nat; cbn [negb]; apply IH.
Qed.

Lemma fold_rows_count hs i rows a :
  sm_rowCount (fold_rows hs i rows a) = sm_rowCount a + Z.of_nat (length (regular hs rows)).
Proof.
  revert i a. induction rows as [|r rows IH]; intros i a; simpl; [lia|]. rewrite IH.
  destruct (length r =? length hs)%nat; simpl; lia.
Qed.

Lemma fold_rows_types hs i rows a :
  sm_types (fold_rows hs i rows a) = foldl (fun m r => hint_types L m hs r) (sm_types a) (regular hs rows).
Proof.
  revert i a. induction rows as [|r rows IH]; intros i a; simpl; [done|]. rewrite IH.
  by destruct (length r =? length hs)%nat.
Qed.

Lemma fold_rows_sample hs i rows a : 0 <= i ->
  sm_rows (fold_rows hs i rows a) = sm_rows a ++ map (row_map hs) (regular hs (take (Z.to_nat (10 - i)) rows)).
Proof.
  revert i a. induction rows as [|r rows IH]; intros i a Hi; simpl; [by rewrite take_nil, app_nil_r|].
  rewrite IH by lia. destruct (decide (i < 10)) as [Hlt|Hge].
  - replace (Z.to_nat (10 - i)) with (S (Z.to_nat (10 - (i + 1)))) by lia. cbn [take regular List.filter].
    destruct (length r =? length hs)%nat; [|done]. unfold csv_row. cbn [sm_rows].
    rewrite (proj2 (Z.ltb_lt i 10)) by lia. cbn [map]. by rewrite <- app_assoc.
  - replace (Z.to_nat (10 - i)) with O by lia. replace (Z.to_nat (10 - (i + 1))) with O by lia.
    destruct (length r =? length hs)%nat; [|done]. unfold csv_row. cbn [sm_rows].
    by rewrite (proj2 (Z.ltb_ge i 10)) by lia.
Qed.

(** A column, and its first value that is not empty. *)
Definition column (j : nat) (rows : list (list string)) : list string := omap (fun r => r !! j) rows.
Definition first_value (vals : list string) : option string := List.find (fun v => negb (v =?s "")) vals.

Lemma hint_lookup_other m hs r h : h ∉ hs -> hint_types L m hs r !! h = m !! h.
Proof.
  unfold hint_types. revert m r. induction hs as [|g hs IH]; intros m r Hh; [done|].
  destruct r as [|v r]; [done|]. apply not_elem_of_cons in Hh as [Hgh Hh]. simpl. rewrite IH by done.
  destruct (_ || _); [done|]. by rewrite lookup_insert_ne.
Qed.

Lemma hint_lookup m hs r j h v : NoDup hs -> hs !! j = Some h -> r !! j = Some v ->
  hint_types L m hs r !! h =
  match m !! h with Some t => Some t | None => if v =?s "" then None else Some (detectValueType (l_is_float L) v) end.
Proof.
  revert m r j. induction hs as [|g hs IH]; intros m r j Hnd Hj Hv; [done|].
  apply NoDup_cons in Hnd as [Hg Hnd]. destruct r as [|w r]; [done|]. destruct j as [|j].
  - injection Hj as ->. injection Hv as ->. unfold hint_types. simpl. fold (hint_types L).
    change (foldl _ ?m (zip hs r)) with (hint_types L m hs r). rewrite hint_lookup_other by done.
    case_bool_decide as B; cbn [orb]; [by destruct B as [t ->]|].
    apply eq_None_not_Some in B. rewrite B. destruct (v =?s ""); [done|]. by rewrite lookup_insert_eq.
  - unfold hint_types. simpl. change (foldl _ ?m (zip hs r)) with (hint_types L m hs r).
    rewrite (IH _ r j) by done. assert (h <> g) by (intros ->; apply Hg; by eapply list_elem_of_lookup_2).
    destruct (_ || _); [done|]. by rewrite lookup_insert_ne.
Qed.

Lemma column_types m hs rows j h : NoDup hs -> hs !! j = Some h ->
  foldl (fun m r => hint_types L m hs r) m (regular hs rows) !! h =
  match m !! h with
  | Some t => Some t
  | None => detectValueType (l_is_float L) <$> first_value (column j (regular hs rows))
  end.
Proof.
  intros Hnd Hj. revert m. induction rows as [|r rows IH]; intros m; simpl; [by destruct (m !! h)|].
  destruct (Nat.eqb_spec (length r) (length hs)) as [Hlen|]; [|done]. simpl.
  destruct (lookup_lt_is_Some_2 r j) as [v Hv]; [rewrite Hlen; by eapply lookup_lt_Some|].
  rewrite IH, (hint_lookup m hs r j h v) by done. rewrite Hv. unfold first_value. simpl.
  destruct (m !! h); [done|]. by destruct (v =?s "").
Qed.

(** For a table in the format of RFC 4180 the metadata have its header, the
    number of rows among the first hundred that are as wide as the header, the
    first ten of these as samples, and for each column the type of its first
    value that is not empty; rows of another width are left out. *)
Theorem extractCSVMetadata_correct path text hs rows s :
  f_open F path = None -> Merge.files s !! path = Some text ->
  table_text comma (hs :: rows) text -> detectDelimiter L text = comma -> NoDup hs ->
  exists m schema, extractCSVMetadata L F path s = Ret m /\
    m !! "columns" = Some (VStrings hs) /\ m !! "headers" = Some (VStrings hs) /\
    m !! "sample_row_count" = Some (VInt (Z.of_nat (length (regular hs (take 100 rows))))) /\
    m !! "sample_rows" = Some (VRows (map (row_map hs) (regular hs (take 10 rows)))) /\
    m !! "schema" = Some (VTypes schema) /\
    forall j h, hs !! j = Some h ->
      schema !! h = detectValueType (l_is_float L) <$> first_value (column j (regular hs (take 100 rows))).
Proof.
  intros Hop Hd Ht Hdelim Hnd.
  assert (Hdata : file_data F path s = Ret text) by (unfold file_data, os_Open; by rewrite Hop, Hd).
  inversion Ht as [|r t rs ts Hr Hne Hrs E1 E2]; subst r rs.
  assert (Hhs : hs <> []) by (by destruct Hr).
  unfold extractCSVMetadata. rewrite Hdata. cbn [bind]. rewrite Hdelim. unfold Read.
  rewrite <- E2, (readRecord_record comma Hcomma hs t ts Hr Hne). unfold check_fields. cbn [Nat.ltb Nat.leb andb].
  rewrite (csv_loop_rows hs 100 0 rows ts _ Hhs Hrs).
  set (a := fold_rows hs 0 (take 100 rows) (mkSample 0 ∅ [])).
  eexists _, (sm_types a). split; [reflexivity|].
  unfold columns, assign, app. cbn [foldl fst snd].
  split; [by find_key|].
  split; [by find_key|].
  split; [find_key; unfold a; by rewrite fold_rows_count|].
  split.
  { find_key. unfold a. rewrite fold_rows_sample by done.
    cbn [sm_rows app]. by rewrite take_take. }
  split; [by find_key|].
  intros j h Hj. unfold a. rewrite fold_rows_types. by rewrite (column_types _ hs _ j h Hnd Hj).
Qed.
End tables.

(** ** Concrete runs *)

Definition demo_libraries : libraries :=
  mkLibraries (fun s => s =?s "1.5") (fun _ => RawInvalid) (fun s => s) (fun l => l) (fun _ => Err "no workbook")
    (fun _ => Throw "no parquet file") (fun _ => "text/plain") (fun _ => None) (fun _ => None) (fun _ => None)
    (fun _ _ => []) (fun _ => NotExecutable) (fun _ => "").

Definition q : string := String quote "".
Definition nl : string := String LF "".
Definition demo_csv : string :=
  concat_str ["id,name,when"; nl; "1,,2024-02-29"; nl; "2,short"; nl; "3,"; q; "a"; q; q; nl; "b"; q; ",x"; nl].
Definition demo_scan_disk : fs := mkFS {["/d/t.csv" := demo_csv]} {["/d"]} ∅ ∅.

Definition demo_table : list (list string) :=
  [["id"; "name"; "when"]; ["1"; ""; "2024-02-29"]; ["2"; "short"];
   ["3"; concat_str ["a"; q; nl; "b"]; "x"]].

Lemma demo_table_text : table_text "," demo_table demo_csv.
Proof.
  assert (Hp : forall f, forallb (fun c => negb (existsb (Ascii.eqb c) [","%char; quote; LF; CR]))
                           (String.list_ascii_of_string f) = true -> field_text "," f f).
  { intros f H. apply plain_field. induction f as [|c f IH]; [done|]. simpl in H. apply andb_true_iff in H as [Hc Hf].
    split; [|by apply IH]. repeat split; intros ->; by vm_compute in Hc. }
  apply (one_record "," ["id"; "name"; "when"] "id,name,when"); [|done|].
  { apply (next_field "," "id" "id" _ "name,when"); [by apply Hp|].
    apply (next_field "," "name" "name" _ "when"); [by apply Hp|]. by apply last_field, Hp. }
  apply (one_record "," ["1"; ""; "2024-02-29"] "1,,2024-02-29"); [|done|].
  { apply (next_field "," "1" "1" _ ",2024-02-29"); [by apply Hp|].
    apply (next_field "," "" "" _ "2024-02-29"); [by apply Hp|]. by apply last_field, Hp. }
  apply (one_record "," ["2"; "short"] "2,short"); [|done|].
  { apply (next_field "," "2" "2" _ "short"); [by apply Hp|]. by apply last_field, Hp. }
  apply (one_record "," ["3"; concat_str ["a"; q; nl; "b"]; "x"] (concat_str ["3,"; q; "a"; q; q; nl; "b"; q; ",x"]) [] "");
    [|done|constructor].
  apply (next_field "," "3" "3" _ (concat_str [q; "a"; q; q; nl; "b"; q; ",x"])); [by apply Hp|].
  apply (next_field "," (concat_str ["a"; q; nl; "b"]) (concat_str [q; "a"; q; q; nl; "b"; q]) _ "x").
  - by apply (quoted_field "," (concat_str ["a"; q; nl; "b"])).
  - by apply last_field, Hp.
Qed.

Lemma extractCSVMetadata_correct_witness : exists m schema,
  extractCSVMetadata demo_libraries no_disk_faults "/d/t.csv" demo_scan_disk = Ret m /\
  m !! "columns" = Some (VStrings ["id"; "name"; "when"]) /\ m !! "sample_row_count" = Some (VInt 2) /\
  m !! "schema" = Some (VTypes schema) /\
  schema !! "id" = Some "integer" /\ schema !! "name" = Some "string" /\ schema !! "when" = Some "datetime".
Proof.
  destruct (extractCSVMetadata_correct demo_libraries no_disk_faults "," ltac:(repeat split; intros H; by vm_compute in H)
    "/d/t.csv" demo_csv ["id"; "name"; "when"] (tail demo_table) demo_scan_disk) as (m & schema & E & Hc & _ & Hn & _ & Hs & Hty).
  - reflexivity.
  - reflexivity.
  - apply demo_table_text.
  - by vm_compute.
  - apply (bool_decide_unpack _). by vm_compute.
  - exists m, schema. split; [exact E|]. split; [exact Hc|]. split; [exact Hn|]. split; [exact Hs|].
    split; [rewrite (Hty 0%nat "id" eq_refl); by vm_compute|].
    split; [rewrite (Hty 1%nat "name" eq_refl); by vm_compute|rewrite (Hty 2%nat "when" eq_refl); by vm_compute].
Defined.


(** A thousand bytes in a hundred lines count as the twenty that were sampled. *)
Definition demo_lines : string := concat_str (repeat "123456789," 100).

Lemma estimate_is_the_sample_witness :
  estimateTotalRows no_disk_faults "/d/l" 20 (mkFS {["/d/l" := demo_lines]} ∅ ∅ ∅) = 20.
Proof.
  destruct (estimate_is_the_sample no_disk_faults "/d/l" demo_lines (mkFS {["/d/l" := demo_lines]} ∅ ∅ ∅)) as [H _];
    [reflexivity|reflexivity|]. apply H; [lia|]. by vm_compute.
Defined.
