(* ===== verification/ScanHandler.v ===== *)
(** * ScanHandler: jobs that scan or ingest a data set

    Models [executeScanDataset], [reportDatasetScan] and [executeIngestDataset] of
    [internal/dispatcher/handlers_unix.go].  A scan lists the source of a data
    set, reads its first object as a sample, and reports a summary; an ingestion
    copies the staged objects and runs a plugin on them. *)
From S2P Require Import Prelude GoFloat Json Path Encoding ExecutorV2 HttpClient PluginVerify PluginInstall PluginExecute.
From S2P Require Import Merge MergeTree Recovery Storage ObjectStore Handler ChunkHandler MergeHandler Csv Metadata.
From Stdlib Require Import Ascii.
Local Open Scope handler_scope.

(** What a scan reports. *)
Record scan_report := mkReport {
  r_DatasetID : string; r_OrgID : string; r_StorageType : string; r_Summary : gmap string value }.

(** [reportDatasetScan]: nothing is sent without a URL or a token.  [send] is the
    status and body of the answer. *)
Definition reportDatasetScan (baseURL : string) (token : result string) (send : scan_report -> result (Z * string))
    (r : scan_report) : error :=
  if baseURL =?s "" then None
  else match token with
       | Err _ => None
       | Ok _ =>
           match send r with
           | Err e => Some ("failed to call report_dataset_scan: " +:+ e)
           | Ok (status, body) =>
               if 400 <=? status then Some ("report_dataset_scan returned " +:+ itoa status +:+ ": " +:+ body) else None
           end
       end.

Section handlers.
Context (E : agent) (L : libraries).
Abbreviation F := (a_faults E).
Abbreviation V := (a_services E).

(** *** Scan *)

(** The key of the source in the bucket: the names of buckets are cut off. *)
Definition source_key (path : string) : comp string :=
  if path =?s "" then Throw "source_path is required for scan_dataset (no /source/ prefix fallback)"
  else if strings_Contains path "http" then Throw "invalid source_path: contains URL"
  else if HasPrefix path "/" || IsAbs path then Throw "invalid source_path: is absolute path"
  else Ret (foldl (fun p bucket => TrimPrefix p (bucket +:+ "/")) path ["datasets"; "data"; "public"]).

Definition scan_mode (job : Job) : string :=
  normalizeStorageModeForJob (first_nonempty [j_StorageMode job; j_StorageType job; nested_mode job; "shared_mount"]).

(** The first object is downloaded as a sample; without objects a path of the
    host is scanned. *)
Definition scan_input (job : Job) (mode : string) (b : StorageBackend) (objects : list ObjectInfo) (workDir : string)
    : M string :=
  match objects with
  | [] =>
      ret (if (j_InputPath job =?s "") && (mode =?s "shared_mount")
           then Join [deriveMountBasePath (a_mountEnv E) mode; "datasets"; j_DatasetID job; "source"]
           else j_InputPath job)
  | o :: _ =>
      let samplePath := Join [workDir; "sample" +:+ Ext (Key o)] in
      download E "failed to read sample object: " "failed to create sample file: " "failed to write sample file: "
        b (Key o) samplePath;;
      ret samplePath
  end.

Definition total_bytes (objects : list ObjectInfo) : Z := foldl (fun a o => int64 (a + Size o)) 0 objects.
Definition type_counts (objects : list ObjectInfo) : gmap string Z :=
  foldl (fun m o => count_type m (Key o)) ∅ objects.

(** The members about all objects replace those about the sample. *)
Definition of_all_objects (objects : list ObjectInfo) (summary : gmap string value) : gmap string value :=
  let counts := type_counts objects in
  assign ([("file_count", VInt (Z.of_nat (length objects))); ("file_types", VCounts counts)]
    ++ match l_order L (map fst (map_to_list counts)) with
       | ext :: _ => [("file_type", VStr (TrimPrefix ext "."))]
       | [] => []
       end
    ++ [("total_size_bytes", VInt64 (total_bytes objects)); ("source_files", VStrings (map Key objects))]) summary.

(** The report is sent at the end; that it fails is only logged. *)
Definition executeScanDataset (payload : RawMessage) : M scan_report :=
  let* job := lift (decode "invalid payload: " zeroJob decodeJob payload) in
  if j_DatasetID job =?s "" then throw "missing dataset_id"
  else
    let mode := scan_mode job in
    let* b := lift (job_backend V (j_StorageConfigID job) mode) in
    let* remotePath := lift (source_key (j_SourcePath job)) in
    let* w := get in
    let* objects := lift (of_Result "failed to list source objects: " (ListObjects b remotePath (w_host w))) in
    with_workdir F (a_tempDir E) "failed to prepare work dir: " (j_ID job) (fun workDir =>
      let* inputPath := scan_input job mode b objects workDir in
      let* w := get in
      let* summary := lift (wrap "built-in scan failed: " (scanDatasetBuiltin L F inputPath (w_disk w))) in
      ret (mkReport (j_DatasetID job) (j_OrgID job) mode (of_all_objects objects summary))).

(** *** Ingestion *)

Record IngestPayload := mkIngest {
  i_DatasetID : string; i_StorageMode : string; i_FileCount : Z; i_FileType : string; i_SizeGB : Z;
  i_SourcePath : string }.

Definition zeroIngest : IngestPayload := mkIngest "" "" 0 "" 0 "".

Definition decodeIngest (fs : list (string * json)) : IngestPayload * bool :=
  let '(d, e1) := field dec_string "dataset_id" "" fs in
  let '(m, e2) := field dec_string "storage_mode" "" fs in
  let '(n, e3) := field dec_int "file_count" 0 fs in
  let '(t, e4) := field dec_string "file_type" "" fs in
  let '(g, e5) := field dec_int "size_gb" 0 fs in
  let '(p, e6) := field dec_string "source_path" "" fs in
  (mkIngest d m n t g p, e1 || e2 || e3 || e4 || e5 || e6).

Record IngestResult := mkIngestResult {
  ir_DatasetID : string; ir_FileCount : Z; ir_FileType : string; ir_SizeGB : Z; ir_Checksum : string }.

Definition decodeIngestResult (fs : list (string * json)) : IngestResult * bool :=
  let '(d, e1) := field dec_string "dataset_id" "" fs in
  let '(n, e2) := field dec_int "file_count" 0 fs in
  let '(t, e3) := field dec_string "file_type" "" fs in
  let '(g, e4) := field dec_int "size_gb" 0 fs in
  let '(c, e5) := field dec_string "checksum" "" fs in
  (mkIngestResult d n t g c, e1 || e2 || e3 || e4 || e5).

(** Staged objects are copied below the data set, under their base names. *)
Definition staged_key (datasetID : string) (o : ObjectInfo) : string := datasetID +:+ "/" +:+ Base (Key o).

Definition copy_staged (b : StorageBackend) (datasetID : string) (o : ObjectInfo) : M unit :=
  let* w := get in
  let* r := lift (of_Result ("failed to read object " +:+ Key o +:+ ": ") (ReadObject b (Key o) (w_host w))) in
  write_call ("failed to write object " +:+ staged_key datasetID o +:+ ": ") (WriteObject b (staged_key datasetID o) r).

Definition ingest_staged (b : StorageBackend) (p : IngestPayload) : M unit :=
  if i_SourcePath p =?s "" then ret tt
  else
    let* w := get in
    let* objects := lift (of_Result "failed to list staging objects: " (ListObjects b (i_SourcePath p) (w_host w))) in
    each (copy_staged b (i_DatasetID p)) objects.

(** Source, chunks, results and merged output. *)
Definition ingest_paths (p : IngestPayload) (mode : string) : string * string * string * string :=
  if mode =?s "shared_mount" then
    let '(source, chunks, results, merged) :=
      deriveDatasetPaths (a_home E) (i_DatasetID p) mode (deriveMountBasePath (a_mountEnv E) mode) in
    (if i_SourcePath p =?s "" then source else i_SourcePath p, chunks, results, merged)
  else (i_DatasetID p, GetRemotePath (i_DatasetID p) 0 "chunk", GetRemotePath (i_DatasetID p) 0 "result",
        GetRemotePath (i_DatasetID p) 0 "merged").

Definition make_dir (path : string) : M unit :=
  if path =?s "" then ret tt
  else call ("failed to create directory " +:+ path +:+ ": ") (os_MkdirAll (f_mkdir F) path).

(** What the plugin is told; a configuration that is no JSON makes the text
    empty. *)
Definition ingest_input (job : Job) (p : IngestPayload) (mode source chunks results merged : string) : RawMessage :=
  match j_StepConfig job with
  | RawInvalid => RawEmpty
  | config =>
      Raw (JObj (map_of_members
        [("job_id", JStr (j_ID job)); ("org_id", JStr (j_OrgID job)); ("dataset_id", JStr (i_DatasetID p));
         ("execution_id", JStr (j_ExecutionID job)); ("step_index", JNum (itoa (j_StepIndex job)));
         ("source_path", JStr source); ("chunks_path", JStr chunks); ("results_path", JStr results);
         ("merged_path", JStr merged); ("storage_mode", JStr mode); ("file_count", JNum (itoa (i_FileCount p)));
         ("file_type", JStr (i_FileType p)); ("size_gb", JNum (itoa (i_SizeGB p))); ("config", raw_value config)]))
  end.

Definition executeIngestDataset (payload : RawMessage) : M IngestResult :=
  let* job := lift (decode "invalid payload: " zeroJob decodeJob payload) in
  let* p := lift (decode "invalid ingest payload: " zeroIngest decodeIngest payload) in
  if i_DatasetID p =?s "" then throw "missing dataset_id"
  else
    let mode := first_nonempty [i_StorageMode p; "shared_mount"] in
    let* b := lift (global_backend V) in
    (if mode =?s "shared_mount" then ret tt else ingest_staged b p);;
    let '(source, chunks, results, merged) := ingest_paths p mode in
    (if mode =?s "shared_mount" then each make_dir [source; chunks; results; merged] else ret tt);;
    let* name := ResolvePluginName V (j_PluginID job) (j_PluginName job) in
    if name =?s "" then
      throw "no plugin_id in job payload — cannot determine which plugin to execute for ingestion"
    else
      let* (path, m) := on_plugins "" (s_LoadAndUpdatePlugin V name) in
      let* r := wrapM "ingest plugin failed: "
        (on_host (s_Execute V path m (ingest_input job p mode source chunks results merged))) in
      lift (decode "failed to parse ingest plugin output: " (mkIngestResult "" 0 "" 0 "") decodeIngestResult
              (a_parse E (extractLastJSONString (a_parse E) (PluginExecute.Output r)))).
End handlers.

(** ** A scan from end to end *)

Lemma last_app_one {A} (l : list A) x d : List.last (l ++ [x]) d = x.
Proof. apply List.last_last. Qed.

Lemma Ext_abs l f : Forall plain_name l -> plain_name f -> Ext (abs_path (l ++ [f])) = Ext f.
Proof.
  intros Hl Hf. unfold Ext at 1. rewrite split_on_abs by (apply Forall_app; split; [done|by apply Forall_singleton]).
  assert (E : List.last ("" :: match l ++ [f] with [] => [""] | _ => l ++ [f] end) "" = f).
  { destruct (l ++ [f]) as [|x k] eqn:El; [by destruct l|]. rewrite <- El.
    change ("" :: l ++ [f]) with (("" :: l) ++ [f]). apply last_app_one. }
  rewrite E. unfold Ext. destruct Hf as (_ & _ & _ & Hns). rewrite Hns. done.
Qed.

Lemma typed_of_all_objects L objects m : typed m -> typed (of_all_objects L objects m).
Proof. intros Hm. unfold of_all_objects. destruct (l_order L _); typing. Qed.

(** The members about all objects, and the others. *)
Definition object_keys : list string := ["file_count"; "file_types"; "file_type"; "total_size_bytes"; "source_files"].

Lemma kept_by_objects L objects m k v : m !! k = Some v -> existsb (String.eqb k) object_keys = false ->
  of_all_objects L objects m !! k = Some v.
Proof.
  intros Hv Hne.
  assert (Hnot : forall k', k' ∈ object_keys -> k' <> k).
  { intros k' Hin ->. apply not_true_iff_false in Hne. apply Hne, existsb_exists. exists k.
    by rewrite eqb_refl_s, <- list_elem_of_In. }
  unfold of_all_objects, assign, object_keys in *. destruct (l_order L _) as [|ext exts]; cbn [app foldl fst snd];
    rewrite !lookup_insert_ne; try done; apply Hnot; set_solver.
Qed.

Lemma set_by_objects L objects m k v :
  In (k, v) [("file_count", VInt (Z.of_nat (length objects))); ("total_size_bytes", VInt64 (total_bytes objects));
             ("source_files", VStrings (map Key objects))] ->
  of_all_objects L objects m !! k = Some v.
Proof.
  intros Hin. unfold of_all_objects, assign. destruct (l_order L _) as [|ext exts]; cbn [app foldl fst snd];
    simpl in Hin; destruct Hin as [[= <- <-]|[[= <- <-]|[[= <- <-]|[]]]]; by find_key.
Qed.

(** The sum of the sizes wraps once, at the end. *)
Lemma total_bytes_sum objects : total_bytes objects = int64 (foldr (fun o n => Size o + n) 0 objects).
Proof.
  assert (H : forall a, foldl (fun a o => int64 (a + Size o)) (int64 a) objects
                        = int64 (a + foldr (fun o n => Size o + n) 0 objects)).
  { induction objects as [|o os IH]; intros a; cbn [foldl foldr]; [by rewrite Z.add_0_r|].
    rewrite int64_add, IH. f_equal. lia. }
  exact (H 0).
Qed.

(** The type of an object as the reports name it. *)
Definition type_of (o : ObjectInfo) : string := if Ext (Key o) =?s "" then "(no extension)" else Ext (Key o).
Definition of_type (ext : string) (objects : list ObjectInfo) : list ObjectInfo :=
  List.filter (fun o => type_of o =?s ext) objects.

(** Every type is counted, as often as it occurs, and no other. *)
Lemma type_counts_spec objects ext : type_counts objects !! ext =
  match of_type ext objects with [] => None | os => Some (int64 (Z.of_nat (length os))) end.
Proof.
  induction objects as [|o os IH] using rev_ind; [done|].
  unfold type_counts, of_type in *. rewrite foldl_app, List.filter_app. cbn [foldl List.filter].
  change (count_type ?m (Key o)) with (<[type_of o := int64 (default 0 (m !! type_of o) + 1)]> m).
  destruct (String.eqb_spec (type_of o) ext) as [<-|Hne].
  - rewrite lookup_insert_eq, IH. destruct (List.filter _ os) as [|o' os']; [done|].
    cbn [app]. f_equal. change (default 0 (Some ?x)) with x. rewrite int64_add. f_equal.
    change (o' :: os' ++ [o]) with ((o' :: os') ++ [o]). rewrite length_app. cbn [length]. lia.
  - rewrite lookup_insert_ne, app_nil_r by done. exact IH.
Qed.

(** What a summary says of the listed objects. *)
Record accounts_for (objects : list ObjectInfo) (summary : gmap string value) : Prop := {
  af_count : summary !! "file_count" = Some (VInt (Z.of_nat (length objects)));
  af_bytes : summary !! "total_size_bytes" = Some (VInt64 (int64 (foldr (fun o n => Size o + n) 0 objects)));
  af_keys : summary !! "source_files" = Some (VStrings (map Key objects));
  af_types : exists counts, summary !! "file_types" = Some (VCounts counts) /\
    forall ext, counts !! ext =
      match of_type ext objects with [] => None | os => Some (int64 (Z.of_nat (length os))) end;
  af_type : objects <> [] ->
    exists o, o ∈ objects /\ summary !! "file_type" = Some (VStr (TrimPrefix (type_of o) ".")) }.

Lemma objects_accounted L objects m : (forall l, l_order L l ≡ₚ l) -> accounts_for objects (of_all_objects L objects m).
Proof.
  intros HL. split.
  - apply set_by_objects. by left.
  - rewrite <- total_bytes_sum. apply set_by_objects. right. by left.
  - apply set_by_objects. right. right. by left.
  - exists (type_counts objects). split; [|apply type_counts_spec].
    unfold of_all_objects, assign. destruct (l_order L _) as [|ext exts]; cbn [app foldl fst snd]; by find_key.
  - intros Hne. unfold of_all_objects, assign.
    pose proof (HL (map fst (map_to_list (type_counts objects)))) as Hp.
    destruct (l_order L _) as [|ext exts].
    + apply Permutation_nil_l in Hp. destruct objects as [|o os]; [done|].
      assert (Hin : type_counts (o :: os) !! type_of o <> None).
      { rewrite type_counts_spec. unfold of_type. cbn [List.filter]. by rewrite String.eqb_refl. }
      destruct (type_counts (o :: os) !! type_of o) as [n|] eqn:En; [|done].
      apply elem_of_map_to_list in En.
      destruct (map_to_list _); [by apply elem_of_nil in En|done].
    + assert (Hin : ext ∈ map fst (map_to_list (type_counts objects))) by (rewrite <- Hp; apply list_elem_of_here).
      apply list_elem_of_fmap in Hin as ([e n] & -> & Hin). apply elem_of_map_to_list in Hin.
      rewrite type_counts_spec in Hin. cbn [fst].
      destruct (of_type e objects) as [|o os] eqn:Eo; [done|].
      assert (Ho : In o (of_type e objects)) by (rewrite Eo; by left).
      apply filter_In in Ho as [Ho Ht]. apply String.eqb_eq in Ht. subst e.
      exists o. split; [by apply list_elem_of_In|]. cbn [app foldl fst snd]. by find_key.
Qed.

(** The source that a scan lists, and the objects it finds. *)
Definition lists_source (E : agent) (payload : RawMessage) (w : world) (job : Job) (objects : list ObjectInfo) : Prop :=
  exists b key, Unmarshal_struct zeroJob decodeJob payload = (job, None) /\ j_DatasetID job <> "" /\
    job_backend (a_services E) (j_StorageConfigID job) (scan_mode job) = Ret b /\
    source_key (j_SourcePath job) = Ret key /\ ListObjects b key (w_host w) = Ok objects.

(** Only the disk changes. *)
Definition disk_only (w w' : world) : Prop := exists s, w' = with_disk s w.

Lemma disk_only_refl w : disk_only w w.
Proof. exists (w_disk w). by destruct w as [[]]. Qed.

Lemma disk_only_call w ctx f : keeps (disk_only w) (call ctx f).
Proof. intros w' [s ->]. unfold call. destruct (f _) as [s' [e|]]; by exists s'. Qed.

Lemma disk_only_input w E job mode b os dir : keeps (disk_only w) (scan_input E job mode b os dir).
Proof.
  unfold scan_input. destruct os as [|o os]; [apply keeps_ret|]. unfold download, create_with.
  repeat (apply keeps_bind || intros ? || apply disk_only_call); auto with handler.
Qed.

(** A scan that returns has listed its source and read a summary. *)
Lemma scan_returned E L payload w w' r : executeScanDataset E L payload w = (w', Ret r) ->
  exists job objects m path s, lists_source E payload w job objects /\
    scanDatasetBuiltin L (a_faults E) path s = Ret m /\ disk_only w w' /\
    r = mkReport (j_DatasetID job) (j_OrgID job) (scan_mode job) (of_all_objects L objects m).
Proof.
  unfold executeScanDataset, mbind at 1, lift at 1, decode.
  destruct (Unmarshal_struct zeroJob decodeJob payload) as [job [e|]] eqn:Ej; [done|].
  destruct (String.eqb_spec (j_DatasetID job) "") as [|Hid]; [done|].
  unfold mbind at 1, lift at 1. destruct (job_backend _ _ _) as [b| |] eqn:Eb; [|done..].
  unfold mbind at 1, lift at 1. destruct (source_key _) as [k| |] eqn:Ek; [|done..].
  unfold mbind at 1, get. unfold mbind at 1, lift at 1.
  destruct (ListObjects b k (w_host w)) as [objects|e] eqn:El; [|done]. cbn [of_Result].
  unfold with_workdir. destruct (os_MkdirAll _ _ _) as [s [e|]]; [done|].
  unfold mbind at 1.
  set (w0 := with_disk s w). set (dir := Join _).
  pose proof (disk_only_input w E job (scan_mode job) b objects dir w0 (ex_intro _ s eq_refl)) as [s' Hh].
  destruct (scan_input E job (scan_mode job) b objects dir w0) as [w1 [path|e|]]; [|done..].
  cbn [fst] in Hh. subst w1.
  unfold mbind at 1, lift at 1.
  destruct (scanDatasetBuiltin L (a_faults E) path _) as [m| |] eqn:Em; [|done..].
  intros [= <- <-]. exists job, objects, m, path, s'.
  split; [by exists b, k|]. split; [done|]. split; [by eexists|done].
Qed.

Section scan.
Context (E : agent) (L : libraries) (t : list string) (b : StorageBackend) (valid : string -> Prop) (good : host -> Prop).
Context `{Hstore : RemoteStore b valid good} (HF : a_faults E = no_disk_faults).
Context (comma : ascii) (Hcomma : comma <> quote /\ comma <> LF /\ comma <> CR).

(** A job whose source is listed, with a table as its first object. *)
Record scan_job (payload : RawMessage) (job : Job) (o : ObjectInfo) (os : list ObjectInfo) (hs : list string)
    (rows : list (list string)) (text : string) (w : world) : Prop := {
  sj_job : Unmarshal_struct zeroJob decodeJob payload = (job, None);
  sj_id : j_DatasetID job <> "";
  sj_backend : job_backend (a_services E) (j_StorageConfigID job) (scan_mode job) = Ret b;
  sj_list : exists k, source_key (j_SourcePath job) = Ret k /\ ListObjects b k (w_host w) = Ok (o :: os);
  sj_workdir : plain_workdir (a_tempDir E) t (j_ID job);
  sj_ext : Ext (Key o) = ".csv";
  sj_free : work_path t (j_ID job) ["sample.csv"] ∉ dirs (w_disk w);
  sj_sample : contents b (Key o) (w_host w) = Some text;
  sj_table : table_text comma (hs :: rows) text;
  sj_delimiter : detectDelimiter L text = comma;
  sj_columns : NoDup hs }.

Lemma sample_plain : plain_name "sample.csv".
Proof. split; [done|]. split; [done|]. by split. Qed.

Section one_scan.
Context (payload : RawMessage) (job : Job) (o : ObjectInfo) (os : list ObjectInfo) (hs : list string)
  (rows : list (list string)) (text : string) (w : world).
Context (Hjob : scan_job payload job o os hs rows text w).
Abbreviation work := (work_path t (j_ID job) []).
Abbreviation path := (work_path t (j_ID job) ["sample.csv"]).

Definition sampled_disk : fs :=
  with_files (<[path := text]> (files (w_disk w))) (with_dirs ({[work]} ∪ dirs (w_disk w)) (w_disk w)).

Lemma sample_downloaded s : s = with_dirs ({[work]} ∪ dirs (w_disk w)) (w_disk w) ->
  scan_input E job (scan_mode job) b (o :: os) work (with_disk s w) = (with_disk sampled_disk w, Ret path).
Proof.
  intros ->. destruct Hjob as [_ _ _ _ (Htemp & Ht & Hid) Hext Hfree Hc _ _ _].
  unfold scan_input. rewrite Hext. change ("sample" +:+ ".csv") with "sample.csv".
  rewrite work_file_path by (done || apply sample_plain).
  unfold download, mbind, get, lift.
  assert (Hread : ReadObject b (Key o) (w_host (with_disk (with_dirs ({[work]} ∪ dirs (w_disk w)) (w_disk w)) w))
                  = Ok (whole text)).
  { apply contents_read. rewrite <- Hc. by apply (remote_read (RemoteStore := Hstore)). }
  rewrite Hread. cbn [of_Result]. unfold create_with, call, mbind, os_Create. rewrite HF. cbn [no_disk_faults f_create].
  rewrite decide_False.
  - unfold io_Copy, append_file. cbn [no_disk_faults f_write whole r_data r_err w_disk with_disk with_host w_host disk files with_files].
    rewrite lookup_insert_eq. cbn [default]. unfold sampled_disk. rewrite insert_insert_eq. reflexivity.
  - cbn. intros [H|H]%elem_of_union; [|done]. apply elem_of_singleton in H. unfold work_path in H.
    apply abs_path_inj in H.
    + apply (f_equal length) in H. rewrite !length_app in H. simpl in H. lia.
    + apply Forall_app. split; [done|]. repeat apply Forall_cons_2; [by apply sentra_plain|apply sample_plain|constructor].
    + apply Forall_app. split; [done|]. by apply Forall_singleton, sentra_plain.
Qed.

Lemma path_split : path = abs_path ((t ++ ["sentra-" +:+ j_ID job]) ++ ["sample.csv"]).
Proof. unfold work_path. by rewrite <- app_assoc. Qed.

Lemma text_nonempty : text <> "".
Proof. destruct Hjob as [_ _ _ _ _ _ _ _ Ht _ _]. inversion Ht as [|r u rs ts _ _ _ E1 E2]. by destruct u. Qed.

(** The scan of the sample is that of its table. *)
Lemma sample_scanned : exists m schema,
  scanDatasetBuiltin L (a_faults E) path sampled_disk = Ret m /\ typed m /\
  m !! "columns" = Some (VStrings hs) /\
  m !! "sample_row_count" = Some (VInt (Z.of_nat (length (regular hs (take 100 rows))))) /\
  m !! "sample_rows" = Some (VRows (map (row_map hs) (regular hs (take 10 rows)))) /\
  m !! "schema" = Some (VTypes schema) /\
  forall j h, hs !! j = Some h ->
    schema !! h = detectValueType (l_is_float L) <$> first_value (column j (regular hs (take 100 rows))).
Proof.
  pose proof text_nonempty as Hne. pose proof path_split as Hsplit.
  destruct Hjob as [_ _ _ _ (Htemp & Ht & Hid) _ _ _ Htab Hdel Hnd].
  assert (Hfile : files sampled_disk !! path = Some text) by apply lookup_insert_eq.
  destruct (extractCSVMetadata_correct L (a_faults E) comma Hcomma path text hs rows sampled_disk)
    as (m & schema & Em & Hc & _ & Hn & Hr & Hs & Hty); [by rewrite HF|done..|].
  assert (Hx : extractFileMetadata L (a_faults E) path sampled_disk = Ret m).
  { unfold extractFileMetadata. rewrite Hsplit, Ext_abs, <- Hsplit; [exact Em| |apply sample_plain].
    apply Forall_app. split; [done|]. by apply Forall_singleton, sentra_plain. }
  assert (Hm : typed m) by (pose proof (csv_sound L (a_faults E) path sampled_disk) as H; by rewrite Em in H).
  set (summary := summarize [(Base path, Z.of_nat (String.length text))]).
  assert (Hw : forall k v, k <> "detected_formats" -> m !! k = Some v -> with_metadata m summary !! k = Some v).
  { intros k v Hk Hv. assert (H : (m ∪ summary) !! k = Some v) by (by apply lookup_union_Some_l).
    unfold with_metadata. destruct (m !! "format") as [[]|]; try done. destruct (_ =?s _); [done|].
    unfold assign. cbn [foldl fst snd]. by rewrite lookup_insert_ne. }
  assert (Hok : summary_ok (with_metadata m summary)).
  { apply with_metadata_ok; [done|]. apply assign_ok; [typing|apply empty_summary_ok]. }
  exists (with_metadata m summary), schema. split; [|split; [apply Hok|]; repeat (split; [by apply Hw|]); done].
  unfold scanDatasetBuiltin. rewrite Hsplit at 1. rewrite (eqb_neq_s _ "") by done.
  unfold os_Stat. rewrite HF. cbn [no_disk_faults f_stat]. rewrite Hfile. rewrite <- HF.
  unfold scan_files. cbv zeta. unfold sample_of. cbn [List.find snd].
  assert (Hpos : (0 <? Z.of_nat (String.length text)) = true) by (destruct text; [done|by apply Z.ltb_lt; simpl; lia]).
  rewrite Hpos. cbn [fmap option_fmap option_map fst]. rewrite Hx. fold summary.
  unfold assert_columns. by rewrite (Hw "columns" (VStrings hs)).
Qed.
End one_scan.

(** A scan whose first object is a table returns. *)
Lemma scan_of_table payload job o os hs rows text w : scan_job payload job o os hs rows text w ->
  exists w' m schema,
    executeScanDataset E L payload w =
      (w', Ret (mkReport (j_DatasetID job) (j_OrgID job) (scan_mode job) (of_all_objects L (o :: os) m))) /\
    m !! "columns" = Some (VStrings hs) /\
    m !! "sample_row_count" = Some (VInt (Z.of_nat (length (regular hs (take 100 rows))))) /\
    m !! "schema" = Some (VTypes schema) /\
    (forall j h, hs !! j = Some h ->
       schema !! h = detectValueType (l_is_float L) <$> first_value (column j (regular hs (take 100 rows)))) /\
    (forall q, below (work_path t (j_ID job) []) q = true -> files (w_disk w') !! q = None).
Proof.
  intros Hj. destruct (sample_scanned payload job o os hs rows text w Hj) as (m & schema & Em & _ & Hc & Hn & _ & Hs & Hty).
  pose proof (sample_downloaded payload job o os hs rows text w Hj) as Hd.
  destruct Hj as [Hjob Hid Hb (k & Hk & Hl) Hwork _ _ _ _ _ _].
  pose proof (work_dir_path _ _ _ Hwork) as Hdir.
  eexists _, m, schema. split.
  { unfold executeScanDataset, mbind at 1, lift at 1, decode. rewrite Hjob. rewrite (eqb_neq_s _ _ Hid).
    unfold mbind at 1, lift at 1. rewrite Hb. unfold mbind at 1, lift at 1. rewrite Hk.
    unfold mbind at 1, get. unfold mbind at 1, lift at 1. rewrite Hl. cbn [of_Result].
    unfold with_workdir, os_MkdirAll. rewrite Hdir, HF. cbn [no_disk_faults f_mkdir].
    rewrite <- HF. unfold mbind at 1. rewrite Hd by done. unfold mbind at 1, lift at 1.
    change (w_disk (with_disk (sampled_disk job text w) w)) with (sampled_disk job text w). rewrite Em. cbn [wrap].
    reflexivity. }
  repeat (split; [done|]).
  intros q Hq. rewrite <- Hdir in Hq. rewrite Hdir in Hq. by apply RemoveAll_below; rewrite ?HF.
Qed.

End scan.

(** ** What an ingestion copies *)

Section ingest.
Context (b : StorageBackend) (valid : string -> Prop) (good : host -> Prop) `{Hstore : RemoteStore b valid good}.
Context (id : string).
Abbreviation staged := (staged_key id).

(** Staged objects that can be copied side by side. *)
Record stageable (objects : list ObjectInfo) (h : host) : Prop := {
  st_valid : Forall (fun o => valid (Key o) /\ valid (staged o)) objects;
  st_there : Forall (fun o => is_Some (contents b (Key o) h)) objects;
  st_apart : forall o o', o ∈ objects -> o' ∈ objects -> Key o <> staged o';
  st_names : NoDup (map staged objects) }.

Lemma copy_one o w data : valid (staged o) -> good (w_host w) -> contents b (Key o) (w_host w) = Some data ->
  exists w', copy_staged b id o w = (w', Ret tt) /\ good (w_host w') /\ contents b (staged o) (w_host w') = Some data /\
    forall k, valid k -> k <> staged o -> contents b k (w_host w') = contents b k (w_host w).
Proof.
  intros Hv Hg Hc. apply contents_read in Hc. unfold copy_staged, mbind, get, lift. rewrite Hc. cbn [of_Result].
  unfold write_call.
  destruct (store_write (b := b) (staged o) (whole data) (w_host w) Hv Hg eq_refl) as (h' & Ew & Hg' & Hc' & Ho).
  rewrite Ew. by eexists.
Qed.

Lemma copies objects w : stageable objects (w_host w) -> good (w_host w) ->
  exists w', each (copy_staged b id) objects w = (w', Ret tt) /\ good (w_host w') /\
    (forall o, o ∈ objects -> contents b (staged o) (w_host w') = contents b (Key o) (w_host w)) /\
    (forall k, valid k -> (forall o, o ∈ objects -> k <> staged o) -> contents b k (w_host w') = contents b k (w_host w)).
Proof.
  revert w. induction objects as [|o os IH]; intros w [Hv Ht Ha Hn] Hg.
  { exists w. split; [done|]. split; [done|]. split; [by intros o ?%elem_of_nil|done]. }
  apply Forall_cons in Hv as [[Hvk Hvs] Hv]. apply Forall_cons in Ht as [[data Hd] Ht].
  apply NoDup_cons in Hn as [Hno Hn].
  assert (Hother : forall o', o' ∈ os -> staged o' <> staged o).
  { intros o' Ho' Eq. apply Hno. rewrite <- Eq. apply list_elem_of_fmap. by exists o'. }
  destruct (copy_one o w data Hvs Hg Hd) as (w1 & E1 & Hg1 & Hc1 & Hk1).
  assert (Hkeep : forall o', o' ∈ os -> contents b (Key o') (w_host w1) = contents b (Key o') (w_host w)).
  { intros o' Ho'. rewrite Forall_forall in Hv. apply Hk1; [by apply Hv|].
    apply Ha; [by apply list_elem_of_further|by apply list_elem_of_here]. }
  destruct (IH w1) as (w2 & E2 & Hg2 & Hc2 & Hk2); [|done|].
  { split; [done| | |done].
    - rewrite Forall_forall in *. intros o' Ho'. rewrite Hkeep by done. by apply Ht.
    - intros o1 o2 H1 H2. apply Ha; by apply list_elem_of_further. }
  exists w2. split; [cbn [each]; unfold mbind; rewrite E1; exact E2|]. split; [done|]. split.
  - intros o' [->|Ho']%elem_of_cons; [|by rewrite Hc2, Hkeep].
    rewrite Hk2; [by rewrite Hc1, Hd|done|]. intros o' Ho' Eq. by apply (Hother o').
  - intros k Hk Hne. rewrite Hk2; [apply Hk1; [done|]|done|].
    + apply Hne, list_elem_of_here.
    + intros o' Ho'. by apply Hne, list_elem_of_further.
Qed.

(** An ingestion into a remote store copies every staged object below the
    data set under its base name, and leaves the other objects, provided that no
    two staged objects have the same base name. *)
Theorem ingest_copies_staged p w objects :
  i_DatasetID p = id -> i_SourcePath p <> "" -> ListObjects b (i_SourcePath p) (w_host w) = Ok objects ->
  stageable objects (w_host w) -> good (w_host w) ->
  exists w', ingest_staged b p w = (w', Ret tt) /\
    (forall o, o ∈ objects -> contents b (id +:+ "/" +:+ Base (Key o)) (w_host w') = contents b (Key o) (w_host w)) /\
    (forall k, valid k -> (forall o, o ∈ objects -> k <> staged o) -> contents b k (w_host w') = contents b k (w_host w)).
Proof.
  intros Hid Hp Hl Hs Hg. destruct (copies objects w Hs Hg) as (w' & E & _ & Hc & Hk).
  exists w'. split; [|exact (conj Hc Hk)]. unfold ingest_staged. rewrite Hid, (eqb_neq_s _ _ Hp). unfold mbind, get, lift. rewrite Hl.
  exact E.
Qed.
End ingest.

(** ** Concrete runs *)

(** The store in memory, with a listing. *)
Definition listing_store (objects : list ObjectInfo) : StorageBackend :=
  mkBackend (is_shared_mount memory_store) (ReadObject memory_store) (WriteObject memory_store)
    (fun _ _ => Ok objects) (StatObject memory_store) (DeleteObject memory_store).

Lemma listing_remote l : RemoteStore (listing_store l) object_key (fun _ => True).
Proof.
  destruct (memory_remote object_key) as [[Hw Hd] H1 H2 H3 H4 H5]; [done|].
  exact (@Build_RemoteStore (listing_store l) object_key (fun _ => True)
    (@Build_ObjectStore (listing_store l) object_key (fun _ => True) Hw Hd) H1 H2 H3 H4 H5).
Qed.

Definition demo_object : ObjectInfo := mkObject "s/t.csv" 42.
Definition demo_others : list ObjectInfo := [mkObject "s/u.csv" 8; mkObject "s/README" 5].
Definition demo_source : list ObjectInfo := demo_object :: demo_others.
Definition demo_scan_payload : RawMessage :=
  Raw (JObj [("job_id", JStr "j1"); ("dataset_id", JStr "d1"); ("storage_mode", JStr "s3"); ("source_path", JStr "s")]).
Definition demo_scan_job : Job := (decodeJob
  [("job_id", JStr "j1"); ("dataset_id", JStr "d1"); ("storage_mode", JStr "s3"); ("source_path", JStr "s")]).1.
Definition demo_scan_agent : agent :=
  plain_agent (plain_services (Some (listing_store demo_source)) zeroManifest
    (fun _ h => (h, Throw "no plugin"))).
Definition demo_scan_world : world :=
  empty_world ∅ {[buildURL memory_bucket "s/t.csv" := demo_csv]}.

Lemma demo_scan_ready : scan_job demo_scan_agent demo_libraries ["tmp"] (listing_store demo_source) "," demo_scan_payload
  demo_scan_job demo_object demo_others ["id"; "name"; "when"] (tail demo_table) demo_csv demo_scan_world.
Proof.
  split.
  - reflexivity.
  - done.
  - reflexivity.
  - by exists "s".
  - split; [done|]. split; [by apply Forall_singleton|]. done.
  - reflexivity.
  - apply (bool_decide_unpack _). by vm_compute.
  - change (contents (listing_store demo_source)) with (contents memory_store). rewrite memory_contents.
    apply lookup_insert_eq.
  - apply demo_table_text.
  - by vm_compute.
  - apply (bool_decide_unpack _). by vm_compute.
Qed.


Definition staged_objects : list ObjectInfo := [mkObject "up/a.csv" 1; mkObject "up/x/b.csv" 1].
Definition staged_world : world :=
  empty_world ∅ {[buildURL memory_bucket "up/a.csv" := "A"; buildURL memory_bucket "up/x/b.csv" := "B"]}.

Lemma staged_ready : stageable (listing_store staged_objects) object_key "d1" staged_objects (w_host staged_world).
Proof.
  split.
  - repeat apply Forall_cons_2; [..|constructor]; split; (split; [done|by split]).
  - change (contents (listing_store staged_objects)) with (contents memory_store).
    apply Forall_cons_2; [|apply Forall_cons_2; [|by apply Forall_nil_2]]; rewrite memory_contents;
      apply (bool_decide_unpack _); by vm_compute.
  - intros o o' Ho Ho'. repeat (apply elem_of_cons in Ho as [->|Ho]); [..|by apply elem_of_nil in Ho];
      repeat (apply elem_of_cons in Ho' as [->|Ho']); try (by apply elem_of_nil in Ho'); intros H; by vm_compute in H.
  - apply (bool_decide_unpack _). by vm_compute.
Qed.

Lemma ingest_copies_staged_witness : exists w',
  ingest_staged (listing_store staged_objects) (mkIngest "d1" "s3" 2 "csv" 1 "up") staged_world = (w', Ret tt) /\
  contents (listing_store staged_objects) "d1/b.csv" (w_host w') =
  contents (listing_store staged_objects) "up/x/b.csv" (w_host staged_world).
Proof.
  destruct (@ingest_copies_staged (listing_store staged_objects) object_key (fun _ => True) (listing_remote _) "d1"
    (mkIngest "d1" "s3" 2 "csv" 1 "up") staged_world staged_objects) as (w' & E & Hc & _);
    [reflexivity|discriminate|reflexivity|exact staged_ready|exact I|].
  exists w'. split; [exact E|]. exact (Hc (mkObject "up/x/b.csv" 1) (list_elem_of_further _ _ _ (list_elem_of_here _ _))).
Defined.
