(* ===== verification/Runtimes.v ===== *)
(** * Runtimes: the Python and Node environments

    Models [cmd/agent/runtime/v2/python.go] and [node.go]: setting up an
    environment, installing dependencies, and running a plugin in it, as
    computations on the runtime object and the disk.  There is one object of each
    runtime for all jobs.  The commands that are started are an oracle on the
    disk; the texts of the runner scripts are parameters. *)
From S2P Require Import Prelude Json Path PluginExecute ExecutorV2 Merge MergeTree Recovery Storage ObjectStore Handler.
From Stdlib Require Import Ascii.

(** ** Computations of a runtime *)

Definition act (R A : Type) : Type := R * fs -> R * fs * result A.

Definition done {R A} (a : A) : act R A := fun s => (s, Ok a).
Definition fail {R A} (e : string) : act R A := fun s => (s, Err e).
Definition andthen {R A B} (c : act R A) (k : A -> act R B) : act R B := fun s =>
  match c s with (s, Ok a) => k a s | (s, Err e) => (s, Err e) end.
Definition look {R A} (f : R * fs -> A) : act R A := fun s => (s, Ok (f s)).
Definition set_object {R} (f : R -> R) : act R unit := fun s => ((f s.1, s.2), Ok tt).
Definition on_fs {R} (ctx : string) (f : fs -> fs * error) : act R unit := fun s =>
  match f s.2 with
  | (d, Some e) => ((s.1, d), Err (ctx +:+ e))
  | (d, None) => ((s.1, d), Ok tt)
  end.
(** A call whose error is ignored. *)
Definition quietly {R} (f : fs -> fs * error) : act R unit := fun s => ((s.1, (f s.2).1), Ok tt).

Declare Scope runtime_scope.
Delimit Scope runtime_scope with runtime.
Notation "'let%' x := c 'in' k" := (andthen c (fun x => k))
  (at level 10, x pattern, c at level 100, k at level 200) : runtime_scope.
Notation "c '>>' k" := (andthen c (fun _ => k)) (at level 100, k at level 200, right associativity) : runtime_scope.
Local Open Scope runtime_scope.

(** ** What a run takes and gives *)

(** [in_ChunkIndex] is [int(f)] when the member [chunk_index] of the input holds
    a [float64] [f], as in decoded JSON; a Go [int] does not count. *)
Record ExecutionInput := mkInput {
  in_Input : list (string * json); in_ChunkIndex : option Z; in_Config : list (string * json);
  in_Metadata : list (string * json); in_PluginCode : string }.

Record ExecutionOutput := mkOutput {
  o_Success : bool; o_Data : option (list (string * json)); o_Error : string;
  o_ItemsProcessed : Z; o_DurationMs : Z }.

Definition dec_map (renum : string -> string) : decoder (option (list (string * json))) := fun cur j =>
  match j with
  | JNull => (None, false)
  | JObj fs =>
      (Some (foldl (fun m kv => map_insert kv.1 (to_interface renum kv.2) m) (default [] cur) fs), false)
  | _ => (cur, true)
  end.

Definition decodeOutput (renum : string -> string) (fs : list (string * json)) : ExecutionOutput * bool :=
  let '(s, e1) := field dec_bool "success" false fs in
  let '(d, e2) := field (dec_map renum) "data" None fs in
  let '(e, e3) := field dec_string "error" "" fs in
  let '(n, e4) := field dec_int "items_processed" 0 fs in
  let '(t, e5) := field dec_int "duration_ms" 0 fs in
  (mkOutput s d e n t, e1 || e2 || e3 || e4 || e5).

Definition failed_output (e : string) : ExecutionOutput := mkOutput false None e 0 0.

(** The output, the exit code among the metrics, and the error. *)
Definition run_result : Type := ExecutionOutput * Z * error.

(** The interface [Runtime] of [manager.go], for an object of type [R]. *)
Record Runtime (R : Type) := mkRuntime {
  rt_Setup : RuntimeSpec -> string -> act R unit;
  rt_InstallDeps : list Dependency -> string -> act R unit;
  rt_Run : ExecutionInput -> string -> R * fs -> R * fs * run_result }.
Arguments mkRuntime {R}. Arguments rt_Setup {R}. Arguments rt_InstallDeps {R}. Arguments rt_Run {R}.

(** A command: what it printed, its exit code (-1 when it did not start), and
    the error of [cmd.Run]. *)
Record command_result := mkCommand { c_output : string; c_exit : Z; c_error : error }.

Record toolbox := mkToolbox {
  t_faults : disk_faults;
  t_windows : bool; t_darwin : bool;
  (** arguments, working directory, disk *)
  t_exec : list string -> string -> fs -> fs * command_result;
  (** whether the context ends before the given attempt *)
  t_ctxDone : Z -> error;
  t_parse : string -> RawMessage; t_indent : json -> string; t_renum : string -> string;
  t_pythonVersion : string;   (** [platform.Python] *)
  t_runner_py : string; t_runner_mjs : string }.

Section tools.
Context (T : toolbox) {R : Type}.
Abbreviation F := (t_faults T).

Definition exec_in (dir : string) (args : list string) : act R command_result := fun s =>
  let '(d, r) := t_exec T args dir s.2 in ((s.1, d), Ok r).

(** A command that must succeed. *)
Definition must (ctx : string) (dir : string) (args : list string) : act R string :=
  let% r := exec_in dir args in
  match c_error r with Some e => fail (ctx +:+ e) | None => done (c_output r) end.

Definition write_ready (envPath ctx : string) : act R unit :=
  on_fs ctx (os_WriteFile F (Join [envPath; ".ready"]) "ok").

(** The loop of the two installers: at most three attempts, with a wait before
    each but the first. *)
Fixpoint install_attempts (tries : nat) (attempt : Z) (lastErr : string) (envPath : string)
    (args : list string) (installed : act R unit) : act R unit :=
  match tries with
  | O => fail ("dependency installation failed after 3 retries: " +:+ lastErr)
  | S tries =>
      match (if 0 <? attempt then t_ctxDone T attempt else None) with
      | Some e => fail e
      | None =>
          let% r := exec_in envPath args in
          match c_error r with
          | Some e =>
              install_attempts tries (attempt + 1) ("failed to install dependencies: " +:+ e) envPath args installed
          | None => installed >> write_ready envPath "failed to write ready marker: "
          end
      end
  end.

(** The output file of a run: what it decodes to; or the error, and what comes
    before it in the output. *)
Definition read_output (outputFile : string) (s : fs) : ExecutionOutput + (string * string) :=
  match os_ReadFile F outputFile s with
  | Err e => inr ("failed to read output: ", e)
  | Ok data =>
      match Unmarshal_struct (mkOutput false None "" 0 0) (decodeOutput (t_renum T)) (t_parse T data) with
      | (o, None) => inl o
      | (_, Some e) => inr ("invalid output format: ", e)
      end
  end.

(** A command that failed: an output file that decodes counts all the same. *)
Definition failed_run (outputFile : string) (r : command_result) (e : string) (s : fs) : run_result :=
  match (if fileExists F outputFile s then read_output outputFile s else inr ("", "")) with
  | inl o => (o, c_exit r, None)
  | inr _ => (failed_output ("execution failed: " +:+ e), c_exit r, Some e)
  end.

Definition to_run (what : string) (c : act R unit) (k : R * fs -> R * fs * run_result) : R * fs -> R * fs * run_result :=
  fun s => match c s with
           | (s, Err e) => (s, (failed_output (what +:+ e), 0, Some e))
           | (s, Ok _) => k s
           end.

(** Write the code of the plugin, if there is any. *)
Definition write_plugin (envPath name : string) (input : ExecutionInput) : act R unit :=
  if in_PluginCode input =?s "" then done tt
  else on_fs "" (os_WriteFile F (Join [envPath; name]) (in_PluginCode input)).

Definition input_payload (members : list (string * json)) (input : ExecutionInput) : json :=
  JObj [("config", JObj (in_Config input)); ("input", JObj members); ("metadata", JObj (in_Metadata input))].
End tools.

(** ** Python *)

Module Python.
Record PythonRuntime := mkPython {
  py_home : string; py_venvPath : string; py_executable : string; py_version : string; py_installed : bool }.

Definition NewPythonRuntime (workingDir : string) : PythonRuntime := mkPython workingDir "" "" "" false.

Section python.
Context (T : toolbox).
Abbreviation F := (t_faults T).
Abbreviation P := PythonRuntime.

Definition getPythonCommand : string :=
  if t_windows T then (if t_pythonVersion T =?s "" then "python" else t_pythonVersion T) else "python3".

Definition getVenvPython (pr : P) : string :=
  if t_windows T then Join [py_venvPath pr; "Scripts"; "python.exe"] else Join [py_venvPath pr; "bin"; "python"].

(** A virtual environment that can see the packages of the system is kept, any
    other is made again. *)
Definition createVirtualEnv (pythonCmd : string) : act P unit :=
  let% (cfgPath, venv, cfg) := look (fun s =>
    let cfgPath := Join [py_venvPath s.1; "pyvenv.cfg"] in
    (cfgPath, py_venvPath s.1,
     if fileExists F cfgPath s.2 then Some (os_ReadFile (t_faults T) cfgPath s.2) else None)) in
  let create :=
    on_fs "failed to create venv directory: " (os_MkdirAll (f_mkdir F) venv) >>
    let% r := exec_in T "" [pythonCmd; "-m"; "venv"; "--system-site-packages"; "--without-pip"; venv] in
    match c_error r with
    | Some e => quietly (os_RemoveAll F venv) >> fail ("venv creation failed: " +:+ e)
    | None => done tt
    end in
  match cfg with
  | None => create
  | Some (Ok data) =>
      if strings_Contains data "include-system-site-packages = true" then done tt
      else quietly (os_RemoveAll F venv) >> create
  | Some (Err _) => quietly (os_RemoveAll F venv) >> create
  end.

Definition wrap_err {A} (ctx : string) (c : act P A) : act P A := fun s =>
  match c s with (s, Err e) => (s, Err (ctx +:+ e)) | x => x end.

Definition Setup (spec : RuntimeSpec) (envPath : string) : act P unit :=
  on_fs "failed to create runtime directory: " (os_MkdirAll (f_mkdir F) envPath) >>
  set_object (fun pr => mkPython envPath (Join [envPath; "venv"]) (py_executable pr) (py_version pr) (py_installed pr)) >>
  let% out := must T "python not available: " "" [getPythonCommand; "--version"] in
  set_object (fun pr => mkPython (py_home pr) (py_venvPath pr) (py_executable pr) (TrimSpace out) (py_installed pr)) >>
  wrap_err "failed to create virtual environment: " (createVirtualEnv getPythonCommand) >>
  set_object (fun pr => mkPython (py_home pr) (py_venvPath pr) (getVenvPython pr) (py_version pr) true).

(** The requirement of a dependency; unlike [pip_requirement], it takes
    [latest] and [*] for versions. *)
Definition requirement (d : Dependency) : string :=
  if dep_Version d =?s "" then dep_Name d
  else
    let ver := ReplaceAll3 "226"%char "137"%char "165"%char ">=" (dep_Version d) in
    let ver := ReplaceAll3 "226"%char "137"%char "164"%char "<=" ver in
    let ver := StripSpaces ver in
    if existsb (HasPrefix ver) [">="; "<="; "=="; "!="; "~="; ">"; "<"] then dep_Name d +:+ ver
    else dep_Name d +:+ "==" +:+ ver.

Definition InstallDeps (deps : list Dependency) (envPath : string) : act P unit :=
  let% pr := look fst in
  if negb (py_installed pr) then fail "runtime not set up"
  else match deps with
       | [] => write_ready T envPath ""
       | _ =>
           let pythonCmd := getVenvPython pr in
           let% _ := exec_in T "" [pythonCmd; "-m"; "pip"; "install"; "--upgrade"; "pip"] in
           install_attempts T 3 0 "" envPath
             ([pythonCmd; "-m"; "pip"; "install"; "--no-cache-dir"] ++ map requirement deps) (done tt)
       end.

(** The paths of input and output become paths in the environment, when the
    input could be copied there. *)
Definition local_input (envPath : string) (chunkIdx : Z) (members : list (string * json)) : act P (list (string * json)) :=
  fun s =>
  match map_lookup "input_path" members with
  | Some (JStr inputPath) =>
      if inputPath =?s "" then (s, Ok members)
      else
        let localInput := Join [envPath; "chunk_" +:+ itoa chunkIdx +:+ Ext inputPath] in
        let '(d, members) :=
          if fileExists F inputPath s.2 then
            match copyFile F inputPath localInput s.2 with
            | (d, None) => (d, map_insert "input_path" (JStr localInput) members)
            | (d, Some _) => (d, members)
            end
          else (s.2, members) in
        let members :=
          match map_lookup "output_path" members with
          | Some (JStr outputPath) =>
              if outputPath =?s "" then members
              else map_insert "output_path" (JStr (Join [envPath; chunk_file chunkIdx ".out"])) members
          | _ => members
          end in
        ((s.1, d), Ok members)
  | _ => (s, Ok members)
  end.

(** Counts at the top of the output go into its data. *)
Definition with_counts (o : ExecutionOutput) : ExecutionOutput :=
  let data := default [] (o_Data o) in
  let data := if 0 <? o_ItemsProcessed o then map_insert "items_processed" (JNum (itoa (o_ItemsProcessed o))) data
              else data in
  let data := if 0 <? o_DurationMs o then map_insert "duration_ms" (JNum (itoa (o_DurationMs o))) data else data in
  mkOutput (o_Success o) (Some data) (o_Error o) (o_ItemsProcessed o) (o_DurationMs o).

Definition copy_back (envPath : string) (chunkIdx : Z) (originalOutputPath : string) : act P unit := fun s =>
  let localOutput := Join [envPath; chunk_file chunkIdx ".out"] in
  if negb (originalOutputPath =?s "") && fileExists F localOutput s.2
  then quietly (copyFile F localOutput originalOutputPath) s else (s, Ok tt).

Definition Run (input : ExecutionInput) (envPath : string) : P * fs -> P * fs * run_result := fun s =>
  if negb (py_installed s.1) then
    (s, (failed_output "runtime not initialized", 0, Some "runtime not initialized"))
  else
    let chunkIdx := default 0 (in_ChunkIndex input) in
    let original := member_string "output_path" (in_Input input) in
    let outputFile := Join [envPath; "output.json"] in
    let scriptFile := Join [envPath; "runner.py"] in
    to_run "failed to write plugin: " (write_plugin T envPath "plugin.py" input) (fun s =>
    to_run "failed to write input: "
      (let% members := local_input envPath chunkIdx (in_Input input) in
       on_fs "" (os_WriteFile (t_faults T) (Join [envPath; "input.json"]) (t_indent T (input_payload members input)))) (fun s =>
    to_run "failed to write runner: " (on_fs "" (os_WriteFile (t_faults T) scriptFile (t_runner_py T))) (fun s =>
      let '(d, r) := t_exec T [getVenvPython s.1; scriptFile] envPath s.2 in
      match c_error r with
      | Some e => ((s.1, d), failed_run T outputFile r e d)
      | None =>
          match read_output T outputFile d with
          | inr (what, e) => ((s.1, d), (failed_output (what +:+ e), 0, Some e))
          | inl o =>
              let '(s, _) := copy_back envPath chunkIdx original (s.1, d) in
              (s, (with_counts o, 0, None))
          end
      end) s) s) s.

Definition Cleanup (envPath : string) (s : fs) : fs :=
  if envPath =?s "" then s
  else foldl (fun s f => remove (Join [envPath; f]) s) s ["runner.py"; "plugin.py"; "input.json"; "output.json"].

Definition IsInstalled (pr : P) (s : fs) : bool := py_installed pr && fileExists F (getVenvPython pr) s.

Definition Version : act P string :=
  let% pr := look fst in
  if negb (py_version pr =?s "") then done (py_version pr)
  else
    let% out := must T "" "" [getPythonCommand; "--version"] in
    set_object (fun pr => mkPython (py_home pr) (py_venvPath pr) (py_executable pr) (TrimSpace out) (py_installed pr)) >>
    done (TrimSpace out).

Definition runtime : Runtime P := mkRuntime Setup InstallDeps Run.
End python.
End Python.

(** ** Node *)

Module Node.
(** [nr_packages] are the names that were ever installed, in any environment. *)
Record NodeRuntime := mkNode {
  nr_home : string; nr_nodePath : string; nr_npmPath : string; nr_version : string; nr_installed : bool;
  nr_packages : gset string }.

Definition NewNodeRuntime (workingDir : string) : NodeRuntime := mkNode workingDir "node" "npm" "" false ∅.

Section node.
Context (T : toolbox).
Abbreviation F := (t_faults T).
Abbreviation P := NodeRuntime.

Definition package_json : json :=
  JObj [("name", JStr "sentra-plugin"); ("type", JStr "module"); ("version", JStr "1.0.0")].

Definition initPackage (envPath : string) : act P unit := fun s =>
  let packageFile := Join [envPath; "package.json"] in
  if fileExists F packageFile s.2 then (s, Ok tt)
  else on_fs "failed to initialize package: " (os_WriteFile (t_faults T) packageFile (t_indent T package_json)) s.

Definition Setup (spec : RuntimeSpec) (envPath : string) : act P unit :=
  on_fs "failed to create runtime directory: " (os_MkdirAll (f_mkdir F) envPath) >>
  set_object (fun nr => mkNode envPath (nr_nodePath nr) (nr_npmPath nr) (nr_version nr) (nr_installed nr) (nr_packages nr)) >>
  let% out := must T "node not available: " "" ["node"; "--version"] in
  set_object (fun nr => mkNode (nr_home nr) "node" (nr_npmPath nr) (TrimSpace out) (nr_installed nr) (nr_packages nr)) >>
  let% _ := must T "npm not available: " "" ["npm"; "--version"] in
  set_object (fun nr => mkNode (nr_home nr) (nr_nodePath nr) "npm" (nr_version nr) (nr_installed nr) (nr_packages nr)) >>
  initPackage envPath >>
  set_object (fun nr => mkNode (nr_home nr) (nr_nodePath nr) (nr_npmPath nr) (nr_version nr) true (nr_packages nr)).

Definition package_spec (d : Dependency) : string :=
  if dep_Version d =?s "" then dep_Name d else dep_Name d +:+ "@" +:+ dep_Version d.

(** Packages that were installed before, anywhere, are left out. *)
Definition InstallDeps (deps : list Dependency) (envPath : string) : act P unit :=
  let% nr := look fst in
  if negb (nr_installed nr) then fail "runtime not set up"
  else
    let pkgSpecs := map package_spec (List.filter (fun d => negb (bool_decide (dep_Name d ∈ nr_packages nr))) deps) in
    match pkgSpecs with
    | [] => write_ready T envPath ""
    | _ =>
        install_attempts T 3 0 "" envPath ([nr_npmPath nr; "install"; "--no-audit"; "--no-fund"] ++ pkgSpecs)
          (set_object (fun nr => mkNode (nr_home nr) (nr_nodePath nr) (nr_npmPath nr) (nr_version nr) (nr_installed nr)
                                   (nr_packages nr ∪ list_to_set (map dep_Name deps))))
    end.

Definition Run (input : ExecutionInput) (envPath : string) : P * fs -> P * fs * run_result := fun s =>
  if negb (nr_installed s.1) then
    (s, (failed_output "runtime not initialized", 0, Some "runtime not initialized"))
  else
    let outputFile := Join [envPath; "output.json"] in
    let scriptFile := Join [envPath; "runner.mjs"] in
    to_run "failed to write plugin: " (write_plugin T envPath "plugin.js" input) (fun s =>
    to_run "failed to write input: "
      (on_fs "" (os_WriteFile (t_faults T) (Join [envPath; "input.json"]) (t_indent T (input_payload (in_Input input) input)))) (fun s =>
    to_run "failed to write runner: " (on_fs "" (os_WriteFile (t_faults T) scriptFile (t_runner_mjs T))) (fun s =>
      let '(d, r) := t_exec T [nr_nodePath s.1; scriptFile] envPath s.2 in
      match c_error r with
      | Some e => ((s.1, d), failed_run T outputFile r e d)
      | None =>
          match read_output T outputFile d with
          | inr (what, e) => ((s.1, d), (failed_output (what +:+ e), 0, Some e))
          | inl o => ((s.1, d), (o, 0, None))
          end
      end) s) s) s.

Definition Cleanup (envPath : string) (s : fs) : fs * error :=
  if envPath =?s "" then (s, None) else os_RemoveAll F envPath s.

(** [lookPath] is [exec.LookPath]. *)
Definition IsInstalled (lookPath : string -> option string) (nr : P) (s : fs) : bool :=
  nr_installed nr && match lookPath (nr_nodePath nr) with Some p => fileExists F p s | None => false end.

Definition Version : act P string :=
  let% nr := look fst in
  if negb (nr_version nr =?s "") then done (nr_version nr)
  else
    let% out := must T "" "" [nr_nodePath nr; "--version"] in
    set_object (fun nr => mkNode (nr_home nr) (nr_nodePath nr) (nr_npmPath nr) (TrimSpace out) (nr_installed nr) (nr_packages nr)) >>
    done (TrimSpace out).

Definition runtime : Runtime P := mkRuntime Setup InstallDeps Run.
End node.
End Node.

(** ** A run in Python *)

Section python_run.
Import Python.
Context (T : toolbox) (HF : t_faults T = no_disk_faults).
Context (l : list string) (Hl : Forall plain_name l).
Abbreviation env := (abs_path l).
Abbreviation file name := (abs_path (l ++ [name])).

(** A file of the environment that is written. *)
Definition put (name data : string) (d : fs) : fs := with_files (<[file name := data]> (files d)) d.

Lemma write_reader_runs path data d : (path ∉ dirs d) ->
  write_reader (t_faults T) path (mkReader data None) d = (with_files (<[path := data]> (files d)) d, None).
Proof.
  rewrite HF. apply write_reader_no_faults.
Qed.

Lemma write_runs {R} ctx name data (s : R * fs) : plain_name name -> env ∈ dirs s.2 -> (file name ∉ dirs s.2) ->
  on_fs ctx (os_WriteFile (t_faults T) (Join [env; name]) data) s = ((s.1, put name data s.2), Ok tt).
Proof.
  intros Hn He Hd. unfold on_fs, os_WriteFile. rewrite Join_abs, Dir_abs by done.
  rewrite decide_True by done. rewrite write_reader_runs by done. done.
Qed.

Lemma exists_runs path d : fileExists (t_faults T) path d =
  match files d !! path with Some _ => true | None => bool_decide (path ∈ dirs d) end.
Proof.
  rewrite HF. unfold fileExists, os_Stat. cbn [no_disk_faults f_stat]. destruct (files d !! path); [done|].
  case_decide; case_bool_decide; done.
Qed.

Lemma copy_runs src dst data d : files d !! src = Some data -> (dst ∉ dirs d) ->
  copyFile (t_faults T) src dst d = (with_files (<[dst := data]> (files d)) d, None).
Proof.
  intros Hs Hd. unfold copyFile, os_Open. rewrite HF. cbn [no_disk_faults f_open]. rewrite Hs.
  rewrite <- HF. by apply write_reader_runs.
Qed.

(** An execution that is ready to run: its code and input, and a directory in
    which the files of the run can be written. *)
Record ready_to_run (pr : PythonRuntime) (input : ExecutionInput) (ip op data : string) (d : fs) : Prop := {
  rr_installed : py_installed pr = true;
  rr_code : in_PluginCode input <> "";
  rr_input : map_lookup "input_path" (in_Input input) = Some (JStr ip);
  rr_output : map_lookup "output_path" (in_Input input) = Some (JStr op);
  rr_named : ip <> "" /\ op <> "";
  rr_ext : no_slash (Ext ip);
  rr_data : files d !! ip = Some data;
  rr_apart : ip <> file "plugin.py" /\ Ext ip <> ".out";
  rr_env : env ∈ dirs d;
  rr_free : Forall (fun name => (file name ∉ dirs d)) ["plugin.py"; "input.json"; "runner.py";
    "chunk_" +:+ itoa (default 0 (in_ChunkIndex input)) +:+ Ext ip;
    chunk_file (default 0 (in_ChunkIndex input)) ".out"];
  rr_op : op ∉ dirs d }.

Section ready.
Context (pr : PythonRuntime) (input : ExecutionInput) (ip op data : string) (d : fs).
Context (Hready : ready_to_run pr input ip op data d).
Abbreviation idx := (default 0 (in_ChunkIndex input)).
Abbreviation local_in := ("chunk_" +:+ itoa idx +:+ Ext ip).
Abbreviation local_out := (chunk_file idx ".out").

(** What the plugin is told: paths in the environment. *)
Definition told : list (string * json) :=
  map_insert "output_path" (JStr (file local_out)) (map_insert "input_path" (JStr (file local_in)) (in_Input input)).

Definition prepared_disk : fs :=
  put "runner.py" (t_runner_py T) (put "input.json" (t_indent T (input_payload told input))
    (put local_in data (put "plugin.py" (in_PluginCode input) d))).

Lemma local_in_plain : plain_name local_in.
Proof.
  split; [done|]. split; [done|]. split; [done|]. apply (no_slash_app "chunk_"); [done|].
  apply no_slash_app; [apply itoa_no_slash|apply Hready].
Qed.
Lemma local_out_plain : plain_name local_out.
Proof. by apply chunk_name_plain. Qed.

(** Up to the process. *)
Lemma run_prepares : Run T input env (pr, d) =
  let '(d2, r) := t_exec T [getVenvPython T pr; file "runner.py"] env prepared_disk in
  match c_error r with
  | Some e => ((pr, d2), failed_run T (file "output.json") r e d2)
  | None =>
      match read_output T (file "output.json") d2 with
      | inr (what, e) => ((pr, d2), (failed_output (what +:+ e), 0, Some e))
      | inl o => let '(s, _) := copy_back T env idx op (pr, d2) in (s, (with_counts o, 0, None))
      end
  end.
Proof.
  destruct Hready as [Hi Hc Hin Hor [Hip Hop] Hext Hdata [Hap _] Henv Hfree Hopd].
  unfold Run. cbn [fst]. rewrite Hi. cbn [negb]. cbv zeta. unfold member_string. rewrite Hor.
  rewrite Forall_lookup in Hfree.
  unfold to_run at 1. unfold write_plugin. rewrite (eqb_neq_s _ _ Hc).
  rewrite write_runs; [|done|done|by apply (Hfree 0%nat)]. cbn [fst snd].
  unfold to_run at 1. unfold andthen, local_input. rewrite Hin, (eqb_neq_s _ _ Hip). cbn [fst snd].
  rewrite exists_runs. cbn [put with_files files dirs]. rewrite lookup_insert_ne by done. rewrite Hdata.
  rewrite (Join_abs l local_in) by (done || apply local_in_plain).
  rewrite (copy_runs _ _ data); [|cbn; by rewrite lookup_insert_ne|by apply (Hfree 3%nat)].
  rewrite map_lookup_insert_ne, Hor, (eqb_neq_s _ _ Hop) by done. cbn [fst snd].
  rewrite (Join_abs l local_out) by (done || apply local_out_plain).
  rewrite write_runs; [|done|done|by apply (Hfree 1%nat)]. cbn [fst snd].
  unfold to_run. rewrite write_runs; [|done|done|by apply (Hfree 2%nat)]. cbn [fst snd].
  rewrite !(Join_abs l) by done. done.
Qed.

(** What the process finds. *)
Lemma prepared_files :
  files prepared_disk !! file "plugin.py" = Some (in_PluginCode input) /\
  files prepared_disk !! file "input.json" = Some (t_indent T (input_payload told input)) /\
  files prepared_disk !! file local_in = Some data /\
  (forall path, ~ (path ∈ map (fun n => file n) ["plugin.py"; "input.json"; "runner.py"; local_in]) ->
     files prepared_disk !! path = files d !! path) /\
  dirs prepared_disk = dirs d.
Proof.
  assert (Hne : forall a b, plain_name a -> plain_name b -> a <> b -> file a <> file b).
  { intros a b Ha Hb Hab E. apply abs_path_inj in E; [|by apply Forall_snoc..].
    apply app_inv_head in E. by injection E. }
  pose proof local_in_plain as Hlp.
  unfold prepared_disk, put. cbn [with_files files dirs]. split; [|split; [|split; [|split; [|done]]]].
  - rewrite 3!lookup_insert_ne; [by rewrite lookup_insert_eq|..]; by apply Hne.
  - rewrite lookup_insert_ne; [by rewrite lookup_insert_eq|]. by apply Hne.
  - rewrite 2!lookup_insert_ne; [by rewrite lookup_insert_eq|..]; by apply Hne.
  - intros path Hpath. simpl in Hpath. rewrite !lookup_insert_ne; [done|..]; intros <-; set_solver.
Qed.
End ready.

(** C8.  A Python plugin reads a copy of the input in the environment, under the
    path it is told, and what it writes to the output path it is told ends up
    under the output path of the job; the result of the run is what its runner
    wrote. *)
Theorem Run_correct (pr : PythonRuntime) (input : ExecutionInput) (ip op data out text : string) (o : ExecutionOutput)
    (d d2 : fs) (r : command_result) :
  ready_to_run pr input ip op data d ->
  let idx := default 0 (in_ChunkIndex input) in
  t_exec T [getVenvPython T pr; file "runner.py"] env (prepared_disk input ip data d) = (d2, r) -> c_error r = None ->
  files d2 !! file (chunk_file idx ".out") = Some out -> files d2 !! file "output.json" = Some text ->
  op ∉ dirs d2 ->
  Unmarshal_struct (mkOutput false None "" 0 0) (decodeOutput (t_renum T)) (t_parse T text) = (o, None) ->
  files (prepared_disk input ip data d) !! file ("chunk_" +:+ itoa idx +:+ Ext ip) = Some data /\
  exists s, Run T input env (pr, d) = (s, (with_counts o, 0, None)) /\ s.1 = pr /\ files s.2 !! op = Some out.
Proof.
  intros Hready idx Hexec Hr Hout Htext Hop Hdec.
  split; [by apply (prepared_files pr input ip op data d Hready)|].
  rewrite (run_prepares pr input ip op data d Hready), Hexec, Hr. cbv beta iota.
  unfold read_output, os_ReadFile, os_Open. rewrite HF. cbn [no_disk_faults f_open]. rewrite Htext. cbn [r_err r_data].
  rewrite Hdec. unfold copy_back. rewrite (eqb_neq_s _ _ (proj2 (rr_named _ _ _ _ _ _ Hready))). cbn [negb andb fst snd].
  rewrite (Join_abs l) by (done || apply chunk_name_plain; done). rewrite exists_runs. fold idx. rewrite Hout.
  unfold quietly. cbn [fst snd]. rewrite (copy_runs _ _ out) by done. cbn [fst].
  eexists. split; [reflexivity|]. split; [done|]. cbn. by rewrite lookup_insert_eq.
Qed.

(** Output files are never removed: when the process of a run ends, however
    it ends, without a new output file, the result of an earlier run in the
    environment is returned as the result of this one, without an error. *)
Theorem stale_output_is_returned (pr : PythonRuntime) (input : ExecutionInput) (ip op data text : string)
    (o : ExecutionOutput) (d d2 : fs) (r : command_result) :
  ready_to_run pr input ip op data d -> files d !! file "output.json" = Some text ->
  Unmarshal_struct (mkOutput false None "" 0 0) (decodeOutput (t_renum T)) (t_parse T text) = (o, None) ->
  t_exec T [getVenvPython T pr; file "runner.py"] env (prepared_disk input ip data d) = (d2, r) ->
  files d2 !! file "output.json" = files (prepared_disk input ip data d) !! file "output.json" ->
  exists s out exit, Run T input env (pr, d) = (s, (out, exit, None)) /\
    o_Success out = o_Success o /\ (c_error r <> None -> out = o).
Proof.
  intros Hready Htext Hdec Hexec Hsame.
  destruct (prepared_files pr input ip op data d Hready) as (_ & _ & _ & Hother & _).
  assert (Hold : files d2 !! file "output.json" = Some text).
  { rewrite Hsame, Hother, Htext; [done|]. simpl. pose proof (local_in_plain pr input ip op data d Hready) as Hlp.
    assert (Hne : forall b, plain_name b -> "output.json" <> b -> file "output.json" <> file b).
    { intros b Hb Hab E. apply abs_path_inj in E; [|by apply Forall_snoc..]. apply app_inv_head in E. by injection E. }
    rewrite !elem_of_cons, elem_of_nil. intros [E|[E|[E|[E|[]]]]]; revert E; by apply Hne. }
  assert (Hread : read_output T (file "output.json") d2 = inl o).
  { unfold read_output, os_ReadFile, os_Open. rewrite HF. cbn [no_disk_faults f_open]. rewrite Hold. cbn [r_err r_data].
    by rewrite Hdec. }
  rewrite (run_prepares pr input ip op data d Hready), Hexec.
  destruct (c_error r) as [e|].
  - unfold failed_run. rewrite exists_runs, Hold, Hread. by eexists _, _, _.
  - rewrite Hread. destruct (copy_back _ _ _ _ _) as [s x]. eexists _, _, _. by split.
Qed.
End python_run.

(** ** Concrete runs *)

(** A plugin that copies the input in capital letters, or that is killed. *)
Definition demo_process (killed : bool) (args : list string) (dir : string) (d : fs) : fs * command_result :=
  if killed then (d, mkCommand "" (-1) (Some "signal: killed"))
  else
    let text := default "" (files d !! "/e/chunk_3.csv") in
    (with_files (<["/e/chunk_3.out" := "seen: " +:+ text]> (<["/e/output.json" := "fine"]> (files d))) d,
     mkCommand "" 0 None).

Definition demo_parse (t : string) : RawMessage :=
  if t =?s "fine" then Raw (JObj [("success", JBool true); ("items_processed", JNum "2")]) else RawInvalid.

Definition demo_toolbox (killed : bool) : toolbox :=
  mkToolbox no_disk_faults false false (demo_process killed) (fun _ => None) demo_parse (fun _ => "{}") (fun t => t)
    "3.11" "py" "mjs".

Definition demo_python : Python.PythonRuntime := Python.mkPython "/e" "/e/venv" "/e/venv/bin/python" "3.11" true.
Definition demo_input : ExecutionInput :=
  mkInput [("input_path", JStr "/in/a.csv"); ("output_path", JStr "/out/a")] (Some 3) [] [] "print()".
Definition demo_files (old : gmap string string) : fs :=
  mkFS (<["/in/a.csv" := "abc"]> old) {["/e"; "/e/venv"]} ∅ ∅.

Lemma demo_ready old : ready_to_run ["e"] demo_python demo_input "/in/a.csv" "/out/a" "abc"
  (demo_files old).
Proof.
  split; try done.
  - apply lookup_insert_eq.
  - apply (bool_decide_unpack _). by vm_compute.
Qed.

Lemma Run_correct_witness : exists s,
  Python.Run (demo_toolbox false) demo_input "/e" (demo_python, demo_files ∅) =
    (s, (mkOutput true (Some [("items_processed", JNum "2")]) "" 2 0, 0, None)) /\ files s.2 !! "/out/a" = Some "seen: abc".
Proof.
  destruct (Run_correct (demo_toolbox false) eq_refl ["e"] ltac:(by apply Forall_singleton) demo_python demo_input
    "/in/a.csv" "/out/a" "abc" "seen: abc" "fine" (mkOutput true None "" 2 0) (demo_files ∅)
    (demo_process false [] "" (prepared_disk (demo_toolbox false) ["e"] demo_input "/in/a.csv" "abc" (demo_files ∅))).1
    (mkCommand "" 0 None)) as (_ & s & E & _ & Hf).
  - apply demo_ready.
  - reflexivity.
  - reflexivity.
  - by vm_compute.
  - by vm_compute.
  - intros H. by vm_compute in H.
  - by vm_compute.
  - exists s. split; [exact E|exact Hf].
Defined.

Lemma stale_output_is_returned_witness : exists s out exit,
  Python.Run (demo_toolbox true) demo_input "/e" (demo_python, demo_files {["/e/output.json" := "fine"]}) =
    (s, (out, exit, None)) /\ o_Success out = true.
Proof.
  set (d := demo_files {["/e/output.json" := "fine"]}).
  destruct (stale_output_is_returned (demo_toolbox true) eq_refl ["e"] ltac:(by apply Forall_singleton) demo_python
    demo_input "/in/a.csv" "/out/a" "abc" "fine" (mkOutput true None "" 2 0) d
    (prepared_disk (demo_toolbox true) ["e"] demo_input "/in/a.csv" "abc" d)
    (mkCommand "" (-1) (Some "signal: killed"))) as (s & out & exit & E & Hs & _).
  - apply demo_ready.
  - by vm_compute.
  - by vm_compute.
  - reflexivity.
  - reflexivity.
  - exists s, out, exit. split; [exact E|exact Hs].
Defined.
