(* ===== verification/EnvPool.v ===== *)
(** * EnvPool: the pool of runtime environments

    Models [EnvironmentPool] of [cmd/agent/runtime/v2/manager.go].  Environments
    are shared objects, so the pool maps keys to names of objects in a heap.  An
    operation is cut where it gives up [ep.mu]: one definition per critical
    section ([acquire_step]), and [AcquireEnvironment] is the sections in a row.
    The goroutines that the pool starts are kept in lists until they run. *)
From S2P Require Import Prelude Json Path ExecutorV2 Merge MergeTree Recovery Storage Handler Runtimes.

(** ** Data *)

Inductive EnvState :=
  EnvStatePending | EnvStateReady | EnvStateActive | EnvStateWarm | EnvStateInvalid | EnvStateCleaning.
#[export] Instance EnvState_eq_dec : EqDecision EnvState.
Proof. solve_decision. Defined.

(** [env_ready] is whether the channel [readych] is closed. *)
Record CachedEnvironment := mkEnv {
  env_ID : string; env_OrgID : string; env_RuntimeType : string; env_RuntimeVersion : string;
  env_DependencyHash : string; env_Path : string; env_State : EnvState; env_UseCount : Z;
  env_LastUsed : Z; env_CreatedAt : Z; env_ready : bool }.

Definition with_state (st : EnvState) (e : CachedEnvironment) : CachedEnvironment :=
  mkEnv (env_ID e) (env_OrgID e) (env_RuntimeType e) (env_RuntimeVersion e) (env_DependencyHash e)
    (env_Path e) st (env_UseCount e) (env_LastUsed e) (env_CreatedAt e) (env_ready e).
Definition used_at (now : Z) (e : CachedEnvironment) : CachedEnvironment :=
  mkEnv (env_ID e) (env_OrgID e) (env_RuntimeType e) (env_RuntimeVersion e) (env_DependencyHash e)
    (env_Path e) (env_State e) (env_UseCount e) now (env_CreatedAt e) (env_ready e).
Definition count_use (e : CachedEnvironment) : CachedEnvironment :=
  mkEnv (env_ID e) (env_OrgID e) (env_RuntimeType e) (env_RuntimeVersion e) (env_DependencyHash e)
    (env_Path e) (env_State e) (int64 (env_UseCount e + 1)) (env_LastUsed e) (env_CreatedAt e) (env_ready e).
Definition close_ready (e : CachedEnvironment) : CachedEnvironment :=
  mkEnv (env_ID e) (env_OrgID e) (env_RuntimeType e) (env_RuntimeVersion e) (env_DependencyHash e)
    (env_Path e) (env_State e) (env_UseCount e) (env_LastUsed e) (env_CreatedAt e) true.

(** The remote cache: where an environment is kept, and a download into a
    directory. *)
Record RemoteCache := mkRemoteCache {
  GetStoragePath : string -> string -> string -> string -> string;
  Download : string -> string -> fs -> fs * error }.

(** [sha256] is the hash as hexadecimal text, [print] is [json.Marshal]. *)
Record PoolConfig := mkPoolConfig {
  MaxPoolSize : Z; MaxEnvironments : Z; WarmTimeout : Z; SandboxBase : string;
  cache : option RemoteCache; HealthCheck : option (string -> fs -> bool); MaxDiskBytes : Z;
  pool_faults : disk_faults; pool_OS : string; sha256 : string -> string; print : json -> string }.

(** A goroutine of [runEviction]: key, path, size and environment. *)
Record candidate := mkCandidate { cand_key : string; cand_path : string; cand_size : Z; cand_env : nat }.

Record EnvironmentPool := mkPool {
  environments : gmap string nat; heap : gmap nat CachedEnvironment; next : nat;
  locked : gset string;              (** the mutexes of [envLocks] that are held *)
  currentDiskBytes : Z;
  evicting : list candidate;         (** goroutines of [runEviction] *)
  removing : list string;            (** goroutines of [InvalidateEnvironment] *)
  pool_disk : fs }.

Definition with_environments (m : gmap string nat) (p : EnvironmentPool) : EnvironmentPool :=
  mkPool m (heap p) (next p) (locked p) (currentDiskBytes p) (evicting p) (removing p) (pool_disk p).
Definition with_heap (h : gmap nat CachedEnvironment) (p : EnvironmentPool) : EnvironmentPool :=
  mkPool (environments p) h (next p) (locked p) (currentDiskBytes p) (evicting p) (removing p) (pool_disk p).
Definition with_locked (l : gset string) (p : EnvironmentPool) : EnvironmentPool :=
  mkPool (environments p) (heap p) (next p) l (currentDiskBytes p) (evicting p) (removing p) (pool_disk p).
Definition with_bytes (n : Z) (p : EnvironmentPool) : EnvironmentPool :=
  mkPool (environments p) (heap p) (next p) (locked p) n (evicting p) (removing p) (pool_disk p).
Definition with_evicting (l : list candidate) (p : EnvironmentPool) : EnvironmentPool :=
  mkPool (environments p) (heap p) (next p) (locked p) (currentDiskBytes p) l (removing p) (pool_disk p).
Definition with_removing (l : list string) (p : EnvironmentPool) : EnvironmentPool :=
  mkPool (environments p) (heap p) (next p) (locked p) (currentDiskBytes p) (evicting p) l (pool_disk p).
Definition with_pool_disk (s : fs) (p : EnvironmentPool) : EnvironmentPool :=
  mkPool (environments p) (heap p) (next p) (locked p) (currentDiskBytes p) (evicting p) (removing p) s.

Definition update (i : nat) (f : CachedEnvironment -> CachedEnvironment) (p : EnvironmentPool) : EnvironmentPool :=
  with_heap (alter f i (heap p)) p.
Definition alloc (e : CachedEnvironment) (p : EnvironmentPool) : EnvironmentPool :=
  mkPool (environments p) (<[next p := e]> (heap p)) (S (next p)) (locked p) (currentDiskBytes p) (evicting p)
    (removing p) (pool_disk p).

(** ** Configuration *)

(** [envInt], [envInt64] and [envDuration] read a variable and parse it. *)
Definition NewPoolConfig (envInt envInt64 envDuration : string -> option Z) (cfg : PoolConfig) : PoolConfig :=
  let or (n : Z) (d : Z) := if n <=? 0 then d else n in
  mkPoolConfig (or (MaxPoolSize cfg) (default 10 (envInt "ENVIRONMENT_POOL_MAX_SIZE")))
    (or (MaxEnvironments cfg) (default 50 (envInt "ENVIRONMENT_MAX_COUNT")))
    (or (WarmTimeout cfg) (default (30 * Minute) (envDuration "ENVIRONMENT_WARM_TIMEOUT")))
    (if SandboxBase cfg =?s "" then "/tmp/sentra-runtime" else SandboxBase cfg)
    (cache cfg) (HealthCheck cfg)
    (or (MaxDiskBytes cfg) (default (10 * 1024 * 1024 * 1024) (envInt64 "ENVIRONMENT_MAX_DISK_BYTES")))
    (pool_faults cfg) (pool_OS cfg) (sha256 cfg) (print cfg).

Definition NewEnvironmentPool (s : fs) : EnvironmentPool := mkPool ∅ ∅ 0 ∅ 0 [] [] s.

(** [filepath.Walk]: the bytes of the files below a path. *)
Definition calculateDirSize (path : string) (s : fs) : Z :=
  foldr Z.add 0 (map (fun kv => Z.of_nat (String.length kv.2))
    (List.filter (fun kv : string * string => below path kv.1) (map_to_list (Merge.files s)))).

Section pool.
Context (C : PoolConfig).
Abbreviation F := (pool_faults C).

(** ** Keys *)

Definition dependency_json (d : Dependency) : json :=
  JObj ([("name", JStr (dep_Name d))]
        ++ (if dep_Version d =?s "" then [] else [("version", JStr (dep_Version d))])
        ++ (if dep_Source d =?s "" then [] else [("source", JStr (dep_Source d))])).

(** A nil slice is printed as [null]. *)
Definition dependencies_text (deps : option (list Dependency)) : string :=
  print C (match deps with Some l => JArr (map dependency_json l) | None => JNull end).

Definition CalculateDependencyHash (rt : string) (deps : option (list Dependency)) : string :=
  sha256 C (rt +:+ "|" +:+ dependencies_text deps).

Definition CalculateDependencyLockHash (rt version : string) (deps : option (list Dependency)) : string :=
  sha256 C (rt +:+ "|" +:+ version +:+ "|" +:+ pool_OS C +:+ "|" +:+ dependencies_text deps).

Definition GetEnvironmentKey (orgID rt version depHash : string) : string :=
  orgID +:+ ":" +:+ rt +:+ ":" +:+ version +:+ ":" +:+ pool_OS C +:+ ":" +:+ str_take 32 depHash.

(** ** Validity *)

Definition stat_ok (path : string) (s : fs) : bool := fileExists F path s.

Definition IsValidEnvironment (envPath : string) (s : fs) : bool := stat_ok (Join [envPath; ".ready"]) s.

Definition IsValidPythonEnvironment (envPath : string) (s : fs) : bool :=
  let venvPath := Join [envPath; "venv"] in
  IsValidEnvironment envPath s && stat_ok venvPath s
  && stat_ok (if pool_OS C =?s "windows" then Join [venvPath; "Scripts"; "python.exe"]
              else Join [venvPath; "bin"; "python"]) s.

Definition IsValidNodeEnvironment (envPath : string) (s : fs) : bool :=
  IsValidEnvironment envPath s && stat_ok (Join [envPath; "package.json"]) s
  && stat_ok (Join [envPath; "node_modules"]) s.

Definition isValidForRuntime (envPath rt : string) (s : fs) : bool :=
  if rt =?s "python" then IsValidPythonEnvironment envPath s
  else if rt =?s "node" then IsValidNodeEnvironment envPath s
  else if rt =?s "native" then IsValidEnvironment envPath s
  else IsValidEnvironment envPath s
       && match os_Stat F (Join [envPath; rt]) s with StatMissing => false | _ => true end.

(** ** Eviction *)

Definition effective_ttl : Z := if WarmTimeout C <=? 0 then 30 * Minute else WarmTimeout C.

Definition expired (now : Z) (e : CachedEnvironment) : bool :=
  match env_State e with
  | EnvStateWarm | EnvStateReady => effective_ttl <? now - env_LastUsed e
  | _ => false
  end.

(** The environments that are warm or ready for too long. *)
Definition expired_entries (now : Z) (p : EnvironmentPool) : list (string * nat) :=
  List.filter (fun ki : string * nat => match heap p !! ki.2 with Some e => expired now e | None => false end)
    (map_to_list (environments p)).

Definition candidate_of (p : EnvironmentPool) (ki : string * nat) : candidate :=
  let path := match heap p !! ki.2 with Some e => env_Path e | None => "" end in
  mkCandidate ki.1 path (calculateDirSize path (pool_disk p)) ki.2.

Definition runEviction (now : Z) (p : EnvironmentPool) : EnvironmentPool :=
  let l := expired_entries now p in
  let p' := foldr (fun ki => update ki.2 (with_state EnvStateCleaning)) p l in
  with_evicting (evicting p' ++ map (candidate_of p) l) p'.

(** The goroutine of a candidate. *)
Definition evict (c : candidate) (p : EnvironmentPool) : EnvironmentPool :=
  match heap p !! cand_env c with
  | Some e =>
      if decide (env_State e = EnvStateCleaning) then
        let p := with_pool_disk (os_RemoveAll F (cand_path c) (pool_disk p)).1 p in
        let p := with_environments (delete (cand_key c) (environments p)) p in
        with_bytes (Z.max 0 (int64 (currentDiskBytes p - cand_size c))) p
      else p
  | None => p
  end.

Definition evict_nth (n : nat) (p : EnvironmentPool) : EnvironmentPool :=
  match evicting p !! n with
  | Some c => evict c (with_evicting (take n (evicting p) ++ drop (S n) (evicting p)) p)
  | None => p
  end.

Definition remove_nth (n : nat) (p : EnvironmentPool) : EnvironmentPool :=
  match removing p !! n with
  | Some path =>
      with_removing (take n (removing p) ++ drop (S n) (removing p))
        (with_pool_disk (os_RemoveAll F path (pool_disk p)).1 p)
  | None => p
  end.

(** ** [AcquireEnvironment] *)

Record request := mkRequest {
  q_orgID : string; q_rt : string; q_version : string; q_depLockHash : string;
  q_deps : option (list Dependency) }.

Definition lock_hash (q : request) : string :=
  if q_depLockHash q =?s "" then CalculateDependencyLockHash (q_rt q) (q_version q) (q_deps q) else q_depLockHash q.
Definition request_key (q : request) : string :=
  GetEnvironmentKey (q_orgID q) (q_rt q) (q_version q) (lock_hash q).
Definition hash_prefix (q : request) : string := str_take 16 (lock_hash q).
Definition env_path (q : request) : string :=
  Join [SandboxBase C; "env"; q_orgID q; q_rt q; hash_prefix q].

(** Where a call is. *)
Inductive acquire :=
  | ALock                        (** at [lock.Lock()], for a look-up *)
  | ALook                        (** at [retry] *)
  | AWait (i : nat)              (** in the [select], without the lock *)
  | ATimedOut                    (** at [lock.Lock()], before [createNew] *)
  | ARemove (path : string)      (** at [os.RemoveAll(envPath)] *)
  | ACreate                      (** at [createNew] *)
  | ACount (i : nat)             (** at the test of the number *)
  | AEvictCount (i : nat)
  | ARecount (i : nat)
  | ABytes (i : nat)             (** at [runEviction] of the test of the size *)
  | ARebytes (i : nat)
  | AReturn (r : result nat).

(** What a call that waits sees first. *)
Inductive wake := WReady | WTimeout | WDone (e : string).

Definition unlock (q : request) (p : EnvironmentPool) : EnvironmentPool :=
  with_locked (locked p ∖ {[request_key q]}) p.
Definition return_env (q : request) (r : result nat) (p : EnvironmentPool) : EnvironmentPool * acquire :=
  (unlock q p, AReturn r).

Definition drop_env (key : string) (i : nat) (e : CachedEnvironment) (p : EnvironmentPool) : EnvironmentPool * acquire :=
  (with_environments (delete key (environments p)) p, ARemove (env_Path e)).

(** The look-up at [retry]. *)
Definition look_up (now : Z) (q : request) (p : EnvironmentPool) : EnvironmentPool * acquire :=
  let key := request_key q in
  match environments p !! key with
  | None => (p, ACreate)
  | Some i =>
      match heap p !! i with
      | None => (p, ACreate)
      | Some e =>
          match env_State e with
          | EnvStateCleaning => (p, ACreate)
          | EnvStatePending => (unlock q p, AWait i)
          | EnvStateReady | EnvStateWarm =>
              if negb (isValidForRuntime (env_Path e) (q_rt q) (pool_disk p)) then drop_env key i e p
              else if match HealthCheck C with Some h => negb (h (env_Path e) (pool_disk p)) | None => false end
              then drop_env key i e p
              else return_env q (Ok i)
                     (update i (fun e => used_at now (count_use (with_state EnvStateActive e))) p)
          | EnvStateActive | EnvStateInvalid => (p, ACreate)
          end
      end
  end.

Definition new_env (now : Z) (q : request) : CachedEnvironment :=
  mkEnv (hash_prefix q) (q_orgID q) (q_rt q) (q_version q) (lock_hash q) (env_path q) EnvStatePending 0 now now false.

(** At [createNew], up to the test of the number of environments. *)
Definition create_env (now : Z) (q : request) (p : EnvironmentPool) : EnvironmentPool * acquire :=
  let envPath := env_path q in
  match os_MkdirAll (f_mkdir F) envPath (pool_disk p) with
  | (s, Some e) => return_env q (Err ("failed to create environment path: " +:+ e)) (with_pool_disk s p)
  | (s, None) =>
      let s := match cache C with
               | Some c =>
                   if GetStoragePath c (q_orgID q) (q_rt q) (q_version q) (lock_hash q) =?s "" then s
                   else (Download c (request_key q) envPath s).1
               | None => s
               end in
      let p := with_pool_disk s p in
      (alloc (new_env now q) p, ACount (next p))
  end.

Definition full (p : EnvironmentPool) : bool := MaxEnvironments C <=? Z.of_nat (size (environments p)).
Definition over_disk (p : EnvironmentPool) : bool := MaxDiskBytes C <=? currentDiskBytes p.

Definition insert_env (q : request) (i : nat) (p : EnvironmentPool) : EnvironmentPool * acquire :=
  return_env q (Ok i) (with_environments (<[request_key q := i]> (environments p)) p).

(** The test of the size, and the insertion. *)
Definition try_insert (q : request) (i : nat) (p : EnvironmentPool) : EnvironmentPool * acquire :=
  if (0 <? MaxDiskBytes C) && over_disk p then (p, ABytes i) else insert_env q i p.

(** One critical section; [None] is a call that has to wait for the lock, or
    that has returned. *)
Definition acquire_step (now : Z) (w : wake) (q : request) (a : acquire) (p : EnvironmentPool)
    : option (EnvironmentPool * acquire) :=
  let key := request_key q in
  let lock_then (a : acquire) :=
    if decide (key ∈ locked p) then None else Some (with_locked ({[key]} ∪ locked p) p, a) in
  match a with
  | ALock => lock_then ALook
  | ALook => Some (look_up now q p)
  | AWait i =>
      match w with
      | WReady => match heap p !! i with
                  | Some e => if env_ready e then Some (p, ALock) else None
                  | None => None
                  end
      | WTimeout => Some (p, ATimedOut)
      | WDone e => Some (p, AReturn (Err e))
      end
  | ATimedOut => lock_then ACreate
  | ARemove path => Some (with_pool_disk (os_RemoveAll F path (pool_disk p)).1 p, ACreate)
  | ACreate => Some (create_env now q p)
  | ACount i => Some (if full p then (p, AEvictCount i) else try_insert q i p)
  | AEvictCount i => Some (runEviction now p, ARecount i)
  | ARecount i =>
      Some (if full p then return_env q (Err "environment pool exhausted") p else try_insert q i p)
  | ABytes i => Some (runEviction now p, ARebytes i)
  | ARebytes i =>
      Some (if over_disk p then return_env q (Err "environment pool disk limit exceeded") p else insert_env q i p)
  | AReturn _ => None
  end.

(** The sections in a row; [None] is a call that is blocked. *)
Fixpoint acquire_run (fuel : nat) (now : Z) (w : wake) (q : request) (a : acquire) (p : EnvironmentPool)
    : option (EnvironmentPool * result nat) :=
  match a with
  | AReturn r => Some (p, r)
  | _ => match fuel with
         | O => None
         | S fuel => match acquire_step now w q a p with
                     | Some (p, a) => acquire_run fuel now w q a p
                     | None => None
                     end
         end
  end.

(** A call by itself takes at most nine sections, unless it waits. *)
Definition acquire_fuel : nat := 10.
Definition AcquireEnvironment (now : Z) (w : wake) (q : request) (p : EnvironmentPool) :=
  acquire_run acquire_fuel now w q ALock p.

(** ** The other operations *)

Definition ReleaseEnvironment (now : Z) (i : nat) (keepWarm : bool) (p : EnvironmentPool) : EnvironmentPool :=
  match heap p !! i with
  | None => p
  | Some e =>
      if decide (env_State e = EnvStateCleaning) then p
      else
        let st := if keepWarm && (now - env_LastUsed e <? WarmTimeout C) then EnvStateWarm else EnvStateReady in
        with_bytes (int64 (currentDiskBytes p + calculateDirSize (env_Path e) (pool_disk p)))
          (update i (fun e => used_at now (with_state st e)) p)
  end.

(** The two critical sections of [InvalidateEnvironment]; the environments with
    the same ID leave the pool, whatever their keys. *)
Definition invalidate_state (i : nat) (p : EnvironmentPool) : EnvironmentPool :=
  update i (with_state EnvStateInvalid) p.

Definition same_id (p : EnvironmentPool) (i j : nat) : bool :=
  match heap p !! i, heap p !! j with Some e, Some e' => env_ID e =?s env_ID e' | _, _ => false end.

Definition invalidate_remove (i : nat) (p : EnvironmentPool) : EnvironmentPool :=
  let path := match heap p !! i with Some e => env_Path e | None => "" end in
  let p := with_environments (filter (fun kj : string * nat => same_id p i kj.2 = false) (environments p)) p in
  if path =?s "" then p else with_removing (removing p ++ [path]) p.

Definition InvalidateEnvironment (i : nat) (p : EnvironmentPool) : EnvironmentPool :=
  invalidate_remove i (invalidate_state i p).

Definition signal_ready (i : nat) (p : EnvironmentPool) : EnvironmentPool := update i close_ready p.

(** [GetMetrics]: all environments, and those that are warm, ready, active. *)
Definition count_state (st : EnvState) (p : EnvironmentPool) : nat :=
  length (List.filter (fun ki : string * nat =>
    match heap p !! ki.2 with Some e => bool_decide (env_State e = st) | None => false end)
    (map_to_list (environments p))).
Definition GetMetrics (p : EnvironmentPool) : nat * nat * nat * nat :=
  (size (environments p), count_state EnvStateWarm p, count_state EnvStateReady p, count_state EnvStateActive p).

(** [Shutdown] without [StopEviction]: environments that are pending or invalid
    are deleted, all are forgotten; the errors of the deletions. *)
Definition shutdown_entry (ki : string * nat) (acc : EnvironmentPool * list string) : EnvironmentPool * list string :=
  let '(p, errs) := acc in
  match heap p !! ki.2 with
  | Some e =>
      match env_State e with
      | EnvStatePending | EnvStateInvalid =>
          let '(s, x) := os_RemoveAll F (env_Path e) (pool_disk p) in
          (with_pool_disk s p,
           match x with Some x => (errs ++ ["failed to remove " +:+ ki.1 +:+ ": " +:+ x])%list | None => errs end)
      | _ => acc
      end
  | None => acc
  end.
Definition Shutdown (p : EnvironmentPool) : EnvironmentPool * list string :=
  let '(p, errs) := foldl (fun acc ki => shutdown_entry ki acc) (p, []) (map_to_list (environments p)) in
  (with_environments ∅ p, errs).
End pool.
