(* ===== verification/RuntimeManager.v ===== *)
(** * RuntimeManager: executions in pooled environments

    Models [RuntimeManager] of [cmd/agent/runtime/v2/manager.go].  An execution
    ([ExecuteWithMetrics]) is cut into steps at the critical sections of the pool
    and at the calls of the runtime; [exec_run] is its steps in a row, and
    [system_step] interleaves the steps of many executions, of the eviction loop
    and of the goroutines of the pool.  The runtimes are parameters: objects of
    one type [Obj] that all executions share. *)
From S2P Require Import Prelude Json Path ExecutorV2 Merge MergeTree Recovery Storage Handler Runtimes EnvPool.
From stdpp Require Import relations.
Local Open Scope Z_scope.

(** ** Classification of errors *)

Fixpoint containsAny (s substr : string) : bool :=
  HasPrefix s substr || match s with String _ s => containsAny s substr | EmptyString => false end.

Definition contains (s substr : string) : bool :=
  (String.length substr <=? String.length s)%nat
  && (HasPrefix s substr || (String.length substr <? String.length s)%nat && containsAny s substr).

Definition classifyError (err : error) : string :=
  match err with
  | None => ""
  | Some e =>
      let hit := existsb (contains e) in
      if hit ["connection refused"; "timeout"; "network"] then "infra_error"
      else if hit ["no module"; "cannot find module"; "dependency"; "install"] then "dependency_error"
      else if hit ["syntax"; "indentation"; "nameerror"; "typeerror"] then "user_code_error"
      else if hit ["memory"; "oom"] then "memory_error"
      else "unknown_error"
  end.

(** ** One execution *)

(** [ExecutionResult], without the times and the throughput. *)
Record outcome := mkOutcome {
  x_Output : ExecutionOutput; x_ExitCode : Z; x_CacheHit : bool; x_EnvKey : string;
  x_FailureType : string; x_CleanedUp : bool }.

Definition failed_outcome (e : string) : outcome := mkOutcome (failed_output e) 0 false "" "" false.

Record execution := mkExecution { x_spec : RuntimeSpec; x_input : ExecutionInput; x_orgID : string }.

Section manager.
Context {Obj : Type}.
Context (C : PoolConfig).
(** The registered runtimes. *)
Context (runtimes : string -> option (Runtime Obj)).

Definition GetRuntime (t : string) : result (Runtime Obj) :=
  match runtimes t with Some rt => Ok rt | None => Err ("runtime type " +:+ t +:+ " not registered") end.

Definition request_of (x : execution) : request :=
  mkRequest (x_orgID x) (spec_Type (x_spec x)) (spec_Version (x_spec x)) (spec_DependencyLockHash (x_spec x))
    (Some (spec_Dependencies (x_spec x))).

(** Where an execution is. *)
Inductive exec :=
  | XStart
  | XAcquire (a : acquire)
  | XSetup (i : nat)
  | XInstall (i : nat)
  | XRun (i : nat)
  | XInvalidate (i : nat) (after : exec)    (** the two sections of [InvalidateEnvironment] *)
  | XForget (i : nat) (after : exec)
  | XRelease (i : nat) (r : outcome)
  | XSignal (i : nat) (r : outcome)
  | XDone (r : outcome) (e : error).

Definition state : Type := Obj * EnvironmentPool.

(** A call of the runtime, on its object and the disk. *)
Definition on_runtime {A} (c : Obj * fs -> Obj * fs * A) (s : state) : state * A :=
  let '((o, d), a) := c (s.1, pool_disk s.2) in ((o, with_pool_disk d s.2), a).

Definition path_of (i : nat) (p : EnvironmentPool) : string :=
  match heap p !! i with Some e => env_Path e | None => "" end.

(** What is known after the run; [metrics.EnvKey] is made from the hash of the
    specification, which may be empty. *)
Definition outcome_of (x : execution) (uses : Z) (r : run_result) : outcome :=
  let '(output, exit, err) := r in
  let failed := match err with Some _ => negb (o_Success output) | None => false end in
  mkOutcome output exit (1 <? uses)
    (GetEnvironmentKey C (x_orgID x) (spec_Type (x_spec x)) (spec_Version (x_spec x))
       (spec_DependencyLockHash (x_spec x)))
    (if failed then classifyError err else "") (negb (o_Success output)).

Definition exec_step (now : Z) (w : wake) (x : execution) (c : exec) (s : state) : option (state * exec) :=
  let p := s.2 in
  match c with
  | XStart =>
      match GetRuntime (spec_Type (x_spec x)) with
      | Err e => Some (s, XDone (failed_outcome e) (Some e))
      | Ok _ => Some (s, XAcquire ALock)
      end
  | XAcquire (AReturn (Err e)) =>
      Some (s, XDone (failed_outcome ("environment acquisition failed: " +:+ e)) (Some e))
  | XAcquire (AReturn (Ok i)) => Some (s, XSetup i)
  | XAcquire a =>
      match acquire_step C now w (request_of x) a p with
      | Some (p, a) => Some ((s.1, p), XAcquire a)
      | None => None
      end
  | XSetup i =>
      match runtimes (spec_Type (x_spec x)) with
      | None => None
      | Some rt =>
          match on_runtime (rt_Setup rt (x_spec x) (path_of i p)) s with
          | (s, Err e) => Some (s, XInvalidate i (XDone (failed_outcome ("setup failed: " +:+ e)) (Some e)))
          | (s, Ok _) => Some (s, match spec_Dependencies (x_spec x) with [] => XRun i | _ => XInstall i end)
          end
      end
  | XInstall i =>
      match runtimes (spec_Type (x_spec x)) with
      | None => None
      | Some rt =>
          match on_runtime (rt_InstallDeps rt (spec_Dependencies (x_spec x)) (path_of i p)) s with
          | (s, Err e) =>
              Some (s, XInvalidate i (XDone (failed_outcome ("dependency installation failed: " +:+ e)) (Some e)))
          | (s, Ok _) => Some (s, XRun i)
          end
      end
  | XRun i =>
      match runtimes (spec_Type (x_spec x)) with
      | None => None
      | Some rt =>
          let '(s, (output, exit, err)) := on_runtime (rt_Run rt (x_input x) (path_of i p)) s in
          let uses := match heap p !! i with Some e => env_UseCount e | None => 0 end in
          let r := outcome_of x uses (output, exit, err) in
          Some (s, match err with
                   | Some _ => if o_Success output then XRelease i r else XInvalidate i (XRelease i r)
                   | None => XRelease i r
                   end)
      end
  | XInvalidate i after => Some ((s.1, invalidate_state i p), XForget i after)
  | XForget i after => Some ((s.1, invalidate_remove i p), after)
  | XRelease i r => Some ((s.1, ReleaseEnvironment C now i (o_Success (x_Output r)) p), XSignal i r)
  | XSignal i r => Some ((s.1, signal_ready i p), XDone r None)
  | XDone _ _ => None
  end.

Fixpoint exec_run (fuel : nat) (now : Z) (x : execution) (c : exec) (s : state) : option (state * (outcome * error)) :=
  match c with
  | XDone r e => Some (s, (r, e))
  | _ => match fuel with
         | O => None
         | S fuel => match exec_step now WTimeout x c s with
                     | Some (s, c) => exec_run fuel now x c s
                     | None => None
                     end
         end
  end.

(** By itself an execution takes at most twenty-one steps. *)
Definition exec_fuel : nat := 21.
Definition ExecuteWithMetrics (now : Z) (x : execution) (s : state) := exec_run exec_fuel now x XStart s.

(** The goroutine after an execution sends an environment that was used at least
    three times to the remote cache. *)
Definition uploads (i : nat) (p : EnvironmentPool) : bool :=
  match heap p !! i with Some e => 3 <=? env_UseCount e | None => false end.

(** ** Many executions *)

Definition thread : Type := execution * exec.

Inductive system_step : state * list thread -> state * list thread -> Prop :=
  | step_exec now w s ts k x c s' c' :
      ts !! k = Some (x, c) -> exec_step now w x c s = Some (s', c') ->
      system_step (s, ts) (s', <[k := (x, c')]> ts)
  | step_evictions now s ts : system_step (s, ts) ((s.1, runEviction C now s.2), ts)
  | step_evict n s ts : system_step (s, ts) ((s.1, evict_nth C n s.2), ts)
  | step_remove n s ts : system_step (s, ts) ((s.1, remove_nth C n s.2), ts).

Definition started (s : state) (ts : list thread) : Prop :=
  (exists d, s.2 = NewEnvironmentPool d) /\ Forall (fun t => t.2 = XStart) ts.

Definition reachable (s : state) (ts : list thread) : Prop :=
  exists s0 ts0, started s0 ts0 /\ rtc system_step (s0, ts0) (s, ts).
End manager.

(** ** Who holds an environment *)

Definition busy (st : EnvState) : bool :=
  match st with EnvStatePending | EnvStateActive | EnvStateInvalid => true | _ => false end.

(** The environment that a call holds, and whether it is in the pool already. *)
Definition claim_of_acquire (a : acquire) : option (nat * bool) :=
  match a with
  | ACount i | AEvictCount i | ARecount i | ABytes i | ARebytes i => Some (i, false)
  | AReturn (Ok i) => Some (i, true)
  | _ => None
  end.

Definition claim_of (c : exec) : option (nat * bool) :=
  match c with
  | XAcquire a => claim_of_acquire a
  | XSetup i | XInstall i | XRun i | XInvalidate i _ | XForget i _ | XRelease i _ => Some (i, true)
  | XStart | XSignal _ _ | XDone _ _ => None
  end.

Definition holds (c : exec) (i : nat) : Prop := fst <$> claim_of c = Some i.

(** After an environment is forgotten its execution ends or releases it. *)
Definition well_formed (c : exec) : Prop :=
  match c with
  | XInvalidate i after | XForget i after =>
      match after with XDone _ _ => True | XRelease j _ => i = j | _ => False end
  | _ => True
  end.

Record coherent (p : EnvironmentPool) (cl : list (option (nat * bool))) : Prop := {
  co_heap : forall i e, heap p !! i = Some e -> (i < next p)%nat;
  co_map : forall key i, environments p !! key = Some i -> exists e, heap p !! i = Some e;
  co_held : forall k i b, cl !! k = Some (Some (i, b)) ->
    exists e, heap p !! i = Some e /\ busy (env_State e) = true;
  co_excl : forall k k' i b b', cl !! k = Some (Some (i, b)) -> cl !! k' = Some (Some (i, b')) -> k = k';
  co_new : forall k i key, cl !! k = Some (Some (i, false)) -> environments p !! key <> Some i;
  co_busy : forall key i e, environments p !! key = Some i -> heap p !! i = Some e ->
    busy (env_State e) = true -> exists k b, cl !! k = Some (Some (i, b)) }.

Section steps.
Context (p : EnvironmentPool) (cl : list (option (nat * bool))) (Hco : coherent p cl).

(** What is neither in the pool's map nor an environment does not matter. *)
Lemma coherent_frame p' :
  environments p' ⊆ environments p -> heap p' = heap p -> next p' = next p -> coherent p' cl.
Proof.
  intros He Hh Hn. destruct Hco as [H1 H2 H3 H4 H5 H6].
  assert (Hsub : forall key i, environments p' !! key = Some i -> environments p !! key = Some i).
  { intros key i Hi. by eapply lookup_weaken. }
  split; rewrite ?Hh, ?Hn; [eauto..|intros j i key Hj Hi; by eapply H5; eauto|eauto].
Qed.

Lemma lookup_claim k o o' j : cl !! k = Some o ->
  <[k := o']> cl !! j = if decide (j = k) then Some o' else cl !! j.
Proof.
  intros Hk. apply lookup_lt_Some in Hk. case_decide as Hj; [subst j; by apply list_lookup_insert_eq|].
  by apply list_lookup_insert_ne.
Qed.

Lemma coherent_alloc k e : cl !! k = Some None -> busy (env_State e) = true ->
  coherent (alloc e p) (<[k := Some (next p, false)]> cl).
Proof.
  intros Hk He. destruct Hco as [H1 H2 H3 H4 H5 H6].
  assert (Hfresh : heap p !! next p = None).
  { destruct (heap p !! next p) eqn:E; [|done]. apply H1 in E. lia. }
  assert (Hold : forall i e, heap p !! i = Some e -> i <> next p) by (intros i e' Hi ->; by rewrite Hfresh in Hi).
  split; unfold alloc; simpl.
  - intros i e' [[<- _]|[_ Hi]]%lookup_insert_Some; [lia|]. apply H1 in Hi. lia.
  - intros key i Hi. destruct (H2 _ _ Hi) as [e' He']. exists e'. rewrite lookup_insert_ne; [done|].
    intros Ei. by eapply Hold.
  - intros j i b. rewrite (lookup_claim k None) by done. case_decide.
    + intros [= <- <-]. exists e. by rewrite lookup_insert_eq.
    + intros Hj. destruct (H3 _ _ _ Hj) as (e' & He' & Hb). exists e'.
      rewrite lookup_insert_ne; [done|]. intros Ei. by eapply Hold.
  - intros j j' i b b'. rewrite !(lookup_claim k None) by done.
    do 2 case_decide; subst; intros Ha Hb; try congruence; simplify_eq.
    + destruct (H3 _ _ _ Hb) as (e' & He' & _). by apply Hold in He'.
    + destruct (H3 _ _ _ Ha) as (e' & He' & _). by apply Hold in He'.
    + by eapply H4.
  - intros j i key. rewrite (lookup_claim k None) by done. case_decide.
    + intros [= <-] Hi. destruct (H2 _ _ Hi) as [e' He']. by apply Hold in He'.
    + by apply H5.
  - intros key i e' Hi. rewrite lookup_insert_ne.
    2:{ intros Ei. destruct (H2 _ _ Hi) as [e'' He'']. by eapply Hold. }
    intros He' Hb. destruct (H6 _ _ _ Hi He' Hb) as (j & b & Hj). exists j, b.
    rewrite (lookup_claim k None) by done. case_decide; [|done]. subst. by rewrite Hk in Hj.
Qed.

Lemma coherent_insert k i key : cl !! k = Some (Some (i, false)) ->
  coherent (with_environments (<[key := i]> (environments p)) p) (<[k := Some (i, true)]> cl).
Proof.
  intros Hk. destruct Hco as [H1 H2 H3 H4 H5 H6]. pose proof (fun o => lookup_claim k o (Some (i, true))) as Hl.
  split; simpl; [done|..].
  - intros key' j [[<- <-]|[_ Hj]]%lookup_insert_Some; [|by eauto].
    destruct (H3 _ _ _ Hk) as (e & He & _). by exists e.
  - intros j j' b. rewrite (Hl _ _ Hk). case_decide; [intros [= <- <-]|]; by eauto.
  - intros j j' i' b b'. rewrite !(Hl _ _ Hk). do 2 case_decide; subst; intros Ha Hb; simplify_eq; eauto.
  - intros j i' key'. rewrite (Hl _ _ Hk). case_decide as Hjk; [done|]. intros Hj [[<- <-]|[_ Hi]]%lookup_insert_Some.
    + by eapply Hjk, H4.
    + by eapply H5.
  - intros key' j e Hj He Hb. rewrite lookup_insert_Some in Hj. destruct Hj as [[<- <-]|[_ Hj]].
    + exists k, true. rewrite (Hl _ _ Hk). by rewrite decide_True.
    + destruct (H6 _ _ _ Hj He Hb) as (k' & b & Hk'). destruct (decide (k' = k)) as [->|Hne].
      * exists k, true. rewrite (Hl _ _ Hk), decide_True by done. congruence.
      * exists k', b. by rewrite (Hl _ _ Hk), decide_False.
Qed.

(** A call gives up what it did not put into the pool, or what left it. *)
Lemma coherent_drop k i b : cl !! k = Some (Some (i, b)) -> (forall key, environments p !! key <> Some i) ->
  coherent p (<[k := None]> cl).
Proof.
  intros Hk Hout. destruct Hco as [H1 H2 H3 H4 H5 H6]. pose proof (fun o => lookup_claim k o None) as Hl.
  split; [done|done|..].
  - intros j j' b'. rewrite (Hl _ _ Hk). case_decide; [done|]. apply H3.
  - intros j j' i' b1 b2. rewrite !(Hl _ _ Hk). do 2 case_decide; [done..|]. apply H4.
  - intros j i' key. rewrite (Hl _ _ Hk). case_decide; [done|]. apply H5.
  - intros key j e Hj He Hb. destruct (H6 _ _ _ Hj He Hb) as (k' & b' & Hk'). exists k', b'.
    rewrite (Hl _ _ Hk), decide_False; [done|]. intros ->. rewrite Hk in Hk'. simplify_eq. by eapply Hout.
Qed.

Lemma lookup_update i f j e : heap (update i f p) !! j = Some e ->
  exists e0, heap p !! j = Some e0 /\ e = if decide (i = j) then f e0 else e0.
Proof.
  unfold update. simpl. intros H. destruct (decide (i = j)) as [<-|Hne].
  - rewrite lookup_alter_eq in H. destruct (heap p !! i) as [e0|]; [|done]. exists e0. by injection H as <-.
  - rewrite lookup_alter_ne in H by done. by exists e.
Qed.

(** An environment changes, but not whether it is busy. *)
Lemma coherent_same i f :
  (forall e, heap p !! i = Some e -> busy (env_State (f e)) = busy (env_State e)) -> coherent (update i f p) cl.
Proof.
  intros Hf. destruct Hco as [H1 H2 H3 H4 H5 H6].
  assert (Hto : forall j e, heap p !! j = Some e ->
            exists e', heap (update i f p) !! j = Some e' /\ busy (env_State e') = busy (env_State e)).
  { intros j e He. unfold update. simpl. destruct (decide (i = j)) as [<-|Hne].
    - exists (f e). rewrite lookup_alter_eq, He. auto.
    - exists e. by rewrite lookup_alter_ne. }
  split; [..|done|done|].
  - intros j e (e0 & He0 & _)%lookup_update. by eapply H1.
  - intros key j Hj. destruct (H2 _ _ Hj) as [e He]. destruct (Hto _ _ He) as (e' & He' & _). by exists e'.
  - intros k j b Hk. destruct (H3 _ _ _ Hk) as (e & He & Hb). destruct (Hto _ _ He) as (e' & He' & Hb').
    exists e'. by rewrite Hb'.
  - intros key j e Hj (e0 & He0 & ->)%lookup_update Hb. eapply H6; [done..|].
    case_decide as Hij; [|done]. subst j. by rewrite Hf in Hb.
Qed.

(** An environment that only [k] may hold becomes busy and held, or neither. *)
Lemma coherent_change k i f e o : cl !! k = Some o -> heap p !! i = Some e ->
  (forall j b, cl !! j = Some (Some (i, b)) -> j = k) -> (forall j b, o = Some (j, b) -> j = i /\ b = true) ->
  coherent (update i f p) (<[k := if busy (env_State (f e)) then Some (i, true) else None]> cl).
Proof.
  intros Hk He Honly Ho. destruct Hco as [H1 H2 H3 H4 H5 H6].
  pose proof (lookup_claim k) as Hl.
  assert (Hfe : heap (update i f p) !! i = Some (f e)).
  { unfold update. simpl. by rewrite lookup_alter_eq, He. }
  assert (Hother : forall j, i <> j -> heap (update i f p) !! j = heap p !! j).
  { intros j Hne. unfold update. simpl. by rewrite lookup_alter_ne. }
  split.
  - intros j e' (e0 & He0 & _)%lookup_update. by eapply H1.
  - intros key j Hj. destruct (H2 _ _ Hj) as [e0 He0]. destruct (decide (i = j)) as [<-|Hne]; [by eexists|].
    exists e0. by rewrite Hother.
  - intros j j' b. rewrite (Hl _ _ _ Hk). case_decide as Hj.
    + destruct (busy (env_State (f e))) eqn:Hb; [|done]. intros [= <- <-]. by exists (f e).
    + intros Hj'. destruct (H3 _ _ _ Hj') as (e0 & He0 & Hb). exists e0. rewrite Hother; [done|].
      intros <-. by apply Hj, (Honly j b).
  - intros j j' i' b1 b2. rewrite !(Hl _ _ _ Hk). destruct (busy (env_State (f e))).
    + do 2 case_decide; subst; intros Ha Hb; simplify_eq; [done|by apply Honly in Hb|by apply Honly in Ha|by eapply H4].
    + do 2 case_decide; [done..|]. by eapply H4.
  - intros j j' key. rewrite (Hl _ _ _ Hk). case_decide; [by case_match|]. by apply H5.
  - intros key j e' Hj (e0 & He0 & ->)%lookup_update Hb. destruct (decide (i = j)) as [<-|Hne].
    + assert (e0 = e) as -> by congruence. exists k, true. by rewrite (Hl _ _ _ Hk), decide_True, Hb.
    + destruct (H6 _ _ _ Hj He0 Hb) as (k' & b & Hk'). exists k', b.
      rewrite (Hl _ _ _ Hk), decide_False; [done|]. intros ->. rewrite Hk in Hk'. simplify_eq.
      by destruct (Ho j b).
Qed.
End steps.

(** ** Every step keeps the claims coherent *)

Lemma not_busy_foldr (l : list (string * nat)) p j e :
  heap (foldr (fun ki => update ki.2 (with_state EnvStateCleaning)) p l) !! j = Some e ->
  busy (env_State e) = true -> exists e0, heap p !! j = Some e0 /\ busy (env_State e0) = true.
Proof.
  revert e. induction l as [|[key i] l IH]; intros e; [by eexists|].
  simpl foldr. intros (e0 & He0 & ->)%lookup_update Hb. case_decide; [done|]. by eapply IH.
Qed.

Lemma coherent_cleaning (l : list (string * nat)) p cl : coherent p cl ->
  (forall key i e, (key, i) ∈ l -> heap p !! i = Some e -> busy (env_State e) = false) ->
  coherent (foldr (fun ki => update ki.2 (with_state EnvStateCleaning)) p l) cl.
Proof.
  intros Hco. induction l as [|[key i] l IH]; intros Hl; [done|]. simpl foldr. apply coherent_same.
  - apply IH. intros key' i' e Hin. apply (Hl key'). by apply list_elem_of_further.
  - intros e He. destruct (busy (env_State e)) eqn:Hb; [|done].
    destruct (not_busy_foldr _ _ _ _ He Hb) as (e0 & He0 & Hb0).
    rewrite (Hl key i e0) in Hb0; [done|apply list_elem_of_here|done].
Qed.

Section steps_keep.
Context (C : PoolConfig).

Lemma coherent_eviction now p cl : coherent p cl -> coherent (runEviction C now p) cl.
Proof.
  intros Hco. eapply coherent_frame; [apply (coherent_cleaning (expired_entries C now p) p cl Hco)|done..].
  intros key i e Hin He. unfold expired_entries in Hin. apply list_elem_of_In, filter_In in Hin as [_ Hx].
  simpl in Hx. rewrite He in Hx. unfold expired in Hx. by destruct (env_State e).
Qed.

Lemma coherent_evict c p cl : coherent p cl -> coherent (evict C c p) cl.
Proof.
  intros Hco. unfold evict. repeat case_match; [|done..]. eapply coherent_frame; [done| |done..]. apply delete_subseteq.
Qed.

Lemma coherent_evict_nth n p cl : coherent p cl -> coherent (evict_nth C n p) cl.
Proof. intros Hco. unfold evict_nth. case_match; [|done]. apply coherent_evict. by eapply coherent_frame. Qed.

Lemma coherent_remove_nth n p cl : coherent p cl -> coherent (remove_nth C n p) cl.
Proof. intros Hco. unfold remove_nth. case_match; [|done]. by eapply coherent_frame. Qed.

Lemma coherent_keep p cl (k : nat) o : cl !! k = Some o -> coherent p cl -> coherent p (<[k := o]> cl).
Proof. intros Hk Hco. by rewrite list_insert_id. Qed.

Lemma coherent_put q k i p cl : coherent p cl -> cl !! k = Some (Some (i, false)) ->
  coherent (insert_env C q i p).1 (<[k := claim_of_acquire (insert_env C q i p).2]> cl).
Proof.
  intros Hco Hk. simpl. eapply coherent_frame; [by apply (coherent_insert _ _ Hco _ _ (request_key C q))|done..].
Qed.

Lemma coherent_give_up q k i e p cl : coherent p cl -> cl !! k = Some (Some (i, false)) ->
  coherent (return_env C q (Err e) p).1 (<[k := claim_of_acquire (return_env C q (Err e) p).2]> cl).
Proof.
  intros Hco Hk. simpl. apply (coherent_frame p); [|done..]. eapply coherent_drop; [done..|]. intros key.
  by apply (co_new _ _ Hco k).
Qed.

Lemma coherent_try q k i p cl : coherent p cl -> cl !! k = Some (Some (i, false)) ->
  coherent (try_insert C q i p).1 (<[k := claim_of_acquire (try_insert C q i p).2]> cl).
Proof.
  intros Hco Hk. unfold try_insert. case_match; [by apply coherent_keep|by apply coherent_put].
Qed.

Lemma coherent_look_up now q k p cl : coherent p cl -> cl !! k = Some None ->
  coherent (look_up C now q p).1 (<[k := claim_of_acquire (look_up C now q p).2]> cl).
Proof.
  intros Hco Hk. pose proof (coherent_keep _ _ _ _ Hk Hco) as Hsame. unfold look_up.
  destruct (environments p !! request_key C q) as [i|] eqn:Hi; [|done].
  destruct (heap p !! i) as [e|] eqn:He; [|done].
  assert (Hdrop : coherent (drop_env (request_key C q) i e p).1
                    (<[k := claim_of_acquire (drop_env (request_key C q) i e p).2]> cl)).
  { eapply coherent_frame; [done| |done..]. apply delete_subseteq. }
  assert (Htake : busy (env_State e) = false ->
    coherent (return_env C q (Ok i) (update i (fun e => used_at now (count_use (with_state EnvStateActive e))) p)).1
      (<[k := Some (i, true)]> cl)).
  { intros Hb. set (f := fun e => used_at now (count_use (with_state EnvStateActive e))).
    apply (coherent_frame (update i f p)); [|done..].
    apply (coherent_change _ _ Hco k i f e None); [done..| |done].
    intros j b Hj. destruct (co_held _ _ Hco _ _ _ Hj) as (e' & He' & Hb'). exfalso. congruence. }
  assert (Hwait : coherent (unlock C q p) (<[k := None]> cl)) by (by apply (coherent_frame p)).
  destruct (env_State e); try done; repeat case_match; try done; by apply Htake.
Qed.

Lemma coherent_acquire now w q k a p cl p' a' : coherent p cl -> cl !! k = Some (claim_of_acquire a) ->
  acquire_step C now w q a p = Some (p', a') -> coherent p' (<[k := claim_of_acquire a']> cl).
Proof.
  intros Hco Hk Hs.
  assert (Hframe : forall p', environments p' = environments p -> heap p' = heap p -> next p' = next p ->
            coherent p' (<[k := claim_of_acquire a]> cl)).
  { intros p1 E1 E2 E3. eapply coherent_frame; [by apply coherent_keep|by rewrite E1|done..]. }
  destruct a; simpl in Hs, Hk.
  - case_decide; [done|]. injection Hs as <- <-. by apply Hframe.
  - injection Hs as Hs. pose proof (coherent_look_up now q k p cl Hco Hk) as H. by rewrite Hs in H.
  - repeat case_match; simplify_eq; by apply Hframe.
  - case_decide; [done|]. injection Hs as <- <-. by apply Hframe.
  - injection Hs as <- <-. by apply Hframe.
  - injection Hs as Hs. unfold create_env in Hs. destruct (os_MkdirAll _ _ _) as [s [e|]].
    + injection Hs as <- <-. by apply Hframe.
    + injection Hs as <- <-. apply (coherent_alloc (with_pool_disk _ p)); [by eapply coherent_frame|done..].
  - injection Hs as Hs. destruct (full C p); [injection Hs as <- <-; by apply Hframe|].
    pose proof (coherent_try q k i p cl Hco Hk) as H. by rewrite Hs in H.
  - injection Hs as <- <-. apply coherent_keep; [done|]. by apply coherent_eviction.
  - injection Hs as Hs. destruct (full C p).
    + pose proof (coherent_give_up q k i "environment pool exhausted" p cl Hco Hk) as H. by rewrite Hs in H.
    + pose proof (coherent_try q k i p cl Hco Hk) as H. by rewrite Hs in H.
  - injection Hs as <- <-. apply coherent_keep; [done|]. by apply coherent_eviction.
  - injection Hs as Hs. destruct (over_disk C p).
    + pose proof (coherent_give_up q k i "environment pool disk limit exceeded" p cl Hco Hk) as H. by rewrite Hs in H.
    + pose proof (coherent_put q k i p cl Hco Hk) as H. by rewrite Hs in H.
  - done.
Qed.
End steps_keep.

Section executions.
Context {Obj : Type} (C : PoolConfig) (runtimes : string -> option (Runtime Obj)).
Abbreviation estep := (exec_step C runtimes).

Definition claims (ts : list thread) : list (option (nat * bool)) := claim_of ∘ snd <$> ts.

Lemma coherent_runtime {A} (c : Obj * fs -> Obj * fs * A) (s : state) cl :
  coherent s.2 cl -> coherent (on_runtime c s).1.2 cl.
Proof.
  intros Hco. unfold on_runtime. destruct (c (s.1, pool_disk s.2)) as [[o d] a]. simpl.
  by apply (coherent_frame s.2).
Qed.

(** The claim of a call of the runtime stays, whatever it answers. *)
Lemma coherent_call {A} (c : Obj * fs -> Obj * fs * A) (s s' : state) (k : nat) o cl (a : A) :
  coherent s.2 cl -> cl !! k = Some o -> on_runtime c s = (s', a) -> coherent s'.2 (<[k := o]> cl).
Proof.
  intros Hco Hk Hc. apply coherent_keep; [done|]. pose proof (coherent_runtime c s cl Hco) as H. by rewrite Hc in H.
Qed.

Lemma coherent_invalid k i p cl : coherent p cl -> cl !! k = Some (Some (i, true)) ->
  coherent (invalidate_state i p) (<[k := Some (i, true)]> cl).
Proof.
  intros Hco Hk. destruct (co_held _ _ Hco _ _ _ Hk) as (e & He & _).
  apply (coherent_change _ _ Hco k i (with_state EnvStateInvalid) e (Some (i, true))); [done..| |].
  - intros j b Hj. by apply (co_excl _ _ Hco j k i b true).
  - by intros j b [= <- <-].
Qed.

Lemma coherent_forget k i after p cl : coherent p cl -> cl !! k = Some (Some (i, true)) ->
  well_formed (XForget i after) -> coherent (invalidate_remove i p) (<[k := claim_of after]> cl).
Proof.
  intros Hco Hk Hw. destruct (co_held _ _ Hco _ _ _ Hk) as (e & He & _).
  set (m := filter (fun kj : string * nat => same_id p i kj.2 = false) (environments p)).
  assert (Hm : coherent (with_environments m p) cl).
  { apply (coherent_frame p); [done| |done..]. apply map_filter_subseteq. }
  apply (coherent_frame (with_environments m p)); [..|by unfold invalidate_remove; case_match|
    by unfold invalidate_remove; case_match|by unfold invalidate_remove; case_match].
  simpl in Hw. destruct after; try done; simpl.
  - subst. by apply coherent_keep.
  - eapply coherent_drop; [done..|]. intros key. simpl. unfold m.
    intros [_ Hs]%map_lookup_filter_Some. simpl in Hs. unfold same_id in Hs. by rewrite He, eqb_refl_s in Hs.
Qed.

Lemma coherent_release now k i warm p cl : coherent p cl -> cl !! k = Some (Some (i, true)) ->
  coherent (ReleaseEnvironment C now i warm p) (<[k := None]> cl).
Proof.
  intros Hco Hk. destruct (co_held _ _ Hco _ _ _ Hk) as (e & He & Hb). unfold ReleaseEnvironment. rewrite He.
  case_decide as Hc; [by rewrite Hc in Hb|].
  set (st := if warm && (now - env_LastUsed e <? WarmTimeout C) then EnvStateWarm else EnvStateReady).
  apply (coherent_frame (update i (fun e => used_at now (with_state st e)) p)); [|done..].
  assert (Hst : busy st = false) by (unfold st; by case_match).
  pose proof (coherent_change _ _ Hco k i (fun e => used_at now (with_state st e)) e (Some (i, true)) Hk He) as H.
  cbn in H. rewrite Hst in H. apply H.
  - intros j b Hj. by apply (co_excl _ _ Hco j k i b true).
  - by intros j b [= <- <-].
Qed.

Lemma exec_step_coherent now w x c s s' c' k cl : coherent s.2 cl -> cl !! k = Some (claim_of c) ->
  well_formed c -> estep now w x c s = Some (s', c') ->
  coherent s'.2 (<[k := claim_of c']> cl) /\ well_formed c'.
Proof.
  intros Hco Hk Hw Hs. pose proof (coherent_keep _ _ _ _ Hk Hco) as Hsame.
  destruct c; simpl in Hs, Hk.
  - case_match; by injection Hs as <- <-.
  - assert (Hacq : forall p a', acquire_step C now w (request_of x) a s.2 = Some (p, a') ->
              coherent p (<[k := claim_of_acquire a']> cl)) by (intros p a'; by eapply coherent_acquire).
    destruct a; try (destruct (acquire_step C now w (request_of x) _ s.2) as [[p a']|] eqn:E;
      [|done]; injection Hs as <- <-; split; [by apply Hacq|done]).
    destruct r; injection Hs as <- <-; done.
  - destruct (runtimes _) as [rt|]; [|done].
    destruct (on_runtime _ s) as [s1 [[]|e]] eqn:E; injection Hs as <- <-;
      (split; [|done || by case_match]); (case_match || idtac); by eapply coherent_call.
  - destruct (runtimes _) as [rt|]; [|done].
    destruct (on_runtime _ s) as [s1 [[]|e]] eqn:E; injection Hs as <- <-; (split; [by eapply coherent_call|done]).
  - destruct (runtimes _) as [rt|]; [|done].
    destruct (on_runtime _ s) as [s1 [[out ex] err]] eqn:E. injection Hs as <- <-.
    split; [|by repeat case_match]. repeat case_match; by eapply coherent_call.
  - injection Hs as <- <-. split; [by apply coherent_invalid|done].
  - injection Hs as <- <-. split; [by apply coherent_forget|]. simpl in Hw. by destruct c.
  - injection Hs as <- <-. split; [by apply coherent_release|done].
  - injection Hs as <- <-. split; [|done]. apply coherent_keep; [done|]. by apply coherent_same.
  - done.
Qed.

Lemma claims_lookup ts k x c : ts !! k = Some (x, c) -> claims ts !! k = Some (claim_of c).
Proof. intros H. unfold claims. rewrite list_lookup_fmap. exact (f_equal (fmap _) H). Qed.

Lemma system_step_coherent s ts s' ts' : system_step C runtimes (s, ts) (s', ts') ->
  coherent s.2 (claims ts) -> Forall (fun t => well_formed t.2) ts ->
  coherent s'.2 (claims ts') /\ Forall (fun t => well_formed t.2) ts'.
Proof.
  intros Hstep Hco Hw. inversion Hstep as [now w s0 ts0 k x c s1 c1 Hk Hs|now w s0 ts0|n s0 ts0|n s0 ts0]; subst.
  - assert (Hc : claims ts !! k = Some (claim_of c)) by (by eapply claims_lookup).
    destruct (exec_step_coherent now w x c s s' c1 k _ Hco Hc) as [H1 H2]; [|done|].
    { by apply (Forall_lookup_1 _ _ _ _ Hw Hk). }
    split; [unfold claims; by rewrite list_fmap_insert|]. by apply Forall_insert.
  - split; [|done]. by apply coherent_eviction.
  - split; [|done]. by apply coherent_evict_nth.
  - split; [|done]. by apply coherent_remove_nth.
Qed.

Lemma reachable_pool_coherent s ts : reachable C runtimes s ts ->
  coherent s.2 (claims ts) /\ Forall (fun t => well_formed t.2) ts.
Proof.
  intros (s0 & ts0 & [[d Hd] Hstart] & Hrtc).
  assert (H0 : coherent s0.2 (claims ts0) /\ Forall (fun t => well_formed t.2) ts0).
  { assert (Hnone : forall k o, claims ts0 !! k = Some o -> o = None).
    { intros k o. unfold claims. intros ([x c] & -> & Ht)%list_lookup_fmap_Some_1.
      pose proof (Forall_lookup_1 _ _ _ _ Hstart Ht) as Hc. simpl in *. by rewrite Hc. }
    split; [|by eapply Forall_impl; [done|]; intros t ->].
    rewrite Hd. split; simpl; try done; intros *; try (intros H; by apply Hnone in H).
    all: by intros H1; try (intros H2); rewrite ?lookup_empty in *. }
  clear Hd Hstart. remember (s, ts) as b eqn:Hb. revert s ts Hb.
  remember (s0, ts0) as a eqn:Ha. revert s0 ts0 Ha H0.
  induction Hrtc as [a|a [s1 ts1] b Hstep Hrest IH]; intros s0 ts0 -> H0 s ts Hb; [by injection Hb as <- <-|].
  eapply IH; [done| |done]. destruct H0 as [H1 H2]. by eapply system_step_coherent.
Qed.
End executions.

(** ** Executions by themselves *)

Section alone.
Context {Obj : Type} (C : PoolConfig) (runtimes : string -> option (Runtime Obj)).

Lemma exec_run_step fuel now x c (s s' : state) c' :
  exec_step C runtimes now WTimeout x c s = Some (s', c') ->
  exec_run C runtimes (S fuel) now x c s = exec_run C runtimes fuel now x c' s'.
Proof. intros H. destruct c; try discriminate H; cbn [exec_run]; by rewrite H. Qed.

Lemma acquire_run_step fuel now w q a p p' a' : acquire_step C now w q a p = Some (p', a') ->
  acquire_run C (S fuel) now w q a p = acquire_run C fuel now w q a' p'.
Proof. intros H. destruct a; try discriminate H; cbn [acquire_run]; by rewrite H. Qed.

(** An environment that is used again. *)
Definition reused (now : Z) (e : CachedEnvironment) : CachedEnvironment :=
  used_at now (count_use (with_state EnvStateActive e)).

Record reusable (q : request) (i : nat) (e : CachedEnvironment) (p : EnvironmentPool) : Prop := {
  re_free : request_key C q ∉ locked p;
  re_key : environments p !! request_key C q = Some i;
  re_env : heap p !! i = Some e;
  re_state : env_State e = EnvStateReady \/ env_State e = EnvStateWarm;
  re_valid : isValidForRuntime C (env_Path e) (q_rt q) (pool_disk p) = true;
  re_health : HealthCheck C = None }.

Lemma acquire_lock now w q p : request_key C q ∉ locked p ->
  acquire_step C now w q ALock p = Some (with_locked ({[request_key C q]} ∪ locked p) p, ALook).
Proof. intros H. simpl. by rewrite decide_False. Qed.

Lemma acquire_hit now w q i e p : reusable q i e p ->
  acquire_step C now w q ALook (with_locked ({[request_key C q]} ∪ locked p) p) =
    Some (update i (reused now) p, AReturn (Ok i)).
Proof.
  intros [H1 H2 H3 H4 H5 H6]. simpl. unfold look_up. simpl. rewrite H2, H3.
  replace (isValidForRuntime C (env_Path e) (q_rt q) _) with true. simpl. rewrite H6.
  assert (E : return_env C q (Ok i) (update i (fun e => used_at now (count_use (with_state EnvStateActive e)))
                (with_locked ({[request_key C q]} ∪ locked p) p)) = (update i (reused now) p, AReturn (Ok i))).
  { unfold return_env, unlock, update. simpl. f_equal.
    assert (Es : ({[request_key C q]} ∪ locked p) ∖ {[request_key C q]} = locked p) by set_solver.
    unfold with_locked, with_heap. simpl. by rewrite Es. }
  destruct H4 as [->| ->]; by rewrite E.
Qed.

(** What a runtime does in an environment whose disk is in order. *)
Record steady (rt : Runtime Obj) (x : execution) (path : string) (good : fs -> Prop) : Prop := {
  st_Setup : forall o d, good d -> exists o' d', rt_Setup rt (x_spec x) path (o, d) = ((o', d'), Ok tt) /\ good d';
  st_Install : forall o d, good d ->
    exists o' d', rt_InstallDeps rt (spec_Dependencies (x_spec x)) path (o, d) = ((o', d'), Ok tt) /\ good d';
  st_Run : forall o d, good d -> exists o' d' out,
    rt_Run rt (x_input x) path (o, d) = ((o', d'), (out, 0, None)) /\ o_Success out = true /\ good d' }.

(** The last steps: run, release, signal. *)
Lemma run_and_release fuel now x o p rt i e (good : fs -> Prop) (n : Z) :
  runtimes (spec_Type (x_spec x)) = Some rt -> heap p !! i = Some e -> env_State e = EnvStateActive ->
  env_LastUsed e = now -> steady rt x (env_Path e) good -> good (pool_disk p) ->
  (forall d, good d -> calculateDirSize (env_Path e) d = n) ->
  exists o' d' e' r,
    exec_run C runtimes (3 + fuel) now x (XRun i) (o, p) =
      Some ((o', with_bytes (int64 (currentDiskBytes p + n)) (with_pool_disk d' (with_heap (<[i := e']> (heap p)) p))),
            (r, None)) /\
    good d' /\ o_Success (x_Output r) = true /\ env_Path e' = env_Path e /\
    (env_State e' = EnvStateReady \/ env_State e' = EnvStateWarm) /\ env_UseCount e' = env_UseCount e.
Proof.
  intros Hrt He Hst Hlast [_ _ HR] Hg Hn.
  destruct (HR o (pool_disk p) Hg) as (o' & d' & out & E & Hout & Hg').
  set (st := if true && (now - env_LastUsed e <? WarmTimeout C) then EnvStateWarm else EnvStateReady).
  set (e' := close_ready (used_at now (with_state st e))).
  exists o', d', e', (outcome_of C x (env_UseCount e) (out, 0, None)).
  split; [|split; [done|split; [done|split; [done|split; [|done]]]]].
  2:{ unfold e', st. simpl. case_match; auto. }
  change (3 + fuel)%nat with (S (S (S fuel))).
  erewrite exec_run_step.
  2:{ cbn [exec_step snd]. rewrite Hrt. unfold on_runtime, path_of. cbn [fst snd]. rewrite He, E. done. }
  erewrite exec_run_step.
  2:{ cbn [exec_step snd]. cbn [outcome_of x_Output fst]. rewrite Hout. unfold ReleaseEnvironment.
      cbn [with_pool_disk heap]. rewrite He, decide_False by (by rewrite Hst). done. }
  erewrite exec_run_step by done.
  assert (Hend : forall r s, exec_run C runtimes fuel now x (XDone r None) s = Some (s, (r, None))) by by destruct fuel.
  rewrite Hend. f_equal. f_equal; [f_equal|by rewrite <- Hout at 1].
  unfold signal_ready, update, with_bytes, with_heap, with_pool_disk. simpl. rewrite Hn by done. f_equal.
  apply map_eq. intros j. destruct (decide (i = j)) as [<-|Hne].
  - by rewrite !lookup_alter_eq, lookup_insert_eq, He.
  - by rewrite !lookup_alter_ne, lookup_insert_ne by done.
Qed.

(** An execution in an environment of the pool: it counts one use more, and the
    whole directory is added to the bytes in use, again. *)
Lemma execution_reuses now x (s : state) rt i e (good : fs -> Prop) (n : Z) :
  runtimes (spec_Type (x_spec x)) = Some rt -> reusable (request_of x) i e s.2 ->
  steady rt x (env_Path e) good -> good (pool_disk s.2) ->
  (forall d, good d -> calculateDirSize (env_Path e) d = n) ->
  exists o' d' e' r,
    ExecuteWithMetrics C runtimes now x s =
      Some ((o', with_bytes (int64 (currentDiskBytes s.2 + n))
                   (with_pool_disk d' (with_heap (<[i := e']> (heap s.2)) s.2))), (r, None)) /\
    good d' /\ o_Success (x_Output r) = true /\ env_Path e' = env_Path e /\
    (env_State e' = EnvStateReady \/ env_State e' = EnvStateWarm) /\ env_UseCount e' = int64 (env_UseCount e + 1).
Proof.
  intros Hrt Hre Hsteady Hg Hn. pose proof (re_env _ _ _ _ Hre) as He. destruct s as [o p]. simpl in *.
  pose proof (st_Setup _ _ _ _ Hsteady) as HS. pose proof (st_Install _ _ _ _ Hsteady) as HI.
  unfold ExecuteWithMetrics, exec_fuel.
  erewrite exec_run_step by (simpl; unfold GetRuntime; rewrite Hrt; done).
  erewrite exec_run_step by (cbn [exec_step snd]; rewrite acquire_lock by apply Hre; done).
  erewrite exec_run_step by (cbn [exec_step snd]; rewrite (acquire_hit _ _ _ _ _ _ Hre); done).
  erewrite exec_run_step by done.
  cbn [fst]. set (p1 := update i (reused now) p).
  assert (He1 : heap p1 !! i = Some (reused now e)) by (unfold p1, update; simpl; by rewrite lookup_alter_eq, He).
  assert (Hfin : forall o d fuel, good d -> exists o' d' e' r,
    exec_run C runtimes (3 + fuel) now x (XRun i) (o, with_pool_disk d p1) =
      Some ((o', with_bytes (int64 (currentDiskBytes p + n)) (with_pool_disk d' (with_heap (<[i := e']> (heap p)) p))),
            (r, None)) /\
    good d' /\ o_Success (x_Output r) = true /\ env_Path e' = env_Path e /\
    (env_State e' = EnvStateReady \/ env_State e' = EnvStateWarm) /\ env_UseCount e' = int64 (env_UseCount e + 1)).
  { intros o1 d1 fuel Hd1.
    destruct (run_and_release fuel now x o1 (with_pool_disk d1 p1) rt i (reused now e) good n)
      as (o2 & d2 & e2 & r & E & H); try done.
    exists o2, d2, e2, r. split; [|exact H]. rewrite E.
    assert (Hh : <[i := e2]> (heap p1) = <[i := e2]> (heap p)).
    { apply map_eq. intros j. destruct (decide (i = j)) as [<-|Hne].
      - by rewrite !lookup_insert_eq.
      - unfold p1, update. simpl. by rewrite !lookup_insert_ne, lookup_alter_ne by done. }
    unfold with_heap at 1. cbn [with_pool_disk heap environments next locked evicting removing pool_disk].
    rewrite Hh. done. }
  destruct (HS o (pool_disk p) Hg) as (o1 & d1 & E1 & Hg1).
  erewrite exec_run_step.
  2:{ cbn [exec_step snd]. rewrite Hrt. unfold on_runtime, path_of. rewrite He1. cbn [fst snd reused].
      change (pool_disk p1) with (pool_disk p). cbn. rewrite E1. done. }
  destruct (spec_Dependencies (x_spec x)) as [|dep deps] eqn:Hdeps; [by apply (Hfin o1 d1 13%nat)|].
  destruct (HI o1 d1 Hg1) as (o2 & d2 & E2 & Hg2).
  erewrite exec_run_step.
  2:{ cbn [exec_step snd]. rewrite Hrt, Hdeps. unfold on_runtime, path_of. cbn [fst snd with_pool_disk heap].
      rewrite He1. cbn. rewrite E2. done. }
  by apply (Hfin o2 d2 12%nat).
Qed.

(** Executions one after the other, at the given times, while they succeed. *)
Fixpoint executions (nows : list Z) (x : execution) (s : state (Obj := Obj)) : option state :=
  match nows with
  | [] => Some s
  | now :: nows =>
      match ExecuteWithMetrics C runtimes now x s with
      | Some (s, (r, None)) => if o_Success (x_Output r) then executions nows x s else None
      | _ => None
      end
  end.

Lemma executions_reuse nows x rt i (path : string) (good : fs -> Prop) (n : Z) (s : state) e :
  runtimes (spec_Type (x_spec x)) = Some rt -> reusable (request_of x) i e s.2 -> env_Path e = path ->
  steady rt x path good -> good (pool_disk s.2) ->
  (forall d, good d -> calculateDirSize path d = n /\ isValidForRuntime C path (spec_Type (x_spec x)) d = true) ->
  0 <= currentDiskBytes s.2 -> 0 <= n -> currentDiskBytes s.2 + n * Z.of_nat (length nows) < 2 ^ 63 ->
  exists s' e', executions nows x s = Some s' /\ good (pool_disk s'.2) /\ reusable (request_of x) i e' s'.2 /\
    env_Path e' = path /\ locked s'.2 = locked s.2 /\ environments s'.2 = environments s.2 /\
    currentDiskBytes s'.2 = currentDiskBytes s.2 + n * Z.of_nat (length nows).
Proof.
  intros Hrt Hre Hp Hst Hg Hn H0 Hn0. revert s e Hre Hp Hg H0.
  induction nows as [|now nows IH]; intros s e Hre Hp Hg H0 Hb.
  - exists s, e. simpl. split; [done|]. repeat (split; [done|]). lia.
  - subst path. cbn [length] in Hb. rewrite Nat2Z.inj_succ in Hb.
    destruct (execution_reuses now x s rt i e good n Hrt Hre Hst Hg (fun d Hd => proj1 (Hn d Hd)))
      as (o' & d' & e' & r & E & Hg' & Hs & Hp' & Hst' & _).
    set (s1 := (o', with_bytes (int64 (currentDiskBytes s.2 + n)) (with_pool_disk d' (with_heap (<[i := e']> (heap s.2)) s.2)))).
    assert (Hbytes : currentDiskBytes s1.2 = currentDiskBytes s.2 + n) by (apply int64_small; lia).
    destruct (IH s1 e') as (s' & e'' & E' & Hg'' & Hre'' & Hp'' & Hl & He & Hc); [|done|done|rewrite Hbytes; lia|rewrite Hbytes; lia|].
    { destruct Hre as [R1 R2 R3 R4 R5 R6]. split; simpl; try done.
      - by rewrite lookup_insert_eq.
      - rewrite Hp'. by apply Hn. }
    exists s', e''. simpl executions. rewrite E, Hs. repeat (split; [done|]). rewrite Hc, Hbytes.
    cbn [length]. lia.
Qed.

(** A pool that counts too many bytes refuses every environment it does not
    have: the eviction it runs first only starts goroutines. *)
Lemma refused now w q p : request_key C q ∉ locked p -> environments p !! request_key C q = None ->
  f_mkdir (pool_faults C) (env_path C q) = None -> 0 < MaxDiskBytes C <= currentDiskBytes p ->
  exists p' x, AcquireEnvironment C now w q p = Some (p', Err x).
Proof.
  intros Hl Hk Hmk Hover. unfold AcquireEnvironment, acquire_fuel.
  pose proof (fun f => acquire_run_step f now w q) as Hrun.
  rewrite (Hrun _ _ _ _ _ (acquire_lock now w q p Hl)).
  erewrite Hrun by (simpl; unfold look_up; simpl; rewrite Hk; done).
  set (p1 := with_locked _ p).
  destruct (acquire_step C now w q ACreate p1) as [[p2 a2]|] eqn:E; [|done].
  rewrite (Hrun _ _ _ _ _ E). simpl in E. unfold create_env, os_MkdirAll in E. rewrite Hmk in E.
  injection E as <- <-.
  match goal with |- context [acquire_run C 7 now w q _ ?p] => set (p2 := p) end.
  assert (Hev : forall p, environments (runEviction C now p) = environments p /\
                          currentDiskBytes (runEviction C now p) = currentDiskBytes p).
  { intros p0. unfold runEviction. simpl. induction (expired_entries C now p0) as [|ki l IH]; [done|]. exact IH. }
  assert (Hover' : over_disk C p2 = true) by (apply Z.leb_le; simpl; lia).
  destruct (full C p2) eqn:Hf.
  - erewrite Hrun by (simpl; rewrite Hf; done). erewrite Hrun by done.
    erewrite Hrun. 2:{ simpl. unfold full. rewrite (proj1 (Hev p2)). fold (full C p2). rewrite Hf. done. }
    by eexists _, _.
  - erewrite Hrun. 2:{ simpl. rewrite Hf. unfold try_insert. rewrite Hover', (proj2 (Z.ltb_lt _ _)) by lia. done. }
    erewrite Hrun by done.
    erewrite Hrun. 2:{ simpl. unfold over_disk. rewrite (proj2 (Hev p2)). fold (over_disk C p2). rewrite Hover'. done. }
    by eexists _, _.
Qed.
End alone.

(** ** Properties *)

(** A schedule of executions, for concrete runs. *)
Fixpoint play {Obj} (C : PoolConfig) (runtimes : string -> option (Runtime Obj)) (l : list (nat * Z))
    (st : state (Obj := Obj) * list thread) : option (state * list thread) :=
  match l with
  | [] => Some st
  | (k, now) :: l =>
      match st.2 !! k with
      | Some (x, c) =>
          match exec_step C runtimes now WReady x c st.1 with
          | Some (s, c) => play C runtimes l (s, <[k := (x, c)]> st.2)
          | None => None
          end
      | None => None
      end
  end.

Lemma play_steps {Obj} C (runtimes : string -> option (Runtime Obj)) l st st' :
  play C runtimes l st = Some st' -> rtc (system_step C runtimes) st st'.
Proof.
  revert st. induction l as [|[k now] l IH]; intros [s ts] H; simpl in H; [by injection H as <-|].
  destruct (ts !! k) as [[x c]|] eqn:Hk; [|done].
  destruct (exec_step _ _ _ _ _ _ _) as [[s' c']|] eqn:Hs; [|done].
  eapply rtc_l; [by eapply step_exec|]. by apply IH.
Qed.

(** C7.  However executions, evictions and the goroutines of the pool interleave,
    no environment object is held by two executions; every environment of the
    pool that is pending, active or invalid is held by one; and when all
    executions have ended no environment of the pool counts as active. *)
Theorem environments_exclusive {Obj} C (runtimes : string -> option (Runtime Obj)) (s : state) (ts : list thread) :
  reachable C runtimes s ts ->
  (forall k k' x x' c c' i, ts !! k = Some (x, c) -> ts !! k' = Some (x', c') ->
     holds c i -> holds c' i -> k = k') /\
  (forall key i e, environments s.2 !! key = Some i -> heap s.2 !! i = Some e -> busy (env_State e) = true ->
     exists k x c, ts !! k = Some (x, c) /\ holds c i) /\
  (Forall (fun t => exists r e, t.2 = XDone r e) ts -> (GetMetrics s.2).2 = 0%nat).
Proof.
  intros [Hco _]%reachable_pool_coherent.
  assert (Hheld : forall k x c i, ts !! k = Some (x, c) -> holds c i -> exists b, claims ts !! k = Some (Some (i, b))).
  { intros k x c i Hk Hh. rewrite (claims_lookup _ _ _ _ Hk). unfold holds in Hh.
    destruct (claim_of c) as [[j b]|]; [|done]. injection Hh as ->. by exists b. }
  assert (Hbusy : forall key i e, environments s.2 !! key = Some i -> heap s.2 !! i = Some e ->
            busy (env_State e) = true -> exists k x c, ts !! k = Some (x, c) /\ holds c i).
  { intros key i e Hk He Hb. destruct (co_busy _ _ Hco _ _ _ Hk He Hb) as (k & b & Hc).
    apply list_lookup_fmap_Some_1 in Hc as ([x c] & Hc & Ht). exists k, x, c. split; [done|].
    unfold holds. simpl in Hc. by rewrite <- Hc. }
  split; [|split; [done|]].
  - intros k k' x x' c c' i Hk Hk' Hh Hh'.
    destruct (Hheld _ _ _ _ Hk Hh) as [b Hb]. destruct (Hheld _ _ _ _ Hk' Hh') as [b' Hb'].
    by apply (co_excl _ _ Hco k k' i b b').
  - intros Hdone. unfold GetMetrics, count_state. cbn [snd]. apply length_zero_iff_nil.
    destruct (List.filter _ _) as [|[key i] l] eqn:E; [done|]. exfalso.
    assert (Hin : In (key, i) (List.filter (fun ki : string * nat =>
              match heap s.2 !! ki.2 with Some e => bool_decide (env_State e = EnvStateActive) | None => false end)
              (map_to_list (environments s.2)))) by (rewrite E; by left).
    apply filter_In in Hin as [Hin Hst]. apply list_elem_of_In, elem_of_map_to_list in Hin. simpl in Hst.
    destruct (heap s.2 !! i) as [e|] eqn:He; [|done]. apply bool_decide_eq_true in Hst.
    destruct (Hbusy key i e Hin He) as (k & x & c & Hk & Hh); [by rewrite Hst|].
    destruct (Forall_lookup_1 _ _ _ _ Hdone Hk) as (r & e' & Hc). simpl in Hc. subst c. done.
Qed.

(** The bytes of a pool only grow: after any number of successful executions
    in one environment its directory, of [n] bytes, has been counted once for
    each of them; and when this reaches the limit, every environment that is not
    in the pool is refused. *)
Theorem disk_accounting_drifts {Obj} C (runtimes : string -> option (Runtime Obj)) (nows : list Z) (x : execution)
    (rt : Runtime Obj) (i : nat) (e : CachedEnvironment) (path : string) (good : fs -> Prop) (n : Z) (s : state) :
  runtimes (spec_Type (x_spec x)) = Some rt -> reusable C (request_of x) i e s.2 -> env_Path e = path ->
  steady rt x path good -> good (pool_disk s.2) ->
  (forall d, good d -> calculateDirSize path d = n /\ isValidForRuntime C path (spec_Type (x_spec x)) d = true) ->
  currentDiskBytes s.2 = 0 -> 0 <= n -> n * Z.of_nat (length nows) < 2 ^ 63 ->
  exists s', executions C runtimes nows x s = Some s' /\
    currentDiskBytes s'.2 = n * Z.of_nat (length nows) /\ calculateDirSize path (pool_disk s'.2) = n /\
    (0 < MaxDiskBytes C <= n * Z.of_nat (length nows) ->
     forall now w q, request_key C q ∉ locked s.2 -> environments s.2 !! request_key C q = None ->
       f_mkdir (pool_faults C) (env_path C q) = None ->
       exists p' err, AcquireEnvironment C now w q s'.2 = Some (p', Err err)).
Proof.
  intros Hrt Hre Hp Hst Hg Hn H0 Hn0 Hlt.
  destruct (executions_reuse C runtimes nows x rt i path good n s e) as (s' & e' & E & Hg' & _ & _ & Hl & He & Hb);
    [done..|lia|done|lia|].
  exists s'. rewrite H0 in Hb. split; [done|]. split; [done|]. split; [by apply Hn|].
  intros Hmax now w q Hq Hk Hmk. apply refused; [by rewrite Hl|by rewrite He|done|]. lia.
Qed.

(** A request for an environment that is in use, or about to be evicted,
    gets another object with the same directory: the executions that hold the two
    work in one directory.  An eviction that was waiting then deletes the
    directory and the pool's entry of the new object. *)
Theorem directory_is_shared C now w q p i e :
  let key := request_key C q in
  environments p !! key = Some i -> heap p !! i = Some e ->
  env_State e = EnvStateActive \/ env_State e = EnvStateCleaning -> env_Path e = env_path C q ->
  key ∉ locked p -> heap p !! next p = None -> f_mkdir (pool_faults C) (env_path C q) = None ->
  cache C = None -> full C p = false -> over_disk C p = false ->
  exists p' j e', AcquireEnvironment C now w q p = Some (p', Ok j) /\ j <> i /\ environments p' !! key = Some j /\
    heap p' !! i = Some e /\ heap p' !! j = Some e' /\ env_Path e' = env_Path e /\
    (env_State e = EnvStateCleaning -> forall n,
       let p'' := evict C (mkCandidate key (env_Path e) n i) p' in
       environments p'' !! key = None /\
       (f_remove (pool_faults C) (env_Path e) = None -> forall f, below (env_Path e) f = true ->
          files (pool_disk p'') !! f = None)).
Proof.
  intros key Hk He Hst Hp Hl Hfresh Hmk Hcache Hfull Hover.
  assert (Hij : next p <> i) by (intros E; rewrite E in Hfresh; congruence).
  set (p1 := with_locked ({[key]} ∪ locked p) p).
  set (p2 := alloc (new_env C now q) (with_pool_disk (with_dirs ({[env_path C q]} ∪ dirs (pool_disk p)) (pool_disk p)) p1)).
  assert (Hlook : look_up C now q p1 = (p1, ACreate)).
  { unfold look_up. fold key. change (environments p1) with (environments p). change (heap p1) with (heap p).
    rewrite Hk, He. by destruct Hst as [->| ->]. }
  assert (Hcreate : create_env C now q p1 = (p2, ACount (next p))).
  { unfold create_env, os_MkdirAll. rewrite Hmk, Hcache. done. }
  assert (Hrun : AcquireEnvironment C now w q p =
            Some (unlock C q (with_environments (<[key := next p]> (environments p)) p2), Ok (next p))).
  { unfold AcquireEnvironment, acquire_fuel.
    erewrite acquire_run_step by (by apply acquire_lock). fold key p1.
    erewrite acquire_run_step by (cbn [acquire_step]; rewrite Hlook; done).
    erewrite acquire_run_step by (cbn [acquire_step]; rewrite Hcreate; done).
    erewrite acquire_run_step; cycle 1.
    { cbn [acquire_step]. change (full C p2) with (full C p). rewrite Hfull.
      unfold try_insert. change (over_disk C p2) with (over_disk C p). rewrite Hover, andb_false_r. done. }
    done. }
  eexists _, (next p), (new_env C now q). split; [exact Hrun|]. split; [done|]. simpl.
  split; [by rewrite lookup_insert_eq|]. split; [by rewrite lookup_insert_ne|].
  split; [by rewrite lookup_insert_eq|]. split; [by rewrite Hp|].
  intros Hc n. unfold evict. simpl. rewrite lookup_insert_ne, He, decide_True by done. simpl.
  split; [by rewrite lookup_delete_eq|].
  intros Hrm f Hf. unfold os_RemoveAll. rewrite Hrm. simpl. apply map_lookup_filter_None. right. intros v _. simpl. by rewrite Hf.
Qed.

(** ** Concrete runs *)

Definition demo_pool_config : PoolConfig :=
  mkPoolConfig 5 50 (30 * Minute) "/tmp/rt" None None 100 no_disk_faults "linux" (fun t => t) (fun _ => "[]").

(** A runtime that does nothing, in environments that only need the marker. *)
Definition idle_runtime : Runtime unit :=
  mkRuntime (fun _ _ => done tt) (fun _ _ => done tt) (fun _ _ s => (s, (mkOutput true None "" 0 0, 0, None))).
Definition demo_runtimes (t : string) : option (Runtime unit) := if t =?s "native" then Some idle_runtime else None.

Definition demo_execution (org : string) : execution :=
  mkExecution (mkSpec "native" "1" "" [] "" false) (mkInput [] None [] [] "code") org.

Definition no_fs : fs := mkFS ∅ ∅ ∅ ∅.
Definition demo_start : state * list thread :=
  ((tt, NewEnvironmentPool no_fs), [(demo_execution "a", XStart); (demo_execution "a", XStart)]).

(** The first execution gets an environment; the second waits for it. *)
Definition demo_mid : option (state * list thread) :=
  play demo_pool_config demo_runtimes (map (fun k => (k, 0)) [0; 0; 0; 0; 0; 0; 1; 1; 1]%nat) demo_start.

Definition demo_state : state * list thread := default demo_start demo_mid.

Lemma environments_exclusive_witness : exists k x c,
  environments demo_state.1.2 !! "a:native:1:linux:native|1|linux|[]" = Some 0%nat /\
  demo_state.2 !! k = Some (x, c) /\ holds c 0%nat /\ c = XSetup 0.
Proof.
  assert (E : demo_mid = Some demo_state) by (vm_compute; reflexivity).
  assert (Hr : reachable demo_pool_config demo_runtimes demo_state.1 demo_state.2).
  { exists demo_start.1, demo_start.2. split.
    - split; [by exists no_fs|]. apply Forall_cons_2; [done|]. by apply Forall_singleton.
    - apply play_steps in E. by destruct demo_state. }
  destruct (environments_exclusive demo_pool_config demo_runtimes _ _ Hr) as (H1 & H & _).
  assert (Hk : environments demo_state.1.2 !! "a:native:1:linux:native|1|linux|[]" = Some 0%nat)
    by (vm_compute; reflexivity).
  destruct (heap demo_state.1.2 !! 0%nat) as [e|] eqn:He; [|by vm_compute in He].
  assert (Hb : busy (env_State e) = true).
  { apply (f_equal (fun o => match o with Some e => busy (env_State e) | None => true end)) in He.
    transitivity (match heap demo_state.1.2 !! 0%nat with Some e => busy (env_State e) | None => true end); [done|].
    vm_compute. reflexivity. }
  destruct (H _ _ _ Hk He Hb) as (k & x & c & Hc & Hh). exists k, x, c. split; [done|]. split; [done|]. split; [done|].
  assert (H0 : demo_state.2 !! 0%nat = Some (demo_execution "a", XSetup 0)) by (vm_compute; reflexivity).
  assert (k = 0%nat) as -> by (by eapply (H1 k 0%nat)). congruence.
Defined.

(** An environment of fifty bytes in a pool that may take a hundred. *)
Definition demo_path : string := "/tmp/rt/env/a/native/native|1|linux|[".
Definition demo_disk : fs :=
  mkFS {["/tmp/rt/env/a/native/native|1|linux|[/.ready" := "ok";
         "/tmp/rt/env/a/native/native|1|linux|[/lib" := "forty-eight bytes, forty-eight bytes, forty-eigh"]} ∅ ∅ ∅.
Definition demo_key : string := "a:native:1:linux:native|1|linux|[]".
Definition demo_env (st : EnvState) : CachedEnvironment :=
  mkEnv "native|1|linux|[" "a" "native" "1" "native|1|linux|[]" demo_path st 0 0 0 true.
Definition demo_pool (st : EnvState) : EnvironmentPool :=
  mkPool {[demo_key := 0%nat]} {[0%nat := demo_env st]} 1 ∅ 0 [] [] demo_disk.

Lemma disk_accounting_drifts_witness : exists s',
  executions demo_pool_config demo_runtimes [1; 2] (demo_execution "a") (tt, demo_pool EnvStateWarm) = Some s' /\
  currentDiskBytes s'.2 = 100 /\ calculateDirSize demo_path (pool_disk s'.2) = 50 /\
  exists p' err, AcquireEnvironment demo_pool_config 3 WTimeout (request_of (demo_execution "b")) s'.2 =
    Some (p', Err err).
Proof.
  destruct (disk_accounting_drifts demo_pool_config demo_runtimes [1; 2] (demo_execution "a") idle_runtime 0
    (demo_env EnvStateWarm) demo_path (fun d => d = demo_disk) 50 (tt, demo_pool EnvStateWarm))
    as (s' & E & Hb & Hsize & Hrefused); try done.
  - split; try done. by right.
  - split; intros; subst.
    + by exists o, demo_disk.
    + by exists o, demo_disk.
    + by exists o, demo_disk, (mkOutput true None "" 0 0).
  - intros d ->. split; by vm_compute.
  - exists s'. split; [done|]. split; [done|]. split; [done|]. apply Hrefused; [done| |by vm_compute|done].
    intros H. by vm_compute in H.
Defined.

Lemma directory_is_shared_witness : exists p' j e',
  AcquireEnvironment demo_pool_config 3 WTimeout (request_of (demo_execution "a")) (demo_pool EnvStateCleaning) =
    Some (p', Ok j) /\ heap p' !! j = Some e' /\ env_Path e' = demo_path /\
  files (pool_disk (evict demo_pool_config (mkCandidate demo_key demo_path 50 0) p')) !! (demo_path +:+ "/.ready") = None.
Proof.
  destruct (directory_is_shared demo_pool_config 3 WTimeout (request_of (demo_execution "a"))
    (demo_pool EnvStateCleaning) 0 (demo_env EnvStateCleaning))
    as (p' & j & e' & E & _ & _ & _ & He & Hp & Hev).
  1-10: first [reflexivity | by right | by vm_compute | by intros H; vm_compute in H].
  exists p', j, e'. split; [exact E|]. split; [done|]. split; [done|].
  destruct (Hev eq_refl 50) as [_ Hgone]. apply Hgone; by vm_compute.
Defined.
