(* ===== verification/Auth.v ===== *)
(** * Auth: the identity of the device and its token

    Models [internal/auth]: the stores of tokens and their manager
    ([token_store.go]), the identity file and the migration of old tokens
    ([identity.go]) and the registration of a device ([claim.go]).  The state is
    the disk and the keyring of the system; permissions of files are left out,
    and so is the lock of the file store, whose operations run one at a time. *)
From S2P Require Import Prelude GoFloat Json Path HttpClient PluginVerify Merge MergeTree Storage Handler Backend BackendClient.
From Stdlib Require Import Ascii.

(** ** State *)

Record world := mkWorld { w_fs : fs; keyring : gmap string string }.

Definition with_fs (s : fs) (w : world) : world := mkWorld s (keyring w).
Definition with_keyring (k : gmap string string) (w : world) : world := mkWorld (w_fs w) k.

(** The environment: the variables that are read, the system, the faults of
    system calls by path and of the keyring by device. *)
Record environment := mkEnvironment {
  SENTRA_USE_KEYRING : string;
  SENTRA_TOKEN_PATH : string;
  SENTRA_HOME : string;
  HOME : string;
  GOOS : string;
  disk_fault : disk_faults;
  keyring_Set_fault : string -> error;
  keyring_Get_fault : string -> error;
  keyring_Delete_fault : string -> error }.

Definition ErrTokenNotFound : string := "token not found".
Definition ErrEmptyToken : string := "token is empty".
Definition deviceID_required : string := "deviceID is required".

(** The interface [TokenStore]. *)
Record TokenStore := mkStore {
  ts_Save : string -> string -> world -> world * error;
  ts_Load : string -> world -> world * result string;
  ts_Clear : string -> world -> world * error;
  ts_Name : string }.

(** [strings.Replace(s, old, new, 1)]. *)
Definition replace_first (s old new : string) : string :=
  match strings_Index s old with
  | Some i => str_take i s +:+ new +:+ str_drop (i + String.length old) s
  | None => s
  end.

Section stores.
Context (E : environment).
Abbreviation F := (disk_fault E).

(** ** The file store *)

(** [os.MkdirAll]. *)
Definition mkdir_all (path : string) (w : world) : world * error :=
  let '(s, e) := os_MkdirAll (f_mkdir F) path (w_fs w) in (with_fs s w, e).

Definition tokenFilePath (deviceID : string) (w : world) : world * result string :=
  let tokenPath := SENTRA_TOKEN_PATH E in
  if negb (tokenPath =?s "") then
    let hasDevicePlaceholder := strings_Contains tokenPath "{device_id}" in
    (w, Ok (if negb (deviceID =?s "") && hasDevicePlaceholder then replace_first tokenPath "{device_id}" deviceID
            else if negb (deviceID =?s "") && negb hasDevicePlaceholder then Join [Dir tokenPath; deviceID +:+ ".token"]
            else tokenPath))
  else
    let baseDir := Join [HOME E; ".sentra"; "tokens"] in
    match mkdir_all baseDir w with
    | (w, Some e) => (w, Err e)
    | (w, None) => (w, Ok (Join [baseDir; deviceID +:+ ".token"]))
    end.

(** [os.Remove] of a file; [None] for the error is that there is none. *)
Definition remove_file (path : string) (w : world) : world * option error :=
  match f_remove F path with
  | Some e => (w, Some (Some e))
  | None =>
      match os_Remove path (w_fs w) with
      | Some s => (with_fs s w, None)
      | None => (w, Some (if decide (path ∈ dirs (w_fs w)) then Some ("remove " +:+ path +:+ ": directory not empty") else None))
      end
  end.

Definition file_Save (deviceID token : string) (w : world) : world * error :=
  if (deviceID =?s "") || (token =?s "") then (w, Some ErrEmptyToken)
  else
    match tokenFilePath deviceID w with
    | (w, Err e) => (w, Some e)
    | (w, Ok path) =>
        match mkdir_all (Dir path) w with
        | (w, Some e) => (w, Some e)
        | (w, None) =>
            let tmpPath := path +:+ ".tmp" in
            match os_WriteFile F tmpPath token (w_fs w) with
            | (s, Some e) => ((remove_file tmpPath (with_fs s w)).1, Some e)
            | (s, None) =>
                match os_Rename (f_rename F path) tmpPath path s with
                | (s, Some e) => ((remove_file tmpPath (with_fs s w)).1, Some e)
                | (s, None) => (with_fs s w, None)
                end
            end
        end
    end.

(** [os.IsNotExist] of the error of a read. *)
Definition not_exist (path : string) (w : world) : bool :=
  match f_open F path, Merge.files (w_fs w) !! path with
  | None, None => negb (bool_decide (path ∈ dirs (w_fs w)))
  | _, _ => false
  end.

Definition file_Load (deviceID : string) (w : world) : world * result string :=
  if deviceID =?s "" then (w, Err deviceID_required)
  else
    match tokenFilePath deviceID w with
    | (w, Err e) => (w, Err e)
    | (w, Ok path) =>
        (w, match os_ReadFile F path (w_fs w) with
            | Err e => Err (if not_exist path w then ErrTokenNotFound else e)
            | Ok data =>
                let token := TrimSpace data in
                if token =?s "" then Err ErrTokenNotFound else Ok token
            end)
    end.

Definition file_Clear (deviceID : string) (w : world) : world * error :=
  if deviceID =?s "" then (w, Some deviceID_required)
  else
    match tokenFilePath deviceID w with
    | (w, Err e) => (w, Some e)
    | (w, Ok path) =>
        match remove_file path w with
        | (w, Some (Some e)) => (w, Some e)
        | (w, _) => (w, None)
        end
    end.

Definition FileTokenStore : TokenStore := mkStore file_Save file_Load file_Clear "file".

(** ** The keyring store *)

(** [keyring.Get]. *)
Definition keyring_Get (deviceID : string) (w : world) : option string :=
  match keyring_Get_fault E deviceID with Some _ => None | None => keyring w !! deviceID end.

Definition keyring_Save (deviceID token : string) (w : world) : world * error :=
  if (deviceID =?s "") || (token =?s "") then (w, Some ErrEmptyToken)
  else
    match keyring_Set_fault E deviceID with
    | Some e => (w, Some e)
    | None =>
        let w := with_keyring (<[deviceID := token]> (keyring w)) w in
        match keyring_Get deviceID w with
        | Some verified => (w, if verified =?s token then None else Some "keyring round-trip verification failed")
        | None => (w, Some "keyring round-trip verification failed")
        end
    end.

Definition keyring_Load (deviceID : string) (w : world) : world * result string :=
  if deviceID =?s "" then (w, Err deviceID_required)
  else (w, match keyring_Get deviceID w with
           | None => Err ErrTokenNotFound
           | Some token => if token =?s "" then Err ErrTokenNotFound else Ok token
           end).

(** An entry that is not there is not an error. *)
Definition keyring_Clear (deviceID : string) (w : world) : world * error :=
  if deviceID =?s "" then (w, Some deviceID_required)
  else match keyring_Delete_fault E deviceID with
       | Some e => (w, Some e)
       | None => (with_keyring (delete deviceID (keyring w)) w, None)
       end.

Definition KeyringTokenStore : TokenStore := mkStore keyring_Save keyring_Load keyring_Clear "keyring".
End stores.

(** ** The manager *)

Record TokenStoreManager := mkManager { primary : TokenStore; fallback : option TokenStore; useKeyring : bool }.

(** Only the value [true] enables the keyring, so the test for macOS changes
    nothing. *)
Definition NewTokenStoreManager (E : environment) : TokenStoreManager :=
  let envValue := strings_ToLower (SENTRA_USE_KEYRING E) in
  let useKeyring := envValue =?s "true" in
  let useKeyring := if (GOOS E =?s "darwin") && (envValue =?s "") then false else useKeyring in
  if useKeyring then mkManager (KeyringTokenStore E) (Some (FileTokenStore E)) true
  else mkManager (FileTokenStore E) None false.

Section manager.
Context (m : TokenStoreManager).

Definition manager_Save (deviceID token : string) (w : world) : world * error :=
  if token =?s "" then (w, Some ErrEmptyToken)
  else
    match ts_Save (primary m) deviceID token w with
    | (w, None) => (w, None)
    | (w, Some e) =>
        match useKeyring m, fallback m with
        | true, Some fb => ts_Save fb deviceID token w
        | _, _ => (w, Some e)
        end
    end.

Definition loaded (r : result string) : option string :=
  match r with Ok token => if token =?s "" then None else Some token | Err _ => None end.

(** A failed load has an empty token, so the fallback is always tried. *)
Definition manager_Load (deviceID : string) (w : world) : world * result string :=
  let '(w, r) := ts_Load (primary m) deviceID w in
  match loaded r with
  | Some token => (w, Ok token)
  | None =>
      let '(w, r) :=
        match useKeyring m, fallback m with
        | true, Some fb => ts_Load fb deviceID w
        | _, _ => (w, r)
        end in
      (w, match loaded r with
          | Some token => Ok token
          | None => match r with Err e => Err e | Ok _ => Err ErrTokenNotFound end
          end)
  end.

(** Errors of the stores are only logged. *)
Definition manager_Clear (deviceID : string) (w : world) : world * error :=
  if deviceID =?s "" then (w, Some deviceID_required)
  else
    let '(w, _) := ts_Clear (primary m) deviceID w in
    let '(w, _) := match fallback m with Some fb => ts_Clear fb deviceID w | None => (w, None) end in
    (w, None).

Definition manager_Name : string := ts_Name (primary m).
End manager.

(** [GetTokenStore] makes the manager once; the environment does not change. *)
Definition GetTokenStore (E : environment) : TokenStoreManager := NewTokenStoreManager E.
Definition ClearToken (E : environment) (deviceID : string) : world -> world * error := manager_Clear (GetTokenStore E) deviceID.
Definition SaveToken (E : environment) (deviceID token : string) (w : world) : world * error :=
  if token =?s "" then (w, Some "cannot save empty token") else manager_Save (GetTokenStore E) deviceID token w.

(** ** The identity *)

Record Identity := mkIdentity { DeviceID : string; OrgID : string; RegisteredAt : string }.
Definition zero_time : string := "0001-01-01T00:00:00Z".
Definition zeroIdentity : Identity := mkIdentity "" "" zero_time.

Section identity.
Context (E : environment).
(** [json.Unmarshal] of a text, [json.MarshalIndent], and the times it reads. *)
Context (parse : string -> RawMessage) (indent : json -> string) (valid_time : string -> bool).

(** [os.UserHomeDir]. *)
Definition UserHomeDir : result string := if HOME E =?s "" then Err "$HOME is not defined" else Ok (HOME E).

Definition identityFilePath : result string :=
  if negb (SENTRA_HOME E =?s "") then Ok (Join [SENTRA_HOME E; "identity.json"])
  else match UserHomeDir with
       | Err e => Err e
       | Ok home => Ok (Join [home; ".sentra"; "identity.json"])
       end.

Definition dec_time : decoder string := fun cur j =>
  match j with JStr s => if valid_time s then (s, false) else (cur, true) | JNull => (cur, false) | _ => (cur, true) end.

Definition decodeIdentity (fs : list (string * json)) : Identity * bool :=
  let '(d, e1) := field dec_string "device_id" "" fs in
  let '(o, e2) := field dec_string "org_id" "" fs in
  let '(t, e3) := field dec_time "registered_at" zero_time fs in
  (mkIdentity d o t, e1 || e2 || e3).

Definition marshal_identity (id : Identity) : json :=
  JObj [("device_id", JStr (DeviceID id)); ("org_id", JStr (OrgID id)); ("registered_at", JStr (RegisteredAt id))].

(** Identity, token and error. *)
Definition LoadIdentity (w : world) : world * (Identity * string * error) :=
  match identityFilePath with
  | Err e => (w, (zeroIdentity, "", Some e))
  | Ok path =>
      match os_ReadFile (disk_fault E) path (w_fs w) with
      | Err e => (w, (zeroIdentity, "", Some ("no local identity found: " +:+ e)))
      | Ok data =>
          match Unmarshal_struct zeroIdentity decodeIdentity (parse data) with
          | (_, Some e) => (w, (zeroIdentity, "", Some e))
          | (id, None) =>
              if (DeviceID id =?s "") || (OrgID id =?s "") then (w, (zeroIdentity, "", Some "invalid identity file"))
              else
                match manager_Load (GetTokenStore E) (DeviceID id) w with
                | (w, Ok token) =>
                    if token =?s "" then (w, (id, "", Some "device token not found in store")) else (w, (id, token, None))
                | (w, Err _) => (w, (id, "", Some "device token not found in store"))
                end
          end
      end
  end.

Definition SaveIdentity (id : Identity) (w : world) : world * error :=
  match identityFilePath with
  | Err e => (w, Some e)
  | Ok path =>
      match mkdir_all E (Dir path) w with
      | (w, Some e) => (w, Some e)
      | (w, None) => let '(s, e) := os_WriteFile (disk_fault E) path (indent (marshal_identity id)) (w_fs w) in (with_fs s w, e)
      end
  end.

Definition GetToken (w : world) : world * result string :=
  match LoadIdentity w with
  | (w, (_, _, Some e)) => (w, Err ("failed to load identity: " +:+ e))
  | (w, (id, token, None)) =>
      (w, if DeviceID id =?s "" then Err "no device ID in identity" else if token =?s "" then Err "no token in store" else Ok token)
  end.

(** *** Migration *)

Definition exists_file (path : string) (w : world) : bool := fileExists (disk_fault E) path (w_fs w).

Definition legacyPaths (home : string) : list string :=
  [Join [home; ".sentra"; "token"]; Join [home; ".sentra"; "device.token"]].

(** The device of the identity file, or [legacy]. *)
Definition legacy_device (w : world) : string :=
  let deviceID :=
    match identityFilePath with
    | Err _ => ""
    | Ok path =>
        match Unmarshal_struct zeroIdentity decodeIdentity
                (parse (match os_ReadFile (disk_fault E) path (w_fs w) with Ok data => data | Err _ => "" end)) with
        | (id, None) => DeviceID id
        | _ => ""
        end
    end in
  if deviceID =?s "" then "legacy" else deviceID.

Definition stat_missing (path : string) (w : world) : bool :=
  match os_Stat (disk_fault E) path (w_fs w) with StatMissing => true | _ => false end.

Definition migrate_one (home legacyPath : string) (w : world) : world * error :=
  if exists_file legacyPath w then
    let newDir := Join [home; ".sentra"; "tokens"] in
    match mkdir_all E newDir w with
    | (w, Some e) => (w, Some ("failed to create tokens directory: " +:+ e))
    | (w, None) =>
        let newPath := Join [newDir; legacy_device w +:+ ".token"] in
        match (if stat_missing newPath w
               then let '(s, e) := os_Rename (f_rename (disk_fault E) newPath) legacyPath newPath (w_fs w) in (with_fs s w, e)
               else (w, None)) with
        | (w, Some e) => (w, Some ("failed to migrate legacy token: " +:+ e))
        | (w, None) => ((remove_file E legacyPath w).1, None)
        end
    end
  else (w, None).

Fixpoint migrate_all (home : string) (paths : list string) (w : world) : world * error :=
  match paths with
  | [] => (w, None)
  | p :: paths =>
      match migrate_one home p w with
      | (w, Some e) => (w, Some e)
      | (w, None) => migrate_all home paths w
      end
  end.

Definition MigrateLegacyDevice (w : world) : world * error :=
  match UserHomeDir with
  | Err e => (w, Some ("failed to get home directory: " +:+ e))
  | Ok home =>
      if existsb (fun p => exists_file p w) (legacyPaths home) then migrate_all home (legacyPaths home) w else (w, None)
  end.

(** ** Registration *)

Record Device := mkDevice { dev_ID : string; dev_Token : string; dev_OrgID : string; dev_Name : string; ClaimedAt : string }.

Record DeviceClaimResponse := mkClaimResponse {
  dc_Ok : bool; dc_DeviceID : string; dc_AgentToken : string; dc_OrgID : string; dc_Message : string; dc_Error : string }.

Definition decodeClaimResponse (fs : list (string * json)) : DeviceClaimResponse * bool :=
  let '(o, e1) := field dec_bool "ok" false fs in
  let '(d, e2) := field dec_string "device_id" "" fs in
  let '(t, e3) := field dec_string "agent_token" "" fs in
  let '(g, e4) := field dec_string "org_id" "" fs in
  let '(m, e5) := field dec_string "message" "" fs in
  let '(e, e6) := field dec_string "error" "" fs in
  (mkClaimResponse o d t g m e, e1 || e2 || e3 || e4 || e5 || e6).

(** What the user types, and the rest of the world at a registration: the
    system, the clock, and the server, which is asked once. *)
Record registration := mkRegistration {
  reg_url : string; reg_anon : string; reg_name : string; reg_env : string; reg_storage : string;
  reg_specs : Specs; reg_os : string; reg_arch : string; reg_cgo : bool;
  reg_stdin : result string;
  reg_fmt : float64 -> option string;
  reg_url_error : string -> error;
  reg_server : HttpClient.http_request -> outcome;
  reg_now : string }.

Context (R : registration).

Definition claim_code (claimCode : string) : result string :=
  match (if claimCode =?s "" then
           match reg_stdin R with
           | Err e => Err ("failed to read claim code: " +:+ e)
           | Ok line => Ok (TrimSpace line)
           end
         else Ok claimCode) with
  | Err e => Err e
  | Ok code => if code =?s "" then Err "claim code is required" else Ok code
  end.

Definition claim_payload (code : string) : result json :=
  match reg_fmt R (sp_TotalMemoryGB (reg_specs R)) with
  | None => Err "failed to marshal payload: json: unsupported value"
  | Some memory =>
      Ok (any_map [("claim_code", JStr code);
            ("sysinfo", any_map [("hostname", JStr (reg_name R)); ("type", JStr "agent"); ("environment", JStr (reg_env R));
              ("storage", JStr (reg_storage R)); ("cpu_cores", num (sp_CPUCores (reg_specs R))); ("memory_gb", JNum memory);
              ("merge_capable", JBool true); ("os", JStr (reg_os R)); ("arch", JStr (reg_arch R)); ("has_cgo", JBool (reg_cgo R))])])
  end.

Definition claim_request (payload : json) : result HttpClient.http_request :=
  let url := trim_right_slash (reg_url R) +:+ "/functions/v1/claim_device" in
  match reg_url_error R url with
  | Some e => Err ("failed to build request: " +:+ e)
  | None => Ok (HttpClient.mkRequest "POST" url (set_all [("Content-Type", "application/json"); ("Authorization", "Bearer " +:+ reg_anon R)] ∅) (Some payload))
  end.

Definition claim_answer (o : outcome) : result DeviceClaimResponse :=
  match o with
  | Err e => Err ("claim_device request failed: " +:+ e)
  | Ok r =>
      match Body r with
      | None => Err ("failed to read response: " +:+ closed_body)
      | Some b =>
          if 400 <=? StatusCode r then Err ("claim_device HTTP " +:+ itoa (StatusCode r) +:+ ": " +:+ body_text b)
          else
            match Unmarshal_struct (mkClaimResponse false "" "" "" "" "") decodeClaimResponse (body_json b) with
            | (_, Some e) => Err ("invalid JSON from claim_device: " +:+ e +:+ " | body=" +:+ body_text b)
            | (c, None) =>
                if negb (dc_Ok c) then Err ("device claim rejected: " +:+ dc_Error c +:+ " | full_response=" +:+ body_text b)
                else if dc_DeviceID c =?s "" then Err ("missing device_id in response: " +:+ body_text b)
                else if dc_AgentToken c =?s "" then Err ("missing agent_token in response: " +:+ body_text b)
                else Ok c
            end
      end
  end.

(** The answer of the server to a registration. *)
Definition register (claimCode : string) : result DeviceClaimResponse :=
  match claim_code claimCode with
  | Err e => Err e
  | Ok code =>
      match claim_payload code with
      | Err e => Err e
      | Ok payload =>
          match claim_request payload with
          | Err e => Err e
          | Ok q => claim_answer (reg_server R q)
          end
      end
  end.

Definition device_of (c : DeviceClaimResponse) : Device :=
  mkDevice (dc_DeviceID c) (dc_AgentToken c) (dc_OrgID c) (reg_name R) (reg_now R).

(** The device of the identity file, if its token is in the store. *)
Definition existing_device (w : world) : world * option Device :=
  match LoadIdentity w with
  | (w, (id, _, None)) =>
      if DeviceID id =?s "" then (w, None)
      else match manager_Load (GetTokenStore E) (DeviceID id) w with
           | (w, Ok token) =>
               (w, if token =?s "" then None else Some (mkDevice (DeviceID id) token (OrgID id) "" (RegisteredAt id)))
           | (w, Err _) => (w, None)
           end
  | (w, (_, _, Some _)) => (w, None)
  end.

Definition ClaimDevice (claimCode : string) (w : world) : world * result Device :=
  let '(w, _) := MigrateLegacyDevice w in
  match existing_device w with
  | (w, Some d) => (w, Ok d)
  | (w, None) =>
      match register claimCode with
      | Err e => (w, Err e)
      | Ok c =>
          let device := device_of c in
          match SaveIdentity (mkIdentity (dev_ID device) (dev_OrgID device) (ClaimedAt device)) w with
          | (w, Some e) => (w, Err ("failed saving identity: " +:+ e))
          | (w, None) => ((SaveToken E (dev_ID device) (dev_Token device) w).1, Ok device)
          end
      end
  end.

(** ** The start of the agent

    [main] validates a stored token with a heartbeat; [validate] is its answer.
    [None] is [log.Fatal]. *)
Context (validate : Identity -> string -> result HealthPolicyResponse).

Definition claim_or_die (claimCode : string) (w : world) : world * option (Identity * string) :=
  match ClaimDevice claimCode w with
  | (w, Err _) => (w, None)
  | (w, Ok d) => (w, Some (mkIdentity (dev_ID d) (dev_OrgID d) zero_time, dev_Token d))
  end.

Definition establish_identity (claimCode : string) (w : world) : world * option (Identity * string) :=
  match LoadIdentity w with
  | (w, (id, token, None)) =>
      if token =?s "" then claim_or_die claimCode w
      else match validate id token with
           | Ok _ => (w, Some (id, token))
           | Err _ => let '(w, _) := ClearToken E (DeviceID id) w in claim_or_die claimCode w
           end
  | (w, (_, _, Some _)) => claim_or_die claimCode w
  end.
End identity.

(** ** What a store promises *)

(** Devices that can be a file name, and tokens that trimming leaves alone. *)
Definition valid_id (d : string) : Prop := d <> "" /\ no_slash d.
Definition clean_token (t : string) : Prop := t <> "" /\ TrimSpace t = t.

(** The token of a device, as a load reports it. *)
Definition answer_of (v : option string) : result string :=
  match v with Some t => Ok t | None => Err ErrTokenNotFound end.

(** [val] is the token a state holds for a device: a load returns it, a save
    sets it, a clear removes it, and none of them concerns another device. *)
Class StoreLaws (st : TokenStore) (inv : world -> Prop) (val : world -> string -> option string) := {
  val_token w d t : val w d = Some t -> t <> "";
  law_load w d : inv w -> valid_id d ->
    exists w', ts_Load st d w = (w', answer_of (val w d)) /\ inv w' /\ forall d', val w' d' = val w d';
  law_save w d t : inv w -> valid_id d -> clean_token t ->
    exists w', ts_Save st d t w = (w', None) /\ inv w' /\ val w' d = Some t /\
      forall d', valid_id d' -> d' <> d -> val w' d' = val w d';
  law_clear w d : inv w -> valid_id d ->
    exists w', ts_Clear st d w = (w', None) /\ inv w' /\ val w' d = None /\
      forall d', valid_id d' -> d' <> d -> val w' d' = val w d' }.

(** The operations of a store leave the states of another alone. *)
Class Separate (st : TokenStore) (inv : world -> Prop) (val : world -> string -> option string) := {
  sep_load w d : inv w -> inv (ts_Load st d w).1 /\ forall d', val (ts_Load st d w).1 d' = val w d';
  sep_save w d t : inv w -> inv (ts_Save st d t w).1 /\ forall d', val (ts_Save st d t w).1 d' = val w d';
  sep_clear w d : inv w -> inv (ts_Clear st d w).1 /\ forall d', val (ts_Clear st d w).1 d' = val w d' }.

(** *** The manager, over any stores that keep the promise *)

Definition manager_store (m : TokenStoreManager) : TokenStore :=
  mkStore (manager_Save m) (manager_Load m) (manager_Clear m) (manager_Name m).

Lemma loaded_answer v : (forall t, v = Some t -> t <> "") -> loaded (answer_of v) = v.
Proof. destruct v as [t|]; [|done]. intros H. cbn [answer_of loaded]. by rewrite (eqb_neq_s t) by (by apply H). Qed.

#[export] Instance single_store_laws st inv val :
  StoreLaws st inv val -> StoreLaws (manager_store (mkManager st None false)) inv val.
Proof.
  intros L. split; cbn [manager_store ts_Load ts_Save ts_Clear].
  - apply L.
  - intros w d Hw Hd. destruct (law_load w d Hw Hd) as (w' & E & Hw' & Hv). exists w'.
    split; [|done]. unfold manager_Load. cbn [primary useKeyring fallback]. rewrite E, loaded_answer by by intros t; apply val_token.
    destruct (val w d) as [t|] eqn:Ev; [done|]. cbn [answer_of loaded]. done.
  - intros w d t Hw Hd Ht. destruct (law_save w d t Hw Hd Ht) as (w' & E & H). exists w'. split; [|done].
    unfold manager_Save. cbn [primary]. by rewrite (eqb_neq_s t), E by apply Ht.
  - intros w d Hw Hd. destruct (law_clear w d Hw Hd) as (w' & E & H). exists w'. split; [|done].
    unfold manager_Clear. cbn [primary fallback]. by rewrite (eqb_neq_s d), E by apply Hd.
Qed.

(** With a fallback, the token is that of the first store that has one. *)
Definition first_of (v1 v2 : world -> string -> option string) (w : world) (d : string) : option string :=
  match v1 w d with Some t => Some t | None => v2 w d end.

#[export] Instance fallback_store_laws st1 st2 inv1 inv2 val1 val2 :
  StoreLaws st1 inv1 val1 -> StoreLaws st2 inv2 val2 -> Separate st1 inv2 val2 -> Separate st2 inv1 val1 ->
  StoreLaws (manager_store (mkManager st1 (Some st2) true)) (fun w => inv1 w /\ inv2 w) (first_of val1 val2).
Proof.
  intros L1 L2 S12 S21. split; cbn [manager_store ts_Load ts_Save ts_Clear]; unfold first_of.
  - intros w d t. destruct (val1 w d) as [u|] eqn:E1; [intros [= <-]; exact (@val_token _ _ _ L1 w d u E1)|apply L2].
  - intros w d [Hw1 Hw2] Hd. destruct (law_load w d Hw1 Hd) as (w1 & E1 & Hi1 & Hv1).
    destruct (sep_load w d Hw2) as [Hi2 Hv2]. rewrite E1 in Hi2, Hv2. cbn [fst] in Hi2, Hv2.
    unfold manager_Load. cbn [primary useKeyring fallback]. rewrite E1, loaded_answer by by intros t; apply val_token.
    destruct (val1 w d) as [t|] eqn:Ev.
    { exists w1. split; [done|]. split; [done|]. intros d'. by rewrite Hv1, Hv2. }
    destruct (law_load w1 d Hi2 Hd) as (w2 & E2 & Hj2 & Hu2). destruct (sep_load w1 d Hi1) as [Hj1 Hu1].
    rewrite E2 in Hj1, Hu1. cbn [fst] in Hj1, Hu1. rewrite E2, loaded_answer by by intros t; apply val_token.
    exists w2. split; [rewrite Hv2; by destruct (val2 w d)|]. split; [done|]. intros d'. by rewrite Hu1, Hv1, Hu2, Hv2.
  - intros w d t [Hw1 Hw2] Hd Ht. destruct (law_save w d t Hw1 Hd Ht) as (w1 & E1 & Hi1 & Hv & Ho).
    destruct (sep_save w d t Hw2) as [Hi2 Hv2]. rewrite E1 in Hi2, Hv2. exists w1.
    unfold manager_Save. cbn [primary]. rewrite (eqb_neq_s t), E1 by apply Ht.
    split; [done|]. split; [done|]. rewrite Hv. split; [done|]. intros d' Hd' Hne. by rewrite Ho, Hv2.
  - intros w d [Hw1 Hw2] Hd. destruct (law_clear w d Hw1 Hd) as (w1 & E1 & Hi1 & Hv1 & Ho1).
    destruct (sep_clear w d Hw2) as [Hi2 Hs2]. rewrite E1 in Hi2, Hs2. cbn [fst] in Hi2, Hs2.
    destruct (law_clear w1 d Hi2 Hd) as (w2 & E2 & Hj2 & Hv2 & Ho2). destruct (sep_clear w1 d Hi1) as [Hj1 Hs1].
    rewrite E2 in Hj1, Hs1. cbn [fst] in Hj1, Hs1. exists w2.
    unfold manager_Clear. cbn [primary fallback]. rewrite (eqb_neq_s d), E1, E2 by apply Hd.
    split; [done|]. split; [done|]. split; [by rewrite Hs1, Hv1|]. intros d' Hd' Hne. by rewrite Hs1, Ho1, Ho2, Hs2.
Qed.

(** ** The two stores keep the promise *)

Section quiet_stores.
Context (E : environment).

(** Nothing fails. *)
Record quiet : Prop := {
  quiet_disk : disk_fault E = no_disk_faults;
  quiet_set d : keyring_Set_fault E d = None;
  quiet_get d : keyring_Get_fault E d = None;
  quiet_delete d : keyring_Delete_fault E d = None }.
Context (Q : quiet).

Definition nonblank (t : string) : option string := if t =?s "" then None else Some t.

Definition keyring_val (w : world) (d : string) : option string := keyring w !! d ≫= nonblank.

Lemma nonblank_some o t : o ≫= nonblank = Some t -> t <> "".
Proof. destruct o as [u|]; [|done]. cbn. unfold nonblank. destruct (eqb_spec_s u "") as [->|]; [done|]. by intros [= <-]. Qed.

#[export] Instance keyring_laws : StoreLaws (KeyringTokenStore E) (fun _ => True) keyring_val.
Proof.
  split; cbn [KeyringTokenStore ts_Load ts_Save ts_Clear]; unfold keyring_val.
  - intros w d t. apply nonblank_some.
  - intros w d _ [Hd _]. exists w. split; [|done]. unfold keyring_Load, keyring_Get.
    rewrite (eqb_neq_s d), (quiet_get Q) by done. destruct (keyring w !! d) as [t|]; [|done]. cbn. unfold nonblank.
    by destruct (t =?s "").
  - intros w d t _ [Hd _] [Ht _]. eexists. unfold keyring_Save, keyring_Get.
    rewrite (eqb_neq_s d), (eqb_neq_s t), (quiet_set Q), (quiet_get Q) by done. cbv zeta. cbn [orb with_keyring keyring].
    rewrite lookup_insert_eq, eqb_refl_s. split; [done|]. split; [done|]. cbn [with_keyring keyring]. rewrite lookup_insert_eq. cbn.
    unfold nonblank. rewrite (eqb_neq_s t) by done. split; [done|]. intros d' _ Hne. by rewrite lookup_insert_ne.
  - intros w d _ [Hd _]. eexists. unfold keyring_Clear. rewrite (eqb_neq_s d), (quiet_delete Q) by done.
    split; [done|]. split; [done|]. cbn [with_keyring keyring]. rewrite lookup_delete_eq. split; [done|].
    intros d' _ Hne. by rewrite lookup_delete_ne.
Qed.

(** *** Files *)

(** The directory of the tokens. *)
Context (l : list string).
Definition token_name (d : string) : string := d +:+ ".token".
Definition token_path (d : string) : string := abs_path (l ++ [token_name d]).

Class TokenDirectory : Prop := {
  td_plain : Forall plain_name l;
  td_path d w : valid_id d -> exists made, made ⊆ {[abs_path l]} /\
    tokenFilePath E d w = (with_fs (with_dirs (made ∪ dirs (w_fs w)) (w_fs w)) w, Ok (token_path d)) }.
Context {TD : TokenDirectory}.

Lemma plain_suffixed d s : valid_id d -> no_slash s -> s <> "." -> s <> "" -> (forall c, s <> String c "") -> plain_name (d +:+ s).
Proof.
  intros [Hd Hs] Hn H1 H2 H3. repeat split.
  - by destruct d.
  - intros H. destruct d as [|c d]; [done|]. rewrite append_cons in H. injection H as -> H. destruct d; [done|discriminate H].
  - intros H. destruct d as [|c d]; [done|]. rewrite append_cons in H. injection H as -> H.
    destruct d as [|c d]; [done|]. rewrite append_cons in H. injection H as -> H. destruct d; [done|discriminate H].
  - by apply no_slash_app.
Qed.

Lemma abs_snoc_append k x s : abs_path (k ++ [x]) +:+ s = abs_path (k ++ [x +:+ s]).
Proof.
  unfold abs_path. rewrite append_assoc. f_equal. destruct k as [|y k]; [done|].
  rewrite !join_with_app, !append_assoc by done. done.
Qed.

Lemma token_plain d : valid_id d -> plain_name (token_name d).
Proof. intros H. by apply plain_suffixed. Qed.

Lemma tmp_plain d : valid_id d -> plain_name (token_name d +:+ ".tmp").
Proof. intros H. unfold token_name. rewrite append_assoc. by apply plain_suffixed. Qed.

Lemma token_path_inj d d' : valid_id d -> valid_id d' -> token_path d = token_path d' -> d = d'.
Proof.
  intros Hd Hd' H. pose proof td_plain. apply abs_path_inj in H.
  - apply app_inj_tail in H as [_ H]. by apply append_inj_r in H.
  - apply Forall_snoc; [done|by apply token_plain].
  - apply Forall_snoc; [done|by apply token_plain].
Qed.

Lemma token_path_dir d : valid_id d -> token_path d <> abs_path l.
Proof.
  intros Hd H. pose proof td_plain. apply abs_path_inj in H; [|apply Forall_snoc; [done|by apply token_plain]|done].
  apply (f_equal length) in H. rewrite length_app in H. cbn [length] in H. lia.
Qed.

Lemma tmp_path_dir d : valid_id d -> token_path d +:+ ".tmp" <> abs_path l.
Proof.
  intros Hd H. pose proof td_plain. unfold token_path in H. rewrite abs_snoc_append in H.
  apply abs_path_inj in H; [|apply Forall_snoc; [done|by apply tmp_plain]|done].
  apply (f_equal length) in H. rewrite length_app in H. cbn [length] in H. lia.
Qed.

Lemma append_last s t c d : s +:+ String c "" = t +:+ String d "" -> s = t /\ c = d.
Proof.
  revert t. induction s as [|x s IH]; intros [|y t] H; cbn in H; simplify_eq; [done|by destruct t|by destruct s|].
  match goal with H : _ = _ |- _ => by apply IH in H as [-> ->] end.
Qed.

Lemma tmp_path_token d d' : valid_id d -> valid_id d' -> token_path d +:+ ".tmp" <> token_path d'.
Proof.
  intros Hd Hd' H. pose proof td_plain. unfold token_path in H. rewrite abs_snoc_append in H. apply abs_path_inj in H.
  - apply app_inj_tail in H as [_ H]. unfold token_name in H.
    change ".tmp" with (".tm" +:+ "p") in H. change ".token" with (".toke" +:+ "n") in H at 2.
    rewrite <- !append_assoc in H. by apply append_last in H as [_ ?].
  - apply Forall_snoc; [done|by apply tmp_plain].
  - apply Forall_snoc; [done|by apply token_plain].
Qed.

Definition file_val (w : world) (d : string) : option string :=
  files (w_fs w) !! token_path d ≫= (fun data => nonblank (TrimSpace data)).

(** No directory has the name of a token file or of its temporary. *)
Definition file_inv (w : world) : Prop :=
  forall d, valid_id d -> (token_path d ∉ dirs (w_fs w)) /\ (token_path d +:+ ".tmp" ∉ dirs (w_fs w)).

Lemma inv_mkdir made w : made ⊆ {[abs_path l]} -> file_inv w ->
  file_inv (with_fs (with_dirs (made ∪ dirs (w_fs w)) (w_fs w)) w).
Proof.
  intros Hm Hw d Hd. destruct (Hw d Hd) as [H1 H2]. cbn [with_fs w_fs with_dirs dirs].
  pose proof (token_path_dir d Hd). pose proof (tmp_path_dir d Hd). set_solver.
Qed.

(** A change of the directories alone, or of another file, concerns no token. *)
Lemma file_val_files w w' d : files (w_fs w') = files (w_fs w) -> file_val w' d = file_val w d.
Proof. intros H. unfold file_val. by rewrite H. Qed.

Lemma read_token path w : (path ∉ dirs (w_fs w)) ->
  os_ReadFile (disk_fault E) path (w_fs w) =
    match files (w_fs w) !! path with Some data => Ok data | None => Err ("open " +:+ path +:+ ": no such file or directory") end.
Proof.
  intros H. unfold os_ReadFile, os_Open. rewrite (quiet_disk Q). cbn [no_disk_faults f_open].
  destruct (files (w_fs w) !! path); [done|]. by rewrite decide_False.
Qed.

Lemma file_load_runs w d : file_inv w -> valid_id d ->
  exists w', file_Load E d w = (w', answer_of (file_val w d)) /\ file_inv w' /\ files (w_fs w') = files (w_fs w) /\
    dirs (w_fs w') ⊆ {[abs_path l]} ∪ dirs (w_fs w).
Proof.
  intros Hw Hd. pose proof Hd as [Hne _]. destruct (td_path d w Hd) as (made & Hm & Ep).
  unfold file_Load. rewrite (eqb_neq_s d), Ep by done.
  pose proof (inv_mkdir made w Hm Hw) as Hw'. set (w1 := with_fs _ w) in *.
  assert (Hf : files (w_fs w1) = files (w_fs w)) by done. exists w1. split; [|split; [done|]; split; [done|cbn; set_solver]]. f_equal.
  rewrite read_token by apply (Hw' d Hd). unfold file_val. rewrite Hf. unfold not_exist. rewrite (quiet_disk Q), Hf.
  cbn [no_disk_faults f_open]. destruct (files (w_fs w) !! token_path d) as [data|]; cbn.
  - unfold nonblank. by destruct (TrimSpace data =?s "").
  - rewrite bool_decide_eq_false_2; [done|]. apply (Hw' d Hd).
Qed.

Lemma file_clear_runs w d : file_inv w -> valid_id d ->
  exists w', file_Clear E d w = (w', None) /\ file_inv w' /\ files (w_fs w') = delete (token_path d) (files (w_fs w)) /\
    dirs (w_fs w') ⊆ {[abs_path l]} ∪ dirs (w_fs w).
Proof.
  intros Hw Hd. pose proof Hd as [Hne _]. destruct (td_path d w Hd) as (made & Hm & Ep).
  unfold file_Clear. rewrite (eqb_neq_s d), Ep by done.
  pose proof (inv_mkdir made w Hm Hw) as Hw'. set (w1 := with_fs _ w) in *.
  assert (Hf : files (w_fs w1) = files (w_fs w)) by done.
  unfold remove_file. rewrite (quiet_disk Q). cbn [no_disk_faults f_remove]. unfold os_Remove. rewrite Hf.
  destruct (files (w_fs w) !! token_path d) as [data|] eqn:Ed.
  - eexists. split; [done|]. split; [done|]. split; [done|]. cbn. set_solver.
  - assert (Hemp : empty_dir (token_path d) (w_fs w1) = false).
    { unfold empty_dir. by rewrite bool_decide_eq_false_2 by apply (Hw' d Hd). }
    rewrite Hemp, decide_False by apply (Hw' d Hd). exists w1. rewrite delete_id by done. split; [done|]. split; [done|]. split; [done|]. cbn. set_solver.
Qed.

Lemma file_save_runs w d t : file_inv w -> valid_id d -> t <> "" ->
  exists w', file_Save E d t w = (w', None) /\ file_inv w' /\
    files (w_fs w') = <[token_path d := t]> (delete (token_path d +:+ ".tmp") (files (w_fs w))).
Proof.
  intros Hw Hd Ht. pose proof Hd as [Hne _]. pose proof td_plain as Hl. destruct (td_path d w Hd) as (made & Hm & Ep).
  unfold file_Save. rewrite (eqb_neq_s d), (eqb_neq_s t), Ep by done. cbn [orb].
  pose proof (inv_mkdir made w Hm Hw) as Hw'. set (w1 := with_fs _ w) in *.
  assert (Hf : files (w_fs w1) = files (w_fs w)) by done.
  assert (Hdir : Dir (token_path d) = abs_path l) by (apply Dir_abs; [done|by apply token_plain]).
  unfold mkdir_all, os_MkdirAll. rewrite (quiet_disk Q), Hdir. cbn [no_disk_faults f_mkdir].
  pose proof (inv_mkdir {[abs_path l]} w1 (reflexivity _) Hw') as Hw''. set (w2 := with_fs _ w1) in *.
  destruct (Hw'' d Hd) as [H1 H2]. unfold os_WriteFile.
  assert (Htmp : token_path d +:+ ".tmp" = abs_path (l ++ [token_name d +:+ ".tmp"])) by apply abs_snoc_append.
  rewrite Htmp, Dir_abs, <- Htmp by (done || by apply tmp_plain).
  rewrite decide_True by (cbn; set_solver).
  rewrite write_reader_no_faults by done. unfold os_Rename. cbn [no_disk_faults f_rename with_files files].
  rewrite lookup_insert_eq, decide_False by done. eexists. split; [done|]. split; [exact Hw''|].
  cbn [with_fs w_fs with_files files]. by rewrite delete_insert_eq.
Qed.

Lemma trimmed_val t : clean_token t -> nonblank (TrimSpace t) = Some t.
Proof. intros [Ht E']. unfold nonblank. by rewrite E', eqb_neq_s. Qed.

#[export] Instance file_laws : StoreLaws (FileTokenStore E) file_inv file_val.
Proof.
  split; cbn [FileTokenStore ts_Load ts_Save ts_Clear].
  - intros w d t. unfold file_val. destruct (files (w_fs w) !! token_path d) as [u|]; [|done]. cbn. apply (nonblank_some (Some _)).
  - intros w d Hw Hd. destruct (file_load_runs w d Hw Hd) as (w' & H & Hi & Hf & _). exists w'.
    split; [done|]. split; [done|]. intros d'. by apply file_val_files.
  - intros w d t Hw Hd Ht. destruct (file_save_runs w d t Hw Hd) as (w' & H & Hi & Hf); [apply Ht|]. exists w'.
    split; [done|]. split; [done|]. unfold file_val. rewrite Hf, lookup_insert_eq. cbn. split; [by apply trimmed_val|].
    intros d' Hd' Hne. rewrite lookup_insert_ne by (intros He; apply Hne; symmetry; by apply token_path_inj).
    by rewrite lookup_delete_ne by by apply tmp_path_token.
  - intros w d Hw Hd. destruct (file_clear_runs w d Hw Hd) as (w' & H & Hi & Hf & _). exists w'.
    split; [done|]. split; [done|]. unfold file_val. rewrite Hf, lookup_delete_eq. split; [done|].
    intros d' Hd' Hne. by rewrite lookup_delete_ne by (intros He; apply Hne; symmetry; by apply token_path_inj).
Qed.
End quiet_stores.

(** *** Their states are disjoint *)

Lemma remove_file_keyring E path w : keyring (remove_file E path w).1 = keyring w.
Proof. unfold remove_file. by repeat case_match. Qed.

Lemma mkdir_keyring E path w : keyring (mkdir_all E path w).1 = keyring w.
Proof. unfold mkdir_all. by destruct (os_MkdirAll _ _ _). Qed.

Lemma token_path_keyring E d w : keyring (tokenFilePath E d w).1 = keyring w.
Proof.
  unfold tokenFilePath. destruct (negb _); [done|].
  pose proof (mkdir_keyring E (Join [HOME E; ".sentra"; "tokens"]) w) as H.
  destruct (mkdir_all E _ w) as [w' [e|]]; exact H.
Qed.

Lemma file_keyring E d t w :
  keyring (file_Load E d w).1 = keyring w /\ keyring (file_Save E d t w).1 = keyring w /\ keyring (file_Clear E d w).1 = keyring w.
Proof.
  pose proof (token_path_keyring E d w) as Hp. unfold file_Load, file_Save, file_Clear.
  destruct (tokenFilePath E d w) as [w1 [path|e]]; cbn [fst] in Hp; split_and!.
  - by destruct (d =?s "").
  - destruct (_ || _); [done|]. pose proof (mkdir_keyring E (Dir path) w1) as Hm.
    destruct (mkdir_all E (Dir path) w1) as [w2 [e|]]; cbn [fst] in Hm; [cbn [fst]; congruence|].
    destruct (os_WriteFile _ _ _ _) as [s [e|]]; [cbn [fst]; rewrite remove_file_keyring; cbn; congruence|].
    destruct (os_Rename _ _ _ _) as [s' [e|]]; [cbn [fst]; rewrite remove_file_keyring; cbn; congruence|cbn; congruence].
  - destruct (d =?s ""); [done|]. pose proof (remove_file_keyring E path w1) as Hr.
    destruct (remove_file E path w1) as [w2 [[e|]|]]; cbn [fst] in *; congruence.
  - by destruct (d =?s "").
  - by destruct (_ || _).
  - by destruct (d =?s "").
Qed.

Lemma keyring_fs E d t w :
  w_fs (keyring_Load E d w).1 = w_fs w /\ w_fs (keyring_Save E d t w).1 = w_fs w /\ w_fs (keyring_Clear E d w).1 = w_fs w.
Proof. unfold keyring_Load, keyring_Save, keyring_Clear. split_and!; by repeat case_match. Qed.

#[export] Instance file_separate E : Separate (FileTokenStore E) (fun _ => True) keyring_val.
Proof.
  split; intros; cbn; (split; [done|]); intros d'; unfold keyring_val; f_equal; f_equal.
  - apply (proj1 (file_keyring E d "" w)).
  - apply (proj1 (proj2 (file_keyring E d t w))).
  - apply (proj2 (proj2 (file_keyring E d "" w))).
Qed.

#[export] Instance keyring_separate E l : Separate (KeyringTokenStore E) (file_inv l) (file_val l).
Proof.
  assert (H : forall w w', w_fs w' = w_fs w -> file_inv l w -> file_inv l w' /\ forall d', file_val l w' d' = file_val l w d').
  { intros w w' Hf Hw. split; [|intros d'; unfold file_val; by rewrite Hf]. intros d Hd. rewrite Hf. by apply Hw. }
  split; intros; cbn; apply H; try done.
  - apply (proj1 (keyring_fs E d "" w)).
  - apply (proj1 (proj2 (keyring_fs E d t w))).
  - apply (proj2 (proj2 (keyring_fs E d "" w))).
Qed.

(** *** Where the tokens are *)

(** Below the home directory, unless a path is configured. *)
Lemma default_directory E h : SENTRA_TOKEN_PATH E = "" -> HOME E = abs_path h -> Forall plain_name h -> quiet E ->
  TokenDirectory E (h ++ [".sentra"; "tokens"]).
Proof.
  intros Hp Hh Hl Q. assert (Hfs : Forall plain_name [".sentra"; "tokens"]) by (repeat constructor; done).
  split; [by apply Forall_app|]. intros d w Hd. exists {[abs_path (h ++ [".sentra"; "tokens"])]}. split; [done|].
  unfold tokenFilePath. rewrite Hp, Hh. cbn [String.eqb negb].
  change (Join [abs_path h; ".sentra"; "tokens"]) with (Join (abs_path h :: [".sentra"; "tokens"])).
  rewrite Join_abs_list by done. unfold mkdir_all, os_MkdirAll. rewrite (quiet_disk E Q). cbn [no_disk_faults f_mkdir].
  rewrite Join_abs; [done|by apply Forall_app|by apply token_plain].
Qed.

(** Beside a configured path that does not name the device. *)
Lemma configured_directory E l : IsAbs (SENTRA_TOKEN_PATH E) = true -> strings_Contains (SENTRA_TOKEN_PATH E) "{device_id}" = false ->
  Forall plain_name l -> Dir (SENTRA_TOKEN_PATH E) = abs_path l -> TokenDirectory E l.
Proof.
  intros Habs Hc Hl Hdir. split; [done|]. intros d w Hd. exists ∅. split; [done|]. unfold tokenFilePath.
  destruct (eqb_spec_s (SENTRA_TOKEN_PATH E) "") as [He|_]; [by rewrite He in Habs|].
  rewrite Hc, (eqb_neq_s d), Hdir by apply Hd. cbn [negb andb]. rewrite Join_abs by (done || by apply token_plain).
  rewrite (left_id_L ∅ union). f_equal. by destruct w as [[? ? ? ?] ?].
Qed.

(** *** The store of the agent *)

Definition uses_keyring (E : environment) : bool := strings_ToLower (SENTRA_USE_KEYRING E) =?s "true".

Definition token_of (E : environment) (l : list string) : world -> string -> option string :=
  if uses_keyring E then first_of keyring_val (file_val l) else file_val l.
Definition store_inv (E : environment) (l : list string) : world -> Prop :=
  if uses_keyring E then fun w => True /\ file_inv l w else file_inv l.

Lemma GetTokenStore_uses E : GetTokenStore E =
  if uses_keyring E then mkManager (KeyringTokenStore E) (Some (FileTokenStore E)) true else mkManager (FileTokenStore E) None false.
Proof.
  unfold GetTokenStore, NewTokenStoreManager, uses_keyring. destruct (eqb_spec_s (strings_ToLower (SENTRA_USE_KEYRING E)) "") as [->|].
  - by rewrite andb_true_r; destruct (GOOS E =?s "darwin").
  - by rewrite andb_false_r.
Qed.

Lemma agent_store_laws E l : quiet E -> TokenDirectory E l ->
  StoreLaws (manager_store (GetTokenStore E)) (store_inv E l) (token_of E l).
Proof.
  intros Q TD. rewrite GetTokenStore_uses. unfold store_inv, token_of. destruct (uses_keyring E).
  - apply fallback_store_laws; [by apply keyring_laws|by apply file_laws|apply _..].
  - apply single_store_laws. by apply file_laws.
Qed.

(** C30.  A saved token is loaded again, from the keyring or from its file, until it
    is cleared, and then no longer; the tokens of other devices stay as they
    are. *)
Theorem token_round_trip E l w d t :
  quiet E -> TokenDirectory E l -> file_inv l w -> valid_id d -> clean_token t ->
  exists w1, SaveToken E d t w = (w1, None) /\
    (manager_Load (GetTokenStore E) d w1).2 = Ok t /\
    (forall d', valid_id d' -> d' <> d -> (manager_Load (GetTokenStore E) d' w1).2 = (manager_Load (GetTokenStore E) d' w).2) /\
    exists w2, ClearToken E d w1 = (w2, None) /\
      (manager_Load (GetTokenStore E) d w2).2 = Err ErrTokenNotFound /\
      (forall d', valid_id d' -> d' <> d -> (manager_Load (GetTokenStore E) d' w2).2 = (manager_Load (GetTokenStore E) d' w).2).
Proof.
  intros Q TD Hw Hd Ht. pose proof (agent_store_laws E l Q TD) as L. set (val := token_of E l) in *.
  assert (Hi : store_inv E l w) by (unfold store_inv; by destruct (uses_keyring E)).
  assert (Hload : forall w' d', store_inv E l w' -> valid_id d' -> (manager_Load (GetTokenStore E) d' w').2 = answer_of (val w' d')).
  { intros w' d' Hw' Hd'. destruct (law_load w' d' Hw' Hd') as (w'' & H & _). cbn in H. by rewrite H. }
  destruct (law_save w d t Hi Hd Ht) as (w1 & H1 & Hi1 & Hv1 & Ho1).
  destruct (law_clear w1 d Hi1 Hd) as (w2 & H2 & Hi2 & Hv2 & Ho2).
  exists w1. unfold SaveToken. rewrite (eqb_neq_s t) by apply Ht. split; [exact H1|].
  rewrite !Hload, Hv1 by done. split; [done|]. split; [intros d' Hd' Hne; by rewrite !Hload, Ho1|].
  exists w2. split; [exact H2|]. rewrite Hload, Hv2 by done. split; [done|].
  intros d' Hd' Hne. by rewrite !Hload, Ho2, Ho1.
Qed.

(** An agent with a keyring and a home directory. *)
Definition demo_environment (keyring : string) (set_fault delete_fault : string -> error) : environment :=
  mkEnvironment keyring "" "" "/home/ann" "linux" no_disk_faults set_fault (fun _ => None) delete_fault.
Definition demo_fs : fs := mkFS ∅ {["/home/ann"]} ∅ ∅.

Lemma demo_quiet k : quiet (demo_environment k (fun _ => None) (fun _ => None)).
Proof. by split. Qed.

Lemma demo_home_plain : Forall plain_name ["home"; "ann"].
Proof. by repeat constructor. Qed.

Lemma demo_inv k : file_inv ["home"; "ann"; ".sentra"; "tokens"] (mkWorld demo_fs k).
Proof.
  intros d Hd. cbn [w_fs demo_fs dirs].
  assert (H : forall x, plain_name x -> abs_path (["home"; "ann"; ".sentra"; "tokens"] ++ [x]) ∉ ({["/home/ann"]} : gset string)).
  { intros x Hx He%elem_of_singleton. apply (abs_path_inj _ ["home"; "ann"]) in He; [discriminate He| |apply demo_home_plain].
    by repeat constructor; try apply Hx. }
  split; [apply H; by apply token_plain|]. unfold token_path. rewrite abs_snoc_append. apply H. by apply tmp_plain.
Qed.

Lemma token_round_trip_witness :
  let E := demo_environment "TRUE" (fun _ => None) (fun _ => None) in
  let w := mkWorld demo_fs ∅ in
  exists w1, SaveToken E "d1" "secret" w = (w1, None) /\ (manager_Load (GetTokenStore E) "d1" w1).2 = Ok "secret".
Proof.
  intros E w.
  destruct (token_round_trip E ["home"; "ann"; ".sentra"; "tokens"] w "d1" "secret" (demo_quiet _)
    (default_directory E ["home"; "ann"] eq_refl eq_refl demo_home_plain (demo_quiet _)) (demo_inv _)
    ltac:(by split) ltac:(by split)) as (w1 & H1 & H2 & _).
  exists w1. split; [exact H1|exact H2].
Defined.

(** ** The start of the agent *)

(** What loads and clears leave on the disk: nothing new but the directory of
    the tokens. *)
Definition shrunk (l : list string) (s s' : fs) : Prop :=
  files s' ⊆ files s /\ dirs s' ⊆ {[abs_path l]} ∪ dirs s.

#[export] Instance shrunk_preorder l : PreOrder (shrunk l).
Proof. split; [intros s; split; [done|set_solver]|]. intros a b c [? ?] [? ?]. split; [by transitivity (files b)|set_solver]. Qed.

Section start.
Context (E : environment) (l : list string) (Q : quiet E) (TD : TokenDirectory E l).

Lemma store_inv_file w : file_inv l w -> store_inv E l w.
Proof. intros H. unfold store_inv. by destruct (uses_keyring E). Qed.

Lemma store_inv_iff w : store_inv E l w <-> file_inv l w.
Proof. unfold store_inv. destruct (uses_keyring E); [|done]. split; [by intros [_ H]|done]. Qed.

Lemma manager_load_runs w d : file_inv l w -> valid_id d ->
  exists w', manager_Load (GetTokenStore E) d w = (w', answer_of (token_of E l w d)) /\ file_inv l w' /\
    (forall d', token_of E l w' d' = token_of E l w d') /\ shrunk l (w_fs w) (w_fs w').
Proof.
  intros Hw Hd. pose proof (agent_store_laws E l Q TD) as L.
  destruct (law_load w d (store_inv_file w Hw) Hd) as (w' & H & Hi & Hv). exists w'.
  split; [exact H|]. split; [by apply store_inv_iff|]. split; [done|].
  assert (Hfile : forall u, file_inv l u -> shrunk l (w_fs u) (w_fs (file_Load E d u).1)).
  { intros u Hu. destruct (file_load_runs E Q l u d Hu Hd) as (u' & -> & _ & Hf & Hds). cbn [fst]. split; [by rewrite Hf|done]. }
  cbn [manager_store ts_Load] in H. rewrite GetTokenStore_uses in H. unfold manager_Load in H. destruct (uses_keyring E).
  - cbn [primary fallback useKeyring KeyringTokenStore FileTokenStore ts_Load] in H.
    pose proof (proj1 (keyring_fs E d "" w)) as Hk. destruct (keyring_Load E d w) as [w1 r]. cbn [fst] in Hk.
    destruct (loaded r); [injection H as <- _; by rewrite Hk|].
    assert (Hw1 : file_inv l w1) by (intros x Hx; rewrite Hk; by apply Hw).
    specialize (Hfile w1 Hw1). destruct (file_Load E d w1) as [w2 r2]. injection H as <- _. by rewrite <- Hk.
  - cbn [primary fallback useKeyring FileTokenStore ts_Load] in H. specialize (Hfile w Hw).
    destruct (file_Load E d w) as [w1 r]. destruct (loaded r); injection H as <- _; exact Hfile.
Qed.

Lemma manager_clear_runs w d : file_inv l w -> valid_id d ->
  exists w', ClearToken E d w = (w', None) /\ file_inv l w' /\ token_of E l w' d = None /\ shrunk l (w_fs w) (w_fs w').
Proof.
  intros Hw Hd. pose proof (agent_store_laws E l Q TD) as L.
  destruct (law_clear w d (store_inv_file w Hw) Hd) as (w' & H & Hi & Hv & _). exists w'.
  split; [exact H|]. split; [by apply store_inv_iff|]. split; [done|].
  assert (Hfile : forall u, file_inv l u -> shrunk l (w_fs u) (w_fs (file_Clear E d u).1)).
  { intros u Hu. destruct (file_clear_runs E Q l u d Hu Hd) as (u' & -> & _ & Hf & Hds).
    split; [cbn [fst]; rewrite Hf; apply delete_subseteq|done]. }
  cbn [manager_store ts_Clear] in H. rewrite GetTokenStore_uses in H. unfold manager_Clear in H.
  rewrite (eqb_neq_s d) in H by apply Hd. destruct (uses_keyring E).
  - cbn [primary fallback KeyringTokenStore FileTokenStore ts_Clear] in H.
    pose proof (proj2 (proj2 (keyring_fs E d "" w))) as Hk. destruct (keyring_Clear E d w) as [w1 r]. cbn [fst] in Hk.
    assert (Hw1 : file_inv l w1) by (intros x Hx; rewrite Hk; by apply Hw).
    specialize (Hfile w1 Hw1). destruct (file_Clear E d w1) as [w2 r2]. injection H as <-. by rewrite <- Hk.
  - cbn [primary fallback FileTokenStore ts_Clear] in H. specialize (Hfile w Hw).
    destruct (file_Clear E d w) as [w1 r]. injection H as <-. exact Hfile.
Qed.

Lemma save_token_runs w d t : file_inv l w -> valid_id d -> clean_token t ->
  exists w', SaveToken E d t w = (w', None) /\ file_inv l w' /\ token_of E l w' d = Some t /\
    forall q, q <> token_path l d -> q <> token_path l d +:+ ".tmp" -> files (w_fs w') !! q = files (w_fs w) !! q.
Proof.
  intros Hw Hd Ht. pose proof (agent_store_laws E l Q TD) as L.
  destruct (law_save w d t (store_inv_file w Hw) Hd Ht) as (w' & H & Hi & Hv & _). exists w'.
  unfold SaveToken. rewrite (eqb_neq_s t) by apply Ht.
  split; [exact H|]. split; [by apply store_inv_iff|]. split; [done|]. intros q H1 H2.
  cbn [manager_store ts_Save] in H. rewrite GetTokenStore_uses in H. unfold manager_Save in H.
  rewrite (eqb_neq_s t) in H by apply Ht. destruct (uses_keyring E).
  - cbn [primary KeyringTokenStore ts_Save] in H. pose proof (proj1 (proj2 (keyring_fs E d t w))) as Hk.
    destruct (@law_save _ _ _ (keyring_laws E Q) w d t I Hd Ht) as (u & Eu & _). cbn [KeyringTokenStore ts_Save] in Eu.
    rewrite Eu in H, Hk. injection H as <-. cbn [fst] in Hk. by rewrite Hk.
  - cbn [primary FileTokenStore ts_Save] in H.
    destruct (file_save_runs E Q l w d t Hw Hd) as (u & Eu & _ & Hf); [apply Ht|]. rewrite Eu in H. injection H as <-.
    by rewrite Hf, lookup_insert_ne, lookup_delete_ne.
Qed.

(** *** Reading the identity *)

Context (parse : string -> RawMessage) (indent : json -> string) (valid_time : string -> bool).

Lemma ReadFile_files path s data : os_ReadFile (disk_fault E) path s = Ok data <-> files s !! path = Some data.
Proof.
  unfold os_ReadFile, os_Open. rewrite (quiet_disk E Q). cbn [no_disk_faults f_open].
  destruct (files s !! path) as [x|]; cbn [r_err r_data]; [split; by intros [= ->]|].
  by destruct (decide (path ∈ dirs s)).
Qed.

(** An identity that loads. *)
Record loads (w w' : world) (id : Identity) (token path data : string) : Prop := {
  ld_path : identityFilePath E = Ok path;
  ld_data : files (w_fs w) !! path = Some data;
  ld_id : Unmarshal_struct zeroIdentity (decodeIdentity valid_time) (parse data) = (id, None);
  ld_names : DeviceID id <> "" /\ OrgID id <> "";
  ld_token : manager_Load (GetTokenStore E) (DeviceID id) w = (w', Ok token);
  ld_there : token <> "" }.

Lemma LoadIdentity_loads w w' id token :
  LoadIdentity E parse valid_time w = (w', (id, token, None)) <-> exists path data, loads w w' id token path data.
Proof.
  unfold LoadIdentity. split.
  - destruct (identityFilePath E) as [path|] eqn:Hp; [|done].
    destruct (os_ReadFile _ path _) as [data|] eqn:Hr; [|done]. apply ReadFile_files in Hr.
    destruct (Unmarshal_struct _ _ _) as [i [e|]] eqn:Hu; [done|].
    destruct (eqb_spec_s (DeviceID i) "") as [|Hd]; [done|]. destruct (eqb_spec_s (OrgID i) "") as [|Ho]; [done|].
    destruct (manager_Load _ _ w) as [w1 [t|]] eqn:Hm; [|done]. destruct (eqb_spec_s t "") as [|Ht]; [done|].
    intros [= <- <- <-]. by exists path, data.
  - intros (path & data & [Hp Hf Hu [Hd Ho] Hm Ht]). rewrite Hp. apply ReadFile_files in Hf. rewrite Hf, Hu.
    rewrite (eqb_neq_s (DeviceID id)), (eqb_neq_s (OrgID id)), Hm, (eqb_neq_s token) by done. done.
Qed.

(** Without its token an identity is not used. *)
Lemma no_existing_device w id token w0 w1 path data :
  loads w0 w1 id token path data -> files (w_fs w) ⊆ files (w_fs w0) -> file_inv l w -> valid_id (DeviceID id) ->
  token_of E l w (DeviceID id) = None ->
  exists w', existing_device E parse valid_time w = (w', None) /\ file_inv l w' /\ token_of E l w' (DeviceID id) = None.
Proof.
  intros [Hp Hf Hu [Hd Ho] _ _] Hsub Hi Hv Hnone. unfold existing_device, LoadIdentity. rewrite Hp.
  destruct (os_ReadFile _ path (w_fs w)) as [data'|] eqn:Hr; [|by exists w].
  apply ReadFile_files in Hr. pose proof (lookup_weaken _ _ _ _ Hr Hsub) as Hd'. assert (data' = data) as -> by congruence.
  rewrite Hu. rewrite (eqb_neq_s (DeviceID id)), (eqb_neq_s (OrgID id)) by done.
  destruct (manager_load_runs w (DeviceID id) Hi Hv) as (w' & Hm & Hi' & Hv' & _). rewrite Hm, Hnone. cbn [answer_of].
  exists w'. by rewrite Hv'.
Qed.

(** *** Old tokens *)

Definition no_legacy (s : fs) : Prop :=
  Forall (fun p => files s !! p = None /\ (p ∉ dirs s) /\ p <> abs_path l) (legacyPaths (HOME E)).

Lemma no_legacy_shrunk s s' : shrunk l s s' -> no_legacy s -> no_legacy s'.
Proof.
  intros [Hf Hd] H. eapply Forall_impl; [exact H|]. intros p (H1 & H2 & H3). split_and!; [|set_solver|done].
  destruct (files s' !! p) as [x|] eqn:Ex; [|done]. apply (lookup_weaken _ (files s)) in Ex; [congruence|done].
Qed.

Lemma no_migration w : no_legacy (w_fs w) -> (MigrateLegacyDevice E parse valid_time w).1 = w.
Proof.
  intros H. unfold MigrateLegacyDevice, UserHomeDir. destruct (HOME E =?s ""); [done|].
  assert (He : existsb (fun p => exists_file E p w) (legacyPaths (HOME E)) = false); [|by rewrite He].
  apply not_true_is_false. intros (p & Hp & Hx)%existsb_elem_of. unfold no_legacy in H. rewrite Forall_forall in H.
  destruct (H p Hp) as (H1 & H2 & _). unfold exists_file, fileExists, os_Stat in Hx.
  rewrite (quiet_disk E Q) in Hx. cbn [no_disk_faults f_stat] in Hx. rewrite H1, decide_False in Hx; done.
Qed.

Context (R : registration) (validate : Identity -> string -> result HealthPolicyResponse).

(** A start whose validation fails: the token is cleared before a new one is
    asked for. *)
Record failed_start (claimCode : string) (w : world) (id : Identity) (token : string) : Prop := {
  fs_inv : file_inv l w;
  fs_loads : exists w1, LoadIdentity E parse valid_time w = (w1, (id, token, None));
  fs_id : valid_id (DeviceID id);
  fs_invalid : exists e, validate id token = Err e;
  fs_legacy : no_legacy (w_fs w);
  fs_refused : exists e, register R claimCode = Err e }.

Lemma start_forgets claimCode w id token : failed_start claimCode w id token ->
  exists w', establish_identity E parse indent valid_time R validate claimCode w = (w', None) /\
    (manager_Load (GetTokenStore E) (DeviceID id) w').2 = Err ErrTokenNotFound.
Proof.
  intros [Hw [w1 Hl] Hd [e Hv] Hleg [e' Hr]]. pose proof Hl as (path & data & L)%LoadIdentity_loads.
  unfold establish_identity. rewrite Hl, (eqb_neq_s token), Hv by apply L.
  destruct (manager_load_runs w (DeviceID id) Hw Hd) as (w1' & E1 & Hi1 & _ & Hs1).
  pose proof (ld_token _ _ _ _ _ _ L) as Et. rewrite Et in E1. injection E1 as <- _.
  destruct (manager_clear_runs w1 (DeviceID id) Hi1 Hd) as (w2 & E2 & Hi2 & Hn2 & Hs2). rewrite E2.
  assert (Hs : shrunk l (w_fs w) (w_fs w2)) by (by transitivity (w_fs w1)).
  unfold claim_or_die, ClaimDevice. pose proof (no_migration w2 (no_legacy_shrunk _ _ Hs Hleg)) as Hm.
  destruct (MigrateLegacyDevice E parse valid_time w2) as [w2' me]. cbn [fst] in Hm. subst w2'.
  destruct (no_existing_device w2 id token w w1 path data L) as (w3 & -> & Hi3 & Hn3); [apply Hs|done..|].
  rewrite Hr. exists w3. split; [done|].
  destruct (manager_load_runs w3 (DeviceID id) Hi3 Hd) as (w4 & -> & _). by rewrite Hn3.
Qed.
End start.

(** *** The validation of the token *)

Section validation.
Context (parse_float : string -> option float64) (fmt_float : float64 -> option string).
Context (url_error : string -> error) (network : HttpClient.http_request -> Z -> attempt_result).
Context (url anon : string).

Definition zero_heartbeat (device : string) : DeviceHeartbeat :=
  let zero := f64_of_Z 0 in
  mkHeartbeat (mkPolicyRequest device 0 0 zero zero zero false zero 0) "" zero zero 0 "" "" false false.

(** A heartbeat under the stored identity. *)
Definition validation (id : Identity) (token : string) : result HealthPolicyResponse :=
  let c := NewBackendClient url anon token (DeviceID id) (OrgID id) in
  default (Err "") (run_call url_error network c Err (SendDeviceHeartbeat parse_float fmt_float c (zero_heartbeat (DeviceID id)))).

(** Without the server no token is valid. *)
Lemma outage_invalid id token : (forall q n, transient (network q n) = true) -> exists e, validation id token = Err e.
Proof.
  intros Hout. unfold validation. set (c := NewBackendClient url anon token (DeviceID id) (OrgID id)).
  unfold SendDeviceHeartbeat, send. destruct (marshal_heartbeat _ _) as [j|e]; [|by exists e].
  cbn [run_call]. unfold PostWithHeaders, do_request, policy_answer.
  destruct (prepare url_error (httpc c) _ _ _ _) as [q|e]; [|by exists e]. unfold DoWithReq.
  destruct (retry_loop_spec (network q) (maxRetries (httpc c)) (Z.to_nat (maxRetries (httpc c) + 1)) 0 [])
    as (n & _ & -> & _); [done..|]. cbn [fst option_map default].
  destruct (typed_answer _ _ _ _ _ (surfaced (network q n))) as [v|e] eqn:Ea; [|by exists e].
  exfalso. apply typed_answer_ok in Ea as (r & b & (Er & Hs & _) & _). specialize (Hout q n). rewrite Er in Hout.
  apply Z.leb_le in Hout. lia.
Qed.
End validation.

(** C31.  An agent that is started while the control plane is out of reach loses its
    token: the heartbeat that is to validate the token fails, the failure is
    taken for an invalid token, the token is cleared, and the new registration
    fails as well. *)
Theorem start_in_an_outage_forgets_token E l parse indent valid_time R parse_float fmt_float url_error network url anon claimCode w w1 id token :
  quiet E -> TokenDirectory E l -> file_inv l w -> no_legacy E l (w_fs w) ->
  LoadIdentity E parse valid_time w = (w1, (id, token, None)) -> valid_id (DeviceID id) ->
  (forall q n, transient (network q n) = true) -> (forall q, exists e, reg_server R q = Err e) ->
  (manager_Load (GetTokenStore E) (DeviceID id) w).2 = Ok token /\
  exists w', establish_identity E parse indent valid_time R (validation parse_float fmt_float url_error network url anon) claimCode w = (w', None) /\
    (manager_Load (GetTokenStore E) (DeviceID id) w').2 = Err ErrTokenNotFound.
Proof.
  intros Q TD Hw Hleg Hl Hd Hout Hreg. split.
  - pose proof Hl as (path & data & L)%(LoadIdentity_loads E Q). by rewrite (ld_token _ _ _ _ _ _ _ _ _ L).
  - apply (start_forgets E l Q TD parse indent valid_time R _ claimCode w id token). split; [done|by exists w1|done| |done|].
    + by apply outage_invalid.
    + unfold register. destruct (claim_code R claimCode); [|by eexists]. destruct (claim_payload R _); [|by eexists].
      destruct (claim_request R _) as [q|]; [|by eexists]. destruct (Hreg q) as [e ->]. by eexists.
Qed.

(** *** A registration is remembered *)

Section registered.
Context (E : environment) (h : list string) (Q : quiet E).
Context (Hh : Forall plain_name h) (Hhome : HOME E = abs_path h) (Hdefault : SENTRA_TOKEN_PATH E = "" /\ SENTRA_HOME E = "").
Context (parse : string -> RawMessage) (indent : json -> string) (valid_time : string -> bool).

Abbreviation sentra := (abs_path (h ++ [".sentra"])).
Definition identity_path : string := abs_path (h ++ [".sentra"; "identity.json"]).
Abbreviation tokens := (h ++ [".sentra"; "tokens"]).

Lemma identity_path_ok : identityFilePath E = Ok identity_path /\ Dir identity_path = sentra.
Proof.
  destruct Hdefault as [_ Hs]. unfold identityFilePath, UserHomeDir, identity_path. rewrite Hs, Hhome.
  assert (Hne : (abs_path h =?s "") = false) by by destruct h.
  cbn [String.eqb negb]. rewrite Hne. split.
  - change (Join [abs_path h; ".sentra"; "identity.json"]) with (Join (abs_path h :: [".sentra"; "identity.json"])).
    rewrite Join_abs_list; [done|done|by repeat constructor].
  - change [".sentra"; "identity.json"] with ([".sentra"] ++ ["identity.json"]). rewrite app_assoc.
    apply Dir_abs; [|done]. apply Forall_snoc; [done|by repeat split].
Qed.

Lemma names_apart x k : Forall plain_name k -> plain_name x -> length k <> 3%nat -> abs_path (tokens ++ [x]) <> abs_path (h ++ k).
Proof.
  intros Hk Hx Hlen E'. apply abs_path_inj in E'.
  - apply (f_equal length) in E'. rewrite !length_app in E'. cbn [length] in E'. lia.
  - apply Forall_snoc; [|done]. apply Forall_app. split; [done|by repeat constructor].
  - by apply Forall_app.
Qed.

(** After a registration the next start finds the identity and the token. *)
Lemma registration_loads id token w : parse (indent (marshal_identity id)) = Raw (marshal_identity id) -> file_inv tokens w -> (identity_path ∉ dirs (w_fs w)) ->
  valid_id (DeviceID id) -> OrgID id <> "" -> valid_time (RegisteredAt id) = true -> clean_token token ->
  exists w1 w2, SaveIdentity E indent id w = (w1, None) /\ SaveToken E (DeviceID id) token w1 = (w2, None) /\
    exists w3, LoadIdentity E parse valid_time w2 = (w3, (id, token, None)).
Proof.
  intros Hparse Hw Hi Hd Ho Ht Htok. destruct identity_path_ok as [Hp Hdir].
  assert (TD : TokenDirectory E tokens) by (apply (default_directory E h); [apply Hdefault|done..]).
  assert (Hks : Forall plain_name [".sentra"]) by by repeat constructor.
  assert (Hki : Forall plain_name [".sentra"; "identity.json"]) by by repeat constructor.
  unfold SaveIdentity. rewrite Hp, Hdir. unfold mkdir_all, os_MkdirAll. rewrite (quiet_disk E Q). cbn [no_disk_faults f_mkdir].
  assert (Hne : identity_path <> sentra).
  { intros Heq%abs_path_inj; [|by apply Forall_app..]. apply (f_equal length) in Heq. rewrite !length_app in Heq. cbn in Heq. lia. }
  unfold os_WriteFile. rewrite Hdir, decide_True by (cbn; set_solver).
  rewrite write_reader_no_faults by (cbn; set_solver). cbv beta iota zeta.
  set (w1 := with_fs (with_files _ _) _). exists w1.
  assert (Hw1 : file_inv tokens w1).
  { intros d Hdv. destruct (Hw d Hdv) as [H1 H2]. unfold w1. cbn [with_fs with_files with_dirs w_fs dirs].
    pose proof (names_apart _ _ Hks (token_plain d Hdv)) as N1. pose proof (names_apart _ _ Hks (tmp_plain d Hdv)) as N2.
    unfold token_path in *. rewrite abs_snoc_append in *. specialize (N1 ltac:(done)). specialize (N2 ltac:(done)). set_solver. }
  destruct (save_token_runs E tokens Q TD w1 (DeviceID id) token Hw1 Hd Htok) as (w2 & E2 & Hi2 & Hv2 & Hf2).
  exists w2. split; [done|]. split; [exact E2|].
  destruct (manager_load_runs E tokens Q TD w2 (DeviceID id) Hi2 Hd) as (w3 & E3 & _). rewrite Hv2 in E3. exists w3.
  apply (LoadIdentity_loads E Q). exists identity_path, (indent (marshal_identity id)). split; [done| | |by split; [apply Hd|]|done|apply Htok].
  - rewrite Hf2; [unfold w1; cbn; by rewrite lookup_insert_eq| |].
    + by apply not_eq_sym, (names_apart _ _ Hki (token_plain _ Hd)).
    + unfold token_path. rewrite abs_snoc_append. by apply not_eq_sym, (names_apart _ _ Hki (tmp_plain _ Hd)).
  - rewrite Hparse. cbn. unfold decodeIdentity, dec_time. cbn. rewrite Ht. by destruct id.
Qed.
End registered.

(** C29.  A registration that the server grants is remembered: the identity and the
    token that it gave are those of every later start, as long as the token is
    found valid, and the server is not asked again.  The name of the organization
    must not be empty, which is not checked. *)
Theorem registration_is_remembered E h parse indent valid_time R validate code w c :
  quiet E -> Forall plain_name h -> HOME E = abs_path h -> SENTRA_TOKEN_PATH E = "" -> SENTRA_HOME E = "" ->
  valid_time (reg_now R) = true ->
  file_inv (h ++ [".sentra"; "tokens"]) w -> no_legacy E (h ++ [".sentra"; "tokens"]) (w_fs w) ->
  Merge.files (w_fs w) !! identity_path h = None -> (identity_path h ∉ Merge.dirs (w_fs w)) ->
  register R code = Ok c -> valid_id (dc_DeviceID c) -> clean_token (dc_AgentToken c) -> dc_OrgID c <> "" ->
  let id := mkIdentity (dc_DeviceID c) (dc_OrgID c) (reg_now R) in
  parse (indent (marshal_identity id)) = Raw (marshal_identity id) ->
  exists w', establish_identity E parse indent valid_time R validate code w
      = (w', Some (mkIdentity (dc_DeviceID c) (dc_OrgID c) zero_time, dc_AgentToken c)) /\
    ((exists p, validate id (dc_AgentToken c) = Ok p) ->
     exists w'', establish_identity E parse indent valid_time R validate code w' = (w'', Some (id, dc_AgentToken c))).
Proof.
  intros Q Hh Hhome Htp Hsh Ht Hw Hleg Hnone Hdirs Hreg Hd Htok Ho id Hparse.
  destruct (identity_path_ok E h Hh Hhome (conj Htp Hsh)) as [Hp _].
  assert (Hload : LoadIdentity E parse valid_time w = (w, (zeroIdentity, "", Some ("no local identity found: "
    +:+ ("open " +:+ identity_path h +:+ ": no such file or directory"))))).
  { unfold LoadIdentity. rewrite Hp. unfold os_ReadFile, os_Open. rewrite (quiet_disk E Q). cbn [no_disk_faults f_open].
    by rewrite Hnone, decide_False. }
  destruct (registration_loads E h Q Hh Hhome (conj Htp Hsh) parse indent valid_time id (dc_AgentToken c) w)
    as (w1 & w2 & E1 & E2 & w3 & E3); [done..|].
  exists w2. split.
  - unfold establish_identity. rewrite Hload. unfold claim_or_die, ClaimDevice.
    pose proof (no_migration E _ Q parse valid_time w Hleg) as Hm.
    destruct (MigrateLegacyDevice E parse valid_time w) as [w0 me]. cbn [fst] in Hm. subst w0.
    unfold existing_device. rewrite Hload, Hreg. cbn [device_of dev_ID dev_OrgID ClaimedAt dev_Token].
    fold id. rewrite E1. cbn [DeviceID id] in E2. by rewrite E2.
  - intros [p Hv]. exists w3. unfold establish_identity. rewrite E3, (eqb_neq_s (dc_AgentToken c)) by apply Htok. by rewrite Hv.
Qed.

Definition demo_home_environment : environment := demo_environment "" (fun _ => None) (fun _ => None).
Definition demo_dir : list string := ["home"; "ann"; ".sentra"; "tokens"].
Definition demo_identity : Identity := mkIdentity "d1" "o1" "2026-01-02T03:04:05Z".
Definition demo_parse (s : string) : RawMessage := if s =?s "IDENTITY" then Raw (marshal_identity demo_identity) else RawInvalid.
Definition demo_registration (server : HttpClient.http_request -> outcome) : registration :=
  mkRegistration "https://cp/" "anon" "laptop" "edge" "local" (mkSpecs 8 4 (f64_of_Z 0) (f64_of_Z 16) (f64_of_Z 8) "" (f64_of_Z 0)
    (f64_of_Z 0) (f64_of_Z 0) (f64_of_Z 0)) "linux" "amd64" false (Err "EOF") (fun _ => Some "0") (fun _ => None) server
    "2026-01-02T03:04:05Z".

Definition demo_registered : world :=
  mkWorld (mkFS {["/home/ann/.sentra/identity.json" := "IDENTITY"; "/home/ann/.sentra/tokens/d1.token" := "secret"]}
    {["/home/ann"]} ∅ ∅) ∅.

Lemma demo_registered_inv : file_inv demo_dir demo_registered.
Proof. exact (demo_inv ∅). Qed.

Lemma demo_no_legacy w : Merge.dirs (w_fs w) = {["/home/ann"]} -> Forall (fun p => Merge.files (w_fs w) !! p = None) (legacyPaths "/home/ann") ->
  no_legacy demo_home_environment demo_dir (w_fs w).
Proof.
  intros Hd Hf. inversion Hf as [|p1 ? H1 Hf2]; subst. inversion Hf2 as [|p2 ? H2 _]; subst.
  repeat constructor; try done; rewrite Hd; intros H%elem_of_singleton; discriminate H.
Qed.

Lemma start_in_an_outage_forgets_token_witness :
  let E := demo_home_environment in
  let R := demo_registration (fun _ => Err "no route to host") in
  exists w', establish_identity E demo_parse (fun _ => "") (fun _ => true) R
      (validation (fun _ => None) (fun _ => Some "0") (fun _ => None) (fun _ _ => TransportError "no route to host") "https://cp" "anon")
      "CODE" demo_registered = (w', None) /\
    (manager_Load (GetTokenStore E) "d1" demo_registered).2 = Ok "secret" /\
    (manager_Load (GetTokenStore E) "d1" w').2 = Err ErrTokenNotFound.
Proof.
  intros E R.
  destruct (start_in_an_outage_forgets_token E demo_dir demo_parse (fun _ => "") (fun _ => true) R
    (fun _ => None) (fun _ => Some "0") (fun _ => None) (fun _ _ => TransportError "no route to host") "https://cp" "anon" "CODE"
    demo_registered (LoadIdentity E demo_parse (fun _ => true) demo_registered).1 demo_identity "secret" (demo_quiet _)
    (default_directory E ["home"; "ann"] eq_refl eq_refl demo_home_plain (demo_quiet _)) demo_registered_inv
    ltac:(apply demo_no_legacy; [reflexivity|repeat constructor]) ltac:(vm_compute; reflexivity) ltac:(by split)
    (fun _ _ => eq_refl) (fun _ => ex_intro _ "no route to host" eq_refl)) as [H1 (w' & H2 & H3)].
  exists w'. split; [exact H2|]. split; [exact H1|exact H3].
Defined.

Definition demo_grant (r : HttpClient.http_request) : outcome :=
  Ok (mkResponse 200 (Some (mkBody "" (Raw (JObj [("ok", JBool true); ("device_id", JStr "d1"); ("agent_token", JStr "secret");
    ("org_id", JStr "o1")]))))).

Lemma registration_is_remembered_witness :
  let E := demo_home_environment in
  let R := demo_registration demo_grant in
  let w := mkWorld demo_fs ∅ in
  let validate := fun (_ : Identity) (_ : string) => Ok (mkPolicy true 4 (f64_of_Z 0) "") in
  register R "CODE" = Ok (mkClaimResponse true "d1" "secret" "o1" "" "") /\
  exists w' w'', establish_identity E demo_parse (fun _ => "IDENTITY") (fun _ => true) R validate "CODE" w
      = (w', Some (mkIdentity "d1" "o1" zero_time, "secret")) /\
    establish_identity E demo_parse (fun _ => "IDENTITY") (fun _ => true) R validate "CODE" w' = (w'', Some (demo_identity, "secret")).
Proof.
  intros E R w validate. assert (Hr : register R "CODE" = Ok (mkClaimResponse true "d1" "secret" "o1" "" "")) by (vm_compute; reflexivity).
  split; [exact Hr|].
  destruct (registration_is_remembered E ["home"; "ann"] demo_parse (fun _ => "IDENTITY") (fun _ => true) R validate "CODE" w
    (mkClaimResponse true "d1" "secret" "o1" "" "") (demo_quiet _) demo_home_plain eq_refl eq_refl eq_refl eq_refl (demo_inv ∅)
    ltac:(apply demo_no_legacy; [reflexivity|repeat constructor]) ltac:(vm_compute; reflexivity)
    ltac:(unfold w; cbn [w_fs demo_fs Merge.dirs]; intros H%elem_of_singleton; discriminate H) Hr ltac:(by split) ltac:(by split) ltac:(discriminate) eq_refl)
    as (w' & H1 & H2).
  destruct (H2 (ex_intro _ (mkPolicy true 4 (f64_of_Z 0) "") eq_refl)) as [w'' H3].
  exists w', w''. split; [exact H1|exact H3].
Defined.

(** ** A keyring that can be read only *)

(** When the keyring refuses a new token, the token goes to the file and the
    save succeeds, but every load still returns the old token of the keyring;
    clearing the token reports success too and leaves it there. *)
Theorem stale_keyring_token E l w d old new e :
  disk_fault E = no_disk_faults -> TokenDirectory E l -> file_inv l w -> valid_id d -> new <> "" -> old <> "" ->
  uses_keyring E = true -> keyring_Set_fault E d = Some e -> keyring_Delete_fault E d = Some e -> keyring_Get_fault E d = None ->
  keyring w !! d = Some old ->
  exists w1 w2, SaveToken E d new w = (w1, None) /\ manager_Load (GetTokenStore E) d w1 = (w1, Ok old) /\
    ClearToken E d w1 = (w2, None) /\ manager_Load (GetTokenStore E) d w2 = (w2, Ok old).
Proof.
  intros Hdisk TD Hw Hd Hnew Hold Hu Hs Hdel Hg Hk. pose proof Hd as [Hne _].
  (* the file store of this environment is that of a quiet one *)
  set (E0 := mkEnvironment (SENTRA_USE_KEYRING E) (SENTRA_TOKEN_PATH E) (SENTRA_HOME E) (HOME E) (GOOS E) (disk_fault E)
    (fun _ => None) (fun _ => None) (fun _ => None)).
  assert (Q0 : quiet E0) by by split.
  assert (TD0 : TokenDirectory E0 l) by (destruct TD as [H1 H2]; by split).
  destruct (file_save_runs E0 Q0 l w d new Hw Hd Hnew) as (w1 & E1 & Hi1 & _).
  change (file_Save E d new w = (w1, None)) in E1.
  destruct (file_clear_runs E0 Q0 l w1 d Hi1 Hd) as (w2 & E2 & _). change (file_Clear E d w1 = (w2, None)) in E2.
  assert (Hk1 : keyring w1 = keyring w) by (pose proof (proj1 (proj2 (file_keyring E d new w))) as H; by rewrite E1 in H).
  assert (Hk2 : keyring w2 = keyring w) by (pose proof (proj2 (proj2 (file_keyring E d new w1))) as H; rewrite E2 in H; by rewrite <- Hk1).
  assert (Hload : forall u, keyring u = keyring w -> manager_Load (GetTokenStore E) d u = (u, Ok old)).
  { intros u Hu'. rewrite GetTokenStore_uses, Hu. unfold manager_Load.
    cbn [primary KeyringTokenStore ts_Load]. unfold keyring_Load, keyring_Get.
    rewrite (eqb_neq_s d), Hg, Hu', Hk, (eqb_neq_s old) by done. cbn [loaded]. by rewrite (eqb_neq_s old) by done. }
  exists w1, w2. split_and!; [|by apply Hload| |by apply Hload].
  - unfold SaveToken. rewrite (eqb_neq_s new) by done. rewrite GetTokenStore_uses, Hu. unfold manager_Save.
    rewrite (eqb_neq_s new) by done. cbn [primary fallback useKeyring KeyringTokenStore FileTokenStore ts_Save]. unfold keyring_Save.
    rewrite (eqb_neq_s d), (eqb_neq_s new), Hs by done. exact E1.
  - unfold ClearToken. rewrite GetTokenStore_uses, Hu. unfold manager_Clear. rewrite (eqb_neq_s d) by done.
    cbn [primary fallback KeyringTokenStore FileTokenStore ts_Clear]. unfold keyring_Clear. rewrite (eqb_neq_s d), Hdel by done.
    by rewrite E2.
Qed.

Lemma stale_keyring_token_witness :
  let E := demo_environment "true" (fun _ => Some "locked") (fun _ => Some "locked") in
  let w := mkWorld demo_fs {["d1" := "old"]} in
  exists w1, SaveToken E "d1" "new" w = (w1, None) /\ (manager_Load (GetTokenStore E) "d1" w1).2 = Ok "old".
Proof.
  intros E w.
  assert (TD : TokenDirectory E demo_dir).
  { destruct (default_directory demo_home_environment ["home"; "ann"] eq_refl eq_refl demo_home_plain (demo_quiet _)) as [H1 H2]. by split. }
  destruct (stale_keyring_token E demo_dir w "d1" "old" "new" "locked" eq_refl TD (demo_inv _) ltac:(by split)
    ltac:(discriminate) ltac:(discriminate) eq_refl eq_refl eq_refl eq_refl ltac:(vm_compute; reflexivity)) as (w1 & w2 & H1 & H2 & _).
  exists w1. split; [exact H1|]. by rewrite H2.
Defined.
