(* ===== verification/Update.v ===== *)
(** * Update: a new agent

    Models [internal/update/agent.go]: the request for the newest release, the
    comparison of versions, and the download that replaces the program.  The
    file system is that of [Merge] with the set of executable files; SHA-256 and
    the answers of the network are parameters. *)
From S2P Require Import Prelude Json Path Encoding Merge MergeTree Storage Handler.
From Stdlib Require Import Ascii.

(** ** Data *)

Record AgentRelease := mkRelease { Version : string; DownloadURL : string; Checksum : string; Changelog : string }.

Record AgentUpdateConfig := mkUpdateConfig {
  CurrentVersion : string; BackendURL : string; AnonKey : string; DeviceID : string; OrgID : string; Token : string;
  CheckInterval : Z; UpdateURLPath : string }.

Record request := mkRequest { rq_URL : string; rq_Header : list (string * string) }.

(** An answer has a status, what could be read of its body, and the error the
    reading ended with. *)
Record response := mkResponse { rs_Status : Z; rs_Text : string; rs_Error : error; rs_JSON : RawMessage }.

(** ** Versions *)

Definition parts (v : string) : list string := split_on "." v.

(** The number of a part; a part that is missing or does not scan leaves zero. *)
Definition part (v : string) (i : nat) : Z := default 0 (parts v !! i ≫= Sscanf_d).

(** The loop from index [i], with [n] turns left. *)
Fixpoint newer_loop (current candidate : string) (i n : nat) : bool :=
  match n with
  | O => false
  | S n =>
      let cPart := part current i in
      let nPart := part candidate i in
      if cPart <? nPart then true
      else if nPart <? cPart then false
      else newer_loop current candidate (S i) n
  end.

Definition IsNewerVersion (current candidate : string) : bool :=
  if (current =?s "") || (current =?s "dev") then true
  else if candidate =?s "" then false
  else if current =?s candidate then false
  else newer_loop current candidate 0 (Nat.max (length (parts current)) (length (parts candidate))).

Example newer_ex :
  map (fun p => IsNewerVersion p.1 p.2)
    [("1.2.3", "1.10.0"); ("1.2", "1.2.0"); ("1.2.0", "1.2"); ("2.0", "1.9.9"); ("v2.0", "v1.5"); ("1.2.3-rc1", "1.2.3"); ("dev", "")] =
  [true; false; false; false; true; false; true].
Proof. reflexivity. Qed.

(** ** The newest release *)

Definition decodeRelease (fs : list (string * json)) : AgentRelease * bool :=
  let '(v, e1) := field dec_string "version" "" fs in
  let '(d, e2) := field dec_string "download_url" "" fs in
  let '(c, e3) := field dec_string "checksum" "" fs in
  let '(l, e4) := field dec_string "changelog" "" fs in
  (mkRelease v d c l, e1 || e2 || e3 || e4).

Fixpoint trim_left_slash (s : string) : string :=
  match s with String c s' => if Ascii.eqb c slash then trim_left_slash s' else s | EmptyString => s end.

Section update.
Context (GOOS GOARCH : string).

Definition update_request (cfg : AgentUpdateConfig) : request :=
  mkRequest (trim_right_slash (BackendURL cfg) +:+ "/" +:+ trim_left_slash (UpdateURLPath cfg))
    [("apikey", AnonKey cfg); ("Authorization", "Bearer " +:+ Token cfg); ("X-Device-ID", DeviceID cfg); ("X-Org-ID", OrgID cfg);
     ("X-Arch", GOARCH); ("X-OS", GOOS); ("User-Agent", "sentra-agent/" +:+ CurrentVersion cfg)].

(** [requestErr] is the error of a URL that does not parse. *)
Definition CheckForUpdate (requestErr : string -> error) (Do : request -> result response) (cfg : AgentUpdateConfig) : result AgentRelease :=
  let rq := update_request cfg in
  match requestErr (rq_URL rq) with
  | Some e => Err ("create request: " +:+ e)
  | None =>
      match Do rq with
      | Err e => Err ("http request: " +:+ e)
      | Ok resp =>
          if negb (rs_Status resp =? 200) then Err ("server returned status " +:+ itoa (rs_Status resp))
          else match Unmarshal_struct (mkRelease "" "" "" "") decodeRelease (rs_JSON resp) with
               | (release, None) => Ok release
               | (_, Some e) => Err ("decode response: " +:+ e)
               end
      end
  end.

(** ** Replacing the program *)

Record update_state := mkUpdate { u_disk : fs; u_exec : gset string }.
Definition with_u_disk (s : fs) (st : update_state) : update_state := mkUpdate s (u_exec st).

Context (F : disk_faults) (chmodErr : string -> error) (sha256 : string -> string).
Context (requestErr : string -> error) (Do : request -> result response).

Definition downloadFile (url destPath anonKey token : string) (s : fs) : fs * error :=
  match os_Create (f_create F) destPath s with
  | (s, Some e) => (s, Some ("create temp file: " +:+ e))
  | (s, None) =>
      match requestErr url with
      | Some e => (s, Some ("create download request: " +:+ e))
      | None =>
          match Do (mkRequest url [("apikey", anonKey); ("Authorization", "Bearer " +:+ token)]) with
          | Err e => (s, Some ("download request: " +:+ e))
          | Ok resp =>
              if negb (rs_Status resp =? 200) then (s, Some ("download returned status " +:+ itoa (rs_Status resp)))
              else
                match io_Copy (f_write F) destPath (mkReader (rs_Text resp) (rs_Error resp)) s with
                | (s, Some e) => (s, Some ("download body: " +:+ e))
                | (s, None) => (s, if rs_Text resp =?s "" then Some "downloaded file is empty" else None)
                end
          end
      end
  end.

(** [strings.EqualFold] with a text of lower-case hexadecimal digits. *)
Definition verifyChecksum (filePath expectedHex : string) (s : fs) : error :=
  match os_ReadFile F filePath s with
  | Err e => Some ("read file: " +:+ e)
  | Ok data =>
      let actualHex := hex_EncodeToString (sha256 data) in
      if actualHex =?s strings_ToLower expectedHex then None
      else Some ("checksum mismatch: expected " +:+ expectedHex +:+ ", got " +:+ actualHex)
  end.

(** [os.Remove], whose error is ignored. *)
Definition remove_quietly (path : string) (st : update_state) : update_state :=
  match f_remove F path with
  | Some _ => st
  | None => mkUpdate (remove path (u_disk st)) (u_exec st ∖ {[path]})
  end.

Definition os_Chmod_exec (path : string) (st : update_state) : update_state * error :=
  match chmodErr path with
  | Some e => (st, Some e)
  | None => (mkUpdate (u_disk st) ({[path]} ∪ u_exec st), None)
  end.

Definition rename_program (src dst : string) (st : update_state) : update_state * error :=
  match os_Rename (f_rename F dst) src dst (u_disk st) with
  | (s, Some e) => (with_u_disk s st, Some e)
  | (s, None) => (mkUpdate s (if bool_decide (src ∈ u_exec st) then {[dst]} ∪ (u_exec st ∖ {[src]}) else u_exec st ∖ {[dst]}), None)
  end.

(** What happens to the file that was downloaded. *)
Definition install_download (release : AgentRelease) (tmpPath realPath : string) (st : update_state) : update_state * result bool :=
  match (if Checksum release =?s "" then None else verifyChecksum tmpPath (Checksum release) (u_disk st)) with
  | Some e => (st, Err ("checksum: " +:+ e))
  | None =>
      match os_Chmod_exec tmpPath st with
      | (st, Some e) => (st, Err ("chmod: " +:+ e))
      | (st, None) =>
          match rename_program tmpPath realPath st with
          | (st, Some e) => (st, Err ("rename: " +:+ e))
          | (st, None) => (st, Ok true)
          end
      end
  end.

Definition DownloadAndReplace (Executable : result string) (EvalSymlinks : string -> result string) (now : Z)
    (release : option AgentRelease) (cfg : AgentUpdateConfig) (st : update_state) : update_state * result bool :=
  match release with
  | None => (st, Err "no release provided")
  | Some release =>
      if DownloadURL release =?s "" then (st, Err "release has no download URL")
      else
        match Executable with
        | Err e => (st, Err ("get executable path: " +:+ e))
        | Ok execPath =>
            let realPath := match EvalSymlinks execPath with Ok p => p | Err _ => execPath end in
            let tmpPath := realPath +:+ ".update." +:+ itoa now in
            let '(st, r) :=
              match downloadFile (DownloadURL release) tmpPath (AnonKey cfg) (Token cfg) (u_disk st) with
              | (s, Some e) => (with_u_disk s st, Err ("download: " +:+ e))
              | (s, None) => install_download release tmpPath realPath (with_u_disk s st)
              end in
            (remove_quietly tmpPath st, r)
        end
  end.
End update.

(** ** Versions are compared lexicographically *)

(** The reference: the first number that differs is greater; missing numbers are
    zero. *)
Definition version_lt (current candidate : string) : Prop :=
  exists i, (forall j, (j < i)%nat -> part candidate j = part current j) /\ part current i < part candidate i.

Definition released (v : string) : Prop := v <> "" /\ v <> "dev".

Lemma part_beyond v i : (length (parts v) <= i)%nat -> part v i = 0.
Proof. intros Hi. unfold part. by rewrite lookup_ge_None_2. Qed.

Lemma newer_loop_spec current candidate n i :
  newer_loop current candidate i n = true <->
  exists k, (i <= k < i + n)%nat /\ (forall j, (i <= j < k)%nat -> part candidate j = part current j) /\ part current k < part candidate k.
Proof.
  revert i. induction n as [|n IH]; intros i; cbn [newer_loop]; [split; [done|]; intros (k & Hk & _); lia|].
  destruct (Z.ltb_spec (part current i) (part candidate i)) as [Hlt|Hge].
  - split; [|done]. intros _. exists i. split_and!; [lia|lia|intros j Hj; lia|done].
  - destruct (Z.ltb_spec (part candidate i) (part current i)) as [Hgt|Hle].
    + split; [done|]. intros (k & Hk & Hall & Hlt). destruct (decide (k = i)) as [->|Hne]; [lia|].
      specialize (Hall i ltac:(lia)). lia.
    + rewrite IH. split; intros (k & Hk & Hall & Hlt).
      * exists k. split_and!; [lia|lia| |done]. intros j Hj. destruct (decide (j = i)) as [->|Hne]; [lia|]. apply Hall. lia.
      * exists k. destruct (decide (k = i)) as [->|Hne]; [lia|]. split_and!; [lia|lia| |done]. intros j Hj. apply Hall. lia.
Qed.

Lemma IsNewerVersion_lt current candidate : released current -> released candidate ->
  IsNewerVersion current candidate = true <-> version_lt current candidate.
Proof.
  intros [Hc Hd] [Hn _]. unfold IsNewerVersion. rewrite (eqb_neq_s _ _ Hc), (eqb_neq_s _ _ Hd), (eqb_neq_s _ _ Hn). cbn [orb].
  destruct (eqb_spec_s current candidate) as [<-|Hne].
  { split; [done|]. intros (i & _ & Hi). lia. }
  rewrite newer_loop_spec. split.
  - intros (k & _ & Hall & Hlt). exists k. split; [|done]. intros j Hj. apply Hall. lia.
  - intros (k & Hall & Hlt). exists k. split; [|split; [|done]].
    + destruct (decide (k < Nat.max (length (parts current)) (length (parts candidate)))%nat); [lia|].
      rewrite !part_beyond in Hlt by lia. lia.
    + intros j Hj. apply Hall. lia.
Qed.

Lemma version_lt_trans a b c : version_lt a b -> version_lt b c -> version_lt a c.
Proof.
  intros (i & Hi & Hlt) (k & Hk & Hlt'). destruct (Nat.lt_total i k) as [H|[->|H]].
  - exists i. split; [|rewrite Hk by done; done]. intros j Hj. rewrite Hk by lia. by apply Hi.
  - exists k. split; [|lia]. intros j Hj. rewrite Hk by done. by apply Hi.
  - exists k. split; [|rewrite <- Hi by done; done]. intros j Hj. rewrite Hk by done. apply Hi. lia.
Qed.

Lemma version_total a b : version_lt a b \/ version_lt b a \/ forall i, part a i = part b i.
Proof.
  set (n := Nat.max (length (parts a)) (length (parts b))).
  assert (H : forall m, (exists i, (i < m)%nat /\ (forall j, (j < i)%nat -> part b j = part a j) /\ part a i <> part b i) \/
    forall j, (j < m)%nat -> part b j = part a j).
  { induction m as [|m [(i & Hi & Hall & Hne)|IH]]; [right; lia|left; exists i; split_and!; [lia|done|done]|].
    destruct (decide (part a m = part b m)) as [E|E]; [right|left; exists m; split_and!; [lia|done|done]].
    intros j Hj. destruct (decide (j = m)) as [->|]; [done|]. apply IH. lia. }
  destruct (H n) as [(i & _ & Hall & Hne)|Hall].
  - destruct (Z.lt_total (part a i) (part b i)) as [Hl|[He|Hg]]; [left; exists i; by split|by destruct Hne|right; left; exists i].
    split; [|done]. intros j Hj. symmetry. by apply Hall.
  - right; right. intros i. destruct (decide (i < n)%nat); [symmetry; by apply Hall|]. rewrite !part_beyond by lia. done.
Qed.

(** C39.  Among released versions the comparison is the lexicographic order of their
    numbers, whatever their length: a strict order, total up to versions with the
    same numbers, which are never newer than each other.  A missing current
    version, and one called [dev], is older than everything. *)
Theorem IsNewerVersion_lexicographic a b c : released a -> released b -> released c ->
  (IsNewerVersion a b = true <-> version_lt a b) /\
  (IsNewerVersion a b = true -> IsNewerVersion b a = false) /\
  (IsNewerVersion a b = true -> IsNewerVersion b c = true -> IsNewerVersion a c = true) /\
  (IsNewerVersion a b = false -> IsNewerVersion b a = false -> forall i, part a i = part b i) /\
  (forall v, IsNewerVersion "dev" v = true /\ IsNewerVersion "" v = true).
Proof.
  intros Ha Hb Hc. split; [by apply IsNewerVersion_lt|]. split_and!.
  - intros H1%IsNewerVersion_lt; [|done..]. destruct (IsNewerVersion b a) eqn:E; [|done].
    apply IsNewerVersion_lt in E; [|done..]. destruct (version_lt_trans _ _ _ H1 E) as (i & _ & Hi). lia.
  - rewrite !IsNewerVersion_lt by done. apply version_lt_trans.
  - intros H1 H2. destruct (version_total a b) as [H|[H|H]]; [| |done].
    + apply IsNewerVersion_lt in H; [|done..]. congruence.
    + apply IsNewerVersion_lt in H; [|done..]. congruence.
  - intros v. by split.
Qed.

Lemma IsNewerVersion_lexicographic_witness :
  IsNewerVersion "1.9" "1.10.2" = true /\ IsNewerVersion "1.10.2" "1.9" = false /\ version_lt "1.9" "1.10.2".
Proof.
  destruct (IsNewerVersion_lexicographic "1.9" "1.10.2" "2" ltac:(split; discriminate) ltac:(split; discriminate) ltac:(split; discriminate))
    as (Hlt & Hanti & _).
  assert (H : IsNewerVersion "1.9" "1.10.2" = true) by reflexivity. split; [exact H|]. split; [exact (Hanti H)|apply Hlt; exact H].
Defined.

(** ** The replacement *)

Section replacement.
Context (F : disk_faults) (chmodErr : string -> error) (sha256 : string -> string).
Context (requestErr : string -> error) (Do : request -> result response).

Lemma create_files path s s' e : os_Create (f_create F) path s = (s', e) ->
  (forall p, p <> path -> files s' !! p = files s !! p) /\ (e = None -> files s' !! path = Some "" /\ path ∉ dirs s') /\
  dirs s' = dirs s.
Proof.
  unfold os_Create. destruct (f_create F path); [by intros [= <- <-]|]. destruct (decide _); intros [= <- <-]; [done|].
  cbn [files dirs with_files]. split_and!; [|split; [by rewrite lookup_insert_eq|done]|done]. intros p Hp. by rewrite lookup_insert_ne.
Qed.

(** The download writes only its file; without error it is the whole body. *)
Lemma download_files url tmp anonKey token s s' e : downloadFile F requestErr Do url tmp anonKey token s = (s', e) ->
  (forall p, p <> tmp -> files s' !! p = files s !! p) /\ dirs s' = dirs s /\
  (e = None -> exists resp, Do (mkRequest url [("apikey", anonKey); ("Authorization", "Bearer " +:+ token)]) = Ok resp /\
     rs_Status resp = 200 /\ rs_Error resp = None /\ rs_Text resp <> "" /\ files s' !! tmp = Some (rs_Text resp) /\ tmp ∉ dirs s').
Proof.
  unfold downloadFile. destruct (os_Create _ tmp s) as [s1 [e1|]] eqn:Ec; apply create_files in Ec as (Hc & Hn & Hd);
    [by intros [= <- <-]|]. destruct (Hn eq_refl) as [Hf Hnd].
  destruct (requestErr url); [by intros [= <- <-]|]. destruct (Do _) as [resp|e2]; [|by intros [= <- <-]].
  destruct (Z.eqb_spec (rs_Status resp) 200) as [Hs|]; [|by intros [= <- <-]]. cbn [negb]. unfold io_Copy, append_file.
  destruct (f_write F tmp); [by intros [= <- <-]|]. cbn [r_data r_err]. rewrite Hf. cbn [default].
  destruct (rs_Error resp) eqn:Ee; intros [= <- <-]; cbn [files dirs with_files];
    (split; [intros p Hp; rewrite lookup_insert_ne by done; by apply Hc|split; [done|]]); [done|].
  destruct (eqb_spec_s (rs_Text resp) "") as [|Hne]; [done|]. intros _. exists resp. by rewrite lookup_insert_eq.
Qed.

Lemma remove_quietly_files tmp st p : p <> tmp ->
  files (u_disk (remove_quietly F tmp st)) !! p = files (u_disk st) !! p /\
  (p ∈ u_exec (remove_quietly F tmp st) <-> p ∈ u_exec st).
Proof.
  intros Hp. unfold remove_quietly. destruct (f_remove F tmp); [done|]. cbn [u_disk u_exec]. split; [|set_solver].
  unfold remove, os_Remove. destruct (files (u_disk st) !! tmp); [by apply lookup_delete_ne|]. by destruct (empty_dir tmp (u_disk st)).
Qed.

Lemma remove_quietly_gone tmp st : f_remove F tmp = None -> files (u_disk (remove_quietly F tmp st)) !! tmp = None.
Proof.
  intros Hr. unfold remove_quietly. rewrite Hr. cbn [u_disk]. unfold remove, os_Remove.
  destruct (files (u_disk st) !! tmp) eqn:E; [apply lookup_delete_eq|]. by destruct (empty_dir tmp (u_disk st)).
Qed.

(** Installing either renames the verified download or changes no other file. *)
Lemma install_files release tmp real st st' r data : tmp <> real -> files (u_disk st) !! tmp = Some data ->
  install_download F chmodErr sha256 release tmp real st = (st', r) ->
  (forall p, p <> tmp -> p <> real -> files (u_disk st') !! p = files (u_disk st) !! p) /\
  match r with
  | Err _ => files (u_disk st') !! real = files (u_disk st) !! real
  | Ok b => b = true /\ files (u_disk st') !! real = Some data /\ real ∈ u_exec st' /\
      (Checksum release <> "" -> hex_EncodeToString (sha256 data) = strings_ToLower (Checksum release))
  end.
Proof.
  intros Hne Hf. unfold install_download.
  destruct (if Checksum release =?s "" then None else _) as [e|] eqn:Ev; [by intros [= <- <-]|].
  assert (Hsum : Checksum release <> "" -> hex_EncodeToString (sha256 data) = strings_ToLower (Checksum release)).
  { intros Hc. rewrite (eqb_neq_s _ _ Hc) in Ev. unfold verifyChecksum, os_ReadFile, os_Open in Ev.
    destruct (f_open F tmp); [done|]. rewrite Hf in Ev. cbn [r_err r_data] in Ev. by destruct (eqb_spec_s (hex_EncodeToString (sha256 data)) (strings_ToLower (Checksum release))). }
  unfold os_Chmod_exec. destruct (chmodErr tmp); [by intros [= <- <-]|].
  unfold rename_program, os_Rename. cbn [u_disk u_exec].
  destruct (f_rename F real); [by intros [= <- <-]|]. rewrite Hf. destruct (decide _); intros [= <- <-]; [done|].
  cbn [u_disk u_exec files with_files]. split.
  - intros p Hp Hp'. by rewrite lookup_insert_ne, lookup_delete_ne.
  - split_and!; [done|by rewrite lookup_insert_eq| |done]. rewrite bool_decide_eq_true_2 by set_solver. set_solver.
Qed.

(** C36.  The program is replaced only as a whole, by what the server sent with status
    200, and made executable; with a checksum, only if it is that of the
    download.  After any failure it is what it was; no other file is changed and
    the download is not left behind. *)
Theorem replacement_is_verified Executable EvalSymlinks now release cfg execPath st st' r :
  Executable = Ok execPath ->
  let realPath := match EvalSymlinks execPath with Ok p => p | Err _ => execPath end in
  let tmpPath := realPath +:+ ".update." +:+ itoa now in
  DownloadAndReplace F chmodErr sha256 requestErr Do Executable EvalSymlinks now (Some release) cfg st = (st', r) ->
  (forall p, p <> realPath -> p <> tmpPath -> files (u_disk st') !! p = files (u_disk st) !! p) /\
  (files (u_disk st) !! tmpPath = None -> f_remove F tmpPath = None -> files (u_disk st') !! tmpPath = None) /\
  match r with
  | Err _ => files (u_disk st') !! realPath = files (u_disk st) !! realPath
  | Ok b => b = true /\ exists resp,
      Do (mkRequest (DownloadURL release) [("apikey", AnonKey cfg); ("Authorization", "Bearer " +:+ Token cfg)]) = Ok resp /\
      rs_Status resp = 200 /\ rs_Error resp = None /\ rs_Text resp <> "" /\
      files (u_disk st') !! realPath = Some (rs_Text resp) /\ realPath ∈ u_exec st' /\
      (Checksum release <> "" -> hex_EncodeToString (sha256 (rs_Text resp)) = strings_ToLower (Checksum release))
  end.
Proof.
  intros -> realPath tmpPath. unfold DownloadAndReplace.
  assert (Hne : tmpPath <> realPath) by (by apply append_neq_r).
  destruct (DownloadURL release =?s ""); [by intros [= <- <-]|]. fold realPath. fold tmpPath.
  destruct (downloadFile F requestErr Do (DownloadURL release) tmpPath _ _ (u_disk st)) as [s [e|]] eqn:Ed;
    apply download_files in Ed as (Ho & _ & Hok).
  - intros [= <- <-]. split_and!; [| |].
    + intros p Hp Hp'. rewrite (proj1 (remove_quietly_files tmpPath _ p Hp')). by apply Ho.
    + intros _. apply remove_quietly_gone.
    + rewrite (proj1 (remove_quietly_files tmpPath _ realPath (not_eq_sym Hne))). by apply Ho.
  - destruct (Hok eq_refl) as (resp & HD & Hs & He & Ht & Hf & _).
    destruct (install_download F chmodErr sha256 release tmpPath realPath (with_u_disk s st)) as [st2 r2] eqn:Ei.
    apply (install_files _ _ _ (with_u_disk s st) _ _ _ Hne Hf) in Ei as [Hp Hr]. intros [= <- <-]. split_and!.
    + intros p H1 H2. rewrite (proj1 (remove_quietly_files tmpPath _ p H2)), Hp by done. by apply Ho.
    + intros _. apply remove_quietly_gone.
    + destruct (remove_quietly_files tmpPath st2 realPath (not_eq_sym Hne)) as [E1 E2].
      destruct r2 as [b|e]; [|rewrite E1, Hr; by apply Ho, not_eq_sym].
      destruct Hr as (-> & Hr & Hx & Hsum). split; [done|]. exists resp. rewrite E1, E2. by split_and!.
Qed.
End replacement.

Definition demo_release : AgentRelease := mkRelease "2.0" "https://x/agent" "" "".
Definition demo_config : AgentUpdateConfig := mkUpdateConfig "1.0" "https://x" "key" "d" "o" "t" 0 "/v".
Definition demo_update (st : update_state) : update_state * result bool :=
  DownloadAndReplace no_disk_faults (fun _ => None) (fun s => s) (fun _ => None)
    (fun _ => Ok (mkResponse 200 "NEW" None RawInvalid)) (Ok "/opt/agent") (fun _ => Err "") 7 (Some demo_release) demo_config st.

Lemma replacement_is_verified_witness :
  let st := mkUpdate (mkFS {["/opt/agent" := "OLD"]} {["/opt"]} ∅ ∅) {["/opt/agent"]} in
  (demo_update st).2 = Ok true /\ files (u_disk (demo_update st).1) !! "/opt/agent" = Some "NEW" /\
  files (u_disk (demo_update st).1) !! "/opt/agent.update.7" = None.
Proof.
  intros st. assert (E : (demo_update st).2 = Ok true) by (vm_compute; reflexivity).
  destruct (replacement_is_verified no_disk_faults (fun _ => None) (fun s => s) (fun _ => None)
    (fun _ => Ok (mkResponse 200 "NEW" None RawInvalid)) (Ok "/opt/agent") (fun _ => Err "") 7 demo_release demo_config "/opt/agent" st
    (demo_update st).1 (demo_update st).2 eq_refl (surjective_pairing (demo_update st)))
    as (_ & Hgone & Hr).
  split; [exact E|]. split; [|exact (Hgone ltac:(vm_compute; reflexivity) eq_refl)]. rewrite E in Hr.
  destruct Hr as (_ & resp & HD & _ & _ & _ & Hf & _).
  assert (Et : forall a b : response, Ok a = Ok b -> a = b) by congruence.
  rewrite <- (Et _ _ HD) in Hf. exact Hf.
Defined.
