(* ===== verification/Bootstrap.v ===== *)
(** * Bootstrap: the first configuration

    Models [internal/bootstrap/bootstrap.go] and what [cmd/main.go] does with the
    Redis configuration it gets: claiming a device with a code, the policy and
    the file of the configuration, and the configuration of Redis with its cache.
    The server answers by the requests sent so far; JSON texts are related to
    their values by the parameters [parse] and [indent]. *)
From S2P Require Import Prelude Json Path Merge MergeTree Storage Handler.
From Stdlib Require Import Ascii.

(** ** Data *)

Record Config := mkConfig {
  BackendURL : string; BackendAnonKey : string; DeviceID : string; OrgID : string; DeviceToken : string; DeviceName : string;
  EnvironmentType : string; StorageType : string; Capabilities : option (list string); MaxWorkers : Z; RedisURL : string;
  PluginRegistry : string }.

Record ClaimResponse := mkClaim { cl_ID : string; cl_OrgID : string; cl_Token : string; cl_BackendURL : string; cl_AnonKey : string }.
Record HealthPolicyResponse := mkPolicy { hp_OK : bool; hp_MaxWorkers : Z; hp_RedisURL : string; hp_Error : string }.
Record RedisCache := mkCache { rc_RedisURL : string; rc_RedisToken : string; rc_AnonKey : string; rc_CachedAt : string }.

Definition FuncClaimDevice : string := "/functions/v1/claim_device".
Definition FuncHealthPolicy : string := "/functions/v1/agent_health_policy".
Definition ConfigFileName : string := ".sentra_config.enc".
Definition redisCacheFile : string := "redis_cache.json".

Record request := mkRequest { rq_Method : string; rq_URL : string; rq_Header : list (string * string); rq_Body : string }.
(** The text of the body, empty where it could not be read, and its value. *)
Record response := mkResponse { rs_Status : Z; rs_Text : string; rs_JSON : RawMessage }.

Record world := mkWorld { b_disk : fs; b_sent : list request }.
Definition with_b_disk (s : fs) (w : world) : world := mkWorld s (b_sent w).

(** *** JSON *)

Definition dec_strings : decoder (option (list string)) := dec_slice "" dec_string.

Definition decodeConfig (fs : list (string * json)) : Config * bool :=
  let '(a, e1) := field dec_string "backend_url" "" fs in
  let '(b, e2) := field dec_string "backend_anon_key" "" fs in
  let '(c, e3) := field dec_string "device_id" "" fs in
  let '(d, e4) := field dec_string "org_id" "" fs in
  let '(e, e5) := field dec_string "device_token" "" fs in
  let '(f, e6) := field dec_string "device_name" "" fs in
  let '(g, e7) := field dec_string "environment_type" "" fs in
  let '(h, e8) := field dec_string "storage_type" "" fs in
  let '(i, e9) := field dec_strings "capabilities" None fs in
  let '(j, e10) := field dec_int "max_workers" 0 fs in
  let '(k, e11) := field dec_string "redis_url" "" fs in
  let '(l, e12) := field dec_string "plugin_registry" "" fs in
  (mkConfig a b c d e f g h i j k l, e1 || e2 || e3 || e4 || e5 || e6 || e7 || e8 || e9 || e10 || e11 || e12).

Definition zeroConfig : Config := mkConfig "" "" "" "" "" "" "" "" None 0 "" "".

Definition marshal_strings (l : option (list string)) : json := match l with Some l => JArr (map JStr l) | None => JNull end.

Definition marshal_config (c : Config) : json :=
  JObj [("backend_url", JStr (BackendURL c)); ("backend_anon_key", JStr (BackendAnonKey c)); ("device_id", JStr (DeviceID c));
        ("org_id", JStr (OrgID c)); ("device_token", JStr (DeviceToken c)); ("device_name", JStr (DeviceName c));
        ("environment_type", JStr (EnvironmentType c)); ("storage_type", JStr (StorageType c));
        ("capabilities", marshal_strings (Capabilities c)); ("max_workers", JNum (itoa (MaxWorkers c)));
        ("redis_url", JStr (RedisURL c)); ("plugin_registry", JStr (PluginRegistry c))].

Definition decodeClaim (fs : list (string * json)) : ClaimResponse * bool :=
  let '(a, e1) := field dec_string "id" "" fs in
  let '(b, e2) := field dec_string "org_id" "" fs in
  let '(c, e3) := field dec_string "token" "" fs in
  let '(d, e4) := field dec_string "backend_url" "" fs in
  let '(e, e5) := field dec_string "anon_key" "" fs in
  (mkClaim a b c d e, e1 || e2 || e3 || e4 || e5).

Definition decodePolicy (fs : list (string * json)) : HealthPolicyResponse * bool :=
  let '(a, e1) := field dec_bool "ok" false fs in
  let '(b, e2) := field dec_int "max_workers" 0 fs in
  let '(c, e3) := field dec_string "redis_url" "" fs in
  let '(d, e4) := field dec_string "error" "" fs in
  (mkPolicy a b c d, e1 || e2 || e3 || e4).

Definition decodeRedis (fs : list (string * json)) : RedisCache * bool :=
  let '(a, e1) := field dec_string "redis_url" "" fs in
  let '(b, e2) := field dec_string "redis_token" "" fs in
  let '(c, e3) := field dec_string "anon_key" "" fs in
  (mkCache a b c "", e1 || e2 || e3).

Definition decodeCache (fs : list (string * json)) : RedisCache * bool :=
  let '(r, e1) := decodeRedis fs in
  let '(d, e2) := field dec_string "cached_at" "" fs in
  (mkCache (rc_RedisURL r) (rc_RedisToken r) (rc_AnonKey r) d, e1 || e2).

Definition marshal_cache (c : RedisCache) : json :=
  JObj [("redis_url", JStr (rc_RedisURL c)); ("redis_token", JStr (rc_RedisToken c)); ("anon_key", JStr (rc_AnonKey c));
        ("cached_at", JStr (rc_CachedAt c))].

Definition zeroCache : RedisCache := mkCache "" "" "" "".

(** ** The operations *)

Section bootstrap.
Context (F : disk_faults) (environ : gmap string string) (NumCPU : Z) (timestamp : string).
Context (parse : string -> RawMessage) (indent : json -> string).
Context (requestErr : string -> error) (Do : list request -> request -> result response).

Definition Getenv (k : string) : string := default "" (environ !! k).

Definition UserHomeDir : result string := if Getenv "HOME" =?s "" then Err "$HOME is not defined" else Ok (Getenv "HOME").

Definition send (rq : request) (w : world) : world * result response :=
  (mkWorld (b_disk w) (b_sent w ++ [rq]), Do (b_sent w) rq).

(** The first variable that is set. *)
Definition first_set (ks : list string) : string :=
  default "" (List.find (fun v => negb (v =?s "")) (map Getenv ks)).

Definition detectBackendFromEnv : string * string :=
  (first_set ["SENTRA_BACKEND_URL"; "SUPABASE_URL"; "BACKEND_URL"],
   first_set ["SENTRA_BACKEND_ANON_KEY"; "SUPABASE_ANON_KEY"; "BACKEND_ANON_KEY"]).

Definition dq : string := String "034" "".
(** A member of an object, put together without quoting. *)
Definition raw_member (k v : string) : string := dq +:+ k +:+ dq +:+ ":" +:+ dq +:+ v +:+ dq.

Definition claim_body (claimCode deviceName : string) : string :=
  "{" +:+ raw_member "claim_code" claimCode +:+ "," +:+ raw_member "device_name" deviceName +:+ ","
  +:+ raw_member "environment_type" "linux" +:+ "," +:+ dq +:+ "capabilities" +:+ dq +:+ ":["
  +:+ dq +:+ "python" +:+ dq +:+ "," +:+ dq +:+ "docker" +:+ dq +:+ "]}".

Definition claimDevice (backendURL anonKey claimCode deviceName : string) (w : world) : world * result ClaimResponse :=
  let url := backendURL +:+ FuncClaimDevice in
  match requestErr url with
  | Some e => (w, Err e)
  | None =>
      match send (mkRequest "POST" url [("Content-Type", "application/json"); ("apikey", anonKey)] (claim_body claimCode deviceName)) w with
      | (w, Err e) => (w, Err e)
      | (w, Ok resp) =>
          (w, if negb (rs_Status resp =? 200) then Err ("claim failed: HTTP " +:+ itoa (rs_Status resp) +:+ " - " +:+ rs_Text resp)
              else
                match Unmarshal_struct (mkClaim "" "" "" "" "") decodeClaim (rs_JSON resp) with
                | (_, Some e) => Err ("decode response failed: " +:+ e)
                | (r, None) =>
                    if (cl_ID r =?s "") || (cl_Token r =?s "") then Err "invalid claim response: missing id or token"
                    else Ok (mkClaim (cl_ID r) (cl_OrgID r) (cl_Token r)
                               (if cl_BackendURL r =?s "" then backendURL else cl_BackendURL r)
                               (if cl_AnonKey r =?s "" then anonKey else cl_AnonKey r))
                end)
      end
  end.

Definition getMemoryGB : Z := 8.
Definition policy_body (cfg : Config) : string :=
  "{" +:+ raw_member "device_id" (DeviceID cfg) +:+ "," +:+ dq +:+ "total_cpu_cores" +:+ dq +:+ ":" +:+ itoa NumCPU +:+ ","
  +:+ dq +:+ "memory_free_gb" +:+ dq +:+ ":" +:+ itoa getMemoryGB +:+ "}".

(** Whether the answer says [ok] is not looked at. *)
Definition fetchHealthPolicy (cfg : Config) (w : world) : world * result HealthPolicyResponse :=
  let url := BackendURL cfg +:+ FuncHealthPolicy in
  match requestErr url with
  | Some e => (w, Err e)
  | None =>
      match send (mkRequest "POST" url [("Content-Type", "application/json"); ("Authorization", "Bearer " +:+ DeviceToken cfg)] (policy_body cfg)) w with
      | (w, Err e) => (w, Err e)
      | (w, Ok resp) =>
          (w, if negb (rs_Status resp =? 200) then Err ("health policy failed: HTTP " +:+ itoa (rs_Status resp))
              else match Unmarshal_struct (mkPolicy false 0 "" "") decodePolicy (rs_JSON resp) with
                   | (_, Some e) => Err e
                   | (r, None) => Ok r
                   end)
      end
  end.

Definition saveConfig (cfg : Config) (w : world) : world * error :=
  match UserHomeDir with
  | Err e => (w, Some e)
  | Ok home =>
      let dir := Join [home; ".sentra"] in
      match os_MkdirAll (f_mkdir F) dir (b_disk w) with
      | (s, Some e) => (with_b_disk s w, Some e)
      | (s, None) => let '(s, e) := os_WriteFile F (Join [dir; ConfigFileName]) (indent (marshal_config cfg)) s in (with_b_disk s w, e)
      end
  end.

Definition LoadConfig (w : world) : result Config :=
  match UserHomeDir with
  | Err e => Err ("cannot find home dir: " +:+ e)
  | Ok home =>
      let configPath := Join [home; ".sentra"; ConfigFileName] in
      match os_ReadFile F configPath (b_disk w) with
      | Err e => Err (match f_open F configPath, files (b_disk w) !! configPath with
                      | None, None => if decide (configPath ∈ dirs (b_disk w)) then e else "no config found, need to claim"
                      | _, _ => e
                      end)
      | Ok data =>
          match Unmarshal_struct zeroConfig decodeConfig (parse data) with
          | (_, Some e) => Err ("config corrupted: " +:+ e)
          | (cfg, None) => Ok cfg
          end
      end
  end.

(** A claim code of less than eight bytes makes the log line panic: [None]. *)
Definition FetchConfig (claimCode deviceName : string) (w : world) : option (world * result Config) :=
  if (String.length claimCode <? 8)%nat then None
  else
    let '(backendURL, anonKey) :=
      match detectBackendFromEnv with
      | (u, k) => if u =?s "" then ("https://app.sentra.ai", Getenv "SUPABASE_ANON_KEY") else (u, k)
      end in
    Some (match claimDevice backendURL anonKey claimCode deviceName w with
          | (w, Err e) => (w, Err ("claim device failed: " +:+ e))
          | (w, Ok c) =>
              let cfg workers redis :=
                mkConfig (cl_BackendURL c) (cl_AnonKey c) (cl_ID c) (cl_OrgID c) (cl_Token c) deviceName "linux" "s3"
                  (Some ["python"; "docker"]) workers redis "" in
              let '(w, p) := fetchHealthPolicy (cfg 0 "") w in
              let cfg := match p with Ok p => cfg (hp_MaxWorkers p) (hp_RedisURL p) | Err _ => cfg 4 "" end in
              ((saveConfig cfg w).1, Ok cfg)
          end).

(** *** Redis *)

(** What [FetchRedisConfig] uses of the configuration of the agent. *)
Record agent_config := mkAgent { a_BackendURL : string; a_BackendAnonKey : string; a_DeviceID : string; a_Token : string }.

Definition redis_request (cfg : agent_config) : request :=
  mkRequest "GET" (a_BackendURL cfg +:+ "/functions/v1/bootstrap")
    [("Authorization", "Bearer " +:+ a_BackendAnonKey cfg); ("x-agent-token", a_Token cfg)] "".

Definition usable (c : RedisCache) : bool := negb (rc_RedisURL c =?s "") && negb (rc_RedisToken c =?s "").

(** The cache, when it is there, decodes and has a URL and a token. *)
Definition read_cache (cachePath : string) (w : world) : option RedisCache :=
  match os_ReadFile F cachePath (b_disk w) with
  | Err _ => None
  | Ok data =>
      match Unmarshal_struct zeroCache decodeCache (parse data) with
      | (c, None) => if usable c then Some c else None
      | (_, Some _) => None
      end
  end.

(** Errors of the writing are ignored. *)
Definition write_cache (cachePath : string) (c : RedisCache) (w : world) : world :=
  match os_MkdirAll (f_mkdir F) (Dir cachePath) (b_disk w) with
  | (s, Some _) => with_b_disk s w
  | (s, None) => with_b_disk (os_WriteFile F cachePath (indent (marshal_cache c)) s).1 w
  end.

Definition no_redis : result (string * string * string) := Ok ("", "", "").
Definition redis_of (c : RedisCache) : result (string * string * string) := Ok (rc_RedisURL c, rc_RedisToken c, rc_AnonKey c).

Definition FetchRedisConfig (cfg : agent_config) (w : world) : world * result (string * string * string) :=
  match UserHomeDir with
  | Err e => (w, Err ("cannot find home dir: " +:+ e))
  | Ok home =>
      let cachePath := Join [home; ".sentra"; redisCacheFile] in
      match read_cache cachePath w with
      | Some c => (w, redis_of c)
      | None =>
          if (a_DeviceID cfg =?s "") || (a_Token cfg =?s "") then (w, no_redis)
          else
            match requestErr (rq_URL (redis_request cfg)) with
            | Some e => (w, Err ("bootstrap request failed: " +:+ e))
            | None =>
                match send (redis_request cfg) w with
                | (w, Err _) => (w, no_redis)
                | (w, Ok resp) =>
                    if negb (rs_Status resp =? 200) then (w, no_redis)
                    else
                      match Unmarshal_struct zeroCache decodeRedis (rs_JSON resp) with
                      | (_, Some _) => (w, no_redis)
                      | (r, None) =>
                          if negb (usable r) then (w, no_redis)
                          else (write_cache cachePath (mkCache (rc_RedisURL r) (rc_RedisToken r) (rc_AnonKey r) timestamp) w, redis_of r)
                      end
                end
            end
      end
  end.
End bootstrap.

(** *** The address of Redis ([main]) *)

(** [strings.Trim] of quotes. *)
Definition is_quote (c : ascii) : bool := Ascii.eqb c "034" || Ascii.eqb c "'".
Fixpoint trim_quotes_left (s : string) : string :=
  match s with String c s' => if is_quote c then trim_quotes_left s' else s | EmptyString => s end.
Fixpoint trim_quotes_right (s : string) : string :=
  match s with
  | EmptyString => EmptyString
  | String c s' =>
      match trim_quotes_right s' with
      | EmptyString => if is_quote c then EmptyString else String c EmptyString
      | t => String c t
      end
  end.

(** The text before the last colon. *)
Definition before_last_colon (s : string) : string :=
  match rev (split_on ":" s) with
  | _ :: ((_ :: _) as l) => join_with ":" (rev l)
  | _ => s
  end.

(** The host without its port; [url_Host] is the host that [url.Parse] finds, if
    the address parses. *)
Definition redis_host (url_Host : string -> option string) (rURL : string) : string :=
  let rURL := trim_quotes_right (trim_quotes_left (TrimSpace rURL)) in
  let host :=
    match url_Host rURL with
    | Some h => if h =?s "" then None else Some h
    | None => None
    end in
  before_last_colon
    match host with
    | Some h => h
    | None =>
        let host := foldl TrimPrefix rURL ["https://"; "http://"; "tcp://"; "rediss://"; "redis://"] in
        match split_on slash host with h :: _ => h | [] => host end
    end.

Example redis_host_ex :
  map (redis_host (fun _ => None)) ["https://eu1.upstash.io"; String "034" "rediss://a.b:6379/0" +:+ String "034" ""; "redis.local:6380/1"; "[::1]"] =
  ["eu1.upstash.io"; "a.b"; "redis.local"; "[:"].
Proof. vm_compute. reflexivity. Qed.

(** ** The configuration of Redis is kept *)

Definition sentra_file (l : list string) (f : string) : string := abs_path (l ++ [".sentra"; f]).

Lemma sentra_file_is l f : Forall plain_name l -> plain_name f ->
  Join [abs_path l; ".sentra"; f] = sentra_file l f /\ Join [Join [abs_path l; ".sentra"]; f] = sentra_file l f /\
  Dir (sentra_file l f) = Join [abs_path l; ".sentra"] /\ sentra_file l f <> Join [abs_path l; ".sentra"].
Proof.
  intros Hl Hf. assert (H1 : plain_name ".sentra") by (repeat split; discriminate).
  assert (Hs : Forall plain_name (l ++ [".sentra"])) by (apply Forall_app; split; [done|by apply Forall_singleton]).
  assert (E : l ++ [".sentra"; f] = (l ++ [".sentra"]) ++ [f]) by (by rewrite <- app_assoc).
  unfold sentra_file. rewrite (Join_abs l ".sentra") by done. split; [apply Join_abs_list; [done|apply Forall_cons_2; [done|by apply Forall_singleton]]|].
  rewrite E. split; [by apply Join_abs|]. split; [by apply Dir_abs|]. intros H%abs_path_inj; [|apply Forall_app; split; [done|by apply Forall_singleton]|done].
  apply (f_equal length) in H. rewrite !length_app in H. cbn in H. lia.
Qed.

Lemma redis_file_plain : plain_name redisCacheFile.
Proof. repeat split; discriminate. Qed.
Lemma config_file_plain : plain_name ConfigFileName.
Proof. repeat split; discriminate. Qed.

Section facts.
Context (environ : gmap string string) (parse : string -> RawMessage) (indent : json -> string).
Context (l : list string) (Hl : Forall plain_name l) (Hhome : Getenv environ "HOME" = abs_path l).

Abbreviation cache_path := (sentra_file l redisCacheFile).

Lemma home_is : UserHomeDir environ = Ok (abs_path l).
Proof. unfold UserHomeDir. rewrite Hhome. by destruct l. Qed.

Lemma decode_cache_back c : decodeCache
  [("redis_url", JStr (rc_RedisURL c)); ("redis_token", JStr (rc_RedisToken c)); ("anon_key", JStr (rc_AnonKey c));
   ("cached_at", JStr (rc_CachedAt c))] = (c, false).
Proof. destruct c. reflexivity. Qed.

(** A usable entry that was written is read. *)
Lemma write_read_cache c w : parse (indent (marshal_cache c)) = Raw (marshal_cache c) -> usable c = true -> cache_path ∉ dirs (b_disk w) ->
  read_cache no_disk_faults parse cache_path (write_cache no_disk_faults indent cache_path c w) = Some c /\
  cache_path ∉ dirs (b_disk (write_cache no_disk_faults indent cache_path c w)).
Proof.
  intros read_back Hu Hd. destruct (sentra_file_is l redisCacheFile Hl redis_file_plain) as (_ & _ & Hdir & Hne).
  unfold write_cache, os_MkdirAll. cbn [no_disk_faults f_mkdir]. rewrite Hdir. unfold os_WriteFile. rewrite Hdir.
  cbn [dirs with_dirs]. rewrite decide_True by set_solver. rewrite write_reader_no_faults by set_solver.
  cbn [fst b_disk with_b_disk]. split; [|cbn [dirs with_files with_dirs]; set_solver].
  unfold read_cache, os_ReadFile, os_Open. cbn [no_disk_faults f_open b_disk with_b_disk files with_files with_dirs].
  rewrite lookup_insert_eq. cbn [r_data r_err]. rewrite read_back. unfold marshal_cache, Unmarshal_struct. rewrite decode_cache_back. by rewrite Hu.
Qed.

Lemma read_cache_disk F path w w' : b_disk w = b_disk w' -> read_cache F parse path w = read_cache F parse path w'.
Proof. unfold read_cache. by intros ->. Qed.

(** C40.  A configuration of Redis that was fetched, or found, is the one of every
    later start: nothing is asked of the server any more, whichever device and
    backend the agent then belongs to and whatever the server would answer; the
    time of the entry is never looked at. *)
Theorem redis_config_sticks requestErr Do timestamp cfg w w' url token anon :
  (let entry := mkCache url token anon timestamp in parse (indent (marshal_cache entry)) = Raw (marshal_cache entry)) ->
  cache_path ∉ dirs (b_disk w) ->
  FetchRedisConfig no_disk_faults environ timestamp parse indent requestErr Do cfg w = (w', Ok (url, token, anon)) ->
  url <> "" ->
  forall requestErr' Do' timestamp' cfg' w2, b_disk w2 = b_disk w' ->
    FetchRedisConfig no_disk_faults environ timestamp' parse indent requestErr' Do' cfg' w2 = (w2, Ok (url, token, anon)).
Proof.
  intros Hback Hd HE Hurl requestErr' Do' timestamp' cfg' w2 Hw2.
  assert (Hc : exists c, read_cache no_disk_faults parse cache_path w' = Some c /\ redis_of c = Ok (url, token, anon)).
  { unfold FetchRedisConfig in HE. rewrite home_is, (proj1 (sentra_file_is l redisCacheFile Hl redis_file_plain)) in HE.
    destruct (read_cache _ _ cache_path w) as [c|] eqn:Er; [injection HE as <- H1 H2 H3; exists c; split; [done|unfold redis_of; congruence]|].
    unfold no_redis in HE. destruct (_ || _); [exfalso; congruence|]. destruct (requestErr _); [done|].
    unfold send in HE. destruct (Do _ _) as [resp|e]; [|exfalso; congruence].
    destruct (negb _); [exfalso; congruence|].
    destruct (Unmarshal_struct _ _ _) as [r [e|]]; [exfalso; congruence|].
    destruct (usable r) eqn:Hu; cbn [negb] in HE; [|exfalso; congruence]. injection HE as <- <- <- <-.
    set (c := mkCache _ _ _ timestamp). exists c. split; [|done]. apply write_read_cache; [exact Hback|exact Hu|done]. }
  destruct Hc as (c & Hr & Hrc). unfold FetchRedisConfig. rewrite home_is, (proj1 (sentra_file_is l redisCacheFile Hl redis_file_plain)).
  by rewrite (read_cache_disk _ _ w2 w' Hw2), Hr, Hrc.
Qed.
End facts.

Definition demo_environ : gmap string string := {["HOME" := "/home/u"]}.
Definition demo_entry : RedisCache := mkCache "https://eu1" "tok" "pk" "2025-01-01T00:00:00Z".
Definition demo_parse (s : string) : RawMessage := if s =?s "CACHE" then Raw (marshal_cache demo_entry) else RawInvalid.
Definition demo_Do (rs : list request) (rq : request) : result response :=
  Ok (mkResponse 200 "" (Raw (JObj [("redis_url", JStr "https://eu1"); ("redis_token", JStr "tok"); ("anon_key", JStr "pk")]))).
Definition demo_fetch : world * result (string * string * string) :=
  FetchRedisConfig no_disk_faults demo_environ "2025-01-01T00:00:00Z" demo_parse (fun _ => "CACHE") (fun _ => None) demo_Do
    (mkAgent "https://api" "anon" "d1" "t1") (mkWorld (mkFS ∅ ∅ ∅ ∅) []).

(** Another device, whose server has revoked everything, still gets the first
    answer. *)
Lemma redis_config_sticks_witness : length (b_sent demo_fetch.1) = 1%nat /\
  FetchRedisConfig no_disk_faults demo_environ "2026-01-01T00:00:00Z" demo_parse (fun _ => "CACHE") (fun _ => None)
    (fun _ _ => Err "revoked") (mkAgent "https://other" "anon2" "d2" "t2") demo_fetch.1 = (demo_fetch.1, Ok ("https://eu1", "tok", "pk")).
Proof.
  assert (E : demo_fetch = (demo_fetch.1, Ok ("https://eu1", "tok", "pk"))) by (vm_compute; reflexivity).
  split; [vm_compute; reflexivity|].
  apply (redis_config_sticks demo_environ demo_parse (fun _ => "CACHE") ["home"; "u"] ltac:(repeat constructor; discriminate) eq_refl
    (fun _ => None) demo_Do "2025-01-01T00:00:00Z" (mkAgent "https://api" "anon" "d1" "t1") (mkWorld (mkFS ∅ ∅ ∅ ∅) []) demo_fetch.1
    "https://eu1" "tok" "pk" eq_refl (not_elem_of_empty _) E ltac:(discriminate) (fun _ => None) (fun _ _ => Err "revoked")
    "2026-01-01T00:00:00Z" (mkAgent "https://other" "anon2" "d2" "t2") demo_fetch.1 eq_refl).
Defined.

(** ** The file of the configuration *)

Lemma dec_strings_back ls : dec_strings None (marshal_strings ls) = (ls, false).
Proof.
  destruct ls as [ls|]; [|done]. unfold dec_strings, marshal_strings, dec_slice. cbv zeta.
  rewrite !map_map. cbn [dec_string]. rewrite map_id. f_equal.
  induction ls as [|x ls IH]; [done|exact IH].
Qed.

(** A member that is the only one of its name decides its field. *)
Lemma field_only {A} (dec : decoder A) name zero fs k v :
  List.filter (fun kv => key_matches name kv.1) fs = [(k, v)] -> field dec name zero fs = dec zero v.
Proof.
  intros Hf. assert (E : forall acc, foldl (fun acc kv => if key_matches name kv.1
      then let '(v, bad) := dec acc.1 kv.2 in (v, acc.2 || bad) else acc) acc fs
    = foldl (fun acc kv => let '(v, bad) := dec acc.1 kv.2 in (v, acc.2 || bad)) acc (List.filter (fun kv => key_matches name kv.1) fs)).
  { clear Hf. induction fs as [|kv fs IH]; intros acc; [done|]. cbn [foldl List.filter].
    destruct (key_matches name kv.1); cbn [foldl]; apply IH. }
  unfold field. rewrite E, Hf. cbn [foldl fst snd]. by destruct (dec zero v).
Qed.

Lemma decode_members v1 v2 v3 v4 v5 v6 v7 v8 v9 v10 v11 v12 cfg :
  let fs := [("backend_url", v1); ("backend_anon_key", v2); ("device_id", v3); ("org_id", v4); ("device_token", v5);
    ("device_name", v6); ("environment_type", v7); ("storage_type", v8); ("capabilities", v9); ("max_workers", v10);
    ("redis_url", v11); ("plugin_registry", v12)] in
  Forall2 (fun v x => dec_string "" v = (x, false)) [v1; v2; v3; v4; v5; v6; v7; v8; v11; v12]
    [BackendURL cfg; BackendAnonKey cfg; DeviceID cfg; OrgID cfg; DeviceToken cfg; DeviceName cfg; EnvironmentType cfg;
     StorageType cfg; RedisURL cfg; PluginRegistry cfg] ->
  dec_strings None v9 = (Capabilities cfg, false) -> dec_int 0 v10 = (MaxWorkers cfg, false) ->
  decodeConfig fs = (cfg, false).
Proof.
  intros fs Hs H9 H10. unfold decodeConfig.
  repeat match goal with |- context [field ?dec ?name ?zero fs] =>
    erewrite (field_only dec name zero fs) by (vm_compute; reflexivity) end.
  rewrite !Forall2_cons in Hs. destruct Hs as (-> & -> & -> & -> & -> & -> & -> & -> & -> & -> & _). rewrite H9, H10. by destruct cfg.
Qed.

(** A configuration that was saved is loaded again: it is written as it is, the
    token of the device included, although the name of its file says that it is
    encrypted. *)
Lemma saved_config_loads environ parse indent l cfg w : Forall plain_name l -> Getenv environ "HOME" = abs_path l ->
  dec_int 0 (JNum (itoa (MaxWorkers cfg))) = (MaxWorkers cfg, false) ->
  parse (indent (marshal_config cfg)) = Raw (marshal_config cfg) ->
  sentra_file l ConfigFileName ∉ dirs (b_disk w) ->
  (saveConfig no_disk_faults environ indent cfg w).2 = None /\
  LoadConfig no_disk_faults environ parse (saveConfig no_disk_faults environ indent cfg w).1 = Ok cfg.
Proof.
  intros Hl Hhome Hint Hback Hd. pose proof (home_is environ l Hl Hhome) as Hh.
  destruct (sentra_file_is l ConfigFileName Hl config_file_plain) as (Hj & Hj' & Hdir & Hne).
  unfold saveConfig, LoadConfig. rewrite Hh, Hj, Hj'. unfold os_MkdirAll. cbn [no_disk_faults f_mkdir].
  unfold os_WriteFile. rewrite Hdir, decide_True by (cbn; set_solver).
  rewrite write_reader_no_faults by (cbn; set_solver). cbn [fst snd]. split; [done|].
  unfold os_ReadFile, os_Open. cbn [no_disk_faults f_open b_disk with_b_disk files with_files with_dirs]. rewrite lookup_insert_eq.
  cbn [r_data r_err]. rewrite Hback. unfold marshal_config, Unmarshal_struct. rewrite (decode_members _ _ _ _ _ _ _ _ _ _ _ _ cfg); [done|by repeat constructor|apply dec_strings_back|done].
Qed.
