(* ===== verification/Sandbox.v ===== *)
(** * Sandbox: how a plugin is started

    Models [internal/sandbox]: the configuration ([sandboxer.go]), the sandbox of
    Linux ([sandboxer_linux.go], [capabilities_linux.go]) with its control
    groups and resource limits ([rlimit_unix.go]), the sandboxes that do nothing
    or refuse, and the re-execution of the agent ([reexecTarget] of
    [cmd/main.go]), which hands the plugin to the entry points of [Seccomp].
    The kernel answers through a record of functions, each of which may fail; what
    it is asked to do is the state: the disk, the files of the control groups, the
    processes. *)
From S2P Require Import Prelude GoFloat Json Path Merge Storage Handler Seccomp.
From Stdlib Require Import Ascii.

(** ** Data *)

Record PluginResources := mkResources {
  MemoryMB : Z; CPUSeconds : Z; CPULimit : float64; TimeoutSeconds : Z; RequiresGPU : bool; GPUMemoryMB : Z }.

Record PluginManifest := mkPlugin { pm_Name : string; pm_Language : string; pm_Network : bool; Resources : PluginResources }.

Record SandboxConfig := mkConfig {
  Mode : string; DefaultMemoryMB : Z; DefaultTimeoutS : Z; MaxMemoryMB : Z; MaxTimeoutS : Z; TempDir : string;
  NetworkDefault : bool; LinuxNamespaces : bool; MacOSSeatbelt : bool; WindowsJobObject : bool; Cgroupsv2Path : string;
  DefaultCPUPercent : Z; SandboxNoNewPrivs : bool; SeccompProfile : string; SandboxUID : string; SandboxGID : string }.

Record SandboxEnv := mkEnv { WorkDir : string; env_Config : SandboxConfig; Manifest : PluginManifest; env_Network : bool; Platform : string }.

(** A command of [os/exec].  [None] for the environment is that of the agent;
    [c_Err] is what the look-up of the program has failed with; the command is
    killed after [c_Timeout] nanoseconds, the time its context has left. *)
Record IDMap := mkIDMap { ContainerID : Z; HostID : Z; Size : Z }.
Record SysProcAttr := mkAttr { Cloneflags : Z; UidMappings : list IDMap; GidMappings : list IDMap }.
Record Cmd := mkCmd { c_Path : string; c_Args : list string; c_Env : option (list string); c_Err : error; c_Attr : option SysProcAttr;
  c_Dir : string; c_Stdin : RawMessage; c_Timeout : Z }.

Definition with_command (path : string) (args : list string) (c : Cmd) : Cmd :=
  mkCmd path args (c_Env c) (c_Err c) (c_Attr c) (c_Dir c) (c_Stdin c) (c_Timeout c).
Definition with_attr (a : SysProcAttr) (c : Cmd) : Cmd :=
  mkCmd (c_Path c) (c_Args c) (c_Env c) (c_Err c) (Some a) (c_Dir c) (c_Stdin c) (c_Timeout c).
(** [append(cmd.Env, ...)]: to a nil environment, which meant the whole one. *)
Definition append_env (vars : list string) (c : Cmd) : Cmd :=
  mkCmd (c_Path c) (c_Args c) (Some (default [] (c_Env c) ++ vars)) (c_Err c) (c_Attr c) (c_Dir c) (c_Stdin c) (c_Timeout c).

(** An error of a run: an [*exec.ExitError], or any other. *)
Inductive run_error := ExitError (code : Z) (text : string) | OtherError (text : string).

(** ** State *)

Inductive event := Started (c : Cmd) (pid : Z) | Waited (pid : Z).

Record state := mkState {
  disk : fs;
  cgroups : gmap string string;       (** the files of control groups, as written *)
  cgroupPaths : list string;
  cgroupJobCounter : Z;
  events : list event }.

Definition with_disk (s : fs) (st : state) : state := mkState s (cgroups st) (cgroupPaths st) (cgroupJobCounter st) (events st).
Definition with_cgroups (g : gmap string string) (st : state) : state := mkState (disk st) g (cgroupPaths st) (cgroupJobCounter st) (events st).
Definition with_paths (l : list string) (st : state) : state := mkState (disk st) (cgroups st) l (cgroupJobCounter st) (events st).
Definition next_job (st : state) : state := mkState (disk st) (cgroups st) (cgroupPaths st) (int64 (cgroupJobCounter st + 1)) (events st).
Definition record (e : event) (st : state) : state := mkState (disk st) (cgroups st) (cgroupPaths st) (cgroupJobCounter st) (events st ++ [e]).

(** What the system answers. *)
Record host := mkHost {
  faults : disk_faults;
  Environ : gmap string string;
  GOOS : string; GOARCH : string;
  meminfo : option string;                 (** [/proc/meminfo] *)
  cgroup_mounted : bool;                   (** [/sys/fs/cgroup] exists *)
  user_ns : bool;                          (** [/proc/self/ns/user] exists *)
  actions_avail : option string;           (** [/proc/sys/kernel/seccomp/actions_avail] *)
  euid : Z; uid : Z; gid : Z;
  cg_mkdir : string -> error;
  cg_write : string -> string -> error;
  cg_remove : string -> error;             (** the removal of a control group *)
  Executable : result string;
  LookPath : string -> result string;
  is_program : string -> bool;             (** a file that is no directory *)
  start : Cmd -> result Z;
  wait : Cmd -> option run_error;
  now_unix : Z }.

(** ** Configuration *)

Section host.
Context (H : host).

Definition Getenv (k : string) : string := default "" (Environ H !! k).
Definition getEnv (key def : string) : string := if Getenv key =?s "" then def else Getenv key.

Definition getEnvInt64 (key : string) (def : Z) : Z := default def (Atoi (Getenv key)).
Definition getEnvBool (key : string) (def : bool) : bool :=
  if Getenv key =?s "" then def
  else (Getenv key =?s "true") || (Getenv key =?s "1") || (Getenv key =?s "yes").

Definition detectBestMode : string :=
  if (GOOS H =?s "linux") || (GOOS H =?s "darwin") || (GOOS H =?s "windows") then "native" else "deny".

(** [strings.Fields]. *)
Fixpoint fields_from (s acc : string) : list string :=
  match s with
  | EmptyString => if acc =?s "" then [] else [acc]
  | String c s => if is_space c then (if acc =?s "" then fields_from s "" else acc :: fields_from s "")
                  else fields_from s (acc +:+ String c "")
  end.
Definition Fields (s : string) : list string := fields_from s "".

(** The total of [/proc/meminfo]; macOS asks a program ([None]), and 2048 is the
    answer when there is none. *)
Fixpoint total_memory (lines : list string) : option Z :=
  match lines with
  | [] => None
  | l :: lines =>
      if HasPrefix l "MemTotal:" then
        match Fields l with
        | _ :: f :: _ => match Atoi f with Some kb => Some (Z.quot kb 1024) | None => total_memory lines end
        | _ => total_memory lines
        end
      else total_memory lines
  end.

Definition newline : ascii := "010".
Definition detectSystemMemoryMB (sysctl : option Z) : Z :=
  if GOOS H =?s "linux" then default 2048 (meminfo H ≫= fun data => total_memory (split_on newline data))
  else if GOOS H =?s "darwin" then match sysctl with Some bytes => Z.quot (Z.quot bytes 1024) 1024 | None => 2048 end
  else 2048.

Definition detectTempDir : string :=
  match List.find (fun d => negb (d =?s "")) [Getenv "SANDBOX_TEMP_DIR"; Getenv "TMPDIR"; Getenv "TEMP"; "/tmp"] with
  | Some d => trim_right_slash d
  | None => "/tmp"
  end.

Definition detectCgroupsPath : string := if cgroup_mounted H then "/sys/fs/cgroup" else "".

Definition LoadConfig (sysctl : option Z) : SandboxConfig :=
  let cgroupPath := getEnv "SANDBOX_CGROUPS_PATH" "" in
  let cgroupPath := if cgroupPath =?s "" then detectCgroupsPath else cgroupPath in
  mkConfig (getEnv "SANDBOX_MODE" detectBestMode)
    (getEnvInt64 "SANDBOX_DEFAULT_MEMORY_MB" (Z.quot (detectSystemMemoryMB sysctl) 4))
    (getEnvInt64 "SANDBOX_DEFAULT_TIMEOUT_S" 300)
    (getEnvInt64 "SANDBOX_MAX_MEMORY_MB" (Z.quot (detectSystemMemoryMB sysctl) 2))
    (getEnvInt64 "SANDBOX_MAX_TIMEOUT_S" 3600)
    (getEnv "SANDBOX_TEMP_DIR" detectTempDir)
    (getEnvBool "SANDBOX_NETWORK_DEFAULT" false) (getEnvBool "SANDBOX_LINUX_NAMESPACES" true)
    (getEnvBool "SANDBOX_MACOS_SEATBELT" true) (getEnvBool "SANDBOX_WINDOWS_JOB_OBJECT" true) cgroupPath
    (getEnvInt64 "SANDBOX_DEFAULT_CPU_PERCENT" 80) (getEnvBool "SANDBOX_NO_NEW_PRIVS" true)
    (getEnv "SANDBOX_SECCOMP_PROFILE" "default") (getEnv "SANDBOX_UID" "65534") (getEnv "SANDBOX_GID" "65534").

(** *** Capabilities *)

Record PlatformCapabilities := mkCaps {
  HasCgroupWrite : bool; HasUserNS : bool; HasSeccomp : bool; IsPrivileged : bool; CgroupPath : string }.

(** The probe is removed again. *)
Definition probeCgroupWrite (cgPath : string) : bool :=
  let testDir := cgPath +:+ "/.sentra-probe" in
  match cg_mkdir H testDir, cg_write H (testDir +:+ "/memory.max") "1073741824" with
  | None, None => true
  | _, _ => false
  end.

Definition probeSeccompAvailable : bool :=
  match actions_avail H with Some data => negb (TrimSpace data =?s "") | None => false end.

Definition DetectCapabilities (c : SandboxConfig) : PlatformCapabilities :=
  let base := if Cgroupsv2Path c =?s "" then "/sys/fs/cgroup" else Cgroupsv2Path c in
  mkCaps (probeCgroupWrite base) (user_ns H) probeSeccompAvailable (euid H =? 0) base.
End host.

(** ** Processes *)

Section linux.
Context (H : host).

(** [cmd.Start] and [cmd.Wait].  A program that was not found is not started,
    whatever the command was changed to afterwards, and neither is one whose
    context has no time left. *)
Definition start_process (c : Cmd) : result Z :=
  match c_Err c with
  | Some e => Err e
  | None => if c_Timeout c <=? 0 then Err "context deadline exceeded" else start H c
  end.

Definition cmd_Start (c : Cmd) (st : state) : state * result Z :=
  match start_process c with
  | Err e => (st, Err e)
  | Ok pid => (record (Started c pid) st, Ok pid)
  end.

Definition cmd_Wait (c : Cmd) (pid : Z) (st : state) : state * option run_error := (record (Waited pid) st, wait H c).

Definition cmd_Run (c : Cmd) (st : state) : state * option run_error :=
  match cmd_Start c st with
  | (st, Err e) => (st, Some (OtherError e))
  | (st, Ok pid) => cmd_Wait c pid st
  end.

(** *** Resource limits *)

(** An absolute path is kept, a relative one gives the empty string, a name is
    looked up; one that is found nowhere is kept. *)
Definition resolveExecutablePath (name : string) : string :=
  if (name =?s "") || IsAbs name then name
  else if strings_Contains name "/" then ""
  else match LookPath H name with
       | Ok resolved => resolved
       | Err _ =>
           default name (List.find (is_program H) ["/opt/homebrew/bin/" +:+ name; "/usr/local/bin/" +:+ name; "/usr/bin/" +:+ name])
       end.

Definition shell_text (limits : list string) : string := join_with "; " limits +:+ "; exec " +:+ String "034" "$@" +:+ String "034" "".

(** The command becomes [/bin/sh -c '<limits>; exec "$@"' -- <command>]. *)
Definition wrapWithLimits (limits : list string) (c : Cmd) : Cmd :=
  let resolved := resolveExecutablePath (c_Path c) in
  let args := if negb (resolved =?s "") && negb (resolved =?s c_Path c)
              then match c_Args c with [] => [] | _ :: args => resolved :: args end
              else c_Args c in
  with_command "/bin/sh" ("/bin/sh" :: "-c" :: shell_text limits :: "--" :: args) c.

Definition cpu_limit (seconds : Z) : string := "ulimit -t " +:+ itoa seconds +:+ " 2>/dev/null".

Definition clamp_memory (cfg : SandboxConfig) (memoryMB : Z) : Z :=
  let memoryMB := if memoryMB <=? 0 then DefaultMemoryMB cfg else memoryMB in
  if MaxMemoryMB cfg <? memoryMB then MaxMemoryMB cfg else memoryMB.

Definition applyRLimits (env : SandboxEnv) (c : Cmd) : Cmd :=
  let memoryMB := clamp_memory (env_Config env) (MemoryMB (Resources (Manifest env))) in
  let cpuSeconds := CPUSeconds (Resources (Manifest env)) in
  let limits := (if 0 <? memoryMB then ["ulimit -v " +:+ itoa (int64 (memoryMB * 1024)) +:+ " 2>/dev/null"] else [])
             ++ (if 0 <? cpuSeconds then [cpu_limit cpuSeconds] else []) in
  match limits with [] => c | _ => wrapWithLimits limits c end.

Definition applyCPULimit (env : SandboxEnv) (c : Cmd) : Cmd :=
  let cpuSeconds := CPUSeconds (Resources (Manifest env)) in
  if cpuSeconds <=? 0 then c else wrapWithLimits [cpu_limit cpuSeconds] c.

(** ** The sandbox of Linux *)

Context (cfg : SandboxConfig).

(** The clone flags of the kernel. *)
Definition CLONE_NEWNS : Z := 0x20000.
Definition CLONE_NEWUTS : Z := 0x4000000.
Definition CLONE_NEWIPC : Z := 0x8000000.
Definition CLONE_NEWUSER : Z := 0x10000000.
Definition CLONE_NEWPID : Z := 0x20000000.
Definition CLONE_NEWNET : Z := 0x40000000.

(** The network is shared only with a plugin that asked for it. *)
Definition cloneFlags (network : bool) : Z :=
  let flags := Z.lor (Z.lor (Z.lor (Z.lor CLONE_NEWNS CLONE_NEWUTS) CLONE_NEWIPC) CLONE_NEWPID) CLONE_NEWUSER in
  if network then flags else Z.lor flags CLONE_NEWNET.

Definition isolated (network : bool) : SysProcAttr :=
  mkAttr (cloneFlags network) [mkIDMap 0 (uid H) 1] [mkIDMap 0 (gid H) 1].

Definition resolveMemoryLimit (env : SandboxEnv) : Z := clamp_memory cfg (MemoryMB (Resources (Manifest env))).

(** Percent of one processor, as microseconds in 100 milliseconds. *)
Definition cpu_quota (env : SandboxEnv) : Z :=
  let zero := f64_of_Z 0 in
  let percent := CPULimit (Resources (Manifest env)) in
  let percent := if f64_le percent zero then f64_of_Z (DefaultCPUPercent cfg) else percent in
  let percent := if f64_le percent zero then f64_of_Z 80 else percent in
  let percent := if f64_lt (f64_of_Z 100) percent then f64_of_Z 100 else percent in
  f64_to_int64 (f64_mul percent (f64_of_Z 1000)).

(** [os.WriteFile] of a file of a control group. *)
Definition write_cgroup (path data : string) (st : state) : state * error :=
  match cg_write H path data with
  | Some e => (st, Some e)
  | None => (with_cgroups (<[path := data]> (cgroups st)) st, None)
  end.

(** [os.RemoveAll] of a control group.  The files of a group only go with the
    group: when the system refuses, which is at most logged, all of them stay. *)
Definition remove_cgroup (path : string) (st : state) : state :=
  match cg_remove H path with
  | Some _ => st
  | None => with_cgroups (filter (fun kv => below path kv.1 = false) (cgroups st)) st
  end.

Definition writeCPUMax (cgSubPath : string) (env : SandboxEnv) : state -> state * error :=
  write_cgroup (cgSubPath +:+ "/cpu.max") (itoa (cpu_quota env) +:+ " 100000").

(** The control group of the job, if it could be made; a quota that cannot be
    written is only logged. *)
Definition make_cgroup (env : SandboxEnv) (caps : PlatformCapabilities) (memoryMB : Z) (st : state) : state * option string :=
  if (0 <? memoryMB) && HasCgroupWrite caps && negb (CgroupPath caps =?s "") then
    let st := next_job st in
    let cgSubPath := CgroupPath caps +:+ "/job-" +:+ itoa (now_unix H) +:+ "-" +:+ itoa (cgroupJobCounter st) in
    match cg_mkdir H cgSubPath with
    | Some _ => (st, None)
    | None =>
        match write_cgroup (cgSubPath +:+ "/memory.max") (itoa (int64 (int64 (memoryMB * 1024) * 1024))) st with
        | (st, Some _) => (remove_cgroup cgSubPath st, None)
        | (st, None) =>
            let '(st, _) := writeCPUMax cgSubPath env st in
            (with_paths (cgroupPaths st ++ [cgSubPath]) st, Some cgSubPath)
        end
    end
  else (st, None).

Definition gpu_variables : list string := ["NVIDIA_VISIBLE_DEVICES=all"; "NVIDIA_DRIVER_CAPABILITIES=compute,utility"].

Definition enableGPU (caps : PlatformCapabilities) (c : Cmd) (st : state) : state * result Cmd :=
  if negb (HasCgroupWrite caps) || (Cgroupsv2Path cfg =?s "") then (st, Ok (append_env gpu_variables c))
  else
    match write_cgroup (Cgroupsv2Path cfg +:+ "/device.allow") ("c 195:* rwm" +:+ String newline "") st with
    | (st, Some e) => (st, Err ("write device.allow: " +:+ e))
    | (st, None) => (st, Ok (append_env gpu_variables c))
    end.

Definition seccompEnabled (env : SandboxEnv) (caps : PlatformCapabilities) : bool :=
  negb (SeccompProfile (env_Config env) =?s "") && negb (SeccompProfile (env_Config env) =?s "off")
  && seccompSupportedArch (GOARCH H) && HasSeccomp caps.

(** The command becomes the agent itself, which gets the command behind the name
    of the mode.  The slice of the arguments has at least one element. *)
Definition maybeReexec (env : SandboxEnv) (caps : PlatformCapabilities) (c : Cmd) : result Cmd :=
  if negb (seccompEnabled env caps) && negb (SandboxNoNewPrivs (env_Config env)) then Ok c
  else
    match Executable H with
    | Err e => Err ("resolve agent executable: " +:+ e)
    | Ok self =>
        let mode := if seccompEnabled env caps then "--seccomp-exec" else "--no-new-privs-exec" in
        Ok (with_command self (Base self :: mode :: c_Path c :: tl (c_Args c)) c)
    end.

Definition linux_Prepare (jobID : string) (manifest : PluginManifest) (network : bool) (st : state) : state * result SandboxEnv :=
  let workDir := Join [TempDir cfg; "sentrazero"; jobID] in
  match os_MkdirAll (f_mkdir (faults H)) workDir (disk st) with
  | (s, Some e) => (with_disk s st, Err ("create work dir: " +:+ e))
  | (s, None) => (with_disk s st, Ok (mkEnv workDir cfg manifest network "linux"))
  end.

(** The command as it is started: in namespaces of its own, behind the limit of
    the time of the processor, and through the agent. *)
Definition prepare_command (env : SandboxEnv) (caps : PlatformCapabilities) (c : Cmd) (st : state) : state * result Cmd :=
  let c := applyCPULimit env (with_attr (isolated (env_Network env)) c) in
  match (if RequiresGPU (Resources (Manifest env)) then enableGPU caps c st else (st, Ok c)) with
  | (st, Err e) => (st, Err ("gpu: " +:+ e))
  | (st, Ok c) =>
      (st, match maybeReexec env caps c with Err e => Err ("sandbox reexec: " +:+ e) | Ok c => Ok c end)
  end.

(** A process that cannot be put into its group runs on, outside of it. *)
Definition join_cgroup (cg : option string) (pid : Z) (st : state) : state :=
  match cg with
  | None => st
  | Some cgSubPath =>
      match write_cgroup (cgSubPath +:+ "/cgroup.procs") (itoa pid) st with
      | (st, Some _) => remove_cgroup cgSubPath st
      | (st, None) => st
      end
  end.

Definition linux_Execute (env : SandboxEnv) (c : Cmd) (st : state) : state * option run_error :=
  if negb (LinuxNamespaces cfg) then cmd_Run c st
  else if negb (user_ns H) then cmd_Run c st
  else
    let caps := DetectCapabilities H cfg in
    let '(st, cg) := make_cgroup env caps (resolveMemoryLimit env) st in
    match prepare_command env caps c st with
    | (st, Err e) => (st, Some (OtherError e))
    | (st, Ok c) =>
        match cmd_Start c st with
        | (st, Err e) => (st, Some (OtherError ("start command: " +:+ e)))
        | (st, Ok pid) => cmd_Wait c pid (join_cgroup cg pid st)
        end
    end.

Definition cleanup (env : SandboxEnv) (st : state) : state :=
  with_disk (os_RemoveAll (faults H) (WorkDir env) (disk st)).1 st.

(** The groups of all jobs of this sandbox are removed. *)
Definition linux_Destroy (env : SandboxEnv) (st : state) : state :=
  cleanup env (with_paths [] (foldl (fun st p => remove_cgroup p st) st (cgroupPaths st))).
End linux.

(** ** The other sandboxes *)

(** The interface [Sandboxer]. *)
Record Sandboxer := mkSandboxer {
  Prepare : string -> PluginManifest -> bool -> state -> state * result SandboxEnv;
  Execute : SandboxEnv -> Cmd -> state -> state * option run_error;
  Destroy : SandboxEnv -> state -> state }.

Definition linuxSandbox (H : host) (cfg : SandboxConfig) : Sandboxer :=
  mkSandboxer (linux_Prepare H cfg) (linux_Execute H cfg) (linux_Destroy H).

(** A working directory by its clean absolute name. *)
Definition clean_workdir (env : SandboxEnv) : Prop := exists l, Forall plain_name l /\ l <> [] /\ WorkDir env = abs_path l.

(** The same input, working directory and deadline. *)
Definition same_io (c c' : Cmd) : Prop :=
  c_Dir c' = c_Dir c /\ c_Stdin c' = c_Stdin c /\ c_Timeout c' = c_Timeout c.

(** What every sandbox promises to the code that runs plugins: a working
    directory is made, at most one process is started, if there is time left,
    with the input of the command, and waited for, no other files are changed, and the working
    directory is removed. *)
Class Sandboxed (H : host) (sb : Sandboxer) : Prop := {
  prepare_law : forall job pm net st st' r, Prepare sb job pm net st = (st', r) ->
    events st' = events st /\ files (disk st') = files (disk st) /\
    forall env, r = Ok env -> Manifest env = pm /\ env_Network env = net;
  execute_law : forall env c st st' r, Execute sb env c st = (st', r) ->
    (clean_workdir env -> forall p, below (WorkDir env) p = false -> files (disk st') !! p = files (disk st) !! p) /\
    (events st' = events st /\ (exists text, r = Some (OtherError text)) \/
     exists c' pid, events st' = events st ++ [Started c' pid; Waited pid] /\ r = wait H c' /\ same_io c c' /\ 0 < c_Timeout c);
  destroy_law : forall env st, events (Destroy sb env st) = events st /\
    disk (Destroy sb env st) = (os_RemoveAll (faults H) (WorkDir env) (disk st)).1 }.

Section plain.
Context (H : host) (cfg : SandboxConfig).

(** Errors of the creation of the directory are ignored. *)
Definition plain_Prepare (jobID : string) (manifest : PluginManifest) (network : bool) (st : state) : state * result SandboxEnv :=
  let workDir := Join [getEnv H "SANDBOX_TEMP_DIR" (TempDir cfg); jobID] in
  (with_disk (os_MkdirAll (f_mkdir (faults H)) workDir (disk st)).1 st, Ok (mkEnv workDir cfg manifest network (GOOS H))).

Definition noopSandbox : Sandboxer := mkSandboxer plain_Prepare (fun _ => cmd_Run H) (cleanup H).

Definition denied : string :=
  "plugin execution denied: sandboxing is not supported on " +:+ GOOS H
  +:+ "; set SANDBOX_MODE=off to run plugins unsandboxed (NOT recommended)".
Definition deny_Execute (env : SandboxEnv) (c : Cmd) (st : state) : state * option run_error := (st, Some (OtherError denied)).
Definition denySandbox : Sandboxer := mkSandboxer plain_Prepare deny_Execute (cleanup H).

(** Systems without a sandbox of their own ([sandboxer_stub.go]). *)
Definition stub_Prepare (jobID : string) (manifest : PluginManifest) (network : bool) (st : state) : state * result SandboxEnv :=
  let workDir := Join [TempDir cfg; "sentrazero"; jobID] in
  match os_MkdirAll (f_mkdir (faults H)) workDir (disk st) with
  | (s, Some e) => (with_disk s st, Err ("create work dir: " +:+ e))
  | (s, None) => (with_disk s st, Ok (mkEnv workDir cfg manifest network (GOOS H)))
  end.
Definition stubSandbox : Sandboxer := mkSandboxer stub_Prepare deny_Execute (cleanup H).

(** [New]; [newPlatformSandbox] is the sandbox of the system it was built for. *)
Definition New (newPlatformSandbox : SandboxConfig -> Sandboxer) : Sandboxer :=
  if Mode cfg =?s "off" then noopSandbox
  else if Mode cfg =?s "deny" then denySandbox
  else newPlatformSandbox cfg.
End plain.

(** ** The agent, executed again *)

(** [reexecTarget] of [main]: the first mode among the arguments; the rest is
    handed over as it is. *)
Fixpoint reexec_from (args : list string) : option (string * string * list string) :=
  match args with
  | [] => None
  | a :: args =>
      if (a =?s "--seccomp-exec") || (a =?s "--no-new-privs-exec")
      then match args with target :: rest => if target =?s "" then None else Some (a, target, rest) | [] => None end
      else reexec_from args
  end.
Definition reexecTarget (argv : list string) : option (string * string * list string) := reexec_from (tl argv).

(** The variable that a process sees: of its own environment, where the last
    entry of a name counts, or of the agent. *)
Definition prefix_value (k : string) (entry : string) : option string :=
  if HasPrefix entry (k +:+ "=") then Some (TrimPrefix entry (k +:+ "=")) else None.
Definition child_Getenv (H : host) (c : Cmd) (k : string) : string :=
  match c_Env c with
  | None => Getenv H k
  | Some vars => default "" (last (omap (prefix_value k) vars))
  end.

(** What the process of a command asks of the kernel when it is the agent: the
    entry points of [Seccomp] for a mode, and nothing that concerns the plugin
    ([None]) otherwise. *)
Definition reexec_main (H : host) (c : Cmd) (k : kernel_answers) : option (list exec_action) :=
  match reexecTarget (c_Args c) with
  | Some (mode, target, args) =>
      Some (if mode =?s "--seccomp-exec"
            then SeccompExec (GOARCH H) (child_Getenv H c "SANDBOX_SECCOMP_PROFILE") k target args
            else NoNewPrivsExec k target args)
  | None => None
  end.

(** ** Confinement *)

Section confinement.
Context (H : host) (cfg : SandboxConfig) (env : SandboxEnv).
Abbreviation caps := (DetectCapabilities H cfg).

(** The program and the arguments that run in the end: those of the plugin, or
    the shell that limits its time. *)
Definition target_of (c : Cmd) : string * list string :=
  let c := applyCPULimit H env c in (c_Path c, tl (c_Args c)).

Definition hardened_run : bool := seccompEnabled H env caps || SandboxNoNewPrivs (env_Config env).
Definition mode : string := if seccompEnabled H env caps then "--seccomp-exec" else "--no-new-privs-exec".

Record prepared (c c' : Cmd) : Prop := {
  prep_attr : c_Attr c' = Some (isolated H (env_Network env));
  prep_err : c_Err c' = c_Err c;
  prep_io : same_io c c';
  prep_env : c_Env c' = c_Env c \/ c_Env c' = Some (default [] (c_Env c) ++ gpu_variables);
  prep_command : if hardened_run
    then exists self, Executable H = Ok self /\ c_Path c' = self /\
      c_Args c' = Base self :: mode :: (target_of c).1 :: (target_of c).2
    else c_Path c' = (target_of c).1 /\ tl (c_Args c') = (target_of c).2 }.

Lemma limit_attr a c : applyCPULimit H env (with_attr a c) = with_attr a (applyCPULimit H env c).
Proof. unfold applyCPULimit. by destruct (_ <=? 0). Qed.

Lemma limit_keeps c :
  c_Err (applyCPULimit H env c) = c_Err c /\ c_Env (applyCPULimit H env c) = c_Env c /\ same_io c (applyCPULimit H env c).
Proof. unfold applyCPULimit. by destruct (_ <=? 0). Qed.

Lemma reexec_prepared c0 c1 c' : maybeReexec H env caps c1 = Ok c' ->
  c_Attr c1 = Some (isolated H (env_Network env)) -> c_Err c1 = c_Err c0 -> same_io c0 c1 ->
  c_Env c1 = c_Env c0 \/ c_Env c1 = Some (default [] (c_Env c0) ++ gpu_variables) ->
  (c_Path c1, tl (c_Args c1)) = target_of c0 -> prepared c0 c'.
Proof.
  unfold maybeReexec. intros E Ha He Hio Hv Ht. fold mode in E.
  destruct (negb (seccompEnabled H env caps) && negb (SandboxNoNewPrivs (env_Config env))) eqn:Hh.
  - injection E as <-. split; [done..|]. unfold hardened_run. rewrite <- negb_orb in Hh. apply negb_true_iff in Hh.
    by rewrite Hh, <- Ht.
  - destruct (Executable H) as [self|] eqn:Ex; [|done]. injection E as <-. split; [done..|].
    unfold hardened_run. rewrite <- negb_orb in Hh. apply negb_false_iff in Hh. rewrite Hh, <- Ht. by exists self.
Qed.

Lemma remove_cgroup_keeps p st :
  events (remove_cgroup H p st) = events st /\ disk (remove_cgroup H p st) = disk st /\
  cgroupPaths (remove_cgroup H p st) = cgroupPaths st.
Proof. unfold remove_cgroup. by destruct (cg_remove H p). Qed.

Lemma make_cgroup_keeps m st :
  let st' := (make_cgroup H cfg env caps m st).1 in events st' = events st /\ disk st' = disk st.
Proof.
  cbv zeta. unfold make_cgroup, writeCPUMax, write_cgroup. destruct (_ && _); [|done]. cbv zeta.
  destruct (cg_mkdir H _); [done|]. destruct (cg_write H _ _); [|by destruct (cg_write H _ _)].
  cbn [fst]. by destruct (remove_cgroup_keeps (CgroupPath caps +:+ "/job-" +:+ itoa (now_unix H) +:+ "-" +:+ itoa (cgroupJobCounter (next_job st))) (next_job st)) as (-> & -> & _).
Qed.

Lemma join_cgroup_keeps cg pid st :
  events (join_cgroup H cg pid st) = events st /\ disk (join_cgroup H cg pid st) = disk st.
Proof.
  unfold join_cgroup, write_cgroup. destruct cg as [g|]; [|done]. destruct (cg_write H _ _); [|done].
  by destruct (remove_cgroup_keeps g st) as (-> & -> & _).
Qed.

Lemma prepare_prepared c st st' r : prepare_command H cfg env caps c st = (st', r) ->
  (events st' = events st /\ disk st' = disk st) /\ forall c', r = Ok c' -> prepared c c'.
Proof.
  unfold prepare_command. rewrite limit_attr. destruct (limit_keeps c) as (He & Hv & Hio). set (c1 := applyCPULimit H env c) in *.
  set (c2 := with_attr _ c1). destruct (RequiresGPU _).
  - assert (Hg : (events (enableGPU H cfg caps c2 st).1 = events st /\ disk (enableGPU H cfg caps c2 st).1 = disk st) /\
      forall c3, (enableGPU H cfg caps c2 st).2 = Ok c3 -> c3 = append_env gpu_variables c2).
    { unfold enableGPU, write_cgroup. destruct (_ || _); [split; [done|]; by intros c3 [= <-]|].
      destruct (cg_write H _ _); [done|]. split; [done|]. by intros c3 [= <-]. }
    destruct (enableGPU H cfg caps c2 st) as [st1 [c3|e]]; cbn [fst snd] in Hg; destruct Hg as [Hev Hc].
    + intros [= <- <-]. split; [done|]. intros c'. destruct (maybeReexec H env caps c3) as [c4|e] eqn:E; [|done].
      intros [= <-]. rewrite (Hc _ eq_refl) in E. apply (reexec_prepared c _ _ E); [done|done|done| |done].
      right. unfold append_env. cbn [c_Env]. by rewrite <- Hv.
    + by intros [= <- <-].
  - intros [= <- <-]. split; [done|]. intros c'. destruct (maybeReexec H env caps c2) as [c4|e] eqn:E; [|done].
    intros [= <-]. apply (reexec_prepared c _ _ E); [done|done|done|left; exact Hv|done].
Qed.

Lemma process_started c pid : start_process H c = Ok pid -> c_Err c = None /\ 0 < c_Timeout c /\ start H c = Ok pid.
Proof. unfold start_process. destruct (c_Err c); [done|]. destruct (Z.leb_spec (c_Timeout c) 0); [done|]. by intros ->. Qed.

(** What a run in namespaces does: nothing, or it starts the prepared command
    once and waits for it. *)
Lemma execute_once c st st' r : LinuxNamespaces cfg = true -> user_ns H = true ->
  linux_Execute H cfg env c st = (st', r) ->
  disk st' = disk st /\
  (events st' = events st /\ (exists text, r = Some (OtherError text)) \/
   exists c' pid, events st' = events st ++ [Started c' pid; Waited pid] /\ r = wait H c' /\ prepared c c' /\
     c_Err c' = None /\ 0 < c_Timeout c' /\ start H c' = Ok pid).
Proof.
  unfold linux_Execute. intros -> ->. cbn [negb].
  destruct (make_cgroup_keeps (resolveMemoryLimit cfg env) st) as [He1 Hd1].
  destruct (make_cgroup H cfg env caps _ st) as [st1 cg]. cbn [fst] in He1, Hd1.
  destruct (prepare_command H cfg env caps c st1) as [st2 [c'|e]] eqn:E; apply prepare_prepared in E as [[He2 Hd2] Hp];
    [|intros [= <- <-]; split; [congruence|left; split; [congruence|by eexists]]].
  unfold cmd_Start. destruct (start_process H c') as [pid|e] eqn:Es;
    [|intros [= <- <-]; split; [congruence|left; split; [congruence|by eexists]]].
  apply process_started in Es as (He & Ht & Es).
  unfold cmd_Wait. intros [= <- <-]. cbn [disk events record].
  destruct (join_cgroup_keeps cg pid (record (Started c' pid) st2)) as [He3 Hd3]. rewrite He3, Hd3. cbn [disk events record].
  split; [congruence|]. right. exists c', pid. split_and!; [|done|by apply Hp|done..].
  rewrite He2, He1. by rewrite <- app_assoc.
Qed.
End confinement.

(** *** The laws of the sandboxes *)

Lemma cmd_Run_once H c st st' r : cmd_Run H c st = (st', r) ->
  disk st' = disk st /\
  (events st' = events st /\ (exists text, r = Some (OtherError text)) \/
   exists pid, events st' = events st ++ [Started c pid; Waited pid] /\ r = wait H c /\ c_Err c = None /\ 0 < c_Timeout c).
Proof.
  unfold cmd_Run, cmd_Start, cmd_Wait. destruct (start_process H c) as [pid|e] eqn:Es; intros [= <- <-]; (split; [done|]);
    [right|left; split; [done|by eexists]].
  apply process_started in Es as (? & ? & _). exists pid. cbn [events record]. by rewrite <- app_assoc.
Qed.

Lemma removed_groups_keep H paths st :
  let st' := foldl (fun st p => remove_cgroup H p st) st paths in events st' = events st /\ disk st' = disk st.
Proof. cbv zeta. revert st. induction paths as [|p paths IH]; intros st; [done|]. cbn [foldl]. rewrite !(proj1 (IH _)), !(proj2 (IH _)).
  unfold remove_cgroup. by destruct (cg_remove H p).
Qed.

Lemma cleanup_law H env st : events (cleanup H env st) = events st /\
  disk (cleanup H env st) = (os_RemoveAll (faults H) (WorkDir env) (disk st)).1.
Proof. done. Qed.

Ltac prepared_dir :=
  intros job pm net st st' r; cbn [Prepare linuxSandbox noopSandbox denySandbox stubSandbox];
  unfold linux_Prepare, stub_Prepare, plain_Prepare, os_MkdirAll; cbv zeta;
  destruct (f_mkdir _ _); intros [= <- <-]; (split; [done|split; [done|]]); intros env; by intros [= <-].

Lemma run_law H (env : SandboxEnv) (c : Cmd) st st' r : cmd_Run H c st = (st', r) ->
  (clean_workdir env -> forall p, below (WorkDir env) p = false -> files (disk st') !! p = files (disk st) !! p) /\
  (events st' = events st /\ (exists text, r = Some (OtherError text)) \/
   exists c' pid, events st' = events st ++ [Started c' pid; Waited pid] /\ r = wait H c' /\ same_io c c' /\ 0 < c_Timeout c).
Proof. intros [Hd [?|(pid & ? & ? & _ & ?)]]%cmd_Run_once; (split; [by rewrite Hd|]); [by left|right]. by exists c, pid. Qed.

#[export] Instance linux_sandboxed H cfg : Sandboxed H (linuxSandbox H cfg).
Proof.
  split.
  - prepared_dir.
  - cbn [linuxSandbox Execute]. intros env c st st' r HE.
    destruct (LinuxNamespaces cfg) eqn:Hns; [destruct (user_ns H) eqn:Hu|];
      [|unfold linux_Execute in HE; rewrite Hns, Hu in HE; by apply (run_law H env) in HE
       |unfold linux_Execute in HE; rewrite Hns in HE; by apply (run_law H env) in HE].
    apply execute_once in HE as [Hd [?|(c' & pid & ? & ? & Hp & _ & Ht & _)]]; [| |done..]; (split; [by rewrite Hd|]); [by left|right].
    destruct (prep_io _ _ _ _ _ Hp) as (? & ? & Et). exists c', pid. by rewrite <- Et.
  - intros env st. cbn [linuxSandbox Destroy]. unfold linux_Destroy. destruct (cleanup_law H env (with_paths []
      (foldl (fun st p => remove_cgroup H p st) st (cgroupPaths st)))) as [-> ->]. cbn [with_paths events disk].
    by destruct (removed_groups_keep H (cgroupPaths st) st) as [-> ->].
Qed.

#[export] Instance noop_sandboxed H cfg : Sandboxed H (noopSandbox H cfg).
Proof. split; [prepared_dir|intros env; apply (run_law H env)|done]. Qed.

#[export] Instance deny_sandboxed H cfg : Sandboxed H (denySandbox H cfg).
Proof. split; [prepared_dir| |done]. intros env c st st' r [= <- <-]. split; [done|left]. split; [done|by eexists]. Qed.

#[export] Instance stub_sandboxed H cfg : Sandboxed H (stubSandbox H cfg).
Proof. split; [prepared_dir| |done]. intros env c st st' r [= <- <-]. split; [done|left]. split; [done|by eexists]. Qed.

(** The sandbox that is chosen keeps the laws if that of the system does. *)
#[export] Instance New_sandboxed H cfg sys : (forall cfg, Sandboxed H (sys cfg)) -> Sandboxed H (New H cfg sys).
Proof. intros Hs. unfold New. destruct (_ =?s _); [apply _|]. destruct (_ =?s _); apply _. Qed.

(** The profile that the agent sees when it is executed again is not [off] when
    it was not [off] before. *)
Lemma child_profile H sysctl c vars : c_Env c = None \/ c_Env c = Some gpu_variables ->
  SeccompProfile (LoadConfig H sysctl) <> "off" -> vars = "SANDBOX_SECCOMP_PROFILE" -> child_Getenv H c vars <> "off".
Proof.
  intros [E|E] Hp ->; unfold child_Getenv; rewrite E; [|by vm_compute].
  cbn [LoadConfig SeccompProfile] in Hp. unfold getEnv in Hp.
  destruct (eqb_spec_s (Getenv H "SANDBOX_SECCOMP_PROFILE") "") as [Ee|Ee]; [by rewrite Ee|done].
Qed.

Lemma target_cases H env c n : CPUSeconds (Resources (Manifest env)) = n -> c_Path c <> "" ->
  (target_of H env c).1 <> "" /\
  (n <= 0 -> target_of H env c = (c_Path c, tl (c_Args c))) /\
  (0 < n -> forall name args, c_Args c = name :: args -> exists program,
     target_of H env c = ("/bin/sh", "-c" :: shell_text [cpu_limit n] :: "--" :: program :: args) /\
     (program = name \/ program = resolveExecutablePath H (c_Path c))).
Proof.
  intros <- Hp. unfold target_of, applyCPULimit. destruct (Z.leb_spec (CPUSeconds (Resources (Manifest env))) 0) as [Hn|Hn].
  - split_and!; [done|done|lia].
  - split_and!; [done|lia|]. intros _ name args E. cbn [wrapWithLimits with_command c_Path c_Args tl]. unfold wrapWithLimits. rewrite E.
    destruct (negb _ && negb _); (eexists; split; [done|]); [by right|by left].
Qed.

(** On Linux with user namespaces, a plugin is started at most once, in
    namespaces of its own, of the network too unless it may use it, and waited
    for.  Where the filter is enabled or the configuration asks for
    [NO_NEW_PRIVS], it does not start as itself but as the agent, which executes
    exactly the plugin's command, behind the limit of its processor time if it has
    one, and only under [NO_NEW_PRIVS]; and with the audited filter installed
    where the filter is enabled and the kernel does not lack filter mode, but with
    none where it is not enabled. *)
Lemma plugin_confined H sysctl env c st st' r :
  let cfg := LoadConfig H sysctl in
  let enabled := seccompEnabled H env (DetectCapabilities H cfg) in
  let T := target_of H env c in
  env_Config env = cfg -> LinuxNamespaces cfg = true -> user_ns H = true -> c_Env c = None -> c_Path c <> "" ->
  linux_Execute H cfg env c st = (st', r) ->
  events st' = events st \/
  exists c' pid, events st' = events st ++ [Started c' pid; Waited pid] /\ c_Err c = None /\
    c_Attr c' = Some (isolated H (env_Network env)) /\
    Z.testbit (cloneFlags (env_Network env)) 30 = negb (env_Network env) /\
    (CPUSeconds (Resources (Manifest env)) <= 0 -> T = (c_Path c, tl (c_Args c))) /\
    (0 < CPUSeconds (Resources (Manifest env)) -> forall name args, c_Args c = name :: args -> exists program,
       T = ("/bin/sh", "-c" :: shell_text [cpu_limit (CPUSeconds (Resources (Manifest env)))] :: "--" :: program :: args) /\
       (program = name \/ program = resolveExecutablePath H (c_Path c))) /\
    if enabled || SandboxNoNewPrivs cfg
    then forall k, exists acts, reexec_main H c' k = Some acts /\
      (enabled = false -> forall f, InstallFilter f ∉ acts) /\
      forall path argv, Execve path argv ∈ acts ->
        path = T.1 /\ argv = T.1 :: T.2 /\ head acts = Some Prctl_NO_NEW_PRIVS /\ prctl_fails k = false /\
        (enabled = true ->
         applySeccompFilter (seccomp_answer k) (buildSeccompFilter (GOARCH H)) <> Some (SeccompErrno Unsupported) ->
         InstallFilter (buildSeccompFilter (GOARCH H)) ∈ acts)
    else (c_Path c', tl (c_Args c')) = T.
Proof.
  intros cfg enabled T Hcfg Hns Hu Henv Hpath HE.
  destruct (execute_once H cfg env c st st' r Hns Hu HE) as [_ [[]|(c' & pid & Hev & _ & [Ha Herr _ Hv Hc] & Hnone & _)]]; [by left|right].
  destruct (target_cases H env c _ eq_refl Hpath) as (Hne & H0 & H1). fold T in Hne, H0, H1, Hc.
  exists c', pid. split; [done|]. split; [congruence|]. split; [done|]. split; [by destruct (env_Network env)|]. do 2 (split; [done|]).
  unfold hardened_run in Hc. fold cfg enabled T in Hc. rewrite Hcfg in Hc.
  destruct (enabled || SandboxNoNewPrivs cfg) eqn:Hh; [|destruct Hc as [-> ->]; by destruct T]. intros k.
  destruct Hc as (self & _ & _ & Hargs).
  assert (Hr : reexecTarget (c_Args c') = Some (mode H cfg env, T.1, T.2)).
  { rewrite Hargs. unfold reexecTarget. cbn [tl reexec_from].
    assert (Hm : (mode H cfg env =?s "--seccomp-exec") || (mode H cfg env =?s "--no-new-privs-exec") = true)
      by (unfold mode; by destruct (seccompEnabled _ _ _)).
    by rewrite Hm, (eqb_neq_s _ _ Hne). }
  unfold reexec_main. rewrite Hr. eexists. split; [done|]. unfold mode. fold cfg enabled.
  destruct enabled eqn:Een; cbn [String.eqb Ascii.eqb Bool.eqb].
  - split; [done|]. intros path argv Hin. apply hardened in Hin as (Hd & Hk & -> & -> & Hf). split_and!; [done..|]. intros _ Hs.
    apply Hf; [| |done].
    + unfold enabled, seccompEnabled in Een. by apply andb_prop in Een as [[_ Een]%andb_prop _].
    + apply (child_profile H sysctl); [destruct Hv as [-> | ->]; rewrite Henv; [by left|by right]| |done].
      unfold enabled, seccompEnabled in Een. rewrite Hcfg in Een.
      apply andb_prop in Een as [[[_ Een]%andb_prop _]%andb_prop _]. intros E. fold cfg in E. by rewrite E in Een.
  - split; [intros _ f; apply NoNewPrivs_unfiltered|]. intros path argv Hin. apply NoNewPrivs_hardened in Hin as (Hd & Hk & -> & ->). by split_and!.
Qed.

(** *** An example *)

Definition demo_host : host :=
  mkHost no_disk_faults ∅ "linux" "amd64" (Some ("MemTotal:    8388608 kB" +:+ String newline "")) true true (Some "kill errno allow") 1000 1000 1000
    (fun _ => None) (fun _ _ => None) (fun _ => None) (Ok "/opt/sentra/agent") (fun _ => Ok "/usr/bin/python3") (fun _ => false)
    (fun _ => Ok 42) (fun _ => None) 1700000000.
Definition demo_manifest (cpu : Z) : PluginManifest :=
  mkPlugin "resize" "python" false (mkResources 256 cpu (f64_of_Z 0) 60 false 0).
Definition demo_env (cpu : Z) : SandboxEnv :=
  mkEnv "/tmp/sentrazero/j1" (LoadConfig demo_host None) (demo_manifest cpu) false "linux".
Definition demo_cmd : Cmd := mkCmd "/usr/bin/python3" ["python3"; "main.py"] None None None "/tmp/sentrazero/j1" (Raw JNull) (300 * Second).
Definition demo_state : state := mkState (mkFS ∅ ∅ ∅ ∅) ∅ [] 0 [].
Definition demo_kernel : kernel_answers := mkKernel false (fun _ _ => None) false.

Definition demo_started : Cmd :=
  mkCmd "/opt/sentra/agent" ("agent" :: "--seccomp-exec" :: "/bin/sh" :: "-c" :: shell_text [cpu_limit 5] :: ["--"; "python3"; "main.py"])
    None None (Some (isolated demo_host false)) "/tmp/sentrazero/j1" (Raw JNull) (300 * Second).
Definition demo_run : state * option run_error :=
  linux_Execute demo_host (LoadConfig demo_host None) (demo_env 5) demo_cmd demo_state.

Example demo_events : events demo_run.1 = [Started demo_started 42; Waited 42].
Proof. vm_compute. reflexivity. Qed.

(** ** Limits *)

Lemma below_app sub s : below sub (sub +:+ "/" +:+ s) = true.
Proof. unfold below. rewrite <- (append_assoc sub "/" s), HasPrefix_app. apply orb_true_r. Qed.

Lemma clamp_memory_range cfg m : 0 < clamp_memory cfg m ->
  clamp_memory cfg m <= MaxMemoryMB cfg /\ (0 < m <= MaxMemoryMB cfg -> clamp_memory cfg m = m).
Proof.
  unfold clamp_memory. cbv zeta. destruct (Z.leb_spec m 0); [|destruct (Z.ltb_spec (MaxMemoryMB cfg) m); split; lia].
  destruct (Z.ltb_spec (MaxMemoryMB cfg) (DefaultMemoryMB cfg)); split; lia.
Qed.

(** For a whole number of percent the quota is exact. *)
Lemma quota_exact cfg env p : CPULimit (Resources (Manifest env)) = f64_of_Z p -> 0 <= p <= 100 -> 1 <= DefaultCPUPercent cfg <= 100 ->
  cpu_quota cfg env = 1000 * (if p =? 0 then DefaultCPUPercent cfg else p).
Proof.
  intros E Hp Hd. unfold cpu_quota. rewrite E. generalize dependent (DefaultCPUPercent cfg). intros d Hd.
  assert (Hall : forallb (fun p => forallb (fun d =>
    let zero := f64_of_Z 0 in
    let percent := f64_of_Z p in
    let percent := if f64_le percent zero then f64_of_Z d else percent in
    let percent := if f64_le percent zero then f64_of_Z 80 else percent in
    let percent := if f64_lt (f64_of_Z 100) percent then f64_of_Z 100 else percent in
    f64_to_int64 (f64_mul percent (f64_of_Z 1000)) =? 1000 * (if p =? 0 then d else p))
    (if p =? 0 then seqZ 1 100 else [1])) (seqZ 0 101) = true) by (vm_compute; reflexivity).
  rewrite forallb_forall in Hall. specialize (Hall p ltac:(apply list_elem_of_In, elem_of_seqZ; lia)).
  rewrite forallb_forall in Hall. destruct (Z.eqb_spec p 0) as [->|Hne].
  - apply Z.eqb_eq, (Hall d), list_elem_of_In, elem_of_seqZ. lia.
  - specialize (Hall 1 ltac:(by left)). apply Z.eqb_eq in Hall. rewrite <- Hall. cbv zeta.
    assert (Hz : f64_le (f64_of_Z p) (f64_of_Z 0) = false).
    { assert (Hle : forallb (fun p => negb (f64_le (f64_of_Z p) (f64_of_Z 0))) (seqZ 1 100) = true) by (vm_compute; reflexivity).
      rewrite forallb_forall in Hle. apply negb_true_iff, Hle, list_elem_of_In, elem_of_seqZ. lia. }
    by rewrite !Hz.
Qed.

(** A limit above the whole processor is cut to it. *)
Lemma quota_clamped cfg env : f64_lt (f64_of_Z 100) (CPULimit (Resources (Manifest env))) = true -> cpu_quota cfg env = 100000.
Proof.
  unfold cpu_quota. generalize (CPULimit (Resources (Manifest env))). intros x Hx. cbv zeta.
  rewrite !(above_hundred_positive x Hx), Hx. vm_compute. reflexivity.
Qed.

(** No limit is above the whole processor, or below nothing. *)
Lemma quota_range cfg env :
  is_float64 (CPULimit (Resources (Manifest env))) ->
  Z.abs (DefaultCPUPercent cfg) < 2 ^ 53 -> 0 <= cpu_quota cfg env <= 100000.
Proof.
  unfold cpu_quota. generalize (CPULimit (Resources (Manifest env))) (DefaultCPUPercent cfg). intros x d Hx Hd. cbv zeta.
  assert (H1 : exists y, (if f64_le x (f64_of_Z 0) then f64_of_Z d else x) = y /\ is_float64 y).
  { destruct (f64_le x (f64_of_Z 0)); [exists (f64_of_Z d); split; [done|by apply f64_of_Z_valid]|by exists x]. }
  destruct H1 as (y & -> & Hy). clear x d Hx Hd.
  destruct (f64_le y (f64_of_Z 0)) eqn:Hpos; [vm_compute; split; discriminate|].
  destruct (f64_lt (f64_of_Z 100) y) eqn:Hlt; [vm_compute; split; discriminate|]. by apply percent_range.
Qed.

Section limits.
Context (H : host) (cfg : SandboxConfig) (env : SandboxEnv).
Abbreviation caps := (DetectCapabilities H cfg).

(** The control group of the next job, its files, and the one that opens the
    graphics card. *)
Definition job_group (st : state) : string :=
  CgroupPath caps +:+ "/job-" +:+ itoa (now_unix H) +:+ "-" +:+ itoa (int64 (cgroupJobCounter st + 1)).
Definition memory_max (st : state) : string := job_group st +:+ "/memory.max".
Definition cpu_max (st : state) : string := job_group st +:+ "/cpu.max".
Definition procs (st : state) : string := job_group st +:+ "/cgroup.procs".
Definition device_allow : string := Cgroupsv2Path cfg +:+ "/device.allow".

Definition bytes_of (m : Z) : string := itoa (m * 2 ^ 20).
Definition quota_text : string := itoa (cpu_quota cfg env) +:+ " 100000".

(** The group is made, and limits the memory. *)
Definition group_made (m : Z) (st : state) : bool :=
  (0 <? m) && HasCgroupWrite caps && bool_decide (cg_mkdir H (job_group st) = None)
  && bool_decide (cg_write H (memory_max st) (bytes_of m) = None).

(** [st'] has, below the group, nothing that [st] has not. *)
Definition nothing_new (g : string) (st st' : state) : Prop :=
  forall path data, below g path = true -> cgroups st' !! path = Some data -> cgroups st !! path = Some data.
Definition same_outside (g : string) (st st' : state) : Prop :=
  forall path, below g path = false -> cgroups st' !! path = cgroups st !! path.

Lemma below_slash g s : below g (g +:+ "/" +:+ s) = true.
Proof. unfold below. by rewrite <- append_assoc, HasPrefix_app, orb_true_r. Qed.

Lemma group_files_below st :
  below (job_group st) (memory_max st) = true /\ below (job_group st) (cpu_max st) = true /\ below (job_group st) (procs st) = true.
Proof. split_and!; [apply (below_slash _ "memory.max")|apply (below_slash _ "cpu.max")|apply (below_slash _ "cgroup.procs")]. Qed.

Lemma remove_cgroup_law g st :
  same_outside g st (remove_cgroup H g st) /\
  (cg_remove H g = None -> forall path, below g path = true -> cgroups (remove_cgroup H g st) !! path = None) /\
  forall path data, cgroups (remove_cgroup H g st) !! path = Some data -> cgroups st !! path = Some data.
Proof.
  unfold same_outside, remove_cgroup. destruct (cg_remove H g); [by split_and!|]. cbn [cgroups with_cgroups]. split_and!.
  - intros path Hb. destruct (cgroups st !! path) as [x|] eqn:E; [by apply map_lookup_filter_Some|].
    apply map_lookup_filter_None. by left.
  - intros _ path Hb. apply map_lookup_filter_None. right. intros x _. cbn. by rewrite Hb.
  - by intros path data [? _]%map_lookup_filter_Some.
Qed.

Lemma caps_path : CgroupPath caps <> "".
Proof. unfold DetectCapabilities. cbn [CgroupPath]. by destruct (eqb_spec_s (Cgroupsv2Path cfg) ""). Qed.

(** The file of the graphics card is not one of the group. *)
Lemma device_outside st : Cgroupsv2Path cfg <> "" -> below (job_group st) device_allow = false.
Proof.
  intros Hne. unfold job_group, device_allow, DetectCapabilities. cbn [CgroupPath]. rewrite (eqb_neq_s _ _ Hne).
  set (base := Cgroupsv2Path cfg). unfold below. apply orb_false_iff. split.
  - apply eqb_neq_s. intros E. apply (inj (String.append base)) in E. discriminate E.
  - rewrite append_assoc. destruct (HasPrefix _ _) eqn:E; [|done]. apply HasPrefix_split in E as (x & E).
    rewrite append_assoc in E. apply (inj (String.append base)) in E. discriminate E.
Qed.

Definition group_step (m : Z) (st st1 : state) (cg : option string) : Prop :=
  same_outside (job_group st) st st1 /\
  if group_made m st then cg = Some (job_group st) /\ cgroupPaths st1 = cgroupPaths st ++ [job_group st] /\
    cgroups st1 !! memory_max st = Some (bytes_of m) /\
    (cg_write H (cpu_max st) quota_text = None -> cgroups st1 !! cpu_max st = Some quota_text)
  else cg = None /\ cgroupPaths st1 = cgroupPaths st /\ nothing_new (job_group st) st st1.

Lemma insert_outside g p v st : below g p = true -> same_outside g st (with_cgroups (<[p := v]> (cgroups st)) st).
Proof. intros Hb path Hp. cbn [cgroups with_cgroups]. by rewrite lookup_insert_ne by congruence. Qed.

Lemma same_outside_trans g st1 st2 st3 : same_outside g st1 st2 -> same_outside g st2 st3 -> same_outside g st1 st3.
Proof. intros H1 H2 path Hp. by rewrite H2, H1. Qed.

Lemma group_step_none m st st1 : group_made m st = false -> cgroups st1 = cgroups st -> cgroupPaths st1 = cgroupPaths st ->
  group_step m st st1 None.
Proof.
  intros Hg Hc Hp. unfold group_step. rewrite Hg. unfold same_outside, nothing_new. rewrite Hc. by split_and!.
Qed.

Lemma make_cgroup_step m st : m < 2 ^ 40 ->
  let '(st1, cg) := make_cgroup H cfg env caps m st in group_step m st st1 cg.
Proof.
  intros Hm. unfold make_cgroup. rewrite (eqb_neq_s _ _ caps_path). cbn [negb]. rewrite andb_true_r.
  destruct ((0 <? m) && HasCgroupWrite caps) eqn:Eu; [|apply group_step_none; [unfold group_made; by rewrite Eu|done..]]. cbv zeta.
  pose proof Eu as [Hpos%Z.ltb_lt _]%andb_prop.
  rewrite (int64_small (m * 1024)), (int64_small (m * 1024 * 1024)) by lia. replace (m * 1024 * 1024) with (m * 2 ^ 20) by lia.
  change (CgroupPath caps +:+ _) with (job_group st). fold (memory_max st) (bytes_of m).
  destruct (cg_mkdir H (job_group st)) eqn:Ek; [apply group_step_none; [unfold group_made; by rewrite Eu, Ek|done..]|].
  unfold writeCPUMax, write_cgroup.
  fold (memory_max st) (cpu_max st) quota_text. destruct (group_files_below st) as (Bm & Bc & _).
  unfold group_step, group_made. rewrite Eu, Ek. destruct (cg_write H (memory_max st) (bytes_of m)); cbn [andb bool_decide].
  - destruct (remove_cgroup_law (job_group st) (next_job st)) as (L1 & _ & L3).
    destruct (remove_cgroup_keeps H (job_group st) (next_job st)) as (_ & _ & Hp).
    split; [exact L1|]. split; [done|]. split; [exact Hp|]. intros path data _ E. by apply L3 in E.
  - set (st1 := with_cgroups _ _). assert (L1 : same_outside (job_group st) st st1) by (by apply (insert_outside (job_group st) _ _ (next_job st))).
    destruct (cg_write H (cpu_max st) quota_text); (split; [try exact L1|split; [done|]; split; [done|]]); cbn [cgroups with_paths with_cgroups].
    + split; [apply lookup_insert_eq|done].
    + eapply same_outside_trans; [exact L1|by apply insert_outside].
    + split; [|intros _; apply lookup_insert_eq]. rewrite lookup_insert_ne; [apply lookup_insert_eq|].
      unfold cpu_max, memory_max. intros E. apply (inj (String.append (job_group st))) in E. discriminate E.
Qed.

Lemma prepare_outside c st :
  cgroupPaths (prepare_command H cfg env caps c st).1 = cgroupPaths st /\
  forall path, path <> device_allow \/ Cgroupsv2Path cfg = "" -> cgroups (prepare_command H cfg env caps c st).1 !! path = cgroups st !! path.
Proof.
  unfold prepare_command, enableGPU, write_cgroup. fold device_allow. destruct (RequiresGPU _); [|done].
  destruct (eqb_spec_s (Cgroupsv2Path cfg) "") as [E|E]; [rewrite orb_true_r; done|]. destruct (negb _); [done|]. cbn [orb].
  destruct (cg_write H device_allow _); [done|]. cbn [fst cgroupPaths cgroups with_cgroups]. split; [done|].
  intros path [Hp|?]; [by rewrite lookup_insert_ne by congruence|done].
Qed.
End limits.

Lemma groups_removed H paths st path data :
  cgroups (foldl (fun st p => remove_cgroup H p st) st paths) !! path = Some data ->
  cgroups st !! path = Some data /\ forall d, d ∈ paths -> cg_remove H d = None -> below d path = false.
Proof.
  revert st. induction paths as [|d paths IH]; intros st; cbn [foldl].
  - intros E. split; [done|]. by intros d ?%elem_of_nil.
  - intros [E Hall]%IH. destruct (remove_cgroup_law H d st) as (_ & L2 & L3). split; [by apply L3|].
    intros d' [->|Hin]%elem_of_cons Hr; [|by apply Hall]. destruct (below d path) eqn:Hb; [|done]. by rewrite (L2 Hr path Hb) in E.
Qed.

Lemma join_group H g pid st : join_cgroup H (Some g) pid st =
  match cg_write H (g +:+ "/cgroup.procs") (itoa pid) with
  | Some _ => remove_cgroup H g st
  | None => with_cgroups (<[g +:+ "/cgroup.procs" := itoa pid]> (cgroups st)) st
  end.
Proof. unfold join_cgroup, write_cgroup. by destruct (cg_write H _ _). Qed.

(** The process is in the group, which caps its memory and, where the quota could
    be written, its share of the processors. *)
Definition capped H cfg env (m pid : Z) (st st' : state) : Prop :=
  cgroups st' !! memory_max H cfg st = Some (bytes_of m) /\ cgroups st' !! procs H cfg st = Some (itoa pid) /\
  (cg_write H (cpu_max H cfg st) (quota_text cfg env) = None -> cgroups st' !! cpu_max H cfg st = Some (quota_text cfg env)).

(** The group while the process runs. *)
Lemma execute_group H cfg env c st st' r :
  let m := resolveMemoryLimit cfg env in
  let group := job_group H cfg st in
  LinuxNamespaces cfg = true -> user_ns H = true -> m < 2 ^ 40 ->
  linux_Execute H cfg env c st = (st', r) -> events st' <> events st ->
  exists pid, Waited pid ∈ events st' /\
    (forall path data, below group path = false -> cgroups st' !! path = Some data ->
       cgroups st !! path = Some data \/ path = device_allow cfg) /\
    (if group_made H cfg m st then group ∈ cgroupPaths st' else nothing_new group st st') /\
    if group_made H cfg m st && bool_decide (cg_write H (procs H cfg st) (itoa pid) = None)
    then capped H cfg env m pid st st'
    else cg_remove H group = None -> nothing_new group st st'.
Proof.
  intros m group Hns Hu Hm HE Hev. unfold linux_Execute in HE. rewrite Hns, Hu in HE. cbn [negb] in HE. fold m in HE.
  pose proof (make_cgroup_step H cfg env m st Hm) as Hstep. destruct (make_cgroup_keeps H cfg env m st) as [Hev1 _].
  destruct (make_cgroup H cfg env _ m st) as [st1 cg]. cbn [fst] in Hev1.
  destruct (prepare_outside H cfg env c st1) as [Hp2 Hc2].
  pose proof (fun st2 r2 => prepare_prepared H cfg env c st1 st2 r2) as Hprep.
  destruct (prepare_command H cfg env _ c st1) as [st2 [c'|e]]; cbn [fst] in Hp2, Hc2;
    destruct (Hprep _ _ eq_refl) as [[Hev2 _] _]; [|injection HE as <- <-; congruence].
  unfold cmd_Start in HE. destruct (start_process H c') as [pid|e]; [|injection HE as <- <-; congruence].
  unfold cmd_Wait in HE. injection HE as <- <-. exists pid. split; [cbn [events record]; apply elem_of_app; right; by left|].
  assert (Hdev : forall path, below group path = true -> cgroups st2 !! path = cgroups st1 !! path).
  { intros path Hb. apply Hc2. destruct (eqb_spec_s (Cgroupsv2Path cfg) "") as [E|E]; [by right|left]. intros ->.
    unfold group in Hb. by rewrite (device_outside H cfg st E) in Hb. }
  destruct Hstep as [Hout Hstep].
  assert (Hold : forall path data, below group path = false -> cgroups st2 !! path = Some data -> cgroups st !! path = Some data \/ path = device_allow cfg).
  { intros path data Hb E. destruct (decide (path = device_allow cfg)) as [->|Hne]; [by right|left].
    rewrite Hc2 in E by (by left). by rewrite (Hout path Hb) in E. }
  destruct (group_files_below H cfg st) as (Bm & Bc & Bp). fold group in Bm, Bc, Bp.
  destruct (group_made H cfg m st); cbn [andb].
  - destruct Hstep as (-> & Hpaths & Gm & Gc). rewrite join_group.
    change (job_group H cfg st +:+ "/cgroup.procs") with (procs H cfg st). fold group. rewrite <- (Hdev _ Bm) in Gm. rewrite <- (Hdev _ Bc) in Gc.
    destruct (cg_write H (procs H cfg st) (itoa pid)); cbn [bool_decide].
    + destruct (remove_cgroup_law H group (record (Started c' pid) st2)) as (L1 & L2 & L3).
      destruct (remove_cgroup_keeps H group (record (Started c' pid) st2)) as (_ & _ & Lp). cbn [cgroups cgroupPaths record].
      split_and!; [intros path data Hb E; apply L3 in E; by apply (Hold path data Hb)
                  |rewrite Lp; cbn [cgroupPaths record]; rewrite Hp2, Hpaths; apply elem_of_app; right; by left|].
      intros Hr path data Hb E. pose proof (L2 Hr path Hb) as E'. cbn [cgroups record] in E, E'. congruence.
    + cbn [cgroups cgroupPaths record with_cgroups]. split_and!.
      * intros path data Hb. rewrite lookup_insert_ne by congruence. by apply Hold.
      * rewrite Hp2, Hpaths. apply elem_of_app. right. by left.
      * assert (Hne : forall x y, x <> y -> group +:+ x <> group +:+ y) by (intros x y Hxy E; by apply (inj (String.append group)) in E).
        unfold capped. cbn [cgroups record with_cgroups]. rewrite lookup_insert_eq, !lookup_insert_ne by (by apply Hne). by split_and!.
  - destruct Hstep as (-> & Hpaths & Hnew). cbn [join_cgroup cgroups record].
    assert (Hn : nothing_new group st (record (Waited pid) (record (Started c' pid) st2))).
    { intros path data Hb. cbn [cgroups record]. rewrite (Hdev _ Hb). by apply Hnew. }
    by split_and!.
Qed.


(** The demonstration, for a plugin that wants three processors. *)
Definition greedy_env : SandboxEnv :=
  mkEnv "/tmp/sentrazero/j1" (LoadConfig demo_host None)
    (mkPlugin "resize" "python" false (mkResources 256 5 (f64_of_Z 300) 60 false 0)) false "linux".
Definition greedy_run : state * option run_error :=
  linux_Execute demo_host (LoadConfig demo_host None) greedy_env demo_cmd demo_state.

