(* ===== verification/SandboxMac.v ===== *)
(** * SandboxMac: the sandbox of macOS

    Models [internal/sandbox/sandboxer_darwin.go]: the profile that is written
    into the working directory of a plugin, and the command that is started
    under it.  [sandbox-exec] is a parameter; what is used of it is the rule its
    profiles follow, and which the code relies on: the last rule that matches
    decides. *)
From S2P Require Import Prelude GoFloat MergeTree Json Path Merge Storage Handler Sandbox.
From Stdlib Require Import Ascii.

(** ** Profiles *)

(** A rule allows or denies operations, on everything or below a path. *)
Record rule := mkRule { allows : bool; operations : list string; subpath : option string }.

(** Lines that are no rules on paths are kept as they are. *)
Inductive line := Rule (r : rule) | Text (t : string).

Definition dq : string := String "034" "".
Definition render (l : line) : string :=
  match l with
  | Text t => t
  | Rule r =>
      "(" +:+ (if allows r then "allow" else "deny") +:+ " " +:+ join_with " " (operations r)
      +:+ match subpath r with Some p => " (subpath " +:+ dq +:+ p +:+ dq +:+ "))" | None => ")" end
  end.
Definition render_profile (ls : list line) : string := join_with (String newline "") (map render ls) +:+ String newline "".

Definition allow (ops : list string) : line := Rule (mkRule true ops None).
Definition deny (ops : list string) : line := Rule (mkRule false ops None).
Definition allow_below (ops : list string) (path : string) : line := Rule (mkRule true ops (Some path)).
Definition deny_below (ops : list string) (path : string) : line := Rule (mkRule false ops (Some path)).

Definition macSandboxNetworkBlock : list line := [deny ["network*"]; deny ["system-socket"]].
Definition macSandboxNetworkAllow : list line := [allow ["network*"]; allow ["system-socket"]].

Definition macSandboxHomeDeny (home : string) : list line :=
  if home =?s "" then [Text "; (no home dir resolved - home privacy denies skipped)"]
  else
    Text "; Deny credentials / app-private data under the resolved home dir"
    :: map (fun d => deny_below ["file-read*"; "file-write*"] (home +:+ d)) ["/Library/Keychains"; "/Library/HTTPStorages"]
    ++ map (fun d => deny_below ["file-read*"] (home +:+ d))
         ["/Library/Cookies"; "/Library/WebKit"; "/Library/Mail"; "/Library/Safari"].

Definition system_dirs : list string :=
  ["/System"; "/usr"; "/bin"; "/sbin"; "/private/etc"; "/private/var/db"; "/private/var/log"; "/private/var/run";
   "/private/var/root"; "/private/var/select"; "/etc"; "/var"].
Definition temp_dirs : list string := ["/private/tmp"; "/tmp"; "/private/var/folders"; "/var/folders"].

Definition macSandboxProfileTpl (netPolicy homeDeny : list line) (workDir : string) : list line :=
  [Text "(version 1)"; Text ""; deny ["default"]; Text "";
   Text "; Allow reading everything (required for macOS 15+ firmlink compatibility)";
   allow_below ["file-read*"] "/"; allow ["file-read-metadata"]; Text "";
   Text "; Allow GPU device access (Metal, IOAccelerator)"; allow ["device*"];
   Text "(allow iokit-open (require-all";
   Text ("    (iokit-registry-entry-class " +:+ dq +:+ "IOAccelerator" +:+ dq +:+ ")");
   Text ("    (iokit-property " +:+ dq +:+ "MetalPluginName" +:+ dq +:+ " " +:+ dq +:+ "com.apple.Metal" +:+ dq +:+ ")))"); Text "";
   Text "; Allow process execution"; allow ["process-exec*"]; allow ["process-fork"]; Text "";
   Text "; Allow POSIX IPC"; allow ["sysctl-read"]; allow ["mach-lookup"]; allow ["ipc-posix*"]; Text "";
   Text "; Signal handling"; allow ["signal"]; Text ""; Text "; Network policy"]
  ++ netPolicy ++
  [Text ""; Text "; Allow /dev/null (required by Python runtime for subprocess etc.)";
   allow_below ["file-read*"; "file-write*"] "/dev"; allow_below ["file-read*"; "file-write*"] "/dev/null"; Text "";
   Text "; Deny writes to system paths (read-only enforcement)"]
  ++ map (deny_below ["file-write*"]) system_dirs ++
  [Text ""; Text "; Allow writes to temp directories (both /tmp and /private/var/folders for macOS temp)"]
  ++ map (allow_below ["file-write*"]) temp_dirs ++
  [Text ""; Text "; Allow writes to Users home directories (needed for .sentra cache etc)";
   allow_below ["file-write*"] "/Users"; Text "";
   Text "; Home-level privacy denies (credentials + app-private data that script";
   Text "; runtimes never legitimately touch). Injected by macSandboxHomeDeny when";
   Text "; os.UserHomeDir() resolves; empty when it does not."]
  ++ homeDeny ++
  [Text "; Allow read-write in work directory (MUST be last: overrides preceding deny rules)";
   allow_below ["file-read*"; "file-write*"] workDir].

Definition profile (network : bool) (home workDir : string) : list line :=
  macSandboxProfileTpl (if network then macSandboxNetworkAllow else macSandboxNetworkBlock) (macSandboxHomeDeny home) workDir.

(** ** The sandbox *)

Section mac.
Context (H : host) (EvalSymlinks : string -> result string) (home : string) (cfg : SandboxConfig).

(** The directory is known by both of its names. *)
Definition mac_Prepare (jobID : string) (manifest : PluginManifest) (network : bool) (st : state) : state * result SandboxEnv :=
  let workDir := Join [TempDir cfg; "sentrazero"; jobID] in
  match os_MkdirAll (f_mkdir (faults H)) workDir (disk st) with
  | (s, Some e) => (with_disk s st, Err ("create work dir: " +:+ e))
  | (s, None) =>
      let workDir := match EvalSymlinks workDir with Ok resolved => resolved | Err _ => workDir end in
      (with_disk (with_dirs ({[workDir]} ∪ dirs s) s) st, Ok (mkEnv workDir cfg manifest network "darwin"))
  end.

Definition sb_path (env : SandboxEnv) : string := Join [WorkDir env; ".sandbox.sb"].

(** The command has at least its own name as an argument. *)
Definition applySandbox (profile : string) (c : Cmd) : Cmd :=
  with_command "/usr/bin/sandbox-exec" ("sandbox-exec" :: "-f" :: profile :: c_Path c :: tl (c_Args c)) c.

(** The command as it is started. *)
Definition mac_command (env : SandboxEnv) (c : Cmd) : Cmd :=
  let c := if 0 <? clamp_memory cfg (MemoryMB (Resources (Manifest env))) then applyRLimits H env c else c in
  let c := append_env ["SANDBOX_PROFILE=" +:+ sb_path env] (with_attr (mkAttr 0 [] []) c) in
  applySandbox (sb_path env) c.

Definition mac_Execute (env : SandboxEnv) (c : Cmd) (st : state) : state * option run_error :=
  if negb (MacOSSeatbelt cfg) then cmd_Run H c st
  else
    match os_WriteFile (faults H) (sb_path env) (render_profile (profile (env_Network env) home (WorkDir env))) (disk st) with
    | (s, Some e) => (with_disk s st, Some (OtherError ("write sandbox profile: " +:+ e)))
    | (s, None) => cmd_Run H (mac_command env c) (with_disk s st)
    end.

Definition macSandbox : Sandboxer := mkSandboxer mac_Prepare mac_Execute (cleanup H).
End mac.

(** ** What a profile allows *)

(** An operation is named, or all that begin alike; [default] is any. *)
Definition covers (op pattern : string) : bool :=
  (pattern =?s "default") ||
  (if HasSuffix pattern "*" then HasPrefix op (TrimSuffix pattern "*") else op =?s pattern).

Definition within (dir path : string) : bool := (dir =?s "/") || below dir path.

Definition applies (op path : string) (l : line) : bool :=
  match l with
  | Text _ => false
  | Rule r => existsb (covers op) (operations r) && match subpath r with None => true | Some d => within d path end
  end.

Definition last_match (ls : list line) (op path : string) : bool :=
  match List.find (applies op path) (rev ls) with Some (Rule r) => allows r | _ => false end.

Definition read_denied (home : string) : list string :=
  if home =?s "" then []
  else map (fun d => home +:+ d) ["/Library/Safari"; "/Library/Mail"; "/Library/WebKit"; "/Library/Cookies"; "/Library/HTTPStorages"; "/Library/Keychains"].
Definition write_denied (home : string) : list string :=
  if home =?s "" then [] else map (fun d => home +:+ d) ["/Library/HTTPStorages"; "/Library/Keychains"].

Definition may_read (home workDir path : string) : bool :=
  within workDir path || negb (existsb (fun d => within d path) (read_denied home)).

Definition may_write (home workDir path : string) : bool :=
  within workDir path
  || (negb (existsb (fun d => within d path) (write_denied home))
      && (within "/Users" path
          || existsb (fun d => within d path) (rev temp_dirs)
          || (negb (existsb (fun d => within d path) (rev system_dirs)) && (within "/dev/null" path || within "/dev" path)))).

(** The rules of a profile, from the last one to the first. *)
Ltac by_rules :=
  unfold may_write, may_read, read_denied, write_denied, last_match, profile, macSandboxHomeDeny, applies; cbn [map];
  match goal with |- context [within _ ?path] => assert (Hroot : within "/" path = true) by done; revert Hroot end;
  match goal with |- context [?h +:+ "/Library/Mail"] =>
    generalize (h +:+ "/Library/Keychains") (h +:+ "/Library/HTTPStorages") (h +:+ "/Library/Cookies")
      (h +:+ "/Library/WebKit") (h +:+ "/Library/Mail") (h +:+ "/Library/Safari"); generalize (h =?s "") end;
  generalize within; intros f noHome k1 k2 k3 k4 k5 k6;
  match goal with network : bool |- _ => destruct noHome, network end; vm_compute; intros Hroot; rewrite ?Hroot;
  repeat (match goal with |- context [f ?d ?p] => destruct (f d p) end; try reflexivity); try reflexivity.

Lemma profile_writes network home workDir path :
  last_match (profile network home workDir) "file-write-data" path = may_write home workDir path.
Proof. by_rules. Qed.

Lemma profile_reads network home workDir path :
  last_match (profile network home workDir) "file-read-data" path = may_read home workDir path.
Proof. by_rules. Qed.

Lemma profile_network network home workDir path :
  last_match (profile network home workDir) "network-outbound" path = network.
Proof.
  unfold last_match, profile, macSandboxHomeDeny, applies. generalize within. intros f.
  destruct (home =?s ""), network; reflexivity.
Qed.

(** ** A run under a profile *)

Section mac_runs.
Context (H : host) (EvalSymlinks : string -> result string) (home : string) (cfg : SandboxConfig).

Lemma write_file_ok F path data s s' : os_WriteFile F path data s = (s', None) ->
  files s' !! path = Some data /\ forall p, p <> path -> files s' !! p = files s !! p.
Proof.
  unfold os_WriteFile, write_reader, os_Create, io_Copy, append_file. destruct (decide _); [|done].
  destruct (f_create F path); [done|]. destruct (decide _); [done|]. destruct (f_write F path); [done|].
  cbn [r_data r_err]. intros [= <-]. cbn [files with_files]. rewrite lookup_insert_eq. cbn [default].
  split; [by rewrite lookup_insert_eq|]. intros p Hp. by rewrite !lookup_insert_ne.
Qed.

Lemma write_file_elsewhere F path data s p : p <> path ->
  files (os_WriteFile F path data s).1 !! p = files s !! p.
Proof.
  intros Hp. unfold os_WriteFile, write_reader, os_Create, io_Copy, append_file. destruct (decide _); [|done].
  destruct (f_create F path); [done|]. destruct (decide _); [done|].
  destruct (f_write F path); cbn [fst files with_files]; by rewrite !lookup_insert_ne.
Qed.

Lemma sb_path_below env : clean_workdir env -> below (WorkDir env) (sb_path env) = true.
Proof.
  intros (l & Hl & Hne & E). unfold sb_path. rewrite E, Join_abs by (done || by repeat split). by apply below_abs.
Qed.

(** What a run does: the profile is written and the command started once. *)
Lemma mac_execute_once env c st st' r : MacOSSeatbelt cfg = true -> mac_Execute H home cfg env c st = (st', r) ->
  let text := render_profile (profile (env_Network env) home (WorkDir env)) in
  disk st' = (os_WriteFile (faults H) (sb_path env) text (disk st)).1 /\
  (events st' = events st /\ (exists e, r = Some (OtherError e)) \/
   exists pid, events st' = events st ++ [Started (mac_command H cfg env c) pid; Waited pid] /\
     r = wait H (mac_command H cfg env c) /\ 0 < c_Timeout (mac_command H cfg env c) /\
     files (disk st') !! sb_path env = Some text).
Proof.
  unfold mac_Execute. intros ->. cbn [negb]. cbv zeta.
  destruct (os_WriteFile _ _ _ (disk st)) as [s [e|]] eqn:Ew; [intros [= <- <-]; split; [done|left; split; [done|by eexists]]|].
  intros [Hd [?|(pid & ? & ? & _ & ?)]]%cmd_Run_once; cbn [with_disk disk events] in *; (split; [done|]); [by left|right].
  exists pid. do 3 (split; [done|]). rewrite Hd. by apply write_file_ok in Ew as [? _].
Qed.

Lemma limits_io env c : same_io c (applyRLimits H env c).
Proof. unfold applyRLimits. by destruct (_ ++ _). Qed.

#[export] Instance mac_sandboxed : Sandboxed H (macSandbox H EvalSymlinks home cfg).
Proof.
  split.
  - intros job pm net st st' r. cbn [Prepare macSandbox]. unfold mac_Prepare, os_MkdirAll. cbv zeta.
    destruct (f_mkdir _ _); intros [= <- <-]; (split; [done|split; [done|]]); intros env; by intros [= <-].
  - cbn [macSandbox Execute]. intros env c st st' r HE. destruct (MacOSSeatbelt cfg) eqn:Hs.
    + apply mac_execute_once in HE as [Hd Hev]; [|done]. split.
      * intros Hw p Hp. rewrite Hd. apply write_file_elsewhere. intros ->. by rewrite sb_path_below in Hp.
      * destruct Hev as [?|(pid & ? & ? & Ht & _)]; [by left|right].
        assert (Hio : same_io c (mac_command H cfg env c)) by (unfold mac_command; destruct (0 <? _); [apply (limits_io env c)|done]).
        exists (mac_command H cfg env c), pid. destruct Hio as (? & ? & Et). by rewrite <- Et.
    + unfold mac_Execute in HE. rewrite Hs in HE. by apply (run_law H env) in HE.
  - done.
Qed.

(** C20.  On macOS a plugin is started as [sandbox-exec] on its command, with the
    profile in the working directory.  Where the last rule that matches decides,
    the profile lets a plugin out to the network only if it asked for it; it can
    read every file but some data of the user's applications, and write below
    its working directory, in the directories for temporary files, and, but for
    two directories, in the homes of all users. *)
Theorem mac_plugin_confined sandbox_exec env c st st' r :
  let ls := profile (env_Network env) home (WorkDir env) in
  (forall op path, op <> "iokit-open" -> sandbox_exec (render_profile ls) op path = last_match ls op path) ->
  MacOSSeatbelt cfg = true -> mac_Execute H home cfg env c st = (st', r) ->
  events st' = events st \/
  exists c' pid, events st' = events st ++ [Started c' pid; Waited pid] /\ r = wait H c' /\
    c_Path c' = "/usr/bin/sandbox-exec" /\
    (exists program args, c_Args c' = "sandbox-exec" :: "-f" :: sb_path env :: program :: args /\
       (CPUSeconds (Resources (Manifest env)) <= 0 -> clamp_memory cfg (MemoryMB (Resources (Manifest env))) <= 0 ->
        program = c_Path c /\ args = tl (c_Args c))) /\
    exists text, files (disk st') !! sb_path env = Some text /\
      forall path,
        sandbox_exec text "network-outbound" path = env_Network env /\
        sandbox_exec text "file-read-data" path = may_read home (WorkDir env) path /\
        sandbox_exec text "file-write-data" path = may_write home (WorkDir env) path /\
        (within (WorkDir env) path = true -> sandbox_exec text "file-write-data" path = true) /\
        (within "/Users" path = true -> existsb (fun d => within d path) (write_denied home) = false ->
         sandbox_exec text "file-write-data" path = true).
Proof.
  intros ls Hlaw Hs HE. apply mac_execute_once in HE as [_ [[]|(pid & Hev & Hr & _ & Hf)]]; [by left| |done]. right.
  exists (mac_command H cfg env c), pid. split; [done|]. split; [done|]. split; [done|]. split.
  { unfold mac_command. eexists _, _. split; [done|]. intros Hc Hm. by rewrite (proj2 (Z.ltb_ge _ _) Hm). }
  exists (render_profile ls). split; [done|]. intros path. rewrite !Hlaw by done. unfold ls.
  rewrite profile_network, profile_reads, profile_writes. split_and!; [done..| |].
  - unfold may_write. by intros ->.
  - unfold may_write. intros -> ->. by rewrite orb_true_r.
Qed.
End mac_runs.

Definition mac_host : host :=
  mkHost no_disk_faults ∅ "darwin" "arm64" None false false None 501 501 20
    (fun _ => None) (fun _ _ => None) (fun _ => None) (Ok "/opt/sentra/agent") (fun _ => Ok "/usr/bin/python3") (fun _ => false)
    (fun _ => Ok 42) (fun _ => None) 1700000000.
Definition mac_env : SandboxEnv := mkEnv "/tmp/sentrazero/j1" (LoadConfig mac_host None) (demo_manifest 0) false "darwin".
Definition mac_state : state := mkState (mkFS ∅ {["/tmp/sentrazero/j1"]} ∅ ∅) ∅ [] 0 [].
Definition mac_run : state * option run_error :=
  mac_Execute mac_host "/Users/u" (LoadConfig mac_host None) mac_env demo_cmd mac_state.

(** A plugin can write the shell's start-up file, and read the keys of ssh, but
    not the key chain. *)
Lemma mac_plugin_confined_witness :
  exists pid c', events mac_run.1 = [Started c' pid; Waited pid] /\ c_Path c' = "/usr/bin/sandbox-exec" /\
  exists text, files (disk mac_run.1) !! "/tmp/sentrazero/j1/.sandbox.sb" = Some text /\
  may_write "/Users/u" "/tmp/sentrazero/j1" "/Users/u/.zshrc" = true /\
  may_read "/Users/u" "/tmp/sentrazero/j1" "/Users/u/.ssh/id_ed25519" = true /\
  may_write "/Users/u" "/tmp/sentrazero/j1" "/etc/hosts" = false /\
  may_read "/Users/u" "/tmp/sentrazero/j1" "/Users/u/Library/Keychains/login.keychain-db" = false.
Proof.
  destruct (mac_plugin_confined mac_host "/Users/u" (LoadConfig mac_host None)
    (fun _ => last_match (profile false "/Users/u" "/tmp/sentrazero/j1")) mac_env demo_cmd mac_state mac_run.1 mac_run.2
    (fun _ _ _ => eq_refl) eq_refl (surjective_pairing mac_run)) as [Hno|(c' & pid & Hev & _ & Hp & _ & text & Hf & _)].
  - assert (Hev : events mac_run.1 <> []) by (vm_compute; discriminate). destruct (Hev Hno).
  - exists pid, c'. split; [exact Hev|]. split; [exact Hp|]. exists text. split; [exact Hf|].
    repeat split; vm_compute; reflexivity.
Defined.
