(* ===== verification/SandboxWindows.v ===== *)
(** * SandboxWindows: the sandbox of Windows

    Models [internal/sandbox/sandboxer_windows.go]: the firewall rule, the job
    object with its limits, and the process that is created suspended and resumed
    in the job.  The functions of [kernel32.dll] and [netsh] answer through a
    record; what they are asked for, when they agree, is the trace of the
    sandbox. *)
From S2P Require Import Prelude GoFloat Json Path Merge Storage Handler Sandbox.
From Stdlib Require Import Ascii.

(** ** Constants *)

Definition createSuspended : Z := 0x4.
Definition createNewConsole : Z := 0x10.
Definition processSetQuota : Z := 0x100.
Definition PROCESS_TERMINATE : Z := 0x1.
Definition jobObjLimitKillOnClose : Z := 0x2000.
Definition jobObjLimitProcMemory : Z := 0x100.
Definition jobObjLimitActiveProc : Z := 0x8.
Definition jobObjExtLimitInfo : Z := 9.
Definition jobObjUIRestrictionsInfo : Z := 4.
Definition jobObjUILimitReadClipboard : Z := 0x2.
Definition jobObjUILimitWriteClipboard : Z := 0x4.
Definition jobObjUILimitSystemParams : Z := 0x8.
Definition jobObjUILimitDisplaySettings : Z := 0x10.
Definition jobObjUILimitGlobalAtoms : Z := 0x20.
Definition jobObjUILimitExitWindows : Z := 0x80.
Definition jobActiveProcessLimit : Z := 256.

(** ** State *)

Inductive win_event :=
| FirewallAdded (rule program : string)
| FirewallDeleted (rule : string)
| JobCreated (job : Z)
| JobLimited (job flags processes memory : Z)
| UIRestricted (job cls : Z)
| Spawned (c : Cmd) (flags pid : Z)
| Assigned (job pid : Z)
| Resumed (pid thread : Z)
| Terminated (pid : Z)
| Awaited (pid : Z)
| JobClosed (job : Z).

Record win_state := mkWin { w_disk : fs; w_events : list win_event; jobEnforcementAvailable : bool }.

Definition emit (e : win_event) (st : win_state) : win_state := mkWin (w_disk st) (w_events st ++ [e]) (jobEnforcementAvailable st).
Definition with_w_disk (s : fs) (st : win_state) : win_state := mkWin s (w_events st) (jobEnforcementAvailable st).
Definition not_enforced (st : win_state) : win_state := mkWin (w_disk st) (w_events st) false.

(** The answer of [AssignProcessToJobObject]. *)
Inductive assignment := JobAssigned | AccessDenied | AssignmentFailed (e : string).

Record kernel32 := mkKernel32 {
  netsh : list string -> error;
  CreateJobObject : Z;                     (** 0 is a failure *)
  SetInformationJobObject : Z -> bool;     (** by the class of the information *)
  OpenProcess : Z -> Z -> error;           (** by rights and process *)
  AssignProcessToJobObject : Z -> assignment;
  snapshot : option (list (Z * Z));        (** the threads and their processes *)
  OpenThread : Z -> bool;
  now_nanos : Z }.

(** ** Names of rules *)

Definition byte_between (lo hi : Z) (c : ascii) : bool := (lo <=? Z.of_nat (nat_of_ascii c)) && (Z.of_nat (nat_of_ascii c) <=? hi).

(** The bytes of the first rune of a text; an invalid byte is a rune. *)
Definition rune_len (s : string) : nat :=
  let cont := byte_between 0x80 0xBF in
  match s with
  | String a (String b rest) =>
      if byte_between 0xC2 0xDF a && cont b then 2
      else
        match rest with
        | String c rest =>
            if ((byte_between 0xE0 0xE0 a && byte_between 0xA0 0xBF b)
                || ((byte_between 0xE1 0xEC a || byte_between 0xEE 0xEF a) && cont b)
                || (byte_between 0xED 0xED a && byte_between 0x80 0x9F b)) && cont c then 3
            else
              match rest with
              | String d _ =>
                  if ((byte_between 0xF0 0xF0 a && byte_between 0x90 0xBF b)
                      || (byte_between 0xF1 0xF3 a && cont b)
                      || (byte_between 0xF4 0xF4 a && byte_between 0x80 0x8F b)) && cont c && cont d then 4
                  else 1
              | EmptyString => 1
              end
        | EmptyString => 1
        end
  | _ => 1
  end%nat.

Definition rule_char (c : ascii) : bool :=
  byte_between 97 122 c || byte_between 65 90 c || byte_between 48 57 c || Ascii.eqb c "_" || Ascii.eqb c "-".

(** [skip] bytes of a rune are still to be passed over. *)
Fixpoint sanitize_from (skip : nat) (s : string) : string :=
  match s with
  | EmptyString => ""
  | String c rest =>
      match skip with
      | S skip => sanitize_from skip rest
      | O => if rule_char c then String c (sanitize_from 0 rest)
             else String "_" (sanitize_from (pred (rune_len s)) rest)
      end
  end.

Definition sanitizeRuleName (name : string) : string :=
  let b := sanitize_from 0 name in if b =?s "" then "plugin" else b.

Example sanitize_ex : sanitizeRuleName ("a b" +:+ String "195" (String "164" "c")) = "a_b_c" /\ sanitizeRuleName "" = "plugin".
Proof. split; reflexivity. Qed.

(** ** The sandbox *)

Section windows.
Context (H : host) (K : kernel32) (cfg : SandboxConfig).

Definition win_Prepare (jobID : string) (manifest : PluginManifest) (network : bool) (st : win_state) : win_state * result SandboxEnv :=
  let workDir := TempDir cfg +:+ "\sentrazero\" +:+ jobID in
  match os_MkdirAll (f_mkdir (faults H)) workDir (w_disk st) with
  | (s, Some e) => (with_w_disk s st, Err ("create work dir: " +:+ e))
  | (s, None) => (with_w_disk s st, Ok (mkEnv workDir cfg manifest network "windows"))
  end.

Definition rule_name (env : SandboxEnv) : string :=
  "SentraZeroBlock_" +:+ sanitizeRuleName (pm_Name (Manifest env)) +:+ "_" +:+ itoa (now_nanos K).

(** The name of the rule that was added. *)
Definition blockOutbound (c : Cmd) (env : SandboxEnv) (st : win_state) : win_state * option string :=
  if c_Path c =?s "" then (st, None)
  else
    let name := rule_name env in
    match netsh K ["advfirewall"; "firewall"; "add"; "rule"; "name=" +:+ name; "dir=out"; "action=block"; "enable=yes"; "program=" +:+ c_Path c] with
    | Some _ => (st, None)
    | None => (emit (FirewallAdded name (c_Path c)) st, Some name)
    end.

(** The deferred clean-up; a rule that cannot be deleted stays. *)
Definition unblock (rule : option string) (st : win_state) : win_state :=
  match rule with
  | None => st
  | Some name =>
      match netsh K ["advfirewall"; "firewall"; "delete"; "rule"; "name=" +:+ name] with
      | Some _ => st
      | None => emit (FirewallDeleted name) st
      end
  end.

Definition job_flags : Z := Z.lor (Z.lor jobObjLimitKillOnClose jobObjLimitProcMemory) jobObjLimitActiveProc.
Definition ui_class : Z :=
  Z.lor (Z.lor (Z.lor (Z.lor (Z.lor jobObjUILimitReadClipboard jobObjUILimitWriteClipboard) jobObjUILimitSystemParams)
    jobObjUILimitDisplaySettings) jobObjUILimitGlobalAtoms) jobObjUILimitExitWindows.

(** [uintptr(memoryMB * 1024 * 1024)]. *)
Definition job_memory (memoryMB : Z) : Z := int64 (int64 (memoryMB * 1024) * 1024) mod 2 ^ 64.

Definition applyUIRestrictions (job : Z) (st : win_state) : win_state :=
  if SetInformationJobObject K jobObjUIRestrictionsInfo then emit (UIRestricted job ui_class) st else st.

(** The first thread of the process that can be opened is resumed. *)
Fixpoint resume_first (pid : Z) (threads : list (Z * Z)) : option Z :=
  match threads with
  | [] => None
  | (t, owner) :: threads => if (owner =? pid) && OpenThread K t then Some t else resume_first pid threads
  end.

Definition resumePrimaryThread (pid : Z) (st : win_state) : win_state * error :=
  match snapshot K with
  | None => (st, Some "CreateToolhelp32Snapshot failed")
  | Some threads =>
      match resume_first pid threads with
      | Some t => (emit (Resumed pid t) st, None)
      | None => (st, Some ("no thread found for pid " +:+ itoa pid))
      end
  end.

Definition resume_and_wait (ctx : string) (c : Cmd) (pid : Z) (st : win_state) : win_state * option run_error :=
  match resumePrimaryThread pid st with
  | (st, Some e) => (emit (Terminated pid) st, Some (OtherError (ctx +:+ e)))
  | (st, None) => (emit (Awaited pid) st, wait H c)
  end.

Definition spawn_flags : Z := Z.lor createSuspended createNewConsole.

(** The process is created and put into the job. *)
Definition spawn_in_job (job : Z) (c : Cmd) (st : win_state) : win_state * option run_error :=
  match start_process H c with
  | Err e => (st, Some (OtherError ("start process: " +:+ e)))
  | Ok pid =>
      let st := emit (Spawned c spawn_flags pid) st in
      match OpenProcess K (Z.lor processSetQuota PROCESS_TERMINATE) pid with
      | Some e => (emit (Terminated pid) st, Some (OtherError ("OpenProcess(pid=" +:+ itoa pid +:+ ") for job assignment: " +:+ e)))
      | None =>
          match AssignProcessToJobObject K pid with
          | AccessDenied => resume_and_wait "resume primary thread (degraded path): " c pid (not_enforced st)
          | AssignmentFailed e => (emit (Terminated pid) st, Some (OtherError ("AssignProcessToJobObject failed: " +:+ e)))
          | JobAssigned => resume_and_wait "resume primary thread: " c pid (emit (Assigned job pid) st)
          end
      end
  end.

Definition run_in_job (env : SandboxEnv) (c : Cmd) (st : win_state) : win_state * option run_error :=
  let memoryMB := clamp_memory cfg (MemoryMB (Resources (Manifest env))) in
  let job := CreateJobObject K in
  if job =? 0 then (st, Some (OtherError "CreateJobObject failed"))
  else
    let st := emit (JobCreated job) st in
    let '(st, r) :=
      if SetInformationJobObject K jobObjExtLimitInfo
      then spawn_in_job job c
             (applyUIRestrictions job (emit (JobLimited job job_flags jobActiveProcessLimit (job_memory memoryMB)) st))
      else (st, Some (OtherError "SetInformationJobObject failed")) in
    (emit (JobClosed job) st, r).

(** [cmd.Run]. *)
Definition win_Run (c : Cmd) (st : win_state) : win_state * option run_error :=
  match start_process H c with
  | Err e => (st, Some (OtherError e))
  | Ok pid => (emit (Awaited pid) (emit (Spawned c 0 pid) st), wait H c)
  end.

Definition win_Execute (env : SandboxEnv) (c : Cmd) (st : win_state) : win_state * option run_error :=
  let '(st, rule) := if env_Network env then (st, None) else blockOutbound c env st in
  let '(st, r) := if WindowsJobObject cfg then run_in_job env c st else win_Run c st in
  (unblock rule st, r).

Definition win_Destroy (env : SandboxEnv) (st : win_state) : win_state :=
  with_w_disk (os_RemoveAll (faults H) (WorkDir env) (w_disk st)).1 st.
End windows.

(** ** Facts *)

Lemma split_cons {A} (x y : A) l a b : x :: l = a ++ y :: b ->
  (a = [] /\ x = y /\ l = b) \/ exists a', a = x :: a' /\ l = a' ++ y :: b.
Proof. destruct a as [|z a]; cbn; intros [= -> E]; [by left|right]. by exists a. Qed.

(** The places of an event in a trace that is known. *)
Ltac places :=
  repeat match goal with
  | E : _ :: _ = _ ++ _ :: _ |- _ => apply split_cons in E as [(-> & E1 & <-)|(? & -> & E)];
      [try discriminate E1; injection E1; clear E1; intros; subst|]
  | E : [] = _ ++ _ :: _ |- _ => by destruct (app_cons_not_nil _ _ _ E)
  end.

Ltac listed := rewrite !elem_of_cons; auto 12.

Section windows_facts.
Context (H : host) (K : kernel32) (cfg : SandboxConfig) (env : SandboxEnv) (c : Cmd).
Abbreviation m := (clamp_memory cfg (MemoryMB (Resources (Manifest env)))).

(** The runs of a job, by what is done to its process. *)
Inductive job_run : list win_event -> bool -> option run_error -> Prop :=
| run_none e : job_run [] true (Some (OtherError e))
| run_unlimited job e : job_run [JobCreated job; JobClosed job] true (Some (OtherError e))
| run_not_started job ui e : ui = [] \/ ui = [UIRestricted job ui_class] ->
    job_run ([JobCreated job; JobLimited job job_flags jobActiveProcessLimit (job_memory m)] ++ ui ++ [JobClosed job]) true (Some (OtherError e))
| run_killed job ui pid joined free e : ui = [] \/ ui = [UIRestricted job ui_class] ->
    joined = [] \/ joined = [Assigned job pid] ->
    job_run ([JobCreated job; JobLimited job job_flags jobActiveProcessLimit (job_memory m)] ++ ui ++
      Spawned c spawn_flags pid :: joined ++ [Terminated pid; JobClosed job]) free (Some (OtherError e))
| run_through job ui pid joined free t : ui = [] \/ ui = [UIRestricted job ui_class] ->
    (joined = [Assigned job pid] /\ free = true) \/ (joined = [] /\ AssignProcessToJobObject K pid = AccessDenied /\ free = false) ->
    job_run ([JobCreated job; JobLimited job job_flags jobActiveProcessLimit (job_memory m)] ++ ui ++
      Spawned c spawn_flags pid :: joined ++ [Resumed pid t; Awaited pid; JobClosed job]) free (wait H c).

(** The flag of enforcement is only ever cleared. *)
Lemma run_in_job_runs st st' r : run_in_job H K cfg env c st = (st', r) ->
  exists new free, w_events st' = w_events st ++ new /\ job_run new free r /\ w_disk st' = w_disk st /\
    jobEnforcementAvailable st' = jobEnforcementAvailable st && free.
Proof.
  unfold run_in_job. cbv zeta. destruct (CreateJobObject K =? 0).
  { intros [= <- <-]. exists [], true. rewrite app_nil_r, andb_true_r. split_and!; [done|constructor|done..]. }
  set (job := CreateJobObject K). set (st0 := emit (JobCreated job) st).
  destruct (SetInformationJobObject K jobObjExtLimitInfo).
  2: { intros [= <- <-]. eexists _, true. rewrite andb_true_r. split_and!; [|apply run_unlimited|done..]. cbn [emit w_events st0]. by rewrite <- app_assoc. }
  set (st1 := applyUIRestrictions K job _).
  assert (H1 : exists ui, (ui = [] \/ ui = [UIRestricted job ui_class]) /\
    w_events st1 = w_events st ++ [JobCreated job; JobLimited job job_flags jobActiveProcessLimit (job_memory m)] ++ ui /\
    w_disk st1 = w_disk st /\ jobEnforcementAvailable st1 = jobEnforcementAvailable st).
  { unfold st1, applyUIRestrictions. destruct (SetInformationJobObject K _); [exists [UIRestricted job ui_class]|exists []];
      cbn [emit w_events w_disk jobEnforcementAvailable st0]; rewrite <- ?app_assoc; (split; [auto|done]). }
  destruct H1 as (ui & Hui & Hev & Hd & Hj). unfold spawn_in_job.
  destruct (start_process H c) as [pid|e].
  2: { intros [= <- <-]. eexists _, true. rewrite andb_true_r. split_and!; [|by apply run_not_started|done..].
       cbn [emit w_events]. rewrite Hev. by rewrite <- !app_assoc. }
  destruct (OpenProcess K _ pid).
  { intros [= <- <-]. eexists _, true. rewrite andb_true_r. split_and!; [|eapply (run_killed job ui pid []); auto|done..].
    cbn [emit w_events]. rewrite Hev, <- !app_assoc. done. }
  unfold resume_and_wait, resumePrimaryThread.
  destruct (AssignProcessToJobObject K pid) as [| |e] eqn:Ea.
  - destruct (snapshot K) as [ts|]; [destruct (resume_first K pid ts) as [t|]|]; intros [= <- <-];
      eexists _, true; rewrite andb_true_r;
      (split_and!; [|(eapply (run_killed job ui pid [Assigned job pid]); by auto)
                    || (eapply (run_through job ui pid [Assigned job pid]); by auto)|done..]);
      cbn [emit w_events]; rewrite Hev, <- !app_assoc; done.
  - destruct (snapshot K) as [ts|]; [destruct (resume_first K pid ts) as [t|]|]; intros [= <- <-];
      eexists _, false; rewrite andb_false_r;
      (split_and!; [|(eapply (run_killed job ui pid []); by auto)
                    || (eapply (run_through job ui pid []); by auto)|done..]);
      cbn [emit w_events not_enforced]; rewrite Hev, <- !app_assoc; done.
  - intros [= <- <-]. eexists _, true. rewrite andb_true_r. split_and!; [|eapply (run_killed job ui pid []); auto|done..].
    cbn [emit w_events]. rewrite Hev, <- !app_assoc. done.
Qed.

(** What holds of the trace of a run of a job with its process [c]. *)
Definition resumed_in_job (new : list win_event) (enforced : bool) : Prop :=
  forall a pid t b, new = a ++ Resumed pid t :: b ->
    Spawned c spawn_flags pid ∈ a /\
    exists job, JobLimited job job_flags jobActiveProcessLimit (job_memory m) ∈ a /\ JobClosed job ∈ b /\
      (Assigned job pid ∈ a \/ AssignProcessToJobObject K pid = AccessDenied /\ enforced = false).

Definition never_left_suspended (new : list win_event) (r : option run_error) : Prop :=
  forall a c' flags pid b, new = a ++ Spawned c' flags pid :: b ->
    c' = c /\ Z.testbit flags 2 = true /\
    (Terminated pid ∈ b \/ (exists t, Resumed pid t ∈ b) /\ Awaited pid ∈ b /\ r = wait H c).

Lemma job_run_resumed new free r : job_run new free r -> resumed_in_job new free.
Proof.
  intros Hrun. destruct Hrun as [|job e|job ui e [-> | ->]|job ui pid joined free e [-> | ->] [-> | ->]
    |job ui pid joined free t [-> | ->] [[-> ->]|(-> & Ha & ->)]]; cbn [app]; intros a pid' t' b E; places;
    (split; [listed|]); eexists; (split; [listed|]); (split; [listed|]); first [right; by auto | left; listed].
Qed.

Lemma job_run_spawned new free r : job_run new free r -> never_left_suspended new r.
Proof.
  intros Hrun. destruct Hrun as [|job e|job ui e [-> | ->]|job ui pid joined free e [-> | ->] [-> | ->]
    |job ui pid joined free t [-> | ->] [[-> ->]|(-> & Ha & ->)]]; cbn [app]; intros a c' flags pid' b E; places;
    (split; [done|]); (split; [done|]);
    first [left; listed; fail | right; split; [eexists; listed|split; [listed|done]]].
Qed.

(** An event between others that come before and after all. *)
Lemma inner_place {A} (pre new post a b : list A) x : pre ++ new ++ post = a ++ x :: b -> x ∉ pre -> x ∉ post ->
  exists a' b', a = pre ++ a' /\ b = b' ++ post /\ new = a' ++ x :: b'.
Proof.
  intros E Hpre Hpost. revert a E. induction pre as [|y pre IH]; intros a E.
  - cbn in E. clear Hpre. revert b E. induction post as [|z post IH] using rev_ind; intros b E.
    + rewrite app_nil_r in E. exists a, b. by rewrite app_nil_r.
    + rewrite not_elem_of_app, list_elem_of_singleton in Hpost. destruct Hpost as [Hp Hz].
      destruct b as [|w b _] using rev_ind; [rewrite app_assoc in E; by apply app_inj_tail in E as [_ <-]|].
      rewrite app_comm_cons, !app_assoc in E. apply app_inj_tail in E as [E <-].
      destruct (IH Hp b) as (a' & b' & -> & -> & ->); [done|]. exists a', b'. by rewrite app_assoc.
  - rewrite not_elem_of_cons in Hpre. destruct Hpre as [Hy Hpre].
    cbn [app] in E. apply split_cons in E as [(-> & -> & _)|(a0 & -> & E)]; [done|].
    destruct (IH Hpre a0 E) as (a' & b' & -> & -> & ->). by exists a', b'.
Qed.

Lemma job_memory_small : 0 < m -> MaxMemoryMB cfg < 2 ^ 40 -> job_memory m = m * 2 ^ 20 /\ m <= MaxMemoryMB cfg.
Proof.
  intros Hm Hmax. destruct (clamp_memory_range cfg _ Hm) as [Hle _]. split; [|done]. unfold job_memory.
  rewrite (int64_small (m * 1024)) by lia. rewrite (int64_small (m * 1024 * 1024)) by lia. rewrite Z.mod_small by lia. lia.
Qed.

(** The rule of the firewall, before and after the run. *)
Lemma block_law st : exists pre st0 rule, (if env_Network env then (st, None) else blockOutbound K c env st) = (st0, rule) /\
  w_events st0 = w_events st ++ pre /\ w_disk st0 = w_disk st /\
  (pre = [] /\ rule = None \/ pre = [FirewallAdded (rule_name K env) (c_Path c)] /\ rule = Some (rule_name K env)) /\
  (env_Network env = false -> c_Path c <> "" -> (forall args, netsh K args = None) -> pre <> []).
Proof.
  destruct (env_Network env); [exists [], st, None; rewrite app_nil_r; split_and!; auto; done|]. unfold blockOutbound.
  destruct (eqb_spec_s (c_Path c) ""); [exists [], st, None; rewrite app_nil_r; split_and!; auto; done|].
  destruct (netsh K _) eqn:En; [exists [], st, None; rewrite app_nil_r; split_and!; auto; intros _ _ Hn; by rewrite Hn in En|].
  eexists [_], _, _. split_and!; [done|done|done|by right|done].
Qed.

Lemma unblock_law pre rule st :
  (pre = [] /\ rule = None \/ pre = [FirewallAdded (rule_name K env) (c_Path c)] /\ rule = Some (rule_name K env)) ->
  exists post, w_events (unblock K rule st) = w_events st ++ post /\ w_disk (unblock K rule st) = w_disk st /\
    jobEnforcementAvailable (unblock K rule st) = jobEnforcementAvailable st /\ (post = [] \/ post = [FirewallDeleted (rule_name K env)]) /\
    (pre <> [] -> (forall args, netsh K args = None) -> post <> []).
Proof.
  unfold unblock. intros [[-> ->]|[-> ->]]; [exists []; rewrite app_nil_r; split_and!; auto; done|].
  destruct (netsh K _) eqn:En; [exists []; rewrite app_nil_r; split_and!; auto; intros _ Hn; by rewrite Hn in En|].
  eexists [_]. split_and!; auto; done.
Qed.

(** C19.  With job objects, the process of a plugin is created suspended and never left
    so: it is terminated, or resumed and waited for.  It is resumed only in a job
    that is closed afterwards, which ends all its processes, and that limits
    their number and the memory of each to that of the manifest or the default
    and at most the maximum; or, where the system refuses the assignment, outside
    of it, and then the sandbox reports that it does not enforce its limits.  A
    plugin that did not ask for the network is resumed only after its program was
    blocked, if the firewall could be changed, and the rule is removed again. *)
Theorem win_plugin_in_job st st' r : WindowsJobObject cfg = true -> win_Execute H K cfg env c st = (st', r) ->
  exists new, w_events st' = w_events st ++ new /\ w_disk st' = w_disk st /\
    (forall a pid t b, new = a ++ Resumed pid t :: b ->
       Spawned c spawn_flags pid ∈ a /\
       (exists job, JobLimited job job_flags jobActiveProcessLimit (job_memory m) ∈ a /\ JobClosed job ∈ b /\
          (Assigned job pid ∈ a \/ AssignProcessToJobObject K pid = AccessDenied /\ jobEnforcementAvailable st' = false)) /\
       (env_Network env = false -> c_Path c <> "" -> (forall args, netsh K args = None) ->
          FirewallAdded (rule_name K env) (c_Path c) ∈ a /\ FirewallDeleted (rule_name K env) ∈ b)) /\
    never_left_suspended new r /\
    (0 < m -> MaxMemoryMB cfg < 2 ^ 40 -> job_memory m = m * 2 ^ 20 /\ m <= MaxMemoryMB cfg).
Proof.
  intros Hjob HE. unfold win_Execute in HE. rewrite Hjob in HE.
  destruct (block_law st) as (pre & st0 & rule & E0 & Hev0 & Hd0 & Hrule & Hnet). rewrite E0 in HE.
  destruct (run_in_job H K cfg env c st0) as [st1 r1] eqn:E1. injection HE as <- <-.
  apply run_in_job_runs in E1 as (new & free & Hev1 & Hrun & Hd1 & Hj).
  destruct (unblock_law pre rule st1 Hrule) as (post & Hev2 & Hd2 & Hj2 & Hpost & Hp2).
  assert (Hout : forall x, (forall n p, x <> FirewallAdded n p) -> (forall n, x <> FirewallDeleted n) -> x ∉ pre /\ x ∉ post).
  { intros x Ha Hb. split; [destruct Hrule as [[-> _]|[-> _]]|destruct Hpost as [-> | ->]];
      rewrite ?list_elem_of_singleton, ?elem_of_nil; auto; intros []. }
  exists (pre ++ new ++ post). split_and!; [by rewrite Hev2, Hev1, Hev0, <- !app_assoc|congruence| | |exact job_memory_small].
  - intros a pid t b E. destruct (Hout (Resumed pid t) ltac:(done) ltac:(done)) as [Hx Hy].
    destruct (inner_place _ _ _ _ _ _ E Hx Hy) as (a' & b' & -> & -> & En).
    destruct (job_run_resumed _ _ _ Hrun _ _ _ _ En) as (Hs & job & Hl & Hc & Ha).
    split; [apply elem_of_app; by right|]. split.
    + exists job. split_and!; [apply elem_of_app; by right|apply elem_of_app; by left|].
      destruct Ha as [Ha|[Ha ->]]; [left; apply elem_of_app; by right|right]. split; [done|]. by rewrite Hj2, Hj, andb_false_r.
    + intros Hn Hp Hk. specialize (Hnet Hn Hp Hk). specialize (Hp2 Hnet Hk). split; apply elem_of_app; [left|right].
      * destruct Hrule as [[-> _]|[-> _]]; [done|by left].
      * destruct Hpost as [-> | ->]; [done|by left].
  - intros a c' flags pid b E. destruct (Hout (Spawned c' flags pid) ltac:(done) ltac:(done)) as [Hx Hy].
    destruct (inner_place _ _ _ _ _ _ E Hx Hy) as (a' & b' & -> & -> & En).
    destruct (job_run_spawned _ _ _ Hrun _ _ _ _ _ En) as (-> & Hf & Hend). split; [done|]. split; [done|].
    destruct Hend as [Ht|((t & Ht) & Hw & Hr)]; [left|right; split; [exists t|split; [|done]]]; apply elem_of_app; by left.
Qed.
End windows_facts.

Definition demo_kernel32 : kernel32 :=
  mkKernel32 (fun _ => None) 7 (fun _ => true) (fun _ _ => None) (fun _ => JobAssigned) (Some [(9, 1); (11, 42)]) (fun _ => true) 5.
Definition win_host : host :=
  mkHost no_disk_faults ∅ "windows" "amd64" None false false None 0 0 0
    (fun _ => None) (fun _ _ => None) (fun _ => None) (Ok "C:\sentra.exe") (fun _ => Ok "C:\python3.exe") (fun _ => false)
    (fun _ => Ok 42) (fun _ => None) 1700000000.
Definition win_env : SandboxEnv := mkEnv "C:	mp\sentrazero\j1" (LoadConfig win_host None) (demo_manifest 0) false "windows".
Definition win_run : win_state * option run_error :=
  win_Execute win_host demo_kernel32 (LoadConfig win_host None) win_env demo_cmd (mkWin (mkFS ∅ ∅ ∅ ∅) [] true).

Lemma win_plugin_in_job_witness : exists a b, w_events win_run.1 = a ++ Resumed 42 11 :: b /\
  Spawned demo_cmd spawn_flags 42 ∈ a /\ FirewallDeleted "SentraZeroBlock_resize_5" ∈ b /\ job_memory 256 = 268435456.
Proof.
  destruct (win_plugin_in_job win_host demo_kernel32 (LoadConfig win_host None) win_env demo_cmd (mkWin (mkFS ∅ ∅ ∅ ∅) [] true)
    win_run.1 win_run.2 eq_refl (surjective_pairing win_run)) as (new & Hev & _ & Hres & _ & Hm).
  set (a := [FirewallAdded "SentraZeroBlock_resize_5" "/usr/bin/python3"; JobCreated 7; JobLimited 7 8456 256 268435456;
     UIRestricted 7 190; Spawned demo_cmd 20 42; Assigned 7 42]).
  set (b := [Awaited 42; JobClosed 7; FirewallDeleted "SentraZeroBlock_resize_5"]).
  assert (E : w_events win_run.1 = a ++ Resumed 42 11 :: b) by (vm_compute; reflexivity).
  exists a, b. split; [exact E|].
  destruct (Hres a 42 11 b) as (Hs & _ & Hn); [rewrite <- E; symmetry; exact Hev|].
  split; [exact Hs|]. destruct (Hn eq_refl ltac:(discriminate) (fun _ => eq_refl)) as [_ Hd]. split; [exact Hd|].
  destruct (Hm ltac:(vm_compute; reflexivity) ltac:(vm_compute; reflexivity)) as [Hx _]. vm_compute in Hx |- *. exact Hx.
Defined.
