(* ===== verification/PluginRun.v ===== *)
(** * PluginRun: a plugin in its sandbox

    Models [internal/plugin/sandbox.go]: the installation of the requirements of
    a plugin, the choice of its interpreter, and [RunSandboxedPlugin], the runner
    that [PluginExecute] has as a parameter, on the sandboxes of [Sandbox].  The
    timer of a plugin runs while its requirements are installed ([time_left]).  Its
    theorems need of a sandbox only the laws of [Sandboxed], except for what is
    shown of Linux. *)
From S2P Require Import Prelude GoFloat Json Path Merge MergeTree Storage Handler Seccomp PluginVerify PluginExecute Sandbox.
From Stdlib Require Import Ascii.

(** ** Requirements *)

(** What pip answers: whether it shows a package, how the [n]-th attempt to
    install goes, whether the 300 seconds are over before it, and how many
    nanoseconds the look-ups and the given runs have taken, pauses included. *)
Record pip := mkPip { pip_show : string -> bool; pip_install : nat -> list string -> error; pip_late : nat -> bool;
  pip_spent : list (list string) -> Z }.

Definition no_pip : pip := mkPip (fun _ => true) (fun _ _ => None) (fun _ => false) (fun _ => 0).

(** The loop of three attempts; [more] of them are left. *)
Fixpoint install_loop (P : pip) (name : string) (deps : list string) (more attempt : nat) : list (list string) * error :=
  match more with
  | O => ([], Some ("failed to install dependencies for " +:+ name +:+ " after 3 retries"))
  | S more =>
      if negb (Nat.eqb attempt 0) && pip_late P attempt then ([], Some "context deadline exceeded")
      else
        let args := ["-m"; "pip"; "install"; "--no-cache-dir"] ++ deps in
        match pip_install P attempt args with
        | Some _ => let '(runs, e) := install_loop P name deps more (S attempt) in (args :: runs, e)
        | None => ([args], None)
        end
  end.

(** The runs of [python3] that install, and the error. *)
Definition EnsurePluginDependencies (P : pip) (m : PluginVerify.Manifest) : list (list string) * error :=
  match missing_requirements (pip_show P) m with
  | [] => ([], None)
  | deps => install_loop P (Name m) deps 3 0
  end.

(** ** Data *)

Record SandboxResult := mkSandboxResult { sb_Output : string; sb_ExitCode : Z; sb_DurationMs : Z; sb_Method : string }.

Definition exitCodeFromError (err : option run_error) : Z :=
  match err with
  | None => 0
  | Some (ExitError code _) => code
  | Some (OtherError _) => -1
  end.

Definition getRunnerForLanguage (language : string) : string :=
  if one_of language ["python"; "python3"] then "python3"
  else if language =?s "python2" then "python2"
  else if one_of language ["node"; "nodejs"; "javascript"] then "node"
  else if language =?s "ruby" then "ruby"
  else if one_of language ["bash"; "shell"] then "bash"
  else if language =?s "go" then "go run"
  else "python3".

Definition maxOutputLen : Z := 10 * 1024 * 1024.
Definition cap_output (output : string) : string :=
  if maxOutputLen <? Z.of_nat (String.length output)
  then String.substring 0 (Z.to_nat maxOutputLen) output +:+ "... [truncated at 10MB]" else output.

Definition plugin_timeout (m : PluginVerify.Manifest) : Z :=
  let t := PluginVerify.TimeoutSeconds (PluginVerify.Resources m) in
  if 0 <? t then int64 (t * Second) else 5 * Minute.

Definition sandbox_manifest (m : PluginVerify.Manifest) : PluginManifest :=
  let r := PluginVerify.Resources m in
  mkPlugin (Name m) (Language m) (Network m)
    (mkResources (PluginVerify.MemoryMB r) (PluginVerify.CPUSeconds r) (PluginVerify.CPULimit r)
       (PluginVerify.TimeoutSeconds r) (PluginVerify.RequiresGPU r) (PluginVerify.GPUMemoryMB r)).

(** ** A run *)

Section run.
Context (H : host) (sysctl : option Z) (newPlatformSandbox : SandboxConfig -> Sandboxer) (P : pip).
(** The graphics card, and the text of [%.0f]. *)
Context (GPUModel : string) (GPUMemoryFreeGB : float64) (no_decimals : float64 -> string).
(** Faults of [os.Symlink], such as a missing directory. *)
Context (symlinkErr : string -> string -> error).
(** What the process of a command has printed by its end, on both streams. *)
Context (stdio : Cmd -> string * string).
(** The nanoseconds of the clock at the start and at the end, and those that
    pass until the process is started besides what pip takes. *)
Context (started ended other : Z).

Definition check_gpu (m : PluginVerify.Manifest) : error :=
  let r := PluginVerify.Resources m in
  if PluginVerify.RequiresGPU r then
    let free := f64_mul GPUMemoryFreeGB (f64_of_Z 1024) in
    if GPUModel =?s "" then Some ("plugin " +:+ Name m +:+ " requires GPU but device has none")
    else if (0 <? PluginVerify.GPUMemoryMB r) && f64_lt free (f64_of_Z (PluginVerify.GPUMemoryMB r))
    then Some ("plugin " +:+ Name m +:+ " requires " +:+ itoa (PluginVerify.GPUMemoryMB r) +:+ " MB GPU memory but only "
               +:+ no_decimals free +:+ " MB free")
    else None
  else None.

(** [os.Symlink]: what is read under the new name is the file of the old one. *)
Definition os_Symlink (oldname newname : string) (s : fs) : fs * error :=
  match symlinkErr oldname newname with
  | Some e => (s, Some e)
  | None =>
      if bool_decide (is_Some (Merge.files s !! newname)) || bool_decide (newname ∈ Merge.dirs s)
      then (s, Some ("symlink " +:+ oldname +:+ " " +:+ newname +:+ ": file exists"))
      else (Merge.with_files (match Merge.files s !! oldname with
                        | Some content => <[newname := content]> (Merge.files s)
                        | None => Merge.files s
                        end) s, None)
  end.

(** The plugin under the name of its entry point; where it cannot be linked, it
    is moved. *)
Definition setup_script (pluginPath scriptPath : string) (s : fs) : fs * error :=
  match os_Symlink pluginPath scriptPath s with
  | (s, None) => (s, None)
  | (s, Some _) => os_Rename (f_rename (faults H) pluginPath) pluginPath scriptPath (os_RemoveAll (faults H) scriptPath s).1
  end.

(** [exec.CommandContext]; the name has no slash. *)
Definition exec_Command (timeout : Z) (name : string) (args : list string) (dir : string) (stdin : RawMessage) : Cmd :=
  match LookPath H name with
  | Ok path => mkCmd (if path =?s "" then name else path) (name :: args) None None None dir stdin timeout
  | Err e => mkCmd name (name :: args) None (Some e) None dir stdin timeout
  end.

(** The streams of the processes that were started. *)
Fixpoint printed (evs : list event) : string * string :=
  match evs with
  | [] => ("", "")
  | Started c _ :: evs => let '(o, e) := printed evs in ((stdio c).1 +:+ o, (stdio c).2 +:+ e)
  | Waited _ :: evs => printed evs
  end.

Definition marshal_payload (payload : option (list (string * json))) : RawMessage :=
  match payload with Some p => Marshal_map p | None => Raw JNull end.

Definition entrypoint (m : PluginVerify.Manifest) : string := if Filename m =?s "" then "main.py" else Filename m.
Definition job_id (m : PluginVerify.Manifest) : string := Name m +:+ "-" +:+ itoa started.

(** The context of the run is made before the requirements are installed, which
    do not heed it: what they take is taken from the process. *)
Definition time_left (m : PluginVerify.Manifest) (runs : list (list string)) : Z :=
  plugin_timeout m - (pip_spent P runs + other).

Definition plugin_command (left : Z) (m : PluginVerify.Manifest) (payload : option (list (string * json))) (env : SandboxEnv) : Cmd :=
  exec_Command left (getRunnerForLanguage (Language m)) [Join [WorkDir env; entrypoint m]]
    (WorkDir env) (marshal_payload payload).

(** The result of a run from the events before and after it. *)
Definition sandbox_result (before after : list event) (err : option run_error) : SandboxResult :=
  let '(out, errs) := printed (drop (length before) after) in
  mkSandboxResult (cap_output (if out =?s "" then errs else out)) (exitCodeFromError err)
    (Z.quot (ended - started) 1000000) "native_sandbox".

(** The part of [RunSandboxedPlugin] that the clean-up is deferred to. *)
Definition run_in (left : Z) (sb : Sandboxer) (env : SandboxEnv) (pluginPath : string) (payload : option (list (string * json)))
    (m : PluginVerify.Manifest) (st : state) : state * (option SandboxResult * option run_error) :=
  match setup_script pluginPath (Join [WorkDir env; entrypoint m]) (disk st) with
  | (s, Some e) => (with_disk s st, (None, Some (OtherError ("setup plugin: " +:+ e))))
  | (s, None) =>
      let '(st', err) := Execute sb env (plugin_command left m payload env) (with_disk s st) in
      (st', (Some (sandbox_result (events st) (events st') err), err))
  end.

(** Failures of the installation are only logged; its programs are run by the
    agent, outside of any sandbox. *)
Definition RunSandboxedPlugin (pluginPath : string) (payload : option (list (string * json))) (m : PluginVerify.Manifest)
    (st : state) : state * list (list string) * (option SandboxResult * option run_error) :=
  match check_gpu m with
  | Some e => (st, [], (None, Some (OtherError e)))
  | None =>
      let '(runs, _) := EnsurePluginDependencies P m in
      let sb := New H (LoadConfig H sysctl) newPlatformSandbox in
      match Prepare sb (job_id m) (sandbox_manifest m) (Network m) st with
      | (st, Err e) => (st, runs, (None, Some (OtherError ("sandbox prepare: " +:+ e))))
      | (st, Ok env) =>
          let '(st, r) := run_in (time_left m runs) sb env pluginPath payload m st in
          (Destroy sb env st, runs, r)
      end
  end.
End run.

(** ** Facts *)

Lemma install_bounded P name deps : forall more attempt runs e, install_loop P name deps more attempt = (runs, e) ->
  (length runs <= more)%nat /\ Forall (eq (["-m"; "pip"; "install"; "--no-cache-dir"] ++ deps)) runs.
Proof.
  induction more as [|more IH]; intros attempt runs e; cbn [install_loop]; [by intros [= <- <-]|].
  destruct (_ && _); [intros [= <- <-]; cbn; split; [lia|done]|]. cbv zeta. destruct (pip_install P attempt _).
  - destruct (install_loop P name deps more (S attempt)) as [runs' e'] eqn:E. intros [= <- <-].
    apply IH in E as [? ?]. cbn [length]. split; [lia|by constructor].
  - intros [= <- <-]. cbn [length]. split; [lia|by repeat constructor].
Qed.

Lemma dependencies_bounded P m runs e : EnsurePluginDependencies P m = (runs, e) ->
  (length runs <= 3)%nat /\
  Forall (eq (["-m"; "pip"; "install"; "--no-cache-dir"] ++ missing_requirements (pip_show P) m)) runs /\
  (missing_requirements (pip_show P) m = [] -> runs = []).
Proof.
  unfold EnsurePluginDependencies. destruct (missing_requirements (pip_show P) m) as [|d deps].
  - intros [= <- <-]. cbn; split; [lia|done].
  - intros [? ?]%install_bounded. by split_and!.
Qed.

Section facts.
Context (H : host) (sysctl : option Z) (sys : SandboxConfig -> Sandboxer) (P : pip).
Context (GPUModel : string) (free : float64) (no_decimals : float64 -> string).
Context (symlinkErr : string -> string -> error) (stdio : Cmd -> string * string) (started ended other : Z).
Context `{!forall cfg, Sandboxed H (sys cfg)}.
Abbreviation run := (RunSandboxedPlugin H sysctl sys P GPUModel free no_decimals symlinkErr stdio started ended other).
Abbreviation chosen := (New H (LoadConfig H sysctl) sys).

(** The time that is left for the process. *)
Abbreviation left_of m := (time_left P other m (EnsurePluginDependencies P m).1).

(** The ways through a run. *)
Inductive ran (pluginPath : string) (payload : option (list (string * json))) (m : PluginVerify.Manifest) (st : state) :
  state -> option SandboxResult * option run_error -> Prop :=
| ran_gpu e : check_gpu GPUModel free no_decimals m = Some e ->
    ran pluginPath payload m st st (None, Some (OtherError e))
| ran_prepare st1 e : check_gpu GPUModel free no_decimals m = None ->
    Prepare chosen (job_id started m) (sandbox_manifest m) (Network m) st = (st1, Err e) ->
    ran pluginPath payload m st st1 (None, Some (OtherError ("sandbox prepare: " +:+ e)))
| ran_setup st1 env s e : check_gpu GPUModel free no_decimals m = None ->
    Prepare chosen (job_id started m) (sandbox_manifest m) (Network m) st = (st1, Ok env) ->
    setup_script H symlinkErr pluginPath (Join [WorkDir env; entrypoint m]) (disk st1) = (s, Some e) ->
    ran pluginPath payload m st (Destroy chosen env (with_disk s st1)) (None, Some (OtherError ("setup plugin: " +:+ e)))
| ran_through st1 env s st2 err : check_gpu GPUModel free no_decimals m = None ->
    Prepare chosen (job_id started m) (sandbox_manifest m) (Network m) st = (st1, Ok env) ->
    setup_script H symlinkErr pluginPath (Join [WorkDir env; entrypoint m]) (disk st1) = (s, None) ->
    Execute chosen env (plugin_command H (left_of m) m payload env) (with_disk s st1) = (st2, err) ->
    ran pluginPath payload m st (Destroy chosen env st2)
      (Some (sandbox_result stdio started ended (events st1) (events st2) err), err).

Lemma run_ran pluginPath payload m st st' runs r : run pluginPath payload m st = (st', runs, r) ->
  ran pluginPath payload m st st' r /\
  ((runs = [] /\ r.1 = None) \/ runs = (EnsurePluginDependencies P m).1).
Proof.
  unfold RunSandboxedPlugin. destruct (check_gpu _ _ _ m) as [e|] eqn:Eg; [intros [= <- <- <-]; split; [by constructor|by left]|].
  destruct (EnsurePluginDependencies P m) as [rs e0] eqn:Ed. cbv zeta.
  destruct (Prepare _ _ _ _ st) as [st1 [env|e]] eqn:Ep; [|intros [= <- <- <-]; split; [by constructor|by right]].
  unfold run_in. destruct (setup_script H symlinkErr pluginPath _ (disk st1)) as [s [e|]] eqn:Es.
  - intros [= <- <- <-]. split; [by econstructor|by right].
  - destruct (Execute _ env _ _) as [st2 err] eqn:Ex. intros [= <- <- <-]. split; [eapply ran_through; try done; by rewrite Ed|by right].
Qed.

Lemma cap_small out : (Z.of_nat (String.length out) <= maxOutputLen) -> cap_output out = out.
Proof. unfold cap_output. intros Hl. by rewrite (proj2 (Z.ltb_ge _ _) Hl). Qed.

Lemma drop_before (evs new : list event) : drop (length evs) (evs ++ new) = new.
Proof. apply drop_app_length. Qed.

(** C17.  A run of a plugin either ends with an error before anything is started, or
    has a result.  Then at most one process was started, in the working directory,
    with the payload as its input, and waited for; its exit code is the result's,
    and so is what it has printed, on the standard output or, if that stayed
    empty, on the other stream.  The result and the error of a process that failed
    are returned together.  The clock of the manifest's time limit runs from the
    beginning: the process has what pip and the preparation have left of it, and
    where nothing is left no process is started and the exit code is -1.  Pip is
    run at most three times, and always for exactly the missing requirements. *)
Theorem plugin_run_correct pluginPath payload m st st' runs res err :
  run pluginPath payload m st = (st', runs, (res, err)) ->
  ((length runs <= 3)%nat /\
   Forall (eq (["-m"; "pip"; "install"; "--no-cache-dir"] ++ missing_requirements (pip_show P) m)) runs /\
   (missing_requirements (pip_show P) m = [] -> runs = [])) /\
  match res with
  | None => events st' = events st /\ exists text, err = Some (OtherError text)
  | Some o =>
      let left := plugin_timeout m - (pip_spent P runs + other) in
      sb_Method o = "native_sandbox" /\ sb_ExitCode o = exitCodeFromError err /\
      sb_DurationMs o = Z.quot (ended - started) 1000000 /\
      (events st' = events st /\ sb_ExitCode o = -1 /\ sb_Output o = "" \/
       0 < left /\
       exists c pid env, events st' = events st ++ [Started c pid; Waited pid] /\ err = wait H c /\
         same_io (plugin_command H left m payload env) c /\ c_Timeout c = left /\
         c_Stdin c = marshal_payload payload /\ c_Dir c = WorkDir env /\
         forall out, out = (if (stdio c).1 =?s "" then (stdio c).2 else (stdio c).1) ->
           sb_Output o = cap_output out /\ (Z.of_nat (String.length out) <= maxOutputLen -> sb_Output o = out))
  end.
Proof.
  intros [Hr Hruns]%run_ran. split.
  { destruct (EnsurePluginDependencies P m) as [rs e] eqn:E. apply dependencies_bounded in E as (? & ? & ?).
    destruct Hruns as [[-> _] | ->]; [cbn; split_and!; [lia|done..]|by split_and!]. }
  pose proof (New_sandboxed H (LoadConfig H sysctl) sys _) as Hs.
  inversion Hr as [e Eg|st1 e Eg Ep|st1 env s e Eg Ep Es|st1 env s st2 err' Eg Ep Es Ex]; subst.
  - split; [done|by eexists].
  - apply prepare_law in Ep as (-> & _). split; [done|by eexists].
  - apply prepare_law in Ep as (He & _). destruct (destroy_law env (with_disk s st1)) as [-> _].
    split; [done|by eexists].
  - destruct Hruns as [[_ Hno] | ->]; [done|]. fold (time_left P other m (EnsurePluginDependencies P m).1). cbv zeta.
    apply prepare_law in Ep as (He & _). destruct (destroy_law env st2) as [-> _].
    apply execute_law in Ex as (_ & [[Hev (text & ->)]|(c & pid & Hev & -> & Hio & Hleft)]); cbn [with_disk events] in Hev;
      unfold sandbox_result; rewrite Hev, <- He.
    + rewrite drop_all. cbn [printed]. do 3 (split; [done|]). left. by split_and!.
    + rewrite drop_before. cbn [printed]. rewrite !append_nil_r. do 3 (split; [done|]). right.
      assert (Hc : forall l, c_Timeout (plugin_command H l m payload env) = l /\ c_Dir (plugin_command H l m payload env) = WorkDir env /\
        c_Stdin (plugin_command H l m payload env) = marshal_payload payload)
        by (intros l; unfold plugin_command, exec_Command; by destruct (LookPath H _)).
      destruct (Hc (left_of m)) as (E1 & E2 & E3). rewrite E1 in Hleft. split; [exact Hleft|].
      exists c, pid, env. destruct Hio as (I1 & I2 & I3). split_and!; [done..|by split_and!|congruence|congruence|congruence|].
      intros out ->. split; [done|]. apply cap_small.
Qed.

(** *** Files *)

Lemma below_trans a b c : below a b = true -> below b c = true -> below a c = true.
Proof.
  unfold below. intros [->%String.eqb_eq|Hb]%orb_prop; [done|]. intros [->%String.eqb_eq|Hc]%orb_prop; [by rewrite Hb, orb_true_r|].
  apply HasPrefix_split in Hb as (x & ->), Hc as (y & ->).
  rewrite !append_assoc, <- (append_assoc a "/"), HasPrefix_app. apply orb_true_r.
Qed.

Lemma removed_below F d s p : f_remove F d = None ->
  Merge.files (os_RemoveAll F d s).1 !! p = if below d p then None else Merge.files s !! p.
Proof.
  unfold os_RemoveAll. intros ->. cbn [fst Merge.with_files Merge.files Merge.with_dirs].
  destruct (below d p) eqn:Hb; [apply map_lookup_filter_None; right; by intros x _; cbn; rewrite Hb|].
  destruct (Merge.files s !! p) as [x|] eqn:E; [by apply map_lookup_filter_Some|].
  apply map_lookup_filter_None. by left.
Qed.

(** The plugin is put at its place by touching only the working directory and
    the plugin. *)
Lemma setup_keeps W pluginPath script s s' e q : setup_script H symlinkErr pluginPath script s = (s', e) ->
  (forall p, f_remove (faults H) p = None) -> below W script = true -> below W q = false -> q <> pluginPath ->
  Merge.files s' !! q = Merge.files s !! q.
Proof.
  unfold setup_script. intros HE Hrm Hs Hq Hne. assert (Hqs : q <> script) by (intros ->; congruence).
  assert (Hbs : below script q = false) by (destruct (below script q) eqn:E; [|done]; by rewrite (below_trans _ _ _ Hs E) in Hq).
  destruct (os_Symlink symlinkErr pluginPath script s) as [s1 [e1|]] eqn:El.
  - assert (E1 : s1 = s) by (revert El; unfold os_Symlink; destruct (symlinkErr _ _); [congruence|]; by destruct (_ || _); intros [= <-]).
    subst s1. pose proof (removed_below (faults H) script s q (Hrm script)) as Hr. rewrite Hbs in Hr.
    revert HE. unfold os_Rename. destruct (f_rename _ _); [intros [= <- _]; done|].
    destruct (Merge.files _ !! pluginPath) as [x|]; [|intros [= <- _]; done].
    destruct (decide _); intros [= <- _]; [done|]. cbn [Merge.files Merge.with_files].
    by rewrite lookup_insert_ne, lookup_delete_ne.
  - injection HE as <- <-. revert El. unfold os_Symlink. destruct (symlinkErr _ _); [done|]. destruct (_ || _); [done|].
    intros [= <-]. cbn [Merge.files Merge.with_files]. destruct (Merge.files s !! pluginPath); [|done]. by rewrite lookup_insert_ne.
Qed.

Lemma setup_moves W pluginPath script s content : symlinkErr pluginPath script <> None ->
  (forall p, f_remove (faults H) p = None) -> f_rename (faults H) pluginPath = None ->
  below W script = true -> below W pluginPath = false -> Merge.files s !! pluginPath = Some content ->
  exists s', setup_script H symlinkErr pluginPath script s = (s', None) /\ Merge.files s' !! pluginPath = None.
Proof.
  intros Hl Hrm Hrn Hs Hp Hc. unfold setup_script, os_Symlink. destruct (symlinkErr pluginPath script); [|done].
  pose proof (removed_below (faults H) script s pluginPath (Hrm script)) as Hr.
  assert (Hbs : below script pluginPath = false) by (destruct (below script _) eqn:E; [|done]; by rewrite (below_trans _ _ _ Hs E) in Hp).
  unfold os_Rename. rewrite Hrn, Hr, Hbs, Hc. rewrite decide_False.
  - eexists. split; [done|]. cbn [Merge.files Merge.with_files].
    rewrite lookup_insert_ne by (intros ->; congruence). apply lookup_delete_eq.
  - unfold os_RemoveAll. rewrite Hrm. cbn [fst Merge.dirs Merge.with_files Merge.with_dirs]. intros [Hb _]%elem_of_filter.
    unfold below in Hb. by rewrite String.eqb_refl in Hb.
Qed.

Lemma setup_links pluginPath script s : symlinkErr pluginPath script = None ->
  Merge.files s !! script = None -> script ∉ Merge.dirs s -> pluginPath <> script ->
  exists s', setup_script H symlinkErr pluginPath script s = (s', None) /\ Merge.files s' !! pluginPath = Merge.files s !! pluginPath.
Proof.
  intros Hl Hf Hd Hne. unfold setup_script, os_Symlink. rewrite Hl, Hf, !bool_decide_eq_false_2; [|done|by intros [? ?]].
  eexists. split; [done|]. cbn [Merge.files Merge.with_files]. destruct (Merge.files s !! pluginPath) eqn:E; [|done].
  by rewrite lookup_insert_ne.
Qed.

(** A run in a working directory leaves nothing in it and no other file changed,
    except for the plugin: where it cannot be linked into the directory it is
    moved there, so it is deleted with the directory when its first run is over,
    and the next run does not find it. *)
Theorem moved_plugin_is_lost pluginPath payload m st st1 env content st' runs r :
  let script := Join [WorkDir env; entrypoint m] in
  check_gpu GPUModel free no_decimals m = None ->
  Prepare chosen (job_id started m) (sandbox_manifest m) (Network m) st = (st1, Ok env) ->
  (forall p, f_remove (faults H) p = None) -> f_rename (faults H) pluginPath = None ->
  clean_workdir env -> plain_name (entrypoint m) -> below (WorkDir env) pluginPath = false ->
  Merge.files (disk st) !! pluginPath = Some content ->
  run pluginPath payload m st = (st', runs, r) ->
  (forall path, path <> pluginPath -> Merge.files (disk st') !! path =
     if below (WorkDir env) path then None else Merge.files (disk st) !! path) /\
  (symlinkErr pluginPath script = None -> Merge.files (disk st) !! script = None -> script ∉ Merge.dirs (disk st1) ->
     is_Some r.1 /\ Merge.files (disk st') !! pluginPath = Some content) /\
  (symlinkErr pluginPath script <> None -> is_Some r.1 /\ Merge.files (disk st') !! pluginPath = None).
Proof.
  intros script Hg Hp Hrm Hrn Hw Hentry Hpl Hc [Hr _]%run_ran.
  assert (Hs : below (WorkDir env) script = true).
  { destruct Hw as (l & Hl & Hne & E). unfold script. rewrite E, Join_abs by done. by apply below_abs. }
  pose proof (New_sandboxed H (LoadConfig H sysctl) sys _) as Hsb.
  destruct (prepare_law _ _ _ _ _ _ Hp) as (_ & Hf1 & _).
  assert (Hend : exists s e, setup_script H symlinkErr pluginPath script (disk st1) = (s, e) /\ (e = None -> is_Some r.1) /\
    forall q, Merge.files (disk st') !! q = if below (WorkDir env) q then None else Merge.files s !! q).
  { inversion Hr as [e Eg|? e Eg Ep|st1' env' s e Eg Ep Es|st1' env' s st2 err Eg Ep Es Ex]; subst; [congruence|congruence|..];
      rewrite Hp in Ep; injection Ep as <- <-.
    - exists s, (Some e). split_and!; [done|done|]. intros q. destruct (destroy_law env (with_disk s st1)) as [_ ->].
      by apply removed_below.
    - exists s, None. split_and!; [done|by eexists|]. intros q. destruct (destroy_law env st2) as [_ ->].
      apply execute_law in Ex as [Hd _]. cbn [with_disk disk] in Hd. rewrite removed_below by done.
      destruct (below (WorkDir env) q) eqn:Hb; [done|by apply Hd]. }
  destruct Hend as (s & e & Es & He & Hq). rewrite <- Hf1 in Hc |- *. split_and!.
  - intros path Hne. rewrite Hq. destruct (below (WorkDir env) path) eqn:Hb; [done|]. by apply (setup_keeps (WorkDir env) _ _ _ _ _ _ Es).
  - intros Hl Hfr Hd. assert (Hne : pluginPath <> script) by (intros ->; congruence).
    destruct (setup_links pluginPath script (disk st1) Hl Hfr Hd Hne) as (s' & E' & Hk). rewrite Es in E'. injection E' as -> ->.
    split; [by apply He|]. by rewrite Hq, Hpl, Hk.
  - intros Hl. destruct (setup_moves _ _ _ _ _ Hl Hrm Hrn Hs Hpl Hc) as (s' & E' & Hk). rewrite Es in E'. injection E' as -> ->.
    split; [by apply He|]. by rewrite Hq, Hpl.
Qed.
End facts.

(** ** On Linux *)

(** The command that a run executes in the end. *)
Definition plugin_program (H : host) (m : PluginVerify.Manifest) (env : SandboxEnv) (path : string) (argv : list string) : Prop :=
  let script := Join [WorkDir env; entrypoint m] in
  let runner := getRunnerForLanguage (Language m) in
  let cpu := PluginVerify.CPUSeconds (PluginVerify.Resources m) in
  exists lp, LookPath H runner = Ok lp /\ let found := if lp =?s "" then runner else lp in
    (cpu <= 0 /\ path = found /\ argv = [found; script] \/
     0 < cpu /\ path = "/bin/sh" /\ exists program, (program = runner \/ program = resolveExecutablePath H found) /\
       argv = "/bin/sh" :: "-c" :: shell_text [cpu_limit cpu] :: ["--"; program; script]).

Section linux_runs.
Context (H : host) (sysctl : option Z) (P : pip) (GPUModel : string) (free : float64) (no_decimals : float64 -> string).
Context (symlinkErr : string -> string -> error) (stdio : Cmd -> string * string) (started ended other : Z).
Abbreviation cfg := (LoadConfig H sysctl).
Abbreviation run := (RunSandboxedPlugin H sysctl (linuxSandbox H) P GPUModel free no_decimals symlinkErr stdio started ended other).

Lemma New_linux : Mode cfg <> "off" -> Mode cfg <> "deny" -> New H cfg (linuxSandbox H) = linuxSandbox H cfg.
Proof. unfold New. intros ? ?. by rewrite !eqb_neq_s. Qed.

Lemma run_events pluginPath payload m st st' runs r : Mode cfg <> "off" -> Mode cfg <> "deny" ->
  run pluginPath payload m st = (st', runs, r) ->
  events st' = events st \/
  exists env lim st1 st2, linux_Execute H cfg env (plugin_command H lim m payload env) st1 = (st2, r.2) /\
    events st1 = events st /\ events st' = events st2 /\ cgroups st1 = cgroups st /\
    env_Config env = cfg /\ Manifest env = sandbox_manifest m /\ env_Network env = Network m.
Proof.
  intros Hm1 Hm2 [Hr _]%run_ran.
  inversion Hr as [e Eg|st1 e Eg Ep|st1 env s e Eg Ep Es|st1 env s st2 err Eg Ep Es Ex]; subst;
    try rewrite (New_linux Hm1 Hm2) in *.
  - by left.
  - apply prepare_law in Ep as (-> & _). by left.
  - apply prepare_law in Ep as (He & _). destruct (@destroy_law H (linuxSandbox H cfg) _ env (with_disk s st1)) as [-> _]. by left.
  - right. exists env, (time_left P other m (EnsurePluginDependencies P m).1), (with_disk s st1), st2. destruct (@destroy_law H (linuxSandbox H cfg) _ env st2) as [-> _]. cbn [snd with_disk events cgroups].
    pose proof (prepare_law _ _ _ _ _ _ Ep) as (He & _ & Henv). destruct (Henv _ eq_refl) as [Hmf Hnet].
    cbn [linuxSandbox Prepare linux_Prepare] in Ep. unfold linux_Prepare, os_MkdirAll in Ep.
    destruct (f_mkdir _ _); [done|]. injection Ep as <- <-. split_and!; done.
Qed.

Lemma runner_nonempty l : getRunnerForLanguage l <> "".
Proof. unfold getRunnerForLanguage. repeat (match goal with |- context [if ?b then _ else _] => destruct b end; [done|]). done. Qed.

(** The command of a plugin, whatever its time. *)
Lemma plugin_command_is lim m payload env (c := plugin_command H lim m payload env) :
  c_Path c <> "" /\ c_Env c = None /\ c_Attr c = None /\
  c_Args c = [getRunnerForLanguage (Language m); Join [WorkDir env; entrypoint m]] /\
  (c_Err c = None -> exists lp, LookPath H (getRunnerForLanguage (Language m)) = Ok lp /\
     c_Path c = if lp =?s "" then getRunnerForLanguage (Language m) else lp).
Proof.
  unfold c, plugin_command, exec_Command. pose proof (runner_nonempty (Language m)). destruct (LookPath H _) as [lp|e].
  - cbn [c_Path c_Env c_Args c_Err]. split_and!; [by destruct (eqb_spec_s lp "")|done|done|done|by exists lp].
  - by split_and!.
Qed.


(** Without user namespaces, or with namespaces turned off, nothing of this
    holds: the interpreter is started as the agent's own child, with the
    agent's environment, whatever limits the manifest sets and although
    [SANDBOX_MODE] is not [off]. *)
Theorem unrestricted_without_namespaces pluginPath payload m st st' runs r :
  Mode cfg <> "off" -> Mode cfg <> "deny" -> LinuxNamespaces cfg = false \/ user_ns H = false ->
  run pluginPath payload m st = (st', runs, r) ->
  events st' = events st \/
  exists env lim c pid, events st' = events st ++ [Started c pid; Waited pid] /\ c = plugin_command H lim m payload env /\
    c_Attr c = None /\ c_Env c = None /\ c_Args c = [getRunnerForLanguage (Language m); Join [WorkDir env; entrypoint m]] /\
    linux_Execute H cfg env c st = cmd_Run H c st.
Proof.
  intros Hm1 Hm2 Hns HR. apply run_events in HR as [|(env & lim & st1 & st2 & HE & H1 & H2 & _)]; [by left| |done..].
  assert (Hrun : forall c s, linux_Execute H cfg env c s = cmd_Run H c s).
  { intros c s. unfold linux_Execute. destruct Hns as [-> | Hu]; [done|]. destruct (LinuxNamespaces cfg); [by rewrite Hu|done]. }
  rewrite Hrun in HE. apply cmd_Run_once in HE as [_ [[]|(pid & Hev & _)]]; [left; congruence|right].
  destruct (plugin_command_is lim m payload env) as (_ & ? & ? & ? & _).
  exists env, lim, (plugin_command H lim m payload env), pid. rewrite Hrun. split; [congruence|]. by split_and!.
Qed.
End linux_runs.

(** ** Examples *)

Definition demo_plugin (cpu : Z) : PluginVerify.Manifest :=
  mkManifest "resize" "1" "main.py" "" "" "script" "python" "" true false
    (PluginVerify.mkResources 256 cpu (f64_of_Z 0) 60 false 0) "" "" false [mkDep "numpy" ">=1.26" ""].
Definition demo_pip : pip := mkPip (fun _ => false) (fun n _ => if Nat.eqb n 0 then Some "exit status 1" else None) (fun _ => false)
  (fun runs => Z.of_nat (length runs) * (10 * Second)).
Definition demo_disk : state :=
  mkState (mkFS {["/home/u/.sentra/plugins/main.py" := "print(1)"]} ∅ ∅ ∅) ∅ [] 0 [].
Definition run_after (other : Z) (H : host) (link : error) (cpu : Z) : state * list (list string) * (option SandboxResult * option run_error) :=
  RunSandboxedPlugin H None (linuxSandbox H) demo_pip "" (f64_of_Z 0) (fun _ => "") (fun _ _ => link) (fun _ => ("", "warn")) 1000 3001000 other
    "/home/u/.sentra/plugins/main.py" (Some [("n", JNum "1")]) (demo_plugin cpu) demo_disk.
Definition run_demo := run_after Second.
Definition no_namespaces : host :=
  mkHost no_disk_faults ∅ "linux" "amd64" None true false None 1000 1000 1000
    (fun _ => None) (fun _ _ => None) (fun _ => None) (Ok "/opt/sentra/agent") (fun _ => Ok "/usr/bin/python3") (fun _ => false)
    (fun _ => Ok 42) (fun _ => None) 1700000000.

Example run_demo_result : (run_demo demo_host None 5).2 = (Some (mkSandboxResult "warn" 0 3 "native_sandbox"), None) /\
  (run_demo demo_host None 5).1.2 = [["-m"; "pip"; "install"; "--no-cache-dir"; "numpy>=1.26"]; ["-m"; "pip"; "install"; "--no-cache-dir"; "numpy>=1.26"]].
Proof. split; vm_compute; reflexivity. Qed.

Lemma parts {A B C D} (x : A * B * (C * D)) : x = (x.1.1, x.1.2, (x.2.1, x.2.2)).
Proof. by destruct x as [[??] [??]]. Qed.

(** Of the sixty seconds of the plugin pip takes twenty; when fifty more are spent
    before the start, it does not start. *)
Lemma plugin_run_correct_witness :
  (exists o c pid, (run_demo demo_host None 5).2.1 = Some o /\ events (run_demo demo_host None 5).1.1 = [Started c pid; Waited pid] /\
     c_Timeout c = 39 * Second) /\
  (exists o, (run_after (50 * Second) demo_host None 5).2.1 = Some o /\ sb_ExitCode o = -1 /\
     events (run_after (50 * Second) demo_host None 5).1.1 = []).
Proof.
  split.
  - destruct (plugin_run_correct _ _ _ _ _ _ _ _ _ _ _ _ _ _ _ _ _ _ _ _ (parts (run_demo demo_host None 5))) as [_ Hr].
    assert (E : is_Some (run_demo demo_host None 5).2.1) by (vm_compute; by eexists). destruct E as [o E]. rewrite E in Hr.
    destruct Hr as (_ & _ & _ & [(Hno & _)|(_ & c & pid & env & Hev & _ & _ & Ht & _)]).
    + assert (Hev : events (run_demo demo_host None 5).1.1 <> []) by (vm_compute; discriminate). destruct (Hev Hno).
    + exists o, c, pid. split; [exact E|]. split; [exact Hev|]. rewrite Ht. vm_compute. reflexivity.
  - destruct (plugin_run_correct _ _ _ _ _ _ _ _ _ _ _ _ _ _ _ _ _ _ _ _ (parts (run_after (50 * Second) demo_host None 5))) as [_ Hr].
    assert (E : is_Some (run_after (50 * Second) demo_host None 5).2.1) by (vm_compute; by eexists). destruct E as [o E]. rewrite E in Hr.
    destruct Hr as (_ & _ & _ & [(Hno & Hc & _)|(Hleft & _)]).
    + exists o. split; [exact E|]. split; [exact Hc|exact Hno].
    + vm_compute in Hleft. discriminate Hleft.
Defined.

Definition demo_prepared : state * result SandboxEnv :=
  linux_Prepare demo_host (LoadConfig demo_host None) "resize-1000" (sandbox_manifest (demo_plugin 5)) false demo_disk.
Definition demo_run_env : SandboxEnv :=
  mkEnv "/tmp/sentrazero/resize-1000" (LoadConfig demo_host None) (sandbox_manifest (demo_plugin 5)) false "linux".

Lemma moved_plugin_is_lost_witness :
  Merge.files (disk (run_demo demo_host (Some "operation not permitted") 5).1.1) !! "/home/u/.sentra/plugins/main.py" = None.
Proof.
  assert (Hw : clean_workdir demo_run_env).
  { exists ["tmp"; "sentrazero"; "resize-1000"]. split; [repeat constructor; discriminate|]. split; [discriminate|reflexivity]. }
  assert (Hp : demo_prepared = (demo_prepared.1, Ok demo_run_env)) by (vm_compute; reflexivity).
  destruct (moved_plugin_is_lost demo_host None (linuxSandbox demo_host) demo_pip "" (f64_of_Z 0) (fun _ => "")
    (fun _ _ => Some "operation not permitted") (fun _ => ("", "warn")) 1000 3001000 Second
    "/home/u/.sentra/plugins/main.py" (Some [("n", JNum "1")]) (demo_plugin 5) demo_disk demo_prepared.1 demo_run_env "print(1)" _ _ _
    eq_refl Hp (fun _ => eq_refl) eq_refl Hw ltac:(repeat split; discriminate) ltac:(vm_compute; reflexivity) ltac:(vm_compute; reflexivity)
    (parts (run_demo demo_host (Some "operation not permitted") 5))) as (_ & _ & Hm).
  apply Hm. discriminate.
Defined.

(** With the filter, and where no architecture has one. *)
Definition plain_arch : host :=
  mkHost no_disk_faults ∅ "linux" "riscv64" None true true (Some "kill errno allow") 1000 1000 1000
    (fun _ => None) (fun _ _ => None) (fun _ => None) (Ok "/opt/sentra/agent") (fun _ => Ok "/usr/bin/python3") (fun _ => false)
    (fun _ => Ok 42) (fun _ => None) 1700000000.


Lemma unrestricted_without_namespaces_witness : exists env c pid,
  events (run_demo no_namespaces None 5).1.1 = [Started c pid; Waited pid] /\ c_Attr c = None /\
  c_Args c = ["python3"; Join [WorkDir env; "main.py"]].
Proof.
  destruct (unrestricted_without_namespaces no_namespaces None _ _ _ _ _ _ _ _ _ _ _ _ _ _ _ _ ltac:(vm_compute; discriminate)
    ltac:(vm_compute; discriminate) (or_intror eq_refl) (parts (run_demo no_namespaces None 5)))
    as [Hno|(env & lim & c & pid & Hev & _ & Ha & _ & Hargs & _)].
  - assert (Hev : events (run_demo no_namespaces None 5).1.1 <> []) by (vm_compute; discriminate). destruct (Hev Hno).
  - exists env, c, pid. split; [exact Hev|]. split; [exact Ha|exact Hargs].
Defined.
