(* ===== verification/Observe.v ===== *)
(** * Observe: logs, traces and the state of health

    Models [internal/obs] (the records of the log and the masking of their
    fields, spans, the classification of failures) and the answers of
    [internal/healthcheck/server.go].  Times and fresh trace ids are arguments. *)
From S2P Require Import Prelude GoFloat Json Path Merge Storage Handler PluginVerify PluginExecute Sandbox PluginRun.
From Stdlib Require Import Ascii.

(** ** Logs *)

(** A value of a field: a string, or any other with its JSON, if it has one. *)
Inductive field_value := FStr (s : string) | FAny (j : option json).

Definition sanitizeValue (value : string) : string :=
  if (String.length value <=? 8)%nat then "***REDACTED***"
  else str_take 4 value +:+ "***" +:+ str_drop (String.length value - 4) value.

Definition sensitivePatterns : list string := ["token"; "password"; "secret"; "key"; "auth"; "credential"].
Definition sensitive (key : string) : bool := existsb (strings_Contains (strings_ToLower key)) sensitivePatterns.

Definition sanitizeField (key value : string) : string := if sensitive key then sanitizeValue value else value.

(** A text is masked by its key, any other value is taken as it is. *)
Definition sanitized (k : string) (v : field_value) : field_value := match v with FStr s => FStr (sanitizeField k s) | FAny j => FAny j end.

(** The record of a line; a field of the same name replaces the time, the level
    or the message. *)
Definition log_record (ts level msg : string) (fields : gmap string field_value) : gmap string field_value :=
  map_imap (fun k v => Some (sanitized k v)) fields
  ∪ {["ts" := FStr ts; "level" := FStr level; "msg" := FStr msg]}.

(** The line that is written: the record, or that it does not marshal. *)
Inductive log_line := Line (record : gmap string json) | MarshalFailed.

Definition field_json (v : field_value) : option json := match v with FStr s => Some (JStr s) | FAny j => j end.

Definition log (ts level msg : string) (fields : gmap string field_value) : log_line :=
  let record := log_record ts level msg fields in
  if bool_decide (map_Forall (fun _ v => is_Some (field_json v)) record) then Line (omap field_json record) else MarshalFailed.

(** [Debug] logs only at the level [debug]. *)
Definition Debug (LOG_LEVEL ts msg : string) (fields : gmap string field_value) : option log_line :=
  if LOG_LEVEL =?s "debug" then Some (log ts "debug" msg fields) else None.

(** ** Traces *)

(** The values of a context that the package keeps. *)
Record LogContext := mkLogContext { lc_TraceID : string; lc_JobID : string; lc_EnvKey : string; lc_SpanType : string; lc_OrgID : string }.
Definition zeroLogContext : LogContext := mkLogContext "" "" "" "" "".

Record Span := mkSpan {
  sp_Name : string; sp_Type : string; sp_StartTime : Z; sp_Attrs : option (gmap string field_value); sp_TraceID : string; sp_ParentID : string }.

Record context := mkContext { c_trace : option string; c_execution : option string; c_log : option LogContext; c_span : option Span }.

Definition WithTrace (traceID : string) (c : context) : context := mkContext (Some traceID) (c_execution c) (c_log c) (c_span c).
Definition TraceID (c : context) : string := default "" (c_trace c).
Definition WithExecutionID (id : string) (c : context) : context := mkContext (c_trace c) (Some id) (c_log c) (c_span c).
Definition ExecutionID (c : context) : string := default "" (c_execution c).
Definition WithLogContext (lc : LogContext) (c : context) : context := mkContext (c_trace c) (c_execution c) (Some lc) (c_span c).
Definition GetLogContext (c : context) : LogContext := default zeroLogContext (c_log c).
Definition WithSpanContext (s : Span) (c : context) : context := mkContext (c_trace c) (c_execution c) (c_log c) (Some s).
Definition GetSpanContext (c : context) : option Span := c_span c.

Definition WithOrgID (id : string) (lc : LogContext) : LogContext := mkLogContext (lc_TraceID lc) (lc_JobID lc) (lc_EnvKey lc) (lc_SpanType lc) id.
Definition WithJobID (id : string) (lc : LogContext) : LogContext := mkLogContext (lc_TraceID lc) id (lc_EnvKey lc) (lc_SpanType lc) (lc_OrgID lc).
Definition WithTraceID (id : string) (lc : LogContext) : LogContext := mkLogContext id (lc_JobID lc) (lc_EnvKey lc) (lc_SpanType lc) (lc_OrgID lc).
Definition WithEnvKey (k : string) (lc : LogContext) : LogContext := mkLogContext (lc_TraceID lc) (lc_JobID lc) k (lc_SpanType lc) (lc_OrgID lc).
Definition WithSpanType (t : string) (lc : LogContext) : LogContext := mkLogContext (lc_TraceID lc) (lc_JobID lc) (lc_EnvKey lc) t (lc_OrgID lc).

(** The caller's map gets the fields of the context; a nil map panics when there
    is one to set. *)
Definition context_fields (lc : LogContext) : list (string * string) :=
  List.filter (fun kv => negb (kv.2 =?s ""))
    [("trace_id", lc_TraceID lc); ("job_id", lc_JobID lc); ("env_key", lc_EnvKey lc); ("span_type", lc_SpanType lc); ("org_id", lc_OrgID lc)].

Definition LogWithContext (ts level msg : string) (lc : LogContext) (fields : option (gmap string field_value)) :
    option (gmap string field_value * log_line) :=
  match fields, context_fields lc with
  | None, _ :: _ => None
  | fields, set =>
      let fields := foldl (fun m kv => <[kv.1 := FStr kv.2]> m) (default ∅ fields) set in
      let level := if (level =?s "warn") || (level =?s "error") then level else "info" in
      Some (fields, log ts level msg fields)
  end.

(** The lines that a call writes come with its result; [fresh] is a new trace
    id, [ts] the time of the log. *)
Definition StartSpan (enableTracing : bool) (fresh ts : string) (now : Z) (name spanType : string)
    (attrs : option (gmap string field_value)) (c : context) : context * Span * list log_line :=
  let traceID := if TraceID c =?s "" then fresh else TraceID c in
  let c := if TraceID c =?s "" then WithTrace fresh c else c in
  (c, mkSpan name spanType now attrs traceID "",
   if enableTracing then [log ts "info" "span_start" {["trace_id" := FStr traceID; "name" := FStr name; "type" := FStr spanType]}] else []).

(** The end of a span; [None] is the panic of writing into a nil map. *)
Definition End (enableTracing : bool) (ts : string) (now : Z) (err : error) (s : Span) : option (Span * list log_line) :=
  if negb enableTracing then Some (s, [])
  else
    let result := match err with Some _ => "error" | None => "success" end in
    let line := log ts "info" "span_end"
      {["trace_id" := FStr (sp_TraceID s); "name" := FStr (sp_Name s); "type" := FStr (sp_Type s);
        "duration_ms" := FAny (Some (JNum (itoa (Z.quot (now - sp_StartTime s) 1000000)))); "result" := FStr result]} in
    match err, sp_Attrs s with
    | None, _ => Some (s, [line])
    | Some _, None => None
    | Some e, Some m => Some (mkSpan (sp_Name s) (sp_Type s) (sp_StartTime s) (Some (<["error" := FStr e]> m)) (sp_TraceID s) (sp_ParentID s), [line])
    end.

Definition SetAttr (key : string) (value : field_value) (s : Span) : Span :=
  mkSpan (sp_Name s) (sp_Type s) (sp_StartTime s) (Some (<[key := value]> (default ∅ (sp_Attrs s)))) (sp_TraceID s) (sp_ParentID s).

Definition RecordError (err : error) (s : Span) : Span := match err with Some e => SetAttr "error" (FStr e) s | None => s end.

(** Every exporter gets the span; errors are logged. *)
Definition ExportSpan (ts : string) (exporters : list (Span -> error)) (s : Span) : list log_line :=
  omap (fun e => match e s with
                 | Some err => Some (log ts "error" "trace_export_failed" {["error" := FStr err; "name" := FStr (sp_Name s)]})
                 | None => None
                 end) exporters.

(** *** The class of a failure *)

Inductive FailureType := FailureTypeInfra | FailureTypeDependency | FailureTypeUserCode | FailureTypeTimeout | FailureTypeMemory | FailureTypeUnknown.

Definition at_index (s substr : string) (i : nat) : bool := str_take (String.length substr) (str_drop i s) =?s substr.

Definition containsAny (s substr : string) : bool :=
  (String.length substr <=? String.length s)%nat &&
  existsb (at_index s substr) (seq 0 (S (String.length s - String.length substr))).

Definition contains (s substr : string) : bool :=
  (String.length substr <=? String.length s)%nat
  && (at_index s substr 0 || ((String.length substr <? String.length s)%nat && containsAny s substr)).

(** The text is not made lower case, although the variable says so. *)
Definition ClassifyFailure (errMsg : string) : FailureType :=
  let any := existsb (contains errMsg) in
  if any ["connection refused"; "timeout"; "network"] then FailureTypeInfra
  else if any ["no module named"; "cannot find module"; "dependency"; "install failed"] then FailureTypeDependency
  else if any ["syntax"; "indentation"; "nameerror"; "typeerror"] then FailureTypeUserCode
  else if any ["memory"; "oom"] then FailureTypeMemory
  else FailureTypeUnknown.

Example classify_ex :
  map ClassifyFailure ["ModuleNotFoundError: No module named 'x'"; "no module named x"; "SyntaxError"; "MemoryError"; "job timeout"; "room is full"] =
  [FailureTypeUnknown; FailureTypeDependency; FailureTypeUnknown; FailureTypeUnknown; FailureTypeInfra; FailureTypeMemory].
Proof. reflexivity. Qed.

(** ** The server of the health checks *)

Record health_server := mkHealth { hs_ready : bool; hs_deviceID : string }.
Definition newHealth : health_server := mkHealth false "".
Definition SetDeviceID (id : string) (s : health_server) : health_server := mkHealth (hs_ready s) id.
Definition SetReady (ready : bool) (s : health_server) : health_server := mkHealth ready (hs_deviceID s).

(** The status and the body of an answer. *)
Definition handleHealth (timestamp uptime : string) (_ : health_server) : Z * json :=
  (200, JObj [("status", JStr "healthy"); ("timestamp", JStr timestamp); ("uptime", JStr uptime)]).
Definition handleReady (s : health_server) : Z * json :=
  if hs_ready s && negb (hs_deviceID s =?s "")
  then (200, JObj [("status", JStr "ready"); ("device_id", JStr (hs_deviceID s))])
  else (503, JObj [("status", JStr "not_ready")]).
Definition handleLiveness (_ : health_server) : Z * string := (200, "OK").

(** ** Properties *)

(** The agent is ready once it has said so and knows its device; it is healthy
    and alive as long as it answers. *)
Lemma ready_answer s : (handleReady s).1 = 200 <-> hs_ready s = true /\ hs_deviceID s <> "".
Proof.
  unfold handleReady. destruct (hs_ready s); cbn [andb]; [|split; [done|by intros [? _]]].
  destruct (eqb_spec_s (hs_deviceID s) "") as [->|N]; cbn; split; try done; by intros [_ ?].
Qed.

(** *** The search of a text *)

Lemma prefix_take p s : String.prefix p s = (str_take (String.length p) s =?s p).
Proof.
  revert s. induction p as [|c p IH]; intros [|d s]; cbn; try done.
  rewrite IH. destruct (ascii_dec c d) as [->|N]; cbn.
  - by rewrite Ascii.eqb_refl.
  - by destruct (Ascii.eqb_spec d c).
Qed.

Lemma prefix_at p s : String.prefix p s = at_index s p 0.
Proof. apply prefix_take. Qed.

Lemma Contains_length s p : strings_Contains s p = true -> (String.length p <= String.length s)%nat.
Proof.
  assert (Hp : forall s, String.prefix p s = true -> (String.length p <= String.length s)%nat).
  { clear s. induction p as [|c p IH]; intros [|d s]; cbn; try lia; try done. destruct (ascii_dec c d); [|done]. intros H%IH. lia. }
  induction s as [|c s IH]; cbn [strings_Contains].
  - destruct (String.prefix p "") eqn:E; [by intros; apply Hp|done].
  - destruct (String.prefix p (String c s)) eqn:E; [by intros; apply Hp|]. intros H%IH. cbn. lia.
Qed.

Lemma positions_step c s p n : existsb (at_index (String c s) p) (seq 1 n) = existsb (at_index s p) (seq 0 n).
Proof. rewrite <- seq_shift. induction (seq 0 n) as [|i l IH]; [done|]. cbn [map existsb]. by rewrite IH. Qed.

Lemma containsAny_Contains s p : containsAny s p = strings_Contains s p.
Proof.
  unfold containsAny. destruct (Nat.leb_spec (String.length p) (String.length s)) as [L|L]; cbn [andb].
  2:{ destruct (strings_Contains s p) eqn:E; [|done]. apply Contains_length in E. lia. }
  induction s as [|c s IH].
  - destruct p; [done|cbn in L; lia].
  - cbn [strings_Contains]. rewrite prefix_at. cbn [seq existsb]. destruct (at_index _ _ 0) eqn:E0; [done|]. cbn [orb].
    cbn [String.length]. rewrite positions_step. destruct (decide (String.length p = S (String.length s))) as [Ep|].
    + rewrite Ep, Nat.sub_diag. cbn. destruct (strings_Contains s p) eqn:E; [|done]. apply Contains_length in E. lia.
    + cbn in L. rewrite Nat.sub_succ_l by lia. apply IH. lia.
Qed.

(** The search of the failure classes is that of the standard library. *)
Lemma contains_Contains s p : contains s p = strings_Contains s p.
Proof.
  unfold contains. rewrite containsAny_Contains, <- prefix_at.
  destruct (strings_Contains s p) eqn:E.
  - pose proof (Contains_length s p E). destruct (Nat.leb_spec (String.length p) (String.length s)); [|lia]. cbn [andb].
    destruct (Nat.ltb_spec (String.length p) (String.length s)); cbn [andb]; [apply orb_true_r|].
    rewrite orb_false_r. destruct s as [|c s]; cbn [strings_Contains] in E; destruct (String.prefix _ _); try done.
    apply Contains_length in E. cbn in *. lia.
  - rewrite andb_false_r, orb_false_r. destruct s; cbn [strings_Contains] in E; destruct (String.prefix _ _); try done; apply andb_false_r.
Qed.

(** *** What the log shows of a secret *)

(** Two values that a record cannot tell apart under a key. *)
Inductive masked_alike (key : string) : field_value -> field_value -> Prop :=
  | alike_same v : masked_alike key v v
  | alike_short s t : sensitive key = true -> (String.length s <= 8)%nat -> (String.length t <= 8)%nat -> masked_alike key (FStr s) (FStr t)
  | alike_long s t : sensitive key = true -> (8 < String.length s)%nat -> (8 < String.length t)%nat -> str_take 4 s = str_take 4 t ->
      str_drop (String.length s - 4) s = str_drop (String.length t - 4) t -> masked_alike key (FStr s) (FStr t).

Lemma masked_alike_sanitized k v w : masked_alike k v w -> sanitized k v = sanitized k w.
Proof.
  intros [v'|s t Hk Hs Ht|s t Hk Hs Ht E1 E2]; [done| |]; cbn; unfold sanitizeField, sanitizeValue; rewrite Hk.
  - apply Nat.leb_le in Hs as ->. apply Nat.leb_le in Ht as ->. done.
  - apply Nat.leb_gt in Hs as ->. apply Nat.leb_gt in Ht as ->. by rewrite E1, E2.
Qed.

(** C38.  A line of the log shows of a text under a sensitive key only whether it has
    more than eight bytes, and then its first and last four: fields that differ
    in nothing else are written as the same line.  A value that is not a text,
    such as a map that holds the secret, is written as it is. *)
Theorem sensitive_fields_masked ts level msg f g :
  (forall k, option_Forall2 (masked_alike k) (f !! k) (g !! k)) ->
  log ts level msg f = log ts level msg g /\
  (forall k j r, f !! k = Some (FAny (Some j)) -> log ts level msg f = Line r -> r !! k = Some j).
Proof.
  intros Hfg. split.
  - assert (E : log_record ts level msg f = log_record ts level msg g).
    { unfold log_record. f_equal. apply map_eq. intros k. rewrite !map_lookup_imap. specialize (Hfg k).
      destruct Hfg as [v w H%masked_alike_sanitized|]; [|done]. cbn. f_equal. exact H. }
    unfold log. by rewrite E.
  - intros k j r Hk. unfold log. case_bool_decide; [|done]. intros [= <-]. rewrite lookup_omap. unfold log_record.
    erewrite (lookup_union_Some_l _ _ k); [|by rewrite map_lookup_imap, Hk]. done.
Qed.

Lemma sensitive_fields_masked_witness :
  let f := <["api_key" := FStr "sk-a-long-secret-9876"]> {["device" := FStr "d1"]} in
  let g := <["api_key" := FStr "sk-another-one-9876"]> {["device" := FStr "d1"]} in
  log "t" "info" "claimed" f = log "t" "info" "claimed" g /\ log "t" "info" "claimed" f =
    Line (list_to_map [("ts", JStr "t"); ("level", JStr "info"); ("msg", JStr "claimed"); ("device", JStr "d1"); ("api_key", JStr "sk-a***9876")]).
Proof.
  cbv zeta. split; [|vm_compute; reflexivity].
  apply (sensitive_fields_masked "t" "info" "claimed"). intros k.
  destruct (decide (k = "api_key")) as [->|N].
  - rewrite !lookup_insert_eq. constructor. apply alike_long; vm_compute; try reflexivity; lia.
  - rewrite !lookup_insert_ne by done. destruct ({["device" := FStr "d1"]} !! k); constructor. constructor.
Defined.
