(* ===== verification/ChooseMode.v ===== *)
(** * ChooseMode: the choice of an embedding model

    Models [internal/dispatcher/choose_mode.go] and the fields of
    [models.Job] and [models.DeviceMetrics] that it reads. *)
From S2P Require Import Prelude GoFloat.

Record Job := mkJob { RequiresModel : bool; ComplexityScore : float64; DataSizeMB : float64 }.
Record DeviceMetrics := mkMetrics { CPUFree : float64; MemoryFreeGB : float64; GPUAvailable : bool }.

Inductive ExecutionMode := ModeSmall | ModeFast | ModeGGUF | ModeONNX.
Definition DefaultMode : ExecutionMode := ModeFast.

(** [a >= b], false for a value that is not a number. *)
Definition at_least (a b : float64) : bool := f64_le b a.

Definition ChooseExecutionMode (job : Job) (device : DeviceMetrics) : ExecutionMode :=
  if negb (RequiresModel job) then ModeSmall
  else if GPUAvailable device then ModeONNX
  else if at_least (CPUFree device) (f64_ratio 3 4) && at_least (MemoryFreeGB device) (f64_of_Z 12) then
    if at_least (ComplexityScore job) (f64_ratio 3 5) || f64_lt (f64_of_Z 50) (DataSizeMB job) then ModeGGUF else ModeFast
  else if at_least (CPUFree device) (f64_ratio 1 2) && at_least (MemoryFreeGB device) (f64_of_Z 6) then
    if f64_lt (DataSizeMB job) (f64_of_Z 5) && f64_lt (ComplexityScore job) (f64_ratio 7 20) then ModeSmall else ModeFast
  else if f64_lt (DataSizeMB job) (f64_of_Z 1) then ModeSmall
  else DefaultMode.

(** The model on the GPU is chosen for the devices that have one, the
    quantized one only where processors and memory are free. *)
Lemma mode_needs job device :
  (ChooseExecutionMode job device = ModeONNX <-> RequiresModel job = true /\ GPUAvailable device = true) /\
  (ChooseExecutionMode job device = ModeGGUF ->
     at_least (CPUFree device) (f64_ratio 3 4) && at_least (MemoryFreeGB device) (f64_of_Z 12) = true).
Proof.
  unfold ChooseExecutionMode. destruct (RequiresModel job); cbn [negb]; [|by split; [split; [|intros [? _]]|]].
  destruct (GPUAvailable device); [by split|]. destruct (_ && at_least _ (f64_of_Z 12)).
  - split; [split; [|by intros [_ ?]]|done]. by destruct (_ || _).
  - destruct (_ && at_least _ (f64_of_Z 6)); [destruct (_ && _)|destruct (f64_lt _ _)]; (split; [split; [|intros [_ ?]]|]; done).
Qed.

(** A device without numbers takes the default, unless the job is small. *)
Example modes :
  map (fun c => ChooseExecutionMode (mkJob true c.1.1 c.1.2) (mkMetrics c.2.1 c.2.2 false))
    [(f64_ratio 3 5, f64_of_Z 1, (f64_ratio 3 4, f64_of_Z 12)); (f64_ratio 1 2, f64_of_Z 1, (f64_ratio 3 4, f64_of_Z 12));
     (f64_ratio 1 4, f64_of_Z 1, (f64_ratio 1 2, f64_of_Z 6)); (f64_ratio 1 4, f64_of_Z 0, (f64_of_Z 0, f64_of_Z 0));
     (f64_of_Z 1, f64_of_Z 99, (SpecFloat.S754_nan, SpecFloat.S754_nan))] =
  [ModeGGUF; ModeFast; ModeSmall; ModeSmall; ModeFast].
Proof. vm_compute. reflexivity. Qed.
