(* ===== verification/DependencySync.v ===== *)
(** * DependencySync: the dependencies of the plugins that are on disk

    Models the rest of [internal/plugin/init.go]: [SyncPluginDependencies],
    which installs what the manifests on disk ask for, at the start and then
    every minute, and the whole of [InitAndWait]. *)
From S2P Require Import Prelude Path PluginVerify PluginExecute Sandbox PluginRun.

Section sync.
Context (sha256 : string -> string) (ed25519_Verify : string -> string -> string -> bool).
Context (faults : PluginVerify.os_faults) (home : string).
(** What [pip] answers when the turn of an entry comes. *)
Context (pips : nat -> pip).

(** The runs of [pip] for an entry, and whether it counts as synchronized. *)
Definition sync_entry (baseDir : string) (P : pip) (e : string * string) (s : plugin_state) : list (list string) * bool :=
  let pluginDir := Join [Join [baseDir; e.1]; e.2] in
  match ReadManifest faults (manifest_path pluginDir e.1) s with
  | Ret (ManifestData m) =>
      match Dependencies m with
      | [] => ([], false)
      | _ => let '(runs, err) := EnsurePluginDependencies P m in (runs, match err with None => true | Some _ => false end)
      end
  | _ => ([], false)
  end.

Fixpoint sync_loop (baseDir : string) (i : nat) (entries : list (string * string)) (synced : Z) (s : plugin_state) : list (list string) * Z :=
  match entries with
  | [] => ([], synced)
  | e :: entries =>
      let '(runs, ok) := sync_entry baseDir (pips i) e s in
      let '(more, synced) := sync_loop baseDir (S i) entries (if ok then synced + 1 else synced) s in
      (runs ++ more, synced)
  end.

(** Errors are only logged. *)
Definition SyncPluginDependencies (s : plugin_state) : plugin_state * (list (list string) * Z) :=
  match EnsurePluginDir faults home s with
  | (s, Ret baseDir) => (s, sync_loop baseDir 0 (plugin_entries baseDir s) 0 s)
  | (s, _) => (s, ([], 0))
  end.

(** The whole of [InitAndWait]: the synchronization comes after the
    verification, and only if nothing failed. *)
Definition initialize (now : Z) (s : plugin_state) : plugin_state * comp unit * list (list string) :=
  match PluginVerify.InitAndWait sha256 ed25519_Verify faults home now s with
  | (s, Ret _) => let '(s, (runs, _)) := SyncPluginDependencies s in (s, Ret tt, runs)
  | (s, r) => (s, r, [])
  end.

(** [Init], which does not wait: what fails is logged, and the agent goes on. *)
Definition Init (now : Z) (s : plugin_state) : plugin_state * bool * list (list string) :=
  match VerifyAllCachedPlugins sha256 ed25519_Verify faults home now s with
  | (s, Ret counts) =>
      if 0 <? counts.2 then (s, true, []) else let '(s, (runs, _)) := SyncPluginDependencies s in (s, true, runs)
  | (s, Throw _) => (s, true, [])
  | (s, Panic) => (s, false, [])
  end.

(** [StartPluginDepSync]: nanoseconds; [parse_duration] is [time.ParseDuration]. *)
Definition sync_interval (parse_duration : string -> option Z) (v : string) : Z :=
  if v =?s "" then 60000000000
  else match parse_duration v with Some d => if 0 <? d then d else 60000000000 | None => 60000000000 end.
End sync.

(** ** Properties *)

Section facts.
Context (sha256 : string -> string) (ed25519_Verify : string -> string -> string -> bool).
Context (faults : PluginVerify.os_faults) (home : string).

(** *** The directory of the plugins is found again *)

Definition blocked (s : plugin_state) (p : string) : bool :=
  bool_decide (is_Some (PluginVerify.files s !! p)) || bool_decide (is_Some (PluginVerify.manifests s !! p)).

Lemma blocked_same s s' p : same_contents s s' -> blocked s' p = blocked s p.
Proof.
  intros (Hf & _ & _ & _ & Hm). unfold blocked. rewrite Hm. f_equal. apply bool_decide_ext.
  specialize (Hf p). destruct (PluginVerify.files s !! p), (PluginVerify.files s' !! p); try done; split; eauto; by intros [? ?].
Qed.

Definition add_dir (d : gmap string Z) (p : string) : gmap string Z := match d !! p with Some _ => d | None => <[p := 448]> d end.

Lemma add_dirs_known l d p : p ∈ l \/ is_Some (d !! p) -> is_Some (foldl add_dir d l !! p).
Proof.
  revert d. induction l as [|x l IH]; intros d H; cbn [foldl]; [destruct H as [H|H]; [by apply elem_of_nil in H|done]|].
  apply IH. unfold add_dir. destruct H as [H|H].
  - apply elem_of_cons in H as [->|H]; [|by left]. right. destruct (d !! x) eqn:E; [by rewrite E|by rewrite lookup_insert_eq].
  - right. destruct (d !! x) eqn:E; [done|]. destruct (decide (x = p)) as [->|]; [by rewrite lookup_insert_eq|by rewrite lookup_insert_ne].
Qed.

Lemma add_dirs_id l d : (forall p, p ∈ l -> is_Some (d !! p)) -> foldl add_dir d l = d.
Proof.
  induction l as [|x l IH]; intros H; [done|]. cbn [foldl]. unfold add_dir at 2. destruct (H x) as [v ->]; [left|].
  apply IH. intros p Hp. apply H. by right.
Qed.

(** What a directory that was made leaves for the next time. *)
Definition made (p : string) (s : plugin_state) : Prop :=
  PluginVerify.mkdirErr faults p = None /\ existsb (blocked s) (ancestors p) = false /\
  forall a, a ∈ ancestors p -> is_Some (PluginVerify.dirs s !! a).

(** A step that keeps the files and loses no directory. *)
Definition keeps (s s' : plugin_state) : Prop :=
  same_contents s s' /\ forall a, is_Some (PluginVerify.dirs s !! a) -> is_Some (PluginVerify.dirs s' !! a).

Lemma made_kept p s s' : made p s -> keeps s s' -> made p s'.
Proof.
  intros (Hm & Hb & Hd) [Hs Hk]. split; [done|]. split; [|auto].
  rewrite <- Hb. clear Hb Hd. induction (ancestors p) as [|a l IH]; [done|]. cbn [existsb]. by rewrite IH, (blocked_same s s').
Qed.

Lemma MkdirAll_made p s s' : MkdirAll faults p s = (s', None) -> made p s' /\ keeps s s'.
Proof.
  intros H. pose proof (MkdirAll_same faults p s) as Hs. rewrite H in Hs. cbn [fst] in Hs.
  assert (Hk : keeps s s').
  { split; [done|]. unfold MkdirAll in H. destruct (PluginVerify.mkdirErr faults p); [done|]. destruct (existsb _ _); [done|].
    injection H as <-. intros a Ha. apply add_dirs_known. by right. }
  split; [|done]. unfold MkdirAll in H. destruct (PluginVerify.mkdirErr faults p) eqn:E; [done|]. fold (blocked s) in H.
  destruct (existsb (blocked s) (ancestors p)) eqn:Eb; [done|]. injection H as <-. split_and!; [done|exact Eb|].
  intros a Ha. apply add_dirs_known. by left.
Qed.

Lemma MkdirAll_again p s : made p s -> MkdirAll faults p s = (s, None).
Proof.
  intros (Hm & Hb & Hd). unfold MkdirAll. rewrite Hm. fold (blocked s). rewrite Hb. fold add_dir.
  rewrite (add_dirs_id _ _ Hd). by destruct s.
Qed.

Lemma enforce_kept p s s' : enforcePermissions faults p s = (s', None) ->
  keeps s s' /\ enforcePermissions faults p s' = (s', None).
Proof.
  intros H. pose proof (enforcePermissions_spec faults p s s' H) as [Hs Hmode]. split.
  - split; [done|]. intros a Ha. unfold enforcePermissions in H. repeat case_match; simplify_eq; try done.
    unfold set_mode. repeat case_match; try done. cbn. destruct (decide (p = a)) as [->|]; [by rewrite lookup_insert_eq|by rewrite lookup_insert_ne].
  - unfold enforcePermissions. destruct (mode_of p s') as [mode|] eqn:E.
    + by rewrite (Hmode mode eq_refl).
    + unfold enforcePermissions in H. destruct (mode_of p s) as [m0|] eqn:Em.
      * destruct (Z.land m0 63 =? 0); [injection H as <-; congruence|]. destruct (PluginVerify.chmodErr faults p); [done|].
        injection H as <-. unfold set_mode, mode_of in *. repeat case_match; cbn in *; rewrite ?lookup_insert_eq in *; simplify_eq;
          try done; congruence.
      * by injection H as <-; destruct (exists_path p s).
Qed.

(** The directory of the plugins, once it is there, is found as it is. *)
Lemma EnsurePluginDir_again s s1 dir : EnsurePluginDir faults home s = (s1, Ret dir) -> EnsurePluginDir faults home s1 = (s1, Ret dir).
Proof.
  unfold EnsurePluginDir. destruct (homeErr faults); [done|]. cbv zeta.
  destruct (MkdirAll faults (Join [home; ".sentra"]) s) as [sa [e|]] eqn:E1; [done|].
  destruct (MkdirAll faults (Join [Join [home; ".sentra"]; "plugins"]) sa) as [sb [e|]] eqn:E2; [done|].
  destruct (enforcePermissions faults (Join [Join [home; ".sentra"]; "plugins"]) sb) as [sc [e|]] eqn:E3; [done|].
  intros [= <- <-]. apply MkdirAll_made in E1 as [M1 _]. apply MkdirAll_made in E2 as [M2 K2]. apply enforce_kept in E3 as [K3 E3].
  rewrite (MkdirAll_again (Join [home; ".sentra"])) by eauto using made_kept.
  rewrite (MkdirAll_again (Join [Join [home; ".sentra"]; "plugins"])) by eauto using made_kept. by rewrite E3.
Qed.

(** *** What is installed *)

(** The runs of [pip] that entry [i] of a synchronization asks for. *)
Definition asked_for (pips : nat -> pip) (baseDir : string) (s : plugin_state) (i : nat) (args : list string) : Prop :=
  exists e m, plugin_entries baseDir s !! i = Some e /\
    ReadManifest faults (manifest_path (Join [Join [baseDir; e.1]; e.2]) e.1) s = Ret (ManifestData m) /\
    args ∈ (EnsurePluginDependencies (pips i) m).1.

Lemma sync_entry_runs baseDir P e s args : args ∈ (sync_entry faults baseDir P e s).1 <->
  exists m, ReadManifest faults (manifest_path (Join [Join [baseDir; e.1]; e.2]) e.1) s = Ret (ManifestData m) /\
    args ∈ (EnsurePluginDependencies P m).1.
Proof.
  unfold sync_entry. cbv zeta. destruct (ReadManifest _ _ _) as [[m|m]|x|]; cbn [fst]; rewrite ?elem_of_nil;
    try (split; [done|by intros (? & ? & ?)]).
  destruct (Dependencies m) eqn:Ed.
  - cbn [fst]. rewrite elem_of_nil. split; [done|]. intros (m' & [= <-] & Hr). revert Hr.
    unfold EnsurePluginDependencies, missing_requirements. rewrite Ed. destruct (one_of _ _); cbn; by rewrite elem_of_nil.
  - destruct (EnsurePluginDependencies P m) as [runs err] eqn:Er. cbn [fst].
    split; [intros H; exists m; by rewrite Er|]. intros (m' & [= <-] & H). by rewrite Er in H.
Qed.

Lemma sync_loop_runs pips baseDir entries i n s args : args ∈ (sync_loop faults pips baseDir i entries n s).1 <->
  exists j e, entries !! j = Some e /\ args ∈ (sync_entry faults baseDir (pips (i + j)%nat) e s).1.
Proof.
  revert i n. induction entries as [|e entries IH]; intros i n; cbn [sync_loop].
  { rewrite elem_of_nil. split; [done|]. by intros (j & ? & ? & ?). }
  destruct (sync_entry _ _ _ e s) as [runs ok] eqn:E. specialize (IH (S i) (if ok then n + 1 else n)).
  destruct (sync_loop _ _ _ _ _ _ _) as [more n']. cbn [fst] in *. rewrite elem_of_app, IH. split.
  - intros [H|(j & e' & Hj & H)]; [exists 0%nat, e; by rewrite Nat.add_0_r, E|].
    exists (S j), e'. by rewrite <- plus_n_Sm.
  - intros ([|j] & e' & Hj & H); cbn in Hj.
    + injection Hj as <-. left. by rewrite Nat.add_0_r, E in H.
    + right. exists j, e'. by rewrite <- plus_n_Sm in H.
Qed.

Lemma sync_runs pips s s1 baseDir args : EnsurePluginDir faults home s = (s1, Ret baseDir) ->
  args ∈ (SyncPluginDependencies faults home pips s).2.1 <-> exists i, asked_for pips baseDir s1 i args.
Proof.
  intros E. unfold SyncPluginDependencies. rewrite E. cbn [snd]. rewrite sync_loop_runs. unfold asked_for.
  setoid_rewrite sync_entry_runs. cbn [Nat.add]. naive_solver.
Qed.

Lemma InitAndWait_state now s :
  (PluginVerify.InitAndWait sha256 ed25519_Verify faults home now s).1 = (EnsurePluginDir faults home s).1.
Proof.
  unfold PluginVerify.InitAndWait, VerifyAllCachedPlugins. by destruct (EnsurePluginDir faults home s) as [s1 [d|e|]].
Qed.

Lemma initialize_Ret pips now s s1 runs :
  initialize sha256 ed25519_Verify faults home pips now s = (s1, Ret tt, runs) ->
  exists baseDir, EnsurePluginDir faults home s = (s1, Ret baseDir) /\
    Forall (fun e => verify_entry sha256 ed25519_Verify faults now baseDir e.1 e.2 s1 = Ret tt) (plugin_entries baseDir s1) /\
    forall args, args ∈ runs <-> exists i, asked_for pips baseDir s1 i args.
Proof.
  intros H. unfold initialize in H.
  pose proof (proj1 (InitAndWait_Ret sha256 ed25519_Verify faults home now s)) as Hi.
  pose proof (InitAndWait_state now s) as Hs.
  destruct (PluginVerify.InitAndWait _ _ _ _ _ _) as [s2 [[]|e|]]; [|by injection H..].
  destruct (Hi eq_refl) as (baseDir & s3 & E & Hall). rewrite E in Hs. cbn [fst] in Hs. subst s3.
  pose proof (EnsurePluginDir_again _ _ _ E) as E'. pose proof (fun args => sync_runs pips s2 s2 baseDir args E') as Hr.
  unfold SyncPluginDependencies in H, Hr. rewrite E' in H, Hr. cbn [snd] in Hr.
  destruct (sync_loop _ _ _ _ _ _ _) as [rs n] eqn:El. injection H as <- <-. exists baseDir. by split_and!.
Qed.

(** C37.  The agent starts only if every plugin directory verifies, and then the
    programs of [pip] that it runs are those that the verified manifests ask
    for; if something fails nothing is installed.  The synchronizations that
    follow verify nothing: they run [pip] for any manifest that is on disk. *)
Theorem only_the_first_sync_is_verified pips now s s1 r runs :
  initialize sha256 ed25519_Verify faults home pips now s = (s1, r, runs) ->
  (r <> Ret tt -> runs = []) /\
  (r = Ret tt -> exists baseDir, EnsurePluginDir faults home s = (s1, Ret baseDir) /\
     Forall (fun e => verify_entry sha256 ed25519_Verify faults now baseDir e.1 e.2 s1 = Ret tt) (plugin_entries baseDir s1) /\
     forall args, args ∈ runs <-> exists i, asked_for pips baseDir s1 i args) /\
  (forall later pips' s' baseDir args, EnsurePluginDir faults home later = (s', Ret baseDir) ->
     args ∈ (SyncPluginDependencies faults home pips' later).2.1 <-> exists i, asked_for pips' baseDir s' i args).
Proof.
  intros H. split; [|split]; [|intros ->; by apply initialize_Ret|intros; by apply sync_runs].
  unfold initialize in H. destruct (PluginVerify.InitAndWait _ _ _ _ _ _) as [s2 [u|e|]]; [|by injection H as <- <- <-..].
  destruct (SyncPluginDependencies _ _ _ _) as [s3 [rs n]]. injection H as <- <- <-. done.
Qed.
End facts.

(** ** Witnesses *)

Definition with_deps (trusted : bool) (source : string) : PluginVerify.Manifest :=
  PluginVerify.mkManifest "echo" "1" "echo.py" "" "" "core" "python" "" trusted false PluginVerify.zeroResources "" "" false
    [mkDep "numpy" "≥ 1.26" source].

Definition deps_state (m : PluginVerify.Manifest) : plugin_state :=
  let dir := plugin_base +:+ "/echo/any-any" in
  with_manifests {[dir +:+ "/echo.json" := ManifestData m]} (MkdirAll PluginVerify.no_faults dir fresh_state).1.

Definition nothing_installed : pip := mkPip (fun _ => false) (fun _ _ => None) (fun _ => false) (fun _ => 0).
Definition sync_answer (m : PluginVerify.Manifest) : list (list string) :=
  (SyncPluginDependencies PluginVerify.no_faults "/home/u" (fun _ => nothing_installed) (deps_state m)).2.1.

(** The manifest of the second synchronization does not verify. *)
Lemma only_the_first_sync_is_verified_witness :
  let start m := initialize id toy_verify PluginVerify.no_faults "/home/u" (fun _ => nothing_installed) 0 (deps_state m) in
  (exists i, asked_for PluginVerify.no_faults (fun _ => nothing_installed) plugin_base (start (with_deps true "")).1.1 i
      ["-m"; "pip"; "install"; "--no-cache-dir"; "numpy>=1.26"]) /\
  (start (with_deps false "")).2 = [] /\
  sync_answer (with_deps false "") = [["-m"; "pip"; "install"; "--no-cache-dir"; "numpy>=1.26"]].
Proof.
  cbv zeta.
  destruct (only_the_first_sync_is_verified id toy_verify PluginVerify.no_faults "/home/u" (fun _ => nothing_installed) 0
              (deps_state (with_deps true "")) _ _ _ (eq_trans (surjective_pairing _) (f_equal2 pair (surjective_pairing _) eq_refl)))
    as (_ & H & _).
  destruct (only_the_first_sync_is_verified id toy_verify PluginVerify.no_faults "/home/u" (fun _ => nothing_installed) 0
              (deps_state (with_deps false "")) _ _ _ (eq_trans (surjective_pairing _) (f_equal2 pair (surjective_pairing _) eq_refl)))
    as (Hn & _).
  split; [|split; [apply Hn; vm_compute; discriminate|vm_compute; reflexivity]].
  destruct (H ltac:(vm_compute; reflexivity)) as (baseDir & E & _ & Hr).
  apply (f_equal snd) in E. vm_compute in E. injection E as <-.
  apply Hr. vm_compute. left.
Defined.
