(* ===== verification/JobSandbox.v ===== *)
(** * JobSandbox: the directory and the environment of a v2 execution

    Models [cmd/agent/sandbox/sandbox.go]: the directories that the v2 executor
    prepares and removes, the environment of a process, its run and what is
    read of its use of memory.  The process, [/proc] and the clock are
    parameters; the output that is copied to the agent's own streams is left
    out. *)
From S2P Require Import Prelude Json Path Merge MergeTree Storage Handler PluginVerify PluginInstall Sandbox.
From Stdlib Require Import Ascii.

(** ** Data *)

Record Config := mkConfig {
  MaxMemoryBytes : Z; MaxCPUPercent : Z; MaxFileSizeBytes : Z; MaxFiles : Z; MaxProcesses : Z; MaxFileDescriptors : Z;
  Timeout : Z; EnvironmentStrict : bool; AllowedEnvVars : list string; BlockedEnvVars : list string;
  NetworkRestricted : bool; WorkingDirectory : string; RunAsUser : string }.

Definition DefaultConfig : Config :=
  mkConfig (512 * 1024 * 1024) 80 (100 * 1024 * 1024) 100 10 50 300000000000 false ["PATH"; "HOME"; "USER"; "LANG"]
    ["SENTRA_API_KEY"; "SENTRA_SECRET"; "AWS_ACCESS_KEY_ID"] true "/tmp/sentra" "".

Record ExecutionResult := mkResult {
  ExitCode : Z; Signal : string; Duration : Z; MemoryBytes : Z; ContextSwitches : Z; StdoutPath : string; StderrPath : string;
  TimedOut : bool; Killed : bool }.
Definition zeroResult : ExecutionResult := mkResult 0 "" 0 0 0 "" "" false false.

Definition Success (er : ExecutionResult) : bool := (er.(ExitCode) =? 0) && negb er.(TimedOut) && negb er.(Killed).

Definition Classification (er : ExecutionResult) : string :=
  if er.(Killed) then "killed"
  else if er.(TimedOut) then "timeout"
  else if negb (er.(ExitCode) =? 0) then "failed"
  else "success".

(** [process] is the number of the process of the last command that started. *)
Record t := mkSandbox { config : Config; workDir : string; process : option Z }.

Definition NewSandbox (workDir : string) (config : option Config) : t := mkSandbox (default DefaultConfig config) workDir None.

(** What is started. *)
Record command := mkCommand { cmd_Path : string; cmd_Args : list string; cmd_Dir : string; cmd_Env : list string }.

(** How the run of a process ends: the context first, or the process, with its
    exit code (-1 after a signal), the error of [Wait] and its time. *)
Inductive ending := ContextDone (e : string) | Exited (code : Z) (err : error) (duration : Z).

(** ** Operations *)

Section sandbox.
Context (F : disk_faults) (Environ : list string).
(** The number of the process that is started. *)
Context (start : command -> result Z).
(** What a process writes on its two streams, and its end. *)
Context (run : Z -> string * string * ending).
(** [/proc/<pid>/status] when the process has been waited for. *)
Context (proc_status : Z -> option string).

Definition Prepare (b : t) (s : fs) : fs * error :=
  match os_MkdirAll (f_mkdir F) (workDir b) s with
  | (s, Some e) => (s, Some ("failed to create sandbox directory: " +:+ e))
  | (s, None) =>
      (fix subdirs (l : list string) (s : fs) : fs * error :=
         match l with
         | [] => (s, None)
         | d :: l =>
             match os_MkdirAll (f_mkdir F) (Join [workDir b; d]) s with
             | (s, Some e) => (s, Some ("failed to create " +:+ d +:+ " directory: " +:+ e))
             | (s, None) => subdirs l s
             end
         end) ["input"; "output"; "tmp"] s
  end.

(** A variable that is kept: it has a name that is not blocked, and that is
    allowed if any is. *)
Definition kept (b : t) (e : string) : bool :=
  match SplitN2 "=" e with
  | None => false
  | Some (key, _) =>
      if bool_decide (key ∈ BlockedEnvVars (config b)) then false
      else match AllowedEnvVars (config b) with
           | [] => true
           | allowed => bool_decide (key ∈ allowed)
           end
  end.

Definition filterEnvironment (b : t) (env : list string) : list string :=
  List.filter (kept b) env ++ ["HOME=" +:+ workDir b; "TMPDIR=" +:+ Join [workDir b; "tmp"]].

Definition environment (b : t) (env : list string) : list string :=
  if EnvironmentStrict (config b) then filterEnvironment b env else Environ ++ env.

(** A line of the status of a process. *)
Definition usage_line (r : ExecutionResult) (line : string) : ExecutionResult :=
  match SplitN2 ":" line with
  | None => r
  | Some (key, value) =>
      let key := TrimSpace key in
      let value := TrimSpace value in
      if key =?s "VmRSS" then
        match strings_Index value "kB" with
        | Some (S _ as idx) =>
            match Atoi (TrimSpace (str_take idx value)) with
            | Some mem => mkResult (ExitCode r) (Signal r) (Duration r) (int64 (mem * 1024)) (ContextSwitches r) (StdoutPath r) (StderrPath r)
                            (TimedOut r) (Killed r)
            | None => r
            end
        | _ => r
        end
      else if key =?s "voluntary_ctxt_switches" then
        match Fields value with
        | x :: _ =>
            match Atoi x with
            | Some switches => mkResult (ExitCode r) (Signal r) (Duration r) (MemoryBytes r) switches (StdoutPath r) (StderrPath r)
                                 (TimedOut r) (Killed r)
            | None => r
            end
        | [] => r
        end
      else r
  end.

Definition gatherResourceUsage (pid : Z) (r : ExecutionResult) : ExecutionResult :=
  match proc_status pid with
  | None => r
  | Some data => foldl usage_line r (split_on "010"%char data)
  end.

(** The process number is kept as soon as the process runs. *)
Definition Execute (b : t) (executable : string) (args env : list string) (s : fs) : t * fs * (ExecutionResult * error) :=
  if workDir b =?s "" then (b, s, (zeroResult, Some "sandbox not prepared"))
  else
    let cmd := mkCommand executable args (workDir b) (environment b env) in
    let b := mkSandbox (config b) (workDir b) None in
    let out := Join [workDir b; "output"; "stdout.log"] in
    let err := Join [workDir b; "output"; "stderr.log"] in
    match os_WriteFile F out "" s with
    | (s, Some e) => (b, s, (zeroResult, Some ("failed to create stdout file: " +:+ e)))
    | (s, None) =>
        match os_WriteFile F err "" s with
        | (s, Some e) => (b, s, (zeroResult, Some ("failed to create stderr file: " +:+ e)))
        | (s, None) =>
            match start cmd with
            | Err e => (b, s, (zeroResult, Some ("failed to start process: " +:+ e)))
            | Ok pid =>
                let b := mkSandbox (config b) (workDir b) (Some pid) in
                let '(stdout, stderr, e) := run pid in
                let s := append_file err stderr (append_file out stdout s) in
                match e with
                | ContextDone e => (b, s, (mkResult 0 "" 0 0 0 "" "" true false, Some e))
                | Exited code werr duration =>
                    let r := mkResult code (match werr with Some _ => "signal" | None => "" end) duration 0 0 out err false false in
                    (b, s, (gatherResourceUsage pid r, None))
                end
            end
        end
    end.

(** The process that is killed, if there is one, and the error. *)
Definition Cleanup (b : t) (s : fs) : fs * option Z * error :=
  if workDir b =?s "" then (s, None, None)
  else let '(s, e) := os_RemoveAll F (workDir b) s in (s, process b, e).
End sandbox.

(** The configuration of the v2 executor. *)
Definition executor_config (timeout : Z) (strict : bool) : Config :=
  mkConfig (512 * 1024 * 1024) 0 0 0 0 0 timeout strict [] ["SENTRA_API_KEY"; "SENTRA_SECRET"; "AWS_"] false "" "".

(** ** Properties *)

(** A strict environment is what is kept of the given one and the two
    directories; any other holds all of the agent's, whatever is blocked. *)
Lemma environment_spec (Environ : list string) b env e : e ∈ environment Environ b env <->
  if EnvironmentStrict (config b)
  then e = "HOME=" +:+ workDir b \/ e = "TMPDIR=" +:+ Join [workDir b; "tmp"] \/
       (e ∈ env /\ (exists key value, SplitN2 "=" e = Some (key, value) /\ key ∉ BlockedEnvVars (config b) /\
         (AllowedEnvVars (config b) = [] \/ key ∈ AllowedEnvVars (config b))))
  else e ∈ Environ \/ e ∈ env.
Proof.
  unfold environment. destruct (EnvironmentStrict _); [|apply elem_of_app]. unfold filterEnvironment.
  rewrite elem_of_app, !elem_of_cons, elem_of_nil.
  assert (Hk : e ∈ List.filter (kept b) env <-> e ∈ env /\ kept b e = true)
    by (rewrite !list_elem_of_In; apply filter_In).
  rewrite Hk. clear Hk. unfold kept. destruct (SplitN2 "=" e) as [[key value]|].
  2:{ split; [intros [[_ ?]|?]; [done|tauto]|]. intros [?|[?|(_ & k & v & ? & _)]]; [tauto..|done]. }
  split.
  - intros [[He H]|?]; [|tauto]. right; right. split; [done|]. exists key, value. case_bool_decide; [done|].
    split_and!; [done..|]. destruct (AllowedEnvVars _); [by left|]. right. by case_bool_decide.
  - intros [?|[?|(He & k & v & [= <- <-] & Hb & Ha)]]; [tauto..|]. left. split; [done|].
    rewrite bool_decide_false by done. destruct (AllowedEnvVars _); [done|]. destruct Ha as [?|Ha]; [done|]. by rewrite bool_decide_true.
Qed.

(** The blocked names of the v2 executor are whole names: [AWS_] is no prefix. *)
Example blocked_names :
  map (kept (NewSandbox "/w" (Some (executor_config 1 true)))) ["SENTRA_SECRET=x"; "AWS_=x"; "AWS_SECRET_ACCESS_KEY=x"; "PATH=/bin"; "x"] =
  [false; false; true; true; false].
Proof. reflexivity. Qed.

(** A run is classified by its time and its exit code; nothing is ever reported
    as killed, and a failure always as a signal. *)
Lemma Execute_classified F Environ start run b executable args env s b' s' r :
  Execute F Environ start run (fun _ => None) b executable args env s = (b', s', (r, None)) ->
  exists pid, process b' = Some pid /\ Killed r = false /\ TimedOut r = false /\ MemoryBytes r = 0 /\ ContextSwitches r = 0 /\
    exists stdout stderr err d, run pid = (stdout, stderr, Exited (ExitCode r) err d) /\
      Classification r = if ExitCode r =? 0 then "success" else "failed".
Proof.
  unfold Execute. destruct (_ =?s ""); [done|]. cbv zeta.
  destruct (os_WriteFile _ _ _ _) as [s1 [e|]]; [done|]. destruct (os_WriteFile _ _ _ _) as [s2 [e|]]; [done|].
  destruct (start _) as [pid|e]; [|done]. destruct (run pid) as [[stdout stderr] [e|code err d]] eqn:Er; [done|].
  intros [= <- <- <-]. exists pid. cbn. split_and!; [done..|]. exists stdout, stderr, err, d. split; [done|].
  unfold Classification. cbn. by destruct (code =? 0).
Qed.

(** The clean-up removes all that is below the directory, and nothing else. *)
Lemma Cleanup_spec F b s s' killed : workDir b <> "" -> Cleanup F b s = (s', killed, None) ->
  killed = process b /\ forall q, Merge.files s' !! q = if below (workDir b) q then None else Merge.files s !! q.
Proof.
  intros Hw. unfold Cleanup. rewrite eqb_neq_s by done. unfold os_RemoveAll. destruct (f_remove F _); [done|].
  intros [= <- <-]. split; [done|]. intros q. cbn. destruct (below (workDir b) q) eqn:E.
  - apply map_lookup_filter_None_2. right. intros ? _. cbn. by rewrite E.
  - destruct (Merge.files s !! q) eqn:Eq.
    + by apply map_lookup_filter_Some_2.
    + by apply map_lookup_filter_None_2; left.
Qed.

(** What is prepared is there, each directory with its own fault. *)
Lemma Prepare_dirs F b s s' : Prepare F b s = (s', None) ->
  Merge.files s' = Merge.files s /\
  forall d, d ∈ [workDir b; Join [workDir b; "input"]; Join [workDir b; "output"]; Join [workDir b; "tmp"]] -> d ∈ Merge.dirs s'.
Proof.
  unfold Prepare, os_MkdirAll. repeat (destruct (f_mkdir F _); [done|]). intros [= <-]. split; [done|]. cbn. set_solver.
Qed.
