(* ===== verification/Sysinfo.v ===== *)
(** * Sysinfo: what the agent finds out about its machine

    Models [internal/sysinfo/sysinfo.go]: the detection of processors, memory,
    disk, GPU and latency from the output of programs.  What a program prints,
    [strconv.ParseFloat] and the host that [url.Parse] finds are parameters.
    [None] is a panic. *)
From S2P Require Import Prelude GoFloat Json Path Storage PluginInstall Sandbox PluginVerify PluginExecute PluginRun BackendClient.

From Stdlib Require Import Ascii.

(** ** The record *)

Record Specs := mkSpecs {
  OS : string; Arch : string; CPUCores : Z; AvailableCPUCores : Z; CPUModel : string; CPUUsagePercent : float64;
  TotalMemoryGB : float64; AvailableMemoryGB : float64; DiskFreeGB : float64; GPUModel : string;
  GPUMemoryFreeGB : float64; GPUMemoryTotalGB : float64; IOThroughputMBps : float64; NetworkLatency : float64 }.

Definition zero : float64 := f64_of_Z 0.

Definition newSpecs (os arch : string) (cores : Z) : Specs :=
  mkSpecs os arch cores 0 "" zero zero zero zero "" zero zero zero zero.

Definition with_model (m : string) (s : Specs) : Specs :=
  mkSpecs (OS s) (Arch s) (CPUCores s) (AvailableCPUCores s) m (CPUUsagePercent s) (TotalMemoryGB s) (AvailableMemoryGB s) (DiskFreeGB s)
    (GPUModel s) (GPUMemoryFreeGB s) (GPUMemoryTotalGB s) (IOThroughputMBps s) (NetworkLatency s).
Definition with_total (f : float64) (s : Specs) : Specs :=
  mkSpecs (OS s) (Arch s) (CPUCores s) (AvailableCPUCores s) (CPUModel s) (CPUUsagePercent s) f (AvailableMemoryGB s) (DiskFreeGB s)
    (GPUModel s) (GPUMemoryFreeGB s) (GPUMemoryTotalGB s) (IOThroughputMBps s) (NetworkLatency s).
Definition with_available (f : float64) (s : Specs) : Specs :=
  mkSpecs (OS s) (Arch s) (CPUCores s) (AvailableCPUCores s) (CPUModel s) (CPUUsagePercent s) (TotalMemoryGB s) f (DiskFreeGB s)
    (GPUModel s) (GPUMemoryFreeGB s) (GPUMemoryTotalGB s) (IOThroughputMBps s) (NetworkLatency s).
Definition with_disk_free (f : float64) (s : Specs) : Specs :=
  mkSpecs (OS s) (Arch s) (CPUCores s) (AvailableCPUCores s) (CPUModel s) (CPUUsagePercent s) (TotalMemoryGB s) (AvailableMemoryGB s) f
    (GPUModel s) (GPUMemoryFreeGB s) (GPUMemoryTotalGB s) (IOThroughputMBps s) (NetworkLatency s).
Definition with_gpu (m : string) (total free : float64) (s : Specs) : Specs :=
  mkSpecs (OS s) (Arch s) (CPUCores s) (AvailableCPUCores s) (CPUModel s) (CPUUsagePercent s) (TotalMemoryGB s) (AvailableMemoryGB s) (DiskFreeGB s)
    m free total (IOThroughputMBps s) (NetworkLatency s).

(** What of it is sent with the availability of the device. *)
Definition sent (s : Specs) : BackendClient.Specs :=
  BackendClient.mkSpecs (CPUCores s) (AvailableCPUCores s) (CPUUsagePercent s) (TotalMemoryGB s) (AvailableMemoryGB s) (GPUModel s)
    (GPUMemoryFreeGB s) (GPUMemoryTotalGB s) (IOThroughputMBps s) (NetworkLatency s).

(** ** Texts *)

(** [strings.Split(s, "\n")]. *)
Definition split_lines (s : string) : list string := split_on "010"%char s.

(** [strings.TrimRight(s, cutset)]. *)
Fixpoint TrimRight (cutset : list ascii) (s : string) : string :=
  match s with
  | EmptyString => EmptyString
  | String c s' =>
      match TrimRight cutset s' with
      | EmptyString => if existsb (Ascii.eqb c) cutset then EmptyString else String c EmptyString
      | t => String c t
      end
  end.

(** [strconv.ParseUint(s, 10, 64)]. *)
Definition ParseUint (s : string) : option Z :=
  if (s =?s "") || negb (all_digits s) then None
  else match read_nat s with Some z => if z <? 2 ^ 64 then Some z else None | None => None end.

(** [strings.Split(s, sep)[1]], if there is one. *)
Definition second_part (sep s : string) : option string :=
  match strings_Index s sep with
  | None => None
  | Some i =>
      let rest := str_drop (i + String.length sep) s in
      Some (match strings_Index rest sep with Some j => str_take j rest | None => rest end)
  end.

Section machine.
Context (GOOS GOARCH : string) (NumCPU : Z) (Getenv : string -> string).
(** What a program prints on both streams and its error, the end of its time included. *)
Context (run : string -> list string -> string * error).
(** [strconv.ParseFloat], which also gives a number when it fails: zero, or an infinity. *)
Context (ParseFloat : string -> float64 * error).
(** The host of [url.Parse], if the text parses. *)
Context (url_Hostname : string -> option string).

Definition runCmd (name : string) (args : list string) : string :=
  match run name args with (out, None) => TrimSpace out | (_, Some _) => "" end.

(** ** Latency *)

(** The first line with a time decides; a time without a number panics. *)
Fixpoint ping_time (lines : list string) : option float64 :=
  match lines with
  | [] => Some zero
  | line :: lines =>
      match second_part "time=" line with
      | None => ping_time lines
      | Some part => match Fields part with [] => None | v :: _ => Some (ParseFloat v).1 end
      end
  end.

Definition pingOnce (host : string) : option float64 :=
  if (GOOS =?s "darwin") || (GOOS =?s "linux") then
    match run "ping" ["-c"; "1"; (if GOOS =?s "darwin" then "-t" else "-W"); "1"; host] with
    | (_, Some _) => Some zero
    | (out, None) => ping_time (split_lines out)
    end
  else Some zero.

Definition probeLatency : option float64 :=
  let raw := Getenv "BACKEND_URL" in
  let backend := if raw =?s "" then "" else default "" (url_Hostname raw) in
  if negb (backend =?s "") then pingOnce backend
  else
    let host := Getenv "CDN_PING_HOST" in
    if negb (host =?s "") then pingOnce host else Some zero.

(** ** Memory, processors and disk *)

Definition giga : float64 := f64_of_Z (1024 * 1024 * 1024).

Definition parseSize (sizeStr : string) : float64 :=
  let sizeStr := TrimSpace sizeStr in
  match String.get (String.length sizeStr - 1) sizeStr with
  | None => zero
  | Some unit =>
      let val := (ParseFloat (TrimRight ["G"; "M"; "K"]%char sizeStr)).1 in
      if Ascii.eqb unit "M" then f64_div val (f64_of_Z 1024)
      else if Ascii.eqb unit "K" then f64_div val (f64_of_Z (1024 * 1024))
      else val
  end.

(** The fourth column of the second line. *)
Definition disk_free (df : string) (s : Specs) : Specs :=
  match split_lines df with
  | _ :: line :: _ => match Fields line with _ :: _ :: _ :: avail :: _ => with_disk_free (parseSize avail) s | _ => s end
  | _ => s
  end.

Definition total_bytes (mem : string) (s : Specs) : Specs :=
  match ParseFloat (TrimSpace mem) with
  | (total, None) => if f64_lt zero total then with_total (f64_div total giga) s else s
  | (_, Some _) => s
  end.

Record vm_pages := mkPages { free : Z; inactive : Z; purgeable : Z; compressed : Z }.

(** A line of [vm_stat]; a page is taken to have 4096 bytes, counted in [uint64]. *)
Definition vm_line (p : vm_pages) (line : string) : vm_pages :=
  match Fields line with
  | _ :: _ :: valStr :: _ =>
      match ParseUint (TrimRight ["."]%char valStr) with
      | None => p
      | Some val =>
          let pages := (val * 4096) mod 2 ^ 64 in
          if strings_Contains line "Pages free:" then mkPages pages (inactive p) (purgeable p) (compressed p)
          else if strings_Contains line "Pages inactive:" then mkPages (free p) pages (purgeable p) (compressed p)
          else if strings_Contains line "Pages purgeable:" then mkPages (free p) (inactive p) pages (compressed p)
          else if strings_Contains line "Pages compressed:" then mkPages (free p) (inactive p) (purgeable p) pages
          else p
      end
  | _ => p
  end.

Definition detectMacAvailableMemory : float64 :=
  let p := foldl vm_line (mkPages 0 0 0 0) (split_lines (runCmd "vm_stat" [])) in
  let available := f64_sub (f64_of_Z ((free p + inactive p + purgeable p) mod 2 ^ 64)) (f64_of_Z (compressed p)) in
  let available := f64_div available giga in
  if f64_lt available zero then zero else available.

Definition detectMac (s : Specs) : Specs :=
  let s := with_model (runCmd "sysctl" ["-n"; "machdep.cpu.brand_string"]) s in
  let s := total_bytes (runCmd "sysctl" ["-n"; "hw.memsize"]) s in
  let s := with_available detectMacAvailableMemory s in
  disk_free (runCmd "df" ["-h"; "/"]) s.

(** The first line that names a model decides, whether it has a colon or not. *)
Fixpoint cpu_model (lines : list string) (s : Specs) : Specs :=
  match lines with
  | [] => s
  | l :: lines =>
      if strings_Contains l "model name" then
        match SplitN2 ":" l with Some (_, model) => with_model (TrimSpace model) s | None => s end
      else cpu_model lines s
  end.

(** The second column of a line of [/proc/meminfo], which is in kilobytes. *)
Definition meminfo (name : string) : option float64 :=
  match Fields (runCmd "grep" [name; "/proc/meminfo"]) with
  | _ :: kb :: _ => match ParseFloat kb with (f, None) => Some (f64_div f (f64_of_Z (1024 * 1024))) | (_, Some _) => None end
  | _ => None
  end.

Definition detectLinux (s : Specs) : Specs :=
  let s := cpu_model (split_lines (runCmd "cat" ["/proc/cpuinfo"])) s in
  let s := match meminfo "MemTotal" with Some f => with_total f s | None => s end in
  let s := match meminfo "MemAvailable" with Some f => with_available f s | None => s end in
  disk_free (runCmd "df" ["-BG"; "/"]) s.

Definition detectWindows (s : Specs) : Specs :=
  let s := with_model (runCmd "wmic" ["cpu"; "get"; "name"]) s in
  total_bytes (runCmd "wmic" ["ComputerSystem"; "get"; "TotalPhysicalMemory"]) s.

(** A positive count that a program prints, or that of the Go runtime. *)
Definition cores_of (cores : Z) (out : string) : Z :=
  if out =?s "" then cores
  else match Atoi (TrimSpace out) with Some count => if count <=? 0 then cores else count | None => cores end.

Definition detectLinuxAvailableCores (s : Specs) : Z := cores_of (CPUCores s) (runCmd "grep" ["-c"; "processor"; "/proc/cpuinfo"]).
Definition detectMacAvailableCores (s : Specs) : Z := cores_of (CPUCores s) (runCmd "sysctl" ["-n"; "hw.ncpu"]).

Definition detectAvailableCPUCores (s : Specs) : Z :=
  if GOOS =?s "linux" then detectLinuxAvailableCores s
  else if GOOS =?s "darwin" then detectMacAvailableCores s
  else CPUCores s.

(** ** GPU *)

Fixpoint gpu_line (lines : list string) : string :=
  match lines with
  | [] => ""
  | line :: lines =>
      let l := strings_ToLower line in
      if strings_Contains l "chipset" || strings_Contains l "graphics" then TrimSpace line else gpu_line lines
  end.
Definition parseGPUModel (output : string) : string := gpu_line (split_lines output).

(** The numbers of [nvidia-smi] are in MiB, and are kept as they are. *)
Definition detectGPU (s : Specs) : Specs :=
  let out := runCmd "nvidia-smi" ["--query-gpu=name,memory.total,memory.free"; "--format=csv,noheader,nounits"] in
  if negb (out =?s "") then
    match split_on "," out with
    | name :: total :: free :: _ => with_gpu (TrimSpace name) (ParseFloat (TrimSpace total)).1 (ParseFloat (TrimSpace free)).1 s
    | _ => s
    end
  else if GOOS =?s "darwin" then
    with_gpu (parseGPUModel (runCmd "system_profiler" ["SPDisplaysDataType"])) (GPUMemoryTotalGB s) (GPUMemoryFreeGB s) s
  else s.

Definition cpuUsagePercent : float64 := zero.
Definition ioHeuristic : float64 := if GOOS =?s "linux" then f64_of_Z 100 else zero.

(** ** All of it *)

Definition Detect : option Specs :=
  let s := newSpecs GOOS GOARCH NumCPU in
  let s := if GOOS =?s "darwin" then detectMac s
           else if GOOS =?s "linux" then detectLinux s
           else if GOOS =?s "windows" then detectWindows s
           else s in
  let cores := detectAvailableCPUCores s in
  let s := detectGPU s in
  match probeLatency with
  | None => None
  | Some latency =>
      Some (mkSpecs (OS s) (Arch s) (CPUCores s) cores (CPUModel s) cpuUsagePercent (TotalMemoryGB s) (AvailableMemoryGB s) (DiskFreeGB s)
        (GPUModel s) (GPUMemoryFreeGB s) (GPUMemoryTotalGB s) ioHeuristic latency)
  end.
End machine.

(** ** Properties *)

(** Whole numbers are enough for the examples. *)
Definition whole_numbers (s : string) : float64 * error :=
  match Atoi s with Some z => (f64_of_Z z, None) | None => (zero, Some "invalid syntax") end.

Definition nl : string := String "010"%char "".
Definition linux_box (name : string) (args : list string) : string * error :=
  if name =?s "cat" then ("processor : 0" +:+ nl +:+ "model name : Xeon : E5 " +:+ nl +:+ "model name : other", None)
  else if name =?s "grep" then
    match args with
    | ["MemTotal"; _] => ("MemTotal:  16777216 kB", None)
    | ["MemAvailable"; _] => ("MemAvailable: 8388608 kB", None)
    | _ => ("8" +:+ nl, None)
    end
  else if name =?s "df" then ("Filesystem 1G-blocks Used Available" +:+ nl +:+ "/dev/sda1 100G 60G 40G 60% /", None)
  else if name =?s "nvidia-smi" then ("Tesla T4, 15360, 8" +:+ nl, None)
  else if name =?s "ping" then ("64 bytes from cp: time=12 ms", None)
  else ("", Some "not found").

Definition linux_env (k : string) : string := if k =?s "BACKEND_URL" then "https://cp" else "".

Example Detect_linux :
  Detect "linux" "amd64" 16 linux_env linux_box whole_numbers (fun _ => Some "cp") =
  Some (mkSpecs "linux" "amd64" 16 8 "Xeon : E5" zero (f64_of_Z 16) (f64_of_Z 8) (f64_of_Z 40) "Tesla T4" (f64_of_Z 8) (f64_of_Z 15360)
    (f64_of_Z 100) (f64_of_Z 12)).
Proof. vm_compute. reflexivity. Qed.

(** The MiB of [nvidia-smi] are taken for GiB: with 8 MiB free, a plugin that
    requires 8000 MB may run.  A second card puts its name after the third
    number, which then is none: the plugin may not run with any memory free. *)
Definition gpu_of (out : string) : Specs :=
  detectGPU "linux" (fun name _ => if name =?s "nvidia-smi" then (out, None) else ("", Some "not found")) whole_numbers (newSpecs "linux" "amd64" 8).

Definition gpu_plugin : PluginVerify.Manifest :=
  PluginVerify.mkManifest "llm" "1" "main.py" "" "" "script" "python" "" true false
    (PluginVerify.mkResources 256 0 (f64_of_Z 0) 60 true 8000) "" "" false [].

Definition gpu_check (out : string) : error :=
  check_gpu (GPUModel (gpu_of out)) (GPUMemoryFreeGB (gpu_of out)) (fun f => itoa (f64_to_int64 f)) gpu_plugin.

Example gpu_checks :
  (gpu_check "Tesla T4, 15360, 8", gpu_check ("Tesla T4, 15360, 15000" +:+ nl +:+ "Tesla T4, 15360, 15000")) =
  (None, Some "plugin llm requires 8000 MB GPU memory but only 0 MB free").
Proof. vm_compute. reflexivity. Qed.

(** The sizes of [df -h] on macOS end in [Gi], and those of a terabyte in [T]:
    neither is a number. *)
Example parseSize_ex : map (parseSize whole_numbers) ["40G"; "512M"; ""; "120Gi"; "2T"] =
  [f64_of_Z 40; f64_ratio 1 2; zero; zero; zero].
Proof. vm_compute. reflexivity. Qed.

Lemma cut_at_zero a : f64_lt (if f64_lt a zero then zero else a) zero = false.
Proof. by destruct (f64_lt a zero) eqn:E. Qed.

(** The free memory of a Mac is never negative. *)
Lemma mac_memory_nonneg run : f64_lt (detectMacAvailableMemory run) zero = false.
Proof. apply cut_at_zero. Qed.

(** The number of processors that is announced is positive if that of the Go
    runtime is. *)
Lemma available_cores_positive os run s : 1 <= CPUCores s -> 1 <= detectAvailableCPUCores os run s.
Proof.
  intros H. assert (Hc : forall out, 1 <= cores_of (CPUCores s) out).
  { intros out. unfold cores_of. destruct (out =?s ""); [done|]. destruct (Atoi _) as [n|]; [|done].
    destruct (Z.leb_spec n 0); lia. }
  unfold detectAvailableCPUCores, detectLinuxAvailableCores, detectMacAvailableCores. by destruct (os =?s "linux"), (os =?s "darwin").
Qed.
