(* ===== verification/SandboxInit.v ===== *)
(** * SandboxInit: the first process of a sandbox

    Models [cmd/sandbox-init/main.go], which changes to its directory and its
    root, gives up its user and runs a command.  A run is the trace of its calls
    of the system; [fault] is the error of a call after a trace. *)
From S2P Require Import Prelude Path.

Inductive call :=
  | Mkdir (path : string) | Chdir (path : string) | BindMount (path : string) | PivotRoot (newRoot putOld : string)
  | Unmount (path : string) | RemoveAll (path : string) | Setgid (gid : Z) | Setuid (uid : Z) | Run (name : string) (args : list string).

(** How a command ends: with success, with an exit code, or not started. *)
Inductive run_end := RunOk | RunExit (code : Z) | RunErr (e : string).

(** Calls until the first error: the trace, and the error with its context. *)
Fixpoint calls (fault : list call -> call -> error) (l : list (call * string)) (tr : list call) : list call * error :=
  match l with
  | [] => (tr, None)
  | (c, ctx) :: l => match fault tr c with Some e => (tr ++ [c], Some (ctx +:+ e)) | None => calls fault l (tr ++ [c]) end
  end.

Section init.
Context (fault : list call -> call -> error) (command : list call -> string -> list string -> run_end).
Context (environ : gmap string string).

Definition Getenv (k : string) : string := default "" (environ !! k).

(** The error of the last removal is ignored. *)
Definition pivotRoot (newRoot : string) (tr : list call) : list call * error :=
  let putOld := Join [newRoot; ".old_root"] in
  match calls fault [(BindMount newRoot, "bind mount new root: "); (Mkdir putOld, "mkdir put_old: "); (PivotRoot newRoot putOld, "pivot_root: ");
                     (Chdir "/", "chdir to /: "); (Unmount "/.old_root", "unmount old_root: ")] tr with
  | (tr, Some e) => (tr, Some e)
  | (tr, None) => (tr ++ [RemoveAll "/.old_root"], None)
  end.

(** A text that does not scan leaves the number of nobody. *)
Definition scan_id (s : string) : Z := if s =?s "" then 65534 else default 65534 (Sscanf_d s).

Definition dropPrivileges (tr : list call) : list call * error :=
  let uidStr := Getenv "SANDBOX_UID" in
  let gidStr := Getenv "SANDBOX_GID" in
  if (uidStr =?s "") && (gidStr =?s "") then (tr, None)
  else calls fault [(Setgid (scan_id gidStr), "setgid: "); (Setuid (scan_id uidStr), "setuid: ")] tr.

Definition work_dir : string := if Getenv "SANDBOX_WORK_DIR" =?s "" then "/tmp/sandbox" else Getenv "SANDBOX_WORK_DIR".

(** The trace and the exit code; [args] has the name of the program first. *)
Definition init_main (args : list string) : list call * Z :=
  match args with
  | _ :: name :: rest =>
      match calls fault [(Mkdir work_dir, "mkdir workdir: "); (Chdir work_dir, "chdir: ")] [] with
      | (tr, Some _) => (tr, 1)
      | (tr, None) =>
          match (if Getenv "SANDBOX_ROOT" =?s "" then (tr, None) else pivotRoot (Getenv "SANDBOX_ROOT") tr) with
          | (tr, Some _) => (tr, 1)
          | (tr, None) =>
              match dropPrivileges tr with
              | (tr, Some _) => (tr, 1)
              | (tr, None) =>
                  (tr ++ [Run name rest], match command tr name rest with RunOk => 0 | RunExit code => code | RunErr _ => 1 end)
              end
          end
      end
  | _ => ([], 1)
  end.

(** ** Properties *)

(** What the variables ask for, before the command. *)
Definition confinement : list call :=
  [Mkdir work_dir; Chdir work_dir]
  ++ (let r := Getenv "SANDBOX_ROOT" in
      if r =?s "" then []
      else [BindMount r; Mkdir (Join [r; ".old_root"]); PivotRoot r (Join [r; ".old_root"]); Chdir "/"; Unmount "/.old_root"; RemoveAll "/.old_root"])
  ++ (if (Getenv "SANDBOX_UID" =?s "") && (Getenv "SANDBOX_GID" =?s "") then []
      else [Setgid (scan_id (Getenv "SANDBOX_GID")); Setuid (scan_id (Getenv "SANDBOX_UID"))]).

(** Every call of [l] but a removal succeeds after the trace before it. *)
Fixpoint all_succeed (tr : list call) (l : list call) : Prop :=
  match l with
  | [] => True
  | c :: l => (match c with RemoveAll _ => True | _ => fault tr c = None end) /\ all_succeed (tr ++ [c]) l
  end.

Lemma all_succeed_app tr l k : all_succeed tr (l ++ k) <-> all_succeed tr l /\ all_succeed (tr ++ l) k.
Proof.
  revert tr. induction l as [|c l IH]; intros tr; cbn [app all_succeed]; [rewrite app_nil_r; tauto|].
  rewrite IH, <- app_assoc. cbn [app]. tauto.
Qed.

Definition is_run (c : call) : bool := match c with Run _ _ => true | _ => false end.
Definition no_run (tr : list call) : Prop := existsb is_run tr = false.

Lemma no_run_app tr k : no_run (tr ++ k) <-> no_run tr /\ no_run k.
Proof. unfold no_run. rewrite existsb_app, orb_false_iff. done. Qed.

Lemma no_run_part k l : no_run l -> (forall c, c ∈ k -> c ∈ l) -> no_run k.
Proof.
  unfold no_run. intros Hl Hk. destruct (existsb is_run k) eqn:E; [|done]. apply existsb_exists in E as (c & Hc & Hr).
  rewrite <- Hl. symmetry. apply existsb_exists. exists c. split; [|done]. apply list_elem_of_In, Hk, list_elem_of_In, Hc.
Qed.

Lemma calls_spec l tr tr' e : calls fault l tr = (tr', e) ->
  match e with
  | None => tr' = tr ++ map fst l /\ all_succeed tr (map fst l)
  | Some _ => exists k, tr' = tr ++ k /\ forall c, c ∈ k -> c ∈ map fst l
  end.
Proof.
  revert tr. induction l as [|[c ctx] l IH]; intros tr; cbn [calls map fst all_succeed].
  - intros [= <- <-]. by rewrite app_nil_r.
  - destruct (fault tr c) as [x|] eqn:E.
    + intros [= <- <-]. exists [c]. split; [done|]. intros c' ->%list_elem_of_singleton. left.
    + intros H%IH. destruct e.
      * destruct H as (k & -> & Hk). exists (c :: k). rewrite <- app_assoc. split; [done|]. intros c' [->|H]%elem_of_cons; [left|right; auto].
      * destruct H as [-> H]. rewrite <- app_assoc. split; [done|]. split; [by destruct c|done].
Qed.

Lemma run_last tr c : is_run c = true -> existsb is_run (tr ++ [c]) = true.
Proof. intros H. rewrite existsb_app. cbn. by rewrite H, orb_true_r. Qed.

(** Calls without a run: on an error there is none in the trace. *)
Lemma calls_no_run l tr tr' e : no_run (map fst l) -> no_run tr -> calls fault l tr = (tr', Some e) -> no_run tr'.
Proof. intros Hl Htr (k & -> & Hk)%calls_spec. apply no_run_app. split; [done|]. exact (no_run_part _ _ Hl Hk). Qed.

Lemma pivotRoot_spec r tr tr' e : pivotRoot r tr = (tr', e) -> no_run tr ->
  match e with
  | None => exists k, tr' = tr ++ k /\ all_succeed tr k /\
      k = [BindMount r; Mkdir (Join [r; ".old_root"]); PivotRoot r (Join [r; ".old_root"]); Chdir "/"; Unmount "/.old_root"; RemoveAll "/.old_root"]
  | Some _ => no_run tr'
  end.
Proof.
  unfold pivotRoot. cbv zeta. destruct (calls _ _ tr) as [t [x|]] eqn:E; intros [= <- <-] Htr; [by eapply calls_no_run in E|].
  apply calls_spec in E as [-> H]. rewrite <- app_assoc. eexists. split; [reflexivity|]. split; [|reflexivity].
  apply all_succeed_app. split; [exact H|done].
Qed.

(** The command runs last, and only after everything that the variables ask
    for has succeeded; without it the exit code is 1. *)
Lemma command_confined args tr code : init_main args = (tr, code) ->
  if existsb is_run tr
  then exists program name rest, args = program :: name :: rest /\ tr = confinement ++ [Run name rest] /\ all_succeed [] confinement /\
         code = match command confinement name rest with RunOk => 0 | RunExit code => code | RunErr _ => 1 end
  else code = 1.
Proof.
  unfold init_main. destruct args as [|program [|name rest]]; [by intros [= <- <-]..|].
  destruct (calls fault [(Mkdir work_dir, _); _] []) as [t1 [x|]] eqn:E1.
  { intros [= <- <-]. apply calls_no_run in E1; [|done..]. unfold no_run in E1. by rewrite E1. }
  apply calls_spec in E1 as [-> H1]. cbn [app map fst] in *.
  destruct (if Getenv "SANDBOX_ROOT" =?s "" then _ else _) as [t2 e2] eqn:E2.
  assert (H2 : match e2 with
    | None => exists k, t2 = [Mkdir work_dir; Chdir work_dir] ++ k /\ all_succeed [Mkdir work_dir; Chdir work_dir] k /\
        k = (let r := Getenv "SANDBOX_ROOT" in if r =?s "" then [] else [BindMount r; Mkdir (Join [r; ".old_root"]);
          PivotRoot r (Join [r; ".old_root"]); Chdir "/"; Unmount "/.old_root"; RemoveAll "/.old_root"])
    | Some _ => no_run t2 end).
  { cbv zeta. destruct (Getenv "SANDBOX_ROOT" =?s ""); [injection E2 as <- <-; by exists []|].
    apply pivotRoot_spec in E2; [exact E2|done]. }
  destruct e2 as [x|]; [intros [= <- <-]; unfold no_run in H2; by rewrite H2|].
  destruct H2 as (k & -> & H2 & Hk).
  assert (Hn : no_run ([Mkdir work_dir; Chdir work_dir] ++ k)) by (subst k; cbv zeta; by destruct (_ =?s "")).
  destruct (dropPrivileges _) as [t3 e3] eqn:E3. unfold dropPrivileges in E3. cbv zeta in E3.
  unfold confinement. cbv zeta in Hk |- *. rewrite <- Hk. clear Hk.
  destruct (_ && (Getenv "SANDBOX_GID" =?s "")).
  - injection E3 as <- <-. intros H. injection H as Htr Hcode. assert (Htr' : tr = ([Mkdir work_dir; Chdir work_dir] ++ k ++ []) ++ [Run name rest])
      by (by rewrite app_nil_r, <- Htr).
    rewrite Htr', run_last by done. exists program, name, rest. rewrite app_nil_r. split_and!; try done. by apply all_succeed_app.
  - destruct e3 as [x|]; [intros [= <- <-]; apply calls_no_run in E3; [|done..]; unfold no_run in E3; by rewrite E3|].
    apply calls_spec in E3 as [-> H3]. intros H. injection H as Htr <-.
    assert (Htr' : tr = (([Mkdir work_dir; Chdir work_dir] ++ k) ++ map fst [(Setgid (scan_id (Getenv "SANDBOX_GID")), "setgid: ");
      (Setuid (scan_id (Getenv "SANDBOX_UID")), "setuid: ")]) ++ [Run name rest]) by (by rewrite <- Htr).
    rewrite Htr', run_last by done. exists program, name, rest. split; [done|]. rewrite app_assoc. split; [done|]. split; [|done]. apply all_succeed_app. split; [by apply all_succeed_app|done].
Qed.
End init.

(** A text that is not a number means nobody, and a number that is wanted is
    taken: also that of root.  The groups of the process stay. *)
Example privileges :
  map (fun e : list (string * string) => (init_main (fun _ _ => None) (fun _ _ _ => RunExit 3) (list_to_map e) ["sandbox-init"; "id"; "-u"]))
    [[]; [("SANDBOX_UID", "0")]; [("SANDBOX_GID", "x"); ("SANDBOX_WORK_DIR", "/w")]] =
  [([Mkdir "/tmp/sandbox"; Chdir "/tmp/sandbox"; Run "id" ["-u"]], 3);
   ([Mkdir "/tmp/sandbox"; Chdir "/tmp/sandbox"; Setgid 65534; Setuid 0; Run "id" ["-u"]], 3);
   ([Mkdir "/w"; Chdir "/w"; Setgid 65534; Setuid 65534; Run "id" ["-u"]], 3)].
Proof. vm_compute. reflexivity. Qed.
