(* ===== verification/Settings.v ===== *)
(** * Settings: what the environment sets and the machine offers

    Models [loadIntervalsFromEnv] and the wake-ups of
    [internal/realtime/supabase_realtime.go], and the detection of the platform
    in [cmd/agent/runtime/v2/manager.go].  [time.ParseDuration],
    [strconv.ParseFloat] and the output of programs are parameters. *)
From S2P Require Import Prelude GoFloat Json Path WorkerPool Realtime.
From Stdlib Require Import Ascii SpecFloat.

(** ** The intervals of the polling client *)

Section intervals.
Context (Getenv : string -> string) (ParseDuration : string -> option Z) (ParseFloat : string -> option float64).

Definition env_duration (name : string) (def : Z) : Z :=
  if Getenv name =?s "" then def
  else match ParseDuration (Getenv name) with Some d => if 0 <? d then d else def | None => def end.

Definition env_float (name : string) (ok : float64 -> bool) (def : float64) : float64 :=
  if Getenv name =?s "" then def
  else match ParseFloat (Getenv name) with Some f => if ok f then f else def | None => def end.

(** The old name of the ceiling counts only when the new one is not set. *)
Definition loadIntervalsFromEnv (k : intervals) : intervals :=
  mkIntervals (env_duration "SENTRA_MIN_POLL_INTERVAL" (minPollInterval k))
    (env_float "SENTRA_POLL_BACKOFF_MULTIPLIER" (f64_lt (f64_of_Z 1)) (backoffMultiplier k))
    (env_duration "SENTRA_POST_CLAIM_INTERVAL" (postClaimInterval k))
    (if Getenv "SENTRA_MAX_IDLE_POLL_INTERVAL" =?s "" then env_duration "SENTRA_MAX_POLL_INTERVAL" (maxIdlePollInterval k)
     else env_duration "SENTRA_MAX_IDLE_POLL_INTERVAL" (maxIdlePollInterval k))
    (env_float "SENTRA_POLL_JITTER" (fun f => f64_le (f64_of_Z 0) f && f64_le f (f64_ratio 1 2)) (pollJitter k))
    (env_duration "SENTRA_ACTIVE_GRACE" (activeGrace k)).

(** The time to the first poll. *)
Definition pollInterval : Z := env_duration "SENTRA_POLL_INTERVAL" (30 * Second).
End intervals.

(** *** Wake-ups *)

Definition wakeup_slots : nat := 64.

(** A message of the channel is a token, unless the slots are full; the
    subscription ends at its first error ([false]). *)
Fixpoint listenForRedisJobs (received : list bool) (queued : nat) : nat :=
  match received with
  | true :: received => listenForRedisJobs received (if (queued <? wakeup_slots)%nat then S queued else queued)
  | _ => queued
  end.

(** ** The platform of the environments *)

Record PlatformInfo := mkPlatform { pf_OS : string; pf_Arch : string; pf_Python : string; pf_Node : string; pf_Bitness : Z }.

Section platform.
Context (GOOS GOARCH : string) (is_float : string -> bool).
(** The standard output of a program with [--version], if it succeeds in the
    time that is left. *)
Context (version_of : string -> option string).

(** A version of Python is taken when it begins with a number. *)
Definition python_version (out : string) : option string :=
  let version := TrimSpace out in
  if HasPrefix version "Python " then
    let version := TrimPrefix version "Python " in
    match strings_Index version "." with
    | Some (S _ as dotIdx) => if is_float (String.substring 0 dotIdx version) then Some version else None
    | _ => None
    end
  else None.

Fixpoint first_version (cmds : list string) : string :=
  match cmds with
  | [] => ""
  | c :: cmds =>
      match version_of c with
      | None => first_version cmds
      | Some out => match python_version out with Some version => version | None => first_version cmds end
      end
  end.

Definition detectPythonVersion (cmd : string) : string :=
  first_version (if GOOS =?s "windows" then ["py"; "-3"; cmd; "python3"; "python"] else [cmd; "python3"; "python"]).

(** The first byte is a [v]; the line break at the end stays. *)
Definition detectNodeVersion (cmd : string) : string :=
  match version_of cmd with
  | None => ""
  | Some version => if (1 <? String.length version)%nat then String.substring 1 (String.length version - 1) version else ""
  end.

Definition GetCurrentPlatform : PlatformInfo :=
  mkPlatform GOOS GOARCH (detectPythonVersion (if GOOS =?s "windows" then "python" else "python3")) (detectNodeVersion "node") 64.
End platform.

(** ** Properties *)

(** Whatever the environment says, the intervals that are loaded are positive,
    the multiplier is greater than one and the jitter at most a half. *)
Definition sane (k : intervals) : Prop :=
  0 < minPollInterval k /\ 0 < postClaimInterval k /\ 0 < maxIdlePollInterval k /\ 0 < activeGrace k /\
  f64_lt (f64_of_Z 1) (backoffMultiplier k) = true /\
  f64_le (f64_of_Z 0) (pollJitter k) = true /\ f64_le (pollJitter k) (f64_ratio 1 2) = true.

Lemma env_duration_pos g p n def : 0 < def -> 0 < env_duration g p n def.
Proof. intros H. unfold env_duration. destruct (_ =?s ""); [done|]. destruct (p _) as [d|]; [|done]. destruct (Z.ltb_spec 0 d); lia. Qed.

Lemma env_float_ok g p n (ok : float64 -> bool) def : ok def = true -> ok (env_float g p n ok def) = true.
Proof. intros H. unfold env_float. destruct (_ =?s ""); [done|]. destruct (p _) as [f|]; [|done]. by destruct (ok f) eqn:E. Qed.

Lemma loaded_intervals_sane g pd pf k : sane k -> sane (loadIntervalsFromEnv g pd pf k).
Proof.
  intros (H1 & H2 & H3 & H4 & H5 & H6 & H7). unfold sane, loadIntervalsFromEnv. cbn [minPollInterval postClaimInterval maxIdlePollInterval activeGrace backoffMultiplier pollJitter].
  assert (Hj := env_float_ok g pf "SENTRA_POLL_JITTER" (fun f => f64_le (f64_of_Z 0) f && f64_le f (f64_ratio 1 2)) (pollJitter k)).
  cbv beta in Hj. rewrite H6, H7 in Hj. specialize (Hj eq_refl). apply andb_true_iff in Hj as [Hj1 Hj2].
  split_and!; [by apply env_duration_pos| |by destruct (_ =?s ""); apply env_duration_pos|by apply env_duration_pos| |exact Hj1|exact Hj2].
  - by apply env_duration_pos.
  - by apply env_float_ok.
Qed.

Lemma default_intervals_sane : sane defaultIntervals.
Proof. unfold sane. split_and!; vm_compute; reflexivity. Qed.

(** Sane is not enough: a multiplier that is infinite, or only large, makes
    the next interval of an idle agent negative, and [time.NewTicker] panics. *)
Example infinite_backoff s :
  currentInterval s = 5 * Second ->
  let k m := mkIntervals (5 * Second) m (20 * Second) (300 * Second) (f64_of_Z 0) (2 * Minute) in
  map (fun m => nextPollInterval (k m) (f64_of_Z 0) 0 None 0 s) [S754_infinity false; f64_of_Z (10 ^ 12); f64_of_Z 2] =
  [- 2 ^ 63; - 2 ^ 63; 10 * Second].
Proof. intros Hs. unfold nextPollInterval. cbn [map]. rewrite Hs. vm_compute. reflexivity. Qed.

(** At most 64 wake-ups wait, however many messages arrive. *)
Lemma wakeups_bounded received queued : (queued <= wakeup_slots)%nat -> (listenForRedisJobs received queued <= wakeup_slots)%nat.
Proof.
  revert queued. induction received as [|[] received IH]; intros queued H; cbn [listenForRedisJobs]; [done| |done].
  apply IH. destruct (Nat.ltb_spec queued wakeup_slots); lia.
Qed.

Example platform_ex :
  GetCurrentPlatform "linux" "amd64" (fun s => s =?s "3")
    (fun c => if c =?s "python3" then Some "Python 3.11.4" else if c =?s "node" then Some ("v20.1.0" +:+ String "010" "") else None) =
  mkPlatform "linux" "amd64" "3.11.4" ("20.1.0" +:+ String "010" "") 64.
Proof. vm_compute. reflexivity. Qed.
