(* ===== verification/MergeLock.v ===== *)
(** * MergeLock: exclusive rights to merge a dataset

    Models [internal/dataset/lock.go]: the lock manager of an agent, with its
    local table and its heartbeat goroutines, against the interface of a lock
    backend ([MergeLockBackend]), the in-memory backend, and several agents whose
    atomic sections interleave on one backend.  Times are nanoseconds; the clock
    is an argument. *)
From S2P Require Import Prelude.
From stdpp Require Import gmultiset pretty.
From Stdlib Require Import Ascii.
Open Scope Z_scope.

Definition MergeLockDuration : Z := 30 * Minute.
Definition HeartbeatInterval : Z := 5 * Minute.
Definition LockRetryInterval : Z := 10 * Second.
Definition MaxLockRetries : nat := 3.

(** ** The backend interface *)

Class MergeLockBackend (B : Type) := {
  AcquireLock : B -> Z -> string -> string -> string -> Z -> B * result (string * Z);
  ReleaseLock : B -> string -> B * error;
  UpdateHeartbeat : B -> Z -> string -> B * error;
  CleanupExpired : B -> Z -> B * error;
}.

(** What a backend promises to one manager: [valid b t ds id] says that at time
    [t] the lock [id] on dataset [ds] is in force.  A lock is granted only when
    none is, and refused, without a change, only when one is. *)
Class LockContract (B : Type) `{MergeLockBackend B}
    (valid : B -> Z -> string -> string -> Prop) (id_of : string -> Z -> string) := {
  lc_grant (b : B) t ds ag dev (dur : Z) b' i x :
    0 < dur -> AcquireLock b t ds ag dev dur = (b', Ok (i, x)) ->
    i = id_of ds t /\ (forall j, ~ valid b t ds j) /\ valid b' t ds i;
  lc_refuse (b : B) t ds ag dev dur b' x :
    AcquireLock b t ds ag dev dur = (b', Err x) -> b' = b /\ exists j, valid b t ds j;
}.

(** ** The manager *)

Record MergeLockState := mkState { LockID : string; AcquiredAt : Z }.

(** [heartbeats] are the lock identifiers of the live heartbeat goroutines, each
    of which counts in [wg]; [stopped] is whether [stopCh] is closed. *)
Record MergeLockManager := mkManager {
  localLocks : gmap string MergeLockState;
  heartbeats : gmultiset string;
  stopped : bool }.

Section manager.
Context {B : Type} `{MergeLockBackend B}.

Definition InitMergeLockManager : MergeLockManager := mkManager ∅ ∅ false.

(** The successful branch of the retry loop. *)
Definition install_lock (m : MergeLockManager) (now : Z) (datasetID lockID : string)
    : MergeLockManager * MergeLockState :=
  let state := mkState lockID now in
  (mkManager (<[datasetID := state]> (localLocks m)) ({[+ lockID +]} ⊎ heartbeats m) (stopped m),
   state).

(** One attempt of the loop. *)
Definition attempt_lock (datasetID agentID deviceID : string) (now : Z) (m : MergeLockManager) (b : B)
    : MergeLockManager * B * result MergeLockState :=
  match AcquireLock b now datasetID agentID deviceID MergeLockDuration with
  | (b, Ok (lockID, _)) => let '(m, state) := install_lock m now datasetID lockID in (m, b, Ok state)
  | (b, Err e) => (m, b, Err e)
  end.

(** Before it: a lock of the local table that the backend still honours is
    renewed and handed out again, and one that it does not is forgotten. *)
Definition reuse_lock (datasetID : string) (now : Z) (m : MergeLockManager) (b : B)
    : MergeLockManager * B * option MergeLockState :=
  match localLocks m !! datasetID with
  | Some existing =>
      match UpdateHeartbeat b now (LockID existing) with
      | (b, Some _) => (mkManager (delete datasetID (localLocks m)) (heartbeats m) (stopped m), b, None)
      | (b, None) => (m, b, Some existing)
      end
  | None => (m, b, None)
  end.

(** One attempt; then the loop waits, while other agents use the backend
    ([others]), unless the caller's context is done ([cancelled]). *)
Fixpoint acquire_loop (others : nat -> B -> B) (cancelled : nat -> error) (retries i : nat)
    (datasetID agentID deviceID : string) (now : Z) (lastErr : string)
    (m : MergeLockManager) (b : B) : MergeLockManager * B * result MergeLockState :=
  match retries with
  | O => (m, b, Err ("failed to acquire merge lock after " +:+ itoa (Z.of_nat MaxLockRetries)
                     +:+ " attempts: " +:+ lastErr))
  | S retries =>
      match attempt_lock datasetID agentID deviceID now m b with
      | (m, b, Ok state) => (m, b, Ok state)
      | (m, b, Err e) =>
          match cancelled i with
          | Some x => (m, b, Err x)
          | None =>
              acquire_loop others cancelled retries (S i) datasetID agentID deviceID
                (now + LockRetryInterval) e m (others i b)
          end
      end
  end.

Definition AcquireMergeLock (others : nat -> B -> B) (cancelled : nat -> error)
    (datasetID agentID deviceID : string) (now : Z) (m : MergeLockManager) (b : B)
    : MergeLockManager * B * result MergeLockState :=
  match reuse_lock datasetID now m b with
  | (m, b, Some existing) => (m, b, Ok existing)
  | (m, b, None) => acquire_loop others cancelled MaxLockRetries 0 datasetID agentID deviceID now "" m b
  end.

(** Cancelling the state's context ends its heartbeat goroutine; an error of the
    backend is only logged. *)
Definition ReleaseMergeLock (datasetID : string) (m : MergeLockManager) (b : B)
    : MergeLockManager * B * error :=
  match localLocks m !! datasetID with
  | None => (m, b, None)
  | Some state =>
      (mkManager (delete datasetID (localLocks m)) (heartbeats m ∖ {[+ LockID state +]}) (stopped m),
       (ReleaseLock b (LockID state)).1, None)
  end.

(** One tick of [heartbeatLoop], and one of the cleanup worker. *)
Definition heartbeatLoop_tick (now : Z) (lockID : string) (b : B) : B :=
  (UpdateHeartbeat b now lockID).1.
Definition cleanup_tick (now : Z) (b : B) : B := (CleanupExpired b now).1.

Inductive stop_outcome := Stopped (m : MergeLockManager) | Blocks | PanicsClosed.

(** [Stop]: it waits for every goroutine before it cancels any. *)
Definition Stop (m : MergeLockManager) : stop_outcome :=
  if stopped m then PanicsClosed
  else if decide (heartbeats m = ∅) then Stopped (mkManager ∅ ∅ true)
  else Blocks.
End manager.

(** ** The in-memory backend *)

Record inMemoryLock := mkLock {
  lk_DatasetID : string; lk_AgentID : string; lk_DeviceID : string; lk_LockID : string;
  lk_AcquiredAt : Z; ExpiresAt : Z; lk_Status : string }.

Abbreviation InMemoryMergeLockBackend := (gmap string inMemoryLock).

Definition NewInMemoryMergeLockBackend : InMemoryMergeLockBackend := ∅.

Definition lock_id (datasetID : string) (now : Z) : string :=
  "lock_" +:+ datasetID +:+ "_" +:+ itoa now.

Definition mem_AcquireLock (b : InMemoryMergeLockBackend) (now : Z)
    (datasetID agentID deviceID : string) (duration : Z)
    : InMemoryMergeLockBackend * result (string * Z) :=
  let expiresAt := now + duration in
  let grant b :=
    let lockID := lock_id datasetID now in
    (<[datasetID := mkLock datasetID agentID deviceID lockID now expiresAt "active"]> b,
     Ok (lockID, expiresAt)) in
  match b !! datasetID with
  | Some existing =>
      if (lk_Status existing =?s "active") && (now <? ExpiresAt existing)
      then (b, Err ("lock already held for dataset " +:+ datasetID))
      else if (ExpiresAt existing <? now) || (lk_Status existing =?s "expired")
      then grant (delete datasetID b)
      else grant b
  | None => grant b
  end.

(** The first entry, in the order of the range, that has the identifier. *)
Definition find_lock (lockID : string) (b : InMemoryMergeLockBackend) : option (string * inMemoryLock) :=
  List.find (fun kv => lk_LockID kv.2 =?s lockID) (map_to_list b).

Definition mem_ReleaseLock (b : InMemoryMergeLockBackend) (lockID : string)
    : InMemoryMergeLockBackend * error :=
  match find_lock lockID b with
  | Some (datasetID, _) => (delete datasetID b, None)
  | None => (b, Some "lock not found")
  end.

Definition mem_UpdateHeartbeat (b : InMemoryMergeLockBackend) (now : Z) (lockID : string)
    : InMemoryMergeLockBackend * error :=
  match find_lock lockID b with
  | Some (datasetID, l) =>
      (<[datasetID := mkLock (lk_DatasetID l) (lk_AgentID l) (lk_DeviceID l) (lk_LockID l)
                        (lk_AcquiredAt l) (now + MergeLockDuration) (lk_Status l)]> b, None)
  | None => (b, Some "lock not found")
  end.

Definition mem_CleanupExpired (b : InMemoryMergeLockBackend) (now : Z)
    : InMemoryMergeLockBackend * error :=
  (filter (fun kv : string * inMemoryLock => ~ ExpiresAt kv.2 < now) b, None).

#[export] Instance in_memory_backend : MergeLockBackend InMemoryMergeLockBackend := {
  AcquireLock := mem_AcquireLock;
  ReleaseLock := mem_ReleaseLock;
  UpdateHeartbeat := mem_UpdateHeartbeat;
  CleanupExpired := mem_CleanupExpired;
}.

Definition mem_valid (b : InMemoryMergeLockBackend) (t : Z) (ds id : string) : Prop :=
  exists l, b !! ds = Some l /\ lk_LockID l = id /\ lk_Status l = "active" /\ t < ExpiresAt l.

(** An identifier tells the data set and the time. *)
Lemma append_underscore a b s t :
  all_chars (fun c => negb (Ascii.eqb c "_"%char)) s = true -> all_chars (fun c => negb (Ascii.eqb c "_"%char)) t = true ->
  a +:+ "_" +:+ s = b +:+ "_" +:+ t -> a = b /\ s = t.
Proof.
  revert b. induction a as [|c a IH]; intros b Hs Ht E; destruct b as [|d b].
  - by injection E as E.
  - injection E as <- E. change (s = b +:+ "_" +:+ t) in E. rewrite E, all_chars_app in Hs. by apply andb_prop in Hs as [_ Hs].
  - injection E as -> E. change (a +:+ "_" +:+ s = t) in E. rewrite <- E, all_chars_app in Ht. by apply andb_prop in Ht as [_ Ht].
  - injection E as <- E. by destruct (IH b Hs Ht E) as [-> ->].
Qed.

Lemma lock_id_inj ds t ds' t' : lock_id ds t = lock_id ds' t' -> ds = ds' /\ t = t'.
Proof.
  unfold lock_id. intros H. apply (inj (String.append "lock_")) in H.
  apply append_underscore in H as [-> H]; [|apply itoa_chars; reflexivity..]. by apply (inj pretty) in H.
Qed.

#[export] Instance in_memory_contract : LockContract InMemoryMergeLockBackend mem_valid lock_id.
Proof.
  split.
  - intros b t ds ag dev dur b' i x Hdur. simpl. unfold mem_AcquireLock.
    destruct (b !! ds) as [l|] eqn:Hl.
    + destruct (_ && _) eqn:E; [done|]. intros Hg.
      assert (i = lock_id ds t /\ exists b0, b' = <[ds := mkLock ds ag dev (lock_id ds t) t (t + dur) "active"]> b0)
        as (-> & b0 & ->) by (destruct (_ || _); simplify_eq; eauto).
      split; [done|]. split.
      * intros j (l' & Hl' & _ & Hact & Hexp). simplify_eq.
        rewrite Hact in E. simpl in E. by apply Z.ltb_ge in E; lia.
      * eexists. rewrite lookup_insert_eq. split; [done|]. simpl. repeat split. lia.
    + intros Hg. simplify_eq. split; [done|]. split; [intros j (l' & Hl' & _); congruence|].
      eexists. rewrite lookup_insert_eq. split; [done|]. simpl. repeat split. lia.
  - intros b t ds ag dev dur b' x. simpl. unfold mem_AcquireLock.
    destruct (b !! ds) as [l|] eqn:Hl; [|done].
    destruct (_ && _) eqn:E; [|by destruct (_ || _)]. intros [= <- _]. split; [done|].
    split_bools. exists (lk_LockID l), l. apply String.eqb_eq in H. apply Z.ltb_lt in H0. done.
Qed.

(** ** Several agents on one backend *)

(** An agent: its manager, and the call of [AcquireMergeLock] that it is in,
    between two attempts.  The mutex of the manager keeps the agent from
    acquiring or releasing another lock meanwhile; its heartbeats go on. *)
Record pending := mkPending { p_dataset : string; p_agent : string; p_device : string; p_left : nat }.
Record agent := mkAgent { manager : MergeLockManager; acquiring : option pending }.

Section agents.
Context {B : Type} `{MergeLockBackend B}.

(** [renewed] is not a part of the program: for each identifier, when the backend
    has last granted or renewed it. *)
Record world := mkWorld { agents : list agent; bk : B; clock : Z; renewed : gmap string Z }.

Definition renew (w : world) (id : option string) : gmap string Z :=
  match id with Some id => <[id := clock w]> (renewed w) | None => renewed w end.
Definition set_agent (i : nat) (a : agent) (b : B) (d : Z) (id : option string) (w : world) : world :=
  mkWorld (<[i := a]> (agents w)) b (clock w + d) (renew w id).

(** After an attempt: done, or, when others are left, waiting for the next. *)
Definition after_attempt (p : pending) (r : result MergeLockState) : option pending :=
  match r, p_left p with
  | Err _, S (S n) => Some (mkPending (p_dataset p) (p_agent p) (p_device p) (S n))
  | _, _ => None
  end.
Definition granted (r : result MergeLockState) : option string :=
  match r with Ok st => Some (LockID st) | Err _ => None end.

(** One atomic section of one agent, each a function of the manager or of the
    backend; the clock advances.  A heartbeat may be that of a goroutine that was
    cancelled while it ticked, so it has any identifier. *)
Inductive lstep : world -> world -> Prop :=
  | l_acquire w i m ds ag dev m' b' r d :
      0 < d -> agents w !! i = Some (mkAgent m None) -> reuse_lock ds (clock w) m (bk w) = (m', b', r) ->
      lstep w (set_agent i (mkAgent m' (match r with Some _ => None | None => Some (mkPending ds ag dev MaxLockRetries) end))
                 b' d (LockID <$> r) w)
  | l_attempt w i m p m' b' r d :
      0 < d -> agents w !! i = Some (mkAgent m (Some p)) ->
      attempt_lock (p_dataset p) (p_agent p) (p_device p) (clock w) m (bk w) = (m', b', r) ->
      lstep w (set_agent i (mkAgent m' (after_attempt p r)) b' d (granted r) w)
  | l_cancel w i m p d :
      0 < d -> agents w !! i = Some (mkAgent m (Some p)) -> lstep w (set_agent i (mkAgent m None) (bk w) d None w)
  | l_release w i m ds m' b' e d :
      0 < d -> agents w !! i = Some (mkAgent m None) -> ReleaseMergeLock ds m (bk w) = (m', b', e) ->
      lstep w (set_agent i (mkAgent m' None) b' d None w)
  | l_heartbeat w id b' e d :
      0 < d -> UpdateHeartbeat (bk w) (clock w) id = (b', e) ->
      lstep w (mkWorld (agents w) b' (clock w + d) (renew w (match e with None => Some id | Some _ => None end)))
  | l_cleanup w d :
      0 < d -> lstep w (mkWorld (agents w) (cleanup_tick (clock w) (bk w)) (clock w + d) (renewed w)).

(** Agents that have just been made. *)
Definition fresh_agents (w : world) : Prop := Forall (fun a => a = mkAgent InitMergeLockManager None) (agents w).

Definition holds (w : world) (i : nat) (ds lockID : string) : Prop :=
  exists a st, agents w !! i = Some a /\ localLocks (manager a) !! ds = Some st /\ LockID st = lockID.

(** The agent has the lock, and half an hour has not passed since the backend
    granted it or took a heartbeat for it. *)
Definition leased (w : world) (i : nat) (ds lockID : string) : Prop :=
  holds w i ds lockID /\ exists t, renewed w !! lockID = Some t /\ clock w < t + MergeLockDuration.

Lemma holds_set_agent i a b d id w j ds lockID :
  holds (set_agent i a b d id w) j ds lockID ->
  (j = i /\ exists st, localLocks (manager a) !! ds = Some st /\ LockID st = lockID) \/ (j <> i /\ holds w j ds lockID).
Proof.
  intros (a' & st & Hj & Hl & Hid). simpl in Hj. destruct (decide (j = i)) as [->|Hne].
  - left. split; [done|]. apply list_lookup_insert_Some in Hj as [(_ & <- & _)|[? _]]; [by exists st|done].
  - right. split; [done|]. rewrite list_lookup_insert_ne in Hj by done. by exists a', st.
Qed.
End agents.

(** ** Mutual exclusion on the in-memory backend *)

Abbreviation mworld := (@world InMemoryMergeLockBackend).

(** The entry of a data set that is held under the identifier [id]. *)
Definition entry (b : InMemoryMergeLockBackend) (ds id : string) (expires : Z) : Prop :=
  exists l, b !! ds = Some l /\ lk_LockID l = id /\ lk_Status l = "active" /\ ExpiresAt l = expires.

(** Every identifier is of the past; no two agents hold the same; and a lease is
    known to the backend, which has it until half an hour after its renewal. *)
Record exclusive (w : mworld) : Prop := {
  ex_backend ds l : bk w !! ds = Some l -> lk_Status l = "active" /\ exists t, t < clock w /\ lk_LockID l = lock_id ds t;
  ex_held i ds id : holds w i ds id -> exists t, t < clock w /\ id = lock_id ds t;
  ex_alone i j ds id : holds w i ds id -> holds w j ds id -> i = j;
  ex_leased i ds id t : holds w i ds id -> renewed w !! id = Some t -> clock w < t + MergeLockDuration ->
    entry (bk w) ds id (t + MergeLockDuration) }.

Lemma find_lock_Some id b ds l : find_lock id b = Some (ds, l) -> b !! ds = Some l /\ lk_LockID l = id.
Proof.
  unfold find_lock. intros [Hin Heq]%List.find_some. cbn in Heq. apply String.eqb_eq in Heq. split; [|done].
  apply elem_of_map_to_list. by apply list_elem_of_In.
Qed.

Lemma find_lock_entry id b ds l : b !! ds = Some l -> lk_LockID l = id -> is_Some (find_lock id b).
Proof.
  intros Hl Hid. unfold find_lock. destruct (List.find _ _) as [x|] eqn:E; [by exists x|].
  eapply List.find_none in E; [|apply list_elem_of_In, elem_of_map_to_list; exact Hl].
  cbn in E. by rewrite Hid, String.eqb_refl in E.
Qed.

(** A renewal moves the expiry of one entry, and fails when there is none. *)
Lemma heartbeat_cases b now id b' e : mem_UpdateHeartbeat b now id = (b', e) ->
  (is_Some e /\ b' = b /\ forall ds l, b !! ds = Some l -> lk_LockID l <> id) \/
  (e = None /\ exists ds l, b !! ds = Some l /\ lk_LockID l = id /\
     b' = <[ds := mkLock (lk_DatasetID l) (lk_AgentID l) (lk_DeviceID l) (lk_LockID l) (lk_AcquiredAt l)
                    (now + MergeLockDuration) (lk_Status l)]> b).
Proof.
  unfold mem_UpdateHeartbeat. destruct (find_lock id b) as [[ds l]|] eqn:E; intros [= <- <-].
  - apply find_lock_Some in E as [Hl Hid]. right. split; [done|]. by exists ds, l.
  - left. split; [done|]. split; [done|]. intros ds l Hl Hid. destruct (find_lock_entry id b ds l Hl Hid) as [x Hx]. congruence.
Qed.

(** What the agents hold is no more than before, or later. *)
Lemma exclusive_agents (w w' : mworld) :
  (forall i ds id, holds w' i ds id -> holds w i ds id) ->
  bk w' = bk w -> clock w <= clock w' -> renewed w' = renewed w -> exclusive w -> exclusive w'.
Proof.
  intros Hh Hb Hc Hr [E1 E2 E3 E4]. split.
  - rewrite Hb. intros ds l Hl. destruct (E1 ds l Hl) as (Ha & t & Ht & Hid). split; [done|]. exists t. split; [lia|done].
  - intros i ds id Hi. destruct (E2 i ds id (Hh _ _ _ Hi)) as (t & Ht & ->). exists t. split; [lia|done].
  - intros i j ds id Hi Hj. by eapply E3; apply Hh.
  - rewrite Hb, Hr. intros i ds id t Hi Ht Hlt. apply (E4 i ds id t); [by apply Hh|done|lia].
Qed.

Lemma exclusive_heartbeat (w : mworld) id b' e : mem_UpdateHeartbeat (bk w) (clock w) id = (b', e) ->
  exclusive w -> exclusive (mkWorld (agents w) b' (clock w) (renew w (match e with None => Some id | Some _ => None end))).
Proof.
  intros HU Hw. apply heartbeat_cases in HU as [([x ->] & -> & _)|(-> & ds & l & Hl & Hid & ->)].
  { revert Hw. by apply exclusive_agents. }
  destruct Hw as [E1 E2 E3 E4]. destruct (E1 ds l Hl) as (Ha & t0 & Ht0 & Hlid). split; cbn [bk clock renewed renew].
  - intros ds' l' [[<- <-]|[_ Hl']]%lookup_insert_Some; [|by apply E1]. split; [done|]. by exists t0.
  - exact E2.
  - exact E3.
  - intros i ds' id' t Hi Ht Hlt. change (holds w i ds' id') in Hi. destruct (decide (id' = id)) as [->|Hne].
    + rewrite lookup_insert_eq in Ht. injection Ht as <-. destruct (E2 i ds' id Hi) as (t1 & _ & E).
      rewrite Hlid in Hid. rewrite <- Hid in E. apply lock_id_inj in E as [<- _].
      eexists. rewrite lookup_insert_eq. split; [done|]. cbn. by rewrite Hlid.
    + rewrite lookup_insert_ne in Ht by congruence. destruct (E4 i ds' id' t Hi Ht Hlt) as (l' & Hl' & Hid' & Hrest).
      exists l'. split; [|done]. rewrite lookup_insert_ne; [done|]. intros <-. congruence.
Qed.

Lemma exclusive_cleanup (w : mworld) : exclusive w ->
  exclusive (mkWorld (agents w) (cleanup_tick (clock w) (bk w)) (clock w) (renewed w)).
Proof.
  intros [E1 E2 E3 E4]. unfold cleanup_tick. cbn [CleanupExpired in_memory_backend mem_CleanupExpired fst].
  split; cbn [bk clock renewed]; [|done..|].
  - intros ds l [Hl _]%map_lookup_filter_Some. by apply E1.
  - intros i ds id t Hi Ht Hlt. destruct (E4 i ds id t Hi Ht Hlt) as (l & Hl & Hid & Ha & Hx).
    exists l. split; [|done]. apply map_lookup_filter_Some. split; [done|]. cbn. lia.
Qed.

(** A lock that nobody holds is given back. *)
Lemma exclusive_drop (w : mworld) id : (forall i ds, ~ holds w i ds id) -> exclusive w ->
  exclusive (mkWorld (agents w) (mem_ReleaseLock (bk w) id).1 (clock w) (renewed w)).
Proof.
  intros Hno [E1 E2 E3 E4]. unfold mem_ReleaseLock. destruct (find_lock id (bk w)) as [[ds0 l0]|] eqn:E; cbn [fst]; [|by split].
  apply find_lock_Some in E as [Hl0 Hid0]. split; cbn [bk clock renewed]; [|done..|].
  - intros ds l [_ Hl]%lookup_delete_Some. by apply E1.
  - intros i ds id' t Hi Ht Hlt. destruct (E4 i ds id' t Hi Ht Hlt) as (l & Hl & Hid & Hrest). exists l. split; [|done].
    rewrite lookup_delete_ne; [done|]. intros <-. assert (id' = id) as -> by congruence. by apply (Hno i ds0).
Qed.

(** A grant finds no lock in force. *)
Lemma grant_cases b now ds ag dev dur b' id x : mem_AcquireLock b now ds ag dev dur = (b', Ok (id, x)) ->
  id = lock_id ds now /\ (forall l, b !! ds = Some l -> lk_Status l = "active" -> ExpiresAt l <= now) /\
  b' !! ds = Some (mkLock ds ag dev (lock_id ds now) now (now + dur) "active") /\
  forall ds', ds' <> ds -> b' !! ds' = b !! ds'.
Proof.
  unfold mem_AcquireLock. destruct (b !! ds) as [l|] eqn:Hl.
  - destruct (_ && _) eqn:E; [done|]. intros Hg.
    assert (id = lock_id ds now /\ (b' = <[ds := mkLock ds ag dev (lock_id ds now) now (now + dur) "active"]> (delete ds b) \/
      b' = <[ds := mkLock ds ag dev (lock_id ds now) now (now + dur) "active"]> b)) as (-> & Hb)
      by (destruct (_ || _); simplify_eq; auto).
    split; [done|]. split.
    { intros l' [= <-] Ha. rewrite Ha in E. simpl in E. apply Z.ltb_ge in E. lia. }
    destruct Hb as [-> | ->]; (split; [apply lookup_insert_eq|]); intros ds' Hne; rewrite lookup_insert_ne by congruence; [|done].
    by apply lookup_delete_ne; congruence.
  - intros [= <- <- <-]. split; [done|]. split; [done|]. split; [apply lookup_insert_eq|]. intros ds' Hne. by rewrite lookup_insert_ne by congruence.
Qed.

Lemma exclusive_grant (w : mworld) i a m acq ds ag dev b' id x d :
  0 < d -> agents w !! i = Some a -> manager a = m ->
  mem_AcquireLock (bk w) (clock w) ds ag dev MergeLockDuration = (b', Ok (id, x)) -> exclusive w ->
  exclusive (set_agent i (mkAgent (install_lock m (clock w) ds id).1 acq) b' d (Some id) w).
Proof.
  intros Hd Hi Hm HA [E1 E2 E3 E4]. apply grant_cases in HA as (-> & Hguard & Hnew & Hother).
  set (id := lock_id ds (clock w)) in *. set (W := set_agent _ _ _ _ _ _).
  assert (Hfresh : forall j ds', ~ holds w j ds' id).
  { intros j ds' Hj. destruct (E2 j ds' id Hj) as (t & Ht & E). apply lock_id_inj in E as [_ E]. lia. }
  assert (Hh : forall j ds' id', holds W j ds' id' -> (j = i /\ ds' = ds /\ id' = id) \/
    (holds w j ds' id' /\ ~ (j = i /\ ds' = ds))).
  { intros j ds' id' [(-> & st & Hl & Hid)|[Hne Hw]]%holds_set_agent; [|right; split; [done|by intros [-> _]]].
    cbn in Hl. apply lookup_insert_Some in Hl as [[<- <-]|[Hne Hl]]; [by left|]. right. split; [|by intros [_ ->]].
    exists a, st. rewrite Hm. by split_and!. }
  split; cbn [W set_agent bk clock renewed renew].
  - intros ds' l Hl. destruct (decide (ds' = ds)) as [->|Hne].
    + rewrite Hnew in Hl. injection Hl as <-. split; [done|]. exists (clock w). split; [lia|done].
    + rewrite Hother in Hl by done. destruct (E1 ds' l Hl) as (Ha & t & Ht & Hid). split; [done|]. exists t. split; [lia|done].
  - intros j ds' id' [(-> & -> & ->)|[Hj _]]%Hh; [exists (clock w); split; [lia|done]|].
    destruct (E2 j ds' id' Hj) as (t & Ht & ->). exists t. split; [lia|done].
  - intros j k ds' id' [(-> & -> & ->)|[Hj _]]%Hh [(-> & E & E')|[Hk _]]%Hh; subst; [done| | |by eapply E3].
    + by destruct (Hfresh k ds).
    + by destruct (Hfresh j ds).
  - intros j ds' id' t [(-> & -> & ->)|[Hj Hnot]]%Hh Ht Hlt.
    + rewrite lookup_insert_eq in Ht. injection Ht as <-. eexists. by split.
    + rewrite lookup_insert_ne in Ht by (intros <-; by apply (Hfresh j ds')).
      destruct (E4 j ds' id' t Hj Ht ltac:(lia)) as (l & Hl & Hid & Ha & Hx).
      destruct (decide (ds' = ds)) as [->|Hne]; [specialize (Hguard l Hl Ha); lia|]. exists l. by rewrite Hother.
Qed.

Lemma lstep_exclusive (w w' : mworld) : lstep w w' -> exclusive w -> exclusive w'.
Proof.
  destruct 1 as [w i m ds ag dev m' b' r d Hd Hi Hr|w i m p m' b' r d Hd Hi Hr|w i m p d Hd Hi|w i m ds m' b' e d Hd Hi Hr
                |w id b' e d Hd Hr|w d Hd]; intros Hw.
  - unfold reuse_lock in Hr. destruct (localLocks m !! ds) as [st|] eqn:El.
    + cbn [UpdateHeartbeat in_memory_backend] in Hr.
      destruct (mem_UpdateHeartbeat (bk w) (clock w) (LockID st)) as [b1 e] eqn:HU. pose proof (exclusive_heartbeat w _ _ _ HU Hw) as Hw1.
      destruct e as [e|]; injection Hr as <- <- <-; (refine (exclusive_agents _ _ _ _ _ _ Hw1); [|done|cbn; lia|done]);
        intros j ds' id [(-> & st' & Hl & Hid)|[_ Hh]]%holds_set_agent; [|done| |done];
        exists (mkAgent m None), st'; (split; [done|]); split; [|done| |done]; cbn in Hl |- *; [|done].
      by apply lookup_delete_Some in Hl as [_ Hl].
    + injection Hr as <- <- <-. refine (exclusive_agents _ _ _ _ _ _ Hw); [|done|cbn; lia|done].
      intros j ds' id [(-> & st' & Hl & Hid)|[_ Hh]]%holds_set_agent; [|done]. by exists (mkAgent m None), st'.
  - unfold attempt_lock in Hr. cbn [AcquireLock in_memory_backend] in Hr.
    destruct (mem_AcquireLock _ _ _ _ _ _) as [b1 [[id x]|e]] eqn:HA.
    + cbn [install_lock] in Hr. injection Hr as <- <- <-. by eapply (exclusive_grant w i _ m _ _ _ _ _ _ _ _ Hd Hi eq_refl HA).
    + assert (b1 = bk w) as ->.
      { revert HA. unfold mem_AcquireLock. destruct (bk w !! _); [|done]. destruct (_ && _); [by intros [= <- _]|]. by destruct (_ || _). }
      injection Hr as <- <- <-. refine (exclusive_agents _ _ _ _ _ _ Hw); [|done|cbn; lia|done].
      intros j ds' id [(-> & st' & Hl & Hid)|[_ Hh]]%holds_set_agent; [|done]. by exists (mkAgent m (Some p)), st'.
  - refine (exclusive_agents _ _ _ _ _ _ Hw); [|done|cbn; lia|done].
    intros j ds' id [(-> & st' & Hl & Hid)|[_ Hh]]%holds_set_agent; [|done]. by exists (mkAgent m (Some p)), st'.
  - unfold ReleaseMergeLock in Hr. destruct (localLocks m !! ds) as [st|] eqn:El; injection Hr as <- <- <-.
    + cbn [ReleaseLock in_memory_backend]. set (a := mkAgent _ None).
      set (w1 := mkWorld (<[i := a]> (agents w)) (bk w) (clock w) (renewed w)).
      assert (Hsub : forall j ds' id, holds w1 j ds' id -> holds w j ds' id /\ ~ (j = i /\ ds' = ds)).
      { intros j ds' id [(-> & st' & Hl & Hid)|[Hne Hh]]%(holds_set_agent i a (bk w) 0 None w); [|split; [done|by intros [-> _]]].
        cbn in Hl. apply lookup_delete_Some in Hl as [Hne Hl]. split; [by exists (mkAgent m None), st'|by intros [_ ->]]. }
      assert (Hheld : holds w i ds (LockID st)) by (by exists (mkAgent m None), st).
      eapply (exclusive_agents (mkWorld (agents w1) (mem_ReleaseLock (bk w1) (LockID st)).1 (clock w1) (renewed w1))); [done|done|cbn; lia|done|].
      apply exclusive_drop; [|refine (exclusive_agents _ _ _ _ _ _ Hw); [|done|cbn; lia|done]; intros j ds' id Hj; by apply Hsub].
      intros j ds' [Hj Hnot]%Hsub. destruct Hw as [_ E2 E3 _]. destruct (E2 _ _ _ Hj) as (t & _ & Et), (E2 _ _ _ Hheld) as (t' & _ & Et').
      rewrite Et in Et'. apply lock_id_inj in Et' as [-> _]. apply Hnot. split; [|done]. by eapply E3.
    + refine (exclusive_agents _ _ _ _ _ _ Hw); [|done|cbn; lia|done].
      intros j ds' id [(-> & st' & Hl & Hid)|[_ Hh]]%holds_set_agent; [|done]. by exists (mkAgent m None), st'.
  - refine (exclusive_agents _ _ _ _ _ _ (exclusive_heartbeat w id b' e Hr Hw)); [done|done|cbn; lia|done].
  - refine (exclusive_agents _ _ _ _ _ _ (exclusive_cleanup w Hw)); [done|done|cbn; lia|done].
Qed.

(** The beginning: nothing is locked and nobody holds anything. *)
Definition at_start (w : mworld) : Prop :=
  fresh_agents w /\ bk w = NewInMemoryMergeLockBackend /\ renewed w = ∅.

Lemma reachable_exclusive w0 w : at_start w0 -> rtc lstep w0 w -> exclusive w.
Proof.
  intros (Hf & Hb & Hr) Hsteps. assert (H0 : exclusive w0).
  { assert (Hnone : forall i ds id, ~ holds w0 i ds id).
    { intros i ds id (a & st & Hi & Hl & _). unfold fresh_agents in Hf. rewrite Forall_lookup in Hf. rewrite (Hf i a Hi) in Hl.
      change ((∅ : gmap string MergeLockState) !! ds = Some st) in Hl. by apply lookup_empty_Some in Hl. }
    split; [intros ds l; rewrite Hb; intros Hl; change ((∅ : gmap string inMemoryLock) !! ds = Some l) in Hl; by apply lookup_empty_Some in Hl|intros i ds id Hh|intros i j ds id Hh|intros i ds id t Hh];
      by destruct (Hnone _ _ _ Hh). }
  clear Hf Hb Hr. induction Hsteps as [w|w1 w2 w3 Hs _ IH]; [done|]. apply IH. by eapply lstep_exclusive.
Qed.

(** ** Properties *)

(** C21.  However agents interleave their calls on the in-memory backend, at most one
    has the lock of a data set whose last grant or heartbeat is less than half an
    hour old; the backend has this lock in force, and refuses every other agent. *)
Theorem merge_lock_mutual_exclusion (w0 w : mworld) (i j : nat) (ds id id' : string) :
  at_start w0 -> rtc lstep w0 w -> leased w i ds id -> leased w j ds id' ->
  i = j /\ id = id' /\ mem_valid (bk w) (clock w) ds id /\
  forall ag dev m, attempt_lock ds ag dev (clock w) m (bk w) =
    (m, bk w, Err ("lock already held for dataset " +:+ ds)).
Proof.
  intros H0 Hsteps [Hi (t & Ht & Hlt)] [Hj (t' & Ht' & Hlt')]. pose proof (reachable_exclusive w0 w H0 Hsteps) as Hw.
  destruct (ex_leased w Hw i ds id t Hi Ht Hlt) as (l & Hl & Hid & Ha & Hx).
  destruct (ex_leased w Hw j ds id' t' Hj Ht' Hlt') as (l' & Hl' & Hid' & _ & _).
  assert (id = id') as <- by congruence. split; [by eapply (ex_alone w Hw)|]. split; [done|].
  split; [exists l; split_and!; [done..|lia]|].
  intros ag dev m. unfold attempt_lock. cbn [AcquireLock in_memory_backend]. unfold mem_AcquireLock. rewrite Hl, Ha, Hx.
  rewrite (proj2 (Z.ltb_lt _ _) Hlt). done.
Qed.

(** Two agents want the same data set: the first gets it and the second waits;
    its second attempt comes after the first agent has released the lock. *)
Definition two_agents : mworld :=
  mkWorld [mkAgent InitMergeLockManager None; mkAgent InitMergeLockManager None] ∅ 100 ∅.

Definition try_lock (i : nat) (ag : string) (w : mworld) : mworld :=
  match agents w !! i with
  | Some (mkAgent m None) =>
      let '(m, b, r) := reuse_lock "ds" (clock w) m (bk w) in
      set_agent i (mkAgent m (match r with Some _ => None | None => Some (mkPending "ds" ag "dev" MaxLockRetries) end)) b 1 (LockID <$> r) w
  | Some (mkAgent m (Some p)) =>
      let '(m, b, r) := attempt_lock (p_dataset p) (p_agent p) (p_device p) (clock w) m (bk w) in
      set_agent i (mkAgent m (after_attempt p r)) b 1 (granted r) w
  | None => w
  end.

Lemma try_lock_steps i ag w : rtc lstep w (try_lock i ag w).
Proof.
  unfold try_lock. destruct (agents w !! i) as [[m [p|]]|] eqn:Ei; [| |apply rtc_refl].
  - destruct (attempt_lock _ _ _ _ _ _) as [[m' b'] r] eqn:E. apply rtc_once. by eapply l_attempt.
  - destruct (reuse_lock _ _ _ _) as [[m' b'] r] eqn:E. apply rtc_once. by eapply l_acquire.
Qed.

(** The second is refused; the first releases, and the second is granted the lock. *)
Definition refused : mworld := try_lock 1 "a2" (try_lock 1 "a2" (try_lock 0 "a1" (try_lock 0 "a1" two_agents))).
Definition released : mworld :=
  match agents refused !! 0%nat with
  | Some (mkAgent m None) =>
      let '(m, b, _) := ReleaseMergeLock "ds" m (bk refused) in set_agent 0 (mkAgent m None) b 1 None refused
  | _ => refused
  end.
Definition passed_on : mworld := try_lock 1 "a2" released.

Lemma merge_lock_mutual_exclusion_witness :
  (leased refused 0 "ds" "lock_ds_101" /\ forall j id, leased refused j "ds" id -> 0%nat = j) /\
  (leased passed_on 1 "ds" "lock_ds_105" /\ forall j id, leased passed_on j "ds" id -> 1%nat = j).
Proof.
  assert (H0 : at_start two_agents) by (split; [repeat constructor|done]).
  assert (H1 : rtc lstep two_agents refused).
  { unfold refused. do 4 (etrans; [|apply try_lock_steps]). apply rtc_refl. }
  assert (H2 : rtc lstep two_agents passed_on).
  { etrans; [exact H1|]. etrans; [|apply try_lock_steps]. apply rtc_once.
    unfold released. destruct (agents refused !! 0%nat) as [[m [p|]]|] eqn:E; [vm_compute in E; discriminate E| |vm_compute in E; discriminate E].
    destruct (ReleaseMergeLock "ds" m (bk refused)) as [[m' b'] e] eqn:Er. by eapply l_release. }
  assert (L1 : leased refused 0 "ds" "lock_ds_101").
  { split; [eexists _, _; repeat split; vm_compute; reflexivity|]. exists 101. split; vm_compute; reflexivity. }
  assert (L2 : leased passed_on 1 "ds" "lock_ds_105").
  { split; [eexists _, _; repeat split; vm_compute; reflexivity|]. exists 105. split; vm_compute; reflexivity. }
  split; (split; [done|]); intros j id Hj.
  - exact (proj1 (merge_lock_mutual_exclusion two_agents refused 0 j "ds" _ id H0 H1 L1 Hj)).
  - exact (proj1 (merge_lock_mutual_exclusion two_agents passed_on 1 j "ds" _ id H0 H2 L2 Hj)).
Defined.

(** [AcquireMergeLock] tries three times and no more, and when it
    gives up although nothing cancelled it, some lock on the dataset was in
    force at each attempt. *)
Theorem AcquireMergeLock_denied {B : Type} `{MergeLockBackend B}
    (valid : B -> Z -> string -> string -> Prop) (id_of : string -> Z -> string)
    `{!LockContract B valid id_of} (others : nat -> B -> B)
    (ds ag dev : string) (now : Z) (m m' : MergeLockManager) (b b' : B) (e : string) :
  localLocks m !! ds = None ->
  AcquireMergeLock others (fun _ => None) ds ag dev now m b = (m', b', Err e) ->
  m' = m /\ b' = others 2%nat (others 1%nat (others 0%nat b)) /\
  (exists j, valid b now ds j) /\
  (exists j, valid (others 0%nat b) (now + LockRetryInterval) ds j) /\
  (exists j, valid (others 1%nat (others 0%nat b)) (now + LockRetryInterval + LockRetryInterval) ds j).
Proof.
  intros Hnone. unfold AcquireMergeLock, reuse_lock, MaxLockRetries. rewrite Hnone. cbn [acquire_loop]. unfold attempt_lock.
  repeat match goal with
  | |- context [match AcquireLock ?b ?t ?d ?a ?v ?u with _ => _ end] =>
      destruct (AcquireLock b t d a v u) as [? [[? ?]|?]] eqn:?; [intros ?; done|]
  end.
  repeat match goal with
  | Hx : AcquireLock _ _ _ _ _ _ = (_, Err _) |- _ => apply lc_refuse in Hx as [-> ?]
  end.
  intros Heq. simplify_eq. done.
Qed.

(** A lock that expires far in the future. *)
Definition taken : InMemoryMergeLockBackend :=
  {["ds" := mkLock "ds" "a1" "d1" "lock_ds_1" 1 (60 * Minute) "active"]}.

Lemma AcquireMergeLock_denied_witness :
  exists e, AcquireMergeLock (fun _ b => b) (fun _ => None) "ds" "a2" "d2" 5 InitMergeLockManager taken
      = (InitMergeLockManager, taken, Err e) /\ exists j, mem_valid taken 5 "ds" j.
Proof.
  eexists. split; [vm_compute; reflexivity|].
  destruct (@AcquireMergeLock_denied _ in_memory_backend mem_valid lock_id _ (fun _ b => b) "ds" "a2" "d2" 5
    InitMergeLockManager InitMergeLockManager taken taken _ eq_refl ltac:(vm_compute; reflexivity))
    as (_ & _ & H & _). exact H.
Defined.

(** [Stop] waits for the heartbeat goroutines before it cancels them: it
    returns only when there is none.  So it blocks forever on an agent that has
    just taken a lock, until the lock is released. *)
Theorem Stop_waits_for_heartbeats {B : Type} `{MergeLockBackend B} (others : nat -> B -> B)
    (cancelled : nat -> error) (ds ag dev : string) (now : Z) (m m' : MergeLockManager)
    (b b' : B) (st : MergeLockState) :
  localLocks m !! ds = None -> stopped m = false -> heartbeats m = ∅ ->
  AcquireMergeLock others cancelled ds ag dev now m b = (m', b', Ok st) ->
  Stop m' = Blocks /\
  Stop (ReleaseMergeLock ds m' b').1.1 = Stopped (mkManager ∅ ∅ true).
Proof.
  intros Hnone Hst Hhb. unfold AcquireMergeLock, reuse_lock. rewrite Hnone.
  assert (Hloop : forall retries i now e b, acquire_loop others cancelled retries i ds ag dev now e m b
      = (m', b', Ok st) ->
    localLocks m' !! ds = Some st /\ heartbeats m' = {[+ LockID st +]} /\ stopped m' = false).
  { induction retries as [|n IH]; intros i t e b0; cbn [acquire_loop]; [done|]. unfold attempt_lock.
    destruct (AcquireLock b0 t ds ag dev MergeLockDuration) as [b1 [[l x]|x]].
    - cbn [install_lock]. intros Heq. simplify_eq. cbn [localLocks heartbeats stopped].
      rewrite lookup_insert_eq, Hhb. split; [done|]. split; [apply (right_id_L ∅ (⊎))|done].
    - destruct (cancelled i); [done|]. apply IH. }
  intros Hacq. apply Hloop in Hacq as (Hl & Hh & Hs). unfold Stop, ReleaseMergeLock.
  rewrite Hl, Hs, Hh. split.
  - rewrite decide_False; [done|]. multiset_solver.
  - cbn [fst heartbeats stopped]. rewrite decide_True; [done|]. multiset_solver.
Qed.

Definition mem_empty : InMemoryMergeLockBackend := ∅.
Definition mem_locked : InMemoryMergeLockBackend :=
  {["ds" := mkLock "ds" "a2" "d2" "lock_ds_5" 5 (5 + MergeLockDuration) "active"]}.
Definition holder (m : MergeLockManager) : MergeLockManager := (install_lock m 5 "ds" "lock_ds_5").1.

Lemma Stop_waits_for_heartbeats_witness : Stop (holder InitMergeLockManager) = Blocks.
Proof.
  apply (@Stop_waits_for_heartbeats _ in_memory_backend (fun _ b => b) (fun _ => None) "ds" "a2" "d2" 5
    InitMergeLockManager (holder InitMergeLockManager) mem_empty mem_locked (mkState "lock_ds_5" 5)
    eq_refl eq_refl eq_refl).
  vm_compute. reflexivity.
Defined.

(** Replacing a stale local lock forgets its heartbeat goroutine: after
    the dataset is released again the goroutine still runs, and [Stop] blocks
    for good. *)
Theorem stale_lock_leaks_heartbeat {B : Type} `{MergeLockBackend B} (others : nat -> B -> B)
    (cancelled : nat -> error) (ds ag dev : string) (now : Z) (m m' : MergeLockManager)
    (b b1 b' : B) (x : string) (old st : MergeLockState) :
  localLocks m !! ds = Some old -> stopped m = false -> heartbeats m = {[+ LockID old +]} ->
  UpdateHeartbeat b now (LockID old) = (b1, Some x) ->
  AcquireMergeLock others cancelled ds ag dev now m b = (m', b', Ok st) ->
  let m'' := (ReleaseMergeLock ds m' b').1.1 in
  localLocks m'' !! ds = None /\ heartbeats m'' = {[+ LockID old +]} /\ Stop m'' = Blocks.
Proof.
  intros Hold Hst Hhb Hup. unfold AcquireMergeLock, reuse_lock. rewrite Hold, Hup.
  set (m0 := mkManager _ _ _).
  assert (Hloop : forall retries i now e b, acquire_loop others cancelled retries i ds ag dev now e m0 b
      = (m', b', Ok st) -> localLocks m' !! ds = Some st /\ stopped m' = false /\
      heartbeats m' = {[+ LockID st +]} ⊎ {[+ LockID old +]}).
  { induction retries as [|n IH]; intros i t e b0; cbn [acquire_loop]; [done|]. unfold attempt_lock.
    destruct (AcquireLock b0 t ds ag dev MergeLockDuration) as [b2 [[l y]|y]].
    - cbn [install_lock]. intros Heq. simplify_eq. subst m0. cbn [localLocks heartbeats stopped].
      by rewrite lookup_insert_eq, Hhb.
    - destruct (cancelled i); [done|]. apply IH. }
  intros Hacq. apply Hloop in Hacq as (Hl & Hs & Hh). unfold Stop, ReleaseMergeLock.
  rewrite Hl. cbn [fst localLocks heartbeats stopped]. rewrite Hs, Hh, lookup_delete_eq.
  assert (Hbeat : (({[+ LockID st +]} ⊎ {[+ LockID old +]}) ∖ {[+ LockID st +]} : gmultiset string)
                  = {[+ LockID old +]}) by multiset_solver.
  rewrite Hbeat. split; [done|]. split; [done|]. rewrite decide_False; [done|]. multiset_solver.
Qed.

Definition stale_manager : MergeLockManager :=
  mkManager {["ds" := mkState "lock_ds_1" 1]} {[+ "lock_ds_1" +]} false.

Lemma stale_lock_leaks_heartbeat_witness :
  Stop (ReleaseMergeLock "ds"
          (holder (mkManager ∅ {[+ "lock_ds_1" +]} false)) mem_locked).1.1 = Blocks.
Proof.
  apply (@stale_lock_leaks_heartbeat _ in_memory_backend (fun _ b => b) (fun _ => None) "ds" "a2" "d2" 5
    stale_manager (holder (mkManager ∅ {[+ "lock_ds_1" +]} false)) mem_empty mem_empty mem_locked
    "lock not found" (mkState "lock_ds_1" 1) (mkState "lock_ds_5" 5) eq_refl eq_refl eq_refl eq_refl).
  vm_compute. reflexivity.
Defined.
