(* ===== verification/Lifecycle.v ===== *)
(** * Lifecycle: from the configuration to the shutdown

    Models [internal/config], [internal/startup], [internal/heartbeat] and what
    [cmd/main.go] does with the parts of the agent: the configuration, the
    validation of the start, the number of workers, the jobs that were assigned
    before, the heartbeats with the policy they bring, and the drain at the end,
    with the time that passes between its steps.  Variables of the environment are looked up after [.env] was loaded; an
    unset variable is empty. *)
From S2P Require Import Prelude GoFloat Json Path HttpClient Backend BackendClient JobDedup ExecuteJob WorkerPool MergeLock.
From Stdlib Require Import Ascii.

(** ** Configuration *)

Abbreviation variables := (gmap string string).
Definition Getenv (v : variables) (k : string) : string := default "" (v !! k).

Definition firstNonEmpty (values : list string) : string :=
  default "" (List.find (fun v => negb (v =?s "")) values).

Definition getenvDefault (v : variables) (key def : string) : string :=
  if negb (Getenv v key =?s "") then Getenv v key else def.

(** [os.Hostname]. *)
Definition hostnameFallback (hostname : result string) : string :=
  match hostname with Ok h => if h =?s "" then "sentra-agent" else h | Err _ => "sentra-agent" end.

Definition supabaseTempDir : string := "supabase/.temp".
Definition projectRefFile : string := "project-ref".

(** The first candidate file with a text in it; [read] is [os.ReadFile]. *)
Definition ReadProjectRef (v : variables) (read : string -> option string) : string :=
  let ref := Getenv v "SUPABASE_PROJECT_REF" in
  if negb (ref =?s "") then ref
  else
    firstNonEmpty (map (fun path => if path =?s "" then "" else TrimSpace (default "" (read path)))
      [Join [supabaseTempDir; projectRefFile]; Join ["."; supabaseTempDir; projectRefFile];
       Getenv v "SUPABASE_PROJECT_REF_PATH"]).

Definition BuildBackendURL (projectRef : string) : string :=
  if projectRef =?s "" then "" else "https://" +:+ projectRef +:+ ".supabase.co".
Definition BuildAnonKey (v : variables) (projectRef : string) : string := Getenv v "SUPABASE_ANON_KEY".

Record Config := mkConfig {
  BackendURL : string; BackendAnonKey : string; cfg_OrgID : string; OrgName : string;
  EnvironmentType : string; StorageType : string; LogLevel : string; DeviceName : string;
  Capabilities : list string; ClaimCode : string; HealthCheckPort : string; cfg_DeviceID : string; Token : string;
  MaxConcurrency : Z }.

(** An [int32]; a value that is zero after the conversion counts as unset. *)
Definition max_concurrency (v : variables) (numCPU : Z) : Z :=
  let n :=
    match Atoi (Getenv v "MAX_CONCURRENCY") with
    | Some n => if 0 <? n then int32 n else 0
    | None => 0
    end in
  if n =? 0 then let h := int32 (Z.quot numCPU 2) in if h <? 1 then 1 else h else n.

(** [None] is [log.Fatal]. *)
Definition LoadStatic (v : variables) (read : string -> option string) (hostname : result string) (numCPU : Z) : option Config :=
  let projectRef := ReadProjectRef v read in
  let backendURL := trim_right_slash (firstNonEmpty
    [Getenv v "BACKEND_URL"; Getenv v "SENTRA_BACKEND_URL"; Getenv v "APP_SUPABASE_URL"; Getenv v "SUPABASE_URL";
     BuildBackendURL projectRef]) in
  if backendURL =?s "" then None
  else
    Some (mkConfig backendURL
      (firstNonEmpty [Getenv v "BACKEND_ANON_KEY"; Getenv v "SENTRA_BACKEND_ANON_KEY"; Getenv v "SUPABASE_ANON_KEY";
                      Getenv v "APP_SUPABASE_ANON_KEY"; BuildAnonKey v projectRef])
      (Getenv v "ORG_ID") (getenvDefault v "ORG_NAME" "Sentra Org") (getenvDefault v "AGENT_ENVIRONMENT_TYPE" "local")
      (getenvDefault v "AGENT_STORAGE_TYPE" "local") (getenvDefault v "LOG_LEVEL" "info")
      (getenvDefault v "AGENT_NAME" (hostnameFallback hostname)) ["scan"; "merge"; "embedding"]
      (Getenv v "CLAIM_CODE") (getenvDefault v "HEALTH_CHECK_PORT" "8080") "" "" (max_concurrency v numCPU)).

(** ** The validation of the start *)

(** What is found on the machine. *)
Record machine := mkMachine {
  docker_found : bool; numCPU : Z; windows : bool; cgo_enabled : bool;
  plugin_dir : result string;         (** [plugin.EnsurePluginDir] *)
  plugin_stat : string -> error }.

Definition health_payload (device : string) (cpus : Z) : json :=
  any_map [("device_id", JStr device); ("total_cpu_cores", num cpus); ("cpu_cores_free", num cpus); ("total_memory_gb", num 0);
    ("memory_free_gb", num 0); ("network_latency_ms", num 0); ("gpu_available", JBool false); ("cpu_usage_percent", num 0);
    ("incoming_workload_weight", num 0)].

(** The sandbox is tried out at the end; what comes of it is only logged. *)
Definition Validate (v : variables) (c : option Config) (M : machine) (health : json -> outcome) : error :=
  match c with
  | None => Some "startup: config is nil"
  | Some c =>
      if BackendURL c =?s "" then Some "startup: BACKEND_URL is not configured"
      else if cfg_DeviceID c =?s "" then Some "startup: DEVICE_ID is not configured"
      else if Token c =?s "" then Some "startup: AUTH TOKEN is not configured"
      else if negb (docker_found M) && (Getenv v "SENTRA_ALLOW_LOCAL_EXEC" =?s "false") then
        Some ("Docker is required for plugin execution but was not found. "
              +:+ "Install Docker: https://docs.docker.com/get-docker/ " +:+ "or remove SENTRA_ALLOW_LOCAL_EXEC=false")
      else
        match health (health_payload (cfg_DeviceID c) (numCPU M)) with
        | Err e => Some ("startup: backend unreachable: " +:+ e)
        | Ok r =>
            if 400 <=? StatusCode r then
              Some ("startup: backend auth/health failed (HTTP " +:+ itoa (StatusCode r) +:+ "): "
                    +:+ match Body r with Some b => body_text b | None => "" end)
            else
              match plugin_dir M with
              | Err e => Some ("startup: plugin directory unavailable: " +:+ e)
              | Ok dir =>
                  match plugin_stat M dir with
                  | Some e => Some ("startup: plugin directory not accessible: " +:+ e)
                  | None =>
                      if (Getenv v "SENTRA_NATIVE_PLUGINS_REQUIRED" =?s "1") && negb (windows M) && negb (cgo_enabled M)
                      then Some "startup: native plugins require CGO_ENABLED=1" else None
                  end
              end
        end
  end.

(** *** Reconciliation *)

(** What is logged; the error is always nil. *)
Inductive reconcile_log := Skipped (why : string) | Reconciled (restored : Z) (device : string) | Refused (e : string) | Silent.

Definition decodeReconcile (fs : list (string * json)) : (bool * Z * string * string) * bool :=
  let '(o, e1) := field dec_bool "ok" false fs in
  let '(n, e2) := field dec_int "restored_jobs" 0 fs in
  let '(d, e3) := field dec_string "device_id" "" fs in
  let '(g, e4) := field dec_string "org_id" "" fs in
  let '(e, e5) := field dec_string "error" "" fs in
  ((o, n, d, e), e1 || e2 || e3 || e4 || e5).

Definition Reconcile (o : outcome) : reconcile_log * error :=
  (match o with
   | Err e => Skipped e
   | Ok r =>
       if 400 <=? StatusCode r then Skipped (itoa (StatusCode r))
       else match Body r with
            | None => Skipped closed_body
            | Some b =>
                match Unmarshal_struct (false, 0, "", "") decodeReconcile (body_json b) with
                | (_, Some e) => Skipped e
                | ((ok, n, d, e), None) => if ok then Reconciled n d else if e =?s "" then Silent else Refused e
                end
            end
   end, None).

(** ** Workers and assigned jobs *)

(** [main]: an [int32] that is not positive is replaced. *)
Definition initial_workers (c : Config) (cpus : Z) : Z :=
  let workers := MaxConcurrency c in
  if workers <? 1 then let h := int32 (Z.quot cpus 2) in if h <? 1 then 1 else h else workers.

Definition start_workers (c : Config) (cpus : Z) (p : pool) : pool * workers := InitWorkerPool cpus (initial_workers c cpus) p.

Section assigned.
Context (has_client : bool) (newTraceID : nat -> string).

Definition request_of_assigned (i : nat) (j : DeviceAssignedJob) : jobRequest :=
  mkReq (dj_JobType j) (dj_Payload j) (dj_ID j) (dj_OrgID j) (newTraceID i) (dj_ExecutionStepID j) (dj_ExecutionID j).

(** A job that is refused is only logged. *)
Fixpoint submit_assigned (i : nat) (jobs : list DeviceAssignedJob) (p : pool) : option pool :=
  match jobs with
  | [] => Some p
  | j :: jobs =>
      match SubmitJobWithMeta has_client (request_of_assigned i j) p with
      | Some (p, _) => submit_assigned (S i) jobs p
      | None => None
      end
  end.

Definition dispatch_assigned (answer : result (option (list DeviceAssignedJob))) (p : pool) : option pool :=
  match answer with
  | Ok (Some jobs) => submit_assigned 0 jobs p
  | _ => Some p
  end.
End assigned.

(** ** Heartbeats *)

Record intervals := mkIntervals { idle : Z; active : Z }.
Definition default_intervals : intervals := mkIntervals (15 * Minute) (2 * Minute).

(** [loadHeartbeatIntervals]; [parse] is [time.ParseDuration]. *)
Definition loadHeartbeatIntervals (v : variables) (parse : string -> option Z) : intervals :=
  let get k def :=
    match parse (Getenv v k) with
    | Some d => if negb (Getenv v k =?s "") && (0 <? d) then d else def
    | None => def
    end in
  mkIntervals (get "SENTRA_HEARTBEAT_INTERVAL" (idle default_intervals))
              (get "SENTRA_HEARTBEAT_ACTIVE_INTERVAL" (active default_intervals)).

Definition busy (p : pool) : bool := ((0 <? ActiveJobsCount p) || (0 <? QueueLength p))%nat.

Definition currentHeartbeatInterval (i : intervals) (p : pool) : Z := if busy p then active i else idle i.

(** What is sent: an unknown number of free processors is all of them, unknown
    free memory nine tenths of the whole. *)
Definition heartbeat_of (device : string) (cpus : Z) (activeWorkers : Z) (python node : string) (s : Specs) : DeviceHeartbeat :=
  let zero := f64_of_Z 0 in
  let availableCPU := if sp_AvailableCPUCores s <=? 0 then cpus else sp_AvailableCPUCores s in
  let memFreeGB := if f64_le (sp_AvailableMemoryGB s) zero then f64_mul (sp_TotalMemoryGB s) (f64_ratio 9 10)
                   else sp_AvailableMemoryGB s in
  let memFreeGB := if f64_lt memFreeGB zero then zero else memFreeGB in
  mkHeartbeat (mkPolicyRequest device cpus availableCPU (sp_TotalMemoryGB s) memFreeGB (sp_NetworkLatency s)
      (negb (sp_GPUModel s =?s "")) (sp_CPUUsagePercent s) 0)
    (sp_GPUModel s) (sp_GPUMemoryFreeGB s) (sp_GPUMemoryTotalGB s) activeWorkers python node false
    (negb (python =?s "") || negb (node =?s "")).

(** The policy of the answer; the second component is [MaxConcurrencyAtomic]. *)
Definition apply_policy (answer : result HealthPolicyResponse) (st : workers * Z) : workers * Z :=
  match answer with
  | Err _ => st
  | Ok policy =>
      if (0 <? Concurrency policy) && negb (Concurrency policy =? st.2)
      then (SetMaxWorkers (Concurrency policy) st.1, int32 (Concurrency policy))
      else st
  end.

(** [performHeartbeat]; without a client nothing is sent. *)
Definition performHeartbeat (send : option (DeviceHeartbeat -> result HealthPolicyResponse)) (device : string) (cpus : Z)
    (python node : string) (s : Specs) (st : workers * Z) : workers * Z :=
  match send with
  | None => st
  | Some f => apply_policy (f (heartbeat_of device cpus (WorkerPool.activeWorkers st.1) python node s)) st
  end.

(** [Run]: the times of the heartbeats, [n] of them after [t].  The interval is
    chosen at a heartbeat, from the pool at that time. *)
Fixpoint heartbeat_times (i : intervals) (pools : Z -> pool) (t : Z) (n : nat) : list Z :=
  match n with
  | O => []
  | S n => let t' := t + currentHeartbeatInterval i (pools t) in t' :: heartbeat_times i pools t' n
  end.

(** ** The drain *)

Section drain.
Context {B : Type} `{MergeLockBackend B}.
(** The order of a range over a map. *)
Context (mapOrder : gset string -> list string).

(** [ReleaseAllMergeLocks]: without a manager nothing is done; the keys of both
    maps are taken for names of data sets. *)
Definition release_each (ids : list string) (m : MergeLockManager) (b : B) : MergeLockManager * B :=
  foldl (fun mb i => (ReleaseMergeLock i mb.1 mb.2).1) (m, b) ids.

Definition ReleaseAllMergeLocks (p : pool) (m : option MergeLockManager) (b : B) : option stop_outcome * B :=
  match m with
  | None => (None, b)
  | Some m =>
      let '(m, b) := release_each (mapOrder (activeJobs p) ++ mapOrder (runningJobs p)) m b in
      (Some (Stop m), b)
  end.

(** How the waiting ends. *)
Inductive wait_result := Drained (t : Z) | GraceExpired (t : Z) | ContextDone (t : Z).

Definition poll_interval : Z := 2 * Second.

(** How long the steps of a turn of the loop take, besides the waiting: from the
    count of the jobs to the test of the grace period, from there to the start of
    the timer, from there to the [select], and from the timer's end to the next
    count.  The scheduler decides. *)
Record turn := mkTurn { to_test : Z; to_timer : Z; to_select : Z; to_wake : Z }.
Definition turn_ok (d : turn) : Prop := 0 <= to_test d /\ 0 <= to_timer d /\ 0 <= to_select d /\ 0 <= to_wake d.

(** Whether the [select] takes the end of the context: the one that is ready
    first, and either one ([tie]) when both are ready as it looks, or become ready
    at once. *)
Definition takes_done (looked timer cancelled : Z) (tie : bool) : bool :=
  if (timer <=? looked) && (cancelled <=? looked) then tie
  else (cancelled <? timer) || ((cancelled =? timer) && tie).

(** The loop of [gracefulDrain] from time [t]; [turns] are the delays of each turn
    and how a tie is decided, and the context of the shutdown is done at the time
    [cancelled]. *)
Fixpoint drain_wait (fuel : nat) (turns : nat -> turn * bool) (pools : Z -> pool) (grace cancelled waitStart : Z) (k : nat) (t : Z)
    : option wait_result :=
  match fuel with
  | O => None
  | S fuel =>
      let '(d, tie) := turns k in
      if (ActiveJobsCount (pools t) =? 0)%nat then Some (Drained t)
      else
        let tested := t + to_test d in
        if grace <=? tested - waitStart then Some (GraceExpired tested)
        else
          let timer := tested + to_timer d + poll_interval in
          let looked := tested + to_timer d + to_select d in
          if takes_done looked timer cancelled tie then Some (ContextDone (Z.max looked cancelled))
          else drain_wait fuel turns pools grace cancelled waitStart (S k) (Z.max looked timer + to_wake d)
  end.

(** What the drain leaves: the pool, the locks and the error.  [waitStart] is when
    the waiting begins; the jobs are reported [later] than it ends. *)
Definition gracefulDrain (fuel : nat) (turns : nat -> turn * bool) (pools : Z -> pool) (grace cancelled waitStart : Z) (later : Z -> Z)
    (m : option MergeLockManager) (b : B) : option (pool * (option stop_outcome * B) * error) :=
  match drain_wait fuel turns pools grace cancelled waitStart 0 waitStart with
  | None => None
  | Some (ContextDone t) => Some (pools t, (None, b), Some "context deadline exceeded")
  | Some (Drained t) | Some (GraceExpired t) =>
      let p := ReportInFlightFailures mapOrder (pools (later t)) in
      Some (p, ReleaseAllMergeLocks p m b, None)
  end.
End drain.

(** Enough turns for any grace period. *)
Definition drain_fuel (grace : Z) : nat := (Z.to_nat (grace / poll_interval) + 2)%nat.

(** ** Properties *)

(** *** The number of workers *)

Lemma int32_range x : - 2 ^ 31 <= int32 x < 2 ^ 31.
Proof. unfold int32. pose proof (Z.mod_pos_bound (x + 2 ^ 31) (2 ^ 32)). lia. Qed.

Lemma int32_small x : - 2 ^ 31 <= x < 2 ^ 31 -> int32 x = x.
Proof. intros H. unfold int32. rewrite Z.mod_small; lia. Qed.

Lemma half_range cpus : 1 <= cpus <= 2 ^ 20 -> 0 <= Z.quot cpus 2 <= 2 ^ 20 /\ int32 (Z.quot cpus 2) = Z.quot cpus 2.
Proof.
  intros H. assert (0 <= Z.quot cpus 2 <= cpus).
  { rewrite Z.quot_div_nonneg by lia. pose proof (Z.div_le_upper_bound cpus 2 cpus). pose proof (Z.div_pos cpus 2). lia. }
  split; [lia|]. apply int32_small. lia.
Qed.

Lemma initial_workers_range v read host cpus c : 1 <= cpus <= 2 ^ 20 -> LoadStatic v read host cpus = Some c ->
  1 <= initial_workers c cpus < 2 ^ 31.
Proof.
  intros Hc. unfold LoadStatic. destruct (trim_right_slash _ =?s ""); [done|]. intros [= <-].
  destruct (half_range cpus Hc) as [Hh Eh]. unfold initial_workers. cbn [MaxConcurrency].
  assert (Hr : - 2 ^ 31 <= max_concurrency v cpus < 2 ^ 31).
  { unfold max_concurrency. rewrite Eh. cbv zeta.
    destruct (Atoi _) as [n|]; [destruct (0 <? n)|]; pose proof (int32_range (default 0 (Atoi (Getenv v "MAX_CONCURRENCY"))));
      repeat case_match; try lia; apply int32_range. }
  rewrite Eh. cbv zeta. destruct (Z.ltb_spec (max_concurrency v cpus) 1); [|lia]. destruct (Z.ltb_spec (Z.quot cpus 2) 1); lia.
Qed.

(** C33.  Whatever the environment says, at least one worker and at most two for each
    processor are started; the policy of a heartbeat is not held to this bound:
    any other number that it names becomes the size of the pool. *)
Theorem workers_bounded_at_start v read host cpus c p policy :
  1 <= cpus <= 2 ^ 20 -> LoadStatic v read host cpus = Some c ->
  let w := (start_workers c cpus p).2 in
  (1 <= WorkerPool.activeWorkers w <= 2 * cpus /\ maxWorkers w = WorkerPool.activeWorkers w) /\
  (0 < Concurrency policy < 2 ^ 31 ->
   let st := apply_policy (Ok policy) (w, MaxConcurrency c) in
   if Concurrency policy =? MaxConcurrency c then st = (w, MaxConcurrency c)
   else maxWorkers st.1 = Concurrency policy /\ st.2 = Concurrency policy).
Proof.
  intros Hc Hl w. pose proof (initial_workers_range v read host cpus c Hc Hl) as Hn.
  assert (Hw : 1 <= WorkerPool.activeWorkers w <= 2 * cpus /\ maxWorkers w = WorkerPool.activeWorkers w).
  { unfold w, start_workers, InitWorkerPool. destruct (Z.leb_spec (initial_workers c cpus) 0); [lia|].
    rewrite int64_small by lia. destruct (Z.ltb_spec (cpus * 2) 1); [lia|]. cbn [snd WorkerPool.activeWorkers maxWorkers].
    destruct (Z.ltb_spec (cpus * 2) (initial_workers c cpus)); (split; [lia|]); apply int32_small; lia. }
  split; [exact Hw|]. intros Hp. unfold apply_policy. cbn [fst snd]. destruct (Z.ltb_spec 0 (Concurrency policy)); [|lia].
  destruct (Z.eqb_spec (Concurrency policy) (MaxConcurrency c)) as [E|Hne]; [done|]. cbn [andb negb fst snd].
  split; [|by apply int32_small; lia]. unfold SetMaxWorkers. destruct (Z.leb_spec (Concurrency policy) 0); [lia|]. cbv zeta.
  destruct (Z.eqb_spec (Concurrency policy) (maxWorkers w)) as [<-|]; [done|]. cbn [maxWorkers]. apply int32_small. lia.
Qed.

(** Four processors, an absurd wish, and a policy beyond the bound. *)
Lemma workers_bounded_at_start_witness :
  let v : variables := {["BACKEND_URL" := "https://cp/"; "MAX_CONCURRENCY" := "64"]} in
  exists c p, LoadStatic v (fun _ => None) (Ok "h") 4 = Some c /\
    WorkerPool.activeWorkers (start_workers c 4 p).2 = 8 /\
    maxWorkers (apply_policy (Ok (mkPolicy true 500 (f64_of_Z 0) "")) ((start_workers c 4 p).2, 64)).1 = 500.
Proof.
  intros v. destruct (LoadStatic v (fun _ => None) (Ok "h") 4) as [c|] eqn:E; [|vm_compute in E; discriminate E].
  set (p := mkPool None ∅ ∅ None 0 0 true true ∅ 0 []). exists c, p. split; [reflexivity|].
  destruct (workers_bounded_at_start v (fun _ => None) (Ok "h") 4 c p (mkPolicy true 500 (f64_of_Z 0) "") ltac:(lia) E) as [_ H].
  assert (Hm : c = default c (LoadStatic v (fun _ => None) (Ok "h") 4)) by (rewrite E; reflexivity).
  vm_compute in Hm. subst c. split; [vm_compute; reflexivity|]. exact (proj1 (H ltac:(cbn; lia))).
Defined.

(** *** The cadence of heartbeats *)

(** A job that arrives right after an idle heartbeat is noticed at the next one,
    a whole idle interval later. *)
Example activity_is_noticed_late :
  let working := mkPool (Some []) ∅ {["j1"]} None 0 0 true true ∅ 0 [] in
  let nothing := mkPool (Some []) ∅ ∅ None 0 0 true true ∅ 0 [] in
  heartbeat_times default_intervals (fun t => if t <=? 0 then nothing else working) 0 2 = [15 * Minute; 17 * Minute].
Proof. vm_compute. reflexivity. Qed.

(** *** The drain *)

Section drain_ends.
Context (turns : nat -> turn * bool) (pools : Z -> pool) (grace cancelled waitStart : Z).
Context (Hturns : forall k, turn_ok (turns k).1).

(** The three ends of the waiting. *)
Inductive ended : wait_result -> Prop :=
| ended_drained t : ActiveJobsCount (pools t) = 0%nat -> ended (Drained t)
| ended_grace t t0 : ActiveJobsCount (pools t0) <> 0%nat -> t0 <= t -> waitStart + grace <= t -> ended (GraceExpired t)
| ended_context t t0 : ActiveJobsCount (pools t0) <> 0%nat -> t0 <= t -> cancelled <= t -> ended (ContextDone t).

(** Each turn takes two seconds at least, so the test of the grace period ends the
    waiting if nothing else does. *)
Lemma drain_wait_ends fuel k t : waitStart <= t -> waitStart + grace - t < (Z.of_nat fuel - 1) * poll_interval -> (0 < fuel)%nat ->
  exists r, drain_wait fuel turns pools grace cancelled waitStart k t = Some r /\ ended r.
Proof.
  revert k t. induction fuel as [|fuel IH]; intros k t Ht Hf H0; [lia|]. cbn [drain_wait]. clear H0.
  pose proof (Hturns k) as Hd. destruct (turns k) as [d tie]. destruct Hd as (H1 & H2 & H3 & H4). cbn [fst] in *. cbv zeta.
  destruct (Nat.eqb_spec (ActiveJobsCount (pools t)) 0) as [Hz|Hnz]; [eexists; split; [done|by constructor]|].
  destruct (Z.leb_spec grace (t + to_test d - waitStart)); [eexists; split; [done|by apply (ended_grace _ t); [|lia..]]|].
  destruct (takes_done _ _ _ _); [eexists; split; [done|by apply (ended_context _ t); [|lia..]]|].
  apply IH; unfold poll_interval, Second, Millisecond in *; [lia|lia|].
  destruct fuel; [lia|lia].
Qed.

(** While jobs run and the turns are short, the test of the grace period is never
    reached in time: a wake-up before the end of the context, and one turn more,
    are still within the period. *)
Lemma drain_wait_prompt fuel k t r :
  (forall u, ActiveJobsCount (pools u) <> 0%nat) ->
  (forall k, to_select (turns k).1 < poll_interval) ->
  (forall k, cancelled + to_wake (turns k).1 + to_test (turns (S k)).1 < waitStart + grace) ->
  t + to_test (turns k).1 < waitStart + grace ->
  drain_wait fuel turns pools grace cancelled waitStart k t = Some r -> exists u, r = ContextDone u /\ cancelled <= u.
Proof.
  intros Hall Hsel Hprompt. revert k t. induction fuel as [|fuel IH]; intros k t Ht; cbn [drain_wait]; [done|].
  pose proof (Hsel k) as Hs. pose proof (Hprompt k) as Hp. pose proof (Hturns k) as Hd.
  destruct (turns k) as [d tie]. destruct Hd as (H1 & H2 & H3 & H4). cbn [fst] in *. cbv zeta.
  destruct (Nat.eqb_spec (ActiveJobsCount (pools t)) 0) as [Hz|_]; [by destruct (Hall t)|].
  destruct (Z.leb_spec grace (t + to_test d - waitStart)); [lia|]. unfold takes_done.
  set (looked := t + to_test d + to_timer d + to_select d) in *. set (timer := t + to_test d + to_timer d + poll_interval) in *.
  destruct (Z.leb_spec timer looked); [lia|]. cbn [andb].
  destruct (Z.ltb_spec cancelled timer); cbn [orb]; [intros [= <-]; eexists; split; [done|lia]|].
  destruct (Z.eqb_spec cancelled timer); cbn [andb]; [destruct tie; [intros [= <-]; eexists; split; [done|lia]|]|]; apply IH; lia.
Qed.
End drain_ends.

(** C34.  The drain ends, in one of three ways.  No job runs any more, or the grace
    period is found to be over while jobs run; then the remaining claims are
    reported as failed and the merge locks are released.  Or the context of the
    shutdown ends while jobs run; then the drain ends with an error, no job is
    reported and no lock is released.  The context is made before the waiting
    begins and with the same period, so when jobs run throughout it decides,
    unless the agent is so slow that a wake-up before its end is followed by the
    test after the period: on a prompt agent unfinished jobs are never reported. *)
Theorem drain_outcomes {B : Type} `{MergeLockBackend B} mapOrder turns pools grace cancelled waitStart later m (b : B) :
  0 < grace -> (forall k, turn_ok (turns k).1) ->
  exists r p locks e, drain_wait (drain_fuel grace) turns pools grace cancelled waitStart 0 waitStart = Some r /\
    gracefulDrain mapOrder (drain_fuel grace) turns pools grace cancelled waitStart later m b = Some (p, locks, e) /\
    ended pools grace cancelled waitStart r /\
    match r with
    | Drained t | GraceExpired t =>
        e = None /\ p = ReportInFlightFailures mapOrder (pools (later t)) /\ locks = ReleaseAllMergeLocks mapOrder p m b
    | ContextDone t => e = Some "context deadline exceeded" /\ p = pools t /\ locks = (None, b)
    end /\
    ((forall u, ActiveJobsCount (pools u) <> 0%nat) -> (forall k, to_select (turns k).1 < poll_interval) ->
     (forall k, cancelled + to_wake (turns k).1 + to_test (turns (S k)).1 < waitStart + grace) ->
     to_test (turns 0%nat).1 < grace -> exists t, r = ContextDone t /\ cancelled <= t).
Proof.
  intros Hg Ht.
  destruct (drain_wait_ends turns pools grace cancelled waitStart Ht (drain_fuel grace) 0 waitStart) as (r & Er & He);
    [lia| |unfold drain_fuel; lia|].
  { unfold drain_fuel, poll_interval, Second, Millisecond. rewrite Nat2Z.inj_add, Z2Nat.id by (apply Z.div_pos; lia).
    pose proof (Z.mul_succ_div_gt grace (2 * (1000 * 1000000))). lia. }
  unfold gracefulDrain. rewrite Er.
  destruct r as [t|t|t]; eexists _, _, _, _; (split; [done|]); (split; [done|]); (split; [exact He|]); (split; [done|]);
    intros Hall Hs Hp H0; apply (drain_wait_prompt turns pools grace cancelled waitStart Ht (drain_fuel grace) 0 waitStart _ Hall Hs Hp
      ltac:(lia) Er).
Qed.

(** A job that never ends, with a grace period of 30 seconds whose context was made a
    millisecond before the waiting: the prompt agent reports nothing and keeps its
    lock; one that wakes up two seconds late, the last time before the context
    ends, reports the job and releases its locks. *)
Definition prompt : nat -> turn * bool := fun _ => (mkTurn 0 0 0 0, true).
Definition slow_turn : nat -> turn * bool := fun k => (mkTurn 0 0 0 (if (k =? 13)%nat then 2010 * Millisecond else 0), true).

Lemma drain_outcomes_witness :
  let working := mkPool (Some []) {["ds"]} {["j1"]} None 0 0 true true ∅ 0 [] in
  let m := holder InitMergeLockManager in
  let drain turns := gracefulDrain elements (drain_fuel (30 * Second)) turns (fun _ => working) (30 * Second)
    (30 * Second - Millisecond) 0 id (Some m) mem_locked in
  (exists p, drain prompt = Some (p, (None, mem_locked), Some "context deadline exceeded") /\ events p = []) /\
  (exists p locks, drain slow_turn = Some (p, locks, None) /\ events p <> [] /\ locks.2 = mem_empty).
Proof.
  intros working m drain. split.
  - destruct (drain_outcomes elements prompt (fun _ => working) (30 * Second) (30 * Second - Millisecond) 0 id (Some m) mem_locked
      ltac:(vm_compute; reflexivity) ltac:(intros k; repeat split; vm_compute; discriminate)) as (r & p & locks & e & _ & E & _ & Hr & Hc).
    destruct (Hc ltac:(intros u; vm_compute; discriminate) ltac:(intros k; vm_compute; reflexivity)
      ltac:(intros k; vm_compute; reflexivity) ltac:(vm_compute; reflexivity)) as (t & -> & _).
    destruct Hr as (-> & -> & ->). exists working. split; [exact E|vm_compute; reflexivity].
  - destruct (drain_outcomes elements slow_turn (fun _ => working) (30 * Second) (30 * Second - Millisecond) 0 id (Some m) mem_locked
      ltac:(vm_compute; reflexivity)
      ltac:(intros k; unfold slow_turn, turn_ok; cbn [fst to_test to_timer to_select to_wake];
            destruct (k =? 13)%nat; repeat split; vm_compute; discriminate)) as (r & p & locks & e & Er & E & _ & Hr & _).
    vm_compute in Er. injection Er as <-. destruct Hr as (-> & -> & ->). eexists _, _. split; [exact E|].
    split; vm_compute; [discriminate|reflexivity].
Defined.
