(* ===== verification/PluginSync.v ===== *)
(** * PluginSync: the plugins of the control plane

    Models the requests of [internal/plugin/db_sync.go]: the configuration that
    the plugin package reads for itself, the list of the plugins of an
    organization and [SyncPluginsFromAPI]; the installation of a plugin is that
    of [PluginInstall].  The bundled plugin of [manager.go] is installed when
    the program is loaded. *)
From S2P Require Import Prelude GoFloat Json Path PluginVerify PluginInstall HttpClient Backend Merge MergeTree Storage Handler BackendClient Auth Lifecycle.

Definition FunctionListPlugins : string := "/functions/v1/list_plugins_for_org".

(** ** Configuration *)

Definition plugin_backend_url (v : variables) (read : string -> option string) : string :=
  firstNonEmpty [Lifecycle.Getenv v "SENTRA_BACKEND_URL"; Lifecycle.Getenv v "APP_SUPABASE_URL"; Lifecycle.Getenv v "SUPABASE_URL";
                 Lifecycle.Getenv v "BACKEND_URL"; BuildBackendURL (ReadProjectRef v read)].

Definition loadConfig (v : variables) (read : string -> option string) : result (string * string) :=
  let backendURL := plugin_backend_url v read in
  if backendURL =?s "" then Err "backend URL not configured: set SENTRA_BACKEND_URL"
  else Ok (backendURL,
           firstNonEmpty [Lifecycle.Getenv v "SENTRA_BACKEND_ANON_KEY"; Lifecycle.Getenv v "SUPABASE_ANON_KEY";
                          Lifecycle.Getenv v "BACKEND_ANON_KEY"; BuildAnonKey v (ReadProjectRef v read)]).

(** ** The list of plugins *)

Definition zeroDBPlugin : DBPlugin := mkDBPlugin "" "" "" "" "" "" "" "" "" RawEmpty false 0 "" "" "" "" false RawEmpty.

Definition dec_plugin : decoder DBPlugin := fun cur j =>
  match j with
  | JObj fs =>
      let '(id, e1) := field dec_string "id" (ID cur) fs in
      let '(name, e2) := field dec_string "name" (db_Name cur) fs in
      let '(version, e3) := field dec_string "version" (db_Version cur) fs in
      let '(language, e4) := field dec_string "language" (db_Language cur) fs in
      let '(ptype, e5) := field dec_string "plugin_type" (db_PluginType cur) fs in
      let '(path, e6) := field dec_string "storage_path" (StoragePath cur) fs in
      let '(sum, e7) := field dec_string "checksum" (db_Checksum cur) fs in
      let '(sig, e8) := field dec_string "signature" (db_Signature cur) fs in
      let '(key, e9) := field dec_string "signature_key_id" (db_SignatureKeyID cur) fs in
      let '(res, e10) := field dec_raw "resources" (db_Resources cur) fs in
      let '(trusted, e11) := field dec_bool "trusted" (db_Trusted cur) fs in
      let '(rollout, e12) := field dec_int "rollout_percentage" (RolloutPercentage cur) fs in
      let '(url, e13) := field dec_string "signed_url" (SignedURL cur) fs in
      let '(os, e14) := field dec_string "os" (PluginInstall.OS cur) fs in
      let '(arch, e15) := field dec_string "arch" (PluginInstall.Arch cur) fs in
      let '(group, e16) := field dec_string "plugin_group" (db_PluginGroup cur) fs in
      let '(network, e17) := field dec_bool "network" (db_Network cur) fs in
      let '(deps, e18) := field dec_raw "runtime_dependencies" (RuntimeDeps cur) fs in
      (mkDBPlugin id name version language ptype path sum sig key res trusted rollout url os arch group network deps,
       e1 || e2 || e3 || e4 || e5 || e6 || e7 || e8 || e9 || e10 || e11 || e12 || e13 || e14 || e15 || e16 || e17 || e18)
  | JNull => (cur, false)
  | _ => (cur, true)
  end.

Definition decodePluginList (fs : list (string * json)) : (bool * option (list DBPlugin) * string) * bool :=
  let '(ok, e1) := field dec_bool "ok" false fs in
  let '(data, e2) := field (dec_slice zeroDBPlugin dec_plugin) "data" None fs in
  let '(err, e3) := field dec_string "error" "" fs in
  ((ok, data, err), e1 || e2 || e3).

Section api.
(** The answer to a GET of a client of a server, with an anonymous key and a
    token. *)
Context (get : string -> string -> string -> string -> Backend.outcome).

Definition FetchPluginsFromAPI (orgID backendURL anonKey deviceToken : string) : result (list DBPlugin) :=
  match get backendURL anonKey deviceToken (FunctionListPlugins +:+ "?org_id=" +:+ orgID) with
  | Err e => Err ("request failed: " +:+ e)
  | Ok r =>
      if 300 <=? StatusCode r then
        Err ("plugin fetch failed with status " +:+ itoa (StatusCode r) +:+ ": " +:+ match Body r with Some b => body_text b | None => "" end)
      else
        match Unmarshal_struct (false, None, "") decodePluginList (match Body r with Some b => body_json b | None => RawInvalid end) with
        | (_, Some e) => Err ("failed to decode response: " +:+ e)
        | ((ok, data, err), None) =>
            if negb ok && negb (err =?s "") then Err ("API error: " +:+ err) else Ok (default [] data)
        end
  end.

Context (E : Auth.environment) (parse : string -> RawMessage) (valid_time : string -> bool) (v : variables) (read : string -> option string).

(** The identity of the device, and the plugins of its organization. *)
Definition fetch_for_device (wrapIdentity wrapConfig wrapFetch : string) (w : Auth.world) : Auth.world * result (Identity * list DBPlugin) :=
  match LoadIdentity E parse valid_time w with
  | (w, (_, _, Some e)) => (w, Err (wrapIdentity +:+ e))
  | (w, (device, token, None)) =>
      (w, match loadConfig v read with
          | Err e => Err (wrapConfig +:+ e)
          | Ok (url, anon) =>
              match FetchPluginsFromAPI (OrgID device) url anon token with
              | Err e => Err (wrapFetch +:+ e)
              | Ok plugins => Ok (device, plugins)
              end
          end)
  end.

(** *** [SyncPluginsFromAPI] *)

Context (sha256 : string -> string) (ed25519_Verify : string -> string -> string -> bool).
Context (faults : PluginVerify.os_faults) (home goos goarch : string) (network : string -> nat -> PluginInstall.download).
Context (mapOrder : list (string * json) -> list (string * json)) (parse_float : string -> option float64) (manifestErr : string -> error).

(** The plugins that are returned, to be mapped by their names; a plugin that
    cannot be installed is left out of the count only. *)
Definition SyncPluginsFromAPI (now : Z) (w : Auth.world) (s : plugin_state) : Auth.world * plugin_state * comp (list DBPlugin * (Z * Z)) :=
  match fetch_for_device "failed to load device identity: " "failed to load config: " "failed to fetch plugins from API: " w with
  | (w, Err e) => (w, s, Throw e)
  | (w, Ok (device, [])) => (w, s, Ret ([], (0, 0)))
  | (w, Ok (device, plugins)) =>
      match EnsurePluginDir faults home s with
      | (s, Throw e) => (w, s, Throw ("EnsurePluginDir failed: " +:+ e))
      | (s, Panic) => (w, s, Panic)
      | (s, Ret dir) =>
          match sync_plugins sha256 ed25519_Verify faults goos goarch network mapOrder parse_float manifestErr
                  now (DeviceID device) dir plugins 0 0 s with
          | (s, Ret counts) => (w, s, Ret (plugins, counts))
          | (s, Throw e) => (w, s, Throw e)
          | (s, Panic) => (w, s, Panic)
          end
      end
  end.
End api.

(** ** The bundled plugin *)

Section bundled.
Context (faults : PluginVerify.os_faults) (home goos goarch : string).
(** [os.Executable], whose error is ignored. *)
Context (executable : string).

Definition is_there (path : string) (s : plugin_state) : bool :=
  exists_path path s || bool_decide (is_Some (PluginVerify.manifests s !! path)).

Definition bundled_dir (s : plugin_state) : string :=
  let env := PluginVerify.Getenv "SENTRA_PLUGIN_BUNDLE_PATH" s in
  let dir := if env =?s "" then Join [Dir executable; "bundled"; "plugins"] else Join [env; "plugins"] in
  if is_there dir s then dir else Join [PluginVerify.Getenv "HOME" s; ".sentra"; "bundled"; "plugins"].

(** A file that is there keeps its permission bits. *)
Definition put_bundled (path content : string) (mode : Z) (s : plugin_state) : plugin_state :=
  PluginVerify.with_files (<[path := (content, match PluginVerify.files s !! path with Some (_, m) => m | None => mode end)]> (PluginVerify.files s)) s.

(** The copies are written over what is there; the checksum is not looked at.
    Writing does not fail, and what cannot be read is written as empty. *)
Definition InstallBundledPlugins (s : plugin_state) : plugin_state * comp unit :=
  match EnsurePluginDir faults home s with
  | (s, Throw e) => (s, Throw ("failed to ensure plugin dir: " +:+ e))
  | (s, Panic) => (s, Panic)
  | (s, Ret baseDir) =>
      let bundledDir := bundled_dir s in
      let bundledManifestPath := Join [bundledDir; "plugin_scan_metadata.json"] in
      if is_there bundledManifestPath s then
        let pluginDir := Join [baseDir; "plugin_scan_metadata"; getCurrentPlatform goos goarch] in
        match PluginVerify.MkdirAll faults pluginDir s with
        | (s, Some e) => (s, Throw e)
        | (s, None) =>
            let binarySrc := Join [bundledDir; "scan_metadata.py"] in
            if is_there binarySrc s then
              let data := match PluginVerify.ReadFile faults binarySrc s with Ret d => d | _ => "" end in
              let s := put_bundled (Join [pluginDir; "scan_metadata.py"]) data 448 s in
              let manifest := match PluginVerify.ReadManifest faults bundledManifestPath s with Ret m => m | _ => ManifestGarbage zeroManifest end in
              (PluginVerify.with_manifests (<[Join [pluginDir; "plugin_scan_metadata.json"] := manifest]> (PluginVerify.manifests s)) s, Ret tt)
            else (s, Ret tt)
        end
      else (s, Ret tt)
  end.
End bundled.

(** ** Properties *)

(** The first value that is set is the only one that any sets. *)
Lemma firstNonEmpty_unique u l : u ∈ l -> (forall x, x ∈ l -> x = "" \/ x = u) -> firstNonEmpty l = u.
Proof.
  intros Hu Hl. unfold firstNonEmpty. destruct (List.find _ l) as [x|] eqn:E; cbn.
  - apply List.find_some in E as [Hx Hn]. apply list_elem_of_In in Hx. by destruct (Hl x Hx) as [->| ->].
  - apply list_elem_of_In in Hu. pose proof (List.find_none _ _ E u Hu) as H. cbn in H. by destruct (eqb_spec_s u "") as [E0|].
Qed.

(** The backend of the plugins is that of the agent where the variables that
    are set agree; the two packages prefer different ones. *)
Lemma plugin_backend_of_agent v read host cpus c u :
  LoadStatic v read host cpus = Some c ->
  let named := [Lifecycle.Getenv v "BACKEND_URL"; Lifecycle.Getenv v "SENTRA_BACKEND_URL"; Lifecycle.Getenv v "APP_SUPABASE_URL";
                Lifecycle.Getenv v "SUPABASE_URL"; BuildBackendURL (ReadProjectRef v read)] in
  u ∈ named -> (forall x, x ∈ named -> x = "" \/ x = u) ->
  trim_right_slash (plugin_backend_url v read) = BackendURL c.
Proof.
  intros Hc named Hu Hn. unfold LoadStatic in Hc. fold named in Hc. destruct (_ =?s ""); [done|]. injection Hc as <-. cbn [BackendURL].
  rewrite (firstNonEmpty_unique u named Hu Hn). f_equal. apply firstNonEmpty_unique; unfold named in *; set_solver.
Qed.

Definition two_backends : variables := {["BACKEND_URL" := "https://a"; "SENTRA_BACKEND_URL" := "https://b"]}.

Example backends_differ :
  BackendURL <$> LoadStatic two_backends (fun _ => None) (Ok "h") 4 = Some "https://a" /\
  loadConfig two_backends (fun _ => None) = Ok ("https://b", "").
Proof. by vm_compute. Qed.

(** A list that is not refused is taken over, whatever [ok] says; elements that
    are null are plugins without a name. *)
Example refused_lists :
  map (fun fs => FetchPluginsFromAPI (fun _ _ _ _ => Ok (mkResponse 200 (Some (mkBody "" (Raw (JObj fs)))))) "o" "u" "k" "t")
    [[("ok", JBool false); ("error", JStr "no")]; [("ok", JBool false); ("data", JArr [JNull])]; []; [("ok", JNum "1")]] =
  [Err "API error: no"; Ok [zeroDBPlugin]; Ok [];
   Err "failed to decode response: json: cannot unmarshal"].
Proof. vm_compute. reflexivity. Qed.

(** What is bundled replaces the installed plugin at every start. *)
Example bundled_replaces :
  let m v := ManifestData (PluginVerify.mkManifest "plugin_scan_metadata" v "scan_metadata.py" "" "" "core" "python" "" true false zeroResources "" "" false []) in
  let dst := "/home/u/.sentra/plugins/plugin_scan_metadata/linux-amd64/" in
  let s := PluginVerify.with_manifests {["/opt/bundled/plugins/plugin_scan_metadata.json" := m "1"; dst +:+ "plugin_scan_metadata.json" := m "2"]}
    (PluginVerify.with_files {["/opt/bundled/plugins/scan_metadata.py" := ("old", 420); dst +:+ "scan_metadata.py" := ("new", 448)]}
      (PluginVerify.MkdirAll PluginVerify.no_faults "/opt/bundled/plugins" fresh_state).1) in
  let s := (InstallBundledPlugins PluginVerify.no_faults "/home/u" "linux" "amd64" "/opt/agent" s).1 in
  (PluginVerify.files s !! (dst +:+ "scan_metadata.py"), PluginVerify.manifests s !! (dst +:+ "plugin_scan_metadata.json")) = (Some ("old", 448), Some (m "1")).
Proof. vm_compute. reflexivity. Qed.
