(* ===== verification/Main.v ===== *)
(** * Main: the start of the agent

    Models the body of [main] in [cmd/main.go] up to the waiting for a signal:
    one definition per phase, each on the state of the agent, in the order of the
    code, composed of the operations of the other files.  [Throw] is
    [log.Fatal], which ends the program, [Panic] a panic.  What runs in the
    background from then on (the reloading of keys, the updates of plugins, the
    heartbeats, the polling) starts only after or beside these phases and is
    left out, as are the listener of the health server and [reconcile_agent],
    whose error is only logged; the workers have not
    taken a job yet. *)
From S2P Require Import Prelude GoFloat Json Path PluginVerify PluginInstall HttpClient JobDedup ExecuteJob WorkerPool KeyFetcher.
From S2P Require Import Merge MergeTree Storage Handler Realtime Auth Bootstrap Sandbox PluginRun Observe DependencySync Backend BackendClient Lifecycle PluginSync.

(** ** State *)

Record agent := mkAgent {
  ag_world : Auth.world;                (** the disk and the keyring *)
  ag_sent : list Bootstrap.request;     (** what bootstrap has sent *)
  ag_plugins : plugin_state;
  ag_ids : gmap string string;          (** the names of plugins by their ids *)
  ag_pip : list (list string);          (** the runs of [pip] *)
  ag_health : health_server;
  ag_pool : pool;
  ag_workers : option workers }.

Definition set_world w a := mkAgent w (ag_sent a) (ag_plugins a) (ag_ids a) (ag_pip a) (ag_health a) (ag_pool a) (ag_workers a).
Definition set_boot (b : Bootstrap.world) a :=
  mkAgent (Auth.mkWorld (b_disk b) (keyring (ag_world a))) (b_sent b) (ag_plugins a) (ag_ids a) (ag_pip a) (ag_health a) (ag_pool a) (ag_workers a).
Definition set_plugins s a := mkAgent (ag_world a) (ag_sent a) s (ag_ids a) (ag_pip a) (ag_health a) (ag_pool a) (ag_workers a).
Definition set_ids i a := mkAgent (ag_world a) (ag_sent a) (ag_plugins a) i (ag_pip a) (ag_health a) (ag_pool a) (ag_workers a).
Definition set_pip l a := mkAgent (ag_world a) (ag_sent a) (ag_plugins a) (ag_ids a) l (ag_health a) (ag_pool a) (ag_workers a).
Definition set_health h a := mkAgent (ag_world a) (ag_sent a) (ag_plugins a) (ag_ids a) (ag_pip a) h (ag_pool a) (ag_workers a).
Definition set_pool p w a := mkAgent (ag_world a) (ag_sent a) (ag_plugins a) (ag_ids a) (ag_pip a) (ag_health a) p w.

(** A phase of the start. *)
Definition phase (A : Type) : Type := agent -> agent * comp A.
Definition and_then {A B} (m : phase A) (k : A -> phase B) : phase B := fun a =>
  match m a with (a, Ret x) => k x a | (a, Throw e) => (a, Throw e) | (a, Panic) => (a, Panic) end.
Local Notation "'let&' x := m 'in' k" := (and_then m (fun x => k)) (at level 10, x name, m at level 100, k at level 200).
Definition finish {A} (x : A) : phase A := fun a => (a, Ret x).
Definition fatal_if (e : error) : phase unit := fun a => (a, match e with Some e => Throw e | None => Ret tt end).

Definition with_identity (id : Identity) (token : string) (c : Config) : Config :=
  Lifecycle.mkConfig (BackendURL c) (BackendAnonKey c) (Auth.OrgID id) (OrgName c) (EnvironmentType c) (StorageType c) (LogLevel c) (DeviceName c)
    (Capabilities c) (ClaimCode c) (HealthCheckPort c) (Auth.DeviceID id) token (MaxConcurrency c).
Definition with_anon (key : string) (c : Config) : Config :=
  Lifecycle.mkConfig (BackendURL c) key (cfg_OrgID c) (OrgName c) (EnvironmentType c) (StorageType c) (LogLevel c) (DeviceName c)
    (Capabilities c) (ClaimCode c) (HealthCheckPort c) (cfg_DeviceID c) (Token c) (MaxConcurrency c).

(** [time.ParseDuration] of a variable, if it is positive. *)
Definition duration_of (parse : string -> option Z) (v : variables) (k : string) (def : Z) : Z :=
  match parse (Lifecycle.Getenv v k) with
  | Some d => if negb (Lifecycle.Getenv v k =?s "") && (0 <? d) then d else def
  | None => def
  end.

Section start.
(** The environment of the process and the flag of the claim code. *)
Context (v : variables) (read : string -> option string) (hostname : result string) (cpus : Z) (claimFlag : string).
Context (parse_duration : string -> option Z).

(** *** Identity *)

Context (E : Auth.environment) (parse : string -> RawMessage) (indent : json -> string) (valid_time : string -> bool).
(** The rest of the world at a registration; the first five members are
    replaced by those of the configuration. *)
Context (R : registration) (validate : Config -> Identity -> string -> result BackendClient.HealthPolicyResponse).

Definition registration_of (c : Config) : registration :=
  mkRegistration (BackendURL c) (BackendAnonKey c) (DeviceName c) (EnvironmentType c) (StorageType c)
    (reg_specs R) (reg_os R) (reg_arch R) (reg_cgo R) (reg_stdin R) (reg_fmt R) (reg_url_error R) (reg_server R) (reg_now R).

Definition identify : phase Config := fun a =>
  match LoadStatic v read hostname cpus with
  | None => (a, Throw "Backend URL not configured. Set BACKEND_URL, SUPABASE_URL, or ensure supabase/.temp/project-ref exists.")
  | Some cfg =>
      let claimCode := if ClaimCode cfg =?s "" then claimFlag else ClaimCode cfg in
      match establish_identity E parse indent valid_time (registration_of cfg) (validate cfg) claimCode (ag_world a) with
      | (w, None) => (set_world w a, Throw "Device claim failed")
      | (w, Some (id, token)) => (set_world w a, Ret (with_identity id token cfg))
      end
  end.

(** *** Redis *)

Context (redis_time : string) (requestErr : string -> error) (Do : list Bootstrap.request -> Bootstrap.request -> result Bootstrap.response).
Context (url_Host : string -> option string).

(** The configuration with the key that came along, and the host of Redis. *)
Definition configure_redis (cfg : Config) : phase (Config * option string) := fun a =>
  let '(b, r) := FetchRedisConfig (disk_fault E) v redis_time parse indent requestErr Do
      (Bootstrap.mkAgent (BackendURL cfg) (BackendAnonKey cfg) (cfg_DeviceID cfg) (Token cfg)) (Bootstrap.mkWorld (w_fs (ag_world a)) (ag_sent a)) in
  (set_boot b a,
   Ret match r with
       | Ok (url, token, anon) =>
           if negb (url =?s "") && negb (token =?s "")
           then (if negb (anon =?s "") then with_anon anon cfg else cfg, Some (redis_host url_Host url))
           else (cfg, None)
       | Err _ => (cfg, None)
       end).

Definition know_device (cfg : Config) : phase unit := fun a =>
  (set_health (SetDeviceID (cfg_DeviceID cfg) newHealth) a, Ret tt).

(** *** Keys and plugins *)

Context (parse_time : string -> option Z) (now : Z) (key_server : Config -> string -> Backend.outcome).

(** Keys that cannot be fetched are only logged. *)
Definition fetch_keys (cfg : Config) : phase unit := fun a =>
  let kf := NewKeyFetcher (BackendURL cfg) (BackendAnonKey cfg) (Token cfg)
              (duration_of parse_duration v "SENTRA_KEY_CACHE_TTL" (60 * Minute)) in
  match (FetchAllOrgKeys parse_time now (cfg_OrgID cfg) (key_server cfg) kf).2 with
  | Ret keys => (set_plugins (loadSigningKeys keys (ag_plugins a)) a, Ret tt)
  | Throw _ => (a, Ret tt)
  | Panic => (a, Panic)
  end.

Context (M : machine) (health : Config -> json -> Backend.outcome) (reconcile : Config -> Backend.outcome).

Definition validate_start (cfg : Config) : phase unit := fatal_if (Validate v (Some cfg) M (health cfg)).
Definition reconcile_start (cfg : Config) : phase unit := fatal_if (Reconcile (reconcile cfg)).2.

Context (plugin_server : string -> string -> string -> string -> Backend.outcome).
Context (sha256 : string -> string) (ed25519_Verify : string -> string -> string -> bool).
Context (faults : PluginVerify.os_faults) (home goos goarch : string) (network : string -> nat -> PluginInstall.download).
Context (mapOrder : list (string * json) -> list (string * json)) (parse_float : string -> option float64) (manifestErr : string -> error).
Context (pips : nat -> pip).

(** A synchronization that fails is only logged. *)
Definition sync_start : phase unit := fun a =>
  match SyncPluginsFromAPI plugin_server E parse valid_time v read sha256 ed25519_Verify faults home goos goarch network mapOrder
          parse_float manifestErr now (ag_world a) (ag_plugins a) with
  | (w, s, Ret (plugins, _)) => (set_ids (PopulatePluginIDMap plugins (ag_ids a)) (set_plugins s (set_world w a)), Ret tt)
  | (w, s, Throw _) => (set_plugins s (set_world w a), Ret tt)
  | (w, s, Panic) => (set_plugins s (set_world w a), Panic)
  end.

Definition plugins_start : phase unit := fun a =>
  let '(s, r, runs) := initialize sha256 ed25519_Verify faults home pips now (ag_plugins a) in
  (set_pip (ag_pip a ++ runs) (set_plugins s a), wrap "Plugin init failed: " r).

(** *** Storage *)

Context {B : Type} (s3 : string -> string -> string -> S3Credentials -> B) (shared : string -> B).
Context (storage_server : Config -> string -> list (string * string) -> result http_response).

Definition shared_fallback : Storage.StorageConfig := Storage.mkStorageConfig "shared_mount" "" "" "" "" "" None "".

Definition storage_start (cfg : Config) : phase B := fun a =>
  let c := match Storage.FetchConfig (storage_server cfg) (cfg_OrgID cfg) with Ok c => c | Err _ => shared_fallback end in
  (a, match NewBackend s3 shared (Some c) with Ok b => Ret b | Err e => Throw ("Failed to initialize storage backend: " +:+ e) end).

(** *** Workers *)

Context (dedup_env : string) (dedup_file : read_result) (newTraceID : nat -> string).
Context (assigned : Config -> result (option (list DeviceAssignedJob))).

(** [None] of the assigned jobs would be a loop without an end. *)
Definition workers_start (cfg : Config) : phase unit := fun a =>
  let '(p, w) := start_workers cfg cpus (ag_pool a) in
  let p := with_dedup (Some (newJobDeduplicationStore (Join [home; ".sentra"]) 0 dedup_env dedup_file now)) p in
  match dispatch_assigned true newTraceID (assigned cfg) p with
  | Some p => (set_pool p (Some w) a, Ret tt)
  | None => (set_pool p (Some w) a, Panic)
  end.

Definition announce_ready : phase unit := fun a => (set_health (SetReady true (ag_health a)) a, Ret tt).

(** ** The start *)

(** The configuration, the host of Redis and the storage that the agent runs
    with. *)
Definition start : phase (Config * option string * B) :=
  let& cfg := identify in
  let& redis := configure_redis cfg in
  let& _ := know_device redis.1 in
  let& _ := fetch_keys redis.1 in
  let& _ := validate_start redis.1 in
  let& _ := reconcile_start redis.1 in
  let& _ := sync_start in
  let& _ := plugins_start in
  let& backend := storage_start redis.1 in
  let& _ := workers_start redis.1 in
  let& _ := announce_ready in
  finish (redis.1, redis.2, backend).
End start.

(** ** Properties *)

Lemma and_then_Ret {A B} (m : phase A) (k : A -> phase B) a a' y :
  and_then m k a = (a', Ret y) -> exists a1 x, m a = (a1, Ret x) /\ k x a1 = (a', Ret y).
Proof. unfold and_then. destruct (m a) as [a1 [x|e|]]; [|done..]. eauto. Qed.

(** An agent whose workers have not started, and that is not ready. *)
Definition waiting_at (p : pool) (a : agent) : Prop :=
  ag_workers a = None /\ ag_pool a = p /\ hs_ready (ag_health a) = false.

(** A phase that starts no worker; and one that may, but then succeeds. *)
Definition starts_none {A} (m : phase A) : Prop := forall p a, waiting_at p a -> waiting_at p (m a).1.
Definition starts_or_fails {A} (m : phase A) : Prop := forall p a, waiting_at p a -> waiting_at p (m a).1 \/ exists x, (m a).2 = Ret x.

Lemma starts_or_fails_then {A B} (m : phase A) (k : A -> phase B) :
  starts_none m -> (forall x, starts_or_fails (k x)) -> starts_or_fails (and_then m k).
Proof.
  intros Hm Hk p a Ha. specialize (Hm p a Ha). unfold and_then. destruct (m a) as [a1 [x|e|]]; cbn [fst] in *; [by apply Hk|by left..].
Qed.

Lemma InitWorkerPool_bounds cpus n p : 1 <= cpus <= 2 ^ 20 ->
  1 <= WorkerPool.activeWorkers (InitWorkerPool cpus n p).2 <= 2 * cpus.
Proof.
  intros H. unfold InitWorkerPool, DefaultMaxWorkers. cbn [snd WorkerPool.activeWorkers].
  assert (int64 (cpus * 2) = cpus * 2) as -> by (unfold int64; rewrite Z.mod_small; lia).
  repeat case_match; lia.
Qed.

Lemma submit_assigned_returns trace jobs i p : exists p', submit_assigned true trace i jobs p = Some p'.
Proof.
  revert i p. induction jobs as [|j jobs IH]; intros i p; cbn [submit_assigned]; [eauto|].
  destruct (SubmitJob_settles true (request_of_assigned trace i j) p) as (p' & -> & _). apply IH.
Qed.

Lemma dispatch_assigned_returns trace answer p : exists p', dispatch_assigned true trace answer p = Some p'.
Proof. destruct answer as [[jobs|]|]; cbn; eauto using submit_assigned_returns. Qed.

Section facts.
Context (v : variables) (read : string -> option string) (hostname : result string) (cpus : Z) (claimFlag : string).
Context (parse_duration : string -> option Z).
Context (E : Auth.environment) (parse : string -> RawMessage) (indent : json -> string) (valid_time : string -> bool).
Context (R : registration) (validate : Config -> Identity -> string -> result BackendClient.HealthPolicyResponse).
Context (redis_time : string) (requestErr : string -> error) (Do : list Bootstrap.request -> Bootstrap.request -> result Bootstrap.response).
Context (url_Host : string -> option string).
Context (parse_time : string -> option Z) (now : Z) (key_server : Config -> string -> Backend.outcome).
Context (M : machine) (health : Config -> json -> Backend.outcome) (reconcile : Config -> Backend.outcome).
Context (plugin_server : string -> string -> string -> string -> Backend.outcome).
Context (sha256 : string -> string) (ed25519_Verify : string -> string -> string -> bool).
Context (faults : PluginVerify.os_faults) (home goos goarch : string) (network : string -> nat -> PluginInstall.download).
Context (mapOrder : list (string * json) -> list (string * json)) (parse_float : string -> option float64) (manifestErr : string -> error).
Context (pips : nat -> pip).
Context {B : Type} (s3 : string -> string -> string -> S3Credentials -> B) (shared : string -> B).
Context (storage_server : Config -> string -> list (string * string) -> result http_response).
Context (dedup_env : string) (dedup_file : read_result) (newTraceID : nat -> string).
Context (assigned : Config -> result (option (list DeviceAssignedJob))).

Local Abbreviation identify' := (identify v read hostname cpus claimFlag E parse indent valid_time R validate).
Local Abbreviation redis' := (configure_redis v E parse indent redis_time requestErr Do url_Host).
Local Abbreviation keys' := (fetch_keys v parse_duration parse_time now key_server).
Local Abbreviation sync' := (sync_start v read E parse valid_time now plugin_server sha256 ed25519_Verify faults home goos goarch network mapOrder parse_float manifestErr).
Local Abbreviation plugins' := (plugins_start now sha256 ed25519_Verify faults home pips).
Local Abbreviation storage' := (storage_start s3 shared storage_server).
Local Abbreviation workers' := (workers_start cpus now home dedup_env dedup_file newTraceID assigned).
Local Abbreviation start' := (start v read hostname cpus claimFlag parse_duration E parse indent valid_time R validate redis_time requestErr Do url_Host
  parse_time now key_server M health reconcile plugin_server sha256 ed25519_Verify faults home goos goarch network mapOrder parse_float manifestErr
  pips s3 shared storage_server dedup_env dedup_file newTraceID assigned).

(** *** What the phases leave alone *)

Lemma identify_waits : starts_none identify'.
Proof.
  intros p a H. unfold identify. destruct (LoadStatic _ _ _ _); [|done]. cbv zeta.
  by destruct (establish_identity _ _ _ _ _ _ _ _) as [w [[id tok]|]].
Qed.

Lemma redis_waits cfg : starts_none (redis' cfg).
Proof. intros p a H. unfold configure_redis. by destruct (FetchRedisConfig _ _ _ _ _ _ _ _ _). Qed.

Lemma device_waits cfg : starts_none (know_device cfg).
Proof. intros p a (H1 & H2 & H3). by split_and!. Qed.

Lemma keys_wait cfg : starts_none (keys' cfg).
Proof. intros p a H. unfold fetch_keys. cbv zeta. by destruct (_.2). Qed.

Lemma fatal_waits e : starts_none (fatal_if e).
Proof. intros p a H. exact H. Qed.

Lemma sync_waits : starts_none sync'.
Proof.
  intros p a H. unfold sync_start. by destruct (SyncPluginsFromAPI _ _ _ _ _ _ _ _ _ _ _ _ _ _ _ _ _ _ _) as [[w s] [[pl c]|e|]].
Qed.

Lemma plugins_wait : starts_none plugins'.
Proof. intros p a H. unfold plugins_start. by destruct (initialize _ _ _ _ _ _ _) as [[s r] runs]. Qed.

Lemma storage_waits cfg : starts_none (storage' cfg).
Proof. intros p a H. exact H. Qed.

(** What happens from the workers on succeeds. *)
Lemma last_phases cfg (host : option string) (b : B) a : exists a',
  (let& _ := workers' cfg in let& _ := announce_ready in finish (cfg, host, b)) a = (a', Ret (cfg, host, b)) /\
  ag_health a' = SetReady true (ag_health a) /\ ag_plugins a' = ag_plugins a /\
  ag_workers a' = Some (start_workers cfg cpus (ag_pool a)).2.
Proof.
  unfold and_then, workers_start. destruct (start_workers cfg cpus (ag_pool a)) as [p w] eqn:Ew. cbv zeta.
  destruct (dispatch_assigned_returns newTraceID (assigned cfg)
    (with_dedup (Some (newJobDeduplicationStore (Join [home; ".sentra"]) 0 dedup_env dedup_file now)) p)) as (p' & ->).
  cbn [announce_ready finish]. eexists. by split_and!.
Qed.

Lemma start_or_wait : starts_or_fails start'.
Proof.
  unfold start. apply starts_or_fails_then; [apply identify_waits|intros cfg]. apply starts_or_fails_then; [apply redis_waits|intros r].
  apply starts_or_fails_then; [apply device_waits|intros _]. apply starts_or_fails_then; [apply keys_wait|intros _].
  apply starts_or_fails_then; [apply fatal_waits|intros _]. apply starts_or_fails_then; [apply fatal_waits|intros _].
  apply starts_or_fails_then; [apply sync_waits|intros _]. apply starts_or_fails_then; [apply plugins_wait|intros _].
  apply starts_or_fails_then; [apply storage_waits|intros b]. intros p a H. right.
  destruct (last_phases r.1 r.2 b a) as (a' & -> & _). by eexists.
Qed.

Lemma keys_health cfg a a' : keys' cfg a = (a', Ret tt) -> ag_health a' = ag_health a.
Proof. unfold fetch_keys. cbv zeta. destruct (_.2); by intros [= <-]. Qed.

Lemma sync_health a a' : sync' a = (a', Ret tt) -> ag_health a' = ag_health a.
Proof.
  unfold sync_start. destruct (SyncPluginsFromAPI _ _ _ _ _ _ _ _ _ _ _ _ _ _ _ _ _ _ _) as [[w s] [[pl c]|e|]]; by intros [= <-].
Qed.

Lemma fatal_if_Ret e a a' : fatal_if e a = (a', Ret tt) -> e = None /\ a' = a.
Proof. unfold fatal_if. destruct e; by intros [= <-]. Qed.

Lemma plugins_verified a a' : plugins' a = (a', Ret tt) -> ag_health a' = ag_health a /\
  exists baseDir, EnsurePluginDir faults home (ag_plugins a) = (ag_plugins a', Ret baseDir) /\
    Forall (fun e => verify_entry sha256 ed25519_Verify faults now baseDir e.1 e.2 (ag_plugins a') = Ret tt)
      (plugin_entries baseDir (ag_plugins a')).
Proof.
  unfold plugins_start. destruct (initialize _ _ _ _ _ _ (ag_plugins a)) as [[s r] runs] eqn:Ei.
  destruct r as [[]|e|]; [|done..]. intros [= <-]. split; [done|].
  apply initialize_Ret in Ei as (baseDir & He & Hall & _). by exists baseDir.
Qed.

Lemma Validate_configured cfg : Validate v (Some cfg) M (health cfg) = None ->
  BackendURL cfg <> "" /\ cfg_DeviceID cfg <> "" /\ Token cfg <> "".
Proof.
  unfold Validate. destruct (eqb_spec_s (BackendURL cfg) ""); [done|]. destruct (eqb_spec_s (cfg_DeviceID cfg) ""); [done|].
  by destruct (eqb_spec_s (Token cfg) "").
Qed.

(** C35.  The start is all or nothing.  If it succeeds the agent knows its
    backend, its device and its token, every plugin directory has verified, the
    workers are at least one and at most two for each processor, and the health
    server announces the device; if it ends early, no worker has started, the
    pool is untouched and the agent is not ready. *)
Theorem agent_starts a a' r : start' a = (a', r) -> waiting_at (ag_pool a) a ->
  match r with
  | Ret (cfg, host, backend) =>
      BackendURL cfg <> "" /\ cfg_DeviceID cfg <> "" /\ Token cfg <> "" /\
      (exists baseDir s, EnsurePluginDir faults home s = (ag_plugins a', Ret baseDir) /\
         Forall (fun e => verify_entry sha256 ed25519_Verify faults now baseDir e.1 e.2 (ag_plugins a') = Ret tt)
           (plugin_entries baseDir (ag_plugins a'))) /\
      (exists w, ag_workers a' = Some w /\ (1 <= cpus <= 2 ^ 20 -> 1 <= WorkerPool.activeWorkers w <= 2 * cpus)) /\
      handleReady (ag_health a') = (200, JObj [("status", JStr "ready"); ("device_id", JStr (cfg_DeviceID cfg))])
  | _ => waiting_at (ag_pool a) a' /\ (handleReady (ag_health a')).1 = 503
  end.
Proof.
  intros H Ha. assert (Hfail : (forall x, r <> Ret x) -> waiting_at (ag_pool a) a' /\ (handleReady (ag_health a')).1 = 503).
  { intros Hr. destruct (start_or_wait _ _ Ha) as [Hw|[x Hx]]; rewrite H in *; cbn [fst snd] in *; [|by destruct (Hr x)].
    split; [done|]. destruct Hw as (_ & _ & Hh). unfold handleReady. by rewrite Hh. }
  destruct r as [[[cfg host] backend]|e|]; [clear Hfail|by apply Hfail|by apply Hfail].
  apply and_then_Ret in H as (a1 & cfg0 & _ & H). apply and_then_Ret in H as (a2 & rd & _ & H).
  apply and_then_Ret in H as (a3 & [] & H3 & H). apply and_then_Ret in H as (a4 & [] & H4%keys_health & H).
  apply and_then_Ret in H as (a5 & [] & H5 & H). apply fatal_if_Ret in H5 as [Hv ->].
  apply and_then_Ret in H as (a6 & [] & H6 & H). apply fatal_if_Ret in H6 as [_ ->].
  apply and_then_Ret in H as (a7 & [] & H7%sync_health & H). apply and_then_Ret in H as (a8 & [] & H8 & H).
  apply plugins_verified in H8 as (Hh & baseDir & He & Hall).
  apply and_then_Ret in H as (a9 & b & H9 & H). injection H9 as <- _.
  destruct (last_phases rd.1 rd.2 b a8) as (a10 & E10 & Hr & Hp & Hw). rewrite E10 in H. injection H as <- <- <- <-.
  destruct (Validate_configured rd.1 Hv) as (? & Hd & ?). rewrite Hp, Hw, Hr. split_and!; [done..|eauto| |].
  - eexists. split; [done|]. apply InitWorkerPool_bounds.
  - injection H3 as <-. rewrite Hh, H7, H4. unfold handleReady. cbn. by rewrite (eqb_neq_s _ _ Hd).
Qed.
End facts.

(** ** Witnesses *)

Definition demo_variables : variables := {["BACKEND_URL" := "https://cp"; "HOME" := "/home/ann"; "MAX_CONCURRENCY" := "64"]}.
Definition demo_agent : agent := mkAgent demo_registered [] fresh_state ∅ [] newHealth empty_pool None.
Definition demo_machine : machine := Lifecycle.mkMachine true 4 false true (Ok "/home/ann/.sentra/plugins") (fun _ => None).
Definition demo_ok (fs : list (string * json)) : Backend.outcome := Ok (HttpClient.mkResponse 200 (Some (HttpClient.mkBody "" (Raw (JObj fs))))).

(** A registered device whose control plane answers, or not: it gives the
    configuration of a mounted store and one job that was assigned before. *)
Definition demo_start (up : bool) : phase (Config * option string * string) :=
  let down := Err "no route to host" : Backend.outcome in
  start demo_variables (fun _ => None) (Ok "h") 4 "" (fun _ => None) demo_home_environment Auth.demo_parse (fun _ => "") (fun _ => true)
    (demo_registration (fun _ => down)) (fun _ _ _ => Ok (BackendClient.mkPolicy true 4 (f64_of_Z 0) "")) "t" (fun _ => None) (fun _ _ => Err "no Redis")
    (fun _ => None) (fun _ => None) 0 (fun _ _ => down) demo_machine (fun _ _ => if up then demo_ok [] else down) (fun _ => down)
    (fun _ _ _ _ => demo_ok [("ok", JBool true); ("data", JArr [])]) id toy_verify PluginVerify.no_faults "/home/ann" "linux" "amd64"
    (fun _ _ => PluginInstall.RequestErr "no") id (fun _ => None) (fun _ => None) (fun _ => no_pip) (fun _ _ _ _ => "s3") (fun base => "mount " +:+ base)
    (fun _ _ _ => demo_ok [("ok", JBool true); ("storage_mode", JStr "shared_mount"); ("mount_base_path", JStr "/mnt")]) "" NotExist (fun _ => "trace")
    (fun _ => Ok (Some [mkDeviceJob "j1" "scan_dataset" RawEmpty "" "" "o1" "assigned"])).

Lemma demo_waits : waiting_at (ag_pool demo_agent) demo_agent.
Proof. by split_and!. Qed.

Definition demo_running : Config :=
  Lifecycle.mkConfig "https://cp" "" "o1" "Sentra Org" "local" "local" "info" "h" ["scan"; "merge"; "embedding"] "" "8080" "d1" "secret" 64.

(** With the control plane up, the agent announces its device and has eight
    workers although 64 are configured; with it down, it ends without any. *)
Lemma agent_starts_witness :
  (demo_start true demo_agent).2 = Ret (demo_running, None, "mount /mnt") /\
  handleReady (ag_health (demo_start true demo_agent).1) = (200, JObj [("status", JStr "ready"); ("device_id", JStr "d1")]) /\
  (exists w, ag_workers (demo_start true demo_agent).1 = Some w /\ 1 <= WorkerPool.activeWorkers w <= 8) /\
  (demo_start false demo_agent).2 = Throw "startup: backend unreachable: no route to host" /\
  ag_workers (demo_start false demo_agent).1 = None.
Proof.
  assert (E1 : (demo_start true demo_agent).2 = Ret (demo_running, None, "mount /mnt")) by (vm_compute; reflexivity).
  assert (E2 : (demo_start false demo_agent).2 = Throw "startup: backend unreachable: no route to host") by (vm_compute; reflexivity).
  split; [exact E1|].
  pose proof (agent_starts _ _ _ _ _ _ _ _ _ _ _ _ _ _ _ _ _ _ _ _ _ _ _ _ _ _ _ _ _ _ _ _ _ _ _ _ _ _ _ _ _
    demo_agent _ _ (surjective_pairing (demo_start true demo_agent)) demo_waits) as H1.
  pose proof (agent_starts _ _ _ _ _ _ _ _ _ _ _ _ _ _ _ _ _ _ _ _ _ _ _ _ _ _ _ _ _ _ _ _ _ _ _ _ _ _ _ _ _
    demo_agent _ _ (surjective_pairing (demo_start false demo_agent)) demo_waits) as H2.
  rewrite E1 in H1. rewrite E2 in H2. destruct H1 as (_ & _ & _ & _ & (w & Hw & Hb) & Hr).
  split; [exact Hr|]. split; [exists w; split; [exact Hw|apply Hb; lia]|]. split; [exact E2|]. apply H2.
Defined.
